(* ===== verification/_CoqProject ===== *)
-Q . S2P
Prelude.v
WaltTypes.v
TopTasks.v
Stats.v
Predict.v
Window.v
Busy.v
Demand.v
Ravg.v
Migrate.v
Cpumask.v
SmartFreq.v
Voter.v
Halt.v
CoreCtl.v
Boost.v
Group.v
SchedAvg.v
Fits.v
Pipeline.v
PipelineHeavy.v
PipelineCpus.v
Mvp.v
Placement.v
EnergyCpu.v
Balance.v
ActiveBalance.v
RtPlacement.v
Topology.v
Sysctl.v
InputBoost.v
Yields.v
FreqLoad.v
Governor.v
GovTunables.v
