(* ===== verification/Prelude.v ===== *)
(** * The WALT scheduler extension

    A verification development for the scheduler module under [kernel/sched/walt] of
    the kernel sources (with its header [include/linux/sched/walt.h]): the part of the
    tree that carries scheduling logic of its own. The remaining directories are device
    drivers, vendor configuration and upstream code.

    ** The program

    WALT (window assisted load tracking) cuts time into windows of
    [sched_ravg_window] nanoseconds. Every scheduling event of a task passes through
    [walt_update_task_ravg], which advances the window of the run queue, charges the time
    that went by to the task and to the CPU, and closes the windows of the task into its
    history, from which its demand and its predicted demand follow. Run queues keep
    sums over their tasks (statistics, busy time, a histogram of task loads for the top
    task) incrementally; a migration moves the contribution of a task, partly through
    subtractions that are left pending for other CPUs. On top of the numbers sit the
    policies: frequency caps with their reasons and hysteresis, halting of CPUs on
    behalf of several clients, core control, which decides how many CPUs of a cluster
    stay active, boosts that clients may request, groups of related threads with a
    preferred cluster, average numbers of running tasks with a bias against deep idle, and
    a voting object that aggregates the frequency wishes of clients. Tasks are placed by
    them: a waking task goes to the CPU that costs the least energy among the candidates, a
    pipeline of heavy tasks has CPUs of its own, the most valuable tasks of a run queue run
    first, real time tasks look for the least loaded CPU, and the balancer pulls, pushes,
    rotates and up-migrates tasks. Last in the chain, the cpufreq governor turns the load
    of the CPUs into a frequency. User space tunes all of it through files, raises the
    frequencies by touching the screen, and is put to sleep when it yields too much. At boot
    the CPUs are grouped into the clusters that all of this walks.

    ** Files

    - [Prelude]: C integers at their width, arrays, bitmaps, loops, sums; the tactics and
      the hint databases [walt] of the development.
    - [WaltTypes]: the structures ([walt_task_struct], [walt_rq], [group_cpu_time],
      [load_subtractions], [walt_sched_stats], clusters), the tunables as a record
      [walt_cfg], and [acct]: one task, its run queue and the log of effects (a report of
      [WALT_BUG], a queued irq work, a governor call) that an accounting function changes.
    - [TopTasks]: the two load histograms of a CPU, [update_top_tasks],
      [rollover_top_tasks], the migration of a task's entries and [top_task_load].
    - [Stats]: [fixup_walt_sched_stats_common], [inc_rq_walt_stats] and their inverses.
    - [Predict]: the busy buckets and [get_pred_busy].
    - [Window]: [update_window_start], the cycle counter, pending subtractions.
    - [Busy]: [update_cpu_busy_time].
    - [Demand]: [update_history], [update_task_demand].
    - [Ravg]: [walt_update_task_ravg], which composes the files above in the order of the
      source, and the initialisation of new tasks.
    - [Migrate]: busy time across run queues; [sys] is the state of all CPUs.
    - [Cpumask]: [struct cpumask] and [for_each_cpu].
    - [SmartFreq]: [smart_freq.c] and the capacity functions of [walt.c].
    - [Voter]: [voter.c].
    - [Halt]: [walt_halt.c]; its frequency restriction calls [SmartFreq].
    - [CoreCtl]: [core_ctl.c]; it pauses CPUs through [Halt] and feeds [SmartFreq].
    - [Boost]: [boost.c]; it uses core control through the class [CoreBoost], which the
      functions of [CoreCtl] implement.
    - [Group]: related thread groups of [walt.c]; a task that joins or leaves a group moves
      its busy time between the accounts of [Migrate].
    - [SchedAvg]: [sched_avg.c]; its averages are what [CoreCtl] reads as statistics.
    - [Fits]: which CPU a task fits on (margins, boosts, the misfit rule; [walt.h] and
      [walt_cfs.c]).
    - [Pipeline], [PipelineHeavy], [PipelineCpus]: [pipeline.c]; the lists of pipeline tasks
      and their core control boosts, the choice of the heaviest tasks, and their CPUs.
    - [Mvp]: the queue of most valuable tasks ([walt_cfs.c], [mvp_locking.c]).
    - [Placement], [EnergyCpu]: the CPU of a waking task ([walt_cfs.c]): candidates, then
      energy.
    - [Balance], [ActiveBalance]: [walt_lb.c] and [walt_storage_lb.c]; decisions, and the moves
      they lead to with the requests to the stopper threads.
    - [RtPlacement]: [walt_rt.c].
    - [Topology]: the clusters and their tables ([walt_update_cluster_topology] of [walt.c]).
    - [Sysctl]: the handlers of [sysctl.c] that check or combine settings; the margins are
      those of [Fits], the thresholds those of [Topology], the pipeline that of [Pipeline].
    - [InputBoost]: [input-boost.c]; it asks [Boost] for the scheduler boost.
    - [Yields]: [fixup.c]; the fast path it feeds is in [EnergyCpu].
    - [FreqLoad]: the load reported to the governor ([cpu_util_freq_walt] of [walt.c]), an
      instance of the class [LoadSource].
    - [Governor]: the update path of [cpufreq_walt.c], against [LoadSource], with the caps
      of [SmartFreq] and [Halt]; [GovTunables]: its tunables, init, exit, start and stop.

    A C function is a function of the state it reads and writes, with the guards and the
    early returns of the source, in the order of the source; a structure keeps its
    field names behind a short prefix. Values that come from outside (clocks, cycle
    counters, callbacks, user input, tunables) are arguments or fields of an environment
    record. Integers are [Z] with the wrap-around of their C type written out at every
    store; where a theorem needs that nothing wraps, the bound is a hypothesis with a
    witness. Failed run-time checks of the source are entries of the log, so "no check
    fires" is a statement about the log.

    ** What is shown

    - Accounting ([Ravg], [Busy], [Window], [Demand]): an update puts the task and the
      run queue into the window of the clock and charges the CPU exactly what it charges
      the task, split at the window start; running sums stay within a window; the history
      is the ring of the last samples and the demand is the policy over it; a new task
      starts well formed.
    - Incremental state equals its definition ([Stats], [TopTasks], [Predict]): after any
      sequence of operations the statistics are what a scan of the queued tasks gives,
      the tables are the histograms of the task loads with exact bitmaps and top indices,
      and the shifted-mask prediction is a plain search.
    - Migration ([Migrate], [Window]): what a CPU owes for tasks that left (its counters
      less what is pending) is conserved, CPU by CPU; a pending subtraction is applied
      once, to the window it was made for.
    - Policies: [SmartFreq] limits and capacities follow the caps, and a reason lasts for
      its hysteresis; [Voter] agrees on the extremal vote under every interleaving of the
      clients, and every waiting client is served; [Halt] masks are the disjunction of
      the requests of the clients, and a drain is served; [CoreCtl] holds a halt vote
      for exactly the CPUs it remembers, over any interleaving with other clients, and
      its decisions stay within the limits; [Boost] shows the wanted boost of highest
      priority, with enters and exits balanced; [Group] membership conserves busy time, and
      a group leaves the big cluster only after its hysteresis.
    - Averages and frequency: [SchedAvg] reports the mean of the number of tasks over time
      when every change is reported, and the bias against idle lasts for the hysteresis;
      [FreqLoad] is a pure function of the loads of single CPUs; in [Governor] the
      frequency follows a request within all caps, rate limits hold over any run, and the
      average capacity is that of the mean frequency; [GovTunables] survive a restart.

    - Placement: [Pipeline] implements a bounded set of tasks, [PipelineHeavy] chooses the
      best ones and [PipelineCpus] never gives two of them one CPU; [Mvp] queues are
      first-in first-out by class with bounded time on them, and every turn comes; the
      search of [Placement] ends, [EnergyCpu] answers with an allowed CPU, and a task
      leaves its CPU only for a saving; [RtPlacement] avoids halted CPUs and finds the least
      loaded one.
    - Balance: [Balance] finds the busiest CPU; in [ActiveBalance] a pull takes the best task
      and only safely, the tick pushes up only, and over any order of ticks, idle balances,
      stopper works and hotplug the references on tasks are exactly those of the pending
      requests.
    - Boot and settings: the clusters of [Topology] are the classes of the topology, and an
      invalid topology is undone; the margins of [Sysctl] stay in order whatever is
      written, so that a task moved down fits there, and a setting of a task is read back;
      an [InputBoost] ends; the sleeps of [Yields] end before the frame.

    Where the code does not do what it means to, a lemma shows it on an example (for
    instance [refused_push_blocks], [missing_sibling_never_ends], [margins_cross],
    [read_resets_clusters], [removal_ends_other_boosts], [yield_fastpath_never]).

    Interleavings are step relations or sequences of steps: votes in [Voter] (the store of
    a vote and the election are separate steps), the drain thread in [Halt], core
    control with its clients in [CoreRuns], calls on any CPUs in [SchedAvg], choices and
    deaths of pipeline tasks in [CpusApart], scheduler hooks in [MvpQueue], balancer and
    stopper in [Requests], writes of files in [Margins], events and works in [InputBoosts],
    callbacks, worker and limit changes in [Governor].

    ** Bounds and loops

    Loops over arrays, CPUs and clusters run over the array itself ([for_range],
    [for_each_cpu], structural recursion). Only the search for candidates
    ([walt_find_best_target]), which jumps back to a label, carries fuel: four rounds,
    one per cluster ([MAX_CLUSTERS]), are enough by [search_terminates] as long as siblings
    are clusters of the system. [WALT_NR_CPUS] is 8, the size of the per-CPU arrays of a task. Typical bounds are 2^63 for clocks in
    nanoseconds, and 2^31 for counters of tasks, votes and boost requests.

    ** Not modelled

    The core scheduler (run queues, affinity, the stopper, the real time class and its search
    for CPUs, the energy model), the cpufreq core and driver, the vendor's functions behind
    [CONFIG_OPLUS_*] options and the parsing of numbers are parameters or inputs. Of [walt.c]
    the irq works that report the load after a roll-over, the irq load and the walk over all
    tasks at init are left out; of [core_ctl.c] and [smart_freq.c] the sysfs and sysctl files
    and the tables per SoC. Cycle counter drivers, tracing, debugging, the tables of
    [walt_config.c] and the registration of hooks have no logic that the modelled parts
    rely on. Locks are modelled by the atomicity of the steps. The drivers, the architecture
    code and the networking stack of the tree are not part of the scheduler. *)

From Stdlib Require Import ZArith Lia ZifyBool.
From stdpp Require Import base list sets numbers.
From coqutil Require Export Datatypes.RecordSettersUsingExistingGetters.
#[global] Open Scope Z_scope.

(** ** Machine integers

    A C integer of width [w] is a [Z]; the conversions below are the ones the
    compiler applies when a value is stored in a variable of that type. *)

Definition wrapu (w z : Z) : Z := z mod 2 ^ w.
Definition wraps (w z : Z) : Z := (z + 2 ^ (w - 1)) mod 2 ^ w - 2 ^ (w - 1).

Definition u8 (z : Z) : Z := wrapu 8 z.
Definition u16 (z : Z) : Z := wrapu 16 z.
Definition u32 (z : Z) : Z := wrapu 32 z.
Definition u64 (z : Z) : Z := wrapu 64 z.
Definition s32 (z : Z) : Z := wraps 32 z.
Definition s64 (z : Z) : Z := wraps 64 z.

Definition U8_MAX : Z := 255.
Definition U64_MAX : Z := 2 ^ 64 - 1.
Definition INT_MAX : Z := 2 ^ 31 - 1.
Definition INT_MIN : Z := - 2 ^ 31.

#[global] Arguments wrapu : simpl never.
#[global] Arguments wraps : simpl never.
#[global] Arguments u8 : simpl never.
#[global] Arguments u16 : simpl never.
#[global] Arguments u32 : simpl never.
#[global] Arguments u64 : simpl never.
#[global] Arguments s32 : simpl never.
#[global] Arguments s64 : simpl never.

Create HintDb walt discriminated.
Create Rewrite HintDb walt.

Lemma wrapu_small w z : 0 <= z < 2 ^ w -> wrapu w z = z.
Proof. apply Z.mod_small. Qed.

Lemma wrapu_range w z : 0 <= w -> 0 <= wrapu w z < 2 ^ w.
Proof. intros. apply Z.mod_pos_bound. lia. Qed.

Lemma wraps_small w z : 0 < w -> - 2 ^ (w - 1) <= z < 2 ^ (w - 1) -> wraps w z = z.
Proof.
  intros Hw Hz. unfold wraps.
  assert (2 ^ w = 2 * 2 ^ (w - 1)) as E.
  { replace w with (Z.succ (w - 1)) at 1 by lia. apply Z.pow_succ_r. lia. }
  rewrite Z.mod_small; lia.
Qed.

Lemma u8_small z : 0 <= z < 256 -> u8 z = z.
Proof. apply (wrapu_small 8). Qed.
Lemma u16_small z : 0 <= z < 65536 -> u16 z = z.
Proof. apply (wrapu_small 16). Qed.
Lemma u32_small z : 0 <= z < 4294967296 -> u32 z = z.
Proof. apply (wrapu_small 32). Qed.
Lemma u64_small z : 0 <= z < 18446744073709551616 -> u64 z = z.
Proof. apply (wrapu_small 64). Qed.
Lemma s32_small z : -2147483648 <= z < 2147483648 -> s32 z = z.
Proof. apply (wraps_small 32). lia. Qed.
Lemma s64_small z : -9223372036854775808 <= z < 9223372036854775808 -> s64 z = z.
Proof. apply (wraps_small 64). lia. Qed.

Lemma u8_range z : 0 <= u8 z < 256.
Proof. apply (wrapu_range 8). lia. Qed.
Lemma u16_range z : 0 <= u16 z < 65536.
Proof. apply (wrapu_range 16). lia. Qed.
Lemma u32_range z : 0 <= u32 z < 4294967296.
Proof. apply (wrapu_range 32). lia. Qed.
Lemma u64_range z : 0 <= u64 z < 18446744073709551616.
Proof. apply (wrapu_range 64). lia. Qed.

(** Error numbers. *)
Definition EAGAIN : Z := 11.
Definition ENOMEM : Z := 12.
Definition EINVAL : Z := 22.

(** ** Automation *)

(** [wrap_solve] removes every conversion whose argument provably fits. *)
Ltac wrap_step :=
  match goal with
  | |- context [u8 ?z] => rewrite (u8_small z) by lia
  | |- context [u16 ?z] => rewrite (u16_small z) by lia
  | |- context [u32 ?z] => rewrite (u32_small z) by lia
  | |- context [u64 ?z] => rewrite (u64_small z) by lia
  | |- context [s32 ?z] => rewrite (s32_small z) by lia
  | |- context [s64 ?z] => rewrite (s64_small z) by lia
  end.
Ltac wrap_simpl := repeat wrap_step.

(** Adds the range of every conversion that occurs to the context. *)
Ltac wrap_ranges :=
  repeat match goal with
  | |- context [u8 ?z] => lazymatch goal with H : 0 <= u8 z < 256 |- _ => fail | _ => pose proof (u8_range z) end
  | |- context [u16 ?z] => lazymatch goal with H : 0 <= u16 z < 65536 |- _ => fail | _ => pose proof (u16_range z) end
  | |- context [u32 ?z] => lazymatch goal with H : 0 <= u32 z < 4294967296 |- _ => fail | _ => pose proof (u32_range z) end
  | |- context [u64 ?z] => lazymatch goal with H : 0 <= u64 z < 18446744073709551616 |- _ => fail | _ => pose proof (u64_range z) end
  end.

(** Splits on the scrutinee of one [if]/[match] of the goal, keeping the equation. *)
Ltac case_if :=
  match goal with
  | |- context [if ?b then _ else _] => destruct b eqn:?
  end.

(** Lets [cbn] compute a field of an updated record. *)
#[global] Arguments RecordSettersUsingExistingGetters.const {E} newValue _ /.
#[global] Arguments RecordSettersUsingExistingGetters.set {R E} getter {Setter} fieldUpdater r /.

(** Keeps [cbn] from unfolding arithmetic while it projects record updates. *)
#[global] Arguments Z.add : simpl never.
#[global] Arguments Z.sub : simpl never.
#[global] Arguments Z.mul : simpl never.
#[global] Arguments Z.div : simpl never.
#[global] Arguments Z.modulo : simpl never.
#[global] Arguments Z.pow : simpl never.
#[global] Arguments Z.shiftl : simpl never.
#[global] Arguments Z.shiftr : simpl never.
#[global] Arguments Z.land : simpl never.
#[global] Arguments Z.lor : simpl never.
#[global] Arguments Z.ltb : simpl never.
#[global] Arguments Z.leb : simpl never.
#[global] Arguments Z.eqb : simpl never.
#[global] Arguments Z.max : simpl never.
#[global] Arguments Z.min : simpl never.
#[global] Arguments Z.testbit : simpl never.
#[global] Arguments Z.setbit : simpl never.
#[global] Arguments Z.clearbit : simpl never.
#[global] Arguments Z.to_nat : simpl never.
#[global] Arguments Z.of_nat : simpl never.

(** ** Arrays

    A C array of integers is a [list Z]; an access outside the array, which is
    undefined in C, reads 0 and writes nothing here, and every theorem that
    depends on an index carries its bound. *)

Section Arrays.

Definition aget (l : list Z) (i : Z) : Z := nth (Z.to_nat i) l 0.
Definition aset (l : list Z) (i v : Z) : list Z := <[Z.to_nat i := v]> l.

Lemma length_aset l i v : length (aset l i v) = length l.
Proof. apply length_insert. Qed.

Lemma aget_aset_eq l i v :
  0 <= i < Z.of_nat (length l) -> aget (aset l i v) i = v.
Proof.
  intros H. unfold aget, aset. rewrite nth_lookup.
  rewrite list_lookup_insert_eq by lia. done.
Qed.

Lemma aget_aset_ne l i j v :
  0 <= i -> 0 <= j -> i <> j -> aget (aset l i v) j = aget l j.
Proof.
  intros Hi Hj Hne. unfold aget, aset. rewrite !nth_lookup.
  rewrite list_lookup_insert_ne by lia. done.
Qed.

Lemma aget_aset l i j v :
  0 <= i < Z.of_nat (length l) -> 0 <= j ->
  aget (aset l i v) j = if i =? j then v else aget l j.
Proof.
  intros Hi Hj. destruct (Z.eqb_spec i j) as [->|Hne].
  - apply aget_aset_eq. done.
  - apply aget_aset_ne; lia.
Qed.

Lemma aget_replicate n v i :
  aget (replicate n v) i = if (Z.to_nat i <? n)%nat then v else 0.
Proof.
  unfold aget. rewrite nth_lookup. destruct (Nat.ltb_spec (Z.to_nat i) n).
  - rewrite lookup_replicate_2 by lia. done.
  - rewrite lookup_ge_None_2; [done|]. rewrite length_replicate. lia.
Qed.

Lemma aget_replicate_0 n i : aget (replicate n 0) i = 0.
Proof. rewrite aget_replicate. case_match; done. Qed.

Lemma aset_id l i v : 0 <= i < Z.of_nat (length l) -> aget l i = v -> aset l i v = l.
Proof.
  intros Hi <-. unfold aget, aset. apply list_insert_id.
  rewrite nth_lookup.
  destruct (lookup_lt_is_Some_2 l (Z.to_nat i)) as [x Hx]; [lia|]. by rewrite Hx.
Qed.

Lemma aget_ext l k :
  length l = length k -> (forall i, 0 <= i < Z.of_nat (length l) -> aget l i = aget k i) -> l = k.
Proof.
  intros Hl H. apply (nth_ext l k 0 0); [done|]. intros n Hn.
  specialize (H (Z.of_nat n) ltac:(lia)). unfold aget in H. by rewrite Nat2Z.id in H.
Qed.

Lemma aget_nonneg l i : Forall (fun z => 0 <= z) l -> 0 <= aget l i.
Proof.
  intros H. unfold aget. rewrite nth_lookup.
  destruct (l !! Z.to_nat i) as [x|] eqn:E; [|done]. cbn.
  by apply (proj1 (Forall_lookup _ _) H (Z.to_nat i)).
Qed.

Lemma Forall_aset P l i v : Forall P l -> P v -> Forall P (aset l i v).
Proof. intros Hl Hv. by apply Forall_insert. Qed.

(** Sum of the entries of an array, and what an update does to it. *)
Fixpoint asum (l : list Z) : Z :=
  match l with [] => 0 | x :: r => x + asum r end.

Lemma asum_app l k : asum (l ++ k) = asum l + asum k.
Proof. induction l; simpl; lia. Qed.

Lemma asum_replicate n v : asum (replicate n v) = Z.of_nat n * v.
Proof. induction n; simpl; lia. Qed.

Lemma asum_nonneg l : Forall (fun z => 0 <= z) l -> 0 <= asum l.
Proof. induction 1; simpl; lia. Qed.

Lemma asum_bound l i : Forall (fun z => 0 <= z) l -> aget l i <= asum l.
Proof.
  intros H. unfold aget. generalize (Z.to_nat i). induction H as [|x l Hx Hl IH]; intros n.
  - destruct n; simpl; lia.
  - pose proof (asum_nonneg l Hl). destruct n; simpl; [lia|]. specialize (IH n). lia.
Qed.

Lemma asum_aset l i v :
  0 <= i < Z.of_nat (length l) -> asum (aset l i v) = asum l - aget l i + v.
Proof.
  unfold aset, aget. remember (Z.to_nat i) as n. intros Hi.
  assert (n < length l)%nat by lia. clear Hi Heqn.
  revert n H. induction l as [|x l IH]; intros n Hn; simpl in *; [lia|].
  destruct n; simpl; [lia|]. rewrite IH; lia.
Qed.

End Arrays.

#[export] Hint Rewrite length_aset aget_replicate_0 (@length_replicate Z) : walt.
#[global] Arguments aget : simpl never.
#[global] Arguments aset : simpl never.

(** ** Sums over a collection *)

Section Sums.
Context {A : Type}.
Implicit Types (f g : A -> Z) (l : list A).

Definition zsum f l : Z := asum (map f l).

Lemma zsum_nil f : zsum f [] = 0.
Proof. done. Qed.
Lemma zsum_cons f x l : zsum f (x :: l) = f x + zsum f l.
Proof. done. Qed.
Lemma zsum_app f l k : zsum f (l ++ k) = zsum f l + zsum f k.
Proof. unfold zsum. rewrite map_app. apply asum_app. Qed.

Lemma zsum_bounds f l lo hi :
  (forall x, x ∈ l -> lo <= f x <= hi) ->
  lo * Z.of_nat (length l) <= zsum f l <= hi * Z.of_nat (length l).
Proof.
  induction l as [|x l IH]; intros H; [rewrite zsum_nil; simpl length; lia|].
  rewrite zsum_cons. simpl length.
  assert (lo <= f x <= hi) by (apply H; left).
  assert (forall y, y ∈ l -> lo <= f y <= hi) as Hl by (intros y Hy; apply H; by right).
  specialize (IH Hl). lia.
Qed.

Lemma zsum_ext f g l : (forall x, x ∈ l -> f x = g x) -> zsum f l = zsum g l.
Proof.
  induction l as [|x l IH]; intros H; [done|]. rewrite !zsum_cons, H, IH; set_solver.
Qed.

Lemma zsum_nonneg f l : (forall x, x ∈ l -> 0 <= f x) -> 0 <= zsum f l.
Proof.
  induction l as [|x l IH]; intros H; [done|]. rewrite zsum_cons.
  assert (0 <= f x) by (apply H; left). assert (0 <= zsum f l); [|lia].
  apply IH. intros y Hy. apply H. by right.
Qed.

End Sums.

#[export] Hint Rewrite @zsum_nil @zsum_cons @zsum_app : walt.
#[global] Arguments zsum : simpl never.

(** ** Areas

    The area under a step function of time between two instants. *)

Definition area (F : Z -> Z) (a b : Z) : Z := zsum F (seqZ a (b - a)).

Lemma area_empty F a : area F a a = 0.
Proof. unfold area. by rewrite Z.sub_diag. Qed.

Lemma area_app F a b c : a <= b <= c -> area F a c = area F a b + area F b c.
Proof.
  intros H. unfold area. replace (c - a) with ((b - a) + (c - b)) by lia.
  rewrite seqZ_app by lia. rewrite zsum_app. by replace (a + (b - a)) with b by lia.
Qed.

Lemma area_bounds F a b lo hi :
  a <= b -> (forall x, a <= x < b -> lo <= F x <= hi) -> lo * (b - a) <= area F a b <= hi * (b - a).
Proof.
  intros Hab H. unfold area.
  assert (Z.of_nat (length (seqZ a (b - a))) = b - a) as E by (rewrite length_seqZ; lia).
  pose proof (zsum_bounds F (seqZ a (b - a)) lo hi) as Hz. rewrite E in Hz.
  apply Hz. intros x [Hx Hy]%elem_of_seqZ. apply H. lia.
Qed.

Lemma area_const F a b v : a <= b -> (forall x, a <= x < b -> F x = v) -> area F a b = v * (b - a).
Proof.
  intros Hab H. assert (v * (b - a) <= area F a b <= v * (b - a)); [|lia].
  apply area_bounds; [done|]. intros x Hx. rewrite H by done. lia.
Qed.

(** ** Bitmaps

    The kernel's [unsigned long] bitmaps are [Z]s, [__set_bit], [__clear_bit]
    and [test_bit] are [Z.setbit], [Z.clearbit] and [Z.testbit]. *)

(** [find_next_bit(bitmap, size, offset)]: the first set bit at or after
    [offset], or [size] when there is none below [size]. *)
Fixpoint find_next_bit_fuel (fuel : nat) (bm size off : Z) : Z :=
  match fuel with
  | O => size
  | S f => if size <=? off then size
           else if Z.testbit bm off then off
           else find_next_bit_fuel f bm size (off + 1)
  end.
Definition find_next_bit (bm size off : Z) : Z :=
  find_next_bit_fuel (Z.to_nat (size - off)) bm size off.
#[global] Arguments find_next_bit : simpl never.

Lemma find_next_bit_fuel_spec fuel bm size off r :
  (Z.to_nat (size - off) <= fuel)%nat -> 0 <= off <= size ->
  find_next_bit_fuel fuel bm size off = r ->
  off <= r <= size /\
  (r < size -> Z.testbit bm r = true) /\
  (forall i, off <= i < r -> Z.testbit bm i = false).
Proof.
  revert off. induction fuel as [|f IH]; intros off Hf Ho; simpl.
  - intros <-. split; [lia|]. split; [lia|]. intros; lia.
  - destruct (Z.leb_spec size off); [intros <-; repeat split; intros; lia|].
    destruct (Z.testbit bm off) eqn:E.
    + intros <-. repeat split; auto; intros; lia.
    + intros Hr. destruct (IH (off + 1)) as (H1 & H2 & H3); [lia|lia|done|].
      repeat split; auto; [lia..|]. intros i Hi.
      destruct (Z.eq_dec i off) as [->|]; [done|]. apply H3. lia.
Qed.

Lemma find_next_bit_spec bm size off :
  0 <= off <= size ->
  off <= find_next_bit bm size off <= size /\
  (find_next_bit bm size off < size -> Z.testbit bm (find_next_bit bm size off) = true) /\
  (forall i, off <= i < find_next_bit bm size off -> Z.testbit bm i = false).
Proof. intros H. eapply find_next_bit_fuel_spec; [|done|reflexivity]. lia. Qed.

Lemma setbit_spec bm i j :
  0 <= i -> Z.testbit (Z.setbit bm i) j = (i =? j) || Z.testbit bm j.
Proof. intros. apply Z.setbit_eqb. done. Qed.

Lemma clearbit_spec bm i j :
  Z.testbit (Z.clearbit bm i) j = Z.testbit bm j && negb (i =? j).
Proof. apply Z.clearbit_eqb. Qed.

(** ** Counted loops

    [for_range lo n f s] is [for (i = lo; i < lo + n; i++) s = f(i, s)]. *)
Fixpoint for_range {S : Type} (lo : Z) (n : nat) (f : Z -> S -> S) (s : S) : S :=
  match n with
  | O => s
  | Datatypes.S m => for_range (lo + 1) m f (f lo s)
  end.

Lemma for_range_ind {S : Type} (P : Z -> S -> Prop) lo n f s :
  P lo s ->
  (forall i t, lo <= i < lo + Z.of_nat n -> P i t -> P (i + 1) (f i t)) ->
  P (lo + Z.of_nat n) (for_range lo n f s).
Proof.
  revert lo s. induction n as [|n IH]; intros lo s H0 Hs; simpl.
  - replace (lo + Z.of_nat 0) with lo by lia. done.
  - replace (lo + Z.of_nat (Datatypes.S n)) with ((lo + 1) + Z.of_nat n) by lia.
    apply IH; [apply Hs; [lia|done]|]. intros. apply Hs; [lia|done].
Qed.

(** ** Kernel arithmetic helpers *)

(** [mult_frac(x, n, d)], as <linux/math.h> computes it: quotient and remainder
    are scaled separately so that the product stays small. *)
Definition mult_frac (x n d : Z) : Z := (x / d) * n + ((x mod d) * n) / d.

(** [hweight16]: number of set bits of a 16-bit value. *)
Definition hweight16 (x : Z) : Z :=
  for_range 0 16 (fun i acc => acc + Z.b2z (Z.testbit x i)) 0.
