(* ===== verification/WaltTypes.v ===== *)
(** * Data of the WALT accounting engine

    The structures of [include/linux/sched/walt.h] and
    [kernel/sched/walt/walt.h], the tunables and globals of
    [kernel/sched/walt/walt.c] that the accounting code reads, the effects it
    has outside those structures, and the small inline accessors. Fields keep
    their C names behind a one- or two-letter prefix that tells the structures
    apart: [t_] for [walt_task_struct], [w_] for [walt_rq], [g_] for
    [group_cpu_time], [l_] for [load_subtractions], [s_] for
    [walt_sched_stats], [c_] for [walt_sched_cluster], [p_] for
    [task_struct] and [rq_] for [rq]. *)

From Stdlib Require Import ZArith Lia ZifyBool.
From stdpp Require Import base list.
From S2P Require Import Prelude.

(** ** Constants *)

Definition WALT_NR_CPUS : Z := 8.
Definition RAVG_HIST_SIZE : Z := 5.
Definition NUM_BUSY_BUCKETS : Z := 16.
Definition NUM_BUSY_BUCKETS_SHIFT : Z := 4.
Definition NUM_TRACKED_WINDOWS : Z := 2.
Definition NUM_LOAD_INDICES : Z := 1000.
Definition SCHED_CAPACITY_SHIFT : Z := 10.
Definition NSEC_PER_MSEC : Z := 1000000.
Definition MSEC_TO_NSEC : Z := 1000 * 1000.
Definition MAX_RT_PRIO : Z := 100.
Definition TASK_RUNNING : Z := 0.
Definition TASK_WAKING : Z := 512.
Definition DEFAULT_CGROUP_COLOC_ID : Z := 1.

Definition EARLY_DETECTION_DURATION : Z := 9500000.
Definition MAX_NUM_CGROUP_COLOC_ID : Z := 20.
Definition NEW_TASK_ACTIVE_TIME : Z := 100000000.
Definition SCHED_FREQ_ACCOUNT_WAIT_TIME : bool := false.
Definition SCHED_ACCOUNT_WAIT_TIME : bool := true.

Definition SCHED_RAVG_8MS_WINDOW : Z := 8000000.
Definition SCHED_RAVG_12MS_WINDOW : Z := 12000000.
Definition SCHED_RAVG_16MS_WINDOW : Z := 16000000.

(** Bits of [wts->flags]. *)
Definition WALT_INIT_BIT : Z := 1.
Definition WALT_TRAILBLAZER_BIT : Z := 2.
Definition WALT_IDLE_TASK_BIT : Z := 4.
Definition WALT_LRB_PIPELINE_BIT : Z := 8.
Definition WALT_GIANT_BIT : Z := 16.

(** Bits of [sysctl_walt_features]. *)
Definition WALT_FEAT_TRAILBLAZER_BIT : Z := 1.

Definition LIB_UPDATE_CNT_MAX : Z := 127.
Definition WALT_NOT_MVP : Z := -1.
Definition WALT_CPUFREQ_PIPELINE_BUSY_BIT : Z := 2048.

(** [enum task_event] *)
Inductive task_event : Set :=
| PUT_PREV_TASK
| PICK_NEXT_TASK
| TASK_WAKE
| TASK_MIGRATE
| TASK_UPDATE
| IRQ_UPDATE.

#[global] Instance task_event_eq_dec : EqDecision task_event.
Proof. solve_decision. Defined.

Definition event_eqb (a b : task_event) : bool :=
  match a, b with
  | PUT_PREV_TASK, PUT_PREV_TASK | PICK_NEXT_TASK, PICK_NEXT_TASK
  | TASK_WAKE, TASK_WAKE | TASK_MIGRATE, TASK_MIGRATE
  | TASK_UPDATE, TASK_UPDATE | IRQ_UPDATE, IRQ_UPDATE => true
  | _, _ => false
  end.

(** [enum sched_boost_policy] *)
Inductive sched_boost_policy : Set :=
| SCHED_BOOST_NONE
| SCHED_BOOST_ON_BIG
| SCHED_BOOST_ON_ALL.

#[global] Instance sched_boost_policy_eq_dec : EqDecision sched_boost_policy.
Proof. solve_decision. Defined.

(** ** Structures *)

(** [struct walt_task_struct] *)
Record walt_task_struct := mk_wts {
  t_flags : Z;
  t_mark_start : Z;
  t_window_start : Z;
  t_sum : Z;
  t_demand : Z;
  t_coloc_demand : Z;
  t_sum_history : list Z;
  t_sum_history_util : list Z;
  t_curr_window_cpu : list Z;
  t_prev_window_cpu : list Z;
  t_curr_window : Z;
  t_prev_window : Z;
  t_busy_buckets : list Z;
  t_bucket_bitmask : Z;
  t_demand_scaled : Z;
  t_pred_demand_scaled : Z;
  t_active_time : Z;
  t_boost : Z;
  t_wake_up_idle : bool;
  t_misfit : bool;
  t_rtg_high_prio : bool;
  t_low_latency : Z;
  t_boost_period : Z;
  t_boost_expires : Z;
  t_last_sleep_ts : Z;
  t_init_load_pct : Z;
  t_unfilter : Z;
  t_last_wake_ts : Z;
  t_last_enqueued_ts : Z;
  t_grp : option Z;
  t_cpu_cycles : Z;
  t_iowaited : bool;
  t_prev_on_rq : Z;
  t_prev_on_rq_cpu : Z;
  t_mvp_prio : Z;
  t_cidx : Z;
  t_load_boost : Z;
  t_boosted_task_load : Z;
  t_prev_cpu : Z;
  t_new_cpu : Z;
  t_enqueue_after_migration : Z;
  t_pipeline_cpu : Z;
  t_mark_start_birth_ts : Z;
  t_high_util_history : Z;
  t_mpam_part_id : Z;
  t_yield_state : Z;
  t_busy_bitmap : Z;
  t_period_contrib_run : Z;
  t_lst_tgt_ns : Z;
  t_lst_state_counter : Z;
  t_lst : bool;
  t_pipeline_activity_cnt : Z;
  t_event_windows : Z;
  t_lib_app_state : Z
}.

(** The part of [struct task_struct] (kernel core) the WALT code reads; [p_id]
    stands for the address of the structure, [p_wts] is the vendor data. The
    predicates [task_is_runnable], [task_on_rq_queued] and [task_on_scx] are
    the scheduler core's, which is not part of this tree: their answers for the
    task are inputs. *)
Record task_struct := mk_task {
  p_id : Z;
  p_cpu : Z;
  p_prio : Z;
  p_state : Z;
  p_on_rq : Z;
  p_in_iowait : bool;
  task_is_runnable : bool;
  task_on_rq_queued : bool;
  task_on_scx : bool;
  p_wts : walt_task_struct
}.

(** [struct walt_sched_stats] *)
Record walt_sched_stats := mk_stats {
  s_nr_big_tasks : Z;
  s_nr_trailblazer_tasks : Z;
  s_nr_giant_tasks : Z;
  s_cumulative_runnable_avg_scaled : Z;
  s_pred_demands_sum_scaled : Z;
  s_nr_rtg_high_prio_tasks : Z
}.

(** [struct group_cpu_time] *)
Record group_cpu_time := mk_gct {
  g_curr_runnable_sum : Z;
  g_prev_runnable_sum : Z;
  g_nt_curr_runnable_sum : Z;
  g_nt_prev_runnable_sum : Z
}.

(** [struct load_subtractions] *)
Record load_subtractions := mk_ls {
  l_window_start : Z;
  l_subs : Z;
  l_new_subs : Z
}.

(** The fields of [struct walt_sched_cluster] the accounting code reads. *)
Record walt_sched_cluster := mk_cluster {
  c_id : Z;
  c_cpus : Z;
  c_cur_freq : Z;
  c_max_possible_freq : Z;
  c_aggr_grp_load : Z
}.

(** The two top-task tables of a CPU: [u8 *top_tasks[2]], the bitmaps
    [top_tasks_bitmap[2]], [curr_table], [curr_top] and [prev_top]. *)
Record top_tasks := mk_tt {
  tt_table0 : list Z;
  tt_table1 : list Z;
  tt_bitmap0 : Z;
  tt_bitmap1 : Z;
  tt_curr_table : Z;
  tt_prev_top : Z;
  tt_curr_top : Z
}.

(** [struct walt_rq]; the busy-time counters of the run queue itself
    ([curr_runnable_sum] and the three others) have the shape of
    [group_cpu_time] and are kept as one, [w_rq_time]. *)
Record walt_rq := mk_wrq {
  w_cluster : Z;
  w_freq_domain_cpumask : Z;
  w_walt_stats : walt_sched_stats;
  w_window_start : Z;
  w_prev_window_size : Z;
  w_ed_task : option Z;
  w_task_exec_scale : Z;
  w_old_busy_time : Z;
  w_old_estimated_time : Z;
  w_rq_time : group_cpu_time;
  w_grp_time : group_cpu_time;
  w_load_subs : list load_subtractions;
  w_top : top_tasks;
  w_notif_pending : bool;
  w_last_cc_update : Z;
  w_cycles : Z;
  w_util : Z;
  w_latest_clock : Z;
  w_cpu_capacity_orig : Z;
  w_lrb_pipeline_start_time : Z
}.

(** The part of [struct rq] (kernel core) the WALT code reads. *)
Record rq := mk_rq {
  rq_cpu : Z;
  rq_curr : Z;
  rq_idle : Z;
  rq_nr_iowait : Z;
  rq_clock : Z
}.

(** ** Globals and tunables

    [walt_get_cycle_counts_cb] is a function pointer in the source, hence a
    function here; [arch_scale_cpu_capacity] is the architecture's.
    [cpu_cluster_id], [capacity_orig_of] and [big_task_pid] are what the
    accounting of one CPU reads of the per-CPU data of another. *)
Record walt_cfg := mk_cfg {
  sched_ravg_window : Z;
  sched_load_granule : Z;
  walt_scale_demand_divisor : Z;
  sched_io_is_busy : bool;
  use_cycle_counter : bool;
  walt_get_cycle_counts_cb : Z -> Z -> Z;
  arch_scale_cpu_capacity : Z -> Z;
  nr_cpu_ids : Z;
  num_sched_clusters : Z;
  sched_cluster : list walt_sched_cluster;
  cpu_array0 : list Z;
  boost_policy : sched_boost_policy;
  sched_boost_type : Z;
  pipeline_nr : Z;
  sysctl_sched_heavy_nr : Z;
  sysctl_sched_pipeline_util_thres : Z;
  have_heavy_list : Z;
  sysctl_walt_features : Z;
  sysctl_sched_window_stats_policy : Z;
  sysctl_sched_min_task_util_for_colocation : Z;
  sysctl_sched_task_unfilter_period : Z;
  sysctl_sched_lrpb_active_ms : list Z;
  sysctl_walt_rtg_cfs_boost_prio : Z;
  max_possible_cluster_id : Z;
  cpu_cluster_id : Z -> Z;
  capacity_orig_of : Z -> Z;
  big_task_pid : Z -> Z;
  walt_clock_suspended : bool;
  sched_clock_last : Z;
  sched_init_task_load_windows : Z;
  sched_init_task_load_windows_scaled : Z
}.

(** A zeroed [walt_task_struct], and the configuration of a two-cluster system
    with the default 16 ms window; used to run the model on concrete inputs. *)
Definition zero_wts : walt_task_struct := {|
  t_flags := 0; t_mark_start := 0; t_window_start := 0; t_sum := 0; t_demand := 0;
  t_coloc_demand := 0; t_sum_history := replicate 5 0; t_sum_history_util := replicate 5 0;
  t_curr_window_cpu := replicate 8 0; t_prev_window_cpu := replicate 8 0;
  t_curr_window := 0; t_prev_window := 0; t_busy_buckets := replicate 16 0;
  t_bucket_bitmask := 0; t_demand_scaled := 0; t_pred_demand_scaled := 0;
  t_active_time := 0; t_boost := 0; t_wake_up_idle := false; t_misfit := false;
  t_rtg_high_prio := false; t_low_latency := 0; t_boost_period := 0; t_boost_expires := 0;
  t_last_sleep_ts := 0; t_init_load_pct := 0; t_unfilter := 0; t_last_wake_ts := 0;
  t_last_enqueued_ts := 0; t_grp := None; t_cpu_cycles := 0; t_iowaited := false;
  t_prev_on_rq := 0; t_prev_on_rq_cpu := 0; t_mvp_prio := 0; t_cidx := 0; t_load_boost := 0;
  t_boosted_task_load := 0; t_prev_cpu := 0; t_new_cpu := 0; t_enqueue_after_migration := 0;
  t_pipeline_cpu := 0; t_mark_start_birth_ts := 0; t_high_util_history := 0;
  t_mpam_part_id := 0; t_yield_state := 0; t_busy_bitmap := 0; t_period_contrib_run := 0;
  t_lst_tgt_ns := 0; t_lst_state_counter := 0; t_lst := false; t_pipeline_activity_cnt := 0;
  t_event_windows := 0; t_lib_app_state := 0 |}.

Definition sample_cfg : walt_cfg := {|
  sched_ravg_window := 16000000; sched_load_granule := 16000;
  walt_scale_demand_divisor := 15625; sched_io_is_busy := true;
  use_cycle_counter := true;
  walt_get_cycle_counts_cb := fun _ wallclock => wallclock * 2;
  arch_scale_cpu_capacity := fun cpu => if cpu <? 4 then 400 else 1024;
  nr_cpu_ids := 8; num_sched_clusters := 2;
  sched_cluster := [mk_cluster 0 15 1000000 1800000 0; mk_cluster 1 240 1500000 3000000 0];
  cpu_array0 := [15; 240]; boost_policy := SCHED_BOOST_NONE; sched_boost_type := 0;
  pipeline_nr := 0; sysctl_sched_heavy_nr := 0; sysctl_sched_pipeline_util_thres := 0;
  have_heavy_list := 0; sysctl_walt_features := 1; sysctl_sched_window_stats_policy := 2;
  sysctl_sched_min_task_util_for_colocation := 35;
  sysctl_sched_task_unfilter_period := 100000000; sysctl_sched_lrpb_active_ms := [4; 6; 8];
  sysctl_walt_rtg_cfs_boost_prio := 99; max_possible_cluster_id := 1;
  cpu_cluster_id := fun cpu => if cpu <? 4 then 0 else 1;
  capacity_orig_of := fun cpu => if cpu <? 4 then 400 else 1024;
  big_task_pid := fun _ => 0; walt_clock_suspended := false; sched_clock_last := 0;
  sched_init_task_load_windows := 2400000; sched_init_task_load_windows_scaled := 153 |}.

(** ** Effects outside the accounting structures

    A run of the accounting code records, in order, what it does to the rest of
    the kernel: failed consistency checks ([WALT_BUG], [WALT_PANIC]; the code
    that follows them is the path taken when [in_sched_bug] is already set or
    the sentinel does not ask for a panic), calls into [sched_avg.c] and
    [fixup.c], queued irq works and cpufreq callbacks. *)
Inductive walt_bug_site : Set :=
| bug_not_on_rq              (* fixup_cumulative_runnable_avg *)
| bug_cra_underflow
| bug_pds_underflow
| bug_nr_big_negative        (* dec_rq_walt_stats, BUG_ON *)
| bug_nr_trailblazer_negative
| bug_clock_backwards        (* update_window_start *)
| bug_before_window_start
| bug_task_ws_mismatch       (* wts->window_start != wrq->window_start *)
| bug_irqtime_not_idle       (* update_cpu_busy_time, WALT_PANIC *)
| bug_time_delta_negative    (* update_task_rq_cpu_cycles *)
| bug_bitmap_clock           (* update_busy_bitmap *)
| bug_mark_start_ahead       (* walt_update_task_ravg *)
| bug_not_runnable           (* migrate_busy_time_subtraction *)
| bug_grp_not_default
| bug_crs_underflow          (* curr_runnable_sum < contribution *)
| bug_prs_underflow
| bug_nt_crs_underflow
| bug_nt_prs_underflow
| bug_nr_clock_backwards.   (* sched_update_nr_prod, sched_get_nr_running_avg *)

Inductive walt_effect : Set :=
| WALT_BUG (site : walt_bug_site)
| WALT_PANIC (site : walt_bug_site)
| BUG_ON (site : walt_bug_site)
| sched_update_nr_prod (cpu enq : Z)
| account_yields (wallclock : Z)
| walt_cpufreq_irq_work_queued
| walt_migration_irq_work_queued
| waltgov_run_callback (cpu flags : Z)
| set_force_big_task_pid_eval (cpu : Z)
| sched_update_hyst_times.

(** No consistency check failed. *)
Definition is_bug (e : walt_effect) : bool :=
  match e with WALT_BUG _ | WALT_PANIC _ | BUG_ON _ => true | _ => false end.
Definition no_bug (log : list walt_effect) : Prop :=
  Forall (fun e => is_bug e = false) log.

(** What a function that takes a task and a run queue works on. *)
Record acct := mk_acct {
  a_p : task_struct;
  a_rq : rq;
  a_wrq : walt_rq;
  a_log : list walt_effect
}.

(** ** Accessors *)

Definition wts_of (s : acct) : walt_task_struct := p_wts (a_p s).
#[global] Arguments wts_of s /.

Definition on_wts (f : walt_task_struct -> walt_task_struct) (s : acct) : acct :=
  s <| a_p := (a_p s) <| p_wts := f (p_wts (a_p s)) |> |>.

Definition on_wrq (f : walt_rq -> walt_rq) (s : acct) : acct :=
  s <| a_wrq := f (a_wrq s) |>.

Definition on_rq_time (f : group_cpu_time -> group_cpu_time) (w : walt_rq) : walt_rq :=
  w <| w_rq_time := f (w_rq_time w) |>.
Definition on_grp_time (f : group_cpu_time -> group_cpu_time) (w : walt_rq) : walt_rq :=
  w <| w_grp_time := f (w_grp_time w) |>.

Definition emit (e : walt_effect) (s : acct) : acct :=
  s <| a_log := a_log s ++ [e] |>.

Definition emit_if (b : bool) (e : walt_effect) (s : acct) : acct :=
  if b then emit e s else s.

Definition on_stats (f : walt_sched_stats -> walt_sched_stats) (s : acct) : acct :=
  on_wrq (fun w => w <| w_walt_stats := f (w_walt_stats w) |>) s.

Definition walt_flag_test (t : walt_task_struct) (feature : Z) : bool :=
  negb (Z.land (t_flags t) feature =? 0).

Definition walt_flag_set (t : walt_task_struct) (feature : Z) (set : bool)
  : walt_task_struct :=
  t <| t_flags := if set then Z.lor (t_flags t) feature
                  else Z.ldiff (t_flags t) feature |>.

Definition walt_is_idle_task (t : walt_task_struct) : bool :=
  walt_flag_test t WALT_IDLE_TASK_BIT.

Definition walt_fair_task (p : task_struct) : bool :=
  (MAX_RT_PRIO <=? p_prio p) && negb (walt_is_idle_task (p_wts p)) && negb (task_on_scx p).

Definition is_new_task (t : walt_task_struct) : bool :=
  t_active_time t <? NEW_TASK_ACTIVE_TIME.

Definition task_in_related_thread_group (t : walt_task_struct) : bool :=
  match t_grp t with Some _ => true | None => false end.

Definition sysctl_walt_feat (c : walt_cfg) (feat : Z) : bool :=
  negb (Z.land (sysctl_walt_features c) feat =? 0).

Definition pipeline_in_progress (c : walt_cfg) : bool :=
  if negb (sched_boost_type c =? 0) then false
  else if negb (pipeline_nr c =? 0) then true
  else (negb (sysctl_sched_heavy_nr c =? 0) ||
        negb (sysctl_sched_pipeline_util_thres c =? 0)) &&
       negb (have_heavy_list c =? 0).

Definition scale_time_to_util (c : walt_cfg) (d : Z) : Z :=
  d / walt_scale_demand_divisor c.

(** [rq_clock] is the clock of the run queue after [update_rq_clock]. *)
Definition walt_rq_clock (c : walt_cfg) (r : rq) (w : walt_rq) : Z :=
  if walt_clock_suspended c then sched_clock_last c
  else Z.max (rq_clock r) (w_latest_clock w).

Definition is_max_possible_cluster_cpu (c : walt_cfg) (cpu : Z) : bool :=
  cpu_cluster_id c cpu =? max_possible_cluster_id c.

Definition is_ed_enabled (c : walt_cfg) : bool :=
  bool_decide (boost_policy c <> SCHED_BOOST_NONE).

Definition is_ed_task (t : walt_task_struct) (wallclock : Z) : bool :=
  EARLY_DETECTION_DURATION <=? u64 (wallclock - t_last_wake_ts t).

Definition no_cluster : walt_sched_cluster := mk_cluster 0 0 0 0 0.
Definition cluster_of (c : walt_cfg) (w : walt_rq) : walt_sched_cluster :=
  nth (Z.to_nat (w_cluster w)) (sched_cluster c) no_cluster.

Definition cpumask_first (mask : Z) : Z := find_next_bit mask WALT_NR_CPUS 0.

(** [sub_clamp(a, b)] *)
Definition sub_clamp (a b : Z) : Z := if a <? b then 0 else a - b.

Lemma sub_clamp_spec a b : 0 <= b -> sub_clamp a b = Z.max 0 (a - b).
Proof. unfold sub_clamp. destruct (Z.ltb_spec a b); lia. Qed.

Lemma sub_clamp_exact a b : b <= a -> sub_clamp a b = a - b.
Proof. unfold sub_clamp. destruct (Z.ltb_spec a b); lia. Qed.

#[global] Arguments sub_clamp : simpl never.
#[global] Arguments walt_flag_test : simpl never.
#[global] Arguments walt_is_idle_task : simpl never.
#[global] Arguments is_new_task : simpl never.
#[global] Arguments scale_time_to_util : simpl never.
#[global] Arguments pipeline_in_progress : simpl never.

Lemma no_bug_nil : no_bug [].
Proof. constructor. Qed.

Lemma no_bug_app l k : no_bug (l ++ k) <-> no_bug l /\ no_bug k.
Proof. apply Forall_app. Qed.

Lemma no_bug_snoc l e : no_bug l -> is_bug e = false -> no_bug (l ++ [e]).
Proof. intros Hl He. apply Forall_app. split; [done|]. by constructor. Qed.

#[export] Hint Resolve no_bug_nil no_bug_snoc : walt.
