(* ===== verification/TopTasks.v ===== *)
(** * Top-task tables

    Every CPU counts, per load bucket, the tasks whose busy time of the current
    (and of the previous) window falls into the bucket, and keeps a bitmap of
    the non-empty buckets and the index of the highest one. Models
    [load_to_index], [get_top_index], [clear_top_tasks_*],
    [rollover_top_tasks], [update_top_tasks], [migrate_top_tasks_subtraction],
    [migrate_top_tasks_addition] and [top_task_load] of [walt.c]. *)

From Stdlib Require Import ZArith Lia ZifyBool.
From stdpp Require Import base list.
From S2P Require Import Prelude WaltTypes.

(** ** Operations *)

Definition load_to_index (c : walt_cfg) (load : Z) : Z :=
  Z.min (load / sched_load_granule c) (NUM_LOAD_INDICES - 1).

Definition get_top_index (bitmap old_top : Z) : Z :=
  let index := find_next_bit bitmap NUM_LOAD_INDICES old_top in
  if index =? NUM_LOAD_INDICES then 0 else NUM_LOAD_INDICES - 1 - index.

Definition clear_top_tasks_bitmap : Z := Z.setbit 0 NUM_LOAD_INDICES.

Definition clear_top_tasks_table : list Z :=
  replicate (Z.to_nat NUM_LOAD_INDICES) 0.

(** [top_tasks[i]] and [top_tasks_bitmap[i]] *)
Definition table (ts : top_tasks) (i : Z) : list Z :=
  if i =? 0 then tt_table0 ts else tt_table1 ts.
Definition bitmap (ts : top_tasks) (i : Z) : Z :=
  if i =? 0 then tt_bitmap0 ts else tt_bitmap1 ts.
Definition set_table (ts : top_tasks) (i : Z) (l : list Z) : top_tasks :=
  if i =? 0 then ts <| tt_table0 := l |> else ts <| tt_table1 := l |>.
Definition set_bitmap (ts : top_tasks) (i : Z) (b : Z) : top_tasks :=
  if i =? 0 then ts <| tt_bitmap0 := b |> else ts <| tt_bitmap1 := b |>.

(** [table[idx] += d] on a [u8] entry. *)
Definition table_add (ts : top_tasks) (i idx d : Z) : top_tasks :=
  set_table ts i (aset (table ts i) idx (u8 (aget (table ts i) idx + d))).

(** [if (table[idx] == 1) __set_bit(NUM_LOAD_INDICES - idx - 1, bitmap)] *)
Definition mark_if_one (ts : top_tasks) (i idx : Z) : top_tasks :=
  if aget (table ts i) idx =? 1
  then set_bitmap ts i (Z.setbit (bitmap ts i) (NUM_LOAD_INDICES - idx - 1))
  else ts.

(** [if (!table[idx]) __clear_bit(NUM_LOAD_INDICES - idx - 1, bitmap)] *)
Definition clear_if_zero (ts : top_tasks) (i idx : Z) : top_tasks :=
  if aget (table ts i) idx =? 0
  then set_bitmap ts i (Z.clearbit (bitmap ts i) (NUM_LOAD_INDICES - idx - 1))
  else ts.

Definition update_top_tasks (c : walt_cfg) (t : walt_task_struct)
    (old_curr_window : Z) (new_window full_window : bool) (ts : top_tasks)
  : top_tasks :=
  let curr := tt_curr_table ts in
  let prev := 1 - curr in
  let curr_window := t_curr_window t in
  let prev_window := t_prev_window t in
  if (old_curr_window =? curr_window) && negb new_window then ts else
  let old_index := load_to_index c old_curr_window in
  let new_index := load_to_index c curr_window in
  if negb new_window then
    let zero_index_update := (old_curr_window =? 0) && negb (curr_window =? 0) in
    let ts :=
      if negb (old_index =? new_index) || zero_index_update then
        let ts := if negb (old_curr_window =? 0)
                  then table_add ts curr old_index (-1) else ts in
        let ts := if negb (curr_window =? 0)
                  then table_add ts curr new_index 1 else ts in
        if tt_curr_top ts <? new_index then ts <| tt_curr_top := new_index |> else ts
      else ts in
    let ts := clear_if_zero ts curr old_index in
    mark_if_one ts curr new_index
  else
  let update_index := load_to_index c prev_window in
  let ts :=
    if full_window then
      let ts := if negb (prev_window =? 0)
                then (table_add ts prev update_index 1) <| tt_prev_top := update_index |>
                else ts in
      mark_if_one ts prev update_index
    else
      let zero_index_update := (old_curr_window =? 0) && negb (prev_window =? 0) in
      if negb (old_index =? update_index) || zero_index_update then
        let ts := if negb (old_curr_window =? 0)
                  then table_add ts prev old_index (-1) else ts in
        let ts := table_add ts prev update_index 1 in
        let ts := if tt_prev_top ts <? update_index
                  then ts <| tt_prev_top := update_index |> else ts in
        let ts := clear_if_zero ts prev old_index in
        mark_if_one ts prev update_index
      else ts in
  if negb (curr_window =? 0) then
    let ts := table_add ts curr new_index 1 in
    let ts := if tt_curr_top ts <? new_index
              then ts <| tt_curr_top := new_index |> else ts in
    mark_if_one ts curr new_index
  else ts.

Definition rollover_top_tasks (full_window : bool) (ts : top_tasks) : top_tasks :=
  let curr_table := tt_curr_table ts in
  let prev_table := 1 - curr_table in
  let curr_top := tt_curr_top ts in
  let ts := set_table ts prev_table clear_top_tasks_table in
  let ts := set_bitmap ts prev_table clear_top_tasks_bitmap in
  let '(curr_top, ts) :=
    if full_window then
      (0, set_bitmap (set_table ts curr_table clear_top_tasks_table)
                     curr_table clear_top_tasks_bitmap)
    else (curr_top, ts) in
  ts <| tt_curr_table := prev_table |>
     <| tt_prev_top := curr_top |>
     <| tt_curr_top := 0 |>.

(** One half of [migrate_top_tasks_subtraction]: remove a load from table
    [src], whose top index is [top_index]; returns the new top index. *)
Definition top_tasks_remove (c : walt_cfg) (src window top_index : Z)
    (ts : top_tasks) : top_tasks * Z :=
  let index := load_to_index c window in
  let ts := table_add ts src index (-1) in
  let ts := clear_if_zero ts src index in
  if (index =? top_index) && (aget (table ts src) index =? 0)
  then (ts, get_top_index (bitmap ts src) top_index)
  else (ts, top_index).

Definition migrate_top_tasks_subtraction (c : walt_cfg) (t : walt_task_struct)
    (ts : top_tasks) : top_tasks :=
  let src := tt_curr_table ts in
  let ts := if negb (t_curr_window t =? 0) then
              let '(ts, top) := top_tasks_remove c src (t_curr_window t) (tt_curr_top ts) ts in
              ts <| tt_curr_top := top |>
            else ts in
  if negb (t_prev_window t =? 0) then
    let '(ts, top) := top_tasks_remove c (1 - src) (t_prev_window t) (tt_prev_top ts) ts in
    ts <| tt_prev_top := top |>
  else ts.

Definition migrate_top_tasks_addition (c : walt_cfg) (t : walt_task_struct)
    (ts : top_tasks) : top_tasks :=
  let dst := tt_curr_table ts in
  let ts := if negb (t_curr_window t =? 0) then
              let index := load_to_index c (t_curr_window t) in
              let ts := mark_if_one (table_add ts dst index 1) dst index in
              if tt_curr_top ts <? index then ts <| tt_curr_top := index |> else ts
            else ts in
  if negb (t_prev_window t =? 0) then
    let index := load_to_index c (t_prev_window t) in
    let ts := mark_if_one (table_add ts (1 - dst) index 1) (1 - dst) index in
    if tt_prev_top ts <? index then ts <| tt_prev_top := index |> else ts
  else ts.

Definition top_task_load (c : walt_cfg) (ts : top_tasks) : Z :=
  let index := tt_prev_top ts in
  let prev := 1 - tt_curr_table ts in
  if index =? 0 then
    if negb (Z.testbit (bitmap ts prev) (NUM_LOAD_INDICES - 1)) then 0
    else sched_load_granule c
  else if index =? NUM_LOAD_INDICES - 1 then sched_ravg_window c
  else u32 ((index + 1) * sched_load_granule c).

(** ** Abstract view: a table is the histogram of a bag of loads *)

Section Histogram.
Context (c : walt_cfg).

(** Number of loads of the bag that fall into bucket [idx]; a task with no
    busy time is not counted. *)
Fixpoint hist (loads : list Z) (idx : Z) : Z :=
  match loads with
  | [] => 0
  | x :: r => (if negb (x =? 0) && (load_to_index c x =? idx) then 1 else 0) + hist r idx
  end.

(** Highest non-empty bucket, 0 when all are empty. *)
Fixpoint top_of (loads : list Z) : Z :=
  match loads with
  | [] => 0
  | x :: r => Z.max (if x =? 0 then 0 else load_to_index c x) (top_of r)
  end.

(** Table [l] with bitmap [b] represents the bag [loads]. *)
Definition repr (l : list Z) (b : Z) (loads : list Z) : Prop :=
  length l = Z.to_nat NUM_LOAD_INDICES /\
  forall idx, 0 <= idx < NUM_LOAD_INDICES ->
    aget l idx = hist loads idx /\
    Z.testbit b (NUM_LOAD_INDICES - idx - 1) = (0 <? hist loads idx).

Definition repr_at (ts : top_tasks) (i : Z) (loads : list Z) : Prop :=
  repr (table ts i) (bitmap ts i) loads.

Definition loads_ok (loads : list Z) : Prop := Forall (fun x => 0 <= x) loads.

Hypothesis granule_pos : 0 < sched_load_granule c.

Lemma load_to_index_range x : 0 <= x -> 0 <= load_to_index c x < NUM_LOAD_INDICES.
Proof.
  intros Hx. unfold load_to_index, NUM_LOAD_INDICES.
  pose proof (Z.div_pos x _ Hx granule_pos). lia.
Qed.

Lemma load_to_index_mono x y : x <= y -> load_to_index c x <= load_to_index c y.
Proof.
  intros H. unfold load_to_index. apply (Z.div_le_mono _ _ _ granule_pos) in H. lia.
Qed.

Lemma hist_nonneg loads idx : 0 <= hist loads idx.
Proof. induction loads; simpl; [lia|]. case_if; lia. Qed.

Lemma hist_le_length loads idx : hist loads idx <= Z.of_nat (length loads).
Proof. induction loads; simpl; [lia|]. case_if; lia. Qed.

Lemma hist_perm loads loads' idx : loads ≡ₚ loads' -> hist loads idx = hist loads' idx.
Proof. induction 1; simpl; lia. Qed.

#[local] Instance repr_proper l b : Proper ((≡ₚ) ==> iff) (repr l b).
Proof.
  intros L L' HL. unfold repr. setoid_rewrite (fun idx => hist_perm L L' idx HL). done.
Qed.

Lemma top_of_perm loads loads' : loads ≡ₚ loads' -> top_of loads = top_of loads'.
Proof. induction 1; simpl; lia. Qed.

Lemma top_of_range loads : loads_ok loads -> 0 <= top_of loads < NUM_LOAD_INDICES.
Proof.
  induction 1 as [|x r Hx _ IH]; simpl; [unfold NUM_LOAD_INDICES; lia|].
  pose proof (load_to_index_range x Hx). case_if; lia.
Qed.

(** Adding a load to the bag: bump its bucket, mark the bucket if it was empty. *)
Lemma repr_inc l b L x :
  repr l b L -> 0 < x -> Z.of_nat (length L) < U8_MAX ->
  let idx := load_to_index c x in
  let l' := aset l idx (u8 (aget l idx + 1)) in
  repr l' (if aget l' idx =? 1 then Z.setbit b (NUM_LOAD_INDICES - idx - 1) else b) (x :: L).
Proof.
  intros [Hlen H] Hx HL idx l'.
  assert (0 <= idx < NUM_LOAD_INDICES) as Hidx by (apply load_to_index_range; lia).
  pose proof (hist_nonneg L idx). pose proof (hist_le_length L idx).
  unfold U8_MAX, NUM_LOAD_INDICES in *.
  assert (aget l' idx = hist L idx + 1) as El'.
  { unfold l'. rewrite aget_aset_eq by lia. rewrite (proj1 (H idx Hidx)).
    apply u8_small. lia. }
  split; [unfold l'; rewrite length_aset; done|].
  intros j Hj. unfold NUM_LOAD_INDICES in *. destruct (H j Hj) as [Ha Hb]. cbn [hist]. fold idx.
  rewrite (proj2 (Z.eqb_neq x 0)) by lia. cbn [negb andb].
  destruct (Z.eqb_spec idx j) as [<-|Hne]; cbn iota.
  - rewrite El'. split; [lia|].
    destruct (Z.eqb_spec (hist L idx + 1) 1) as [E|E].
    + rewrite setbit_spec by lia. lia.
    + rewrite Hb. lia.
  - split.
    + unfold l'. rewrite aget_aset_ne by lia. lia.
    + case_if; [rewrite setbit_spec by lia|]; rewrite Hb; lia.
Qed.

(** Removing a load from the bag. *)
Lemma repr_dec l b L x :
  repr l b (x :: L) -> 0 < x -> Z.of_nat (length L) < U8_MAX ->
  let idx := load_to_index c x in
  let l' := aset l idx (u8 (aget l idx + -1)) in
  repr l' (if aget l' idx =? 0 then Z.clearbit b (NUM_LOAD_INDICES - idx - 1) else b) L.
Proof.
  intros [Hlen H] Hx HL idx l'.
  assert (0 <= idx < NUM_LOAD_INDICES) as Hidx by (apply load_to_index_range; lia).
  pose proof (hist_nonneg L idx). pose proof (hist_le_length L idx).
  unfold U8_MAX, NUM_LOAD_INDICES in *. cbn [hist] in H. fold idx in H.
  rewrite (proj2 (Z.eqb_neq x 0)) in H by lia. cbn [negb andb] in H.
  assert (aget l' idx = hist L idx) as El'.
  { unfold l'. rewrite aget_aset_eq by lia. rewrite (proj1 (H idx Hidx)).
    rewrite Z.eqb_refl. rewrite u8_small; lia. }
  split; [unfold l'; rewrite length_aset; done|].
  intros j Hj. unfold NUM_LOAD_INDICES in *. destruct (H j Hj) as [Ha Hb].
  destruct (Z.eqb_spec idx j) as [<-|Hne].
  - rewrite El'. split; [lia|]. case_if.
    + rewrite clearbit_spec. rewrite Hb. lia.
    + rewrite Hb. lia.
  - split.
    + unfold l'. rewrite aget_aset_ne by lia. lia.
    + case_if; [rewrite clearbit_spec|]; rewrite Hb; lia.
Qed.

Lemma repr_zero l b L : repr l b (0 :: L) <-> repr l b L.
Proof. unfold repr. cbn [hist]. cbn. setoid_rewrite Z.add_0_l. done. Qed.

Lemma repr_empty : repr clear_top_tasks_table clear_top_tasks_bitmap [].
Proof.
  split; [apply length_replicate|]. intros idx Hi. simpl. split.
  - apply aget_replicate_0.
  - unfold clear_top_tasks_bitmap. rewrite setbit_spec by (unfold NUM_LOAD_INDICES; lia).
    rewrite Z.testbit_0_l. unfold NUM_LOAD_INDICES in *. lia.
Qed.

(** On a consistent table the guarded bit operations change nothing that can be
    observed. *)
Lemma repr_clear_noop l b L o :
  0 <= o < NUM_LOAD_INDICES -> repr l b L ->
  repr l (if aget l o =? 0 then Z.clearbit b (NUM_LOAD_INDICES - o - 1) else b) L.
Proof.
  intros Ho [Hlen H]. split; [done|]. intros j Hj. destruct (H j Hj) as [Ha Hb].
  split; [done|]. case_if; [|done]. rewrite clearbit_spec, Hb.
  destruct (Z.eq_dec o j) as [->|]; [|unfold NUM_LOAD_INDICES in *; lia].
  rewrite Ha in *. lia.
Qed.

Lemma repr_mark_noop l b L n :
  0 <= n < NUM_LOAD_INDICES -> repr l b L ->
  repr l (if aget l n =? 1 then Z.setbit b (NUM_LOAD_INDICES - n - 1) else b) L.
Proof.
  intros Hn [Hlen H]. split; [done|]. intros j Hj. destruct (H j Hj) as [Ha Hb].
  split; [done|]. case_if; [|done]. unfold NUM_LOAD_INDICES in *.
  rewrite setbit_spec, Hb by lia.
  destruct (Z.eq_dec n j) as [->|]; [rewrite Ha in *; lia | lia].
Qed.

Lemma repr_same_index l b L x y :
  0 < x -> 0 < y -> load_to_index c x = load_to_index c y ->
  repr l b (x :: L) -> repr l b (y :: L).
Proof.
  intros Hx Hy E. unfold repr. cbn [hist].
  rewrite (proj2 (Z.eqb_neq x 0)), (proj2 (Z.eqb_neq y 0)), E by lia. done.
Qed.

(** Moving a task from the bucket of [x] to a different bucket, in the order in
    which the code does it. *)
Lemma repr_move l b L x y :
  repr l b (x :: L) -> 0 < x -> 0 < y -> Z.of_nat (length L) < U8_MAX ->
  load_to_index c x <> load_to_index c y ->
  let o := load_to_index c x in
  let n := load_to_index c y in
  let l1 := aset l o (u8 (aget l o + -1)) in
  let l2 := aset l1 n (u8 (aget l1 n + 1)) in
  let b1 := if aget l2 o =? 0 then Z.clearbit b (NUM_LOAD_INDICES - o - 1) else b in
  repr l2 (if aget l2 n =? 1 then Z.setbit b1 (NUM_LOAD_INDICES - n - 1) else b1) (y :: L).
Proof.
  intros Hr Hx Hy HL Hne o n l1 l2 b1.
  assert (0 <= o < NUM_LOAD_INDICES) by (apply load_to_index_range; lia).
  assert (0 <= n < NUM_LOAD_INDICES) by (apply load_to_index_range; lia).
  assert (aget l2 o = aget l1 o) as E by (apply aget_aset_ne; lia).
  unfold b1. rewrite E. apply repr_inc; [|done..]. apply repr_dec; done.
Qed.

(** Adding a load when the table is first checked for an empty bucket [o]. *)
Lemma repr_clear_inc l b L o y :
  repr l b L -> 0 < y -> Z.of_nat (length L) < U8_MAX -> 0 <= o < NUM_LOAD_INDICES ->
  let n := load_to_index c y in
  let l2 := aset l n (u8 (aget l n + 1)) in
  let b1 := if aget l2 o =? 0 then Z.clearbit b (NUM_LOAD_INDICES - o - 1) else b in
  repr l2 (if aget l2 n =? 1 then Z.setbit b1 (NUM_LOAD_INDICES - n - 1) else b1) (y :: L).
Proof.
  intros Hr Hy HL Ho n l2 b1.
  assert (0 <= n < NUM_LOAD_INDICES) by (apply load_to_index_range; lia).
  destruct (Z.eq_dec o n) as [->|Hne].
  - pose proof (repr_inc l b L y Hr Hy HL) as Hi. cbv zeta in Hi. fold n l2 in Hi.
    assert ((aget l2 n =? 0) = false) as Hz.
    { destruct Hi as [_ Hi]. rewrite (proj1 (Hi n ltac:(lia))). cbn [hist]. fold n.
      pose proof (hist_nonneg L n). rewrite (proj2 (Z.eqb_neq y 0)) by lia. cbn.
      rewrite Z.eqb_refl. lia. }
    unfold b1. rewrite Hz. done.
  - unfold b1. replace (aget l2 o) with (aget l o) by (symmetry; apply aget_aset_ne; lia).
    apply repr_inc; [|done..]. apply repr_clear_noop; done.
Qed.

End Histogram.

(** ** Frame lemmas for the table operations *)

Section Frames.
Context (ts : top_tasks) (i : Z).
Hypothesis Hi : i = 0 \/ i = 1.

Lemma table_set_table l : table (set_table ts i l) i = l.
Proof. destruct Hi as [-> | ->]; done. Qed.
Lemma table_set_table_other l : table (set_table ts i l) (1 - i) = table ts (1 - i).
Proof. destruct Hi as [-> | ->]; done. Qed.
Lemma bitmap_set_table l j : bitmap (set_table ts i l) j = bitmap ts j.
Proof. destruct Hi as [-> | ->]; done. Qed.
Lemma bitmap_set_bitmap b : bitmap (set_bitmap ts i b) i = b.
Proof. destruct Hi as [-> | ->]; done. Qed.
Lemma bitmap_set_bitmap_other b : bitmap (set_bitmap ts i b) (1 - i) = bitmap ts (1 - i).
Proof. destruct Hi as [-> | ->]; done. Qed.
Lemma table_set_bitmap b j : table (set_bitmap ts i b) j = table ts j.
Proof. destruct Hi as [-> | ->]; done. Qed.
Lemma tops_set_table l :
  tt_curr_top (set_table ts i l) = tt_curr_top ts /\
  tt_prev_top (set_table ts i l) = tt_prev_top ts /\
  tt_curr_table (set_table ts i l) = tt_curr_table ts.
Proof. destruct Hi as [-> | ->]; done. Qed.
Lemma tops_set_bitmap b :
  tt_curr_top (set_bitmap ts i b) = tt_curr_top ts /\
  tt_prev_top (set_bitmap ts i b) = tt_prev_top ts /\
  tt_curr_table (set_bitmap ts i b) = tt_curr_table ts.
Proof. destruct Hi as [-> | ->]; done. Qed.

Lemma table_table_add idx d :
  table (table_add ts i idx d) i = aset (table ts i) idx (u8 (aget (table ts i) idx + d)).
Proof. apply table_set_table. Qed.
Lemma table_table_add_other idx d : table (table_add ts i idx d) (1 - i) = table ts (1 - i).
Proof. apply table_set_table_other. Qed.
Lemma bitmap_table_add idx d j : bitmap (table_add ts i idx d) j = bitmap ts j.
Proof. apply bitmap_set_table. Qed.
Lemma table_mark_if_one n j : table (mark_if_one ts i n) j = table ts j.
Proof. unfold mark_if_one. case_if; [apply table_set_bitmap|done]. Qed.
Lemma table_clear_if_zero n j : table (clear_if_zero ts i n) j = table ts j.
Proof. unfold clear_if_zero. case_if; [apply table_set_bitmap|done]. Qed.
Lemma bitmap_mark_if_one n :
  bitmap (mark_if_one ts i n) i =
  if aget (table ts i) n =? 1 then Z.setbit (bitmap ts i) (NUM_LOAD_INDICES - n - 1)
  else bitmap ts i.
Proof. unfold mark_if_one. case_if; [apply bitmap_set_bitmap|done]. Qed.
Lemma bitmap_clear_if_zero n :
  bitmap (clear_if_zero ts i n) i =
  if aget (table ts i) n =? 0 then Z.clearbit (bitmap ts i) (NUM_LOAD_INDICES - n - 1)
  else bitmap ts i.
Proof. unfold clear_if_zero. case_if; [apply bitmap_set_bitmap|done]. Qed.
Lemma bitmap_mark_if_one_other n : bitmap (mark_if_one ts i n) (1 - i) = bitmap ts (1 - i).
Proof. unfold mark_if_one. case_if; [apply bitmap_set_bitmap_other|done]. Qed.
Lemma bitmap_clear_if_zero_other n : bitmap (clear_if_zero ts i n) (1 - i) = bitmap ts (1 - i).
Proof. unfold clear_if_zero. case_if; [apply bitmap_set_bitmap_other|done]. Qed.

(** [top_frame ts ts']: the table index and both top indices are the same. *)
Definition top_frame (ts' : top_tasks) : Prop :=
  tt_curr_top ts' = tt_curr_top ts /\ tt_prev_top ts' = tt_prev_top ts /\
  tt_curr_table ts' = tt_curr_table ts.

Lemma top_frame_table_add idx d : top_frame (table_add ts i idx d).
Proof. apply tops_set_table. Qed.
Lemma top_frame_mark_if_one n : top_frame (mark_if_one ts i n).
Proof. unfold mark_if_one. case_if; [apply tops_set_bitmap|done]. Qed.
Lemma top_frame_clear_if_zero n : top_frame (clear_if_zero ts i n).
Proof. unfold clear_if_zero. case_if; [apply tops_set_bitmap|done]. Qed.

End Frames.

Lemma top_frame_trans a b d : top_frame a b -> top_frame b d -> top_frame a d.
Proof. unfold top_frame. intuition congruence. Qed.

Section Updates.
Context (c : walt_cfg).
Hypothesis granule_pos : 0 < sched_load_granule c.

(** The two guarded updates every operation is made of. *)
Definition add_load (ts : top_tasks) (i y : Z) : top_tasks :=
  mark_if_one (table_add ts i (load_to_index c y) 1) i (load_to_index c y).

(** Move a task from the bucket of [x] to that of [y]. *)
Definition move_load (ts : top_tasks) (i x y : Z) : top_tasks :=
  let ts := if negb (x =? 0) then table_add ts i (load_to_index c x) (-1) else ts in
  let ts := table_add ts i (load_to_index c y) 1 in
  mark_if_one (clear_if_zero ts i (load_to_index c x)) i (load_to_index c y).

(** [ts'] has the other table, the bitmap and all indices of [ts]. *)
Definition only_table (i : Z) (ts ts' : top_tasks) : Prop :=
  table ts' (1 - i) = table ts (1 - i) /\ bitmap ts' (1 - i) = bitmap ts (1 - i) /\
  top_frame ts ts'.

Lemma add_load_spec ts i y L :
  i = 0 \/ i = 1 -> repr_at c ts i L -> 0 < y -> Z.of_nat (length L) < U8_MAX ->
  repr_at c (add_load ts i y) i (y :: L) /\ only_table i ts (add_load ts i y).
Proof.
  intros Hi Hr Hy HL. unfold add_load. split.
  - unfold repr_at. rewrite table_mark_if_one, bitmap_mark_if_one by done.
    rewrite table_table_add, bitmap_table_add by done. by apply repr_inc.
  - split_and!.
    + rewrite table_mark_if_one by done. by apply table_table_add_other.
    + rewrite bitmap_mark_if_one_other by done. by apply bitmap_table_add.
    + eapply top_frame_trans; [by apply top_frame_table_add | by apply top_frame_mark_if_one].
Qed.

Lemma move_load_spec ts i x y L :
  i = 0 \/ i = 1 -> repr_at c ts i (x :: L) -> 0 <= x -> 0 < y ->
  Z.of_nat (length L) < U8_MAX -> load_to_index c x <> load_to_index c y \/ x = 0 ->
  repr_at c (move_load ts i x y) i (y :: L) /\ only_table i ts (move_load ts i x y).
Proof.
  intros Hi Hr Hx Hy HL Hne. unfold move_load, repr_at in *.
  assert (0 <= load_to_index c x < NUM_LOAD_INDICES) by (apply load_to_index_range; lia).
  split; [|split_and!].
  - rewrite table_mark_if_one, bitmap_mark_if_one, table_clear_if_zero,
      bitmap_clear_if_zero by done.
    destruct (Z.eqb_spec x 0) as [->|Hx0]; cbn [negb];
      rewrite !table_table_add, !bitmap_table_add by done.
    + apply repr_clear_inc; [done| |done..]. by apply (repr_zero c).
    + apply repr_move; try done; [lia|]. destruct Hne; done.
  - rewrite table_mark_if_one, table_clear_if_zero, table_table_add_other by done.
    destruct (x =? 0); [done|]. by apply table_table_add_other.
  - rewrite bitmap_mark_if_one_other, bitmap_clear_if_zero_other, bitmap_table_add by done.
    destruct (x =? 0); [done|]. by apply bitmap_table_add.
  - repeat (eapply top_frame_trans; [|by (apply top_frame_mark_if_one ||
      apply top_frame_clear_if_zero || apply top_frame_table_add)]).
    destruct (x =? 0); [done|]. by apply top_frame_table_add.
Qed.

(** The checks that run when the bucket did not change are no-ops. *)
Lemma recheck_spec ts i L o n :
  i = 0 \/ i = 1 -> repr_at c ts i L ->
  0 <= o < NUM_LOAD_INDICES -> 0 <= n < NUM_LOAD_INDICES ->
  let ts' := mark_if_one (clear_if_zero ts i o) i n in
  repr_at c ts' i L /\ only_table i ts ts'.
Proof.
  intros Hi Hr Ho Hn ts'. unfold ts', repr_at in *. split; [|split_and!].
  - rewrite table_mark_if_one, bitmap_mark_if_one, table_clear_if_zero,
      bitmap_clear_if_zero by done.
    apply repr_mark_noop; [done|]. by apply repr_clear_noop.
  - by rewrite table_mark_if_one, table_clear_if_zero.
  - by rewrite bitmap_mark_if_one_other, bitmap_clear_if_zero_other.
  - eapply top_frame_trans; [by apply top_frame_clear_if_zero | by apply top_frame_mark_if_one].
Qed.

Definition tables_repr (ts : top_tasks) (C P : list Z) : Prop :=
  (tt_curr_table ts = 0 \/ tt_curr_table ts = 1) /\
  repr_at c ts (tt_curr_table ts) C /\
  repr_at c ts (1 - tt_curr_table ts) P.

(** Recording a new top index commutes with the bitmap updates. *)
Lemma set_curr_top_comm ts i o n v :
  mark_if_one (clear_if_zero (ts <| tt_curr_top := v |>) i o) i n =
  (mark_if_one (clear_if_zero ts i o) i n) <| tt_curr_top := v |>.
Proof.
  assert (clear_if_zero (ts <| tt_curr_top := v |>) i o =
          (clear_if_zero ts i o) <| tt_curr_top := v |>) as ->.
  { unfold clear_if_zero, set_bitmap.
    change (table (ts <| tt_curr_top := v |>) i) with (table ts i).
    repeat case_if; reflexivity. }
  generalize (clear_if_zero ts i o) as ts'. intros ts'. unfold mark_if_one, set_bitmap.
  change (table (ts' <| tt_curr_top := v |>) i) with (table ts' i).
  repeat case_if; reflexivity.
Qed.

Lemma set_prev_top_comm ts i o n v :
  mark_if_one (clear_if_zero (ts <| tt_prev_top := v |>) i o) i n =
  (mark_if_one (clear_if_zero ts i o) i n) <| tt_prev_top := v |>.
Proof.
  assert (clear_if_zero (ts <| tt_prev_top := v |>) i o =
          (clear_if_zero ts i o) <| tt_prev_top := v |>) as ->.
  { unfold clear_if_zero, set_bitmap.
    change (table (ts <| tt_prev_top := v |>) i) with (table ts i).
    repeat case_if; reflexivity. }
  generalize (clear_if_zero ts i o) as ts'. intros ts'. unfold mark_if_one, set_bitmap.
  change (table (ts' <| tt_prev_top := v |>) i) with (table ts' i).
  repeat case_if; reflexivity.
Qed.

Lemma repr_at_set_curr_top ts i v L :
  repr_at c (ts <| tt_curr_top := v |>) i L <-> repr_at c ts i L.
Proof. done. Qed.
Lemma repr_at_set_prev_top ts i v L :
  repr_at c (ts <| tt_prev_top := v |>) i L <-> repr_at c ts i L.
Proof. done. Qed.

Lemma only_table_repr i ts ts' L :
  only_table i ts ts' -> repr_at c ts (1 - i) L -> repr_at c ts' (1 - i) L.
Proof. intros (E1 & E2 & _). unfold repr_at. by rewrite E1, E2. Qed.

Lemma other_other i : i = 0 \/ i = 1 -> 1 - (1 - i) = i.
Proof. lia. Qed.

Lemma other_ok i : i = 0 \/ i = 1 -> 1 - i = 0 \/ 1 - i = 1.
Proof. lia. Qed.

(** What a step does to the table of the current window: the other table and
    its top index are kept, and an exact top index stays exact. *)
Definition curr_step (ts ts' : top_tasks) (L L' : list Z) : Prop :=
  tt_curr_table ts' = tt_curr_table ts /\
  tt_prev_top ts' = tt_prev_top ts /\
  repr_at c ts' (tt_curr_table ts) L' /\
  (forall P, repr_at c ts (1 - tt_curr_table ts) P -> repr_at c ts' (1 - tt_curr_table ts) P) /\
  (tt_curr_top ts = top_of c L -> tt_curr_top ts' = top_of c L').

Definition prev_step (ts ts' : top_tasks) (L L' : list Z) : Prop :=
  tt_curr_table ts' = tt_curr_table ts /\
  tt_curr_top ts' = tt_curr_top ts /\
  repr_at c ts' (1 - tt_curr_table ts) L' /\
  (forall C, repr_at c ts (tt_curr_table ts) C -> repr_at c ts' (tt_curr_table ts) C) /\
  (tt_prev_top ts = top_of c L -> tt_prev_top ts' = top_of c L').

Definition curr_index_ok (ts : top_tasks) : Prop :=
  tt_curr_table ts = 0 \/ tt_curr_table ts = 1.

Lemma top_of_cons_pos x L : 0 < x -> top_of c (x :: L) = Z.max (load_to_index c x) (top_of c L).
Proof. intros. cbn [top_of]. by rewrite (proj2 (Z.eqb_neq x 0)) by lia. Qed.

Lemma top_of_cons_zero L : loads_ok L -> top_of c (0 :: L) = top_of c L.
Proof. intros HL. cbn [top_of]. rewrite Z.eqb_refl. pose proof (top_of_range c granule_pos L HL). lia. Qed.

(** The top index after a move to a higher bucket. *)
Lemma top_of_move x y L t :
  0 <= x <= y -> 0 < y -> loads_ok L -> t = top_of c (x :: L) ->
  Z.max t (load_to_index c y) = top_of c (y :: L).
Proof.
  intros Hx Hy HL ->. rewrite (top_of_cons_pos y) by lia.
  pose proof (load_to_index_mono c granule_pos x y ltac:(lia)).
  pose proof (load_to_index_range c granule_pos y ltac:(lia)).
  pose proof (top_of_range c granule_pos L HL). cbn [top_of]. case_if; lia.
Qed.

Lemma raise_curr_top ts n :
  (if tt_curr_top ts <? n then ts <| tt_curr_top := n |> else ts) =
  ts <| tt_curr_top := Z.max (tt_curr_top ts) n |>.
Proof.
  destruct (Z.ltb_spec (tt_curr_top ts) n).
  - rewrite Z.max_r by lia. done.
  - rewrite Z.max_l by lia. by destruct ts.
Qed.

Lemma raise_prev_top ts n :
  (if tt_prev_top ts <? n then ts <| tt_prev_top := n |> else ts) =
  ts <| tt_prev_top := Z.max (tt_prev_top ts) n |>.
Proof.
  destruct (Z.ltb_spec (tt_prev_top ts) n).
  - rewrite Z.max_r by lia. done.
  - rewrite Z.max_l by lia. by destruct ts.
Qed.

Lemma move_curr ts x y L :
  curr_index_ok ts -> repr_at c ts (tt_curr_table ts) (x :: L) -> 0 <= x <= y -> 0 < y ->
  loads_ok L -> Z.of_nat (length L) < U8_MAX ->
  load_to_index c x <> load_to_index c y \/ x = 0 ->
  curr_step ts ((move_load ts (tt_curr_table ts) x y)
    <| tt_curr_top := Z.max (tt_curr_top ts) (load_to_index c y) |>) (x :: L) (y :: L).
Proof.
  intros Hi Hr Hx Hy HL Hlen Hne.
  destruct (move_load_spec ts (tt_curr_table ts) x y L) as [H1 H2];
    [exact Hi|done|lia|done..|].
  pose proof H2 as (_ & _ & F1 & F2 & F3).
  unfold curr_step; cbn; split_and!; try done.
  - intros P HP. apply repr_at_set_curr_top. by eapply only_table_repr.
  - intros E. by eapply top_of_move.
Qed.

Lemma move_prev ts x y L :
  curr_index_ok ts -> repr_at c ts (1 - tt_curr_table ts) (x :: L) -> 0 <= x <= y -> 0 < y ->
  loads_ok L -> Z.of_nat (length L) < U8_MAX ->
  load_to_index c x <> load_to_index c y \/ x = 0 ->
  prev_step ts ((move_load ts (1 - tt_curr_table ts) x y)
    <| tt_prev_top := Z.max (tt_prev_top ts) (load_to_index c y) |>) (x :: L) (y :: L).
Proof.
  intros Hi Hr Hx Hy HL Hlen Hne.
  destruct (move_load_spec ts (1 - tt_curr_table ts) x y L) as [H1 H2];
    [unfold curr_index_ok in Hi; lia|done|lia|done..|].
  pose proof H2 as (_ & _ & F1 & F2 & F3).
  unfold prev_step; cbn; split_and!; try done.
  - intros C HC. apply repr_at_set_prev_top. apply only_table_repr with (L := C) in H2;
      rewrite other_other in * by done; done.
  - intros E. by eapply top_of_move.
Qed.

Lemma recheck_curr ts x y L o n :
  curr_index_ok ts -> repr_at c ts (tt_curr_table ts) (x :: L) -> 0 < x -> 0 < y ->
  load_to_index c x = load_to_index c y -> 
  0 <= o < NUM_LOAD_INDICES -> 0 <= n < NUM_LOAD_INDICES ->
  curr_step ts (mark_if_one (clear_if_zero ts (tt_curr_table ts) o) (tt_curr_table ts) n)
    (x :: L) (y :: L).
Proof.
  intros Hi Hr Hx Hy E Ho Hn.
  apply (repr_same_index c _ _ _ x y) in Hr; [|done..].
  destruct (recheck_spec ts (tt_curr_table ts) (y :: L) o n Hi Hr Ho Hn) as [H1 H2].
  pose proof H2 as (_ & _ & F1 & F2 & F3).
  unfold curr_step; split_and!; try done.
  - intros P HP. by eapply only_table_repr.
  - intros Et. rewrite F1, Et, !top_of_cons_pos, E by lia. done.
Qed.

Lemma curr_step_refl ts L : repr_at c ts (tt_curr_table ts) L -> curr_step ts ts L L.
Proof. unfold curr_step. naive_solver. Qed.

Lemma prev_step_refl ts L : repr_at c ts (1 - tt_curr_table ts) L -> prev_step ts ts L L.
Proof. unfold prev_step. naive_solver. Qed.

Lemma tops_after_add ts i idx d :
  i = 0 \/ i = 1 ->
  tt_curr_top (table_add ts i idx d) = tt_curr_top ts /\
  tt_prev_top (table_add ts i idx d) = tt_prev_top ts.
Proof. intros Hi. destruct (top_frame_table_add ts i Hi idx d) as (? & ? & ?). done. Qed.

(** A task accounted inside its window: its load moves between buckets of the
    current table. *)
Lemma update_in_window t old full ts C :
  curr_index_ok ts -> repr_at c ts (tt_curr_table ts) (old :: C) ->
  0 <= old <= t_curr_window t -> loads_ok C -> Z.of_nat (length C) < U8_MAX ->
  curr_step ts (update_top_tasks c t old false full ts)
    (old :: C) (t_curr_window t :: C).
Proof.
  intros Hi Hr Ho HC Hlen. unfold update_top_tasks. cbn [negb].
  destruct (Z.eqb_spec old (t_curr_window t)) as [<-|Hne]; cbn [andb].
  { by apply curr_step_refl. }
  rewrite (proj2 (Z.eqb_neq (t_curr_window t) 0)) by lia. cbn [negb].
  pose proof (load_to_index_range c granule_pos old ltac:(lia)).
  pose proof (load_to_index_range c granule_pos (t_curr_window t) ltac:(lia)).
  destruct (negb (load_to_index c old =? load_to_index c (t_curr_window t))
            || (old =? 0) && true) eqn:E.
  - rewrite raise_curr_top, set_curr_top_comm.
    pose proof (move_curr ts old (t_curr_window t) C Hi Hr ltac:(lia) ltac:(lia) HC Hlen
                  ltac:(lia)) as Hm.
    unfold move_load in Hm.
    replace (tt_curr_top (table_add _ _ _ 1)) with (tt_curr_top ts); [exact Hm|].
    rewrite (proj1 (tops_after_add _ _ _ 1 Hi)).
    case_if; [|done]. symmetry. by apply tops_after_add.
  - apply recheck_curr; try done; lia.
Qed.

(** A task entering the current window: its load is added to the table. *)
Lemma enter_curr ts y C :
  curr_index_ok ts -> repr_at c ts (tt_curr_table ts) C -> 0 <= y -> loads_ok C ->
  Z.of_nat (length C) < U8_MAX ->
  curr_step ts
    (if negb (y =? 0) then
       let ts1 := table_add ts (tt_curr_table ts) (load_to_index c y) 1 in
       let ts2 := if tt_curr_top ts1 <? load_to_index c y
                  then ts1 <| tt_curr_top := load_to_index c y |> else ts1 in
       mark_if_one ts2 (tt_curr_table ts) (load_to_index c y)
     else ts) C (y :: C).
Proof.
  intros Hi Hr Hy HC Hlen. destruct (Z.eqb_spec y 0) as [->|Hy0]; cbn [negb].
  { unfold curr_step. split_and!; try done. intros ->. by rewrite top_of_cons_zero. }
  cbv zeta. rewrite raise_curr_top, (proj1 (tops_after_add _ _ _ 1 Hi)).
  destruct (add_load_spec ts (tt_curr_table ts) y C) as [H1 H2]; [done..|lia|done|].
  pose proof H2 as (_ & _ & F1 & F2 & F3). unfold add_load in *.
  assert (forall t' v i n, mark_if_one (t' <| tt_curr_top := v |>) i n =
            (mark_if_one t' i n) <| tt_curr_top := v |>) as ->.
  { intros t' v i n. unfold mark_if_one, set_bitmap.
    change (table (t' <| tt_curr_top := v |>) i) with (table t' i).
    repeat case_if; reflexivity. }
  unfold curr_step; cbn; split_and!; try done.
  - intros P HP. apply repr_at_set_curr_top. by eapply only_table_repr.
  - intros E. rewrite (proj2 (Z.eqb_neq y 0)) by lia. lia.
Qed.

(** A task whose window rolled over: its load of the closed window replaces the
    entry it had there (none when a full window elapsed). *)
Lemma close_prev ts old y P :
  curr_index_ok ts -> repr_at c ts (1 - tt_curr_table ts) (old :: P) -> 0 <= old <= y ->
  loads_ok P -> Z.of_nat (length P) < U8_MAX ->
  let prev := 1 - tt_curr_table ts in
  prev_step ts
    (if negb (load_to_index c old =? load_to_index c y) || (old =? 0) && negb (y =? 0) then
       let ts1 := if negb (old =? 0) then table_add ts prev (load_to_index c old) (-1) else ts in
       let ts2 := table_add ts1 prev (load_to_index c y) 1 in
       let ts3 := if tt_prev_top ts2 <? load_to_index c y
                  then ts2 <| tt_prev_top := load_to_index c y |> else ts2 in
       mark_if_one (clear_if_zero ts3 prev (load_to_index c old)) prev (load_to_index c y)
     else ts) (old :: P) (y :: P).
Proof.
  intros Hi Hr Ho HP Hlen prev.
  assert (prev = 0 \/ prev = 1) as Hp by (unfold curr_index_ok, prev in *; lia).
  destruct (Z.eqb_spec y 0) as [->|Hy].
  { assert (old = 0) as -> by lia. rewrite Z.eqb_refl. cbn. by apply prev_step_refl. }
  destruct (negb _ || _) eqn:E.
  - cbv zeta. rewrite raise_prev_top, set_prev_top_comm.
    pose proof (move_prev ts old y P Hi Hr ltac:(lia) ltac:(lia) HP Hlen ltac:(lia)) as Hm.
    unfold move_load in Hm.
    replace (tt_prev_top (table_add _ _ _ 1)) with (tt_prev_top ts); [exact Hm|].
    rewrite (proj2 (tops_after_add _ _ _ 1 Hp)).
    case_if; [|done]. symmetry. by apply tops_after_add.
  - assert (load_to_index c old = load_to_index c y) as Ei by lia.
    unfold prev_step; split_and!; try done.
    + eapply (repr_same_index c); [| |exact Ei|done]; lia.
    + intros ->. rewrite !top_of_cons_pos, Ei by lia. done.
Qed.

Lemma close_prev_full ts y P :
  curr_index_ok ts -> repr_at c ts (1 - tt_curr_table ts) P -> 0 <= y ->
  loads_ok P -> Z.of_nat (length P) < U8_MAX ->
  let prev := 1 - tt_curr_table ts in
  let ts' := mark_if_one
    (if negb (y =? 0) then (table_add ts prev (load_to_index c y) 1)
                             <| tt_prev_top := load_to_index c y |>
     else ts) prev (load_to_index c y) in
  tt_curr_table ts' = tt_curr_table ts /\ tt_curr_top ts' = tt_curr_top ts /\
  repr_at c ts' prev (y :: P) /\
  (forall C, repr_at c ts (tt_curr_table ts) C -> repr_at c ts' (tt_curr_table ts) C) /\
  tt_prev_top ts' = if y =? 0 then tt_prev_top ts else load_to_index c y.
Proof.
  intros Hi Hr Hy HP Hlen prev ts'.
  assert (prev = 0 \/ prev = 1) as Hp by (unfold curr_index_ok, prev in *; lia).
  pose proof (load_to_index_range c granule_pos y Hy) as Hidx.
  destruct (Z.eqb_spec y 0) as [->|Hy0]; cbn [negb] in ts'.
  - pose proof (top_frame_mark_if_one ts prev Hp (load_to_index c 0)) as (F1 & F2 & F3).
    split_and!; try done.
    + apply (repr_zero c). unfold repr_at, ts'.
      rewrite table_mark_if_one, bitmap_mark_if_one by done. by apply repr_mark_noop.
    + intros C HC. unfold repr_at, ts' in *. rewrite table_mark_if_one by done.
      replace (tt_curr_table ts) with (1 - prev) in * by (unfold prev; lia).
      by rewrite bitmap_mark_if_one_other.
  - destruct (add_load_spec ts prev y P) as [H1 H2]; [done..|lia|done|].
    pose proof H2 as (_ & _ & F1 & F2 & F3). unfold add_load in *.
    assert (ts' = (mark_if_one (table_add ts prev (load_to_index c y) 1) prev
                     (load_to_index c y)) <| tt_prev_top := load_to_index c y |>) as ->.
    { unfold ts', mark_if_one, set_bitmap.
      change (table (?t' <| tt_prev_top := ?v |>) ?i) with (table t' i).
      repeat case_if; reflexivity. }
    split_and!; try done.
    intros C HC. apply repr_at_set_prev_top. apply only_table_repr with (L := C) in H2;
      replace (1 - prev) with (tt_curr_table ts) in * by (unfold prev; lia); done.
Qed.

(** *** Relation between the bitmap and the top index *)

Lemma hist_pos_top L idx : 0 < hist c L idx -> idx <= top_of c L.
Proof.
  induction L as [|x L IH]; cbn [hist top_of]; [lia|].
  pose proof (hist_nonneg c L idx). repeat case_if; intros; lia.
Qed.

Lemma top_occupied L : loads_ok L -> 0 < top_of c L -> 0 < hist c L (top_of c L).
Proof.
  induction 1 as [|x L Hx HL IH]; cbn [hist top_of]; [lia|].
  pose proof (top_of_range c granule_pos L HL).
  pose proof (load_to_index_range c granule_pos x Hx).
  intros Hpos. destruct (Z.eqb_spec x 0) as [->|Hx0]; cbn [negb andb].
  - rewrite Z.max_r in * by lia. lia.
  - destruct (Z.le_gt_cases (top_of c L) (load_to_index c x)) as [Hle|Hgt].
    + rewrite Z.max_l by lia. rewrite Z.eqb_refl. pose proof (hist_nonneg c L (load_to_index c x)). lia.
    + rewrite Z.max_r in * by lia. case_if; lia.
Qed.

(** Searching the bitmap from the old top index finds the new top index, as
    long as the old one lies in the lower half of the table. *)
Lemma get_top_index_spec l b L old_top :
  repr c l b L -> loads_ok L -> top_of c L <= old_top ->
  0 <= old_top -> 2 * old_top < NUM_LOAD_INDICES ->
  get_top_index b old_top = top_of c L.
Proof.
  intros [_ Hr] HL Hle H0 Hhalf. unfold get_top_index.
  pose proof (find_next_bit_spec b NUM_LOAD_INDICES old_top ltac:(lia)) as (Hf1 & Hf2 & Hf3).
  set (r := find_next_bit b NUM_LOAD_INDICES old_top) in *.
  pose proof (top_of_range c granule_pos L HL) as Ht.
  assert (0 < top_of c L -> r <= NUM_LOAD_INDICES - top_of c L - 1) as Hbit.
  { intros Hpos. destruct (Z.le_gt_cases r (NUM_LOAD_INDICES - top_of c L - 1)); [done|].
    exfalso. pose proof (proj2 (Hr _ Ht)) as Hb.
    rewrite Hf3 in Hb by lia. pose proof (top_occupied L HL Hpos). lia. }
  destruct (Z.eqb_spec r NUM_LOAD_INDICES) as [E|E].
  { destruct (Z.eq_dec (top_of c L) 0); [done|]. lia. }
  assert (0 <= NUM_LOAD_INDICES - 1 - r < NUM_LOAD_INDICES) as Hidx by lia.
  pose proof (proj2 (Hr _ Hidx)) as Hb.
  replace (NUM_LOAD_INDICES - (NUM_LOAD_INDICES - 1 - r) - 1) with r in Hb by lia.
  rewrite Hf2 in Hb by lia.
  assert (NUM_LOAD_INDICES - 1 - r <= top_of c L) by (apply hist_pos_top; lia). lia.
Qed.

End Updates.

(** ** Migration: removing and adding a task's loads *)

Section Migration.
Context (c : walt_cfg).
Hypothesis granule_pos : 0 < sched_load_granule c.

Lemma top_tasks_remove_spec ts i x top L :
  i = 0 \/ i = 1 -> repr_at c ts i (x :: L) -> 0 < x -> loads_ok L ->
  Z.of_nat (length L) < U8_MAX ->
  let '(ts', top') := top_tasks_remove c i x top ts in
  repr_at c ts' i L /\ only_table i ts ts' /\
  (top = top_of c (x :: L) -> 2 * top < NUM_LOAD_INDICES -> top' = top_of c L).
Proof.
  intros Hi Hr Hx HL Hlen. unfold top_tasks_remove.
  set (idx := load_to_index c x). set (ts1 := clear_if_zero (table_add ts i idx (-1)) i idx).
  assert (repr_at c ts1 i L) as H1.
  { unfold repr_at, ts1. rewrite table_clear_if_zero, bitmap_clear_if_zero by done.
    rewrite table_table_add, bitmap_table_add by done. by apply repr_dec. }
  assert (only_table i ts ts1) as H2.
  { unfold ts1. split_and!.
    - rewrite table_clear_if_zero by done. by apply table_table_add_other.
    - rewrite bitmap_clear_if_zero_other by done. by apply bitmap_table_add.
    - eapply top_frame_trans; [by apply top_frame_table_add | by apply top_frame_clear_if_zero]. }
  pose proof (load_to_index_range c granule_pos x ltac:(lia)) as Hidx.
  pose proof (top_of_range c granule_pos L HL) as Ht.
  destruct ((idx =? top) && (aget (table ts1 i) idx =? 0)) eqn:E; split_and!; try done;
    intros Htop Hhalf; rewrite top_of_cons_pos in Htop by lia; fold idx in Htop, Hidx.
  - eapply get_top_index_spec; [done|exact H1|done|lia|lia|done].
  - destruct (Z.eq_dec (top_of c L) top) as [|Hne]; [done|].
    assert (idx = top) as Eit by lia. rewrite (proj1 (proj2 H1 idx Hidx)) in E.
    assert (0 < hist c L idx) as Hp by (pose proof (hist_nonneg c L idx); lia).
    apply hist_pos_top in Hp. lia.
Qed.

(** The tables of the two windows after a task left the CPU. *)
Lemma migrate_sub_repr t ts C P :
  tables_repr c ts (t_curr_window t :: C) (t_prev_window t :: P) ->
  0 <= t_curr_window t -> 0 <= t_prev_window t -> loads_ok C -> loads_ok P ->
  Z.of_nat (length C) < U8_MAX -> Z.of_nat (length P) < U8_MAX ->
  let ts' := migrate_top_tasks_subtraction c t ts in
  tables_repr c ts' C P /\
  (tt_curr_top ts = top_of c (t_curr_window t :: C) -> 2 * tt_curr_top ts < NUM_LOAD_INDICES ->
   tt_curr_top ts' = top_of c C) /\
  (tt_prev_top ts = top_of c (t_prev_window t :: P) -> 2 * tt_prev_top ts < NUM_LOAD_INDICES ->
   tt_prev_top ts' = top_of c P).
Proof.
  intros (Hi & Hc & Hp) H0 H1 HC HP HlC HlP.
  unfold migrate_top_tasks_subtraction. set (i := tt_curr_table ts) in *.
  set (ts1 := if negb (t_curr_window t =? 0) then _ else ts).
  assert (tt_curr_table ts1 = i /\ tt_prev_top ts1 = tt_prev_top ts /\
          repr_at c ts1 i C /\ repr_at c ts1 (1 - i) (t_prev_window t :: P) /\
          (tt_curr_top ts = top_of c (t_curr_window t :: C) ->
           2 * tt_curr_top ts < NUM_LOAD_INDICES -> tt_curr_top ts1 = top_of c C))
    as (E1 & E2 & R1 & R2 & T1).
  { unfold ts1. destruct (Z.eqb_spec (t_curr_window t) 0) as [E|E]; cbn [negb].
    - rewrite E in *. split_and!; try done. rewrite top_of_cons_zero by done. done.
    - pose proof (top_tasks_remove_spec ts i (t_curr_window t) (tt_curr_top ts) C
                    Hi Hc ltac:(lia) HC HlC) as Hs.
      destruct (top_tasks_remove _ _ _ _ _) as [ts' top'].
      destruct Hs as (S1 & S2 & S3). pose proof S2 as (_ & _ & F1 & F2 & F3).
      split_and!; try done. apply repr_at_set_curr_top. by eapply only_table_repr. }
  clearbody ts1. destruct (Z.eqb_spec (t_prev_window t) 0) as [E|E]; cbn [negb].
  - rewrite E in *. unfold tables_repr. rewrite E1, E2. split_and!; try done.
    rewrite top_of_cons_zero by done. done.
  - pose proof (top_tasks_remove_spec ts1 (1 - i) (t_prev_window t) (tt_prev_top ts1) P
                  ltac:(lia) R2 ltac:(lia) HP HlP) as Hs.
    destruct (top_tasks_remove _ _ _ _ _) as [ts' top'].
    destruct Hs as (S1 & S2 & S3). pose proof S2 as (_ & _ & F1 & F2 & F3).
    apply only_table_repr with (c := c) (L := C) in S2; [|by rewrite other_other].
    rewrite other_other in S2 by done. unfold tables_repr; cbn. rewrite F3, E1, F1.
    split_and!; try done. intros. rewrite <- E2 in *. by apply S3.
Qed.

Lemma add_load_top y L (top : Z) :
  0 < y -> loads_ok L -> top = top_of c L ->
  Z.max top (load_to_index c y) = top_of c (y :: L).
Proof. intros Hy HL ->. rewrite top_of_cons_pos by lia. lia. Qed.

(** ... and after it joined another CPU. *)
Lemma migrate_add_repr t ts C P :
  tables_repr c ts C P ->
  0 <= t_curr_window t -> 0 <= t_prev_window t -> loads_ok C -> loads_ok P ->
  Z.of_nat (length C) < U8_MAX -> Z.of_nat (length P) < U8_MAX ->
  let ts' := migrate_top_tasks_addition c t ts in
  tables_repr c ts' (t_curr_window t :: C) (t_prev_window t :: P) /\
  (tt_curr_top ts = top_of c C -> tt_curr_top ts' = top_of c (t_curr_window t :: C)) /\
  (tt_prev_top ts = top_of c P -> tt_prev_top ts' = top_of c (t_prev_window t :: P)).
Proof.
  intros (Hi & Hc & Hp) H0 H1 HC HP HlC HlP.
  unfold migrate_top_tasks_addition. set (i := tt_curr_table ts) in *.
  set (ts1 := if negb (t_curr_window t =? 0) then _ else ts).
  assert (tt_curr_table ts1 = i /\ tt_prev_top ts1 = tt_prev_top ts /\
          repr_at c ts1 i (t_curr_window t :: C) /\ repr_at c ts1 (1 - i) P /\
          (tt_curr_top ts = top_of c C -> tt_curr_top ts1 = top_of c (t_curr_window t :: C)))
    as (E1 & E2 & R1 & R2 & T1).
  { unfold ts1. destruct (Z.eqb_spec (t_curr_window t) 0) as [E|E]; cbn [negb].
    - rewrite E in *. split_and!; try done. by rewrite top_of_cons_zero.
    - fold (add_load c ts i (t_curr_window t)). rewrite raise_curr_top.
      destruct (add_load_spec c granule_pos ts i (t_curr_window t) C) as [S1 S2]; [done..|lia|done|].
      pose proof S2 as (_ & _ & F1 & F2 & F3).
      split_and!; try done; [by apply (only_table_repr c) with (2 := Hp) in S2|].
      intros Et. cbn [tt_curr_top const RecordSettersUsingExistingGetters.set].
      rewrite F1. apply add_load_top; auto; lia. }
  clearbody ts1. destruct (Z.eqb_spec (t_prev_window t) 0) as [E|E]; cbn [negb].
  - rewrite E in *. unfold tables_repr. rewrite E1, E2. split_and!; try done.
    by rewrite top_of_cons_zero.
  - fold (add_load c ts1 (1 - i) (t_prev_window t)). rewrite raise_prev_top.
    destruct (add_load_spec c granule_pos ts1 (1 - i) (t_prev_window t) P) as [S1 S2];
      [lia|done|lia|done|].
    pose proof S2 as (_ & _ & F1 & F2 & F3).
    apply only_table_repr with (c := c) (L := t_curr_window t :: C) in S2; [|by rewrite other_other].
    rewrite other_other in S2 by done. unfold tables_repr; cbn. rewrite F3, E1, F1.
    split_and!; try done. intros. rewrite F2, E2. apply add_load_top; auto; lia.
Qed.

End Migration.

(** ** Deciding the representation on concrete tables *)

Definition repr_b (c : walt_cfg) (l : list Z) (b : Z) (loads : list Z) : bool :=
  (length l =? Z.to_nat NUM_LOAD_INDICES)%nat &&
  forallb (fun idx => (aget l idx =? hist c loads idx) &&
                      Bool.eqb (Z.testbit b (NUM_LOAD_INDICES - idx - 1)) (0 <? hist c loads idx))
          (seqZ 0 NUM_LOAD_INDICES).

Lemma repr_b_sound c l b loads : repr_b c l b loads = true -> repr c l b loads.
Proof.
  unfold repr_b. intros [H1 H2]%andb_prop. apply Nat.eqb_eq in H1. split; [done|].
  rewrite forallb_forall in H2. intros idx Hi.
  specialize (H2 idx). rewrite <- list_elem_of_In, elem_of_seqZ in H2.
  specialize (H2 ltac:(lia)). apply andb_prop in H2 as [Ha Hb].
  split; [lia|]. by apply eqb_prop in Hb.
Qed.

Definition tables_repr_b (c : walt_cfg) (ts : top_tasks) (C P : list Z) : bool :=
  ((tt_curr_table ts =? 0) || (tt_curr_table ts =? 1)) &&
  repr_b c (table ts (tt_curr_table ts)) (bitmap ts (tt_curr_table ts)) C &&
  repr_b c (table ts (1 - tt_curr_table ts)) (bitmap ts (1 - tt_curr_table ts)) P.

Lemma tables_repr_b_sound c ts C P : tables_repr_b c ts C P = true -> tables_repr c ts C P.
Proof.
  unfold tables_repr_b. intros [[H1 H2]%andb_prop H3]%andb_prop.
  split_and!; [lia|by apply repr_b_sound..].
Qed.

(** Empty tables, and tables with one task of the given loads. *)
Definition empty_top : top_tasks :=
  mk_tt clear_top_tasks_table clear_top_tasks_table
        clear_top_tasks_bitmap clear_top_tasks_bitmap 0 0 0.
Definition task_with (curr prev : Z) : walt_task_struct :=
  zero_wts <| t_curr_window := curr |> <| t_prev_window := prev |>.
Definition top_with (tasks : list (Z * Z)) : top_tasks :=
  fold_right (fun cp ts => migrate_top_tasks_addition sample_cfg (task_with cp.1 cp.2) ts)
             empty_top tasks.

(** ** Loads and the reported top load *)

Section TopLoad.
Context (c : walt_cfg).

Lemma index_le_top x L : x ∈ L -> x <> 0 -> load_to_index c x <= top_of c L.
Proof.
  induction 1 as [x L|x y L _ IH]; intros Hx; cbn [top_of]; [|specialize (IH Hx); lia].
  rewrite (proj2 (Z.eqb_neq x 0)) by done. lia.
Qed.

Lemma hist_mem x L : x ∈ L -> x <> 0 -> 0 < hist c L (load_to_index c x).
Proof.
  induction 1 as [x L|x y L _ IH]; intros Hx; cbn [hist].
  - rewrite (proj2 (Z.eqb_neq x 0)), Z.eqb_refl by done. cbn.
    pose proof (hist_nonneg c L (load_to_index c x)). lia.
  - specialize (IH Hx). case_if; lia.
Qed.

Lemma hist_all_zero P :
  Forall (fun x => x = 0) P -> top_of c P = 0 /\ hist c P 0 = 0.
Proof. induction 1 as [|x P -> _ [IH1 IH2]]; cbn; rewrite ?IH1, ?IH2; done. Qed.

Lemma load_below_next x :
  0 < sched_load_granule c -> 0 <= x <= sched_ravg_window c ->
  sched_ravg_window c <= NUM_LOAD_INDICES * sched_load_granule c ->
  x <= (load_to_index c x + 1) * sched_load_granule c.
Proof.
  intros Hg Hx Hw. unfold load_to_index.
  pose proof (Z.div_mod x (sched_load_granule c) ltac:(lia)).
  pose proof (Z.mod_pos_bound x (sched_load_granule c) Hg).
  destruct (Z.min_spec (x / sched_load_granule c) (NUM_LOAD_INDICES - 1)) as [[_ ->]|[_ ->]]; lia.
Qed.

Lemma top_task_load_ub ts P x :
  0 < sched_load_granule c ->
  sched_ravg_window c <= NUM_LOAD_INDICES * sched_load_granule c < 2 ^ 32 ->
  repr_at c ts (1 - tt_curr_table ts) P -> tt_prev_top ts = top_of c P ->
  (forall y, y ∈ P -> 0 <= y <= sched_ravg_window c) ->
  x ∈ P -> x <> 0 -> x <= top_task_load c ts.
Proof.
  intros Hg Hw Hp Ht HP Hin Hx0. pose proof (HP x Hin) as Hx.
  pose proof (index_le_top x P Hin Hx0) as Hle.
  pose proof (load_below_next x Hg Hx ltac:(lia)) as Hb.
  pose proof (load_to_index_range c Hg x ltac:(lia)) as Hi.
  assert (top_of c P < NUM_LOAD_INDICES) as Htop.
  { apply (top_of_range c Hg). apply Forall_forall. intros y Hy. apply HP in Hy. lia. }
  unfold top_task_load. rewrite Ht. destruct (Z.eqb_spec (top_of c P) 0) as [E|E].
  - assert (load_to_index c x = 0) as E0 by lia.
    pose proof (hist_mem x P Hin Hx0) as Hh. rewrite E0 in Hh, Hb.
    pose proof (proj2 (proj2 Hp 0 ltac:(unfold NUM_LOAD_INDICES; lia))) as Hbit.
    replace (NUM_LOAD_INDICES - 1) with (NUM_LOAD_INDICES - 0 - 1) by lia.
    rewrite Hbit. replace (0 <? hist c P 0) with true by lia. cbn [negb]. lia.
  - destruct (Z.eqb_spec (top_of c P) (NUM_LOAD_INDICES - 1)); [lia|].
    unfold NUM_LOAD_INDICES in *. rewrite u32_small by nia. nia.
Qed.

End TopLoad.

(** ** Properties *)

Section Properties.
Context (c : walt_cfg).

(** Accounting a task inside its window moves exactly one entry of the
    current table: if the tables hold the bags [old :: C] and [P] of task loads
    (counters and bitmap alike), then after [update_top_tasks] they hold
    [wts->curr_window :: C] and [P], and an exact top index stays exact. *)
Theorem update_top_tasks_in_window t old full ts C P :
  0 < sched_load_granule c ->
  tables_repr c ts (old :: C) P ->
  0 <= old <= t_curr_window t -> loads_ok C -> Z.of_nat (length C) < U8_MAX ->
  let ts' := update_top_tasks c t old false full ts in
  tables_repr c ts' (t_curr_window t :: C) P /\
  tt_prev_top ts' = tt_prev_top ts /\
  (tt_curr_top ts = top_of c (old :: C) -> tt_curr_top ts' = top_of c (t_curr_window t :: C)).
Proof.
  intros Hg (Hi & Hc & Hp) Ho HC Hlen ts'.
  destruct (update_in_window c Hg t old full ts C Hi Hc Ho HC Hlen) as (E1 & E2 & R & F & T).
  fold ts' in E1, E2, R, F, T. unfold tables_repr. rewrite E1. split_and!; auto.
Qed.

(** C6. When the task's window rolled over, its load of the closed window
    replaces the entry it had in the previous table (there is none when a full
    window elapsed) and its load of the new window is entered in the current
    table; counters, bitmaps and top indices stay exact, except that a task
    that ran for a full window sets the previous top index to its own bucket. *)
Theorem update_top_tasks_new_window t old (full : bool) ts C P :
  0 < sched_load_granule c ->
  tables_repr c ts C (if full then P else old :: P) ->
  0 <= old -> 0 <= t_curr_window t -> 0 <= t_prev_window t ->
  (full = false -> old <= t_prev_window t) ->
  loads_ok C -> loads_ok P -> Z.of_nat (length C) < U8_MAX -> Z.of_nat (length P) < U8_MAX ->
  let ts' := update_top_tasks c t old true full ts in
  tables_repr c ts' (t_curr_window t :: C) (t_prev_window t :: P) /\
  (tt_curr_top ts = top_of c C -> tt_curr_top ts' = top_of c (t_curr_window t :: C)) /\
  (if full
   then tt_prev_top ts' = if t_prev_window t =? 0 then tt_prev_top ts
                          else load_to_index c (t_prev_window t)
   else tt_prev_top ts = top_of c (old :: P) ->
        tt_prev_top ts' = top_of c (t_prev_window t :: P)).
Proof.
  intros Hg (Hi & Hc & Hp) Ho Hcw Hpw Hle HC HP HlC HlP.
  unfold update_top_tasks. rewrite andb_false_r. cbn [negb]. cbv zeta.
  destruct full.
  - pose proof (close_prev_full c Hg ts (t_prev_window t) P Hi Hp Hpw HP HlP) as Hs.
    cbv zeta in Hs. set (ts1 := mark_if_one _ _ _) in Hs |- *. clearbody ts1.
    destruct Hs as (E1 & E2 & R1 & R2 & T).
    pose proof (enter_curr c Hg ts1 (t_curr_window t) C) as He.
    unfold curr_index_ok in He. rewrite E1 in He.
    destruct (He Hi (R2 _ Hc) Hcw HC HlC) as (E3 & E4 & R3 & R4 & T2).
    unfold tables_repr. rewrite E3, E1 in *. split_and!; auto; [|congruence].
    intros Et. apply T2. congruence.
  - pose proof (close_prev c Hg ts old (t_prev_window t) P Hi Hp ltac:(auto) HP HlP) as Hs.
    cbv zeta in Hs. set (ts1 := if (_ : bool) then mark_if_one _ _ _ else ts) in Hs |- *. clearbody ts1.
    destruct Hs as (E1 & E2 & R1 & R2 & T).
    pose proof (enter_curr c Hg ts1 (t_curr_window t) C) as He.
    unfold curr_index_ok in He. rewrite E1 in He.
    destruct (He Hi (R2 _ Hc) Hcw HC HlC) as (E3 & E4 & R3 & R4 & T2).
    unfold tables_repr. rewrite E3, E1 in *. split_and!; auto; intros Et.
    + apply T2. congruence.
    + rewrite E4. auto.
Qed.

(** A window rollover of the CPU makes the current table the previous one,
    or drops both when more than one window elapsed, and starts an empty table;
    exact top indices stay exact. *)
Theorem rollover_top_tasks_spec (full : bool) ts C P :
  tables_repr c ts C P ->
  let ts' := rollover_top_tasks full ts in
  tables_repr c ts' [] (if full then [] else C) /\
  tt_curr_top ts' = 0 /\ tt_prev_top ts' = if full then 0 else tt_curr_top ts.
Proof.
  intros (Hi & Hc & Hp). pose proof (repr_empty c) as He.
  unfold rollover_top_tasks, tables_repr, repr_at, set_table, set_bitmap, table, bitmap in *.
  destruct Hi as [E|E]; rewrite E in *; destruct full;
    change (1 - 0) with 1 in *; change (1 - 1) with 0 in *;
    change (0 =? 0) with true in *; change (1 =? 0) with false in *; cbn in *;
    split_and!; auto.
Qed.

(** Moving a task between CPUs takes its two loads out of the tables of the
    source and puts them into those of the destination, with counters and
    bitmaps exact on both sides. The top indices of the destination stay exact;
    those of the source do when they lie in the lower half of the table. *)
Theorem migrate_top_tasks_spec t src dst Cs Ps Cd Pd :
  0 < sched_load_granule c ->
  tables_repr c src (t_curr_window t :: Cs) (t_prev_window t :: Ps) ->
  tables_repr c dst Cd Pd ->
  0 <= t_curr_window t -> 0 <= t_prev_window t ->
  loads_ok Cs -> loads_ok Ps -> loads_ok Cd -> loads_ok Pd ->
  Forall (fun L : list Z => Z.of_nat (length L) < U8_MAX) [Cs; Ps; Cd; Pd] ->
  let src' := migrate_top_tasks_subtraction c t src in
  let dst' := migrate_top_tasks_addition c t dst in
  tables_repr c src' Cs Ps /\
  tables_repr c dst' (t_curr_window t :: Cd) (t_prev_window t :: Pd) /\
  (tt_curr_top dst = top_of c Cd -> tt_curr_top dst' = top_of c (t_curr_window t :: Cd)) /\
  (tt_prev_top dst = top_of c Pd -> tt_prev_top dst' = top_of c (t_prev_window t :: Pd)) /\
  (tt_curr_top src = top_of c (t_curr_window t :: Cs) ->
   2 * tt_curr_top src < NUM_LOAD_INDICES -> tt_curr_top src' = top_of c Cs).
Proof.
  intros Hg Hs Hd H0 H1 HCs HPs HCd HPd Hl.
  repeat apply Forall_cons in Hl as [? Hl].
  destruct (migrate_sub_repr c Hg t src Cs Ps) as (A1 & A2 & A3); [done..|].
  destruct (migrate_add_repr c Hg t dst Cd Pd) as (B1 & B2 & B3); [done..|].
  split_and!; auto.
Qed.

(** With exact tables, the load [top_task_load] reports to the governor is
    an upper bound of every task's busy time of the previous window, and it is
    0 exactly when no task was busy. *)
Theorem top_task_load_bound ts C P :
  0 < sched_load_granule c ->
  sched_ravg_window c <= NUM_LOAD_INDICES * sched_load_granule c < 2 ^ 32 ->
  0 < sched_ravg_window c ->
  tables_repr c ts C P -> tt_prev_top ts = top_of c P ->
  Forall (fun x => 0 <= x <= sched_ravg_window c) P ->
  Forall (fun x => x <= top_task_load c ts) P /\
  (top_task_load c ts = 0 <-> Forall (fun x => x = 0) P).
Proof.
  intros Hg Hw Hw0 (Hi & _ & Hp) Ht HP.
  assert (forall x, x ∈ P -> x <> 0 -> x <= top_task_load c ts) as Hub.
  { intros x Hin Hx0. rewrite Forall_forall in HP.
    by eapply top_task_load_ub; eauto. }
  split.
  - apply Forall_forall. intros x Hin. destruct (Z.eq_dec x 0) as [->|Hx0]; [|by apply Hub].
    unfold top_task_load. repeat case_if; try lia. apply u32_range.
  - split.
    + intros E. apply Forall_forall. intros x Hin. destruct (Z.eq_dec x 0) as [|n]; [done|].
      rewrite Forall_forall in HP. specialize (HP x Hin). specialize (Hub x Hin n). lia.
    + intros Hz. destruct (hist_all_zero c P Hz) as [E1 E2].
      pose proof (proj2 (proj2 Hp 0 ltac:(unfold NUM_LOAD_INDICES; lia))) as Hbit.
      unfold top_task_load. rewrite Ht, E1.
      replace (NUM_LOAD_INDICES - 1) with (NUM_LOAD_INDICES - 0 - 1) by lia.
      rewrite Hbit, E2. done.
Qed.

End Properties.

(** Closes the side conditions of a property on concrete data. *)
Ltac top_concrete :=
  lazymatch goal with
  | |- tables_repr _ _ _ _ => apply tables_repr_b_sound; vm_compute; reflexivity
  | |- loads_ok _ => repeat (apply Forall_cons; split; [vm_compute; discriminate|]); apply Forall_nil; exact I
  | |- Forall _ _ => repeat (apply Forall_cons; split; [vm_compute; reflexivity|]); apply Forall_nil; exact I
  | |- _ <= _ <= _ => vm_compute; split; discriminate
  | |- _ <= _ => vm_compute; discriminate
  | |- _ < _ => vm_compute; reflexivity
  | |- _ = _ => vm_compute; reflexivity
  | |- _ -> _ => intros _; vm_compute; discriminate
  end.

Lemma update_top_tasks_in_window_witness :
  let ts := top_with [(5000000, 0); (7000000, 3000000)] in
  let ts' := update_top_tasks sample_cfg (task_with 9000000 0) 5000000 false false ts in
  tables_repr sample_cfg ts' [9000000; 7000000] [0; 3000000] /\ tt_curr_top ts' = 562.
Proof.
  intros ts ts'.
  destruct (update_top_tasks_in_window sample_cfg (task_with 9000000 0) 5000000 false ts
              [7000000] [0; 3000000]) as (H1 & _ & H3); [top_concrete..|].
  split; [exact H1 | vm_compute; reflexivity].
Defined.

Lemma update_top_tasks_new_window_witness :
  let ts := rollover_top_tasks false (top_with [(5000000, 0); (7000000, 3000000)]) in
  let ts' := update_top_tasks sample_cfg (task_with 1000000 6000000) 5000000 true false ts in
  tables_repr sample_cfg ts' [1000000] [6000000; 7000000].
Proof.
  intros ts ts'.
  destruct (update_top_tasks_new_window sample_cfg (task_with 1000000 6000000) 5000000 false ts
              [] [7000000]) as (H1 & _); [top_concrete..|].
  exact H1.
Defined.

Lemma rollover_top_tasks_spec_witness :
  tables_repr sample_cfg (rollover_top_tasks false (top_with [(5000000, 0); (7000000, 3000000)]))
              [] [5000000; 7000000].
Proof.
  destruct (rollover_top_tasks_spec sample_cfg false (top_with [(5000000, 0); (7000000, 3000000)])
              [5000000; 7000000] [0; 3000000]) as (H1 & _); [top_concrete|]. exact H1.
Defined.

Lemma migrate_top_tasks_spec_witness :
  let t := task_with 5000000 2000000 in
  tables_repr sample_cfg
    (migrate_top_tasks_subtraction sample_cfg t (top_with [(5000000, 2000000); (7000000, 0)]))
    [7000000] [0] /\
  tables_repr sample_cfg
    (migrate_top_tasks_addition sample_cfg t (top_with [(1000000, 0)]))
    [5000000; 1000000] [2000000; 0].
Proof.
  intros t.
  destruct (migrate_top_tasks_spec sample_cfg t (top_with [(5000000, 2000000); (7000000, 0)])
              (top_with [(1000000, 0)]) [7000000] [0] [1000000] [0]) as (H1 & H2 & _);
    [top_concrete..|].
  split; assumption.
Defined.

Lemma top_task_load_bound_witness :
  let ts := rollover_top_tasks false (top_with [(5000000, 0); (7000000, 3000000)]) in
  Forall (fun x => x <= top_task_load sample_cfg ts) [5000000; 7000000].
Proof.
  intros ts.
  destruct (top_task_load_bound sample_cfg ts [] [5000000; 7000000]) as [H _];
    [vm_compute; reflexivity | vm_compute; split; [discriminate | reflexivity]
    | vm_compute; reflexivity | top_concrete | vm_compute; reflexivity
    | repeat (apply Forall_cons; split; [vm_compute; split; discriminate|]);
      apply Forall_nil; exact I |].
  exact H.
Defined.

(** [get_top_index] is handed the top index where it needs the position of
    its bit. Two tasks in buckets 875 and 625: when the first one migrates away
    the table and the bitmap are right, but [curr_top] drops to 0 although
    bucket 625 is occupied. *)
Theorem get_top_index_skips_buckets :
  exists ts t other,
    tables_repr sample_cfg ts [t_curr_window t; other] [0; 0] /\
    tt_curr_top ts = top_of sample_cfg [t_curr_window t; other] /\
    let ts' := migrate_top_tasks_subtraction sample_cfg t ts in
    tables_repr sample_cfg ts' [other] [0] /\
    tt_curr_top ts' = 0 /\ top_of sample_cfg [other] = 625.
Proof.
  exists (top_with [(14000000, 0); (10000000, 0)]), (task_with 14000000 0), 10000000.
  cbv zeta. split_and!; top_concrete.
Qed.

(** the comment of [update_top_tasks] says that a task that ran for a full
    window can set the top index unconditionally because its bucket corresponds
    to the whole window. On a CPU that does not run at full scale the bucket is
    lower: here it is 375 and overrides the correct top index 625. *)
Theorem full_window_lowers_prev_top :
  exists ts t other,
    tables_repr sample_cfg ts [] [other] /\
    tt_prev_top ts = top_of sample_cfg [other] /\
    let ts' := update_top_tasks sample_cfg t 0 true true ts in
    tables_repr sample_cfg ts' [0] [t_prev_window t; other] /\
    tt_prev_top ts' < top_of sample_cfg [t_prev_window t; other].
Proof.
  exists (rollover_top_tasks false (top_with [(10000000, 0)])), (task_with 0 6000000), 10000000.
  cbv zeta. split_and!; top_concrete.
Qed.
