(* ===== verification/Stats.v ===== *)
(** * Run-queue statistics

    What a run queue knows about the tasks queued on it: the sums of their
    demands and predicted demands and the numbers of misfit, giant, trailblazer
    and high-priority group tasks. Models [fixup_cumulative_runnable_avg],
    [fixup_nr_giant], [fixup_walt_sched_stats_common],
    [walt_inc_cumulative_runnable_avg], [walt_dec_cumulative_runnable_avg] of
    [walt.c] and [inc_rq_walt_stats], [dec_rq_walt_stats] of [walt_cfs.c], and
    shows that the incremental updates keep the statistics equal to what a scan
    of the queued tasks would compute. *)

From Stdlib Require Import ZArith Lia ZifyBool.
From stdpp Require Import base list relations.
From S2P Require Import Prelude WaltTypes.

(** ** Operations *)

Definition GIANT_UTIL_THRESH_PCT : Z := 700.

Definition fixup_cumulative_runnable_avg
    (demand_scaled_delta pred_demand_scaled_delta : Z) (s : acct) : acct :=
  let stats := w_walt_stats (a_wrq s) in
  let cumulative_runnable_avg_scaled :=
    s64 (s_cumulative_runnable_avg_scaled stats + demand_scaled_delta) in
  let pred_demands_sum_scaled :=
    s64 (s_pred_demands_sum_scaled stats + pred_demand_scaled_delta) in
  let s := emit_if (negb (p_cpu (a_p s) =? rq_cpu (a_rq s))) (WALT_BUG bug_not_on_rq) s in
  let s := emit_if (cumulative_runnable_avg_scaled <? 0) (WALT_BUG bug_cra_underflow) s in
  let s := on_stats (fun st => st <| s_cumulative_runnable_avg_scaled :=
             if cumulative_runnable_avg_scaled <? 0 then 0
             else cumulative_runnable_avg_scaled |>) s in
  let s := emit_if (pred_demands_sum_scaled <? 0) (WALT_BUG bug_pds_underflow) s in
  on_stats (fun st => st <| s_pred_demands_sum_scaled :=
             if pred_demands_sum_scaled <? 0 then 0 else pred_demands_sum_scaled |>) s.

(** The [cap] of [fixup_nr_giant]: capacity of the first CPU of the last but
    one cluster, or of the only cluster. *)
Definition giant_cap (c : walt_cfg) : Z :=
  arch_scale_cpu_capacity c (cpumask_first
    (aget (cpu_array0 c) (if 2 <=? num_sched_clusters c
                          then num_sched_clusters c - 2
                          else num_sched_clusters c - 1))).

Definition is_giant_demand (c : walt_cfg) (demand_scaled : Z) : bool :=
  Z.shiftr (GIANT_UTIL_THRESH_PCT * giant_cap c) SCHED_CAPACITY_SHIFT <? demand_scaled.

Definition fixup_nr_giant (c : walt_cfg) (updated_demand_scaled : Z) (s : acct) : acct :=
  let is_prev_giant_task := walt_flag_test (wts_of s) WALT_GIANT_BIT in
  if is_giant_demand c updated_demand_scaled then
    if negb is_prev_giant_task then
      on_stats (fun st => st <| s_nr_giant_tasks := s32 (s_nr_giant_tasks st + 1) |>)
        (on_wts (fun t => walt_flag_set t WALT_GIANT_BIT true) s)
    else s
  else
    if is_prev_giant_task then
      on_stats (fun st =>
          let n := s32 (s_nr_giant_tasks st - 1) in
          st <| s_nr_giant_tasks := if n <? 0 then 0 else n |>)
        (on_wts (fun t => walt_flag_set t WALT_GIANT_BIT false) s)
    else s.

Definition fixup_walt_sched_stats_common (c : walt_cfg)
    (updated_demand_scaled updated_pred_demand_scaled : Z) (s : acct) : acct :=
  if task_on_scx (a_p s) then s else
  let task_load_delta := updated_demand_scaled - t_demand_scaled (wts_of s) in
  let pred_demand_delta := updated_pred_demand_scaled - t_pred_demand_scaled (wts_of s) in
  let s := fixup_cumulative_runnable_avg task_load_delta pred_demand_delta s in
  if walt_fair_task (a_p s) then fixup_nr_giant c updated_demand_scaled s else s.

Definition walt_inc_cumulative_runnable_avg (s : acct) : acct :=
  fixup_cumulative_runnable_avg (t_demand_scaled (wts_of s))
    (t_pred_demand_scaled (wts_of s)) s.

Definition walt_dec_cumulative_runnable_avg (s : acct) : acct :=
  fixup_cumulative_runnable_avg (- t_demand_scaled (wts_of s))
    (- t_pred_demand_scaled (wts_of s)) s.

Definition task_rtg_high_prio (c : walt_cfg) (p : task_struct) : bool :=
  task_in_related_thread_group (p_wts p) &&
  (p_prio p <=? sysctl_walt_rtg_cfs_boost_prio c).

Definition inc_rq_walt_stats (c : walt_cfg) (s : acct) : acct :=
  let s := if t_misfit (wts_of s)
           then on_stats (fun st => st <| s_nr_big_tasks := s32 (s_nr_big_tasks st + 1) |>) s
           else s in
  let s := on_wts (fun t => t <| t_rtg_high_prio := task_rtg_high_prio c (a_p s) |>) s in
  let s := if t_rtg_high_prio (wts_of s)
           then on_stats (fun st => st <| s_nr_rtg_high_prio_tasks :=
                  u32 (s_nr_rtg_high_prio_tasks st + 1) |>) s
           else s in
  let s := if walt_flag_test (wts_of s) WALT_TRAILBLAZER_BIT
           then on_stats (fun st => st <| s_nr_trailblazer_tasks :=
                  s32 (s_nr_trailblazer_tasks st + 1) |>) s
           else s in
  if walt_flag_test (wts_of s) WALT_GIANT_BIT
  then on_stats (fun st => st <| s_nr_giant_tasks := s32 (s_nr_giant_tasks st + 1) |>) s
  else s.

Definition dec_rq_walt_stats (s : acct) : acct :=
  let s := if t_misfit (wts_of s)
           then on_stats (fun st => st <| s_nr_big_tasks := s32 (s_nr_big_tasks st - 1) |>) s
           else s in
  let s := if t_rtg_high_prio (wts_of s)
           then on_stats (fun st => st <| s_nr_rtg_high_prio_tasks :=
                  u32 (s_nr_rtg_high_prio_tasks st - 1) |>) s
           else s in
  let s := if walt_flag_test (wts_of s) WALT_TRAILBLAZER_BIT
           then on_stats (fun st => st <| s_nr_trailblazer_tasks :=
                  s32 (s_nr_trailblazer_tasks st - 1) |>) s
           else s in
  let s := if walt_flag_test (wts_of s) WALT_GIANT_BIT
           then on_stats (fun st => st <| s_nr_giant_tasks := s32 (s_nr_giant_tasks st - 1) |>) s
           else s in
  let s := if s_nr_giant_tasks (w_walt_stats (a_wrq s)) <? 0
           then on_stats (fun st => st <| s_nr_giant_tasks := 0 |>) s else s in
  let s := emit_if (s_nr_big_tasks (w_walt_stats (a_wrq s)) <? 0)
             (BUG_ON bug_nr_big_negative) s in
  emit_if (s_nr_trailblazer_tasks (w_walt_stats (a_wrq s)) <? 0)
    (BUG_ON bug_nr_trailblazer_negative) s.

#[global] Arguments fixup_cumulative_runnable_avg : simpl never.
#[global] Arguments fixup_nr_giant : simpl never.
#[global] Arguments fixup_walt_sched_stats_common : simpl never.
#[global] Arguments inc_rq_walt_stats : simpl never.
#[global] Arguments dec_rq_walt_stats : simpl never.

(** ** The statistics as a function of the queued tasks *)

Module QueueStats.

(** Contribution of a fair task to a counter. *)
Definition fair_count (b : walt_task_struct -> bool) (p : task_struct) : Z :=
  if walt_fair_task p then Z.b2z (b (p_wts p)) else 0.

Definition is_giant (t : walt_task_struct) : bool := walt_flag_test t WALT_GIANT_BIT.
Definition is_trailblazer (t : walt_task_struct) : bool :=
  walt_flag_test t WALT_TRAILBLAZER_BIT.

(** What a scan of the queue computes. *)
Definition scan (q : list task_struct) : walt_sched_stats := {|
  s_nr_big_tasks := zsum (fair_count t_misfit) q;
  s_nr_trailblazer_tasks := zsum (fair_count is_trailblazer) q;
  s_nr_giant_tasks := zsum (fair_count is_giant) q;
  s_cumulative_runnable_avg_scaled := zsum (fun p => t_demand_scaled (p_wts p)) q;
  s_pred_demands_sum_scaled := zsum (fun p => t_pred_demand_scaled (p_wts p)) q;
  s_nr_rtg_high_prio_tasks := zsum (fair_count t_rtg_high_prio) q
|}.

(** A task that may sit on the queue of [r]: the demands are the [u16] fields
    of the C structure. *)
Definition queueable (r : rq) (p : task_struct) : Prop :=
  p_cpu p = rq_cpu r /\ task_on_scx p = false /\
  0 <= t_demand_scaled (p_wts p) < 65536 /\
  0 <= t_pred_demand_scaled (p_wts p) < 65536.

(** The accounting a task goes through while it is queued: the two halves of
    the enqueue and of the dequeue hook, and a change of its demands, after
    which the caller stores the new values in the task. *)
Definition account_enqueue (c : walt_cfg) (s : acct) : acct :=
  let s := if walt_fair_task (a_p s) then inc_rq_walt_stats c s else s in
  walt_inc_cumulative_runnable_avg s.

Definition account_dequeue (s : acct) : acct :=
  let s := if walt_fair_task (a_p s) then dec_rq_walt_stats s else s in
  walt_dec_cumulative_runnable_avg s.

Definition account_demand (c : walt_cfg) (d pd : Z) (s : acct) : acct :=
  on_wts (fun t => t <| t_demand_scaled := d |> <| t_pred_demand_scaled := pd |>)
    (fixup_walt_sched_stats_common c d pd s).

#[global] Arguments account_enqueue : simpl never.
#[global] Arguments account_dequeue : simpl never.
#[global] Arguments account_demand : simpl never.

(** A run queue with the tasks queued on it, and the effects so far. *)
Record queue := mk_queue {
  q_tasks : list task_struct;
  q_wrq : walt_rq;
  q_log : list walt_effect
}.

Inductive queue_step (c : walt_cfg) (r : rq) : queue -> queue -> Prop :=
| step_enqueue q w log p s :
    queueable r p -> Z.of_nat (length q) < INT_MAX ->
    account_enqueue c (mk_acct p r w log) = s ->
    queue_step c r (mk_queue q w log) (mk_queue (a_p s :: q) (a_wrq s) (a_log s))
| step_dequeue q1 p q2 w log s :
    account_dequeue (mk_acct p r w log) = s ->
    queue_step c r (mk_queue (q1 ++ p :: q2) w log) (mk_queue (q1 ++ q2) (a_wrq s) (a_log s))
| step_demand q1 p q2 w log d pd s :
    0 <= d < 65536 -> 0 <= pd < 65536 ->
    account_demand c d pd (mk_acct p r w log) = s ->
    queue_step c r (mk_queue (q1 ++ p :: q2) w log)
      (mk_queue (q1 ++ a_p s :: q2) (a_wrq s) (a_log s)).

Definition queue_ok (r : rq) (Q : queue) : Prop :=
  Forall (queueable r) (q_tasks Q) /\ Z.of_nat (length (q_tasks Q)) <= INT_MAX /\
  w_walt_stats (q_wrq Q) = scan (q_tasks Q) /\ no_bug (q_log Q).


(** ** Lemmas *)

Definition stats_add (a b : walt_sched_stats) : walt_sched_stats := {|
  s_nr_big_tasks := s_nr_big_tasks a + s_nr_big_tasks b;
  s_nr_trailblazer_tasks := s_nr_trailblazer_tasks a + s_nr_trailblazer_tasks b;
  s_nr_giant_tasks := s_nr_giant_tasks a + s_nr_giant_tasks b;
  s_cumulative_runnable_avg_scaled :=
    s_cumulative_runnable_avg_scaled a + s_cumulative_runnable_avg_scaled b;
  s_pred_demands_sum_scaled := s_pred_demands_sum_scaled a + s_pred_demands_sum_scaled b;
  s_nr_rtg_high_prio_tasks := s_nr_rtg_high_prio_tasks a + s_nr_rtg_high_prio_tasks b
|}.

Lemma scan_app q1 q2 : scan (q1 ++ q2) = stats_add (scan q1) (scan q2).
Proof. unfold scan, stats_add. cbn. by rewrite !zsum_app. Qed.

Lemma stats_add_swap a b d : stats_add a (stats_add b d) = stats_add b (stats_add a d).
Proof. unfold stats_add. cbn. f_equal; lia. Qed.

Lemma scan_middle q1 p q2 :
  scan (q1 ++ p :: q2) = stats_add (scan [p]) (scan (q1 ++ q2)).
Proof.
  change (p :: q2) with ([p] ++ q2). rewrite !scan_app. apply stats_add_swap.
Qed.

(** Every counter and sum has room for one more task. *)
Definition room (st : walt_sched_stats) : Prop :=
  0 <= s_nr_big_tasks st < INT_MAX /\ 0 <= s_nr_trailblazer_tasks st < INT_MAX /\
  0 <= s_nr_giant_tasks st < INT_MAX /\ 0 <= s_nr_rtg_high_prio_tasks st < INT_MAX /\
  0 <= s_cumulative_runnable_avg_scaled st < 2 ^ 62 /\
  0 <= s_pred_demands_sum_scaled st < 2 ^ 62.

Lemma fair_count_range b p : 0 <= fair_count b p <= 1.
Proof. unfold fair_count. case_match; [destruct (b _)|]; simpl; lia. Qed.

Lemma scan_room r q :
  Forall (queueable r) q -> Z.of_nat (length q) < INT_MAX -> room (scan q).
Proof.
  intros Hq Hl. unfold INT_MAX in *. rewrite Forall_forall in Hq.
  assert (forall b, 0 <= zsum (fair_count b) q < 2 ^ 31 - 1) as Hc.
  { intros b. pose proof (zsum_bounds (fair_count b) q 0 1
      (fun x _ => fair_count_range b x)). lia. }
  assert (forall f, (forall p, p ∈ q -> 0 <= f p <= 65535) -> 0 <= zsum f q < 2 ^ 62) as Hd.
  { intros f Hf. pose proof (zsum_bounds f q 0 65535 Hf). lia. }
  repeat split; cbn; try apply Hc; apply Hd;
    intros p Hp; destruct (Hq p Hp) as (_ & _ & ? & ?); lia.
Qed.

Lemma fixup_exact dd pd s :
  p_cpu (a_p s) = rq_cpu (a_rq s) ->
  0 <= s_cumulative_runnable_avg_scaled (w_walt_stats (a_wrq s)) + dd < 2 ^ 63 ->
  0 <= s_pred_demands_sum_scaled (w_walt_stats (a_wrq s)) + pd < 2 ^ 63 ->
  fixup_cumulative_runnable_avg dd pd s =
  on_stats (fun st => st
    <| s_cumulative_runnable_avg_scaled := s_cumulative_runnable_avg_scaled st + dd |>
    <| s_pred_demands_sum_scaled := s_pred_demands_sum_scaled st + pd |>) s.
Proof.
  intros Hcpu Hd Hp. unfold fixup_cumulative_runnable_avg.
  rewrite !s64_small by lia. rewrite Hcpu, Z.eqb_refl.
  rewrite !(proj2 (Z.ltb_ge _ 0)) by lia. reflexivity.
Qed.

(** The counters of a fair task. *)
Lemma scan_one_fair p : walt_fair_task p = true ->
  scan [p] = {|
    s_nr_big_tasks := Z.b2z (t_misfit (p_wts p));
    s_nr_trailblazer_tasks := Z.b2z (is_trailblazer (p_wts p));
    s_nr_giant_tasks := Z.b2z (is_giant (p_wts p));
    s_cumulative_runnable_avg_scaled := t_demand_scaled (p_wts p);
    s_pred_demands_sum_scaled := t_pred_demand_scaled (p_wts p);
    s_nr_rtg_high_prio_tasks := Z.b2z (t_rtg_high_prio (p_wts p)) |}.
Proof.
  intros Hf. unfold scan, fair_count. autorewrite with walt. rewrite Hf.
  f_equal; lia.
Qed.

Lemma scan_one_not_fair p : walt_fair_task p = false ->
  scan [p] = {|
    s_nr_big_tasks := 0; s_nr_trailblazer_tasks := 0; s_nr_giant_tasks := 0;
    s_cumulative_runnable_avg_scaled := t_demand_scaled (p_wts p);
    s_pred_demands_sum_scaled := t_pred_demand_scaled (p_wts p);
    s_nr_rtg_high_prio_tasks := 0 |}.
Proof.
  intros Hf. unfold scan, fair_count. autorewrite with walt. rewrite Hf.
  f_equal; lia.
Qed.

(** A conditional increment or decrement of a counter that has room for it is an
    addition; [s] is any state of the accounting. *)
Section Bumps.
Context (s : acct) (b : bool).
Local Abbreviation st := (w_walt_stats (a_wrq s)).

Ltac bump := intros Hr; unfold INT_MAX in *; destruct s as [? ? [? ? []] ?], b; cbn in *;
  unfold on_stats, on_wrq; cbn in *; wrap_simpl; do 3 f_equal; lia.

Lemma bump_big d : - 2 ^ 31 <= s_nr_big_tasks st + d <= INT_MAX ->
  (if b then on_stats (fun st => st <| s_nr_big_tasks := s32 (s_nr_big_tasks st + d) |>) s
   else s) =
  on_stats (fun st => st <| s_nr_big_tasks := s_nr_big_tasks st + Z.b2z b * d |>) s.
Proof. bump. Qed.

Lemma bump_trailblazer d : - 2 ^ 31 <= s_nr_trailblazer_tasks st + d <= INT_MAX ->
  (if b then on_stats (fun st => st <| s_nr_trailblazer_tasks :=
               s32 (s_nr_trailblazer_tasks st + d) |>) s
   else s) =
  on_stats (fun st => st <| s_nr_trailblazer_tasks :=
               s_nr_trailblazer_tasks st + Z.b2z b * d |>) s.
Proof. bump. Qed.

Lemma bump_giant d : - 2 ^ 31 <= s_nr_giant_tasks st + d <= INT_MAX ->
  (if b then on_stats (fun st => st <| s_nr_giant_tasks :=
               s32 (s_nr_giant_tasks st + d) |>) s
   else s) =
  on_stats (fun st => st <| s_nr_giant_tasks := s_nr_giant_tasks st + Z.b2z b * d |>) s.
Proof. bump. Qed.

Lemma bump_rtg d : (b = true -> 0 <= s_nr_rtg_high_prio_tasks st + d < 2 ^ 32) ->
  (if b then on_stats (fun st => st <| s_nr_rtg_high_prio_tasks :=
               u32 (s_nr_rtg_high_prio_tasks st + d) |>) s
   else s) =
  on_stats (fun st => st <| s_nr_rtg_high_prio_tasks :=
               s_nr_rtg_high_prio_tasks st + Z.b2z b * d |>) s.
Proof. bump. Qed.

End Bumps.

Lemma b2z_range b : 0 <= Z.b2z b <= 1.
Proof. destruct b; simpl; lia. Qed.

Definition enqueued (c : walt_cfg) (p : task_struct) : task_struct :=
  if walt_fair_task p
  then p <| p_wts := (p_wts p) <| t_rtg_high_prio := task_rtg_high_prio c p |> |> else p.

Lemma enqueued_queueable c r p : queueable r p -> queueable r (enqueued c p).
Proof. unfold enqueued. by destruct (walt_fair_task p). Qed.

Lemma inc_rq_walt_stats_exact c p r w log :
  room (w_walt_stats w) ->
  inc_rq_walt_stats c (mk_acct p r w log) =
  on_stats (fun st => st
    <| s_nr_big_tasks := s_nr_big_tasks st + Z.b2z (t_misfit (p_wts p)) |>
    <| s_nr_rtg_high_prio_tasks :=
         s_nr_rtg_high_prio_tasks st + Z.b2z (task_rtg_high_prio c p) |>
    <| s_nr_trailblazer_tasks := s_nr_trailblazer_tasks st + Z.b2z (is_trailblazer (p_wts p)) |>
    <| s_nr_giant_tasks := s_nr_giant_tasks st + Z.b2z (is_giant (p_wts p)) |>)
    (mk_acct (p <| p_wts := (p_wts p) <| t_rtg_high_prio := task_rtg_high_prio c p |> |>)
       r w log).
Proof.
  intros (H1 & H2 & H3 & H4 & _ & _). unfold inc_rq_walt_stats, INT_MAX in *.
  rewrite bump_big by (cbn; unfold INT_MAX; lia).
  rewrite bump_rtg by (cbn; intros; lia).
  rewrite bump_trailblazer by (cbn; unfold INT_MAX; lia).
  rewrite bump_giant by (cbn; unfold INT_MAX; lia).
  unfold on_stats, on_wrq, wts_of, is_trailblazer, is_giant. cbn.
  rewrite !Z.mul_1_r. reflexivity.
Qed.

Lemma enqueue_exact c r p w log :
  queueable r p -> room (w_walt_stats w) ->
  account_enqueue c (mk_acct p r w log) =
  mk_acct (enqueued c p) r
    (w <| w_walt_stats := stats_add (scan [enqueued c p]) (w_walt_stats w) |>) log.
Proof.
  intros (Hcpu & _ & Hd & Hp) Hroom. pose proof Hroom as (_ & _ & _ & _ & H5 & H6).
  unfold account_enqueue, walt_inc_cumulative_runnable_avg, enqueued. cbn [a_p].
  destruct (walt_fair_task p) eqn:Hf.
  - rewrite (scan_one_fair (p <| p_wts := _ |>)) by exact Hf.
    rewrite inc_rq_walt_stats_exact by done.
    rewrite fixup_exact by (cbn; try done; lia).
    unfold on_stats, on_wrq, wts_of, stats_add. cbn. do 3 f_equal; apply Z.add_comm.
  - rewrite scan_one_not_fair by done. rewrite fixup_exact by (cbn; try done; lia).
    unfold on_stats, on_wrq, wts_of, stats_add. cbn.
    destruct w as [? ? []]; cbn. do 3 f_equal; lia.
Qed.

Lemma dec_rq_walt_stats_exact p r w log st :
  room st -> walt_fair_task p = true -> w_walt_stats w = stats_add (scan [p]) st ->
  dec_rq_walt_stats (mk_acct p r w log) =
  mk_acct p r (w <| w_walt_stats := st
    <| s_cumulative_runnable_avg_scaled := s_cumulative_runnable_avg_scaled (w_walt_stats w) |>
    <| s_pred_demands_sum_scaled := s_pred_demands_sum_scaled (w_walt_stats w) |> |>) log.
Proof.
  intros (H1 & H2 & H3 & H4 & _ & _) Hf Hst. rewrite scan_one_fair in Hst by done.
  destruct st as [b0 tr0 g0 cra0 pds0 rtg0]. unfold stats_add in Hst. cbn in *.
  pose proof (b2z_range (t_misfit (p_wts p))).
  pose proof (b2z_range (is_trailblazer (p_wts p))).
  pose proof (b2z_range (is_giant (p_wts p))).
  pose proof (b2z_range (t_rtg_high_prio (p_wts p))).
  unfold dec_rq_walt_stats, INT_MAX, Z.sub in *.
  rewrite bump_big by (cbn; rewrite Hst; cbn; unfold INT_MAX; lia).
  rewrite bump_rtg by (cbn; rewrite Hst; cbn; intros ->; cbn; lia).
  rewrite bump_trailblazer by (cbn; rewrite Hst; cbn; unfold INT_MAX; lia).
  rewrite bump_giant by (cbn; rewrite Hst; cbn; unfold INT_MAX; lia).
  unfold on_stats, on_wrq, wts_of. cbn. rewrite Hst. cbn.
  assert (forall x y, x + y + x * - (1) = y) as Hcancel by lia.
  unfold is_trailblazer, is_giant in *. rewrite !Hcancel.
  rewrite (proj2 (Z.ltb_ge g0 0)) by lia. cbn.
  rewrite (proj2 (Z.ltb_ge b0 0)) by lia. cbn.
  rewrite (proj2 (Z.ltb_ge tr0 0)) by lia. reflexivity.
Qed.

Lemma dequeue_exact r p w log st :
  queueable r p -> room st -> w_walt_stats w = stats_add (scan [p]) st ->
  account_dequeue (mk_acct p r w log) = mk_acct p r (w <| w_walt_stats := st |>) log.
Proof.
  intros (Hcpu & _ & Hd & Hp) Hroom Hst. pose proof Hroom as (_ & _ & _ & _ & H5 & H6).
  unfold account_dequeue, walt_dec_cumulative_runnable_avg. cbn [a_p].
  destruct (walt_fair_task p) eqn:Hf.
  - rewrite (dec_rq_walt_stats_exact _ _ _ _ st) by done.
    rewrite scan_one_fair in Hst by done. destruct st. unfold stats_add in Hst. cbn in *.
    rewrite fixup_exact by (cbn; rewrite ?Hst; cbn; try done; lia).
    unfold on_stats, on_wrq, wts_of. cbn. rewrite Hst. cbn. do 3 f_equal; lia.
  - rewrite scan_one_not_fair in Hst by done. destruct st. unfold stats_add in Hst. cbn in *.
    rewrite fixup_exact by (cbn; rewrite ?Hst; cbn; try done; lia).
    unfold on_stats, on_wrq, wts_of. cbn. rewrite Hst. cbn. do 3 f_equal; lia.
Qed.

(** The giant flag and nothing else follows the new demand. *)
Definition giant_marked (c : walt_cfg) (d : Z) (t : walt_task_struct) : walt_task_struct :=
  if Bool.eqb (is_giant t) (is_giant_demand c d) then t
  else walt_flag_set t WALT_GIANT_BIT (is_giant_demand c d).

Lemma walt_flag_set_bit t k b j : 0 <= k -> 0 <= j ->
  walt_flag_test (walt_flag_set t (2 ^ k) b) (2 ^ j) =
  if k =? j then b else walt_flag_test t (2 ^ j).
Proof.
  intros Hk Hj. unfold walt_flag_test, walt_flag_set. cbn.
  assert (forall x n, 0 <= n -> negb (Z.land x (2 ^ n) =? 0) = Z.testbit x n) as Hb.
  { intros x n Hn. destruct (Z.testbit x n) eqn:E.
    - apply negb_true_iff, Z.eqb_neq. intros H.
      apply (f_equal (fun z => Z.testbit z n)) in H.
      rewrite Z.land_spec, E, Z.pow2_bits_true, Z.bits_0 in H by lia. done.
    - apply negb_false_iff, Z.eqb_eq. apply Z.bits_inj'. intros m Hm.
      rewrite Z.land_spec, Z.bits_0, Z.pow2_bits_eqb by lia.
      destruct (Z.eqb_spec n m) as [<-|]; [by rewrite E|apply andb_false_r]. }
  rewrite !Hb by lia. destruct b.
  - rewrite Z.lor_spec, Z.pow2_bits_eqb by lia.
    destruct (k =? j); [apply orb_true_r|apply orb_false_r].
  - rewrite Z.ldiff_spec, Z.pow2_bits_eqb by lia.
    destruct (k =? j); [apply andb_false_r|apply andb_true_r].
Qed.

Lemma giant_marked_spec c d t :
  is_giant (giant_marked c d t) = is_giant_demand c d /\
  is_trailblazer (giant_marked c d t) = is_trailblazer t /\
  walt_is_idle_task (giant_marked c d t) = walt_is_idle_task t.
Proof.
  unfold giant_marked, is_giant, is_trailblazer, walt_is_idle_task.
  destruct (Bool.eqb _ _) eqn:E.
  - apply eqb_prop in E. done.
  - change WALT_GIANT_BIT with (2 ^ 4). change WALT_TRAILBLAZER_BIT with (2 ^ 1).
    change WALT_IDLE_TASK_BIT with (2 ^ 2). by rewrite !walt_flag_set_bit by lia.
Qed.

Lemma fixup_nr_giant_exact c d p r w log g :
  0 <= g < INT_MAX -> s_nr_giant_tasks (w_walt_stats w) = Z.b2z (is_giant (p_wts p)) + g ->
  fixup_nr_giant c d (mk_acct p r w log) =
  mk_acct (p <| p_wts := giant_marked c d (p_wts p) |>) r
    (w <| w_walt_stats := (w_walt_stats w)
       <| s_nr_giant_tasks := Z.b2z (is_giant_demand c d) + g |> |>) log.
Proof.
  intros Hg Hst. unfold fixup_nr_giant, giant_marked, is_giant, INT_MAX in *. cbn.
  destruct w as [? ? []]; cbn in *; subst.
  destruct (is_giant_demand c d), (walt_flag_test (p_wts p) WALT_GIANT_BIT) eqn:E;
    unfold on_stats, on_wrq, on_wts; cbn; rewrite ?E; cbn.
  - by destruct p.
  - wrap_simpl. do 3 f_equal; lia.
  - wrap_simpl. rewrite (proj2 (Z.ltb_ge _ 0)) by lia. do 3 f_equal; lia.
  - by destruct p.
Qed.

Definition demanded (c : walt_cfg) (d pd : Z) (p : task_struct) : task_struct :=
  p <| p_wts := (if walt_fair_task p then giant_marked c d (p_wts p) else p_wts p)
        <| t_demand_scaled := d |> <| t_pred_demand_scaled := pd |> |>.

Lemma demanded_fair c d pd p : walt_fair_task (demanded c d pd p) = walt_fair_task p.
Proof.
  unfold walt_fair_task at 1, demanded. cbn.
  destruct (walt_fair_task p) eqn:Hf; [|exact Hf].
  destruct (giant_marked_spec c d (p_wts p)) as (_ & _ & H).
  transitivity (walt_fair_task p); [|done]. unfold walt_fair_task. by rewrite <- H.
Qed.

Lemma giant_marked_counters c d t :
  t_misfit (giant_marked c d t) = t_misfit t /\
  t_rtg_high_prio (giant_marked c d t) = t_rtg_high_prio t.
Proof. unfold giant_marked. by destruct (Bool.eqb _ _). Qed.

Lemma scan_one_demanded c d pd p : walt_fair_task p = true ->
  scan [demanded c d pd p] = {|
    s_nr_big_tasks := Z.b2z (t_misfit (p_wts p));
    s_nr_trailblazer_tasks := Z.b2z (is_trailblazer (p_wts p));
    s_nr_giant_tasks := Z.b2z (is_giant_demand c d);
    s_cumulative_runnable_avg_scaled := d;
    s_pred_demands_sum_scaled := pd;
    s_nr_rtg_high_prio_tasks := Z.b2z (t_rtg_high_prio (p_wts p)) |}.
Proof.
  intros Hf. rewrite scan_one_fair by (by rewrite demanded_fair).
  destruct (giant_marked_spec c d (p_wts p)) as (G1 & G2 & _).
  destruct (giant_marked_counters c d (p_wts p)) as (G3 & G4).
  unfold demanded. rewrite Hf. f_equal; f_equal; assumption.
Qed.

Lemma demand_exact c r p w log st d pd :
  queueable r p -> room st -> w_walt_stats w = stats_add (scan [p]) st ->
  0 <= d < 65536 -> 0 <= pd < 65536 ->
  account_demand c d pd (mk_acct p r w log) =
  mk_acct (demanded c d pd p) r
    (w <| w_walt_stats := stats_add (scan [demanded c d pd p]) st |>) log.
Proof.
  intros (Hcpu & Hscx & Hd & Hp) (H1 & H2 & H3 & H4 & H5 & H6) Hst Hd' Hpd'.
  unfold account_demand, fixup_walt_sched_stats_common. cbn [a_p]. rewrite Hscx.
  destruct st as [b0 tr0 g0 cra0 pds0 rtg0].
  destruct (walt_fair_task p) eqn:Hf.
  - rewrite scan_one_fair in Hst by done.
    rewrite scan_one_demanded by done. unfold stats_add in *. cbn in *.
    rewrite fixup_exact by (cbn; rewrite ?Hst; cbn; try done; lia).
    unfold on_stats, on_wrq. cbn. rewrite Hf.
    rewrite (fixup_nr_giant_exact _ _ _ _ _ _ g0) by (cbn; rewrite ?Hst; done).
    unfold demanded. rewrite Hf.
    unfold on_wts. cbn. rewrite Hst. cbn. do 3 f_equal; lia.
  - rewrite scan_one_not_fair in Hst by done.
    rewrite scan_one_not_fair by (by rewrite demanded_fair). unfold stats_add in *. cbn in *.
    rewrite fixup_exact by (cbn; rewrite ?Hst; cbn; try done; lia).
    unfold on_stats, on_wrq. cbn. rewrite Hf. unfold demanded. rewrite Hf.
    unfold on_wts. cbn. rewrite Hst. cbn. do 3 f_equal; lia.
Qed.

(** ** The invariant *)

Lemma queue_step_ok c r Q Q' : queue_ok r Q -> queue_step c r Q Q' -> queue_ok r Q'.
Proof.
  intros (Hq & Hl & Hs & Hb) Hstep.
  destruct Hstep as [q w log p s Hp Hlen <-|q1 p q2 w log s <-|q1 p q2 w log d pd s Hd Hpd <-];
    cbn in *.
  - rewrite enqueue_exact by (rewrite ?Hs; try apply (scan_room r); done). cbn.
    split; [constructor; [by apply enqueued_queueable|done]|].
    split; [cbn [length q_tasks]; lia|]. split; [|done]. rewrite Hs. symmetry. apply (scan_app [_]).
  - rewrite scan_middle in Hs. apply Forall_app in Hq as [Hq1 Hq2].
    apply Forall_cons in Hq2 as [Hp Hq2]. rewrite length_app in Hl. cbn [length] in Hl.
    assert (Forall (queueable r) (q1 ++ q2)) as Hq by (by apply Forall_app).
    assert (Z.of_nat (length (q1 ++ q2)) < INT_MAX) as Hl' by (rewrite length_app; lia).
    rewrite (dequeue_exact _ _ _ _ (scan (q1 ++ q2))); try done; [|by apply (scan_room r)].
    split; [done|]. split; [cbn [q_tasks]; lia|]. done.
  - rewrite scan_middle in Hs. apply Forall_app in Hq as [Hq1 Hq2].
    apply Forall_cons in Hq2 as [Hp Hq2]. rewrite length_app in Hl. cbn [length] in Hl.
    assert (Forall (queueable r) (q1 ++ q2)) as Hq by (by apply Forall_app).
    assert (Z.of_nat (length (q1 ++ q2)) < INT_MAX) as Hl' by (rewrite length_app; lia).
    rewrite (demand_exact _ _ _ _ _ (scan (q1 ++ q2))); try done; [|by apply (scan_room r)].
    split; cbn.
    { apply Forall_app. split; [done|]. constructor; [|done].
      destruct Hp as (? & ? & ?). unfold queueable, demanded. cbn. auto. }
    split; [cbn [q_tasks]; rewrite length_app; cbn [length]; lia|]. by rewrite scan_middle.
Qed.

(** C3. However tasks are queued on and removed from a run queue and their
    demands change meanwhile, the statistics the kernel maintains incrementally
    are those a scan of the queued tasks would compute, and none of the
    consistency checks on them (sums or counters going negative, a task of
    another run queue) ever fires. *)
Theorem stats_are_scan c r Q Q' :
  queue_ok r Q -> rtc (queue_step c r) Q Q' ->
  w_walt_stats (q_wrq Q') = scan (q_tasks Q') /\ no_bug (q_log Q').
Proof.
  intros HQ Hs. assert (queue_ok r Q') as (_ & _ & ? & ?); [|done].
  induction Hs; eauto using queue_step_ok.
Qed.

(** A change of a sum that would take it below zero is reported and leaves
    the sum at zero; otherwise the sum moves by exactly the change. *)
Theorem fixup_clamps dd pd s :
  let st := w_walt_stats (a_wrq s) in
  let s' := fixup_cumulative_runnable_avg dd pd s in
  let st' := w_walt_stats (a_wrq s') in
  p_cpu (a_p s) = rq_cpu (a_rq s) ->
  - 2 ^ 63 <= s_cumulative_runnable_avg_scaled st + dd < 2 ^ 63 ->
  - 2 ^ 63 <= s_pred_demands_sum_scaled st + pd < 2 ^ 63 ->
  s_cumulative_runnable_avg_scaled st' = Z.max 0 (s_cumulative_runnable_avg_scaled st + dd) /\
  s_pred_demands_sum_scaled st' = Z.max 0 (s_pred_demands_sum_scaled st + pd) /\
  (a_log s' = a_log s <-> 0 <= s_cumulative_runnable_avg_scaled st + dd /\
                          0 <= s_pred_demands_sum_scaled st + pd).
Proof.
  cbv zeta. intros Hcpu Hd Hp. unfold fixup_cumulative_runnable_avg.
  rewrite !s64_small by lia. rewrite Hcpu, Z.eqb_refl.
  unfold on_stats, on_wrq, emit_if, emit. cbn.
  assert (forall l (e : walt_effect) k, (l ++ [e]) ++ k <> l) as Hne.
  { intros l e k. rewrite <- app_assoc. intros H.
    apply (f_equal length) in H. rewrite length_app in H. cbn in H. lia. }
  destruct (Z.ltb_spec (s_cumulative_runnable_avg_scaled (w_walt_stats (a_wrq s)) + dd) 0),
    (Z.ltb_spec (s_pred_demands_sum_scaled (w_walt_stats (a_wrq s)) + pd) 0); cbn;
    (split; [lia|]; split; [lia|]; split; intros; try lia; try done).
  - by apply Hne in H1.
  - rewrite <- (app_nil_r (_ ++ _)) in H1. by apply Hne in H1.
  - rewrite <- (app_nil_r (_ ++ _)) in H1. by apply Hne in H1.
Qed.


(** A run: two tasks are queued, the demand of the first grows past the giant
    threshold, the second leaves. *)
Definition demo_rq : rq := mk_rq 4 1 0 0 0.
Definition zero_stats : walt_sched_stats := mk_stats 0 0 0 0 0 0.
Definition demo_wrq : walt_rq := {|
  w_cluster := 1; w_freq_domain_cpumask := 240; w_walt_stats := zero_stats;
  w_window_start := 0; w_prev_window_size := 16000000; w_ed_task := None;
  w_task_exec_scale := 1024; w_old_busy_time := 0; w_old_estimated_time := 0;
  w_rq_time := mk_gct 0 0 0 0; w_grp_time := mk_gct 0 0 0 0;
  w_load_subs := replicate 2 (mk_ls 0 0 0);
  w_top := mk_tt [] [] 0 0 0 0 0; w_notif_pending := false; w_last_cc_update := 0;
  w_cycles := 0; w_util := 0; w_latest_clock := 0; w_cpu_capacity_orig := 1024;
  w_lrb_pipeline_start_time := 0 |}.
Definition demo_task (id d pd : Z) : task_struct :=
  mk_task id 4 120 0 1 false true true false
    (zero_wts <| t_demand_scaled := d |> <| t_pred_demand_scaled := pd |>
              <| t_misfit := true |>).

Lemma stats_are_scan_witness :
  exists Q', rtc (queue_step sample_cfg demo_rq) (mk_queue [] demo_wrq []) Q' /\
    length (q_tasks Q') = 1%nat /\
    w_walt_stats (q_wrq Q') = mk_stats 1 0 1 600 600 0 /\ no_bug (q_log Q').
Proof.
  assert (exists Q', rtc (queue_step sample_cfg demo_rq) (mk_queue [] demo_wrq []) Q' /\
    length (q_tasks Q') = 1%nat /\ scan (q_tasks Q') = mk_stats 1 0 1 600 600 0) as
    (Q' & Hr & Hl & Hs).
  { eexists. split.
    - eapply rtc_l.
      { apply (step_enqueue _ _ [] _ _ (demo_task 1 200 210)); [by vm_compute|done|].
        vm_compute. reflexivity. }
      eapply rtc_l.
      { apply (step_enqueue _ _ _ _ _ (demo_task 2 100 100)); [by vm_compute|done|].
        vm_compute. reflexivity. }
      eapply rtc_l.
      { apply (step_demand _ _ [_] _ [] _ _ 600 600); [done|done|].
        vm_compute. reflexivity. }
      eapply rtc_l; [|apply rtc_refl].
      apply (step_dequeue _ _ [] _ [_]). vm_compute. reflexivity.
    - by vm_compute. }
  exists Q'. split; [done|]. split; [done|].
  destruct (stats_are_scan sample_cfg demo_rq (mk_queue [] demo_wrq []) Q') as [H1 H2].
  - split; [constructor|]. split; [done|]. split; [reflexivity|constructor].
  - exact Hr.
  - split; [by rewrite H1|exact H2].
Defined.

Lemma fixup_clamps_witness :
  let s' := fixup_cumulative_runnable_avg (- 10) 5 (mk_acct (demo_task 1 10 5) demo_rq demo_wrq []) in
  s_cumulative_runnable_avg_scaled (w_walt_stats (a_wrq s')) = 0 /\
  s_pred_demands_sum_scaled (w_walt_stats (a_wrq s')) = 5 /\ a_log s' <> [].
Proof.
  destruct (fixup_clamps (- 10) 5 (mk_acct (demo_task 1 10 5) demo_rq demo_wrq []))
    as (H1 & H2 & H3); [done|cbn; lia|cbn; lia|].
  split; [exact H1|]. split; [exact H2|]. intros H. apply H3 in H. cbn in H. lia.
Defined.

End QueueStats.
