(* ===== verification/Predict.v ===== *)
(** * Predicted demand

    Every task keeps sixteen saturating counters, one per range of busy time,
    and a bitmask of the non-empty ones; the demand of the next window is
    predicted from the lowest non-empty range at or above the current busy
    time. Models [bucket_increase], [busy_to_bucket], [get_pred_busy],
    [predict_and_update_buckets] and [update_task_pred_demand] of [walt.c]. *)

From Stdlib Require Import ZArith Lia ZifyBool.
From stdpp Require Import base list.
From S2P Require Import Prelude WaltTypes Stats.

(** ** Operations *)

Definition INC_STEP : Z := 8.
Definition DEC_STEP : Z := 2.
Definition CONSISTENT_THRES : Z := 16.
Definition INC_STEP_BIG : Z := 16.

(** One iteration of the loop of [bucket_increase]. *)
Definition bucket_increase_step (idx i : Z) (b : list Z * Z) : list Z * Z :=
  let '(buckets, bucket_bitmask) := b in
  if negb (idx =? i) then
    if DEC_STEP <? aget buckets i
    then (aset buckets i (u8 (aget buckets i - DEC_STEP)), bucket_bitmask)
    else (aset buckets i 0, Z.ldiff bucket_bitmask (Z.shiftl 1 i))
  else
    let step := if CONSISTENT_THRES <=? aget buckets i then INC_STEP_BIG else INC_STEP in
    (if U8_MAX - step <? aget buckets i
     then aset buckets i U8_MAX
     else aset buckets i (u8 (aget buckets i + step)),
     u16 (Z.lor bucket_bitmask (Z.shiftl 1 i))).

Definition bucket_increase (buckets : list Z) (bucket_bitmask idx : Z) : list Z * Z :=
  for_range 0 (Z.to_nat NUM_BUSY_BUCKETS) (bucket_increase_step idx) (buckets, bucket_bitmask).

Definition busy_to_bucket (normalized_rt : Z) : Z :=
  let bidx := Z.shiftr normalized_rt (SCHED_CAPACITY_SHIFT - NUM_BUSY_BUCKETS_SHIFT) in
  let bidx := Z.min bidx (NUM_BUSY_BUCKETS - 1) in
  if bidx =? 0 then bidx + 1 else bidx.

(** [ffs] of a 16-bit value. *)
Definition ffs16 (x : Z) : Z :=
  if x =? 0 then 0 else find_next_bit x 16 0 + 1.

(** The search through the history: the first entry in [[dmin, dmax)]. *)
Fixpoint first_in_range (hist : list Z) (dmin dmax dflt : Z) : Z :=
  match hist with
  | [] => dflt
  | h :: hist => if (dmin <=? h) && (h <? dmax) then h else first_in_range hist dmin dmax dflt
  end.

Definition get_pred_busy (t : walt_task_struct) (start runtime_scaled bucket_bitmask : Z) : Z :=
  let next_mask := u16 (Z.shiftr bucket_bitmask start) in
  if is_new_task t then runtime_scaled else
  let first := if negb (next_mask =? 0) then ffs16 next_mask - 1 + start
               else NUM_BUSY_BUCKETS in
  if NUM_BUSY_BUCKETS <=? first then runtime_scaled else
  let '(dmin, final) :=
    if first <? 2 then (0, 1)
    else (u16 (Z.shiftl first (SCHED_CAPACITY_SHIFT - NUM_BUSY_BUCKETS_SHIFT)), first) in
  let dmax := u16 (Z.shiftl (final + 1) (SCHED_CAPACITY_SHIFT - NUM_BUSY_BUCKETS_SHIFT)) in
  let ret := first_in_range (t_sum_history_util t) dmin dmax runtime_scaled in
  let ret := if ret <? dmin then u16 (u32 (dmin + dmax) / 2) else ret in
  Z.max runtime_scaled ret.

Definition predict_and_update_buckets (t : walt_task_struct) (runtime_scaled : Z)
  : walt_task_struct * Z :=
  let bidx := busy_to_bucket runtime_scaled in
  let pred_demand_scaled := get_pred_busy t bidx runtime_scaled (t_bucket_bitmask t) in
  let '(buckets, mask) := bucket_increase (t_busy_buckets t) (t_bucket_bitmask t) bidx in
  (t <| t_busy_buckets := buckets |> <| t_bucket_bitmask := mask |>, u16 pred_demand_scaled).

Definition update_task_pred_demand (c : walt_cfg) (event : task_event) (s : acct) : acct :=
  if walt_is_idle_task (wts_of s) then s else
  if negb (event_eqb event PUT_PREV_TASK) && negb (event_eqb event TASK_UPDATE) &&
     (negb SCHED_FREQ_ACCOUNT_WAIT_TIME ||
      (negb (event_eqb event TASK_MIGRATE) && negb (event_eqb event PICK_NEXT_TASK)))
  then s else
  if event_eqb event TASK_UPDATE &&
     negb (task_is_runnable (a_p s)) && negb SCHED_FREQ_ACCOUNT_WAIT_TIME
  then s else
  let curr_window_scaled := u16 (scale_time_to_util c (t_curr_window (wts_of s))) in
  if curr_window_scaled <=? t_pred_demand_scaled (wts_of s) then s else
  let new_pred_demand_scaled :=
    u16 (get_pred_busy (wts_of s) (busy_to_bucket curr_window_scaled)
           curr_window_scaled (t_bucket_bitmask (wts_of s))) in
  let s := if task_on_rq_queued (a_p s) && task_is_runnable (a_p s)
           then fixup_walt_sched_stats_common c (t_demand_scaled (wts_of s))
                  new_pred_demand_scaled s
           else s in
  on_wts (fun t => t <| t_pred_demand_scaled := new_pred_demand_scaled |>) s.

#[global] Arguments bucket_increase_step : simpl never.
#[global] Arguments bucket_increase : simpl never.
#[global] Arguments busy_to_bucket : simpl never.
#[global] Arguments get_pred_busy : simpl never.

(** ** The counters *)

Module Buckets.

(** The bitmask has exactly the bits of the non-empty counters. *)
Record ok (buckets : list Z) (mask : Z) : Prop := mk_ok {
  ok_length : Z.of_nat (length buckets) = NUM_BUSY_BUCKETS;
  ok_range : forall i, 0 <= i < NUM_BUSY_BUCKETS -> 0 <= aget buckets i <= U8_MAX;
  ok_mask : forall i, 0 <= i -> Z.testbit mask i = (i <? NUM_BUSY_BUCKETS) && (0 <? aget buckets i);
  ok_pos : 0 <= mask
}.

(** Value of a counter after a window whose busy time fell into [idx]. *)
Definition next_count (idx i b : Z) : Z :=
  if idx =? i
  then Z.min U8_MAX (b + if CONSISTENT_THRES <=? b then INC_STEP_BIG else INC_STEP)
  else Z.max 0 (b - DEC_STEP).

Lemma testbit_one i j : 0 <= i -> Z.testbit (Z.shiftl 1 i) j = (i =? j).
Proof. intros. rewrite Z.shiftl_1_l. apply Z.pow2_bits_eqb. done. Qed.

Lemma u16_testbit x i : 0 <= i -> Z.testbit (u16 x) i = Z.testbit x i && (i <? 16).
Proof.
  intros Hi. unfold u16, wrapu. destruct (Z.ltb_spec i 16).
  - rewrite Z.mod_pow2_bits_low by lia. by rewrite andb_true_r.
  - rewrite Z.mod_pow2_bits_high by lia. by rewrite andb_false_r.
Qed.

Lemma bucket_increase_step_spec idx i buckets mask :
  ok buckets mask -> 0 <= i < NUM_BUSY_BUCKETS ->
  let '(buckets', mask') := bucket_increase_step idx i (buckets, mask) in
  ok buckets' mask' /\
  (forall j, 0 <= j -> aget buckets' j =
     if i =? j then next_count idx i (aget buckets i) else aget buckets j).
Proof.
  intros [Hl Hr Hm Hp] Hi. pose proof (Hr i Hi) as Hb. unfold NUM_BUSY_BUCKETS, U8_MAX in *.
  unfold bucket_increase_step.
  set (v := next_count idx i (aget buckets i)).
  assert (0 <= v <= 255) as Hv.
  { unfold v, next_count, U8_MAX, DEC_STEP, INC_STEP, INC_STEP_BIG. repeat case_if; lia. }
  assert (forall m', 0 <= m' -> (forall j, 0 <= j -> Z.testbit m' j =
      if i =? j then 0 <? v else Z.testbit mask j) -> ok (aset buckets i v) m') as Hok.
  { intros m' Hp' Hm'. split; [by rewrite length_aset| |intros j Hj|done].
    - intros j Hj. rewrite aget_aset by lia. case_if; [done|apply Hr; done].
    - rewrite Hm', Hm, aget_aset by lia. unfold NUM_BUSY_BUCKETS.
      destruct (Z.eqb_spec i j) as [<-|]; [|done]. by rewrite (proj2 (Z.ltb_lt i 16)) by lia. }
  assert (forall m', 0 <= m' -> (forall j, 0 <= j -> Z.testbit m' j =
      if i =? j then 0 <? v else Z.testbit mask j) ->
      ok (aset buckets i v) m' /\
      forall j, 0 <= j -> aget (aset buckets i v) j = if i =? j then v else aget buckets j) as Hgo.
  { intros m' Hp' Hm'. split; [by apply Hok|]. intros j Hj. apply aget_aset; lia. }
  clear Hok. unfold v, next_count, U8_MAX, DEC_STEP, INC_STEP, INC_STEP_BIG, CONSISTENT_THRES in *.
  destruct (Z.eqb_spec idx i) as [->|Hne]; cbn [negb].
  - set (step := if 16 <=? aget buckets i then 16 else 8) in *.
    assert (8 <= step <= 16) by (unfold step; case_if; lia).
    replace (if 255 - step <? aget buckets i then aset buckets i 255
             else aset buckets i (u8 (aget buckets i + step)))
      with (aset buckets i (Z.min 255 (aget buckets i + step)))
      by (destruct (Z.ltb_spec (255 - step) (aget buckets i)); wrap_simpl; f_equal; lia).
    apply Hgo; [apply u16_range|].
    intros j Hj. rewrite u16_testbit, Z.lor_spec, testbit_one, Hm by lia.
    unfold NUM_BUSY_BUCKETS. destruct (Z.eqb_spec i j) as [<-|]; [|destruct (j <? 16); lia].
    rewrite orb_true_r. lia.
  - destruct (Z.ltb_spec 2 (aget buckets i)).
    + rewrite u8_small by lia. replace (aset buckets i (aget buckets i - 2))
        with (aset buckets i (Z.max 0 (aget buckets i - 2))) by (f_equal; lia).
      apply Hgo; [done|]. intros j Hj. destruct (Z.eqb_spec i j) as [<-|]; [|done].
      rewrite Hm by lia. unfold NUM_BUSY_BUCKETS. lia.
    + replace (aset buckets i 0) with (aset buckets i (Z.max 0 (aget buckets i - 2)))
        by (f_equal; lia).
      apply Hgo; [apply Z.ldiff_nonneg; lia|]. intros j Hj.
      rewrite Z.ldiff_spec, testbit_one by lia. destruct (Z.eqb_spec i j) as [<-|].
      * rewrite andb_false_r. lia.
      * by rewrite andb_true_r.
Qed.

Lemma bucket_increase_spec idx buckets mask :
  ok buckets mask ->
  let '(buckets', mask') := bucket_increase buckets mask idx in
  ok buckets' mask' /\
  (forall j, 0 <= j < NUM_BUSY_BUCKETS -> aget buckets' j = next_count idx j (aget buckets j)).
Proof.
  intros Hok.
  pose proof (for_range_ind (fun i '(bk, m) => ok bk m /\
     (forall j, 0 <= j < i -> aget bk j = next_count idx j (aget buckets j)) /\
     (forall j, i <= j -> aget bk j = aget buckets j))
     0 (Z.to_nat NUM_BUSY_BUCKETS) (bucket_increase_step idx) (buckets, mask)) as H.
  unfold bucket_increase. destruct (for_range _ _ _ _) as [bk' m'].
  destruct H as (H1 & H2 & H3); [split; [done|split; intros; [lia|done]]| |split; [done|exact H2]].
  intros i [bk m] Hi (H1 & H2 & H3).
  pose proof (bucket_increase_step_spec idx i bk m H1 Hi) as H.
  destruct (bucket_increase_step idx i (bk, m)) as [bk1 m1]. destruct H as [H4 H5].
  split; [done|]. split; intros j Hj; rewrite H5 by lia.
  - destruct (Z.eqb_spec i j) as [->|]; [|apply H2; lia]. by rewrite H3 by lia.
  - rewrite (proj2 (Z.eqb_neq i j)) by lia. apply H3. lia.
Qed.

End Buckets.

(** ** The prediction, by its definition

    The reference looks at the counters themselves. *)

Module Prediction.

Definition bucket_lo (b : Z) : Z := if b <? 2 then 0 else b * 64.
Definition bucket_hi (b : Z) : Z := (Z.max b 1 + 1) * 64.

Definition first_bucket (buckets : list Z) (start : Z) : option Z :=
  find (fun b => 0 <? aget buckets b) (seqZ start (NUM_BUSY_BUCKETS - start)).

Definition reference (t : walt_task_struct) (runtime : Z) : Z :=
  match first_bucket (t_busy_buckets t) (busy_to_bucket runtime) with
  | None => runtime
  | Some b =>
      match find (fun h => (bucket_lo b <=? h) && (h <? bucket_hi b)) (t_sum_history_util t) with
      | Some h => Z.max runtime h
      | None => if runtime <? bucket_lo b then (bucket_lo b + bucket_hi b) / 2 else runtime
      end
  end.

Lemma find_seqZ_some (P : Z -> bool) s n b :
  s <= b < s + n -> P b = true -> (forall j, s <= j < b -> P j = false) ->
  find P (seqZ s n) = Some b.
Proof.
  intros Hb HP Hlow. remember (Z.to_nat (b - s)) as k eqn:Hk. revert s n Hb Hlow Hk.
  induction k as [|k IH]; intros s n Hb Hlow Hk; rewrite seqZ_cons by lia; cbn [find].
  - assert (s = b) as -> by lia. by rewrite HP.
  - rewrite Hlow by lia. apply IH; [lia|intros; apply Hlow; lia|lia].
Qed.

Lemma find_seqZ_none (P : Z -> bool) s n :
  (forall j, s <= j < s + n -> P j = false) -> find P (seqZ s n) = None.
Proof.
  intros Hlow. remember (Z.to_nat n) as k eqn:Hk. revert s n Hlow Hk.
  induction k as [|k IH]; intros s n Hlow Hk.
  - rewrite seqZ_nil by lia. done.
  - rewrite seqZ_cons by lia. cbn [find]. rewrite Hlow by lia.
    apply IH; [intros; apply Hlow; lia|lia].
Qed.

Lemma first_in_range_find hist lo hi d :
  first_in_range hist lo hi d =
  default d (find (fun h => (lo <=? h) && (h <? hi)) hist).
Proof. induction hist as [|h hist IH]; cbn; [done|]. case_if; done. Qed.

Lemma busy_to_bucket_range rt : 0 <= rt -> 1 <= busy_to_bucket rt < NUM_BUSY_BUCKETS.
Proof.
  intros Hrt. unfold busy_to_bucket, SCHED_CAPACITY_SHIFT, NUM_BUSY_BUCKETS_SHIFT, NUM_BUSY_BUCKETS.
  assert (0 <= Z.shiftr rt (10 - 4)) by (by apply Z.shiftr_nonneg).
  cbv zeta. case_if; lia.
Qed.

Lemma mask_bits_range buckets mask :
  Buckets.ok buckets mask -> 0 <= mask < 65536.
Proof.
  intros [Hl Hr Hm Hp]. split; [done|]. destruct (Z.eq_dec mask 0) as [->|Hne]; [lia|].
  destruct (Z.lt_ge_cases mask 65536) as [|Hge]; [done|]. exfalso.
  assert (16 <= Z.log2 mask) as Hlog by (apply Z.log2_le_pow2; lia).
  pose proof (Z.bit_log2 mask ltac:(lia)) as Hb. rewrite Hm in Hb by lia.
  unfold NUM_BUSY_BUCKETS in Hb. lia.
Qed.

(** The lowest set bit of the shifted mask is the lowest non-empty counter. *)
Lemma first_of_mask buckets mask start :
  Buckets.ok buckets mask -> 0 <= start < NUM_BUSY_BUCKETS ->
  let next_mask := u16 (Z.shiftr mask start) in
  let first := if negb (next_mask =? 0) then ffs16 next_mask - 1 + start
               else NUM_BUSY_BUCKETS in
  first_bucket buckets start = (if NUM_BUSY_BUCKETS <=? first then None else Some first) /\
  start <= first <= NUM_BUSY_BUCKETS.
Proof.
  intros Hok Hs. cbv zeta. pose proof (mask_bits_range _ _ Hok) as Hmr.
  destruct Hok as [Hl Hr Hm Hp]. unfold NUM_BUSY_BUCKETS in *.
  assert (0 <= Z.shiftr mask start < 65536) as Hsr.
  { split; [by apply Z.shiftr_nonneg|]. rewrite Z.shiftr_div_pow2 by lia.
    apply Z.div_lt_upper_bound; [lia|]. assert (0 < 2 ^ start) by lia. nia. }
  rewrite u16_small by done. unfold ffs16.
  assert (forall j, start <= j -> Z.testbit (Z.shiftr mask start) (j - start) =
     (j <? 16) && (0 <? aget buckets j)) as Hbit.
  { intros j Hj. rewrite Z.shiftr_spec, Hm by lia. by replace (j - start + start) with j by lia. }
  destruct (Z.eqb_spec (Z.shiftr mask start) 0) as [H0|H0]; cbn [negb].
  - split; [|lia]. apply find_seqZ_none. unfold NUM_BUSY_BUCKETS. intros j Hj.
    pose proof (Hbit j ltac:(lia)) as H. rewrite H0, Z.bits_0 in H. lia.
  - set (m := Z.shiftr mask start) in *.
    destruct (find_next_bit_spec m 16 0) as (F1 & F2 & F3); [lia|].
    set (f := find_next_bit m 16 0) in *.
    assert (f < 16) as Hf.
    { destruct (Z.lt_ge_cases f 16); [done|]. exfalso. apply H0. apply Z.bits_inj'. intros j Hj.
      rewrite Z.bits_0. destruct (Z.lt_ge_cases j 16); [apply F3; lia|].
      replace j with (j + start - start) by lia. rewrite Hbit by lia. lia. }
    pose proof (F2 Hf) as Hset. replace f with (f + start - start) in Hset by lia.
    rewrite Hbit in Hset by lia. replace (f + 1 - 1 + start) with (f + start) by lia.
    rewrite (proj2 (Z.leb_gt 16 (f + start))) by lia. split; [|lia].
    apply find_seqZ_some; [unfold NUM_BUSY_BUCKETS; lia|lia|]. intros j Hj.
    pose proof (F3 (j - start) ltac:(lia)) as H. rewrite Hbit in H by lia. lia.
Qed.

Lemma get_pred_busy_eq t runtime :
  Buckets.ok (t_busy_buckets t) (t_bucket_bitmask t) ->
  0 <= runtime < 65536 -> is_new_task t = false ->
  get_pred_busy t (busy_to_bucket runtime) runtime (t_bucket_bitmask t) = reference t runtime /\
  runtime <= reference t runtime.
Proof.
  intros Hok Hrt Hnew. pose proof (busy_to_bucket_range runtime ltac:(lia)) as Hb.
  destruct (first_of_mask _ _ (busy_to_bucket runtime) Hok ltac:(lia)) as [Hf Hr].
  unfold get_pred_busy, reference. rewrite Hnew, Hf. cbv zeta in *. clear Hf.
  set (first := if negb _ then _ else _) in *. clearbody first.
  destruct (Z.leb_spec NUM_BUSY_BUCKETS first); [lia|].
  unfold bucket_lo, bucket_hi, NUM_BUSY_BUCKETS, SCHED_CAPACITY_SHIFT, NUM_BUSY_BUCKETS_SHIFT in *.
  set (lo := if first <? 2 then 0 else first * 64). set (hi := (Z.max first 1 + 1) * 64).
  assert ((if first <? 2 then (0, 1) else (u16 (Z.shiftl first (10 - 4)), first)) =
    (lo, Z.max first 1)) as ->.
  { unfold lo. destruct (Z.ltb_spec first 2); [f_equal; lia|].
    rewrite Z.shiftl_mul_pow2 by lia. rewrite u16_small by lia. f_equal; lia. }
  cbv beta iota zeta. rewrite Z.shiftl_mul_pow2 by lia. change (2 ^ (10 - 4)) with 64.
  rewrite u16_small by lia. fold hi.
  assert (0 <= lo < hi /\ hi <= 1024) by (unfold lo, hi; case_if; lia).
  rewrite first_in_range_find.
  destruct (find _ (t_sum_history_util t)) as [h|] eqn:Hfind; cbn [from_option id].
  - apply find_some in Hfind as [_ Hh]. rewrite (proj2 (Z.ltb_ge h lo)) by lia. lia.
  - rewrite u32_small by lia. pose proof (Z.div_mod (lo + hi) 2 ltac:(lia)).
    pose proof (Z.mod_pos_bound (lo + hi) 2 ltac:(lia)).
    rewrite u16_small by lia. case_if; lia.
Qed.

Lemma get_pred_busy_range t runtime :
  Buckets.ok (t_busy_buckets t) (t_bucket_bitmask t) -> 0 <= runtime < 65536 ->
  runtime <= get_pred_busy t (busy_to_bucket runtime) runtime (t_bucket_bitmask t)
          <= Z.max runtime 1024.
Proof.
  intros Hok Hrt. destruct (is_new_task t) eqn:Hnew.
  { unfold get_pred_busy. rewrite Hnew. lia. }
  destruct (get_pred_busy_eq t runtime Hok Hrt Hnew) as [-> Hle]. split; [done|].
  unfold reference, first_bucket in *.
  destruct (find _ _) as [b|] eqn:Hb; [|lia]. apply find_some in Hb as [Hin _].
  apply list_elem_of_In, elem_of_seqZ in Hin.
  pose proof (busy_to_bucket_range runtime ltac:(lia)).
  assert (0 <= bucket_lo b < bucket_hi b /\ bucket_hi b <= 1024).
  { unfold bucket_lo, bucket_hi, NUM_BUSY_BUCKETS in *. case_if; lia. }
  destruct (find _ (t_sum_history_util t)) as [h|] eqn:Hfind.
  - apply find_some in Hfind as [_ Hh]. lia.
  - pose proof (Z.div_mod (bucket_lo b + bucket_hi b) 2 ltac:(lia)).
    pose proof (Z.mod_pos_bound (bucket_lo b + bucket_hi b) 2 ltac:(lia)). case_if; lia.
Qed.


(** Events for which the busy time of the window counts for the prediction. *)
Definition predicted_event (event : task_event) (p : task_struct) : bool :=
  event_eqb event PUT_PREV_TASK ||
  (event_eqb event TASK_UPDATE && task_is_runnable p).

Lemma giant_marked_demand c d t :
  t_demand_scaled (QueueStats.giant_marked c d t) = t_demand_scaled t.
Proof. unfold QueueStats.giant_marked. by destruct (Bool.eqb _ _). Qed.

Lemma fixup_stats_demand c d pd s :
  t_demand_scaled (wts_of (fixup_walt_sched_stats_common c d pd s)) = t_demand_scaled (wts_of s).
Proof.
  unfold fixup_walt_sched_stats_common. destruct (task_on_scx _); [done|].
  set (f := fixup_cumulative_runnable_avg _ _ _).
  assert (wts_of f = wts_of s) as E.
  { unfold f, fixup_cumulative_runnable_avg, on_stats, on_wrq, emit_if, emit.
    repeat case_if; done. }
  unfold wts_of in *. destruct (walt_fair_task (a_p f)); [|by rewrite E].
  unfold fixup_nr_giant, on_stats, on_wrq, on_wts.
  repeat case_if; cbn; by rewrite <- E.
Qed.

(** A change of the prediction of a queued task is one of the demand changes the
    run-queue statistics are shown to follow. *)
Lemma pred_store_is_account c pd s :
  on_wts (fun t => t <| t_pred_demand_scaled := pd |>)
    (fixup_walt_sched_stats_common c (t_demand_scaled (wts_of s)) pd s) =
  QueueStats.account_demand c (t_demand_scaled (wts_of s)) pd s.
Proof.
  unfold QueueStats.account_demand.
  pose proof (fixup_stats_demand c (t_demand_scaled (wts_of s)) pd s) as H.
  set (s' := fixup_walt_sched_stats_common _ _ _ s) in *. clearbody s'.
  unfold on_wts. rewrite <- H. destruct s' as [[]]. cbn. by destruct p_wts.
Qed.

(** At the end of a slice and at an update of a runnable task the predicted
    demand is raised to at least the busy time of the current window, never
    lowered and never past a full CPU; for a queued task the change is passed on
    to the statistics of its run queue. On any other event nothing changes. *)
Theorem update_task_pred_demand_spec c event s :
  let t := wts_of s in
  let cws := scale_time_to_util c (t_curr_window t) in
  let s' := update_task_pred_demand c event s in
  Buckets.ok (t_busy_buckets t) (t_bucket_bitmask t) -> 0 <= cws < 65536 ->
  walt_is_idle_task t = false ->
  if predicted_event event (a_p s) && (t_pred_demand_scaled t <? cws) then
    exists pd, cws <= pd <= Z.max cws 1024 /\
      s' = if task_on_rq_queued (a_p s) && task_is_runnable (a_p s)
           then QueueStats.account_demand c (t_demand_scaled t) pd s
           else on_wts (fun t => t <| t_pred_demand_scaled := pd |>) s
  else s' = s.
Proof.
  cbv zeta. intros Hok Hc Hidle. unfold update_task_pred_demand. rewrite Hidle.
  unfold predicted_event, SCHED_FREQ_ACCOUNT_WAIT_TIME. cbn [negb orb].
  rewrite (u16_small (scale_time_to_util c _)) by done.
  rewrite !andb_true_r. rewrite Z.ltb_antisym.
  unfold wts_of in *.
  destruct event; cbn [event_eqb negb andb orb]; try done.
  - destruct (_ <=? _) eqn:Hle; cbn [negb]; [done|].
    pose proof (get_pred_busy_range (p_wts (a_p s)) _ Hok Hc) as Hr.
    eexists. split; [|case_if; [apply pred_store_is_account|reflexivity]].
    rewrite u16_small by lia. lia.
  - destruct (task_is_runnable (a_p s)); cbn [negb andb]; [|done].
    destruct (_ <=? _) eqn:Hle; cbn [negb]; [done|].
    pose proof (get_pred_busy_range (p_wts (a_p s)) _ Hok Hc) as Hr.
    eexists. split; [|case_if; [apply pred_store_is_account|reflexivity]].
    rewrite u16_small by lia. lia.
Qed.

(** When a window closes, the counter of the bucket its busy time falls into
    grows by a step that is larger once the counter is consistent, saturating at
    255, and every other counter decays towards zero; the bitmask stays the set of
    non-empty counters, and the prediction made from the old counters is at least
    the busy time and at most the larger of it and a full CPU. *)
Theorem predict_and_update_buckets_spec t runtime t' pred :
  Buckets.ok (t_busy_buckets t) (t_bucket_bitmask t) -> 0 <= runtime < 65536 ->
  predict_and_update_buckets t runtime = (t', pred) ->
  Buckets.ok (t_busy_buckets t') (t_bucket_bitmask t') /\
  (forall j, 0 <= j < NUM_BUSY_BUCKETS ->
     aget (t_busy_buckets t') j =
     Buckets.next_count (busy_to_bucket runtime) j (aget (t_busy_buckets t) j)) /\
  Z.testbit (t_bucket_bitmask t') (busy_to_bucket runtime) = true /\
  runtime <= pred <= Z.max runtime 1024.
Proof.
  intros Hok Hrt. unfold predict_and_update_buckets.
  pose proof (get_pred_busy_range t runtime Hok Hrt) as Hp.
  pose proof (busy_to_bucket_range runtime ltac:(lia)) as Hb.
  pose proof (Buckets.bucket_increase_spec (busy_to_bucket runtime) _ _ Hok) as Hi.
  destruct (bucket_increase _ _ _) as [bk m]. destruct Hi as [Hok' Hn].
  intros [= <- <-]. cbn. rewrite u16_small by lia.
  split; [done|]. split; [done|]. split; [|done].
  rewrite (Buckets.ok_mask _ _ Hok'), Hn by lia.
  pose proof (Buckets.ok_range _ _ Hok (busy_to_bucket runtime) ltac:(lia)).
  unfold Buckets.next_count, U8_MAX, INC_STEP, INC_STEP_BIG in *.
  rewrite Z.eqb_refl. case_if; lia.
Qed.

(** The history entries of a full window, 1024, fall outside the range of the
    highest bucket although [busy_to_bucket] puts them there. *)
Definition busy_task : walt_task_struct :=
  zero_wts <| t_active_time := NEW_TASK_ACTIVE_TIME |>
    <| t_sum_history_util := replicate 5 1024 |>
    <| t_busy_buckets := aset (replicate 16 0) 15 255 |> <| t_bucket_bitmask := 32768 |>.

Lemma busy_task_ok : Buckets.ok (t_busy_buckets busy_task) (t_bucket_bitmask busy_task).
Proof.
  change (t_busy_buckets busy_task) with (aset (replicate 16 0) 15 255).
  change (t_bucket_bitmask busy_task) with (2 ^ 15).
  assert (forall i, 0 <= i -> aget (aset (replicate 16 0) 15 255) i = if 15 =? i then 255 else 0)
    as Hg by (intros i Hi; rewrite aget_aset, aget_replicate_0 by (rewrite ?length_replicate; lia); done).
  split; [done| | |done].
  - intros i Hi. rewrite Hg by lia. unfold U8_MAX. case_if; lia.
  - intros i Hi. rewrite Hg, Z.pow2_bits_eqb by lia.
    unfold NUM_BUSY_BUCKETS. destruct (Z.eqb_spec 15 i) as [<-|]; [done|].
    change (0 <? 0) with false. by rewrite andb_false_r.
Qed.


Definition busy_acct (cw : Z) : acct :=
  mk_acct (mk_task 1 4 120 0 1 false true true false (busy_task <| t_curr_window := cw |>))
    QueueStats.demo_rq QueueStats.demo_wrq [].

Lemma update_task_pred_demand_spec_witness :
  exists pd, 320 <= pd <= 1024 /\
    update_task_pred_demand sample_cfg PUT_PREV_TASK (busy_acct 5000000) =
    QueueStats.account_demand sample_cfg 0 pd (busy_acct 5000000).
Proof.
  destruct (update_task_pred_demand_spec sample_cfg PUT_PREV_TASK (busy_acct 5000000))
    as (pd & Hpd & E); [apply busy_task_ok|by vm_compute|done|].
  exists pd. split; [exact Hpd|exact E].
Defined.

Lemma predict_and_update_buckets_spec_witness :
  let '(t', pred) := predict_and_update_buckets busy_task 640 in
  Buckets.ok (t_busy_buckets t') (t_bucket_bitmask t') /\ 640 <= pred <= 1024.
Proof.
  destruct (predict_and_update_buckets busy_task 640) as [t' pred] eqn:E.
  destruct (predict_and_update_buckets_spec busy_task 640 t' pred) as (H1 & _ & _ & H2);
    [apply busy_task_ok|lia|exact E|]. split; [exact H1|exact H2].
Defined.

(** A task whose last five windows were all fully busy (1024 of 1024) and whose
    only non-empty bucket is the highest is predicted at 992, the middle of the
    bucket, instead of the 1024 of its history: the history entry lies in the
    bucket by [busy_to_bucket] but not in the range searched. *)
Theorem get_pred_busy_misses_full_windows :
  busy_to_bucket 1024 = 15 /\ t_sum_history_util busy_task = replicate 5 1024 /\
  get_pred_busy busy_task (busy_to_bucket 100) 100 (t_bucket_bitmask busy_task) = 992.
Proof. by vm_compute. Qed.

End Prediction.
