(* ===== verification/Window.v ===== *)
(** * Windows of a run queue

    Time is cut into windows of [sched_ravg_window] nanoseconds; every run queue
    has a current window and rolls its busy-time counters over when a new one
    begins. A migration out of a cluster cannot lock all run queues of the
    cluster, so it leaves pending subtractions that the window roll-over work
    applies. Models [update_window_start], [rollover_cpu_window],
    [read_cycle_counter], [update_task_cpu_cycles], [account_load_subtractions],
    [create_subtraction_entry], [get_subtraction_index] and
    [update_rq_load_subtractions] of [walt.c]. *)

From Stdlib Require Import ZArith Lia ZifyBool.
From stdpp Require Import base list.
From S2P Require Import Prelude WaltTypes TopTasks Stats.

(** ** Operations *)

Definition rollover_cpu_window (full_window : bool) (w : walt_rq) : walt_rq :=
  let roll (g : group_cpu_time) :=
    {| g_curr_runnable_sum := 0;
       g_prev_runnable_sum := if full_window then 0 else g_curr_runnable_sum g;
       g_nt_curr_runnable_sum := 0;
       g_nt_prev_runnable_sum := if full_window then 0 else g_nt_curr_runnable_sum g |} in
  w <| w_rq_time := roll (w_rq_time w) |> <| w_grp_time := roll (w_grp_time w) |>.

(** Returns the old window start next to the new state. *)
Definition update_window_start (c : walt_cfg) (wallclock : Z) (s : acct) : acct * Z :=
  let old_window_start := w_window_start (a_wrq s) in
  let s := emit_if (wallclock <? w_latest_clock (a_wrq s)) (WALT_PANIC bug_clock_backwards) s in
  let delta := s64 (wallclock - w_window_start (a_wrq s)) in
  let s := emit_if (delta <? 0) (WALT_PANIC bug_before_window_start) s in
  let s := on_wrq (fun w => w <| w_latest_clock := wallclock |>) s in
  if delta <? sched_ravg_window c then (s, old_window_start) else
  let nr_windows := s32 (u64 delta / sched_ravg_window c) in
  let s := on_wrq (fun w => w
             <| w_window_start := u64 (w_window_start w + u64 (nr_windows * sched_ravg_window c)) |>
             <| w_prev_window_size := sched_ravg_window c |>) s in
  let full_window := 1 <? nr_windows in
  let s := on_wrq (rollover_cpu_window full_window) s in
  let s := on_wrq (fun w => w <| w_top := rollover_top_tasks full_window (w_top w) |>) s in
  let s := emit_if (rq_cpu (a_rq s) =? 0) (account_yields wallclock) s in
  (s, old_window_start).

Definition read_cycle_counter (c : walt_cfg) (cpu wallclock : Z) (w : walt_rq) : walt_rq :=
  if negb (w_last_cc_update w =? wallclock)
  then w <| w_cycles := walt_get_cycle_counts_cb c cpu wallclock |>
         <| w_last_cc_update := wallclock |>
  else w.

Definition update_task_cpu_cycles (c : walt_cfg) (cpu wallclock : Z) (s : acct) : acct :=
  if use_cycle_counter c then
    let s := on_wrq (read_cycle_counter c cpu wallclock) s in
    on_wts (fun t => t <| t_cpu_cycles := w_cycles (a_wrq s) |>) s
  else s.

(** [load_subs[i]] *)
Definition no_subs : load_subtractions := mk_ls 0 0 0.
Definition load_sub (w : walt_rq) (i : Z) : load_subtractions :=
  nth (Z.to_nat i) (w_load_subs w) no_subs.
Definition set_load_sub (w : walt_rq) (i : Z) (l : load_subtractions) : walt_rq :=
  w <| w_load_subs := <[Z.to_nat i := l]> (w_load_subs w) |>.

(** The consistency checks of one entry: the first loop of
    [account_load_subtractions]. *)
Definition load_sub_checks (w : walt_rq) (l : load_subtractions) : list walt_effect :=
  let ws := w_window_start w in
  let prev_ws := u64 (ws - w_prev_window_size w) in
  let g := w_rq_time w in
  if l_window_start l =? ws then
    (if g_curr_runnable_sum g <? l_subs l then [WALT_BUG bug_crs_underflow] else []) ++
    (if g_nt_curr_runnable_sum g <? l_new_subs l then [WALT_BUG bug_nt_crs_underflow] else [])
  else if l_window_start l =? prev_ws then
    (if g_prev_runnable_sum g <? l_subs l then [WALT_BUG bug_prs_underflow] else []) ++
    (if g_nt_prev_runnable_sum g <? l_new_subs l then [WALT_BUG bug_nt_prs_underflow] else [])
  else [].

(** One iteration of its second loop. *)
Definition apply_load_sub (i : Z) (w : walt_rq) : walt_rq :=
  let ws := w_window_start w in
  let prev_ws := u64 (ws - w_prev_window_size w) in
  let l := load_sub w i in
  let w := on_rq_time (fun g =>
    if l_window_start l =? ws then
      g <| g_curr_runnable_sum := sub_clamp (g_curr_runnable_sum g) (l_subs l) |>
        <| g_nt_curr_runnable_sum := sub_clamp (g_nt_curr_runnable_sum g) (l_new_subs l) |>
    else if l_window_start l =? prev_ws then
      g <| g_prev_runnable_sum := sub_clamp (g_prev_runnable_sum g) (l_subs l) |>
        <| g_nt_prev_runnable_sum := sub_clamp (g_nt_prev_runnable_sum g) (l_new_subs l) |>
    else g) w in
  set_load_sub w i (l <| l_subs := 0 |> <| l_new_subs := 0 |>).

Definition account_load_subtractions (w : walt_rq) : walt_rq * list walt_effect :=
  let checks := load_sub_checks w (load_sub w 0) ++ load_sub_checks w (load_sub w 1) in
  (for_range 0 (Z.to_nat NUM_TRACKED_WINDOWS) apply_load_sub w, checks).

Definition create_subtraction_entry (ws index : Z) (w : walt_rq) : walt_rq :=
  set_load_sub w index (mk_ls ws 0 0).

(** The scan of [get_subtraction_index] from entry [i] on: [inl i] is the early
    return, [inr oldest_index] the end of the loop. *)
Fixpoint subtraction_scan (n : nat) (i ws oldest oldest_index : Z) (w : walt_rq) : Z + Z :=
  match n with
  | O => inr oldest_index
  | S n =>
      let entry_ws := l_window_start (load_sub w i) in
      if ws =? entry_ws then inl i
      else if entry_ws <? oldest then subtraction_scan n (i + 1) ws entry_ws i w
      else subtraction_scan n (i + 1) ws oldest oldest_index w
  end.

Definition get_subtraction_index (ws : Z) (w : walt_rq) : walt_rq * Z :=
  match subtraction_scan (Z.to_nat NUM_TRACKED_WINDOWS) 0 ws U64_MAX 0 w with
  | inl i => (w, i)
  | inr oldest_index => (create_subtraction_entry ws oldest_index w, oldest_index)
  end.

Definition update_rq_load_subtractions (index sub_load : Z) (new_task : bool)
    (w : walt_rq) : walt_rq :=
  let l := load_sub w index in
  set_load_sub w index
    (l <| l_subs := u64 (l_subs l + sub_load) |>
       <| l_new_subs := if new_task then u64 (l_new_subs l + sub_load) else l_new_subs l |>).

#[global] Arguments rollover_cpu_window : simpl never.
#[global] Arguments update_window_start : simpl never.

(** ** The window of a run queue *)

Module Windows.

Section Advance.
Context (c : walt_cfg) (wallclock : Z) (s : acct).
Local Abbreviation w := (a_wrq s).
Local Abbreviation W := (sched_ravg_window c).

(** The clock is monotone, does not lie before the window, and fewer than 2^31
    windows passed since the run queue was last updated ([nr_windows] is an
    [int]). *)
Record clock_ok : Prop := mk_clock_ok {
  co_window : 0 < W < 2 ^ 32;
  co_latest : w_latest_clock w <= wallclock;
  co_start : 0 <= w_window_start w <= wallclock;
  co_clock : wallclock < 2 ^ 63;
  co_gap : wallclock - w_window_start w < 2 ^ 31 * W
}.

Definition elapsed : Z := (wallclock - w_window_start w) / W.

Lemma elapsed_spec : clock_ok ->
  0 <= elapsed < 2 ^ 31 /\
  elapsed * W <= wallclock - w_window_start w < elapsed * W + W.
Proof.
  intros [HW _ Hs _ Hg]. unfold elapsed.
  pose proof (Z.div_mod (wallclock - w_window_start w) W ltac:(lia)).
  pose proof (Z.mod_pos_bound (wallclock - w_window_start w) W ltac:(lia)).
  assert (0 <= (wallclock - w_window_start w) / W) by (apply Z.div_pos; lia).
  nia.
Qed.

(** What the advance does to the counters of the run queue. *)
Definition rolled (g : group_cpu_time) : group_cpu_time :=
  if elapsed =? 0 then g
  else if elapsed =? 1
  then mk_gct 0 (g_curr_runnable_sum g) 0 (g_nt_curr_runnable_sum g)
  else mk_gct 0 0 0 0.

Lemma rolled_eq g : 0 < elapsed ->
  {| g_curr_runnable_sum := 0;
     g_prev_runnable_sum := if 1 <? elapsed then 0 else g_curr_runnable_sum g;
     g_nt_curr_runnable_sum := 0;
     g_nt_prev_runnable_sum := if 1 <? elapsed then 0 else g_nt_curr_runnable_sum g |} =
  rolled g.
Proof.
  intros He. unfold rolled. rewrite (proj2 (Z.eqb_neq _ 0)) by lia.
  destruct (Z.eqb_spec elapsed 1) as [->|]; [done|].
  by rewrite (proj2 (Z.ltb_lt 1 elapsed)) by lia.
Qed.

(** The whole effect of a well-timed advance. *)
Lemma update_window_start_eq : clock_ok ->
  update_window_start c wallclock s =
  let w' := w <| w_latest_clock := wallclock |> in
  (if elapsed =? 0 then s <| a_wrq := w' |> else
   emit_if (rq_cpu (a_rq s) =? 0) (account_yields wallclock)
    (s <| a_wrq := w' <| w_window_start := w_window_start w + elapsed * W |>
                      <| w_prev_window_size := W |>
                      <| w_rq_time := rolled (w_rq_time w) |>
                      <| w_grp_time := rolled (w_grp_time w) |>
                      <| w_top := rollover_top_tasks (1 <? elapsed) (w_top w) |> |>),
   w_window_start w).
Proof.
  intros Hok. pose proof (elapsed_spec Hok) as [He Hew]. destruct Hok as [HW Hl Hs Hc Hg].
  unfold update_window_start. rewrite (proj2 (Z.ltb_ge wallclock _)) by lia.
  cbn [emit_if]. rewrite s64_small by lia.
  rewrite (proj2 (Z.ltb_ge (wallclock - _) 0)) by lia. cbn [emit_if].
  destruct (Z.eqb_spec elapsed 0) as [He0|He0].
  - rewrite (proj2 (Z.ltb_lt (wallclock - _) W)) by lia. done.
  - rewrite (proj2 (Z.ltb_ge (wallclock - _) W)) by nia.
    rewrite (u64_small (wallclock - _)) by lia. fold elapsed.
    rewrite (s32_small elapsed), (u64_small (elapsed * W)) by lia.
    unfold on_wrq, rollover_cpu_window. cbn. rewrite !rolled_eq by lia.
    rewrite (u64_small (w_window_start (a_wrq s) + _)) by nia. done.
Qed.

End Advance.

(** A run queue updated at a time that is not before its window moves to the
    window that contains that time: the window start advances by a whole number
    of windows, the clock lies in [[window_start, window_start + W)], the
    counters of the window that just ended become those of the previous window
    when exactly one window passed and are dropped when more did, the current
    ones start at zero, and no consistency check fires. *)
Theorem update_window_start_spec c wallclock s s' old :
  clock_ok c wallclock s -> update_window_start c wallclock s = (s', old) ->
  let w := a_wrq s in let w' := a_wrq s' in
  let n := elapsed c wallclock s in
  old = w_window_start w /\
  w_window_start w' = w_window_start w + n * sched_ravg_window c /\
  w_window_start w' <= wallclock < w_window_start w' + sched_ravg_window c /\
  w_latest_clock w' = wallclock /\
  w_rq_time w' = rolled c wallclock s (w_rq_time w) /\
  w_grp_time w' = rolled c wallclock s (w_grp_time w) /\
  (0 < n -> w_prev_window_size w' = sched_ravg_window c) /\
  a_p s' = a_p s /\ (no_bug (a_log s) -> no_bug (a_log s')).
Proof.
  intros Hok. pose proof (elapsed_spec _ _ _ Hok) as [He Hew].
  rewrite update_window_start_eq by done. cbv zeta. intros [= <- <-].
  unfold rolled, emit_if. destruct (Z.eqb_spec (elapsed c wallclock s) 0) as [E|E].
  - cbn. rewrite E in *. repeat split; try done; lia.
  - destruct (rq_cpu (a_rq s) =? 0); cbn; repeat split; try done; try lia.
    intros H. by apply no_bug_snoc.
Qed.

Definition demo_acct : acct :=
  mk_acct (QueueStats.demo_task 1 10 10) QueueStats.demo_rq
    (QueueStats.demo_wrq <| w_rq_time := mk_gct 5 6 3 4 |>) [].

Lemma update_window_start_spec_witness :
  let '(s', old) := update_window_start sample_cfg 20000000 demo_acct in
  w_window_start (a_wrq s') = 16000000 /\ w_rq_time (a_wrq s') = mk_gct 0 5 0 3.
Proof.
  destruct (update_window_start sample_cfg 20000000 demo_acct) as [s' old] eqn:E.
  destruct (update_window_start_spec sample_cfg 20000000 demo_acct s' old)
    as (_ & H1 & _ & _ & H2 & _); [split; by vm_compute|exact E|].
  split; [rewrite H1|rewrite H2]; vm_compute; reflexivity.
Defined.

End Windows.

(** ** Pending subtractions *)

Module LoadSubs.

(** What is still to be subtracted from the counters of the window [ws]. *)
Definition pending (w : walt_rq) (ws : Z) : Z :=
  zsum (fun l => if l_window_start l =? ws then l_subs l else 0) (w_load_subs w).
Definition pending_new (w : walt_rq) (ws : Z) : Z :=
  zsum (fun l => if l_window_start l =? ws then l_new_subs l else 0) (w_load_subs w).

Definition tracked (w : walt_rq) (ws : Z) : bool :=
  existsb (fun l => l_window_start l =? ws) (w_load_subs w).

(** Two entries, for different windows, or the zeroed ones of a run queue that
    has not been used yet; amounts are not negative. *)
Definition entry_ok (l : load_subtractions) : Prop :=
  0 <= l_window_start l < U64_MAX /\ 0 <= l_new_subs l <= l_subs l.
Record ok (w : walt_rq) : Prop := mk_ok {
  lo_len : length (w_load_subs w) = 2%nat;
  lo_pos : Forall entry_ok (w_load_subs w);
  lo_distinct : l_window_start (load_sub w 0) <> l_window_start (load_sub w 1) \/
                w_load_subs w = [no_subs; no_subs]
}.

Lemma ok_entries w : ok w ->
  exists l0 l1, w_load_subs w = [l0; l1] /\ entry_ok l0 /\ entry_ok l1 /\
    (l_window_start l0 <> l_window_start l1 \/ (l0 = no_subs /\ l1 = no_subs)).
Proof.
  intros [Hl Hp Hd]. unfold load_sub in Hd.
  destruct (w_load_subs w) as [|l0 [|l1 [|]]]; try done.
  exists l0, l1. split; [done|]. inversion Hp as [|? ? H0 H1']; subst.
  inversion H1' as [|? ? H1 _]; subst. split; [done|]. split; [done|].
  destruct Hd as [Hd|[= -> ->]]; [by left|by right].
Qed.

(** The two steps a migration takes to leave a subtraction behind. *)
Definition add_pending (ws sub_load : Z) (new_task : bool) (w : walt_rq) : walt_rq :=
  let '(w, index) := get_subtraction_index ws w in
  update_rq_load_subtractions index sub_load new_task w.

Definition bump (sub_load : Z) (new_task : bool) (l : load_subtractions) : load_subtractions :=
  mk_ls (l_window_start l) (u64 (l_subs l + sub_load))
    (if new_task then u64 (l_new_subs l + sub_load) else l_new_subs l).

(** The four outcomes of the scan. *)
Lemma add_pending_eq ws sub_load new_task w l0 l1 :
  w_load_subs w = [l0; l1] -> entry_ok l0 -> entry_ok l1 ->
  add_pending ws sub_load new_task w =
  w <| w_load_subs :=
    if ws =? l_window_start l0 then [bump sub_load new_task l0; l1]
    else if ws =? l_window_start l1 then [l0; bump sub_load new_task l1]
    else if l_window_start l1 <? l_window_start l0
    then [l0; bump sub_load new_task (mk_ls ws 0 0)]
    else [bump sub_load new_task (mk_ls ws 0 0); l1] |>.
Proof.
  intros El [H0 _] [H1 _]. unfold add_pending, get_subtraction_index, NUM_TRACKED_WINDOWS.
  change (Z.to_nat 2) with 2%nat. cbn [subtraction_scan]. unfold load_sub. rewrite El.
  change (Z.to_nat 0) with 0%nat. change (Z.to_nat (0 + 1)) with 1%nat. cbn [nth].
  rewrite (proj2 (Z.ltb_lt (l_window_start l0) U64_MAX)) by lia.
  unfold update_rq_load_subtractions, create_subtraction_entry, set_load_sub, load_sub, bump.
  destruct (ws =? l_window_start l0); [rewrite El; by destruct l0|].
  destruct (ws =? l_window_start l1); [cbn; rewrite El; by destruct l1|].
  destruct (l_window_start l1 <? l_window_start l0); cbn; rewrite El; done.
Qed.

Lemma bump_fits sub_load (new_task : bool) l :
  entry_ok l -> 0 <= sub_load -> l_subs l + sub_load < 2 ^ 64 ->
  bump sub_load new_task l = mk_ls (l_window_start l) (l_subs l + sub_load)
    (l_new_subs l + if new_task then sub_load else 0) /\ entry_ok (bump sub_load new_task l).
Proof.
  intros [H1 H2] Hs Hf. unfold bump, entry_ok. cbn.
  destruct new_task; wrap_simpl; (split; [f_equal; lia|lia]).
Qed.

#[local] Arguments bump : simpl never.

(** [w'] is [w] with [sub_load] added to what is pending for [ws]; the pending
    amounts of the windows in [kept] are not touched. *)
Definition adds (ws sub_load : Z) (new_task : bool) (kept : Z -> Prop) (w w' : walt_rq) : Prop :=
  ok w' /\ tracked w' ws = true /\
  pending w' ws = pending w ws + sub_load /\
  pending_new w' ws = pending_new w ws + (if new_task then sub_load else 0) /\
  (forall ws', ws' <> ws -> kept ws' ->
     pending w' ws' = pending w ws' /\ pending_new w' ws' = pending_new w ws') /\
  w_rq_time w' = w_rq_time w.

(** The entry that takes the amount is [l] before and [bump l] after; [o] is the
    other one; [sides] puts the two in the order of the array. *)
Section Replace.
Context (ws sub_load : Z) (new_task : bool) (w : walt_rq) (l o : load_subtractions).
Context (sides : load_subtractions -> load_subtractions -> list load_subtractions).
Hypothesis Hsides : (forall x y, sides x y = [x; y]) \/ (forall x y, sides x y = [y; x]).
Hypothesis Hl : entry_ok l.
Hypothesis Ho : entry_ok o.
Hypothesis Hws : l_window_start l = ws.
Hypothesis Hne : l_window_start o <> ws.
Hypothesis Hload : 0 <= sub_load.
Hypothesis Hfit : l_subs l + sub_load < 2 ^ 64.
Let w' := w <| w_load_subs := sides (bump sub_load new_task l) o |>.

Lemma replaced_ok : ok w'.
Proof.
  destruct (bump_fits sub_load new_task l) as [B1 B2]; [done..|].
  subst w'. split; cbn.
  - by destruct Hsides as [-> | ->].
  - destruct Hsides as [-> | ->]; (apply Forall_cons; split; [done|by apply Forall_singleton]).
  - left. unfold load_sub. change (Z.to_nat 0) with 0%nat. change (Z.to_nat 1) with 1%nat.
    cbn. destruct Hsides as [-> | ->]; cbn; rewrite B1; cbn; congruence.
Qed.

Lemma replaced_sums :
  tracked w' ws = true /\ pending w' ws = l_subs l + sub_load /\
  pending_new w' ws = l_new_subs l + (if new_task then sub_load else 0) /\
  (forall ws', ws' <> ws ->
     pending w' ws' = (if l_window_start o =? ws' then l_subs o else 0) /\
     pending_new w' ws' = (if l_window_start o =? ws' then l_new_subs o else 0)).
Proof.
  destruct (bump_fits sub_load new_task l) as [B1 B2]; [done..|].
  unfold tracked, pending, pending_new, zsum. subst w'. cbn.
  split; [|split; [|split]]; [..|intros ws' H];
    destruct Hsides as [-> | ->]; cbn; rewrite B1; cbn; rewrite Hws, ?Z.eqb_refl;
    rewrite ?(proj2 (Z.eqb_neq _ _) Hne), ?orb_true_r; try done; try lia;
    rewrite (proj2 (Z.eqb_neq ws ws')) by done; split; lia.
Qed.

Lemma replaced_adds (kept : Z -> Prop) :
  pending w ws = l_subs l -> pending_new w ws = l_new_subs l ->
  (forall ws', ws' <> ws -> kept ws' ->
     pending w ws' = (if l_window_start o =? ws' then l_subs o else 0) /\
     pending_new w ws' = (if l_window_start o =? ws' then l_new_subs o else 0)) ->
  adds ws sub_load new_task kept w w'.
Proof.
  intros H1 H2 Hother. destruct replaced_sums as (S1 & S2 & S3 & S4).
  split; [apply replaced_ok|]. rewrite H1, H2. do 3 (split; [done|]). split; [|done].
  intros ws' Hws' Hc. destruct (S4 ws' Hws') as [-> ->].
  destruct (Hother ws' Hws' Hc) as [-> ->]. done.
Qed.

End Replace.

(** The windows whose entry does not have to make room for one for [ws]. *)
Definition safe (w : walt_rq) (ws ws' : Z) : Prop :=
  tracked w ws = true \/ exists l, l ∈ w_load_subs w /\ l_window_start l < ws'.

Lemma safe_cases w ws ws' l0 l1 : w_load_subs w = [l0; l1] -> safe w ws ws' ->
  ws = l_window_start l0 \/ ws = l_window_start l1 \/
  l_window_start l0 < ws' \/ l_window_start l1 < ws'.
Proof.
  intros El [Ht|(x & Hx & Hlt)]; rewrite ?El in *.
  - unfold tracked in Ht. rewrite El in Ht. cbn in Ht. lia.
  - apply elem_of_cons in Hx as [->|Hx%list_elem_of_singleton]; [|subst]; lia.
Qed.

Lemma pending_entries w l0 l1 ws : w_load_subs w = [l0; l1] ->
  pending w ws = (if l_window_start l0 =? ws then l_subs l0 else 0) +
                 (if l_window_start l1 =? ws then l_subs l1 else 0) /\
  pending_new w ws = (if l_window_start l0 =? ws then l_new_subs l0 else 0) +
                     (if l_window_start l1 =? ws then l_new_subs l1 else 0).
Proof. intros El. unfold pending, pending_new, zsum. rewrite El. cbn. lia. Qed.

(** Decides a statement about the sums over two known entries. *)
Ltac entries El Hsafe Hd :=
  unfold entry_ok in *; intros;
  repeat match goal with H : safe _ _ _ |- _ => apply Hsafe in H end;
  rewrite ?(proj1 (pending_entries _ _ _ _ El)), ?(proj2 (pending_entries _ _ _ _ El)) in *;
  destruct Hd as [Hd|[-> ->]]; cbn in *;
  repeat match goal with
  | |- context [?a =? ?b] => destruct (Z.eqb_spec a b)
  | H : context [?a =? ?b] |- _ => destruct (Z.eqb_spec a b)
  end; lia.

Lemma add_pending_adds ws sub_load new_task w :
  ok w -> 0 < ws < U64_MAX -> 0 <= sub_load < 2 ^ 32 ->
  pending w ws + sub_load < 2 ^ 64 ->
  adds ws sub_load new_task (safe w ws) w (add_pending ws sub_load new_task w).
Proof.
  intros Hok Hws Hload Hfit.
  destruct (ok_entries w Hok) as (l0 & l1 & El & E0 & E1 & Hd).
  rewrite (add_pending_eq _ _ _ _ l0 l1) by done.
  assert (entry_ok (mk_ls ws 0 0)) as En by (unfold entry_ok; cbn; lia).
  pose proof (fun ws' => safe_cases w ws ws' l0 l1 El) as Hsafe.
  assert (l_subs no_subs = 0 /\ l_new_subs no_subs = 0 /\ l_window_start no_subs = 0) as Hz by done.
  destruct (Z.eqb_spec ws (l_window_start l0)) as [Ha|Ha].
  { apply (replaced_adds ws sub_load new_task w l0 l1 (fun x y => [x; y])); auto; entries El Hsafe Hd. }
  destruct (Z.eqb_spec ws (l_window_start l1)) as [Hb|Hb].
  { apply (replaced_adds ws sub_load new_task w l1 l0 (fun x y => [y; x])); auto; entries El Hsafe Hd. }
  destruct (Z.ltb_spec (l_window_start l1) (l_window_start l0)).
  - apply (replaced_adds ws sub_load new_task w (mk_ls ws 0 0) l0 (fun x y => [y; x]));
      auto; entries El Hsafe Hd.
  - apply (replaced_adds ws sub_load new_task w (mk_ls ws 0 0) l1 (fun x y => [x; y]));
      auto; entries El Hsafe Hd.
Qed.

Lemma add_pending_rest ws sub_load new_task w :
  ok w -> add_pending ws sub_load new_task w =
          w <| w_load_subs := w_load_subs (add_pending ws sub_load new_task w) |>.
Proof.
  intros Hok. destruct (ok_entries w Hok) as (l0 & l1 & El & E0 & E1 & _).
  by rewrite (add_pending_eq _ _ _ _ l0 l1).
Qed.

(** Leaving a subtraction for window [ws] adds exactly the amount to what is
    pending for that window; what is pending for any other window is kept unless
    the entry of that window is the oldest one and had to make room. *)
Theorem add_pending_spec ws sub_load new_task w :
  ok w -> 0 < ws < U64_MAX -> 0 <= sub_load < 2 ^ 32 ->
  pending w ws + sub_load < 2 ^ 64 ->
  adds ws sub_load new_task (safe w ws) w (add_pending ws sub_load new_task w).
Proof. apply add_pending_adds. Qed.

Definition prev_ws (w : walt_rq) : Z := w_window_start w - w_prev_window_size w.

Lemma sub_clamp_range a b : 0 <= b -> 0 <= a -> 0 <= sub_clamp a b <= a.
Proof. intros. rewrite sub_clamp_spec by done. lia. Qed.

(** C5. Applying the pending subtractions takes from the current and the previous
    counters exactly what is pending for the respective window, leaves nothing
    pending, and trips no consistency check as long as the counters hold what is
    to be taken from them. *)
Theorem account_load_subtractions_spec w w' log :
  ok w -> account_load_subtractions w = (w', log) ->
  0 <= prev_ws w < w_window_start w -> w_window_start w < 2 ^ 64 ->
  let g := w_rq_time w in
  pending w (w_window_start w) <= g_curr_runnable_sum g ->
  pending_new w (w_window_start w) <= g_nt_curr_runnable_sum g ->
  pending w (prev_ws w) <= g_prev_runnable_sum g ->
  pending_new w (prev_ws w) <= g_nt_prev_runnable_sum g ->
  log = [] /\
  w_rq_time w' = mk_gct
    (g_curr_runnable_sum g - pending w (w_window_start w))
    (g_prev_runnable_sum g - pending w (prev_ws w))
    (g_nt_curr_runnable_sum g - pending_new w (w_window_start w))
    (g_nt_prev_runnable_sum g - pending_new w (prev_ws w)) /\
  (forall ws, pending w' ws = 0 /\ pending_new w' ws = 0) /\
  w_grp_time w' = w_grp_time w.
Proof.
  intros Hok. destruct (ok_entries w Hok) as (l0 & l1 & El & E0 & E1 & _).
  unfold account_load_subtractions, NUM_TRACKED_WINDOWS. change (Z.to_nat 2) with 2%nat.
  cbn [for_range]. intros [= <- <-] Hpw Hws. cbv zeta.
  destruct (pending_entries w l0 l1 (w_window_start w) El) as [-> ->].
  destruct (pending_entries w l0 l1 (prev_ws w) El) as [-> ->].
  unfold load_sub_checks, load_sub, apply_load_sub, set_load_sub, load_sub, on_rq_time, prev_ws,
    entry_ok, pending, pending_new, zsum in *.
  change (Z.to_nat 0) with 0%nat. change (Z.to_nat (0 + 1)) with 1%nat.
  change (Z.to_nat 1) with 1%nat.
  cbn. rewrite El. cbn. rewrite !(u64_small (w_window_start w - _)) by lia.
  destruct (w_rq_time w) as [a b d e]. cbn.
  destruct (Z.eqb_spec (l_window_start l0) (w_window_start w)) as [F0|F0], 
    (Z.eqb_spec (l_window_start l1) (w_window_start w)) as [F1|F1];
  destruct (Z.eqb_spec (l_window_start l0) (w_window_start w - w_prev_window_size w)),
    (Z.eqb_spec (l_window_start l1) (w_window_start w - w_prev_window_size w)); try lia; cbn; intros.
  all: rewrite ?(proj2 (Z.ltb_ge _ _)) by lia.
  all: rewrite ?sub_clamp_exact by (rewrite ?sub_clamp_exact by lia; lia).
  all: split; [done|]; split; [f_equal; lia|]; split; [|done]; intros ws; cbn.
  all: repeat case_if; lia.
Qed.

(** A run queue in the window that starts at 32 ms, with 5 ms pending for the
    current and 3 ms for the previous window. *)
Definition demo_w : walt_rq :=
  QueueStats.demo_wrq <| w_window_start := 32000000 |>
    <| w_rq_time := mk_gct 7000000 9000000 7000000 1000000 |>
    <| w_load_subs := [mk_ls 16000000 3000000 1000000; mk_ls 32000000 5000000 0] |>.

Lemma demo_w_ok : ok demo_w.
Proof.
  split; [done| |by left].
  repeat (apply Forall_cons; split; [by vm_compute|]). by apply Forall_nil.
Qed.

Lemma add_pending_spec_witness :
  pending (add_pending 32000000 1000 true demo_w) 32000000 = 5001000 /\
  pending (add_pending 32000000 1000 true demo_w) 16000000 = 3000000.
Proof.
  destruct (add_pending_spec 32000000 1000 true demo_w) as (_ & _ & H1 & _ & H2 & _);
    [apply demo_w_ok|by vm_compute|lia|by vm_compute|].
  split; [exact H1|]. destruct (H2 16000000) as [H _]; [lia|by left|]. exact H.
Defined.

Lemma account_load_subtractions_spec_witness :
  w_rq_time (fst (account_load_subtractions demo_w)) = mk_gct 2000000 6000000 7000000 0.
Proof.
  destruct (account_load_subtractions demo_w) as [w' log] eqn:E.
  destruct (account_load_subtractions_spec demo_w w' log) as (_ & H & _);
    [apply demo_w_ok|exact E|by vm_compute..|]. exact H.
Defined.

End LoadSubs.
