(* ===== verification/Busy.v ===== *)
(** * Busy time of tasks and CPUs

    The time a task runs is charged to the busy counters of its CPU (or, for a
    task of a related thread group, to the group counters of the CPU) and to the
    task's own per-CPU contributions, split at window boundaries. Models
    [rollover_task_window], [cpu_is_waiting_on_io],
    [account_busy_for_cpu_time], [scale_exec_time] and [update_cpu_busy_time] of
    [walt.c]. *)

From Stdlib Require Import ZArith Lia ZifyBool.
From stdpp Require Import base list.
From S2P Require Import Prelude WaltTypes TopTasks Stats Window.

(** ** Operations *)

(** [task_pws] is [prev_window_size] of the run queue the task is on. *)
Definition rollover_task_window (c : walt_cfg) (task_pws : Z) (full_window : bool)
    (t : walt_task_struct) : walt_task_struct :=
  let '(curr_window, curr_cpu_windows) :=
    if full_window then (0, replicate (Z.to_nat WALT_NR_CPUS) 0)
    else (t_curr_window t, t_curr_window_cpu t) in
  let t := t <| t_prev_window := curr_window |> <| t_curr_window := 0 |> in
  let '(prev_cpu, curr_cpu) :=
    for_range 0 (Z.to_nat (nr_cpu_ids c))
      (fun i '(prev_cpu, curr_cpu) =>
         (aset prev_cpu i (aget (if full_window then curr_cpu_windows else curr_cpu) i),
          aset curr_cpu i 0))
      (t_prev_window_cpu t, t_curr_window_cpu t) in
  let t := t <| t_prev_window_cpu := prev_cpu |> <| t_curr_window_cpu := curr_cpu |> in
  if is_new_task t then t <| t_active_time := u64 (t_active_time t + task_pws) |> else t.

Definition cpu_is_waiting_on_io (c : walt_cfg) (r : rq) : bool :=
  if negb (sched_io_is_busy c) then false else negb (rq_nr_iowait r =? 0).

Definition account_busy_for_cpu_time (c : walt_cfg) (r : rq) (p : task_struct)
    (irqtime : Z) (event : task_event) : bool :=
  if walt_is_idle_task (p_wts p) then
    if event_eqb event PICK_NEXT_TASK then false
    else negb (irqtime =? 0) || cpu_is_waiting_on_io c r
  else
  if event_eqb event TASK_WAKE then false else
  if event_eqb event PUT_PREV_TASK || event_eqb event IRQ_UPDATE then true else
  if event_eqb event TASK_UPDATE then
    if rq_curr r =? p_id p then true
    else if task_is_runnable p then SCHED_FREQ_ACCOUNT_WAIT_TIME else false
  else SCHED_FREQ_ACCOUNT_WAIT_TIME.

Definition scale_exec_time (delta : Z) (w : walt_rq) (t : walt_task_struct) : Z :=
  let delta := Z.shiftr (u64 (delta * w_task_exec_scale w)) SCHED_CAPACITY_SHIFT in
  if negb (t_load_boost t =? 0) && task_in_related_thread_group t
  then Z.shiftr (u64 (delta * (1024 + t_boosted_task_load t))) 10
  else delta.

(** The counters the time of the task goes to, and the two ways of charging
    them. *)
Definition on_busy_time (t : walt_task_struct) (f : group_cpu_time -> group_cpu_time)
    (w : walt_rq) : walt_rq :=
  if task_in_related_thread_group t then on_grp_time f w else on_rq_time f w.

Definition add_curr (delta : Z) (new_task : bool) (g : group_cpu_time) : group_cpu_time :=
  let g := g <| g_curr_runnable_sum := u64 (g_curr_runnable_sum g + delta) |> in
  if new_task then g <| g_nt_curr_runnable_sum := u64 (g_nt_curr_runnable_sum g + delta) |>
  else g.

Definition add_prev (delta : Z) (new_task : bool) (g : group_cpu_time) : group_cpu_time :=
  let g := g <| g_prev_runnable_sum := u64 (g_prev_runnable_sum g + delta) |> in
  if new_task then g <| g_nt_prev_runnable_sum := u64 (g_nt_prev_runnable_sum g + delta) |>
  else g.

(** [wts->curr_window += delta; wts->curr_window_cpu[cpu] += delta] and the
    three like it. *)
Definition task_add_curr (cpu delta : Z) (t : walt_task_struct) : walt_task_struct :=
  t <| t_curr_window := u32 (t_curr_window t + delta) |>
    <| t_curr_window_cpu := aset (t_curr_window_cpu t) cpu
         (u32 (aget (t_curr_window_cpu t) cpu + delta)) |>.
Definition task_set_curr (cpu delta : Z) (t : walt_task_struct) : walt_task_struct :=
  t <| t_curr_window := u32 delta |>
    <| t_curr_window_cpu := aset (t_curr_window_cpu t) cpu (u32 delta) |>.
Definition task_add_prev (cpu delta : Z) (t : walt_task_struct) : walt_task_struct :=
  t <| t_prev_window := u32 (t_prev_window t + delta) |>
    <| t_prev_window_cpu := aset (t_prev_window_cpu t) cpu
         (u32 (aget (t_prev_window_cpu t) cpu + delta)) |>.
Definition task_set_prev (cpu delta : Z) (t : walt_task_struct) : walt_task_struct :=
  t <| t_prev_window := u32 delta |>
    <| t_prev_window_cpu := aset (t_prev_window_cpu t) cpu (u32 delta) |>.

Definition charge (f : group_cpu_time -> group_cpu_time) (s : acct) : acct :=
  on_wrq (on_busy_time (wts_of s) f) s.

(** Time that reaches back before the current window, split into the part of the
    previous and the part of the current window; the source has this code twice,
    for a task that is not the running one and for one that is, the second time
    leaving the window fields of the idle task alone. *)
Definition split_charge (touch : bool)
    (cpu mark_start window_start window_size wallclock : Z) (new_task full_window : bool)
    (s : acct) : acct :=
  let '(delta, s) :=
    if negb full_window then
      let delta := scale_exec_time (u64 (window_start - mark_start)) (a_wrq s) (wts_of s) in
      (delta, if touch then on_wts (task_add_prev cpu delta) s else s)
    else
      let delta := scale_exec_time window_size (a_wrq s) (wts_of s) in
      (delta, if touch then on_wts (task_set_prev cpu delta) s else s) in
  let s := charge (add_prev delta new_task) s in
  let delta := scale_exec_time (u64 (wallclock - window_start)) (a_wrq s) (wts_of s) in
  let s := charge (add_curr delta new_task) s in
  if touch then on_wts (task_set_curr cpu delta) s else s.

(** The label [done]. *)
Definition busy_done (c : walt_cfg) (old_curr_window : Z) (new_window full_window : bool)
    (s : acct) : acct :=
  if walt_is_idle_task (wts_of s) then s else
  on_wrq (fun w => w <| w_top := update_top_tasks c (wts_of s) old_curr_window
                                   new_window full_window (w_top w) |>) s.

Definition update_cpu_busy_time (c : walt_cfg) (task_pws : Z) (event : task_event)
    (wallclock irqtime : Z) (s : acct) : acct :=
  let r := a_rq s in
  let p_is_curr_task := p_id (a_p s) =? rq_curr r in
  let mark_start := t_mark_start (wts_of s) in
  let window_start := w_window_start (a_wrq s) in
  let window_size := u32 (w_prev_window_size (a_wrq s)) in
  let cpu := rq_cpu r in
  let old_curr_window := t_curr_window (wts_of s) in
  let idle := walt_is_idle_task (wts_of s) in
  let new_window := mark_start <? window_start in
  let full_window := new_window && (window_size <=? u64 (window_start - mark_start)) in
  let s :=
    if new_window then
      let s := if idle then s else on_wts (rollover_task_window c task_pws full_window) s in
      on_wts (fun t => t <| t_window_start := window_start |>) s
    else s in
  let new_task := is_new_task (wts_of s) in
  if negb (account_busy_for_cpu_time c r (a_p s) irqtime event)
  then busy_done c old_curr_window new_window full_window s else
  let s := emit_if (negb (t_window_start (wts_of s) =? w_window_start (a_wrq s)))
             (WALT_BUG bug_task_ws_mismatch) s in
  if negb new_window then
    let delta := if (irqtime =? 0) || negb idle || cpu_is_waiting_on_io c r
                 then u64 (wallclock - mark_start) else irqtime in
    let delta := scale_exec_time delta (a_wrq s) (wts_of s) in
    let s := charge (add_curr delta new_task) s in
    let s := if negb idle then on_wts (task_add_curr cpu delta) s else s in
    busy_done c old_curr_window new_window full_window s
  else if negb p_is_curr_task then
    busy_done c old_curr_window new_window full_window
      (split_charge true cpu mark_start window_start window_size wallclock new_task full_window s)
  else if (irqtime =? 0) || negb idle || cpu_is_waiting_on_io c r then
    busy_done c old_curr_window new_window full_window
      (split_charge (negb idle) cpu mark_start window_start window_size wallclock
         new_task full_window s)
  else if negb (irqtime =? 0) then
    let s := emit_if (negb idle) (WALT_PANIC bug_irqtime_not_idle) s in
    let mark_start := u64 (wallclock - irqtime) in
    if window_start <? mark_start then
      charge (add_curr (scale_exec_time irqtime (a_wrq s) (wts_of s)) false) s
    else
      let delta := u64 (window_start - mark_start) in
      let delta := if window_size <? delta then window_size else delta in
      let delta := scale_exec_time delta (a_wrq s) (wts_of s) in
      let s := charge (add_prev delta false) s in
      let delta := u64 (wallclock - window_start) in
      on_wrq (on_rq_time (add_curr (scale_exec_time delta (a_wrq s) (wts_of s)) false)) s
  else busy_done c old_curr_window new_window full_window s.

#[global] Arguments rollover_task_window : simpl never.
#[global] Arguments scale_exec_time : simpl never.
#[global] Arguments account_busy_for_cpu_time : simpl never.
#[global] Arguments update_cpu_busy_time : simpl never.
#[global] Arguments on_busy_time : simpl never.
#[global] Arguments busy_done : simpl never.

(** ** The busy time of a task *)

Module BusyTime.

Definition no_windows : list Z := replicate (Z.to_nat WALT_NR_CPUS) 0.

(** What the comments of [struct walt_task_struct] say of the window fields:
    [curr_window] and [prev_window] cover the per-CPU entries; the update time lies in the task's window, and no more than twice the elapsed
    time was charged (a task cannot be charged more than its boost, a factor of
    at most two). *)
Record task_ok (c : walt_cfg) (W : Z) (t : walt_task_struct) : Prop := mk_task_ok {
  tk_curr_len : length (t_curr_window_cpu t) = Z.to_nat WALT_NR_CPUS;
  tk_prev_len : length (t_prev_window_cpu t) = Z.to_nat WALT_NR_CPUS;
  tk_curr_pos : Forall (fun z => 0 <= z) (t_curr_window_cpu t);
  tk_prev_pos : Forall (fun z => 0 <= z) (t_prev_window_cpu t);
  tk_curr_sum : asum (t_curr_window_cpu t) <= t_curr_window t;
  tk_prev_sum : asum (t_prev_window_cpu t) <= t_prev_window t;
  tk_mark : t_window_start t <= t_mark_start t < t_window_start t + W;
  tk_start : 0 <= t_window_start t;
  tk_curr : t_curr_window t <= 2 * (t_mark_start t - t_window_start t);
  tk_prev : t_prev_window t <= 2 * W;
  tk_active : 0 <= t_active_time t
}.

(** The configuration: every CPU has an entry, windows are shorter than a
    second. *)
Record cfg_ok (c : walt_cfg) (W : Z) : Prop := mk_cfg_ok {
  ck_cpus : nr_cpu_ids c = WALT_NR_CPUS;
  ck_window : 0 < W <= 2 ^ 30
}.

(** The busy time of the task that no CPU accounts for: that of a task between the
    run queues of two clusters. A task is settled when there is none. *)
Definition stray_curr (t : walt_task_struct) : Z := t_curr_window t - asum (t_curr_window_cpu t).
Definition stray_prev (t : walt_task_struct) : Z := t_prev_window t - asum (t_prev_window_cpu t).
Definition settled (t : walt_task_struct) : Prop := stray_curr t = 0 /\ stray_prev t = 0.

(** The busy time of task [t] on CPU [i] in the window that starts at [x]. *)
Definition contrib (W : Z) (t : walt_task_struct) (i x : Z) : Z :=
  if x =? t_window_start t then aget (t_curr_window_cpu t) i
  else if x =? t_window_start t - W then aget (t_prev_window_cpu t) i
  else 0.

Lemma contrib_nonneg c W t i x : task_ok c W t -> 0 <= contrib W t i x.
Proof.
  intros H. unfold contrib. repeat case_if; [apply aget_nonneg, H..|lia].
Qed.

Lemma task_ok_ranges c W t : task_ok c W t ->
  0 <= t_curr_window t /\ 0 <= t_prev_window t.
Proof.
  intros H. pose proof (tk_curr_sum _ _ _ H). pose proof (tk_prev_sum _ _ _ H).
  pose proof (asum_nonneg _ (tk_curr_pos _ _ _ H)). pose proof (asum_nonneg _ (tk_prev_pos _ _ _ H)).
  lia.
Qed.

(** *** Roll-over of the task *)

(** The loop copies the old entries and clears them. *)
Lemma rollover_loop full (prev curr : list Z) :
  length prev = Z.to_nat WALT_NR_CPUS -> length curr = Z.to_nat WALT_NR_CPUS ->
  for_range 0 (Z.to_nat WALT_NR_CPUS)
    (fun i '(prev_cpu, curr_cpu) =>
       (aset prev_cpu i (aget (if full : bool then no_windows else curr_cpu) i),
        aset curr_cpu i 0)) (prev, curr) =
  (if full then no_windows else curr, no_windows).
Proof.
  intros Hp Hc. unfold WALT_NR_CPUS in *. change (Z.to_nat 8) with 8%nat in *.
  pose proof (for_range_ind (fun i '(p, q) => length p = 8%nat /\ length q = 8%nat /\
    (forall j, 0 <= j < i -> aget p j = (if full then 0 else aget curr j) /\ aget q j = 0) /\
    (forall j, i <= j -> aget q j = aget curr j)) 0 8
    (fun i '(prev_cpu, curr_cpu) =>
       (aset prev_cpu i (aget (if full then no_windows else curr_cpu) i),
        aset curr_cpu i 0)) (prev, curr)) as H.
  destruct (for_range _ _ _ _) as [p q]. destruct H as (H1 & H2 & H3 & _).
  { split; [done|]. split; [done|]. split; intros; [lia|done]. }
  { intros i [p' q'] Hi (L1 & L2 & H3 & H4). rewrite !length_aset.
    split; [done|]. split; [done|]. split; intros j Hj; rewrite ?aget_aset by lia.
    - destruct (Z.eqb_spec i j) as [->|]; [|apply H3; lia]. split; [|done].
      destruct full; [apply aget_replicate_0|apply H4; lia].
    - rewrite (proj2 (Z.eqb_neq i j)) by lia. apply H4. lia. }
  f_equal; apply aget_ext.
  - by destruct full; rewrite H1, ?Hc.
  - intros i Hi. rewrite (proj1 (H3 i ltac:(lia))). destruct full; [|done].
    symmetry. apply aget_replicate_0.
  - done.
  - intros i Hi. rewrite (proj2 (H3 i ltac:(lia))). symmetry. apply aget_replicate_0.
Qed.

Lemma rollover_task_window_eq c W pws full t :
  cfg_ok c W -> task_ok c W t ->
  rollover_task_window c pws full t =
  t <| t_prev_window := if full then 0 else t_curr_window t |> <| t_curr_window := 0 |>
    <| t_prev_window_cpu := if full then no_windows else t_curr_window_cpu t |>
    <| t_curr_window_cpu := no_windows |>
    <| t_active_time := if is_new_task t then u64 (t_active_time t + pws) else t_active_time t |>.
Proof.
  intros [Hn HW] Ht. unfold rollover_task_window. rewrite Hn.
  destruct full; cbn; fold no_windows.
  - rewrite (rollover_loop true) by apply Ht. change (is_new_task _) with (is_new_task t).
    cbn. destruct (is_new_task t); [done|by destruct t].
  - rewrite (rollover_loop false) by apply Ht.  cbn.
    change (is_new_task _) with (is_new_task t). destruct (is_new_task t); [done|by destruct t].
Qed.

(** *** The charge of a task that is not the idle task *)

(** Execution is scaled by at most 1, and boosted by at most a factor 2. *)
Record exec_ok (w : walt_rq) (t : walt_task_struct) : Prop := mk_exec_ok {
  ek_scale : 0 <= w_task_exec_scale w <= 1024;
  ek_boost : -1024 <= t_boosted_task_load t <= 1024
}.

Lemma scale_exec_time_bound d w t :
  exec_ok w t -> 0 <= d <= 2 ^ 40 -> 0 <= scale_exec_time d w t <= 2 * d.
Proof.
  intros [Hs Hb] Hd. unfold scale_exec_time, SCHED_CAPACITY_SHIFT.
  rewrite (u64_small (d * _)) by nia.
  assert (0 <= Z.shiftr (d * w_task_exec_scale w) 10 <= d) as Hx.
  { rewrite Z.shiftr_div_pow2 by lia. change (2 ^ 10) with 1024.
    split; [apply Z.div_pos; nia|]. apply Z.div_le_upper_bound; nia. }
  set (y := Z.shiftr _ 10) in *. case_if; [|lia].
  rewrite u64_small by nia. rewrite Z.shiftr_div_pow2 by lia. change (2 ^ 10) with 1024.
  split; [apply Z.div_pos; nia|]. apply Z.div_le_upper_bound; nia.
Qed.

Lemma scale_exec_time_ext d w w' t t' :
  w_task_exec_scale w' = w_task_exec_scale w -> t_load_boost t' = t_load_boost t ->
  t_boosted_task_load t' = t_boosted_task_load t -> t_grp t' = t_grp t ->
  scale_exec_time d w' t' = scale_exec_time d w t.
Proof.
  intros H1 H2 H3 H4. unfold scale_exec_time, task_in_related_thread_group.
  by rewrite H1, H2, H3, H4.
Qed.

Section Charge.
Context (c : walt_cfg) (W pws wallclock irqtime : Z) (event : task_event) (s : acct).
Local Abbreviation t := (p_wts (a_p s)).
Local Abbreviation w := (a_wrq s).
Local Abbreviation r := (a_rq s).
Local Abbreviation ws := (w_window_start (a_wrq s)).
Local Abbreviation ms := (t_mark_start (p_wts (a_p s))).
Local Abbreviation cpu := (rq_cpu (a_rq s)).

(** The run queue is in the window of [wallclock], the task was updated before,
    in the same or an earlier window of the same grid. *)
Record charge_ok : Prop := mk_charge_ok {
  ch_cfg : cfg_ok c W;
  ch_task : task_ok c W t;
  ch_exec : exec_ok w t;
  ch_idle : walt_is_idle_task t = false;
  ch_size : w_prev_window_size w = W;
  ch_cpu : 0 <= cpu < WALT_NR_CPUS;
  ch_now : ws <= wallclock < ws + W;
  ch_clock : ms <= wallclock < 2 ^ 63;
  ch_grid : (ws - t_window_start t) mod W = 0;
  ch_counters : forall g, g = w_rq_time w \/ g = w_grp_time w ->
    0 <= g_curr_runnable_sum g < 2 ^ 63 /\ 0 <= g_prev_runnable_sum g < 2 ^ 63 /\
    0 <= g_nt_curr_runnable_sum g < 2 ^ 63 /\ 0 <= g_nt_prev_runnable_sum g < 2 ^ 63
}.

Definition new_window : bool := ms <? ws.
Definition full_window : bool := new_window && (W <=? ws - ms).
Definition accounted : bool := account_busy_for_cpu_time c r (a_p s) irqtime event.

(** The task after its roll-over. *)
Definition rolled_task : walt_task_struct :=
  if new_window then (rollover_task_window c pws full_window t) <| t_window_start := ws |> else t.

(** Time charged to the current and to the previous window. *)
Definition busy_curr : Z :=
  if accounted then scale_exec_time (wallclock - (if new_window then ws else ms)) w t else 0.
Definition busy_prev : Z :=
  if accounted && new_window
  then scale_exec_time (if full_window then W else ws - ms) w t else 0.

Definition charged_task : walt_task_struct :=
  let t1 := rolled_task in
  t1 <| t_curr_window := t_curr_window t1 + busy_curr |>
     <| t_curr_window_cpu := aset (t_curr_window_cpu t1) cpu
          (aget (t_curr_window_cpu t1) cpu + busy_curr) |>
     <| t_prev_window := t_prev_window t1 + busy_prev |>
     <| t_prev_window_cpu := aset (t_prev_window_cpu t1) cpu
          (aget (t_prev_window_cpu t1) cpu + busy_prev) |>.

Definition charged_time (g : group_cpu_time) : group_cpu_time :=
  let n := Z.b2z (is_new_task rolled_task) in
  mk_gct (g_curr_runnable_sum g + busy_curr) (g_prev_runnable_sum g + busy_prev)
         (g_nt_curr_runnable_sum g + n * busy_curr) (g_nt_prev_runnable_sum g + n * busy_prev).

Lemma grid_cases : charge_ok ->
  (new_window = false /\ t_window_start t = ws) \/
  (new_window = true /\ full_window = false /\ t_window_start t = ws - W) \/
  (new_window = true /\ full_window = true /\ t_window_start t <= ms <= ws - W /\
   (t_window_start t = ws - W -> ms = t_window_start t)).
Proof.
  intros [[_ HW] Ht _ _ _ _ Hn Hc Hg _]. unfold full_window, new_window.
  destruct Ht as [_ _ _ _ _ _ Hm Hs _ _ _].
  apply Z.mod_divide in Hg as [k Hk]; [|lia].
  destruct (Z.ltb_spec ms ws); cbn [andb]; [right|left].
  - destruct (Z.leb_spec W (ws - ms)); [right|left]; (split; [done|]; split; [done|]); [nia|].
    assert (k = 1) as -> by nia. lia.
  - split; [done|]. assert (k < 1 /\ -1 < k) as Hk' by (split; nia).
    assert (k = 0) as -> by lia. lia.
Qed.

Lemma busy_bounds : charge_ok ->
  0 <= busy_curr <= 2 * (wallclock - (if new_window then ws else ms)) /\
  0 <= busy_prev <= 2 * (if new_window then (if full_window then W else ws - ms) else 0).
Proof.
  intros Hok. pose proof (grid_cases Hok) as Hg. destruct Hok as [[_ HW] Ht He _ _ _ Hn Hc _ _].
  pose proof (tk_mark _ _ _ Ht). pose proof (tk_start _ _ _ Ht).
  unfold busy_curr, busy_prev, full_window, new_window in *.
  split.
  - destruct accounted; cbv iota; [|destruct (Z.ltb_spec ms ws); lia]. apply scale_exec_time_bound; [done|].
    destruct (Z.ltb_spec ms ws); lia.
  - destruct accounted; cbn [andb]; cbv iota;
      [|destruct (Z.ltb_spec ms ws), (Z.leb_spec W (ws - ms)); cbn [andb]; lia].
    destruct (Z.ltb_spec ms ws); cbn [andb] in *; [|lia].
    apply scale_exec_time_bound; [done|]. destruct (Z.leb_spec W (ws - ms)); lia.
Qed.

Lemma rolled_task_fields : charge_ok ->
  t_window_start rolled_task = ws /\
  t_curr_window_cpu rolled_task = (if new_window then no_windows else t_curr_window_cpu t) /\
  t_curr_window rolled_task = (if new_window then 0 else t_curr_window t) /\
  t_prev_window_cpu rolled_task =
    (if new_window then if full_window then no_windows else t_curr_window_cpu t
     else t_prev_window_cpu t) /\
  t_prev_window rolled_task =
    (if new_window then if full_window then 0 else t_curr_window t else t_prev_window t).
Proof.
  intros Hok. pose proof (grid_cases Hok) as Hg. destruct Hok as [Hcfg Ht _ _ _ _ _ _ _ _].
  unfold rolled_task. rewrite (rollover_task_window_eq c W) by done.
  destruct new_window; cbn; [by destruct full_window|].
  repeat split. destruct Hg as [[_ ->]|[[? _]|[? _]]]; done.
Qed.

Lemma no_windows_get i : aget no_windows i = 0.
Proof. apply aget_replicate_0. Qed.

Lemma curr_empty : charge_ok -> ms = t_window_start t ->
  forall i, aget (t_curr_window_cpu t) i = 0.
Proof.
  intros [_ Ht _ _ _ _ _ _ _ _] Hm i.
  pose proof (asum_bound _ i (tk_curr_pos _ _ _ Ht)) as Hb.
  pose proof (aget_nonneg _ i (tk_curr_pos _ _ _ Ht)).
  pose proof (tk_curr_sum _ _ _ Ht). pose proof (tk_curr _ _ _ Ht). lia.
Qed.

(** The contributions of the task on its CPU grow by the charge, the others and
    those on the other CPUs stay what they are. *)
Lemma charged_contrib i x : charge_ok -> 0 <= i < WALT_NR_CPUS -> ws - W <= x ->
  contrib W charged_task i x =
  contrib W t i x +
  if i =? cpu then if x =? ws then busy_curr else if x =? ws - W then busy_prev else 0 else 0.
Proof.
  intros Hok Hi Hx. pose proof (rolled_task_fields Hok) as (F1 & F2 & F3 & F4 & F5).
  pose proof (grid_cases Hok) as Hg. pose proof (curr_empty Hok) as Hempty.
  destruct Hok as [[_ HW] Ht _ _ _ Hcpu _ _ _ _].
  assert (length (t_curr_window_cpu rolled_task) = 8%nat /\
          length (t_prev_window_cpu rolled_task) = 8%nat) as [L1 L2].
  { rewrite F2, F4. destruct Ht. by destruct new_window, full_window. }
  unfold WALT_NR_CPUS in *. unfold contrib, charged_task. cbn. rewrite F1.
  rewrite !aget_aset by lia. rewrite F2, F4.
  unfold busy_prev. destruct Hg as [[-> ->]|[(-> & -> & ->)|(-> & -> & Hm & He)]];
    rewrite ?andb_false_r, ?no_windows_get.
  - rewrite (Z.eqb_sym cpu i).
    destruct (Z.eqb_spec x ws), (Z.eqb_spec x (ws - W)), (Z.eqb_spec i cpu); subst; lia.
  - rewrite (Z.eqb_sym cpu i). rewrite (proj2 (Z.eqb_neq x (ws - W - W))) by lia.
    destruct (Z.eqb_spec x ws), (Z.eqb_spec x (ws - W)), (Z.eqb_spec i cpu); subst; lia.
  - rewrite (Z.eqb_sym cpu i). rewrite (proj2 (Z.eqb_neq x (t_window_start t - W))) by lia.
    assert ((if x =? t_window_start t then aget (t_curr_window_cpu t) i else 0) = 0) as ->.
    { destruct (Z.eqb_spec x (t_window_start t)); [|done]. apply Hempty. lia. }
    destruct (Z.eqb_spec x ws), (Z.eqb_spec x (ws - W)), (Z.eqb_spec i cpu); subst; lia.
Qed.

Lemma rolled_arrays : charge_ok ->
  length (t_curr_window_cpu rolled_task) = Z.to_nat WALT_NR_CPUS /\
  length (t_prev_window_cpu rolled_task) = Z.to_nat WALT_NR_CPUS /\
  Forall (fun z => 0 <= z) (t_curr_window_cpu rolled_task) /\
  Forall (fun z => 0 <= z) (t_prev_window_cpu rolled_task) /\
  asum (t_curr_window_cpu rolled_task) <= t_curr_window rolled_task /\
  asum (t_prev_window_cpu rolled_task) <= t_prev_window rolled_task /\
  0 <= t_active_time rolled_task.
Proof.
  intros Hok. pose proof (rolled_task_fields Hok) as (F1 & F2 & F3 & F4 & F5).
  destruct Hok as [Hcfg Ht _ _ _ _ _ _ _ _].
  assert (0 <= t_active_time rolled_task) as Ha.
  { unfold rolled_task. rewrite (rollover_task_window_eq c W) by done.
    destruct Ht. destruct new_window; cbn; [|done]. wrap_ranges. case_if; lia. }
  rewrite F2, F3, F4, F5.
  assert (Forall (fun z => 0 <= z) no_windows) by (by apply Forall_replicate).
  assert (asum no_windows = 0) as Hz by done.
  destruct Ht. by destruct new_window, full_window; repeat split.
Qed.

(** The invariant of the task holds again once its update time is stored. *)
Lemma charged_task_ok : charge_ok -> task_ok c W (charged_task <| t_mark_start := wallclock |>).
Proof.
  intros Hok. pose proof (rolled_task_fields Hok) as (F1 & _ & F3 & _ & F5).
  pose proof (rolled_arrays Hok) as (A1 & A2 & A3 & A4 & A5 & A6 & A7).
  pose proof (busy_bounds Hok) as [Hbc Hbp]. pose proof (grid_cases Hok) as Hg.
  destruct Hok as [[_ HW] Ht _ _ _ Hcpu Hn Hc _ _].
  pose proof (tk_mark _ _ _ Ht). pose proof (tk_start _ _ _ Ht).
  pose proof (tk_curr _ _ _ Ht). pose proof (tk_prev _ _ _ Ht).
  unfold WALT_NR_CPUS in *.
  unfold charged_task. split; cbn; rewrite ?length_aset; try done.
  - apply Forall_aset; [done|]. pose proof (aget_nonneg _ cpu A3). lia.
  - apply Forall_aset; [done|]. pose proof (aget_nonneg _ cpu A4). lia.
  - rewrite asum_aset by lia. lia.
  - rewrite asum_aset by lia. lia.
  - rewrite F1. lia.
  - rewrite F1. lia.
  - rewrite F1, F3. destruct Hg as [[E1 E]|[(E1 & E2 & E)|(E1 & E2 & Hm & He)]];
      rewrite ?E1, ?E2 in *; lia.
  - rewrite F5. destruct Hg as [[E1 E]|[(E1 & E2 & E)|(E1 & E2 & Hm & He)]];
      rewrite ?E1, ?E2 in *; lia.
Qed.

(** Time no CPU accounts for rolls over with the task and is never created. *)
Lemma charged_strays : charge_ok ->
  stray_curr charged_task = (if new_window then 0 else stray_curr t) /\
  stray_prev charged_task =
    (if new_window then if full_window then 0 else stray_curr t else stray_prev t).
Proof.
  intros Hok. pose proof (rolled_task_fields Hok) as (_ & F2 & F3 & F4 & F5).
  pose proof (rolled_arrays Hok) as (A1 & A2 & _). pose proof (ch_cpu Hok).
  unfold stray_curr, stray_prev, charged_task. cbn. unfold WALT_NR_CPUS in *.
  rewrite !asum_aset by lia. rewrite F2, F3, F4, F5.
  assert (asum no_windows = 0) by done.
  destruct new_window, full_window; lia.
Qed.

Lemma rolled_task_same :
  t_flags rolled_task = t_flags t /\ t_load_boost rolled_task = t_load_boost t /\
  t_boosted_task_load rolled_task = t_boosted_task_load t /\ t_grp rolled_task = t_grp t.
Proof.
  unfold rolled_task, rollover_task_window. destruct new_window; [|done].
  repeat (match goal with |- context [let '(_, _) := ?x in _] => destruct x end; cbn).
  case_if; done.
Qed.

Lemma account_busy_ext t' : t_flags t' = t_flags t ->
  account_busy_for_cpu_time c r ((a_p s) <| p_wts := t' |>) irqtime event = accounted.
Proof.
  intros Hf. unfold accounted, account_busy_for_cpu_time, walt_is_idle_task, walt_flag_test.
  cbn. by rewrite Hf.
Qed.

Lemma scale_rolled d w' t' :
  w_task_exec_scale w' = w_task_exec_scale w -> t_load_boost t' = t_load_boost rolled_task ->
  t_boosted_task_load t' = t_boosted_task_load rolled_task -> t_grp t' = t_grp rolled_task ->
  scale_exec_time d w' t' = scale_exec_time d w t.
Proof.
  destruct rolled_task_same as (_ & R1 & R2 & R3). intros H1 H2 H3 H4.
  apply scale_exec_time_ext; congruence.
Qed.

(** The state between the roll-over of the task and the charge. *)
Definition rolled_acct : acct := s <| a_p := (a_p s) <| p_wts := rolled_task |> |>.

Lemma on_busy_time_twice (t' : walt_task_struct) f g w' :
  on_busy_time t' f (on_busy_time t' g w') = on_busy_time t' (fun x => f (g x)) w'.
Proof. unfold on_busy_time. by destruct (task_in_related_thread_group t'). Qed.

Lemma on_busy_time_ext (t' t'' : walt_task_struct) f g w' :
  t_grp t' = t_grp t'' ->
  (forall x, x = w_rq_time w' \/ x = w_grp_time w' -> f x = g x) ->
  on_busy_time t' f w' = on_busy_time t'' g w'.
Proof.
  intros Ht H. unfold on_busy_time, task_in_related_thread_group, on_grp_time, on_rq_time.
  rewrite Ht. destruct (t_grp t''); by rewrite H by auto.
Qed.

Lemma add_curr_fits d (n : bool) g :
  0 <= d < 2 ^ 32 -> 0 <= g_curr_runnable_sum g < 2 ^ 63 ->
  0 <= g_nt_curr_runnable_sum g < 2 ^ 63 ->
  add_curr d n g = mk_gct (g_curr_runnable_sum g + d) (g_prev_runnable_sum g)
    (g_nt_curr_runnable_sum g + Z.b2z n * d) (g_nt_prev_runnable_sum g).
Proof.
  intros Hd H1 H2. unfold add_curr. destruct g, n; cbn in *; wrap_simpl; f_equal; lia.
Qed.

Lemma add_prev_fits d (n : bool) g :
  0 <= d < 2 ^ 32 -> 0 <= g_prev_runnable_sum g < 2 ^ 63 ->
  0 <= g_nt_prev_runnable_sum g < 2 ^ 63 ->
  add_prev d n g = mk_gct (g_curr_runnable_sum g) (g_prev_runnable_sum g + d)
    (g_nt_curr_runnable_sum g) (g_nt_prev_runnable_sum g + Z.b2z n * d).
Proof.
  intros Hd H1 H2. unfold add_prev. destruct g, n; cbn in *; wrap_simpl; f_equal; lia.
Qed.

(** The charge to the counters, in one or two steps, is [charged_time]. *)
Lemma charge_counters t' : charge_ok -> t_grp t' = t_grp t ->
  on_busy_time t' (fun g => add_curr busy_curr (is_new_task rolled_task)
                     (add_prev busy_prev (is_new_task rolled_task) g)) w =
  on_busy_time t charged_time w.
Proof.
  intros Hok Ht. pose proof (busy_bounds Hok) as [Hbc Hbp].
  destruct Hok as [[_ HW] Htk _ _ _ _ Hn Hc _ Hcnt].
  pose proof (tk_mark _ _ _ Htk). pose proof (tk_start _ _ _ Htk).
  apply on_busy_time_ext; [done|]. intros g Hg. apply Hcnt in Hg as (G1 & G2 & G3 & G4).
  assert (busy_curr < 2 ^ 32 /\ busy_prev < 2 ^ 32) as [B1 B2].
  { unfold full_window, new_window in *.
    destruct (Z.ltb_spec ms ws); cbn [andb] in *; [destruct (Z.leb_spec W (ws - ms))|]; lia. }
  rewrite add_prev_fits by lia. rewrite add_curr_fits by (cbn; lia). done.
Qed.

(** Likewise for the task: the assignments of the source are additions, since the
    counters they overwrite were just cleared. *)
Definition charge_task (dc dp : Z) (t1 : walt_task_struct) : walt_task_struct :=
  t1 <| t_curr_window := t_curr_window t1 + dc |>
     <| t_curr_window_cpu := aset (t_curr_window_cpu t1) cpu (aget (t_curr_window_cpu t1) cpu + dc) |>
     <| t_prev_window := t_prev_window t1 + dp |>
     <| t_prev_window_cpu := aset (t_prev_window_cpu t1) cpu (aget (t_prev_window_cpu t1) cpu + dp) |>.

Lemma charge_task_0 : charge_ok -> charge_task 0 0 rolled_task = rolled_task.
Proof.
  intros Hok. pose proof (rolled_arrays Hok) as (A1 & A2 & _).
  destruct Hok as [_ _ _ _ _ Hcpu _ _ _ _]. unfold charge_task, WALT_NR_CPUS in *.
  rewrite !Z.add_0_r, !aset_id by (try done; lia). by destruct rolled_task.
Qed.

(** The three ways the source charges the task. *)
Lemma charged_task_eq : charge_ok ->
  charged_task =
  if new_window then
    task_set_curr cpu busy_curr
      ((if full_window then task_set_prev else task_add_prev) cpu busy_prev rolled_task)
  else task_add_curr cpu busy_curr rolled_task.
Proof.
  intros Hok. pose proof (rolled_task_fields Hok) as (F1 & F2 & F3 & F4 & F5).
  pose proof (rolled_arrays Hok) as (A1 & A2 & A3 & A4 & A5 & A6 & _).
  pose proof (charged_task_ok Hok) as Hck. pose proof (busy_bounds Hok) as [Hbc Hbp].
  destruct Hok as [[_ HW] Ht _ _ _ Hcpu Hn Hc _ _].
  pose proof (aget_nonneg _ cpu A3). pose proof (aget_nonneg _ cpu A4).
  pose proof (asum_bound _ cpu A3). pose proof (asum_bound _ cpu A4).
  assert (t_curr_window rolled_task + busy_curr <= 2 * W /\
          t_prev_window rolled_task + busy_prev <= 2 * W) as [T1 T2].
  { pose proof (tk_curr _ _ _ Hck) as H3. pose proof (tk_prev _ _ _ Hck) as H4.
    cbn in H3, H4. rewrite F1 in H3. lia. }
  unfold charged_task, WALT_NR_CPUS in *. 
  unfold task_set_curr, task_set_prev, task_add_prev, task_add_curr.
  destruct new_window.
  - rewrite F2, F3 in *. rewrite no_windows_get in *. 
    destruct full_window; cbn; rewrite F4, F5, ?no_windows_get in *; wrap_simpl; rewrite ?F2; done.
  - assert (busy_prev = 0) as Hz by lia. rewrite Hz, !Z.add_0_r.
    rewrite (aset_id (t_prev_window_cpu _)) by (try done; lia). wrap_simpl.
    by destruct rolled_task.
Qed.

Lemma charged_time_0 g : busy_curr = 0 -> busy_prev = 0 -> charged_time g = g.
Proof.
  intros H1 H2. unfold charged_time. rewrite H1, H2. destruct g; cbn. f_equal; lia.
Qed.

Lemma uncharged : charge_ok -> accounted = false ->
  charged_task = rolled_task /\ on_busy_time t charged_time w = w.
Proof.
  intros Hok Ha. assert (busy_curr = 0 /\ busy_prev = 0) as [H1 H2].
  { unfold busy_curr, busy_prev. by rewrite Ha. }
  split.
  - change charged_task with (charge_task busy_curr busy_prev rolled_task).
    rewrite H1, H2. by apply charge_task_0.
  - unfold on_busy_time, on_grp_time, on_rq_time. rewrite !charged_time_0 by done.
    destruct w; cbn. by destruct (task_in_related_thread_group t).
Qed.

Lemma charge_counters_curr t' : charge_ok -> new_window = false -> t_grp t' = t_grp t ->
  on_busy_time t' (add_curr busy_curr (is_new_task rolled_task)) w =
  on_busy_time t charged_time w.
Proof.
  intros Hok Hn Ht. rewrite <- (charge_counters t') by done. apply on_busy_time_ext; [done|].
  intros g Hg. unfold busy_prev. rewrite Hn, andb_false_r. f_equal.
  destruct Hok as [_ _ _ _ _ _ _ _ _ Hcnt]. apply Hcnt in Hg as (G1 & G2 & G3 & G4).
  rewrite add_prev_fits by lia. destruct g; cbn. f_equal; lia.
Qed.

Lemma split_charge_eq : charge_ok -> accounted = true -> new_window = true ->
  split_charge true cpu ms ws W wallclock (is_new_task rolled_task) full_window rolled_acct =
  mk_acct ((a_p s) <| p_wts := charged_task |>) r (on_busy_time t charged_time w) (a_log s).
Proof.
  intros Hok Hacc Hnw. pose proof (charged_task_eq Hok) as Hct. rewrite Hnw in Hct.
  pose proof (fun t' => charge_counters t' Hok) as Hcnt.
  destruct Hok as [[_ HW] Ht _ _ _ _ Hn Hc _ _].
  pose proof (tk_mark _ _ _ Ht). pose proof (tk_start _ _ _ Ht).
  assert (busy_curr = scale_exec_time (wallclock - ws) w t) as Hbc
    by (unfold busy_curr; by rewrite Hacc, Hnw).
  assert (busy_prev = scale_exec_time (if full_window then W else ws - ms) w t) as Hbp
    by (unfold busy_prev; by rewrite Hacc, Hnw).
  unfold split_charge, charge, wts_of. change (p_wts (a_p rolled_acct)) with rolled_task.
  change (a_wrq rolled_acct) with w. rewrite !(scale_rolled _ w rolled_task) by done.
  unfold new_window in Hnw. rewrite (u64_small (ws - ms)), (u64_small (wallclock - ws)) by lia.
  assert ((if negb full_window
     then (scale_exec_time (ws - ms) w t,
           on_wts (task_add_prev cpu (scale_exec_time (ws - ms) w t)) rolled_acct)
     else (scale_exec_time W w t,
           on_wts (task_set_prev cpu (scale_exec_time W w t)) rolled_acct)) =
    (busy_prev, on_wts ((if full_window then task_set_prev else task_add_prev) cpu busy_prev)
                  rolled_acct)) as ->.
  { rewrite Hbp. by destruct full_window. }
  set (t1 := (if full_window then task_set_prev else task_add_prev) cpu busy_prev rolled_task) in *.
  assert (t_grp t1 = t_grp rolled_task /\ t_load_boost t1 = t_load_boost rolled_task /\
    t_boosted_task_load t1 = t_boosted_task_load rolled_task) as (T1 & T2 & T3)
    by (unfold t1; by destruct full_window).
  rewrite !(scale_rolled _ _ _) by (try done; unfold on_wrq, on_busy_time; cbn; by case_if).
  rewrite <- Hbc.
  transitivity (mk_acct ((a_p s) <| p_wts := task_set_curr cpu busy_curr t1 |>) r
    (on_busy_time t1 (add_curr busy_curr (is_new_task rolled_task))
       (on_busy_time t1 (add_prev busy_prev (is_new_task rolled_task)) w)) (a_log s)); [done|].
  rewrite on_busy_time_twice, (Hcnt t1), Hct; [done|]. rewrite T1. apply rolled_task_same.
Qed.

(** The whole function, for a task that is not the idle task. *)
Lemma update_cpu_busy_time_eq : charge_ok ->
  update_cpu_busy_time c pws event wallclock irqtime s =
  busy_done c (t_curr_window t) new_window full_window
    (mk_acct ((a_p s) <| p_wts := charged_task |>) r (on_busy_time t charged_time w) (a_log s)).
Proof.
  intros Hok. pose proof (rolled_task_fields Hok) as (F1 & _).
  pose proof (charged_task_eq Hok) as Hct. pose proof (uncharged Hok) as Hun.
  pose proof (charge_counters_curr rolled_task Hok) as Hcurr.
  pose proof (split_charge_eq Hok) as Hsplit.
  destruct Hok as [[_ HW] Ht _ Hidle Hsz _ Hn Hc _ _].
  pose proof (tk_mark _ _ _ Ht). pose proof (tk_start _ _ _ Ht).
  unfold update_cpu_busy_time. cbn [wts_of]. rewrite Hidle, Hsz. rewrite (u32_small W) by lia.
  fold new_window.
  assert (new_window && (W <=? u64 (ws - ms)) = full_window) as ->.
  { unfold full_window, new_window. destruct (Z.ltb_spec ms ws); [|done].
    rewrite u64_small by lia. done. }
  assert ((if new_window
    then on_wts (fun t => t <| t_window_start := ws |>)
           (on_wts (rollover_task_window c pws full_window) s)
    else s) = rolled_acct) as ->.
  { unfold rolled_acct, rolled_task. destruct new_window; [done|]. by destruct s as [[]]. }
  change (p_wts (a_p rolled_acct)) with rolled_task.
  change (a_p rolled_acct) with ((a_p s) <| p_wts := rolled_task |>).
  rewrite account_busy_ext by apply rolled_task_same.
  change (a_wrq rolled_acct) with w. rewrite F1, Z.eqb_refl. cbn [negb emit_if orb].
  rewrite orb_true_r. cbn [orb].
  destruct accounted eqn:Hacc; cbn [negb]; [|destruct Hun as [-> ->]; [done|]; reflexivity].
  destruct new_window eqn:Hnw; cbn [negb].
  - rewrite Hsplit by done. by destruct (p_id (a_p s) =? rq_curr r).
  - assert (busy_curr = scale_exec_time (wallclock - ms) w t) as Hbc
      by (unfold busy_curr; by rewrite Hacc, Hnw).
    change (a_wrq rolled_acct) with w. change (p_wts (a_p rolled_acct)) with rolled_task.
    rewrite !(scale_rolled _ w rolled_task), (u64_small (wallclock - ms)), <- Hbc by (done || lia).
    f_equal.
    transitivity (mk_acct ((a_p s) <| p_wts := task_add_curr cpu busy_curr rolled_task |>) r
      (on_busy_time rolled_task (add_curr busy_curr (is_new_task rolled_task)) w) (a_log s)); [done|].
    rewrite Hcurr, Hct; [done|done|apply rolled_task_same].
Qed.

End Charge.

(** The counters a task is charged to, and the others. *)
Definition own_time (t : walt_task_struct) (w : walt_rq) : group_cpu_time :=
  if task_in_related_thread_group t then w_grp_time w else w_rq_time w.
Definition other_time (t : walt_task_struct) (w : walt_rq) : group_cpu_time :=
  if task_in_related_thread_group t then w_rq_time w else w_grp_time w.

Lemma on_busy_time_own t f w :
  own_time t (on_busy_time t f w) = f (own_time t w) /\
  other_time t (on_busy_time t f w) = other_time t w.
Proof. unfold own_time, other_time, on_busy_time. by destruct (task_in_related_thread_group t). Qed.

Lemma busy_done_fields c o n f s :
  wts_of (busy_done c o n f s) = wts_of s /\ a_log (busy_done c o n f s) = a_log s /\
  w_rq_time (a_wrq (busy_done c o n f s)) = w_rq_time (a_wrq s) /\
  w_grp_time (a_wrq (busy_done c o n f s)) = w_grp_time (a_wrq s).
Proof. unfold busy_done. by destruct (walt_is_idle_task _). Qed.

Lemma update_cpu_busy_time_spec c W pws wallclock irqtime event s :
  charge_ok c W wallclock s ->
  let s' := update_cpu_busy_time c pws event wallclock irqtime s in
  let t := wts_of s in let t' := wts_of s' in
  let w := a_wrq s in let w' := a_wrq s' in
  let ws := w_window_start w in
  let dc := busy_curr c wallclock irqtime event s in
  let dp := busy_prev c W irqtime event s in
  let n := Z.b2z (is_new_task (rolled_task c W pws s)) in
  let g := own_time t w in
  own_time t w' = mk_gct (g_curr_runnable_sum g + dc) (g_prev_runnable_sum g + dp)
    (g_nt_curr_runnable_sum g + n * dc) (g_nt_prev_runnable_sum g + n * dp) /\
  other_time t w' = other_time t w /\
  (forall i x, 0 <= i < WALT_NR_CPUS -> ws - W <= x ->
     contrib W t' i x = contrib W t i x +
     if i =? rq_cpu (a_rq s)
     then if x =? ws then dc else if x =? ws - W then dp else 0 else 0) /\
  0 <= dc <= 2 * (wallclock - Z.max ws (t_mark_start t)) /\ 0 <= dp <= 2 * W /\
  t_window_start t' = ws /\ task_ok c W (t' <| t_mark_start := wallclock |>) /\
  a_log s' = a_log s /\
  stray_curr t' = (if t_mark_start t <? ws then 0 else stray_curr t) /\
  stray_prev t' = (if t_mark_start t <? ws
                   then if W <=? ws - t_mark_start t then 0 else stray_curr t else stray_prev t).
Proof.
  intros Hok. cbv zeta. rewrite (update_cpu_busy_time_eq c W) by done.
  match goal with |- context [busy_done ?a ?b ?d ?e ?f] =>
    destruct (busy_done_fields a b d e f) as (B1 & B2 & B3 & B4) end.
  rewrite B1, B2. unfold own_time at 1, other_time at 1. rewrite B3, B4. cbn [a_wrq a_p a_log wts_of].
  destruct (on_busy_time_own (wts_of s)
    (charged_time c W pws wallclock irqtime event s) (a_wrq s)) as [O1 O2].
  split; [exact O1|]. split; [exact O2|].
  split; [intros i x Hi Hx; by apply charged_contrib|].
  clear B1 B2 B3 B4 O1 O2.
  pose proof (busy_bounds c W wallclock irqtime event s Hok) as [Hbc Hbp].
  pose proof (proj1 (rolled_task_fields c W pws wallclock s Hok)) as F1.
  pose proof (charged_task_ok c W pws wallclock irqtime event s Hok) as Hk.
  pose proof (tk_mark _ _ _ (ch_task _ _ _ _ Hok)). destruct (ch_cfg _ _ _ _ Hok) as [_ HW].
  pose proof (charged_strays c W pws wallclock irqtime event s Hok) as Hs.
  assert (forall a b : Z, (if full_window W s then a else b) =
    if t_mark_start (wts_of s) <? w_window_start (a_wrq s)
    then if W <=? w_window_start (a_wrq s) - t_mark_start (wts_of s) then a else b else b) as Hfw
    by (intros; unfold full_window, new_window, wts_of;
        destruct (t_mark_start (p_wts (a_p s)) <? _), (W <=? _); done).
  unfold new_window in Hs.
  split; [|split; [|split; [exact F1|split; [exact Hk|split; [done|]]]]]; clear F1 Hk.
  - unfold new_window, wts_of in *.
    destruct (Z.ltb_spec (t_mark_start (p_wts (a_p s))) (w_window_start (a_wrq s))); lia.
  - unfold full_window, new_window in *.
    destruct (Z.ltb_spec (t_mark_start (p_wts (a_p s))) (w_window_start (a_wrq s))),
      (Z.leb_spec W (w_window_start (a_wrq s) - t_mark_start (p_wts (a_p s))));
      cbn [andb] in *; lia.
  - destruct Hs as [Hs1 Hs2]. split; [exact Hs1|]. etransitivity; [exact Hs2|].
    rewrite Hfw. unfold wts_of. destruct (t_mark_start (p_wts (a_p s)) <? _); done.
Qed.

(** What the charge does not touch. *)
Lemma update_cpu_busy_time_rest c W pws wallclock irqtime event s :
  charge_ok c W wallclock s ->
  let s' := update_cpu_busy_time c pws event wallclock irqtime s in
  a_rq s' = a_rq s /\ (a_p s') <| p_wts := zero_wts |> = (a_p s) <| p_wts := zero_wts |> /\
  t_active_time (wts_of s') = t_active_time (rolled_task c W pws s) /\
  t_flags (wts_of s') = t_flags (wts_of s) /\ t_grp (wts_of s') = t_grp (wts_of s) /\
  t_mark_start (wts_of s') = t_mark_start (wts_of s) /\
  w_window_start (a_wrq s') = w_window_start (a_wrq s) /\
  w_prev_window_size (a_wrq s') = w_prev_window_size (a_wrq s) /\
  w_load_subs (a_wrq s') = w_load_subs (a_wrq s) /\
  (t_enqueue_after_migration (wts_of s'), t_prev_cpu (wts_of s'), t_new_cpu (wts_of s')) =
    (t_enqueue_after_migration (wts_of s), t_prev_cpu (wts_of s), t_new_cpu (wts_of s)) /\
  w_cluster (a_wrq s') = w_cluster (a_wrq s).
Proof.
  intros Hok. cbv zeta. rewrite (update_cpu_busy_time_eq c W) by done.
  destruct (rolled_task_same c W pws s) as (R1 & _ & _ & R4).
  assert (t_mark_start (rolled_task c W pws s) = t_mark_start (p_wts (a_p s)) /\
    (t_enqueue_after_migration (rolled_task c W pws s), t_prev_cpu (rolled_task c W pws s),
     t_new_cpu (rolled_task c W pws s)) = (t_enqueue_after_migration (p_wts (a_p s)),
       t_prev_cpu (p_wts (a_p s)), t_new_cpu (p_wts (a_p s)))) as [R5 R6].
  { unfold rolled_task, rollover_task_window. destruct (new_window s); [|done].
    repeat (match goal with |- context [let '(_, _) := ?x in _] => destruct x end; cbn).
    case_if; done. }
  unfold busy_done, on_wrq, on_busy_time, on_grp_time, on_rq_time, wts_of in *.
  repeat case_if; cbn; auto 15.
Qed.

(** C2. Charging a task: the busy counters of the CPU (those of the groups for a
    task in a related thread group) grow by exactly the amounts the task's own
    contributions on that CPU grow by, split at the window boundary; the
    contributions of the two windows the CPU tracks on all other CPUs are kept;
    the time charged is at most twice the time that passed; the task ends up in
    the window of the CPU with its totals again the sums of its per-CPU entries;
    and no consistency check fires. *)
Theorem update_cpu_busy_time_conserves c W pws wallclock irqtime event s :
  charge_ok c W wallclock s ->
  let s' := update_cpu_busy_time c pws event wallclock irqtime s in
  let t := wts_of s in let t' := wts_of s' in
  let w := a_wrq s in let w' := a_wrq s' in
  let ws := w_window_start w in
  let dc := busy_curr c wallclock irqtime event s in
  let dp := busy_prev c W irqtime event s in
  let n := Z.b2z (is_new_task (rolled_task c W pws s)) in
  let g := own_time t w in
  own_time t w' = mk_gct (g_curr_runnable_sum g + dc) (g_prev_runnable_sum g + dp)
    (g_nt_curr_runnable_sum g + n * dc) (g_nt_prev_runnable_sum g + n * dp) /\
  other_time t w' = other_time t w /\
  (forall i x, 0 <= i < WALT_NR_CPUS -> ws - W <= x ->
     contrib W t' i x = contrib W t i x +
     if i =? rq_cpu (a_rq s)
     then if x =? ws then dc else if x =? ws - W then dp else 0 else 0) /\
  0 <= dc <= 2 * (wallclock - Z.max ws (t_mark_start t)) /\ 0 <= dp <= 2 * W /\
  t_window_start t' = ws /\ task_ok c W (t' <| t_mark_start := wallclock |>) /\
  a_log s' = a_log s /\ (settled t -> settled t').
Proof.
  intros Hok. cbv zeta. destruct (update_cpu_busy_time_spec c W pws wallclock irqtime event s Hok)
    as (H1 & H2 & H3 & H4 & H5 & H6 & H7 & H8 & H9 & H10).
  repeat (split; [assumption|]). unfold settled. rewrite H9, H10. intros [S1 S2].
  split; repeat case_if; done.
Qed.

(** A task that ran until 24 ms in the window starting at 16 ms and is charged at
    36 ms on CPU 4. *)
Definition demo_busy : acct :=
  let t := zero_wts <| t_mark_start := 24000000 |> <| t_window_start := 16000000 |>
    <| t_curr_window := 3000000 |> <| t_curr_window_cpu := aset no_windows 4 3000000 |> in
  mk_acct ((QueueStats.demo_task 1 10 10) <| p_wts := t |>) QueueStats.demo_rq
    (QueueStats.demo_wrq <| w_window_start := 32000000 |>
       <| w_rq_time := mk_gct 0 3000000 0 3000000 |>) [].

Lemma demo_busy_ok : charge_ok sample_cfg 16000000 36000000 demo_busy.
Proof.
  assert (forall l, forallb (Z.leb 0) l = true -> Forall (fun z => 0 <= z) l) as Hpos.
  { intros l Hl. apply Forall_forall. intros x Hx. apply list_elem_of_In in Hx.
    rewrite forallb_forall in Hl. apply Hl in Hx. lia. }
  split.
  - by split.
  - split; [reflexivity|reflexivity|by apply Hpos|by apply Hpos|reflexivity|reflexivity|..];
      vm_compute; try split; discriminate || reflexivity.
  - split; vm_compute; split; discriminate.
  - reflexivity.
  - reflexivity.
  - vm_compute; split; [discriminate|reflexivity].
  - vm_compute; split; [discriminate|reflexivity].
  - vm_compute; split; [discriminate|reflexivity].
  - reflexivity.
  - intros g [-> | ->]; vm_compute; repeat split; discriminate.
Qed.

Lemma update_cpu_busy_time_conserves_witness :
  let s' := update_cpu_busy_time sample_cfg 16000000 PUT_PREV_TASK 36000000 0 demo_busy in
  let t := wts_of demo_busy in
  g_curr_runnable_sum (own_time t (a_wrq s')) =
    g_curr_runnable_sum (own_time t (a_wrq demo_busy)) +
    busy_curr sample_cfg 36000000 0 PUT_PREV_TASK demo_busy /\
  busy_curr sample_cfg 36000000 0 PUT_PREV_TASK demo_busy = 4000000 /\
  busy_prev sample_cfg 16000000 0 PUT_PREV_TASK demo_busy = 8000000 /\
  a_log s' = a_log demo_busy.
Proof.
  destruct (update_cpu_busy_time_conserves sample_cfg 16000000 16000000 36000000 0 PUT_PREV_TASK
    demo_busy demo_busy_ok) as (H1 & _ & _ & _ & _ & _ & _ & H2 & _).
  cbv zeta in *. rewrite H1. split; [reflexivity|].
  split; [vm_compute; reflexivity|]. split; [vm_compute; reflexivity|exact H2].
Defined.

End BusyTime.
