(* ===== verification/Demand.v ===== *)
(** * Demand of a task

    At the end of every window the time a task was runnable becomes a sample of
    its history, from which its demand, its predicted demand and its trailblazer
    state follow. Models [account_busy_for_task_demand], [scale_util_to_time],
    [update_trailblazer_accounting], [update_lst], [update_obet_task],
    [update_history], [add_to_task_demand] and [update_task_demand] of
    [walt.c]. *)

From Stdlib Require Import ZArith Lia ZifyBool.
From stdpp Require Import base list.
From S2P Require Import Prelude WaltTypes TopTasks Stats Predict Window Busy.

(** ** Operations *)

Definition account_busy_for_task_demand (r : rq) (p : task_struct) (event : task_event) : bool :=
  if walt_is_idle_task (p_wts p) then false else
  if event_eqb event TASK_WAKE ||
     (negb SCHED_ACCOUNT_WAIT_TIME &&
      (event_eqb event PICK_NEXT_TASK || event_eqb event TASK_MIGRATE)) then false else
  if event_eqb event PICK_NEXT_TASK && (rq_curr r =? rq_idle r) then false else
  if event_eqb event TASK_UPDATE then
    if rq_curr r =? p_id p then true
    else if task_is_runnable p then SCHED_ACCOUNT_WAIT_TIME else false
  else true.

Definition TRAILBLAZER_THRES : Z := 230.
Definition TRAILBLAZER_BYPASS : Z := 243.
Definition FINAL_BUCKET_STEP_UP : Z := 8.
Definition FINAL_BUCKET_STEP_DOWN : Z := 1.
Definition PIPELINE_IDLE_NS : Z := 3000000000.

Definition scale_util_to_time (c : walt_cfg) (util : Z) : Z :=
  u32 (util * walt_scale_demand_divisor c).

(** The middle part of [update_trailblazer_accounting]: the flag of a queued task
    went from [old] to [b], and the counter of the run queue follows. *)
Definition settle_trailblazer (old b : bool) (s : acct) : acct :=
  let s := emit_if (negb (Bool.eqb old b)) (sched_update_nr_prod (rq_cpu (a_rq s)) 0) s in
  if old && negb b
  then on_stats (fun x => x <| s_nr_trailblazer_tasks := s32 (s_nr_trailblazer_tasks x - 1) |>) s
  else if negb old && b
  then on_stats (fun x => x <| s_nr_trailblazer_tasks := s32 (s_nr_trailblazer_tasks x + 1) |>) s
  else s.

(** Returns the demand, which a trailblazer task has raised to a full CPU. *)
Definition update_trailblazer_accounting (c : walt_cfg) (runtime runtime_scaled demand : Z)
    (s : acct) : acct * Z :=
  let is_prev_trailblazer := walt_flag_test (wts_of s) WALT_TRAILBLAZER_BIT in
  let s := if sysctl_walt_feat c WALT_FEAT_TRAILBLAZER_BIT &&
              (u64 (t_mark_start (wts_of s) + PIPELINE_IDLE_NS) <? walt_rq_clock c (a_rq s) (a_wrq s))
           then on_wts (fun t => t <| t_high_util_history := 0 |>) s else s in
  let h := t_high_util_history (wts_of s) in
  let '(s, demand) :=
    if negb (pipeline_in_progress c) && sysctl_walt_feat c WALT_FEAT_TRAILBLAZER_BIT &&
       (((demand <=? runtime) && (TRAILBLAZER_THRES <=? h)) || (TRAILBLAZER_BYPASS <=? h))
    then (on_wts (fun t => walt_flag_set t WALT_TRAILBLAZER_BIT true) s,
          scale_util_to_time c (Z.shiftl 1 SCHED_CAPACITY_SHIFT))
    else if is_prev_trailblazer
    then (on_wts (fun t => walt_flag_set t WALT_TRAILBLAZER_BIT false) s, demand)
    else (s, demand) in
  let is_trailblazer := walt_flag_test (wts_of s) WALT_TRAILBLAZER_BIT in
  let s :=
    if task_on_rq_queued (a_p s) && task_is_runnable (a_p s) then
      settle_trailblazer is_prev_trailblazer is_trailblazer s
    else s in
  let trailblazer_capacity :=
    capacity_orig_of c (cpumask_first (aget (cpu_array0 c) (num_sched_clusters c - 1))) in
  let trailblazer_capacity :=
    u64 (trailblazer_capacity - Z.shiftr trailblazer_capacity 3) in
  let s :=
    if u16 trailblazer_capacity <=? runtime_scaled then
      on_wts (fun t => t <| t_high_util_history :=
        if U8_MAX - FINAL_BUCKET_STEP_UP <? t_high_util_history t then U8_MAX
        else u8 (t_high_util_history t + FINAL_BUCKET_STEP_UP) |>) s
    else if negb (t_high_util_history (wts_of s) =? 0) then
      on_wts (fun t => t <| t_high_util_history :=
        u8 (t_high_util_history t - FINAL_BUCKET_STEP_DOWN) |>) s
    else s in
  (s, demand).

Definition MIN_WINDOWS_FOR_LST : Z := 3.
Definition LST_ACTIVATION_TIMEOUT : Z := 250.
Definition LST_DELAY_MULTIPLIER : Z := 5.

Definition update_lst (c : walt_cfg) (wallclock : Z) (new_window : bool)
    (t : walt_task_struct) : walt_task_struct :=
  let activity_target_hyst_ns := u64 (MIN_WINDOWS_FOR_LST * sched_ravg_window c) in
  let t :=
    if negb (t_mark_start t =? 0) &&
       (u64 (t_mark_start t + activity_target_hyst_ns) <? wallclock) then
      let t := t <| t_lst := true |> <| t_lst_state_counter := s32 (t_lst_state_counter t + 1) |> in
      let lst_delay_factor :=
        u64 (Z.min (Z.quot (s32 (t_lst_state_counter t + LST_DELAY_MULTIPLIER))
                      LST_DELAY_MULTIPLIER) 10) in
      t <| t_lst_tgt_ns :=
        s64 (wallclock + LST_ACTIVATION_TIMEOUT * MSEC_TO_NSEC * lst_delay_factor) |>
    else if negb (t_lst_tgt_ns t =? 0) && (u64 (t_lst_tgt_ns t) <? wallclock) then
      t <| t_lst := false |> <| t_lst_tgt_ns := 0 |> <| t_lst_state_counter := 0 |>
    else t in
  if new_window then t <| t_event_windows := s32 (t_event_windows t + 1) |> else t.

Definition update_obet_task (c : walt_cfg) (demand : Z) (s : acct) : acct :=
  let cpu := p_cpu (a_p s) in
  emit_if (is_max_possible_cluster_cpu c cpu && (big_task_pid c cpu =? 0) &&
           task_is_runnable (a_p s) && (t_demand (wts_of s) <? demand))
    (set_force_big_task_pid_eval cpu) s.

Definition YIELD_CNT_MASK : Z := 127.
Definition MAX_YIELD_CNT_PER_TASK_THR : Z := 25.
Definition WINDOW_STATS_RECENT : Z := 0.
Definition WINDOW_STATS_MAX : Z := 1.
Definition WINDOW_STATS_AVG : Z := 3.

(** The loop that pushes [samples] copies of a sample into the ring. *)
Fixpoint push_samples (samples : nat) (runtime runtime_scaled : Z) (t : walt_task_struct)
  : walt_task_struct :=
  match samples with
  | O => t
  | S n =>
      push_samples n runtime runtime_scaled
        (t <| t_sum_history := aset (t_sum_history t) (t_cidx t) runtime |>
           <| t_sum_history_util := aset (t_sum_history_util t) (t_cidx t) runtime_scaled |>
           <| t_cidx := Z.rem (t_cidx t + 1) RAVG_HIST_SIZE |>)
  end.

(** The loop over the history: its sum and its maximum. *)
Definition history_sum_max (hist : list Z) : Z * Z :=
  for_range 0 (Z.to_nat RAVG_HIST_SIZE)
    (fun i '(sum, max) => (u64 (sum + aget hist i), if max <? aget hist i then aget hist i else max))
    (0, 0).

Definition history_demand (policy runtime max avg : Z) : Z :=
  if policy =? WINDOW_STATS_RECENT then runtime
  else if policy =? WINDOW_STATS_MAX then max
  else if policy =? WINDOW_STATS_AVG then avg
  else Z.max avg runtime.

(** The end of [update_history], once the demand is known. *)
Definition store_demand (c : walt_cfg) (demand avg runtime_scaled : Z) (s : acct) : acct :=
  let s := if walt_fair_task (a_p s) then update_obet_task c demand s else s in
  let '(t, pred_demand_scaled) := predict_and_update_buckets (wts_of s) runtime_scaled in
  let s := on_wts (fun _ => t) s in
  let demand_scaled := u16 (scale_time_to_util c demand) in
  let s := if task_on_rq_queued (a_p s) && task_is_runnable (a_p s)
           then fixup_walt_sched_stats_common c demand_scaled pred_demand_scaled s else s in
  let s := on_wts (fun t => t <| t_demand := demand |> <| t_demand_scaled := demand_scaled |>
                              <| t_coloc_demand := avg |>
                              <| t_pred_demand_scaled := pred_demand_scaled |>) s in
  if sysctl_sched_min_task_util_for_colocation c <? demand_scaled
  then on_wts (fun t => t <| t_unfilter := sysctl_sched_task_unfilter_period c |>) s
  else if negb (t_unfilter (wts_of s) =? 0)
  then on_wts (fun t => t <| t_unfilter :=
         Z.max 0 (s32 (t_unfilter t - w_prev_window_size (a_wrq s))) |>) s
  else s.

Definition update_history (c : walt_cfg) (runtime samples : Z) (s : acct) : acct :=
  let s := on_wts (fun t => t <| t_yield_state :=
             if Z.land (t_yield_state t) YIELD_CNT_MASK <? MAX_YIELD_CNT_PER_TASK_THR
             then 0 else t_yield_state t |>) s in
  if (runtime =? 0) || walt_is_idle_task (wts_of s) || (samples =? 0) then s else
  let runtime_scaled := u16 (scale_time_to_util c runtime) in
  let s := on_wts (push_samples (Z.to_nat samples) runtime runtime_scaled) s in
  let '(sum, max) := history_sum_max (t_sum_history (wts_of s)) in
  let s := on_wts (fun t => t <| t_sum := 0 |>) s in
  let avg := u32 (sum / RAVG_HIST_SIZE) in
  let demand := history_demand (sysctl_sched_window_stats_policy c) runtime max avg in
  let '(s, demand) :=
    if walt_fair_task (a_p s) && task_in_related_thread_group (wts_of s)
    then update_trailblazer_accounting c runtime runtime_scaled demand s
    else (s, demand) in
  store_demand c demand avg runtime_scaled s.

Definition add_to_task_demand (c : walt_cfg) (delta : Z) (s : acct) : acct * Z :=
  let delta := scale_exec_time delta (a_wrq s) (wts_of s) in
  let s := on_wts (fun t => t <| t_sum := u32 (t_sum t + delta) |>) s in
  let s := if sched_ravg_window c <? t_sum (wts_of s)
           then on_wts (fun t => t <| t_sum := sched_ravg_window c |>) s else s in
  (s, delta).

(** The end of [update_task_demand]: busy time that spans at least two windows. *)
Definition demand_over_windows (c : walt_cfg) (mark_start window_start wallclock : Z) (s : acct)
  : acct * Z :=
  let window_size := sched_ravg_window c in
  let delta := u64 (window_start - mark_start) in
  let nr_full_windows := s32 (delta / window_size) in
  let window_start := u64 (window_start - u64 (nr_full_windows * window_size)) in
  let '(s, runtime) := add_to_task_demand c (u64 (window_start - mark_start)) s in
  let s := update_history c (t_sum (wts_of s)) 1 s in
  let '(s, runtime) :=
    if negb (nr_full_windows =? 0) then
      let scaled_window := scale_exec_time window_size (a_wrq s) (wts_of s) in
      let exmples := if RAVG_HIST_SIZE <? nr_full_windows then RAVG_HIST_SIZE
                     else nr_full_windows in
      let s := update_history c (u32 scaled_window) exmples s in
      (s, u64 (runtime + u64 (nr_full_windows * scaled_window)))
    else (s, runtime) in
  let window_start := u64 (window_start + u64 (nr_full_windows * window_size)) in
  let mark_start := window_start in
  let '(s, d) := add_to_task_demand c (u64 (wallclock - mark_start)) s in
  (s, u64 (runtime + d)).

Definition update_task_demand (c : walt_cfg) (event : task_event) (wallclock : Z) (s : acct)
  : acct * Z :=
  let mark_start := t_mark_start (wts_of s) in
  let window_start := w_window_start (a_wrq s) in
  let new_window := mark_start <? window_start in
  let s := if pipeline_in_progress c &&
              bool_decide (t_grp (wts_of s) = Some DEFAULT_CGROUP_COLOC_ID)
           then on_wts (update_lst c wallclock new_window) s else s in
  if negb (account_busy_for_task_demand (a_rq s) (a_p s) event) then
    (if new_window then update_history c (t_sum (wts_of s)) 1 s else s, 0)
  else if negb new_window then add_to_task_demand c (u64 (wallclock - mark_start)) s
  else demand_over_windows c mark_start window_start wallclock s.

#[global] Arguments account_busy_for_task_demand : simpl never.
#[global] Arguments update_trailblazer_accounting : simpl never.
#[global] Arguments update_lst : simpl never.
#[global] Arguments update_obet_task : simpl never.
#[global] Arguments store_demand : simpl never.
#[global] Arguments update_history : simpl never.
#[global] Arguments add_to_task_demand : simpl never.
#[global] Arguments update_task_demand : simpl never.

(** ** The ring of samples *)

Module History.

Record ring_ok (t : walt_task_struct) : Prop := mk_ring_ok {
  ro_len : length (t_sum_history t) = 5%nat;
  ro_len_util : length (t_sum_history_util t) = 5%nat;
  ro_cidx : 0 <= t_cidx t < RAVG_HIST_SIZE
}.

(** Entry [i] of a ring after [n] values were written from position [cidx] on. *)
Definition written (cidx n i : Z) : bool := (i - cidx) mod RAVG_HIST_SIZE <? n.

Lemma written_step cidx n i : 0 <= cidx < 5 -> 0 <= i < 5 -> 0 <= n ->
  written cidx (n + 1) i = (cidx =? i) || written ((cidx + 1) mod 5) n i.
Proof.
  intros Hc Hi Hn. unfold written, RAVG_HIST_SIZE.
  assert (cidx = 0 \/ cidx = 1 \/ cidx = 2 \/ cidx = 3 \/ cidx = 4) as Hc' by lia.
  assert (i = 0 \/ i = 1 \/ i = 2 \/ i = 3 \/ i = 4) as Hi' by lia.
  destruct Hc' as [->|[->|[->|[->| ->]]]], Hi' as [->|[->|[->|[->| ->]]]];
    match goal with |- Z.ltb ?a _ = orb ?b (Z.ltb ?d _) =>
      let a' := eval vm_compute in a in let b' := eval vm_compute in b in
      let d' := eval vm_compute in d in change a with a'; change b with b'; change d with d' end;
    lia.
Qed.

Lemma push_samples_spec n runtime scaled t :
  ring_ok t ->
  let t' := push_samples n runtime scaled t in
  ring_ok t' /\ t_cidx t' = (t_cidx t + Z.of_nat n) mod RAVG_HIST_SIZE /\
  (forall i, 0 <= i < RAVG_HIST_SIZE ->
     aget (t_sum_history t') i =
       (if written (t_cidx t) (Z.of_nat n) i then runtime else aget (t_sum_history t) i) /\
     aget (t_sum_history_util t') i =
       (if written (t_cidx t) (Z.of_nat n) i then scaled else aget (t_sum_history_util t) i)) /\
  t' = t <| t_sum_history := t_sum_history t' |> <| t_sum_history_util := t_sum_history_util t' |>
         <| t_cidx := t_cidx t' |>.
Proof.
  cbv zeta. revert t. induction n as [|n IH]; intros t [Hl Hu Hc]; cbn [push_samples].
  - split; [by split|]. rewrite Z.add_0_r, Z.mod_small by done. split; [done|].
    split; [|by destruct t]. intros i Hi. unfold written.
    rewrite (proj2 (Z.ltb_ge _ 0)); [done|]. apply Z.mod_pos_bound. unfold RAVG_HIST_SIZE. lia.
  - match goal with |- context [push_samples n _ _ ?x] => set (t1 := x) end.
    assert (t_cidx t1 = (t_cidx t + 1) mod 5) as Hc1.
    { unfold t1. cbn. unfold RAVG_HIST_SIZE in *. rewrite Z.rem_mod_nonneg by lia. done. }
    pose proof (Z.mod_pos_bound (t_cidx t + 1) 5 ltac:(lia)).
    assert (ring_ok t1) as Hr1.
    { split; unfold t1; cbn; rewrite ?length_aset; try done. fold t1.
      change (0 <= t_cidx t1 < RAVG_HIST_SIZE). rewrite Hc1. unfold RAVG_HIST_SIZE. lia. }
    destruct (IH t1 Hr1) as (H1 & H2 & H3 & H4). unfold RAVG_HIST_SIZE in *.
    split; [done|]. split; [|split].
    + rewrite H2, Hc1. rewrite Z.add_mod_idemp_l by lia. f_equal. lia.
    + intros i Hi. rewrite (proj1 (H3 i Hi)), (proj2 (H3 i Hi)), Hc1.
      replace (Z.of_nat (S n)) with (Z.of_nat n + 1) by lia. rewrite written_step by lia.
      unfold t1. cbn. rewrite !aget_aset by lia.
      destruct (written _ (Z.of_nat n) i); rewrite ?orb_true_r, ?orb_false_r; done.
    + rewrite H4. unfold t1. by destruct t.
Qed.

Lemma push_samples_full n runtime scaled t :
  ring_ok t -> (5 <= n)%nat ->
  t_sum_history (push_samples n runtime scaled t) = replicate 5 runtime /\
  t_sum_history_util (push_samples n runtime scaled t) = replicate 5 scaled.
Proof.
  intros Hr Hn. destruct (push_samples_spec n runtime scaled t Hr) as ([L1 L2 _] & _ & H & _).
  assert (forall i, 0 <= i < 5 -> written (t_cidx t) (Z.of_nat n) i = true) as Hw.
  { intros i Hi. unfold written, RAVG_HIST_SIZE.
    pose proof (Z.mod_pos_bound (i - t_cidx t) 5 ltac:(lia)). lia. }
  split; apply aget_ext; try done; rewrite ?L1, ?L2; intros i Hi;
    [rewrite (proj1 (H i Hi))|rewrite (proj2 (H i Hi))];
    rewrite Hw, aget_replicate by lia;
    rewrite (proj2 (Nat.ltb_lt (Z.to_nat i) 5)) by lia; done.
Qed.

(** Capping the number of samples at the size of the history, as
    [update_task_demand] does when many windows passed at once, leaves the same
    history as pushing one sample per window. *)
Theorem capped_samples_same_history (n : nat) runtime scaled t :
  ring_ok t -> RAVG_HIST_SIZE < Z.of_nat n ->
  t_sum_history (push_samples (Z.to_nat RAVG_HIST_SIZE) runtime scaled t) =
  t_sum_history (push_samples n runtime scaled t) /\
  t_sum_history_util (push_samples (Z.to_nat RAVG_HIST_SIZE) runtime scaled t) =
  t_sum_history_util (push_samples n runtime scaled t).
Proof.
  intros Hr Hn. unfold RAVG_HIST_SIZE in *. change (Z.to_nat 5) with 5%nat.
  destruct (push_samples_full 5 runtime scaled t Hr) as [-> ->]; [lia|].
  destruct (push_samples_full n runtime scaled t Hr) as [-> ->]; [lia|]. done.
Qed.

Lemma zero_ring_ok : ring_ok zero_wts.
Proof. by split. Qed.

Lemma capped_samples_same_history_witness :
  t_sum_history (push_samples 12 7 1 zero_wts) = t_sum_history (push_samples 5 7 1 zero_wts).
Proof.
  symmetry. apply (capped_samples_same_history 12 7 1 zero_wts zero_ring_ok). done.
Defined.

(** ** Demand *)

Definition amax (l : list Z) : Z := foldr Z.max 0 l.

Definition samples_ok (hist : list Z) : Prop :=
  length hist = 5%nat /\ forall i, 0 <= i < 5 -> 0 <= aget hist i < 2 ^ 32.

Lemma history_sum_max_eq hist : samples_ok hist -> history_sum_max hist = (asum hist, amax hist).
Proof.
  intros [Hl Hr]. destruct hist as [|a [|b [|d [|e [|f [|]]]]]]; try done.
  pose proof (Hr 0 ltac:(lia)). pose proof (Hr 1 ltac:(lia)). pose proof (Hr 2 ltac:(lia)).
  pose proof (Hr 3 ltac:(lia)). pose proof (Hr 4 ltac:(lia)).
  unfold history_sum_max, RAVG_HIST_SIZE. change (Z.to_nat 5) with 5%nat. cbn [for_range].
  unfold aget in *.
  change (Z.to_nat 0) with 0%nat in *. change (Z.to_nat (0 + 1)) with 1%nat.
  change (Z.to_nat (0 + 1 + 1)) with 2%nat. change (Z.to_nat (0 + 1 + 1 + 1)) with 3%nat.
  change (Z.to_nat (0 + 1 + 1 + 1 + 1)) with 4%nat. change (Z.to_nat 1) with 1%nat in *.
  change (Z.to_nat 2) with 2%nat in *. change (Z.to_nat 3) with 3%nat in *.
  change (Z.to_nat 4) with 4%nat in *. cbn [nth asum amax foldr] in *.
  assert (forall x y, (if x <? y then y else x) = Z.max x y) as Hm
    by (intros x y; destruct (Z.ltb_spec x y); lia).
  rewrite !Hm. f_equal; [wrap_simpl; lia|lia].
Qed.

(** The statistics fixup changes nothing of the task but its flags. *)
Lemma fixup_stats_wts c d pd s :
  exists f, wts_of (fixup_walt_sched_stats_common c d pd s) = (wts_of s) <| t_flags := f |>.
Proof.
  unfold fixup_walt_sched_stats_common.
  destruct (task_on_scx _); [exists (t_flags (wts_of s)); unfold wts_of; by destruct (p_wts _)|].
  set (f := fixup_cumulative_runnable_avg _ _ _).
  assert (wts_of f = wts_of s) as E.
  { unfold f, fixup_cumulative_runnable_avg, on_stats, on_wrq, emit_if, emit.
    repeat case_if; done. }
  unfold wts_of in *. rewrite <- E.
  assert (p_wts (a_p f) = (p_wts (a_p f)) <| t_flags := t_flags (p_wts (a_p f)) |>) as Eid
    by (by destruct (p_wts (a_p f))).
  destruct (walt_fair_task (a_p f)); [|by eexists].
  unfold fixup_nr_giant, on_stats, on_wrq, on_wts.
  repeat case_if; cbn; eauto; unfold walt_flag_set; eexists; cbn; reflexivity.
Qed.

(** What the end of [update_history] does to the task. *)
Lemma store_demand_wts c demand avg rs s :
  let t := wts_of s in let t' := wts_of (store_demand c demand avg rs s) in
  t_sum_history t' = t_sum_history t /\ t_sum_history_util t' = t_sum_history_util t /\
  t_cidx t' = t_cidx t /\ t_sum t' = t_sum t /\ t_coloc_demand t' = avg /\
  t_demand t' = demand /\ t_demand_scaled t' = u16 (scale_time_to_util c demand).
Proof.
  cbv zeta. unfold store_demand.
  set (s1 := if walt_fair_task (a_p s) then _ else s).
  assert (wts_of s1 = wts_of s) as E1.
  { unfold s1, update_obet_task, emit_if. by repeat case_if. }
  clearbody s1. rewrite E1.
  destruct (predict_and_update_buckets (wts_of s) rs) as [t pd] eqn:Ep.
  assert (exists b m, t = (wts_of s) <| t_busy_buckets := b |> <| t_bucket_bitmask := m |>)
    as (b & m & ->).
  { unfold predict_and_update_buckets in Ep. destruct (bucket_increase _ _ _).
    injection Ep as <- _. by do 2 eexists. }
  set (s2 := if _ && _ then _ else _).
  assert (exists f, wts_of s2 = (wts_of s) <| t_busy_buckets := b |> <| t_bucket_bitmask := m |>
     <| t_flags := f |>) as [f Ef].
  { unfold s2. case_if; [|exists (t_flags (wts_of s)); unfold wts_of; by destruct (p_wts (a_p s))].
    edestruct fixup_stats_wts as [f E]. exists f. rewrite E. done. }
  clearbody s2. unfold wts_of in *.
  repeat case_if; cbn; rewrite Ef; cbn; done.
Qed.

Lemma push_samples_yield n rt rs y t :
  push_samples n rt rs (t <| t_yield_state := y |>) =
  (push_samples n rt rs t) <| t_yield_state := y |>.
Proof.
  revert t. induction n as [|n IH]; intros t; cbn [push_samples]; [done|]. by rewrite <- IH.
Qed.

Lemma push_samples_frame n rt rs t :
  t_flags (push_samples n rt rs t) = t_flags t /\ t_grp (push_samples n rt rs t) = t_grp t.
Proof.
  revert t. induction n as [|n IH]; intros t; cbn [push_samples]; [done|].
  match goal with |- context [push_samples n _ _ ?x] => destruct (IH x) as [-> ->] end. done.
Qed.

Lemma walt_fair_task_ext p t : t_flags t = t_flags (p_wts p) ->
  walt_fair_task (p <| p_wts := t |>) = walt_fair_task p.
Proof. intros H. unfold walt_fair_task, walt_is_idle_task, walt_flag_test. cbn. by rewrite H. Qed.

Lemma pushed_samples_ok n rt rs t : ring_ok t -> samples_ok (t_sum_history t) ->
  0 <= rt < 2 ^ 32 -> samples_ok (t_sum_history (push_samples n rt rs t)).
Proof.
  intros Hr [_ Hs] Hrt. destruct (push_samples_spec n rt rs t Hr) as ([L _ _] & _ & H & _).
  split; [done|]. intros i Hi. rewrite (proj1 (H i Hi)). case_if; [done|by apply Hs].
Qed.

Lemma samples_sum hist : samples_ok hist -> 0 <= asum hist / RAVG_HIST_SIZE < 2 ^ 32.
Proof.
  intros [Hl Hr]. destruct hist as [|a [|b [|d [|e [|f [|]]]]]]; try done.
  pose proof (Hr 0 ltac:(lia)). pose proof (Hr 1 ltac:(lia)). pose proof (Hr 2 ltac:(lia)).
  pose proof (Hr 3 ltac:(lia)). pose proof (Hr 4 ltac:(lia)). unfold aget, RAVG_HIST_SIZE in *.
  change (Z.to_nat 0) with 0%nat in *. change (Z.to_nat 1) with 1%nat in *.
  change (Z.to_nat 2) with 2%nat in *. change (Z.to_nat 3) with 3%nat in *.
  change (Z.to_nat 4) with 4%nat in *. cbn [nth asum] in *.
  split; [apply Z.div_pos; lia|apply Z.div_lt_upper_bound; lia].
Qed.

(** A task that cannot be a trailblazer: not a fair task, or in no group. *)
Definition no_trailblazer (s : acct) : Prop :=
  walt_fair_task (a_p s) && task_in_related_thread_group (wts_of s) = false.


(** ** The statistics of the run queue *)

Import QueueStats.

(** The statistics of the run queue are those of the task plus [st] for the
    others on the queue. *)
Record tracks (s : acct) (st : walt_sched_stats) : Prop := mk_tracks {
  tr_stats : w_walt_stats (a_wrq s) = stats_add (scan [a_p s]) st;
  tr_queueable : queueable (a_rq s) (a_p s);
  tr_room : room st
}.

(** [s'] differs from [s] in the task and in effects that are not failures. *)
Definition extends (s s' : acct) : Prop :=
  a_rq s' = a_rq s /\ (exists k, a_log s' = a_log s ++ k /\ no_bug k) /\
  exists t, a_p s' = (a_p s) <| p_wts := t |>.

Lemma extends_refl s : extends s s.
Proof.
  split; [done|]. split; [exists []; split; [by rewrite app_nil_r|constructor]|].
  exists (p_wts (a_p s)). by destruct s as [[]].
Qed.

Lemma extends_trans s s' s'' : extends s s' -> extends s' s'' -> extends s s''.
Proof.
  intros (H1 & (k & H2 & Hk) & t & H3) (H4 & (k' & H5 & Hk') & t' & H6).
  split; [congruence|]. split.
  - exists (k ++ k'). rewrite H5, H2, app_assoc. split; [done|]. by apply no_bug_app.
  - exists t'. rewrite H6, H3. done.
Qed.

Lemma extends_on_wts f s : extends s (on_wts f s).
Proof.
  split; [done|]. split; [exists []; split; [by rewrite app_nil_r|constructor]|]. by eexists.
Qed.

Lemma extends_emit e b s : is_bug e = false -> extends s (emit_if b e s).
Proof.
  intros He. destruct b; [|apply extends_refl]. split; [done|].
  split; [exists [e]; split; [done|by constructor]|].
  exists (p_wts (a_p s)). by destruct s as [[]].
Qed.

(** Fields of the task the statistics depend on. *)
Definition same_stats (t t' : walt_task_struct) : Prop :=
  t_flags t' = t_flags t /\ t_misfit t' = t_misfit t /\ t_rtg_high_prio t' = t_rtg_high_prio t /\
  t_demand_scaled t' = t_demand_scaled t /\ t_pred_demand_scaled t' = t_pred_demand_scaled t.

Lemma scan_one_ext p t : same_stats (p_wts p) t -> scan [p <| p_wts := t |>] = scan [p].
Proof.
  intros (H1 & H2 & H3 & H4 & H5). unfold scan, fair_count, is_giant, is_trailblazer, walt_flag_test.
  autorewrite with walt. rewrite walt_fair_task_ext by done. cbn. by rewrite H1, H2, H3, H4, H5.
Qed.

Lemma tracks_on_wts f s st :
  same_stats (wts_of s) (f (wts_of s)) -> tracks s st -> tracks (on_wts f s) st.
Proof.
  unfold wts_of. intros Hf [H1 (H2 & H3 & H4 & H5) H6]. split; [| |done].
  - cbn. rewrite H1. by rewrite <- (scan_one_ext (a_p s) (f (p_wts (a_p s))) Hf).
  - destruct Hf as (_ & _ & _ & E1 & E2). unfold queueable, on_wts. cbn. by rewrite E1, E2.
Qed.

Lemma tracks_emit e b s st : tracks s st -> tracks (emit_if b e s) st.
Proof. intros [H1 H2 H3]. by destruct b. Qed.

Lemma flag_test_trailblazer t b :
  walt_flag_test (walt_flag_set t WALT_TRAILBLAZER_BIT b) WALT_TRAILBLAZER_BIT = b /\
  walt_flag_test (walt_flag_set t WALT_TRAILBLAZER_BIT b) WALT_GIANT_BIT =
    walt_flag_test t WALT_GIANT_BIT /\
  walt_flag_test (walt_flag_set t WALT_TRAILBLAZER_BIT b) WALT_IDLE_TASK_BIT =
    walt_flag_test t WALT_IDLE_TASK_BIT.
Proof.
  change WALT_TRAILBLAZER_BIT with (2 ^ 1). change WALT_GIANT_BIT with (2 ^ 4).
  change WALT_IDLE_TASK_BIT with (2 ^ 2). by rewrite !walt_flag_set_bit by lia.
Qed.

(** Moving the trailblazer flag of a queued fair task and its counter together
    keeps the statistics. *)
Lemma tracks_trailblazer b s st :
  tracks s st -> walt_fair_task (a_p s) = true ->
  let t := wts_of s in
  let old := walt_flag_test t WALT_TRAILBLAZER_BIT in
  tracks (on_stats (fun x => x <| s_nr_trailblazer_tasks :=
             s_nr_trailblazer_tasks x + (Z.b2z b - Z.b2z old) |>)
           (on_wts (fun t => walt_flag_set t WALT_TRAILBLAZER_BIT b) s)) st.
Proof.
  intros [H1 (H2 & H3 & H4 & H5) H6] Hf. cbv zeta.
  destruct (flag_test_trailblazer (wts_of s) b) as (F1 & F2 & F3).
  cbn in F1, F2, F3. split; [|by split|done]. cbn. rewrite H1.
  rewrite (scan_one_fair (a_p s)) by done.
  rewrite scan_one_fair.
  2: { transitivity (walt_fair_task (a_p s)); [|done]. unfold walt_fair_task, walt_is_idle_task.
       cbn. by rewrite F3. }
  unfold stats_add, is_giant, is_trailblazer. cbn. rewrite F1, F2.
  f_equal; lia.
Qed.

Lemma tracks_fair s s' : extends s s' -> walt_is_idle_task (wts_of s') = walt_is_idle_task (wts_of s) ->
  walt_fair_task (a_p s') = walt_fair_task (a_p s).
Proof. intros (_ & _ & t & E) H. unfold wts_of in *. rewrite E in *. unfold walt_fair_task. cbn in *. by rewrite H. Qed.

Lemma on_stats_ext f g s :
  f (w_walt_stats (a_wrq s)) = g (w_walt_stats (a_wrq s)) -> on_stats f s = on_stats g s.
Proof. intros H. unfold on_stats, on_wrq. by rewrite H. Qed.

Lemma on_stats_id f s : f (w_walt_stats (a_wrq s)) = w_walt_stats (a_wrq s) -> on_stats f s = s.
Proof. intros H. unfold on_stats, on_wrq. rewrite H. by destruct s as [? ? []]. Qed.

Lemma on_stats_emit f b e s : on_stats f (emit_if b e s) = emit_if b e (on_stats f s).
Proof. by destruct b. Qed.

Lemma tracks_count s st : tracks s st -> walt_fair_task (a_p s) = true ->
  let n := s_nr_trailblazer_tasks (w_walt_stats (a_wrq s)) in
  let b := Z.b2z (walt_flag_test (wts_of s) WALT_TRAILBLAZER_BIT) in
  0 <= n - b < INT_MAX /\ n = b + s_nr_trailblazer_tasks st.
Proof.
  intros [H1 _ (_ & Hr & _)] Hf. cbv zeta. rewrite H1, scan_one_fair by done. cbn.
  unfold is_trailblazer. lia.
Qed.

Lemma settle_tracks b s st :
  tracks s st -> walt_fair_task (a_p s) = true ->
  let s2 := on_wts (fun t => walt_flag_set t WALT_TRAILBLAZER_BIT b) s in
  let s3 := settle_trailblazer (walt_flag_test (wts_of s) WALT_TRAILBLAZER_BIT) b s2 in
  tracks s3 st /\ extends s s3.
Proof.
  intros Ht Hf. cbv zeta. pose proof (tracks_trailblazer b s st Ht Hf) as H.
  destruct (tracks_count s st Ht Hf) as [Hn _]. unfold INT_MAX in Hn. cbv zeta in H.
  set (old := walt_flag_test (wts_of s) WALT_TRAILBLAZER_BIT) in *.
  set (s2 := on_wts _ s) in *.
  assert (extends s s2) as X2 by apply extends_on_wts.
  assert (forall e (x : bool) f, is_bug e = false -> extends s (emit_if x e (on_stats f s2))) as X3.
  { intros e x f He. eapply extends_trans; [|by apply extends_emit].
    destruct X2 as (X & Y & Z'). by split. }
  assert (w_walt_stats (a_wrq s2) = w_walt_stats (a_wrq s)) as Ew by done.
  unfold settle_trailblazer. destruct old, b; cbn [negb andb Bool.eqb Z.b2z] in *.
  - rewrite (on_stats_id _ s2) in H; [split; [done|done]|]. rewrite Ew.
    destruct (w_walt_stats (a_wrq s)). cbn. f_equal. lia.
  - rewrite on_stats_emit. split; [|by apply X3]. apply tracks_emit.
    erewrite on_stats_ext; [exact H|]. cbn. rewrite s32_small by lia. by f_equal; lia.
  - rewrite on_stats_emit. split; [|by apply X3]. apply tracks_emit.
    erewrite on_stats_ext; [exact H|]. cbn. rewrite s32_small by lia. by f_equal; lia.
  - rewrite (on_stats_id _ s2) in H; [split; [done|done]|]. rewrite Ew.
    destruct (w_walt_stats (a_wrq s)). cbn. f_equal. lia.
Qed.

Lemma trailblazer_tracks c rt rs d s s' d' st :
  tracks s st -> walt_fair_task (a_p s) = true ->
  task_on_rq_queued (a_p s) && task_is_runnable (a_p s) = true ->
  update_trailblazer_accounting c rt rs d s = (s', d') ->
  tracks s' st /\ extends s s' /\
  walt_is_idle_task (wts_of s') = walt_is_idle_task (wts_of s).
Proof.
  intros Ht Hf Hq. unfold update_trailblazer_accounting.
  set (s1 := if _ && _ then _ else s).
  assert (tracks s1 st /\ extends s s1 /\ t_flags (wts_of s1) = t_flags (wts_of s)) as (T1 & X1 & F1).
  { unfold s1. case_if; [|split; [done|split; [apply extends_refl|done]]].
    split; [by apply tracks_on_wts|]. split; [apply extends_on_wts|done]. }
  assert (walt_fair_task (a_p s1) = true) as Hf1.
  { rewrite (tracks_fair s s1); [done|done|]. unfold walt_is_idle_task, walt_flag_test. by rewrite F1. }
  assert (walt_flag_test (wts_of s) WALT_TRAILBLAZER_BIT =
          walt_flag_test (wts_of s1) WALT_TRAILBLAZER_BIT) as -> by (unfold walt_flag_test; by rewrite F1).
  assert (walt_is_idle_task (wts_of s) = walt_is_idle_task (wts_of s1)) as Hi
    by (unfold walt_is_idle_task, walt_flag_test; by rewrite F1).
  clearbody s1.
  set (x := if _ && _ && _ then _ else _).
  destruct x as [s2 d2] eqn:Ex.
  set (s3 := settle_trailblazer _ _ s2).
  assert (tracks s3 st /\ extends s1 s3 /\ extends s1 s2 /\
          walt_is_idle_task (wts_of s3) = walt_is_idle_task (wts_of s1)) as (T3 & X3 & X2 & I3).
  { assert (forall b, s2 = on_wts (fun t => walt_flag_set t WALT_TRAILBLAZER_BIT b) s1 ->
      tracks s3 st /\ extends s1 s3 /\ extends s1 s2 /\
      walt_is_idle_task (wts_of s3) = walt_is_idle_task (wts_of s1)) as Hb.
    { intros b E2. destruct (flag_test_trailblazer (wts_of s1) b) as (G1 & _ & G3).
      assert (walt_flag_test (wts_of s2) WALT_TRAILBLAZER_BIT = b) as E by (rewrite E2; exact G1).
      destruct (settle_tracks b s1 st T1 Hf1) as [A B]. unfold s3. rewrite E, E2.
      split; [exact A|]. split; [exact B|]. split; [apply extends_on_wts|].
      unfold walt_is_idle_task. rewrite <- G3.
      unfold settle_trailblazer, emit_if, on_stats, on_wrq. repeat case_if; done. }
    subst x. revert Ex. case_if; [|destruct (walt_flag_test (wts_of s1) WALT_TRAILBLAZER_BIT) eqn:Ho];
      intros [= <- <-]; [by eapply Hb..|]. unfold s3, settle_trailblazer. rewrite Ho. cbn.
    split; [done|]. split; [apply extends_refl|]. split; [apply extends_refl|done]. }
  assert (task_on_rq_queued (a_p s2) && task_is_runnable (a_p s2) = true) as ->.
  { destruct X1 as (_ & _ & t1 & E1), X2 as (_ & _ & t2 & E2). by rewrite E2, E1. }
  clearbody s3. clear Ex x. rewrite Hi.
  assert (extends s s3) as X by (by eapply extends_trans).
  repeat case_if; intros [= <- <-].
  1,2: split; [by apply tracks_on_wts|split; [eapply extends_trans; [done|apply extends_on_wts]|exact I3]].
  split; [done|]. split; done.
Qed.

Lemma account_demand_tracks c d pd s st :
  tracks s st -> 0 <= d < 65536 -> 0 <= pd < 65536 ->
  tracks (account_demand c d pd s) st /\ extends s (account_demand c d pd s).
Proof.
  intros [H1 H2 H3] Hd Hp. destruct s as [p r w log]. cbn in *.
  rewrite (demand_exact c r p w log st) by done.
  split; [split; [done| |done]|].
  - destruct H2 as (? & ? & _). by split.
  - split; [done|]. split; [exists []; split; [by rewrite app_nil_r|constructor]|]. by eexists.
Qed.

Lemma store_demand_tracks c demand avg rs s st :
  tracks s st -> task_on_rq_queued (a_p s) && task_is_runnable (a_p s) = true ->
  tracks (store_demand c demand avg rs s) st /\ extends s (store_demand c demand avg rs s).
Proof.
  intros Ht Hq. unfold store_demand.
  set (s1 := if walt_fair_task (a_p s) then _ else s).
  assert (tracks s1 st /\ extends s s1) as [T1 X1].
  { unfold s1, update_obet_task. case_if; [|split; [done|apply extends_refl]].
    split; [by apply tracks_emit|by apply extends_emit]. }
  clearbody s1.
  destruct (predict_and_update_buckets (wts_of s1) rs) as [t pd] eqn:Ep.
  assert (0 <= pd < 65536 /\ same_stats (wts_of s1) t) as [Hpd Ht1].
  { unfold predict_and_update_buckets in Ep. destruct (bucket_increase _ _ _).
    injection Ep as <- <-. split; [apply u16_range|done]. }
  set (s2 := on_wts (fun _ => t) s1).
  assert (tracks s2 st /\ extends s s2) as [T2 X2].
  { split; [by apply tracks_on_wts|]. eapply extends_trans; [done|apply extends_on_wts]. }
  assert (task_on_rq_queued (a_p s2) && task_is_runnable (a_p s2) = true) as ->.
  { destruct X2 as (_ & _ & t2 & ->). done. }
  set (d := u16 (scale_time_to_util c demand)).
  destruct (account_demand_tracks c d pd s2 st T2) as [T3 X3]; [apply u16_range|done|].
  change (on_wts _ (fixup_walt_sched_stats_common c d pd s2)) with
    (on_wts (fun t => t <| t_demand := demand |> <| t_coloc_demand := avg |>)
       (account_demand c d pd s2)).
  set (s3 := account_demand c d pd s2) in *. clearbody s3.
  assert (extends s s3) as X by (by eapply extends_trans).
  set (s4 := on_wts _ s3).
  assert (tracks s4 st /\ extends s s4) as [T4 X4].
  { split; [by apply tracks_on_wts|]. eapply extends_trans; [done|apply extends_on_wts]. }
  clearbody s4. repeat case_if; [..|done];
    (split; [by apply tracks_on_wts|eapply extends_trans; [done|apply extends_on_wts]]).
Qed.

Lemma push_same_stats n rt rs t : same_stats t (push_samples n rt rs t).
Proof.
  revert t. induction n as [|n IH]; intros t; cbn [push_samples]; [done|].
  unfold same_stats.
  match goal with |- context [push_samples n _ _ ?x] => destruct (IH x) as (-> & -> & -> & -> & ->) end.
  done.
Qed.

(** Recording a window of a queued task moves the demand sums and the
    trailblazer and giant counters of its run queue together with the task: if the
    statistics are those of the task plus those of the rest of the queue before,
    they are so after, and no consistency check fires. *)
Theorem update_history_keeps_stats c runtime samples s st :
  tracks s st -> task_on_rq_queued (a_p s) && task_is_runnable (a_p s) = true ->
  let s' := update_history c runtime samples s in
  w_walt_stats (a_wrq s') = stats_add (scan [a_p s']) st /\ queueable (a_rq s') (a_p s') /\
  (no_bug (a_log s) -> no_bug (a_log s')).
Proof.
  intros Ht Hq. cbv zeta.
  assert (tracks (update_history c runtime samples s) st /\
          extends s (update_history c runtime samples s)) as [[H1 H2 _] (_ & (k & Hk & Hb) & _)].
  2: { split; [done|]. split; [done|]. intros H. rewrite Hk. by apply no_bug_app. }
  unfold update_history. set (s1 := on_wts _ s).
  assert (tracks s1 st /\ extends s s1) as [T1 X1]
    by (split; [by apply tracks_on_wts|apply extends_on_wts]).
  clearbody s1. case_if; [done|]. clear Heqb.
  set (s2 := on_wts (push_samples _ _ _) s1).
  assert (tracks s2 st /\ extends s s2) as [T2 X2].
  { split; [|eapply extends_trans; [done|apply extends_on_wts]]. apply tracks_on_wts; [|done].
    apply push_same_stats. }
  clearbody s2. destruct (history_sum_max _) as [sum max].
  set (s3 := on_wts _ s2).
  assert (tracks s3 st /\ extends s s3) as [T3 X3].
  { split; [by apply tracks_on_wts|eapply extends_trans; [done|apply extends_on_wts]]. }
  clearbody s3.
  assert (forall s', extends s s' -> task_on_rq_queued (a_p s') && task_is_runnable (a_p s') = true)
    as Hq' by (intros s' (_ & _ & t & ->); done).
  set (x := if walt_fair_task (a_p s3) && _ then _ else _).
  destruct x as [s4 d4] eqn:Ex.
  assert (tracks s4 st /\ extends s s4) as [T4 X4].
  { subst x. revert Ex. case_if; [|by intros [= <- <-]]. intros Ex.
    apply andb_prop in Heqb as [Hf _].
    destruct (trailblazer_tracks _ _ _ _ _ _ _ st T3 Hf (Hq' _ X3) Ex) as (A & B & _).
    split; [done|]. by eapply extends_trans. }
  destruct (store_demand_tracks c d4 (u32 (sum / RAVG_HIST_SIZE))
    (u16 (scale_time_to_util c runtime)) s4 st T4 (Hq' _ X4)) as [A B].
  split; [done|]. by eapply extends_trans.
Qed.

(** ** The running sum *)

(** What the demand accounting leaves alone: everything of the task but its
    vendor data, and of that whatever the busy-time accounting depends on; of the
    run queue its windows, busy counters and execution scale. *)
Record view := mk_view {
  v_task : task_struct;
  v_rq : rq;
  v_idle : bool;
  v_exec : Z * Z * option Z * Z;
  v_task_window : Z * Z * Z;
  v_task_busy : Z * Z * list Z * list Z;
  v_rq_window : Z * Z;
  v_rq_busy : group_cpu_time * group_cpu_time * list load_subtractions;
  v_migration : Z * Z * Z;
  v_cluster : Z
}.

Definition view_of (s : acct) : view :=
  let t := p_wts (a_p s) in let w := a_wrq s in {|
  v_task := (a_p s) <| p_wts := zero_wts |>;
  v_rq := a_rq s;
  v_idle := walt_is_idle_task t;
  v_exec := (t_load_boost t, t_boosted_task_load t, t_grp t, w_task_exec_scale w);
  v_task_window := (t_window_start t, t_mark_start t, t_active_time t);
  v_task_busy := (t_curr_window t, t_prev_window t, t_curr_window_cpu t, t_prev_window_cpu t);
  v_rq_window := (w_window_start w, w_prev_window_size w);
  v_rq_busy := (w_rq_time w, w_grp_time w, w_load_subs w);
  v_migration := (t_enqueue_after_migration t, t_prev_cpu t, t_new_cpu t);
  v_cluster := w_cluster w
|}.

Definition frame (s s' : acct) : Prop := view_of s' = view_of s.

Lemma frame_refl s : frame s s.
Proof. done. Qed.

Lemma frame_trans s s' s'' : frame s s' -> frame s' s'' -> frame s s''.
Proof. unfold frame. congruence. Qed.

(** Changing the vendor data outside the view. *)
Lemma frame_on_wts f s :
  frame s (on_wts f s) <->
  let t := p_wts (a_p s) in
  walt_is_idle_task (f t) = walt_is_idle_task t /\
  (t_load_boost (f t), t_boosted_task_load (f t), t_grp (f t)) =
    (t_load_boost t, t_boosted_task_load t, t_grp t) /\
  (t_window_start (f t), t_mark_start (f t), t_active_time (f t)) =
    (t_window_start t, t_mark_start t, t_active_time t) /\
  (t_curr_window (f t), t_prev_window (f t), t_curr_window_cpu (f t), t_prev_window_cpu (f t)) =
    (t_curr_window t, t_prev_window t, t_curr_window_cpu t, t_prev_window_cpu t) /\
  (t_enqueue_after_migration (f t), t_prev_cpu (f t), t_new_cpu (f t)) =
    (t_enqueue_after_migration t, t_prev_cpu t, t_new_cpu t).
Proof.
  unfold frame, view_of. cbn. split.
  - intros [= -> -> -> -> -> -> -> -> -> -> -> -> -> ->]. done.
  - intros (-> & [= -> -> ->] & [= -> -> ->] & [= -> -> -> ->] & [= -> -> ->]). done.
Qed.

Lemma frame_idle s s' : frame s s' -> walt_is_idle_task (wts_of s') = walt_is_idle_task (wts_of s).
Proof. apply (f_equal v_idle). Qed.

Lemma frame_scale s s' d : frame s s' ->
  scale_exec_time d (a_wrq s') (wts_of s') = scale_exec_time d (a_wrq s) (wts_of s).
Proof.
  intros H. apply (f_equal v_exec) in H. cbn in H. injection H as ? ? ? ?.
  by apply BusyTime.scale_exec_time_ext.
Qed.

Lemma trailblazer_frame c rt rs d s s' d' :
  update_trailblazer_accounting c rt rs d s = (s', d') ->
  frame s s' /\ t_sum (wts_of s') = t_sum (wts_of s).
Proof.
  unfold update_trailblazer_accounting. set (s1 := if _ && _ then _ else s).
  assert (frame s s1 /\ t_sum (wts_of s1) = t_sum (wts_of s)) as H1 by (unfold s1; by case_if).
  clearbody s1. set (x := if _ && _ && _ then _ else _). destruct x as [s2 d2] eqn:Ex.
  assert (frame s s2 /\ t_sum (wts_of s2) = t_sum (wts_of s)) as H2.
  { destruct H1 as [F1 E1]. subst x. revert Ex.
    assert (forall b, frame s1 (on_wts (fun t => walt_flag_set t WALT_TRAILBLAZER_BIT b) s1)) as Hb.
    { intros b. apply frame_on_wts. destruct (flag_test_trailblazer (wts_of s1) b) as (_ & _ & G3).
      by split. }
    repeat case_if; intros [= <- <-]; (split; [|done]); eauto using frame_trans. }
  clearbody x. set (s3 := if _ && _ then _ else s2).
  assert (frame s s3 /\ t_sum (wts_of s3) = t_sum (wts_of s)) as H3.
  { unfold s3, settle_trailblazer, on_stats, on_wrq, emit_if. by repeat case_if. }
  clearbody s3. repeat case_if; by intros [= <- <-].
Qed.

Lemma fixup_frame c d pd s : frame s (fixup_walt_sched_stats_common c d pd s).
Proof.
  unfold fixup_walt_sched_stats_common. destruct (task_on_scx _); [done|].
  set (f := fixup_cumulative_runnable_avg _ _ _).
  assert (frame s f) as Hf.
  { unfold f, fixup_cumulative_runnable_avg, on_stats, on_wrq, emit_if, emit.
    repeat case_if; done. }
  clearbody f. case_if; [|done]. eapply frame_trans; [done|].
  unfold fixup_nr_giant, on_stats, on_wrq.
  assert (forall b, walt_is_idle_task (walt_flag_set (wts_of f) WALT_GIANT_BIT b) =
    walt_is_idle_task (wts_of f)) as Hg.
  { intros b. unfold walt_is_idle_task. change WALT_IDLE_TASK_BIT with (2 ^ 2).
    change WALT_GIANT_BIT with (2 ^ 4). by rewrite walt_flag_set_bit by lia. }
  assert (forall b, frame f (on_wts (fun t => walt_flag_set t WALT_GIANT_BIT b) f)) as Hw
    by (intros b; apply frame_on_wts; split; [apply Hg|done]).
  repeat case_if; try done; apply (Hw _).
Qed.

Lemma store_demand_frame c demand avg rs s : frame s (store_demand c demand avg rs s).
Proof.
  unfold store_demand. set (s1 := if walt_fair_task (a_p s) then _ else s).
  assert (frame s s1) as H1 by (unfold s1, update_obet_task, emit_if; by repeat case_if).
  clearbody s1. destruct (predict_and_update_buckets (wts_of s1) rs) as [t pd] eqn:Ep.
  set (s2 := on_wts (fun _ => t) s1). 
  assert (frame s s2) as H2.
  { unfold predict_and_update_buckets in Ep. destruct (bucket_increase _ _ _).
    injection Ep as <- <-. by eapply frame_trans. }
  clearbody s2. set (s3 := if _ && _ then _ else s2).
  assert (frame s s3) as H3.
  { unfold s3. case_if; [|done]. eapply frame_trans; [done|]. apply fixup_frame. }
  clearbody s3. repeat case_if; done.
Qed.

Lemma push_frame n rt rs s : frame s (on_wts (push_samples n rt rs) s).
Proof.
  apply frame_on_wts. cbv zeta. unfold walt_is_idle_task, walt_flag_test.
  generalize (p_wts (a_p s)) as t.
  induction n as [|n IH]; intros t; cbn [push_samples]; [done|].
  match goal with |- context [push_samples n _ _ ?x] => destruct (IH x) as (-> & -> & -> & -> & ->) end.
  done.
Qed.

Lemma update_history_frame c runtime samples s :
  let s' := update_history c runtime samples s in
  frame s s' /\
  t_sum (wts_of s') =
    (if (runtime =? 0) || walt_is_idle_task (wts_of s) || (samples =? 0)
     then t_sum (wts_of s) else 0).
Proof.
  cbv zeta. unfold update_history. set (s1 := on_wts _ s).
  assert (frame s s1 /\ t_sum (wts_of s1) = t_sum (wts_of s)) as [F E1] by done.
  assert (walt_is_idle_task (wts_of s1) = walt_is_idle_task (wts_of s)) as <- by done.
  clearbody s1.
  destruct (_ || _ || _); [done|].
  set (s2 := on_wts (push_samples _ _ _) s1).
  assert (frame s s2) as G2.
  { eapply frame_trans; [done|]. apply push_frame. }
  clearbody s2. destruct (history_sum_max _) as [sum max].
  set (s3 := on_wts _ s2). assert (frame s s3 /\ t_sum (wts_of s3) = 0) as [G3 E3] by done.
  clearbody s3. set (x := if walt_fair_task (a_p s3) && _ then _ else _).
  destruct x as [s4 d4] eqn:Ex.
  assert (frame s s4 /\ t_sum (wts_of s4) = 0) as [G4 E4].
  { subst x. revert Ex. case_if; [|by intros [= <- <-]]. intros Ex.
    destruct (trailblazer_frame _ _ _ _ _ _ _ Ex) as [A B].
    split; [by eapply frame_trans|congruence]. }
  split; [eapply frame_trans; [done|]; apply store_demand_frame|].
  edestruct store_demand_wts as (_ & _ & _ & -> & _). done.
Qed.

Section RunningSum.
Context (c : walt_cfg) (event : task_event) (wallclock : Z) (s : acct).
Local Abbreviation t := (wts_of s).
Local Abbreviation ws := (w_window_start (a_wrq s)).
Local Abbreviation ms := (t_mark_start (wts_of s)).
Local Abbreviation W := (sched_ravg_window c).

Record demand_ok : Prop := mk_demand_ok {
  do_window : 0 < W <= 2 ^ 30;
  do_exec : BusyTime.exec_ok (a_wrq s) t;
  do_sum : 0 <= t_sum t <= W;
  do_clock : 0 <= ms <= wallclock;
  do_now : ws <= wallclock < ws + W;
  do_gap : ws - ms < 2 ^ 31 * W;
  do_top : ws < 2 ^ 60
}.

(** Windows that passed completely since the last update. *)
Definition full_windows : Z := (ws - ms) / W.
Definition scaled (d : Z) : Z := scale_exec_time d (a_wrq s) t.

Lemma add_to_task_demand_eq d s' :
  frame s s' -> demand_ok -> 0 <= d <= W -> 0 <= t_sum (wts_of s') <= W ->
  add_to_task_demand c d s' =
    (on_wts (fun t => t <| t_sum := Z.min W (t_sum t + scaled d) |>) s', scaled d).
Proof.
  intros Hf Hok Hd Hs. unfold add_to_task_demand. rewrite (frame_scale s s') by done. fold (scaled d).
  assert (0 <= scaled d <= 2 * d) as Hsc
    by (apply BusyTime.scale_exec_time_bound; [apply Hok|destruct Hok; lia]).
  destruct (do_window Hok). unfold on_wts, wts_of in *. cbn. rewrite u32_small by lia.
  destruct (Z.ltb_spec W (t_sum (p_wts (a_p s')) + scaled d)); cbn.
  - rewrite Z.min_l by lia. done.
  - rewrite Z.min_r by lia. done.
Qed.

Lemma full_windows_spec : demand_ok -> ms < ws ->
  0 <= full_windows < 2 ^ 31 /\ full_windows * W <= ws - ms < full_windows * W + W.
Proof.
  intros [HW _ _ _ _ Hg _] Hlt. unfold full_windows.
  pose proof (Z.div_mod (ws - ms) W ltac:(lia)).
  pose proof (Z.mod_pos_bound (ws - ms) W ltac:(lia)).
  assert (0 <= (ws - ms) / W) by (apply Z.div_pos; lia). nia.
Qed.

(** The lst bookkeeping in front of the accounting. *)
Lemma lst_frame : 
  let s1 := if pipeline_in_progress c && bool_decide (t_grp t = Some DEFAULT_CGROUP_COLOC_ID)
            then on_wts (update_lst c wallclock (ms <? ws)) s else s in
  frame s s1 /\ t_sum (wts_of s1) = t_sum t /\
  account_busy_for_task_demand (a_rq s1) (a_p s1) event =
  account_busy_for_task_demand (a_rq s) (a_p s) event.
Proof.
  cbv zeta. case_if; [|done]. unfold update_lst, frame, view_of, wts_of, on_wts. cbn.
  repeat case_if; done.
Qed.
End RunningSum.

Lemma close_sum c s : walt_is_idle_task (wts_of s) = false ->
  t_sum (wts_of (update_history c (t_sum (wts_of s)) 1 s)) = 0.
Proof.
  intros Hi. destruct (update_history_frame c (t_sum (wts_of s)) 1 s) as [_ E].
  rewrite E, Hi. change (1 =? 0) with false.
  destruct (Z.eqb_spec (t_sum (wts_of s)) 0); done.
Qed.

Lemma closed_sum c rt n s : t_sum (wts_of s) = 0 -> t_sum (wts_of (update_history c rt n s)) = 0.
Proof.
  intros Hs. destruct (update_history_frame c rt n s) as [_ E]. rewrite E, Hs. by case_if.
Qed.

Lemma demand_over_windows_sum c wallclock s s1 s' runtime :
  let W := sched_ravg_window c in
  let ws := w_window_start (a_wrq s) in let ms := t_mark_start (wts_of s) in
  let n := full_windows c s in
  demand_ok c wallclock s -> walt_is_idle_task (wts_of s) = false -> ms < ws ->
  frame s s1 -> 0 <= t_sum (wts_of s1) <= W ->
  demand_over_windows c ms ws wallclock s1 = (s', runtime) ->
  0 <= t_sum (wts_of s') <= W /\
  t_sum (wts_of s') = Z.min W (scaled s (wallclock - ws)) /\
  runtime = scaled s (ws - n * W - ms) + n * scaled s W + scaled s (wallclock - ws).
Proof.
  cbv zeta. intros Hok Hidle Hlt F1 Hs. pose proof Hok as [HW He _ Hc Hn Hg Htop].
  assert (forall d, 0 <= d <= sched_ravg_window c -> 0 <= scaled s d <= 2 * d) as Hsc
    by (intros d Hd; apply BusyTime.scale_exec_time_bound; [done|lia]).
  unfold demand_over_windows.
  destruct (full_windows_spec c wallclock s Hok Hlt) as [Hf Hfw].
  rewrite (u64_small (w_window_start (a_wrq s) - t_mark_start (wts_of s))) by lia.
  fold (full_windows c s). set (n := full_windows c s) in *.
  rewrite (s32_small n) by lia. rewrite (u64_small (n * _)) by lia.
  rewrite (u64_small (w_window_start (a_wrq s) - _)) by lia.
  replace (w_window_start (a_wrq s) - n * sched_ravg_window c + n * sched_ravg_window c)
    with (w_window_start (a_wrq s)) by lia.
  rewrite (u64_small (w_window_start (a_wrq s))), (u64_small (wallclock - w_window_start (a_wrq s))),
    (u64_small (w_window_start (a_wrq s) - n * sched_ravg_window c - _)) by lia.
  rewrite (add_to_task_demand_eq c wallclock s) by (done || lia).
  set (s2 := on_wts _ s1). assert (frame s s2) as F2 by done.
  pose proof (close_sum c s2) as E2. destruct (update_history_frame c (t_sum (wts_of s2)) 1 s2) as [F3 _].
  rewrite (frame_idle _ _ F2) in E2. specialize (E2 Hidle).
  set (s3 := update_history c (t_sum (wts_of s2)) 1 s2) in *.
  assert (frame s s3) as F3' by (by eapply frame_trans). clear F3. clearbody s3 s2.
  rewrite (frame_scale s s3) by done. fold (scaled s (sched_ravg_window c)).
  pose proof (Hsc (sched_ravg_window c) ltac:(lia)) as HscW.
  pose proof (Hsc (w_window_start (a_wrq s) - n * sched_ravg_window c - t_mark_start (wts_of s)) ltac:(lia)).
  pose proof (Hsc (wallclock - w_window_start (a_wrq s)) ltac:(lia)).
  assert (0 <= n * scaled s (sched_ravg_window c) < 2 ^ 61) as Hprod by nia.
  clearbody n. set (x := if negb (n =? 0) then _ else _).
  assert (exists s4, x = (s4, scaled s (w_window_start (a_wrq s) - n * sched_ravg_window c -
      t_mark_start (wts_of s)) + n * scaled s (sched_ravg_window c)) /\
    frame s s4 /\ t_sum (wts_of s4) = 0) as (s4 & -> & F4 & E4).
  { unfold x. destruct (Z.eqb_spec n 0) as [->|Hn0]; cbn [negb].
    - exists s3. split; [f_equal; lia|done].
    - eexists. split; [f_equal; wrap_simpl; reflexivity|].
      split; [|by apply closed_sum]. eapply frame_trans; [done|]. apply update_history_frame. }
  rewrite (add_to_task_demand_eq c wallclock s) by (done || lia).
  intros H1. injection H1 as <- <-. unfold wts_of in *. cbn. rewrite E4. wrap_simpl. lia.
Qed.

(** The running sum of a task never exceeds the window. Accounted time inside
    the window is added to it; when the time reaches back over one or more window
    boundaries the sum restarts with the part that lies in the current window, and
    the time reported is the sum of the scaled parts before, of each full window
    and after; time that is not accounted leaves the sum alone or closes it. *)
Theorem update_task_demand_sum c event wallclock s s' runtime :
  demand_ok c wallclock s -> walt_is_idle_task (wts_of s) = false ->
  update_task_demand c event wallclock s = (s', runtime) ->
  let W := sched_ravg_window c in
  let ws := w_window_start (a_wrq s) in let ms := t_mark_start (wts_of s) in
  let n := full_windows c s in
  0 <= t_sum (wts_of s') <= W /\
  if account_busy_for_task_demand (a_rq s) (a_p s) event then
    if ms <? ws then
      t_sum (wts_of s') = Z.min W (scaled s (wallclock - ws)) /\
      runtime = scaled s (ws - n * W - ms) + n * scaled s W + scaled s (wallclock - ws)
    else
      t_sum (wts_of s') = Z.min W (t_sum (wts_of s) + scaled s (wallclock - ms)) /\
      runtime = scaled s (wallclock - ms)
  else t_sum (wts_of s') = (if ms <? ws then 0 else t_sum (wts_of s)) /\ runtime = 0.
Proof.
  intros Hok Hidle. cbv zeta. unfold update_task_demand.
  destruct (lst_frame c event wallclock s) as (F1 & E1 & E2).
  set (s1 := if _ && _ then _ else s) in *. rewrite E2. clearbody s1.
  pose proof (do_sum _ _ _ Hok) as Hs. rewrite <- E1 in Hs.
  clear E2. destruct (account_busy_for_task_demand (a_rq s) (a_p s) event); cbn [negb].
  2: { intros H. injection H as <- <-.
    pose proof (close_sum c s1) as E3. pose proof (frame_idle _ _ F1) as F5.
    unfold wts_of in *.
    destruct (t_mark_start (p_wts (a_p s)) <? w_window_start (a_wrq s)); [rewrite E3 by congruence|];
      lia. }
  pose proof Hok as [HW He _ Hc Hn Hg Htop].
  assert (forall d, 0 <= d <= sched_ravg_window c -> 0 <= scaled s d <= 2 * d) as Hsc
    by (intros d Hd; apply BusyTime.scale_exec_time_bound; [done|lia]).
  destruct (Z.ltb_spec (t_mark_start (wts_of s)) (w_window_start (a_wrq s))) as [Hlt|Hge].
  2: { cbn [negb]. rewrite u64_small by lia.
    rewrite (add_to_task_demand_eq c wallclock s) by (done || lia).
    intros H. injection H as <- <-. unfold wts_of in *.
    pose proof (Hsc (wallclock - t_mark_start (p_wts (a_p s))) ltac:(lia)).
    cbn. rewrite E1. lia. }
  cbn [negb]. by apply (demand_over_windows_sum c wallclock s s1).
Qed.

(** ** Runs *)

Definition runner (w_start ms sum : Z) : acct :=
  mk_acct ((demo_task 1 10 10) <| p_wts := zero_wts <| t_mark_start := ms |> <| t_sum := sum |>
             <| t_demand_scaled := 10 |> <| t_pred_demand_scaled := 10 |> |>)
    (mk_rq 4 1 0 0 0)
    (demo_wrq <| w_window_start := w_start |>
       <| w_walt_stats := mk_stats 0 0 0 10 10 0 |>) [].

Lemma zero_samples_ok : samples_ok (t_sum_history zero_wts).
Proof.
  split; [done|]. intros i Hi. change (t_sum_history zero_wts) with (replicate 5 0).
  rewrite aget_replicate_0. lia.
Qed.


Lemma update_history_keeps_stats_witness :
  let s' := update_history sample_cfg 8000000 1 (runner 32000000 16000000 8000000) in
  w_walt_stats (a_wrq s') = stats_add (scan [a_p s']) zero_stats.
Proof.
  apply (update_history_keeps_stats sample_cfg 8000000 1 (runner 32000000 16000000 8000000)).
  - split; [reflexivity|by repeat split|]. unfold room, INT_MAX. cbn. lia.
  - done.
Defined.

Lemma update_task_demand_sum_witness :
  let '(s', runtime) :=
    update_task_demand sample_cfg PUT_PREV_TASK 52000000 (runner 48000000 10000000 1000000) in
  t_sum (wts_of s') = Z.min (sched_ravg_window sample_cfg)
    (scaled (runner 48000000 10000000 1000000) 4000000) /\ runtime = 42000000.
Proof.
  destruct (update_task_demand _ _ _ _) as [s' runtime] eqn:E.
  destruct (update_task_demand_sum sample_cfg PUT_PREV_TASK 52000000
    (runner 48000000 10000000 1000000) s' runtime) as (_ & H1 & H2).
  - split; cbn; try lia. split; cbn; lia.
  - done.
  - exact E.
  - split; [exact H1|rewrite H2; vm_compute; reflexivity].
Defined.

(** The sample of a fully elapsed window is not clamped to the window: a task
    with a load boost of a quarter that ran through a whole window is recorded
    with 1.25 windows (demand 1280 of 1024), although the running sum of a task is
    always clamped to one window. *)
Theorem boosted_full_window_exceeds_window :
  let p := (demo_task 1 10 10) <| p_wts := zero_wts <| t_mark_start := 16000000 |>
    <| t_load_boost := 25 |> <| t_boosted_task_load := 256 |> <| t_grp := Some 2 |> |> in
  let s := mk_acct p (mk_rq 4 1 0 0 0) (demo_wrq <| w_window_start := 32000000 |>) [] in
  let t' := wts_of (fst (update_task_demand sample_cfg PUT_PREV_TASK 33000000 s)) in
  t_demand t' = 20000000 /\ t_demand_scaled t' = 1280 /\ sched_ravg_window sample_cfg = 16000000.
Proof. by vm_compute. Qed.

(** The prediction takes the first matching entry of the history array, which
    is not the latest: after windows of 6.4 ms, 9 ms and 6.15 ms the search of the
    bucket that holds 6.4 ms and 6.15 ms returns the older of the two. *)
Theorem history_is_not_ordered_by_age :
  let util := scale_time_to_util sample_cfg in
  let push rt := push_samples 1 rt (util rt) in
  let t := push 6150000 (push 9000000 (push 6400000 zero_wts)) in
  busy_to_bucket (util 6400000) = 6 /\ busy_to_bucket (util 6150000) = 6 /\
  first_in_range (t_sum_history_util t) (Prediction.bucket_lo 6) (Prediction.bucket_hi 6) 0 =
    util 6400000.
Proof. by vm_compute. Qed.

End History.
