(* ===== verification/Ravg.v ===== *)
(** * Updating a task

    [walt_update_task_ravg] is the entry point of the accounting: every event of
    a task (put, pick, wake, migrate, update, irq) passes through it. Models
    [update_task_rq_cpu_cycles], [set_bits], [update_busy_bitmap],
    [run_walt_irq_work_rollover], [walt_update_task_ravg], [__sched_fork_init],
    [init_new_task_load] and [mark_task_starting] of [walt.c]. *)

From Stdlib Require Import ZArith Lia ZifyBool.
From stdpp Require Import base list.
From S2P Require Import Prelude WaltTypes TopTasks Stats Predict Window Busy Demand.

(** ** Operations *)

Definition DIV64_U64_ROUNDUP (x y : Z) : Z := u64 (x + (y - 1)) / y.

Definition cpu_cur_freq (c : walt_cfg) (w : walt_rq) : Z := c_cur_freq (cluster_of c w).

(** [walt_is_idle_task(rq->curr)]: the idle flag is set exactly on the idle task
    of every CPU. *)
Definition curr_is_idle (r : rq) : bool := rq_curr r =? rq_idle r.

Definition update_task_rq_cpu_cycles (c : walt_cfg) (event : task_event)
    (wallclock irqtime : Z) (s : acct) : acct :=
  let cpu := rq_cpu (a_rq s) in
  let max_possible_freq := c_max_possible_freq (cluster_of c (a_wrq s)) in
  if negb (use_cycle_counter c) then
    on_wrq (fun w => w <| w_task_exec_scale :=
      DIV64_U64_ROUNDUP (u64 (cpu_cur_freq c w * arch_scale_cpu_capacity c cpu))
        max_possible_freq |>) s
  else
  let s := on_wrq (read_cycle_counter c cpu wallclock) s in
  let cur_cycles := w_cycles (a_wrq s) in
  let s :=
    if negb (curr_is_idle (a_rq s)) || negb (irqtime =? 0) then
      let cpu_cycles := t_cpu_cycles (wts_of s) in
      let cycles_delta := if cur_cycles <? cpu_cycles
                          then u64 (cur_cycles + (U64_MAX - cpu_cycles))
                          else cur_cycles - cpu_cycles in
      let cycles_delta := u64 (cycles_delta * NSEC_PER_MSEC) in
      let time_delta := if event_eqb event IRQ_UPDATE && walt_is_idle_task (wts_of s)
                        then irqtime else u64 (wallclock - t_mark_start (wts_of s)) in
      let s := emit_if (s64 time_delta <? 0) (WALT_PANIC bug_time_delta_negative) s in
      on_wrq (fun w => w <| w_task_exec_scale :=
        DIV64_U64_ROUNDUP (u64 (cycles_delta * arch_scale_cpu_capacity c cpu))
          (u64 (time_delta * max_possible_freq)) |>) s
    else s in
  on_wts (fun t => t <| t_cpu_cycles := cur_cycles |>) s.

Definition set_bits (nr_bits : Z) (set_bit : bool) (t : walt_task_struct) : walt_task_struct :=
  let nr_bits := if 16 <? nr_bits then 16 else nr_bits in
  let t := t <| t_busy_bitmap := u16 (Z.shiftl (t_busy_bitmap t) nr_bits) |> in
  let mask := if set_bit then Z.shiftl 1 nr_bits - 1 else 0 in
  t <| t_busy_bitmap := u16 (Z.lor (t_busy_bitmap t) mask) |>.

(** The conditions under which a busy task does not boost its CPU: the reasons 1
    to 5 of the source, 0 when it does. *)
Definition no_boost_reason (c : walt_cfg) (s : acct) : Z :=
  let W := sched_ravg_window c in
  let bitmap := t_busy_bitmap (wts_of s) in
  let active i := aget (sysctl_sched_lrpb_active_ms c) i in
  let below mask i := (hweight16 (Z.land bitmap mask) <? active i) || (active i =? 0) in
  if negb (task_is_runnable (a_p s)) then 1
  else if (W <=? SCHED_RAVG_8MS_WINDOW) && below 255 0 then 2
  else if (W =? SCHED_RAVG_12MS_WINDOW) && below 4095 1 then 3
  else if (SCHED_RAVG_16MS_WINDOW <=? W) && below 65535 2 then 4
  else if negb (w_lrb_pipeline_start_time (a_wrq s) =? 0) then 5
  else 0.

Definition add_contrib_run (running : bool) (d : Z) (t : walt_task_struct) : walt_task_struct :=
  if running then t <| t_period_contrib_run := u32 (t_period_contrib_run t + d) |> else t.

(** The bits of [update_busy_bitmap]: the milliseconds that ended between the last
    update and [wallclock] are shifted in. *)
Definition update_bits (running : bool) (wallclock : Z) (t : walt_task_struct)
  : walt_task_struct :=
  let mark_start := t_mark_start t in
  let next_ms_boundary := (u64 (mark_start + (NSEC_PER_MSEC - 1)) / NSEC_PER_MSEC) * NSEC_PER_MSEC in
  if wallclock <? next_ms_boundary
  then add_contrib_run running (u64 (wallclock - mark_start)) t else
  let t := add_contrib_run running (u64 (next_ms_boundary - mark_start)) t in
  let t := set_bits 1 (500000 <? t_period_contrib_run t) t in
  let t := t <| t_period_contrib_run := 0 |> in
  let delta := u64 (wallclock - next_ms_boundary) in
  let periods := s32 (delta / NSEC_PER_MSEC) in
  let t := if negb (periods =? 0) then set_bits periods running t else t in
  if running then t <| t_period_contrib_run := wallclock mod NSEC_PER_MSEC |> else t.

(** Whether a millisecond ended. *)
Definition exceeds_ms (wallclock : Z) (t : walt_task_struct) : bool :=
  (u64 (t_mark_start t + (NSEC_PER_MSEC - 1)) / NSEC_PER_MSEC) * NSEC_PER_MSEC <=? wallclock.

(** [task_cpu(p)] is the CPU of [rq] wherever this is called. *)
Definition update_busy_bitmap (c : walt_cfg) (event : task_event) (wallclock : Z) (s : acct)
  : acct :=
  let lrb_threshold_ns :=
    if sched_ravg_window c <=? SCHED_RAVG_8MS_WINDOW then 4000000 else 8000000 in
  let s := on_wrq (fun w => w <| w_lrb_pipeline_start_time :=
             if u64 (w_lrb_pipeline_start_time w + lrb_threshold_ns) <? wallclock then 0
             else w_lrb_pipeline_start_time w |>) s in
  if negb (pipeline_in_progress c) then s else
  if t_pipeline_cpu (wts_of s) =? -1 then s else
  let '(wallclock, s) :=
    if wallclock <? t_mark_start (wts_of s)
    then (t_mark_start (wts_of s), emit (WALT_PANIC bug_bitmap_clock) s)
    else (wallclock, s) in
  let running := account_busy_for_cpu_time c (a_rq s) (a_p s) 0 event in
  let s := if negb (task_is_runnable (a_p s))
           then on_wts (fun t => walt_flag_set t WALT_LRB_PIPELINE_BIT false) s else s in
  let exceeds := exceeds_ms wallclock (wts_of s) in
  let s := on_wts (update_bits running wallclock) s in
  if exceeds && (no_boost_reason c s =? 0) then
    let s := on_wts (fun t => walt_flag_set t WALT_LRB_PIPELINE_BIT true) s in
    on_wrq (fun w => w <| w_lrb_pipeline_start_time := wallclock |>) s
  else s.

(** [lastq] is the global [walt_irq_work_lastq_ws]; the comparison and the store
    are one atomic operation. Returns the new value and whether this CPU won. *)
Definition run_walt_irq_work_rollover (old_window_start window_start lastq : Z) : Z * bool :=
  if old_window_start =? window_start then (lastq, false)
  else if lastq =? old_window_start then (window_start, true)
  else (lastq, false).

Definition walt_update_task_ravg (c : walt_cfg) (task_pws : Z) (event : task_event)
    (wallclock irqtime : Z) (lastq : Z) (s : acct) : acct * Z :=
  if task_on_scx (a_p s) then (s, lastq) else
  if (w_window_start (a_wrq s) =? 0) || (t_mark_start (wts_of s) =? wallclock)
  then (s, lastq) else
  let '(s, old_window_start) := update_window_start c wallclock s in
  let old_lrb_pipeline_task_state := walt_flag_test (wts_of s) WALT_LRB_PIPELINE_BIT in
  let old_lrb_pipeline_cpu_state := negb (w_lrb_pipeline_start_time (a_wrq s) =? 0) in
  let s := if t_window_start (wts_of s) =? 0
           then on_wts (fun t => t <| t_window_start := w_window_start (a_wrq s) |>) s else s in
  let s :=
    if t_mark_start (wts_of s) =? 0
    then update_task_cpu_cycles c (rq_cpu (a_rq s)) wallclock s
    else
      let s := update_task_rq_cpu_cycles c event wallclock irqtime s in
      let '(s, _) := update_task_demand c event wallclock s in
      let s := update_cpu_busy_time c task_pws event wallclock irqtime s in
      let s := update_task_pred_demand c event s in
      let s := update_busy_bitmap c event wallclock s in
      if event_eqb event PUT_PREV_TASK && negb (p_state (a_p s) =? 0)
      then on_wts (fun t => t <| t_iowaited := p_in_iowait (a_p s) |>) s else s in
  let s := on_wts (fun t => t <| t_mark_start := wallclock |>) s in
  let s := emit_if (u64 (t_window_start (wts_of s) + sched_ravg_window c)
                      <? t_mark_start (wts_of s)) (WALT_BUG bug_mark_start_ahead) s in
  let '(lastq, won) :=
    run_walt_irq_work_rollover old_window_start (w_window_start (a_wrq s)) lastq in
  let s := emit_if won walt_cpufreq_irq_work_queued s in
  let s :=
    emit_if (negb won &&
             ((negb (t_pipeline_cpu (wts_of s) =? -1) && (p_cpu (a_p s) =? rq_cpu (a_rq s)) &&
               negb old_lrb_pipeline_task_state &&
               walt_flag_test (wts_of s) WALT_LRB_PIPELINE_BIT) ||
              (old_lrb_pipeline_cpu_state && (w_lrb_pipeline_start_time (a_wrq s) =? 0))))
      (waltgov_run_callback (rq_cpu (a_rq s)) WALT_CPUFREQ_PIPELINE_BUSY_BIT) s in
  (s, lastq).

Definition __sched_fork_init (t : walt_task_struct) : walt_task_struct :=
  t <| t_last_sleep_ts := 0 |> <| t_wake_up_idle := false |> <| t_boost := 0 |>
    <| t_boost_expires := 0 |> <| t_boost_period := 0 |> <| t_low_latency := 0 |>
    <| t_iowaited := false |> <| t_load_boost := 0 |> <| t_boosted_task_load := 0 |>
    <| t_lst := false |> <| t_lst_tgt_ns := 0 |> <| t_lst_state_counter := 0 |>
    <| t_pipeline_activity_cnt := 0 |> <| t_event_windows := 0 |>
    <| t_lib_app_state := LIB_UPDATE_CNT_MAX |>.

(** [this_cpu] is [raw_smp_processor_id()], [cur] the vendor data of the task that
    creates [t]. The fields of [t] that are list heads or belong to the most
    valuable task lists of [walt_cfs.c] are not part of the record. *)
Definition init_new_task_load (c : walt_cfg) (this_cpu : Z) (cur t : walt_task_struct)
  : walt_task_struct :=
  let init_load_pct := t_init_load_pct cur in
  let '(init_load_windows, init_load_windows_scaled) :=
    if negb (init_load_pct =? 0) then
      let w := u32 (u64 (init_load_pct * sched_ravg_window c) / 100) in
      (w, u32 (scale_time_to_util c w))
    else (sched_init_task_load_windows c, sched_init_task_load_windows_scaled c) in
  let t := t <| t_init_load_pct := 0 |> <| t_grp := None |> <| t_prev_cpu := this_cpu |>
    <| t_new_cpu := -1 |> <| t_enqueue_after_migration := 0 |> <| t_mark_start := 0 |>
    <| t_window_start := 0 |> <| t_sum := 0 |> <| t_curr_window := 0 |> <| t_prev_window := 0 |>
    <| t_active_time := 0 |> <| t_prev_on_rq := 0 |> <| t_prev_on_rq_cpu := -1 |>
    <| t_pipeline_cpu := -1 |> <| t_yield_state := 0 |> <| t_busy_bitmap := 0 |>
    <| t_period_contrib_run := 0 |>
    <| t_busy_buckets := replicate (Z.to_nat NUM_BUSY_BUCKETS) 0 |> <| t_bucket_bitmask := 0 |>
    <| t_cpu_cycles := 0 |>
    <| t_curr_window_cpu := replicate (Z.to_nat WALT_NR_CPUS) 0 |>
    <| t_prev_window_cpu := replicate (Z.to_nat WALT_NR_CPUS) 0 |>
    <| t_demand := init_load_windows |> <| t_demand_scaled := u16 init_load_windows_scaled |>
    <| t_coloc_demand := init_load_windows |> <| t_pred_demand_scaled := 0 |>
    <| t_sum_history := replicate (Z.to_nat RAVG_HIST_SIZE) init_load_windows |>
    <| t_misfit := false |> <| t_rtg_high_prio := false |>
    <| t_unfilter := sysctl_sched_task_unfilter_period c |>
    <| t_mvp_prio := WALT_NOT_MVP |> <| t_cidx := 0 |> <| t_mark_start_birth_ts := 0 |>
    <| t_high_util_history := 0 |> in
  let t := __sched_fork_init t in
  let t := t <| t_mpam_part_id := t_mpam_part_id cur |> in
  let t := walt_flag_set t WALT_INIT_BIT true in
  let t := walt_flag_set t WALT_TRAILBLAZER_BIT false in
  walt_flag_set t WALT_GIANT_BIT false.

Definition mark_task_starting (c : walt_cfg) (task_pws lastq : Z) (s : acct) : acct * Z :=
  let wallclock := walt_rq_clock c (a_rq s) (a_wrq s) in
  let s := on_wts (fun t => t <| t_last_wake_ts := wallclock |>
                              <| t_last_enqueued_ts := wallclock |>
                              <| t_mark_start_birth_ts := wallclock |>) s in
  if negb (t_mark_start (wts_of s) =? 0) then (s, lastq)
  else walt_update_task_ravg c task_pws TASK_UPDATE wallclock 0 lastq s.

#[global] Arguments update_task_rq_cpu_cycles : simpl never.
#[global] Arguments set_bits : simpl never.
#[global] Arguments no_boost_reason : simpl never.
#[global] Arguments update_bits : simpl never.
#[global] Arguments exceeds_ms : simpl never.
#[global] Arguments update_busy_bitmap : simpl never.
#[global] Arguments run_walt_irq_work_rollover : simpl never.
#[global] Arguments walt_update_task_ravg : simpl never.

(** ** What the parts leave alone *)

Module Ravg.
Import BusyTime History.

Lemma add_to_task_demand_frame c d s s' r :
  add_to_task_demand c d s = (s', r) -> frame s s'.
Proof. unfold add_to_task_demand. case_if; by intros [= <- _]. Qed.

Lemma update_task_demand_frame c event wallclock s s' r :
  update_task_demand c event wallclock s = (s', r) -> frame s s'.
Proof.
  unfold update_task_demand. destruct (lst_frame c event wallclock s) as (F1 & _ & _).
  set (s1 := if _ && _ then _ else s) in *. clearbody s1.
  destruct (negb (account_busy_for_task_demand _ _ _)).
  { intros H. injection H as <- _. case_if; [|done].
    eapply frame_trans; [done|]. apply update_history_frame. }
  destruct (negb _).
  { intros H%add_to_task_demand_frame. by eapply frame_trans. }
  unfold demand_over_windows. destruct (add_to_task_demand _ _ s1) as [s2 r2] eqn:E2.
  apply add_to_task_demand_frame in E2.
  set (x := if negb _ then _ else _). destruct x as [s3 r3] eqn:E3.
  destruct (add_to_task_demand _ _ s3) as [s4 r4] eqn:E4. apply add_to_task_demand_frame in E4.
  intros H. injection H as <- _. do 2 (eapply frame_trans; [eassumption|]).
  eapply frame_trans; [|eassumption].
  subst x. revert E3. case_if; intros H; injection H as <- _.
  - eapply frame_trans; apply update_history_frame.
  - apply update_history_frame.
Qed.

Lemma update_task_pred_demand_frame c event s : frame s (update_task_pred_demand c event s).
Proof.
  unfold update_task_pred_demand. repeat (case_if; [done|]).
  set (s1 := if _ && _ then _ else s).
  assert (frame s s1) as H1 by (unfold s1; case_if; [apply fixup_frame|done]).
  clearbody s1. by eapply frame_trans.
Qed.

Lemma lrb_flag_frame b s : frame s (on_wts (fun t => walt_flag_set t WALT_LRB_PIPELINE_BIT b) s).
Proof.
  apply frame_on_wts. split; [|done]. unfold walt_is_idle_task.
  change WALT_IDLE_TASK_BIT with (2 ^ 2). change WALT_LRB_PIPELINE_BIT with (2 ^ 3).
  by rewrite QueueStats.walt_flag_set_bit by lia.
Qed.

Lemma update_bits_frame running wallclock s : frame s (on_wts (update_bits running wallclock) s).
Proof.
  apply frame_on_wts. cbv zeta. generalize (p_wts (a_p s)) as t. intros t.
  unfold update_bits, add_contrib_run, set_bits. repeat case_if; done.
Qed.

Lemma update_busy_bitmap_frame c event wallclock s : frame s (update_busy_bitmap c event wallclock s).
Proof.
  unfold update_busy_bitmap. set (s0 := on_wrq _ s). assert (frame s s0) as H0 by done.
  clearbody s0. do 2 (case_if; [done|]).
  set (x := if wallclock <? _ then _ else _). destruct x as [wc s1] eqn:E1.
  assert (frame s s1) as H1 by (subst x; revert E1; case_if; by intros [= _ <-]).
  clearbody x. clear E1 H0. set (s2 := if negb _ then _ else s1).
  assert (frame s s2) as H2.
  { unfold s2. case_if; [|done]. eapply frame_trans; [done|]. apply lrb_flag_frame. }
  clearbody s2. clear H1.
  set (s3 := on_wts (update_bits _ _) s2).
  assert (frame s s3) as H3 by (eapply frame_trans; [done|apply update_bits_frame]).
  clearbody s3. case_if; [|done]. eapply frame_trans; [exact H3|]. apply lrb_flag_frame.
Qed.

(** The cycle accounting changes the execution scale of the run queue only. *)
Definition rescaled (k : Z) (s : acct) : acct :=
  s <| a_wrq := (a_wrq s) <| w_task_exec_scale := k |> |>.

Lemma rescaled_frame k s s' : frame s s' -> frame (rescaled k s) (rescaled k s').
Proof.
  unfold frame, view_of. cbn. intros H. injection H. intros. congruence.
Qed.

Lemma update_task_rq_cpu_cycles_frame c event wallclock irqtime s :
  let s' := update_task_rq_cpu_cycles c event wallclock irqtime s in
  frame (rescaled (w_task_exec_scale (a_wrq s')) s) s'.
Proof.
  cbv zeta. unfold update_task_rq_cpu_cycles.
  case_if; [done|]. set (s1 := on_wrq (read_cycle_counter _ _ _) s).
  assert (frame s s1 /\ w_task_exec_scale (a_wrq s1) = w_task_exec_scale (a_wrq s)) as [F1 E1].
  { unfold s1, on_wrq, read_cycle_counter. by case_if. }
  clearbody s1. eapply frame_trans; [by apply rescaled_frame|].
  unfold emit_if. repeat case_if; try done.
Qed.

(** ** The update of a task *)

(** The conditions of a charge depend on the view only. *)
Lemma charge_ok_frame c W wallclock s s' :
  frame s s' -> charge_ok c W wallclock s -> charge_ok c W wallclock s'.
Proof.
  intros Hf [H1 H2 [H3 H3'] H4 H5 H6 H7 H8 H9 H10].
  unfold frame, view_of in Hf.
  injection Hf as _ _ _ _ _ _ _ _ _ Er Ei Eb Ebb Eg Ee Ews Ems Ea Ec Ep Ecc Epc Ew Ewp Et Egt _ _ _ _ _.
  assert (task_ok c W (p_wts (a_p s'))) as Ht.
  { destruct H2. split; congruence. }
  split; try congruence.
  - split; congruence.
  - intros g. rewrite Et, Egt. apply H10.
Qed.

Lemma own_time_frame s s' : frame s s' ->
  own_time (wts_of s') (a_wrq s') = own_time (wts_of s) (a_wrq s) /\
  other_time (wts_of s') (a_wrq s') = other_time (wts_of s) (a_wrq s).
Proof.
  unfold frame, view_of, own_time, other_time, task_in_related_thread_group, wts_of. intros H.
  injection H as _ _ _ _ _ _ _ _ _ _ _ _ _ Eg _ _ _ _ _ _ _ _ _ _ Et Egt _ _ _ _ _.
  by rewrite Eg, Et, Egt.
Qed.

Lemma contrib_frame W s s' i x : frame s s' ->
  contrib W (wts_of s') i x = contrib W (wts_of s) i x.
Proof.
  unfold frame, view_of, contrib, wts_of. intros H.
  injection H as _ _ _ _ _ _ _ _ _ _ _ _ _ _ _ Ews _ _ _ _ Ecc Epc _ _ _ _ _ _ _ _ _.
  by rewrite Ews, Ecc, Epc.
Qed.

Record ravg_ok (c : walt_cfg) (W wallclock : Z) (s : acct) : Prop := mk_ravg_ok {
  rk_cfg : cfg_ok c W;
  rk_W : sched_ravg_window c = W;
  rk_clock : Windows.clock_ok c wallclock s;
  rk_size : w_prev_window_size (a_wrq s) = W;
  rk_start : 0 < w_window_start (a_wrq s);
  rk_task : task_ok c W (wts_of s);
  rk_task_start : 0 < t_window_start (wts_of s);
  rk_mark : t_mark_start (wts_of s) < wallclock;
  rk_grid : (w_window_start (a_wrq s) - t_window_start (wts_of s)) mod W = 0;
  rk_idle : walt_is_idle_task (wts_of s) = false;
  rk_scx : task_on_scx (a_p s) = false;
  rk_cpu : 0 <= rq_cpu (a_rq s) < WALT_NR_CPUS;
  rk_boost : -1024 <= t_boosted_task_load (wts_of s) <= 1024;
  rk_counters : forall g, g = w_rq_time (a_wrq s) \/ g = w_grp_time (a_wrq s) ->
    0 <= g_curr_runnable_sum g < 2 ^ 63 /\ 0 <= g_prev_runnable_sum g < 2 ^ 63 /\
    0 <= g_nt_curr_runnable_sum g < 2 ^ 63 /\ 0 <= g_nt_prev_runnable_sum g < 2 ^ 63
}.

(** The state in front of the charge: the window advanced, the execution scale
    measured. *)
Definition advanced (c : walt_cfg) (wallclock : Z) (s : acct) : acct :=
  fst (update_window_start c wallclock s).
Definition measured (c : walt_cfg) (event : task_event) (wallclock irqtime : Z) (s : acct) : acct :=
  update_task_rq_cpu_cycles c event wallclock irqtime (advanced c wallclock s).

Lemma advanced_clock c W wallclock s :
  sched_ravg_window c = W -> Windows.clock_ok c wallclock s ->
  let s1 := advanced c wallclock s in
  a_p s1 = a_p s /\ a_rq s1 = a_rq s /\
  w_window_start (a_wrq s1) =
    w_window_start (a_wrq s) + Windows.elapsed c wallclock s * W /\
  w_window_start (a_wrq s1) <= wallclock < w_window_start (a_wrq s1) + W /\
  w_rq_time (a_wrq s1) = Windows.rolled c wallclock s (w_rq_time (a_wrq s)) /\
  w_grp_time (a_wrq s1) = Windows.rolled c wallclock s (w_grp_time (a_wrq s)).
Proof.
  intros HW Hc. cbv zeta. unfold advanced.
  pose proof (Windows.elapsed_spec _ _ _ Hc) as [He Hew].
  rewrite Windows.update_window_start_eq by done. cbn [fst]. rewrite HW in *.
  unfold Windows.rolled, emit_if. destruct (Z.eqb_spec (Windows.elapsed c wallclock s) 0) as [E|E].
  - cbn. rewrite E in *. repeat split; try done; lia.
  - case_if; cbn; repeat split; try done; lia.
Qed.

Lemma advanced_fields c W wallclock s : ravg_ok c W wallclock s ->
  let s1 := advanced c wallclock s in
  a_p s1 = a_p s /\ a_rq s1 = a_rq s /\
  w_window_start (a_wrq s1) =
    w_window_start (a_wrq s) + Windows.elapsed c wallclock s * W /\
  w_window_start (a_wrq s1) <= wallclock < w_window_start (a_wrq s1) + W /\
  w_prev_window_size (a_wrq s1) = W /\
  w_rq_time (a_wrq s1) = Windows.rolled c wallclock s (w_rq_time (a_wrq s)) /\
  w_grp_time (a_wrq s1) = Windows.rolled c wallclock s (w_grp_time (a_wrq s)) /\
  w_load_subs (a_wrq s1) = w_load_subs (a_wrq s) /\ w_cluster (a_wrq s1) = w_cluster (a_wrq s).
Proof.
  intros [_ HW Hc Hsz _ _ _ _ _ _ _ _ _ _]. cbv zeta. unfold advanced.
  pose proof (Windows.elapsed_spec _ _ _ Hc) as [He Hew].
  rewrite Windows.update_window_start_eq by done. cbn [fst]. rewrite HW in *.
  unfold Windows.rolled, emit_if. destruct (Z.eqb_spec (Windows.elapsed c wallclock s) 0) as [E|E].
  - cbn. rewrite E in *. repeat split; try done; lia.
  - case_if; cbn; repeat split; try done; lia.
Qed.

Lemma advanced_charge_ok c W event wallclock irqtime s :
  ravg_ok c W wallclock s ->
  0 <= w_task_exec_scale (a_wrq (measured c event wallclock irqtime s)) <= 1024 ->
  charge_ok c W wallclock (measured c event wallclock irqtime s).
Proof.
  intros Hok Hx. destruct (advanced_fields c W wallclock s Hok) as (A1 & A2 & A3 & A4 & A5 & A6 & A7 & _).
  unfold measured in *.
  eapply charge_ok_frame; [apply update_task_rq_cpu_cycles_frame|].
  set (k := w_task_exec_scale _) in *. clearbody k. set (s1 := advanced c wallclock s) in *.
  destruct Hok as [Hcfg HW Hc Hsz Hst Ht _ Hm Hg Hi _ Hcpu Hb Hcnt]. unfold wts_of in *.
  pose proof (Windows.co_clock _ _ _ Hc).
  split; cbn; rewrite ?A1, ?A2; try done; try lia.
  - rewrite A3. replace (w_window_start (a_wrq s) + Windows.elapsed c wallclock s * W -
      t_window_start (p_wts (a_p s))) with (w_window_start (a_wrq s) - t_window_start (p_wts (a_p s)) +
      Windows.elapsed c wallclock s * W) by lia.
    rewrite Z.mod_add by (destruct Hcfg; lia). done.
  - intros g. rewrite A6, A7. unfold Windows.rolled.
    assert (forall g0, g0 = w_rq_time (a_wrq s) \/ g0 = w_grp_time (a_wrq s) ->
      let g := if Windows.elapsed c wallclock s =? 0 then g0 else
         if Windows.elapsed c wallclock s =? 1
         then mk_gct 0 (g_curr_runnable_sum g0) 0 (g_nt_curr_runnable_sum g0) else mk_gct 0 0 0 0 in
      0 <= g_curr_runnable_sum g < 2 ^ 63 /\ 0 <= g_prev_runnable_sum g < 2 ^ 63 /\
      0 <= g_nt_curr_runnable_sum g < 2 ^ 63 /\ 0 <= g_nt_prev_runnable_sum g < 2 ^ 63) as Hr.
    { intros g0 Hg0%Hcnt. cbv zeta. repeat case_if; cbn; lia. }
    intros [-> | ->]; apply Hr; auto.
Qed.

(** The part of the update between the measurement and the store of the update
    time. *)
Definition accounted_acct (c : walt_cfg) (pws : Z) (event : task_event) (wallclock irqtime : Z)
    (s : acct) : acct :=
  let '(s, _) := update_task_demand c event wallclock (measured c event wallclock irqtime s) in
  let s := update_cpu_busy_time c pws event wallclock irqtime s in
  let s := update_task_pred_demand c event s in
  let s := update_busy_bitmap c event wallclock s in
  if event_eqb event PUT_PREV_TASK && negb (p_state (a_p s) =? 0)
  then on_wts (fun t => t <| t_iowaited := p_in_iowait (a_p s) |>) s else s.

(** The function, up to its effects. *)
Lemma walt_update_task_ravg_eq c W pws event wallclock irqtime lastq s :
  ravg_ok c W wallclock s ->
  let s' := fst (walt_update_task_ravg c pws event wallclock irqtime lastq s) in
  let s1 := accounted_acct c pws event wallclock irqtime s in
  a_p s' = ((a_p s1) <| p_wts := (wts_of s1) <| t_mark_start := wallclock |> |>) /\
  a_wrq s' = a_wrq s1 /\ a_rq s' = a_rq s1.
Proof.
  intros Hok. cbv zeta. destruct (advanced_fields c W wallclock s Hok) as (A1 & A2 & A3 & _).
  destruct Hok as [_ _ _ _ Hst Htk Hts Hm _ _ Hscx _ _ _].
  pose proof (tk_mark _ _ _ Htk) as Hmk.
  unfold walt_update_task_ravg. rewrite Hscx, (proj2 (Z.eqb_neq _ 0)), (proj2 (Z.eqb_neq _ wallclock)) by lia.
  cbn [orb]. unfold accounted_acct, measured. unfold advanced in *.
  destruct (update_window_start c wallclock s) as [s1 old]. cbn [fst] in *.
  assert ((t_window_start (wts_of s1) =? 0) = false) as -> by (unfold wts_of in *; rewrite A1; lia).
  assert ((t_mark_start (wts_of s1) =? 0) = false) as -> by (unfold wts_of in *; rewrite A1; lia).
  set (x := update_task_demand _ _ _ _). destruct x as [s2 r].
  set (s3 := if event_eqb _ _ && _ then _ else _). clearbody s3.
  destruct (run_walt_irq_work_rollover _ _ _) as [q won]. cbn [fst].
  unfold emit_if. repeat match goal with |- context [if ?b then emit _ _ else _] => destruct b end;
    done.
Qed.

(** What is charged depends on the view only. *)
Lemma busy_frame c W wallclock irqtime event s s' : frame s s' ->
  busy_curr c wallclock irqtime event s' = busy_curr c wallclock irqtime event s /\
  busy_prev c W irqtime event s' = busy_prev c W irqtime event s.
Proof.
  intros Hf. pose proof (frame_scale s s') as Hsc. pose proof (frame_idle _ _ Hf) as Hi.
  unfold busy_curr, busy_prev, accounted, full_window, new_window.
  assert (account_busy_for_cpu_time c (a_rq s') (a_p s') irqtime event =
          account_busy_for_cpu_time c (a_rq s) (a_p s) irqtime event) as ->.
  { unfold account_busy_for_cpu_time, wts_of in *. rewrite Hi.
    pose proof (f_equal v_task Hf) as Ht. pose proof (f_equal v_rq Hf) as Hr. cbn in Ht, Hr. rewrite Hr.
    assert (p_id (a_p s') = p_id (a_p s)) as -> by exact (f_equal p_id Ht).
    assert (task_is_runnable (a_p s') = task_is_runnable (a_p s)) as ->
      by exact (f_equal task_is_runnable Ht). done. }
  unfold wts_of in *. rewrite !Hsc by done.
  pose proof (f_equal v_rq_window Hf) as Hw. pose proof (f_equal v_task_window Hf) as Ht.
  cbn in Hw, Ht. injection Hw as -> _. injection Ht as _ -> _. done.
Qed.


(** The state after the update: the charge of a state with the measured view, then
    changes outside the view and the time of the update. *)
Lemma walt_update_task_ravg_view c W pws event wallclock irqtime lastq s :
  ravg_ok c W wallclock s ->
  0 <= w_task_exec_scale (a_wrq (measured c event wallclock irqtime s)) <= 1024 ->
  let s' := fst (walt_update_task_ravg c pws event wallclock irqtime lastq s) in
  exists sd s4, frame (measured c event wallclock irqtime s) sd /\ charge_ok c W wallclock sd /\
    frame (update_cpu_busy_time c pws event wallclock irqtime sd) s4 /\
    wts_of s' = (wts_of s4) <| t_mark_start := wallclock |> /\
    a_wrq s' = a_wrq s4 /\ a_rq s' = a_rq s4 /\
    (a_p s') <| p_wts := zero_wts |> = (a_p s4) <| p_wts := zero_wts |>.
Proof.
  intros Hok Hx. cbv zeta.
  pose proof (walt_update_task_ravg_eq c W pws event wallclock irqtime lastq s Hok) as (E1 & E2 & E3).
  pose proof (advanced_charge_ok c W event wallclock irqtime s Hok Hx) as Hch.
  unfold accounted_acct in *.
  destruct (update_task_demand _ _ _ _) as [sd r] eqn:Ed. apply update_task_demand_frame in Ed.
  exists sd. set (sb := update_cpu_busy_time _ _ _ _ _ sd) in *.
  pose proof (update_task_pred_demand_frame c event sb) as F1.
  set (s2 := update_task_pred_demand c event sb) in *.
  pose proof (update_busy_bitmap_frame c event wallclock s2) as F2.
  set (s3 := update_busy_bitmap _ _ _ _) in *. clearbody s2 s3.
  eexists. split; [exact Ed|]. split; [by eapply charge_ok_frame|].
  unfold wts_of. rewrite E1, E2, E3. split; [|done].
  eapply frame_trans; [exact F1|]. eapply frame_trans; [exact F2|]. case_if; done.
Qed.

(** What the measurement leaves of the advanced state. *)
Lemma measured_fields c W event wallclock irqtime s sd :
  ravg_ok c W wallclock s -> frame (measured c event wallclock irqtime s) sd ->
  let t := wts_of s in let w := a_wrq s in
  w_window_start (a_wrq sd) = w_window_start w + Windows.elapsed c wallclock s * W /\
  w_window_start (a_wrq sd) <= wallclock < w_window_start (a_wrq sd) + W /\
  a_rq sd = a_rq s /\ t_grp (wts_of sd) = t_grp t /\
  own_time (wts_of sd) (a_wrq sd) = Windows.rolled c wallclock s (own_time t w) /\
  other_time (wts_of sd) (a_wrq sd) = Windows.rolled c wallclock s (other_time t w) /\
  (forall i x, contrib W (wts_of sd) i x = contrib W t i x).
Proof.
  intros Hok Fd. cbv zeta.
  destruct (advanced_fields c W wallclock s Hok) as (A1 & A2 & A3 & A4 & A5 & A6 & A7 & A8).
  pose proof (frame_trans _ _ _ (update_task_rq_cpu_cycles_frame c event wallclock irqtime
    (advanced c wallclock s)) Fd) as Fm.
  set (k := w_task_exec_scale _) in *. clearbody k. set (s1 := advanced c wallclock s) in *.
  destruct (own_time_frame _ _ Fm) as [O1 O2].
  pose proof (fun i x => contrib_frame W _ _ i x Fm) as C1.
  pose proof (f_equal v_rq_window Fm) as Hw. pose proof (f_equal v_rq Fm) as Hr.
  pose proof (f_equal v_exec Fm) as Hx. cbn in Hw, Hr, Hx. injection Hw as Hw _.
  injection Hx as _ _ Hg _. unfold wts_of in *. rewrite A1 in *. rewrite Hw, Hr, Hg, O1, O2.
  split; [done|]. split; [done|]. split; [done|]. split; [done|].
  split; [|split; [|intros i x; rewrite C1; cbn; by rewrite A1]];
    unfold own_time, other_time; cbn; rewrite A1, A6, A7; by case_if.
Qed.

Lemma measured_view c W event wallclock irqtime s sd :
  ravg_ok c W wallclock s -> frame (measured c event wallclock irqtime s) sd ->
  let v := view_of sd in let t := wts_of s in
  v_task v = (a_p s) <| p_wts := zero_wts |> /\
  v_task_window v = (t_window_start t, t_mark_start t, t_active_time t) /\
  v_task_busy v = (t_curr_window t, t_prev_window t, t_curr_window_cpu t, t_prev_window_cpu t) /\
  v_migration v = (t_enqueue_after_migration t, t_prev_cpu t, t_new_cpu t) /\
  v_cluster v = w_cluster (a_wrq s) /\
  w_load_subs (a_wrq sd) = w_load_subs (a_wrq s) /\ w_prev_window_size (a_wrq sd) = W.
Proof.
  intros Hok Fd. cbv zeta.
  destruct (advanced_fields c W wallclock s Hok) as (A1 & A2 & A3 & A4 & A5 & A6 & A7 & A8 & A9).
  pose proof (frame_trans _ _ _ (update_task_rq_cpu_cycles_frame c event wallclock irqtime
    (advanced c wallclock s)) Fd) as Fm.
  pose proof (f_equal v_rq_window Fm) as Hw. pose proof (f_equal v_rq_busy Fm) as Hb.
  cbn in Hw, Hb. rewrite Fm. injection Hw as _ ->. injection Hb as _ _ ->.
  unfold view_of. cbn. by rewrite A1, A5, A8, A9.
Qed.

(** Storing the update time. *)
Lemma own_time_mark t w m :
  own_time (t <| t_mark_start := m |>) w = own_time t w /\
  other_time (t <| t_mark_start := m |>) w = other_time t w.
Proof. done. Qed.

Lemma task_ok_frame c W s s' m : frame s s' ->
  task_ok c W ((wts_of s) <| t_mark_start := m |>) -> task_ok c W ((wts_of s') <| t_mark_start := m |>).
Proof.
  intros Hf [H1 H2 H3 H4 H5 H6 H7 H8 H9 H10 H11]. cbn in *.
  pose proof (f_equal v_task_window Hf) as Hw. pose proof (f_equal v_task_busy Hf) as Hb.
  cbn in Hw, Hb. injection Hw as Ew _ Ea. injection Hb as Eb1 Eb2 Eb3 Eb4.
  split; cbn; rewrite ?Ew, ?Ea, ?Eb1, ?Eb2, ?Eb3, ?Eb4; assumption.
Qed.

(** The effect of an update on the window, the counters and the task. *)
Record updated (c : walt_cfg) (W : Z) (event : task_event) (wallclock irqtime : Z)
    (s s' : acct) : Prop := mk_updated {
  up_start : w_window_start (a_wrq s') =
    w_window_start (a_wrq s) + Windows.elapsed c wallclock s * W;
  up_now : w_window_start (a_wrq s') <= wallclock < w_window_start (a_wrq s') + W;
  up_size : w_prev_window_size (a_wrq s') = W;
  up_task_start : t_window_start (wts_of s') = w_window_start (a_wrq s');
  up_mark : t_mark_start (wts_of s') = wallclock;
  up_task : task_ok c W (wts_of s');
  up_curr : g_curr_runnable_sum (own_time (wts_of s') (a_wrq s')) =
    g_curr_runnable_sum (Windows.rolled c wallclock s (own_time (wts_of s) (a_wrq s))) +
    busy_curr c wallclock irqtime event (measured c event wallclock irqtime s);
  up_prev : g_prev_runnable_sum (own_time (wts_of s') (a_wrq s')) =
    g_prev_runnable_sum (Windows.rolled c wallclock s (own_time (wts_of s) (a_wrq s))) +
    busy_prev c W irqtime event (measured c event wallclock irqtime s);
  up_other : other_time (wts_of s') (a_wrq s') =
    Windows.rolled c wallclock s (other_time (wts_of s) (a_wrq s));
  up_contrib : forall i x, 0 <= i < WALT_NR_CPUS -> w_window_start (a_wrq s') - W <= x ->
    contrib W (wts_of s') i x = contrib W (wts_of s) i x +
    if i =? rq_cpu (a_rq s)
    then if x =? w_window_start (a_wrq s')
         then busy_curr c wallclock irqtime event (measured c event wallclock irqtime s)
         else if x =? w_window_start (a_wrq s') - W
         then busy_prev c W irqtime event (measured c event wallclock irqtime s) else 0 else 0;
  up_stray_curr : stray_curr (wts_of s') =
    if t_mark_start (wts_of s) <? w_window_start (a_wrq s') then 0 else stray_curr (wts_of s);
  up_stray_prev : stray_prev (wts_of s') =
    if t_mark_start (wts_of s) <? w_window_start (a_wrq s')
    then if W <=? w_window_start (a_wrq s') - t_mark_start (wts_of s) then 0
         else stray_curr (wts_of s)
    else stray_prev (wts_of s);
  up_grp : t_grp (wts_of s') = t_grp (wts_of s);
  up_rq : a_rq s' = a_rq s;
  up_subs : w_load_subs (a_wrq s') = w_load_subs (a_wrq s);
  up_migration : t_enqueue_after_migration (wts_of s') = t_enqueue_after_migration (wts_of s) /\
    t_prev_cpu (wts_of s') = t_prev_cpu (wts_of s) /\ t_new_cpu (wts_of s') = t_new_cpu (wts_of s);
  up_cluster : w_cluster (a_wrq s') = w_cluster (a_wrq s);
  up_p : (a_p s') <| p_wts := zero_wts |> = (a_p s) <| p_wts := zero_wts |>;
  up_new : is_new_task (wts_of s) = false -> is_new_task (wts_of s') = false;
  up_nt_curr : g_nt_curr_runnable_sum (own_time (wts_of s') (a_wrq s')) =
    g_nt_curr_runnable_sum (Windows.rolled c wallclock s (own_time (wts_of s) (a_wrq s))) +
    Z.b2z (is_new_task (wts_of s')) *
      busy_curr c wallclock irqtime event (measured c event wallclock irqtime s);
  up_nt_prev : g_nt_prev_runnable_sum (own_time (wts_of s') (a_wrq s')) =
    g_nt_prev_runnable_sum (Windows.rolled c wallclock s (own_time (wts_of s) (a_wrq s))) +
    Z.b2z (is_new_task (wts_of s')) *
      busy_prev c W irqtime event (measured c event wallclock irqtime s)
}.

(** The state after a charge and changes outside the view, in terms of the state
    before the charge. *)
Lemma charged_view c W pws event wallclock irqtime sd s4 :
  charge_ok c W wallclock sd ->
  frame (update_cpu_busy_time c pws event wallclock irqtime sd) s4 ->
  let sb := update_cpu_busy_time c pws event wallclock irqtime sd in
  own_time (wts_of s4) (a_wrq s4) = own_time (wts_of sd) (a_wrq sb) /\
  other_time (wts_of s4) (a_wrq s4) = other_time (wts_of sd) (a_wrq sb) /\
  v_rq_window (view_of s4) = v_rq_window (view_of sd) /\
  t_window_start (wts_of s4) = w_window_start (a_wrq sd) /\
  stray_curr (wts_of s4) = stray_curr (wts_of sb) /\
  stray_prev (wts_of s4) = stray_prev (wts_of sb) /\
  t_grp (wts_of s4) = t_grp (wts_of sd) /\ a_rq s4 = a_rq sd /\
  w_load_subs (a_wrq s4) = w_load_subs (a_wrq sd) /\
  v_migration (view_of s4) = v_migration (view_of sd) /\
  v_cluster (view_of s4) = v_cluster (view_of sd) /\ v_task (view_of s4) = v_task (view_of sd) /\
  t_active_time (wts_of s4) = t_active_time (rolled_task c W pws sd).
Proof.
  intros Hch F4. cbv zeta.
  destruct (update_cpu_busy_time_spec c W pws wallclock irqtime event sd Hch)
    as (_ & _ & _ & _ & _ & U6 & _).
  destruct (update_cpu_busy_time_rest c W pws wallclock irqtime event sd Hch)
    as (R1 & R2 & R3 & _ & R5 & _ & R7 & R8 & R9 & R10 & R11).
  set (sb := update_cpu_busy_time _ _ _ _ _ _) in *. clearbody sb.
  destruct (own_time_frame _ _ F4) as [-> ->].
  pose proof (f_equal v_task_window F4) as X2. pose proof (f_equal v_task_busy F4) as X3.
  pose proof (f_equal v_rq_busy F4) as X5. pose proof (f_equal v_exec F4) as X6.
  pose proof (f_equal v_rq F4) as X7. cbn in X2, X3, X5, X6, X7.
  injection X2 as X2 _ X2a. injection X3 as X3a X3b X3c X3d. injection X5 as _ _ X5.
  injection X6 as _ _ X6 _. rewrite F4.
  unfold own_time, other_time, task_in_related_thread_group, stray_curr, stray_prev, wts_of in *.
  rewrite X2, X3a, X3b, X3c, X3d, X5, X6, X7, R5. do 2 (split; [congruence|]).
  split; [cbn; congruence|]. do 6 (split; [congruence|]).
  split; [exact R10|]. split; [exact R11|]. split; [exact R2|congruence].
Qed.

Lemma is_new_ext t t' : t_active_time t = t_active_time t' -> is_new_task t = is_new_task t'.
Proof. unfold is_new_task. by intros ->. Qed.

Lemma rolled_task_not_new c W pws s :
  is_new_task (wts_of s) = false -> is_new_task (rolled_task c W pws s) = false.
Proof.
  unfold rolled_task, rollover_task_window. intros Hn. destruct (new_window s); [|done].
  repeat (match goal with |- context [let '(_, _) := ?x in _] => destruct x end; cbn).
  match goal with |- context [if ?b then _ else _] => assert (b = false) as -> by exact Hn end.
  exact Hn.
Qed.

Lemma walt_update_task_ravg_updated c W pws event wallclock irqtime lastq s :
  ravg_ok c W wallclock s ->
  0 <= w_task_exec_scale (a_wrq (measured c event wallclock irqtime s)) <= 1024 ->
  updated c W event wallclock irqtime s
    (fst (walt_update_task_ravg c pws event wallclock irqtime lastq s)).
Proof.
  intros Hok Hx.
  destruct (walt_update_task_ravg_view c W pws event wallclock irqtime lastq s Hok Hx)
    as (sd & s4 & Fd & Hch & F4 & E1 & E2 & E3 & E4).
  destruct (measured_fields c W event wallclock irqtime s sd Hok Fd)
    as (M1 & M2 & M3 & M4 & M5 & M6 & M7).
  destruct (measured_view c W event wallclock irqtime s sd Hok Fd)
    as (V1 & V2 & V3 & V4 & V5 & V6 & V7).
  destruct (busy_frame c W wallclock irqtime event _ _ Fd) as [B1 B2].
  destruct (update_cpu_busy_time_spec c W pws wallclock irqtime event sd Hch)
    as (U1 & U2 & U3 & _ & _ & _ & U7 & _ & U9 & U10).
  destruct (charged_view c W pws event wallclock irqtime sd s4 Hch F4)
    as (Q1 & Q2 & Q3 & Q4 & Q5 & Q6 & Q7 & Q8 & Q9 & Q10 & Q11 & Q12 & Q13).
  pose proof (task_ok_frame c W _ _ wallclock F4 U7) as Hk.
  pose proof (fun i x => contrib_frame W _ _ i x F4) as Hc.
  set (sb := update_cpu_busy_time _ _ _ _ _ _) in *. clearbody sb.
  set (s' := fst _) in *. clearbody s'.
  rewrite V4 in Q10. rewrite V5 in Q11. rewrite V1 in Q12. cbn in Q3, Q10, Q11, Q12, V2, V3.
  injection Q3 as Q3a Q3b. injection V2 as _ V2 V2a. injection V3 as V3a V3b V3c V3d.
  injection Q10 as Q10a Q10b Q10c.
  assert (stray_curr (wts_of sd) = stray_curr (wts_of s) /\
          stray_prev (wts_of sd) = stray_prev (wts_of s)) as [Y1 Y2]
    by (unfold stray_curr, stray_prev, wts_of; by rewrite V3a, V3b, V3c, V3d).
  destruct (own_time_mark (wts_of s4) (a_wrq s4) wallclock) as [N1 N2].
  assert (t_mark_start (wts_of sd) = t_mark_start (wts_of s)) as V2' by exact V2.
  rewrite V2', Y1, ?Y2 in U9, U10.
  split; rewrite ?E1, ?E2, ?E3, ?Q3a; try done; try congruence.
  - rewrite N1, Q1, U1, M5, B1. done.
  - rewrite N1, Q1, U1, M5, B2. done.
  - intros i x Hi Hge. rewrite <-B1, <-B2, <-M7, <-M3, <-(U3 i x Hi Hge). exact (Hc i x).
  - etransitivity; [exact Q5|exact U9].
  - etransitivity; [exact Q6|]. rewrite U10. by rewrite ?Y2.
  - exact (eq_trans Q7 M4).
  - etransitivity; [exact E4|exact Q12].
  - intros Hn. change (is_new_task (_ <| t_mark_start := _ |>)) with (is_new_task (wts_of s4)).
    rewrite (is_new_ext _ _ Q13). apply rolled_task_not_new. by rewrite (is_new_ext _ (wts_of s)).
  - change (is_new_task (_ <| t_mark_start := _ |>)) with (is_new_task (wts_of s4)).
    rewrite N1, Q1, U1, M5, B1, (is_new_ext _ _ Q13). done.
  - change (is_new_task (_ <| t_mark_start := _ |>)) with (is_new_task (wts_of s4)).
    rewrite N1, Q1, U1, M5, B2, (is_new_ext _ _ Q13). done.
Qed.

(** C1. An update at time [wallclock] leaves the task and its run queue in the window
    that contains [wallclock]: the run queue's window start advances by the whole
    windows that passed, the task's window and update time follow, and the task
    stays well formed. The counters the task belongs to (the run queue's own, or
    those of related thread groups) are the rolled-over ones plus what the task is
    charged now, the other ones are rolled over only, and the task's own per-CPU
    busy time grows by the same amounts on this CPU and nowhere else. *)
Theorem walt_update_task_ravg_spec c W pws event wallclock irqtime lastq s :
  ravg_ok c W wallclock s ->
  let sm := measured c event wallclock irqtime s in
  0 <= w_task_exec_scale (a_wrq sm) <= 1024 ->
  let s' := fst (walt_update_task_ravg c pws event wallclock irqtime lastq s) in
  let t := wts_of s in let t' := wts_of s' in
  let w := a_wrq s in let w' := a_wrq s' in
  let ws' := w_window_start w' in
  let dc := busy_curr c wallclock irqtime event sm in
  let dp := busy_prev c W irqtime event sm in
  let g := Windows.rolled c wallclock s (own_time t w) in
  ws' = w_window_start w + Windows.elapsed c wallclock s * W /\
  ws' <= wallclock < ws' + W /\ t_window_start t' = ws' /\ t_mark_start t' = wallclock /\
  task_ok c W t' /\
  g_curr_runnable_sum (own_time t' w') = g_curr_runnable_sum g + dc /\
  g_prev_runnable_sum (own_time t' w') = g_prev_runnable_sum g + dp /\
  other_time t' w' = Windows.rolled c wallclock s (other_time t w) /\
  (forall i x, 0 <= i < WALT_NR_CPUS -> ws' - W <= x ->
     contrib W t' i x = contrib W t i x +
     if i =? rq_cpu (a_rq s)
     then if x =? ws' then dc else if x =? ws' - W then dp else 0 else 0) /\
  (settled t -> settled t').
Proof.
  intros Hok sm Hx. cbv zeta.
  destruct (walt_update_task_ravg_updated c W pws event wallclock irqtime lastq s Hok Hx).
  repeat (split; [assumption|]).
  unfold settled. intros [S1 S2]. rewrite up_stray_curr0, up_stray_prev0.
  split; repeat case_if; done.
Qed.

(** The same task at the end of its window, on a CPU at two thirds of its highest
    frequency. *)
Definition demo_ravg : acct :=
  on_wts (fun t => t <| t_cpu_cycles := 48000000 |>) demo_busy
    <| a_wrq := (a_wrq demo_busy) <| w_window_start := 16000000 |>
                  <| w_rq_time := mk_gct 3000000 0 3000000 0 |> |>.

Lemma demo_ravg_ok : ravg_ok sample_cfg 16000000 36000000 demo_ravg.
Proof.
  pose proof (ch_task _ _ _ _ demo_busy_ok) as [].
  split; [by split|reflexivity|split; by vm_compute|reflexivity|by vm_compute|split; assumption|
    by vm_compute..|].
  intros g [-> | ->]; by vm_compute.
Qed.

Lemma walt_update_task_ravg_spec_witness :
  let s' := fst (walt_update_task_ravg sample_cfg 16000000 PUT_PREV_TASK 36000000 0 16000000
                   demo_ravg) in
  w_window_start (a_wrq s') = 32000000 /\
  g_curr_runnable_sum (own_time (wts_of s') (a_wrq s')) = 2667968.
Proof.
  destruct (walt_update_task_ravg_spec sample_cfg 16000000 16000000 PUT_PREV_TASK 36000000 0 16000000
    demo_ravg demo_ravg_ok) as (H1 & _ & _ & _ & _ & H2 & _); [by vm_compute|].
  cbv zeta in *. split; [rewrite H1; vm_compute; reflexivity|].
  rewrite H2. vm_compute. reflexivity.
Defined.

(** ** The execution scale *)

Lemma div_roundup_le n d k : 0 <= n -> 0 < d -> n + (d - 1) < 2 ^ 64 -> n <= k * d ->
  0 <= DIV64_U64_ROUNDUP n d <= k.
Proof.
  intros Hn Hd Hf Hk. unfold DIV64_U64_ROUNDUP. rewrite u64_small by lia. split.
  - apply Z.div_pos; lia.
  - enough ((n + (d - 1)) / d < k + 1) by lia. apply Z.div_lt_upper_bound; lia.
Qed.

(** While the cycle counter does not run faster than the highest frequency of the
    cluster, the execution scale measured for a task is at most the capacity of its
    CPU, so scaled time never exceeds real time; the products stay below 2^64 for
    up to 2^64 / (10^6 * capacity) cycles between two updates. *)
Theorem exec_scale_bounded c event wallclock s :
  use_cycle_counter c = true -> curr_is_idle (a_rq s) = false ->
  walt_is_idle_task (wts_of s) = false ->
  let cap := arch_scale_cpu_capacity c (rq_cpu (a_rq s)) in
  let freq := c_max_possible_freq (cluster_of c (a_wrq s)) in
  let now := w_cycles (read_cycle_counter c (rq_cpu (a_rq s)) wallclock (a_wrq s)) in
  let cycles := now - t_cpu_cycles (wts_of s) in
  let time := wallclock - t_mark_start (wts_of s) in
  0 <= cap -> 0 < freq -> 0 <= cycles -> 0 < time ->
  cycles * NSEC_PER_MSEC <= time * freq -> (cap + 1) * (time * freq) < 2 ^ 63 ->
  let s' := update_task_rq_cpu_cycles c event wallclock 0 s in
  0 <= w_task_exec_scale (a_wrq s') <= cap /\ t_cpu_cycles (wts_of s') = now /\
  a_log s' = a_log s.
Proof.
  intros Hu Hc Hi cap freq now cycles time Hcap Hf Hcy Ht Hle Hfit. cbv zeta.
  assert (0 < time * freq) as Htf by nia.
  assert (0 <= cycles * NSEC_PER_MSEC * cap <= cap * (time * freq)) as Hp.
  { split; [|rewrite (Z.mul_comm cap); apply Z.mul_le_mono_nonneg_r; lia].
    unfold NSEC_PER_MSEC. apply Z.mul_nonneg_nonneg; lia. }
  assert (0 <= time < 2 ^ 63) as Htm by nia.
  unfold update_task_rq_cpu_cycles. rewrite Hu. cbn [negb].
  assert (a_rq (on_wrq (read_cycle_counter c (rq_cpu (a_rq s)) wallclock) s) = a_rq s) as -> by done.
  rewrite Hc. cbn [negb orb].
  change (w_cycles (a_wrq (on_wrq (read_cycle_counter c (rq_cpu (a_rq s)) wallclock) s))) with now.
  change (wts_of (on_wrq (read_cycle_counter c (rq_cpu (a_rq s)) wallclock) s)) with (wts_of s).
  rewrite Hi, andb_false_r. rewrite (proj2 (Z.ltb_ge now _)) by lia. fold cycles time.
  fold cap freq. rewrite (u64_small time) by lia.
  assert (0 <= cycles * NSEC_PER_MSEC) by (unfold NSEC_PER_MSEC; lia).
  assert (time * freq < 2 ^ 63) by nia.
  rewrite (u64_small (cycles * _)) by lia.
  rewrite (u64_small (_ * cap)), (u64_small (time * freq)) by lia.
  assert (emit_if (s64 time <? 0) (WALT_PANIC bug_time_delta_negative)
    (on_wrq (read_cycle_counter c (rq_cpu (a_rq s)) wallclock) s) =
    on_wrq (read_cycle_counter c (rq_cpu (a_rq s)) wallclock) s) as ->.
  { unfold emit_if. rewrite (proj2 (Z.ltb_ge (s64 time) 0)); [done|]. rewrite s64_small by lia. lia. }
  cbn. split; [|done]. apply div_roundup_le; lia.
Qed.

Lemma exec_scale_bounded_witness :
  let s' := update_task_rq_cpu_cycles sample_cfg PUT_PREV_TASK 36000000 0 demo_ravg in
  0 <= w_task_exec_scale (a_wrq s') <= 1024.
Proof.
  destruct (exec_scale_bounded sample_cfg PUT_PREV_TASK 36000000 demo_ravg) as [H _];
    [by vm_compute..|exact H].
Defined.

(** Across a wrap of the cycle counter the distance is taken as
    [cur + (U64_MAX - old)], one cycle less than the counter advanced: from
    [U64_MAX] to 0 the counter advanced by one cycle and the scale is 0. *)
Theorem wrapped_cycles_lose_one :
  exists c s, w_cycles (read_cycle_counter c 4 36000000 (a_wrq s)) = 0 /\
    t_cpu_cycles (wts_of s) = U64_MAX /\
    w_task_exec_scale (a_wrq (update_task_rq_cpu_cycles c PUT_PREV_TASK 36000000 0 s)) = 0 /\
    w_task_exec_scale (a_wrq (update_task_rq_cpu_cycles c PUT_PREV_TASK 36000000 0
      (on_wts (fun t => t <| t_cpu_cycles := 0 |>)
         (on_wrq (fun w => w <| w_cycles := 1 |> <| w_last_cc_update := 36000000 |>) s)))) = 1.
Proof.
  exists (sample_cfg <| walt_get_cycle_counts_cb := fun _ _ => 0 |>),
    (on_wts (fun t => t <| t_cpu_cycles := U64_MAX |>) demo_ravg).
  vm_compute. repeat split.
Qed.

(** ** The busy bitmap *)

(** The milliseconds that ended in [(from, to]]. *)
Definition ended_ms (from to : Z) : Z := to / NSEC_PER_MSEC - from / NSEC_PER_MSEC.

Lemma u16_bits z j : 0 <= j < 16 -> Z.testbit (u16 z) j = Z.testbit z j.
Proof. intros Hj. apply (Z.mod_pow2_bits_low z 16). lia. Qed.

Lemma set_bits_spec n b t j : 0 <= n -> 0 <= j < 16 ->
  Z.testbit (t_busy_bitmap (set_bits n b t)) j =
  if j <? n then b else Z.testbit (t_busy_bitmap t) (j - n).
Proof.
  intros Hn Hj. unfold set_bits. cbn. rewrite u16_bits, Z.lor_spec by lia.
  rewrite u16_bits by lia.
  set (m := if 16 <? n then 16 else n).
  assert (0 <= m) by (unfold m; case_if; lia).
  assert ((j <? n) = (j <? m)) as -> by (unfold m; case_if; lia).
  rewrite Z.shiftl_spec by lia.
  destruct (Z.ltb_spec j m).
  - rewrite Z.testbit_neg_r by lia. cbn. destruct b; [|by rewrite Z.bits_0].
    rewrite Z.shiftl_1_l. change (2 ^ m - 1) with (Z.pred (2 ^ m)). rewrite <-Z.ones_equiv.
    apply Z.ones_spec_low. lia.
  - assert (Z.testbit (if b then Z.shiftl 1 m - 1 else 0) j = false) as ->.
    { destruct b; [|by rewrite Z.bits_0]. rewrite Z.shiftl_1_l.
      change (2 ^ m - 1) with (Z.pred (2 ^ m)). rewrite <-Z.ones_equiv.
      apply Z.ones_spec_high. lia. }
    rewrite orb_false_r. f_equal. unfold m in *. case_if; lia.
Qed.

(** The end of the millisecond that contains [m]. *)
Definition ms_end (m : Z) : Z := (m / NSEC_PER_MSEC + 1) * NSEC_PER_MSEC.

Lemma roundup_ms m : 0 <= m < 2 ^ 63 -> m mod NSEC_PER_MSEC <> 0 ->
  (u64 (m + (NSEC_PER_MSEC - 1)) / NSEC_PER_MSEC) * NSEC_PER_MSEC = ms_end m.
Proof.
  unfold ms_end, NSEC_PER_MSEC. intros Hm Hne. rewrite u64_small by lia. f_equal.
  symmetry. apply (Z.div_unique _ _ _ (m mod 1000000 - 1)).
  - left. pose proof (Z.mod_pos_bound m 1000000). lia.
  - pose proof (Z.div_mod m 1000000). lia.
Qed.

Lemma ended_ms_end m x : 0 <= m <= x ->
  ended_ms m x = if x <? ms_end m then 0 else 1 + (x - ms_end m) / NSEC_PER_MSEC.
Proof.
  intros Hm. unfold ended_ms, ms_end, NSEC_PER_MSEC.
  destruct (Z.ltb_spec x ((m / 1000000 + 1) * 1000000)) as [H|H].
  - assert (m / 1000000 <= x / 1000000) by (apply Z.div_le_mono; lia).
    assert (x / 1000000 < m / 1000000 + 1) by (apply Z.div_lt_upper_bound; lia). lia.
  - replace (x - (m / 1000000 + 1) * 1000000) with (x + (- (m / 1000000 + 1)) * 1000000) by lia.
    rewrite Z.div_add by lia. lia.
Qed.

Lemma shift_bits running h k t : 0 <= k ->
  let t2 := (set_bits 1 h t) <| t_period_contrib_run := 0 |> in
  let t3 := if negb (k =? 0) then set_bits k running t2 else t2 in
  t_period_contrib_run t3 = 0 /\
  forall j, 0 <= j < 16 -> Z.testbit (t_busy_bitmap t3) j =
    if j <? k then running else if j =? k then h
    else Z.testbit (t_busy_bitmap t) (j - (1 + k)).
Proof.
  intros Hk. cbv zeta. split; [by case_if|]. intros j Hj.
  assert (forall i, 0 <= i < 16 ->
    Z.testbit (t_busy_bitmap ((set_bits 1 h t) <| t_period_contrib_run := 0 |>)) i =
    if i =? 0 then h else Z.testbit (t_busy_bitmap t) (i - 1)) as H1.
  { intros i Hi. etransitivity; [apply (set_bits_spec 1 h t i); lia|].
    destruct (Z.ltb_spec i 1), (Z.eqb_spec i 0); done || lia. }
  destruct (Z.eqb_spec k 0) as [->|Hne]; cbn [negb].
  - rewrite H1 by lia. rewrite (proj2 (Z.ltb_ge j 0)) by lia. done.
  - rewrite set_bits_spec by lia. destruct (Z.ltb_spec j k); [done|].
    rewrite H1 by lia. destruct (Z.eqb_spec (j - k) 0), (Z.eqb_spec j k); try lia; try done.
    f_equal; lia.
Qed.

(** The time the task ran in the millisecond that contains its last update. *)
Definition ran (running : bool) (t : walt_task_struct) (d : Z) : Z :=
  t_period_contrib_run t + if running then d else 0.

(** The bitmap of busy milliseconds, updated from a time inside a millisecond: it
    moves by one bit for each millisecond that ended since, the first of them is
    marked when the task ran for more than half of it, the following ones when
    the task is running, and older marks keep their order. Otherwise only the time
    run in the current millisecond grows. *)
Theorem update_bits_spec running wallclock t :
  let m := t_mark_start t in let n := ended_ms m wallclock in
  0 <= m <= wallclock -> wallclock < 2 ^ 63 -> m mod NSEC_PER_MSEC <> 0 -> n < 2 ^ 31 ->
  0 <= t_period_contrib_run t <= NSEC_PER_MSEC ->
  let t' := update_bits running wallclock t in
  exceeds_ms wallclock t = (0 <? n) /\
  (n = 0 -> t_busy_bitmap t' = t_busy_bitmap t /\
     t_period_contrib_run t' = ran running t (wallclock - m)) /\
  (0 < n ->
     t_period_contrib_run t' = (if running then wallclock mod NSEC_PER_MSEC else 0) /\
     forall j, 0 <= j < 16 -> Z.testbit (t_busy_bitmap t') j =
       if j <? n - 1 then running
       else if j =? n - 1 then 500000 <? ran running t (ms_end m - m)
       else Z.testbit (t_busy_bitmap t) (j - n)).
Proof.
  intros m n Hm Hw Hne Hn Hc. cbv zeta.
  assert (m < ms_end m <= m + NSEC_PER_MSEC) as He.
  { unfold ms_end, NSEC_PER_MSEC. pose proof (Z.div_mod m 1000000). pose proof (Z.mod_pos_bound m 1000000).
    lia. }
  unfold exceeds_ms, update_bits. fold m. rewrite roundup_ms by lia.
  pose proof (ended_ms_end m wallclock Hm) as En. fold n in En.
  assert (ms_end m < 2 ^ 64) as Hb by (unfold NSEC_PER_MSEC in *; lia).
  rewrite En in *. clear n En. destruct (Z.ltb_spec wallclock (ms_end m)) as [Hlt|Hge].
  - split; [lia|]. split; [|lia]. intros _. unfold ran, add_contrib_run, NSEC_PER_MSEC in *.
    rewrite u64_small by lia. destruct running; cbn; rewrite ?u32_small by lia; split; lia || done.
  - assert (0 <= (wallclock - ms_end m) / NSEC_PER_MSEC) as Hp
      by (apply Z.div_pos; unfold NSEC_PER_MSEC; lia).
    split; [lia|]. split; [lia|]. intros _.
    rewrite !u64_small by lia.
    rewrite s32_small by lia. set (k := (wallclock - ms_end m) / NSEC_PER_MSEC) in *.
    set (t1 := add_contrib_run _ _ _).
    assert (t_period_contrib_run t1 = ran running t (ms_end m - m) /\ t_busy_bitmap t1 = t_busy_bitmap t)
      as [E1 E2].
    { unfold t1, add_contrib_run, ran, NSEC_PER_MSEC in *. destruct running; cbn; [|split; lia || done].
      rewrite u32_small by lia. done. }
    rewrite E1. clearbody t1. set (h := 500000 <? ran _ _ _).
    destruct (shift_bits running h k t1 Hp) as [S1 S2].
    set (t3 := if negb (k =? 0) then _ else _) in *. clearbody t3.
    replace (1 + k - 1) with k by lia.
    split; [by destruct running|]. intros j Hj. rewrite <-E2, <-(S2 j Hj). by destruct running.
Qed.

Lemma update_bits_spec_witness :
  let t := zero_wts <| t_mark_start := 2400000 |> <| t_busy_bitmap := 5 |> in
  t_busy_bitmap (update_bits true 5300000 t) = 47 /\
  Z.testbit (t_busy_bitmap (update_bits true 5300000 t)) 3 = Z.testbit 5 0.
Proof.
  cbv zeta. split; [vm_compute; reflexivity|].
  destruct (update_bits_spec true 5300000
    (zero_wts <| t_mark_start := 2400000 |> <| t_busy_bitmap := 5 |>)) as (_ & _ & H);
    [by vm_compute..|].
  destruct H as [_ H]; [by vm_compute|]. rewrite H by lia. vm_compute. reflexivity.
Defined.

(** An update at the exact end of a millisecond counts that end, and the next one
    counts it again: a task that runs from 2 ms to 4 ms with an update at 3 ms has
    two marks and a gap, without that update two marks and no gap. *)
Theorem boundary_update_adds_a_gap :
  let t := zero_wts <| t_mark_start := 2000001 |> in
  let once := update_bits true 4000000 t in
  let twice := update_bits true 4000000
    ((update_bits true 3000000 t) <| t_mark_start := 3000000 |>) in
  t_busy_bitmap once = 3 /\ t_busy_bitmap twice = 5.
Proof. vm_compute. split; reflexivity. Qed.

(** ** A new task *)

(** What a task of [init_new_task_load] starts with. *)
Record blank (t : walt_task_struct) : Prop := mk_blank {
  bl_curr_cpu : t_curr_window_cpu t = no_windows;
  bl_prev_cpu : t_prev_window_cpu t = no_windows;
  bl_sums : t_curr_window t = 0 /\ t_prev_window t = 0;
  bl_active : t_active_time t = 0;
  bl_grp : t_grp t = None
}.

Lemma blank_task_ok c W t : blank t ->
  0 <= t_window_start t <= t_mark_start t -> t_mark_start t < t_window_start t + W -> task_ok c W t.
Proof.
  intros [H1 H2 [H3 H4] H5 _] Ht Hw.
  assert (Forall (fun z => 0 <= z) no_windows) by (apply Forall_replicate; lia).
  assert (asum no_windows = 0) as Hs by reflexivity.
  split; rewrite ?H1, ?H2, ?H3, ?H4, ?Hs; try done; try lia.
Qed.

Lemma blank_contrib W t i x : blank t -> contrib W t i x = 0.
Proof.
  intros [H1 H2 _ _ _]. unfold contrib. rewrite H1, H2, no_windows_get. by repeat case_if.
Qed.

Lemma init_new_task_load_blank c cpu cur t :
  let t' := init_new_task_load c cpu cur t in
  blank t' /\ t_mark_start t' = 0 /\ t_window_start t' = 0.
Proof. cbv zeta. unfold init_new_task_load. case_if; done. Qed.

(** The first update of a task only gives it a window. *)
Lemma first_update c pws event wallclock lastq s :
  Windows.clock_ok c wallclock s -> 0 < w_window_start (a_wrq s) -> 0 < wallclock ->
  task_on_scx (a_p s) = false -> t_mark_start (wts_of s) = 0 -> t_window_start (wts_of s) = 0 ->
  blank (wts_of s) ->
  let s' := fst (walt_update_task_ravg c pws event wallclock 0 lastq s) in
  let s1 := advanced c wallclock s in
  blank (wts_of s') /\ t_mark_start (wts_of s') = wallclock /\
  t_window_start (wts_of s') = w_window_start (a_wrq s1) /\
  w_window_start (a_wrq s') = w_window_start (a_wrq s1) /\
  w_rq_time (a_wrq s') = w_rq_time (a_wrq s1) /\ w_grp_time (a_wrq s') = w_grp_time (a_wrq s1).
Proof.
  intros Hc Hst Hw Hscx Hm Hws Hb. cbv zeta. unfold walt_update_task_ravg.
  rewrite Hscx, Hm, (proj2 (Z.eqb_neq _ 0)), (proj2 (Z.eqb_neq 0 wallclock)) by lia. cbn [orb].
  unfold advanced. assert (a_p (fst (update_window_start c wallclock s)) = a_p s) as Hp.
  { rewrite Windows.update_window_start_eq by done. unfold emit_if. cbn. by repeat case_if. }
  destruct (update_window_start c wallclock s) as [s1 old]. cbn [fst] in *.
  assert (wts_of s1 = wts_of s) as Ht by (unfold wts_of; by rewrite Hp).
  rewrite Ht, Hws. change (0 =? 0) with true. cbn iota.
  set (s2 := on_wts (fun t => t <| t_window_start := _ |>) s1).
  assert (blank (wts_of s2) /\ t_window_start (wts_of s2) = w_window_start (a_wrq s1) /\
    t_mark_start (wts_of s2) = 0) as (B2 & W2 & M2).
  { unfold s2. unfold wts_of in *. cbn. rewrite Ht. split; [|done]. destruct Hb. split; done. }
  rewrite M2. change (0 =? 0) with true. cbn iota.
  set (s3 := update_task_cpu_cycles _ _ _ s2).
  assert (blank (wts_of s3) /\ t_window_start (wts_of s3) = w_window_start (a_wrq s1) /\
    w_window_start (a_wrq s3) = w_window_start (a_wrq s1) /\
    w_rq_time (a_wrq s3) = w_rq_time (a_wrq s1) /\ w_grp_time (a_wrq s3) = w_grp_time (a_wrq s1))
    as (B3 & W3 & V3 & C3 & G3).
  { unfold s3, update_task_cpu_cycles, read_cycle_counter. destruct B2. unfold wts_of in *.
    destruct (use_cycle_counter c); cbn; [|split; [split; assumption|done]].
    split; [split; assumption|]. split; [done|].
    destruct (negb (w_last_cc_update (a_wrq s1) =? wallclock)); done. }
  clearbody s3. destruct (run_walt_irq_work_rollover _ _ _) as [q won]. cbn [fst].
  unfold emit_if. repeat match goal with |- context [if ?b then emit _ _ else _] => destruct b end;
    destruct B3; (split; [split; assumption|]); repeat (split; [done|]); done.
Qed.

(** C8. A forked task, initialised and marked as starting, is in the window of its
    run queue with its time set to the clock, is well formed, has no busy time in
    any window on any CPU and no group, and the counters of the run queue are only
    rolled over: a new task never inherits or adds busy time. *)
Theorem new_task_starts c W pws lastq cpu cur s :
  let s0 := on_wts (init_new_task_load c cpu cur) s in
  let wallclock := walt_rq_clock c (a_rq s) (a_wrq s) in
  sched_ravg_window c = W -> Windows.clock_ok c wallclock s ->
  0 < w_window_start (a_wrq s) -> task_on_scx (a_p s) = false ->
  let s' := fst (mark_task_starting c pws lastq s0) in
  let t' := wts_of s' in let w' := a_wrq s' in
  t_mark_start t' = wallclock /\ t_window_start t' = w_window_start w' /\
  w_window_start w' <= wallclock < w_window_start w' + W /\
  task_ok c W t' /\ t_grp t' = None /\ (forall i x, contrib W t' i x = 0) /\
  w_rq_time w' = Windows.rolled c wallclock s (w_rq_time (a_wrq s)) /\
  w_grp_time w' = Windows.rolled c wallclock s (w_grp_time (a_wrq s)).
Proof.
  intros s0 wallclock HW Hc Hst Hscx. cbv zeta.
  pose proof (init_new_task_load_blank c cpu cur (wts_of s)) as (B0 & M0 & W0).
  unfold mark_task_starting. change (walt_rq_clock c (a_rq s0) (a_wrq s0)) with wallclock.
  set (s1 := on_wts (fun t => t <| t_last_wake_ts := _ |> <| _ := _ |> <| _ := _ |>) s0).
  assert (t_mark_start (wts_of s1) = 0) as M1 by exact M0. rewrite M1. cbn [negb].
  change (negb (0 =? 0)) with false. cbn iota.
  assert (blank (wts_of s1)) as B1 by (destruct B0; split; assumption).
  assert (Windows.clock_ok c wallclock s1) as Hc1 by (destruct Hc; split; assumption).
  pose proof (Windows.co_start _ _ _ Hc). pose proof (Windows.elapsed_spec _ _ _ Hc1) as [He _].
  destruct (first_update c pws TASK_UPDATE wallclock lastq s1 Hc1 Hst ltac:(lia) Hscx M1 W0 B1)
    as (B & M & Wt & Ww & C & G).
  set (s' := fst _) in *. clearbody s'.
  destruct (advanced_clock c W wallclock s1 HW Hc1) as (_ & _ & A3 & A4 & A5 & A6).
  assert (0 <= w_window_start (a_wrq (advanced c wallclock s1))).
  { rewrite A3. pose proof (Windows.co_window _ _ _ Hc1). unfold s1, s0 in *. cbn in *. nia. }
  rewrite Ww, C, G, A5, A6. split; [done|]. split; [done|]. split; [lia|].
  split; [apply blank_task_ok; [done|..]; lia|]. split; [by destruct B|].
  split; [intros i x; by apply blank_contrib|done].
Qed.

Lemma new_task_starts_witness :
  let s0 := on_wts (init_new_task_load sample_cfg 4 zero_wts)
              (demo_ravg <| a_rq := (a_rq demo_ravg) <| rq_clock := 36000000 |> |>) in
  t_mark_start (wts_of (fst (mark_task_starting sample_cfg 0 16000000 s0))) = 36000000.
Proof.
  destruct (new_task_starts sample_cfg 16000000 0 16000000 4 zero_wts
    (demo_ravg <| a_rq := (a_rq demo_ravg) <| rq_clock := 36000000 |> |>)) as [H _];
    [by vm_compute|split; by vm_compute|by vm_compute|by vm_compute|].
  cbv zeta in *. rewrite H. vm_compute. reflexivity.
Defined.

End Ravg.
