(* ===== verification/Migrate.v ===== *)
(** * Migration of a task between run queues

    A task that moves to another CPU takes its busy time along: within a
    frequency domain the counters stay (the domain reports their maximum), across
    domains they are taken from the CPUs of the source cluster, from its own CPU
    at once and from the siblings, whose locks are not held, through pending
    subtractions, and added on the destination when the task is queued there.
    Models [update_cluster_load_subtractions],
    [migrate_inter_cluster_subtraction], [migrate_inter_cluster_addition],
    [migrate_busy_time_subtraction] and [migrate_busy_time_addition] of [walt.c]. *)

From Stdlib Require Import ZArith Lia ZifyBool.
From stdpp Require Import base list.
From S2P Require Import Prelude WaltTypes TopTasks Stats Predict Window Busy Demand Ravg.

(** ** The run queues of all CPUs *)

Record sys := mk_sys {
  y_p : task_struct;
  y_rqs : list rq;
  y_wrqs : list walt_rq;
  y_lastq : Z;
  y_log : list walt_effect
}.

(** What a lookup outside the CPUs returns. *)
Definition no_rq : rq := mk_rq (-1) 0 0 0 0.
Definition no_wrq : walt_rq := {|
  w_cluster := -1; w_freq_domain_cpumask := 0; w_walt_stats := mk_stats 0 0 0 0 0 0;
  w_window_start := 0; w_prev_window_size := 0; w_ed_task := None;
  w_task_exec_scale := 0; w_old_busy_time := 0; w_old_estimated_time := 0;
  w_rq_time := mk_gct 0 0 0 0; w_grp_time := mk_gct 0 0 0 0; w_load_subs := [];
  w_top := mk_tt [] [] 0 0 0 0 0; w_notif_pending := false; w_last_cc_update := 0;
  w_cycles := 0; w_util := 0; w_latest_clock := 0; w_cpu_capacity_orig := 0;
  w_lrb_pipeline_start_time := 0 |}.

Definition cpu_rq (y : sys) (cpu : Z) : rq := nth (Z.to_nat cpu) (y_rqs y) no_rq.
Definition cpu_wrq (y : sys) (cpu : Z) : walt_rq := nth (Z.to_nat cpu) (y_wrqs y) no_wrq.
Definition set_cpu_wrq (cpu : Z) (w : walt_rq) (y : sys) : sys :=
  y <| y_wrqs := <[Z.to_nat cpu := w]> (y_wrqs y) |>.
Definition on_cpu_wrq (cpu : Z) (f : walt_rq -> walt_rq) (y : sys) : sys :=
  set_cpu_wrq cpu (f (cpu_wrq y cpu)) y.
Definition y_wts (y : sys) : walt_task_struct := p_wts (y_p y).
Definition on_y_wts (f : walt_task_struct -> walt_task_struct) (y : sys) : sys :=
  y <| y_p := (y_p y) <| p_wts := f (p_wts (y_p y)) |> |>.
Definition y_emit_if (b : bool) (e : walt_effect) (y : sys) : sys :=
  if b then y <| y_log := y_log y ++ [e] |> else y.

(** The task on the run queue of [cpu], and back. *)
Definition focus (cpu : Z) (y : sys) : acct :=
  mk_acct (y_p y) (cpu_rq y cpu) (cpu_wrq y cpu) (y_log y).
Definition unfocus (cpu : Z) (s : acct) (y : sys) : sys :=
  set_cpu_wrq cpu (a_wrq s) (y <| y_p := a_p s |> <| y_log := a_log s |>).

(** [walt_update_task_ravg(p, cpu_rq(cpu), event, wallclock, 0)] *)
Definition update_task_ravg_on (c : walt_cfg) (cpu : Z) (event : task_event) (wallclock : Z)
    (y : sys) : sys :=
  let task_pws := w_prev_window_size (cpu_wrq y (p_cpu (y_p y))) in
  let '(s, lastq) := walt_update_task_ravg c task_pws event wallclock 0 (y_lastq y) (focus cpu y) in
  (unfocus cpu s y) <| y_lastq := lastq |>.

(** ** Operations *)

Definition same_freq_domain (y : sys) (src_cpu dst_cpu : Z) : bool :=
  (src_cpu =? dst_cpu) || Z.testbit (w_freq_domain_cpumask (cpu_wrq y src_cpu)) dst_cpu.

(** The body of the loop of [update_cluster_load_subtractions] for CPU [i]. *)
Definition subtract_sibling (ws prev_ws : Z) (new_task : bool) (i : Z) (y : sys) : sys :=
  let y :=
    if negb (aget (t_curr_window_cpu (y_wts y)) i =? 0) then
      let y := on_cpu_wrq i (fun w =>
        let '(w, index) := get_subtraction_index ws w in
        update_rq_load_subtractions index (aget (t_curr_window_cpu (y_wts y)) i) new_task w) y in
      on_y_wts (fun t => t <| t_curr_window_cpu := aset (t_curr_window_cpu t) i 0 |>) y
    else y in
  if negb (aget (t_prev_window_cpu (y_wts y)) i =? 0) then
    let y := on_cpu_wrq i (fun w =>
      let '(w, index) := get_subtraction_index prev_ws w in
      update_rq_load_subtractions index (aget (t_prev_window_cpu (y_wts y)) i) new_task w) y in
    on_y_wts (fun t => t <| t_prev_window_cpu := aset (t_prev_window_cpu t) i 0 |>) y
  else y.

Definition update_cluster_load_subtractions (c : walt_cfg) (cpu ws : Z) (new_task : bool)
    (y : sys) : sys :=
  let cluster_cpus := Z.clearbit (c_cpus (cluster_of c (cpu_wrq y cpu))) cpu in
  let prev_ws := u64 (ws - w_prev_window_size (cpu_wrq y cpu)) in
  for_range 0 (Z.to_nat (nr_cpu_ids c))
    (fun i y => if Z.testbit cluster_cpus i then subtract_sibling ws prev_ws new_task i y else y) y.

Definition migrate_inter_cluster_subtraction (c : walt_cfg) (task_cpu : Z) (new_task : bool)
    (y : sys) : sys :=
  let curr := aget (t_curr_window_cpu (y_wts y)) task_cpu in
  let prev := aget (t_prev_window_cpu (y_wts y)) task_cpu in
  let g := w_rq_time (cpu_wrq y task_cpu) in
  let y := y_emit_if (g_curr_runnable_sum g <? curr) (WALT_BUG bug_crs_underflow) y in
  let y := y_emit_if (g_prev_runnable_sum g <? prev) (WALT_BUG bug_prs_underflow) y in
  let y := y_emit_if (new_task && (g_nt_curr_runnable_sum g <? curr))
             (WALT_BUG bug_nt_crs_underflow) y in
  let y := y_emit_if (new_task && (g_nt_prev_runnable_sum g <? prev))
             (WALT_BUG bug_nt_prs_underflow) y in
  let y := on_cpu_wrq task_cpu (on_rq_time (fun g =>
    mk_gct (sub_clamp (g_curr_runnable_sum g) curr) (sub_clamp (g_prev_runnable_sum g) prev)
      (if new_task then sub_clamp (g_nt_curr_runnable_sum g) curr else g_nt_curr_runnable_sum g)
      (if new_task then sub_clamp (g_nt_prev_runnable_sum g) prev else g_nt_prev_runnable_sum g))) y in
  let y := on_y_wts (fun t =>
    t <| t_curr_window_cpu := aset (t_curr_window_cpu t) task_cpu 0 |>
      <| t_prev_window_cpu := aset (t_prev_window_cpu t) task_cpu 0 |>) y in
  update_cluster_load_subtractions c task_cpu (w_window_start (cpu_wrq y task_cpu)) new_task y.

Definition migrate_inter_cluster_addition (new_cpu : Z) (new_task : bool) (y : sys) : sys :=
  let y := on_y_wts (fun t =>
    t <| t_curr_window_cpu := aset (t_curr_window_cpu t) new_cpu (t_curr_window t) |>
      <| t_prev_window_cpu := aset (t_prev_window_cpu t) new_cpu (t_prev_window t) |>) y in
  on_cpu_wrq new_cpu (on_rq_time (fun g =>
    add_prev (t_prev_window (y_wts y)) new_task (add_curr (t_curr_window (y_wts y)) new_task g))) y.

(** The busy time of a task in a related thread group leaves the group counters of
    a CPU. *)
Definition group_subtraction (cpu : Z) (new_task : bool) (y : sys) : sys :=
  let curr := t_curr_window (y_wts y) in
  let prev := t_prev_window (y_wts y) in
  let g := w_grp_time (cpu_wrq y cpu) in
  let y := y_emit_if (negb (curr =? 0) && (g_curr_runnable_sum g <? curr))
             (WALT_BUG bug_crs_underflow) y in
  let y := y_emit_if (negb (curr =? 0) && new_task && (g_nt_curr_runnable_sum g <? curr))
             (WALT_BUG bug_nt_crs_underflow) y in
  let y := y_emit_if (negb (prev =? 0) && (g_prev_runnable_sum g <? prev))
             (WALT_BUG bug_prs_underflow) y in
  let y := y_emit_if (negb (prev =? 0) && new_task && (g_nt_prev_runnable_sum g <? prev))
             (WALT_BUG bug_nt_prs_underflow) y in
  on_cpu_wrq cpu (on_grp_time (fun g =>
    let g := if negb (curr =? 0)
             then g <| g_curr_runnable_sum := sub_clamp (g_curr_runnable_sum g) curr |>
                    <| g_nt_curr_runnable_sum := if new_task
                         then sub_clamp (g_nt_curr_runnable_sum g) curr
                         else g_nt_curr_runnable_sum g |>
             else g in
    if negb (prev =? 0)
    then g <| g_prev_runnable_sum := sub_clamp (g_prev_runnable_sum g) prev |>
           <| g_nt_prev_runnable_sum := if new_task
                then sub_clamp (g_nt_prev_runnable_sum g) prev
                else g_nt_prev_runnable_sum g |>
    else g)) y.

(** They are added on the destination. *)
Definition group_addition (cpu : Z) (new_task : bool) (y : sys) : sys :=
  let curr := t_curr_window (y_wts y) in
  let prev := t_prev_window (y_wts y) in
  on_cpu_wrq cpu (on_grp_time (fun g =>
    let g := if negb (curr =? 0) then add_curr curr new_task g else g in
    if negb (prev =? 0) then add_prev prev new_task g else g)) y.

(** The end of [migrate_busy_time_subtraction], from [skip_src_rq_sub] on. *)
Definition leave_src (c : walt_cfg) (y : sys) : sys :=
  let src := p_cpu (y_p y) in
  let y := if is_ed_enabled c &&
              bool_decide (w_ed_task (cpu_wrq y src) = Some (p_id (y_p y)))
           then on_cpu_wrq src (fun w => w <| w_ed_task := None |>) y else y in
  on_y_wts (fun t => t <| t_prev_cpu := src |>) y.

(** [task_rq(p)] is [cpu_rq(task_cpu(p))]; [wallclock] is [walt_sched_clock()]. The
    locks taken around a waking task are not part of the state. *)
Definition migrate_busy_time_subtraction (c : walt_cfg) (new_cpu wallclock : Z) (y : sys) : sys :=
  let src := p_cpu (y_p y) in
  if (p_on_rq (y_p y) =? 0) && negb (p_state (y_p y) =? TASK_WAKING)
  then y_emit_if true (WALT_BUG bug_not_runnable) y else
  let double_migrate := negb (t_enqueue_after_migration (y_wts y) =? 0) in
  let y := on_y_wts (fun t => t <| t_new_cpu := new_cpu |>
             <| t_enqueue_after_migration := if same_freq_domain y src new_cpu then 1 else 2 |>) y in
  let y := update_task_ravg_on c src TASK_MIGRATE wallclock y in
  let y := on_y_wts (fun t => t <| t_cpu_cycles := walt_get_cycle_counts_cb c new_cpu wallclock |>) y in
  if double_migrate then leave_src c y else
  let y := y_emit_if (negb (t_window_start (y_wts y) =? w_window_start (cpu_wrq y src)))
             (WALT_BUG bug_task_ws_mismatch) y in
  let new_task := is_new_task (y_wts y) in
  let y :=
    match t_grp (y_wts y) with
    | Some grp =>
        let y := y_emit_if (negb (grp =? DEFAULT_CGROUP_COLOC_ID)) (WALT_BUG bug_grp_not_default) y in
        group_subtraction src new_task y
    | None =>
        if t_enqueue_after_migration (y_wts y) =? 2
        then migrate_inter_cluster_subtraction c src new_task y else y
    end in
  let y := on_cpu_wrq src (fun w =>
    w <| w_top := migrate_top_tasks_subtraction c (y_wts y) (w_top w) |>) y in
  leave_src c y.

Definition migrate_busy_time_addition (c : walt_cfg) (new_cpu wallclock : Z) (y : sys) : sys :=
  let src_cpu := t_prev_cpu (y_wts y) in
  let y := update_task_ravg_on c new_cpu TASK_UPDATE wallclock y in
  let y := y_emit_if (negb (t_window_start (y_wts y) =? w_window_start (cpu_wrq y new_cpu)))
             (WALT_BUG bug_task_ws_mismatch) y in
  let new_task := is_new_task (y_wts y) in
  let y :=
    match t_grp (y_wts y) with
    | Some grp =>
        let y := y_emit_if (negb (grp =? DEFAULT_CGROUP_COLOC_ID)) (WALT_BUG bug_grp_not_default) y in
        group_addition new_cpu new_task y
    | None =>
        if t_enqueue_after_migration (y_wts y) =? 2
        then migrate_inter_cluster_addition new_cpu new_task y else y
    end in
  let y := on_cpu_wrq new_cpu (fun w =>
    w <| w_top := migrate_top_tasks_addition c (y_wts y) (w_top w) |>) y in
  let y :=
    if t_enqueue_after_migration (y_wts y) =? 2 then
      let y := on_cpu_wrq src_cpu (fun w => w <| w_notif_pending := true |>) y in
      let y := on_cpu_wrq new_cpu (fun w => w <| w_notif_pending := true |>) y in
      y_emit_if true walt_migration_irq_work_queued y
    else y in
  let y := if is_ed_enabled c && is_ed_task (y_wts y) wallclock
           then on_cpu_wrq new_cpu (fun w => w <| w_ed_task := Some (p_id (y_p y)) |>) y else y in
  on_y_wts (fun t => t <| t_new_cpu := -1 |>) y.

#[global] Arguments update_task_ravg_on : simpl never.
#[global] Arguments subtract_sibling : simpl never.
#[global] Arguments update_cluster_load_subtractions : simpl never.
#[global] Arguments migrate_inter_cluster_subtraction : simpl never.
#[global] Arguments migrate_inter_cluster_addition : simpl never.
#[global] Arguments group_subtraction : simpl never.
#[global] Arguments group_addition : simpl never.
#[global] Arguments leave_src : simpl never.
#[global] Arguments migrate_busy_time_subtraction : simpl never.
#[global] Arguments migrate_busy_time_addition : simpl never.

Module Migration.
Import BusyTime History Ravg.

(** ** What a CPU accounts for *)

(** The value for the window that starts at [x] of a pair of counters for the window
    [ws] and the one before it. *)
Definition at_window (W ws curr prev x : Z) : Z :=
  if x =? ws then curr else if x =? ws - W then prev else 0.

(** The counter of a run queue for the window that starts at [x], and that of the
    new tasks. *)
Definition counter (W : Z) (w : walt_rq) (x : Z) : Z :=
  at_window W (w_window_start w) (g_curr_runnable_sum (w_rq_time w))
    (g_prev_runnable_sum (w_rq_time w)) x.
Definition nt_counter (W : Z) (w : walt_rq) (x : Z) : Z :=
  at_window W (w_window_start w) (g_nt_curr_runnable_sum (w_rq_time w))
    (g_nt_prev_runnable_sum (w_rq_time w)) x.

(** Rolling the pair over [e] windows and adding amounts. *)
Lemma at_window_rolled W ws e curr prev dc dp x :
  0 < W -> 0 <= e -> ws + e * W - W <= x ->
  at_window W (ws + e * W) ((if e =? 0 then curr else 0) + dc)
    ((if e =? 0 then prev else if e =? 1 then curr else 0) + dp) x =
  at_window W ws curr prev x + at_window W (ws + e * W) dc dp x.
Proof.
  intros HW He Hx. unfold at_window.
  destruct (Z.eqb_spec e 0) as [->|E]; [|destruct (Z.eqb_spec e 1) as [->|E']]; cbn.
  - rewrite Z.mul_0_l, Z.add_0_r in *. repeat case_if; lia.
  - rewrite Z.mul_1_l in *.
    destruct (Z.eqb_spec x (ws + W)), (Z.eqb_spec x (ws + W - W)), (Z.eqb_spec x ws),
      (Z.eqb_spec x (ws - W)); lia.
  - assert (2 * W <= e * W) by nia.
    rewrite (proj2 (Z.eqb_neq x ws)), (proj2 (Z.eqb_neq x (ws - W))) by lia. repeat case_if; lia.
Qed.

(** What the counter of CPU [i] holds beyond what is to be subtracted from it and
    the busy time of the task on that CPU: the busy time of the other tasks. *)
Definition net (W : Z) (y : sys) (i x : Z) : Z :=
  counter W (cpu_wrq y i) x - LoadSubs.pending (cpu_wrq y i) x - contrib W (y_wts y) i x.

Definition tracked_window (W ws x : Z) : Prop := x = ws \/ x = ws - W.

Lemma cpu_wrq_set y cpu w i :
  length (y_wrqs y) = Z.to_nat WALT_NR_CPUS -> 0 <= cpu < WALT_NR_CPUS -> 0 <= i ->
  cpu_wrq (set_cpu_wrq cpu w y) i = if i =? cpu then w else cpu_wrq y i.
Proof.
  unfold cpu_wrq, set_cpu_wrq, WALT_NR_CPUS. cbn. intros Hl Hc Hi.
  change (Z.to_nat 8) with 8%nat in Hl. rewrite !nth_lookup.
  destruct (Z.eqb_spec i cpu) as [->|Hne].
  - rewrite list_lookup_insert_eq by lia. done.
  - rewrite list_lookup_insert_ne by lia. done.
Qed.

Lemma length_set_wrq cpu w y : length (y_wrqs (set_cpu_wrq cpu w y)) = length (y_wrqs y).
Proof. apply length_insert. Qed.

(** ** Pending subtractions of a sibling *)

(** The entries are for the window [ws] or for the windows before it, so that the
    two windows the source tracks always find room. *)
Record subs_ok (W ws : Z) (w : walt_rq) : Prop := mk_subs_ok {
  so_ok : LoadSubs.ok w;
  so_recent : Forall (fun l => l_window_start l = ws \/ l_window_start l <= ws - W) (w_load_subs w);
  so_fits : forall x, LoadSubs.pending w x < 2 ^ 63
}.

Lemma subs_entries W ws w : subs_ok W ws w -> 0 < ws - W -> 0 < W ->
  LoadSubs.safe w ws (ws - W) /\ LoadSubs.safe w (ws - W) ws.
Proof.
  intros [Hok Hr _] Hp HW. destruct (LoadSubs.ok_entries w Hok) as (l0 & l1 & El & E0 & E1 & Hd).
  unfold LoadSubs.safe, LoadSubs.tracked. rewrite El in *.
  inversion Hr as [|? ? R0 Hr']; subst. inversion Hr' as [|? ? R1 _]; subst.
  assert (l_window_start no_subs = 0) as Hz by done.
  split.
  - destruct (Z.eqb_spec (l_window_start l0) ws); [left; cbn; lia|].
    destruct (Z.eqb_spec (l_window_start l1) ws); [left; cbn; lia|]. right.
    destruct (Z.ltb_spec (l_window_start l0) (ws - W)); [exists l0; split; [apply list_elem_of_In; cbn; auto|lia]|].
    destruct (Z.ltb_spec (l_window_start l1) (ws - W)); [exists l1; split; [apply list_elem_of_In; cbn; auto|lia]|].
    destruct Hd as [?|[-> ->]]; lia.
  - right. destruct (Z.ltb_spec (l_window_start l0) ws); [exists l0; split; [apply list_elem_of_In; cbn; auto|lia]|].
    destruct (Z.ltb_spec (l_window_start l1) ws); [exists l1; split; [apply list_elem_of_In; cbn; auto|lia]|].
    destruct Hd as [?|[-> ->]]; lia.
Qed.

(** Adding amounts for both windows. *)
Definition pend (b : bool) (ws load : Z) (new_task : bool) (w : walt_rq) : walt_rq :=
  if b then LoadSubs.add_pending ws load new_task w else w.

Lemma pend_first W ws load new_task w : subs_ok W ws w -> 0 < ws - W -> 0 < W -> ws < U64_MAX ->
  0 <= load < 2 ^ 32 ->
  let w1 := pend (negb (load =? 0)) ws load new_task w in
  LoadSubs.ok w1 /\ LoadSubs.pending w1 ws = LoadSubs.pending w ws + load /\
  LoadSubs.pending w1 (ws - W) = LoadSubs.pending w (ws - W) /\
  LoadSubs.safe w1 (ws - W) ws /\ w1 = w <| w_load_subs := w_load_subs w1 |>.
Proof.
  intros Hs Hp HW Hws Hl. cbv zeta. pose proof (subs_entries W ws w Hs Hp HW) as [S1 S2].
  pose proof (so_fits _ _ _ Hs ws) as Hf. unfold pend.
  destruct (Z.eqb_spec load 0) as [->|Hne]; cbn [negb].
  { split; [apply Hs|]. split; [lia|]. split; [done|]. split; [done|by destruct w]. }
  pose proof (so_ok _ _ _ Hs) as Hok.
  destruct (LoadSubs.add_pending_adds ws load new_task w Hok ltac:(lia) Hl ltac:(lia))
    as (A1 & A2 & A3 & _ & A5 & _).
  split; [done|]. split; [done|]. split; [apply A5; [lia|done]|].
  split; [|by apply LoadSubs.add_pending_rest].
  right. destruct (LoadSubs.ok_entries w Hok) as (l0 & l1 & El & E0 & E1 & Hd).
  rewrite (LoadSubs.add_pending_eq _ _ _ _ l0 l1) by done.
  pose proof (so_recent _ _ _ Hs) as Hr. rewrite El in Hr.
  inversion Hr as [|? ? R0 Hr']; subst. inversion Hr' as [|? ? R1 _]; subst.
  assert (l_window_start no_subs = 0) as Hz by done. cbn [w_load_subs].
  destruct (Z.eqb_spec ws (l_window_start l0)), (Z.eqb_spec ws (l_window_start l1)),
    (Z.ltb_spec (l_window_start l1) (l_window_start l0));
    try (exists l0; split; [apply list_elem_of_In; cbn; auto; fail|lia]);
    try (exists l1; split; [apply list_elem_of_In; cbn; auto; fail|lia]);
    destruct Hd as [?|[-> ->]]; lia.
Qed.

Lemma pend_both W ws a b new_task w : subs_ok W ws w -> 0 < ws - W -> 0 < W -> ws < U64_MAX ->
  0 <= a < 2 ^ 32 -> 0 <= b < 2 ^ 32 ->
  let w2 := pend (negb (b =? 0)) (ws - W) b new_task (pend (negb (a =? 0)) ws a new_task w) in
  LoadSubs.pending w2 ws = LoadSubs.pending w ws + a /\
  LoadSubs.pending w2 (ws - W) = LoadSubs.pending w (ws - W) + b /\
  w2 = w <| w_load_subs := w_load_subs w2 |>.
Proof.
  intros Hs Hp HW Hws Ha Hb. cbv zeta.
  pose proof (so_fits _ _ _ Hs (ws - W)) as Hf.
  destruct (pend_first W ws a new_task w Hs Hp HW Hws Ha) as (F1 & F2 & F3 & F4 & F5).
  set (w1 := pend (negb (a =? 0)) ws a new_task w) in *. clearbody w1.
  unfold pend. destruct (Z.eqb_spec b 0) as [->|Hne]; cbn [negb]; [rewrite F2, F3; split; [done|split; [lia|done]]|].
  destruct (LoadSubs.add_pending_adds (ws - W) b new_task w1 F1 ltac:(lia) Hb ltac:(lia))
    as (_ & _ & A3 & _ & A5 & _).
  split; [rewrite (proj1 (A5 ws ltac:(lia) F4)); done|]. split; [lia|].
  etransitivity; [by apply LoadSubs.add_pending_rest|].
  generalize (w_load_subs (LoadSubs.add_pending (ws - W) b new_task w1)). intros X.
  rewrite F5. done.
Qed.

(** ** The siblings of the source *)

Definition zero_at (i : Z) (t : walt_task_struct) : walt_task_struct :=
  t <| t_curr_window_cpu := aset (t_curr_window_cpu t) i 0 |>
    <| t_prev_window_cpu := aset (t_prev_window_cpu t) i 0 |>.

Lemma aset_same l i : 0 <= i -> aget l i = 0 -> aset l i 0 = l.
Proof.
  intros Hi H0. destruct (Z.ltb_spec i (Z.of_nat (length l))).
  - apply aset_id; [lia|done].
  - apply list_insert_ge. lia.
Qed.

Lemma subtract_sibling_eq ws prev_ws new_task i y : 0 <= i ->
  length (y_wrqs y) = Z.to_nat WALT_NR_CPUS -> 0 <= i < WALT_NR_CPUS ->
  let a := aget (t_curr_window_cpu (y_wts y)) i in
  let b := aget (t_prev_window_cpu (y_wts y)) i in
  let y' := subtract_sibling ws prev_ws new_task i y in
  y_p y' = (y_p y) <| p_wts := zero_at i (y_wts y) |> /\
  y_log y' = y_log y /\ y_rqs y' = y_rqs y /\ y_lastq y' = y_lastq y /\
  length (y_wrqs y') = Z.to_nat WALT_NR_CPUS /\
  forall j, 0 <= j -> cpu_wrq y' j =
    if j =? i then pend (negb (b =? 0)) prev_ws b new_task
                     (pend (negb (a =? 0)) ws a new_task (cpu_wrq y j))
    else cpu_wrq y j.
Proof.
  intros Hi0 Hl Hi. cbv zeta. unfold subtract_sibling.
  set (y1 := if negb (aget (t_curr_window_cpu (y_wts y)) i =? 0) then _ else y).
  assert (y_p y1 = (y_p y) <| p_wts := (y_wts y) <| t_curr_window_cpu :=
            aset (t_curr_window_cpu (y_wts y)) i 0 |> |> /\
    y_log y1 = y_log y /\ y_rqs y1 = y_rqs y /\ y_lastq y1 = y_lastq y /\
    length (y_wrqs y1) = Z.to_nat WALT_NR_CPUS /\
    forall j, 0 <= j -> cpu_wrq y1 j = if j =? i then
      pend (negb (aget (t_curr_window_cpu (y_wts y)) i =? 0)) ws
        (aget (t_curr_window_cpu (y_wts y)) i) new_task (cpu_wrq y j) else cpu_wrq y j)
    as (P1 & L1 & R1 & Q1 & N1 & C1).
  { unfold y1. destruct (Z.eqb_spec (aget (t_curr_window_cpu (y_wts y)) i) 0) as [E|E]; cbn [negb pend].
    - rewrite aset_same by done. unfold y_wts. split; [by destruct (y_p y), p_wts|].
      split; [done|]. split; [done|]. split; [done|]. split; [done|]. intros j _. by case_if.
    - split; [done|]. split; [done|]. split; [done|]. split; [done|].
      split; [by rewrite <-Hl; apply length_insert|]. intros j Hj.
      change (cpu_wrq (on_y_wts _ ?z) j) with (cpu_wrq z j). unfold on_cpu_wrq.
      rewrite cpu_wrq_set by done. destruct (Z.eqb_spec j i) as [->|]; done. }
  clearbody y1.
  assert (y_wts y1 = (y_wts y) <| t_curr_window_cpu := aset (t_curr_window_cpu (y_wts y)) i 0 |>) as T1
    by (unfold y_wts at 1; by rewrite P1).
  rewrite T1. change (t_prev_window_cpu (_ <| t_curr_window_cpu := _ |>)) with (t_prev_window_cpu (y_wts y)).
  destruct (Z.eqb_spec (aget (t_prev_window_cpu (y_wts y)) i) 0) as [E|E]; cbn [negb].
  - split; [rewrite P1; unfold zero_at, y_wts in *; rewrite (aset_same (t_prev_window_cpu _)) by done;
      by destruct (y_p y), p_wts|]. do 4 (split; [done|]).
    intros j Hj. rewrite C1 by done. by case_if.
  - split; [cbn; by rewrite P1|]. do 3 (split; [done|]).
    split; [by rewrite <-N1; apply length_insert|]. intros j Hj.
    change (cpu_wrq (on_y_wts _ ?z) j) with (cpu_wrq z j). unfold on_cpu_wrq.
    rewrite cpu_wrq_set, !C1 by done. rewrite Z.eqb_refl.
    destruct (Z.eqb_spec j i) as [->|]; done.
Qed.

Record arrays_ok (t : walt_task_struct) : Prop := mk_arrays_ok {
  ar_curr_len : length (t_curr_window_cpu t) = Z.to_nat WALT_NR_CPUS;
  ar_prev_len : length (t_prev_window_cpu t) = Z.to_nat WALT_NR_CPUS;
  ar_curr : forall i, 0 <= i -> 0 <= aget (t_curr_window_cpu t) i < 2 ^ 32;
  ar_prev : forall i, 0 <= i -> 0 <= aget (t_prev_window_cpu t) i < 2 ^ 32
}.

(** [y'] is [y] where the CPUs of [done] gave up the busy time of the task, as
    pending subtractions. *)
Record drained (W ws : Z) (done : Z -> bool) (y y' : sys) : Prop := mk_drained {
  dr_len : length (y_wrqs y') = Z.to_nat WALT_NR_CPUS;
  dr_p : (y_p y') <| p_wts := zero_wts |> = (y_p y) <| p_wts := zero_wts |>;
  dr_wts : y_wts y' = (y_wts y) <| t_curr_window_cpu := t_curr_window_cpu (y_wts y') |>
                                <| t_prev_window_cpu := t_prev_window_cpu (y_wts y') |>;
  dr_arrays : arrays_ok (y_wts y');
  dr_curr : forall i, 0 <= i < WALT_NR_CPUS -> aget (t_curr_window_cpu (y_wts y')) i =
    if done i then 0 else aget (t_curr_window_cpu (y_wts y)) i;
  dr_prev : forall i, 0 <= i < WALT_NR_CPUS -> aget (t_prev_window_cpu (y_wts y')) i =
    if done i then 0 else aget (t_prev_window_cpu (y_wts y)) i;
  dr_wrq : forall i, 0 <= i < WALT_NR_CPUS -> cpu_wrq y' i =
    if done i then (cpu_wrq y i) <| w_load_subs := w_load_subs (cpu_wrq y' i) |> else cpu_wrq y i;
  dr_net : forall i x, 0 <= i < WALT_NR_CPUS -> tracked_window W ws x ->
    net W y' i x = net W y i x;
  dr_rest : y_rqs y' = y_rqs y /\ y_lastq y' = y_lastq y /\ y_log y' = y_log y
}.

Lemma drained_refl W ws y : length (y_wrqs y) = Z.to_nat WALT_NR_CPUS -> arrays_ok (y_wts y) ->
  drained W ws (fun _ => false) y y.
Proof. intros Hl Ha. split; try done. by destruct (y_wts y). Qed.

Lemma zero_at_arrays i t : 0 <= i < WALT_NR_CPUS -> arrays_ok t ->
  arrays_ok (zero_at i t) /\
  forall j, 0 <= j ->
    aget (t_curr_window_cpu (zero_at i t)) j = (if i =? j then 0 else aget (t_curr_window_cpu t) j) /\
    aget (t_prev_window_cpu (zero_at i t)) j = (if i =? j then 0 else aget (t_prev_window_cpu t) j).
Proof.
  unfold WALT_NR_CPUS. intros Hi [H1 H2 H3 H4]. 
  assert (forall l j, length l = Z.to_nat WALT_NR_CPUS -> 0 <= j ->
    aget (aset l i 0) j = if i =? j then 0 else aget l j) as Ha.
  { intros l j Hl Hj. apply aget_aset; unfold WALT_NR_CPUS in *; lia. }
  split; [split; cbn; rewrite ?length_aset; try done|].
  - intros j Hj. rewrite Ha by done. specialize (H3 j Hj). case_if; lia.
  - intros j Hj. rewrite Ha by done. specialize (H4 j Hj). case_if; lia.
  - intros j Hj. cbn. by rewrite !Ha.
Qed.

(** One more sibling. *)
Lemma drained_step W ws new_task done_ i y y' :
  drained W ws done_ y y' -> 0 <= i < WALT_NR_CPUS -> done_ i = false ->
  subs_ok W ws (cpu_wrq y i) -> t_window_start (y_wts y) = ws ->
  0 < ws - W -> 0 < W -> ws < U64_MAX ->
  drained W ws (fun j => (j =? i) || done_ j) y (subtract_sibling ws (ws - W) new_task i y').
Proof.
  intros [D1 D2 D3 D4 D5 D6 D7 D8 D9] Hi Hn Hs Ht Hp HW Hws.
  destruct (subtract_sibling_eq ws (ws - W) new_task i y') as (S1 & S2 & S3 & S4 & S5 & S6); [lia|done..|].
  destruct (zero_at_arrays i (y_wts y') Hi D4) as [Z1 Z2].
  pose proof (ar_curr _ D4 i ltac:(lia)) as Hc. pose proof (ar_prev _ D4 i ltac:(lia)) as Hb.
  pose proof (D7 i Hi) as D7i. rewrite Hn in D7i.
  set (y2 := subtract_sibling ws (ws - W) new_task i y') in *.
  assert (y_wts y2 = zero_at i (y_wts y')) as T2 by (unfold y_wts at 1; by rewrite S1).
  pose proof (S6 i ltac:(lia)) as S6i. rewrite Z.eqb_refl, D7i in S6i.
  destruct (pend_both W ws _ _ new_task (cpu_wrq y i) Hs Hp HW Hws Hc Hb) as (P1 & P2 & P3).
  rewrite <-S6i in P1, P2, P3. clearbody y2.
  split; try done.
  - rewrite S1. exact D2.
  - rewrite T2. unfold zero_at. rewrite D3. done.
  - by rewrite T2.
  - intros j Hj. rewrite T2, (proj1 (Z2 j ltac:(lia))), (Z.eqb_sym i j), D5 by done.
    by destruct (j =? i).
  - intros j Hj. rewrite T2, (proj2 (Z2 j ltac:(lia))), (Z.eqb_sym i j), D6 by done.
    by destruct (j =? i).
  - intros j Hj. destruct (Z.eqb_spec j i) as [->|Hne]; cbn [orb]; [exact P3|].
    rewrite S6, (proj2 (Z.eqb_neq j i)) by lia. by apply D7.
  - intros j x Hj Hx. rewrite <-D8 by done. unfold net.
    assert (t_window_start (y_wts y') = ws) as Ht' by (rewrite D3; exact Ht).
    assert (t_window_start (y_wts y2) = ws) as Ht2 by (rewrite T2; exact Ht').
    unfold contrib. rewrite Ht', Ht2, T2, (proj1 (Z2 j ltac:(lia))), (proj2 (Z2 j ltac:(lia))).
    destruct (Z.eqb_spec i j) as [<-|Hne].
    + rewrite D7i. assert (counter W (cpu_wrq y2 i) x = counter W (cpu_wrq y i) x) as ->
        by (rewrite P3; done).
      destruct Hx as [-> | ->].
      * rewrite !Z.eqb_refl. lia.
      * rewrite (proj2 (Z.eqb_neq (ws - W) ws)), Z.eqb_refl by lia. lia.
    + rewrite S6, (proj2 (Z.eqb_neq j i)) by lia. done.
  - destruct D9 as (R1 & R2 & R3). by rewrite S2, S3, S4.
Qed.

(** The CPUs below [k] of a mask. *)
Definition below (k m i : Z) : bool := (i <? k) && Z.testbit m i.

Lemma drained_ext W ws d d' y y' : (forall i, 0 <= i < WALT_NR_CPUS -> d i = d' i) ->
  drained W ws d y y' -> drained W ws d' y y'.
Proof.
  intros H [D1 D2 D3 D4 D5 D6 D7 D8 D9].
  split; try done; intros i Hi; rewrite <-H by done; [by apply D5|by apply D6|by apply D7].
Qed.

Lemma update_cluster_load_subtractions_drained c cpu ws W new_task y :
  nr_cpu_ids c = WALT_NR_CPUS -> 0 <= cpu < WALT_NR_CPUS ->
  length (y_wrqs y) = Z.to_nat WALT_NR_CPUS -> arrays_ok (y_wts y) ->
  w_prev_window_size (cpu_wrq y cpu) = W -> t_window_start (y_wts y) = ws ->
  0 < ws - W -> 0 < W -> ws < U64_MAX ->
  let m := Z.clearbit (c_cpus (cluster_of c (cpu_wrq y cpu))) cpu in
  (forall i, 0 <= i < WALT_NR_CPUS -> Z.testbit m i = true -> subs_ok W ws (cpu_wrq y i)) ->
  drained W ws (Z.testbit m) y (update_cluster_load_subtractions c cpu ws new_task y).
Proof.
  intros Hn Hcpu Hl Ha HWs Ht Hp HW Hws m Hs. unfold update_cluster_load_subtractions. fold m.
  rewrite Hn, HWs. rewrite u64_small by (unfold U64_MAX in *; lia).
  pose proof (for_range_ind (fun k y' => drained W ws (below k m) y y') 0 (Z.to_nat WALT_NR_CPUS)
    (fun i y => if Z.testbit m i then subtract_sibling ws (ws - W) new_task i y else y) y) as H.
  eapply drained_ext; [|apply H].
  - intros i Hi. unfold below. unfold WALT_NR_CPUS in *. rewrite (proj2 (Z.ltb_lt _ _)); [done|lia].
  - eapply drained_ext; [|by apply drained_refl]. intros i Hi. unfold below.
    by rewrite (proj2 (Z.ltb_ge _ _)) by lia.
  - intros i y' Hi Hd. unfold WALT_NR_CPUS in *.
    assert (forall b, (forall j, 0 <= j < 8 -> b j = (j =? i) && Z.testbit m i || below i m j) ->
      forall j, 0 <= j < 8 -> b j = below (i + 1) m j) as Hb.
    { intros b Hbj j Hj. rewrite Hbj by done. unfold below.
      destruct (Z.eqb_spec j i) as [->|]; cbn [andb orb].
      - rewrite (proj2 (Z.ltb_ge i i)), (proj2 (Z.ltb_lt i (i + 1))) by lia. by destruct (Z.testbit m i).
      - destruct (Z.ltb_spec j i), (Z.ltb_spec j (i + 1)); done || lia. }
    destruct (Z.testbit m i) eqn:Em.
    + eapply drained_ext; [|apply (drained_step W ws new_task (below i m)); try done].
      * apply Hb. intros j Hj. by rewrite andb_true_r.
      * unfold below. by rewrite (proj2 (Z.ltb_ge i i)) by lia.
      * apply Hs; [unfold WALT_NR_CPUS; lia|done].
    + eapply drained_ext; [|exact Hd]. apply Hb. intros j Hj. by rewrite andb_false_r.
Qed.

(** ** Leaving a cluster *)

(** The task gave up its busy time on the CPUs of [m], and on the other CPUs the
    accounts are what they were. *)
Record left_cluster (W ws : Z) (m : Z -> bool) (y y' : sys) : Prop := mk_left_cluster {
  lc_len : length (y_wrqs y') = Z.to_nat WALT_NR_CPUS;
  lc_p : (y_p y') <| p_wts := zero_wts |> = (y_p y) <| p_wts := zero_wts |>;
  lc_wts : y_wts y' = (y_wts y) <| t_curr_window_cpu := t_curr_window_cpu (y_wts y') |>
                                <| t_prev_window_cpu := t_prev_window_cpu (y_wts y') |>;
  lc_arrays : arrays_ok (y_wts y');
  lc_curr : forall i, 0 <= i < WALT_NR_CPUS -> aget (t_curr_window_cpu (y_wts y')) i =
    if m i then 0 else aget (t_curr_window_cpu (y_wts y)) i;
  lc_prev : forall i, 0 <= i < WALT_NR_CPUS -> aget (t_prev_window_cpu (y_wts y')) i =
    if m i then 0 else aget (t_prev_window_cpu (y_wts y)) i;
  lc_net : forall i x, 0 <= i < WALT_NR_CPUS -> tracked_window W ws x ->
    net W y' i x = net W y i x;
  lc_log : y_log y' = y_log y
}.

(** The task's own CPU: the counters cover the busy time of the task. *)
Record covered (cpu : Z) (new_task : bool) (y : sys) : Prop := mk_covered {
  cv_curr : aget (t_curr_window_cpu (y_wts y)) cpu <= g_curr_runnable_sum (w_rq_time (cpu_wrq y cpu));
  cv_prev : aget (t_prev_window_cpu (y_wts y)) cpu <= g_prev_runnable_sum (w_rq_time (cpu_wrq y cpu));
  cv_new : new_task = true ->
    aget (t_curr_window_cpu (y_wts y)) cpu <= g_nt_curr_runnable_sum (w_rq_time (cpu_wrq y cpu)) /\
    aget (t_prev_window_cpu (y_wts y)) cpu <= g_nt_prev_runnable_sum (w_rq_time (cpu_wrq y cpu))
}.

(** The first half of [migrate_inter_cluster_subtraction]. *)
Lemma own_subtraction cpu (new_task : bool) y :
  covered cpu new_task y ->
  let curr := aget (t_curr_window_cpu (y_wts y)) cpu in
  let prev := aget (t_prev_window_cpu (y_wts y)) cpu in
  forall c, migrate_inter_cluster_subtraction c cpu new_task y =
    let y0 := on_y_wts (zero_at cpu) (on_cpu_wrq cpu (on_rq_time (fun g =>
      mk_gct (g_curr_runnable_sum g - curr) (g_prev_runnable_sum g - prev)
        (g_nt_curr_runnable_sum g - if new_task then curr else 0)
        (g_nt_prev_runnable_sum g - if new_task then prev else 0))) y) in
    update_cluster_load_subtractions c cpu (w_window_start (cpu_wrq y0 cpu)) new_task y0.
Proof.
  intros [H1 H2 H3] curr prev c. unfold migrate_inter_cluster_subtraction.
  fold curr in H1, H3 |- *. fold prev in H2, H3 |- *.
  unfold y_emit_if. rewrite (proj2 (Z.ltb_ge _ _) H1), (proj2 (Z.ltb_ge _ _) H2).
  assert (new_task && (g_nt_curr_runnable_sum (w_rq_time (cpu_wrq y cpu)) <? curr) = false /\
    new_task && (g_nt_prev_runnable_sum (w_rq_time (cpu_wrq y cpu)) <? prev) = false) as [-> ->].
  { destruct new_task; [|done]. destruct H3 as [? ?]; [done|]. split; cbn [andb]; lia. }
  cbv zeta. cbn iota.
  match goal with |- update_cluster_load_subtractions _ _ (_ (_ ?a _)) _ ?a =
    update_cluster_load_subtractions _ _ (_ (_ ?b _)) _ ?b => replace a with b; [done|] end.
  unfold on_y_wts, on_cpu_wrq, on_rq_time. cbn. rewrite !sub_clamp_exact by done.
  destruct new_task; [|by rewrite !Z.sub_0_r]. destruct H3 as [? ?]; [done|].
  by rewrite !sub_clamp_exact by done.
Qed.

(** The task leaves its own CPU. *)
Definition off_own (cpu : Z) (new_task : bool) (y : sys) : sys :=
  let curr := aget (t_curr_window_cpu (y_wts y)) cpu in
  let prev := aget (t_prev_window_cpu (y_wts y)) cpu in
  on_y_wts (zero_at cpu) (on_cpu_wrq cpu (on_rq_time (fun g =>
    mk_gct (g_curr_runnable_sum g - curr) (g_prev_runnable_sum g - prev)
      (g_nt_curr_runnable_sum g - if new_task then curr else 0)
      (g_nt_prev_runnable_sum g - if new_task then prev else 0))) y).

Lemma off_own_wrq cpu new_task y i :
  length (y_wrqs y) = Z.to_nat WALT_NR_CPUS -> 0 <= cpu < WALT_NR_CPUS -> 0 <= i ->
  i <> cpu -> cpu_wrq (off_own cpu new_task y) i = cpu_wrq y i.
Proof.
  intros Hl Hc Hi Hne. unfold off_own. change (cpu_wrq (on_y_wts _ ?z) i) with (cpu_wrq z i).
  unfold on_cpu_wrq. rewrite cpu_wrq_set by done. by rewrite (proj2 (Z.eqb_neq _ _)).
Qed.

Lemma off_own_own cpu new_task y :
  length (y_wrqs y) = Z.to_nat WALT_NR_CPUS -> 0 <= cpu < WALT_NR_CPUS ->
  cpu_wrq (off_own cpu new_task y) cpu = (cpu_wrq y cpu) <| w_rq_time :=
    w_rq_time (cpu_wrq (off_own cpu new_task y) cpu) |> /\
  g_curr_runnable_sum (w_rq_time (cpu_wrq (off_own cpu new_task y) cpu)) =
    g_curr_runnable_sum (w_rq_time (cpu_wrq y cpu)) - aget (t_curr_window_cpu (y_wts y)) cpu /\
  g_prev_runnable_sum (w_rq_time (cpu_wrq (off_own cpu new_task y) cpu)) =
    g_prev_runnable_sum (w_rq_time (cpu_wrq y cpu)) - aget (t_prev_window_cpu (y_wts y)) cpu.
Proof.
  intros Hl Hc. unfold off_own. change (cpu_wrq (on_y_wts _ ?z) cpu) with (cpu_wrq z cpu).
  unfold on_cpu_wrq. rewrite cpu_wrq_set, Z.eqb_refl by (done || lia). done.
Qed.

Lemma off_own_net W ws cpu new_task y i x :
  length (y_wrqs y) = Z.to_nat WALT_NR_CPUS -> 0 <= cpu < WALT_NR_CPUS -> arrays_ok (y_wts y) ->
  w_window_start (cpu_wrq y cpu) = ws -> t_window_start (y_wts y) = ws -> 0 < W ->
  0 <= i < WALT_NR_CPUS -> tracked_window W ws x ->
  net W (off_own cpu new_task y) i x = net W y i x.
Proof.
  intros Hl Hc Ha Hws Ht HW Hi Hx. destruct (zero_at_arrays cpu (y_wts y) Hc Ha) as [_ Z2].
  destruct (Z2 i ltac:(lia)) as [Z3 Z4].
  assert (y_wts (off_own cpu new_task y) = zero_at cpu (y_wts y)) as T by done.
  unfold net, contrib. rewrite T. change (t_window_start (zero_at cpu (y_wts y))) with (t_window_start (y_wts y)).
  rewrite Z3, Z4, Ht. destruct (Z.eqb_spec cpu i) as [<-|Hne].
  - destruct (off_own_own cpu new_task y Hl Hc) as (O1 & O2 & O3).
    assert (LoadSubs.pending (cpu_wrq (off_own cpu new_task y) cpu) x =
            LoadSubs.pending (cpu_wrq y cpu) x) as -> by (rewrite O1; done).
    unfold counter, at_window. assert (w_window_start (cpu_wrq (off_own cpu new_task y) cpu) = ws) as ->
      by (rewrite O1; done). rewrite O2, O3, Hws.
    destruct Hx as [-> | ->].
    + rewrite Z.eqb_refl. lia.
    + rewrite (proj2 (Z.eqb_neq (ws - W) ws)), Z.eqb_refl by lia. lia.
  - rewrite off_own_wrq by (done || lia). done.
Qed.

Lemma migrate_inter_cluster_subtraction_left c cpu ws W new_task y :
  nr_cpu_ids c = WALT_NR_CPUS -> 0 <= cpu < WALT_NR_CPUS ->
  length (y_wrqs y) = Z.to_nat WALT_NR_CPUS -> arrays_ok (y_wts y) ->
  w_prev_window_size (cpu_wrq y cpu) = W -> w_window_start (cpu_wrq y cpu) = ws ->
  t_window_start (y_wts y) = ws -> 0 < ws - W -> 0 < W -> ws < U64_MAX ->
  covered cpu new_task y ->
  let m := Z.clearbit (c_cpus (cluster_of c (cpu_wrq y cpu))) cpu in
  (forall i, 0 <= i < WALT_NR_CPUS -> Z.testbit m i = true -> subs_ok W ws (cpu_wrq y i)) ->
  left_cluster W ws (fun i => (i =? cpu) || Z.testbit m i) y
    (migrate_inter_cluster_subtraction c cpu new_task y).
Proof.
  intros Hn Hcpu Hl Ha HWs Hws Ht Hp HW Hu Hcov m Hs.
  rewrite (own_subtraction cpu new_task y Hcov c). cbv zeta.
  match goal with |- context [update_cluster_load_subtractions _ _ _ _ ?z] =>
    change z with (off_own cpu new_task y) end.
  destruct (off_own_own cpu new_task y Hl Hcpu) as (O1 & _).
  destruct (zero_at_arrays cpu (y_wts y) Hcpu Ha) as [Z1 Z2].
  assert (w_window_start (cpu_wrq (off_own cpu new_task y) cpu) = ws) as -> by (rewrite O1; done).
  assert (w_cluster (cpu_wrq (off_own cpu new_task y) cpu) = w_cluster (cpu_wrq y cpu)) as Hcl
    by (rewrite O1; done).
  assert (Z.testbit m cpu = false) as Hmc by (apply Z.clearbit_eq).
  assert (Z.clearbit (c_cpus (cluster_of c (cpu_wrq (off_own cpu new_task y) cpu))) cpu = m) as Em
    by (unfold cluster_of, m in *; by rewrite Hcl).
  destruct (update_cluster_load_subtractions_drained c cpu ws W new_task (off_own cpu new_task y))
    as [D1 D2 D3 D4 D5 D6 D7 D8 D9]; try done.
  - unfold off_own. cbn. by rewrite length_insert.
  - rewrite O1. done.
  - rewrite Em. intros i Hi Hm. rewrite off_own_wrq; [by apply Hs|done|done|lia|]. intros ->. congruence.
  - rewrite Em in *.
    assert (y_wts (off_own cpu new_task y) = zero_at cpu (y_wts y)) as T by done.
    split; try done.
    + intros i Hi. rewrite D5, T, (proj1 (Z2 i ltac:(lia))), (Z.eqb_sym cpu i) by done.
      by destruct (i =? cpu), (Z.testbit m i).
    + intros i Hi. rewrite D6, T, (proj2 (Z2 i ltac:(lia))), (Z.eqb_sym cpu i) by done.
      by destruct (i =? cpu), (Z.testbit m i).
    + intros i x Hi Hx. rewrite D8 by done. by apply (off_own_net W ws).
    + destruct D9 as (_ & _ & ->). done.
Qed.

(** ** Updates of the task on one of the run queues *)

Lemma update_task_ravg_on_updated c W cpu event wallclock y :
  length (y_wrqs y) = Z.to_nat WALT_NR_CPUS -> 0 <= cpu < WALT_NR_CPUS ->
  ravg_ok c W wallclock (focus cpu y) ->
  0 <= w_task_exec_scale (a_wrq (measured c event wallclock 0 (focus cpu y))) <= 1024 ->
  let y' := update_task_ravg_on c cpu event wallclock y in
  updated c W event wallclock 0 (focus cpu y) (focus cpu y') /\
  length (y_wrqs y') = Z.to_nat WALT_NR_CPUS /\ y_rqs y' = y_rqs y /\
  (forall i, 0 <= i -> i <> cpu -> cpu_wrq y' i = cpu_wrq y i).
Proof.
  intros Hl Hc Hok Hx. cbv zeta. unfold update_task_ravg_on.
  pose proof (walt_update_task_ravg_updated c W (w_prev_window_size (cpu_wrq y (p_cpu (y_p y))))
    event wallclock 0 (y_lastq y) (focus cpu y) Hok Hx) as Hu.
  destruct (walt_update_task_ravg _ _ _ _ _ _ _) as [s q]. cbn [fst] in Hu.
  assert (focus cpu ((unfocus cpu s y) <| y_lastq := q |>) = s) as ->.
  { pose proof (up_rq _ _ _ _ _ _ _ Hu) as Hr. unfold focus.
    change (cpu_wrq ((unfocus cpu s y) <| y_lastq := q |>) cpu) with (cpu_wrq (unfocus cpu s y) cpu).
    unfold unfocus. rewrite cpu_wrq_set, Z.eqb_refl by (done || lia). destruct s; cbn in *.
    by rewrite Hr. }
  split; [done|]. split; [unfold unfocus; cbn; by rewrite length_insert|]. split; [done|].
  intros i Hi Hne. change (cpu_wrq ((unfocus cpu s y) <| y_lastq := q |>) i)
    with (cpu_wrq (unfocus cpu s y) i).
  unfold unfocus. rewrite cpu_wrq_set by done. by rewrite (proj2 (Z.eqb_neq _ _)).
Qed.

(** The counters of an updated run queue are the old ones plus the charge. *)
Lemma updated_counter c W event wallclock irqtime s s' x :
  updated c W event wallclock irqtime s s' -> t_grp (wts_of s) = None -> 0 < W ->
  0 <= Windows.elapsed c wallclock s -> w_window_start (a_wrq s') - W <= x ->
  let dc := busy_curr c wallclock irqtime event (measured c event wallclock irqtime s) in
  let dp := busy_prev c W irqtime event (measured c event wallclock irqtime s) in
  let n := Z.b2z (is_new_task (wts_of s')) in
  counter W (a_wrq s') x =
    counter W (a_wrq s) x + at_window W (w_window_start (a_wrq s')) dc dp x /\
  nt_counter W (a_wrq s') x =
    nt_counter W (a_wrq s) x + at_window W (w_window_start (a_wrq s')) (n * dc) (n * dp) x.
Proof.
  intros [U1 _ _ _ _ _ U7 U8 _ _ _ _ U13 _ _ _ _ _ _ U9 U10] Hg HW He Hx. cbv zeta.
  unfold own_time, task_in_related_thread_group in U7, U8, U9, U10.
  rewrite U13, Hg in U7, U8, U9, U10.
  unfold counter, nt_counter. rewrite U7, U8, U9, U10. clear U7 U8 U9 U10 U13.
  set (e := Windows.elapsed c wallclock s) in *. rewrite U1 in *.
  rewrite <-!at_window_rolled by done. unfold Windows.rolled. fold e.
  destruct (e =? 0), (e =? 1); done.
Qed.

(** So an update leaves what every CPU accounts for beyond the task. *)
Lemma update_task_ravg_on_net c W cpu event wallclock y y' i x :
  updated c W event wallclock 0 (focus cpu y) (focus cpu y') ->
  (forall i, 0 <= i -> i <> cpu -> cpu_wrq y' i = cpu_wrq y i) ->
  rq_cpu (cpu_rq y cpu) = cpu -> t_grp (y_wts y) = None -> 0 < W ->
  0 <= Windows.elapsed c wallclock (focus cpu y) ->
  0 <= i < WALT_NR_CPUS -> w_window_start (cpu_wrq y' cpu) - W <= x ->
  net W y' i x = net W y i x.
Proof.
  intros Hu Ho Hr Hg HW He Hi Hx. unfold net.
  pose proof (up_contrib _ _ _ _ _ _ _ Hu i x Hi Hx) as Hc. cbn in Hc. rewrite Hr in Hc.
  unfold y_wts. rewrite Hc. destruct (Z.eqb_spec i cpu) as [->|Hne]; [|rewrite Ho by lia; lia].
  pose proof (updated_counter c W event wallclock 0 (focus cpu y) (focus cpu y') x Hu Hg HW He Hx)
    as [Hn _]. cbn in Hn. rewrite Hn. unfold at_window.
  pose proof (up_subs _ _ _ _ _ _ _ Hu) as Hs. cbn in Hs. unfold LoadSubs.pending. rewrite Hs. lia.
Qed.

(** ** A migration to another frequency domain *)

(** The task as the migration marks it. *)
Definition flagged (new_cpu : Z) (y : sys) : sys :=
  on_y_wts (fun t => t <| t_new_cpu := new_cpu |> <| t_enqueue_after_migration := 2 |>) y.

(** A runnable task outside any group leaves its CPU for another frequency domain
    for the first time since it was queued; every CPU's counters cover the busy
    time of the task. *)
Record migrating (c : walt_cfg) (W wallclock new_cpu : Z) (y : sys) : Prop := mk_migrating {
  mg_len : length (y_wrqs y) = Z.to_nat WALT_NR_CPUS;
  mg_src : 0 <= p_cpu (y_p y) < WALT_NR_CPUS;
  mg_rq : rq_cpu (cpu_rq y (p_cpu (y_p y))) = p_cpu (y_p y);
  mg_queued : p_on_rq (y_p y) <> 0;
  mg_first : t_enqueue_after_migration (y_wts y) = 0;
  mg_far : same_freq_domain y (p_cpu (y_p y)) new_cpu = false;
  mg_grp : t_grp (y_wts y) = None;
  mg_ravg : ravg_ok c W wallclock (focus (p_cpu (y_p y)) (flagged new_cpu y));
  mg_scale : 0 <= w_task_exec_scale
    (a_wrq (measured c TASK_MIGRATE wallclock 0 (focus (p_cpu (y_p y)) (flagged new_cpu y)))) <= 1024;
  mg_late : W < w_window_start (cpu_wrq y (p_cpu (y_p y)));
  mg_covered : forall x, contrib W (y_wts y) (p_cpu (y_p y)) x <=
    counter W (cpu_wrq y (p_cpu (y_p y))) x;
  mg_covered_new : forall x, is_new_task (y_wts y) = true ->
    contrib W (y_wts y) (p_cpu (y_p y)) x <= nt_counter W (cpu_wrq y (p_cpu (y_p y))) x;
  mg_siblings : forall i, 0 <= i < WALT_NR_CPUS ->
    Z.testbit (c_cpus (cluster_of c (cpu_wrq y (p_cpu (y_p y))))) i = true ->
    subs_ok W (w_window_start (cpu_wrq y (p_cpu (y_p y))) +
               Windows.elapsed c wallclock (focus (p_cpu (y_p y)) y) * W) (cpu_wrq y i)
}.


(** What the net amounts depend on. *)
Definition same_time (w w' : walt_rq) : Prop :=
  w_window_start w' = w_window_start w /\ w_rq_time w' = w_rq_time w /\ w_load_subs w' = w_load_subs w.
Definition same_busy (t t' : walt_task_struct) : Prop :=
  t_window_start t' = t_window_start t /\ t_curr_window_cpu t' = t_curr_window_cpu t /\
  t_prev_window_cpu t' = t_prev_window_cpu t.

Lemma net_ext W y y' i x :
  same_time (cpu_wrq y i) (cpu_wrq y' i) -> same_busy (y_wts y) (y_wts y') ->
  net W y' i x = net W y i x.
Proof.
  intros (H1 & H2 & H3) (H4 & H5 & H6). unfold net, counter, contrib, LoadSubs.pending.
  by rewrite H1, H2, H3, H4, H5, H6.
Qed.

(** A change of a run queue outside its time accounts. *)
Lemma on_cpu_wrq_same cpu f y i :
  length (y_wrqs y) = Z.to_nat WALT_NR_CPUS -> 0 <= cpu < WALT_NR_CPUS -> 0 <= i ->
  same_time (cpu_wrq y cpu) (f (cpu_wrq y cpu)) ->
  same_time (cpu_wrq y i) (cpu_wrq (on_cpu_wrq cpu f y) i).
Proof.
  intros Hl Hc Hi Hf. unfold on_cpu_wrq. rewrite cpu_wrq_set by done.
  destruct (Z.eqb_spec i cpu) as [->|]; done.
Qed.

Lemma same_time_trans w w' w'' : same_time w w' -> same_time w' w'' -> same_time w w''.
Proof. unfold same_time. intros (? & ? & ?) (? & ? & ?). repeat split; congruence. Qed.

Lemma leave_src_spec c y :
  length (y_wrqs y) = Z.to_nat WALT_NR_CPUS -> 0 <= p_cpu (y_p y) < WALT_NR_CPUS ->
  let y' := leave_src c y in
  y_wts y' = (y_wts y) <| t_prev_cpu := p_cpu (y_p y) |> /\ y_log y' = y_log y /\
  length (y_wrqs y') = Z.to_nat WALT_NR_CPUS /\
  forall i, 0 <= i -> same_time (cpu_wrq y i) (cpu_wrq y' i).
Proof.
  intros Hl Hs. cbv zeta. unfold leave_src. case_if.
  - split; [done|]. split; [done|]. split; [unfold on_cpu_wrq; cbn; by rewrite length_insert|].
    intros i Hi. by apply on_cpu_wrq_same.
  - done.
Qed.

(** The update that precedes the subtraction. *)
Definition before_leaving (c : walt_cfg) (new_cpu wallclock : Z) (y : sys) : sys :=
  update_task_ravg_on c (p_cpu (y_p y)) TASK_MIGRATE wallclock (flagged new_cpu y).

Lemma migrating_updated c W wallclock new_cpu y : migrating c W wallclock new_cpu y ->
  let src := p_cpu (y_p y) in let y1 := before_leaving c new_cpu wallclock y in
  updated c W TASK_MIGRATE wallclock 0 (focus src (flagged new_cpu y)) (focus src y1) /\
  length (y_wrqs y1) = Z.to_nat WALT_NR_CPUS /\ p_cpu (y_p y1) = src /\
  (forall i, 0 <= i -> i <> src -> cpu_wrq y1 i = cpu_wrq y i) /\
  (forall i x, 0 <= i < WALT_NR_CPUS -> w_window_start (cpu_wrq y1 src) - W <= x ->
     net W y1 i x = net W y i x).
Proof.
  intros Hm. cbv zeta. pose proof (mg_src _ _ _ _ _ Hm) as Hs. pose proof (mg_ravg _ _ _ _ _ Hm) as Hr.
  destruct (update_task_ravg_on_updated c W (p_cpu (y_p y)) TASK_MIGRATE wallclock (flagged new_cpu y))
    as (U & L & R & O); [apply Hm|done|done|apply Hm|].
  fold (before_leaving c new_cpu wallclock y) in U, L, R, O.
  split; [done|]. split; [done|].
  split; [exact (f_equal p_cpu (up_p _ _ _ _ _ _ _ U))|]. split; [exact O|].
  intros i x Hi Hx.
  pose proof (Windows.elapsed_spec _ _ _ (rk_clock _ _ _ _ Hr)) as [He _].
  pose proof (ck_window _ _ (rk_cfg _ _ _ _ Hr)) as HW.
  etransitivity; [apply (update_task_ravg_on_net c W (p_cpu (y_p y)) TASK_MIGRATE wallclock
    (flagged new_cpu y)); try done; try lia; apply Hm|].
  by apply net_ext.
Qed.

Lemma task_arrays_ok c W t : cfg_ok c W -> task_ok c W t -> arrays_ok t.
Proof.
  intros [_ HW] Ht. pose proof (tk_mark _ _ _ Ht). pose proof (tk_curr _ _ _ Ht).
  pose proof (tk_prev _ _ _ Ht). pose proof (tk_curr_sum _ _ _ Ht). pose proof (tk_prev_sum _ _ _ Ht).
  split; [apply Ht|apply Ht| |]; intros i _.
  - pose proof (asum_bound _ i (tk_curr_pos _ _ _ Ht)).
    pose proof (aget_nonneg _ i (tk_curr_pos _ _ _ Ht)). lia.
  - pose proof (asum_bound _ i (tk_prev_pos _ _ _ Ht)).
    pose proof (aget_nonneg _ i (tk_prev_pos _ _ _ Ht)). lia.
Qed.

Lemma contrib_curr W t i : contrib W t i (t_window_start t) = aget (t_curr_window_cpu t) i.
Proof. unfold contrib. by rewrite Z.eqb_refl. Qed.

Lemma contrib_prev W t i : 0 < W ->
  contrib W t i (t_window_start t - W) = aget (t_prev_window_cpu t) i.
Proof.
  intros HW. unfold contrib. by rewrite (proj2 (Z.eqb_neq _ (t_window_start t))), Z.eqb_refl by lia.
Qed.

(** The counters still cover the busy time of the task after the update. *)
Lemma migrating_covered c W wallclock new_cpu y : migrating c W wallclock new_cpu y ->
  let y1 := before_leaving c new_cpu wallclock y in
  covered (p_cpu (y_p y)) (is_new_task (y_wts y1)) y1.
Proof.
  intros Hm. cbv zeta. destruct (migrating_updated _ _ _ _ _ Hm) as (U & _ & _ & _ & _).
  set (src := p_cpu (y_p y)) in *. set (y1 := before_leaving c new_cpu wallclock y) in *.
  pose proof (mg_src _ _ _ _ _ Hm) as Hs. pose proof (mg_ravg _ _ _ _ _ Hm) as Hr.
  pose proof (Windows.elapsed_spec _ _ _ (rk_clock _ _ _ _ Hr)) as [He _].
  pose proof (ck_window _ _ (rk_cfg _ _ _ _ Hr)) as HW.
  pose proof (up_task_start _ _ _ _ _ _ _ U) as Ut. cbn in Ut. fold (y_wts y1) in Ut.
  pose proof (mg_rq _ _ _ _ _ Hm) as Hq. fold src in Hq.
  assert (forall x, w_window_start (cpu_wrq y1 src) - W <= x ->
    contrib W (y_wts y1) src x <= counter W (cpu_wrq y1 src) x /\
    (is_new_task (y_wts y1) = true -> contrib W (y_wts y1) src x <= nt_counter W (cpu_wrq y1 src) x))
    as Hx.
  { intros x Hx. destruct (updated_counter c W TASK_MIGRATE wallclock 0 _ _ x U) as [C1 C2];
      [apply Hm|lia|apply He|done|].
    pose proof (up_contrib _ _ _ _ _ _ _ U src x Hs Hx) as C3.
    set (dc := busy_curr _ _ _ _ _) in *. set (dp := busy_prev _ _ _ _ _) in *.
    assert (contrib W (y_wts y1) src x = contrib W (y_wts y) src x +
      at_window W (w_window_start (cpu_wrq y1 src)) dc dp x) as C4.
    { etransitivity; [exact C3|].
      change (rq_cpu (a_rq (focus src (flagged new_cpu y)))) with (rq_cpu (cpu_rq y src)).
      by rewrite Hq, Z.eqb_refl. }
    change (a_wrq (focus src y1)) with (cpu_wrq y1 src) in C1, C2.
    change (a_wrq (focus src (flagged new_cpu y))) with (cpu_wrq y src) in C1, C2.
    change (wts_of (focus src y1)) with (y_wts y1) in C2. clear C3. clearbody dc dp.
    pose proof (mg_covered _ _ _ _ _ Hm x). pose proof (mg_covered_new _ _ _ _ _ Hm x) as Hn.
    fold src in H, Hn. split; [lia|]. intros Hnew. rewrite Hnew in C2. cbn [Z.b2z] in C2.
    rewrite !Z.mul_1_l in C2. destruct (is_new_task (y_wts y)) eqn:En; [specialize (Hn eq_refl); lia|].
    pose proof (up_new _ _ _ _ _ _ _ U En) as Un. unfold y_wts in Hnew. cbn in Un. congruence. }
  rewrite <-Ut in Hx.
  destruct (Hx (t_window_start (y_wts y1)) ltac:(lia)) as [X1 X2].
  destruct (Hx (t_window_start (y_wts y1) - W) ltac:(lia)) as [X3 X4].
  rewrite contrib_curr in X1, X2. rewrite contrib_prev in X3, X4 by lia.
  unfold counter, nt_counter, at_window in X1, X2, X3, X4. rewrite <-Ut, Z.eqb_refl in X1, X2, X3, X4.
  rewrite (proj2 (Z.eqb_neq _ (t_window_start (y_wts y1)))) in X3, X4 by lia.
  split; [done|done|]. intros Hn. auto.
Qed.

(** The window the update moves the source to. *)
Definition arrival (c : walt_cfg) (W wallclock : Z) (y : sys) : Z :=
  w_window_start (cpu_wrq y (p_cpu (y_p y))) +
  Windows.elapsed c wallclock (focus (p_cpu (y_p y)) y) * W.

Lemma migrating_window c W wallclock new_cpu y : migrating c W wallclock new_cpu y ->
  let src := p_cpu (y_p y) in let y1 := before_leaving c new_cpu wallclock y in
  t_window_start (y_wts y1) = w_window_start (cpu_wrq y1 src) /\
  w_window_start (cpu_wrq y1 src) = arrival c W wallclock y /\
  w_window_start (cpu_wrq y1 src) <= wallclock < w_window_start (cpu_wrq y1 src) + W /\
  w_prev_window_size (cpu_wrq y1 src) = W /\ w_cluster (cpu_wrq y1 src) = w_cluster (cpu_wrq y src).
Proof.
  intros Hm. cbv zeta. destruct (migrating_updated _ _ _ _ _ Hm) as (U & _).
  split; [exact (up_task_start _ _ _ _ _ _ _ U)|]. split; [exact (up_start _ _ _ _ _ _ _ U)|].
  split; [exact (up_now _ _ _ _ _ _ _ U)|]. split; [exact (up_size _ _ _ _ _ _ _ U)|].
  exact (up_cluster _ _ _ _ _ _ _ U).
Qed.

(** The CPUs of the source cluster. *)
Definition src_cluster (c : walt_cfg) (y : sys) (i : Z) : bool :=
  (i =? p_cpu (y_p y)) || Z.testbit (c_cpus (cluster_of c (cpu_wrq y (p_cpu (y_p y))))) i.

Lemma left_cluster_ext W ws m m' y y' : (forall i, 0 <= i < WALT_NR_CPUS -> m' i = m i) ->
  left_cluster W ws m' y y' -> left_cluster W ws m y y'.
Proof.
  intros H [D1 D2 D3 D4 D5 D6 D7 D8].
  split; try done; intros i Hi; rewrite <-H by done; [by apply D5|by apply D6].
Qed.

Lemma migrating_left c W wallclock new_cpu y : migrating c W wallclock new_cpu y ->
  let y1 := before_leaving c new_cpu wallclock y in
  let y2 := on_y_wts (fun t => t <| t_cpu_cycles := walt_get_cycle_counts_cb c new_cpu wallclock |>) y1 in
  left_cluster W (t_window_start (y_wts y1)) (src_cluster c y) y2
    (migrate_inter_cluster_subtraction c (p_cpu (y_p y)) (is_new_task (y_wts y1)) y2).
Proof.
  intros Hm. cbv zeta. destruct (migrating_updated _ _ _ _ _ Hm) as (U & L & P & O & _).
  pose proof (migrating_covered _ _ _ _ _ Hm) as Hcov.
  set (src := p_cpu (y_p y)) in *. set (y1 := before_leaving c new_cpu wallclock y) in *.
  pose proof (mg_src _ _ _ _ _ Hm) as Hs. pose proof (mg_ravg _ _ _ _ _ Hm) as Hr.
  pose proof (Windows.elapsed_spec _ _ _ (rk_clock _ _ _ _ Hr)) as [He _].
  pose proof (Windows.co_clock _ _ _ (rk_clock _ _ _ _ Hr)) as Hw.
  pose proof (rk_cfg _ _ _ _ Hr) as Hcfg. pose proof (ck_window _ _ Hcfg) as HW.
  destruct (migrating_window _ _ _ _ _ Hm) as (Ut & Us & Un & Hsz & Hcl). fold src y1 in Ut, Us, Un, Hsz, Hcl.
  pose proof (mg_late _ _ _ _ _ Hm) as Hlate. fold src in Hlate.
  change (0 <= Windows.elapsed c wallclock (focus src y) < 2 ^ 31) in He.
  assert (cluster_of c (cpu_wrq y1 src) = cluster_of c (cpu_wrq y src)) as Ecl
    by (unfold cluster_of; by rewrite Hcl).
  eapply left_cluster_ext; [|apply (migrate_inter_cluster_subtraction_left c src)].
  - intros i Hi. unfold src_cluster. fold src.
    change (cpu_wrq (on_y_wts _ ?z) src) with (cpu_wrq z src). rewrite Ecl.
    destruct (Z.eqb_spec i src); [done|]. cbn [orb]. by rewrite Z.clearbit_neq by lia.
  - apply Hcfg.
  - done.
  - exact L.
  - pose proof (task_arrays_ok c W _ Hcfg (up_task _ _ _ _ _ _ _ U)) as []. by split.
  - exact Hsz.
  - by rewrite Ut.
  - done.
  - rewrite Ut, Us. unfold arrival. fold src. nia.
  - lia.
  - rewrite Ut. unfold U64_MAX. lia.
  - destruct Hcov. by split.
  - intros i Hi. change (cpu_wrq (on_y_wts _ ?z) src) with (cpu_wrq z src).
    change (cpu_wrq (on_y_wts _ ?z) i) with (cpu_wrq z i). rewrite Ecl.
    destruct (Z.eqb_spec i src) as [->|Hne]; [by rewrite Z.clearbit_eq|].
    rewrite Z.clearbit_neq by lia. intros Ht. rewrite O, Ut, Us by lia.
    by apply (mg_siblings _ _ _ _ _ Hm).
Qed.

(** The function on such a task. *)
Lemma migrate_busy_time_subtraction_eq c W wallclock new_cpu y : migrating c W wallclock new_cpu y ->
  let y1 := before_leaving c new_cpu wallclock y in
  let y2 := on_y_wts (fun t => t <| t_cpu_cycles := walt_get_cycle_counts_cb c new_cpu wallclock |>) y1 in
  let y3 := migrate_inter_cluster_subtraction c (p_cpu (y_p y)) (is_new_task (y_wts y1)) y2 in
  migrate_busy_time_subtraction c new_cpu wallclock y =
  leave_src c (on_cpu_wrq (p_cpu (y_p y)) (fun w =>
    w <| w_top := migrate_top_tasks_subtraction c (y_wts y3) (w_top w) |>) y3).
Proof.
  intros Hm. cbv zeta. unfold migrate_busy_time_subtraction.
  rewrite (proj2 (Z.eqb_neq _ 0) (mg_queued _ _ _ _ _ Hm)), (mg_first _ _ _ _ _ Hm). cbn [andb].
  change (negb (0 =? 0)) with false. cbn iota.
  rewrite (mg_far _ _ _ _ _ Hm).
  change (update_task_ravg_on _ _ _ _ _) with (before_leaving c new_cpu wallclock y).
  destruct (migrating_updated _ _ _ _ _ Hm) as (U & _).
  destruct (migrating_window _ _ _ _ _ Hm) as (Ut & _).
  set (y1 := before_leaving c new_cpu wallclock y) in *.
  set (y2 := on_y_wts _ y1).
  assert (t_window_start (y_wts y2) = w_window_start (cpu_wrq y2 (p_cpu (y_p y)))) as -> by exact Ut.
  rewrite Z.eqb_refl. cbn [negb y_emit_if].
  assert (t_grp (y_wts y2) = None) as -> by
    (etransitivity; [exact (up_grp _ _ _ _ _ _ _ U)|exact (mg_grp _ _ _ _ _ Hm)]).
  assert (t_enqueue_after_migration (y_wts y2) = 2) as -> by
    (exact (proj1 (up_migration _ _ _ _ _ _ _ U))).
  change (2 =? 2) with true. cbn iota. done.
Qed.

(** C9. A task that leaves its cluster takes its busy time out of the accounts of every
    CPU of the cluster and of no other: on every CPU, for the two windows the
    source tracks, the counter less the pending subtractions less the busy time of
    the task is what it was, the entries of the task for the cluster are zero, its
    totals travel with it, and the subtraction itself reports no inconsistency. *)
Theorem migrate_busy_time_subtraction_spec c W wallclock new_cpu y :
  migrating c W wallclock new_cpu y ->
  let ws := arrival c W wallclock y in
  let y1 := before_leaving c new_cpu wallclock y in
  let y' := migrate_busy_time_subtraction c new_cpu wallclock y in
  t_window_start (y_wts y') = ws /\
  (forall i x, 0 <= i < WALT_NR_CPUS -> tracked_window W ws x -> net W y' i x = net W y i x) /\
  (forall i, 0 <= i < WALT_NR_CPUS -> src_cluster c y i = true ->
     aget (t_curr_window_cpu (y_wts y')) i = 0 /\ aget (t_prev_window_cpu (y_wts y')) i = 0) /\
  t_curr_window (y_wts y') = t_curr_window (y_wts y1) /\
  t_prev_window (y_wts y') = t_prev_window (y_wts y1) /\
  t_enqueue_after_migration (y_wts y') = 2 /\ t_prev_cpu (y_wts y') = p_cpu (y_p y) /\
  y_log y' = y_log y1.
Proof.
  intros Hm. cbv zeta. pose proof (migrating_left _ _ _ _ _ Hm) as [L1 L2 L3 L4 L5 L6 L7 L8].
  destruct (migrating_updated _ _ _ _ _ Hm) as (U & _ & P1 & _ & N1).
  destruct (migrating_window _ _ _ _ _ Hm) as (Ut & Us & _).
  pose proof (proj1 (up_migration _ _ _ _ _ _ _ U)) as Um. pose proof (mg_src _ _ _ _ _ Hm) as Hs.
  rewrite (migrate_busy_time_subtraction_eq c W) by done.
  set (y1 := before_leaving c new_cpu wallclock y) in *.
  set (y2 := on_y_wts _ y1) in *. set (y3 := migrate_inter_cluster_subtraction _ _ _ y2) in *.
  set (y4 := on_cpu_wrq _ _ y3).
  assert (p_cpu (y_p y3) = p_cpu (y_p y)) as P3 by (rewrite <-P1; exact (f_equal p_cpu L2)).
  assert (forall i, 0 <= i -> same_time (cpu_wrq y3 i) (cpu_wrq y4 i)) as S4
    by (intros i Hi; by apply on_cpu_wrq_same).
  destruct (leave_src_spec c y4) as (Q1 & Q2 & _ & Q4);
    [unfold y4, on_cpu_wrq; cbn; by rewrite length_insert|
     change (p_cpu (y_p y4)) with (p_cpu (y_p y3)); by rewrite P3|].
  change (y_wts y4) with (y_wts y3) in Q1. change (y_log y4) with (y_log y3) in Q2.
  change (p_cpu (y_p y4)) with (p_cpu (y_p y3)) in Q1. rewrite P3 in Q1.
  assert (t_window_start (y_wts y3) = t_window_start (y_wts y1)) as T3 by (rewrite L3; done).
  rewrite Q1, Q2, <-Us, <-Ut. cbn [t_window_start].
  split; [exact T3|]. split.
  { intros i x Hi Hx. rewrite <-N1; [|done|rewrite <-Ut; destruct Hx as [-> | ->];
      pose proof (ck_window _ _ (rk_cfg _ _ _ _ (mg_ravg _ _ _ _ _ Hm))); lia].
    etransitivity; [|etransitivity; [exact (L7 i x Hi Hx)|by apply net_ext]].
    apply net_ext; [eapply same_time_trans; [apply S4|apply Q4]; lia|by rewrite Q1]. }
  split; [intros i Hi Hc; pose proof (L5 i Hi) as A1; pose proof (L6 i Hi) as A2;
    rewrite Hc in A1, A2; done|].
  split; [rewrite L3; done|]. split; [rewrite L3; done|].
  split; [rewrite L3; exact Um|]. split; [done|]. by rewrite L8.
Qed.

(** ** Arriving on another cluster *)

(** A task that is not running is not charged by an update. *)
Lemma not_running_uncharged c W wallclock s :
  ravg_ok c W wallclock s -> rq_curr (a_rq s) <> p_id (a_p s) ->
  busy_curr c wallclock 0 TASK_UPDATE (measured c TASK_UPDATE wallclock 0 s) = 0 /\
  busy_prev c W 0 TASK_UPDATE (measured c TASK_UPDATE wallclock 0 s) = 0.
Proof.
  intros Hok Hne. destruct (advanced_fields c W wallclock s Hok) as (A1 & A2 & _).
  destruct (busy_frame c W wallclock 0 TASK_UPDATE _ _
    (update_task_rq_cpu_cycles_frame c TASK_UPDATE wallclock 0 (advanced c wallclock s))) as [B1 B2].
  unfold measured. rewrite B1, B2. unfold busy_curr, busy_prev.
  assert (accounted c 0 TASK_UPDATE (rescaled (w_task_exec_scale (a_wrq
    (update_task_rq_cpu_cycles c TASK_UPDATE wallclock 0 (advanced c wallclock s))))
    (advanced c wallclock s)) = false) as ->; [|done].
  set (k := w_task_exec_scale _).
  assert (a_rq (rescaled k (advanced c wallclock s)) = a_rq s) as E1 by exact A2.
  assert (a_p (rescaled k (advanced c wallclock s)) = a_p s) as E2 by exact A1.
  unfold accounted. rewrite E1, E2. unfold account_busy_for_cpu_time.
  pose proof (rk_idle _ _ _ _ Hok) as Hi. unfold wts_of in Hi. rewrite Hi. cbn.
  rewrite (proj2 (Z.eqb_neq _ _) Hne). by case_if.
Qed.

Record arriving (c : walt_cfg) (W wallclock new_cpu : Z) (y : sys) : Prop := mk_arriving {
  ag_len : length (y_wrqs y) = Z.to_nat WALT_NR_CPUS;
  ag_dst : 0 <= new_cpu < WALT_NR_CPUS;
  ag_src : 0 <= t_prev_cpu (y_wts y) < WALT_NR_CPUS;
  ag_rq : rq_cpu (cpu_rq y new_cpu) = new_cpu;
  ag_waiting : rq_curr (cpu_rq y new_cpu) <> p_id (y_p y);
  ag_grp : t_grp (y_wts y) = None;
  ag_far : t_enqueue_after_migration (y_wts y) = 2;
  ag_ravg : ravg_ok c W wallclock (focus new_cpu y);
  ag_scale : 0 <= w_task_exec_scale
    (a_wrq (measured c TASK_UPDATE wallclock 0 (focus new_cpu y))) <= 1024;
  ag_curr : forall i, 0 <= i < WALT_NR_CPUS -> aget (t_curr_window_cpu (y_wts y)) i = 0;
  ag_prev : forall i, 0 <= i < WALT_NR_CPUS -> aget (t_prev_window_cpu (y_wts y)) i = 0
}.

Definition before_adding (c : walt_cfg) (new_cpu wallclock : Z) (y : sys) : sys :=
  update_task_ravg_on c new_cpu TASK_UPDATE wallclock y.

Definition dst_window (c : walt_cfg) (W wallclock new_cpu : Z) (y : sys) : Z :=
  w_window_start (cpu_wrq y new_cpu) + Windows.elapsed c wallclock (focus new_cpu y) * W.

Lemma all_zero (l : list Z) : length l = Z.to_nat WALT_NR_CPUS ->
  (forall i, 0 <= i < WALT_NR_CPUS -> aget l i = 0) -> l = no_windows.
Proof.
  intros Hl H. apply aget_ext; [by rewrite Hl|]. intros i Hi.
  rewrite no_windows_get. apply H. unfold WALT_NR_CPUS in *. lia.
Qed.

(** The task on the destination after the update, still accounted for nowhere. *)
Lemma arriving_updated c W wallclock new_cpu y : arriving c W wallclock new_cpu y ->
  let y1 := before_adding c new_cpu wallclock y in
  let ws := dst_window c W wallclock new_cpu y in
  updated c W TASK_UPDATE wallclock 0 (focus new_cpu y) (focus new_cpu y1) /\
  length (y_wrqs y1) = Z.to_nat WALT_NR_CPUS /\
  w_window_start (cpu_wrq y1 new_cpu) = ws /\ t_window_start (y_wts y1) = ws /\
  (forall i x, 0 <= i < WALT_NR_CPUS -> ws - W <= x -> net W y1 i x = net W y i x) /\
  t_curr_window_cpu (y_wts y1) = no_windows /\ t_prev_window_cpu (y_wts y1) = no_windows.
Proof.
  intros Ha. cbv zeta. pose proof (ag_dst _ _ _ _ _ Ha) as Hd. pose proof (ag_ravg _ _ _ _ _ Ha) as Hr.
  pose proof (ag_rq _ _ _ _ _ Ha) as Hq.
  destruct (update_task_ravg_on_updated c W new_cpu TASK_UPDATE wallclock y)
    as (U & L & _ & O); [apply Ha|done|done|apply Ha|].
  fold (before_adding c new_cpu wallclock y) in U, L, O.
  set (y1 := before_adding c new_cpu wallclock y) in *.
  pose proof (Windows.elapsed_spec _ _ _ (rk_clock _ _ _ _ Hr)) as [He _].
  pose proof (ck_window _ _ (rk_cfg _ _ _ _ Hr)) as HW.
  assert (w_window_start (cpu_wrq y1 new_cpu) = dst_window c W wallclock new_cpu y) as Ew
    by exact (up_start _ _ _ _ _ _ _ U).
  assert (t_window_start (y_wts y1) = dst_window c W wallclock new_cpu y) as Et
    by (rewrite <-Ew; exact (up_task_start _ _ _ _ _ _ _ U)).
  split; [done|]. split; [done|]. split; [done|]. split; [done|].
  split.
  { intros i x Hi Hx. apply (update_task_ravg_on_net c W new_cpu TASK_UPDATE wallclock);
      try done; try (apply Ha); lia. }
  destruct (not_running_uncharged c W wallclock (focus new_cpu y) Hr (ag_waiting _ _ _ _ _ Ha))
    as [Z1 Z2].
  assert (forall i x, 0 <= i < WALT_NR_CPUS -> dst_window c W wallclock new_cpu y - W <= x ->
    contrib W (y_wts y1) i x = 0) as Hz.
  { intros i x Hi Hx. rewrite <-Ew in Hx. pose proof (up_contrib _ _ _ _ _ _ _ U i x Hi Hx) as Hc.
    rewrite Z1, Z2 in Hc. etransitivity; [exact Hc|].
    assert (contrib W (y_wts y) i x = 0) as Hc0
      by (unfold contrib; rewrite (ag_curr _ _ _ _ _ Ha), (ag_prev _ _ _ _ _ Ha) by done;
          by repeat case_if).
    change (contrib W (wts_of (focus new_cpu y)) i x) with (contrib W (y_wts y) i x).
    rewrite Hc0. by repeat case_if. }
  pose proof (up_task _ _ _ _ _ _ _ U) as Hk.
  split; apply all_zero; try apply Hk; intros i Hi.
  - rewrite <-(contrib_curr W). apply Hz; [done|lia].
  - rewrite <-(contrib_prev W) by lia. apply Hz; [done|lia].
Qed.

(** The busy time of the task appears on one CPU. *)
Lemma inter_cluster_addition_net W cpu new_task y :
  length (y_wrqs y) = Z.to_nat WALT_NR_CPUS -> 0 <= cpu < WALT_NR_CPUS -> 0 < W ->
  t_window_start (y_wts y) = w_window_start (cpu_wrq y cpu) ->
  t_curr_window_cpu (y_wts y) = no_windows -> t_prev_window_cpu (y_wts y) = no_windows ->
  0 <= t_curr_window (y_wts y) < 2 ^ 32 -> 0 <= t_prev_window (y_wts y) < 2 ^ 32 ->
  0 <= g_curr_runnable_sum (w_rq_time (cpu_wrq y cpu)) < 2 ^ 63 ->
  0 <= g_prev_runnable_sum (w_rq_time (cpu_wrq y cpu)) < 2 ^ 63 ->
  let y' := migrate_inter_cluster_addition cpu new_task y in
  length (y_wrqs y') = Z.to_nat WALT_NR_CPUS /\ y_log y' = y_log y /\
  y_wts y' = (y_wts y) <| t_curr_window_cpu := aset no_windows cpu (t_curr_window (y_wts y)) |>
                       <| t_prev_window_cpu := aset no_windows cpu (t_prev_window (y_wts y)) |> /\
  (forall i, 0 <= i -> w_window_start (cpu_wrq y' i) = w_window_start (cpu_wrq y i)) /\
  forall i x, 0 <= i < WALT_NR_CPUS -> tracked_window W (t_window_start (y_wts y)) x ->
    net W y' i x = net W y i x.
Proof.
  intros Hl Hc HW Ht Ec Ep Hcw Hpw Hcr Hpr. cbv zeta.
  set (y' := migrate_inter_cluster_addition cpu new_task y).
  assert (y_wts y' = (y_wts y) <| t_curr_window_cpu := aset no_windows cpu (t_curr_window (y_wts y)) |>
            <| t_prev_window_cpu := aset no_windows cpu (t_prev_window (y_wts y)) |>) as Ew
    by (transitivity ((y_wts y)
          <| t_curr_window_cpu := aset (t_curr_window_cpu (y_wts y)) cpu (t_curr_window (y_wts y)) |>
          <| t_prev_window_cpu := aset (t_prev_window_cpu (y_wts y)) cpu (t_prev_window (y_wts y)) |>);
        [done|by rewrite Ec, Ep]).
  assert (forall i, 0 <= i -> cpu_wrq y' i = if i =? cpu then
    on_rq_time (fun g => add_prev (t_prev_window (y_wts y)) new_task
      (add_curr (t_curr_window (y_wts y)) new_task g)) (cpu_wrq y i) else cpu_wrq y i) as Hw.
  { intros i Hi. unfold y', migrate_inter_cluster_addition, on_cpu_wrq. rewrite cpu_wrq_set by done.
    destruct (Z.eqb_spec i cpu) as [->|]; done. }
  split; [unfold y', migrate_inter_cluster_addition, on_cpu_wrq; cbn; by rewrite length_insert|].
  split; [done|]. split; [done|]. clearbody y'.
  split; [intros i Hi; rewrite Hw by done; by case_if|].
  intros i x Hi Hx. unfold net. rewrite Hw by lia. unfold contrib. rewrite Ew, Ec, Ep.
  cbn [t_window_start t_curr_window_cpu t_prev_window_cpu].
  assert (length no_windows = 8%nat) as Hn by done. unfold WALT_NR_CPUS in *.
  cbn. rewrite !aget_aset by (rewrite ?Hn; lia). rewrite no_windows_get, (Z.eqb_sym cpu i).
  destruct (Z.eqb_spec i cpu) as [->|Hne]; [|done].
  unfold counter, at_window, LoadSubs.pending. cbn.
  assert (forall g a b, g_curr_runnable_sum (add_prev a new_task (add_curr b new_task g)) =
      u64 (g_curr_runnable_sum g + b) /\
    g_prev_runnable_sum (add_prev a new_task (add_curr b new_task g)) =
      u64 (g_prev_runnable_sum g + a)) as Hg by (intros; by destruct new_task).
  rewrite (proj1 (Hg _ _ _)), (proj2 (Hg _ _ _)), <-Ht, !u64_small by lia.
  destruct Hx as [-> | ->]; [rewrite Z.eqb_refl; lia|].
  rewrite (proj2 (Z.eqb_neq _ (t_window_start (y_wts y)))), Z.eqb_refl by lia. lia.
Qed.

Lemma updated_bounds c W event wallclock irqtime s s' :
  ravg_ok c W wallclock s -> updated c W event wallclock irqtime s s' -> t_grp (wts_of s) = None ->
  busy_curr c wallclock irqtime event (measured c event wallclock irqtime s) = 0 ->
  busy_prev c W irqtime event (measured c event wallclock irqtime s) = 0 ->
  0 <= g_curr_runnable_sum (w_rq_time (a_wrq s')) < 2 ^ 63 /\
  0 <= g_prev_runnable_sum (w_rq_time (a_wrq s')) < 2 ^ 63.
Proof.
  intros Hr U Hg H1 H2. pose proof (up_curr _ _ _ _ _ _ _ U) as C1.
  pose proof (up_prev _ _ _ _ _ _ _ U) as C2. pose proof (up_grp _ _ _ _ _ _ _ U) as Hg'.
  unfold own_time, task_in_related_thread_group in C1, C2. rewrite Hg', Hg, ?H1, ?H2 in C1, C2.
  rewrite C1, C2. pose proof (rk_counters _ _ _ _ Hr (w_rq_time (a_wrq s)) ltac:(by left)).
  unfold Windows.rolled. repeat case_if; cbn; lia.
Qed.

(** The rest of the addition, for a task that changed its frequency domain. *)
Definition after_adding (c : walt_cfg) (src_cpu new_cpu wallclock : Z) (y : sys) : sys :=
  let y := on_cpu_wrq new_cpu (fun w =>
    w <| w_top := migrate_top_tasks_addition c (y_wts y) (w_top w) |>) y in
  let y := on_cpu_wrq src_cpu (fun w => w <| w_notif_pending := true |>) y in
  let y := on_cpu_wrq new_cpu (fun w => w <| w_notif_pending := true |>) y in
  let y := y_emit_if true walt_migration_irq_work_queued y in
  let y := if is_ed_enabled c && is_ed_task (y_wts y) wallclock
           then on_cpu_wrq new_cpu (fun w => w <| w_ed_task := Some (p_id (y_p y)) |>) y else y in
  on_y_wts (fun t => t <| t_new_cpu := -1 |>) y.

Lemma after_adding_spec c src_cpu new_cpu wallclock y :
  length (y_wrqs y) = Z.to_nat WALT_NR_CPUS -> 0 <= new_cpu < WALT_NR_CPUS ->
  0 <= src_cpu < WALT_NR_CPUS ->
  let y' := after_adding c src_cpu new_cpu wallclock y in
  y_wts y' = (y_wts y) <| t_new_cpu := -1 |> /\
  y_log y' = y_log y ++ [walt_migration_irq_work_queued] /\
  forall i, 0 <= i -> same_time (cpu_wrq y i) (cpu_wrq y' i).
Proof.
  intros Hl Hn Hs. cbv zeta. unfold after_adding.
  set (y1 := on_cpu_wrq new_cpu _ y). set (y2 := on_cpu_wrq src_cpu _ y1).
  set (y3 := on_cpu_wrq new_cpu _ y2).
  assert (length (y_wrqs y1) = Z.to_nat WALT_NR_CPUS) as L1 by (unfold y1, on_cpu_wrq; by rewrite length_set_wrq).
  assert (length (y_wrqs y2) = Z.to_nat WALT_NR_CPUS) as L2 by (unfold y2, on_cpu_wrq; by rewrite length_set_wrq).
  assert (length (y_wrqs y3) = Z.to_nat WALT_NR_CPUS) as L3 by (unfold y3, on_cpu_wrq; by rewrite length_set_wrq).
  split; [by case_if|]. split; [by case_if|]. intros i Hi.
  apply (same_time_trans _ (cpu_wrq y1 i)); [by apply on_cpu_wrq_same|].
  apply (same_time_trans _ (cpu_wrq y2 i)); [by apply on_cpu_wrq_same|].
  apply (same_time_trans _ (cpu_wrq y3 i)); [by apply on_cpu_wrq_same|].
  case_if; [|done]. by apply (on_cpu_wrq_same new_cpu _ y3).
Qed.

Lemma migrate_busy_time_addition_eq c W wallclock new_cpu y : arriving c W wallclock new_cpu y ->
  let y1 := before_adding c new_cpu wallclock y in
  migrate_busy_time_addition c new_cpu wallclock y =
  after_adding c (t_prev_cpu (y_wts y)) new_cpu wallclock
    (migrate_inter_cluster_addition new_cpu (is_new_task (y_wts y1)) y1).
Proof.
  intros Ha. cbv zeta. destruct (arriving_updated _ _ _ _ _ Ha) as (U & L & Ew & Et & _).
  unfold migrate_busy_time_addition. fold (before_adding c new_cpu wallclock y).
  set (y1 := before_adding c new_cpu wallclock y) in *.
  rewrite Ew, Et, Z.eqb_refl. cbn [negb y_emit_if].
  assert (t_grp (y_wts y1) = None) as ->
    by (etransitivity; [exact (up_grp _ _ _ _ _ _ _ U)|exact (ag_grp _ _ _ _ _ Ha)]).
  assert (t_enqueue_after_migration (y_wts y1) = 2) as Em
    by (etransitivity; [exact (proj1 (up_migration _ _ _ _ _ _ _ U))|exact (ag_far _ _ _ _ _ Ha)]).
  rewrite Em. change (2 =? 2) with true. cbn iota.
  set (y2 := migrate_inter_cluster_addition _ _ y1).
  assert (t_enqueue_after_migration (y_wts y2) = 2) as Em2 by exact Em.
  set (y3 := on_cpu_wrq new_cpu _ y2).
  assert (t_enqueue_after_migration (y_wts y3) = 2) as -> by exact Em2. done.
Qed.

Lemma aget_one cpu v i : 0 <= cpu < WALT_NR_CPUS -> 0 <= i < WALT_NR_CPUS ->
  aget (aset no_windows cpu v) i = if i =? cpu then v else 0.
Proof.
  assert (length no_windows = 8%nat) as Hn by done. unfold WALT_NR_CPUS. intros Hc Hi.
  rewrite aget_aset, no_windows_get, Z.eqb_sym by (rewrite ?Hn; lia). done.
Qed.

Lemma settled_on_one cpu t : 0 <= cpu < WALT_NR_CPUS ->
  settled (t <| t_curr_window_cpu := aset no_windows cpu (t_curr_window t) |>
             <| t_prev_window_cpu := aset no_windows cpu (t_prev_window t) |> <| t_new_cpu := -1 |>).
Proof.
  assert (length no_windows = 8%nat) as Hn by done. assert (asum no_windows = 0) as Hs by done.
  unfold WALT_NR_CPUS. intros Hc. unfold settled, stray_curr, stray_prev. cbn.
  rewrite !asum_aset, no_windows_get, Hs by (rewrite Hn; lia). lia.
Qed.

(** The totals of a task on its way follow the windows that pass. *)
Lemma in_flight_strays c W wallclock new_cpu y : arriving c W wallclock new_cpu y ->
  let y1 := before_adding c new_cpu wallclock y in let ws := dst_window c W wallclock new_cpu y in
  t_curr_window (y_wts y1) = (if t_mark_start (y_wts y) <? ws then 0 else t_curr_window (y_wts y)) /\
  t_prev_window (y_wts y1) = (if t_mark_start (y_wts y) <? ws
    then if W <=? ws - t_mark_start (y_wts y) then 0 else t_curr_window (y_wts y)
    else t_prev_window (y_wts y)).
Proof.
  intros Ha. cbv zeta. destruct (arriving_updated _ _ _ _ _ Ha) as (U & _ & Ew & _ & _ & Ec & Ep).
  set (y1 := before_adding c new_cpu wallclock y) in *.
  pose proof (rk_task _ _ _ _ (ag_ravg _ _ _ _ _ Ha)) as Hk. change (task_ok c W (y_wts y)) in Hk.
  pose proof (up_stray_curr _ _ _ _ _ _ _ U) as S1. pose proof (up_stray_prev _ _ _ _ _ _ _ U) as S2.
  change (wts_of (focus new_cpu y1)) with (y_wts y1) in S1, S2.
  change (wts_of (focus new_cpu y)) with (y_wts y) in S1, S2.
  change (a_wrq (focus new_cpu y1)) with (cpu_wrq y1 new_cpu) in S1, S2. rewrite Ew in S1, S2.
  unfold stray_curr, stray_prev in S1, S2. rewrite Ec in S1. rewrite Ep in S2.
  assert (t_curr_window_cpu (y_wts y) = no_windows) as E1 by (apply all_zero; [apply Hk|apply Ha]).
  assert (t_prev_window_cpu (y_wts y) = no_windows) as E2 by (apply all_zero; [apply Hk|apply Ha]).
  rewrite E1 in S1, S2. rewrite E2 in S2.
  assert (asum no_windows = 0) as Hs by done. rewrite Hs in S1, S2. rewrite !Z.sub_0_r in S1. rewrite !Z.sub_0_r in S2. split; assumption.
Qed.

(** C10. A task queued on a CPU of another frequency domain brings its busy time of the
    destination's two windows: on every CPU the counter less the pending
    subtractions less the busy time of the task is what it was before, the task is
    accounted for on the destination alone and is settled again (its totals are
    the sums of its per-CPU entries), time of windows that passed on the way is
    dropped, and the governor of both CPUs is notified. *)
Theorem migrate_busy_time_addition_spec c W wallclock new_cpu y :
  arriving c W wallclock new_cpu y ->
  let ws := dst_window c W wallclock new_cpu y in
  let y1 := before_adding c new_cpu wallclock y in
  let y' := migrate_busy_time_addition c new_cpu wallclock y in
  (forall i x, 0 <= i < WALT_NR_CPUS -> tracked_window W ws x -> net W y' i x = net W y i x) /\
  t_window_start (y_wts y') = ws /\ settled (y_wts y') /\
  (forall i, 0 <= i < WALT_NR_CPUS ->
     aget (t_curr_window_cpu (y_wts y')) i = (if i =? new_cpu then t_curr_window (y_wts y') else 0) /\
     aget (t_prev_window_cpu (y_wts y')) i = (if i =? new_cpu then t_prev_window (y_wts y') else 0)) /\
  t_curr_window (y_wts y') =
    (if t_mark_start (y_wts y) <? ws then 0 else t_curr_window (y_wts y)) /\
  t_prev_window (y_wts y') =
    (if t_mark_start (y_wts y) <? ws
     then if W <=? ws - t_mark_start (y_wts y) then 0 else t_curr_window (y_wts y)
     else t_prev_window (y_wts y)) /\
  y_log y' = y_log y1 ++ [walt_migration_irq_work_queued].
Proof.
  intros Ha. cbv zeta.
  destruct (arriving_updated _ _ _ _ _ Ha) as (U & L & Ew & Et & N1 & Ec & Ep).
  pose proof (ag_ravg _ _ _ _ _ Ha) as Hr. pose proof (ag_dst _ _ _ _ _ Ha) as Hd.
  pose proof (ck_window _ _ (rk_cfg _ _ _ _ Hr)) as HW.
  destruct (not_running_uncharged c W wallclock (focus new_cpu y) Hr (ag_waiting _ _ _ _ _ Ha)) as [Z1 Z2].
  destruct (updated_bounds c W TASK_UPDATE wallclock 0 _ _ Hr U (ag_grp _ _ _ _ _ Ha) Z1 Z2) as [B1 B2].
  rewrite (migrate_busy_time_addition_eq c W) by done.
  set (y1 := before_adding c new_cpu wallclock y) in *.
  pose proof (up_task _ _ _ _ _ _ _ U) as Hk. change (task_ok c W (y_wts y1)) in Hk.
  pose proof (task_ok_ranges _ _ _ Hk) as [K1 K2]. pose proof (tk_mark _ _ _ Hk).
  pose proof (tk_curr _ _ _ Hk). pose proof (tk_prev _ _ _ Hk).
  destruct (inter_cluster_addition_net W new_cpu (is_new_task (y_wts y1)) y1)
    as (I1 & I2 & I3 & I4 & I5); try done; try lia.
  set (y2 := migrate_inter_cluster_addition _ _ y1) in *.
  destruct (after_adding_spec c (t_prev_cpu (y_wts y)) new_cpu wallclock y2 I1 Hd (ag_src _ _ _ _ _ Ha))
    as (F1 & F2 & F3).
  set (y3 := after_adding _ _ _ _ y2) in *. clearbody y2 y3.
  assert (y_wts y3 = (y_wts y1) <| t_curr_window_cpu := aset no_windows new_cpu (t_curr_window (y_wts y1)) |>
    <| t_prev_window_cpu := aset no_windows new_cpu (t_prev_window (y_wts y1)) |>
    <| t_new_cpu := -1 |>) as T3 by (by rewrite F1, I3).
  destruct (in_flight_strays _ _ _ _ _ Ha) as [S1 S2].
  split.
  { intros i x Hi Hx. rewrite <-N1; [|done|destruct Hx; lia].
    rewrite <-I5 by (by rewrite ?Et). apply net_ext; [apply F3; lia|by rewrite F1]. }
  rewrite T3. split; [exact Et|]. split; [apply settled_on_one; done|].
  split; [intros i Hi; split; apply aget_one; done|].
  split; [exact S1|]. split; [exact S2|]. by rewrite F2, I2.
Qed.

(** ** An example: a task of CPU 4 that also ran on CPU 5 moves to CPU 0 *)

Definition demo_mover : task_struct :=
  (QueueStats.demo_task 1 10 10) <| p_wts := zero_wts
    <| t_window_start := 32000000 |> <| t_mark_start := 40000000 |> <| t_cpu_cycles := 80000000 |>
    <| t_curr_window := 4000000 |>
    <| t_curr_window_cpu := [0; 0; 0; 0; 3000000; 1000000; 0; 0] |>
    <| t_prev_window := 2000000 |>
    <| t_prev_window_cpu := [0; 0; 0; 0; 0; 2000000; 0; 0] |> |>.

Definition demo_cpu (cluster cpus : Z) (g : group_cpu_time) : walt_rq :=
  QueueStats.demo_wrq <| w_cluster := cluster |> <| w_freq_domain_cpumask := cpus |>
    <| w_window_start := 32000000 |> <| w_rq_time := g |>.

Definition demo_sys : sys :=
  mk_sys demo_mover
    ((fun i => mk_rq (Z.of_nat i) 7 0 0 0) <$> seq 0 8)
    (replicate 4 (demo_cpu 0 15 (mk_gct 0 0 0 0)) ++
     [demo_cpu 1 240 (mk_gct 3500000 100 3500000 100); demo_cpu 1 240 (mk_gct 1500000 2500000 0 0);
      demo_cpu 1 240 (mk_gct 0 0 0 0); demo_cpu 1 240 (mk_gct 0 0 0 0)])
    32000000 [].

Lemma unused_subs_ok W ws w : w_load_subs w = [no_subs; no_subs] -> 0 < W -> 0 <= ws - W ->
  subs_ok W ws w.
Proof.
  intros E HW Hw. assert (LoadSubs.entry_ok no_subs) as He by (by vm_compute). split.
  - split; rewrite ?E; [done|by repeat constructor|by right].
  - rewrite E. apply Forall_cons. split; [|apply Forall_singleton]; right; cbn; lia.
  - intros x. unfold LoadSubs.pending. rewrite E.
    unfold zsum. cbn. destruct (0 =? x); lia.
Qed.

Lemma demo_migrating : migrating sample_cfg 16000000 44000000 0 demo_sys.
Proof.
  assert (task_ok sample_cfg 16000000 (wts_of (focus (p_cpu (y_p demo_sys)) (flagged 0 demo_sys)))) as Hk.
  { split; try (vm_compute; done); try (by vm_compute; split); repeat constructor; by vm_compute. }
  split; try (by vm_compute).
  - split; [by split|by vm_compute|split; by vm_compute|by vm_compute|by vm_compute| |by vm_compute..|].
    + exact Hk.
    + intros g [-> | ->]; by vm_compute.
  - intros x. unfold contrib, counter, at_window.
    assert (t_window_start (y_wts demo_sys) = 32000000) as -> by (vm_compute; reflexivity).
    assert (w_window_start (cpu_wrq demo_sys (p_cpu (y_p demo_sys))) = 32000000) as ->
      by (vm_compute; reflexivity).
    repeat case_if; by vm_compute.
  - intros x _. unfold contrib, nt_counter, at_window.
    assert (t_window_start (y_wts demo_sys) = 32000000) as -> by (vm_compute; reflexivity).
    assert (w_window_start (cpu_wrq demo_sys (p_cpu (y_p demo_sys))) = 32000000) as ->
      by (vm_compute; reflexivity).
    repeat case_if; by vm_compute.
  - intros i Hi _. apply unused_subs_ok; [|by vm_compute|by vm_compute].
    unfold WALT_NR_CPUS in Hi.
    assert (i = 0 \/ i = 1 \/ i = 2 \/ i = 3 \/ i = 4 \/ i = 5 \/ i = 6 \/ i = 7) as H8 by lia.
    destruct H8 as [->|[->|[->|[->|[->|[->|[->| ->]]]]]]]; vm_compute; reflexivity.
Qed.

Lemma migrate_busy_time_subtraction_spec_witness :
  let y' := migrate_busy_time_subtraction sample_cfg 0 44000000 demo_sys in
  net 16000000 y' 4 32000000 = 500000 /\ net 16000000 y' 5 16000000 = 500000 /\
  aget (t_prev_window_cpu (y_wts y')) 5 = 0.
Proof.
  destruct (migrate_busy_time_subtraction_spec _ _ _ _ _ demo_migrating) as (_ & H1 & H2 & _).
  cbv zeta in *. split; [rewrite (H1 4 32000000); [vm_compute; reflexivity|by vm_compute|by left]|].
  split; [rewrite (H1 5 16000000); [vm_compute; reflexivity|by vm_compute|by right]|].
  apply (H2 5); [by vm_compute|reflexivity].
Defined.

Definition demo_flight : sys :=
  mk_sys (demo_mover <| p_cpu := 0 |> <| p_wts := (p_wts demo_mover)
      <| t_curr_window_cpu := no_windows |> <| t_prev_window_cpu := no_windows |>
      <| t_enqueue_after_migration := 2 |> <| t_prev_cpu := 4 |> |>)
    (y_rqs demo_sys) (y_wrqs demo_sys) 32000000 [].

Lemma demo_arriving : arriving sample_cfg 16000000 44000000 0 demo_flight.
Proof.
  assert (task_ok sample_cfg 16000000 (wts_of (focus 0 demo_flight))) as Hk.
  { split; try (vm_compute; done); try (by vm_compute; split); repeat constructor; by vm_compute. }
  split; try (by vm_compute).
  - split; [by split|by vm_compute|split; by vm_compute|by vm_compute|by vm_compute| |by vm_compute..|].
    + exact Hk.
    + intros g [-> | ->]; by vm_compute.
  - intros i _. apply no_windows_get.
  - intros i _. apply no_windows_get.
Qed.

Lemma migrate_busy_time_addition_spec_witness :
  let y' := migrate_busy_time_addition sample_cfg 0 44000000 demo_flight in
  settled (y_wts y') /\ aget (t_curr_window_cpu (y_wts y')) 0 = 4000000.
Proof.
  assert (0 <= 0 < WALT_NR_CPUS) as Hi by (by vm_compute).
  destruct (migrate_busy_time_addition_spec _ _ _ _ _ demo_arriving) as (_ & _ & H1 & H2 & H3 & _).
  cbv zeta in *.
  pose proof (proj1 (H2 0 Hi)) as H4. rewrite Z.eqb_refl in H4.
  split; [exact H1|]. rewrite H4, H3. vm_compute. reflexivity.
Defined.

(** Two migrations before the task is queued: the first crosses the cluster and
    takes the busy time away, the second, inside the new cluster, replaces the
    mark of the first, so that the busy time is added nowhere. *)
Theorem double_migration_loses_busy_time :
  let y1 := migrate_busy_time_subtraction sample_cfg 0 44000000 demo_sys in
  let y2 := migrate_busy_time_subtraction sample_cfg 1 44000000
              (y1 <| y_p := (y_p y1) <| p_cpu := 0 |> |>) in
  let y3 := migrate_busy_time_addition sample_cfg 1 44000000
              (y2 <| y_p := (y_p y2) <| p_cpu := 1 |> |>) in
  t_enqueue_after_migration (y_wts y1) = 2 /\ t_enqueue_after_migration (y_wts y2) = 1 /\
  0 < t_curr_window (y_wts y3) /\ t_curr_window_cpu (y_wts y3) = no_windows /\
  ((fun i => g_curr_runnable_sum (w_rq_time (cpu_wrq y3 i))) <$> [0; 1; 2; 3]) = [0; 0; 0; 0].
Proof. vm_compute. repeat split. Qed.

End Migration.
