(* ===== verification/Cpumask.v ===== *)
(** * CPU masks

    A [struct cpumask] is the [Z] of its bits, as the bitmaps of [Prelude];
    [cpumask_set_cpu], [cpumask_or], [cpumask_and] and [cpumask_andnot] are
    [Z.setbit], [Z.lor], [Z.land] and [Z.ldiff]. A mask holds the CPUs below
    [WALT_NR_CPUS] only, and [for_each_cpu] visits them in increasing order. *)

From Stdlib Require Import ZArith Lia ZifyBool Bool.
From stdpp Require Import base list.
From S2P Require Import Prelude WaltTypes.

Definition is_cpu (c : Z) : Prop := 0 <= c < WALT_NR_CPUS.
Definition mask_ok (m : Z) : Prop := 0 <= m < 2 ^ WALT_NR_CPUS.

Definition cpumask_test_cpu (cpu mask : Z) : bool := Z.testbit mask cpu.
Definition cpumask_empty (mask : Z) : bool := mask =? 0.
Definition cpumask_intersects (a b : Z) : bool := negb (Z.land a b =? 0).
Definition cpumask_subset (a b : Z) : bool := Z.ldiff a b =? 0.
Definition cpumask_next (n mask : Z) : Z := find_next_bit mask WALT_NR_CPUS (n + 1).

Definition for_each_cpu {S : Type} (mask : Z) (f : Z -> S -> S) (s : S) : S :=
  for_range 0 (Z.to_nat WALT_NR_CPUS) (fun cpu s => if Z.testbit mask cpu then f cpu s else s) s.

(** The same loop with an early exit: [inl s] goes on, [inr r] is the [return] or
    [goto] taken. *)
Definition for_each_cpu_until {S R : Type} (mask : Z) (f : Z -> S -> S + R) (s : S) : S + R :=
  for_each_cpu mask (fun cpu x => match x with inl s => f cpu s | inr r => inr r end) (inl s).

Definition cpumask_weight (mask : Z) : Z := for_each_cpu mask (fun _ n => n + 1) 0.

#[global] Arguments for_each_cpu : simpl never.
#[global] Arguments for_each_cpu_until : simpl never.
#[global] Arguments cpumask_weight : simpl never.

Section Masks.

Lemma mask_high_bit m c : mask_ok m -> WALT_NR_CPUS <= c -> Z.testbit m c = false.
Proof.
  intros [H0 H1] Hc. unfold WALT_NR_CPUS in *. destruct (Z.eq_dec m 0) as [->|]; [apply Z.bits_0|].
  apply Z.bits_above_log2; [lia|]. assert (Z.log2 m < 8); [|lia]. apply Z.log2_lt_pow2; lia.
Qed.

Lemma mask_bit_is_cpu m c : mask_ok m -> Z.testbit m c = true -> is_cpu c.
Proof.
  intros Hm Hc. unfold is_cpu. destruct (Z_lt_le_dec c 0) as [|].
  { by rewrite Z.testbit_neg_r in Hc by done. }
  destruct (Z_lt_le_dec c WALT_NR_CPUS) as [|H]; [done|].
  by rewrite (mask_high_bit m c Hm H) in Hc.
Qed.

(** A number all of whose bits are CPUs is a mask. *)
Lemma bits_mask_ok m : (forall c, 0 <= c -> Z.testbit m c = true -> c < WALT_NR_CPUS) -> mask_ok m.
Proof.
  intros H. assert (m = Z.land m (Z.ones WALT_NR_CPUS)) as E.
  { apply Z.bits_inj'. intros c Hc. rewrite Z.land_spec, Z.testbit_ones by (unfold WALT_NR_CPUS; lia).
    destruct (Z.testbit m c) eqn:Em; [|done]. specialize (H c Hc Em). cbn [andb]. lia. }
  rewrite E, Z.land_ones by (unfold WALT_NR_CPUS; lia). apply Z.mod_pos_bound. reflexivity.
Qed.

Lemma mask_ok_lor a b : mask_ok a -> mask_ok b -> mask_ok (Z.lor a b).
Proof.
  intros Ha Hb. apply bits_mask_ok. intros c Hc. rewrite Z.lor_spec.
  intros [H|H]%orb_true_iff; [by apply (mask_bit_is_cpu a c)|by apply (mask_bit_is_cpu b c)].
Qed.

Lemma mask_ok_ldiff a b : mask_ok a -> mask_ok (Z.ldiff a b).
Proof.
  intros Ha. apply bits_mask_ok. intros c Hc. rewrite Z.ldiff_spec.
  intros [H _]%andb_true_iff. by apply (mask_bit_is_cpu a c).
Qed.

Lemma mask_ok_land a b : mask_ok a -> mask_ok (Z.land a b).
Proof.
  intros Ha. apply bits_mask_ok. intros c Hc. rewrite Z.land_spec.
  intros [H _]%andb_true_iff. by apply (mask_bit_is_cpu a c).
Qed.

Lemma mask_ok_setbit a c : mask_ok a -> is_cpu c -> mask_ok (Z.setbit a c).
Proof.
  intros Ha Hc. apply bits_mask_ok. intros d Hd. rewrite setbit_spec by apply Hc.
  intros [->%Z.eqb_eq|H]%orb_true_iff; [apply Hc|by apply (mask_bit_is_cpu a d)].
Qed.

Lemma mask_ok_clearbit a c : mask_ok a -> mask_ok (Z.clearbit a c).
Proof.
  intros Ha. apply bits_mask_ok. intros d Hd. rewrite clearbit_spec.
  intros [H _]%andb_true_iff. by apply (mask_bit_is_cpu a d).
Qed.

Lemma mask_zero_iff m : m = 0 <-> forall c, Z.testbit m c = false.
Proof.
  split; [intros ->; apply Z.bits_0|]. intros H. apply Z.bits_inj'. intros c _. by rewrite H, Z.bits_0.
Qed.

Lemma mask_nonzero_bit m : mask_ok m -> m <> 0 -> exists c, is_cpu c /\ Z.testbit m c = true.
Proof.
  intros Hm Hne. assert (0 <= Z.log2 m) by apply Z.log2_nonneg.
  assert (Z.testbit m (Z.log2 m) = true) as Hb by (apply Z.bit_log2; destruct Hm; lia).
  exists (Z.log2 m). split; [by apply (mask_bit_is_cpu m)|done].
Qed.

(** Induction over the CPUs of a mask: [P n s] speaks of the CPUs below [n]. *)
Lemma for_each_cpu_ind {S : Type} (P : Z -> S -> Prop) mask f (s : S) :
  P 0 s ->
  (forall c t, is_cpu c -> Z.testbit mask c = true -> P c t -> P (c + 1) (f c t)) ->
  (forall c t, is_cpu c -> Z.testbit mask c = false -> P c t -> P (c + 1) t) ->
  P WALT_NR_CPUS (for_each_cpu mask f s).
Proof.
  intros H0 Ht Hf. unfold for_each_cpu.
  apply (for_range_ind P 0 (Z.to_nat WALT_NR_CPUS)); [done|].
  intros c t Hc Hp. change (0 + Z.of_nat (Z.to_nat WALT_NR_CPUS)) with WALT_NR_CPUS in Hc.
  destruct (Z.testbit mask c) eqn:E; [by apply Ht|by apply Hf].
Qed.

(** An invariant that does not speak of the position. *)
Lemma for_each_cpu_inv {S : Type} (P : S -> Prop) mask f (s : S) :
  P s -> (forall c t, is_cpu c -> Z.testbit mask c = true -> P t -> P (f c t)) ->
  P (for_each_cpu mask f s).
Proof. intros H0 Hs. by apply (for_each_cpu_ind (fun _ => P)). Qed.

Lemma for_each_cpu_empty {S : Type} f (s : S) : for_each_cpu 0 f s = s.
Proof.
  apply (for_each_cpu_inv (fun t => t = s)); [done|]. intros c t _ H. by rewrite Z.bits_0 in H.
Qed.

Lemma for_each_cpu_ext {S : Type} mask (f g : Z -> S -> S) s :
  (forall c t, Z.testbit mask c = true -> f c t = g c t) -> for_each_cpu mask f s = for_each_cpu mask g s.
Proof.
  intros H. unfold for_each_cpu. generalize (Z.to_nat WALT_NR_CPUS), 0. intros n.
  revert s. induction n as [|n IH]; intros s lo; [done|]. cbn [for_range]. rewrite IH. f_equal.
  destruct (Z.testbit mask lo) eqn:E; [by apply H|done].
Qed.

(** The CPU [cpumask_first] returns. *)
Lemma cpumask_first_spec m :
  mask_ok m -> m <> 0 ->
  is_cpu (cpumask_first m) /\ Z.testbit m (cpumask_first m) = true /\
  forall c, 0 <= c < cpumask_first m -> Z.testbit m c = false.
Proof.
  intros Hm Hne. unfold cpumask_first.
  destruct (find_next_bit_spec m WALT_NR_CPUS 0) as (H1 & H2 & H3); [unfold WALT_NR_CPUS; lia|].
  destruct (mask_nonzero_bit m Hm Hne) as (c & Hc & Hb).
  destruct (Z_lt_le_dec (find_next_bit m WALT_NR_CPUS 0) WALT_NR_CPUS) as [Hlt|Hge].
  - split; [unfold is_cpu; lia|]. split; [by apply H2|]. intros d Hd. apply H3. lia.
  - unfold is_cpu in Hc. by rewrite H3 in Hb by lia.
Qed.

Lemma cpumask_first_zero : cpumask_first 0 = WALT_NR_CPUS.
Proof. reflexivity. Qed.

End Masks.

#[export] Hint Resolve mask_ok_lor mask_ok_ldiff mask_ok_land mask_ok_setbit mask_ok_clearbit : walt.
