(* ===== verification/SmartFreq.v ===== *)
(** * Frequency caps and CPU capacities

    Each cluster has an internal frequency limit: the smallest of its caps, raised to
    what the instructions-per-cycle level allows and, when clusters are synchronised,
    to the limit of the cluster below; the capacity of its CPUs follows the limit. The
    cap of the smart-frequency reasons is the largest frequency that a reason active
    on the cluster allows; a reason stays active for a hysteresis after it was last
    seen. Models [smart_freq.c] (without its sysctl handlers), and
    [update_cpu_capacity_helper], [android_rvh_update_cpu_capacity] and
    [walt_rotation_checkpoint] of [walt.c]. *)

From Stdlib Require Import ZArith Lia ZifyBool Bool.
From stdpp Require Import base list.
From S2P Require Import Prelude WaltTypes Cpumask.

(** ** Data *)

Definition MAX_CLUSTERS : Z := 4.
Definition FREQ_QOS_MAX_DEFAULT_VALUE : Z := 2147483647.

(** [enum freq_caps] *)
Definition PARTIAL_HALT_CAP : Z := 0.
Definition SMART_FREQ : Z := 1.
Definition HIGH_PERF_CAP : Z := 2.
Definition MAX_FREQ_CAP : Z := 3.

(** [enum smart_freq_legacy_reason] *)
Definition NO_REASON_SMART_FREQ : Z := 0.
Definition BOOST_SMART_FREQ : Z := 1.
Definition SUSTAINED_HIGH_UTIL_SMART_FREQ : Z := 2.
Definition BIG_TASKCNT_SMART_FREQ : Z := 3.
Definition TRAILBLAZER_SMART_FREQ : Z := 4.
Definition SBT_SMART_FREQ : Z := 5.
Definition PIPELINE_60FPS_OR_LESSER_SMART_FREQ : Z := 6.
Definition PIPELINE_90FPS_SMART_FREQ : Z := 7.
Definition PIPELINE_120FPS_OR_GREATER_SMART_FREQ : Z := 8.
Definition THERMAL_ROTATION_SMART_FREQ : Z := 9.
Definition LRPB_SMART_FREQ : Z := 10.
Definition LEGACY_SMART_FREQ : Z := 11.

Definition SMART_FMAX_IPC_MAX : Z := 5.

(** [struct smart_freq_cluster_info], its arrays of structures as one array per
    field. *)
Record smart_freq_cluster_info := mk_sfi {
  f_participation_mask : Z;
  f_active_reason : Z;
  f_ipc_level : Z;
  f_min_cycles : Z;
  f_ipc_participation_mask : Z;
  f_freq_allowed : list Z;
  f_hyst_ns : list Z;
  f_deactivate_ns : list Z;
  f_ipc : list Z;
  f_ipc_freq_allowed : list Z
}.

(** The part of [struct walt_sched_cluster] that the limits use. *)
Record fcluster := mk_fc {
  fc_cpus : Z;
  fc_max_possible_freq : Z;
  fc_max_freq : Z;
  fc_limit : Z;
  fc_pre_smart_freq_capacity : Z;
  fc_found_ts : Z;
  fc_info : smart_freq_cluster_info
}.

(** The clusters by their id, [freq_cap], and [cpu_capacity_orig] by CPU;
    [x_callbacks] are the clusters whose governor was called back, latest first. *)
Record fsys := mk_fsys {
  x_init_done : bool;
  x_clusters : list fcluster;
  x_freq_cap : list (list Z);
  x_capacity_orig : list Z;
  x_callbacks : list Z
}.

(** What the architecture and the sysctls provide: [arch_scale_cpu_capacity],
    [arch_scale_hw_pressure], [cpu_cluster(cpu)->id], [WALT_FEAT_SYNC_FREQ_CAP_BIT]. *)
Record fenv := mk_fenv {
  e_walt_disabled : bool;
  e_cpu_scale : Z -> Z;
  e_hw_pressure : Z -> Z;
  e_cluster_id : Z -> Z;
  e_sync_freq_cap : bool
}.

Definition no_info : smart_freq_cluster_info := mk_sfi 0 0 0 0 0 [] [] [] [] [].
Definition no_fcluster : fcluster := mk_fc 0 0 0 0 0 0 no_info.
Definition cluster (s : fsys) (id : Z) : fcluster := nth (Z.to_nat id) (x_clusters s) no_fcluster.
Definition num_clusters (s : fsys) : Z := Z.of_nat (length (x_clusters s)).
Definition cap_of (s : fsys) (cap id : Z) : Z := aget (nth (Z.to_nat cap) (x_freq_cap s) []) id.

Definition set_cluster (id : Z) (f : fcluster -> fcluster) (s : fsys) : fsys :=
  set x_clusters (fun l => <[Z.to_nat id := f (cluster s id)]> l) s.
Definition set_cap (cap id v : Z) (s : fsys) : fsys :=
  set x_freq_cap (fun l => <[Z.to_nat cap := aset (nth (Z.to_nat cap) l []) id v]> l) s.
Definition on_info (f : smart_freq_cluster_info -> smart_freq_cluster_info) : fcluster -> fcluster :=
  set fc_info f.

(** [for_each_sched_cluster]: the clusters in the order of their ids. *)
Definition for_each_sched_cluster {S : Type} (n : Z) (f : Z -> S -> S) (s : S) : S :=
  for_range 0 (Z.to_nat n) f s.

(** ** Limits and capacities *)

Definition update_cpu_capacity_helper (e : fenv) (cpu : Z) (s : fsys) : fsys :=
  if e_walt_disabled e then s else
  let fmax_capacity := e_cpu_scale e cpu in
  let thermal_cap := u64 (fmax_capacity - e_hw_pressure e cpu) in
  let c := cluster s (e_cluster_id e cpu) in
  let fmax_capacity :=
    if negb (fc_limit c =? fc_max_possible_freq c)
    then u64 (mult_frac fmax_capacity (Z.min (fc_limit c) (fc_max_freq c)) (fc_max_possible_freq c))
    else fmax_capacity in
  let s := set x_capacity_orig (fun l => aset l cpu (Z.min fmax_capacity thermal_cap)) s in
  set_cluster (e_cluster_id e cpu) (set fc_pre_smart_freq_capacity (fun _ => thermal_cap)) s.

(** [*capacity] is returned beside the state. *)
Definition android_rvh_update_cpu_capacity (e : fenv) (cpu capacity : Z) (s : fsys) : fsys * Z :=
  let rt_pressure := u64 (e_cpu_scale e cpu - capacity) in
  let s := update_cpu_capacity_helper e cpu s in
  (s, Z.max (s32 (u64 (aget (x_capacity_orig s) cpu - rt_pressure))) 0).

(** The new limit of a cluster. *)
Definition internal_limit (e : fenv) (id : Z) (s : fsys) : Z :=
  let c := cluster s id in
  let smci := fc_info c in
  let limit := for_range 0 (Z.to_nat MAX_FREQ_CAP) (fun i l => Z.min (cap_of s i id) l) (fc_max_freq c) in
  let ipc_freq := if negb (f_ipc_participation_mask smci =? 0)
                  then u32 (aget (f_ipc_freq_allowed smci) (f_ipc_level smci)) else 0 in
  let limit := Z.max ipc_freq limit in
  if (0 <? id) && e_sync_freq_cap e then
    let prev_cluster := cluster s (id - 1) in
    let prev_cluster_limit := fc_limit prev_cluster in
    let prev_cluster_limit :=
      if prev_cluster_limit =? FREQ_QOS_MAX_DEFAULT_VALUE then fc_max_possible_freq prev_cluster
      else prev_cluster_limit in
    if limit <? prev_cluster_limit then prev_cluster_limit else limit
  else limit.

Definition has_internal_freq_limit_changed (e : fenv) (id : Z) (s : fsys) : fsys * bool :=
  let internal_freq := fc_limit (cluster s id) in
  let limit := internal_limit e id s in
  (set_cluster id (set fc_limit (fun _ => limit)) s, negb (limit =? internal_freq)).

Definition update_smart_freq_capacities_one_cluster (e : fenv) (id : Z) (s : fsys) : fsys :=
  if negb (x_init_done s) then s else
  let '(s, changed) := has_internal_freq_limit_changed e id s in
  if changed then for_each_cpu (fc_cpus (cluster s id)) (update_cpu_capacity_helper e) s else s.

Definition update_smart_freq_capacities (e : fenv) (s : fsys) : fsys :=
  if negb (x_init_done s) then s else
  for_each_sched_cluster (num_clusters s) (update_smart_freq_capacities_one_cluster e) s.

(** ** Reasons *)

Definition bit (i : Z) : Z := Z.shiftl 1 i.

(** One turn of the loop over the reasons: the state of the reasons and [max_cap]. *)
Definition reason_step (current_reasons wallclock i : Z) (st : smart_freq_cluster_info * Z)
  : smart_freq_cluster_info * Z :=
  let '(info, max_cap) := st in
  let current_reason := Z.land current_reasons (bit i) in
  let cluster_active_reason := Z.land (f_active_reason info) (bit i) in
  let '(info, cluster_active_reason) :=
    if negb (current_reason =? 0) then
      let info := set f_deactivate_ns (fun l => aset l i 0) info in
      (set f_active_reason (fun a => Z.lor a (bit i)) info, cluster_active_reason)
    else if negb (cluster_active_reason =? 0) then
      if aget (f_deactivate_ns info) i =? 0 then
        (set f_deactivate_ns (fun l => aset l i wallclock) info, cluster_active_reason)
      else
        let delta := u64 (wallclock - aget (f_deactivate_ns info) i) in
        if aget (f_hyst_ns info) i <=? delta then
          let info := set f_deactivate_ns (fun l => aset l i 0) info in
          (set f_active_reason (fun a => Z.ldiff a (bit i)) info, Z.ldiff cluster_active_reason (bit i))
        else (info, cluster_active_reason)
    else (info, cluster_active_reason) in
  if negb (cluster_active_reason =? 0) || negb (current_reason =? 0) then
    if max_cap <? aget (f_freq_allowed info) i then (info, aget (f_freq_allowed info) i)
    else (info, max_cap)
  else (info, max_cap).

Definition smart_freq_update_one_cluster (id current_reasons wallclock : Z) (s : fsys) : fsys :=
  let info := fc_info (cluster s id) in
  let max_cap := aget (f_freq_allowed info) NO_REASON_SMART_FREQ in
  let old_freq_cap := cap_of s SMART_FREQ id in
  let '(info, max_cap) :=
    for_range 0 (Z.to_nat LEGACY_SMART_FREQ) (reason_step current_reasons wallclock) (info, max_cap) in
  let s := set_cluster id (on_info (fun _ => info)) s in
  if old_freq_cap =? max_cap then s else
  let s := set_cap SMART_FREQ id (u32 max_cap) s in
  set x_callbacks (fun l => id :: l) s.

Definition UNCAP_THRES : Z := 300000000.
Definition UTIL_THRESHOLD : Z := 90.

(** [util] is [wrq->util] by CPU. *)
Definition thres_based_uncap (e : fenv) (util : list Z) (window_start id : Z) (s : fsys) : fsys * bool :=
  let c := cluster s id in
  let tgt_freq := aget (f_freq_allowed (fc_info c)) NO_REASON_SMART_FREQ in
  let freq_capacity := e_cpu_scale e (cpumask_first (fc_cpus c)) in
  let tgt_cap := u64 (mult_frac freq_capacity tgt_freq (fc_max_possible_freq c)) in
  match for_each_cpu_until (fc_cpus c)
          (fun cpu (_ : unit) => if u64 (mult_frac tgt_cap UTIL_THRESHOLD 100) <=? aget util cpu
                                 then inr tt else inl tt) tt with
  | inr _ =>
      if fc_found_ts c =? 0 then (set_cluster id (set fc_found_ts (fun _ => window_start)) s, false)
      else (s, UNCAP_THRES <=? u64 (window_start - fc_found_ts c))
  | inl _ => (set_cluster id (set fc_found_ts (fun _ => 0)) s, false)
  end.

Definition WAKEUP_CNT : Z := 100.

(** The conditions the reasons look at, besides [nr_big] and [wakeup_ctr_sum]. *)
Record sf_inputs := mk_inputs {
  i_storage_or_full_throttle : bool;
  i_trailblazer_boost_ns : Z;
  i_prev_is_sbt : bool;
  i_big_task_cnt : Z;
  i_pipeline_in_progress : bool;
  i_ravg_window : Z;
  i_oscillate_cpu : Z;
  i_cluster_in_lrpb : Z -> bool
}.

(** Whether the condition of a reason holds. *)
Definition reason_holds (x : sf_inputs) (nr_big wakeup_ctr_sum : Z) (sustained_load : bool) (id i : Z) : bool :=
  if i =? NO_REASON_SMART_FREQ then true
  else if i =? BOOST_SMART_FREQ then i_storage_or_full_throttle x
  else if i =? TRAILBLAZER_SMART_FREQ then negb (i_trailblazer_boost_ns x =? 0)
  else if i =? SBT_SMART_FREQ then i_prev_is_sbt x
  else if i =? BIG_TASKCNT_SMART_FREQ then (i_big_task_cnt x <=? nr_big) && (wakeup_ctr_sum <? WAKEUP_CNT)
  else if i =? SUSTAINED_HIGH_UTIL_SMART_FREQ then sustained_load
  else if i =? PIPELINE_60FPS_OR_LESSER_SMART_FREQ then
    i_pipeline_in_progress x && (SCHED_RAVG_16MS_WINDOW <=? i_ravg_window x)
  else if i =? PIPELINE_90FPS_SMART_FREQ then
    i_pipeline_in_progress x && (i_ravg_window x =? SCHED_RAVG_12MS_WINDOW)
  else if i =? PIPELINE_120FPS_OR_GREATER_SMART_FREQ then
    i_pipeline_in_progress x && (i_ravg_window x =? SCHED_RAVG_8MS_WINDOW)
  else if i =? THERMAL_ROTATION_SMART_FREQ then negb (i_oscillate_cpu x =? -1)
  else if i =? LRPB_SMART_FREQ then i_cluster_in_lrpb x id
  else false.

(** The reasons are tested in the order of the source. *)
Definition reason_order : list Z :=
  [BOOST_SMART_FREQ; TRAILBLAZER_SMART_FREQ; SBT_SMART_FREQ; BIG_TASKCNT_SMART_FREQ;
   SUSTAINED_HIGH_UTIL_SMART_FREQ; PIPELINE_60FPS_OR_LESSER_SMART_FREQ; PIPELINE_90FPS_SMART_FREQ;
   PIPELINE_120FPS_OR_GREATER_SMART_FREQ; THERMAL_ROTATION_SMART_FREQ; LRPB_SMART_FREQ].

Definition cluster_reasons (holds : Z -> bool) (participation_mask : Z) : Z :=
  let reasons :=
    if negb (Z.land participation_mask (bit NO_REASON_SMART_FREQ) =? 0)
    then bit NO_REASON_SMART_FREQ else 0 in
  if negb (Z.land participation_mask (bit NO_REASON_SMART_FREQ) =? 0)
     && (participation_mask =? bit NO_REASON_SMART_FREQ) then reasons
  else fold_left (fun r i =>
         if negb (Z.land participation_mask (bit i) =? 0) then if holds i then Z.lor r (bit i) else r else r)
         reason_order reasons.

Definition smart_freq_update_reason_common (e : fenv) (x : sf_inputs) (util : list Z)
    (wallclock nr_big wakeup_ctr_sum : Z) (s : fsys) : fsys :=
  if negb (x_init_done s) then s else
  let '(s, sustained_load) :=
    for_each_sched_cluster (num_clusters s)
      (fun id '(s, acc) => let '(s, b) := thres_based_uncap e util wallclock id s in (s, acc || b))
      (s, false) in
  for_each_sched_cluster (num_clusters s)
    (fun id s =>
       let info := fc_info (cluster s id) in
       let reasons := cluster_reasons (reason_holds x nr_big wakeup_ctr_sum sustained_load id)
                        (f_participation_mask info) in
       if negb (reasons =? 0) || negb (f_active_reason info =? 0)
       then smart_freq_update_one_cluster id reasons wallclock s else s) s.

(** ** Instructions per cycle *)

(** [ipc_level], [last_ipc_update] and [tickless_mode] by CPU. *)
Record ipc_state := mk_ipc { k_level : list Z; k_last_update : list Z; k_tickless : list bool }.

Definition IPC_STALE_NS : Z := 7999999.

Definition get_cluster_ipc_level_freq (e : fenv) (curr_cpu time : Z) (k : ipc_state) (s : fsys)
  : ipc_state * fsys * Z :=
  let id := e_cluster_id e curr_cpu in
  let info := fc_info (cluster s id) in
  if negb (x_init_done s) then (k, s, 0) else
  if f_ipc_participation_mask info =? 0 then (k, s, 0) else
  let '(k, index) :=
    for_each_cpu (fc_cpus (cluster s id))
      (fun cpu '(k, index) =>
         let stale := IPC_STALE_NS <? u64 (time - aget (k_last_update k) cpu) in
         let cpu_ipc_level := if stale then 0 else aget (k_level k) cpu in
         let k := set k_tickless (fun l => <[Z.to_nat cpu := stale]> l) k in
         if index <=? cpu_ipc_level then (k, cpu_ipc_level) else (k, index)) (k, 0) in
  let s := set_cluster id (on_info (set f_ipc_level (fun _ => index))) s in
  (k, s, u32 (aget (f_ipc_freq_allowed info) index)).

(** ** Rotation and the high-performance cap *)

Definition HIGH_PERF_CAP_HYST_NS : Z := 10 * 1000000000.

(** [plenty_giant_tasks], [walt_rotation_enabled], [walt_rotation_stop_hyst_start_ts]
    and the static [high_perf_state_hyst_start_ts]. *)
Record rotation := mk_rot {
  r_plenty : bool;
  r_enabled : bool;
  r_stop_hyst_ts : Z;
  r_high_perf_ts : Z
}.

(** [hmp_capable], [sysctl_sched_walt_rotate_big_tasks], [sched_boost_type != NO_BOOST],
    [num_possible_cpus] and [high_perf_cluster_freq_cap]. *)
Record rot_inputs := mk_rin {
  q_hmp_capable : bool;
  q_rotate_big_tasks : bool;
  q_boosted : bool;
  q_possible_cpus : Z;
  q_high_perf_cap : list Z
}.

Definition set_high_perf_caps (v : Z -> Z) (s : fsys) : fsys :=
  for_each_sched_cluster (num_clusters s) (fun i s => set_cap HIGH_PERF_CAP i (v i) s) s.

Definition walt_rotation_checkpoint (e : fenv) (q : rot_inputs) (window_start nr_giant : Z)
    (r : rotation) (s : fsys) : rotation * fsys :=
  let prev := r_plenty r in
  if negb (q_hmp_capable q) then (r, s) else
  let plenty := q_possible_cpus q <=? nr_giant in
  let r := set r_plenty (fun _ => plenty) r in
  let r := set r_enabled (fun _ => if negb (q_rotate_big_tasks q) || q_boosted q then false else plenty) r in
  let expired ts := negb (ts =? 0) && (HIGH_PERF_CAP_HYST_NS <=? u64 (window_start - ts)) in
  let r :=
    if plenty && negb prev then set r_stop_hyst_ts (fun _ => 0) r
    else if negb plenty && prev then set r_stop_hyst_ts (fun _ => window_start) r
    else if expired (r_stop_hyst_ts r) then set r_stop_hyst_ts (fun _ => 0) r else r in
  let '(r, s) :=
    if q_boosted q then
      (set r_high_perf_ts (fun _ => 0) r, set_high_perf_caps (fun _ => FREQ_QOS_MAX_DEFAULT_VALUE) s)
    else if plenty && negb prev then
      (set r_high_perf_ts (fun _ => 0) r, set_high_perf_caps (aget (q_high_perf_cap q)) s)
    else if negb plenty && prev then (set r_high_perf_ts (fun _ => window_start) r, s)
    else if expired (r_high_perf_ts r) then
      (set r_high_perf_ts (fun _ => 0) r, set_high_perf_caps (fun _ => FREQ_QOS_MAX_DEFAULT_VALUE) s)
    else (r, s) in
  (r, update_smart_freq_capacities e s).

#[global] Arguments update_cpu_capacity_helper : simpl never.
#[global] Arguments internal_limit : simpl never.
#[global] Arguments set_cluster : simpl never.
#[global] Arguments set_cap : simpl never.
#[global] Arguments cluster : simpl never.
#[global] Arguments cap_of : simpl never.
#[global] Arguments bit : simpl never.
#[global] Arguments reason_step : simpl never.

(** ** Limits *)

Module Limits.

(** ** Reading back the state *)

Section Access.

Lemma num_set_cluster id f s : num_clusters (set_cluster id f s) = num_clusters s.
Proof. unfold num_clusters, set_cluster. cbn. by rewrite length_insert. Qed.

Lemma cluster_set s id f j :
  0 <= id < num_clusters s -> 0 <= j ->
  cluster (set_cluster id f s) j = if id =? j then f (cluster s id) else cluster s j.
Proof.
  intros Hi Hj. unfold cluster at 1. unfold set_cluster. cbn. rewrite nth_lookup.
  unfold num_clusters in Hi. destruct (Z.eqb_spec id j) as [->|Hne].
  - by rewrite list_lookup_insert_eq by lia.
  - rewrite list_lookup_insert_ne by lia. unfold cluster. by rewrite nth_lookup.
Qed.

Lemma cap_set_cluster id f s c j : cap_of (set_cluster id f s) c j = cap_of s c j.
Proof. done. Qed.

Lemma cluster_set_cap c id v s j : cluster (set_cap c id v s) j = cluster s j.
Proof. done. Qed.

(** The caps have a row per kind and an entry per cluster. *)
Definition caps_ok (s : fsys) : Prop :=
  length (x_freq_cap s) = Z.to_nat MAX_FREQ_CAP /\
  Forall (fun row => num_clusters s <= Z.of_nat (length row)) (x_freq_cap s).

Lemma cap_set s c id v d j :
  caps_ok s -> 0 <= c < MAX_FREQ_CAP -> 0 <= id < num_clusters s -> 0 <= d -> 0 <= j ->
  cap_of (set_cap c id v s) d j = if (c =? d) && (id =? j) then v else cap_of s d j.
Proof.
  intros [Hl Hr] Hc Hi Hd Hj. unfold cap_of, set_cap. cbn. rewrite (nth_lookup (<[_:=_]> _)).
  destruct (Z.eqb_spec c d) as [->|Hne]; cbn [andb].
  - rewrite list_lookup_insert_eq by (rewrite Hl; unfold MAX_FREQ_CAP in *; lia). cbn.
    rewrite aget_aset; [done| |done].
    destruct (lookup_lt_is_Some_2 (x_freq_cap s) (Z.to_nat d)) as [row Hrow].
    { rewrite Hl. unfold MAX_FREQ_CAP in *. lia. }
    rewrite nth_lookup, Hrow. cbn. pose proof (proj1 (Forall_lookup _ _) Hr _ _ Hrow) as E. cbn in E. lia.
  - rewrite list_lookup_insert_ne by lia. by rewrite nth_lookup.
Qed.

Lemma caps_ok_set s c id v : caps_ok s -> caps_ok (set_cap c id v s).
Proof.
  intros [Hl Hr]. split; [unfold set_cap; cbn; by rewrite length_insert|].
  unfold set_cap. cbn. destruct (decide (Z.to_nat c < length (x_freq_cap s))%nat) as [Hc|Hc].
  - apply Forall_insert; [exact Hr|]. rewrite length_aset.
    destruct (lookup_lt_is_Some_2 _ _ Hc) as [row Hrow]. rewrite nth_lookup, Hrow. cbn.
    by apply (proj1 (Forall_lookup _ _) Hr _ _ Hrow).
  - rewrite list_insert_ge by lia. exact Hr.
Qed.

End Access.

(** ** The system of clusters *)

(** The clusters divide the CPUs, and every table has its length. *)
Record sys_ok (e : fenv) (s : fsys) : Prop := mk_sys_ok {
  so_caps : caps_ok s;
  so_capacity : length (x_capacity_orig s) = Z.to_nat WALT_NR_CPUS;
  so_cluster : forall cpu, is_cpu cpu -> 0 <= e_cluster_id e cpu < num_clusters s;
  so_cpus : forall id cpu, 0 <= id < num_clusters s -> is_cpu cpu ->
    Z.testbit (fc_cpus (cluster s id)) cpu = (e_cluster_id e cpu =? id)
}.

(** The capacity of a CPU under a limit of its cluster: the share of the frequency
    limit in the largest frequency, at most what the hardware pressure leaves. *)
Definition thermal_cap (e : fenv) (cpu : Z) : Z := u64 (e_cpu_scale e cpu - e_hw_pressure e cpu).
Definition capacity_at (e : fenv) (cpu : Z) (c : fcluster) : Z :=
  Z.min (if fc_limit c =? fc_max_possible_freq c then e_cpu_scale e cpu
         else u64 (mult_frac (e_cpu_scale e cpu) (Z.min (fc_limit c) (fc_max_freq c))
                     (fc_max_possible_freq c)))
        (thermal_cap e cpu).

Definition capacities_current (e : fenv) (s : fsys) : Prop :=
  forall cpu, is_cpu cpu ->
    aget (x_capacity_orig s) cpu = capacity_at e cpu (cluster s (e_cluster_id e cpu)).

(** What an update may change of a cluster: its limit and the capacity that ignores
    the caps. *)
Record same_cluster (c d : fcluster) : Prop := mk_same {
  sc_cpus : fc_cpus d = fc_cpus c;
  sc_possible : fc_max_possible_freq d = fc_max_possible_freq c;
  sc_max : fc_max_freq d = fc_max_freq c;
  sc_found : fc_found_ts d = fc_found_ts c;
  sc_info : fc_info d = fc_info c
}.

Lemma same_cluster_refl c : same_cluster c c.
Proof. done. Qed.
Lemma same_cluster_trans a b c : same_cluster a b -> same_cluster b c -> same_cluster a c.
Proof. intros [] []. constructor; congruence. Qed.

Record kept (s s' : fsys) : Prop := mk_kept {
  kp_num : num_clusters s' = num_clusters s;
  kp_caps : x_freq_cap s' = x_freq_cap s;
  kp_init : x_init_done s' = x_init_done s;
  kp_callbacks : x_callbacks s' = x_callbacks s;
  kp_capacity : length (x_capacity_orig s') = length (x_capacity_orig s);
  kp_cluster : forall id, 0 <= id -> same_cluster (cluster s id) (cluster s' id)
}.

Lemma kept_refl s : kept s s.
Proof. constructor; auto using same_cluster_refl. Qed.
Lemma kept_trans a b c : kept a b -> kept b c -> kept a c.
Proof. intros [] []. constructor; try congruence. eauto using same_cluster_trans. Qed.

Lemma kept_sys_ok e s s' : kept s s' -> sys_ok e s -> sys_ok e s'.
Proof.
  intros [Hn Hc _ _ Hl Hk] [H1 H2 H3 H4]. constructor.
  - unfold caps_ok. by rewrite Hn, Hc.
  - by rewrite Hl.
  - intros. rewrite Hn. by apply H3.
  - intros id cpu Hi Hcpu. rewrite Hn in Hi. rewrite (sc_cpus _ _ (Hk id (proj1 Hi))). by apply H4.
Qed.

(** ** Capacity of one CPU *)

Lemma helper_enabled e cpu s :
  e_walt_disabled e = false ->
  update_cpu_capacity_helper e cpu s =
  set_cluster (e_cluster_id e cpu) (set fc_pre_smart_freq_capacity (fun _ => thermal_cap e cpu))
    (set x_capacity_orig (fun l => aset l cpu (capacity_at e cpu (cluster s (e_cluster_id e cpu)))) s).
Proof.
  intros Hd. unfold update_cpu_capacity_helper. rewrite Hd. unfold capacity_at, thermal_cap.
  by destruct (fc_limit _ =? fc_max_possible_freq _).
Qed.

Lemma helper_spec e cpu s :
  e_walt_disabled e = false -> sys_ok e s -> is_cpu cpu ->
  let s' := update_cpu_capacity_helper e cpu s in
  kept s s' /\ (forall id, 0 <= id -> fc_limit (cluster s' id) = fc_limit (cluster s id)) /\
  forall c, is_cpu c -> aget (x_capacity_orig s') c =
    if cpu =? c then capacity_at e c (cluster s' (e_cluster_id e c)) else aget (x_capacity_orig s) c.
Proof.
  intros Hd Hok Hcpu. cbv zeta. rewrite helper_enabled by done.
  pose proof (so_cluster e s Hok cpu Hcpu) as Hid.
  set (s1 := set x_capacity_orig _ s).
  assert (forall j, 0 <= j -> cluster (set_cluster (e_cluster_id e cpu)
    (set fc_pre_smart_freq_capacity (fun _ => thermal_cap e cpu)) s1) j =
    if e_cluster_id e cpu =? j then set fc_pre_smart_freq_capacity (fun _ => thermal_cap e cpu) (cluster s j)
    else cluster s j) as Hcl.
  { intros j Hj. rewrite cluster_set by done. by destruct (Z.eqb_spec (e_cluster_id e cpu) j) as [->|]. }
  split; [|split].
  - constructor; try done.
    + by rewrite num_set_cluster.
    + unfold set_cluster, s1. cbn. by rewrite length_aset.
    + intros j Hj. rewrite Hcl by done. by destruct (_ =? j).
  - intros j Hj. rewrite Hcl by done. by destruct (_ =? j).
  - intros c Hc. change (x_capacity_orig (set_cluster _ _ s1)) with (x_capacity_orig s1). cbn.
    pose proof (so_capacity e s Hok) as Hl. unfold is_cpu, WALT_NR_CPUS in *.
    rewrite aget_aset by lia. destruct (Z.eqb_spec cpu c) as [->|]; [|done].
    rewrite Hcl by apply Hid. rewrite Z.eqb_refl. done.
Qed.

(** ** One cluster *)

Lemma capacity_loop e id s :
  e_walt_disabled e = false -> sys_ok e s -> 0 <= id < num_clusters s ->
  let s' := for_each_cpu (fc_cpus (cluster s id)) (update_cpu_capacity_helper e) s in
  kept s s' /\ (forall j, 0 <= j -> fc_limit (cluster s' j) = fc_limit (cluster s j)) /\
  forall c, is_cpu c -> aget (x_capacity_orig s') c =
    if e_cluster_id e c =? id then capacity_at e c (cluster s' (e_cluster_id e c)) else aget (x_capacity_orig s) c.
Proof.
  intros Hd Hok Hid.
  pose (P := fun n s' => kept s s' /\ (forall j, 0 <= j -> fc_limit (cluster s' j) = fc_limit (cluster s j)) /\
    forall c, is_cpu c -> aget (x_capacity_orig s') c =
      if (e_cluster_id e c =? id) && (c <? n) then capacity_at e c (cluster s' (e_cluster_id e c))
      else aget (x_capacity_orig s) c).
  assert (P WALT_NR_CPUS (for_each_cpu (fc_cpus (cluster s id)) (update_cpu_capacity_helper e) s)) as H.
  { apply for_each_cpu_ind.
    - split; [apply kept_refl|]. split; [done|]. intros c [Hc _].
      destruct (Z.ltb_spec c 0); [lia|]. by rewrite andb_false_r.
    - intros cpu t Hcpu Hb (Hk & Hl & Hc). pose proof (kept_sys_ok e _ _ Hk Hok) as Hok'.
      destruct (helper_spec e cpu t Hd Hok' Hcpu) as (Hk' & Hl' & Hc'). cbv zeta in *.
      split; [by apply (kept_trans s t)|]. split; [intros j Hj; by rewrite Hl', Hl|].
      intros c Hcc. rewrite Hc' by done. rewrite (so_cpus e s Hok id cpu Hid Hcpu) in Hb.
      destruct (Z.eqb_spec cpu c) as [->|Hne].
      { rewrite Hb. destruct (Z.ltb_spec c (c + 1)); [done|lia]. }
      rewrite Hc by done. replace (c <? cpu + 1) with (c <? cpu) by lia.
      destruct ((e_cluster_id e c =? id) && (c <? cpu)); [|done].
      assert (0 <= e_cluster_id e c) as Hp by (pose proof (so_cluster e s Hok c Hcc); lia).
      destruct (kp_cluster _ _ Hk' _ Hp). unfold capacity_at.
      by rewrite Hl', sc_possible0, sc_max0 by done.
    - intros cpu t Hcpu Hb (Hk & Hl & Hc). split; [done|]. split; [done|]. intros c Hcc. rewrite Hc by done.
      rewrite (so_cpus e s Hok id cpu Hid Hcpu) in Hb.
      destruct (Z.eqb_spec (e_cluster_id e c) id) as [Hce|]; [|done]. cbn [andb].
      assert (c <> cpu) by (intros ->; lia). replace (c <? cpu + 1) with (c <? cpu) by lia. done. }
  destruct H as (Hk & Hl & Hc). split; [done|]. split; [done|]. intros c Hcc. rewrite Hc by done.
  destruct (Z.ltb_spec c WALT_NR_CPUS); [by rewrite andb_true_r|unfold is_cpu in Hcc; lia].
Qed.

(** Updating one cluster sets its limit, and the capacities are current again. *)
Lemma one_cluster_spec e id s :
  x_init_done s = true -> e_walt_disabled e = false -> sys_ok e s -> 0 <= id < num_clusters s ->
  capacities_current e s ->
  let s' := update_smart_freq_capacities_one_cluster e id s in
  kept s s' /\ capacities_current e s' /\
  forall j, 0 <= j -> fc_limit (cluster s' j) = if id =? j then internal_limit e id s else fc_limit (cluster s j).
Proof.
  intros Hi Hd Hok Hid Hcur. cbv zeta. unfold update_smart_freq_capacities_one_cluster. rewrite Hi. cbn [negb].
  unfold has_internal_freq_limit_changed. set (l := internal_limit e id s).
  set (s1 := set_cluster id (set fc_limit (fun _ => l)) s).
  assert (forall j, 0 <= j -> cluster s1 j = if id =? j then set fc_limit (fun _ => l) (cluster s id) else cluster s j)
    as Hcl by (intros; unfold s1; by rewrite cluster_set).
  assert (kept s s1) as Hk1.
  { constructor; try done; [by apply num_set_cluster|]. intros j Hj. rewrite Hcl by done.
    by destruct (Z.eqb_spec id j) as [->|]. }
  assert (forall j, 0 <= j -> fc_limit (cluster s1 j) = if id =? j then l else fc_limit (cluster s j)) as Hl1.
  { intros j Hj. rewrite Hcl by done. by destruct (id =? j). }
  destruct (Z.eqb_spec l (fc_limit (cluster s id))) as [El|El]; cbn [negb].
  - split; [done|]. split; [|done]. intros cpu Hcpu.
    change (x_capacity_orig s1) with (x_capacity_orig s). rewrite Hcur by done.
    pose proof (so_cluster e s Hok cpu Hcpu) as Hp. rewrite Hcl by apply Hp.
    destruct (Z.eqb_spec id (e_cluster_id e cpu)) as [->|]; [|done].
    unfold capacity_at. cbn. by rewrite El.
  - destruct (capacity_loop e id s1 Hd (kept_sys_ok e _ _ Hk1 Hok)) as (Hk & Hl & Hc);
      [by rewrite (kp_num _ _ Hk1)|]. cbv zeta in *.
    split; [by apply (kept_trans s s1)|]. split; [|intros j Hj; by rewrite Hl, Hl1].
    intros cpu Hcpu. rewrite Hc by done. pose proof (so_cluster e s Hok cpu Hcpu) as Hp.
    destruct (Z.eqb_spec (e_cluster_id e cpu) id) as [E|E]; [done|].
    change (x_capacity_orig s1) with (x_capacity_orig s). rewrite Hcur by done.
    destruct (kp_cluster _ _ Hk _ (proj1 Hp)). unfold capacity_at.
    rewrite sc_possible0, sc_max0, Hl, Hl1, Hcl by apply Hp.
    destruct (Z.eqb_spec id (e_cluster_id e cpu)); [lia|done].
Qed.

(** ** All clusters *)

(** The limit a cluster sets by itself. *)
Definition own_limit (s : fsys) (id : Z) : Z :=
  let c := cluster s id in
  Z.max (if f_ipc_participation_mask (fc_info c) =? 0 then 0
         else u32 (aget (f_ipc_freq_allowed (fc_info c)) (f_ipc_level (fc_info c))))
    (Z.min (fc_max_freq c)
       (Z.min (cap_of s PARTIAL_HALT_CAP id) (Z.min (cap_of s SMART_FREQ id) (cap_of s HIGH_PERF_CAP id)))).

(** The frequency that the limit of a cluster asks of the next one. *)
Definition asks (s : fsys) (id l : Z) : Z :=
  if l =? FREQ_QOS_MAX_DEFAULT_VALUE then fc_max_possible_freq (cluster s id) else l.

Fixpoint limit_spec (e : fenv) (s : fsys) (id : nat) : Z :=
  match id with
  | O => own_limit s 0
  | S m => if e_sync_freq_cap e
           then Z.max (own_limit s (Z.of_nat id)) (asks s (Z.of_nat m) (limit_spec e s m))
           else own_limit s (Z.of_nat id)
  end.

Lemma internal_limit_eq e id s :
  internal_limit e id s =
  if (0 <? id) && e_sync_freq_cap e
  then Z.max (own_limit s id) (asks s (id - 1) (fc_limit (cluster s (id - 1)))) else own_limit s id.
Proof.
  unfold internal_limit, own_limit, asks. cbv zeta.
  change (for_range 0 (Z.to_nat MAX_FREQ_CAP) (fun i l => Z.min (cap_of s i id) l) (fc_max_freq (cluster s id)))
    with (Z.min (cap_of s 2 id) (Z.min (cap_of s 1 id) (Z.min (cap_of s 0 id) (fc_max_freq (cluster s id))))).
  unfold PARTIAL_HALT_CAP, SMART_FREQ, HIGH_PERF_CAP.
  destruct (f_ipc_participation_mask _ =? 0); cbn [negb]; (case_if; [|lia]); case_if; lia.
Qed.

Lemma own_limit_kept s s' id : kept s s' -> 0 <= id -> own_limit s' id = own_limit s id.
Proof.
  intros [_ Hc _ _ _ Hk] Hid. destruct (Hk id Hid) as [_ _ H2 _ H4]. unfold own_limit, cap_of.
  by rewrite H2, H4, Hc.
Qed.

Lemma update_all_spec e s :
  x_init_done s = true -> e_walt_disabled e = false -> sys_ok e s -> capacities_current e s ->
  let s' := update_smart_freq_capacities e s in
  kept s s' /\ capacities_current e s' /\
  forall id, 0 <= id < num_clusters s -> fc_limit (cluster s' id) = limit_spec e s (Z.to_nat id).
Proof.
  intros Hi Hd Hok Hcur. cbv zeta. unfold update_smart_freq_capacities, for_each_sched_cluster. rewrite Hi. cbn [negb].
  pose (P := fun n s' => kept s s' /\ capacities_current e s' /\
    forall id, 0 <= id < n -> fc_limit (cluster s' id) = limit_spec e s (Z.to_nat id)).
  assert (P (0 + Z.of_nat (Z.to_nat (num_clusters s)))
    (for_range 0 (Z.to_nat (num_clusters s)) (update_smart_freq_capacities_one_cluster e) s)) as H.
  { apply (for_range_ind P); [split; [apply kept_refl|]; split; [done|]; intros; lia|].
    intros id t Hid (Hk & Hc & Hl).
    assert (0 <= id < num_clusters t) as Hid' by (rewrite (kp_num _ _ Hk); lia).
    destruct (one_cluster_spec e id t) as (Hk' & Hc' & Hl');
      [by rewrite (kp_init _ _ Hk)|done|by apply (kept_sys_ok e s)|done|done|]. cbv zeta in *.
    split; [by apply (kept_trans s t)|]. split; [done|]. intros j Hj. rewrite Hl' by lia.
    destruct (Z.eqb_spec id j) as [->|]; [|apply Hl; lia].
    rewrite internal_limit_eq, (own_limit_kept s t j Hk) by lia.
    destruct (Z.to_nat j) as [|m] eqn:Em; [by replace j with 0 by lia|].
    cbn [limit_spec]. replace (Z.of_nat (S m)) with j by lia.
    destruct (Z.ltb_spec 0 j); [|lia]. cbn [andb]. destruct (e_sync_freq_cap e); [|done].
    replace (Z.of_nat m) with (j - 1) by lia. unfold asks.
    rewrite Hl by lia. replace (Z.to_nat (j - 1)) with m by lia.
    by rewrite (sc_possible _ _ (kp_cluster _ _ Hk (j - 1) ltac:(lia))). }
  replace (0 + Z.of_nat (Z.to_nat (num_clusters s))) with (num_clusters s) in H by (unfold num_clusters; lia).
  exact H.
Qed.

(** After an update the limit of every cluster is the smallest of its caps and its
    maximal frequency, raised to what the IPC level allows and, when the clusters are
    synchronised, to what the cluster below asks for, so that the limits do not fall
    from a cluster to the next; the capacity of every CPU is the one of the new limit;
    nothing else changes. *)
Theorem capacities_follow_limits e s :
  x_init_done s = true -> e_walt_disabled e = false -> sys_ok e s -> capacities_current e s ->
  let s' := update_smart_freq_capacities e s in
  (forall id, 0 <= id < num_clusters s -> fc_limit (cluster s' id) = limit_spec e s (Z.to_nat id)) /\
  (forall id, 0 < id < num_clusters s -> e_sync_freq_cap e = true ->
     fc_limit (cluster s' (id - 1)) <> FREQ_QOS_MAX_DEFAULT_VALUE ->
     fc_limit (cluster s' (id - 1)) <= fc_limit (cluster s' id)) /\
  capacities_current e s' /\ kept s s'.
Proof.
  intros Hi Hd Hok Hcur. destruct (update_all_spec e s Hi Hd Hok Hcur) as (Hk & Hc & Hl). cbv zeta in *.
  split; [exact Hl|]. split; [|by split].
  intros id Hid Hs Hne. rewrite (Hl id) by lia. rewrite (Hl (id - 1)) in * by lia.
  destruct (Z.to_nat id) as [|m] eqn:Em; [lia|]. replace (Z.to_nat (id - 1)) with m in * by lia.
  cbn [limit_spec]. rewrite Hs. unfold asks.
  destruct (Z.eqb_spec (limit_spec e s m) FREQ_QOS_MAX_DEFAULT_VALUE); [done|]. lia.
Qed.

(** A two-cluster system: the small cluster is capped by partial halt, the big one by
    its smart-frequency reasons. *)
Definition demo_env : fenv :=
  mk_fenv false (fun cpu => if cpu <? 4 then 512 else 1024) (fun _ => 100)
    (fun cpu => if cpu <? 4 then 0 else 1) true.
Definition demo_info : smart_freq_cluster_info :=
  mk_sfi 15 0 0 100 0 (2400000 :: replicate 10 FREQ_QOS_MAX_DEFAULT_VALUE) (replicate 11 1000)
    (replicate 11 0) (replicate 5 0) (replicate 5 0).
Definition demo_fsys : fsys :=
  mk_fsys true [mk_fc 15 2000000 2000000 2000000 412 0 demo_info;
                mk_fc 240 3000000 3000000 3000000 924 0 demo_info]
    [[1000000; FREQ_QOS_MAX_DEFAULT_VALUE; FREQ_QOS_MAX_DEFAULT_VALUE; FREQ_QOS_MAX_DEFAULT_VALUE];
     [FREQ_QOS_MAX_DEFAULT_VALUE; 2400000; FREQ_QOS_MAX_DEFAULT_VALUE; FREQ_QOS_MAX_DEFAULT_VALUE];
     replicate 4 FREQ_QOS_MAX_DEFAULT_VALUE]
    (replicate 4 412 ++ replicate 4 924) [].

(** Checks a statement for each of the CPUs. *)
Ltac each_cpu c H :=
  let H' := fresh in
  assert (c = 0 \/ c = 1 \/ c = 2 \/ c = 3 \/ c = 4 \/ c = 5 \/ c = 6 \/ c = 7) as H'
    by (unfold is_cpu, WALT_NR_CPUS in H; lia);
  destruct H' as [->|[->|[->|[->|[->|[->|[->| ->]]]]]]].

Lemma demo_fsys_ok : sys_ok demo_env demo_fsys.
Proof.
  constructor.
  - split; [done|]. repeat constructor; done.
  - done.
  - intros cpu H. each_cpu cpu H; done.
  - intros id cpu Hid H. assert (id = 0 \/ id = 1) as [-> | ->] by (change (num_clusters demo_fsys) with 2 in Hid; lia);
      each_cpu cpu H; done.
Qed.

Lemma demo_current : capacities_current demo_env demo_fsys.
Proof. intros cpu H. each_cpu cpu H; reflexivity. Qed.

Lemma capacities_follow_limits_witness :
  fc_limit (cluster (update_smart_freq_capacities demo_env demo_fsys) 0) = 1000000 /\
  capacities_current demo_env (update_smart_freq_capacities demo_env demo_fsys).
Proof.
  destruct (capacities_follow_limits demo_env demo_fsys) as (H1 & _ & H2 & _).
  - reflexivity.
  - reflexivity.
  - exact demo_fsys_ok.
  - exact demo_current.
  - split; [rewrite H1; [reflexivity|done]|exact H2].
Defined.

End Limits.

(** ** Reasons *)

Module Reasons.

Section Bits.

Lemma bit_spec i j : 0 <= i -> 0 <= j -> Z.testbit (bit i) j = (i =? j).
Proof. intros Hi Hj. unfold bit. rewrite Z.shiftl_1_l. by apply Z.pow2_bits_eqb. Qed.

Lemma land_bit x i : 0 <= i -> (Z.land x (bit i) =? 0) = negb (Z.testbit x i).
Proof.
  intros Hi. destruct (Z.testbit x i) eqn:E; cbn [negb].
  - apply Z.eqb_neq. intros H. assert (Z.testbit (Z.land x (bit i)) i = true) as Hb
      by (rewrite Z.land_spec, E, bit_spec, Z.eqb_refl by done; done).
    by rewrite H, Z.bits_0 in Hb.
  - apply Z.eqb_eq, Z.bits_inj'. intros j Hj. rewrite Z.land_spec, bit_spec, Z.bits_0 by done.
    destruct (Z.eqb_spec i j) as [->|]; [by rewrite E|by rewrite andb_false_r].
Qed.

Lemma ldiff_land_bit x i : Z.ldiff (Z.land x (bit i)) (bit i) = 0.
Proof.
  apply Z.bits_inj'. intros j Hj. rewrite Z.ldiff_spec, Z.land_spec, Z.bits_0.
  destruct (Z.testbit x j), (Z.testbit (bit i) j); done.
Qed.

End Bits.

Definition rest_of (f : smart_freq_cluster_info) :=
  (f_participation_mask f, f_ipc_level f, f_min_cycles f, f_ipc_participation_mask f,
   (f_freq_allowed f, f_hyst_ns f, f_ipc f, f_ipc_freq_allowed f)).

Section OneCluster.
Context (current wallclock : Z) (info : smart_freq_cluster_info).

Definition now (i : Z) : bool := Z.testbit current i.
Definition was (i : Z) : bool := Z.testbit (f_active_reason info) i.

(** The hysteresis of a reason that is no longer seen is over. *)
Definition expired (i : Z) : bool :=
  negb (aget (f_deactivate_ns info) i =? 0) &&
  (aget (f_hyst_ns info) i <=? u64 (wallclock - aget (f_deactivate_ns info) i)).

Definition stays (i : Z) : bool := now i || (was i && negb (expired i)).

Definition next_deactivate (i : Z) : Z :=
  if now i then 0
  else if was i then
    if aget (f_deactivate_ns info) i =? 0 then wallclock
    else if expired i then 0 else aget (f_deactivate_ns info) i
  else aget (f_deactivate_ns info) i.

(** [r] is the largest frequency allowed to the cluster among those of the reasons
    below [n] that stay and the one allowed without a reason. *)
Definition largest_allowed (n r : Z) : Prop :=
  aget (f_freq_allowed info) NO_REASON_SMART_FREQ <= r /\
  (forall i, 0 <= i < n -> stays i = true -> aget (f_freq_allowed info) i <= r) /\
  (r = aget (f_freq_allowed info) NO_REASON_SMART_FREQ \/
   exists i, 0 <= i < n /\ stays i = true /\ r = aget (f_freq_allowed info) i).

(** The reasons after the update; [rest_of] is what it does not touch. *)
Record advanced_to (n : Z) (info' : smart_freq_cluster_info) : Prop := mk_adv {
  av_active : forall i, 0 <= i -> Z.testbit (f_active_reason info') i = if i <? n then stays i else was i;
  av_deactivate : forall i, 0 <= i -> aget (f_deactivate_ns info') i =
    if i <? n then next_deactivate i else aget (f_deactivate_ns info) i;
  av_length : length (f_deactivate_ns info') = length (f_deactivate_ns info);
  av_rest : rest_of info' = rest_of info
}.

Lemma largest_allowed_step n r :
  0 <= n -> largest_allowed n r ->
  largest_allowed (n + 1)
    (if stays n then Z.max r (aget (f_freq_allowed info) n) else r).
Proof.
  intros Hn (H0 & H1 & H2). destruct (stays n) eqn:Es; [destruct (Z.max_spec r (aget (f_freq_allowed info) n)) as [[? ->]|[? ->]]|].
  - split; [lia|]. split.
    + intros i Hi Hs. destruct (Z.eq_dec i n) as [->|]; [lia|]. specialize (H1 i ltac:(lia) Hs). lia.
    + right. exists n. split; [lia|done].
  - split; [done|]. split.
    + intros i Hi Hs. destruct (Z.eq_dec i n) as [->|]; [lia|]. apply H1; [lia|done].
    + destruct H2 as [|(i & Hi & Hs & ->)]; [by left|right; exists i; split; [lia|done]].
  - split; [done|]. split.
    + intros i Hi Hs. destruct (Z.eq_dec i n) as [->|]; [congruence|]. apply H1; [lia|done].
    + destruct H2 as [|(i & Hi & Hs & ->)]; [by left|right; exists i; split; [lia|done]].
Qed.

(** Advancing by one reason. *)
Lemma advanced_to_next i info' info'' :
  0 <= i -> advanced_to i info' ->
  (forall j, 0 <= j -> Z.testbit (f_active_reason info'') j =
     if i =? j then stays i else Z.testbit (f_active_reason info') j) ->
  (forall j, 0 <= j -> aget (f_deactivate_ns info'') j =
     if i =? j then next_deactivate i else aget (f_deactivate_ns info') j) ->
  rest_of info'' = rest_of info' ->
  length (f_deactivate_ns info'') = length (f_deactivate_ns info') ->
  advanced_to (i + 1) info''.
Proof.
  intros Hi [Ha Hd Hl Hr] Ha' Hd' Hs Hl'. constructor.
  - intros j Hj. rewrite Ha', Ha by done.
    destruct (Z.eqb_spec i j) as [->|]; [destruct (Z.ltb_spec j (j + 1)); [done|lia]|].
    by replace (j <? i + 1) with (j <? i) by lia.
  - intros j Hj. rewrite Hd', Hd by done.
    destruct (Z.eqb_spec i j) as [->|]; [destruct (Z.ltb_spec j (j + 1)); [done|lia]|].
    by replace (j <? i + 1) with (j <? i) by lia.
  - by rewrite Hl'.
  - by rewrite Hs.
Qed.

(** The reasons and the local copy of the active bit in the middle of a turn. *)
Definition turn (i : Z) (info' : smart_freq_cluster_info) : smart_freq_cluster_info :=
  if now i then
    set f_active_reason (fun a => Z.lor a (bit i)) (set f_deactivate_ns (fun l => aset l i 0) info')
  else if was i then
    if aget (f_deactivate_ns info) i =? 0 then set f_deactivate_ns (fun l => aset l i wallclock) info'
    else if expired i then
      set f_active_reason (fun a => Z.ldiff a (bit i)) (set f_deactivate_ns (fun l => aset l i 0) info')
    else info'
  else info'.

Lemma reason_step_turn i info' cap :
  0 <= i -> advanced_to i info' ->
  reason_step current wallclock i (info', cap) =
  (turn i info', if stays i then Z.max cap (aget (f_freq_allowed info) i) else cap).
Proof.
  intros Hi [Ha Hd _ Hr]. injection Hr as _ _ _ _ R5 R6 _ _.
  specialize (Ha i Hi). specialize (Hd i Hi). rewrite Z.ltb_irrefl in Ha, Hd.
  unfold reason_step, turn, stays, expired. cbv zeta. rewrite !land_bit, Ha, Hd, R6, !negb_involutive by lia.
  fold (now i).
  destruct (now i), (was i) eqn:Ew; cbn [orb andb negb];
    try (rewrite orb_true_r; cbn; rewrite R5; case_if; f_equal; lia); try done.
  - destruct (aget (f_deactivate_ns info) i =? 0); cbn [orb andb negb].
    + rewrite land_bit, Ha by lia. cbn. rewrite R5. case_if; f_equal; lia.
    + destruct (_ <=? _); cbn [orb andb negb].
      * rewrite ldiff_land_bit. done.
      * rewrite land_bit, Ha by lia. cbn. rewrite R5. case_if; f_equal; lia.
  - rewrite land_bit, Ha by lia. done.
Qed.

Hypothesis Hlen : length (f_deactivate_ns info) = Z.to_nat LEGACY_SMART_FREQ.

Lemma turn_advanced i info' :
  0 <= i < LEGACY_SMART_FREQ -> advanced_to i info' -> advanced_to (i + 1) (turn i info').
Proof.
  intros Hi Hadv. pose proof Hadv as [Ha Hd Hl _].
  specialize (Ha i (proj1 Hi)). specialize (Hd i (proj1 Hi)). rewrite Z.ltb_irrefl in Ha, Hd.
  assert (forall v j, 0 <= j -> aget (aset (f_deactivate_ns info') i v) j =
    if i =? j then v else aget (f_deactivate_ns info') j) as Hset.
  { intros v j Hj. apply aget_aset; [|done]. rewrite Hl, Hlen. unfold LEGACY_SMART_FREQ in *. lia. }
  assert (forall b j, b = Z.testbit (f_active_reason info') i ->
    Z.testbit (f_active_reason info') j = if i =? j then b else Z.testbit (f_active_reason info') j) as Hsame
    by (intros b j ->; by destruct (Z.eqb_spec i j) as [->|]).
  assert (forall v j, v = aget (f_deactivate_ns info') i ->
    aget (f_deactivate_ns info') j = if i =? j then v else aget (f_deactivate_ns info') j) as Hsame'
    by (intros v j ->; by destruct (Z.eqb_spec i j) as [->|]).
  apply (advanced_to_next i info'); [lia|done|..]; unfold turn, stays, next_deactivate, expired;
    destruct (now i), (was i); cbn [orb andb negb];
    try destruct (aget (f_deactivate_ns info) i =? 0); cbn [orb andb negb];
    try destruct (aget (f_hyst_ns info) i <=? _); cbn;
    try (by intros; apply Hset); try (by intros; apply Hsame); try (by intros; apply Hsame');
    try (by rewrite ?length_aset); try (by destruct info').
  all: intros j Hj; rewrite ?Z.lor_spec, ?Z.ldiff_spec, bit_spec by lia; destruct (Z.eqb_spec i j) as [->|];
    by rewrite ?orb_true_r, ?orb_false_r, ?andb_false_r, ?andb_true_r.
Qed.

End OneCluster.

(** ** The cap of a cluster *)

Lemma reasons_loop current wallclock info :
  length (f_deactivate_ns info) = Z.to_nat LEGACY_SMART_FREQ ->
  let '(info', cap) := for_range 0 (Z.to_nat LEGACY_SMART_FREQ) (reason_step current wallclock)
                         (info, aget (f_freq_allowed info) NO_REASON_SMART_FREQ) in
  advanced_to current wallclock info LEGACY_SMART_FREQ info' /\
  largest_allowed current wallclock info LEGACY_SMART_FREQ cap.
Proof.
  intros Hlen.
  pose (P := fun n (st : smart_freq_cluster_info * Z) =>
    advanced_to current wallclock info n st.1 /\ largest_allowed current wallclock info n st.2).
  match goal with |- let '(_, _) := ?t in _ => assert (P LEGACY_SMART_FREQ t) as H end.
  { apply (for_range_ind P 0 (Z.to_nat LEGACY_SMART_FREQ)).
    - split.
      + constructor; try done; intros i Hi; destruct (Z.ltb_spec i 0); [lia|done|lia|done].
      + split; [cbn; lia|]. split; [intros; lia|by left].
    - intros i [info' cap] Hi [H1 H2]. cbn [fst snd] in *.
      rewrite (reason_step_turn current wallclock info i info' cap) by (done || lia).
      split; [apply turn_advanced; [done|exact Hi|done]|apply largest_allowed_step; [lia|done]]. }
  destruct (for_range _ _ _ _) as [info' cap]. exact H.
Qed.

(** The reasons of the cluster are in order: a stamp per reason, frequencies of 32 bits. *)
Definition info_ok (info : smart_freq_cluster_info) : Prop :=
  length (f_deactivate_ns info) = Z.to_nat LEGACY_SMART_FREQ /\
  forall i, 0 <= i -> 0 <= aget (f_freq_allowed info) i < 4294967296.

Lemma info_ok_advanced c w info n info' : advanced_to c w info n info' -> info_ok info -> info_ok info'.
Proof.
  intros [_ _ Hl Hr] [H1 H2]. injection Hr as _ _ _ _ Hf _ _ _. split; [by rewrite Hl|by rewrite Hf].
Qed.

Lemma one_cluster_reasons id current wallclock s :
  Limits.caps_ok s -> 0 <= id < num_clusters s -> info_ok (fc_info (cluster s id)) ->
  let info := fc_info (cluster s id) in
  let s' := smart_freq_update_one_cluster id current wallclock s in
  advanced_to current wallclock info LEGACY_SMART_FREQ (fc_info (cluster s' id)) /\
  largest_allowed current wallclock info LEGACY_SMART_FREQ (cap_of s' SMART_FREQ id) /\
  x_callbacks s' = (if cap_of s SMART_FREQ id =? cap_of s' SMART_FREQ id then [] else [id]) ++ x_callbacks s /\
  (forall c j, 0 <= c -> 0 <= j -> ~ (c = SMART_FREQ /\ j = id) -> cap_of s' c j = cap_of s c j) /\
  (forall j, 0 <= j -> j <> id -> cluster s' j = cluster s j) /\
  num_clusters s' = num_clusters s /\ Limits.caps_ok s'.
Proof.
  intros Hcaps Hid [Hlen Hrange]. cbv zeta. unfold smart_freq_update_one_cluster.
  pose proof (reasons_loop current wallclock (fc_info (cluster s id)) Hlen) as H.
  destruct (for_range _ _ _ _) as [info' cap]. destruct H as [Hadv Hmax].
  set (s1 := set_cluster id (on_info (fun _ => info')) s).
  assert (0 <= cap < 4294967296) as Hcap.
  { destruct Hmax as (_ & _ & [->|(i & Hi & _ & ->)]); apply Hrange; [done|lia]. }
  assert (forall j, 0 <= j -> cluster s1 j = if id =? j then on_info (fun _ => info') (cluster s id) else cluster s j)
    as Hcl by (intros; unfold s1; by rewrite Limits.cluster_set).
  assert (num_clusters s1 = num_clusters s) as Hn by apply Limits.num_set_cluster.
  assert (Limits.caps_ok s1) as Hc1 by (unfold Limits.caps_ok in *; by rewrite Hn).
  assert (fc_info (cluster s1 id) = info') as Hinfo by (by rewrite Hcl, Z.eqb_refl by lia).
  assert (forall j, 0 <= j -> j <> id -> cluster s1 j = cluster s j) as Hother
    by (intros j Hj Hne; rewrite Hcl by done; destruct (Z.eqb_spec id j); [lia|done]).
  destruct (Z.eqb_spec (cap_of s SMART_FREQ id) cap) as [E|E].
  - change (cap_of s1 SMART_FREQ id) with (cap_of s SMART_FREQ id). rewrite Hinfo, Z.eqb_refl, E. done.
  - set (s2 := set_cap SMART_FREQ id (u32 cap) s1). cbn [cluster cap_of x_callbacks].
    change (cap_of (set x_callbacks (fun l => id :: l) s2)) with (cap_of s2).
    change (cluster (set x_callbacks (fun l => id :: l) s2)) with (cluster s1).
    assert (forall c j, 0 <= c -> 0 <= j -> cap_of s2 c j =
      if (SMART_FREQ =? c) && (id =? j) then cap else cap_of s c j) as Hs2.
    { intros c j Hc Hj. unfold s2. rewrite Limits.cap_set by (done || lia). by rewrite (u32_small cap Hcap). }
    rewrite Hinfo, !Hs2, !Z.eqb_refl by (done || lia). cbn [andb].
    split; [done|]. split; [done|]. split; [by destruct (Z.eqb_spec (cap_of s SMART_FREQ id) cap)|].
    split; [|split; [done|split; [exact Hn|by apply Limits.caps_ok_set]]].
    intros c j Hc Hj Hne. rewrite Hs2 by done. destruct (Z.eqb_spec SMART_FREQ c), (Z.eqb_spec id j); try done.
    by destruct Hne.
Qed.

(** An update of the reasons of a cluster: a reason is active afterwards when it holds
    now, or was active and its hysteresis is not over; the cap is the largest frequency
    that an active reason allows, at least the one allowed without a reason; the
    governor of the cluster is called exactly when the cap changes; nothing else does. *)
Theorem smart_freq_cap_spec id current wallclock s :
  Limits.caps_ok s -> 0 <= id < num_clusters s -> info_ok (fc_info (cluster s id)) ->
  let info := fc_info (cluster s id) in
  let s' := smart_freq_update_one_cluster id current wallclock s in
  advanced_to current wallclock info LEGACY_SMART_FREQ (fc_info (cluster s' id)) /\
  largest_allowed current wallclock info LEGACY_SMART_FREQ (cap_of s' SMART_FREQ id) /\
  x_callbacks s' = (if cap_of s SMART_FREQ id =? cap_of s' SMART_FREQ id then [] else [id]) ++ x_callbacks s /\
  (forall c j, 0 <= c -> 0 <= j -> ~ (c = SMART_FREQ /\ j = id) -> cap_of s' c j = cap_of s c j) /\
  (forall j, 0 <= j -> j <> id -> cluster s' j = cluster s j).
Proof.
  intros H1 H2 H3. destruct (one_cluster_reasons id current wallclock s H1 H2 H3) as (A & B & C & D & E & _).
  cbv zeta. by split_and!.
Qed.

(** ** Hysteresis over ticks *)

(** Updates of a cluster, each with the reasons that hold and its clock. *)
Definition ticks (id : Z) (l : list (Z * Z)) (s : fsys) : fsys :=
  fold_left (fun s '(reasons, wallclock) => smart_freq_update_one_cluster id reasons wallclock s) l s.

Definition active (s : fsys) (id i : Z) : bool := Z.testbit (f_active_reason (fc_info (cluster s id))) i.
Definition since (s : fsys) (id i : Z) : Z := aget (f_deactivate_ns (fc_info (cluster s id))) i.
Definition hyst (s : fsys) (id i : Z) : Z := aget (f_hyst_ns (fc_info (cluster s id))) i.

Definition ready (id : Z) (s : fsys) : Prop :=
  Limits.caps_ok s /\ 0 <= id < num_clusters s /\ info_ok (fc_info (cluster s id)).

(** One tick seen from one reason. *)
Lemma tick_reason id i current wallclock s :
  ready id s -> 0 <= i < LEGACY_SMART_FREQ ->
  let s' := smart_freq_update_one_cluster id current wallclock s in
  ready id s' /\ hyst s' id i = hyst s id i /\
  active s' id i = Z.testbit current i ||
    (active s id i && negb (negb (since s id i =? 0) && (hyst s id i <=? u64 (wallclock - since s id i)))) /\
  since s' id i =
    (if Z.testbit current i then 0
     else if active s id i then
       if since s id i =? 0 then wallclock
       else if negb (since s id i =? 0) && (hyst s id i <=? u64 (wallclock - since s id i)) then 0 else since s id i
     else since s id i).
Proof.
  intros (H1 & H2 & H3) Hi. cbv zeta.
  destruct (one_cluster_reasons id current wallclock s H1 H2 H3) as (A & _ & _ & _ & _ & N & C). cbv zeta in *.
  split; [split; [done|]; split; [by rewrite N|by apply (info_ok_advanced _ _ _ _ _ A)]|].
  destruct A as [Ha Hd _ Hr]. injection Hr as _ _ _ _ _ Hh _ _.
  unfold hyst, active, since. rewrite Hh, Ha, Hd by lia. destruct (Z.ltb_spec i LEGACY_SMART_FREQ); [|lia]. done.
Qed.

Lemma quiet_ticks id i t0 l s :
  ready id s -> 0 <= i < LEGACY_SMART_FREQ -> 0 < t0 ->
  active s id i = true -> since s id i = t0 ->
  Forall (fun '(reasons, wallclock) => Z.testbit reasons i = false /\ t0 <= wallclock < 2 ^ 64) l ->
  active (ticks id l s) id i = forallb (fun '(_, wallclock) => wallclock - t0 <? hyst s id i) l.
Proof.
  intros Hs Hi Ht Ha Hd Hl. revert s Hs Ha Hd.
  induction Hl as [|[r w] l [Hr Hw] Hl IH]; intros s Hs Ha Hd; [done|].
  cbn [ticks fold_left forallb].
  destruct (tick_reason id i r w s Hs Hi) as (Hs' & Hh & Ha' & Hd'). cbv zeta in *.
  set (s' := smart_freq_update_one_cluster id r w s) in *. clearbody s'. fold (ticks id l s').
  rewrite Hr, Ha, Hd in Ha', Hd'. rewrite u64_small in Ha', Hd' by lia.
  destruct (Z.eqb_spec t0 0); [lia|]. cbn [negb andb orb] in *.
  destruct (Z.leb_spec (hyst s id i) (w - t0)); cbn [negb] in *.
  - destruct (Z.ltb_spec (w - t0) (hyst s id i)); [lia|]. cbn [andb]. clear IH Hh.
    revert s' Hs' Ha' Hd'. clear -Hl Hi. induction Hl as [|[r w] l [Hr Hw] Hl IH]; intros s' Hs' Ha' Hd'; [done|].
    cbn [ticks fold_left]. destruct (tick_reason id i r w s' Hs' Hi) as (H1 & _ & H2 & H3). cbv zeta in *.
    rewrite Hr, Ha' in H2, H3. fold (ticks id l (smart_freq_update_one_cluster id r w s')).
    apply IH; [done|done|]. by rewrite H3.
  - destruct (Z.ltb_spec (w - t0) (hyst s id i)); [|lia]. cbn [andb]. rewrite <- Hh. by apply IH.
Qed.

(** A reason that was seen at one tick, is first missing at the tick of time [t0] and
    stays away stays active at every following tick up to the end of its hysteresis,
    counted from [t0], and is gone from the first tick at or after that end on. *)
Theorem reason_hysteresis id i r0 t r1 t0 l s :
  ready id s -> 0 <= i < LEGACY_SMART_FREQ -> 0 < t0 ->
  Z.testbit r0 i = true -> Z.testbit r1 i = false ->
  Forall (fun '(reasons, wallclock) => Z.testbit reasons i = false /\ t0 <= wallclock < 2 ^ 64) l ->
  active (ticks id ((r0, t) :: (r1, t0) :: l) s) id i =
  forallb (fun '(_, wallclock) => wallclock - t0 <? hyst s id i) l.
Proof.
  intros Hs Hi Ht Hr0 Hr1 Hl. cbn [ticks fold_left].
  destruct (tick_reason id i r0 t s Hs Hi) as (Hs1 & Hh1 & Ha1 & Hd1). cbv zeta in *.
  rewrite Hr0 in Ha1, Hd1. cbn [orb] in Ha1.
  destruct (tick_reason id i r1 t0 _ Hs1 Hi) as (Hs2 & Hh2 & Ha2 & Hd2). cbv zeta in *.
  rewrite Hr1, Ha1, Hd1 in Ha2, Hd2. change (0 =? 0) with true in Ha2, Hd2. cbn [negb andb orb] in Ha2, Hd2.
  rewrite <- Hh1, <- Hh2. by apply (quiet_ticks id i t0 l).
Qed.

Lemma demo_ready : ready 0 Limits.demo_fsys.
Proof.
  split; [exact (Limits.so_caps _ _ Limits.demo_fsys_ok)|]. split; [done|]. split; [reflexivity|]. intros i Hi.
  assert (Forall (fun z => 0 <= z < 4294967296) (f_freq_allowed Limits.demo_info)) as HF by (repeat constructor; done).
  unfold aget. rewrite nth_lookup. change (fc_info (cluster Limits.demo_fsys 0)) with Limits.demo_info.
  destruct (f_freq_allowed Limits.demo_info !! Z.to_nat i) eqn:E; [|done]. cbn.
  by apply (proj1 (Forall_lookup _ _) HF _ _ E).
Qed.

Lemma smart_freq_cap_spec_witness :
  cap_of (smart_freq_update_one_cluster 0 3 1000 Limits.demo_fsys) SMART_FREQ 0 = FREQ_QOS_MAX_DEFAULT_VALUE /\
  cap_of (smart_freq_update_one_cluster 0 3 1000 Limits.demo_fsys) SMART_FREQ 1 = 2400000.
Proof.
  destruct (smart_freq_cap_spec 0 3 1000 Limits.demo_fsys) as (_ & _ & _ & H & _).
  - exact (Limits.so_caps _ _ Limits.demo_fsys_ok).
  - done.
  - apply demo_ready.
  - split; [vm_compute; reflexivity|]. rewrite H; [reflexivity|done|done|]. intros [_ Hx]. done.
Defined.

Lemma reason_hysteresis_witness :
  active (ticks 0 [(2, 100); (1, 200); (1, 1100); (1, 1300)] Limits.demo_fsys) 0 1 = false.
Proof.
  rewrite (reason_hysteresis 0 1 2 100 1 200 [(1, 1100); (1, 1300)] Limits.demo_fsys).
  - reflexivity.
  - exact demo_ready.
  - done.
  - done.
  - reflexivity.
  - reflexivity.
  - repeat constructor; done.
Defined.

End Reasons.
