(* ===== verification/Voter.v ===== *)
(** * Voting objects

    A votable collects one vote per client and reports the minimum, the maximum
    or the disjunction of the enabled votes through a callback. Models
    [voter.c]: [vote_set_any], [vote_min], [vote_max], the getters, [vote],
    [rerun_election] and [create_votable]. A vote is two steps: the client
    stores its vote without a lock, then the election runs under the lock of the
    votable; the steps of different clients interleave. *)

From Stdlib Require Import ZArith Lia ZifyBool.
From stdpp Require Import base list relations.
From S2P Require Import Prelude.

(** ** Data *)

Definition NUM_MAX_CLIENTS : Z := 8.

Record client_vote := mk_cv { cv_enabled : bool; cv_value : Z }.

(** [enum votable_type]; [type] is an [int]. *)
Definition VOTE_MIN : Z := 0.
Definition VOTE_MAX : Z := 1.
Definition VOTE_SET_ANY : Z := 2.
Definition NUM_VOTABLE_TYPES : Z := 3.

(** The callback is a function pointer: [None] is NULL, [Some f] maps the result
    and the client it is called with to its return value. *)
Record votable := mk_votable {
  vt_votes : list client_vote;
  vt_num_clients : Z;
  vt_type : Z;
  vt_effective_client_id : Z;
  vt_effective_result : Z;
  vt_callback : option (Z -> Z -> Z);
  vt_voted_on : bool
}.

Definition no_vote : client_vote := mk_cv false 0.
Definition vote_at (v : votable) (i : Z) : client_vote := nth (Z.to_nat i) (vt_votes v) no_vote.

(** ** Elections *)

Definition vote_set_any (v : votable) (client_id : Z) : Z * Z :=
  (for_range 0 (Z.to_nat (vt_num_clients v))
     (fun i eff_res => Z.lor eff_res (Z.b2z (cv_enabled (vote_at v i)))) 0, client_id).

(** The loop of [vote_min] and [vote_max], [better] being [>] or [<]. *)
Definition vote_loop (better : Z -> Z -> bool) (start : Z) (v : votable) : Z * Z :=
  for_range 0 (Z.to_nat (vt_num_clients v))
    (fun i '(eff_res, eff_id) =>
       if cv_enabled (vote_at v i) && better eff_res (cv_value (vote_at v i))
       then (cv_value (vote_at v i), i) else (eff_res, eff_id)) (start, - EINVAL).

Definition vote_min (v : votable) (client_id : Z) : Z * Z :=
  let '(eff_res, eff_id) := vote_loop (fun r x => x <? r) INT_MAX v in
  (if eff_id =? - EINVAL then - EINVAL else eff_res, eff_id).

Definition vote_max (v : votable) (client_id : Z) : Z * Z :=
  let '(eff_res, eff_id) := vote_loop (fun r x => r <? x) INT_MIN v in
  (if eff_id =? - EINVAL then - EINVAL else eff_res, eff_id).

(** ** Operations

    A votable that may be NULL is an [option]; a result [None] of an operation is
    an access outside [votes], which the source does not check for. *)

Definition get_client_vote_locked (v : option votable) (client_id : Z) : option Z :=
  match v with
  | None => Some (- EINVAL)
  | Some v =>
      if client_id <? 0 then Some (- EINVAL) else
      match vt_votes v !! Z.to_nat client_id with
      | None => None
      | Some cv => if negb (vt_type v =? VOTE_SET_ANY) && negb (cv_enabled cv)
                   then Some (- EINVAL) else Some (cv_value cv)
      end
  end.

Definition get_client_vote (v : option votable) (client_id : Z) : option Z :=
  if bool_decide (v = None) || (client_id <? 0) then Some (- EINVAL)
  else get_client_vote_locked v client_id.

Definition get_effective_result_locked (v : option votable) : Z :=
  match v with None => - EINVAL | Some v => vt_effective_result v end.
Definition get_effective_result (v : option votable) : Z :=
  match v with None => - EINVAL | Some _ => get_effective_result_locked v end.
Definition get_effective_client_locked (v : option votable) : Z :=
  match v with None => - EINVAL | Some v => vt_effective_client_id v end.
Definition get_effective_client (v : option votable) : Z :=
  match v with None => - EINVAL | Some _ => get_effective_client_locked v end.

(** A call of the callback: the result and the client it is given. *)
#[warnings="-notation-for-abbreviation"] Notation call := (Z * Z)%type.
Definition run_callback (v : votable) (res client : Z) : Z * list call :=
  match vt_callback v with
  | None => (0, [])
  | Some f => (f res client, [(res, client)])
  end.

(** The part of [vote] before the lock: the new votable, or the return of a vote
    that changes nothing. *)
Definition cast_vote (client_id : Z) (enabled : bool) (val : Z) (v : votable)
  : option (votable * bool) :=
  let val := if vt_type v =? VOTE_SET_ANY then Z.b2z enabled else val in
  match vt_votes v !! Z.to_nat client_id with
  | None => None
  | Some cv =>
      let similar_vote := Bool.eqb (cv_enabled cv) enabled && (cv_value cv =? val) in
      let v := if similar_vote then v else
               mk_votable (<[Z.to_nat client_id := mk_cv enabled val]> (vt_votes v))
                 (vt_num_clients v) (vt_type v) (vt_effective_client_id v)
                 (vt_effective_result v) (vt_callback v) (vt_voted_on v) in
      Some (v, negb (similar_vote && vt_voted_on v))
  end.

(** The [switch] over the type; [None] is its [default]. *)
Definition election_result (client_id : Z) (v : votable) : option (Z * Z) :=
  if vt_type v =? VOTE_MIN then Some (vote_min v client_id)
  else if vt_type v =? VOTE_MAX then Some (vote_max v client_id)
  else if vt_type v =? VOTE_SET_ANY then Some (vote_set_any v client_id)
  else None.

(** The part under the lock. *)
Definition hold_election (client_id : Z) (v : votable) : votable * Z * list call :=
  match election_result client_id v with
  | None => (v, - EINVAL, [])
  | Some (effective_result, effective_id) =>
      if negb (vt_voted_on v) || negb (effective_result =? vt_effective_result v) then
        let v := mk_votable (vt_votes v) (vt_num_clients v) (vt_type v) effective_id
                   effective_result (vt_callback v) true in
        let '(rc, calls) := run_callback v effective_result effective_id in (v, rc, calls)
      else (mk_votable (vt_votes v) (vt_num_clients v) (vt_type v) (vt_effective_client_id v)
              (vt_effective_result v) (vt_callback v) true, 0, [])
  end.

Definition vote (v : option votable) (client_id : Z) (enabled : bool) (val : Z)
  : option (option votable * Z * list call) :=
  match v with
  | None => Some (None, - EINVAL, [])
  | Some v =>
      if client_id <? 0 then Some (Some v, - EINVAL, []) else
      match cast_vote client_id enabled val v with
      | None => None
      | Some (v, false) => Some (Some v, 0, [])
      | Some (v, true) =>
          let '(v, rc, calls) := hold_election client_id v in Some (Some v, rc, calls)
      end
  end.

Definition rerun_election (v : option votable) : Z * list call :=
  match v with
  | None => (- EINVAL, [])
  | Some v => run_callback v (get_effective_result_locked (Some v)) (vt_effective_client_id v)
  end.

(** [name] and the two allocations are whether they are non-NULL; an [inr] is an
    [ERR_PTR]. *)
Definition create_votable (name : bool) (votable_type : Z) (callback : option (Z -> Z -> Z))
    (kzalloc kstrdup : bool) : votable + Z :=
  if negb name then inr (- EINVAL) else
  if NUM_VOTABLE_TYPES <=? votable_type then inr (- EINVAL) else
  if negb kzalloc then inr (- ENOMEM) else
  if negb kstrdup then inr (- ENOMEM) else
  inl (mk_votable (replicate (Z.to_nat NUM_MAX_CLIENTS) no_vote) NUM_MAX_CLIENTS votable_type
         (- EINVAL) (if votable_type =? VOTE_SET_ANY then 0 else - EINVAL) callback false).

#[global] Arguments vote_loop : simpl never.
#[global] Arguments vote_min : simpl never.
#[global] Arguments vote_max : simpl never.
#[global] Arguments vote_set_any : simpl never.
#[global] Arguments cast_vote : simpl never.
#[global] Arguments hold_election : simpl never.

(** ** What an election decides *)

Module Voting.

(** The shape of every votable that [create_votable] returns and votes keep. *)
Record wf (v : votable) : Prop := mk_wf {
  wf_votes : length (vt_votes v) = Z.to_nat NUM_MAX_CLIENTS;
  wf_clients : vt_num_clients v = NUM_MAX_CLIENTS;
  wf_type : 0 <= vt_type v < NUM_VOTABLE_TYPES
}.

Definition is_client (i : Z) : Prop := 0 <= i < NUM_MAX_CLIENTS.

Section Loop.
Context (better : Z -> Z -> bool) (start : Z) (v : votable).
Hypothesis better_trans : forall a b c, better a b = true -> better b c = true -> better a c = true.
Hypothesis better_irrefl : forall a, better a a = false.
Hypothesis better_total : forall a b c, better a b = true -> better a c = false -> better b c = false.

(** The best vote among the clients below [n], the first one of equals; none when
    no enabled vote is better than [start]. *)
Definition best_below (n : Z) (res : Z * Z) : Prop :=
  let '(r, id) := res in
  (forall i, 0 <= i < n -> cv_enabled (vote_at v i) = true -> better r (cv_value (vote_at v i)) = false) /\
  ((id = - EINVAL /\ r = start) \/
   (0 <= id < n /\ cv_enabled (vote_at v id) = true /\ cv_value (vote_at v id) = r /\
    better start r = true /\
    forall i, 0 <= i < id -> cv_enabled (vote_at v i) = true -> cv_value (vote_at v i) <> r)).

Lemma vote_loop_best : 0 <= vt_num_clients v -> best_below (vt_num_clients v) (vote_loop better start v).
Proof.
  intros Hn. unfold vote_loop.
  match goal with |- best_below _ (for_range 0 ?k ?f ?s) =>
    pose proof (for_range_ind best_below 0 k f s) as H end.
  rewrite Z2Nat.id in H by done. apply H; clear H.
  { split; [intros; lia|]. by left. }
  intros i [r id] Hi [Hb Hr]. destruct (cv_enabled (vote_at v i)) eqn:Ee; cbn [andb].
  2:{ split; [intros j Hj Hej|].
      - destruct (Z.eq_dec j i) as [->|]; [congruence|apply Hb; [lia|done]].
      - destruct Hr as [?|(H1 & H2 & H3 & H4 & H5)]; [by left|right]. split; [lia|done]. }
  destruct (better r (cv_value (vote_at v i))) eqn:Eb.
  - split; [intros j Hj Hej|right].
    + destruct (Z.eq_dec j i) as [->|]; [apply better_irrefl|].
      apply (better_total r); [done|apply Hb; [lia|done]].
    + split; [lia|]. split; [done|]. split; [done|]. split.
      * destruct Hr as [[_ ->]|(_ & _ & _ & H4 & _)]; [done|by apply (better_trans _ r)].
      * intros j Hj Hej Heq. specialize (Hb j ltac:(lia) Hej). congruence.
  - split; [intros j Hj Hej|].
    + destruct (Z.eq_dec j i) as [->|]; [done|apply Hb; [lia|done]].
    + destruct Hr as [?|(H1 & H2 & H3 & H4 & H5)]; [by left|right]. split; [lia|done].
Qed.
End Loop.

(** ** The result the clients agree on *)

(** A vote counts when the client is enabled and its value is inside the range the
    election starts from. *)
Definition counts (v : votable) (i : Z) : Prop :=
  is_client i /\ cv_enabled (vote_at v i) = true /\
  (if vt_type v =? VOTE_MIN then cv_value (vote_at v i) < INT_MAX
   else INT_MIN < cv_value (vote_at v i)).

(** [a] is at least as good a value as [b]. *)
Definition leads (v : votable) (a b : Z) : Prop :=
  if vt_type v =? VOTE_MIN then a <= b else b <= a.

Definition agreed (v : votable) (r : Z) : Prop :=
  if vt_type v =? VOTE_SET_ANY
  then r = 1 /\ (exists i, is_client i /\ cv_enabled (vote_at v i) = true) \/
       r = 0 /\ forall i, is_client i -> cv_enabled (vote_at v i) = false
  else (exists i, counts v i /\ r = cv_value (vote_at v i) /\
          forall j, counts v j -> leads v r (cv_value (vote_at v j))) \/
       (r = - EINVAL /\ forall i, ~ counts v i).

(** The client an election of MIN or MAX type names: the first one with the agreed
    value, none when no vote counts. *)
Definition elected (v : votable) (r id : Z) : Prop :=
  (id = - EINVAL /\ r = - EINVAL /\ forall i, ~ counts v i) \/
  (counts v id /\ r = cv_value (vote_at v id) /\
   (forall j, counts v j -> leads v r (cv_value (vote_at v j))) /\
   forall j, counts v j -> cv_value (vote_at v j) = r -> id <= j).

Lemma vote_set_any_agreed v c :
  wf v -> vt_type v = VOTE_SET_ANY -> agreed v (vote_set_any v c).1.
Proof.
  intros W T. unfold agreed. rewrite T. cbn [Z.eqb]. change (VOTE_SET_ANY =? VOTE_SET_ANY) with true.
  cbn [vote_set_any fst]. cbv iota. unfold vote_set_any. cbn [fst].
  set (f := fun i eff_res => _).
  pose proof (for_range_ind (fun n r =>
    r = 1 /\ (exists i, 0 <= i < n /\ cv_enabled (vote_at v i) = true) \/
    r = 0 /\ forall i, 0 <= i < n -> cv_enabled (vote_at v i) = false)
    0 (Z.to_nat (vt_num_clients v)) f 0) as H.
  rewrite (wf_clients v W) in *. change (0 + Z.of_nat (Z.to_nat NUM_MAX_CLIENTS)) with NUM_MAX_CLIENTS in H.
  apply H; clear H.
  - right. split; [done|]. intros; lia.
  - intros i r Hi Hr. unfold f. destruct (cv_enabled (vote_at v i)) eqn:E; cbn [Z.b2z].
    + left. split; [by destruct Hr as [[-> _]|[-> _]]|]. exists i. split; [lia|done].
    + destruct Hr as [[-> (j & Hj & Ej)]|[-> Hn]]; [left|right]; (split; [done|]).
      * exists j. split; [lia|done].
      * intros j Hj. destruct (Z.eq_dec j i) as [->|]; [done|]. apply Hn. lia.
Qed.

(** The loop of [vote_min] and [vote_max] elects, for a comparison that picks the
    leading value and a start that only counting votes beat. *)
Lemma vote_loop_elected (better : Z -> Z -> bool) start v :
  wf v ->
  (forall a b, better a b = true <-> ~ leads v a b) ->
  (forall i, is_client i -> counts v i <->
     cv_enabled (vote_at v i) = true /\ better start (cv_value (vote_at v i)) = true) ->
  let '(r, id) := vote_loop better start v in
  elected v (if id =? - EINVAL then - EINVAL else r) id.
Proof.
  intros W Hb Hc.
  assert (forall a b, better a b = false <-> leads v a b) as Hb'.
  { intros a b. specialize (Hb a b). unfold leads in *. destruct (better a b); case_if; intuition (try congruence); lia. }
  assert (H := vote_loop_best better start v). destruct (vote_loop better start v) as [r id].
  rewrite (wf_clients v W) in H.
  destruct H as [H1 H2].
  - intros a b c. rewrite !Hb. unfold leads. case_if; lia.
  - intros a. rewrite Hb'. unfold leads. case_if; lia.
  - intros a b c. rewrite Hb, !Hb'. unfold leads. case_if; lia.
  - done.
  - destruct H2 as [[-> ->]|(H2 & H3 & H4 & H5 & H6)].
    + left. split; [done|]. split; [done|]. intros i Hi. pose proof (proj1 Hi) as Hci.
      apply Hc in Hi as [He Hv]; [|done]. specialize (H1 i Hci He). congruence.
    + right. destruct (Z.eqb_spec id (- EINVAL)); [unfold EINVAL in *; lia|].
      split; [apply Hc; [done|]; by rewrite H4|]. split; [done|]. split.
      * intros j Hj. apply Hb'. apply H1; [apply Hj|apply Hj].
      * intros j Hj Hjr. destruct (Z_lt_le_dec j id) as [Hlt|]; [|done].
        exfalso. apply (H6 j); [unfold counts, is_client in Hj; lia|apply Hj|done].
Qed.

Lemma elected_agreed v r id : vt_type v <> VOTE_SET_ANY -> elected v r id -> agreed v r.
Proof.
  intros T H. unfold agreed. destruct (Z.eqb_spec (vt_type v) VOTE_SET_ANY); [done|].
  destruct H as [(_ & -> & H)|(H1 & H2 & H3 & _)]; [by right|left; by exists id].
Qed.

Lemma vote_min_elected v c :
  wf v -> vt_type v = VOTE_MIN -> elected v (vote_min v c).1 (vote_min v c).2.
Proof.
  intros W T. unfold vote_min.
  assert (H := vote_loop_elected (fun r x => x <? r) INT_MAX v W).
  destruct (vote_loop _ _ _) as [r id]. cbn [fst snd]. apply H.
  - intros a b. unfold leads. rewrite T. change (VOTE_MIN =? VOTE_MIN) with true. cbv iota. lia.
  - intros i Hi. unfold counts. rewrite T. change (VOTE_MIN =? VOTE_MIN) with true. cbv iota.
    rewrite Z.ltb_lt. tauto.
Qed.

Lemma vote_max_elected v c :
  wf v -> vt_type v = VOTE_MAX -> elected v (vote_max v c).1 (vote_max v c).2.
Proof.
  intros W T. unfold vote_max.
  assert (H := vote_loop_elected (fun r x => r <? x) INT_MIN v W).
  destruct (vote_loop _ _ _) as [r id]. cbn [fst snd]. apply H.
  - intros a b. unfold leads. rewrite T. change (VOTE_MAX =? VOTE_MIN) with false. cbv iota. lia.
  - intros i Hi. unfold counts. rewrite T. change (VOTE_MAX =? VOTE_MIN) with false. cbv iota.
    rewrite Z.ltb_lt. tauto.
Qed.

Lemma election_decides v c :
  wf v -> exists r id, election_result c v = Some (r, id) /\ agreed v r /\
    (vt_type v = VOTE_SET_ANY -> id = c) /\ (vt_type v <> VOTE_SET_ANY -> elected v r id).
Proof.
  intros W. pose proof (wf_type v W) as T. unfold election_result.
  destruct (Z.eqb_spec (vt_type v) VOTE_MIN) as [E|].
  { pose proof (vote_min_elected v c W E) as H. destruct (vote_min v c) as [r id]. cbn [fst snd] in H.
    exists r, id. split; [done|]. assert (vt_type v <> VOTE_SET_ANY) by (rewrite E; done).
    split; [by apply (elected_agreed v r id)|done]. }
  destruct (Z.eqb_spec (vt_type v) VOTE_MAX) as [E|].
  { pose proof (vote_max_elected v c W E) as H. destruct (vote_max v c) as [r id]. cbn [fst snd] in H.
    exists r, id. split; [done|]. assert (vt_type v <> VOTE_SET_ANY) by (rewrite E; done).
    split; [by apply (elected_agreed v r id)|done]. }
  assert (vt_type v = VOTE_SET_ANY) as E by (unfold VOTE_MIN, VOTE_MAX, VOTE_SET_ANY, NUM_VOTABLE_TYPES in *; lia).
  rewrite E. change (VOTE_SET_ANY =? VOTE_SET_ANY) with true. cbv iota.
  pose proof (vote_set_any_agreed v c W E) as H. unfold vote_set_any in *.
  eexists _, _. split; [reflexivity|]. split; [exact H|done].
Qed.

(** ** Interleaved votes

    The clients vote concurrently: each stores its vote, then waits for the lock and
    holds an election. The loop of an election reads the votes of the other clients
    while these may be storing: it sees any votes for the clients whose own election
    is still to come ([pending]) and the stored ones for the rest. *)

Record machine := mk_machine { m_votable : votable; m_pending : list Z; m_calls : list call }.

Definition with_votes (vs : list client_vote) (v : votable) : votable :=
  mk_votable vs (vt_num_clients v) (vt_type v) (vt_effective_client_id v)
    (vt_effective_result v) (vt_callback v) (vt_voted_on v).

Definition may_read (m : machine) (c : Z) (vs : list client_vote) : Prop :=
  length vs = length (vt_votes (m_votable m)) /\
  forall i, is_client i -> i = c \/ i ∉ m_pending m ->
    nth (Z.to_nat i) vs no_vote = vote_at (m_votable m) i.

Inductive cast_step (m : machine) : machine -> Prop :=
| step_cast c enabled val v go :
    is_client c -> c ∉ m_pending m ->
    cast_vote c enabled val (m_votable m) = Some (v, go) ->
    cast_step m (mk_machine v (if go : bool then c :: m_pending m else m_pending m) (m_calls m)).

Inductive elect_step (m : machine) : machine -> Prop :=
| step_elect c vs v rc calls :
    c ∈ m_pending m -> may_read m c vs ->
    hold_election c (with_votes vs (m_votable m)) = (v, rc, calls) ->
    elect_step m (mk_machine (with_votes (vt_votes (m_votable m)) v)
                    (filter (.≠ c) (m_pending m)) (m_calls m ++ calls)).

Definition vote_step (m m' : machine) : Prop := cast_step m m' \/ elect_step m m'.

Definition fresh (v : votable) : machine := mk_machine v [] [].

(** No two successive calls of the callback carry the same result. *)
Definition no_repeat (l : list call) : Prop :=
  forall i a b, l !! i = Some a -> l !! S i = Some b -> a.1 <> b.1.

Definition calls_ok (v : votable) (l : list call) : Prop :=
  match vt_callback v with
  | None => l = []
  | Some _ => no_repeat l /\
      (if vt_voted_on v then last l = Some (vt_effective_result v, vt_effective_client_id v)
       else l = [])
  end.

Record consistent (m : machine) : Prop := mk_consistent {
  cs_wf : wf (m_votable m);
  cs_nodup : NoDup (m_pending m);
  cs_clients : Forall is_client (m_pending m);
  cs_agreed : m_pending m = [] -> agreed (m_votable m) (vt_effective_result (m_votable m));
  cs_calls : calls_ok (m_votable m) (m_calls m)
}.

Lemma create_votable_fresh ty cb v :
  create_votable true ty cb true true = inl v -> 0 <= ty -> consistent (fresh v) /\ vt_type v = ty.
Proof.
  unfold create_votable. cbn [negb]. destruct (Z.leb_spec NUM_VOTABLE_TYPES ty); [done|].
  intros [= <-] Hty. split; [|done]. constructor; cbn.
  - done.
  - apply NoDup_nil_2.
  - done.
  - intros _. assert (forall i, vote_at (mk_votable (replicate (Z.to_nat NUM_MAX_CLIENTS) no_vote)
      NUM_MAX_CLIENTS ty (- EINVAL) (if ty =? VOTE_SET_ANY then 0 else - EINVAL) cb false) i = no_vote) as Hv.
    { intros i. unfold vote_at. cbn [vt_votes]. rewrite nth_lookup.
      destruct (_ !! _) eqn:E; [by apply lookup_replicate in E as [-> _]|done]. }
    unfold agreed, counts. cbn [vt_type vt_effective_result]. destruct (ty =? VOTE_SET_ANY).
    + right. split; [done|]. intros i _. by rewrite Hv.
    + right. split; [done|]. intros i (_ & He & _). by rewrite Hv in He.
  - unfold calls_ok. cbn. destruct cb; [|done]. done.
Qed.

Lemma no_repeat_snoc l a :
  no_repeat l -> (forall b, last l = Some b -> b.1 <> a.1) -> no_repeat (l ++ [a]).
Proof.
  intros H Hl i x y Hx Hy. destruct (decide (S i < length l)%nat) as [Hi|Hi].
  - rewrite lookup_app_l in Hx by lia. rewrite lookup_app_l in Hy by lia. by apply (H i).
  - apply lookup_snoc_Some in Hy as [[? _]|[Hi' ->]]; [lia|].
    rewrite lookup_app_l in Hx by lia. apply Hl. rewrite last_lookup.
    replace (Nat.pred (length l)) with i by lia. done.
Qed.

(** What an election leaves behind, and when it calls the callback. *)
Lemma hold_election_result c v v' rc calls :
  wf v -> hold_election c v = (v', rc, calls) ->
  wf v' /\ vt_votes v' = vt_votes v /\ vt_voted_on v' = true /\ vt_type v' = vt_type v /\
  vt_callback v' = vt_callback v /\ agreed v' (vt_effective_result v') /\
  (rc, calls) = (if negb (vt_voted_on v) || negb (vt_effective_result v' =? vt_effective_result v)
                 then run_callback v' (vt_effective_result v') (vt_effective_client_id v') else (0, [])) /\
  (vt_voted_on v = true -> vt_effective_result v' = vt_effective_result v ->
   vt_effective_client_id v' = vt_effective_client_id v).
Proof.
  intros W. destruct (election_decides v c W) as (r & id & E & Ha & _ & _).
  unfold hold_election. rewrite E. destruct W.
  destruct (negb (vt_voted_on v) || negb (r =? vt_effective_result v)) eqn:Eb.
  - destruct (run_callback _ _ _) as [rc' calls'] eqn:Er. intros [= <- <- <-]. cbn [vt_effective_result vt_effective_client_id].
    rewrite Eb, Er. do 6 (split; [done|]). split; [done|]. cbn. intros Hon ->.
    by rewrite Hon, Z.eqb_refl in Eb.
  - intros [= <- <- <-]. apply orb_false_iff in Eb as [E1 E2]. cbn. rewrite E1, Z.eqb_refl.
    assert (r = vt_effective_result v) as <- by lia. do 6 (split; [done|]). done.
Qed.

Lemma hold_election_calls c v v' rc calls l :
  wf v -> calls_ok v l -> hold_election c v = (v', rc, calls) -> calls_ok v' (l ++ calls).
Proof.
  intros W Hl He. destruct (hold_election_result _ _ _ _ _ W He) as (_ & _ & Hon & _ & Hcb & _ & Hc & Hid).
  unfold calls_ok, run_callback in *. rewrite Hcb, Hon in *.
  destruct (vt_callback v) as [f|]; [|rewrite Hl; destruct (negb _ || negb _) in Hc; by injection Hc as -> ->].
  destruct (vt_voted_on v); cbn [negb orb] in Hc.
  - destruct (Z.eqb_spec (vt_effective_result v') (vt_effective_result v)) as [Er|Er]; injection Hc as -> ->.
    + by rewrite app_nil_r, Er, Hid.
    + rewrite last_snoc. split; [|done]. apply no_repeat_snoc; [apply Hl|].
      intros b. rewrite (proj2 Hl). intros [= <-]. cbn. congruence.
  - injection Hc as -> ->. destruct Hl as [_ ->]. split; [|done]. intros [|i] a b _ Hb; discriminate Hb.
Qed.

(** What storing a vote leaves behind. *)
Lemma cast_vote_spec c enabled val v :
  wf v -> is_client c ->
  exists v' go, cast_vote c enabled val v = Some (v', go) /\ wf v' /\
    v' = with_votes (vt_votes v') v /\
    (forall i, is_client i -> vote_at v' i =
       if i =? c then mk_cv enabled (if vt_type v =? VOTE_SET_ANY then Z.b2z enabled else val)
       else vote_at v i) /\
    (go = false -> v' = v /\ vt_voted_on v = true).
Proof.
  intros W Hc. unfold cast_vote. set (x := if vt_type v =? VOTE_SET_ANY then _ else _).
  pose proof (wf_votes v W) as Hl.
  destruct (lookup_lt_is_Some_2 (vt_votes v) (Z.to_nat c)) as [[e y] Hy].
  { rewrite Hl. unfold is_client, NUM_MAX_CLIENTS in *. lia. }
  rewrite Hy. cbn [cv_enabled cv_value].
  assert (vote_at v c = mk_cv e y) as Hv by (unfold vote_at; by rewrite nth_lookup, Hy).
  destruct (Bool.eqb e enabled && (y =? x)) eqn:Es; eexists _, _; (split; [reflexivity|]).
  - apply andb_true_iff in Es as [->%Bool.eqb_prop ->%Z.eqb_eq]. split; [done|].
    split; [by destruct v|]. split.
    + intros i Hi. destruct (Z.eqb_spec i c) as [->|]; done.
    + destruct (vt_voted_on v); done.
  - split; [destruct W; constructor; cbn; [by rewrite length_insert|done|done]|]. split; [done|]. split.
    + intros i Hi. unfold vote_at. cbn [vt_votes]. rewrite nth_lookup. destruct (Z.eqb_spec i c) as [->|Hne].
      * rewrite list_lookup_insert_eq; [done|]. rewrite Hl. unfold is_client, NUM_MAX_CLIENTS in *. lia.
      * rewrite list_lookup_insert_ne by (unfold is_client in *; lia). by rewrite nth_lookup.
    + done.
Qed.

(** Two votables with the same votes agree on the same result. *)
Lemma agreed_ext v w r :
  vt_type v = vt_type w -> (forall i, is_client i -> vote_at v i = vote_at w i) ->
  agreed v r -> agreed w r.
Proof.
  intros Ht Hv.
  assert (forall i, counts v i <-> counts w i) as Hc.
  { intros i. unfold counts. rewrite Ht. split; intros (H1 & H2 & H3); (split; [done|]);
      [rewrite <- Hv by done|rewrite Hv by done]; done. }
  unfold agreed, leads. rewrite Ht. case_if.
  - intros [[-> (i & Hi & He)]|[-> H]]; [left|right]; (split; [done|]).
    + exists i. by rewrite <- Hv.
    + intros i Hi. rewrite <- Hv by done. by apply H.
  - intros [(i & Hi & -> & H)|[-> H]]; [left|right].
    + exists i. split; [by apply Hc|]. split; [by rewrite (Hv i) by apply Hi|].
      intros j Hj%Hc. rewrite <- Hv by apply Hj. by apply H.
    + split; [done|]. intros i Hi%Hc. by apply (H i).
Qed.

Lemma vote_step_consistent m m' : consistent m -> vote_step m m' -> consistent m'.
Proof.
  intros [W Hnd Hcl Ha Hcalls] [[c e x v go Hc Hp Hv]|[c vs v rc calls Hp [Hlen Hr] He]].
  - destruct (cast_vote_spec c e x (m_votable m) W Hc) as (v1 & go1 & E & W1 & Hw & _ & Hgo).
    rewrite Hv in E. injection E as <- <-. destruct go; constructor; cbn; try done.
    + by apply NoDup_cons_2.
    + by constructor.
    + by rewrite Hw.
    + intros Hn. destruct (Hgo eq_refl) as [-> _]. by apply Ha.
    + by rewrite Hw.
  - assert (wf (with_votes vs (m_votable m))) as W0 by (destruct W; by constructor; cbn; [rewrite Hlen|..]).
    destruct (hold_election_result _ _ _ _ _ W0 He) as (W1 & Hvs & Hon & Hty & Hcb & Hag & _).
    pose proof (hold_election_calls _ _ _ _ _ (m_calls m) W0 Hcalls He) as Hok.
    constructor; cbn.
    + destruct W, W1. constructor; cbn; done.
    + by apply NoDup_filter.
    + apply Forall_forall. intros i Hi. apply list_elem_of_filter in Hi as [_ Hi].
      by apply (proj1 (Forall_forall _ _) Hcl).
    + intros Hn. eapply agreed_ext; [| |exact Hag]; [done|]. intros i Hi.
      transitivity (vote_at (m_votable m) i); [|done].
      rewrite <- (Hr i Hi); [unfold vote_at; by rewrite Hvs|].
      destruct (decide (i = c)) as [|Hne]; [by left|right]. intros Hin.
      assert (i ∈ filter (.≠ c) (m_pending m)) as Hf by (by apply list_elem_of_filter).
      rewrite Hn in Hf. by apply not_elem_of_nil in Hf.
    + exact Hok.
Qed.

Lemma votes_consistent m m' : rtc vote_step m m' -> consistent m -> consistent m'.
Proof. induction 1; eauto using vote_step_consistent. Qed.

(** Every client that waits can hold its election. *)
Lemma elect_step_possible m c :
  c ∈ m_pending m ->
  exists m', elect_step m m' /\ m_pending m' = filter (.≠ c) (m_pending m) /\
    vt_votes (m_votable m') = vt_votes (m_votable m).
Proof.
  intros Hc.
  destruct (hold_election c (with_votes (vt_votes (m_votable m)) (m_votable m))) as [[v rc] calls] eqn:E.
  eexists. split; [eapply step_elect; [exact Hc| |exact E]|done]. split; [done|]. done.
Qed.

Lemma filter_ne_length (c : Z) l : NoDup l -> c ∈ l -> S (length (filter (.≠ c) l)) = length l.
Proof.
  intros Hn Hc. apply list_elem_of_split in Hc as (k1 & k2 & ->).
  apply NoDup_app in Hn as (Hn1 & Hd & Hn2). apply NoDup_cons in Hn2 as [Hc2 Hn2].
  assert (forall k : list Z, c ∉ k -> filter (.≠ c) k = k) as Hf.
  { induction k as [|y k IH]; [done|]. intros [Hk1 Hk2]%not_elem_of_cons.
    rewrite filter_cons_True by (by apply not_eq_sym). f_equal. by apply IH. }
  rewrite filter_app, filter_cons_False by auto.
  rewrite !Hf; [rewrite !length_app; cbn; lia|done|]. intros H1. apply (Hd c H1). left.
Qed.

Lemma elect_step_pending m m' :
  consistent m -> elect_step m m' -> S (length (m_pending m')) = length (m_pending m).
Proof. intros Hm [c vs v rc calls Hc _ _]. by apply filter_ne_length; [apply cs_nodup|]. Qed.

(** Elections alone empty the pending clients, whatever order they run in. *)
Lemma elections_drain n m :
  consistent m -> length (m_pending m) = n ->
  exists m', nsteps elect_step n m m' /\ m_pending m' = [] /\
    vt_votes (m_votable m') = vt_votes (m_votable m).
Proof.
  revert m. induction n as [|n IH]; intros m Hm Hn.
  { exists m. split; [constructor|]. split; [by apply nil_length_inv|done]. }
  destruct (m_pending m) as [|c l] eqn:Hp; [done|].
  destruct (elect_step_possible m c) as (m1 & Hs & Hf & Hv); [rewrite Hp; left|].
  destruct (IH m1) as (m2 & H2 & H3 & H4).
  - by apply (vote_step_consistent m); [|right].
  - pose proof (elect_step_pending m m1 Hm Hs) as E. rewrite Hp in E. cbn in *. lia.
  - exists m2. split; [by econstructor|]. split; [done|]. by rewrite H4.
Qed.

Lemma elections_bounded n m m' :
  consistent m -> nsteps elect_step n m m' -> consistent m' /\ (n + length (m_pending m') = length (m_pending m))%nat.
Proof.
  intros Hm H. revert Hm. induction H as [m|n m m1 m2 Hs _ IH]; intros Hm; [done|].
  destruct IH as [H1 H2]; [by apply (vote_step_consistent m); [|right]|].
  split; [done|]. pose proof (elect_step_pending m m1 Hm Hs). lia.
Qed.

(** C11. A votable is created without votes, and clients vote on it concurrently:
    whenever no election is outstanding, the effective result is the one the stored
    votes agree on; the callback was never called twice in a row with the same
    result, and its last call carried the effective result and client. *)
Theorem votes_agree ty cb v m :
  0 <= ty -> create_votable true ty cb true true = inl v -> rtc vote_step (fresh v) m ->
  m_pending m = [] ->
  agreed (m_votable m) (get_effective_result (Some (m_votable m))) /\
  calls_ok (m_votable m) (m_calls m) /\
  (vt_voted_on (m_votable m) = true -> vt_callback (m_votable m) <> None ->
   last (m_calls m) = last (rerun_election (Some (m_votable m))).2).
Proof.
  intros Hty Hc Hm Hp. destruct (create_votable_fresh ty cb v Hc Hty) as [Hf _].
  destruct (votes_consistent _ _ Hm Hf) as [_ _ _ Ha Hok]. split; [by apply Ha|]. split; [done|].
  intros Hon Hcb. unfold calls_ok in Hok. cbn. unfold run_callback.
  destruct (vt_callback (m_votable m)); [|done]. rewrite Hon in Hok. cbn. apply Hok.
Qed.


(** An election of MIN or MAX type names the first client with the smallest or
    largest of the votes that count and its value, and -EINVAL for both when no vote
    counts; an election of SET_ANY type yields whether any client is enabled, and the
    client that called for it. *)
Theorem election_spec v c :
  wf v -> exists r id, election_result c v = Some (r, id) /\ agreed v r /\
    (vt_type v = VOTE_SET_ANY -> id = c) /\ (vt_type v <> VOTE_SET_ANY -> elected v r id).
Proof. apply election_decides. Qed.

(** What a client reads back of a vote, and the return value of the vote. *)
Definition read_back (ty : Z) (cv : client_vote) : Z :=
  if negb (ty =? VOTE_SET_ANY) && negb (cv_enabled cv) then - EINVAL else cv_value cv.

Lemma get_client_vote_at v i :
  wf v -> is_client i -> get_client_vote (Some v) i = Some (read_back (vt_type v) (vote_at v i)).
Proof.
  intros W Hi. unfold get_client_vote, get_client_vote_locked, vote_at, read_back. cbn [bool_decide].
  rewrite bool_decide_eq_false_2 by done. destruct (Z.ltb_spec i 0); [unfold is_client in Hi; lia|]. cbn [orb].
  rewrite nth_lookup.
  destruct (lookup_lt_is_Some_2 (vt_votes v) (Z.to_nat i)) as [cv Hcv].
  { rewrite (wf_votes v W). unfold is_client, NUM_MAX_CLIENTS in *. lia. }
  rewrite Hcv. cbn. by case_if.
Qed.

(** A vote of a valid client is read back as it was cast (a disabled one as -EINVAL,
    except for SET_ANY), the votes of the other clients are untouched, the result
    follows the votes, and the vote returns what the callback returned when the
    result is new, 0 when the callback is not called. *)
Theorem vote_read_back v c enabled val :
  wf v -> is_client c -> agreed v (vt_effective_result v) ->
  exists v' rc calls, vote (Some v) c enabled val = Some (Some v', rc, calls) /\ wf v' /\
    get_client_vote (Some v') c =
      Some (if vt_type v =? VOTE_SET_ANY then Z.b2z enabled else if enabled then val else - EINVAL) /\
    (forall i, is_client i -> i <> c -> get_client_vote (Some v') i = get_client_vote (Some v) i) /\
    agreed v' (get_effective_result (Some v')) /\
    (rc, calls) = (if negb (vt_voted_on v) || negb (vt_effective_result v' =? vt_effective_result v)
                   then run_callback v' (vt_effective_result v') (vt_effective_client_id v') else (0, [])).
Proof.
  intros W Hc Ha. destruct (cast_vote_spec c enabled val v W Hc) as (v1 & go & E & W1 & Hw & Hv & Hgo).
  assert (forall v', vt_votes v' = vt_votes v1 -> vt_type v' = vt_type v -> wf v' ->
    get_client_vote (Some v') c =
      Some (if vt_type v =? VOTE_SET_ANY then Z.b2z enabled else if enabled then val else - EINVAL) /\
    forall i, is_client i -> i <> c -> get_client_vote (Some v') i = get_client_vote (Some v) i) as Hget.
  { intros v' Hv' Ht W'. assert (forall i, vote_at v' i = vote_at v1 i) as Hat by (intros; unfold vote_at; by rewrite Hv').
    split; [|intros i Hi Hne]; rewrite !get_client_vote_at by done; rewrite Hat, Ht, Hv by done; f_equal.
    - rewrite Z.eqb_refl. unfold read_back. cbn. destruct (vt_type v =? VOTE_SET_ANY), enabled; done.
    - by destruct (Z.eqb_spec i c). }
  unfold vote. destruct (Z.ltb_spec c 0); [unfold is_client in Hc; lia|]. rewrite E. destruct go.
  - destruct (hold_election c v1) as [[v2 rc] calls] eqn:Eh. eexists _, _, _. split; [reflexivity|].
    destruct (hold_election_result _ _ _ _ _ W1 Eh) as (W2 & Hvs & _ & Hty & _ & Hag & Hrc & _).
    split; [done|]. destruct (Hget v2 Hvs) as [G1 G2]; [by rewrite Hty, Hw|done|].
    split; [exact G1|]. split; [exact G2|]. split; [exact Hag|]. by rewrite Hw in Hrc.
  - destruct (Hgo eq_refl) as [-> Hon]. eexists _, _, _. split; [reflexivity|]. split; [done|].
    destruct (Hget v) as [G1 G2]; [done|done|done|]. split; [exact G1|]. split; [exact G2|]. split; [exact Ha|].
    by rewrite Hon, Z.eqb_refl.
Qed.

(** NULL and negative clients are refused without a change, creation fails for a
    missing name, an unknown type or a failed allocation and yields a votable without
    votes otherwise; a client number of [NUM_MAX_CLIENTS] or more is not refused: the
    access leaves the array. *)
Theorem vote_errors v c enabled val name ty cb kzalloc kstrdup :
  wf v ->
  vote None c enabled val = Some (None, - EINVAL, []) /\
  get_client_vote None c = Some (- EINVAL) /\ get_effective_result None = - EINVAL /\
  get_effective_client None = - EINVAL /\ rerun_election None = (- EINVAL, []) /\
  (c < 0 -> vote (Some v) c enabled val = Some (Some v, - EINVAL, []) /\
            get_client_vote (Some v) c = Some (- EINVAL)) /\
  (vote (Some v) c enabled val = None <-> NUM_MAX_CLIENTS <= c) /\
  (get_client_vote (Some v) c = None <-> NUM_MAX_CLIENTS <= c) /\
  match create_votable name ty cb kzalloc kstrdup with
  | inl w => name = true /\ ty < NUM_VOTABLE_TYPES /\ kzalloc = true /\ kstrdup = true /\
      vt_voted_on w = false /\ get_effective_client (Some w) = - EINVAL /\
      forall i, is_client i -> get_client_vote (Some w) i = Some (if ty =? VOTE_SET_ANY then 0 else - EINVAL)
  | inr e => e = - EINVAL /\ (name = false \/ NUM_VOTABLE_TYPES <= ty) \/
             e = - ENOMEM /\ (kzalloc = false \/ kstrdup = false)
  end.
Proof.
  intros W. do 5 (split; [done|]).
  assert (NUM_MAX_CLIENTS <= c -> vt_votes v !! Z.to_nat c = None) as Hout.
  { intros H. apply lookup_ge_None. rewrite (wf_votes v W). unfold NUM_MAX_CLIENTS in *. lia. }
  split; [|split; [|split]].
  - intros Hc. unfold vote, get_client_vote. destruct (Z.ltb_spec c 0); [|lia]. by rewrite orb_true_r.
  - unfold vote, cast_vote. split; [|intros H; destruct (Z.ltb_spec c 0); [unfold NUM_MAX_CLIENTS in H; lia|by rewrite Hout]].
    destruct (Z.ltb_spec c 0) as [|Hc]; [done|].
    destruct (vt_votes v !! Z.to_nat c) as [cv|] eqn:E.
    { destruct (negb _); [|done]. destruct (hold_election _ _) as [[] ?]. done. }
    intros _. apply lookup_ge_None in E. rewrite (wf_votes v W) in E. unfold NUM_MAX_CLIENTS in *. lia.
  - unfold get_client_vote, get_client_vote_locked. rewrite bool_decide_eq_false_2 by done. cbn [orb].
    split; [|intros H; destruct (Z.ltb_spec c 0); [unfold NUM_MAX_CLIENTS in H; lia|by rewrite Hout]].
    destruct (Z.ltb_spec c 0) as [|Hc]; [done|].
    destruct (vt_votes v !! Z.to_nat c) as [cv|] eqn:E; [by case_if|].
    intros _. apply lookup_ge_None in E. rewrite (wf_votes v W) in E. unfold NUM_MAX_CLIENTS in *. lia.
  - unfold create_votable. destruct name; cbn [negb]; [|by left; auto].
    destruct (Z.leb_spec NUM_VOTABLE_TYPES ty); [by left; auto|].
    destruct kzalloc; cbn [negb]; [|by right; auto]. destruct kstrdup; cbn [negb]; [|by right; auto].
    do 6 (split; [done|]). intros i Hi. unfold is_client in Hi.
    unfold get_client_vote, get_client_vote_locked. rewrite bool_decide_eq_false_2 by done. cbn [orb vt_votes vt_type].
    destruct (Z.ltb_spec i 0); [lia|]. rewrite lookup_replicate_2 by lia.
    cbn [no_vote cv_enabled cv_value negb]. by destruct (ty =? VOTE_SET_ANY).
Qed.

(** ** A concrete run

    Two clients of a MIN votable store 5 and 3, then both elections run. *)

Definition demo_votable : votable :=
  mk_votable (replicate 8 no_vote) 8 VOTE_MIN (- EINVAL) (- EINVAL) (Some (fun r _ => r)) false.

Definition demo_waiting : machine :=
  mk_machine (mk_votable (mk_cv true 5 :: mk_cv true 3 :: replicate 6 no_vote) 8 VOTE_MIN
                (- EINVAL) (- EINVAL) (Some (fun r _ => r)) false) [1; 0] [].

Definition demo_done : machine :=
  mk_machine (mk_votable (mk_cv true 5 :: mk_cv true 3 :: replicate 6 no_vote) 8 VOTE_MIN
                1 3 (Some (fun r _ => r)) true) [] [(3, 1)].

Lemma demo_casts : rtc vote_step (fresh demo_votable) demo_waiting.
Proof.
  eapply rtc_l; [left; eapply (step_cast _ 0 true 5 _ true); [done|by apply not_elem_of_nil|reflexivity]|].
  eapply rtc_l; [left; eapply (step_cast _ 1 true 3 _ true); [done| |reflexivity]|].
  { cbn. rewrite list_elem_of_singleton. lia. }
  apply rtc_refl.
Qed.

Lemma demo_elections : rtc vote_step demo_waiting demo_done.
Proof.
  eapply rtc_l; [right; eapply (step_elect _ 0 (vt_votes (m_votable demo_waiting)));
    [by right; left|done|reflexivity]|].
  eapply rtc_l; [right; eapply (step_elect _ 1 (vt_votes (m_votable demo_waiting)));
    [by left|done|reflexivity]|].
  apply rtc_refl.
Qed.

Lemma rtc_trans {A} {R : relation A} x y z : rtc R x y -> rtc R y z -> rtc R x z.
Proof. intros H1 H2. by transitivity y. Qed.

Lemma votes_agree_witness :
  agreed (m_votable demo_done) 3 /\ last (m_calls demo_done) = Some (3, 1).
Proof.
  destruct (votes_agree VOTE_MIN (Some (fun r _ => r)) demo_votable demo_done) as (H1 & _ & H2).
  - done.
  - reflexivity.
  - exact (rtc_trans _ _ _ demo_casts demo_elections).
  - reflexivity.
  - split; [exact H1|exact (H2 eq_refl ltac:(done))].
Defined.


Lemma demo_wf : wf (m_votable demo_done).
Proof. done. Qed.

Lemma election_spec_witness :
  exists r id, election_result 0 (m_votable demo_done) = Some (r, id) /\ agreed (m_votable demo_done) r.
Proof.
  destruct (election_spec (m_votable demo_done) 0) as (r & id & H1 & H2 & _); [done|].
  exists r, id. split; [exact H1|exact H2].
Defined.

Lemma vote_read_back_witness :
  exists v' rc calls, vote (Some (m_votable demo_done)) 1 false 3 = Some (Some v', rc, calls) /\
    get_client_vote (Some v') 1 = Some (- EINVAL) /\ agreed v' (get_effective_result (Some v')).
Proof.
  destruct (vote_read_back (m_votable demo_done) 1 false 3) as (v' & rc & calls & H1 & _ & H2 & _ & H3 & _).
  - done.
  - done.
  - destruct (votes_consistent _ _ (rtc_trans _ _ _ demo_casts demo_elections)) as [_ _ _ H _].
    { by apply (create_votable_fresh VOTE_MIN (Some (fun r _ => r))). }
    exact (H eq_refl).
  - exists v', rc, calls. split; [exact H1|]. split; [exact H2|exact H3].
Defined.

Lemma vote_errors_witness :
  vote (Some (m_votable demo_done)) 8 true 1 = None /\
  vote (Some (m_votable demo_done)) (-1) true 1 = Some (Some (m_votable demo_done), - EINVAL, []).
Proof.
  split.
  - apply (vote_errors (m_votable demo_done) 8 true 1 true 0 None true true); done.
  - apply (vote_errors (m_votable demo_done) (-1) true 1 true 0 None true true); done.
Defined.

(** The effective client is stored only with a new result: two clients vote the same
    minimum, the first one withdraws, and stays the effective client. *)
Definition withdrawn : option (option votable * Z * list call) :=
  match vote (Some demo_votable) 0 true 5 with
  | Some (v, _, _) => match vote v 1 true 5 with
                      | Some (v, _, _) => vote v 0 false 5
                      | None => None
                      end
  | None => None
  end.

Lemma stale_effective_client :
  exists v, withdrawn = Some (Some v, 0, []) /\ get_effective_client (Some v) = 0 /\
    get_client_vote (Some v) 0 = Some (- EINVAL) /\ get_effective_result (Some v) = 5.
Proof. eexists. split; [vm_compute; reflexivity|]. done. Qed.

(** An enabled vote for [INT_MAX] is not the minimum of a MIN votable: the result says
    that nobody voted. *)
Lemma largest_vote_ignored :
  exists v rc calls, vote (Some demo_votable) 0 true INT_MAX = Some (Some v, rc, calls) /\
    get_client_vote (Some v) 0 = Some INT_MAX /\ get_effective_result (Some v) = - EINVAL.
Proof. eexists _, _, _. split; [vm_compute; reflexivity|]. done. Qed.

End Voting.
