(* ===== verification/Halt.v ===== *)
(** * Halting CPUs

    Clients ask for CPUs to be halted or partially halted; a CPU is in the mask while
    some client asks for it. Halted CPUs are drained by a thread and avoided by
    placement. Models [walt_halt.c]: the request masks, [halt_cpus], [start_cpus],
    the four entry points, [cpus_halted_by_client], the drain thread and the
    placement hooks. *)

From Stdlib Require Import ZArith Lia ZifyBool Bool.
From stdpp Require Import base list relations.
From S2P Require Import Prelude WaltTypes Cpumask SmartFreq.

(** ** Data *)

Inductive pause_type : Set := HALT | PARTIAL_HALT.

(** [enum pause_client]; the value of a client is its bit. *)
Inductive pause_client : Set := PAUSE_CORE_CTL | PAUSE_THERMAL | PAUSE_HYP | PAUSE_SBT.
Definition client_value (c : pause_client) : Z :=
  match c with PAUSE_CORE_CTL => 1 | PAUSE_THERMAL => 2 | PAUSE_HYP => 4 | PAUSE_SBT => 8 end.

#[global] Instance pause_type_eq_dec : EqDecision pause_type.
Proof. solve_decision. Defined.
#[global] Instance pause_client_eq_dec : EqDecision pause_client.
Proof. solve_decision. Defined.

(** The two masks, [client_vote_mask] of the CPUs per type, the CPUs to drain, the CPUs
    kicked to balance (latest first), and the frequency caps. *)
Record halt_state := mk_halt {
  cpu_halt_mask : Z;
  cpu_partial_halt_mask : Z;
  h_vote_halt : list Z;
  h_vote_partial : list Z;
  cpus_to_drain : Z;
  h_kicked : list Z;
  h_freq : fsys
}.

(** [walt_disabled], [system_32bit_el0_cpumask], [part_haltable_cpus],
    [sysctl_max_freq_partial_halt], and the environment of the caps. *)
Record halt_env := mk_henv {
  he_32bit_cpus : Z;
  he_part_haltable : Z;
  he_max_freq_partial_halt : Z;
  he_freq : fenv
}.
Definition walt_disabled (e : halt_env) : bool := e_walt_disabled (he_freq e).

Definition mask_of (s : halt_state) (type : pause_type) : Z :=
  match type with HALT => cpu_halt_mask s | PARTIAL_HALT => cpu_partial_halt_mask s end.
Definition set_mask (type : pause_type) (f : Z -> Z) (s : halt_state) : halt_state :=
  match type with HALT => set cpu_halt_mask f s | PARTIAL_HALT => set cpu_partial_halt_mask f s end.
Definition client_vote_mask (s : halt_state) (type : pause_type) : list Z :=
  match type with HALT => h_vote_halt s | PARTIAL_HALT => h_vote_partial s end.
Definition set_votes (type : pause_type) (f : list Z -> list Z) (s : halt_state) : halt_state :=
  match type with HALT => set h_vote_halt f s | PARTIAL_HALT => set h_vote_partial f s end.

(** ** Requests *)

Definition is_state1 (e : halt_env) (s : halt_state) : bool :=
  if cpumask_weight (he_part_haltable e) =? 0 then false
  else cpumask_subset (he_part_haltable e) (Z.lor (cpu_partial_halt_mask s) (cpu_halt_mask s)).

Definition restrict_cpus_and_freq (e : halt_env) (cpus : Z) (s : halt_state) : halt_state :=
  let cap := if cpumask_intersects cpus (cpu_partial_halt_mask s)
                && negb (cpumask_intersects cpus (cpu_halt_mask s)) && is_state1 e s
             then he_max_freq_partial_halt e else FREQ_QOS_MAX_DEFAULT_VALUE in
  let s := for_each_cpu cpus
             (fun cpu s => set h_freq (set_cap PARTIAL_HALT_CAP (e_cluster_id (he_freq e) cpu) cap) s) s in
  set h_freq (update_smart_freq_capacities (he_freq e)) s.

(** An [inr] of the loop is the jump to [out]. *)
Definition halt_cpus (e : halt_env) (cpus : Z) (type : pause_type) (s : halt_state) : halt_state * Z :=
  match for_each_cpu_until cpus
          (fun cpu s => if cpu =? cpumask_first (he_32bit_cpus e) then inr s
                        else inl (set_mask type (fun m => Z.setbit m cpu) s)) s with
  | inr s => (s, - EINVAL)
  | inl s =>
      let s := restrict_cpus_and_freq e cpus s in
      (match type with
       | HALT => set cpus_to_drain (fun m => Z.lor m cpus) s
       | PARTIAL_HALT => s
       end, 0)
  end.

Definition start_cpus (e : halt_env) (cpus : Z) (type : pause_type) (s : halt_state) : halt_state * Z :=
  let s := for_each_cpu cpus
             (fun cpu s => set h_kicked (cons cpu) (set_mask type (fun m => Z.clearbit m cpu) s)) s in
  (restrict_cpus_and_freq e cpus s, 0).

(** [client] is an enumerator, the mask a [u8]. *)
Definition update_clients (cpus : Z) (halt : bool) (client : pause_client) (type : pause_type)
    (s : halt_state) : halt_state :=
  for_each_cpu cpus
    (fun cpu s => set_votes type (fun l => aset l cpu
       (u8 (if halt then Z.lor (aget l cpu) (client_value client)
            else Z.ldiff (aget l cpu) (client_value client)))) s) s.

Definition update_halt_cpus (cpus : Z) (type : pause_type) (s : halt_state) : Z :=
  for_each_cpu cpus
    (fun cpu m => if negb (aget (client_vote_mask s type) cpu =? 0) then Z.clearbit m cpu else m) cpus.

(** The result also carries the CPUs the caller's mask is left with. *)
Definition walt_halt_cpus (e : halt_env) (requested_cpus : Z) (client : pause_client) (type : pause_type)
    (s : halt_state) : halt_state * Z * Z :=
  let cpus := update_halt_cpus requested_cpus type s in
  if cpumask_empty cpus then (update_clients requested_cpus true client type s, cpus, 0) else
  let '(s, ret) := halt_cpus e cpus type s in
  (if ret <? 0 then s else update_clients requested_cpus true client type s, cpus, ret).

Definition walt_start_cpus (e : halt_env) (requested_cpus : Z) (client : pause_client) (type : pause_type)
    (s : halt_state) : halt_state * Z * Z :=
  let s := update_clients requested_cpus false client type s in
  let cpus := update_halt_cpus requested_cpus type s in
  let '(s, ret) := start_cpus e cpus type s in
  (if ret <? 0 then update_clients requested_cpus true client type s else s, cpus, ret).

Definition walt_pause_cpus (e : halt_env) (cpus : Z) (client : pause_client) (s : halt_state) : halt_state * Z * Z :=
  if walt_disabled e then (s, cpus, - EAGAIN) else walt_halt_cpus e cpus client HALT s.
Definition walt_partial_pause_cpus (e : halt_env) (cpus : Z) (client : pause_client) (s : halt_state) : halt_state * Z * Z :=
  if walt_disabled e then (s, cpus, - EAGAIN) else walt_halt_cpus e cpus client PARTIAL_HALT s.
Definition walt_resume_cpus (e : halt_env) (cpus : Z) (client : pause_client) (s : halt_state) : halt_state * Z * Z :=
  if walt_disabled e then (s, cpus, - EAGAIN) else walt_start_cpus e cpus client HALT s.
Definition walt_partial_resume_cpus (e : halt_env) (cpus : Z) (client : pause_client) (s : halt_state) : halt_state * Z * Z :=
  if walt_disabled e then (s, cpus, - EAGAIN) else walt_start_cpus e cpus client PARTIAL_HALT s.

Definition cpus_halted_by_client (cpus : Z) (client : pause_client) (s : halt_state) : bool :=
  match for_each_cpu_until cpus
          (fun cpu (_ : unit) =>
             if negb (Z.land (aget (client_vote_mask s HALT) cpu) (client_value client) =? 0)
             then inr tt else inl tt) tt with
  | inr _ => true
  | inl _ => false
  end.

(** ** Placement *)

Definition cpu_halted (s : halt_state) (cpu : Z) : bool := cpumask_test_cpu cpu (cpu_halt_mask s).

(** What the hooks read of a task. *)
Record halt_task := mk_htask {
  ht_kthread : bool;
  ht_migration_disabled : bool;
  ht_compat : bool;
  ht_in_execve : bool;
  ht_on_scx : bool;
  ht_cpus : Z
}.

(** [cpumask_any_and_distribute(allowed, new_mask)] is a parameter. *)
Definition android_rvh_set_cpus_allowed_by_task (e : halt_env) (any_and_distribute : Z -> Z -> Z)
    (cpu_valid_mask new_mask : Z) (p : halt_task) (s : halt_state) (dest_cpu : Z) : Z :=
  if walt_disabled e then dest_cpu else
  if ht_kthread p then dest_cpu else
  if cpu_halted s dest_cpu && negb (ht_migration_disabled p) then
    if ht_compat p && ht_in_execve p then dest_cpu else
    let allowed_cpus := Z.ldiff cpu_valid_mask (cpu_halt_mask s) in
    let allowed_cpus := Z.land allowed_cpus new_mask in
    if negb (cpumask_empty allowed_cpus) then any_and_distribute allowed_cpus new_mask else dest_cpu
  else dest_cpu.

Definition android_rvh_rto_next_cpu (e : halt_env) (rto_cpu rto_mask : Z) (s : halt_state) (cpu : Z) : Z :=
  if walt_disabled e then cpu else
  if cpu_halted s cpu then cpumask_next rto_cpu (Z.ldiff rto_mask (cpu_halt_mask s)) else cpu.

Definition android_rvh_is_cpu_allowed (e : halt_env) (cpu_active_mask cpu_dying_mask : Z) (p : halt_task)
    (s : halt_state) (cpu : Z) (allowed : bool) : bool :=
  if walt_disabled e then allowed else
  if ht_on_scx p then allowed else
  if cpumask_test_cpu cpu (cpu_halt_mask s) then
    if ht_compat p && ht_in_execve p then true else
    let cpus_allowed := Z.land cpu_active_mask (ht_cpus p) in
    let cpus_allowed := Z.ldiff cpus_allowed (cpu_halt_mask s) in
    if negb (ht_kthread p) then cpumask_empty cpus_allowed
    else cpumask_empty (Z.ldiff cpus_allowed cpu_dying_mask)
  else allowed.

(** The timer target. [spans] are the spans of the scheduling domains of a CPU,
    [idle] is [available_idle_cpu], [timer_cpus] the housekeeping mask for timers,
    [paused] and [part_paused] the CPUs paused by core control. *)
Record nohz_env := mk_nohz {
  n_active : Z;
  n_timer_cpus : Z;
  n_paused : Z;
  n_part_paused : Z;
  n_idle : Z -> bool;
  n_spans : Z -> list Z
}.

(** The first CPU of [mask] that passes [ok]. *)
Definition first_cpu (mask : Z) (ok : Z -> bool) : option Z :=
  match for_each_cpu_until mask (fun i (_ : unit) => if ok i then inr i else inl tt) tt with
  | inr i => Some i
  | inl _ => None
  end.

Fixpoint first_in_spans (spans : list Z) (mask : Z) (ok : Z -> bool) : option Z :=
  match spans with
  | [] => None
  | sd :: r => match first_cpu (Z.land sd mask) ok with Some i => Some i | None => first_in_spans r mask ok end
  end.

(** The search for another CPU, from [rcu_read_lock] on. *)
Definition nohz_search (n : nohz_env) (s : halt_state) (active_unhalted cpu : Z) (default_cpu : option Z) : Z :=
  match first_in_spans (n_spans n cpu) (n_timer_cpus n)
          (fun i => negb (cpu =? i) && (negb (n_idle n i) && negb (cpu_halted s i))) with
  | Some i => i
  | None =>
      match default_cpu with
      | Some d => d
      | None =>
          match first_cpu (Z.land active_unhalted (n_timer_cpus n))
                  (fun i => negb (cpu =? i) && negb (n_idle n i)) with
          | Some i => i
          | None => let d := cpumask_first active_unhalted in
                    if WALT_NR_CPUS <=? d then cpu else d
          end
      end
  end.

Definition android_rvh_get_nohz_timer_target (n : nohz_env) (s : halt_state) (cpu : Z) : Z :=
  let active_unhalted := Z.ldiff (n_active n) (cpu_halt_mask s) in
  let own := cpumask_test_cpu cpu (n_timer_cpus n) && negb (cpu_halted s cpu) in
  if own && negb (n_idle n cpu) then cpu else
  let default_cpu := if own then Some cpu else None in
  if cpumask_weight active_unhalted =? 0 then
    let tmp_part_pause := Z.land (n_active n) (n_part_paused n) in
    let tmp_pause := Z.land (n_active n) (n_paused n) in
    let tmp_halt := Z.land (n_active n) (cpu_halt_mask s) in
    let tmp := if negb (cpumask_weight tmp_part_pause =? 0) then tmp_part_pause
               else if negb (cpumask_weight tmp_pause =? 0) then tmp_pause else tmp_halt in
    match first_cpu tmp (fun i => negb ((cpu =? i) && (1 <? cpumask_weight tmp))) with
    | Some i => i
    | None => nohz_search n s active_unhalted cpu default_cpu
    end
  else nohz_search n s active_unhalted cpu default_cpu.

(** ** The drain thread

    The thread of [try_drain_rqs] and the requests of [halt_cpus] interleave at the
    lock: [D_check] takes it and looks at the mask, [D_draining] drains the copy,
    [D_clear] takes it again to clear the copy, [D_unlocked] has released it,
    [D_prepared] has set [TASK_INTERRUPTIBLE], [D_asleep] has scheduled away. *)

Inductive drain_pc : Set :=
| D_check
| D_draining (local_cpus : Z)
| D_clear (local_cpus : Z)
| D_unlocked
| D_prepared
| D_asleep.

(** [cpus_to_drain], where the thread is, and the CPUs drained so far. *)
Record drain_state := mk_drain { d_pending : Z; d_pc : drain_pc; d_drained : list Z }.

(** One step of the thread; none while it sleeps. *)
Definition try_drain_rqs (m : drain_state) : option drain_state :=
  match d_pc m with
  | D_check =>
      Some (if negb (cpumask_weight (d_pending m) =? 0)
            then mk_drain (d_pending m) (D_draining (d_pending m)) (d_drained m)
            else mk_drain (d_pending m) D_unlocked (d_drained m))
  | D_draining local_cpus =>
      Some (mk_drain (d_pending m) (D_clear local_cpus)
              (for_each_cpu local_cpus (fun cpu l => l ++ [cpu]) (d_drained m)))
  | D_clear local_cpus => Some (mk_drain (Z.ldiff (d_pending m) local_cpus) D_unlocked (d_drained m))
  | D_unlocked => Some (mk_drain (d_pending m) D_prepared (d_drained m))
  | D_prepared => Some (mk_drain (d_pending m) D_asleep (d_drained m))
  | D_asleep => None
  end.

(** The end of [halt_cpus]: the CPUs are added and the thread is woken, which sends it
    around its loop when it sleeps or is about to. *)
Definition request_drain (cpus : Z) (m : drain_state) : drain_state :=
  mk_drain (Z.lor (d_pending m) cpus)
    (match d_pc m with D_asleep | D_prepared => D_check | pc => pc end) (d_drained m).

#[global] Arguments restrict_cpus_and_freq : simpl never.
#[global] Arguments update_clients : simpl never.
#[global] Arguments update_halt_cpus : simpl never.

(** ** The masks are what the clients ask for *)

Module Halting.

(** Both types of masks and votes have their shape; votes are sets of the four
    clients. *)
Record halt_ok (s : halt_state) : Prop := mk_hok {
  ho_length : forall type, length (client_vote_mask s type) = Z.to_nat WALT_NR_CPUS;
  ho_votes : forall type cpu, is_cpu cpu -> 0 <= aget (client_vote_mask s type) cpu < 16;
  ho_mask : forall type, mask_ok (mask_of s type)
}.

(** A CPU is in a mask exactly while somebody asks for it. *)
Definition masks_follow (s : halt_state) : Prop :=
  forall type cpu, is_cpu cpu ->
    Z.testbit (mask_of s type) cpu = negb (aget (client_vote_mask s type) cpu =? 0).

Definition client_bit (c : pause_client) : Z :=
  match c with PAUSE_CORE_CTL => 0 | PAUSE_THERMAL => 1 | PAUSE_HYP => 2 | PAUSE_SBT => 3 end.

Definition votes_for (s : halt_state) (type : pause_type) (cpu : Z) (c : pause_client) : bool :=
  Z.testbit (aget (client_vote_mask s type) cpu) (client_bit c).

Definition all_clients : list pause_client := [PAUSE_CORE_CTL; PAUSE_THERMAL; PAUSE_HYP; PAUSE_SBT].

Section Votes.

Lemma client_bit_range c : 0 <= client_bit c < 4.
Proof. by destruct c. Qed.

Lemma client_value_bit c j : 0 <= j -> Z.testbit (client_value c) j = (client_bit c =? j).
Proof.
  intros Hj. replace (client_value c) with (2 ^ client_bit c) by (by destruct c).
  apply Z.pow2_bits_eqb. apply client_bit_range.
Qed.

Lemma client_bit_inj c d : client_bit c = client_bit d -> c = d.
Proof. by destruct c, d. Qed.

Lemma small_bits x : (forall j, 4 <= j -> Z.testbit x j = false) -> 0 <= x < 16.
Proof.
  intros H. assert (x = Z.land x (Z.ones 4)) as E.
  { apply Z.bits_inj'. intros j Hj. rewrite Z.land_spec, Z.testbit_ones by lia.
    destruct (Z_lt_le_dec j 4); [destruct (Z.ltb_spec j 4); [|lia]|by rewrite H].
    destruct (Z.leb_spec 0 j); [|lia]. cbn. by rewrite andb_true_r. }
  rewrite E, Z.land_ones by lia. apply Z.mod_pos_bound. reflexivity.
Qed.

Lemma small_high_bit x j : 0 <= x < 16 -> 4 <= j -> Z.testbit x j = false.
Proof.
  intros Hx Hj. destruct (Z.eq_dec x 0) as [->|]; [apply Z.bits_0|].
  apply Z.bits_above_log2; [lia|]. assert (Z.log2 x < 4); [|lia]. apply Z.log2_lt_pow2; lia.
Qed.

(** A vote mask is empty when no client is in it. *)
Lemma no_votes x : 0 <= x < 16 -> (x =? 0) = negb (existsb (fun c => Z.testbit x (client_bit c)) all_clients).
Proof.
  intros Hx. assert (x = 0 \/ x = 1 \/ x = 2 \/ x = 3 \/ x = 4 \/ x = 5 \/ x = 6 \/ x = 7 \/
    x = 8 \/ x = 9 \/ x = 10 \/ x = 11 \/ x = 12 \/ x = 13 \/ x = 14 \/ x = 15) as H by lia.
  by repeat destruct H as [->|H]; [..|subst].
Qed.

(** The votes of a CPU after a client is added or removed. *)
Definition new_vote (halt : bool) (c : pause_client) (x : Z) : Z :=
  u8 (if halt then Z.lor x (client_value c) else Z.ldiff x (client_value c)).

Lemma new_vote_spec halt c x :
  0 <= x < 16 ->
  0 <= new_vote halt c x < 16 /\
  forall d, Z.testbit (new_vote halt c x) (client_bit d) =
    if decide (c = d) then halt else Z.testbit x (client_bit d).
Proof.
  intros Hx. unfold new_vote. set (y := if halt then _ else _).
  assert (forall j, 0 <= j -> Z.testbit y j = if client_bit c =? j then halt else Z.testbit x j) as Hy.
  { intros j Hj. unfold y. destruct halt; rewrite ?Z.lor_spec, ?Z.ldiff_spec, client_value_bit by done;
      destruct (client_bit c =? j), (Z.testbit x j); done. }
  assert (0 <= y < 16) as Hr.
  { apply small_bits. intros j Hj. rewrite Hy by lia. pose proof (client_bit_range c).
    destruct (Z.eqb_spec (client_bit c) j); [lia|]. by apply small_high_bit. }
  rewrite u8_small by lia. split; [done|]. intros d. rewrite Hy by apply client_bit_range.
  destruct (decide (c = d)) as [->|Hne]; [by rewrite Z.eqb_refl|].
  destruct (Z.eqb_spec (client_bit c) (client_bit d)) as [E|]; [by apply client_bit_inj in E|done].
Qed.

End Votes.

(** ** The loops *)

Lemma votes_set_same type f s : client_vote_mask (set_votes type f s) type = f (client_vote_mask s type).
Proof. by destruct type. Qed.
Lemma votes_set_other type ty f s :
  ty <> type -> client_vote_mask (set_votes type f s) ty = client_vote_mask s ty.
Proof. by destruct type, ty. Qed.
Lemma mask_set_same type f s : mask_of (set_mask type f s) type = f (mask_of s type).
Proof. by destruct type. Qed.
Lemma mask_set_other type ty f s : ty <> type -> mask_of (set_mask type f s) ty = mask_of s ty.
Proof. by destruct type, ty. Qed.

(** All of the state but the votes, all of it but the masks. *)
Definition but_votes (s : halt_state) := (cpu_halt_mask s, cpu_partial_halt_mask s, cpus_to_drain s, h_kicked s, h_freq s).
Definition but_masks (s : halt_state) := (h_vote_halt s, h_vote_partial s, cpus_to_drain s, h_freq s).

Lemma update_clients_spec cpus halt c type s :
  (forall ty, length (client_vote_mask s ty) = Z.to_nat WALT_NR_CPUS) ->
  let s' := update_clients cpus halt c type s in
  but_votes s' = but_votes s /\
  (forall ty, length (client_vote_mask s' ty) = Z.to_nat WALT_NR_CPUS) /\
  forall ty cpu, is_cpu cpu -> aget (client_vote_mask s' ty) cpu =
    if bool_decide (ty = type) && Z.testbit cpus cpu
    then new_vote halt c (aget (client_vote_mask s ty) cpu) else aget (client_vote_mask s ty) cpu.
Proof.
  intros Hl. cbv zeta. unfold update_clients.
  pose (P := fun n s' => but_votes s' = but_votes s /\
    (forall ty, length (client_vote_mask s' ty) = Z.to_nat WALT_NR_CPUS) /\
    forall ty cpu, is_cpu cpu -> aget (client_vote_mask s' ty) cpu =
      if bool_decide (ty = type) && (Z.testbit cpus cpu && (cpu <? n))
      then new_vote halt c (aget (client_vote_mask s ty) cpu) else aget (client_vote_mask s ty) cpu).
  match goal with |- context [for_each_cpu cpus ?f s] => assert (P WALT_NR_CPUS (for_each_cpu cpus f s)) as H end.
  { apply for_each_cpu_ind.
    - split; [done|]. split; [done|]. intros ty cpu [Hc _].
      destruct (Z.ltb_spec cpu 0); [lia|]. by rewrite andb_false_r, andb_false_r.
    - intros i t Hi Hb (Hf & Hlen & Hv). split; [by destruct type|]. split.
      { intros ty. destruct (decide (ty = type)) as [->|]; [|by rewrite votes_set_other].
        by rewrite votes_set_same, length_aset. }
      intros ty cpu Hcpu. destruct (decide (ty = type)) as [->|Hne].
      2:{ rewrite votes_set_other, Hv by done. by rewrite bool_decide_eq_false_2 by done. }
      specialize (Hv type). rewrite votes_set_same. rewrite bool_decide_eq_true_2 in * by done. cbn [andb] in *.
      unfold is_cpu, WALT_NR_CPUS in *. rewrite aget_aset by (rewrite ?Hlen; lia).
      destruct (Z.eqb_spec i cpu) as [->|].
      + rewrite Hb, Hv by lia. destruct (Z.ltb_spec cpu cpu); [lia|]. destruct (Z.ltb_spec cpu (cpu + 1)); [|lia].
        by rewrite andb_false_r.
      + rewrite Hv by lia. by replace (cpu <? i + 1) with (cpu <? i) by lia.
    - intros i t Hi Hb (Hf & Hlen & Hv). split; [done|]. split; [done|]. intros ty cpu Hcpu. rewrite Hv by done.
      destruct (Z.eq_dec cpu i) as [->|]; [by rewrite Hb|]. by replace (cpu <? i + 1) with (cpu <? i) by lia. }
  destruct H as (H1 & H2 & H3). split; [done|]. split; [done|]. intros ty cpu Hcpu. rewrite H3 by done.
  destruct (Z.ltb_spec cpu WALT_NR_CPUS); [by rewrite andb_true_r|unfold is_cpu in Hcpu; lia].
Qed.

Lemma update_halt_cpus_spec cpus type s cpu :
  is_cpu cpu ->
  Z.testbit (update_halt_cpus cpus type s) cpu =
  Z.testbit cpus cpu && (aget (client_vote_mask s type) cpu =? 0).
Proof.
  intros Hcpu. unfold update_halt_cpus.
  pose (P := fun n m => forall i, is_cpu i -> Z.testbit m i =
    Z.testbit cpus i && ((aget (client_vote_mask s type) i =? 0) || (n <=? i))).
  match goal with |- context [for_each_cpu cpus ?f cpus] => assert (P WALT_NR_CPUS (for_each_cpu cpus f cpus)) as H end.
  { apply for_each_cpu_ind.
    - intros i [Hi _]. destruct (Z.leb_spec 0 i); [|lia]. by rewrite orb_true_r, andb_true_r.
    - intros c m Hc Hb HP i Hi. destruct (aget (client_vote_mask s type) c =? 0) eqn:E; cbn [negb].
      + rewrite HP by done. destruct (Z.eq_dec i c) as [->|]; [by rewrite E|].
        by replace (c + 1 <=? i) with (c <=? i) by lia.
      + rewrite clearbit_spec, HP by done. destruct (Z.eqb_spec c i) as [<-|]; cbn [negb].
        * rewrite E. destruct (Z.leb_spec (c + 1) c); [lia|]. by rewrite !andb_false_r.
        * rewrite andb_true_r. by replace (c + 1 <=? i) with (c <=? i) by lia.
    - intros c m Hc Hb HP i Hi. rewrite HP by done. destruct (Z.eq_dec i c) as [->|]; [by rewrite Hb|].
      by replace (c + 1 <=? i) with (c <=? i) by lia. }
  rewrite H by done. destruct (Z.leb_spec WALT_NR_CPUS cpu); [unfold is_cpu in Hcpu; lia|]. by rewrite orb_false_r.
Qed.

Lemma update_halt_cpus_ok cpus type s : mask_ok cpus -> mask_ok (update_halt_cpus cpus type s).
Proof.
  intros Hm. unfold update_halt_cpus. apply for_each_cpu_inv; [done|].
  intros c t _ _ Ht. case_if; auto with walt.
Qed.

Lemma restrict_frame e cpus s :
  (cpu_halt_mask (restrict_cpus_and_freq e cpus s), cpu_partial_halt_mask (restrict_cpus_and_freq e cpus s),
   h_vote_halt (restrict_cpus_and_freq e cpus s), h_vote_partial (restrict_cpus_and_freq e cpus s),
   cpus_to_drain (restrict_cpus_and_freq e cpus s), h_kicked (restrict_cpus_and_freq e cpus s)) =
  (cpu_halt_mask s, cpu_partial_halt_mask s, h_vote_halt s, h_vote_partial s, cpus_to_drain s, h_kicked s).
Proof.
  unfold restrict_cpus_and_freq. cbv zeta. set (cap := if _ && _ && _ then _ else _).
  match goal with |- context [for_each_cpu cpus ?f s] =>
    pose proof (for_each_cpu_inv (fun t =>
      (cpu_halt_mask t, cpu_partial_halt_mask t, h_vote_halt t, h_vote_partial t, cpus_to_drain t, h_kicked t) =
      (cpu_halt_mask s, cpu_partial_halt_mask s, h_vote_halt s, h_vote_partial s, cpus_to_drain s, h_kicked s))
      cpus f s) as H; set (t := for_each_cpu cpus f s) in * end.
  cbn. apply H; [done|]. intros c u _ _ Hu. exact Hu.
Qed.

(** The CPU a halt request may not contain. *)
Definition pinned (e : halt_env) : Z := cpumask_first (he_32bit_cpus e).

Lemma halt_loop e cpus type s :
  Z.testbit cpus (pinned e) = false ->
  exists s', for_each_cpu_until cpus
    (fun cpu s => if cpu =? cpumask_first (he_32bit_cpus e) then inr s
                  else inl (set_mask type (fun m => Z.setbit m cpu) s)) s = inl s' /\
    but_masks s' = but_masks s /\ h_kicked s' = h_kicked s /\
    (forall ty, mask_ok (mask_of s ty) -> mask_ok (mask_of s' ty)) /\
    forall ty cpu, is_cpu cpu -> Z.testbit (mask_of s' ty) cpu =
      Z.testbit (mask_of s ty) cpu || (bool_decide (ty = type) && Z.testbit cpus cpu).
Proof.
  intros Hp. unfold for_each_cpu_until.
  pose (P := fun n (x : halt_state + halt_state) => exists s', x = inl s' /\
    but_masks s' = but_masks s /\ h_kicked s' = h_kicked s /\
    (forall ty, mask_ok (mask_of s ty) -> mask_ok (mask_of s' ty)) /\
    forall ty cpu, is_cpu cpu -> Z.testbit (mask_of s' ty) cpu =
      Z.testbit (mask_of s ty) cpu || (bool_decide (ty = type) && (Z.testbit cpus cpu && (cpu <? n)))).
  match goal with |- context [for_each_cpu cpus ?f ?x] => assert (P WALT_NR_CPUS (for_each_cpu cpus f x)) as H end.
  { apply for_each_cpu_ind.
    - exists s. do 4 (split; [done|]). intros ty cpu [Hc _]. destruct (Z.ltb_spec cpu 0); [lia|].
      by rewrite !andb_false_r, orb_false_r.
    - intros c x Hc Hb (t & -> & H1 & H2 & H3 & H4). fold (pinned e).
      destruct (Z.eqb_spec c (pinned e)) as [->|]; [congruence|]. eexists. split; [reflexivity|].
      split; [by destruct type|]. split; [by destruct type|]. split.
      { intros ty Hty. destruct (decide (ty = type)) as [->|]; [|by rewrite mask_set_other by done; apply H3].
        rewrite mask_set_same. apply mask_ok_setbit; [by apply H3|done]. }
      intros ty cpu Hcpu. destruct (decide (ty = type)) as [->|Hne].
      + rewrite mask_set_same, setbit_spec, H4, bool_decide_eq_true_2 by (done || apply Hc). cbn [andb].
        destruct (Z.eqb_spec c cpu) as [->|].
        * rewrite Hb. destruct (Z.ltb_spec cpu (cpu + 1)); [|lia]. cbn. by rewrite orb_true_r.
        * cbn [orb]. by replace (cpu <? c + 1) with (cpu <? c) by lia.
      + rewrite mask_set_other, H4 by done. by rewrite bool_decide_eq_false_2 by done.
    - intros c x Hc Hb (t & -> & H1 & H2 & H3 & H4). exists t. do 4 (split; [done|]). intros ty cpu Hcpu.
      rewrite H4 by done. destruct (Z.eq_dec cpu c) as [->|]; [by rewrite Hb|].
      by replace (cpu <? c + 1) with (cpu <? c) by lia. }
  destruct H as (s' & -> & H1 & H2 & H3 & H4). exists s'. do 4 (split; [done|]). intros ty cpu Hcpu.
  rewrite H4 by done. destruct (Z.ltb_spec cpu WALT_NR_CPUS); [by rewrite andb_true_r|unfold is_cpu in Hcpu; lia].
Qed.

(** What changes of masks and votes: [on] are the CPUs whose bit of one type is set or
    cleared. *)
Definition masks_become (type : pause_type) (f : Z -> bool -> bool) (s s' : halt_state) : Prop :=
  (forall ty, client_vote_mask s' ty = client_vote_mask s ty) /\
  (forall ty, mask_ok (mask_of s ty) -> mask_ok (mask_of s' ty)) /\
  forall ty cpu, is_cpu cpu -> Z.testbit (mask_of s' ty) cpu =
    if bool_decide (ty = type) then f cpu (Z.testbit (mask_of s ty) cpu) else Z.testbit (mask_of s ty) cpu.

Lemma halt_cpus_spec e cpus type s :
  Z.testbit cpus (pinned e) = false ->
  exists s', halt_cpus e cpus type s = (s', 0) /\
    masks_become type (fun cpu b => b || Z.testbit cpus cpu) s s' /\ h_kicked s' = h_kicked s /\
    cpus_to_drain s' = (if type is HALT then Z.lor (cpus_to_drain s) cpus else cpus_to_drain s).
Proof.
  intros Hp. unfold halt_cpus. destruct (halt_loop e cpus type s Hp) as (t & -> & H1 & H2 & H3 & H4).
  eexists. split; [reflexivity|]. pose proof (restrict_frame e cpus t) as Hf.
  set (r := restrict_cpus_and_freq e cpus t) in *. clearbody r. injection Hf as F1 F2 F3 F4 F5 F6.
  injection H1 as G1 G2 G3 G4.
  split; [split; [|split]|split].
  - intros ty. destruct type, ty; cbn; congruence.
  - intros ty Hty. apply H3 in Hty. destruct type, ty; cbn in *; congruence.
  - intros ty cpu Hcpu. transitivity (Z.testbit (mask_of t ty) cpu); [destruct type, ty; cbn; congruence|].
    rewrite H4 by done. case_bool_decide; [done|]. by rewrite orb_false_r.
  - destruct type; cbn; congruence.
  - destruct type; cbn; congruence.
Qed.

Lemma start_cpus_spec e cpus type s :
  exists s', start_cpus e cpus type s = (s', 0) /\
    masks_become type (fun cpu b => b && negb (Z.testbit cpus cpu)) s s' /\
    cpus_to_drain s' = cpus_to_drain s.
Proof.
  unfold start_cpus. eexists. split; [reflexivity|].
  set (f := fun cpu s => set h_kicked (cons cpu) (set_mask type (fun m => Z.clearbit m cpu) s)).
  pose (P := fun n t => but_masks t = but_masks s /\
    (forall ty, mask_ok (mask_of s ty) -> mask_ok (mask_of t ty)) /\
    forall ty cpu, is_cpu cpu -> Z.testbit (mask_of t ty) cpu =
      if bool_decide (ty = type) then Z.testbit (mask_of s ty) cpu && negb (Z.testbit cpus cpu && (cpu <? n))
      else Z.testbit (mask_of s ty) cpu).
  assert (P WALT_NR_CPUS (for_each_cpu cpus f s)) as H.
  { apply for_each_cpu_ind.
    - split; [done|]. split; [done|]. intros ty cpu [Hc _]. destruct (Z.ltb_spec cpu 0); [lia|].
      rewrite andb_false_r. case_bool_decide; [by rewrite andb_true_r|done].
    - intros c t Hc Hb (H1 & H3 & H4). unfold f. split; [by destruct type|]. split.
      { intros ty Hty. change (mask_of (set h_kicked _ ?x) ty) with (mask_of x ty).
        destruct (decide (ty = type)) as [->|]; [|by rewrite mask_set_other by done; apply H3].
        rewrite mask_set_same. apply mask_ok_clearbit. by apply H3. }
      intros ty cpu Hcpu. change (mask_of (set h_kicked _ ?x) ty) with (mask_of x ty).
      destruct (decide (ty = type)) as [->|Hne].
      + rewrite mask_set_same, clearbit_spec, H4, bool_decide_eq_true_2 by done.
        destruct (Z.eqb_spec c cpu) as [->|].
        * rewrite Hb. destruct (Z.ltb_spec cpu (cpu + 1)); [|lia]. cbn. by rewrite !andb_false_r.
        * cbn [negb]. rewrite andb_true_r. by replace (cpu <? c + 1) with (cpu <? c) by lia.
      + rewrite mask_set_other, H4 by done. by rewrite bool_decide_eq_false_2 by done.
    - intros c t Hc Hb (H1 & H3 & H4). split; [done|]. split; [done|]. intros ty cpu Hcpu.
      rewrite H4 by done. destruct (Z.eq_dec cpu c) as [->|]; [by rewrite Hb|].
      by replace (cpu <? c + 1) with (cpu <? c) by lia. }
  destruct H as (H1 & H3 & H4). pose proof (restrict_frame e cpus (for_each_cpu cpus f s)) as Hf.
  set (r := restrict_cpus_and_freq e cpus _) in *. clearbody r. injection Hf as F1 F2 F3 F4 F5 F6.
  injection H1 as G1 G2 G3 G4. set (t := for_each_cpu cpus f s) in *. clearbody t.
  split; [split; [|split]|by rewrite F5].
  - intros ty. destruct ty; cbn; congruence.
  - intros ty Hty. apply H3 in Hty. destruct ty; cbn in *; congruence.
  - intros ty cpu Hcpu. transitivity (Z.testbit (mask_of t ty) cpu); [destruct ty; cbn; congruence|].
    rewrite H4 by done. destruct (Z.ltb_spec cpu WALT_NR_CPUS); [|unfold is_cpu in Hcpu; lia]. by rewrite andb_true_r.
Qed.

(** ** Requests *)

Record request := mk_request {
  req_pause : bool;
  req_cpus : Z;
  req_client : pause_client;
  req_type : pause_type
}.

Definition serve (e : halt_env) (r : request) (s : halt_state) : halt_state * Z * Z :=
  match req_pause r, req_type r with
  | true, HALT => walt_pause_cpus e (req_cpus r) (req_client r) s
  | true, PARTIAL_HALT => walt_partial_pause_cpus e (req_cpus r) (req_client r) s
  | false, HALT => walt_resume_cpus e (req_cpus r) (req_client r) s
  | false, PARTIAL_HALT => walt_partial_resume_cpus e (req_cpus r) (req_client r) s
  end.

Lemma serve_eq e r s :
  walt_disabled e = false ->
  serve e r s = if req_pause r then walt_halt_cpus e (req_cpus r) (req_client r) (req_type r) s
                else walt_start_cpus e (req_cpus r) (req_client r) (req_type r) s.
Proof.
  intros Hd. unfold serve, walt_pause_cpus, walt_partial_pause_cpus, walt_resume_cpus, walt_partial_resume_cpus.
  rewrite Hd. by destruct (req_pause r), (req_type r).
Qed.

Definition concerns (r : request) (ty : pause_type) (cpu : Z) : bool :=
  bool_decide (ty = req_type r) && Z.testbit (req_cpus r) cpu.

(** A request that the code accepts: a mask of CPUs, and not the CPU that has to stay
    available for 32-bit tasks. *)
Definition acceptable (e : halt_env) (r : request) : Prop :=
  mask_ok (req_cpus r) /\ (req_pause r = true -> Z.testbit (req_cpus r) (pinned e) = false).

(** The votes after a request, and what the masks then have to be. *)
Lemma voted_ok cpus halt c type s s1 (f : Z -> bool -> bool) :
  halt_ok s -> masks_follow s -> masks_become type f s s1 ->
  (forall cpu, is_cpu cpu ->
     let x := aget (client_vote_mask s type) cpu in
     f cpu (negb (x =? 0)) = negb ((if Z.testbit cpus cpu then new_vote halt c x else x) =? 0)) ->
  let s' := update_clients cpus halt c type s1 in
  halt_ok s' /\ masks_follow s' /\
  forall ty cpu d, is_cpu cpu -> votes_for s' ty cpu d =
    if bool_decide (ty = type) && Z.testbit cpus cpu && bool_decide (c = d) then halt else votes_for s ty cpu d.
Proof.
  intros [Hl Hv Hm] Hfol (Bv & Bo & Bm) Hf. cbv zeta.
  destruct (update_clients_spec cpus halt c type s1) as (U1 & U2 & U3); [intros ty; by rewrite Bv|]. cbv zeta in *.
  set (s' := update_clients cpus halt c type s1) in *. clearbody s'.
  assert (forall ty, mask_of s' ty = mask_of s1 ty) as Hms by (injection U1; intros; destruct ty; cbn; congruence).
  split; [constructor|split].
  - done.
  - intros ty cpu Hcpu. rewrite U3, Bv by done. case_if; [|by apply Hv]. by apply new_vote_spec, Hv.
  - intros ty. rewrite Hms. by apply Bo.
  - intros ty cpu Hcpu. rewrite Hms, Bm, U3, Bv by done. case_bool_decide as Ety; cbn [andb].
    + subst ty. rewrite Hfol by done. by apply Hf.
    + by apply Hfol.
  - intros ty cpu d Hcpu. unfold votes_for. rewrite U3, Bv by done.
    destruct (bool_decide (ty = type) && Z.testbit cpus cpu); cbn [andb]; [|done].
    rewrite (proj2 (new_vote_spec halt c _ (Hv ty cpu Hcpu))). by case_decide; case_bool_decide.
Qed.

Lemma new_vote_true_nonzero c x : 0 <= x < 16 -> (new_vote true c x =? 0) = false.
Proof.
  intros Hx. destruct (new_vote_spec true c x Hx) as [_ Hb]. specialize (Hb c).
  rewrite decide_True in Hb by done. apply Z.eqb_neq. intros E. by rewrite E, Z.bits_0 in Hb.
Qed.

Lemma new_vote_false_zero c : new_vote false c 0 = 0.
Proof. by destruct c. Qed.

Lemma empty_update cpus type s :
  update_halt_cpus cpus type s = 0 -> masks_become type (fun cpu b => b || Z.testbit (update_halt_cpus cpus type s) cpu) s s.
Proof.
  intros E. split; [done|]. split; [done|]. intros ty cpu _. rewrite E, Z.bits_0. case_bool_decide; [|done].
  by rewrite orb_false_r.
Qed.

Lemma walt_halt_cpus_spec e cpus c type s :
  halt_ok s -> masks_follow s -> mask_ok cpus -> Z.testbit cpus (pinned e) = false ->
  exists s' left, walt_halt_cpus e cpus c type s = (s', left, 0) /\ halt_ok s' /\ masks_follow s' /\
    forall ty cpu d, is_cpu cpu -> votes_for s' ty cpu d =
      if bool_decide (ty = type) && Z.testbit cpus cpu && bool_decide (c = d) then true else votes_for s ty cpu d.
Proof.
  intros Hok Hfol Hm Hp. unfold walt_halt_cpus. set (left := update_halt_cpus cpus type s).
  assert (forall cpu, is_cpu cpu -> let x := aget (client_vote_mask s type) cpu in
    negb (x =? 0) || Z.testbit left cpu = negb ((if Z.testbit cpus cpu then new_vote true c x else x) =? 0)) as Hf.
  { intros cpu Hcpu x. unfold left. rewrite update_halt_cpus_spec by done. fold x.
    destruct (Z.testbit cpus cpu); [|by rewrite orb_false_r].
    rewrite new_vote_true_nonzero by (by apply ho_votes). by destruct (x =? 0). }
  destruct (cpumask_empty left) eqn:Ee.
  - apply Z.eqb_eq in Ee. eexists _, _. split; [reflexivity|].
    apply (voted_ok cpus true c type s s (fun cpu b => b || Z.testbit left cpu)); [done|done|by apply empty_update|done].
  - assert (Z.testbit left (pinned e) = false) as Hpl.
    { destruct (Z.testbit left (pinned e)) eqn:E; [|done].
      assert (is_cpu (pinned e)) as Hc by (by apply (mask_bit_is_cpu left); [apply update_halt_cpus_ok|]).
      unfold left in E. rewrite update_halt_cpus_spec, Hp in E by done. done. }
    destruct (halt_cpus_spec e left type s Hpl) as (s1 & -> & Hb & _). eexists _, _. split; [reflexivity|].
    by apply (voted_ok cpus true c type s s1 (fun cpu b => b || Z.testbit left cpu)).
Qed.

(** Resuming removes the votes first. *)
Lemma walt_start_cpus_spec e cpus c type s :
  halt_ok s -> masks_follow s -> mask_ok cpus ->
  exists s' left, walt_start_cpus e cpus c type s = (s', left, 0) /\ halt_ok s' /\ masks_follow s' /\
    forall ty cpu d, is_cpu cpu -> votes_for s' ty cpu d =
      if bool_decide (ty = type) && Z.testbit cpus cpu && bool_decide (c = d) then false else votes_for s ty cpu d.
Proof.
  intros Hok Hfol Hm. unfold walt_start_cpus.
  destruct (update_clients_spec cpus false c type s (ho_length s Hok)) as (U1 & U2 & U3). cbv zeta in *.
  set (s1 := update_clients cpus false c type s) in *. clearbody s1.
  set (left := update_halt_cpus cpus type s1).
  destruct (start_cpus_spec e left type s1) as (s2 & -> & (Bv & Bo & Bm) & _).
  eexists _, _. split; [reflexivity|]. change (0 <? 0) with false. cbv iota.
  assert (forall ty, mask_of s1 ty = mask_of s ty) as Hms by (injection U1; intros; destruct ty; cbn; congruence).
  split; [constructor|split].
  - intros ty. by rewrite Bv.
  - intros ty cpu Hcpu. rewrite Bv, U3 by done. case_if; [|by apply ho_votes]. by apply new_vote_spec, ho_votes.
  - intros ty. apply Bo. rewrite Hms. by apply ho_mask.
  - intros ty cpu Hcpu. rewrite Bm, Bv, Hms, Hfol by done. unfold left. rewrite update_halt_cpus_spec by done.
    case_bool_decide as Ety; [subst ty|by rewrite U3, bool_decide_eq_false_2 by done].
    rewrite U3, bool_decide_eq_true_2 by done. cbn [andb]. destruct (Z.testbit cpus cpu); cbn [andb negb].
    2:{ by rewrite andb_true_r. }
    destruct (Z.eqb_spec (aget (client_vote_mask s type) cpu) 0) as [->|]; [by rewrite new_vote_false_zero|done].
  - intros ty cpu d Hcpu. unfold votes_for. rewrite Bv, U3 by done.
    destruct (bool_decide (ty = type) && Z.testbit cpus cpu); cbn [andb]; [|done].
    rewrite (proj2 (new_vote_spec false c _ (ho_votes s Hok ty cpu Hcpu))). by case_decide; case_bool_decide.
Qed.

Lemma serve_spec e r s :
  walt_disabled e = false -> halt_ok s -> masks_follow s -> acceptable e r ->
  exists s' left, serve e r s = (s', left, 0) /\ halt_ok s' /\ masks_follow s' /\
    forall ty cpu d, is_cpu cpu -> votes_for s' ty cpu d =
      if concerns r ty cpu && bool_decide (req_client r = d) then req_pause r else votes_for s ty cpu d.
Proof.
  intros Hd Hok Hfol [Hm Hp]. rewrite serve_eq by done. unfold concerns. destruct (req_pause r).
  - by apply walt_halt_cpus_spec; [..|apply Hp].
  - by apply walt_start_cpus_spec.
Qed.

(** ** Searching a mask *)

Lemma search_cpu {R} mask (ok : Z -> bool) (g : Z -> R) :
  match for_each_cpu_until mask (fun i (_ : unit) => if ok i then inr (g i) else inl tt) tt with
  | inr r => exists i, is_cpu i /\ Z.testbit mask i = true /\ ok i = true /\ r = g i
  | inl _ => forall i, is_cpu i -> Z.testbit mask i = true -> ok i = false
  end.
Proof.
  unfold for_each_cpu_until.
  pose (P := fun n (x : unit + R) => match x with
    | inr r => exists i, is_cpu i /\ Z.testbit mask i = true /\ ok i = true /\ r = g i
    | inl _ => forall i, is_cpu i -> i < n -> Z.testbit mask i = true -> ok i = false end).
  match goal with |- match for_each_cpu mask ?f ?x with _ => _ end => assert (P WALT_NR_CPUS (for_each_cpu mask f x)) as H end.
  { apply for_each_cpu_ind.
    - intros i [Hi _]. lia.
    - intros c [[]|r] Hc Hb HP; [|done]. destruct (ok c) eqn:Eo; [by exists c|].
      intros i Hi Hlt Hbi. destruct (Z.eq_dec i c) as [->|]; [done|]. apply HP; [done|lia|done].
    - intros c [[]|r] Hc Hb HP; [|done]. intros i Hi Hlt Hbi.
      destruct (Z.eq_dec i c) as [->|]; [congruence|]. apply HP; [done|lia|done]. }
  destruct (for_each_cpu _ _ _) as [[]|r]; [|done]. intros i Hi. apply H; [done|apply Hi].
Qed.

Lemma first_cpu_spec mask ok :
  match first_cpu mask ok with
  | Some i => is_cpu i /\ Z.testbit mask i = true /\ ok i = true
  | None => forall i, is_cpu i -> Z.testbit mask i = true -> ok i = false
  end.
Proof.
  unfold first_cpu. pose proof (search_cpu mask ok (fun i => i)) as H.
  destruct (for_each_cpu_until _ _ _) as [|r]; [done|]. by destruct H as (i & ? & ? & ? & ->).
Qed.

Lemma cpus_halted_by_client_spec cpus c s :
  mask_ok cpus ->
  cpus_halted_by_client cpus c s = true <->
  exists cpu, Z.testbit cpus cpu = true /\ votes_for s HALT cpu c = true.
Proof.
  intros Hm. unfold cpus_halted_by_client, votes_for.
  assert (forall x, negb (Z.land x (client_value c) =? 0) = Z.testbit x (client_bit c)) as Hb.
  { intros x. replace (client_value c) with (bit (client_bit c)) by (by destruct c).
    rewrite Reasons.land_bit by apply client_bit_range. by rewrite negb_involutive. }
  pose proof (search_cpu cpus (fun cpu => negb (Z.land (aget (client_vote_mask s HALT) cpu) (client_value c) =? 0))
    (fun _ => tt)) as H.
  destruct (for_each_cpu_until _ _ _) as [|r].
  - split; [done|]. intros (cpu & Hc & Hv). pose proof (mask_bit_is_cpu cpus cpu Hm Hc) as Hcpu.
    specialize (H cpu Hcpu Hc). cbv beta in H. rewrite Hb in H. congruence.
  - split; [|done]. intros _. destruct H as (i & _ & Hi & Hok & _). exists i. rewrite Hb in Hok. done.
Qed.

(** ** Sequences of requests *)

Definition run (e : halt_env) (l : list request) (s : halt_state) : halt_state :=
  fold_left (fun s r => (serve e r s).1.1) l s.

(** Whether a client asks for a CPU: the last request of the client about the CPU was a
    pause. *)
Definition asked_from (b : bool) (l : list request) (ty : pause_type) (cpu : Z) (d : pause_client) : bool :=
  fold_left (fun b r => if concerns r ty cpu && bool_decide (req_client r = d) then req_pause r else b) l b.
Definition asked : list request -> pause_type -> Z -> pause_client -> bool := asked_from false.

(** Nothing halted, nobody asking. *)
Definition quiet (f : fsys) : halt_state :=
  mk_halt 0 0 (replicate 8 0) (replicate 8 0) 0 [] f.

Lemma quiet_ok f : halt_ok (quiet f) /\ masks_follow (quiet f) /\ forall ty cpu d, votes_for (quiet f) ty cpu d = false.
Proof.
  assert (forall ty cpu, aget (client_vote_mask (quiet f) ty) cpu = 0) as Hz.
  { intros ty cpu. by destruct ty; cbn; rewrite (aget_replicate_0 8). }
  split; [constructor|split].
  - by intros [].
  - intros ty cpu _. rewrite Hz. lia.
  - by intros [].
  - intros ty cpu _. rewrite Hz. by destruct ty; cbn; rewrite Z.bits_0.
  - intros. unfold votes_for. by rewrite Hz, Z.bits_0.
Qed.

Lemma run_spec e l s :
  walt_disabled e = false -> halt_ok s -> masks_follow s -> Forall (acceptable e) l ->
  halt_ok (run e l s) /\ masks_follow (run e l s) /\
  forall ty cpu d, is_cpu cpu -> votes_for (run e l s) ty cpu d = asked_from (votes_for s ty cpu d) l ty cpu d.
Proof.
  intros Hd Hok Hfol Hl. revert s Hok Hfol. induction Hl as [|r l Hr Hl IH]; intros s Hok Hfol; [done|].
  destruct (serve_spec e r s Hd Hok Hfol Hr) as (s' & left & E & Hok' & Hfol' & Hv).
  cbn [run fold_left]. rewrite E. cbn [fst]. fold (run e l s'). destruct (IH s' Hok' Hfol') as (H1 & H2 & H3).
  split; [done|]. split; [done|]. intros ty cpu d Hcpu. rewrite H3, Hv by done. done.
Qed.

(** C13. Any sequence of accepted requests of any clients: a CPU is in the halt mask (the
    partial halt mask) exactly when some client asked for it last, each client counting
    once however often it asks; [cpus_halted_by_client] tells the clients apart; and
    every further accepted request succeeds. *)
Theorem halt_masks_are_requests e f l :
  walt_disabled e = false -> Forall (acceptable e) l ->
  let s := run e l (quiet f) in
  (forall ty cpu, is_cpu cpu -> Z.testbit (mask_of s ty) cpu = existsb (asked l ty cpu) all_clients) /\
  (forall cpus c, mask_ok cpus -> cpus_halted_by_client cpus c s = true <->
     exists cpu, Z.testbit cpus cpu = true /\ asked l HALT cpu c = true) /\
  (forall r, acceptable e r -> (serve e r s).2 = 0).
Proof.
  intros Hd Hl. cbv zeta. destruct (quiet_ok f) as (Q1 & Q2 & Q3).
  destruct (run_spec e l (quiet f) Hd Q1 Q2 Hl) as (R1 & R2 & R3).
  assert (forall ty cpu d, is_cpu cpu -> votes_for (run e l (quiet f)) ty cpu d = asked l ty cpu d) as Hv.
  { intros ty cpu d Hcpu. rewrite R3, Q3 by done. done. }
  split; [|split].
  - intros ty cpu Hcpu. rewrite R2, no_votes, negb_involutive by (done || by apply ho_votes).
    cbn [existsb all_clients]. by rewrite <- !Hv by done.
  - intros cpus c Hm. rewrite cpus_halted_by_client_spec by done. split; intros (cpu & Hc & H); exists cpu;
      (split; [done|]); pose proof (mask_bit_is_cpu cpus cpu Hm Hc) as Hcpu; [by rewrite <- Hv|by rewrite Hv].
  - intros r Hr. by destruct (serve_spec e r _ Hd R1 R2 Hr) as (s' & left & -> & _).
Qed.

(** ** Refused requests *)

Lemma halt_loop_refused e cpus type s :
  Z.testbit cpus (pinned e) = true -> is_cpu (pinned e) ->
  exists s', halt_cpus e cpus type s = (s', - EINVAL) /\
    masks_become type (fun cpu b => b || (Z.testbit cpus cpu && (cpu <? pinned e))) s s' /\
    but_masks s' = but_masks s.
Proof.
  intros Hp Hpc. unfold halt_cpus, for_each_cpu_until.
  pose (Q := fun n t => but_masks t = but_masks s /\
    masks_become type (fun cpu b => b || (Z.testbit cpus cpu && (cpu <? n))) s t).
  pose (P := fun n (x : halt_state + halt_state) =>
    match x with inl t => n <= pinned e /\ Q n t | inr t => pinned e < n /\ Q (pinned e) t end).
  match goal with |- context [for_each_cpu cpus ?f ?x] => assert (P WALT_NR_CPUS (for_each_cpu cpus f x)) as H end.
  { apply for_each_cpu_ind.
    - split; [apply Hpc|]. split; [done|]. split; [done|]. split; [done|]. intros ty cpu [Hc _].
      destruct (Z.ltb_spec cpu 0); [lia|]. rewrite andb_false_r, orb_false_r. by case_bool_decide.
    - intros c [t|t] Hc Hb; [|intros [H1 H2]; split; [lia|done]]. intros [Hn (H1 & Hv & Ho & Hm)]. fold (pinned e).
      destruct (Z.eqb_spec c (pinned e)) as [->|Hne]; [split; [lia|by split]|].
      split; [lia|]. split; [by destruct type|]. split; [intros ty; rewrite <- Hv; by destruct type, ty|]. split.
      { intros ty Hty. destruct (decide (ty = type)) as [->|]; [|by rewrite mask_set_other by done; apply Ho].
        rewrite mask_set_same. apply mask_ok_setbit; [by apply Ho|done]. }
      intros ty cpu Hcpu. destruct (decide (ty = type)) as [->|].
      + rewrite mask_set_same, setbit_spec, Hm, !bool_decide_eq_true_2 by (done || apply Hc).
        destruct (Z.eqb_spec c cpu) as [->|].
        * rewrite Hb. destruct (Z.ltb_spec cpu (cpu + 1)); [|lia]. cbn. by rewrite orb_true_r.
        * by replace (cpu <? c + 1) with (cpu <? c) by lia.
      + rewrite mask_set_other, Hm by done. by rewrite bool_decide_eq_false_2 by done.
    - intros c [t|t] Hc Hb; [|intros [H1 H2]; split; [lia|done]]. intros [Hn (H1 & Hv & Ho & Hm)].
      assert (c <> pinned e) by congruence. split; [lia|]. split; [done|]. split; [done|]. split; [done|].
      intros ty cpu Hcpu. rewrite Hm by done. destruct (Z.eq_dec cpu c) as [->|]; [by rewrite Hb|].
      by replace (cpu <? c + 1) with (cpu <? c) by lia. }
  destruct (for_each_cpu _ _ _) as [t|t].
  - destruct H as [H _]. unfold is_cpu in Hpc. lia.
  - destruct H as (_ & H1 & H2). by exists t.
Qed.

(** A request to halt the CPU kept for 32-bit tasks is refused with -EINVAL and no vote
    is recorded; but the requested CPUs below it that nobody had halted are left in the
    mask. With the module disabled every request is refused with -EAGAIN and nothing
    changes. *)
Theorem halt_refused e cpus c type s :
  halt_ok s -> masks_follow s -> mask_ok cpus -> Z.testbit cpus (pinned e) = true ->
  aget (client_vote_mask s type) (pinned e) = 0 ->
  exists s' left, walt_halt_cpus e cpus c type s = (s', left, - EINVAL) /\
    (forall ty, client_vote_mask s' ty = client_vote_mask s ty) /\ cpus_to_drain s' = cpus_to_drain s /\
    (forall ty cpu, is_cpu cpu -> Z.testbit (mask_of s' ty) cpu =
       Z.testbit (mask_of s ty) cpu || (bool_decide (ty = type) && Z.testbit cpus cpu && (cpu <? pinned e))) /\
    forall e' r, walt_disabled e' = true -> serve e' r s = (s, req_cpus r, - EAGAIN).
Proof.
  intros Hok Hfol Hm Hp Hz. pose proof (mask_bit_is_cpu cpus _ Hm Hp) as Hpc.
  unfold walt_halt_cpus. set (left := update_halt_cpus cpus type s).
  assert (Z.testbit left (pinned e) = true) as Hpl by (unfold left; by rewrite update_halt_cpus_spec, Hp, Hz by done).
  destruct (Z.eqb_spec left 0) as [E0|E0]; [by rewrite E0, Z.bits_0 in Hpl|].
  unfold cpumask_empty. destruct (Z.eqb_spec left 0); [done|].
  destruct (halt_loop_refused e left type s Hpl Hpc) as (s1 & -> & (Bv & _ & Bm) & Hbut).
  eexists _, _. split; [reflexivity|]. change (- EINVAL <? 0) with true. cbv iota.
  split; [done|]. split; [injection Hbut; congruence|]. split.
  - intros ty cpu Hcpu. rewrite Bm by done. case_bool_decide as Ety; [subst ty|by rewrite orb_false_r].
    unfold left. rewrite update_halt_cpus_spec by done. cbn [andb]. rewrite Hfol by done.
    destruct (Z.testbit cpus cpu), (aget _ cpu =? 0), (cpu <? pinned e); done.
  - intros e' r Hd. unfold serve, walt_pause_cpus, walt_partial_pause_cpus, walt_resume_cpus, walt_partial_resume_cpus.
    rewrite Hd. by destruct (req_pause r), (req_type r).
Qed.

(** ** Votes under any outcome *)

(** The votes a request leaves when it succeeds. *)
Definition votes_become (r : request) (s s' : halt_state) : Prop :=
  forall ty cpu d, is_cpu cpu -> votes_for s' ty cpu d =
    if concerns r ty cpu && bool_decide (req_client r = d) then req_pause r else votes_for s ty cpu d.

Lemma update_clients_votes cpus halt c type s :
  halt_ok s ->
  let s' := update_clients cpus halt c type s in
  halt_ok s' /\ votes_become (mk_request halt cpus c type) s s'.
Proof.
  intros [Hl Hv Hm]. cbv zeta. destruct (update_clients_spec cpus halt c type s Hl) as (U1 & U2 & U3). cbv zeta in *.
  set (s' := update_clients cpus halt c type s) in *. clearbody s'. split; [constructor|].
  - done.
  - intros ty cpu Hcpu. rewrite U3 by done. case_if; [|by apply Hv]. by apply new_vote_spec, Hv.
  - intros ty. injection U1 as E1 E2 _ _ _. destruct ty; cbn; [rewrite E1; apply (Hm HALT)|rewrite E2; apply (Hm PARTIAL_HALT)].
  - intros ty cpu d Hcpu. unfold votes_for, concerns. cbn. rewrite U3 by done.
    destruct (bool_decide (ty = type) && Z.testbit cpus cpu); cbn [andb]; [|done].
    rewrite (proj2 (new_vote_spec halt c _ (Hv ty cpu Hcpu))). by case_decide; case_bool_decide.
Qed.

Lemma masks_become_ok type f s s' : masks_become type f s s' -> halt_ok s -> halt_ok s'.
Proof.
  intros (Bv & Bo & _) [Hl Hv Hm]. constructor; intros; [by rewrite Bv|by rewrite Bv; apply Hv|by apply Bo].
Qed.

Lemma votes_become_ext r s s1 s' :
  (forall ty, client_vote_mask s1 ty = client_vote_mask s ty) -> votes_become r s1 s' -> votes_become r s s'.
Proof.
  intros Hv H ty cpu d Hcpu. rewrite H by done. unfold votes_for. by rewrite Hv.
Qed.

(** A request either succeeds and sets the votes, or fails and leaves every vote. *)
Lemma serve_votes e r s :
  halt_ok s -> mask_ok (req_cpus r) ->
  exists s' left ret, serve e r s = (s', left, ret) /\ halt_ok s' /\
    (0 <= ret /\ votes_become r s s' \/
     ret < 0 /\ forall ty, client_vote_mask s' ty = client_vote_mask s ty).
Proof.
  intros Hok Hm. destruct (walt_disabled e) eqn:Hd.
  { exists s, (req_cpus r), (- EAGAIN). split; [|split; [done|right; by split]].
    unfold serve, walt_pause_cpus, walt_partial_pause_cpus, walt_resume_cpus, walt_partial_resume_cpus.
    rewrite Hd. by destruct (req_pause r), (req_type r). }
  rewrite serve_eq by done. destruct r as [pause cpus c type]. cbn [req_pause req_cpus req_client req_type] in *. destruct pause.
  - unfold walt_halt_cpus. set (left := update_halt_cpus cpus type s).
    assert (mask_ok left) as Hleft by by apply update_halt_cpus_ok.
    destruct (cpumask_empty left).
    { eexists _, _, _. split; [reflexivity|]. destruct (update_clients_votes cpus true c type s Hok). split; [done|by left]. }
    destruct (Z.testbit left (pinned e)) eqn:Hp.
    + destruct (halt_loop_refused e left type s Hp (mask_bit_is_cpu _ _ Hleft Hp)) as (s1 & -> & Hb & _).
      eexists _, _, _. split; [reflexivity|]. split; [exact (masks_become_ok _ _ _ _ Hb Hok)|]. right. split; [done|apply Hb].
    + destruct (halt_cpus_spec e left type s Hp) as (s1 & -> & Hb & _). eexists _, _, _. split; [reflexivity|].
      destruct (update_clients_votes cpus true c type s1 (masks_become_ok _ _ _ _ Hb Hok)) as [H1 H2].
      split; [done|]. left. split; [done|]. apply (votes_become_ext _ s s1); [apply Hb|done].
  - unfold walt_start_cpus. destruct (update_clients_votes cpus false c type s Hok) as [H1 H2]. cbv zeta in *.
    set (s1 := update_clients cpus false c type s) in *. clearbody s1.
    destruct (start_cpus_spec e (update_halt_cpus cpus type s1) type s1) as (s2 & -> & Hb & _).
    eexists _, _, _. split; [reflexivity|]. change (0 <? 0) with false. cbv iota.
    split; [by apply (masks_become_ok _ _ _ _ Hb)|]. left. split; [done|]. intros ty cpu d Hcpu.
    rewrite <- H2 by done. unfold votes_for. destruct Hb as (Hb & _). by rewrite Hb.
Qed.

(** ** Placement keeps away from halted CPUs *)

Lemma weight_zero m : mask_ok m -> (cpumask_weight m =? 0) = (m =? 0).
Proof.
  intros Hm. unfold cpumask_weight.
  pose (P := fun n w => 0 <= w /\ (w = 0 <-> forall c, is_cpu c -> c < n -> Z.testbit m c = false)).
  assert (P WALT_NR_CPUS (for_each_cpu m (fun _ n => n + 1) 0)) as [H0 H1].
  { apply for_each_cpu_ind.
    - split; [done|]. split; [|done]. intros _ c [Hc _]. lia.
    - intros c w Hc Hb [H0 H1]. split; [lia|]. split; [lia|]. intros H. specialize (H c Hc ltac:(lia)). congruence.
    - intros c w Hc Hb [H0 H1]. split; [done|]. rewrite H1. split; intros H i Hi Hlt.
      + destruct (Z.eq_dec i c) as [->|]; [done|]. apply H; [done|lia].
      + apply H; [done|lia]. }
  set (w := for_each_cpu m _ 0) in *. clearbody w.
  destruct (Z.eqb_spec m 0) as [->|Hne].
  - assert (w = 0) as -> by (apply H1; intros; apply Z.bits_0). done.
  - apply Z.eqb_neq. intros Hw. destruct (mask_nonzero_bit m Hm Hne) as (c & Hc & Hb).
    rewrite (proj1 H1 Hw c Hc) in Hb by apply Hc. done.
Qed.

Lemma first_in_spans_ok spans mask ok i : first_in_spans spans mask ok = Some i -> ok i = true.
Proof.
  induction spans as [|sd r IH]; cbn; [done|]. pose proof (first_cpu_spec (Z.land sd mask) ok) as H.
  destruct (first_cpu _ _); [|done]. intros [= <-]. apply H.
Qed.

Lemma unhalted_bit s active c :
  Z.testbit (Z.ldiff active (cpu_halt_mask s)) c = true -> cpu_halted s c = false.
Proof. rewrite Z.ldiff_spec. intros [_ H]%andb_true_iff. unfold cpu_halted, cpumask_test_cpu. by apply negb_true_iff. Qed.

Lemma nohz_target_unhalted n s cpu :
  mask_ok (n_active n) -> Z.ldiff (n_active n) (cpu_halt_mask s) <> 0 ->
  cpu_halted s (android_rvh_get_nohz_timer_target n s cpu) = false.
Proof.
  intros Ha Hne. unfold android_rvh_get_nohz_timer_target. set (au := Z.ldiff _ _) in *.
  assert (mask_ok au) as Hau by (unfold au; auto with walt).
  rewrite weight_zero by done. destruct (Z.eqb_spec au 0); [done|].
  destruct (cpumask_test_cpu cpu (n_timer_cpus n) && negb (cpu_halted s cpu)) eqn:Eown; cbn [andb].
  - assert (cpu_halted s cpu = false) as Hc by (apply andb_true_iff in Eown as [_ ?]; by apply negb_true_iff).
    destruct (negb (n_idle n cpu)); [done|]. unfold nohz_search.
    destruct (first_in_spans _ _ _) as [i|] eqn:Ei; [|done].
    apply first_in_spans_ok in Ei. apply negb_true_iff. by rewrite !andb_true_iff in Ei; destruct Ei as (_ & _ & ?).
  - unfold nohz_search. destruct (first_in_spans _ _ _) as [i|] eqn:Ei.
    { apply first_in_spans_ok in Ei. apply negb_true_iff. by rewrite !andb_true_iff in Ei; destruct Ei as (_ & _ & ?). }
    pose proof (first_cpu_spec (Z.land au (n_timer_cpus n)) (fun i => negb (cpu =? i) && negb (n_idle n i))) as H.
    destruct (first_cpu _ _) as [i|].
    + destruct H as (_ & H & _). rewrite Z.land_spec in H. apply andb_true_iff in H as [H _].
      by apply (unhalted_bit s (n_active n)).
    + destruct (cpumask_first_spec au Hau Hne) as (H1 & H2 & _). unfold is_cpu in H1.
      destruct (Z.leb_spec WALT_NR_CPUS (cpumask_first au)); [lia|]. by apply (unhalted_bit s (n_active n)).
Qed.

(** What the kernel's [cpumask_any_and_distribute] promises. *)
Definition picks_from_both (any_and_distribute : Z -> Z -> Z) : Prop :=
  forall a b, mask_ok a -> Z.land a b <> 0 ->
    Z.testbit a (any_and_distribute a b) = true /\ Z.testbit b (any_and_distribute a b) = true.

(** Halted CPUs are avoided as long as there is another choice. A timer goes to a CPU
    that is not halted whenever an active one exists. The destination of an affinity
    change of a user task is moved off a halted CPU to an unhalted one that is valid
    and in the new affinity, or left alone if there is none. A halted CPU is allowed to
    a task (not exempt as a 32-bit task in exec) only when its affinity has no active
    unhalted CPU, for a kernel thread no such CPU that is not dying. *)
Theorem placement_avoids_halted e any n p valid new_mask dying s cpu :
  walt_disabled e = false -> picks_from_both any -> mask_ok (n_active n) -> mask_ok valid ->
  ht_compat p && ht_in_execve p = false -> ht_on_scx p = false -> cpu_halted s cpu = true ->
  (Z.ldiff (n_active n) (cpu_halt_mask s) <> 0 ->
   cpu_halted s (android_rvh_get_nohz_timer_target n s cpu) = false) /\
  (let dest := android_rvh_set_cpus_allowed_by_task e any valid new_mask p s cpu in
   if ht_kthread p || ht_migration_disabled p ||
      (Z.land (Z.ldiff valid (cpu_halt_mask s)) new_mask =? 0) then dest = cpu
   else Z.testbit valid dest = true /\ Z.testbit new_mask dest = true /\ cpu_halted s dest = false) /\
  (forall allowed, android_rvh_is_cpu_allowed e (n_active n) dying p s cpu allowed = true <->
     forall c, Z.testbit (n_active n) c = true -> Z.testbit (ht_cpus p) c = true ->
       cpu_halted s c = true \/ (ht_kthread p = true /\ Z.testbit dying c = true)).
Proof.
  intros Hd Hany Ha Hval Hex Hscx Hh. split; [by apply nohz_target_unhalted|]. split.
  - cbv zeta. unfold android_rvh_set_cpus_allowed_by_task. rewrite Hd, Hh, Hex.
    destruct (ht_kthread p); [done|]. destruct (ht_migration_disabled p); [done|]. cbn [negb andb orb].
    set (a := Z.land (Z.ldiff valid (cpu_halt_mask s)) new_mask). unfold cpumask_empty.
    destruct (Z.eqb_spec a 0) as [|Hne]; cbn [negb]; [done|].
    destruct (Hany a new_mask) as [H1 H2]; [unfold a; auto with walt| |].
    { intros H0. apply Hne. rewrite mask_zero_iff in *. intros c. specialize (H0 c). unfold a in *.
      rewrite !Z.land_spec in *. destruct (Z.testbit new_mask c); [by rewrite !andb_true_r in *|by rewrite andb_false_r]. }
    unfold a in H1 at 1. rewrite Z.land_spec in H1. apply andb_true_iff in H1 as [H1 _].
    split; [|split; [done|by apply (unhalted_bit s valid)]].
    rewrite Z.ldiff_spec in H1. by apply andb_true_iff in H1 as [? _].
  - intros allowed. unfold android_rvh_is_cpu_allowed. unfold cpu_halted in Hh. rewrite Hd, Hscx, Hh, Hex.
    unfold cpumask_empty, cpu_halted, cpumask_test_cpu.
    destruct (ht_kthread p); cbn [negb]; rewrite Z.eqb_eq, mask_zero_iff; split; intros H c.
    + intros H1 H2. specialize (H c). rewrite !Z.ldiff_spec, Z.land_spec, H1, H2 in H.
      destruct (Z.testbit (cpu_halt_mask s) c); [by left|]. right. split; [done|]. by destruct (Z.testbit dying c).
    + rewrite !Z.ldiff_spec, Z.land_spec. destruct (Z.testbit (n_active n) c) eqn:E1, (Z.testbit (ht_cpus p) c) eqn:E2; try done.
      by destruct (H c E1 E2) as [->|[_ ->]]; rewrite ?andb_false_r.
    + intros H1 H2. left. specialize (H c). rewrite Z.ldiff_spec, Z.land_spec, H1, H2 in H.
      by destruct (Z.testbit (cpu_halt_mask s) c).
    + rewrite Z.ldiff_spec, Z.land_spec. destruct (Z.testbit (n_active n) c) eqn:E1, (Z.testbit (ht_cpus p) c) eqn:E2; try done.
      by destruct (H c E1 E2) as [->|[? _]].
Qed.

(** ** Draining *)

Definition thread_step (m m' : drain_state) : Prop := try_drain_rqs m = Some m'.
Definition drain_step (m m' : drain_state) : Prop :=
  thread_step m m' \/ exists cpus, mask_ok cpus /\ m' = request_drain cpus m.

(** CPU [c] was drained since [k] drains were done, or is going to be. *)
Definition will_drain (c : Z) (k : nat) (m : drain_state) : Prop :=
  mask_ok (d_pending m) /\ (k <= length (d_drained m))%nat /\
  (c ∈ drop k (d_drained m) \/
   (d_pc m = D_check /\ Z.testbit (d_pending m) c = true) \/
   (exists l, d_pc m = D_draining l /\ Z.testbit l c = true)).

Lemma drain_loop l (d : list Z) :
  exists d', for_each_cpu l (fun cpu l => l ++ [cpu]) d = d ++ d' /\
    forall c, is_cpu c -> Z.testbit l c = true -> c ∈ d'.
Proof.
  pose (P := fun n r => exists d', r = d ++ d' /\ forall c, is_cpu c -> c < n -> Z.testbit l c = true -> c ∈ d').
  assert (P WALT_NR_CPUS (for_each_cpu l (fun cpu l => l ++ [cpu]) d)) as (d' & -> & H).
  { apply for_each_cpu_ind.
    - exists []. split; [by rewrite app_nil_r|]. intros c [Hc _]. lia.
    - intros c t Hc Hb (d' & -> & H). exists (d' ++ [c]). split; [by rewrite app_assoc|].
      intros i Hi Hlt Hbi. apply elem_of_app. destruct (Z.eq_dec i c) as [->|]; [right; left|left]. apply H; [done|lia|done].
    - intros c t Hc Hb (d' & -> & H). exists d'. split; [done|]. intros i Hi Hlt Hbi.
      destruct (Z.eq_dec i c) as [->|]; [congruence|]. apply H; [done|lia|done]. }
  exists d'. split; [done|]. intros c Hc. apply H; [done|apply Hc].
Qed.

Lemma will_drain_step c k m m' : is_cpu c -> will_drain c k m -> drain_step m m' -> will_drain c k m'.
Proof.
  intros Hc (Hm & Hk & H) [Hs|(cpus & Hcpus & ->)].
  - unfold thread_step, try_drain_rqs in Hs. destruct (d_pc m) as [|l|l| | |] eqn:Epc; [injection Hs as <-..|done].
    + rewrite weight_zero by done. destruct (Z.eqb_spec (d_pending m) 0) as [E|E]; cbn [negb].
      * split; [done|]. split; [done|]. left. destruct H as [H|[[_ H]|(l & ? & _)]]; [done| |done].
        by rewrite E, Z.bits_0 in H.
      * split; [done|]. split; [done|]. destruct H as [H|[[_ H]|(l & ? & _)]]; [by left| |done].
        right. right. by exists (d_pending m).
    + destruct (drain_loop l (d_drained m)) as (d' & Ed & Hd). split; [done|]. cbn. rewrite Ed.
      split; [rewrite length_app; lia|]. left. rewrite drop_app_le by lia. apply elem_of_app.
      destruct H as [H|[[? _]|(l' & [= <-] & Hb)]]; [by left|done|right; by apply Hd].
    + split; [cbn; auto with walt|]. split; [done|]. left. by destruct H as [H|[[? _]|(l' & ? & _)]].
    + split; [done|]. split; [done|]. left. by destruct H as [H|[[? _]|(l' & ? & _)]].
    + split; [done|]. split; [done|]. left. by destruct H as [H|[[? _]|(l' & ? & _)]].
  - split; [cbn; auto with walt|]. split; [done|]. cbn. destruct H as [H|[[-> H]|(l & -> & H)]].
    + by left.
    + right. left. split; [done|]. by rewrite Z.lor_spec, H.
    + right. right. by exists l.
Qed.

(** How many steps the thread takes to sleep. *)
Definition steps_left (m : drain_state) : nat :=
  match d_pc m with
  | D_check => 5 | D_draining _ => 4 | D_clear _ => 3 | D_unlocked => 2 | D_prepared => 1 | D_asleep => 0
  end.

Lemma thread_sleeps k m :
  (steps_left m <= k)%nat -> exists n m', (n <= k)%nat /\ nsteps thread_step n m m' /\ d_pc m' = D_asleep.
Proof.
  revert m. induction k as [|k IH]; intros m Hk.
  - exists 0%nat, m. split; [lia|]. split; [constructor|]. unfold steps_left in Hk. by destruct (d_pc m); try lia.
  - destruct (try_drain_rqs m) as [m1|] eqn:E.
    + destruct (IH m1) as (n & m2 & Hn & Hs & Hp).
      { unfold steps_left, try_drain_rqs in *. destruct (d_pc m); try discriminate E; injection E as <-; cbn; try lia.
        destruct (negb _); cbn; lia. }
      exists (S n), m2. split; [lia|]. split; [by econstructor|done].
    + exists 0%nat, m. split; [lia|]. split; [constructor|]. unfold try_drain_rqs in E. by destruct (d_pc m).
Qed.

(** C14. A request to drain that arrives while the thread sleeps, is about to after marking
    itself, or is at the top of its loop, is served by the pass that follows: whatever
    else is requested meanwhile, once the thread has drained (or sleeps again) the CPU
    was drained after the request; and the thread, left alone, sleeps again after at
    most five steps. *)
Theorem drain_covers_request c cpus m m' :
  mask_ok (d_pending m) -> mask_ok cpus -> Z.testbit cpus c = true ->
  (d_pc m = D_check \/ d_pc m = D_prepared \/ d_pc m = D_asleep) ->
  rtc drain_step (request_drain cpus m) m' ->
  (d_pc m' <> D_check -> (forall l, d_pc m' <> D_draining l) ->
   c ∈ drop (length (d_drained m)) (d_drained m')) /\
  exists n m'', (n <= 5)%nat /\ nsteps thread_step n m' m'' /\ d_pc m'' = D_asleep /\
    c ∈ drop (length (d_drained m)) (d_drained m'').
Proof.
  intros Hp Hm Hb Hpc Hr. pose proof (mask_bit_is_cpu cpus c Hm Hb) as Hc.
  assert (will_drain c (length (d_drained m)) (request_drain cpus m)) as H0.
  { split; [cbn; auto with walt|]. split; [done|]. right. left. cbn. rewrite Z.lor_spec, Hb, orb_true_r.
    by destruct Hpc as [->|[->| ->]]. }
  assert (forall x y, rtc drain_step x y -> will_drain c (length (d_drained m)) x -> will_drain c (length (d_drained m)) y)
    as Hrun by (induction 1; eauto using will_drain_step).
  pose proof (Hrun _ _ Hr H0) as H1. split.
  - intros H2 H3. destruct H1 as (_ & _ & [H|[[H _]|(l & H & _)]]); [done|done|by destruct (H3 l)].
  - destruct (thread_sleeps 5 m') as (n & m'' & Hn & Hs & Hsl); [unfold steps_left; destruct (d_pc m'); lia|].
    exists n, m''. do 3 (split; [done|]).
    destruct (Hrun m' m'') as (_ & _ & [H|[[H _]|(l & H & _)]]); [|done|done|congruence|congruence].
    clear -Hs. induction Hs; [done|]. eapply rtc_l; [by left|done].
Qed.

(** ** Concrete requests

    Core control and the thermal driver halt CPUs 4 and 5, one of them resumes. CPU 1
    is the first 32-bit CPU. *)

Definition demo_henv : halt_env := mk_henv 2 240 1500000 Limits.demo_env.
Definition demo_requests : list request :=
  [mk_request true 48 PAUSE_CORE_CTL HALT; mk_request true 16 PAUSE_THERMAL HALT;
   mk_request false 48 PAUSE_CORE_CTL HALT].

Lemma demo_acceptable : Forall (acceptable demo_henv) demo_requests.
Proof. repeat constructor; done. Qed.

Lemma halt_masks_are_requests_witness :
  Z.testbit (mask_of (run demo_henv demo_requests (quiet Limits.demo_fsys)) HALT) 4 = true /\
  Z.testbit (mask_of (run demo_henv demo_requests (quiet Limits.demo_fsys)) HALT) 5 = false.
Proof.
  destruct (halt_masks_are_requests demo_henv Limits.demo_fsys demo_requests) as (H & _).
  - reflexivity.
  - exact demo_acceptable.
  - split; [rewrite H; [reflexivity|done]|rewrite H; [reflexivity|done]].
Defined.

Lemma halt_refused_witness :
  exists s' left, walt_halt_cpus demo_henv 3 PAUSE_CORE_CTL HALT (quiet Limits.demo_fsys) = (s', left, - EINVAL) /\
    Z.testbit (mask_of s' HALT) 0 = true.
Proof.
  destruct (quiet_ok Limits.demo_fsys) as (Q1 & Q2 & _).
  destruct (halt_refused demo_henv 3 PAUSE_CORE_CTL HALT (quiet Limits.demo_fsys)) as (s' & left & H1 & _ & _ & H2 & _).
  - exact Q1.
  - exact Q2.
  - done.
  - reflexivity.
  - reflexivity.
  - exists s', left. split; [exact H1|rewrite H2; [reflexivity|done]].
Defined.

(** After the refusal CPU 0 is in the halt mask although nobody asks for it. *)
Lemma refused_halt_leaves_cpu_masked :
  exists s' left, walt_pause_cpus demo_henv 3 PAUSE_CORE_CTL (quiet Limits.demo_fsys) = (s', left, - EINVAL) /\
    cpu_halted s' 0 = true /\ ~ masks_follow s'.
Proof.
  eexists _, _. split; [vm_compute; reflexivity|]. split; [reflexivity|].
  intros H. specialize (H HALT 0 ltac:(done)). vm_compute in H. discriminate H.
Qed.

Definition lowest_of_both (a b : Z) : Z := cpumask_first (Z.land a b).

Lemma placement_avoids_halted_witness :
  exists s, cpu_halted s 4 = true /\
    cpu_halted s (android_rvh_get_nohz_timer_target (mk_nohz 255 255 0 0 (fun _ => true) (fun _ => [15; 255])) s 4) = false.
Proof.
  exists (run demo_henv demo_requests (quiet Limits.demo_fsys)). split; [vm_compute; reflexivity|].
  apply (placement_avoids_halted demo_henv lowest_of_both
    (mk_nohz 255 255 0 0 (fun _ => true) (fun _ => [15; 255])) (mk_htask false false false false false 240) 255 240 0).
  - reflexivity.
  - intros a b Ha Hne. destruct (cpumask_first_spec (Z.land a b)) as (_ & H & _); [by apply mask_ok_land|exact Hne|].
    rewrite Z.land_spec in H. apply andb_true_iff in H. exact H.
  - done.
  - done.
  - reflexivity.
  - reflexivity.
  - vm_compute. reflexivity.
  - vm_compute. discriminate.
Defined.

Definition demo_asleep : drain_state := mk_drain 0 D_asleep [].

(** The thread served CPU 4 and sleeps again. *)
Definition demo_served : drain_state := mk_drain 0 D_asleep [4].

Lemma demo_serves : rtc drain_step (request_drain 16 demo_asleep) demo_served.
Proof.
  do 5 (eapply rtc_l; [left; vm_compute; reflexivity|]). apply rtc_refl.
Qed.

Lemma drain_covers_request_witness : 4 ∈ drop 0 [4].
Proof.
  destruct (drain_covers_request 4 16 demo_asleep demo_served) as [H _].
  - done.
  - done.
  - reflexivity.
  - right. right. reflexivity.
  - exact demo_serves.
  - apply H; [discriminate|intros l; discriminate].
Defined.

(** The thread marks itself asleep only after it released the lock, without looking at
    the mask again: a request in between is added to the mask but wakes nobody, and the
    thread sleeps on it. *)
Definition demo_window : drain_state := mk_drain 0 D_unlocked [4].

Lemma drain_wakeup_lost :
  rtc drain_step (request_drain 16 demo_asleep) demo_window /\
  exists m, rtc thread_step (request_drain 32 demo_window) m /\ d_pc m = D_asleep /\
    Z.testbit (d_pending m) 5 = true /\ 5 ∉ d_drained m.
Proof.
  split.
  - do 3 (eapply rtc_l; [left; vm_compute; reflexivity|]). apply rtc_refl.
  - exists (mk_drain 32 D_asleep [4]). split; [|split; [done|split; [reflexivity|]]].
    + do 2 (eapply rtc_l; [vm_compute; reflexivity|]). apply rtc_refl.
    + cbn. rewrite list_elem_of_singleton. lia.
Qed.

End Halting.
