(* ===== verification/CoreCtl.v ===== *)
(** * Core control

    Core control counts the CPUs a cluster needs from the tasks that ran on it, and
    pauses or resumes CPUs until that many are active. Models the decision and
    enforcement of [core_ctl.c]: the counts of [update_running_avg], [eval_need],
    boosts, [do_core_ctl] with its choice of CPUs from the LRU lists, single-big-thread
    pausing and [core_ctl_check]. The averages come from [sched_avg.c] and the
    utilisation from the run queues: both are inputs here. *)

From Stdlib Require Import ZArith Lia ZifyBool Bool.
From stdpp Require Import base list relations.
From S2P Require Import Prelude WaltTypes Cpumask SmartFreq Halt.

(** ** Data *)

(** [struct cluster_data]; [lru] is the list of the CPUs linked by [sib]. *)
Record cluster_data := mk_cdata {
  cc_inited : bool;
  cc_min_cpus : Z;
  cc_min_partial_cpus : Z;
  cc_max_cpus : Z;
  cc_offline_delay_ms : Z;
  cc_busy_up_thres : list Z;
  cc_busy_down_thres : list Z;
  cc_active_cpus : Z;
  cc_num_cpus : Z;
  cc_nr_not_preferred_cpus : Z;
  cc_cpu_mask : Z;
  cc_need_cpus : Z;
  cc_task_thres : Z;
  cc_max_nr : Z;
  cc_nr_assist : Z;
  cc_nr_busy : Z;
  cc_nr_big : Z;
  cc_need_ts : Z;
  cc_lru : list Z;
  cc_enable : bool;
  cc_nrrun : Z;
  cc_boost : Z;
  cc_strict_nrrun : Z;
  cc_nrrun_cpu_mask : Z;
  cc_nrrun_cpu_misfit_mask : Z;
  cc_nrrun_cpu_min_misfit : Z;
  cc_assist_cpu_mask : Z;
  cc_assist_cpu_misfit_mask : Z;
  cc_assist_cpu_min_misfit : Z
}.

(** [struct cpu_data] *)
Record cpu_data := mk_cpu {
  cd_is_busy : bool;
  cd_busy_pct : Z;
  cd_not_preferred : bool;
  cd_disabled : bool
}.

(** [struct sched_avg_stats] *)
Record sched_avg_stats := mk_avg {
  nr : Z;
  nr_misfit : Z;
  nr_max : Z;
  nr_scaled : Z;
  nr_giant : Z
}.

(** The state of core control and of the components it drives. *)
Record core_sys := mk_core {
  y_clusters : list cluster_data;
  y_cpus : list cpu_data;
  cpus_paused_by_us : Z;
  cpus_part_paused_by_us : Z;
  y_initialized : bool;
  y_assist_initialized : bool;
  y_pending : bool;
  last_nr_big : Z;
  y_timestamp : Z;
  prev_is_sbt : bool;
  prev_is_sbt_windows : Z;
  y_rotation : rotation;
  y_halt : halt_state
}.

(** What core control reads from elsewhere: the halt environment, [cpu_active_mask],
    [ktime_get] in milliseconds, [walt_sched_clock], [scx_enabled],
    [oplus_is_pipeline_scene], [sched_cpu_high_irqload], [nr_stats], the utilisation
    in percent and absolute, [cpu_array], and the tunables of single-big-thread mode;
    [ce_masks_set] is [core_ctl_check_masks_set], that user space has written all masks. *)
Record core_env := mk_cenv {
  ce_halt : halt_env;
  ce_active_mask : Z;
  ce_now_ms : Z;
  ce_clock : Z;
  ce_scx_enabled : bool;
  ce_pipeline_scene : bool;
  ce_high_irqload : Z -> bool;
  ce_stats : Z -> sched_avg_stats;
  ce_util_pct : Z -> Z;
  ce_util : Z -> Z;
  ce_cluster_cpus : list Z;
  ce_sbt_pause_cpus : Z;
  ce_sbt_enable : bool;
  ce_sbt_delay_windows : Z;
  ce_rotation : rot_inputs;
  ce_reasons : sf_inputs;
  ce_wrq_util : list Z;
  ce_masks_set : bool
}.

Definition no_cdata : cluster_data :=
  mk_cdata false 0 0 0 0 [] [] 0 0 0 0 0 0 0 0 0 0 0 [] false 0 0 0 0 0 0 0 0 0.
Definition no_cpu : cpu_data := mk_cpu false 0 false false.
Definition cdata (s : core_sys) (i : Z) : cluster_data := nth (Z.to_nat i) (y_clusters s) no_cdata.
Definition cpu_state (s : core_sys) (cpu : Z) : cpu_data := nth (Z.to_nat cpu) (y_cpus s) no_cpu.
Definition set_cdata (i : Z) (f : cluster_data -> cluster_data) (s : core_sys) : core_sys :=
  set y_clusters (fun l => <[Z.to_nat i := f (cdata s i)]> l) s.
Definition set_cpu (cpu : Z) (f : cpu_data -> cpu_data) (s : core_sys) : core_sys :=
  set y_cpus (fun l => <[Z.to_nat cpu := f (cpu_state s cpu)]> l) s.
Definition n_clusters (s : core_sys) : Z := Z.of_nat (length (y_clusters s)).

Definition for_each_cluster {S : Type} (n : Z) (f : Z -> S -> S) (s : S) : S := for_range 0 (Z.to_nat n) f s.

Definition cpu_partial_halted (s : core_sys) (cpu : Z) : bool :=
  cpumask_test_cpu cpu (cpu_partial_halt_mask (y_halt s)).

(** ** Counting *)

Definition active_cpu_count_from_mask (s : core_sys) (cpus : Z) : Z :=
  let lcpus := Z.ldiff cpus (cpu_halt_mask (y_halt s)) in
  let lcpus := Z.ldiff lcpus (cpu_partial_halt_mask (y_halt s)) in
  cpumask_weight lcpus.

Definition get_active_cpu_count (s : core_sys) (c : cluster_data) : Z :=
  active_cpu_count_from_mask s (cc_cpu_mask c).

Definition get_assist_active_cpu_count (s : core_sys) (c : cluster_data) : Z :=
  let cpus := Z.ldiff (cc_assist_cpu_mask c) (cpu_halt_mask (y_halt s)) in
  let cpus := Z.ldiff cpus (cpu_partial_halt_mask (y_halt s)) in
  cpumask_weight cpus.

Definition cluster_paused_cpus (s : core_sys) (c : cluster_data) : Z :=
  let paused := Z.lor (cpus_paused_by_us s) (cpus_part_paused_by_us s) in
  cpumask_weight (Z.land (cc_cpu_mask c) paused).

(** The sum of a statistic over the CPUs of a mask, without the partially halted. *)
Definition sum_stat (s : core_sys) (mask : Z) (skip_partial : bool) (f : Z -> Z) : Z :=
  for_each_cpu mask
    (fun cpu acc => if skip_partial && cpu_partial_halted s cpu then acc else acc + f cpu) 0.

Definition compute_cluster_nr_run (e : core_env) (s : core_sys) (c : cluster_data) : Z :=
  let nr_need := sum_stat s (cc_nrrun_cpu_mask c) true (fun cpu => nr (ce_stats e cpu)) in
  if cpumask_intersects (cc_nrrun_cpu_mask c) (cpu_partial_halt_mask (y_halt s)) &&
     (active_cpu_count_from_mask s (cc_nrrun_cpu_mask c) <=? u32 nr_need)
  then nr_need - active_cpu_count_from_mask s (cc_nrrun_cpu_mask c) else nr_need.

Definition compute_cluster_nr_misfit (e : core_env) (s : core_sys) (c : cluster_data) : Z :=
  sum_stat s (cc_nrrun_cpu_misfit_mask c) false (fun cpu => nr_misfit (ce_stats e cpu)).

Definition compute_cluster_max_nr (e : core_env) (s : core_sys) (c : cluster_data) : Z :=
  for_each_cpu (cc_cpu_mask c)
    (fun cpu m => if cpu_partial_halted s cpu then m else Z.max m (nr_max (ce_stats e cpu))) 0.

Definition compute_cluster_nr_run_assist (e : core_env) (s : core_sys) (c : cluster_data) : Z :=
  sum_stat s (cc_assist_cpu_mask c) true (fun cpu => nr (ce_stats e cpu)).

Definition compute_cluster_nr_misfit_assist (e : core_env) (s : core_sys) (c : cluster_data) : Z :=
  sum_stat s (cc_assist_cpu_misfit_mask c) true (fun cpu => nr_misfit (ce_stats e cpu)).

Definition cluster_real_big_tasks (e : core_env) (s : core_sys) (index : Z) : Z :=
  if index =? 0 then sum_stat s (cc_cpu_mask (cdata s index)) false (fun cpu => nr_misfit (ce_stats e cpu))
  else sum_stat s (cc_cpu_mask (cdata s index)) false (fun cpu => nr (ce_stats e cpu)).

Definition compute_cluster_nr_strict_need (e : core_env) (s : core_sys) (index : Z) : Z :=
  if negb (index =? 0) then 0 else
  for_each_cluster (n_clusters s)
    (fun i nr_strict_need =>
       let c := cdata s i in
       let scaled := sum_stat s (cc_cpu_mask c) true (fun cpu => nr_scaled (ce_stats e cpu)) in
       let scaled := Z.quot scaled 100 in
       if i =? 0 then nr_strict_need + scaled
       else nr_strict_need + Z.max 0 (scaled - s32 (cc_active_cpus c))) 0.

(** Busy CPUs of a cluster, with the hysteresis between the two thresholds. *)
Definition busy_step (e : core_env) (thres_idx i cpu : Z) (st : core_sys * Z) : core_sys * Z :=
  let '(s, nr_busy) := st in
  let c := cdata s i in
  if cpu_partial_halted s cpu then (set_cpu cpu (set cd_is_busy (fun _ => false)) s, nr_busy) else
  let s :=
    if (aget (cc_busy_up_thres c) thres_idx <=? cd_busy_pct (cpu_state s cpu)) || ce_high_irqload e cpu
    then set_cpu cpu (set cd_is_busy (fun _ => true)) s
    else if cd_busy_pct (cpu_state s cpu) <? aget (cc_busy_down_thres c) thres_idx
    then set_cpu cpu (set cd_is_busy (fun _ => false)) s else s in
  (s, nr_busy + Z.b2z (cd_is_busy (cpu_state s cpu))).

Definition compute_cluster_nr_busy (e : core_env) (i : Z) (s : core_sys) : core_sys * Z :=
  let s := set_cdata i (fun c => set cc_active_cpus (fun _ => get_active_cpu_count s c) c) s in
  let c := cdata s i in
  let thres_idx := if cc_active_cpus c =? 0 then 0 else cc_active_cpus c - 1 in
  fold_left (fun st cpu => busy_step e thres_idx i cpu st) (cc_lru c) (s, 0).

(** One cluster of [update_running_avg]; [big] and [giant] are its running totals. *)
Definition update_cluster_avg (e : core_env) (i : Z) (st : core_sys * Z * Z) : core_sys * Z * Z :=
  let '(s, big_avg, giant) := st in
  let c := cdata s i in
  if negb (cc_inited c) then st else
  let nr_need := compute_cluster_nr_run e s c in
  let nr_misfit_need := compute_cluster_nr_misfit e s c in
  let target_nr_misfit_need :=
    if cc_nrrun_cpu_min_misfit c <? u32 nr_misfit_need then u32 nr_misfit_need else 0 in
  let nrrun := s32 (u32 (nr_need + target_nr_misfit_need)) in
  let max_nr := u32 (compute_cluster_max_nr e s c) in
  let nr_assist_need := compute_cluster_nr_run_assist e s c in
  let nr_misfit_assist_need := compute_cluster_nr_misfit_assist e s c in
  let target_nr_misfit_assist_need :=
    if cc_assist_cpu_min_misfit c <? u32 nr_misfit_assist_need then u32 nr_misfit_assist_need else 0 in
  let s := set_cdata i (fun c => set cc_max_nr (fun _ => max_nr) (set cc_nrrun (fun _ => nrrun) c)) s in
  let strict_nrrun := u32 (compute_cluster_nr_strict_need e s i) in
  let nr_assist_active := get_assist_active_cpu_count s c in
  let need_assist := u32 (nr_assist_need + target_nr_misfit_assist_need) in
  let nr_assist :=
    if negb (cpumask_intersects (cc_assist_cpu_mask c) (cpus_paused_by_us s)) &&
       negb (cpumask_intersects (cc_assist_cpu_mask c) (cpus_part_paused_by_us s)) &&
       (nr_assist_active <? need_assist)
    then u32 (need_assist - nr_assist_active) else 0 in
  let s := set_cdata i (fun c => set cc_nr_assist (fun _ => nr_assist) (set cc_strict_nrrun (fun _ => strict_nrrun) c)) s in
  let '(s, nr_busy) := compute_cluster_nr_busy e i s in
  let s := set_cdata i (set cc_nr_busy (fun _ => u32 nr_busy)) s in
  let nr_big := u32 (cluster_real_big_tasks e s i) in
  let s := set_cdata i (set cc_nr_big (fun _ => nr_big)) s in
  (s, s32 (big_avg + nr_big), giant + sum_stat s (cc_cpu_mask c) false (fun cpu => nr_giant (ce_stats e cpu))).

Definition on_freq (f : fsys -> fsys) (s : core_sys) : core_sys := set y_halt (set h_freq f) s.

Definition update_running_avg (e : core_env) (window_start wakeup_ctr_sum : Z) (s : core_sys) : core_sys :=
  let '(s, big_avg, giant) := for_each_cluster (n_clusters s) (update_cluster_avg e) (s, 0, 0) in
  let s := set last_nr_big (fun _ => u32 big_avg) s in
  let fe := he_freq (ce_halt e) in
  let '(r, f) := walt_rotation_checkpoint fe (ce_rotation e) window_start giant (y_rotation s) (h_freq (y_halt s)) in
  let s := on_freq (fun _ => f) (set y_rotation (fun _ => r) s) in
  on_freq (smart_freq_update_reason_common fe (ce_reasons e) (ce_wrq_util e) window_start big_avg wakeup_ctr_sum) s.

(** ** Need *)

Definition MAX_NR_THRESHOLD : Z := 4.

Definition apply_task_need (c : cluster_data) : Z :=
  if cc_task_thres c <=? u32 (cc_nrrun c) then cc_num_cpus c else
  let new_need := s32 (cc_nr_busy c) in
  let new_need := s32 (u32 (new_need + cc_nr_assist c)) in
  let new_need := if new_need <? cc_nrrun c then new_need + 1 else new_need in
  let new_need := if MAX_NR_THRESHOLD <? cc_max_nr c then new_need + 1 else new_need in
  let new_need := if u32 new_need <? cc_strict_nrrun c then s32 (cc_strict_nrrun c) else new_need in
  u32 new_need.

Definition apply_limits (e : core_env) (c : cluster_data) (need_cpus : Z) : Z :=
  if negb (cc_enable c) || ce_scx_enabled e then cc_num_cpus c else
  if negb (cc_boost c =? 0) && ce_pipeline_scene e then cc_num_cpus c else
  Z.min (Z.max (cc_min_cpus c) need_cpus) (cc_max_cpus c).

Definition is_active (e : core_env) (s : core_sys) (cpu : Z) : bool :=
  cpumask_test_cpu cpu (ce_active_mask e) && negb (cpu_halted (y_halt s) cpu) && negb (cpu_partial_halted s cpu).

Definition adjustment_possible (s : core_sys) (c : cluster_data) (need : Z) : bool :=
  (need <? cc_active_cpus c) ||
  ((cc_active_cpus c <? need) && negb (cluster_paused_cpus s c =? 0)).

Definition GIANT_TASK_OFFLINE_DELAY_NS : Z := 300000000.

Definition eval_need (e : core_env) (window_start i : Z) (s : core_sys) : core_sys * bool :=
  let c := cdata s i in
  if negb (cc_inited c) then (s, false) else
  let hyst_ts := r_stop_hyst_ts (y_rotation s) in
  let need_cpus :=
    if negb (cc_boost c =? 0) || negb (cc_enable c) ||
       (negb (hyst_ts =? 0) && (u64 (window_start - hyst_ts) <? GIANT_TASK_OFFLINE_DELAY_NS))
    then cc_max_cpus c else apply_task_need c in
  let new_need := apply_limits e c need_cpus in
  let last_need := cc_need_cpus c in
  let now := ce_now_ms e in
  if negb (cc_active_cpus c <? new_need) && (new_need =? last_need) && (new_need =? cc_active_cpus c)
  then (set_cdata i (set cc_need_ts (fun _ => now)) s, false) else
  let adj_now := if cc_active_cpus c <? new_need then true
                 else cc_offline_delay_ms c <=? s64 (now - cc_need_ts c) in
  if adj_now then
    let adj_possible := adjustment_possible s c new_need in
    (set_cdata i (fun c => set cc_need_cpus (fun _ => new_need) (set cc_need_ts (fun _ => now) c)) s, adj_possible)
  else (s, false).

Definition wake_up_core_ctl_thread (s : core_sys) : core_sys := set y_pending (fun _ => true) s.

Definition sysfs_param_changed (e : core_env) (i : Z) (s : core_sys) : core_sys :=
  let '(s, wake) := eval_need e (ce_clock e) i s in
  if wake then wake_up_core_ctl_thread s else s.

(** ** Boosts *)

(** Result: the cluster, the return value, [boost_state_changed] when it is written. *)
Definition set_cluster_boost (boost : bool) (c : cluster_data) : cluster_data * Z * option bool :=
  if boost then (set cc_boost (fun b => u32 (b + 1)) c, 0, Some (cc_boost c =? 0))
  else if cc_boost c =? 0 then (c, - EINVAL, None)
  else let c := set cc_boost (fun b => u32 (b - 1)) c in (c, 0, Some (cc_boost c =? 0)).

Definition core_ctl_set_cluster_boost (e : core_env) (idx : Z) (boost : bool) (s : core_sys) : core_sys * Z :=
  if n_clusters s <=? idx then (s, - EINVAL) else
  let '(c, ret, changed) := set_cluster_boost boost (cdata s idx) in
  let s := set_cdata idx (fun _ => c) s in
  (if default false changed then sysfs_param_changed e idx s else s, ret).

Definition core_ctl_set_boost (e : core_env) (boost : bool) (s : core_sys) : core_sys * Z :=
  if walt_disabled (ce_halt e) then (s, - EAGAIN) else
  if negb (y_initialized s) then (s, 0) else
  let '(s, ret, changed) :=
    for_each_cluster (n_clusters s)
      (fun i '(s, ret, changed) =>
         let '(c, r, ch) := set_cluster_boost boost (cdata s i) in
         (set_cdata i (fun _ => c) s, r, default changed ch)) (s, 0, false) in
  (if changed then for_each_cluster (n_clusters s) (sysfs_param_changed e) s else s, ret).

(** ** Enforcement *)

Definition move_cpu_lru (cpu : Z) (lru : list Z) : list Z := filter (.≠ cpu) lru ++ [cpu].

(** A walk over the CPUs of an LRU list: the body says whether to leave the loop. The
    lists hold [num_cpus] entries and a moved CPU goes to the tail, so that within
    [num_cpus] turns the walk visits each CPU once, in the order the list had. *)
Fixpoint walk {S : Type} (f : Z -> S -> S * bool) (l : list Z) (s : S) : S :=
  match l with
  | [] => s
  | c :: r => let '(s, stop) := f c s in if stop : bool then s else walk f r s
  end.

(** The LRU list, the chosen CPUs and their number. *)
Definition choice : Type := list Z * Z * Z.

Definition choose (cpu : Z) (st : choice) : choice :=
  let '(lru, mask, nr_pending) := st in
  (move_cpu_lru cpu lru, Z.setbit mask cpu, u32 (nr_pending + 1)).

Definition try_to_partial_pause (s : core_sys) (c : cluster_data) (st : choice) (part_pause_cpus : Z) : choice * Z :=
  let '(lru, pause_cpus, nr_pending) := st in
  let num_cpus := s32 (u32 (cc_min_partial_cpus c - cpumask_weight (cpus_part_paused_by_us s))) in
  if num_cpus <=? 0 then (st, part_pause_cpus) else
  let '(lru, pause_cpus, part_pause_cpus, _) :=
    walk (fun cpu '(lru, pause_cpus, part_pause_cpus, num_cpus) =>
            if num_cpus <=? 0 then ((lru, pause_cpus, part_pause_cpus, num_cpus), true) else
            if cpumask_test_cpu cpu pause_cpus && negb (cpumask_test_cpu cpu (cpus_part_paused_by_us s))
            then ((move_cpu_lru cpu lru, Z.clearbit pause_cpus cpu, Z.setbit part_pause_cpus cpu, num_cpus - 1), false)
            else ((lru, pause_cpus, part_pause_cpus, num_cpus), false))
      lru (lru, pause_cpus, part_pause_cpus, num_cpus) in
  ((lru, pause_cpus, nr_pending), part_pause_cpus).

(** The first loop of [try_to_pause]: idle CPUs down to the need. *)
Definition pause_idle (e : core_env) (s : core_sys) (c : cluster_data) (need : Z) (cpu : Z) (st : choice) : choice * bool :=
  let '(_, _, nr_pending) := st in
  if cd_disabled (cpu_state s cpu) then (st, false) else
  if negb (is_active e s cpu) then (st, false) else
  if u32 (cc_active_cpus c - nr_pending) =? need then (st, true) else
  if cd_is_busy (cpu_state s cpu) then (st, false) else
  if negb (cc_nr_not_preferred_cpus c =? 0) && negb (cd_not_preferred (cpu_state s cpu)) then (st, false) else
  (choose cpu st, false).

(** The second loop: busy CPUs too, down to the maximum. *)
Definition pause_forced (e : core_env) (s : core_sys) (c : cluster_data) (first_pass : bool) (cpu : Z) (st : choice) : choice * bool :=
  let '(_, _, nr_pending) := st in
  if cd_disabled (cpu_state s cpu) then (st, false) else
  if negb (is_active e s cpu) then (st, false) else
  if u32 (cc_active_cpus c - nr_pending) <=? cc_max_cpus c then (st, true) else
  if first_pass && negb (cd_not_preferred (cpu_state s cpu)) then (st, false) else
  (choose cpu st, false).

Definition lru_of (st : choice) : list Z := st.1.1.
Definition chosen (st : choice) : Z := st.1.2.
Definition pending (st : choice) : Z := st.2.

Definition within_max (c : cluster_data) (st : choice) : bool :=
  u32 (cc_active_cpus c - pending st) <=? cc_max_cpus c.

(** From the label [again]; [first_pass] is cleared at most once. *)
Definition pause_again (e : core_env) (s : core_sys) (c : cluster_data) (first_pass : bool) (st : choice) : choice :=
  let turns := Z.to_nat (cc_num_cpus c) in
  let pass fp st := walk (pause_forced e s c fp) (firstn turns (lru_of st)) st in
  if within_max c st then st else
  let st := pass first_pass st in
  if first_pass && negb (within_max c st) then
    if within_max c st then st else pass false st
  else st.

Definition try_to_pause (e : core_env) (i need : Z) (masks : Z * Z) (s : core_sys) : core_sys * (Z * Z) :=
  let '(pause_cpus, part_pause_cpus) := masks in
  let c := cdata s i in
  let st := walk (pause_idle e s c need) (firstn (Z.to_nat (cc_num_cpus c)) (cc_lru c)) (cc_lru c, pause_cpus, 0) in
  let st := pause_again e s c (negb (cc_nr_not_preferred_cpus c =? 0)) st in
  let '(st, part_pause_cpus) := try_to_partial_pause s c st part_pause_cpus in
  (set_cdata i (set cc_lru (fun _ => lru_of st)) s, (chosen st, part_pause_cpus)).

Definition resume_one (e : core_env) (s : core_sys) (c : cluster_data) (need : Z) (force : bool) (cpu : Z) (st : choice) : choice * bool :=
  let '(_, _, nr_pending) := st in
  if negb (cpumask_test_cpu cpu (cpus_paused_by_us s)) && negb (cpumask_test_cpu cpu (cpus_part_paused_by_us s))
  then (st, false) else
  if is_active e s cpu || (negb force && cd_not_preferred (cpu_state s cpu)) then (st, false) else
  if u32 (cc_active_cpus c + nr_pending) =? need then (st, true) else
  (choose cpu st, false).

Definition __try_to_resume (e : core_env) (i need : Z) (force : bool) (unpause_cpus : Z) (s : core_sys)
  : core_sys * Z * Z :=
  let c := cdata s i in
  let st := walk (resume_one e s c need force) (firstn (Z.to_nat (cc_num_cpus c)) (cc_lru c))
              (cc_lru c, unpause_cpus, 0) in
  (set_cdata i (set cc_lru (fun _ => lru_of st)) s, chosen st, pending st).

Definition try_to_partial_resume (s : core_sys) (unpause_cpus : Z) : Z :=
  Z.land unpause_cpus (cpus_part_paused_by_us s).

Definition try_to_resume (e : core_env) (i need : Z) (masks : Z * Z) (s : core_sys) : core_sys * (Z * Z) :=
  let '(unpause_cpus, part_unpause_cpus) := masks in
  let '(s, unpause_cpus, nr_pending) := __try_to_resume e i need false unpause_cpus s in
  if u32 (cc_active_cpus (cdata s i) + nr_pending) =? need then (s, (unpause_cpus, part_unpause_cpus)) else
  let '(s, unpause_cpus, _) := __try_to_resume e i need true unpause_cpus s in
  (s, (unpause_cpus, try_to_partial_resume s unpause_cpus)).

(** One request of core control to pause or resume CPUs; on success its record of the
    CPUs it holds follows. *)
Definition on_halt (f : halt_state -> halt_state * Z * Z) (s : core_sys) : core_sys * Z :=
  let '(h, _, ret) := f (y_halt s) in (set y_halt (fun _ => h) s, ret).

(** The two halves of [core_ctl_pause_cpus]. *)
Definition pause_partially (e : core_env) (cpus_to_part_pause : Z) (s : core_sys) : core_sys :=
  let saved := Z.ldiff cpus_to_part_pause (cpus_part_paused_by_us s) in
  if cpumask_first saved <? WALT_NR_CPUS then
    let '(s, ret) := on_halt (walt_partial_pause_cpus (ce_halt e) saved PAUSE_CORE_CTL) s in
    if ret <? 0 then s else set cpus_part_paused_by_us (fun m => Z.lor m saved) s
  else s.

Definition pause_fully (e : core_env) (cpus_to_pause : Z) (s : core_sys) : core_sys :=
  let saved := Z.ldiff cpus_to_pause (cpus_paused_by_us s) in
  if cpumask_first saved <? WALT_NR_CPUS then
    let '(s, ret) := on_halt (walt_pause_cpus (ce_halt e) saved PAUSE_CORE_CTL) s in
    if ret <? 0 then s else set cpus_paused_by_us (fun m => Z.lor m saved) s
  else s.

Definition core_ctl_pause_cpus (e : core_env) (cpus_to_pause cpus_to_part_pause : Z) (s : core_sys) : core_sys :=
  pause_fully e cpus_to_pause (pause_partially e cpus_to_part_pause s).

(** The two halves of [core_ctl_resume_cpus]. *)
Definition resume_partially (e : core_env) (cpus_to_part_unpause : Z) (s : core_sys) : core_sys :=
  let saved := Z.land cpus_to_part_unpause (cpus_part_paused_by_us s) in
  if cpumask_first saved <? WALT_NR_CPUS then
    let '(s, ret) := on_halt (walt_partial_resume_cpus (ce_halt e) saved PAUSE_CORE_CTL) s in
    if ret <? 0 then s else set cpus_part_paused_by_us (fun m => Z.ldiff m saved) s
  else s.

Definition resume_fully (e : core_env) (cpus_to_unpause : Z) (s : core_sys) : core_sys :=
  let saved := Z.land cpus_to_unpause (cpus_paused_by_us s) in
  if cpumask_first saved <? WALT_NR_CPUS then
    let '(s, ret) := on_halt (walt_resume_cpus (ce_halt e) saved PAUSE_CORE_CTL) s in
    if ret <? 0 then s else set cpus_paused_by_us (fun m => Z.ldiff m saved) s
  else s.

Definition core_ctl_resume_cpus (e : core_env) (cpus_to_unpause cpus_to_part_unpause : Z) (s : core_sys) : core_sys :=
  resume_fully e cpus_to_unpause (resume_partially e cpus_to_part_unpause s).

(** The masks of [do_core_ctl]: to pause, to pause partially, to resume, to resume
    partially. *)
Definition adjust_cluster (e : core_env) (i : Z) (st : core_sys * (Z * Z) * (Z * Z))
  : core_sys * (Z * Z) * (Z * Z) :=
  let '(s, pause, unpause) := st in
  let s := set_cdata i (fun c => set cc_active_cpus (fun _ => get_active_cpu_count s c) c) s in
  let c := cdata s i in
  let need := apply_limits e c (cc_need_cpus c) in
  if adjustment_possible s c need then
    if need <? cc_active_cpus c then let '(s, pause) := try_to_pause e i need pause s in (s, pause, unpause)
    else if cc_active_cpus c <? need then let '(s, unpause) := try_to_resume e i need unpause s in (s, pause, unpause)
    else (s, pause, unpause)
  else (s, pause, unpause).

Definition do_core_ctl (e : core_env) (s : core_sys) : core_sys :=
  let '(s, (pause, part_pause), (unpause, part_unpause)) :=
    for_each_cluster (n_clusters s) (adjust_cluster e) (s, (0, 0), (0, 0)) in
  let s := core_ctl_pause_cpus e pause part_pause s in
  core_ctl_resume_cpus e unpause part_unpause s.

(** ** Single big thread *)

Definition SBT_CPU_BUSY_PCT_THRESH : Z := 20.
Definition SBT_CPU_BUSY_UTIL_THRESH : Z := 200.
Definition SBT_LIMIT : Z := 45.
Definition LARGE_CPU_THROTTLED_CAP_THRESH : Z := 700.

Definition large_cpus (e : core_env) : Z := default 0 (last (ce_cluster_cpus e)).

Definition core_ctl_non_large_cpus_below_busy_pct (e : core_env) (s : core_sys) : bool :=
  let non_large_cpus := fold_left Z.lor (removelast (ce_cluster_cpus e)) 0 in
  match for_each_cpu_until non_large_cpus
          (fun cpu (_ : unit) => if SBT_CPU_BUSY_PCT_THRESH <? cd_busy_pct (cpu_state s cpu) then inr tt else inl tt) tt with
  | inr _ => false
  | inl _ => true
  end.

Definition any_large_above_util_threshold (e : core_env) (util : Z) : bool :=
  match for_each_cpu_until (large_cpus e)
          (fun cpu (_ : unit) => if util <? ce_util e cpu then inr tt else inl tt) tt with
  | inr _ => true
  | inl _ => false
  end.

Definition is_large_cpu_cap_low (e : core_env) (s : core_sys) : bool :=
  aget (x_capacity_orig (h_freq (y_halt s))) (cpumask_first (large_cpus e)) <? LARGE_CPU_THROTTLED_CAP_THRESH.

Definition core_ctl_is_sbt (e : core_env) (wakeup_ctr_sum : Z) (s : core_sys) : bool :=
  let c := cdata s (Z.of_nat (length (ce_cluster_cpus e)) - 1) in
  if negb (ce_sbt_enable e) then false else
  if negb (last_nr_big s =? 1) then false else
  if negb (cc_nr_big c =? 1) then false else
  if SBT_LIMIT <? wakeup_ctr_sum then false else
  if negb (core_ctl_non_large_cpus_below_busy_pct e s) then false else
  if negb (any_large_above_util_threshold e SBT_CPU_BUSY_UTIL_THRESH) then false else
  negb (is_large_cpu_cap_low e s).

Definition sbt_ctl_check (e : core_env) (wakeup_ctr_sum : Z) (s : core_sys) : core_sys :=
  let now_is_sbt := core_ctl_is_sbt e wakeup_ctr_sum s in
  let leave s := set prev_is_sbt (fun _ => now_is_sbt) s in
  if cpumask_weight (ce_sbt_pause_cpus e) =? 0 then leave s else
  if Bool.eqb (prev_is_sbt s) now_is_sbt then
    set prev_is_sbt_windows
      (fun w => if w <? ce_sbt_delay_windows e then ce_sbt_delay_windows e else w) s
  else if now_is_sbt && (0 <? prev_is_sbt_windows s) then
    set prev_is_sbt_windows (fun w => w - 1) s
  else
    let s := if now_is_sbt then set prev_is_sbt_windows (fun w => w - 1) s else s in
    let '(s, _) :=
      if negb (prev_is_sbt s) && now_is_sbt
      then on_halt (walt_pause_cpus (ce_halt e) (ce_sbt_pause_cpus e) PAUSE_SBT) s
      else on_halt (walt_resume_cpus (ce_halt e) (ce_sbt_pause_cpus e) PAUSE_SBT) s in
    leave (set prev_is_sbt_windows (fun _ => ce_sbt_delay_windows e) s).

(** ** The check at every window *)

(** The CPU belongs to an initialised cluster. *)
Definition cpu_inited (s : core_sys) (cpu : Z) : bool :=
  existsb (fun c => cc_inited c && Z.testbit (cc_cpu_mask c) cpu) (y_clusters s).

Definition core_ctl_check (e : core_env) (window_start wakeup_ctr_sum : Z) (s : core_sys) : core_sys :=
  if negb (y_initialized s) then s else
  if negb (y_assist_initialized s) then set y_assist_initialized (fun _ => ce_masks_set e) s else
  if window_start =? y_timestamp s then s else
  let s := set y_timestamp (fun _ => window_start) s in
  let s := for_range 0 (Z.to_nat WALT_NR_CPUS)
             (fun cpu s => if cpu_inited s cpu
                           then set_cpu cpu (set cd_busy_pct (fun _ => ce_util_pct e cpu)) s else s) s in
  let s := update_running_avg e window_start wakeup_ctr_sum s in
  let '(s, wakeup) :=
    for_each_cluster (n_clusters s)
      (fun i '(s, w) => let '(s, b) := eval_need e window_start i s in (s, w || b)) (s, false) in
  let s := if wakeup then do_core_ctl e s else s in
  sbt_ctl_check e wakeup_ctr_sum s.

#[global] Arguments walk : simpl nomatch.
#[global] Arguments set_cdata : simpl never.
#[global] Arguments set_cpu : simpl never.
#[global] Arguments cdata : simpl never.
#[global] Arguments cpu_state : simpl never.

(** ** Core control holds the CPUs it has votes for *)

Module Ownership.
Import Halting.

(** The CPUs that core control remembers to have paused are those for which the halt
    component holds its vote. *)
Record owns (s : core_sys) : Prop := mk_owns {
  ow_halt : halt_ok (y_halt s);
  ow_paused : mask_ok (cpus_paused_by_us s);
  ow_part_paused : mask_ok (cpus_part_paused_by_us s);
  ow_full : forall cpu, is_cpu cpu ->
    Z.testbit (cpus_paused_by_us s) cpu = votes_for (y_halt s) HALT cpu PAUSE_CORE_CTL;
  ow_partial : forall cpu, is_cpu cpu ->
    Z.testbit (cpus_part_paused_by_us s) cpu = votes_for (y_halt s) PARTIAL_HALT cpu PAUSE_CORE_CTL
}.

(** The part of the state that this depends on. *)
Definition key (s : core_sys) :=
  (cpus_paused_by_us s, cpus_part_paused_by_us s, cpu_halt_mask (y_halt s), cpu_partial_halt_mask (y_halt s),
   h_vote_halt (y_halt s), h_vote_partial (y_halt s)).

Lemma owns_ext s s' : key s' = key s -> owns s -> owns s'.
Proof.
  intros [= K1 K2 K3 K4 K5 K6] [[Hl Hv Hm] H2 H3 H4 H5].
  assert (forall ty, client_vote_mask (y_halt s') ty = client_vote_mask (y_halt s) ty) as Ev by (intros []; done).
  assert (forall ty, mask_of (y_halt s') ty = mask_of (y_halt s) ty) as Em by (intros []; done).
  constructor.
  - constructor; intros; rewrite ?Ev, ?Em; auto.
  - by rewrite K1.
  - by rewrite K2.
  - intros cpu Hc. rewrite K1. unfold votes_for. rewrite Ev. by apply H4.
  - intros cpu Hc. rewrite K2. unfold votes_for. rewrite Ev. by apply H5.
Qed.

(** What core control notes after a successful request. *)
Definition note (r : request) (s : core_sys) : core_sys :=
  let f m := if req_pause r then Z.lor m (req_cpus r) else Z.ldiff m (req_cpus r) in
  match req_type r with HALT => set cpus_paused_by_us f s | PARTIAL_HALT => set cpus_part_paused_by_us f s end.

Lemma own_request e r s :
  owns s -> mask_ok (req_cpus r) -> req_client r = PAUSE_CORE_CTL ->
  owns (let '(s, ret) := on_halt (serve e r) s in if ret <? 0 then s else note r s).
Proof.
  intros [Hok Hp Hpp Hf Hpf] Hm Hc. unfold on_halt.
  destruct (serve_votes e r (y_halt s) Hok Hm) as (h & left & ret & -> & Hok' & Hout).
  destruct Hout as [[Hret Hv]|[Hret Hv]].
  - destruct (Z.ltb_spec ret 0); [lia|]. unfold votes_become, concerns in Hv. rewrite Hc in Hv.
    unfold note. destruct (req_type r) eqn:Et, (req_pause r) eqn:Epa; constructor; cbn; auto with walt.
    all: intros cpu Hcpu; rewrite Hv by done; rewrite ?Z.lor_spec, ?Z.ldiff_spec, ?Hf, ?Hpf by done;
      try rewrite bool_decide_eq_false_2 by done; try done;
      rewrite !bool_decide_eq_true_2 by done; cbn [andb]; rewrite andb_true_r;
      destruct (Z.testbit (req_cpus r) cpu); cbn; by rewrite ?orb_true_r, ?orb_false_r, ?andb_true_r, ?andb_false_r.
  - destruct (Z.ltb_spec ret 0); [|lia]. constructor; cbn; try done.
    + intros cpu Hcpu. unfold votes_for. rewrite Hv. by apply Hf.
    + intros cpu Hcpu. unfold votes_for. rewrite Hv. by apply Hpf.
Qed.

Lemma other_request e r s :
  owns s -> mask_ok (req_cpus r) -> req_client r <> PAUSE_CORE_CTL -> owns (on_halt (serve e r) s).1.
Proof.
  intros [Hok Hp Hpp Hf Hpf] Hm Hc. unfold on_halt.
  destruct (serve_votes e r (y_halt s) Hok Hm) as (h & left & ret & -> & Hok' & Hout). cbn [fst].
  assert (forall ty cpu, is_cpu cpu -> votes_for h ty cpu PAUSE_CORE_CTL = votes_for (y_halt s) ty cpu PAUSE_CORE_CTL) as E.
  { intros ty cpu Hcpu. destruct Hout as [[_ Hv]|[_ Hv]]; [|unfold votes_for; by rewrite Hv].
    rewrite Hv by done. rewrite (bool_decide_eq_false_2 (req_client r = _)) by done. by rewrite andb_false_r. }
  constructor; cbn; try done.
  - intros cpu Hcpu. rewrite E by done. by apply Hf.
  - intros cpu Hcpu. rewrite E by done. by apply Hpf.
Qed.

(** ** Enforcement *)

Lemma pause_owns e pause part s : owns s -> mask_ok pause -> mask_ok part -> owns (core_ctl_pause_cpus e pause part s).
Proof.
  intros Hs Hp Hpp. unfold core_ctl_pause_cpus.
  assert (owns (pause_partially e part s)) as Hs1.
  { unfold pause_partially. case_if; [|done].
    refine (own_request (ce_halt e) (mk_request true _ PAUSE_CORE_CTL PARTIAL_HALT) s Hs _ eq_refl). cbn. auto with walt. }
  revert Hs1. generalize (pause_partially e part s). intros s1 Hs1. unfold pause_fully. case_if; [|done].
  refine (own_request (ce_halt e) (mk_request true _ PAUSE_CORE_CTL HALT) s1 Hs1 _ eq_refl). cbn. auto with walt.
Qed.

Lemma resume_owns e unpause part s :
  owns s -> mask_ok unpause -> mask_ok part -> owns (core_ctl_resume_cpus e unpause part s).
Proof.
  intros Hs Hp Hpp. unfold core_ctl_resume_cpus.
  assert (owns (resume_partially e part s)) as Hs1.
  { unfold resume_partially. case_if; [|done].
    refine (own_request (ce_halt e) (mk_request false _ PAUSE_CORE_CTL PARTIAL_HALT) s Hs _ eq_refl). cbn. auto with walt. }
  revert Hs1. generalize (resume_partially e part s). intros s1 Hs1. unfold resume_fully. case_if; [|done].
  refine (own_request (ce_halt e) (mk_request false _ PAUSE_CORE_CTL HALT) s1 Hs1 _ eq_refl). cbn. auto with walt.
Qed.

(** ** The choices are CPUs *)

Definition lru_ok (c : cluster_data) : Prop := Forall is_cpu (cc_lru c).
Definition lrus_ok (s : core_sys) : Prop := Forall lru_ok (y_clusters s).

Lemma lrus_cdata s i : lrus_ok s -> lru_ok (cdata s i).
Proof.
  intros H. unfold cdata. rewrite nth_lookup. destruct (y_clusters s !! Z.to_nat i) as [c|] eqn:E; cbn.
  - by apply (proj1 (Forall_lookup _ _) H _ _ E).
  - by apply Forall_nil.
Qed.

Lemma lrus_set_cdata s i f : lrus_ok s -> lru_ok (f (cdata s i)) -> lrus_ok (set_cdata i f s).
Proof. intros H Hf. unfold lrus_ok, set_cdata. cbn. by apply Forall_insert. Qed.

Lemma walk_inv {S} (P : S -> Prop) f l s :
  P s -> (forall c t, c ∈ l -> P t -> P (f c t).1) -> P (walk f l s).
Proof.
  revert s. induction l as [|c l IH]; intros s Hs Hf; [exact Hs|].
  change (P (let '(t, stop) := f c s in if stop then t else walk f l t)).
  pose proof (Hf c s ltac:(left) Hs) as Hc. destruct (f c s) as [t stop]. cbn [fst] in Hc.
  destruct stop; [done|]. apply IH; [done|]. intros d u Hd. apply Hf. by right.
Qed.

Lemma move_cpu_ok c l : is_cpu c -> Forall is_cpu l -> Forall is_cpu (move_cpu_lru c l).
Proof.
  intros Hc Hl. unfold move_cpu_lru. apply Forall_app. split; [|by constructor].
  apply Forall_forall. intros x Hx. apply list_elem_of_filter in Hx as [_ Hx]. by apply (proj1 (Forall_forall _ _) Hl).
Qed.

(** A choice of CPUs is a list of CPUs and a mask. *)
Definition choice_ok (st : choice) : Prop := Forall is_cpu (lru_of st) /\ mask_ok (chosen st).

Lemma choose_ok cpu st : is_cpu cpu -> choice_ok st -> choice_ok (choose cpu st).
Proof.
  destruct st as [[lru mask] n]. intros Hc [H1 H2]. split; cbn in *; [by apply move_cpu_ok|auto with walt].
Qed.

Lemma take_is_cpu n l c : Forall is_cpu l -> c ∈ firstn n l -> is_cpu c.
Proof.
  intros H Hc. apply (proj1 (Forall_forall _ _) H). rewrite <- (firstn_skipn n l). apply elem_of_app. by left.
Qed.

Lemma walk_choice_ok f n st :
  choice_ok st -> (forall c t, (f c t).1 = t \/ (f c t).1 = choose c t) ->
  choice_ok (walk f (firstn n (lru_of st)) st).
Proof.
  intros Hst Hf. apply walk_inv; [done|]. intros c t Hc Ht. pose proof (take_is_cpu n _ c (proj1 Hst) Hc).
  destruct (Hf c t) as [->| ->]; [done|by apply choose_ok].
Qed.

Lemma pause_idle_step e s c need cpu st : (pause_idle e s c need cpu st).1 = st \/ (pause_idle e s c need cpu st).1 = choose cpu st.
Proof. unfold pause_idle. destruct st as [[lru mask] n]. repeat case_if; auto. Qed.
Lemma pause_forced_step e s c fp cpu st : (pause_forced e s c fp cpu st).1 = st \/ (pause_forced e s c fp cpu st).1 = choose cpu st.
Proof. unfold pause_forced. destruct st as [[lru mask] n]. repeat case_if; auto. Qed.
Lemma resume_one_step e s c need fo cpu st : (resume_one e s c need fo cpu st).1 = st \/ (resume_one e s c need fo cpu st).1 = choose cpu st.
Proof. unfold resume_one. destruct st as [[lru mask] n]. repeat case_if; auto. Qed.

Lemma pause_again_ok e s c fp st : choice_ok st -> choice_ok (pause_again e s c fp st).
Proof.
  intros H. unfold pause_again. case_if; [done|].
  assert (forall fp t, choice_ok t -> choice_ok (walk (pause_forced e s c fp) (firstn (Z.to_nat (cc_num_cpus c)) (lru_of t)) t)) as Hp
    by (intros; apply walk_choice_ok; [done|apply pause_forced_step]).
  repeat case_if; auto.
Qed.

Lemma partial_pause_ok s c st part :
  choice_ok st -> mask_ok part ->
  choice_ok (try_to_partial_pause s c st part).1 /\ mask_ok (try_to_partial_pause s c st part).2.
Proof.
  destruct st as [[lru mask] n]. intros [Hl Hm] Hp. cbn in Hl, Hm. unfold try_to_partial_pause. case_if; [done|].
  match goal with |- context [walk ?f lru ?x] =>
    assert (let '(l, a, b, _) := walk f lru x in Forall is_cpu l /\ mask_ok a /\ mask_ok b) as H end.
  { apply (walk_inv (fun '(l, a, b, _) => Forall is_cpu l /\ mask_ok a /\ mask_ok b)); [done|].
    intros cpu [[[l a] b] k] Hc (H1 & H2 & H3). assert (is_cpu cpu) by (by apply (proj1 (Forall_forall _ _) Hl)).
    repeat case_if; cbn; auto using move_cpu_ok with walt. }
  destruct (walk _ _ _) as [[[l a] b] k]. cbn. unfold choice_ok. cbn. tauto.
Qed.

Lemma try_to_pause_keeps e i need masks s :
  lrus_ok s -> mask_ok masks.1 -> mask_ok masks.2 ->
  let '(s', masks') := try_to_pause e i need masks s in
  key s' = key s /\ lrus_ok s' /\ mask_ok masks'.1 /\ mask_ok masks'.2.
Proof.
  destruct masks as [pause part]. cbn [fst snd]. intros Hl H1 H2. unfold try_to_pause.
  pose proof (lrus_cdata s i Hl) as Hc.
  set (st0 := walk _ _ _). assert (choice_ok st0) as Hst0.
  { apply (walk_choice_ok _ _ (cc_lru (cdata s i), pause, 0)); [done|apply pause_idle_step]. }
  clearbody st0. apply (pause_again_ok e s (cdata s i) (negb (cc_nr_not_preferred_cpus (cdata s i) =? 0))) in Hst0.
  destruct (partial_pause_ok s (cdata s i) _ part Hst0 H2) as [H3 H4].
  destruct (try_to_partial_pause _ _ _ _) as [st part']. cbn [fst snd] in *.
  split; [done|]. split; [by apply lrus_set_cdata; [|apply H3]|]. split; [apply H3|done].
Qed.

Lemma resume_pass_keeps e i need force mask s :
  lrus_ok s -> mask_ok mask ->
  let '(s', mask', _) := __try_to_resume e i need force mask s in
  key s' = key s /\ lrus_ok s' /\ mask_ok mask'.
Proof.
  intros Hl Hm. unfold __try_to_resume. pose proof (lrus_cdata s i Hl) as Hc.
  set (st := walk _ _ _). assert (choice_ok st) as [H1 H2].
  { apply (walk_choice_ok _ _ (cc_lru (cdata s i), mask, 0)); [done|apply resume_one_step]. }
  split; [done|]. split; [by apply lrus_set_cdata|done].
Qed.

Lemma try_to_resume_keeps e i need masks s :
  lrus_ok s -> mask_ok masks.1 -> mask_ok masks.2 ->
  let '(s', masks') := try_to_resume e i need masks s in
  key s' = key s /\ lrus_ok s' /\ mask_ok masks'.1 /\ mask_ok masks'.2.
Proof.
  destruct masks as [un part]. cbn [fst snd]. intros Hl H1 H2. unfold try_to_resume.
  pose proof (resume_pass_keeps e i need false un s Hl H1) as Hp.
  destruct (__try_to_resume e i need false un s) as [[s1 m1] n1]. destruct Hp as (K1 & L1 & M1).
  case_if; [done|].
  pose proof (resume_pass_keeps e i need true m1 s1 L1 M1) as Hp.
  destruct (__try_to_resume e i need true m1 s1) as [[s2 m2] n2]. destruct Hp as (K2 & L2 & M2).
  split; [by rewrite K2|]. split; [done|]. split; [done|]. cbn. unfold try_to_partial_resume. auto with walt.
Qed.

(** ** The state stays in order *)

Definition sane (s : core_sys) : Prop := owns s /\ lrus_ok s.

Lemma adjust_keeps e i st :
  let '(s, p, u) := st in
  lrus_ok s -> mask_ok p.1 -> mask_ok p.2 -> mask_ok u.1 -> mask_ok u.2 ->
  let '(s', p', u') := adjust_cluster e i st in
  key s' = key s /\ lrus_ok s' /\ mask_ok p'.1 /\ mask_ok p'.2 /\ mask_ok u'.1 /\ mask_ok u'.2.
Proof.
  destruct st as [[s p] u]. intros Hl P1 P2 U1 U2. unfold adjust_cluster.
  set (s1 := set_cdata i _ s).
  assert (lrus_ok s1) as Hl1 by (apply lrus_set_cdata; [done|]; exact (lrus_cdata s i Hl)).
  assert (key s1 = key s) as K1 by done. clearbody s1.
  case_if; [|done]. case_if; [|case_if; [|done]].
  - pose proof (try_to_pause_keeps e i (apply_limits e (cdata s1 i) (cc_need_cpus (cdata s1 i))) p s1 Hl1 P1 P2) as H.
    destruct (try_to_pause _ _ _ _ _) as [s2 p2]. rewrite <- K1. tauto.
  - pose proof (try_to_resume_keeps e i (apply_limits e (cdata s1 i) (cc_need_cpus (cdata s1 i))) u s1 Hl1 U1 U2) as H.
    destruct (try_to_resume _ _ _ _ _) as [s2 u2]. rewrite <- K1. tauto.
Qed.

Lemma on_halt_clusters f t : y_clusters (on_halt f t).1 = y_clusters t.
Proof. unfold on_halt. by destruct (f (y_halt t)) as [[??]?]. Qed.

Lemma pause_clusters e p q s : y_clusters (core_ctl_pause_cpus e p q s) = y_clusters s.
Proof.
  assert (forall t, y_clusters (pause_fully e p t) = y_clusters t) as Hf.
  { intros t. unfold pause_fully. case_if; [|done]. pose proof (on_halt_clusters
      (walt_pause_cpus (ce_halt e) (Z.ldiff p (cpus_paused_by_us t)) PAUSE_CORE_CTL) t) as E.
    destruct (on_halt _ t) as [t1 ret]. by case_if. }
  unfold core_ctl_pause_cpus. rewrite Hf. unfold pause_partially. case_if; [|done].
  pose proof (on_halt_clusters
    (walt_partial_pause_cpus (ce_halt e) (Z.ldiff q (cpus_part_paused_by_us s)) PAUSE_CORE_CTL) s) as E.
  destruct (on_halt _ s) as [t1 ret]. by case_if.
Qed.

Lemma resume_clusters e p q s : y_clusters (core_ctl_resume_cpus e p q s) = y_clusters s.
Proof.
  assert (forall t, y_clusters (resume_fully e p t) = y_clusters t) as Hf.
  { intros t. unfold resume_fully. case_if; [|done]. pose proof (on_halt_clusters
      (walt_resume_cpus (ce_halt e) (Z.land p (cpus_paused_by_us t)) PAUSE_CORE_CTL) t) as E.
    destruct (on_halt _ t) as [t1 ret]. by case_if. }
  unfold core_ctl_resume_cpus. rewrite Hf. unfold resume_partially. case_if; [|done].
  pose proof (on_halt_clusters
    (walt_partial_resume_cpus (ce_halt e) (Z.land q (cpus_part_paused_by_us s)) PAUSE_CORE_CTL) s) as E.
  destruct (on_halt _ s) as [t1 ret]. by case_if.
Qed.

Lemma do_core_ctl_sane e s : sane s -> sane (do_core_ctl e s).
Proof.
  intros [Ho Hl]. unfold do_core_ctl, for_each_cluster.
  pose (P := fun (n : Z) (st : core_sys * (Z * Z) * (Z * Z)) => let '(s', p, u) := st in
    key s' = key s /\ lrus_ok s' /\ mask_ok p.1 /\ mask_ok p.2 /\ mask_ok u.1 /\ mask_ok u.2).
  match goal with |- context [for_range 0 ?n ?f ?x] => assert (P (0 + Z.of_nat n) (for_range 0 n f x)) as H end.
  { apply for_range_ind; [by split_and!|]. intros i [[t p] u] _ (H1 & H2 & H3 & H4 & H5 & H6).
    pose proof (adjust_keeps e i (t, p, u) H2 H3 H4 H5 H6) as Ha. unfold P.
    destruct (adjust_cluster e i (t, p, u)) as [[s' p'] u']. destruct Ha as (A1 & A2). split; [by rewrite A1|done]. }
  destruct (for_range _ _ _ _) as [[s1 [p1 p2]] [u1 u2]]. destruct H as (H1 & H2 & H3 & H4 & H5 & H6). cbn in *.
  assert (owns s1) as Ho1 by by apply (owns_ext s).
  split; [by apply resume_owns; [apply pause_owns|..]|].
  unfold lrus_ok. by rewrite resume_clusters, pause_clusters.
Qed.

(** ** Counting and deciding do not touch the votes *)

Definition quiet_step (s s' : core_sys) : Prop := key s' = key s /\ (lrus_ok s -> lrus_ok s').

Lemma quiet_refl s : quiet_step s s.
Proof. done. Qed.
Lemma quiet_trans a b c : quiet_step a b -> quiet_step b c -> quiet_step a c.
Proof. intros [H1 H2] [H3 H4]. split; [congruence|auto]. Qed.
Lemma quiet_sane s s' : quiet_step s s' -> sane s -> sane s'.
Proof. intros [H1 H2] [H3 H4]. split; [by apply (owns_ext s)|auto]. Qed.

Lemma sane_ext s s' : key s' = key s -> y_clusters s' = y_clusters s -> sane s -> sane s'.
Proof. intros H1 H2. apply quiet_sane. split; [done|]. unfold lrus_ok. by rewrite H2. Qed.

Lemma quiet_set_cdata i f s : cc_lru (f (cdata s i)) = cc_lru (cdata s i) -> quiet_step s (set_cdata i f s).
Proof.
  intros E. split; [done|]. intros H. apply lrus_set_cdata; [done|]. unfold lru_ok. rewrite E. by apply lrus_cdata.
Qed.
Lemma quiet_set_cpu c f s : quiet_step s (set_cpu c f s).
Proof. done. Qed.

Lemma quiet_busy_step e t i cpu st : quiet_step st.1 (busy_step e t i cpu st).1.
Proof. destruct st as [s n]. unfold busy_step. repeat case_if; done. Qed.

Lemma quiet_fold {A} (f : A -> core_sys * Z -> core_sys * Z) l st :
  (forall a st, quiet_step st.1 (f a st).1) -> quiet_step st.1 (fold_left (fun st a => f a st) l st).1.
Proof.
  intros Hf. revert st. induction l as [|a l IH]; intros st; [apply quiet_refl|]. cbn [fold_left].
  eapply quiet_trans; [apply Hf|apply IH].
Qed.

Lemma quiet_busy e i s : quiet_step s (compute_cluster_nr_busy e i s).1.
Proof.
  unfold compute_cluster_nr_busy. set (s1 := set_cdata i _ s).
  assert (quiet_step s s1) as H1 by by apply quiet_set_cdata.
  apply (quiet_trans s s1); [done|]. exact (quiet_fold (fun cpu st => busy_step e _ i cpu st) _ (s1, 0) (quiet_busy_step e _ i)).
Qed.

Lemma quiet_cluster_avg e i s b g : quiet_step s (update_cluster_avg e i (s, b, g)).1.1.
Proof.
  unfold update_cluster_avg. case_if; [done|]. cbv zeta.
  match goal with |- context [compute_cluster_nr_busy e i ?x] => set (s1 := x) end.
  assert (quiet_step s s1) as H1.
  { unfold s1. eapply quiet_trans; [|by apply quiet_set_cdata]. by apply quiet_set_cdata. }
  clearbody s1. pose proof (quiet_busy e i s1) as H2. destruct (compute_cluster_nr_busy e i s1) as [s2 nb]. cbn [fst] in *.
  eapply quiet_trans; [exact H1|]. eapply quiet_trans; [exact H2|].
  eapply quiet_trans; [|by apply quiet_set_cdata]. by apply quiet_set_cdata.
Qed.

Lemma quiet_running_avg e w k s : quiet_step s (update_running_avg e w k s).
Proof.
  unfold update_running_avg, for_each_cluster.
  match goal with |- context [for_range 0 ?n ?f ?x] =>
    assert (quiet_step s (for_range 0 n f x).1.1) as H end.
  { apply (for_range_ind (fun _ st => quiet_step s st.1.1)); [apply quiet_refl|].
    intros i [[t b] g] _ Ht. eapply quiet_trans; [exact Ht|apply quiet_cluster_avg]. }
  destruct (for_range _ _ _ _) as [[s1 b] g]. cbn [fst] in H.
  destruct (walt_rotation_checkpoint _ _ _ _ _ _) as [r f]. exact H.
Qed.

Lemma quiet_eval_need e w i s : quiet_step s (eval_need e w i s).1.
Proof. unfold eval_need. repeat case_if; try done; by apply quiet_set_cdata. Qed.

Lemma quiet_param_changed e i s : quiet_step s (sysfs_param_changed e i s).
Proof.
  unfold sysfs_param_changed. pose proof (quiet_eval_need e (ce_clock e) i s) as H.
  destruct (eval_need e (ce_clock e) i s) as [s1 b]. by case_if.
Qed.

Lemma quiet_set_boost e b s : quiet_step s (core_ctl_set_boost e b s).1.
Proof.
  unfold core_ctl_set_boost, for_each_cluster. do 2 (case_if; [done|]).
  match goal with |- context [for_range 0 ?n ?f ?x] => assert (quiet_step s (for_range 0 n f x).1.1) as H end.
  { apply (for_range_ind (fun _ st => quiet_step s st.1.1)); [apply quiet_refl|].
    intros i [[t r] ch] _ Ht. eapply quiet_trans; [exact Ht|]. cbn [fst].
    assert (cc_lru (set_cluster_boost b (cdata t i)).1.1 = cc_lru (cdata t i)) as E
      by (unfold set_cluster_boost; repeat case_if; done).
    destruct (set_cluster_boost b (cdata t i)) as [[c r'] ch']. by apply quiet_set_cdata. }
  destruct (for_range _ _ _ _) as [[s1 r] ch]. cbn [fst] in H. case_if; [|done]. cbn [fst].
  apply (for_range_ind (fun _ t => quiet_step s t)); [done|].
  intros i t _ Ht. eapply quiet_trans; [exact Ht|apply quiet_param_changed].
Qed.

Lemma on_halt_lrus f s : lrus_ok s -> lrus_ok (on_halt f s).1.
Proof. unfold lrus_ok. by rewrite on_halt_clusters. Qed.

Lemma sbt_sane e k s : mask_ok (ce_sbt_pause_cpus e) -> sane s -> sane (sbt_ctl_check e k s).
Proof.
  intros Hm Hs. unfold sbt_ctl_check. do 3 (case_if; [by apply (sane_ext s)|]).
  set (s1 := if core_ctl_is_sbt e k s then set prev_is_sbt_windows _ s else s).
  assert (sane s1) as Hs1 by (unfold s1; case_if; [by apply (sane_ext s)|done]). clearbody s1.
  match goal with |- context [if ?b then on_halt ?f s1 else on_halt ?g s1] =>
    assert (sane (if b then on_halt f s1 else on_halt g s1).1) as H end.
  { destruct Hs1 as [Ho Hl]. case_if; (split; [|by apply on_halt_lrus]).
    - by apply (other_request (ce_halt e) (mk_request true (ce_sbt_pause_cpus e) PAUSE_SBT HALT)).
    - by apply (other_request (ce_halt e) (mk_request false (ce_sbt_pause_cpus e) PAUSE_SBT HALT)). }
  destruct (if negb (prev_is_sbt s1) && core_ctl_is_sbt e k s then _ else _) as [s2 r]. by apply (sane_ext s2).
Qed.

Lemma check_sane e w k s : mask_ok (ce_sbt_pause_cpus e) -> sane s -> sane (core_ctl_check e w k s).
Proof.
  intros Hm Hs. unfold core_ctl_check. do 3 (case_if; [by apply (sane_ext s)|]).
  match goal with |- context [for_range 0 ?n ?f ?x] => set (s1 := for_range 0 n f x) end.
  assert (quiet_step s s1) as H1.
  { apply (for_range_ind (fun _ t => quiet_step s t)); [done|]. intros cpu t _ Ht. by case_if. }
  clearbody s1. pose proof (quiet_trans _ _ _ H1 (quiet_running_avg e w k s1)) as H2.
  set (s2 := update_running_avg e w k s1) in *. clearbody s2. unfold for_each_cluster.
  match goal with |- context [for_range 0 ?n ?f ?x] => assert (quiet_step s (for_range 0 n f x).1) as H3 end.
  { apply (for_range_ind (fun _ st => quiet_step s st.1)); [done|]. intros i [t b] _ Ht. cbn [fst] in *.
    pose proof (quiet_eval_need e w i t) as He. destruct (eval_need e w i t) as [t1 b1]. by apply (quiet_trans s t). }
  destruct (for_range _ _ _ _) as [s3 wk]. cbn [fst] in H3. apply sbt_sane; [done|].
  pose proof (quiet_sane _ _ H3 Hs) as Hs3. case_if; [by apply do_core_ctl_sane|done].
Qed.

End Ownership.

(** ** A concrete system

    Two clusters of four CPUs; the big one has two idle CPUs too many. *)

Module CoreDemo.

Definition demo_stats : sched_avg_stats := mk_avg 1 0 1 50 0.
Definition demo_cenv : core_env :=
  mk_cenv Halting.demo_henv 255 1000 5000 false false (fun _ => false) (fun _ => demo_stats) (fun _ => 10)
    (fun _ => 100) [15; 240] 0 false 4 (mk_rin true false false 8 (replicate 4 FREQ_QOS_MAX_DEFAULT_VALUE))
    (mk_inputs false 0 false 6 false 16000000 (-1) (fun _ => false)) (replicate 8 100) true.
Definition demo_cdata (mask : Z) (lru : list Z) : cluster_data :=
  mk_cdata true 1 0 4 100 (replicate 6 60) (replicate 6 30) 4 4 0 mask 4 100 0 0 0 0 0 lru true 0 0 0 mask 0 0 0 0 0.
Definition demo_core : core_sys :=
  mk_core [demo_cdata 15 [0; 1; 2; 3]; set cc_need_cpus (fun _ => 2) (demo_cdata 240 [4; 5; 6; 7])]
    (replicate 8 (mk_cpu false 10 false false)) 0 0 true true false 0 0 false 0 (mk_rot false false 0 0)
    (Halting.quiet Limits.demo_fsys).

Lemma demo_core_sane : Ownership.sane demo_core.
Proof.
  destruct (Halting.quiet_ok Limits.demo_fsys) as (Q1 & _ & Q3). split.
  - constructor; cbn; try done; intros cpu _; by rewrite Q3, Z.bits_0.
  - repeat constructor; done.
Qed.

(** The thread pauses CPUs 4 and 5, then the thermal driver pauses and resumes them. *)
Definition thermal (pause : bool) : Halting.request := Halting.mk_request pause 48 PAUSE_THERMAL HALT.
Definition demo_run : core_sys :=
  (on_halt (Halting.serve Halting.demo_henv (thermal false))
     (on_halt (Halting.serve Halting.demo_henv (thermal true)) (do_core_ctl demo_cenv demo_core)).1).1.

End CoreDemo.

Module CoreRuns.
Import Halting Ownership.

(** ** Runs of core control among other clients *)

(** Checks of core control, its thread, boosts, and requests of the other clients. *)
Inductive core_step (s : core_sys) : core_sys -> Prop :=
| step_check e window_start wakeups :
    mask_ok (ce_sbt_pause_cpus e) -> core_step s (core_ctl_check e window_start wakeups s)
| step_thread e : core_step s (do_core_ctl e s)
| step_boost e b : core_step s (core_ctl_set_boost e b s).1
| step_other e r : mask_ok (req_cpus r) -> req_client r <> PAUSE_CORE_CTL ->
    core_step s (on_halt (serve e r) s).1.



Lemma demo_runs : rtc core_step CoreDemo.demo_core CoreDemo.demo_run.
Proof.
  eapply rtc_l; [apply (step_thread _ CoreDemo.demo_cenv)|].
  eapply rtc_l; [by apply (step_other _ Halting.demo_henv (CoreDemo.thermal true))|].
  eapply rtc_l; [by apply (step_other _ Halting.demo_henv (CoreDemo.thermal false))|].
  apply rtc_refl.
Qed.



End CoreRuns.

(** ** Choosing the CPUs to pause *)

Module Choosing.

Section Pausing.
Context (e : core_env) (s : core_sys) (c : cluster_data) (need : Z) (mask0 : Z).

Definition available (cpu : Z) : bool := is_active e s cpu && negb (cd_disabled (cpu_state s cpu)).

(** The CPUs the first loop may take. *)
Definition spare (cpu : Z) : bool :=
  available cpu && negb (cd_is_busy (cpu_state s cpu)) &&
  ((cc_nr_not_preferred_cpus c =? 0) || cd_not_preferred (cpu_state s cpu)).

(** The state of the loops after CPUs [l] were chosen: [n] counts every choice, a CPU
    chosen twice counts twice. *)
Record chose (l : list Z) (st : choice) : Prop := mk_chose {
  ch_nodup : NoDup l;
  ch_available : forall cpu, cpu ∈ l -> cpu ∈ cc_lru c /\ available cpu = true;
  ch_mask : forall cpu, 0 <= cpu -> Z.testbit (chosen st) cpu = Z.testbit mask0 cpu || bool_decide (cpu ∈ l);
  ch_count : Z.of_nat (length l) <= pending st <= cc_active_cpus c - need;
  ch_lru : lru_of st ≡ₚ cc_lru c
}.

Hypothesis Hlru : NoDup (cc_lru c) /\ Forall is_cpu (cc_lru c).
Hypothesis Hneed : 0 <= need <= cc_max_cpus c /\ need <= cc_active_cpus c <= WALT_NR_CPUS.

Lemma move_cpu_perm cpu l : NoDup l -> cpu ∈ l -> move_cpu_lru cpu l ≡ₚ l.
Proof.
  intros Hn Hc. unfold move_cpu_lru. apply list_elem_of_split in Hc as (k1 & k2 & ->).
  apply NoDup_app in Hn as (_ & Hd & Hn). apply NoDup_cons in Hn as [Hc2 _].
  assert (forall k : list Z, cpu ∉ k -> filter (.≠ cpu) k = k) as Hf.
  { induction k as [|y k IH]; [done|]. intros [H1 H2]%not_elem_of_cons.
    rewrite filter_cons_True by (by apply not_eq_sym). f_equal. by apply IH. }
  rewrite filter_app, filter_cons_False by auto.
  rewrite !Hf; [|done|intros H1; apply (Hd cpu H1); left].
  rewrite <- app_assoc. apply Permutation_app_head. symmetry. apply Permutation_cons_append.
Qed.

(** Choosing an available CPU while the count is below what may be paused. *)
Lemma chose_choose l st cpu :
  chose l st -> cpu ∈ cc_lru c -> available cpu = true -> pending st < cc_active_cpus c - need ->
  exists l', chose l' (choose cpu st) /\ pending (choose cpu st) = pending st + 1 /\ (cpu ∉ l -> l' = cpu :: l).
Proof.
  destruct st as [[lru mask] n]. intros [H1 H2 H3 H4 H5] Hc Ha Hlt. cbn in *.
  destruct Hlru as [Hnd Hf]. assert (is_cpu cpu) as Hcpu by by apply (proj1 (Forall_forall _ _) Hf).
  unfold WALT_NR_CPUS in Hneed. assert (u32 (n + 1) = n + 1) as Eu by (apply u32_small; lia).
  exists (if bool_decide (cpu ∈ l) then l else cpu :: l). split; [|split; [by cbn|by intros; rewrite bool_decide_eq_false_2]].
  constructor.
  - case_bool_decide; [done|]. by apply NoDup_cons_2.
  - intros x Hx. case_bool_decide; [by apply H2|]. apply elem_of_cons in Hx as [->|Hx]; [done|by apply H2].
  - intros x Hx. cbn. rewrite setbit_spec, H3 by (done || apply Hcpu).
    destruct (Z.eqb_spec cpu x) as [->|Hne]; cbn [orb].
    + rewrite (bool_decide_eq_true_2 (x ∈ _)); [by rewrite orb_true_r|].
      case_bool_decide; [done|left].
    + f_equal. apply bool_decide_ext. case_bool_decide; [done|]. rewrite elem_of_cons. split; [by right|by intros [->|]].
  - cbn. rewrite Eu. case_bool_decide; cbn [length]; lia.
  - cbn. assert (NoDup lru) by (by rewrite H5). transitivity lru; [|done]. apply move_cpu_perm; [done|by rewrite H5].
Qed.

Lemma walk_chose (f : Z -> choice -> choice * bool) k l st :
  (forall cpu t l, cpu ∈ k -> chose l t -> exists l', chose l' (f cpu t).1) ->
  chose l st -> exists l', chose l' (walk f k st).
Proof.
  intros Hf Hst. apply (Ownership.walk_inv (fun st => exists l, chose l st)); [by exists l|].
  intros cpu t Hc [l' Ht]. by apply (Hf cpu t l').
Qed.

(** The first loop visits every CPU once, so that its count is the number of CPUs. *)
Lemma walk_idle_chose k l st :
  NoDup k -> (forall cpu, cpu ∈ k -> cpu ∈ cc_lru c /\ cpu ∉ l) ->
  chose l st -> pending st = Z.of_nat (length l) ->
  exists l', chose l' (walk (pause_idle e s c need) k st) /\
    pending (walk (pause_idle e s c need) k st) = Z.of_nat (length l').
Proof.
  intros Hnd. revert l st. induction Hnd as [|cpu k Hcpu Hnd IH]; intros l st Hk Hst Hn; [by exists l|].
  change (walk (pause_idle e s c need) (cpu :: k) st) with
    (let '(t, stop) := pause_idle e s c need cpu st in if stop then t else walk (pause_idle e s c need) k t).
  destruct (Hk cpu ltac:(left)) as [Hc Hcl].
  assert (forall x, x ∈ k -> x ∈ cc_lru c /\ x ∉ l) as Hk' by (intros x Hx; apply Hk; by right).
  pose proof (ch_count _ _ Hst) as Hcount. destruct st as [[lru mask] n]. cbn [pending snd] in *.
  unfold pause_idle. destruct (cd_disabled (cpu_state s cpu)) eqn:Ed; [by apply (IH l)|].
  destruct (is_active e s cpu) eqn:Ea; cbn [negb]; [|by apply (IH l)].
  unfold WALT_NR_CPUS in Hneed. rewrite u32_small by lia.
  destruct (Z.eqb_spec (cc_active_cpus c - n) need); [by exists l|]. do 2 (case_if; [by apply (IH l)|]).
  destruct (chose_choose l (lru, mask, n) cpu) as (l' & H1 & H2 & H3);
    [done|done|unfold available; by rewrite Ea, Ed|cbn; lia|].
  rewrite (H3 Hcl) in H1. apply (IH (cpu :: l)); [|done|rewrite H2; cbn [length pending snd]; lia].
  intros x Hx. split; [by apply Hk'|]. apply not_elem_of_cons. split; [by intros ->|by apply Hk'].
Qed.

Lemma pause_forced_chose fp cpu t l : cpu ∈ cc_lru c -> chose l t -> exists l', chose l' (pause_forced e s c fp cpu t).1.
Proof.
  intros Hc Ht. pose proof Ht as [_ _ _ Hn _]. unfold pause_forced. destruct t as [[lru mask] n]. cbn in Hn.
  destruct (cd_disabled (cpu_state s cpu)) eqn:Ed; [by exists l|].
  destruct (is_active e s cpu) eqn:Ea; cbn [negb]; [|by exists l].
  unfold WALT_NR_CPUS in Hneed. rewrite u32_small by lia.
  destruct (Z.leb_spec (cc_active_cpus c - n) (cc_max_cpus c)); [by exists l|]. case_if; [by exists l|].
  destruct (chose_choose l (lru, mask, n) cpu) as (l' & H' & _ & _); [done|done|unfold available; by rewrite Ea, Ed|cbn; lia|].
  by exists l'.
Qed.

Lemma take_elem {A} n (l : list A) x : x ∈ firstn n l -> x ∈ l.
Proof. intros H. rewrite <- (firstn_skipn n l). apply elem_of_app. by left. Qed.

Lemma pause_again_chose fp l st : chose l st -> exists l', chose l' (pause_again e s c fp st).
Proof.
  intros H. unfold pause_again. case_if; [by exists l|].
  assert (forall fp l t, chose l t -> exists l', chose l'
    (walk (pause_forced e s c fp) (firstn (Z.to_nat (cc_num_cpus c)) (lru_of t)) t)) as Hp.
  { intros fp' l' t Ht. apply (walk_chose _ _ l'); [|done]. intros cpu u k Hc. apply pause_forced_chose.
    rewrite <- (ch_lru _ _ Ht). by apply take_elem in Hc. }
  destruct (Hp fp l st H) as [l1 H1]. repeat case_if; eauto.
Qed.

(** The number the first loop takes: every spare CPU, up to what is not needed. *)
Definition spares (k : list Z) : Z := Z.of_nat (length (filter (fun cpu => spare cpu = true) k)).

Lemma spares_cons cpu k : spares (cpu :: k) = (if spare cpu then 1 else 0) + spares k.
Proof.
  unfold spares. rewrite filter_cons. case_decide as E; [rewrite E; cbn [length]; lia|].
  destruct (spare cpu); [done|lia].
Qed.

Lemma walk_idle_count k st :
  (forall cpu, cpu ∈ k -> available cpu = false \/ spare cpu = true) -> 
  0 <= pending st <= cc_active_cpus c - need ->
  pending (walk (pause_idle e s c need) k st) = Z.min (cc_active_cpus c - need) (pending st + spares k).
Proof.
  revert st. induction k as [|cpu k IH]; intros st Hk Hn; [change (pending (walk (pause_idle e s c need) [] st)) with (pending st); change (spares []) with 0; lia|].
  change (walk (pause_idle e s c need) (cpu :: k) st) with
    (let '(t, stop) := pause_idle e s c need cpu st in if stop then t else walk (pause_idle e s c need) k t).
  rewrite spares_cons. assert (0 <= spares k) as Hsp by (unfold spares; lia).
  assert (forall x, x ∈ k -> available x = false \/ spare x = true) as Hk' by (intros x Hx; apply Hk; by right).
  destruct st as [[lru mask] n]. cbn [pending snd] in *. unfold WALT_NR_CPUS in Hneed.
  destruct (Hk cpu ltac:(left)) as [Ha|Hsc].
  - assert (spare cpu = false) as -> by (unfold spare; by rewrite Ha).
    assert (pause_idle e s c need cpu (lru, mask, n) = ((lru, mask, n), false)) as ->.
    { unfold pause_idle, available in *. destruct (is_active e s cpu); cbn in Ha.
      - apply negb_false_iff in Ha. by rewrite Ha.
      - by destruct (cd_disabled (cpu_state s cpu)). }
    rewrite IH by done. cbn. f_equal; lia.
  - rewrite Hsc. unfold spare, available in Hsc. apply andb_true_iff in Hsc as [Hsc Hpref].
    apply andb_true_iff in Hsc as [Hav Hbusy]. apply andb_true_iff in Hav as [Hact Hdis].
    unfold pause_idle. rewrite Hact. apply negb_true_iff in Hdis, Hbusy. rewrite Hdis, Hbusy. cbn [negb].
    rewrite u32_small by lia. destruct (Z.eqb_spec (cc_active_cpus c - n) need); [cbn; lia|].
    assert (negb (cc_nr_not_preferred_cpus c =? 0) && negb (cd_not_preferred (cpu_state s cpu)) = false) as ->
      by (destruct (cc_nr_not_preferred_cpus c =? 0), (cd_not_preferred (cpu_state s cpu)); done).
    rewrite IH; [|done|cbn; rewrite u32_small; lia]. cbn. rewrite u32_small by lia. f_equal; lia.
Qed.

(** Moving some of the chosen CPUs to the partial pause keeps the union. *)
Lemma partial_pause_union st part :
  NoDup (lru_of st) -> Forall is_cpu (lru_of st) ->
  let '(st', part') := try_to_partial_pause s c st part in
  (forall cpu, 0 <= cpu -> Z.testbit (chosen st') cpu || Z.testbit part' cpu =
     Z.testbit (chosen st) cpu || Z.testbit part cpu) /\ lru_of st' ≡ₚ lru_of st.
Proof.
  destruct st as [[lru mask] n]. unfold lru_of, chosen. cbn [fst snd]. intros Hnd Hf.
  unfold try_to_partial_pause. case_if; [done|].
  match goal with |- context [walk ?f lru ?x] =>
    assert (let '(l, a, b, _) := walk f lru x in
      (forall cpu, 0 <= cpu -> Z.testbit a cpu || Z.testbit b cpu = Z.testbit mask cpu || Z.testbit part cpu) /\
      l ≡ₚ lru) as H end.
  { apply (Ownership.walk_inv (fun '(l, a, b, _) =>
      (forall cpu, 0 <= cpu -> Z.testbit a cpu || Z.testbit b cpu = Z.testbit mask cpu || Z.testbit part cpu) /\ l ≡ₚ lru)); [done|].
    intros cpu [[[l a] b] k] Hc [H1 H2]. case_if; [done|]. destruct (cpumask_test_cpu cpu a && _) eqn:Et; [|done]. cbn [fst].
    assert (is_cpu cpu) as [Hcpu _] by by apply (proj1 (Forall_forall _ _) Hf). split.
    - intros x Hx. rewrite <- H1, clearbit_spec, setbit_spec by done.
      destruct (Z.eqb_spec cpu x) as [->|]; cbn [negb orb]; [|by rewrite andb_true_r].
      apply andb_true_iff in Et as [E _]. unfold cpumask_test_cpu in E. by rewrite E, orb_true_r.
    - transitivity l; [|done]. apply move_cpu_perm; by rewrite H2. }
  destruct (walk _ _ _) as [[[l a] b] k]. exact H.
Qed.
End Pausing.

(** ** What a pause takes from a cluster *)

(** A cluster in order: its LRU list holds its CPUs once each, and the need is within
    its limits. *)
Record pausable (c : cluster_data) (need : Z) : Prop := mk_pausable {
  pb_nodup : NoDup (cc_lru c);
  pb_cpus : Forall is_cpu (cc_lru c);
  pb_length : cc_num_cpus c = Z.of_nat (length (cc_lru c));
  pb_need : 0 <= need <= cc_max_cpus c /\ need <= cc_active_cpus c <= WALT_NR_CPUS
}.

(** C16. Pausing takes available CPUs of the cluster, never more than are not needed, so that
    at least the needed number stays active, and only permutes the LRU list; when every
    available CPU of the cluster is idle and none is preferred, exactly the needed
    number stays. *)
Theorem try_to_pause_spec e i need pause part s :
  0 <= i < n_clusters s -> pausable (cdata s i) need ->
  let c := cdata s i in
  let '(s', (pause', part')) := try_to_pause e i need (pause, part) s in
  exists l, NoDup l /\ Z.of_nat (length l) <= cc_active_cpus c - need /\
    (forall cpu, cpu ∈ l -> cpu ∈ cc_lru c /\ available e s cpu = true) /\
    (forall cpu, 0 <= cpu -> Z.testbit pause' cpu || Z.testbit part' cpu =
       Z.testbit pause cpu || Z.testbit part cpu || bool_decide (cpu ∈ l)) /\
    cc_lru (cdata s' i) ≡ₚ cc_lru c /\
    (cc_active_cpus c = spares e s c (cc_lru c) ->
     (forall cpu, cpu ∈ cc_lru c -> available e s cpu = false \/ spare e s c cpu = true) ->
     Z.of_nat (length l) = cc_active_cpus c - need).
Proof.
  intros Hi [Hnd Hf Hlen Hneed]. cbv zeta. unfold try_to_pause. set (c := cdata s i) in *.
  assert (firstn (Z.to_nat (cc_num_cpus c)) (cc_lru c) = cc_lru c) as -> by (apply take_ge; lia).
  assert (chose e s c need pause [] (cc_lru c, pause, 0)) as H0.
  { constructor; [constructor|by intros ? ?%not_elem_of_nil| |cbn; lia|done].
    intros cpu Hc. cbn. by rewrite bool_decide_eq_false_2, orb_false_r by apply not_elem_of_nil. }
  destruct (walk_idle_chose e s c need pause (conj Hnd Hf) Hneed (cc_lru c) [] (cc_lru c, pause, 0) Hnd) as (l1 & H1 & E1); [|done|done|].
  { intros cpu Hc. split; [done|apply not_elem_of_nil]. }
  pose proof (walk_idle_count e s c need Hneed (cc_lru c) (cc_lru c, pause, 0)) as Hcount.
  set (st1 := walk _ _ _) in *. clearbody st1.
  set (fp := negb (cc_nr_not_preferred_cpus c =? 0)).
  destruct (pause_again_chose e s c need pause (conj Hnd Hf) Hneed fp l1 st1 H1) as [l2 H2].
  assert (pending st1 = cc_active_cpus c - need -> pause_again e s c fp st1 = st1) as Hstop.
  { intros Hp. unfold pause_again, within_max. unfold WALT_NR_CPUS in Hneed. rewrite Hp, u32_small by lia.
    destruct (Z.leb_spec (cc_active_cpus c - (cc_active_cpus c - need)) (cc_max_cpus c)); [done|lia]. }
  set (st2 := pause_again e s c fp st1) in *. clearbody st2.
  pose proof (partial_pause_union s c st2 part) as Hu. pose proof (ch_lru _ _ _ _ _ _ _ H2) as Hperm.
  destruct (try_to_partial_pause s c st2 part) as [st3 part'].
  destruct Hu as [Hu Hl3]; [by rewrite Hperm|by rewrite Hperm|].
  assert (exists l, chose e s c need pause l st2 /\
    (pending st1 = cc_active_cpus c - need -> Z.of_nat (length l) = cc_active_cpus c - need)) as (l & Hl & Hex).
  { destruct (Z.eq_dec (pending st1) (cc_active_cpus c - need)) as [Ep|]; [|by exists l2].
    exists l1. rewrite (Hstop Ep). split; [done|]. lia. }
  exists l. destruct Hl as [L1 L2 L3 L4 L5]. split; [done|]. split; [lia|]. split; [done|]. split.
  { intros cpu Hc. rewrite Hu, L3 by done. by rewrite <- !orb_assoc, (orb_comm (Z.testbit part cpu)). }
  split.
  { unfold cdata, set_cdata. cbn. rewrite nth_lookup, list_lookup_insert_eq by (unfold n_clusters in Hi; lia).
    cbn. by rewrite Hl3. }
  intros Hsp Hall. apply Hex. rewrite Hcount by (done || (cbn; lia)). cbn. lia.
Qed.

Lemma try_to_pause_spec_witness :
  let '(s', (pause', part')) := try_to_pause CoreDemo.demo_cenv 1 2 (0, 0) CoreDemo.demo_core in
  exists l, Z.of_nat (length l) = 2 /\
    forall cpu, 0 <= cpu -> Z.testbit pause' cpu || Z.testbit part' cpu = bool_decide (cpu ∈ l).
Proof.
  pose proof (try_to_pause_spec CoreDemo.demo_cenv 1 2 0 0 CoreDemo.demo_core) as H.
  destruct (try_to_pause CoreDemo.demo_cenv 1 2 (0, 0) CoreDemo.demo_core) as [s' [pause' part']].
  destruct H as (l & _ & _ & _ & H1 & _ & H2).
  - done.
  - constructor; [|repeat constructor; done|reflexivity|done].
    change (NoDup [4; 5; 6; 7]). apply (bool_decide_eq_true_1 _). reflexivity.
  - exists l. split.
    + apply H2; [reflexivity|]. intros cpu Hc. right.
      change (cpu ∈ [4; 5; 6; 7]) in Hc. rewrite !elem_of_cons in Hc.
      destruct Hc as [->|[->|[->|[->|Hc]]]]; [reflexivity..|]. by apply not_elem_of_nil in Hc.
    + intros cpu Hc. rewrite H1 by exact Hc. by rewrite !Z.bits_0.
Defined.

(** ** Limits of the choice *)

(** With CPUs marked as not preferred, a CPU taken by the first loop is still active in
    the forced passes and is counted again: with CPU 4 not preferred and a maximum of
    one active CPU only three of the four claims are of different CPUs, and two CPUs
    stay active. *)
Definition demo_not_preferred : core_sys :=
  set_cpu 4 (set cd_not_preferred (fun _ => true))
    (set_cdata 1 (fun c => set cc_nr_not_preferred_cpus (fun _ => 1) (set cc_max_cpus (fun _ => 1) c)) CoreDemo.demo_core).

Lemma forced_pause_counts_twice :
  let '(s', (pause', part')) := try_to_pause CoreDemo.demo_cenv 1 1 (0, 0) demo_not_preferred in
  cc_active_cpus (cdata demo_not_preferred 1) = 4 /\ cpumask_weight (Z.lor pause' part') = 2.
Proof. vm_compute. done. Qed.

(** The second pass of a resume starts counting again: one preferred and two not
    preferred CPUs are paused, two are needed, three are resumed. *)
Definition demo_paused : core_sys :=
  set_cpu 4 (set cd_not_preferred (fun _ => true)) (set_cpu 5 (set cd_not_preferred (fun _ => true))
    (set_cdata 1 (fun c => set cc_active_cpus (fun _ => 1) c)
       (set cpus_paused_by_us (fun _ => 112)
          (set y_halt (fun h => set cpu_halt_mask (fun _ => 112) h) CoreDemo.demo_core)))).

Lemma resume_exceeds_need :
  let '(s', (unpause', part')) := try_to_resume CoreDemo.demo_cenv 1 3 (0, 0) demo_paused in
  unpause' = 112.
Proof. vm_compute. done. Qed.

(** When the first pass already finds the needed CPUs, the partially paused ones among
    them are not put into the mask of CPUs to resume partially. *)
Definition demo_part_paused : core_sys :=
  set_cdata 1 (fun c => set cc_active_cpus (fun _ => 3) c)
    (set cpus_part_paused_by_us (fun _ => 16)
       (set y_halt (fun h => set cpu_partial_halt_mask (fun _ => 16) h) CoreDemo.demo_core)).

Lemma partial_resume_skipped :
  (try_to_resume CoreDemo.demo_cenv 1 4 (0, 0) demo_part_paused).2 = (16, 0).
Proof. vm_compute. done. Qed.

End Choosing.

(** ** Deciding the need *)

Module Deciding.

(** The number of CPUs a cluster should have: all it may have while it is boosted,
    disabled or just out of rotation, what its tasks need otherwise; within its limits. *)
Definition target (e : core_env) (window_start : Z) (s : core_sys) (c : cluster_data) : Z :=
  let hyst_ts := r_stop_hyst_ts (y_rotation s) in
  apply_limits e c
    (if negb (cc_boost c =? 0) || negb (cc_enable c) ||
        (negb (hyst_ts =? 0) && (u64 (window_start - hyst_ts) <? GIANT_TASK_OFFLINE_DELAY_NS))
     then cc_max_cpus c else apply_task_need c).

Lemma cdata_set i f s : 0 <= i < n_clusters s -> cdata (set_cdata i f s) i = f (cdata s i).
Proof.
  intros Hi. unfold cdata at 1. unfold set_cdata. cbn. rewrite nth_lookup.
  by rewrite list_lookup_insert_eq by (unfold n_clusters in Hi; lia).
Qed.

(** One evaluation of a cluster: the target lies within the limits; a larger number of
    CPUs is adopted at once, a smaller one only when the need was last adopted at least
    the offline delay ago; core control is woken when an adopted need differs from the
    active CPUs and can be met, for more CPUs only if some of the cluster are paused. *)
Theorem eval_need_spec e window_start i s :
  0 <= i < n_clusters s -> cc_inited (cdata s i) = true ->
  let c := cdata s i in
  0 <= cc_min_cpus c <= cc_max_cpus c -> cc_max_cpus c <= cc_num_cpus c -> 0 <= cc_need_ts c <= ce_now_ms e -> ce_now_ms e < 2 ^ 63 ->
  let t := target e window_start s c in
  let '(s', wake) := eval_need e window_start i s in
  let c' := cdata s' i in
  cc_min_cpus c <= t <= cc_num_cpus c /\
  (cc_enable c && negb (ce_scx_enabled e) && (cc_boost c =? 0) = true -> t <= cc_max_cpus c) /\
  (cc_active_cpus c < t -> cc_need_cpus c' = t /\ cc_need_ts c' = ce_now_ms e /\
     wake = negb (cluster_paused_cpus s c =? 0)) /\
  (t < cc_active_cpus c ->
     if cc_offline_delay_ms c <=? ce_now_ms e - cc_need_ts c
     then cc_need_cpus c' = t /\ cc_need_ts c' = ce_now_ms e /\ wake = true
     else c' = c /\ wake = false) /\
  (t = cc_active_cpus c -> wake = false) /\
  cc_active_cpus c' = cc_active_cpus c.
Proof.
  intros Hi Hin. cbv zeta. intros Hmm Hmax Hts Hnow. unfold eval_need. rewrite Hin. cbn [negb].
  set (c := cdata s i) in *. fold (target e window_start s c). set (t := target e window_start s c).
  assert (cc_min_cpus c <= t <= cc_num_cpus c) as Hr
    by (unfold t, target, apply_limits; cbv zeta; repeat case_if; lia).
  assert (cc_enable c && negb (ce_scx_enabled e) && (cc_boost c =? 0) = true -> t <= cc_max_cpus c) as Hr2.
  { unfold t, target, apply_limits. intros H. apply andb_true_iff in H as [H H3]. apply andb_true_iff in H as [H1 H2].
    rewrite H1, H3. apply negb_true_iff in H2. rewrite H2. cbn [negb orb andb]. lia. }
  rewrite s64_small by lia. unfold adjustment_possible.
  destruct (Z.ltb_spec (cc_active_cpus c) t) as [Hlt|Hge]; cbn [negb andb].
  - rewrite cdata_set by done. cbn. split; [done|]. split; [done|]. split.
    { intros _. split; [done|]. split; [done|]. by destruct (Z.ltb_spec t (cc_active_cpus c)); [lia|]. }
    split; [lia|]. split; [lia|done].
  - destruct (Z.eqb_spec t (cc_need_cpus c)) as [En|En]; cbn [andb];
      [destruct (Z.eqb_spec t (cc_active_cpus c)) as [Ea|Ea]|].
    + rewrite cdata_set by done. split; [done|]. split; [done|]. split; [lia|]. split; [lia|]. done.
    + destruct (Z.leb_spec (cc_offline_delay_ms c) (ce_now_ms e - cc_need_ts c)).
      * rewrite cdata_set by done. cbn. split; [done|]. split; [done|]. split; [lia|]. split; [|split; [lia|done]].
        intros Hta. split; [done|]. split; [done|]. by destruct (Z.ltb_spec t (cc_active_cpus c)); [|lia].
      * split; [done|]. split; [done|]. split; [lia|]. done.
    + destruct (Z.leb_spec (cc_offline_delay_ms c) (ce_now_ms e - cc_need_ts c)).
      * rewrite cdata_set by done. cbn. split; [done|]. split; [done|]. split; [lia|]. split.
        { intros Hta. split; [done|]. split; [done|]. by destruct (Z.ltb_spec t (cc_active_cpus c)); [|lia]. }
        split; [|done]. intros ->. by rewrite Z.ltb_irrefl.
      * split; [done|]. split; [done|]. split; [lia|]. done.
Qed.

Lemma eval_need_spec_witness :
  (eval_need CoreDemo.demo_cenv 5000 1 CoreDemo.demo_core).2 = true.
Proof.
  pose proof (eval_need_spec CoreDemo.demo_cenv 5000 1 CoreDemo.demo_core) as H. cbv zeta in H.
  destruct (eval_need CoreDemo.demo_cenv 5000 1 CoreDemo.demo_core) as [s' wake].
  destruct H as (_ & _ & _ & H & _).
  - done.
  - reflexivity.
  - done.
  - done.
  - done.
  - done.
  - apply H. reflexivity.
Defined.

End Deciding.
