(* ===== verification/Boost.v ===== *)
(** * Scheduler boost

    Entities ask for boosts and give them back; every boost type is counted, and the
    type of highest priority that is asked for is in effect. Entering and leaving a
    boost raises and lowers the boost of core control and switches frequency
    aggregation. Models [boost.c], and [task_sched_boost], [task_placement_boost_enabled]
    and [task_boost_policy] of [walt.h]. Core control is used through the interface
    [CoreBoost], which [CoreCtl] implements. *)

From Stdlib Require Import ZArith Lia ZifyBool Bool.
From stdpp Require Import base list.
From S2P Require Import Prelude WaltTypes Cpumask SmartFreq Halt CoreCtl.

(** ** Constants *)

Definition NO_BOOST : Z := 0.
Definition FULL_THROTTLE_BOOST : Z := 1.
Definition CONSERVATIVE_BOOST : Z := 2.
Definition RESTRAINED_BOOST : Z := 3.
Definition STORAGE_BOOST : Z := 4.
Definition BALANCE_BOOST : Z := 5.
Definition BALANCE_BOOST_DISABLE : Z := -5.
Definition MAX_NUM_BOOST_TYPE : Z := 6.
Definition SCHED_BOOST_START : Z := 1.
Definition SCHED_BOOST_END : Z := 6.

(** ** What boost needs of core control

    [cb_level s i] is the number of boosts cluster [i] has; while core control is
    ready, a boost adds one to every cluster, and taking it back, when every cluster has
    one, removes it. *)
Class CoreBoost (S : Type) := {
  cb_ready : S -> Prop;
  cb_clusters : S -> Z;
  cb_level : S -> Z -> Z;
  cb_set_boost : bool -> S -> S * Z;
  cb_up : forall s,
    cb_ready s -> (forall i, 0 <= i < cb_clusters s -> 0 <= cb_level s i < 2 ^ 32 - 1) ->
    cb_ready (cb_set_boost true s).1 /\ cb_clusters (cb_set_boost true s).1 = cb_clusters s /\
    forall i, 0 <= i < cb_clusters s -> cb_level (cb_set_boost true s).1 i = cb_level s i + 1;
  cb_down : forall s,
    cb_ready s -> (forall i, 0 <= i < cb_clusters s -> 0 < cb_level s i < 2 ^ 32) ->
    cb_ready (cb_set_boost false s).1 /\ cb_clusters (cb_set_boost false s).1 = cb_clusters s /\
    forall i, 0 <= i < cb_clusters s -> cb_level (cb_set_boost false s).1 i = cb_level s i - 1
}.

Section Boost.
Context {S : Type} `{CB : CoreBoost S}.

(** [sched_boost_type], [boost_policy], [sysctl_sched_boost], [sched_boosts[].refcount],
    [sched_freq_aggr_en], and core control. *)
Record boost_state := mk_boost {
  b_type : Z;
  b_policy : sched_boost_policy;
  b_sysctl : Z;
  b_refcount : list Z;
  b_freq_aggr : bool;
  b_core : S
}.

#[local] Definition set_core (f : S -> S) (b : boost_state) : boost_state :=
  mk_boost (b_type b) (b_policy b) (b_sysctl b) (b_refcount b) (b_freq_aggr b) (f (b_core b)).
#[local] Definition set_refcount (l : list Z) (b : boost_state) : boost_state :=
  mk_boost (b_type b) (b_policy b) (b_sysctl b) l (b_freq_aggr b) (b_core b).

Definition core_ctl_boost (on : bool) (b : boost_state) : boost_state := set_core (fun s => (cb_set_boost on s).1) b.
Definition walt_enable_frequency_aggregation (enable : bool) (b : boost_state) : boost_state :=
  mk_boost (b_type b) (b_policy b) (b_sysctl b) (b_refcount b) enable (b_core b).

(** The [enter] and [exit] functions of [sched_boosts], by boost type. *)
Definition boost_switch (type : Z) (on : bool) (b : boost_state) : boost_state :=
  if type =? FULL_THROTTLE_BOOST then walt_enable_frequency_aggregation on (core_ctl_boost on b)
  else if type =? CONSERVATIVE_BOOST then b
  else if type =? RESTRAINED_BOOST then walt_enable_frequency_aggregation on b
  else if type =? STORAGE_BOOST then core_ctl_boost on b
  else if type =? BALANCE_BOOST then core_ctl_boost on b
  else b.
Definition boost_enter (type : Z) : boost_state -> boost_state := boost_switch type true.
Definition boost_exit (type : Z) : boost_state -> boost_state := boost_switch type false.

Definition set_boost_policy (hmp_capable : bool) (type : Z) : sched_boost_policy :=
  if (type =? NO_BOOST) || (type =? RESTRAINED_BOOST) then SCHED_BOOST_NONE
  else if hmp_capable then SCHED_BOOST_ON_BIG else SCHED_BOOST_ON_ALL.

Definition verify_boost_params (type : Z) : bool := (BALANCE_BOOST_DISABLE <=? type) && (type <=? BALANCE_BOOST).

Definition sched_effective_boost (refcount : list Z) : Z :=
  match for_range SCHED_BOOST_START (Z.to_nat (SCHED_BOOST_END - SCHED_BOOST_START))
          (fun i r => match r with
                      | Some _ => r
                      | None => if 1 <=? aget refcount i then Some i else None
                      end) None with
  | Some i => i
  | None => NO_BOOST
  end.

Definition sched_boost_disable (type : Z) (b : boost_state) : boost_state :=
  let prev_boost := b_type b in
  if aget (b_refcount b) type <=? 0 then b else
  let b := set_refcount (aset (b_refcount b) type (s32 (aget (b_refcount b) type - 1))) b in
  if negb (aget (b_refcount b) type =? 0) then b else
  let next_boost := sched_effective_boost (b_refcount b) in
  if next_boost =? prev_boost then b else boost_enter next_boost (boost_exit prev_boost b).

Definition sched_boost_enable (type : Z) (b : boost_state) : boost_state :=
  let prev_boost := b_type b in
  let b := set_refcount (aset (b_refcount b) type (s32 (aget (b_refcount b) type + 1))) b in
  if negb (aget (b_refcount b) type =? 1) then b else
  let next_boost := sched_effective_boost (b_refcount b) in
  if next_boost =? prev_boost then b else boost_enter next_boost (boost_exit prev_boost b).

Definition sched_boost_disable_all (b : boost_state) : boost_state :=
  let prev_boost := b_type b in
  if negb (prev_boost =? NO_BOOST) then
    let b := boost_exit prev_boost b in
    set_refcount (for_range SCHED_BOOST_START (Z.to_nat (SCHED_BOOST_END - SCHED_BOOST_START))
                    (fun i l => aset l i 0) (b_refcount b)) b
  else b.

Definition _sched_set_boost (hmp_capable : bool) (type : Z) (b : boost_state) : boost_state :=
  let b := if type =? 0 then sched_boost_disable_all b
           else if 0 <? type then sched_boost_enable type b
           else sched_boost_disable (- type) b in
  let t := sched_effective_boost (b_refcount b) in
  mk_boost t (set_boost_policy hmp_capable t) t (b_refcount b) (b_freq_aggr b) (b_core b).

Definition sched_set_boost (walt_disabled hmp_capable : bool) (type : Z) (b : boost_state) : boost_state * Z :=
  if walt_disabled then (b, - EAGAIN) else
  if verify_boost_params type then (_sched_set_boost hmp_capable type b, 0) else (b, - EINVAL).

Definition walt_boost_init (walt_disabled hmp_capable : bool) (b : boost_state) : boost_state :=
  (sched_set_boost walt_disabled hmp_capable FULL_THROTTLE_BOOST b).1.

(** [proc_dointvec_minmax] is a parameter: its return value and, on a write, the value
    it stored in [sysctl_sched_boost]. *)
Definition sched_boost_handler (hmp_capable : bool) (ret : Z) (write : option Z) (b : boost_state) : boost_state * Z :=
  match write with
  | None => (b, ret)
  | Some data =>
      let b := mk_boost (b_type b) (b_policy b) data (b_refcount b) (b_freq_aggr b) (b_core b) in
      if negb (ret =? 0) then (b, ret) else
      if verify_boost_params (s32 data) then (_sched_set_boost hmp_capable (s32 data) b, ret) else (b, - EINVAL)
  end.

End Boost.
Arguments boost_state : clear implicits.

(** ** Task groups and the boost of a task *)

(** [struct walt_task_group]; [tg_boost] is [sched_boost_enable] by type. *)
Inductive sched_cgroup_type : Set :=
| ANDROID_CGROUP_OTHER | ANDROID_CGROUP_TOPAPP | ANDROID_CGROUP_FOREGROUND | ANDROID_CGROUP_BACKGROUND
| ANDROID_CGROUPS.
Record walt_task_group := mk_tg { tg_colocate : bool; tg_boost : list bool; tg_type : sched_cgroup_type }.

Definition walt_init_tg : walt_task_group :=
  mk_tg false [false; true; false; false; true; false] ANDROID_CGROUP_OTHER.
Definition walt_init_topapp_tg (conservative_topapp : bool) : walt_task_group :=
  mk_tg true [false; true; conservative_topapp; false; true; true] ANDROID_CGROUP_TOPAPP.
Definition walt_init_foreground_tg (conservative_fg : bool) : walt_task_group :=
  mk_tg false [false; true; conservative_fg; false; true; true] ANDROID_CGROUP_FOREGROUND.
Definition walt_init_background_tg : walt_task_group :=
  mk_tg false [false; true; false; false; true; false] ANDROID_CGROUP_BACKGROUND.

(** [tg] is the group of the task, [None] without a css. *)
Definition task_sched_boost (boost_type : Z) (tg : option walt_task_group) : bool :=
  if boost_type =? FULL_THROTTLE_BOOST then true else
  match tg with
  | None => false
  | Some g => nth (Z.to_nat boost_type) (tg_boost g) false
  end.

Definition task_placement_boost_enabled (policy : sched_boost_policy) (boost_type : Z) (tg : option walt_task_group) : bool :=
  match policy with SCHED_BOOST_NONE => false | _ => task_sched_boost boost_type tg end.

(** [low_latency] is [walt_pipeline_low_latency_task], [min_util] the threshold
    [sysctl_sched_min_task_util_for_boost]. *)
Definition task_boost_policy (c : walt_cfg) (policy : sched_boost_policy) (tg : option walt_task_group)
    (util min_util : Z) (low_latency : bool) : sched_boost_policy :=
  match policy with
  | SCHED_BOOST_NONE => SCHED_BOOST_NONE
  | _ =>
      let policy := if task_sched_boost (sched_boost_type c) tg then policy else SCHED_BOOST_NONE in
      match policy with
      | SCHED_BOOST_ON_BIG =>
          let policy := if (sched_boost_type c =? CONSERVATIVE_BOOST) && (util <=? min_util) &&
                           negb (pipeline_in_progress c && low_latency)
                        then SCHED_BOOST_NONE else policy in
          if (sched_boost_type c =? BALANCE_BOOST) && (util <=? min_util) then SCHED_BOOST_NONE else policy
      | _ => policy
      end
  end.

(** ** The boost in effect *)

Module Boosting.

Definition is_boost (t : Z) : Prop := SCHED_BOOST_START <= t < SCHED_BOOST_END.

(** The boosts that raise core control, and those that aggregate frequencies. *)
Definition raises_core (t : Z) : bool :=
  (t =? FULL_THROTTLE_BOOST) || (t =? STORAGE_BOOST) || (t =? BALANCE_BOOST).
Definition aggregates (t : Z) : bool := (t =? FULL_THROTTLE_BOOST) || (t =? RESTRAINED_BOOST).

(** Outstanding requests of a type after a sequence of valid ones: an enable adds one,
    a disable takes one back if there is one, 0 takes all back. *)
Definition wants_step (t : Z) (n r : Z) : Z :=
  if r =? 0 then 0 else if r =? t then n + 1 else if r =? - t then Z.max 0 (n - 1) else n.
Definition wants (l : list Z) (t : Z) : Z := fold_left (wants_step t) (filter (fun r => verify_boost_params r = true) l) 0.

(** [t] is the boost of highest priority among the wanted ones. *)
Definition effective (w : Z -> Z) (t : Z) : Prop :=
  (is_boost t /\ 1 <= w t /\ forall u, is_boost u -> u < t -> w u < 1) \/
  (t = NO_BOOST /\ forall u, is_boost u -> w u < 1).

Lemma effective_unique w t u : effective w t -> effective w u -> t = u.
Proof.
  intros [(A1 & A2 & A3)|(-> & A)] [(B1 & B2 & B3)|(-> & B)].
  - destruct (Z.lt_total t u) as [H|[H|H]]; [|done|].
    + specialize (B3 t A1 H). lia.
    + specialize (A3 u B1 H). lia.
  - specialize (B t A1). lia.
  - specialize (A u B1). lia.
  - done.
Qed.

Lemma effective_boost_spec l : effective (aget l) (sched_effective_boost l).
Proof.
  unfold sched_effective_boost.
  pose (P := fun n (r : option Z) => match r with
    | Some i => is_boost i /\ 1 <= aget l i /\ forall u, is_boost u -> u < i -> aget l u < 1
    | None => forall u, is_boost u -> u < n -> aget l u < 1 end).
  match goal with |- context [for_range _ ?k ?f ?x] =>
    assert (P (SCHED_BOOST_START + Z.of_nat k) (for_range SCHED_BOOST_START k f x)) as H end.
  { apply for_range_ind; [intros u [Hu _]; lia|]. intros i [r|] Hi HP; [done|].
    destruct (Z.leb_spec 1 (aget l i)) as [H1|H1].
    - split; [exact Hi|]. split; [done|]. intros u Hu Hlt. by apply HP.
    - intros u Hu Hlt. destruct (Z.eq_dec u i) as [->|]; [lia|]. apply HP; [done|lia]. }
  destruct (for_range _ _ _ _) as [i|]; [by left|]. right. split; [done|]. intros u Hu. apply H; [done|]. apply Hu.
Qed.

Section Runs.
Context {S : Type} `{CB : CoreBoost S} (hmp : bool) (base : Z -> Z) (clusters : Z).

(** Core control has the boosts it had before, and one more when [up]. *)
Definition level_is (up : bool) (s : S) : Prop :=
  cb_ready s /\ cb_clusters s = clusters /\ forall i, 0 <= i < clusters -> cb_level s i = base i + Z.b2z up.

Record boost_ok (n : Z) (b : boost_state S) : Prop := mk_bok {
  bo_length : length (b_refcount b) = Z.to_nat MAX_NUM_BOOST_TYPE;
  bo_count : forall t, is_boost t -> 0 <= aget (b_refcount b) t <= n;
  bo_type : effective (aget (b_refcount b)) (b_type b);
  bo_aggr : b_freq_aggr b = aggregates (b_type b);
  bo_core : level_is (raises_core (b_type b)) (b_core b)
}.

Hypothesis Hbase : forall i, 0 <= i < clusters -> 0 <= base i < 2 ^ 32 - 2.

Lemma level_up s : level_is false s -> level_is true (cb_set_boost true s).1.
Proof.
  intros (H1 & H2 & H3). cbn [Z.b2z] in H3. destruct (cb_up s H1) as (A1 & A2 & A3).
  { rewrite H2. intros i Hi. rewrite H3 by done. specialize (Hbase i Hi). lia. }
  split; [done|]. split; [by rewrite A2|]. intros i Hi. rewrite A3, H3 by (by rewrite ?H2). cbn. lia.
Qed.

Lemma level_down s : level_is true s -> level_is false (cb_set_boost false s).1.
Proof.
  intros (H1 & H2 & H3). cbn [Z.b2z] in H3. destruct (cb_down s H1) as (A1 & A2 & A3).
  { rewrite H2. intros i Hi. rewrite H3 by done. specialize (Hbase i Hi). lia. }
  split; [done|]. split; [by rewrite A2|]. intros i Hi. rewrite A3, H3 by (by rewrite ?H2). cbn. lia.
Qed.

(** Leaving or entering a boost. *)
Lemma switch_spec t on b :
  is_boost t \/ t = NO_BOOST ->
  let b' := boost_switch t on b in
  b_type b' = b_type b /\ b_refcount b' = b_refcount b /\
  b_freq_aggr b' = (if aggregates t then on else b_freq_aggr b) /\
  b_core b' = (if raises_core t then (cb_set_boost on (b_core b)).1 else b_core b).
Proof.
  intros Ht. assert (t = 0 \/ t = 1 \/ t = 2 \/ t = 3 \/ t = 4 \/ t = 5) as H
    by (unfold is_boost, SCHED_BOOST_START, SCHED_BOOST_END, NO_BOOST in Ht; lia).
  by destruct H as [->|[->|[->|[->|[->| ->]]]]].
Qed.

Lemma effective_range w t : effective w t -> is_boost t \/ t = NO_BOOST.
Proof. intros [(H & _)|(H & _)]; auto. Qed.

Lemma exit_spec b :
  is_boost (b_type b) \/ b_type b = NO_BOOST -> b_freq_aggr b = aggregates (b_type b) ->
  level_is (raises_core (b_type b)) (b_core b) ->
  let b' := boost_exit (b_type b) b in
  b_refcount b' = b_refcount b /\ b_freq_aggr b' = false /\ level_is false (b_core b').
Proof.
  intros Ht Ha Hl. destruct (switch_spec (b_type b) false b Ht) as (_ & S2 & S3 & S4). cbv zeta in *.
  unfold boost_exit. rewrite S2, S3, S4. split; [done|]. split; [rewrite Ha; by destruct (aggregates (b_type b))|].
  destruct (raises_core (b_type b)); [by apply level_down|done].
Qed.

(** The part of [sched_boost_enable] and [sched_boost_disable] after the count changed. *)
Definition reselect (prev : Z) (b : boost_state S) : boost_state S :=
  let next := sched_effective_boost (b_refcount b) in
  if next =? prev then b else boost_enter next (boost_exit prev b).

Lemma reselect_spec b :
  is_boost (b_type b) \/ b_type b = NO_BOOST -> b_freq_aggr b = aggregates (b_type b) ->
  level_is (raises_core (b_type b)) (b_core b) ->
  let b' := reselect (b_type b) b in
  let t := sched_effective_boost (b_refcount b') in
  b_refcount b' = b_refcount b /\ b_freq_aggr b' = aggregates t /\ level_is (raises_core t) (b_core b').
Proof.
  intros Ht Ha Hl. cbv zeta. unfold reselect.
  destruct (Z.eqb_spec (sched_effective_boost (b_refcount b)) (b_type b)) as [E|E]; [by rewrite E|].
  destruct (exit_spec b Ht Ha Hl) as (E1 & E2 & E3). cbv zeta in *.
  set (b1 := boost_exit (b_type b) b) in *. clearbody b1.
  set (t := sched_effective_boost (b_refcount b)).
  assert (is_boost t \/ t = NO_BOOST) as Ht' by (eapply effective_range, effective_boost_spec).
  destruct (switch_spec t true b1 Ht') as (_ & S2 & S3 & S4). cbv zeta in *. fold (boost_enter t b1) in *.
  rewrite S2, E1. fold t. split; [done|]. rewrite S3, S4, E2. split; [by destruct (aggregates t)|].
  destruct (raises_core t); [by apply level_up|done].
Qed.

(** Settling the type after a change. *)
Lemma settle n b :
  length (b_refcount b) = Z.to_nat MAX_NUM_BOOST_TYPE ->
  (forall t, is_boost t -> 0 <= aget (b_refcount b) t <= n) ->
  let t := sched_effective_boost (b_refcount b) in
  b_freq_aggr b = aggregates t -> level_is (raises_core t) (b_core b) ->
  boost_ok n (mk_boost t (set_boost_policy hmp t) t (b_refcount b) (b_freq_aggr b) (b_core b)).
Proof. intros. constructor; try done. apply effective_boost_spec. Qed.

(** When a count changes without crossing 1, the effective boost is the same. *)
Lemma same_effective l l' t :
  effective (aget l) t -> (forall u, is_boost u -> aget l' u < 1 <-> aget l u < 1) -> sched_effective_boost l' = t.
Proof.
  intros He Hu. apply (effective_unique (aget l')); [apply effective_boost_spec|].
  destruct He as [(H1 & H2 & H3)|(-> & H)].
  - left. split; [done|]. split; [specialize (Hu t H1); lia|]. intros u Hu' Hlt. apply Hu; [done|]. by apply H3.
  - right. split; [done|]. intros u Hu'. apply Hu; [done|]. by apply H.
Qed.

Lemma counts_set l t v : is_boost t -> length l = Z.to_nat MAX_NUM_BOOST_TYPE ->
  forall u, is_boost u -> aget (aset l t v) u = if t =? u then v else aget l u.
Proof.
  intros Ht Hl u Hu. unfold is_boost, SCHED_BOOST_START, SCHED_BOOST_END, MAX_NUM_BOOST_TYPE in *.
  apply aget_aset; lia.
Qed.


(** A change of one count across 1 reselects; any other keeps the boost. *)
Lemma count_step n b t v (crosses : bool) :
  boost_ok n b -> is_boost t -> 0 <= v <= n + 1 ->
  (crosses = false -> v < 1 <-> aget (b_refcount b) t < 1) ->
  let b1 := mk_boost (b_type b) (b_policy b) (b_sysctl b) (aset (b_refcount b) t v) (b_freq_aggr b) (b_core b) in
  let b2 := if crosses then reselect (b_type b) b1 else b1 in
  let u := sched_effective_boost (b_refcount b2) in
  b_refcount b2 = aset (b_refcount b) t v /\
  boost_ok (n + 1) (mk_boost u (set_boost_policy hmp u) u (b_refcount b2) (b_freq_aggr b2) (b_core b2)).
Proof.
  intros [Hlen Hn Ht Ha Hc] Hb Hv Hx b1 b2 u. pose proof (effective_range _ _ Ht) as Hr.
  assert (b_refcount b2 = aset (b_refcount b) t v /\ b_freq_aggr b2 = aggregates u /\ level_is (raises_core u) (b_core b2)) as (E1 & E2 & E3).
  { destruct crosses; [by apply (reselect_spec b1)|]. split; [done|].
    assert (u = b_type b) as ->; [|done]. apply (same_effective (b_refcount b)); [done|].
    intros w Hw. cbn [b1 b2 b_refcount]. rewrite (counts_set _ t v Hb Hlen w Hw).
    destruct (Z.eqb_spec t w) as [->|]; [by apply Hx|done]. }
  split; [done|]. apply settle; try done.
  - rewrite E1, length_aset. done.
  - intros w Hw. rewrite E1, (counts_set _ t v Hb Hlen w Hw). destruct (t =? w); [lia|]. specialize (Hn w Hw). lia.
Qed.

Lemma zeroed l : length l = Z.to_nat MAX_NUM_BOOST_TYPE ->
  let l' := for_range SCHED_BOOST_START (Z.to_nat (SCHED_BOOST_END - SCHED_BOOST_START)) (fun i l => aset l i 0) l in
  length l' = length l /\ forall t, is_boost t -> aget l' t = 0.
Proof.
  intros Hl l'.
  pose proof (for_range_ind (fun k m => length m = length l /\ forall t, is_boost t -> t < k -> aget m t = 0)
    SCHED_BOOST_START (Z.to_nat (SCHED_BOOST_END - SCHED_BOOST_START)) (fun i l => aset l i 0) l) as H.
  cbv beta in H. destruct H as [H1 H2].
  - split; [done|]. intros t [Ht _] Hlt. lia.
  - intros i m Hi (H1 & H2). rewrite length_aset. split; [done|]. intros t Ht Hlt.
    rewrite counts_set by (try done; congruence). destruct (Z.eqb_spec i t); [done|]. apply H2; [done|lia].
  - split; [exact H1|]. intros t Ht. apply H2; [done|apply Ht].
Qed.

(** What one request does: it is settled, and each type is wanted as often as it says. *)
Definition step_ok (n : Z) (b : boost_state S) (r : Z) (b1 : boost_state S) : Prop :=
  let u := sched_effective_boost (b_refcount b1) in
  boost_ok (n + 1) (mk_boost u (set_boost_policy hmp u) u (b_refcount b1) (b_freq_aggr b1) (b_core b1)) /\
  forall t, is_boost t -> aget (b_refcount b1) t = wants_step t (aget (b_refcount b) t) r.

Lemma disable_all_step n b : boost_ok n b -> 0 <= n -> step_ok n b 0 (sched_boost_disable_all b).
Proof.
  intros Hok Hn. pose proof Hok as [Hlen Hc Ht Ha Hl]. unfold step_ok, wants_step, sched_boost_disable_all. change (0 =? 0) with true. cbv iota.
  destruct (Z.eqb_spec (b_type b) NO_BOOST) as [E|E]; cbn [negb].
  - destruct Ht as [(H & _)|(_ & H)]; [unfold is_boost, SCHED_BOOST_START, NO_BOOST in *; lia|].
    assert (sched_effective_boost (b_refcount b) = b_type b) as E'
      by (apply (same_effective (b_refcount b)); [by right|done]).
    split; [apply settle; try done; [|by rewrite E'..]|]; intros t Ht; specialize (Hc t Ht); specialize (H t Ht); lia.
  - destruct (exit_spec b (effective_range _ _ Ht) Ha Hl) as (E1 & E2 & E3). cbv zeta in *.
    set (b1 := boost_exit (b_type b) b) in *. clearbody b1. destruct (zeroed (b_refcount b1)) as (Z1 & Z2); [congruence|].
    cbv zeta in *. set (l := for_range _ _ _ (b_refcount b1)) in *. clearbody l.
    assert (sched_effective_boost l = NO_BOOST) as E'.
    { apply (effective_unique (aget l)); [apply effective_boost_spec|]. right. split; [done|].
      intros u Hu. rewrite Z2 by done. lia. }
    split; [|intros t Ht'; cbn [b_refcount set_refcount]; by apply Z2].
    apply settle; cbn [b_refcount b_freq_aggr b_core set_refcount]; [congruence| |by rewrite E'..].
    intros t Ht'. rewrite Z2 by done. lia.
Qed.

(** A request that sets the count of [t] to [v]. *)
Lemma count_step_ok n b r t v (crosses : bool) :
  boost_ok n b -> is_boost t -> 0 <= v <= n + 1 -> r = t \/ r = - t -> v = wants_step t (aget (b_refcount b) t) r ->
  (crosses = false -> v < 1 <-> aget (b_refcount b) t < 1) ->
  let b1 := mk_boost (b_type b) (b_policy b) (b_sysctl b) (aset (b_refcount b) t v) (b_freq_aggr b) (b_core b) in
  step_ok n b r (if crosses then reselect (b_type b) b1 else b1).
Proof.
  intros Hok Hb Hv Hr Hw Hx b1. destruct (count_step n b t v crosses Hok Hb Hv Hx) as (H1 & H2). cbv zeta in *. fold b1 in H1, H2.
  split; [exact H2|]. intros u Hu. rewrite H1, (counts_set _ t v Hb (bo_length _ _ Hok) u Hu).
  destruct (Z.eqb_spec t u) as [->|Hne]; [done|]. unfold wants_step.
  destruct Hb as [Hb _], Hu as [Hu _]. unfold SCHED_BOOST_START in *.
  destruct (Z.eqb_spec r 0); [lia|]. destruct (Z.eqb_spec r u); [lia|]. destruct (Z.eqb_spec r (- u)); [lia|done].
Qed.

Lemma enable_step n b r :
  boost_ok n b -> 0 <= n < 2 ^ 31 - 1 -> is_boost r -> step_ok n b r (sched_boost_enable r b).
Proof.
  intros Hok Hn Hb. pose proof (bo_count _ _ Hok r Hb) as Hcr. pose proof (bo_length _ _ Hok) as Hlen.
  unfold sched_boost_enable. cbn [b_refcount set_refcount]. rewrite s32_small by lia.
  rewrite (counts_set _ r _ Hb Hlen r Hb), Z.eqb_refl.
  pose proof (count_step_ok n b r r (aget (b_refcount b) r + 1) (aget (b_refcount b) r + 1 =? 1) Hok Hb) as H.
  cbv zeta in H. unfold reselect, set_refcount in *. cbn [b_refcount] in *.
  destruct (aget (b_refcount b) r + 1 =? 1) eqn:E; cbn [negb] in *; apply H; try lia; auto;
    unfold wants_step; rewrite Z.eqb_refl; destruct Hb as [Hb _]; unfold SCHED_BOOST_START in *;
    (destruct (Z.eqb_spec r 0); [lia|done]).
Qed.

Lemma disable_step n b t :
  boost_ok n b -> 0 <= n < 2 ^ 31 - 1 -> is_boost t -> step_ok n b (- t) (sched_boost_disable t b).
Proof.
  intros Hok Hn Hb. pose proof (bo_count _ _ Hok t Hb) as Hcr. pose proof (bo_length _ _ Hok) as Hlen.
  assert (wants_step t (aget (b_refcount b) t) (- t) = Z.max 0 (aget (b_refcount b) t - 1)) as Hw.
  { unfold wants_step. destruct Hb as [Hb _]. unfold SCHED_BOOST_START in *.
    destruct (Z.eqb_spec (- t) 0); [lia|]. destruct (Z.eqb_spec (- t) t); [lia|]. by rewrite Z.eqb_refl. }
  unfold sched_boost_disable. destruct (Z.leb_spec (aget (b_refcount b) t) 0) as [H0|H0].
  - pose proof (count_step_ok n b (- t) t 0 false Hok Hb) as H. cbv zeta in H.
    assert (aset (b_refcount b) t 0 = b_refcount b) as Es.
    { unfold aset. apply list_insert_id. assert (aget (b_refcount b) t = 0) as E0 by lia. unfold aget in E0.
      unfold is_boost, SCHED_BOOST_START, SCHED_BOOST_END, MAX_NUM_BOOST_TYPE in *.
      rewrite nth_lookup in E0. destruct (b_refcount b !! Z.to_nat t) eqn:E; [by cbn in E0; subst|].
      apply lookup_ge_None in E. lia. }
    rewrite Es in H. destruct b. apply H; try done; auto; lia.
  - cbn [b_refcount set_refcount]. rewrite s32_small by lia. rewrite (counts_set _ t _ Hb Hlen t Hb), Z.eqb_refl.
    pose proof (count_step_ok n b (- t) t (aget (b_refcount b) t - 1) (aget (b_refcount b) t - 1 =? 0) Hok Hb) as H.
    cbv zeta in H. unfold reselect, set_refcount in *. cbn [b_refcount] in *.
    destruct (aget (b_refcount b) t - 1 =? 0) eqn:E; cbn [negb] in *; apply H; auto; lia.
Qed.

Lemma set_boost_step n b r :
  boost_ok n b -> 0 <= n < 2 ^ 31 - 1 -> verify_boost_params r = true ->
  let b' := _sched_set_boost hmp r b in
  boost_ok (n + 1) b' /\ forall t, is_boost t -> aget (b_refcount b') t = wants_step t (aget (b_refcount b) t) r.
Proof.
  intros Hok Hn Hr. unfold verify_boost_params, BALANCE_BOOST_DISABLE, BALANCE_BOOST in Hr.
  unfold _sched_set_boost. destruct (Z.eqb_spec r 0) as [->|H0]; [apply disable_all_step; [done|lia]|].
  assert (is_boost (Z.abs r)) as Hb by (unfold is_boost, SCHED_BOOST_START, SCHED_BOOST_END; lia).
  destruct (Z.ltb_spec 0 r) as [Hp|Hp].
  - apply enable_step; [done..|]. by rewrite Z.abs_eq in Hb by lia.
  - rewrite Z.abs_neq in Hb by lia. pose proof (disable_step n b (- r) Hok Hn Hb) as H. by rewrite Z.opp_involutive in H.
Qed.

Definition settled (n : Z) (b : boost_state S) : Prop :=
  boost_ok n b /\ b_sysctl b = b_type b /\ b_policy b = set_boost_policy hmp (b_type b).

(** Requests made one after the other; those that are refused change nothing. *)
Fixpoint requests (l : list Z) (b : boost_state S) : boost_state S :=
  match l with
  | [] => b
  | r :: l => requests l (sched_set_boost false hmp r b).1
  end.

Lemma settled_mono n m b : settled n b -> n <= m -> settled m b.
Proof.
  intros ([Hlen Hc Ht Ha Hl] & H) Hm. split; [|done]. constructor; try done. intros t Hb. specialize (Hc t Hb). lia.
Qed.

Lemma request_step n b r :
  settled n b -> 0 <= n < 2 ^ 31 - 1 ->
  let b' := (sched_set_boost false hmp r b).1 in
  settled (n + 1) b' /\ forall t, is_boost t ->
    aget (b_refcount b') t = if verify_boost_params r then wants_step t (aget (b_refcount b) t) r else aget (b_refcount b) t.
Proof.
  intros Hs Hn b'. unfold b', sched_set_boost. destruct (verify_boost_params r) eqn:E; cbn [fst].
  - destruct (set_boost_step n b r (proj1 Hs) Hn E) as (H1 & H2). split; [|exact H2]. by split.
  - split; [|done]. apply (settled_mono n); [done|lia].
Qed.

Lemma requests_spec l : forall n b,
  settled n b -> 0 <= n -> n + Z.of_nat (length l) < 2 ^ 31 ->
  settled (n + Z.of_nat (length l)) (requests l b) /\ forall t, is_boost t ->
    aget (b_refcount (requests l b)) t =
    fold_left (wants_step t) (filter (fun r => verify_boost_params r = true) l) (aget (b_refcount b) t).
Proof.
  induction l as [|r l IH]; intros n b Hs Hn Hl; cbn [length requests] in *.
  - split; [apply (settled_mono n); [done|lia]|]. done.
  - destruct (request_step n b r Hs) as (H1 & H2); [lia|]. cbv zeta in *.
    destruct (IH (n + 1) _ H1) as (H3 & H4); [lia..|].
    split; [by replace (n + Z.of_nat (Datatypes.S (length l))) with (n + 1 + Z.of_nat (length l)) by lia|].
    intros t Ht. rewrite H4, H2 by done. rewrite filter_cons.
    destruct (verify_boost_params r) eqn:E; [|by rewrite decide_False by done].
    by rewrite decide_True by done.
Qed.

End Runs.

(** [b] is as it is at boot: no boost, and core control ready with room to count boosts. *)
Record booted {S} `{CoreBoost S} (b : boost_state S) : Prop := mk_booted {
  bt_type : b_type b = NO_BOOST;
  bt_policy : b_policy b = SCHED_BOOST_NONE;
  bt_sysctl : b_sysctl b = NO_BOOST;
  bt_count : b_refcount b = [0; 0; 0; 0; 0; 0];
  bt_aggr : b_freq_aggr b = false;
  bt_ready : cb_ready (b_core b);
  bt_level : forall i, 0 <= i < cb_clusters (b_core b) -> 0 <= cb_level (b_core b) i < 2 ^ 32 - 2
}.

Lemma booted_settled {S} `{CoreBoost S} hmp (b : boost_state S) :
  booted b -> settled hmp (cb_level (b_core b)) (cb_clusters (b_core b)) 0 b.
Proof.
  intros [H1 H2 H3 H4 H5 H6 H7]. unfold settled. rewrite H1, H2, H3. split; [|done].
  assert (forall t, is_boost t -> aget (b_refcount b) t = 0) as Hz.
  { intros t [Ht1 Ht2]. rewrite H4. unfold SCHED_BOOST_START, SCHED_BOOST_END in *.
    assert (t = 1 \/ t = 2 \/ t = 3 \/ t = 4 \/ t = 5) as Hc by lia. by destruct Hc as [->|[->|[->|[->| ->]]]]. }
  constructor.
  - by rewrite H4.
  - intros t Ht. rewrite Hz by done. lia.
  - rewrite H1. right. split; [done|]. intros u Hu. rewrite Hz by done. lia.
  - by rewrite H1, H5.
  - rewrite H1. split; [done|]. split; [done|]. intros i Hi. change (Z.b2z (raises_core NO_BOOST)) with 0. lia.
Qed.

(** C17. After any sequence of boost requests made since boot (enables, disables, and
    requests to drop everything; out-of-range ones are refused), the boost in effect is
    the one of highest priority that is still wanted; the value user space reads and the
    placement policy are those of that boost; frequency aggregation is on exactly for
    full throttle and restrained boost; and core control holds exactly one boost more than
    at boot while full throttle, storage or balance boost is in effect, and none more
    otherwise: no enter or exit is ever lost or repeated. *)
Theorem boost_follows_requests {S} `{CoreBoost S} (hmp : bool) (b : boost_state S) (l : list Z) :
  booted b -> Z.of_nat (length l) < 2 ^ 31 ->
  let b' := requests hmp l b in
  effective (wants l) (b_type b') /\
  b_sysctl b' = b_type b' /\ b_policy b' = set_boost_policy hmp (b_type b') /\
  b_freq_aggr b' = aggregates (b_type b') /\
  cb_clusters (b_core b') = cb_clusters (b_core b) /\
  forall i, 0 <= i < cb_clusters (b_core b) ->
    cb_level (b_core b') i = cb_level (b_core b) i + Z.b2z (raises_core (b_type b')).
Proof.
  intros Hb Hl b'. pose proof (booted_settled hmp b Hb) as Hs.
  destruct (requests_spec hmp _ _ (bt_level _ Hb) l 0 b Hs) as (([Hlen Hc Ht Ha Hk] & H1 & H2) & H3); [lia..|].
  fold b' in Hlen, Hc, Ht, Ha, Hk, H1, H2, H3. destruct Hk as (_ & K1 & K2). split_and!; try done.
  assert (forall t, is_boost t -> aget (b_refcount b') t = wants l t) as He.
  { intros t Ht'. rewrite H3 by done. unfold wants. f_equal. rewrite (bt_count _ Hb).
    destruct Ht' as [T1 T2]. unfold SCHED_BOOST_START, SCHED_BOOST_END in *.
    assert (t = 1 \/ t = 2 \/ t = 3 \/ t = 4 \/ t = 5) as Hx by lia. by destruct Hx as [->|[->|[->|[->| ->]]]]. }
  destruct Ht as [(E1 & E2 & E3)|(E1 & E2)]; [left|right]; rewrite <- ?He by done; (split; [done|]).
  - split; [done|]. intros u Hu Hlt. rewrite <- He by done. by apply E3.
  - intros u Hu. rewrite <- He by done. by apply E2.
Qed.

(** ** Core control implements the interface *)

(** Same clusters with the same boosts. *)
Definition same_boosts (s t : core_sys) : Prop :=
  n_clusters t = n_clusters s /\ y_initialized t = y_initialized s /\
  forall i, 0 <= i -> cc_boost (cdata t i) = cc_boost (cdata s i).

#[local] Instance same_boosts_preorder : PreOrder same_boosts.
Proof.
  split; [done|]. intros s t u (A1 & A2 & A3) (B1 & B2 & B3). split; [congruence|]. split; [congruence|].
  intros i Hi. by rewrite B3, A3.
Qed.

Lemma set_cdata_boosts i f s : 0 <= i ->
  n_clusters (set_cdata i f s) = n_clusters s /\ y_initialized (set_cdata i f s) = y_initialized s /\
  forall j, 0 <= j -> cdata (set_cdata i f s) j = if (i =? j) && (i <? n_clusters s) then f (cdata s i) else cdata s j.
Proof.
  intros Hi. split; [unfold n_clusters, set_cdata; cbn; by rewrite length_insert|]. split; [done|].
  intros j Hj. unfold cdata, set_cdata. cbn. rewrite !nth_lookup. unfold n_clusters.
  destruct (Z.eqb_spec i j) as [->|Hne]; cbn [andb].
  - destruct (Z.ltb_spec j (Z.of_nat (length (y_clusters s)))) as [H|H]; [rewrite list_lookup_insert_eq by lia; unfold cdata; by rewrite nth_lookup|].
    by rewrite list_insert_ge by lia.
  - by rewrite list_lookup_insert_ne by lia.
Qed.

Lemma same_boosts_set i f s :
  0 <= i -> cc_boost (f (cdata s i)) = cc_boost (cdata s i) -> same_boosts s (set_cdata i f s).
Proof.
  intros Hi Hf. destruct (set_cdata_boosts i f s Hi) as (E1 & E2 & E3). split; [done|]. split; [done|].
  intros j Hj. rewrite E3 by done. destruct (Z.eqb_spec i j) as [->|]; [|done]. by destruct (_ <? _).
Qed.

Lemma param_changed_boosts e i s : 0 <= i -> same_boosts s (sysfs_param_changed e i s).
Proof.
  intros Hi. unfold sysfs_param_changed.
  assert (same_boosts s (eval_need e (ce_clock e) i s).1) as H.
  { unfold eval_need. repeat case_if; try done; by apply same_boosts_set. }
  destruct (eval_need e (ce_clock e) i s) as [t wake]. case_if; [|done]. exact H.
Qed.

(** [core_ctl_set_boost] on clusters that can all change by one. *)
Lemma core_ctl_set_boost_levels e on s d :
  walt_disabled (ce_halt e) = false -> y_initialized s = true ->
  (forall i c, 0 <= i < n_clusters s -> cc_boost c = cc_boost (cdata s i) -> cc_boost (set_cluster_boost on c).1.1 = cc_boost c + d) ->
  let s' := (core_ctl_set_boost e on s).1 in
  n_clusters s' = n_clusters s /\ y_initialized s' = true /\
  forall i, 0 <= i < n_clusters s -> cc_boost (cdata s' i) = cc_boost (cdata s i) + d.
Proof.
  intros Hw Hi Hd. unfold core_ctl_set_boost, for_each_cluster. rewrite Hw, Hi. cbn [negb].
  match goal with |- context [for_range 0 ?n ?f ?x] =>
    assert (let t := (for_range 0 n f x).1.1 in n_clusters t = n_clusters s /\ y_initialized t = true /\
      forall i, 0 <= i -> cc_boost (cdata t i) =
        if i <? 0 + Z.of_nat n then cc_boost (cdata s i) + d else cc_boost (cdata s i)) as H end.
  { apply (for_range_ind (fun k st => n_clusters st.1.1 = n_clusters s /\ y_initialized st.1.1 = true /\
      forall i, 0 <= i -> cc_boost (cdata st.1.1 i) = if i <? k then cc_boost (cdata s i) + d else cc_boost (cdata s i))).
    - split; [done|]. split; [done|]. intros i Hi'. destruct (Z.ltb_spec i 0); [lia|done].
    - intros k [[t r] ch] Hk (E1 & E2 & E3). cbn [fst] in *. rewrite Z2Nat.id in Hk by (unfold n_clusters; lia).
      assert (cc_boost (cdata t k) = cc_boost (cdata s k)) as Ek by (rewrite E3 by lia; destruct (Z.ltb_spec k k); [lia|done]).
      specialize (Hd k (cdata t k) ltac:(lia) Ek). destruct (set_cluster_boost on (cdata t k)) as [[c r'] ch']. cbn [fst] in *.
      destruct (set_cdata_boosts k (fun _ => c) t) as (S1 & S2 & S3); [lia|].
      split; [congruence|]. split; [congruence|]. intros j Hj. rewrite S3 by done. rewrite E1.
      destruct (Z.eqb_spec k j) as [->|Hne]; cbn [andb].
      + destruct (Z.ltb_spec j (n_clusters s)); [|lia]. destruct (Z.ltb_spec j (j + 1)); [|lia]. by rewrite Hd, Ek.
      + rewrite E3 by done. destruct (Z.ltb_spec j k), (Z.ltb_spec j (k + 1)); try lia; done. }
  destruct (for_range _ _ _ _) as [[t r] ch]. cbv zeta in H. cbn [fst] in H |- *. destruct H as (H1 & H2 & H3).
  assert (same_boosts t (if ch then for_range 0 (Z.to_nat (n_clusters t)) (sysfs_param_changed e) t else t)) as (B1 & B2 & B3).
  { destruct ch; [|done]. apply (for_range_ind (fun _ u => same_boosts t u)); [done|].
    intros i u Hi' Hu. etransitivity; [exact Hu|]. apply param_changed_boosts. lia. }
  split; [congruence|]. split; [congruence|]. intros i Hi'. rewrite B3, H3 by lia.
  rewrite Z2Nat.id by lia. destruct (Z.ltb_spec i (0 + n_clusters s)); [done|lia].
Qed.

#[export] Instance core_ctl_core_boost (e : core_env) : CoreBoost core_sys.
Proof.
  refine {| cb_ready s := walt_disabled (ce_halt e) = false /\ y_initialized s = true;
            cb_clusters := n_clusters; cb_level s i := cc_boost (cdata s i);
            cb_set_boost on s := core_ctl_set_boost e on s |}.
  - intros s (H1 & H2) Hl. destruct (core_ctl_set_boost_levels e true s 1 H1 H2) as (A1 & A2 & A3); [|by auto].
    intros i c Hi Hc. specialize (Hl i Hi). cbn. apply u32_small. lia.
  - intros s (H1 & H2) Hl. destruct (core_ctl_set_boost_levels e false s (-1) H1 H2) as (A1 & A2 & A3); [|by auto].
    intros i c Hi Hc. specialize (Hl i Hi). unfold set_cluster_boost.
    destruct (Z.eqb_spec (cc_boost c) 0); [lia|]. cbn. rewrite u32_small by lia. lia.
Defined.

Definition demo_boost : boost_state core_sys :=
  mk_boost NO_BOOST SCHED_BOOST_NONE NO_BOOST [0; 0; 0; 0; 0; 0] false CoreDemo.demo_core.

Lemma boost_follows_requests_witness :
  let b := requests (CB := core_ctl_core_boost CoreDemo.demo_cenv) true [5; 1; 7; -1; 3; 3; -3] demo_boost in
  effective (wants [5; 1; 7; -1; 3; 3; -3]) (b_type b) /\ b_type b = RESTRAINED_BOOST /\
  b_freq_aggr b = true /\ cc_boost (cdata (b_core b) 1) = 0.
Proof.
  destruct (boost_follows_requests (H := core_ctl_core_boost CoreDemo.demo_cenv) true demo_boost [5; 1; 7; -1; 3; 3; -3]) as (H & _).
  - constructor; try done. intros i Hi. change (0 <= i < 2) in Hi. assert (i = 0 \/ i = 1) as [-> | ->] by lia; vm_compute; split; congruence.
  - vm_compute. done.
  - split; [exact H|]. vm_compute. done.
Defined.

(** The exemption for pipeline tasks under conservative boost has no effect: a pipeline
    is never in progress while a boost is. *)
Lemma conservative_exemption_is_dead c policy tg util min_util low_latency :
  sched_boost_type c = CONSERVATIVE_BOOST ->
  task_boost_policy c policy tg util min_util low_latency = task_boost_policy c policy tg util min_util false.
Proof.
  intros E. unfold task_boost_policy, pipeline_in_progress. rewrite E. destruct policy; try done.
Qed.

End Boosting.
