(* ===== verification/Group.v ===== *)
(** * Related thread groups

    Tasks of a colocated cgroup form a group whose busy time is kept apart from that of
    the run queue, and whose combined demand decides whether the group skips the
    smallest cluster. A task that joins or leaves takes its busy time from the one
    account to the other. Models [transfer_busy_time], [update_best_cluster],
    [_set_preferred_cluster], [should_update_preferred_cluster],
    [remove_task_from_group], [add_task_to_group], [add_new_task_to_grp],
    [__sched_set_group_id] and the accessors of [walt.c]. *)

From Stdlib Require Import ZArith Lia ZifyBool Bool.
From stdpp Require Import base list.
From S2P Require Import Prelude WaltTypes TopTasks Stats Predict Window Busy Demand Ravg Migrate.
From S2P Require Import Cpumask SmartFreq Halt CoreCtl Boost.

(** ** Data *)

Definition ADD_TASK : Z := 0.
Definition REM_TASK : Z := 1.

(** [struct walt_related_thread_group]: [rg_tasks] are the ids of the tasks, the last
    added first; [rg_listed] is that the group is on [active_related_thread_groups]. *)
Record walt_related_thread_group := mk_rtg {
  rg_id : Z;
  rg_tasks : list Z;
  rg_listed : bool;
  rg_skip_min : bool;
  rg_last_update : Z;
  rg_downmigrate_ts : Z;
  rg_start_ktime_ts : Z
}.

(** Thresholds and tunables, and what the group reads of the other tasks: the task of
    an id, its cgroup and whether it is a low-latency pipeline task. [ge_trace] is that
    the tracepoint of the preferred cluster is on. *)
Record grp_env := mk_genv {
  sched_group_upmigrate : Z;
  sched_group_downmigrate : Z;
  sysctl_sched_coloc_downmigrate_ns : Z;
  sysctl_sched_hyst_min_coloc_ns : Z;
  sysctl_sched_min_task_util_for_boost : Z;
  is_suh_max : bool;
  hmp_capable : bool;
  ge_trace : bool;
  ge_task : Z -> task_struct;
  ge_tg : Z -> option walt_task_group;
  ge_low_latency : Z -> bool
}.

(** ** Busy time between a run queue and a group *)

(** The reports of [transfer_busy_time] on the counters [g] that give up [curr] and
    [prev]. *)
Definition transfer_checks (g : group_cpu_time) (curr prev : Z) (new_task : bool) (y : sys) : sys :=
  let y := y_emit_if (g_curr_runnable_sum g <? curr) (WALT_BUG bug_crs_underflow) y in
  let y := y_emit_if (g_prev_runnable_sum g <? prev) (WALT_BUG bug_prs_underflow) y in
  let y := y_emit_if (new_task && (g_nt_curr_runnable_sum g <? curr)) (WALT_BUG bug_nt_crs_underflow) y in
  y_emit_if (new_task && (g_nt_prev_runnable_sum g <? prev)) (WALT_BUG bug_nt_prs_underflow) y.

Definition take_from (curr prev : Z) (new_task : bool) (g : group_cpu_time) : group_cpu_time :=
  mk_gct (sub_clamp (g_curr_runnable_sum g) curr) (sub_clamp (g_prev_runnable_sum g) prev)
    (if new_task then sub_clamp (g_nt_curr_runnable_sum g) curr else g_nt_curr_runnable_sum g)
    (if new_task then sub_clamp (g_nt_prev_runnable_sum g) prev else g_nt_prev_runnable_sum g).

Definition give_to (curr prev : Z) (new_task : bool) (g : group_cpu_time) : group_cpu_time :=
  add_prev prev new_task (add_curr curr new_task g).

(** [cpu] is [cpu_of(rq)]; [now] is what a second read of the clock returns. *)
Definition transfer_busy_time (c : walt_cfg) (cpu event wallclock now : Z) (y : sys) : sys :=
  let y := update_task_ravg_on c cpu TASK_UPDATE wallclock y in
  let y := y_emit_if (negb (t_window_start (y_wts y) =? w_window_start (cpu_wrq y cpu)))
             (WALT_BUG bug_task_ws_mismatch) y in
  let new_task := is_new_task (y_wts y) in
  let y := if negb (t_enqueue_after_migration (y_wts y) =? 0) then
             on_y_wts (fun t => t <| t_enqueue_after_migration := 0 |>)
               (migrate_busy_time_addition c cpu now y)
           else y in
  let y :=
    if event =? ADD_TASK then
      let curr := aget (t_curr_window_cpu (y_wts y)) cpu in
      let prev := aget (t_prev_window_cpu (y_wts y)) cpu in
      let y := transfer_checks (w_rq_time (cpu_wrq y cpu)) curr prev new_task y in
      let y := on_cpu_wrq cpu (on_rq_time (take_from curr prev new_task)) y in
      update_cluster_load_subtractions c cpu (w_window_start (cpu_wrq y cpu)) new_task y
    else
      let curr := t_curr_window (y_wts y) in
      let prev := t_prev_window (y_wts y) in
      let y := transfer_checks (w_grp_time (cpu_wrq y cpu)) curr prev new_task y in
      let y := on_cpu_wrq cpu (on_grp_time (take_from curr prev new_task)) y in
      on_y_wts (fun t => for_range 0 (Z.to_nat (nr_cpu_ids c))
        (fun i t => t <| t_curr_window_cpu := aset (t_curr_window_cpu t) i 0 |>
                      <| t_prev_window_cpu := aset (t_prev_window_cpu t) i 0 |>) t) y in
  let curr := t_curr_window (y_wts y) in
  let prev := t_prev_window (y_wts y) in
  let y := on_cpu_wrq cpu ((if event =? ADD_TASK then on_grp_time else on_rq_time)
             (give_to curr prev new_task)) y in
  on_y_wts (fun t => t <| t_curr_window_cpu := aset (t_curr_window_cpu t) cpu (t_curr_window t) |>
                       <| t_prev_window_cpu := aset (t_prev_window_cpu t) cpu (t_prev_window t) |>) y.

(** ** The preferred cluster of a group *)

Definition update_best_cluster (e : grp_env) (combined_demand : Z) (boost : bool)
    (g : walt_related_thread_group) : walt_related_thread_group :=
  if boost then g <| rg_skip_min := false |> else
  let combined_demand := if is_suh_max e then sched_group_upmigrate e else combined_demand in
  if negb (rg_skip_min g) then
    if sched_group_upmigrate e <=? combined_demand then g <| rg_skip_min := true |> else g
  else
  if combined_demand <? sched_group_downmigrate e then
    if (sysctl_sched_coloc_downmigrate_ns e =? 0) ||
       (u64 (rg_last_update g - rg_start_ktime_ts g) <? sysctl_sched_hyst_min_coloc_ns e)
    then g <| rg_downmigrate_ts := 0 |> <| rg_skip_min := false |>
    else if rg_downmigrate_ts g =? 0 then g <| rg_downmigrate_ts := rg_last_update g |>
    else if sysctl_sched_coloc_downmigrate_ns e <? u64 (rg_last_update g - rg_downmigrate_ts g)
    then g <| rg_downmigrate_ts := 0 |> <| rg_skip_min := false |> else g
  else if negb (rg_downmigrate_ts g =? 0) then g <| rg_downmigrate_ts := 0 |> else g.

(** The loop over the tasks: the combined demand and whether the group is boosted. *)
Fixpoint group_demand (c : walt_cfg) (e : grp_env) (wallclock : Z) (tasks : list task_struct)
    (combined_demand : Z) : Z * bool :=
  match tasks with
  | [] => (combined_demand, false)
  | p :: tasks =>
      if task_on_scx p then group_demand c e wallclock tasks combined_demand else
      if bool_decide (task_boost_policy c (boost_policy c) (ge_tg e (p_id p)) (t_demand_scaled (p_wts p))
                        (sysctl_sched_min_task_util_for_boost e) (ge_low_latency e (p_id p)) = SCHED_BOOST_ON_BIG)
      then (combined_demand, true) else
      if t_mark_start (p_wts p) <? u64 (wallclock - u32 (sched_ravg_window c * RAVG_HIST_SIZE))
      then group_demand c e wallclock tasks combined_demand else
      let combined_demand := u64 (combined_demand + t_coloc_demand (p_wts p)) in
      if negb (ge_trace e) && (sched_group_upmigrate e <? combined_demand) then (combined_demand, false)
      else group_demand c e wallclock tasks combined_demand
  end.

(** The tasks of [g], [p] being one that is at hand. *)
Definition group_tasks (e : grp_env) (p : task_struct) (g : walt_related_thread_group) : list task_struct :=
  (fun id => if id =? p_id p then p else ge_task e id) <$> rg_tasks g.

(** Result: the group, and whether [sched_update_hyst_times] is called. *)
Definition _set_preferred_cluster (c : walt_cfg) (e : grp_env) (wallclock : Z) (p : task_struct)
    (g : walt_related_thread_group) : walt_related_thread_group * bool :=
  let prev_skip_min := rg_skip_min g in
  let out (g : walt_related_thread_group) :=
    if (rg_id g =? DEFAULT_CGROUP_COLOC_ID) && negb (Bool.eqb (rg_skip_min g) prev_skip_min)
    then (g <| rg_start_ktime_ts := if rg_skip_min g then wallclock else 0 |>, true) else (g, false) in
  if sched_group_upmigrate e =? 0 then out (g <| rg_skip_min := false |>) else
  if bool_decide (rg_tasks g = []) then out (g <| rg_skip_min := false |>) else
  if negb (hmp_capable e) then out (g <| rg_skip_min := false |>) else
  if u64 (wallclock - rg_last_update g) <? sched_ravg_window c / 10 then (g, false) else
  let '(combined_demand, group_boost) := group_demand c e wallclock (group_tasks e p g) 0 in
  let g := g <| rg_last_update := wallclock |> in
  out (update_best_cluster e combined_demand group_boost g).

Definition set_preferred_cluster (c : walt_cfg) (e : grp_env) (wallclock : Z) (p : task_struct)
    (g : walt_related_thread_group) : walt_related_thread_group * bool := _set_preferred_cluster c e wallclock p g.

Definition should_update_preferred_cluster (c : walt_cfg) (e : grp_env) (grp : option walt_related_thread_group)
    (p : task_struct) (old_load : Z) (from_tick : bool) (now : Z) : bool :=
  let new_load := t_demand (p_wts p) in
  match grp with
  | None => false
  | Some g =>
      (from_tick && is_suh_max e) ||
      (sched_ravg_window c / 4 <? Z.abs (s32 (new_load - old_load))) ||
      (sched_ravg_window c <? u64 (now - rg_last_update g))
  end.

(** ** Membership *)

(** The run queues with the task at hand, and [related_thread_groups]. *)
Record grp_sys := mk_gsys { gs_sys : sys; gs_groups : list (option walt_related_thread_group) }.

Definition lookup_related_thread_group (group_id : Z) (s : grp_sys) : option walt_related_thread_group :=
  default None (gs_groups s !! Z.to_nat group_id).
Definition set_group (group_id : Z) (g : walt_related_thread_group) (s : grp_sys) : grp_sys :=
  mk_gsys (gs_sys s) (<[Z.to_nat group_id := Some g]> (gs_groups s)).
Definition on_gs_sys (f : sys -> sys) (s : grp_sys) : grp_sys := mk_gsys (f (gs_sys s)) (gs_groups s).

Definition alloc_related_thread_groups : list (option walt_related_thread_group) :=
  None :: ((fun i => Some (mk_rtg (Z.of_nat i) [] false false 0 0 0)) <$> seq 1 (Z.to_nat MAX_NUM_CGROUP_COLOC_ID - 1)).

(** [_set_preferred_cluster] on the group [group_id], with its call. *)
Definition prefer (c : walt_cfg) (e : grp_env) (wallclock group_id : Z) (g : walt_related_thread_group)
    (s : grp_sys) : grp_sys :=
  let '(g, hyst) := _set_preferred_cluster c e wallclock (y_p (gs_sys s)) g in
  set_group group_id g (on_gs_sys (y_emit_if hyst sched_update_hyst_times) s).

Definition remove_task_from_group (c : walt_cfg) (e : grp_env) (wallclock now group_id : Z)
    (g : walt_related_thread_group) (s : grp_sys) : grp_sys :=
  let p := y_p (gs_sys s) in
  let s := if negb (task_on_scx p)
           then on_gs_sys (transfer_busy_time c (p_cpu p) REM_TASK wallclock now) s else s in
  let g := g <| rg_tasks := filter (.≠ p_id p) (rg_tasks g) |> in
  let s := set_group group_id g (on_gs_sys (on_y_wts (fun t => t <| t_grp := None |>)) s) in
  if negb (bool_decide (rg_tasks g = [])) then prefer c e wallclock group_id g s
  else if negb (rg_id g =? DEFAULT_CGROUP_COLOC_ID) then set_group group_id (g <| rg_listed := false |>) s
  else s.

Definition add_task_to_group (c : walt_cfg) (e : grp_env) (wallclock now group_id : Z)
    (g : walt_related_thread_group) (s : grp_sys) : grp_sys :=
  let p := y_p (gs_sys s) in
  let s := if negb (task_on_scx p)
           then on_gs_sys (transfer_busy_time c (p_cpu p) ADD_TASK wallclock now) s else s in
  let g := g <| rg_tasks := p_id p :: rg_tasks g |> in
  let s := set_group group_id g (on_gs_sys (on_y_wts (fun t => t <| t_grp := Some group_id |>)) s) in
  prefer c e wallclock group_id g s.

(** [colocated] and [colocated'] are [uclamp_task_colocated], without and with the lock. *)
Definition add_new_task_to_grp (colocated colocated' : bool) (s : grp_sys) : grp_sys :=
  if negb colocated then s else
  match lookup_related_thread_group DEFAULT_CGROUP_COLOC_ID s with
  | None => s
  | Some g =>
      if negb colocated' || bool_decide (is_Some (t_grp (y_wts (gs_sys s)))) then s else
      set_group DEFAULT_CGROUP_COLOC_ID (g <| rg_tasks := p_id (y_p (gs_sys s)) :: rg_tasks g |>)
        (on_gs_sys (on_y_wts (fun t => t <| t_grp := Some DEFAULT_CGROUP_COLOC_ID |>)) s)
  end.

Definition __sched_set_group_id (c : walt_cfg) (e : grp_env) (wallclock now group_id : Z) (s : grp_sys) : grp_sys * Z :=
  if MAX_NUM_CGROUP_COLOC_ID <=? group_id then (s, - EINVAL) else
  if negb (walt_flag_test (y_wts (gs_sys s)) WALT_INIT_BIT) then (s, - EINVAL) else
  match t_grp (y_wts (gs_sys s)) with
  | None =>
      if group_id =? 0 then (s, 0) else
      match lookup_related_thread_group group_id s with
      | None => (s, 0)
      | Some g => (add_task_to_group c e wallclock now group_id (g <| rg_listed := true |>) s, 0)
      end
  | Some id =>
      if negb (group_id =? 0) then (s, 0) else
      match lookup_related_thread_group id s with
      | None => (s, 0)
      | Some g => (remove_task_from_group c e wallclock now id g s, 0)
      end
  end.

Definition sched_set_group_id (group_id : Z) : Z :=
  if group_id =? DEFAULT_CGROUP_COLOC_ID then - EINVAL else 0.
Definition sched_get_group_id (p : task_struct) : Z := default 0 (t_grp (p_wts p)).

Definition create_default_coloc_group (s : grp_sys) : grp_sys :=
  match lookup_related_thread_group DEFAULT_CGROUP_COLOC_ID s with
  | None => s
  | Some g => set_group DEFAULT_CGROUP_COLOC_ID (g <| rg_listed := true |>) s
  end.

Definition is_rtgb_active (s : grp_sys) : bool :=
  match lookup_related_thread_group DEFAULT_CGROUP_COLOC_ID s with
  | None => false
  | Some g => rg_skip_min g
  end.
Definition get_rtgb_active_time (now : Z) (s : grp_sys) : Z :=
  match lookup_related_thread_group DEFAULT_CGROUP_COLOC_ID s with
  | None => 0
  | Some g => if rg_skip_min g && negb (rg_start_ktime_ts g =? 0) then u64 (now - rg_start_ktime_ts g) else 0
  end.

#[global] Arguments transfer_busy_time : simpl never.
#[global] Arguments transfer_checks : simpl never.
#[global] Arguments take_from : simpl never.
#[global] Arguments give_to : simpl never.

Module Groups.
Import BusyTime History Ravg Migration.

(** ** The two accounts of a CPU *)

(** The counters [g] of a CPU for the window that starts at [x]. *)
Definition gcount (W ws : Z) (g : group_cpu_time) (x : Z) : Z :=
  at_window W ws (g_curr_runnable_sum g) (g_prev_runnable_sum g) x.
Definition nt_gcount (W ws : Z) (g : group_cpu_time) (x : Z) : Z :=
  at_window W ws (g_nt_curr_runnable_sum g) (g_nt_prev_runnable_sum g) x.

(** What an update charges, by window. *)
Definition charged (c : walt_cfg) (W wallclock : Z) (s : acct) (ws x : Z) : Z :=
  at_window W ws (busy_curr c wallclock 0 TASK_UPDATE (measured c TASK_UPDATE wallclock 0 s))
    (busy_prev c W 0 TASK_UPDATE (measured c TASK_UPDATE wallclock 0 s)) x.

Lemma rolled_counts c wallclock s g :
  let e := Windows.elapsed c wallclock s in let r := Windows.rolled c wallclock s g in
  g_curr_runnable_sum r = (if e =? 0 then g_curr_runnable_sum g else 0) /\
  g_prev_runnable_sum r = (if e =? 0 then g_prev_runnable_sum g else if e =? 1 then g_curr_runnable_sum g else 0) /\
  g_nt_curr_runnable_sum r = (if e =? 0 then g_nt_curr_runnable_sum g else 0) /\
  g_nt_prev_runnable_sum r =
    (if e =? 0 then g_nt_prev_runnable_sum g else if e =? 1 then g_nt_curr_runnable_sum g else 0).
Proof. cbv zeta. unfold Windows.rolled. by repeat case_if. Qed.

Lemma at_window_0 W ws x : at_window W ws 0 0 x = 0.
Proof. unfold at_window. by repeat case_if. Qed.

Lemma at_window_mul W ws n a b x : n * at_window W ws a b x = at_window W ws (n * a) (n * b) x.
Proof. unfold at_window. repeat case_if; lia. Qed.

(** An update charges the account of the task and only rolls the other one over. *)
Lemma updated_own c W wallclock s s' x :
  updated c W TASK_UPDATE wallclock 0 s s' -> 0 < W ->
  0 <= Windows.elapsed c wallclock s -> w_window_start (a_wrq s') - W <= x ->
  let ws := w_window_start (a_wrq s) in let ws' := w_window_start (a_wrq s') in
  let g := own_time (wts_of s) (a_wrq s) in let g' := own_time (wts_of s') (a_wrq s') in
  let o := other_time (wts_of s) (a_wrq s) in let o' := other_time (wts_of s') (a_wrq s') in
  gcount W ws' g' x = gcount W ws g x + charged c W wallclock s ws' x /\
  nt_gcount W ws' g' x = nt_gcount W ws g x + Z.b2z (is_new_task (wts_of s')) * charged c W wallclock s ws' x /\
  gcount W ws' o' x = gcount W ws o x.
Proof.
  intros U HW He Hx. cbv zeta. pose proof (up_start _ _ _ _ _ _ _ U) as U1.
  unfold gcount, nt_gcount, charged.
  rewrite (up_curr _ _ _ _ _ _ _ U), (up_prev _ _ _ _ _ _ _ U), (up_nt_curr _ _ _ _ _ _ _ U),
    (up_nt_prev _ _ _ _ _ _ _ U), (up_other _ _ _ _ _ _ _ U), U1 in *.
  destruct (rolled_counts c wallclock s (own_time (wts_of s) (a_wrq s))) as (-> & -> & -> & ->).
  destruct (rolled_counts c wallclock s (other_time (wts_of s) (a_wrq s))) as (O1 & O2 & _). cbv zeta in O1, O2. rewrite O1, O2.
  rewrite at_window_mul, <-!at_window_rolled by done. split; [done|]. split; [done|].
  pose proof (at_window_rolled W (w_window_start (a_wrq s)) _ (g_curr_runnable_sum (other_time (wts_of s) (a_wrq s)))
    (g_prev_runnable_sum (other_time (wts_of s) (a_wrq s))) 0 0 x HW He Hx) as H.
  by rewrite at_window_0, !Z.add_0_r in H.
Qed.

(** ** The busy time of a task *)

(** The per-CPU entries of a task for the window that starts at [x], and its total. *)
Definition entries (W : Z) (t : walt_task_struct) (x : Z) : list Z :=
  if x =? t_window_start t then t_curr_window_cpu t
  else if x =? t_window_start t - W then t_prev_window_cpu t else no_windows.
Definition total (W : Z) (t : walt_task_struct) (x : Z) : Z :=
  at_window W (t_window_start t) (t_curr_window t) (t_prev_window t) x.

Lemma contrib_entries W t i x : contrib W t i x = aget (entries W t x) i.
Proof. unfold contrib, entries. repeat case_if; try done. by rewrite no_windows_get. Qed.

Lemma total_entries W t x : settled t -> total W t x = asum (entries W t x).
Proof.
  intros [H1 H2]. unfold stray_curr, stray_prev in *. unfold total, at_window, entries. repeat case_if; try lia. done.
Qed.

Lemma entries_length c W t x : task_ok c W t -> length (entries W t x) = Z.to_nat WALT_NR_CPUS.
Proof. intros H. unfold entries. repeat case_if; try apply H. done. Qed.

(** Lists that differ in one place. *)
Lemma asum_point l k cpu v :
  length l = Z.to_nat WALT_NR_CPUS -> length k = Z.to_nat WALT_NR_CPUS -> 0 <= cpu < WALT_NR_CPUS ->
  (forall i, 0 <= i < WALT_NR_CPUS -> aget k i = aget l i + if i =? cpu then v else 0) -> asum k = asum l + v.
Proof.
  unfold WALT_NR_CPUS. intros Hl Hk Hc H.
  assert (k = aset l cpu (aget l cpu + v)) as ->.
  { apply aget_ext; [rewrite length_aset; congruence|]. intros i Hi. rewrite H by lia. rewrite aget_aset by lia.
    rewrite (Z.eqb_sym cpu i). destruct (Z.eqb_spec i cpu) as [->|]; lia. }
  rewrite asum_aset by lia. lia.
Qed.

Lemma updated_total c W wallclock s s' x :
  updated c W TASK_UPDATE wallclock 0 s s' -> task_ok c W (wts_of s) -> settled (wts_of s) ->
  0 <= rq_cpu (a_rq s) < WALT_NR_CPUS -> w_window_start (a_wrq s') - W <= x ->
  settled (wts_of s') /\
  total W (wts_of s') x = total W (wts_of s) x + charged c W wallclock s (w_window_start (a_wrq s')) x.
Proof.
  intros U Hk [H1 H2] Hc Hx.
  assert (settled (wts_of s')) as Hs.
  { split; [rewrite (up_stray_curr _ _ _ _ _ _ _ U)|rewrite (up_stray_prev _ _ _ _ _ _ _ U)]; rewrite ?H1, ?H2;
      by repeat case_if. }
  split; [done|]. rewrite !total_entries by done.
  apply (asum_point _ _ (rq_cpu (a_rq s))); [by eapply entries_length|eapply entries_length, U|done|].
  intros i Hi. rewrite <-!contrib_entries, (up_contrib _ _ _ _ _ _ _ U) by done. done.
Qed.

(** What the task has in the account of the run queue and in that of the group of CPU
    [i], and what the accounts hold for other tasks. *)
Definition rq_part (W : Z) (y : sys) (i x : Z) : Z :=
  if task_in_related_thread_group (y_wts y) then 0 else contrib W (y_wts y) i x.
Definition grp_part (W : Z) (y : sys) (i x : Z) : Z :=
  if task_in_related_thread_group (y_wts y) then if i =? p_cpu (y_p y) then total W (y_wts y) x else 0 else 0.
Definition booked (W : Z) (w : walt_rq) (x : Z) : Z := counter W w x - LoadSubs.pending w x.
Definition grp_booked (W : Z) (w : walt_rq) (x : Z) : Z := gcount W (w_window_start w) (w_grp_time w) x.
Definition rq_others (W : Z) (y : sys) (i x : Z) : Z := booked W (cpu_wrq y i) x - rq_part W y i x.
Definition grp_others (W : Z) (y : sys) (i x : Z) : Z := grp_booked W (cpu_wrq y i) x - grp_part W y i x.

(** What the account of the task on its CPU has to cover. *)
Definition own_part (W : Z) (y : sys) (x : Z) : Z :=
  if task_in_related_thread_group (y_wts y) then total W (y_wts y) x else contrib W (y_wts y) (p_cpu (y_p y)) x.

(** A task that is on its run queue, with all its busy time on record: the counters
    cover it, and a task outside a group has it on the CPUs of its cluster. *)
Record present (c : walt_cfg) (W wallclock : Z) (y : sys) : Prop := mk_present {
  pr_len : length (y_wrqs y) = Z.to_nat WALT_NR_CPUS;
  pr_cpu : 0 <= p_cpu (y_p y) < WALT_NR_CPUS;
  pr_rq : rq_cpu (cpu_rq y (p_cpu (y_p y))) = p_cpu (y_p y);
  pr_queued : t_enqueue_after_migration (y_wts y) = 0;
  pr_ravg : ravg_ok c W wallclock (focus (p_cpu (y_p y)) y);
  pr_scale : 0 <= w_task_exec_scale
    (a_wrq (measured c TASK_UPDATE wallclock 0 (focus (p_cpu (y_p y)) y))) <= 1024;
  pr_settled : settled (y_wts y);
  pr_late : W < w_window_start (cpu_wrq y (p_cpu (y_p y)));
  pr_covered : forall x, own_part W y x <=
    gcount W (w_window_start (cpu_wrq y (p_cpu (y_p y)))) (own_time (y_wts y) (cpu_wrq y (p_cpu (y_p y)))) x;
  pr_covered_new : forall x, is_new_task (y_wts y) = true -> own_part W y x <=
    nt_gcount W (w_window_start (cpu_wrq y (p_cpu (y_p y)))) (own_time (y_wts y) (cpu_wrq y (p_cpu (y_p y)))) x;
  pr_siblings : t_grp (y_wts y) = None -> forall i, 0 <= i < WALT_NR_CPUS -> src_cluster c y i = true ->
    subs_ok W (dst_window c W wallclock (p_cpu (y_p y)) y) (cpu_wrq y i);
  pr_foreign : t_grp (y_wts y) = None -> forall i, 0 <= i < WALT_NR_CPUS -> src_cluster c y i = false ->
    aget (t_curr_window_cpu (y_wts y)) i = 0 /\ aget (t_prev_window_cpu (y_wts y)) i = 0
}.

Definition refreshed (c : walt_cfg) (wallclock : Z) (y : sys) : sys :=
  update_task_ravg_on c (p_cpu (y_p y)) TASK_UPDATE wallclock y.

(** The same facts after the update. *)
Record ready (c : walt_cfg) (W ws cpu : Z) (y y1 : sys) : Prop := mk_ready {
  rd_len : length (y_wrqs y1) = Z.to_nat WALT_NR_CPUS;
  rd_cpu : p_cpu (y_p y1) = cpu;
  rd_p : (y_p y1) <| p_wts := zero_wts |> = (y_p y) <| p_wts := zero_wts |>;
  rd_start : w_window_start (cpu_wrq y1 cpu) = ws;
  rd_task_start : t_window_start (y_wts y1) = ws;
  rd_size : w_prev_window_size (cpu_wrq y1 cpu) = W;
  rd_cluster : w_cluster (cpu_wrq y1 cpu) = w_cluster (cpu_wrq y cpu);
  rd_task : task_ok c W (y_wts y1);
  rd_grp : t_grp (y_wts y1) = t_grp (y_wts y);
  rd_queued : t_enqueue_after_migration (y_wts y1) = 0;
  rd_settled : settled (y_wts y1);
  rd_wrq : forall i, 0 <= i -> i <> cpu -> cpu_wrq y1 i = cpu_wrq y i;
  rd_rq : forall i x, 0 <= i < WALT_NR_CPUS -> ws - W <= x -> rq_others W y1 i x = rq_others W y i x;
  rd_grps : forall i x, 0 <= i < WALT_NR_CPUS -> ws - W <= x -> grp_others W y1 i x = grp_others W y i x;
  rd_covered : forall x, ws - W <= x -> own_part W y1 x <= gcount W ws (own_time (y_wts y1) (cpu_wrq y1 cpu)) x;
  rd_covered_new : forall x, ws - W <= x -> is_new_task (y_wts y1) = true ->
    own_part W y1 x <= nt_gcount W ws (own_time (y_wts y1) (cpu_wrq y1 cpu)) x;
  rd_other : 0 <= g_curr_runnable_sum (other_time (y_wts y1) (cpu_wrq y1 cpu)) < 2 ^ 63 /\
    0 <= g_prev_runnable_sum (other_time (y_wts y1) (cpu_wrq y1 cpu)) < 2 ^ 63;
  rd_contrib : forall i x, 0 <= i < WALT_NR_CPUS -> i <> cpu -> ws - W <= x ->
    contrib W (y_wts y1) i x = contrib W (y_wts y) i x
}.

Section Refresh.
Context (c : walt_cfg) (W wallclock : Z) (y : sys) (Hp : present c W wallclock y).

#[local] Abbreviation cpu := (p_cpu (y_p y)).
#[local] Abbreviation y1 := (refreshed c wallclock y).
#[local] Abbreviation ws := (dst_window c W wallclock (p_cpu (y_p y)) y).

Lemma refreshed_updated :
  updated c W TASK_UPDATE wallclock 0 (focus cpu y) (focus cpu y1) /\ length (y_wrqs y1) = Z.to_nat WALT_NR_CPUS /\
  (forall i, 0 <= i -> i <> cpu -> cpu_wrq y1 i = cpu_wrq y i) /\
  0 <= Windows.elapsed c wallclock (focus cpu y) /\ 0 < W /\ w_window_start (cpu_wrq y1 cpu) = ws /\ p_cpu (y_p y1) = cpu.
Proof.
  destruct (update_task_ravg_on_updated c W cpu TASK_UPDATE wallclock y) as (U & L & _ & O); [apply Hp..|].
  pose proof (pr_ravg _ _ _ _ Hp) as Hr.
  pose proof (Windows.elapsed_spec _ _ _ (rk_clock _ _ _ _ Hr)) as [He _].
  pose proof (ck_window _ _ (rk_cfg _ _ _ _ Hr)) as HW.
  split_and!; try done; try lia.
  - exact (up_start _ _ _ _ _ _ _ U).
  - exact (f_equal p_cpu (up_p _ _ _ _ _ _ _ U)).
Qed.

Lemma refreshed_parts x : ws - W <= x ->
  settled (y_wts y1) /\
  total W (y_wts y1) x = total W (y_wts y) x + charged c W wallclock (focus cpu y) ws x /\
  (forall i, 0 <= i < WALT_NR_CPUS -> contrib W (y_wts y1) i x =
     contrib W (y_wts y) i x + if i =? cpu then charged c W wallclock (focus cpu y) ws x else 0).
Proof.
  intros Hx. destruct refreshed_updated as (U & _ & _ & _ & HW & E & _). rewrite <-E in Hx.
  pose proof (rk_task _ _ _ _ (pr_ravg _ _ _ _ Hp)) as Hk.
  pose proof (pr_rq _ _ _ _ Hp) as Hq. pose proof (pr_cpu _ _ _ _ Hp) as Hc.
  destruct (updated_total c W wallclock _ _ x U Hk (pr_settled _ _ _ _ Hp)) as [S T];
    [by change (0 <= rq_cpu (cpu_rq y cpu) < WALT_NR_CPUS); rewrite Hq|done|].
  change (w_window_start (a_wrq (focus cpu y1))) with (w_window_start (cpu_wrq y1 cpu)) in T. rewrite E in T.
  split; [exact S|]. split; [exact T|]. intros i Hi.
  pose proof (up_contrib _ _ _ _ _ _ _ U i x Hi Hx) as C. etransitivity; [exact C|].
  change (rq_cpu (a_rq (focus cpu y))) with (rq_cpu (cpu_rq y cpu)). rewrite Hq.
  change (w_window_start (a_wrq (focus cpu y1))) with (w_window_start (cpu_wrq y1 cpu)). rewrite E. done.
Qed.

(** The accounts of the CPU before and after. *)
Lemma refreshed_accounts x : ws - W <= x ->
  let w := cpu_wrq y cpu in let w1 := cpu_wrq y1 cpu in let d := charged c W wallclock (focus cpu y) ws x in
  gcount W ws (own_time (y_wts y1) w1) x = gcount W (w_window_start w) (own_time (y_wts y) w) x + d /\
  nt_gcount W ws (own_time (y_wts y1) w1) x =
    nt_gcount W (w_window_start w) (own_time (y_wts y) w) x + Z.b2z (is_new_task (y_wts y1)) * d /\
  gcount W ws (other_time (y_wts y1) w1) x = gcount W (w_window_start w) (other_time (y_wts y) w) x /\
  LoadSubs.pending w1 x = LoadSubs.pending w x /\ t_grp (y_wts y1) = t_grp (y_wts y).
Proof.
  intros Hx. destruct refreshed_updated as (U & _ & _ & He & HW & E & _). cbv zeta.
  pose proof (updated_own c W wallclock _ _ x U HW He) as H. cbv zeta in H.
  change (a_wrq (focus cpu y1)) with (cpu_wrq y1 cpu) in H. change (a_wrq (focus cpu y)) with (cpu_wrq y cpu) in H.
  rewrite E in H. destruct (H Hx) as (H1 & H2 & H3). split; [exact H1|]. split; [exact H2|]. split; [exact H3|].
  split; [|exact (up_grp _ _ _ _ _ _ _ U)]. unfold LoadSubs.pending.
  pose proof (up_subs _ _ _ _ _ _ _ U) as Hs. change (w_load_subs (cpu_wrq y1 cpu) = w_load_subs (cpu_wrq y cpu)) in Hs.
  by rewrite Hs.
Qed.

Lemma refreshed_own_part x : ws - W <= x ->
  own_part W y1 x = own_part W y x + charged c W wallclock (focus cpu y) ws x.
Proof.
  intros Hx. destruct (refreshed_parts x Hx) as (_ & T & C). destruct (refreshed_accounts x Hx) as (_ & _ & _ & _ & G).
  destruct refreshed_updated as (_ & _ & _ & _ & _ & _ & P).
  unfold own_part, task_in_related_thread_group. rewrite G, P. destruct (t_grp (y_wts y)); [done|].
  rewrite C by apply Hp. by rewrite Z.eqb_refl.
Qed.

Lemma refreshed_others i x : 0 <= i < WALT_NR_CPUS -> ws - W <= x ->
  rq_others W y1 i x = rq_others W y i x /\ grp_others W y1 i x = grp_others W y i x.
Proof.
  intros Hi Hx. destruct (refreshed_parts x Hx) as (_ & T & C).
  destruct (refreshed_accounts x Hx) as (A1 & _ & A3 & A4 & G). cbv zeta in A1, A3, A4.
  destruct refreshed_updated as (_ & _ & O & _ & _ & E & P). specialize (C i Hi).
  unfold rq_others, grp_others, booked, grp_booked, rq_part, grp_part, counter.
  unfold own_time, other_time, task_in_related_thread_group in *. rewrite G, P in *.
  set (d := charged _ _ _ _ _ _) in *. clearbody d. fold (gcount W (w_window_start (cpu_wrq y i)) (w_rq_time (cpu_wrq y i)) x).
  fold (gcount W (w_window_start (cpu_wrq y1 i)) (w_rq_time (cpu_wrq y1 i)) x).
  destruct (Z.eqb_spec i cpu) as [->|Hne]; [rewrite E, A4 in *|rewrite O in * by lia]; destruct (t_grp (y_wts y)); lia.
Qed.

Lemma present_ready : ready c W ws cpu y y1.
Proof.
  destruct refreshed_updated as (U & L & O & He & HW & E & P).
  assert (ws - W <= ws) as H0 by lia. destruct (refreshed_accounts ws H0) as (_ & _ & _ & _ & G).
  destruct (refreshed_parts ws H0) as (S & _ & _).
  split; try done.
  - exact (up_p _ _ _ _ _ _ _ U).
  - rewrite <-E. exact (up_task_start _ _ _ _ _ _ _ U).
  - exact (up_size _ _ _ _ _ _ _ U).
  - exact (up_cluster _ _ _ _ _ _ _ U).
  - exact (up_task _ _ _ _ _ _ _ U).
  - etransitivity; [exact (proj1 (up_migration _ _ _ _ _ _ _ U))|apply Hp].
  - intros i x Hi Hx. by apply refreshed_others.
  - intros i x Hi Hx. by apply refreshed_others.
  - intros x Hx. destruct (refreshed_accounts x Hx) as (A1 & _). cbv zeta in A1.
    rewrite A1, refreshed_own_part by done. pose proof (pr_covered _ _ _ _ Hp x). lia.
  - intros x Hx Hn. destruct (refreshed_accounts x Hx) as (_ & A2 & _). cbv zeta in A2.
    rewrite A2, Hn, refreshed_own_part by done. cbn [Z.b2z].
    destruct (is_new_task (y_wts y)) eqn:En; [pose proof (pr_covered_new _ _ _ _ Hp x En); lia|].
    pose proof (up_new _ _ _ _ _ _ _ U En) as Un. change (is_new_task (y_wts y1) = false) in Un. congruence.
  - pose proof (up_other _ _ _ _ _ _ _ U) as Ho.
    change (other_time (y_wts y1) (cpu_wrq y1 cpu) =
      Windows.rolled c wallclock (focus cpu y) (other_time (y_wts y) (cpu_wrq y cpu))) in Ho. rewrite Ho.
    destruct (rolled_counts c wallclock (focus cpu y) (other_time (y_wts y) (cpu_wrq y cpu))) as (-> & -> & _).
    pose proof (rk_counters _ _ _ _ (pr_ravg _ _ _ _ Hp) (other_time (y_wts y) (cpu_wrq y cpu))) as Hb.
    destruct Hb as (B1 & B2 & _); [unfold other_time; destruct (task_in_related_thread_group _); auto|].
    repeat case_if; lia.
  - intros i x Hi Hne Hx. destruct (refreshed_parts x Hx) as (_ & _ & C). rewrite C by done.
    destruct (Z.eqb_spec i cpu); [done|lia].
Qed.

End Refresh.

(** ** Moving busy time *)

Lemma transfer_checks_none g curr prev (new_task : bool) y :
  curr <= g_curr_runnable_sum g -> prev <= g_prev_runnable_sum g ->
  (new_task = true -> curr <= g_nt_curr_runnable_sum g /\ prev <= g_nt_prev_runnable_sum g) ->
  transfer_checks g curr prev new_task y = y.
Proof.
  intros H1 H2 H3. unfold transfer_checks, y_emit_if.
  rewrite (proj2 (Z.ltb_ge _ _) H1), (proj2 (Z.ltb_ge _ _) H2).
  destruct new_task; [|done]. destruct (H3 eq_refl) as [H4 H5].
  by rewrite (proj2 (Z.ltb_ge _ _) H4), (proj2 (Z.ltb_ge _ _) H5).
Qed.

Lemma gcount_take W ws a b n g x :
  a <= g_curr_runnable_sum g -> b <= g_prev_runnable_sum g ->
  gcount W ws (take_from a b n g) x = gcount W ws g x - at_window W ws a b x.
Proof.
  intros Ha Hb. unfold gcount, take_from. cbn. rewrite !sub_clamp_exact by done. unfold at_window. repeat case_if; lia.
Qed.

Lemma gcount_give W ws a b n g x :
  0 <= g_curr_runnable_sum g < 2 ^ 63 -> 0 <= g_prev_runnable_sum g < 2 ^ 63 ->
  0 <= a < 2 ^ 32 -> 0 <= b < 2 ^ 32 ->
  gcount W ws (give_to a b n g) x = gcount W ws g x + at_window W ws a b x.
Proof.
  intros Hc Hp Ha Hb.
  assert (g_curr_runnable_sum (give_to a b n g) = g_curr_runnable_sum g + a /\
    g_prev_runnable_sum (give_to a b n g) = g_prev_runnable_sum g + b) as [E1 E2].
  { rewrite <-(u64_small (g_curr_runnable_sum g + a)), <-(u64_small (g_prev_runnable_sum g + b)) by lia. by destruct n. }
  unfold gcount. rewrite E1, E2. unfold at_window. repeat case_if; lia.
Qed.

(** Counters that cover amounts for both windows. *)
Lemma covers W ws g a b : 0 < W ->
  (forall x, ws - W <= x -> at_window W ws a b x <= gcount W ws g x) -> a <= g_curr_runnable_sum g /\ b <= g_prev_runnable_sum g.
Proof.
  intros HW H. pose proof (H ws ltac:(lia)) as H1. pose proof (H (ws - W) ltac:(lia)) as H2.
  unfold gcount, at_window in *. rewrite Z.eqb_refl in H1. rewrite (proj2 (Z.eqb_neq (ws - W) ws)), Z.eqb_refl in H2 by lia. done.
Qed.

Lemma nt_covers W ws g a b : 0 < W ->
  (forall x, ws - W <= x -> at_window W ws a b x <= nt_gcount W ws g x) ->
  a <= g_nt_curr_runnable_sum g /\ b <= g_nt_prev_runnable_sum g.
Proof.
  intros HW H. pose proof (H ws ltac:(lia)) as H1. pose proof (H (ws - W) ltac:(lia)) as H2.
  unfold nt_gcount, at_window in *. rewrite Z.eqb_refl in H1. rewrite (proj2 (Z.eqb_neq (ws - W) ws)), Z.eqb_refl in H2 by lia. done.
Qed.

(** All entries of a task are cleared. *)
Definition cleared (t : walt_task_struct) : walt_task_struct :=
  t <| t_curr_window_cpu := no_windows |> <| t_prev_window_cpu := no_windows |>.

Lemma clear_entries t :
  length (t_curr_window_cpu t) = Z.to_nat WALT_NR_CPUS -> length (t_prev_window_cpu t) = Z.to_nat WALT_NR_CPUS ->
  for_range 0 (Z.to_nat WALT_NR_CPUS) zero_at t = cleared t.
Proof.
  intros L1 L2.
  pose proof (for_range_ind (fun k u => u = t <| t_curr_window_cpu := t_curr_window_cpu u |>
      <| t_prev_window_cpu := t_prev_window_cpu u |> /\
    length (t_curr_window_cpu u) = Z.to_nat WALT_NR_CPUS /\ length (t_prev_window_cpu u) = Z.to_nat WALT_NR_CPUS /\
    forall i, 0 <= i < k -> aget (t_curr_window_cpu u) i = 0 /\ aget (t_prev_window_cpu u) i = 0)
    0 (Z.to_nat WALT_NR_CPUS) zero_at t) as H. cbv beta in H.
  destruct H as (H1 & H2 & H3 & H4).
  - split; [by destruct t|]. split; [done|]. split; [done|]. intros i Hi. lia.
  - intros i u Hi (E & E1 & E2 & E3). unfold WALT_NR_CPUS in *. split; [unfold zero_at; rewrite E; done|].
    unfold zero_at. cbn. rewrite !length_aset. split; [done|]. split; [done|]. intros j Hj.
    rewrite !aget_aset by lia. destruct (Z.eqb_spec i j); [done|]. apply E3. lia.
  - rewrite H1, (all_zero (t_curr_window_cpu _) H2), (all_zero (t_prev_window_cpu _) H3); [done|..];
      intros i Hi; by apply H4.
Qed.

(** The busy time moved between the accounts of CPU [cpu]: from the run queues to the
    group, or the other way. *)
Record moved (W ws cpu : Z) (y1 y' : sys) : Prop := mk_moved {
  mv_p : (y_p y') <| p_wts := zero_wts |> = (y_p y1) <| p_wts := zero_wts |>;
  mv_wts : y_wts y' = (y_wts y1) <| t_curr_window_cpu := aset no_windows cpu (t_curr_window (y_wts y1)) |>
                                 <| t_prev_window_cpu := aset no_windows cpu (t_prev_window (y_wts y1)) |>;
  mv_log : y_log y' = y_log y1;
  mv_rq : forall i x, 0 <= i < WALT_NR_CPUS -> tracked_window W ws x -> booked W (cpu_wrq y' i) x =
    rq_others W y1 i x + (if task_in_related_thread_group (y_wts y1)
                          then if i =? cpu then total W (y_wts y1) x else 0 else 0);
  mv_grp : forall i x, 0 <= i < WALT_NR_CPUS -> tracked_window W ws x -> grp_booked W (cpu_wrq y' i) x =
    grp_others W y1 i x + (if task_in_related_thread_group (y_wts y1)
                           then 0 else if i =? cpu then total W (y_wts y1) x else 0)
}.

(** The last two steps: the totals are added and the entries are set. *)
Definition settle_on (cpu : Z) (on : (group_cpu_time -> group_cpu_time) -> walt_rq -> walt_rq)
    (new_task : bool) (y : sys) : sys :=
  on_y_wts (fun t => t <| t_curr_window_cpu := aset (t_curr_window_cpu t) cpu (t_curr_window t) |>
                       <| t_prev_window_cpu := aset (t_prev_window_cpu t) cpu (t_prev_window t) |>)
    (on_cpu_wrq cpu (on (give_to (t_curr_window (y_wts y)) (t_prev_window (y_wts y)) new_task)) y).

Lemma totals_small c W t : cfg_ok c W -> task_ok c W t -> 0 <= t_curr_window t < 2 ^ 32 /\ 0 <= t_prev_window t < 2 ^ 32.
Proof.
  intros [_ HW] H. destruct (task_ok_ranges _ _ _ H). pose proof (tk_curr _ _ _ H). pose proof (tk_prev _ _ _ H).
  pose proof (tk_mark _ _ _ H). lia.
Qed.

Lemma on_cpu_wrq_at cpu f y i :
  length (y_wrqs y) = Z.to_nat WALT_NR_CPUS -> 0 <= cpu < WALT_NR_CPUS -> 0 <= i ->
  cpu_wrq (on_cpu_wrq cpu f y) i = if i =? cpu then f (cpu_wrq y i) else cpu_wrq y i.
Proof.
  intros Hl Hc Hi. unfold on_cpu_wrq. rewrite cpu_wrq_set by done. by destruct (Z.eqb_spec i cpu) as [->|].
Qed.

Lemma only_entry l cpu v : 0 <= cpu < WALT_NR_CPUS -> length l = Z.to_nat WALT_NR_CPUS ->
  (forall i, 0 <= i < WALT_NR_CPUS -> i <> cpu -> aget l i = 0) -> aset l cpu v = aset no_windows cpu v.
Proof.
  intros Hc Hl Hz. unfold WALT_NR_CPUS in *. apply aget_ext; rewrite !length_aset; [by rewrite Hl|]. intros i Hi.
  rewrite aget_one, aget_aset, (Z.eqb_sym cpu i) by (unfold WALT_NR_CPUS; lia).
  destruct (Z.eqb_spec i cpu); [done|]. apply Hz; lia.
Qed.

Section Moves.
Context (c : walt_cfg) (W ws cpu : Z) (y y1 : sys).
Hypothesis Hcfg : cfg_ok c W.
Hypothesis Hcpu : 0 <= cpu < WALT_NR_CPUS.
Hypothesis Hr : ready c W ws cpu y y1.

(** A task of a group leaves it. *)
Lemma leave_moved g :
  t_grp (y_wts y1) = Some g ->
  let curr := t_curr_window (y_wts y1) in let prev := t_prev_window (y_wts y1) in
  let n := is_new_task (y_wts y1) in
  moved W ws cpu y1 (settle_on cpu on_rq_time n
    (on_y_wts (fun t => for_range 0 (Z.to_nat (nr_cpu_ids c)) zero_at t)
      (on_cpu_wrq cpu (on_grp_time (take_from curr prev n)) (transfer_checks (w_grp_time (cpu_wrq y1 cpu)) curr prev n y1)))).
Proof.
  intros Hg curr prev n. pose proof (ck_window _ _ Hcfg) as HW. destruct Hr as [L P Pp Ws Wt Sz Cl Hk Gr Q St O R1 R2 Cv Cn Ot Co].
  destruct (totals_small _ _ _ Hcfg Hk) as [T1 T2]. fold curr in T1. fold prev in T2.
  unfold own_part, own_time, other_time, task_in_related_thread_group, total in Cv, Cn, Ot. rewrite Hg, Wt in Cv, Cn. rewrite Hg in Ot.
  destruct (covers W ws _ _ _ ltac:(lia) Cv) as [C1 C2]. fold curr in C1. fold prev in C2.
  rewrite transfer_checks_none; [|done|done|intros E; by apply (nt_covers W ws); [lia|]; intros x Hx; apply Cn].
  rewrite (ck_cpus _ _ Hcfg). set (y2 := on_cpu_wrq cpu _ y1). set (y3 := on_y_wts _ y2).
  assert (y_wts y3 = cleared (y_wts y1)) as T3 by (apply clear_entries; apply Hk).
  assert (forall i, 0 <= i -> cpu_wrq y3 i = if i =? cpu then on_grp_time (take_from curr prev n) (cpu_wrq y1 i) else cpu_wrq y1 i) as W3
    by (intros i Hi; by apply (on_cpu_wrq_at cpu _ y1)).
  assert (length (y_wrqs y3) = Z.to_nat WALT_NR_CPUS) as L3 by (unfold y3, y2, on_cpu_wrq; cbn; by rewrite length_insert).
  assert (forall i, 0 <= i -> cpu_wrq (settle_on cpu on_rq_time n y3) i =
    if i =? cpu then on_rq_time (give_to curr prev n) (cpu_wrq y3 i) else cpu_wrq y3 i) as W4.
  { intros i Hi. unfold settle_on. rewrite T3. by apply (on_cpu_wrq_at cpu _ y3). }
  split.
  - done.
  - transitivity ((y_wts y3) <| t_curr_window_cpu := aset (t_curr_window_cpu (y_wts y3)) cpu (t_curr_window (y_wts y3)) |>
      <| t_prev_window_cpu := aset (t_prev_window_cpu (y_wts y3)) cpu (t_prev_window (y_wts y3)) |>); [done|]. by rewrite T3.
  - done.
  - intros i x Hi Hx. rewrite W4, W3 by lia. unfold rq_others, rq_part, total, task_in_related_thread_group. rewrite Hg, Wt.
    destruct (Z.eqb_spec i cpu) as [->|]; [|lia]. unfold booked, counter.
    fold (gcount W (w_window_start (cpu_wrq y1 cpu)) (w_rq_time (cpu_wrq y1 cpu)) x). rewrite Ws.
    change (at_window _ _ _ _ _) with (gcount W (w_window_start (cpu_wrq y1 cpu)) (give_to curr prev n (w_rq_time (cpu_wrq y1 cpu))) x) at 1.
    rewrite Ws, gcount_give by (done || apply Ot).
    change (LoadSubs.pending (on_rq_time _ _) x) with (LoadSubs.pending (cpu_wrq y1 cpu) x). fold curr prev. lia.
  - intros i x Hi Hx. rewrite W4, W3 by lia. unfold grp_others, grp_part, total, task_in_related_thread_group. rewrite Hg, Wt, P.
    destruct (Z.eqb_spec i cpu) as [->|]; [|lia]. unfold grp_booked. cbn [w_window_start w_grp_time on_rq_time on_grp_time].
    change (gcount _ _ _ _) with (gcount W (w_window_start (cpu_wrq y1 cpu)) (take_from curr prev n (w_grp_time (cpu_wrq y1 cpu))) x) at 1.
    rewrite Ws, gcount_take by done. fold curr prev. lia.
Qed.

Hypothesis Hws : 0 < ws - W /\ ws < U64_MAX.
Hypothesis Hsibs : forall i, 0 <= i < WALT_NR_CPUS -> i <> cpu ->
  Z.testbit (c_cpus (cluster_of c (cpu_wrq y cpu))) i = true -> subs_ok W ws (cpu_wrq y i).
Hypothesis Hfar : forall i x, 0 <= i < WALT_NR_CPUS -> i <> cpu ->
  Z.testbit (c_cpus (cluster_of c (cpu_wrq y cpu))) i = false -> contrib W (y_wts y) i x = 0.

(** The siblings of the CPU of a task that joins give up its busy time. *)
Lemma join_drained f :
  (forall w, (f w) <| w_rq_time := w_rq_time w |> = w) ->
  let y2 := on_cpu_wrq cpu f y1 in
  drained W ws (fun i => negb (i =? cpu) && Z.testbit (c_cpus (cluster_of c (cpu_wrq y cpu))) i) y2
    (update_cluster_load_subtractions c cpu ws (is_new_task (y_wts y1)) y2).
Proof.
  intros Hf y2. pose proof (ck_window _ _ Hcfg) as HW. destruct Hr as [L P Pp Ws Wt Sz Cl Hk Gr Q St O R1 R2 Cv Cn Ot Co].
  assert (forall i, 0 <= i -> cpu_wrq y2 i = if i =? cpu then f (cpu_wrq y1 i) else cpu_wrq y1 i) as W2
    by (intros i Hi; by apply on_cpu_wrq_at).
  pose proof (Hf (cpu_wrq y1 cpu)) as Hfc. pose proof (W2 cpu ltac:(lia)) as W2c. rewrite Z.eqb_refl in W2c.
  assert (cluster_of c (cpu_wrq y2 cpu) = cluster_of c (cpu_wrq y cpu)) as Ec.
  { unfold cluster_of. rewrite W2c. do 2 f_equal. rewrite <-Cl. exact (f_equal w_cluster Hfc). }
  eapply drained_ext; [|apply (update_cluster_load_subtractions_drained c cpu ws W)]; try done; try lia.
  - intros i Hi. cbv beta. rewrite Ec. destruct (Z.eqb_spec i cpu) as [->|Hne]; [apply Z.clearbit_eq|].
    by rewrite Z.clearbit_neq by lia.
  - apply Hcfg.
  - unfold y2, on_cpu_wrq. by rewrite length_set_wrq.
  - exact (task_arrays_ok _ _ _ Hcfg Hk).
  - rewrite W2c, <-Sz. exact (f_equal w_prev_window_size Hfc).
  - rewrite Ec. intros i Hi Hb. destruct (Z.eqb_spec i cpu) as [->|Hne]; [by rewrite Z.clearbit_eq in Hb|].
    rewrite Z.clearbit_neq in Hb by lia. rewrite W2, (proj2 (Z.eqb_neq i cpu)), O by lia. by apply Hsibs.
Qed.

(** What the run queues hold after the busy time was taken from them. *)
Lemma join_booked n y2 y3 :
  t_grp (y_wts y1) = None ->
  let curr := aget (t_curr_window_cpu (y_wts y1)) cpu in let prev := aget (t_prev_window_cpu (y_wts y1)) cpu in
  y2 = on_cpu_wrq cpu (on_rq_time (take_from curr prev n)) y1 ->
  drained W ws (fun i => negb (i =? cpu) && Z.testbit (c_cpus (cluster_of c (cpu_wrq y cpu))) i) y2 y3 ->
  (forall i x, 0 <= i < WALT_NR_CPUS -> tracked_window W ws x -> booked W (cpu_wrq y3 i) x = rq_others W y1 i x) /\
  (forall i x, 0 <= i < WALT_NR_CPUS -> grp_booked W (cpu_wrq y3 i) x = grp_booked W (cpu_wrq y1 i) x) /\
  w_window_start (cpu_wrq y3 cpu) = ws /\ w_grp_time (cpu_wrq y3 cpu) = w_grp_time (cpu_wrq y1 cpu) /\
  forall i, 0 <= i < WALT_NR_CPUS -> i <> cpu ->
    aget (t_curr_window_cpu (y_wts y3)) i = 0 /\ aget (t_prev_window_cpu (y_wts y3)) i = 0.
Proof.
  intros Hg curr prev E2 [D1 D2 D3 D4 D5 D6 D7 D8 D9]. pose proof (ck_window _ _ Hcfg) as HW.
  destruct Hr as [L P Pp Ws Wt Sz Cl Hk Gr Q St O R1 R2 Cv Cn Ot Co].
  unfold own_part, own_time, task_in_related_thread_group in Cv. rewrite Hg, P in Cv. unfold contrib in Cv. rewrite Wt in Cv.
  destruct (covers W ws _ _ _ ltac:(lia) Cv) as [C1 C2]. fold curr in C1. fold prev in C2.
  assert (forall i, 0 <= i -> cpu_wrq y2 i = if i =? cpu then on_rq_time (take_from curr prev n) (cpu_wrq y1 i) else cpu_wrq y1 i) as W2
    by (intros i Hi; subst y2; by apply on_cpu_wrq_at).
  assert (y_wts y2 = y_wts y1) as T2 by (by subst y2).
  assert (forall i x, 0 <= i < WALT_NR_CPUS -> booked W (cpu_wrq y2 i) x = booked W (cpu_wrq y1 i) x -
    if i =? cpu then contrib W (y_wts y1) cpu x else 0) as B2.
  { intros i x Hi. rewrite W2 by lia. destruct (Z.eqb_spec i cpu) as [->|]; [|lia]. unfold booked, counter.
    change (at_window _ _ _ _ _) with (gcount W (w_window_start (cpu_wrq y1 cpu)) (take_from curr prev n (w_rq_time (cpu_wrq y1 cpu))) x) at 1.
    change (LoadSubs.pending (on_rq_time _ _) x) with (LoadSubs.pending (cpu_wrq y1 cpu) x).
    rewrite gcount_take, Ws by done. unfold contrib. rewrite Wt. fold curr prev. unfold gcount, at_window. lia. }
  assert (forall i, 0 <= i < WALT_NR_CPUS -> i <> cpu ->
    aget (t_curr_window_cpu (y_wts y3)) i = 0 /\ aget (t_prev_window_cpu (y_wts y3)) i = 0) as Hz.
  { intros i Hi Hne. rewrite D5, D6, (proj2 (Z.eqb_neq i cpu)), T2 by done. cbn [negb andb].
    destruct (Z.testbit _ i) eqn:Eb; [done|]. specialize (Hfar i).
    rewrite <-(contrib_curr W), <-(contrib_prev W (y_wts y1)), Wt by lia. rewrite !Co, !Hfar by (done || lia). done. }
  assert (forall i x, 0 <= i < WALT_NR_CPUS -> contrib W (y_wts y3) i x = if i =? cpu then contrib W (y_wts y1) cpu x else 0) as C3.
  { intros i x Hi. unfold contrib. rewrite D3. change (t_window_start (_ <| t_curr_window_cpu := _ |>)) with (t_window_start (y_wts y2)).
    rewrite T2. cbn [t_curr_window_cpu t_prev_window_cpu].
    destruct (Z.eqb_spec i cpu) as [->|Hne]; [|destruct (Hz i Hi Hne) as [Z1 Z2]; cbn; rewrite Z1, Z2; by repeat case_if].
    pose proof (D5 cpu Hi) as D5c. pose proof (D6 cpu Hi) as D6c. rewrite Z.eqb_refl, T2 in D5c, D6c. cbn in D5c, D6c |- *. by rewrite D5c, D6c. }
  assert (forall i, 0 <= i < WALT_NR_CPUS -> w_window_start (cpu_wrq y3 i) = w_window_start (cpu_wrq y1 i) /\
    w_grp_time (cpu_wrq y3 i) = w_grp_time (cpu_wrq y1 i)) as G3.
  { intros i Hi. rewrite D7, W2 by lia. by destruct (i =? cpu), (Z.testbit _ i). }
  split_and!; [..|exact Hz].
  - intros i x Hi Hx. pose proof (D8 i x Hi Hx) as D. unfold net in D. fold (booked W (cpu_wrq y3 i) x) (booked W (cpu_wrq y2 i) x) in D.
    rewrite C3, B2, T2 in D by done. unfold rq_others, rq_part, task_in_related_thread_group. rewrite Hg.
    destruct (Z.eqb_spec i cpu) as [->|]; lia.
  - intros i x Hi. unfold grp_booked. by destruct (G3 i Hi) as [-> ->].
  - by rewrite (proj1 (G3 cpu Hcpu)).
  - apply (G3 cpu Hcpu).
Qed.

(** A task joins a group. *)
Lemma join_moved :
  t_grp (y_wts y1) = None ->
  let curr := aget (t_curr_window_cpu (y_wts y1)) cpu in let prev := aget (t_prev_window_cpu (y_wts y1)) cpu in
  let n := is_new_task (y_wts y1) in
  let y2 := on_cpu_wrq cpu (on_rq_time (take_from curr prev n)) (transfer_checks (w_rq_time (cpu_wrq y1 cpu)) curr prev n y1) in
  moved W ws cpu y1 (settle_on cpu on_grp_time n
    (update_cluster_load_subtractions c cpu (w_window_start (cpu_wrq y2 cpu)) n y2)).
Proof.
  intros Hg curr prev n. pose proof (ck_window _ _ Hcfg) as HW.
  pose proof (fun f H => join_drained f H) as HD. pose proof (fun n y2 y3 H => join_booked n y2 y3 H) as HB.
  pose proof Hr as [L P Pp Ws Wt Sz Cl Hk Gr Q St O R1 R2 Cv Cn Ot Co].
  unfold own_part, own_time, other_time, task_in_related_thread_group in Cv, Cn, Ot. rewrite Hg in Cv, Cn, Ot.
  rewrite P in Cv, Cn. unfold contrib in Cv, Cn. rewrite Wt in Cv, Cn.
  destruct (covers W ws _ _ _ ltac:(lia) Cv) as [C1 C2]. fold curr in C1. fold prev in C2.
  rewrite transfer_checks_none; [|done|done|intros E; by apply (nt_covers W ws); [lia|]; intros x Hx; apply Cn].
  intros y2. assert (w_window_start (cpu_wrq y2 cpu) = ws) as ->.
  { unfold y2. rewrite on_cpu_wrq_at, Z.eqb_refl by (done || lia). exact Ws. }
  assert (drained W ws (fun i => negb (i =? cpu) && Z.testbit (c_cpus (cluster_of c (cpu_wrq y cpu))) i) y2
    (update_cluster_load_subtractions c cpu ws n y2)) as D by (apply HD; by intros []).
  set (y3 := update_cluster_load_subtractions c cpu ws n y2) in *. clearbody y3.
  destruct (HB n y2 y3 Hg eq_refl D) as (B1 & B2 & B3 & B4 & B5). pose proof (dr_wts _ _ _ _ _ D) as T3.
  assert (y_wts y2 = y_wts y1) as T2 by done. rewrite T2 in T3.
  pose proof (dr_arrays _ _ _ _ _ D) as A3. pose proof (dr_len _ _ _ _ _ D) as L3.
  destruct (totals_small _ _ _ Hcfg Hk) as [S1 S2].
  assert (t_curr_window (y_wts y3) = t_curr_window (y_wts y1)) as E1 by (by rewrite T3).
  assert (t_prev_window (y_wts y3) = t_prev_window (y_wts y1)) as E2 by (by rewrite T3).
  assert (forall i, 0 <= i -> cpu_wrq (settle_on cpu on_grp_time n y3) i = if i =? cpu
    then on_grp_time (give_to (t_curr_window (y_wts y1)) (t_prev_window (y_wts y1)) n) (cpu_wrq y3 i) else cpu_wrq y3 i) as W4.
  { intros i Hi. unfold settle_on. rewrite E1, E2. by apply (on_cpu_wrq_at cpu _ y3). }
  split.
  - exact (dr_p _ _ _ _ _ D).
  - transitivity ((y_wts y3) <| t_curr_window_cpu := aset (t_curr_window_cpu (y_wts y3)) cpu (t_curr_window (y_wts y3)) |>
      <| t_prev_window_cpu := aset (t_prev_window_cpu (y_wts y3)) cpu (t_prev_window (y_wts y3)) |>); [done|].
    rewrite E1, E2, (only_entry (t_curr_window_cpu (y_wts y3))), (only_entry (t_prev_window_cpu (y_wts y3)));
      [rewrite T3; reflexivity|done|apply A3|intros; by apply B5|done|apply A3|intros; by apply B5].
  - exact (proj2 (proj2 (dr_rest _ _ _ _ _ D))).
  - intros i x Hi Hx. unfold task_in_related_thread_group. rewrite Hg, Z.add_0_r, <-B1 by done. rewrite W4 by lia. by case_if.
  - intros i x Hi Hx. unfold grp_others, grp_part, task_in_related_thread_group. rewrite Hg, <-B2, Z.sub_0_r, W4 by lia.
    destruct (Z.eqb_spec i cpu) as [->|]; [|lia]. unfold grp_booked.
    change (gcount _ _ _ _) with (gcount W (w_window_start (cpu_wrq y3 cpu))
      (give_to (t_curr_window (y_wts y1)) (t_prev_window (y_wts y1)) n (w_grp_time (cpu_wrq y3 cpu))) x) at 1.
    rewrite B3, B4, gcount_give by (done || apply Ot). unfold total. by rewrite Wt.
Qed.

End Moves.

(** [transfer_busy_time] on a present task, when it joins and when it leaves. *)
Lemma transfer_moved c W wallclock now y :
  present c W wallclock y ->
  let cpu := p_cpu (y_p y) in
  moved W (dst_window c W wallclock cpu y) cpu (refreshed c wallclock y)
    (transfer_busy_time c cpu (if task_in_related_thread_group (y_wts y) then REM_TASK else ADD_TASK) wallclock now y).
Proof.
  intros Hp cpu. pose proof (present_ready _ _ _ _ Hp) as Hr. pose proof (pr_ravg _ _ _ _ Hp) as Hv.
  pose proof (rk_cfg _ _ _ _ Hv) as Hcfg. pose proof (ck_window _ _ Hcfg) as HW. pose proof (pr_cpu _ _ _ _ Hp) as Hcpu.
  unfold transfer_busy_time. change (update_task_ravg_on c cpu TASK_UPDATE wallclock y) with (refreshed c wallclock y). set (y1 := refreshed c wallclock y) in *.
  fold cpu in Hr, Hcpu. rewrite (rd_start _ _ _ _ _ _ Hr), (rd_task_start _ _ _ _ _ _ Hr), Z.eqb_refl. cbn [negb y_emit_if].
  rewrite (rd_queued _ _ _ _ _ _ Hr). change (negb (0 =? 0)) with false. cbv iota.
  unfold task_in_related_thread_group. pose proof (rd_grp _ _ _ _ _ _ Hr) as Hg. destruct (t_grp (y_wts y)) as [g|] eqn:Eg.
  - change (REM_TASK =? ADD_TASK) with false. cbv iota. exact (leave_moved _ _ _ _ _ _ Hcfg Hcpu Hr g Hg).
  - change (ADD_TASK =? ADD_TASK) with true. cbv iota.
    apply (join_moved c W (dst_window c W wallclock cpu y) cpu y y1); try done.
    + pose proof (up_now _ _ _ _ _ _ _ (proj1 (refreshed_updated _ _ _ _ Hp))) as Hn.
      change (w_window_start (cpu_wrq y1 cpu) <= wallclock < w_window_start (cpu_wrq y1 cpu) + W) in Hn.
      rewrite (rd_start _ _ _ _ _ _ Hr) in Hn. pose proof (Windows.co_clock _ _ _ (rk_clock _ _ _ _ Hv)) as Hw.
      pose proof (Windows.elapsed_spec _ _ _ (rk_clock _ _ _ _ Hv)) as [He _]. fold cpu in He.
      pose proof (pr_late _ _ _ _ Hp) as Hl. fold cpu in Hl. unfold U64_MAX. unfold dst_window in *. split; [nia|lia].
    + intros i Hi Hne Hb. apply (pr_siblings _ _ _ _ Hp); [done|done|]. unfold src_cluster. fold cpu. rewrite Hb. by destruct (i =? cpu).
    + intros i x Hi Hne Hb. destruct (pr_foreign _ _ _ _ Hp Eg i Hi) as [Z1 Z2];
        [unfold src_cluster; fold cpu; rewrite Hb; by rewrite (proj2 (Z.eqb_neq _ _))|].
      unfold contrib. rewrite Z1, Z2. by repeat case_if.
Qed.

(** ** Joining and leaving *)

(** Setting the group of a task whose busy time moved. *)
Lemma regrouped c W wallclock now y g :
  present c W wallclock y -> (is_Some g <-> t_grp (y_wts y) = None) ->
  let cpu := p_cpu (y_p y) in
  let y' := on_y_wts (fun t => t <| t_grp := g |>)
    (transfer_busy_time c cpu (if task_in_related_thread_group (y_wts y) then REM_TASK else ADD_TASK) wallclock now y) in
  (forall i x, 0 <= i < WALT_NR_CPUS -> tracked_window W (dst_window c W wallclock cpu y) x ->
     rq_others W y' i x = rq_others W y i x /\ grp_others W y' i x = grp_others W y i x) /\
  settled (y_wts y') /\ p_id (y_p y') = p_id (y_p y) /\ y_log y' = y_log (refreshed c wallclock y).
Proof.
  intros Hp Hg cpu y'. pose proof (present_ready _ _ _ _ Hp) as Hr. pose proof (pr_cpu _ _ _ _ Hp) as Hcpu.
  pose proof (ck_window _ _ (rk_cfg _ _ _ _ (pr_ravg _ _ _ _ Hp))) as HW. fold cpu in Hr, Hcpu.
  destruct (transfer_moved c W wallclock now y Hp) as [M1 M2 M3 M4 M5]. fold cpu in M1, M2, M3, M4, M5.
  set (yt := transfer_busy_time _ _ _ _ _ y) in *. set (y1 := refreshed c wallclock y) in *. clearbody yt.
  assert (y_wts y' = (y_wts yt) <| t_grp := g |>) as T by done.
  assert (p_cpu (y_p y') = cpu) as P by (rewrite <-(rd_cpu _ _ _ _ _ _ Hr); exact (f_equal p_cpu M1)).
  assert (forall x, total W (y_wts y') x = total W (y_wts y1) x) as Ht by (intros x; rewrite T, M2; done).
  assert (forall i x, 0 <= i < WALT_NR_CPUS -> contrib W (y_wts y') i x = if i =? cpu then total W (y_wts y1) x else 0) as Hc.
  { intros i x Hi. unfold contrib, total, at_window. rewrite T, M2. cbn. rewrite !aget_one by done. by repeat case_if. }
  split_and!.
  - intros i x Hi Hx. assert (dst_window c W wallclock cpu y - W <= x) as Hx' by (destruct Hx; lia).
    rewrite <-(rd_rq _ _ _ _ _ _ Hr i x Hi Hx'), <-(rd_grps _ _ _ _ _ _ Hr i x Hi Hx').
    specialize (M4 i x Hi Hx). specialize (M5 i x Hi Hx). unfold task_in_related_thread_group in M4, M5.
    rewrite (rd_grp _ _ _ _ _ _ Hr) in M4, M5.
    unfold rq_others at 1, grp_others at 1, rq_part, grp_part, task_in_related_thread_group.
    change (cpu_wrq y' i) with (cpu_wrq yt i). rewrite Hc, Ht, P by done. change (t_grp (y_wts y')) with g.
    destruct (t_grp (y_wts y)) as [h|]; destruct g as [k|]; try lia.
    + destruct Hg as [Hg _]. by specialize (Hg ltac:(by eexists)).
    + destruct Hg as [_ Hg]. destruct (Hg eq_refl) as [? [=]].
  - rewrite T, M2. assert (asum no_windows = 0) as Hs by done. assert (length no_windows = 8%nat) as Hn by done.
    unfold settled, stray_curr, stray_prev. cbn. unfold WALT_NR_CPUS in Hcpu. rewrite !asum_aset, no_windows_get, Hs by (rewrite Hn; lia). lia.
  - etransitivity; [exact (f_equal p_id M1)|exact (f_equal p_id (rd_p _ _ _ _ _ _ Hr))].
  - exact M3.
Qed.

(** The groups are allocated, and the task is on the list of its group and on no other. *)
Definition group_ok (p : task_struct) (id : Z) (g : walt_related_thread_group) : Prop :=
  rg_id g = id /\ NoDup (rg_tasks g) /\ (p_id p ∈ rg_tasks g <-> t_grp (p_wts p) = Some id).
Record groups_ok (s : grp_sys) : Prop := mk_groups_ok {
  go_len : length (gs_groups s) = Z.to_nat MAX_NUM_CGROUP_COLOC_ID;
  go_alloc : forall id, 1 <= id < MAX_NUM_CGROUP_COLOC_ID ->
    exists g, lookup_related_thread_group id s = Some g /\ group_ok (y_p (gs_sys s)) id g;
  go_grp : forall id, t_grp (y_wts (gs_sys s)) = Some id -> 1 <= id < MAX_NUM_CGROUP_COLOC_ID
}.

Lemma lookup_set_group id g s i :
  length (gs_groups s) = Z.to_nat MAX_NUM_CGROUP_COLOC_ID -> 0 <= id < MAX_NUM_CGROUP_COLOC_ID -> 0 <= i ->
  lookup_related_thread_group i (set_group id g s) = if i =? id then Some g else lookup_related_thread_group i s.
Proof.
  unfold MAX_NUM_CGROUP_COLOC_ID, lookup_related_thread_group, set_group. intros Hl Hid Hi. cbn [gs_groups].
  destruct (Z.eqb_spec i id) as [->|Hne]; [by rewrite list_lookup_insert_eq by lia|].
  by rewrite list_lookup_insert_ne by lia.
Qed.

Lemma preferred_keeps c e wallclock p g :
  let g' := (_set_preferred_cluster c e wallclock p g).1 in rg_id g' = rg_id g /\ rg_tasks g' = rg_tasks g.
Proof.
  assert (forall d b g, rg_id (update_best_cluster e d b g) = rg_id g /\ rg_tasks (update_best_cluster e d b g) = rg_tasks g) as Hb
    by (intros d b h; unfold update_best_cluster; by repeat case_if).
  cbv zeta. unfold _set_preferred_cluster. do 4 (case_if; [by repeat case_if|]).
  destruct (group_demand _ _ _ _ _) as [d b]. specialize (Hb d b (g <| rg_last_update := wallclock |>)).
  by destruct (_ && _).
Qed.

(** What joining and leaving leave behind. *)
Lemma prefer_spec c e wallclock id g s :
  length (gs_groups s) = Z.to_nat MAX_NUM_CGROUP_COLOC_ID -> 1 <= id < MAX_NUM_CGROUP_COLOC_ID ->
  let s' := prefer c e wallclock id g s in
  (exists b, gs_sys s' = y_emit_if b sched_update_hyst_times (gs_sys s)) /\ length (gs_groups s') = length (gs_groups s) /\
  exists g', rg_id g' = rg_id g /\ rg_tasks g' = rg_tasks g /\
    forall i, 0 <= i -> lookup_related_thread_group i s' = if i =? id then Some g' else lookup_related_thread_group i s.
Proof.
  intros Hl Hid s'. unfold s', prefer. pose proof (preferred_keeps c e wallclock (y_p (gs_sys s)) g) as Hk.
  destruct (_set_preferred_cluster c e wallclock (y_p (gs_sys s)) g) as [g' b]. cbn [fst] in Hk. destruct Hk as [K1 K2].
  split; [by exists b|]. split; [unfold set_group; cbn; by rewrite length_insert|]. exists g'. split; [done|]. split; [done|].
  intros i Hi. rewrite lookup_set_group by (done || lia). done.
Qed.

(** The groups with task [p'] instead of [p], on the list of [h] only. *)
Lemma groups_ok_change s s' id g' :
  groups_ok s -> length (gs_groups s') = length (gs_groups s) -> 1 <= id < MAX_NUM_CGROUP_COLOC_ID ->
  p_id (y_p (gs_sys s')) = p_id (y_p (gs_sys s)) ->
  (forall i, 0 <= i -> lookup_related_thread_group i s' = if i =? id then Some g' else lookup_related_thread_group i s) ->
  group_ok (y_p (gs_sys s')) id g' ->
  (forall i, i <> id -> t_grp (y_wts (gs_sys s')) = Some i <-> t_grp (y_wts (gs_sys s)) = Some i) ->
  groups_ok s'.
Proof.
  intros [H1 H2 H3] Hl Hid Hp Hs Hg Ht. split; [congruence|..].
  - intros i Hi. rewrite Hs by lia. destruct (Z.eqb_spec i id) as [->|Hne]; [by exists g'|].
    destruct (H2 i Hi) as (g & E & G1 & G2 & G3). exists g. split; [done|]. split; [done|]. split; [done|].
    rewrite Hp, G3. symmetry. by apply Ht.
  - intros i Hi. destruct (Z.eq_dec i id) as [->|Hne]; [done|]. apply H3. by apply Ht.
Qed.

(** The task after the transfer, in group [g]. *)
Definition regroup (c : walt_cfg) (wallclock now : Z) (g : option Z) (y : sys) : sys :=
  on_y_wts (fun t => t <| t_grp := g |>)
    (transfer_busy_time c (p_cpu (y_p y)) (if task_in_related_thread_group (y_wts y) then REM_TASK else ADD_TASK) wallclock now y).

Lemma emitted_sys (b : bool) ev y' : y_p (y_emit_if b ev y') = y_p y' /\ y_wrqs (y_emit_if b ev y') = y_wrqs y'.
Proof. by destruct b. Qed.

Lemma others_ext W y y' i x : y_p y' = y_p y -> y_wrqs y' = y_wrqs y ->
  rq_others W y' i x = rq_others W y i x /\ grp_others W y' i x = grp_others W y i x.
Proof.
  intros Hp Hw. unfold rq_others, grp_others, rq_part, grp_part, cpu_wrq, y_wts. by rewrite Hp, Hw.
Qed.

Lemma join_groups c W e wallclock now id g s :
  present c W wallclock (gs_sys s) -> groups_ok s -> 1 <= id < MAX_NUM_CGROUP_COLOC_ID ->
  lookup_related_thread_group id s = Some g -> t_grp (y_wts (gs_sys s)) = None ->
  let s' := add_task_to_group c e wallclock now id (g <| rg_listed := true |>) s in
  groups_ok s' /\ exists b, gs_sys s' = y_emit_if b sched_update_hyst_times (regroup c wallclock now (Some id) (gs_sys s)).
Proof.
  intros Hp Hok Hid Hl Ht s'. pose proof (rk_scx _ _ _ _ (pr_ravg _ _ _ _ Hp)) as Hx.
  change (task_on_scx (y_p (gs_sys s)) = false) in Hx.
  destruct (regrouped c W wallclock now _ (Some id) Hp) as (_ & _ & Ei & _); [split; [done|by eexists]|].
  fold (regroup c wallclock now (Some id) (gs_sys s)) in Ei.
  unfold s', add_task_to_group. rewrite Hx. cbn [negb].
  match goal with |- context [prefer _ _ _ _ ?h _] => set (g1 := h) end.
  match goal with |- context [prefer _ _ _ _ g1 ?t] => set (s1 := t) end.
  destruct (prefer_spec c e wallclock id g1 s1) as ((b & Es) & El & g' & G1 & G2 & G3);
    [unfold s1, set_group; cbn; rewrite length_insert; apply Hok|done|].
  assert (gs_sys s1 = regroup c wallclock now (Some id) (gs_sys s)) as E1
    by (unfold regroup, task_in_related_thread_group; by rewrite Ht).
  rewrite E1 in Es. split; [|by exists b].
  destruct (emitted_sys b sched_update_hyst_times (regroup c wallclock now (Some id) (gs_sys s))) as [Ep _].
  destruct (go_alloc _ Hok id Hid) as (g0 & E0 & Q1 & Q2 & Q3). rewrite Hl in E0. injection E0 as <-.
  assert (p_id (y_p (gs_sys s)) ∉ rg_tasks g) as Hn by (rewrite Q3; unfold y_wts in Ht; by rewrite Ht).
  apply (groups_ok_change s _ id g'); try done.
  - rewrite El. unfold s1, set_group. cbn. by rewrite length_insert.
  - by rewrite Es, Ep.
  - intros i Hi. rewrite G3 by done. unfold s1. rewrite lookup_set_group by (apply Hok || lia). by case_if.
  - unfold group_ok. rewrite Es, Ep, Ei, G1, G2. cbn [g1 rg_id rg_tasks]. split; [exact Q1|].
    split; [by apply NoDup_cons|]. split; [done|]. intros _. apply list_elem_of_here.
  - intros i Hne. unfold y_wts at 1. rewrite Es, Ep. change (Some id = Some i <-> t_grp (y_wts (gs_sys s)) = Some i).
    rewrite Ht. split; [congruence|done].
Qed.

Lemma leave_groups c W e wallclock now id g s :
  present c W wallclock (gs_sys s) -> groups_ok s -> 
  lookup_related_thread_group id s = Some g -> t_grp (y_wts (gs_sys s)) = Some id ->
  let s' := remove_task_from_group c e wallclock now id g s in
  groups_ok s' /\ exists b, gs_sys s' = y_emit_if b sched_update_hyst_times (regroup c wallclock now None (gs_sys s)).
Proof.
  intros Hp Hok Hl Ht s'. pose proof (rk_scx _ _ _ _ (pr_ravg _ _ _ _ Hp)) as Hx. pose proof (go_grp _ Hok _ Ht) as Hid.
  change (task_on_scx (y_p (gs_sys s)) = false) in Hx.
  destruct (regrouped c W wallclock now _ None Hp) as (_ & _ & Ei & _); [rewrite Ht; split; [by intros [? [=]]|done]|].
  fold (regroup c wallclock now None (gs_sys s)) in Ei.
  unfold s', remove_task_from_group. rewrite Hx. cbn [negb].
  set (g1 := g <| rg_tasks := _ |>). match goal with |- context [set_group id g1 ?t] => set (s1 := set_group id g1 t) end.
  assert (gs_sys s1 = regroup c wallclock now None (gs_sys s)) as E1
    by (unfold regroup, task_in_related_thread_group; by rewrite Ht).
  assert (length (gs_groups s1) = Z.to_nat MAX_NUM_CGROUP_COLOC_ID) as L1 by (unfold s1, set_group; cbn; rewrite length_insert; apply Hok).
  set (s2 := if negb (bool_decide (rg_tasks g1 = [])) then _ else _).
  assert ((exists b, gs_sys s2 = y_emit_if b sched_update_hyst_times (gs_sys s1)) /\ length (gs_groups s2) = length (gs_groups s1) /\
    exists g', rg_id g' = rg_id g1 /\ rg_tasks g' = rg_tasks g1 /\
      forall i, 0 <= i -> lookup_related_thread_group i s2 = if i =? id then Some g' else lookup_related_thread_group i s1)
    as ((b & Es) & El & g' & G1 & G2 & G3).
  { unfold s2. case_if; [by apply prefer_spec|]. case_if.
    - split; [by exists false|]. split; [unfold set_group; cbn; by rewrite !length_insert|]. exists (g1 <| rg_listed := false |>). split; [done|]. split; [done|].
      intros i Hi. rewrite lookup_set_group by (done || lia). done.
    - split; [by exists false|]. split; [done|]. exists g1. split; [done|]. split; [done|].
      intros i Hi. unfold s1. rewrite lookup_set_group by (apply Hok || lia). by case_if. }
  clearbody s2. rewrite E1 in Es. split; [|by exists b].
  destruct (emitted_sys b sched_update_hyst_times (regroup c wallclock now None (gs_sys s))) as [Ep _].
  destruct (go_alloc _ Hok id Hid) as (g0 & E0 & Q1 & Q2 & Q3). rewrite Hl in E0. injection E0 as <-.
  apply (groups_ok_change s _ id g'); try done.
  - rewrite El, L1. symmetry. apply Hok.
  - by rewrite Es, Ep.
  - intros i Hi. rewrite G3 by done. unfold s1. rewrite lookup_set_group by (apply Hok || lia). by case_if.
  - unfold group_ok. rewrite Es, Ep, Ei, G1, G2. split; [exact Q1|]. split; [by apply NoDup_filter|].
    change (t_grp _) with (@None Z). split; [|done]. intros H. apply list_elem_of_filter in H as [H _]. done.
  - intros i Hne. unfold y_wts at 1. rewrite Es, Ep. change (None = Some i <-> t_grp (y_wts (gs_sys s)) = Some i).
    rewrite Ht. split; [done|congruence].
Qed.

(** C18. Changing the group of a task that is on its run queue: a direct switch between
    groups and a request for what already holds change nothing; otherwise the task joins
    or leaves, is on the list of its group and on no other, and its busy time moves
    between the account of the run queues and that of the group without touching what
    the two accounts of any CPU hold for other tasks, in both windows; afterwards all
    its busy time is on record. *)
Theorem set_group_id_spec c W e wallclock now group_id s :
  present c W wallclock (gs_sys s) -> groups_ok s -> walt_flag_test (y_wts (gs_sys s)) WALT_INIT_BIT = true ->
  0 <= group_id < MAX_NUM_CGROUP_COLOC_ID ->
  let '(s', rc) := __sched_set_group_id c e wallclock now group_id s in
  let y := gs_sys s in let y' := gs_sys s' in
  rc = 0 /\ groups_ok s' /\ settled (y_wts y') /\
  t_grp (y_wts y') = match t_grp (y_wts y) with
                     | None => if group_id =? 0 then None else Some group_id
                     | Some g => if group_id =? 0 then None else Some g
                     end /\
  (forall i x, 0 <= i < WALT_NR_CPUS -> tracked_window W (dst_window c W wallclock (p_cpu (y_p y)) y) x ->
     rq_others W y' i x = rq_others W y i x /\ grp_others W y' i x = grp_others W y i x).
Proof.
  intros Hp Hok Hf Hid. unfold __sched_set_group_id. rewrite (proj2 (Z.leb_gt _ _)), Hf by lia. cbn [negb].
  assert (forall g, (is_Some g <-> t_grp (y_wts (gs_sys s)) = None) ->
    forall s', groups_ok s' -> (exists b, gs_sys s' = y_emit_if b sched_update_hyst_times (regroup c wallclock now g (gs_sys s))) ->
    0 = 0 /\ groups_ok s' /\ settled (y_wts (gs_sys s')) /\ t_grp (y_wts (gs_sys s')) = g /\
    forall i x, 0 <= i < WALT_NR_CPUS -> tracked_window W (dst_window c W wallclock (p_cpu (y_p (gs_sys s))) (gs_sys s)) x ->
      rq_others W (gs_sys s') i x = rq_others W (gs_sys s) i x /\ grp_others W (gs_sys s') i x = grp_others W (gs_sys s) i x) as H.
  { intros g Hg s' Hs (b & ->). destruct (regrouped c W wallclock now _ g Hp Hg) as (R1 & R2 & _).
    destruct (emitted_sys b sched_update_hyst_times (regroup c wallclock now g (gs_sys s))) as [Ep Ew].
    split; [done|]. split; [done|]. unfold y_wts. rewrite Ep. split; [exact R2|]. split; [done|].
    intros i x Hi Hx. destruct (others_ext W _ _ i x Ep Ew) as [-> ->]. by apply R1. }
  destruct (t_grp (y_wts (gs_sys s))) as [id|] eqn:Eg.
  - destruct (Z.eqb_spec group_id 0) as [->|Hne]; cbn [negb]; [|split_and!; try done; apply Hp].
    destruct (go_alloc _ Hok id (go_grp _ Hok _ Eg)) as (g & El & _). rewrite El.
    destruct (leave_groups c W e wallclock now id g s Hp Hok El Eg) as [L1 L2].
    apply H; [split; [by intros [? [=]]|done]|done..].
  - destruct (Z.eqb_spec group_id 0) as [->|Hne]; [split_and!; try done; apply Hp|].
    destruct (go_alloc _ Hok group_id ltac:(lia)) as (g & El & _). rewrite El.
    destruct (join_groups c W e wallclock now group_id g s Hp Hok ltac:(lia) El Eg) as [L1 L2].
    apply H; [split; [done|by eexists]|done..].
Qed.

(** ** When a group goes back to the smallest cluster *)

(** One call of [_set_preferred_cluster]: its time, the task at hand and the others. *)
Record update := mk_update { u_time : Z; u_p : task_struct; u_tasks : Z -> task_struct }.

Section Hysteresis.
Context (c : walt_cfg) (e : grp_env) (g0 : walt_related_thread_group).

Definition env_at (u : update) : grp_env :=
  mk_genv (sched_group_upmigrate e) (sched_group_downmigrate e) (sysctl_sched_coloc_downmigrate_ns e)
    (sysctl_sched_hyst_min_coloc_ns e) (sysctl_sched_min_task_util_for_boost e) (is_suh_max e) (hmp_capable e)
    (ge_trace e) (u_tasks u) (ge_tg e) (ge_low_latency e).
Definition prefer_at (g : walt_related_thread_group) (u : update) : walt_related_thread_group :=
  (_set_preferred_cluster c (env_at u) (u_time u) (u_p u) g).1.
Definition run (l : list update) : walt_related_thread_group := fold_left prefer_at l g0.
Definition demand_at (u : update) : Z * bool :=
  group_demand c (env_at u) (u_time u) (group_tasks (env_at u) (u_p u) g0) 0.
Definition low (u : update) : Prop := (demand_at u).1 < sched_group_downmigrate e.

(** The group has tasks and skips the smallest cluster, for long enough that a fall of
    the demand is not acted upon at once; no fall was seen yet. *)
Record skipping : Prop := mk_skipping {
  sk_thresholds : 0 < sched_group_downmigrate e <= sched_group_upmigrate e;
  sk_delay : 0 < sysctl_sched_coloc_downmigrate_ns e;
  sk_hint : is_suh_max e = false;
  sk_hmp : hmp_capable e = true;
  sk_tasks : rg_tasks g0 <> [];
  sk_skip : rg_skip_min g0 = true;
  sk_steady : rg_downmigrate_ts g0 = 0;
  sk_start : 0 <= rg_start_ktime_ts g0
}.

(** Updates in the order of time, a tenth of a window apart at least and after the first
    period, without a boosted task. *)
Fixpoint spaced (t : Z) (l : list update) : Prop :=
  match l with
  | [] => True
  | u :: l => 0 < u_time u /\ t + sched_ravg_window c / 10 <= u_time u < 2 ^ 63 /\
              rg_start_ktime_ts g0 + sysctl_sched_hyst_min_coloc_ns e <= u_time u /\
              (demand_at u).2 = false /\ spaced (u_time u) l
  end.

(** The time of the first of the low updates at the end of [l], from [since] on. *)
Definition low_from (since : Z) (l : list update) : Z :=
  fold_left (fun since u => if (demand_at u).1 <? sched_group_downmigrate e
                            then if since =? 0 then u_time u else since else 0) l since.

(** A step while the group skips the cluster. *)
Lemma prefer_step g u t :
  skipping -> rg_tasks g = rg_tasks g0 -> rg_skip_min g = true -> rg_start_ktime_ts g = rg_start_ktime_ts g0 ->
  0 <= rg_downmigrate_ts g <= t -> 0 <= rg_last_update g <= t -> 0 <= sched_ravg_window c -> spaced t [u] ->
  0 <= sysctl_sched_hyst_min_coloc_ns e ->
  let since := low_from (rg_downmigrate_ts g) [u] in
  let g' := prefer_at g u in
  if (demand_at u).1 <? sched_group_downmigrate e
  then if (negb (rg_downmigrate_ts g =? 0)) && (sysctl_sched_coloc_downmigrate_ns e <? u_time u - rg_downmigrate_ts g)
       then rg_skip_min g' = false
       else rg_skip_min g' = true /\ rg_downmigrate_ts g' = since /\ rg_last_update g' = u_time u /\
            rg_tasks g' = rg_tasks g0 /\ rg_start_ktime_ts g' = rg_start_ktime_ts g0
  else rg_skip_min g' = true /\ rg_downmigrate_ts g' = since /\ rg_last_update g' = u_time u /\
       rg_tasks g' = rg_tasks g0 /\ rg_start_ktime_ts g' = rg_start_ktime_ts g0.
Proof.
  intros [K1 K2 K3 K4 K5 K6 K7 K8] Ht Hs Hk Hd Hl HW (U0 & U1 & U2 & U3 & _) Hm. cbv zeta.
  unfold prefer_at, _set_preferred_cluster. cbn [env_at sched_group_upmigrate hmp_capable].
  rewrite (proj2 (Z.eqb_neq (sched_group_upmigrate e) 0)) by lia. rewrite bool_decide_eq_false_2 by (by rewrite Ht). rewrite K4. cbn [negb].
  assert (0 <= sched_ravg_window c / 10) as HW' by (apply Z.div_pos; lia).
  rewrite (u64_small (u_time u - rg_last_update g)) by lia.
  rewrite (proj2 (Z.ltb_ge (u_time u - rg_last_update g) _)) by lia.
  assert (group_tasks (env_at u) (u_p u) g = group_tasks (env_at u) (u_p u) g0) as -> by (unfold group_tasks; by rewrite Ht).
  fold (demand_at u). destruct (demand_at u) as [d b] eqn:Ed. cbn [snd] in U3. subst b. cbn [fst].
  unfold update_best_cluster. cbn [env_at is_suh_max sched_group_upmigrate sched_group_downmigrate
    sysctl_sched_coloc_downmigrate_ns sysctl_sched_hyst_min_coloc_ns rg_skip_min rg_last_update rg_start_ktime_ts rg_downmigrate_ts].
  rewrite K3. cbn. rewrite Hs, Hk. cbn [negb]. unfold low_from. cbn [fold_left]. rewrite Ed. cbn [fst].
  rewrite !u64_small by lia. rewrite (proj2 (Z.eqb_neq (sysctl_sched_coloc_downmigrate_ns e) 0)) by lia.
  rewrite (proj2 (Z.ltb_ge (u_time u - rg_start_ktime_ts g0) _)) by lia. cbn [orb].
  destruct (d <? sched_group_downmigrate e) eqn:Ell; destruct (rg_downmigrate_ts g =? 0) eqn:Ez; cbn [negb andb].
  - cbn. by rewrite andb_false_r.
  - destruct (_ <? u_time u - rg_downmigrate_ts g); cbn; [by case_if|]. by rewrite andb_false_r.
  - cbn. rewrite andb_false_r. apply Z.eqb_eq in Ez. by rewrite Ez.
  - cbn. by rewrite andb_false_r.
Qed.

(** The group in the middle of a run, at time [t]. *)
Record underway (t : Z) (g : walt_related_thread_group) : Prop := mk_underway {
  uw_tasks : rg_tasks g = rg_tasks g0;
  uw_skip : rg_skip_min g = true;
  uw_start : rg_start_ktime_ts g = rg_start_ktime_ts g0;
  uw_low : 0 <= rg_downmigrate_ts g <= t;
  uw_last : 0 <= rg_last_update g <= t
}.

Hypothesis Hsk : skipping.
Hypothesis Hwin : 0 <= sched_ravg_window c.
Hypothesis Hmin : 0 <= sysctl_sched_hyst_min_coloc_ns e.

Lemma underway_step t g u :
  underway t g -> spaced t [u] -> rg_skip_min (prefer_at g u) = true ->
  underway (u_time u) (prefer_at g u) /\ rg_downmigrate_ts (prefer_at g u) = low_from (rg_downmigrate_ts g) [u].
Proof.
  intros [H1 H2 H3 H4 H5] Hu Hs. pose proof (prefer_step g u t Hsk H1 H2 H3 H4 H5 Hwin Hu Hmin) as H. cbv zeta in H.
  assert (0 <= low_from (rg_downmigrate_ts g) [u] <= u_time u) as Hb.
  { destruct Hu as (U0 & U1 & _). assert (0 <= sched_ravg_window c / 10) by (apply Z.div_pos; lia).
    unfold low_from. cbn. repeat case_if; lia. }
  assert (rg_downmigrate_ts (prefer_at g u) = low_from (rg_downmigrate_ts g) [u] /\ rg_last_update (prefer_at g u) = u_time u /\
    rg_tasks (prefer_at g u) = rg_tasks g0 /\ rg_start_ktime_ts (prefer_at g u) = rg_start_ktime_ts g0) as (E1 & E2 & E3 & E4).
  { destruct (_ <? sched_group_downmigrate e); [|tauto]. destruct (_ && _); [congruence|tauto]. }
  split; [|done]. destruct Hu as (U0 & _). split; try done; lia.
Qed.

Lemma run_underway l : forall t g,
  underway t g -> spaced t l -> (forall l1 l2, l = l1 ++ l2 -> rg_skip_min (fold_left prefer_at l1 g) = true) ->
  exists t', underway t' (fold_left prefer_at l g) /\
    rg_downmigrate_ts (fold_left prefer_at l g) = low_from (rg_downmigrate_ts g) l /\
    forall v, spaced t (l ++ [v]) -> spaced t' [v].
Proof.
  induction l as [|u l IH]; intros t g Hg Hsp Hl; [by exists t|].
  destruct Hsp as (U0 & U1 & U2 & U3 & U4).
  destruct (underway_step t g u Hg) as (G1 & G2); [cbn; tauto|by apply (Hl [u] l)|].
  destruct (IH (u_time u) (prefer_at g u) G1 U4) as (t' & T1 & T2 & T3).
  { intros l1 l2 ->. by apply (Hl (u :: l1) l2). }
  exists t'. split; [exact T1|]. split; [cbn [fold_left]; rewrite T2, G2; done|].
  intros v Hv. apply T3. by destruct Hv as (_ & _ & _ & _ & Hv).
Qed.

(** The low updates at the end of a sequence. *)
Lemma low_from_some l : forall s, low_from s l <> 0 ->
  (low_from s l = s /\ Forall low l) \/
  exists l1 u l2, l = l1 ++ u :: l2 /\ Forall low (u :: l2) /\ u_time u = low_from s l.
Proof.
  induction l as [|a l IH]; intros s Hs; [by left|]. change (low_from s (a :: l)) with (low_from (low_from s [a]) l) in *.
  destruct (IH _ Hs) as [[E F]|(l1 & u & l2 & -> & F & E)]; [|right; by exists (a :: l1), u, l2].
  rewrite E in Hs |- *. unfold low_from in Hs |- *. cbn in Hs |- *. destruct (Z.ltb_spec (demand_at a).1 (sched_group_downmigrate e)); [|done].
  destruct (Z.eqb_spec s 0); [right; exists [], a, l|left]; split_and!; try done; by constructor.
Qed.

Lemma low_from_low l : forall s, Forall low l -> s <> 0 -> low_from s l = s.
Proof.
  induction l as [|a l IH]; intros s F Hs; [done|]. inversion F as [|? ? F1 F2]; subst.
  change (low_from s (a :: l)) with (low_from (low_from s [a]) l).
  assert (low_from s [a] = s) as ->; [|by apply IH].
  unfold low_from. cbn. unfold low in F1. rewrite (proj2 (Z.ltb_lt _ _) F1). by rewrite (proj2 (Z.eqb_neq s 0)).
Qed.

Lemma low_from_suffix l1 u l2 : forall t s, spaced t (l1 ++ u :: l2) -> 0 <= s <= t -> Forall low (u :: l2) ->
  0 < low_from s (l1 ++ u :: l2) <= u_time u.
Proof.
  assert (0 <= sched_ravg_window c / 10) as HW by (apply Z.div_pos; lia).
  induction l1 as [|a l1 IH]; intros t s Hsp Hs F; cbn [app] in *.
  - inversion F as [|? ? F1 F2]; subst. change (low_from s (u :: l2)) with (low_from (low_from s [u]) l2).
    destruct Hsp as (U0 & U1 & _).
    assert (0 < low_from s [u] <= u_time u) as Hb.
    { unfold low_from. cbn. unfold low in F1. rewrite (proj2 (Z.ltb_lt _ _) F1). destruct (Z.eqb_spec s 0); lia. }
    rewrite low_from_low; [done|done|lia].
  - destruct Hsp as (U0 & U1 & U2 & U3 & U4). change (low_from s (a :: l1 ++ u :: l2)) with (low_from (low_from s [a]) (l1 ++ u :: l2)).
    apply (IH (u_time a)); [done| |done]. unfold low_from. cbn. repeat case_if; lia.
Qed.

(** A group that skips the smallest cluster goes back to it exactly when its combined
    demand was below the down-migration threshold at every update of a stretch that lasted
    longer than the configured delay: while the group kept skipping over the updates
    [l], the next one ends it if and only if it is low and some stretch of low updates at
    the end of [l] began longer than the delay ago. *)
Theorem preferred_cluster_hysteresis l v :
  0 <= rg_last_update g0 -> spaced (rg_last_update g0) (l ++ [v]) ->
  (forall l1 l2, l = l1 ++ l2 -> rg_skip_min (run l1) = true) ->
  rg_skip_min (run (l ++ [v])) = false <->
  low v /\ exists l1 u l2, l = l1 ++ u :: l2 /\ Forall low (u :: l2) /\
                           sysctl_sched_coloc_downmigrate_ns e < u_time v - u_time u.
Proof.
  intros H0 Hsp Hl. assert (spaced (rg_last_update g0) l) as Hsp'.
  { clear -Hsp. revert Hsp. generalize (rg_last_update g0). induction l as [|a l IH]; intros t H; [done|].
    destruct H as (A1 & A2 & A3 & A4 & A5). split_and!; try done; by apply IH || apply A2. }
  destruct (run_underway l (rg_last_update g0) g0) as (t & [T1 T2 T3 T4 T5] & E & Ev); [|done|done|].
  { split; try done; try apply Hsk; rewrite ?(sk_steady Hsk); lia. }
  rewrite (sk_steady Hsk) in E. specialize (Ev v Hsp).
  pose proof (prefer_step _ v t Hsk T1 T2 T3 T4 T5 Hwin Ev Hmin) as H. cbv zeta in H. rewrite E in H.
  fold (run l) in H. assert (run (l ++ [v]) = prefer_at (run l) v) as -> by (unfold run; by rewrite fold_left_app).
  unfold low at 1. destruct (Z.ltb_spec (demand_at v).1 (sched_group_downmigrate e)) as [Hv|Hv];
    [|destruct H as (-> & _); split; [done|lia]].
  destruct (Z.eqb_spec (low_from 0 l) 0) as [Ez|Ez]; cbn [negb andb] in H.
  - destruct H as (-> & _). split; [done|]. intros (_ & l1 & u & l2 & -> & F & _).
    pose proof (low_from_suffix l1 u l2 _ 0 Hsp' ltac:(lia) F). lia.
  - destruct (Z.ltb_spec (sysctl_sched_coloc_downmigrate_ns e) (u_time v - low_from 0 l)) as [Hd|Hd].
    + split; [|done]. intros _. split; [done|].
      destruct (low_from_some l 0 Ez) as [[E0 _]|(l1 & u & l2 & -> & F & Eu)]; [done|]. exists l1, u, l2. rewrite Eu. done.
    + destruct H as (-> & _). split; [done|]. intros (_ & l1 & u & l2 & -> & F & Hu).
      pose proof (low_from_suffix l1 u l2 _ 0 Hsp' ltac:(lia) F). lia.
Qed.

End Hysteresis.

(** ** Examples *)

Lemma alloc_lookup id : 1 <= id < MAX_NUM_CGROUP_COLOC_ID ->
  default None (alloc_related_thread_groups !! Z.to_nat id) = Some (mk_rtg id [] false false 0 0 0).
Proof.
  unfold MAX_NUM_CGROUP_COLOC_ID. intros H. unfold alloc_related_thread_groups.
  replace (Z.to_nat id) with (Datatypes.S (Z.to_nat (id - 1))) by lia.
  match goal with |- default None ((_ :: ?l) !! Datatypes.S ?n) = _ => change (default None (l !! n) = Some (mk_rtg id [] false false 0 0 0)) end.
  rewrite list_lookup_fmap.
  assert (seq 1 (Z.to_nat MAX_NUM_CGROUP_COLOC_ID - 1) !! Z.to_nat (id - 1) = Some (Z.to_nat id)) as ->.
  { apply lookup_seq. unfold MAX_NUM_CGROUP_COLOC_ID. split; lia. }
  cbn. do 2 f_equal. lia.
Qed.

(** Right after the allocation, a task outside any group. *)
Lemma alloc_groups_ok y : t_grp (y_wts y) = None -> groups_ok (mk_gsys y alloc_related_thread_groups).
Proof.
  intros Hg. split; [done| |].
  - intros id Hid. exists (mk_rtg id [] false false 0 0 0). split; [by apply alloc_lookup|].
    split; [done|]. split; [constructor|]. unfold y_wts in Hg. cbn [gs_sys]. rewrite Hg. split; [|done].
    intros H. by apply not_elem_of_nil in H.
  - intros id. cbn [gs_sys]. by rewrite Hg.
Qed.

Definition demo_genv : grp_env :=
  mk_genv 20000000 19000000 40000000 0 50 false true false (fun _ => demo_mover) (fun _ => None) (fun _ => false).
Definition demo_member : sys := on_y_wts (fun t => t <| t_flags := WALT_INIT_BIT |>) demo_sys.
Definition demo_gsys : grp_sys := mk_gsys demo_member alloc_related_thread_groups.

Lemma demo_present : present sample_cfg 16000000 44000000 demo_member.
Proof.
  assert (task_ok sample_cfg 16000000 (wts_of (focus (p_cpu (y_p demo_member)) demo_member))) as Hk.
  { split; try (vm_compute; done); try (by vm_compute; split); repeat constructor; by vm_compute. }
  split; try (by vm_compute).
  - split; [by split|by vm_compute|split; by vm_compute|by vm_compute|by vm_compute|exact Hk|by vm_compute..|].
    intros g [-> | ->]; by vm_compute.
  - intros x. unfold own_part, contrib, gcount, at_window.
    assert (t_window_start (y_wts demo_member) = 32000000) as -> by (vm_compute; reflexivity).
    assert (w_window_start (cpu_wrq demo_member (p_cpu (y_p demo_member))) = 32000000) as -> by (vm_compute; reflexivity).
    change (task_in_related_thread_group (y_wts demo_member)) with false. cbv iota. repeat case_if; by vm_compute.
  - intros x _. unfold own_part, contrib, nt_gcount, at_window.
    assert (t_window_start (y_wts demo_member) = 32000000) as -> by (vm_compute; reflexivity).
    assert (w_window_start (cpu_wrq demo_member (p_cpu (y_p demo_member))) = 32000000) as -> by (vm_compute; reflexivity).
    change (task_in_related_thread_group (y_wts demo_member)) with false. cbv iota. repeat case_if; by vm_compute.
  - intros _ i Hi _. apply unused_subs_ok; [|by vm_compute|by vm_compute]. unfold WALT_NR_CPUS in Hi.
    assert (i = 0 \/ i = 1 \/ i = 2 \/ i = 3 \/ i = 4 \/ i = 5 \/ i = 6 \/ i = 7) as H8 by lia.
    destruct H8 as [->|[->|[->|[->|[->|[->|[->| ->]]]]]]]; vm_compute; reflexivity.
  - intros _ i Hi. unfold WALT_NR_CPUS in Hi.
    assert (i = 0 \/ i = 1 \/ i = 2 \/ i = 3 \/ i = 4 \/ i = 5 \/ i = 6 \/ i = 7) as H8 by lia.
    destruct H8 as [->|[->|[->|[->|[->|[->|[->| ->]]]]]]]; vm_compute; done.
Qed.

Lemma set_group_id_spec_witness :
  let s' := (__sched_set_group_id sample_cfg demo_genv 44000000 44000000 1 demo_gsys).1 in
  groups_ok s' /\ rq_others 16000000 (gs_sys s') 5 16000000 = 500000 /\
  grp_others 16000000 (gs_sys s') 4 32000000 = 0 /\
  rg_tasks <$> lookup_related_thread_group 1 s' = Some [p_id demo_mover] /\
  g_prev_runnable_sum (w_grp_time (cpu_wrq (gs_sys s') 4)) = 2000000.
Proof.
  assert (0 <= 5 < WALT_NR_CPUS) as I5 by (by vm_compute). assert (0 <= 4 < WALT_NR_CPUS) as I4 by (by vm_compute).
  pose proof (set_group_id_spec sample_cfg 16000000 demo_genv 44000000 44000000 1 demo_gsys demo_present
    (alloc_groups_ok demo_member eq_refl) ltac:(by vm_compute) ltac:(by vm_compute)) as H.
  destruct (__sched_set_group_id _ _ _ _ _ _) as [s' rc] eqn:E. destruct H as (_ & H1 & _ & _ & H2).
  cbn [fst]. split; [exact H1|]. split; [|split].
  - destruct (H2 5 16000000 I5) as [A _]; [right; vm_compute; reflexivity|].
    etransitivity; [exact A|]. vm_compute. reflexivity.
  - destruct (H2 4 32000000 I4) as [_ A]; [left; vm_compute; reflexivity|].
    etransitivity; [exact A|]. vm_compute. reflexivity.
  - apply (f_equal fst) in E. cbn [fst] in E. rewrite <-E. clear. vm_compute. split; reflexivity.
Defined.

Definition demo_skipping : walt_related_thread_group := mk_rtg 1 [1] true true 900000000 0 500000000.
Definition demo_update (t : Z) : update := mk_update t demo_mover (fun _ => demo_mover).

Lemma preferred_cluster_hysteresis_witness :
  rg_skip_min (run sample_cfg demo_genv demo_skipping [demo_update 1000000000; demo_update 1030000000; demo_update 1050000000]) = false.
Proof.
  apply (preferred_cluster_hysteresis sample_cfg demo_genv demo_skipping
    ltac:(by split) ltac:(by vm_compute) ltac:(by vm_compute) [demo_update 1000000000; demo_update 1030000000] (demo_update 1050000000)).
  - by vm_compute.
  - cbn. unfold demand_at. by vm_compute.
  - intros [|a [|b [|? ?]]] l2 [=]; subst; by vm_compute.
  - split; [by vm_compute|]. exists [], (demo_update 1000000000), [demo_update 1030000000].
    split; [done|]. split; [repeat constructor; by vm_compute|by vm_compute].
Defined.

End Groups.
