(* ===== verification/SchedAvg.v ===== *)
(** * Average numbers of running tasks

    [sched_avg.c]: every enqueue and dequeue closes a rectangle (tasks times elapsed
    time) of the CPU, and the window roll-over turns the collected areas into the
    averages core control and the frequency caps work with. The same events start a
    busy hysteresis, during which the CPU must not enter deep idle states. *)

From Stdlib Require Import ZArith Lia ZifyBool Bool.
From stdpp Require Import base list numbers.
From S2P Require Import Prelude WaltTypes Migrate Cpumask SmartFreq CoreCtl Boost Group.

Module Averages.

Definition NR_THRESHOLD_PCT : Z := 40.
Definition TRAILBLAZER_BOOST_THRESH_IPC : Z := 300.
Definition BUSY_NR_RUN : Z := 3.
Definition BUSY_LOAD_FACTOR : Z := 10.

(** ** State *)

(** The per-CPU variables of the file. *)
Record nr_cpu := mk_nrc {
  n_nr_prod_sum : Z;
  n_last_time : Z;
  n_last_time_cpu : Z;
  n_nr_big_prod_sum : Z;
  n_nr_giant_prod_sum : Z;
  n_nr : Z;
  n_nr_max : Z;
  n_busy_hyst_end_time : Z;
  n_hyst_time : Z;
  n_coloc_hyst_busy : Z;
  n_coloc_hyst_time : Z;
  n_util_hyst_time : Z;
  n_smart_freq_legacy_reason_hyst_ns : Z
}.

Record avg_sys := mk_asys {
  v_cpus : list nr_cpu;
  v_stats : list sched_avg_stats;
  last_get_time : Z;
  cstats_util_pct : list Z;
  trailblazer_boost_state_ns : Z;
  v_log : list walt_effect
}.

(** What the file reads from elsewhere; [v_large_cpu_cap_low] is the answer of
    [is_large_cpu_cap_low], [v_conservative_bias] whether
    [CONFIG_SCHED_CONSERVATIVE_BOOST_LPM_BIAS] is set. *)
Record avg_env := mk_aenv {
  v_cfg : walt_cfg;
  v_wrqs : list walt_rq;
  v_groups : grp_sys;
  v_nr_running : Z -> Z;
  v_walt_disabled : bool;
  v_ipc_cnt : Z -> Z;
  v_large_cpu_cap_low : bool;
  v_is_obet : bool;
  v_is_reserved : Z -> bool;
  v_this_cpu : Z;
  v_conservative_bias : bool;
  sysctl_sched_busy_hyst_enable_cpus : Z;
  sysctl_sched_busy_hyst : Z;
  sysctl_sched_coloc_busy_hyst_enable_cpus : Z;
  sysctl_sched_coloc_busy_hyst_cpu : list Z;
  sysctl_sched_coloc_busy_hyst_max_ms : Z;
  sysctl_sched_coloc_busy_hyst_cpu_busy_pct : list Z;
  sysctl_sched_util_busy_hyst_enable_cpus : Z;
  sysctl_sched_util_busy_hyst_cpu : list Z;
  sysctl_sched_util_busy_hyst_cpu_util : list Z;
  smart_freq_legacy_reason_hyst_ms : list (list Z)
}.

Definition no_nrc : nr_cpu := mk_nrc 0 0 0 0 0 0 0 0 0 0 0 0 0.
Definition no_stats : sched_avg_stats := mk_avg 0 0 0 0 0.
Definition per_cpu (s : avg_sys) (cpu : Z) : nr_cpu := nth (Z.to_nat cpu) (v_cpus s) no_nrc.
Definition stats (s : avg_sys) (cpu : Z) : sched_avg_stats := nth (Z.to_nat cpu) (v_stats s) no_stats.
Definition set_per_cpu (cpu : Z) (n : nr_cpu) (s : avg_sys) : avg_sys :=
  s <| v_cpus := <[Z.to_nat cpu := n]> (v_cpus s) |>.
Definition on_per_cpu (cpu : Z) (f : nr_cpu -> nr_cpu) (s : avg_sys) : avg_sys :=
  set_per_cpu cpu (f (per_cpu s cpu)) s.
Definition v_emit_if (b : bool) (e : walt_effect) (s : avg_sys) : avg_sys :=
  if b then s <| v_log := v_log s ++ [e] |> else s.

Definition v_wrq (e : avg_env) (cpu : Z) : walt_rq := nth (Z.to_nat cpu) (v_wrqs e) no_wrq.
Definition walt_big_tasks (e : avg_env) (cpu : Z) : Z := u32 (s_nr_big_tasks (w_walt_stats (v_wrq e cpu))).
Definition walt_trailblazer_tasks (e : avg_env) (cpu : Z) : Z :=
  s_nr_trailblazer_tasks (w_walt_stats (v_wrq e cpu)).
Definition walt_giant_tasks (e : avg_env) (cpu : Z) : Z := s_nr_giant_tasks (w_walt_stats (v_wrq e cpu)).
Definition cpu_util (e : avg_env) (cpu : Z) : Z :=
  Z.min (s_cumulative_runnable_avg_scaled (w_walt_stats (v_wrq e cpu))) (w_cpu_capacity_orig (v_wrq e cpu)).
Definition max_rtgb_time (e : avg_env) : Z := sysctl_sched_coloc_busy_hyst_max_ms e * NSEC_PER_MSEC.
Definition largest_cpus (e : avg_env) : Z := aget (cpu_array0 (v_cfg e)) (num_sched_clusters (v_cfg e) - 1).
Definition for_each_possible_cpu {S : Type} (e : avg_env) (f : Z -> S -> S) (s : S) : S :=
  for_range 0 (Z.to_nat (nr_cpu_ids (v_cfg e))) f s.

(** ** Operations *)

Definition sched_get_cluster_util_pct (s : avg_sys) (id : Z) : Z :=
  if id <? MAX_CLUSTERS then aget (cstats_util_pct s) id else 0.

Definition hyst_times_of (e : avg_env) (rtgb_active : bool) (cpu : Z) (n : nr_cpu) : nr_cpu :=
  n <| n_hyst_time := if Z.testbit (sysctl_sched_busy_hyst_enable_cpus e) cpu
                      then sysctl_sched_busy_hyst e else 0 |>
    <| n_coloc_hyst_time := if Z.testbit (sysctl_sched_coloc_busy_hyst_enable_cpus e) cpu && rtgb_active
                            then aget (sysctl_sched_coloc_busy_hyst_cpu e) cpu else 0 |>
    <| n_coloc_hyst_busy := mult_frac (arch_scale_cpu_capacity (v_cfg e) cpu)
                              (aget (sysctl_sched_coloc_busy_hyst_cpu_busy_pct e) cpu) 100 |>
    <| n_util_hyst_time := if Z.testbit (sysctl_sched_util_busy_hyst_enable_cpus e) cpu
                           then aget (sysctl_sched_util_busy_hyst_cpu e) cpu else 0 |>.

(** [now] is the clock [get_rtgb_active_time] reads. *)
Definition sched_update_hyst_times (e : avg_env) (now : Z) (s : avg_sys) : avg_sys :=
  let rtgb_active := is_rtgb_active (v_groups e) &&
                     negb (sched_boost_type (v_cfg e) =? CONSERVATIVE_BOOST) &&
                     (get_rtgb_active_time now (v_groups e) <? max_rtgb_time e) in
  for_each_possible_cpu e (fun cpu => on_per_cpu cpu (hyst_times_of e rtgb_active cpu)) s.

(** [proc_dointvec_minmax] is the kernel's: given the size limit and whether it writes, it
    returns an error number and leaves the tunables of the environment it gives back. *)
Definition sched_busy_hyst_handler (proc_dointvec_minmax : Z -> bool -> Z * avg_env) (e : avg_env)
    (now maxlen : Z) (write : bool) (s : avg_sys) : Z * avg_env * avg_sys :=
  let limit := 4 * nr_cpu_ids (v_cfg e) in
  let maxlen := if limit <? maxlen then limit else maxlen in
  let '(ret, e) := proc_dointvec_minmax maxlen write in
  let s := if (ret =? 0) && write then sched_update_hyst_times e now s else s in
  (ret, e, s).

(** The loop over the utilisations, with its [break]. *)
Definition util_reaches (e : avg_env) (threshold : Z) : bool :=
  snd (for_each_possible_cpu e (fun i (st : Z * bool) =>
         let '(total_util, found) := st in
         if found then st else
         let total_util := u64 (total_util + cpu_util e i) in
         (total_util, threshold <=? total_util)) (0, false)).

(** [agg_hyst_time], 0 when nothing triggers. *)
Definition agg_hyst_time (e : avg_env) (cpu enq prev_nr_run : Z) (n : nr_cpu) : Z :=
  let dequeue := enq <? 0 in
  let nr_run_trigger := (BUSY_NR_RUN <=? prev_nr_run) && (n_nr n <? BUSY_NR_RUN) in
  let load_trigger := dequeue &&
    (w_cpu_capacity_orig (v_wrq e cpu) <? cpu_util e cpu * BUSY_LOAD_FACTOR) in
  let coloc_load_trigger := dequeue && (n_coloc_hyst_busy n <? cpu_util e cpu) in
  let util_load_trigger := dequeue && util_reaches e (aget (sysctl_sched_util_busy_hyst_cpu_util e) cpu) in
  let coloc_trigger := nr_run_trigger || coloc_load_trigger in
  let hyst_trigger := nr_run_trigger || load_trigger ||
    (v_conservative_bias e && (sched_boost_type (v_cfg e) =? CONSERVATIVE_BOOST)) in
  Z.max (Z.max (Z.max (if hyst_trigger then n_hyst_time n else 0)
                      (if coloc_trigger then n_coloc_hyst_time n else 0))
               (if util_load_trigger then n_util_hyst_time n else 0))
        (n_smart_freq_legacy_reason_hyst_ns n).

Definition no_hysteresis (n : nr_cpu) : bool :=
  (n_hyst_time n =? 0) && (n_coloc_hyst_time n =? 0) && (n_util_hyst_time n =? 0) &&
  (n_smart_freq_legacy_reason_hyst_ns n =? 0).

Definition update_busy_hyst_end_time (e : avg_env) (cpu enq prev_nr_run curr_time : Z) (n : nr_cpu) : nr_cpu :=
  if is_max_possible_cluster_cpu (v_cfg e) cpu && v_is_obet e &&
     ((1 <? cpumask_weight (largest_cpus e)) || negb (pipeline_in_progress (v_cfg e))) then n else
  if no_hysteresis n then n else
  let agg := agg_hyst_time e cpu enq prev_nr_run n in
  if negb (agg =? 0) then n <| n_busy_hyst_end_time := u64 (curr_time + agg) |> else n.

(** [curr_time] is the reading of [sched_clock] under the lock. *)
Definition sched_update_nr_prod (e : avg_env) (cpu enq curr_time : Z) (s : avg_sys) : avg_sys :=
  let n := per_cpu s cpu in
  let nr_running := n_nr n in
  let diff := u64 (curr_time - n_last_time n) in
  let s := v_emit_if (s64 diff <? 0) (WALT_PANIC bug_nr_clock_backwards) s in
  let n := n <| n_last_time := curr_time |> <| n_last_time_cpu := v_this_cpu e |>
             <| n_nr := u32 (v_nr_running e cpu + enq) |> in
  let n := if n_nr_max n <? n_nr n then n <| n_nr_max := n_nr n |> else n in
  let n := if negb (enq =? 0) then update_busy_hyst_end_time e cpu enq nr_running curr_time n else n in
  let n := n <| n_nr_prod_sum := u64 (n_nr_prod_sum n + nr_running * diff) |>
             <| n_nr_big_prod_sum := u64 (n_nr_big_prod_sum n + walt_big_tasks e cpu * diff) |>
             <| n_nr_giant_prod_sum := u64 (n_nr_giant_prod_sum n + walt_giant_tasks e cpu * diff) |> in
  set_per_cpu cpu n s.

(** One product sum as it is reported: the average in percent. *)
Definition scaled_avg (sum level diff period : Z) : Z :=
  u64 (u64 (sum + u64 (level * diff)) * 100) / period.
Definition rounded (avg : Z) : Z := s32 (u64 (avg + NR_THRESHOLD_PCT) / 100).

(** The body of the first loop of [sched_get_nr_running_avg]; [curr_time] is the clock
    read for this CPU. *)
Definition poll_cpu (e : avg_env) (period curr_time cpu : Z) (s : avg_sys) : avg_sys :=
  let n := per_cpu s cpu in
  let diff := u64 (curr_time - n_last_time n) in
  let s := v_emit_if (s64 diff <? 0) (WALT_PANIC bug_nr_clock_backwards) s in
  let tmp_nr := scaled_avg (n_nr_prod_sum n) (n_nr n) diff period in
  let tmp_misfit := scaled_avg (n_nr_big_prod_sum n) (walt_big_tasks e cpu) diff period in
  let tmp_giant := scaled_avg (n_nr_giant_prod_sum n) (walt_giant_tasks e cpu) diff period in
  let st := mk_avg (rounded tmp_nr) (rounded tmp_misfit) (s32 (n_nr_max n)) (s32 tmp_nr)
              (rounded tmp_giant) in
  let s := s <| v_stats := <[Z.to_nat cpu := st]> (v_stats s) |> in
  set_per_cpu cpu (n <| n_last_time := curr_time |> <| n_last_time_cpu := v_this_cpu e |>
                     <| n_nr_prod_sum := 0 |> <| n_nr_big_prod_sum := 0 |>
                     <| n_nr_giant_prod_sum := 0 |> <| n_nr_max := n_nr n |>) s.

Definition trailblazer_boosts (e : avg_env) (cpu : Z) : bool :=
  negb (walt_trailblazer_tasks e cpu =? 0) && cpumask_test_cpu cpu (largest_cpus e) &&
  (TRAILBLAZER_BOOST_THRESH_IPC <=? v_ipc_cnt e cpu) && negb (v_large_cpu_cap_low e).

(** The average utilisation of a cluster, in percent of the capacity of each CPU. *)
Definition cluster_util (e : avg_env) (cpus : Z) : Z :=
  for_each_cpu cpus (fun cpu sum =>
    u32 (sum + w_util (v_wrq e cpu) * 100 / arch_scale_cpu_capacity (v_cfg e) cpu)) 0
  / cpumask_weight cpus.

Definition collect_clusters (e : avg_env) (s : avg_sys) : avg_sys :=
  foldl (fun s cl => s <| cstats_util_pct := aset (cstats_util_pct s) (c_id cl) (cluster_util e (c_cpus cl)) |>)
    s (sched_cluster (v_cfg e)).

Definition any_coloc_hyst (e : avg_env) (s : avg_sys) : bool :=
  for_each_possible_cpu e (fun cpu any => any || negb (n_coloc_hyst_time (per_cpu s cpu) =? 0)) false.

(** The readings of [sched_clock] in one call: at its start, for every CPU, in
    [get_rtgb_active_time], and in the one of [sched_update_hyst_times]. *)
Record poll_clock := mk_pclk { pc_start : Z; pc_cpu : Z -> Z; pc_rtgb : Z; pc_hyst : Z }.

(** [None] is the NULL pointer, [Some] the address of the statistics. *)
Definition sched_get_nr_running_avg (e : avg_env) (k : poll_clock) (s : avg_sys)
    : avg_sys * option (list sched_avg_stats) :=
  let period := u64 (pc_start k - last_get_time s) in
  if v_walt_disabled e then (s, None) else
  if period =? 0 then (s, Some (v_stats s)) else
  let '(s, curr_time, trailblazer_boost_cpu) :=
    for_each_possible_cpu e (fun cpu '(s, _, tb) =>
      (poll_cpu e period (pc_cpu k cpu) cpu s, pc_cpu k cpu, tb || trailblazer_boosts e cpu))
      (s, pc_start k, false) in
  let s := if trailblazer_boost_cpu then s <| trailblazer_boost_state_ns := curr_time |> else s in
  let s := collect_clusters e s in
  let s := if any_coloc_hyst e s && (max_rtgb_time e <=? get_rtgb_active_time (pc_rtgb k) (v_groups e))
           then sched_update_hyst_times e (pc_hyst k) s else s in
  let s := s <| last_get_time := s64 curr_time |> in
  (s, Some (v_stats s)).

(** [capacity] is [capacity_orig_of(cpu)]. *)
Definition sched_get_cpu_util_pct (e : avg_env) (cpu : Z) : Z :=
  let w := v_wrq e cpu in
  let capacity := w_cpu_capacity_orig w in
  let util := scale_time_to_util (v_cfg e)
    (u64 (g_prev_runnable_sum (w_rq_time w) + g_prev_runnable_sum (w_grp_time w))) in
  let util := if capacity <=? util then capacity else util in
  u32 (u64 (util * 100) / capacity).

(** The return value and, when it is 0, [*timeout]. *)
Definition sched_lpm_disallowed_time (e : avg_env) (now cpu : Z) (s : avg_sys) : Z * option Z :=
  let bias_end_time := n_busy_hyst_end_time (per_cpu s cpu) in
  if v_walt_disabled e then (- EAGAIN, None) else
  if v_is_reserved e cpu then (0, Some (10 * NSEC_PER_MSEC)) else
  if now <? bias_end_time then (0, Some (bias_end_time - now)) else
  (INT_MAX, None).

Definition legacy_hyst (e : avg_env) (active_reason cpu : Z) : Z :=
  for_range 0 (Z.to_nat LEGACY_SMART_FREQ) (fun i acc =>
    if Z.testbit active_reason i
    then Z.max (aget (nth (Z.to_nat i) (smart_freq_legacy_reason_hyst_ms e) []) cpu) acc else acc) 0.

Definition update_smart_freq_legacy_reason_hyst_time (e : avg_env) (cpus active_reason : Z) (s : avg_sys) : avg_sys :=
  for_each_cpu cpus (fun cpu => on_per_cpu cpu (fun n =>
    n <| n_smart_freq_legacy_reason_hyst_ns := legacy_hyst e active_reason cpu * NSEC_PER_MSEC |>)) s.

#[global] Arguments poll_cpu : simpl never.
#[global] Arguments agg_hyst_time : simpl never.
#[global] Arguments scaled_avg : simpl never.
#[global] Arguments rounded : simpl never.

(** ** Runs

    The calls that change the state, in any order and on any CPUs. *)

Inductive avg_op : Type :=
| op_update (e : avg_env) (cpu enq time : Z)
| op_poll (e : avg_env) (k : poll_clock)
| op_hyst (e : avg_env) (now : Z)
| op_legacy (e : avg_env) (cpus active_reason : Z).

Definition avg_step (s : avg_sys) (op : avg_op) : avg_sys :=
  match op with
  | op_update e cpu enq time => sched_update_nr_prod e cpu enq time s
  | op_poll e k => fst (sched_get_nr_running_avg e k s)
  | op_hyst e now => sched_update_hyst_times e now s
  | op_legacy e cpus reason => update_smart_freq_legacy_reason_hyst_time e cpus reason s
  end.
Definition avg_run (ops : list avg_op) (s : avg_sys) : avg_sys := foldl avg_step s ops.

(** *** Per-CPU frames *)

Definition counts (n : nr_cpu) : Z * Z * Z * Z * Z * Z :=
  (n_nr_prod_sum n, n_nr_big_prod_sum n, n_nr_giant_prod_sum n, n_last_time n, n_nr n, n_nr_max n).

Lemma per_cpu_set_eq s cpu n :
  0 <= cpu < Z.of_nat (length (v_cpus s)) -> per_cpu (set_per_cpu cpu n s) cpu = n.
Proof.
  intros H. unfold per_cpu, set_per_cpu. cbn. rewrite nth_lookup, list_lookup_insert_eq by lia. done.
Qed.

Lemma per_cpu_set_ne s i j n :
  0 <= i -> 0 <= j -> i <> j -> per_cpu (set_per_cpu i n s) j = per_cpu s j.
Proof.
  intros Hi Hj Hne. unfold per_cpu, set_per_cpu. cbn.
  rewrite !nth_lookup, list_lookup_insert_ne by lia. done.
Qed.

Lemma per_cpu_set s i j n :
  0 <= i < Z.of_nat (length (v_cpus s)) -> 0 <= j ->
  per_cpu (set_per_cpu i n s) j = if i =? j then n else per_cpu s j.
Proof.
  intros Hi Hj. destruct (Z.eqb_spec i j) as [->|Hne]; [by apply per_cpu_set_eq|].
  apply per_cpu_set_ne; lia.
Qed.

Lemma per_cpu_emit_if s b x cpu : per_cpu (v_emit_if b x s) cpu = per_cpu s cpu.
Proof. by destruct b. Qed.
Lemma length_emit_if s b x : length (v_cpus (v_emit_if b x s)) = length (v_cpus s).
Proof. by destruct b. Qed.
Lemma length_set_per_cpu s cpu n : length (v_cpus (set_per_cpu cpu n s)) = length (v_cpus s).
Proof. apply length_insert. Qed.

(** A field group that an update of one CPU keeps is kept on every CPU. *)
Lemma on_per_cpu_frame {A} (g : nr_cpu -> A) s i j f :
  0 <= i -> 0 <= j -> (forall n, g (f n) = g n) -> g (per_cpu (on_per_cpu i f s) j) = g (per_cpu s j).
Proof.
  intros Hi Hj Hg. unfold on_per_cpu. destruct (Z.eq_dec i j) as [->|Hne].
  - destruct (Z_lt_le_dec j (Z.of_nat (length (v_cpus s)))) as [Hl|Hl].
    + rewrite per_cpu_set_eq by lia. apply Hg.
    + unfold per_cpu, set_per_cpu. cbn. by rewrite list_insert_ge by lia.
  - by rewrite per_cpu_set_ne by lia.
Qed.

Lemma hyst_times_frame {A} (g : nr_cpu -> A) e now s j :
  0 <= j -> (forall b cpu n, g (hyst_times_of e b cpu n) = g n) ->
  g (per_cpu (sched_update_hyst_times e now s) j) = g (per_cpu s j).
Proof.
  intros Hj Hg. unfold sched_update_hyst_times, for_each_possible_cpu.
  apply (for_range_ind (fun _ t => g (per_cpu t j) = g (per_cpu s j))); [done|].
  intros i t Hi Ht. rewrite on_per_cpu_frame; [done|lia|lia|done].
Qed.

Lemma legacy_hyst_frame {A} (g : nr_cpu -> A) e cpus r s j :
  0 <= j -> (forall z n, g (n <| n_smart_freq_legacy_reason_hyst_ns := z |>) = g n) ->
  g (per_cpu (update_smart_freq_legacy_reason_hyst_time e cpus r s) j) = g (per_cpu s j).
Proof.
  intros Hj Hg. unfold update_smart_freq_legacy_reason_hyst_time.
  apply (for_each_cpu_inv (fun t => g (per_cpu t j) = g (per_cpu s j))); [done|].
  intros i t Hi _ Ht. rewrite on_per_cpu_frame; [done|apply Hi|lia|done].
Qed.

Lemma collect_clusters_cpus e s :
  v_cpus (collect_clusters e s) = v_cpus s /\ v_stats (collect_clusters e s) = v_stats s /\
  last_get_time (collect_clusters e s) = last_get_time s.
Proof.
  unfold collect_clusters. generalize (sched_cluster (v_cfg e)) as l. intros l. revert s.
  induction l as [|cl l IH]; intros s; [done|]. cbn [foldl].
  destruct (IH (s <| cstats_util_pct := aset (cstats_util_pct s) (c_id cl) (cluster_util e (c_cpus cl)) |>))
    as (-> & -> & ->). done.
Qed.

Lemma length_hyst_times e now s : length (v_cpus (sched_update_hyst_times e now s)) = length (v_cpus s).
Proof.
  unfold sched_update_hyst_times, for_each_possible_cpu.
  apply (for_range_ind (fun _ t => length (v_cpus t) = length (v_cpus s))); [done|].
  intros i t _ Ht. unfold on_per_cpu. by rewrite length_set_per_cpu.
Qed.

Lemma hyst_times_stats e now s : v_stats (sched_update_hyst_times e now s) = v_stats s.
Proof.
  unfold sched_update_hyst_times, for_each_possible_cpu.
  by apply (for_range_ind (fun _ t => v_stats t = v_stats s)).
Qed.

Lemma length_legacy e cpus r s :
  length (v_cpus (update_smart_freq_legacy_reason_hyst_time e cpus r s)) = length (v_cpus s).
Proof.
  unfold update_smart_freq_legacy_reason_hyst_time.
  apply (for_each_cpu_inv (fun t => length (v_cpus t) = length (v_cpus s))); [done|].
  intros i t _ _ Ht. unfold on_per_cpu. by rewrite length_set_per_cpu.
Qed.

(** *** A poll *)

Definition polled (e : avg_env) (t : Z) (n : nr_cpu) : nr_cpu :=
  n <| n_last_time := t |> <| n_last_time_cpu := v_this_cpu e |>
    <| n_nr_prod_sum := 0 |> <| n_nr_big_prod_sum := 0 |>
    <| n_nr_giant_prod_sum := 0 |> <| n_nr_max := n_nr n |>.

Definition poll_stats (e : avg_env) (period t cpu : Z) (n : nr_cpu) : sched_avg_stats :=
  let diff := u64 (t - n_last_time n) in
  let avg := scaled_avg (n_nr_prod_sum n) (n_nr n) diff period in
  mk_avg (rounded avg)
    (rounded (scaled_avg (n_nr_big_prod_sum n) (walt_big_tasks e cpu) diff period))
    (s32 (n_nr_max n)) (s32 avg)
    (rounded (scaled_avg (n_nr_giant_prod_sum n) (walt_giant_tasks e cpu) diff period)).

Lemma poll_cpu_eq e period t cpu s :
  poll_cpu e period t cpu s =
  set_per_cpu cpu (polled e t (per_cpu s cpu))
    (set v_stats (fun l => <[Z.to_nat cpu := poll_stats e period t cpu (per_cpu s cpu)]> l)
       (v_emit_if (s64 (u64 (t - n_last_time (per_cpu s cpu))) <? 0) (WALT_PANIC bug_nr_clock_backwards) s)).
Proof. reflexivity. Qed.

(** The state of one CPU and its statistics in the course of the loop. *)
Record poll_inv (e : avg_env) (k : poll_clock) (period : Z) (s : avg_sys) (done : Z) (t : avg_sys) : Prop := mk_pinv {
  pi_cpus : length (v_cpus t) = length (v_cpus s);
  pi_stats : length (v_stats t) = length (v_stats s);
  pi_done : forall j, 0 <= j < done ->
    per_cpu t j = polled e (pc_cpu k j) (per_cpu s j) /\
    v_stats t !! Z.to_nat j = Some (poll_stats e period (pc_cpu k j) j (per_cpu s j));
  pi_todo : forall j, done <= j -> per_cpu t j = per_cpu s j;
  pi_get : last_get_time t = last_get_time s
}.

Lemma poll_inv_step e k period s i t :
  0 <= i < Z.of_nat (length (v_cpus s)) -> length (v_stats s) = length (v_cpus s) ->
  poll_inv e k period s i t -> poll_inv e k period s (i + 1) (poll_cpu e period (pc_cpu k i) i t).
Proof.
  intros Hi Hl [H1 H2 H3 H4 H5]. rewrite poll_cpu_eq.
  assert (length (v_cpus (set v_stats (fun l => <[Z.to_nat i := poll_stats e period (pc_cpu k i) i (per_cpu t i)]> l)
       (v_emit_if (s64 (u64 (pc_cpu k i - n_last_time (per_cpu t i))) <? 0) (WALT_PANIC bug_nr_clock_backwards) t)))
    = length (v_cpus t)) as Hc by by destruct (_ <? _).
  split.
  - rewrite length_set_per_cpu. lia.
  - destruct (_ <? _); cbn; by rewrite length_insert.
  - intros j Hj. destruct (Z.eq_dec j i) as [->|Hne].
    + rewrite per_cpu_set_eq by lia. rewrite <- (H4 i) by lia. split; [done|].
      destruct (_ <? _); cbn; rewrite list_lookup_insert_eq by lia; done.
    + destruct (H3 j) as [Ha Hb]; [lia|]. rewrite per_cpu_set_ne by lia. split.
      * rewrite <- Ha. by destruct (_ <? _).
      * destruct (_ <? _); cbn; rewrite list_lookup_insert_ne by lia; done.
  - intros j Hj. rewrite per_cpu_set_ne by lia. rewrite <- (H4 j) by lia. by destruct (_ <? _).
  - by destruct (_ <? _).
Qed.

Definition possible (e : avg_env) (s : avg_sys) : Prop :=
  length (v_cpus s) = Z.to_nat (nr_cpu_ids (v_cfg e)) /\ length (v_stats s) = length (v_cpus s).

(** What a poll leaves for a CPU: its counters start again, its statistics are those of
    the state before. *)
Lemma poll_spec e k s :
  v_walt_disabled e = false -> u64 (pc_start k - last_get_time s) <> 0 -> possible e s ->
  exists s' l, sched_get_nr_running_avg e k s = (s', Some l) /\
    length (v_cpus s') = length (v_cpus s) /\ l = v_stats s' /\ length l = length (v_stats s) /\
    forall j, 0 <= j < nr_cpu_ids (v_cfg e) ->
      counts (per_cpu s' j) = counts (polled e (pc_cpu k j) (per_cpu s j)) /\
      n_busy_hyst_end_time (per_cpu s' j) = n_busy_hyst_end_time (per_cpu s j) /\
      l !! Z.to_nat j = Some (poll_stats e (u64 (pc_start k - last_get_time s)) (pc_cpu k j) j (per_cpu s j)).
Proof.
  intros Hd Hp [Hl1 Hl2]. unfold sched_get_nr_running_avg. rewrite Hd, (proj2 (Z.eqb_neq _ 0) Hp).
  set (period := u64 (pc_start k - last_get_time s)) in *.
  destruct (for_each_possible_cpu _ _ _) as [[t ct] tb] eqn:E.
  assert (poll_inv e k period s (0 + Z.of_nat (Z.to_nat (nr_cpu_ids (v_cfg e)))) t) as [H1 H2 H3 _ _].
  { change t with ((t, ct, tb).1.1). rewrite <- E. unfold for_each_possible_cpu.
    apply (for_range_ind (fun i x => poll_inv e k period s i x.1.1)).
    - split; try done. lia.
    - intros i [[x y] z] Hi Hx. apply poll_inv_step; [lia|done|done]. }
  set (t1 := if tb then t <| trailblazer_boost_state_ns := ct |> else t).
  assert (v_cpus t1 = v_cpus t /\ v_stats t1 = v_stats t) as [Hc1 Hs1] by by destruct tb.
  destruct (collect_clusters_cpus e t1) as (Hc2 & Hs2 & _).
  set (t2 := collect_clusters e t1) in *.
  set (t3 := if any_coloc_hyst e t2 && (max_rtgb_time e <=? get_rtgb_active_time (pc_rtgb k) (v_groups e))
             then sched_update_hyst_times e (pc_hyst k) t2 else t2).
  assert (forall j, 0 <= j -> counts (per_cpu t3 j) = counts (per_cpu t j) /\
            n_busy_hyst_end_time (per_cpu t3 j) = n_busy_hyst_end_time (per_cpu t j)) as Hf.
  { intros j Hj. assert (per_cpu t j = per_cpu t2 j) as -> by (unfold per_cpu; by rewrite Hc2, Hc1).
    unfold t3. destruct (_ && _); [|done]. split; by apply (hyst_times_frame _ e). }
  assert (length (v_cpus t3) = length (v_cpus t) /\ v_stats t3 = v_stats t) as [Hc3 Hs3].
  { unfold t3. destruct (_ && _); rewrite ?length_hyst_times, ?hyst_times_stats, Hc2, Hs2, Hc1, Hs1; done. }
  eexists _, _. split; [reflexivity|]. split; [cbn; lia|]. split; [done|]. split; [cbn; by rewrite Hs3|].
  intros j Hj. destruct (H3 j) as [Ha Hb]; [lia|]. destruct (Hf j) as [Hg Hh]; [lia|].
  split_and!; [|change (n_busy_hyst_end_time (per_cpu t3 j) = n_busy_hyst_end_time (per_cpu s j))|].
  - change (counts (per_cpu t3 j) = counts (polled e (pc_cpu k j) (per_cpu s j))). by rewrite Hg, Ha.
  - by rewrite Hh, Ha.
  - cbn. by rewrite Hs3.
Qed.

(** ** The average is the mean of the number of tasks

    [N], [B] and [G] are the numbers of runnable, big and giant tasks of a CPU as
    functions of time (in nanoseconds). *)

Section Mean.
Context (cpu : Z) (N B G : Z -> Z).

(** The state [n] of the CPU and the counts read at time [t] agree with the functions
    since the last event. *)
Definition sampled (e : avg_env) (t : Z) (n : nr_cpu) : Prop :=
  n_last_time n <= t < 2 ^ 63 /\
  forall x, n_last_time n <= x < t ->
    N x = n_nr n /\ B x = walt_big_tasks e cpu /\ G x = walt_giant_tasks e cpu.

(** Every change is reported: each event on the CPU finds the counts unchanged since
    the event before it. *)
Fixpoint observed (ops : list avg_op) (s : avg_sys) : Prop :=
  match ops with
  | [] => True
  | op :: r =>
      match op with
      | op_update e c _ t => 0 <= c < Z.of_nat (length (v_cpus s)) /\ (c = cpu -> sampled e t (per_cpu s cpu))
      | op_poll _ _ => False
      | _ => True
      end /\ observed r (avg_step s op)
  end.

(** The largest number recorded. *)
Definition recorded (m : Z) (op : avg_op) : Z :=
  match op with
  | op_update e c enq _ => if c =? cpu then Z.max m (u32 (v_nr_running e c + enq)) else m
  | _ => m
  end.

(** A CPU whose counters have just been reset. *)
Definition fresh (n : nr_cpu) : Prop :=
  n_nr_prod_sum n = 0 /\ n_nr_big_prod_sum n = 0 /\ n_nr_giant_prod_sum n = 0 /\
  n_nr_max n = n_nr n /\ 0 <= n_last_time n.

Context (t0 M T : Z).
Context (HM : forall x, t0 <= x < T -> 0 <= N x <= M /\ 0 <= B x <= M /\ 0 <= G x <= M).
Context (HMT : M * (T - t0) * 100 < 2 ^ 64).
Context (Hcpu : 0 <= cpu).

Record summed (m : Z) (n : nr_cpu) : Prop := mk_summed {
  su_nr : n_nr_prod_sum n = area N t0 (n_last_time n);
  su_big : n_nr_big_prod_sum n = area B t0 (n_last_time n);
  su_giant : n_nr_giant_prod_sum n = area G t0 (n_last_time n);
  su_time : 0 <= t0 <= n_last_time n;
  su_max : n_nr_max n = m;
  su_cur : n_nr n <= m;
  su_above : forall x, t0 <= x < n_last_time n -> N x <= m
}.

(** One closed rectangle. *)
Lemma area_step F sum n t v :
  (forall x, t0 <= x < T -> 0 <= F x <= M) -> 0 <= t0 <= n_last_time n -> n_last_time n <= t < 2 ^ 63 -> t <= T ->
  sum = area F t0 (n_last_time n) -> (forall x, n_last_time n <= x < t -> F x = v) ->
  u64 (sum + v * u64 (t - n_last_time n)) = area F t0 t /\
  u64 (sum + u64 (v * u64 (t - n_last_time n))) = area F t0 t /\
  0 <= area F t0 t <= M * (T - t0).
Proof.
  intros HF H0 Ht HT -> Hv. rewrite (u64_small (t - _)) by lia.
  rewrite <- (area_const F (n_last_time n) t v) by (done || lia).
  assert (0 * (n_last_time n - t0) <= area F t0 (n_last_time n) <= M * (n_last_time n - t0)).
  { apply area_bounds; [lia|]. intros x Hx. apply HF. lia. }
  assert (0 * (t - n_last_time n) <= area F (n_last_time n) t <= M * (t - n_last_time n)).
  { apply area_bounds; [lia|]. intros x Hx. apply HF. lia. }
  rewrite (area_app F t0 (n_last_time n) t) by lia.
  assert (0 <= M \/ T = t0) as [HM0|HT0].
  { destruct (Z.eq_dec T t0); [by right|left]. specialize (HF t0 ltac:(lia)). lia. }
  - assert (M * (n_last_time n - t0) + M * (t - n_last_time n) <= M * (T - t0)) by nia.
    wrap_simpl. lia.
  - assert (n_last_time n = t0) by lia. assert (t = t0) by lia. subst t.
    replace (n_last_time n - t0) with 0 in * by lia. replace (t0 - n_last_time n) with 0 in * by lia.
    wrap_simpl. lia.
Qed.

Lemma busy_hyst_frame {A} (g : nr_cpu -> A) e c enq prev t n :
  (forall z m, g (m <| n_busy_hyst_end_time := z |>) = g m) ->
  g (update_busy_hyst_end_time e c enq prev t n) = g n.
Proof.
  intros Hg. unfold update_busy_hyst_end_time. destruct (_ && _ && _); [done|].
  destruct (no_hysteresis n); [done|]. destruct (negb _); [apply Hg|done].
Qed.

Lemma counts_inv n a b c d x y :
  counts n = (a, b, c, d, x, y) ->
  n_nr_prod_sum n = a /\ n_nr_big_prod_sum n = b /\ n_nr_giant_prod_sum n = c /\
  n_last_time n = d /\ n_nr n = x /\ n_nr_max n = y.
Proof. unfold counts. intros H. by simplify_eq. Qed.

(** What an update makes of its CPU. *)
Definition updated (e : avg_env) (c enq t : Z) (n : nr_cpu) : nr_cpu :=
  let diff := u64 (t - n_last_time n) in
  let n1 := n <| n_last_time := t |> <| n_last_time_cpu := v_this_cpu e |>
              <| n_nr := u32 (v_nr_running e c + enq) |> in
  let n1 := if n_nr_max n1 <? n_nr n1 then n1 <| n_nr_max := n_nr n1 |> else n1 in
  let n1 := if negb (enq =? 0) then update_busy_hyst_end_time e c enq (n_nr n) t n1 else n1 in
  n1 <| n_nr_prod_sum := u64 (n_nr_prod_sum n1 + n_nr n * diff) |>
     <| n_nr_big_prod_sum := u64 (n_nr_big_prod_sum n1 + walt_big_tasks e c * diff) |>
     <| n_nr_giant_prod_sum := u64 (n_nr_giant_prod_sum n1 + walt_giant_tasks e c * diff) |>.

Lemma counts_updated e c enq t n :
  counts (updated e c enq t n) =
  (u64 (n_nr_prod_sum n + n_nr n * u64 (t - n_last_time n)),
   u64 (n_nr_big_prod_sum n + walt_big_tasks e c * u64 (t - n_last_time n)),
   u64 (n_nr_giant_prod_sum n + walt_giant_tasks e c * u64 (t - n_last_time n)),
   t, u32 (v_nr_running e c + enq), Z.max (n_nr_max n) (u32 (v_nr_running e c + enq))).
Proof.
  unfold updated. cbv zeta.
  set (n1 := n <| n_last_time := t |> <| n_last_time_cpu := v_this_cpu e |>
              <| n_nr := u32 (v_nr_running e c + enq) |>).
  set (n2 := if n_nr_max n1 <? n_nr n1 then n1 <| n_nr_max := n_nr n1 |> else n1).
  assert (counts n2 = (n_nr_prod_sum n, n_nr_big_prod_sum n, n_nr_giant_prod_sum n, t,
            u32 (v_nr_running e c + enq), Z.max (n_nr_max n) (u32 (v_nr_running e c + enq)))) as H2.
  { unfold n2. destruct (Z.ltb_spec (n_nr_max n1) (n_nr n1)) as [H|H]; cbn in H; unfold counts; cbn;
      [rewrite Z.max_r by lia|rewrite Z.max_l by lia]; done. }
  set (n3 := if negb (enq =? 0) then _ else n2).
  assert (counts n3 = counts n2) as H3.
  { unfold n3. destruct (negb _); [|done]. by apply busy_hyst_frame. }
  rewrite H2 in H3. apply counts_inv in H3 as (-> & -> & -> & E1 & E2 & E3).
  unfold counts. cbn. by rewrite E1, E2, E3.
Qed.

Lemma update_nr_prod_eq e c enq t s :
  sched_update_nr_prod e c enq t s =
  set_per_cpu c (updated e c enq t (per_cpu s c))
    (v_emit_if (s64 (u64 (t - n_last_time (per_cpu s c))) <? 0) (WALT_PANIC bug_nr_clock_backwards) s).
Proof. reflexivity. Qed.

Lemma summed_counts m n n' : counts n' = counts n -> summed m n -> summed m n'.
Proof.
  intros E [H1 H2 H3 H4 H5 H6 H7]. apply counts_inv in E as (E1 & E2 & E3 & E4 & E5 & E6).
  split; rewrite ?E1, ?E2, ?E3, ?E4, ?E5, ?E6; done.
Qed.

Lemma summed_updated m e enq t n :
  summed m n -> sampled e t n -> t <= T ->
  summed (Z.max m (u32 (v_nr_running e cpu + enq))) (updated e cpu enq t n).
Proof.
  intros [H1 H2 H3 H4 H5 H6 H7] [Ht Hs] HT. 
  destruct (counts_inv _ _ _ _ _ _ _ (counts_updated e cpu enq t n)) as (E1 & E2 & E3 & E4 & E5 & E6).
  split; rewrite ?E1, ?E2, ?E3, ?E4, ?E5, ?E6.
  - apply (area_step N); try done; [intros x Hx; by apply HM|intros x Hx; by apply Hs].
  - apply (area_step B); try done; [intros x Hx; by apply HM|intros x Hx; by apply Hs].
  - apply (area_step G); try done; [intros x Hx; by apply HM|intros x Hx; by apply Hs].
  - lia.
  - lia.
  - lia.
  - intros x Hx. destruct (Z_lt_le_dec x (n_last_time n)) as [Hl|Hl].
    + specialize (H7 x ltac:(lia)). lia.
    + destruct (Hs x ltac:(lia)) as [-> _]. lia.
Qed.

Lemma summed_step m op s :
  match op with
  | op_update e c _ t => 0 <= c < Z.of_nat (length (v_cpus s)) /\
      (c = cpu -> sampled e t (per_cpu s cpu) /\ t <= T)
  | op_poll _ _ => False
  | _ => True
  end ->
  summed m (per_cpu s cpu) -> summed (recorded m op) (per_cpu (avg_step s op) cpu).
Proof.
  intros Hop Hs. destruct op as [e c enq t|e k|e now|e cpus r]; cbn [avg_step recorded].
  - destruct Hop as [Hc Hsa]. rewrite update_nr_prod_eq, per_cpu_set, per_cpu_emit_if; [|by rewrite length_emit_if|done].
    destruct (Z.eqb_spec c cpu) as [->|Hne]; [|done]. destruct Hsa as [Hsa HT]; [done|].
    by apply summed_updated.
  - done.
  - apply (summed_counts _ (per_cpu s cpu)); [|done]. by apply (hyst_times_frame counts).
  - apply (summed_counts _ (per_cpu s cpu)); [|done]. by apply (legacy_hyst_frame counts).
Qed.

Lemma length_step s op :
  match op with op_poll _ _ => False | _ => True end ->
  length (v_cpus (avg_step s op)) = length (v_cpus s) /\ length (v_stats (avg_step s op)) = length (v_stats s) /\
  last_get_time (avg_step s op) = last_get_time s.
Proof.
  destruct op as [e c enq t|e k|e now|e cpus r]; cbn [avg_step]; intros H.
  - rewrite update_nr_prod_eq, length_set_per_cpu, length_emit_if. by destruct (_ <? _).
  - done.
  - rewrite length_hyst_times, hyst_times_stats. split_and!; try done.
    unfold sched_update_hyst_times, for_each_possible_cpu.
    by apply (for_range_ind (fun _ t => last_get_time t = last_get_time s)).
  - rewrite length_legacy. split_and!; [done|..];
      unfold update_smart_freq_legacy_reason_hyst_time.
    + by apply (for_each_cpu_inv (fun t => length (v_stats t) = length (v_stats s))).
    + by apply (for_each_cpu_inv (fun t => last_get_time t = last_get_time s)).
Qed.

(** Time does not run backwards over an observed run. *)
Lemma observed_time ops s :
  observed ops s -> n_last_time (per_cpu s cpu) <= n_last_time (per_cpu (avg_run ops s) cpu) /\
  length (v_cpus (avg_run ops s)) = length (v_cpus s) /\ length (v_stats (avg_run ops s)) = length (v_stats s) /\
  last_get_time (avg_run ops s) = last_get_time s.
Proof.
  revert s. induction ops as [|op ops IH]; intros s; [intros _; by split_and!|]. intros [Hop Hr].
  destruct (IH _ Hr) as (IH1 & IH2 & IH3 & IH4). cbn [avg_run foldl]. fold (avg_run ops (avg_step s op)).
  destruct (length_step s op) as (E1 & E2 & E3); [by destruct op|].
  rewrite IH2, IH3, IH4, E1, E2, E3. split_and!; try done. etrans; [|exact IH1].
  clear IH1 IH2 IH3 IH4 Hr IH. destruct op as [e c enq t|e k|e now|e cpus r]; cbn [avg_step].
  - destruct Hop as [Hc Hsa]. rewrite update_nr_prod_eq, per_cpu_set, per_cpu_emit_if; [|by rewrite length_emit_if|done].
    destruct (Z.eqb_spec c cpu) as [->|Hne]; [|done]. destruct Hsa as [Ht _]; [done|].
    destruct (counts_inv _ _ _ _ _ _ _ (counts_updated e cpu enq t (per_cpu s cpu))) as (_ & _ & _ & -> & _). lia.
  - done.
  - assert (n_last_time (per_cpu s cpu) = n_last_time (per_cpu (sched_update_hyst_times e now s) cpu)); [|lia].
    symmetry. by apply (hyst_times_frame n_last_time).
  - assert (n_last_time (per_cpu s cpu) =
      n_last_time (per_cpu (update_smart_freq_legacy_reason_hyst_time e cpus r s) cpu)); [|lia].
    symmetry. by apply (legacy_hyst_frame n_last_time).
Qed.

Lemma summed_run ops m s :
  observed ops s -> n_last_time (per_cpu (avg_run ops s) cpu) <= T ->
  summed m (per_cpu s cpu) -> summed (foldl recorded m ops) (per_cpu (avg_run ops s) cpu).
Proof.
  revert s m. induction ops as [|op ops IH]; intros s m; [done|]. intros [Hop Hr] HT Hs.
  cbn [avg_run foldl] in HT |- *. fold (avg_run ops (avg_step s op)) in HT |- *.
  apply IH; [done|done|]. apply summed_step; [|done].
  destruct op as [e c enq t|e k|e now|e cpus r]; try done. destruct Hop as [Hc Hsa].
  split; [done|]. intros ->. split; [by apply Hsa|].
  destruct (observed_time _ _ Hr) as [Hle _].
  assert (n_last_time (per_cpu (avg_step s (op_update e cpu enq t)) cpu) = t) as E; [|rewrite E in Hle; lia].
  cbn [avg_step]. rewrite update_nr_prod_eq, per_cpu_set_eq by (rewrite length_emit_if; lia).
  by destruct (counts_inv _ _ _ _ _ _ _ (counts_updated e cpu enq t (per_cpu s cpu))) as (_ & _ & _ & E & _).
Qed.

Lemma fresh_summed n : fresh n -> t0 = n_last_time n -> summed (n_nr n) n.
Proof.
  intros (H1 & H2 & H3 & H4 & H5) E. split; rewrite <- ?E, ?area_empty; try done; intros; lia.
Qed.

End Mean.

(** What the mean is stated for: a CPU polled last at [n_last_time], a run of reported
    changes after it, and a poll at [pc_cpu k cpu]. No sum of at most [M] tasks overflows
    64 bits, nor an average 32. *)
Record polling (cpu M : Z) (N B G : Z -> Z) (e : avg_env) (k : poll_clock) (ops : list avg_op)
    (s : avg_sys) : Prop := mk_polling {
  po_cpu : 0 <= cpu < nr_cpu_ids (v_cfg e);
  po_possible : possible e s;
  po_fresh : fresh (per_cpu s cpu);
  po_observed : observed cpu N B G ops s;
  po_sampled : sampled cpu N B G e (pc_cpu k cpu) (per_cpu (avg_run ops s) cpu);
  po_bound : forall x, n_last_time (per_cpu s cpu) <= x < pc_cpu k cpu ->
    0 <= N x <= M /\ 0 <= B x <= M /\ 0 <= G x <= M;
  po_sum : M * (pc_cpu k cpu - n_last_time (per_cpu s cpu)) * 100 < 2 ^ 64;
  po_enabled : v_walt_disabled e = false;
  po_period : 0 < pc_start k - last_get_time s < 2 ^ 64;
  po_avg : M * (pc_cpu k cpu - n_last_time (per_cpu s cpu)) * 100 < 2 ^ 30 * (pc_start k - last_get_time s);
  po_max : foldl (recorded cpu) (n_nr (per_cpu s cpu)) ops < 2 ^ 31;
  po_nr : 0 <= n_nr (per_cpu s cpu)
}.

Lemma recorded_mono cpu m ops : m <= foldl (recorded cpu) m ops.
Proof.
  revert m. induction ops as [|op ops IH]; intros m; [done|]. cbn [foldl]. etrans; [|apply IH].
  destruct op; cbn [recorded]; [|done..]. case_if; lia.
Qed.

Lemma scaled_avg_area F M n t0 t v sum period :
  (forall x, t0 <= x < t -> 0 <= F x <= M) -> M * (t - t0) * 100 < 2 ^ 64 ->
  0 <= t0 <= n_last_time n -> n_last_time n <= t < 2 ^ 63 ->
  sum = area F t0 (n_last_time n) -> (forall x, n_last_time n <= x < t -> F x = v) ->
  0 < period -> M * (t - t0) * 100 < 2 ^ 30 * period ->
  scaled_avg sum v (u64 (t - n_last_time n)) period = area F t0 t * 100 / period /\
  0 <= area F t0 t * 100 / period < 2 ^ 30.
Proof.
  intros HF HM H0 Ht Hs Hv Hp Hb. unfold scaled_avg.
  destruct (area_step t0 M t HM F sum n t v HF H0 Ht (Z.le_refl t) Hs Hv) as (_ & -> & Ha).
  rewrite u64_small by lia. split; [done|]. split; [apply Z.div_pos; lia|].
  apply Z.div_lt_upper_bound; lia.
Qed.

Lemma rounded_small avg : 0 <= avg < 2 ^ 30 -> rounded avg = (avg + NR_THRESHOLD_PCT) / 100.
Proof.
  intros H. unfold rounded, NR_THRESHOLD_PCT. rewrite (u64_small (avg + 40)) by lia.
  rewrite s32_small; [done|]. pose proof (Z.div_lt_upper_bound (avg + 40) 100 (2 ^ 31)).
  pose proof (Z.div_pos (avg + 40) 100). lia.
Qed.

(** A CPU counts [k] tasks from [100 k - 40] percent on. *)
Lemma rounded_threshold avg k :
  0 <= avg < 2 ^ 30 -> k <= rounded avg <-> 100 * k - NR_THRESHOLD_PCT <= avg.
Proof.
  intros H. rewrite rounded_small by done. unfold NR_THRESHOLD_PCT. split; intros Hk.
  - pose proof (Z.mul_div_le (avg + 40) 100). lia.
  - apply Z.div_le_lower_bound; lia.
Qed.


(** ** The hysteresis keeps a CPU out of deep idle *)

(** The loop stops early exactly when the sum over all CPUs reaches the threshold. *)
Lemma util_reaches_total e threshold :
  (forall cpu, 0 <= cpu < nr_cpu_ids (v_cfg e) -> 0 <= cpu_util e cpu) ->
  zsum (cpu_util e) (seqZ 0 (nr_cpu_ids (v_cfg e))) < 2 ^ 64 ->
  0 < nr_cpu_ids (v_cfg e) ->
  util_reaches e threshold = (threshold <=? zsum (cpu_util e) (seqZ 0 (nr_cpu_ids (v_cfg e)))).
Proof.
  intros Hu Hsum Hn. unfold util_reaches, for_each_possible_cpu.
  set (total i := zsum (cpu_util e) (seqZ 0 i)).
  assert (forall i, 0 <= i < nr_cpu_ids (v_cfg e) -> total (i + 1) = total i + cpu_util e i) as Hstep.
  { intros i Hi. unfold total. rewrite seqZ_app by lia. rewrite zsum_app, Z.add_0_l.
    unfold seqZ. change (Z.to_nat 1) with 1%nat. cbn. rewrite zsum_cons, zsum_nil. f_equal.
    rewrite Z.add_0_r. f_equal; lia. }
  assert (forall i, 0 <= i <= nr_cpu_ids (v_cfg e) -> 0 <= total i <= total (nr_cpu_ids (v_cfg e))) as Hmono.
  { intros i Hi. split.
    - apply zsum_nonneg. intros x [Hx Hy]%elem_of_seqZ. apply Hu. lia.
    - unfold total. replace (nr_cpu_ids (v_cfg e)) with (i + (nr_cpu_ids (v_cfg e) - i)) by lia.
      rewrite seqZ_app by lia. rewrite zsum_app.
      assert (0 <= zsum (cpu_util e) (seqZ (0 + i) (nr_cpu_ids (v_cfg e) - i))); [|lia].
      apply zsum_nonneg. intros x [Hx Hy]%elem_of_seqZ. apply Hu. lia. }
  set (f := fun i (st : Z * bool) => _).
  pose proof (for_range_ind (fun i (st : Z * bool) =>
      if snd st then threshold <= total (nr_cpu_ids (v_cfg e))
      else fst st = total i /\ (0 < i -> total i < threshold))
    0 (Z.to_nat (nr_cpu_ids (v_cfg e))) f (0, false)) as Hind.
  cbn beta in Hind. rewrite Z.add_0_l, Z2Nat.id in Hind by lia.
  destruct (for_range 0 (Z.to_nat (nr_cpu_ids (v_cfg e))) f (0, false)) as [tot found] eqn:E.
  cbn [fst snd] in Hind |- *.
  assert (if found then threshold <= total (nr_cpu_ids (v_cfg e))
          else tot = total (nr_cpu_ids (v_cfg e)) /\
               (0 < nr_cpu_ids (v_cfg e) -> total (nr_cpu_ids (v_cfg e)) < threshold)) as H.
  { apply Hind; [split; [done|lia]|]. intros i [x b] Hi Hx. unfold f. cbn [fst snd] in Hx |- *.
    destruct b; [done|]. destruct Hx as [-> Hx]. rewrite <- (Hstep i) by lia.
    pose proof (Hmono (i + 1)). rewrite u64_small by (unfold total in *; lia). cbn [fst snd].
    destruct (Z.leb_spec threshold (total (i + 1))); [lia|]. split; [done|lia]. }
  unfold total in H. destruct found; lia.
Qed.

(** The end of the hysteresis that a call starts on a CPU, if it does. *)
Definition hysteresis_started (cpu : Z) (op : avg_op) (s : avg_sys) : option Z :=
  match op with
  | op_update e c enq t =>
      if negb (c =? cpu) || (enq =? 0) then None else
      if is_max_possible_cluster_cpu (v_cfg e) c && v_is_obet e &&
         ((1 <? cpumask_weight (largest_cpus e)) || negb (pipeline_in_progress (v_cfg e))) then None else
      let n := per_cpu s cpu in
      let agg := agg_hyst_time e cpu enq (n_nr n) (n <| n_nr := u32 (v_nr_running e c + enq) |>) in
      if agg =? 0 then None else Some (t + agg)
  | _ => None
  end.

Definition well_placed (s : avg_sys) (op : avg_op) : Prop :=
  match op with
  | op_update _ c _ _ => 0 <= c < Z.of_nat (length (v_cpus s))
  | op_poll e _ => possible e s
  | _ => True
  end.

(** None of the calls starts one. *)
Fixpoint quiet (cpu : Z) (ops : list avg_op) (s : avg_sys) : Prop :=
  match ops with
  | [] => True
  | op :: r => well_placed s op /\ hysteresis_started cpu op s = None /\ quiet cpu r (avg_step s op)
  end.

Definition times (n : nr_cpu) : Z * Z * Z * Z * Z * Z :=
  (n_nr n, n_hyst_time n, n_coloc_hyst_time n, n_coloc_hyst_busy n, n_util_hyst_time n,
   n_smart_freq_legacy_reason_hyst_ns n).

Lemma agg_hyst_time_times e cpu enq prev n n' :
  times n = times n' -> agg_hyst_time e cpu enq prev n = agg_hyst_time e cpu enq prev n'.
Proof. unfold times, agg_hyst_time. intros H. injection H as -> -> -> -> -> ->. done. Qed.

Lemma no_hysteresis_agg e cpu enq prev n : no_hysteresis n = true -> agg_hyst_time e cpu enq prev n = 0.
Proof.
  unfold no_hysteresis. intros H. repeat (apply andb_true_iff in H as [H ?]).
  assert (n_hyst_time n = 0) as E1 by lia. assert (n_coloc_hyst_time n = 0) as E2 by lia.
  assert (n_util_hyst_time n = 0) as E3 by lia.
  assert (n_smart_freq_legacy_reason_hyst_ns n = 0) as E4 by lia.
  unfold agg_hyst_time. rewrite E1, E2, E3, E4. by repeat case_if.
Qed.

Lemma agg_hyst_time_max e cpu enq prev n :
  agg_hyst_time e cpu enq prev n <=
  Z.max 0 (Z.max (Z.max (n_hyst_time n) (n_coloc_hyst_time n))
                 (Z.max (n_util_hyst_time n) (n_smart_freq_legacy_reason_hyst_ns n))).
Proof. unfold agg_hyst_time. cbv zeta. repeat case_if; lia. Qed.

(** The end of the hysteresis after an update. *)
Lemma updated_end e c enq t n :
  n_busy_hyst_end_time (updated e c enq t n) =
  (if enq =? 0 then n_busy_hyst_end_time n else
   if is_max_possible_cluster_cpu (v_cfg e) c && v_is_obet e &&
      ((1 <? cpumask_weight (largest_cpus e)) || negb (pipeline_in_progress (v_cfg e)))
   then n_busy_hyst_end_time n else
   let agg := agg_hyst_time e c enq (n_nr n) (n <| n_nr := u32 (v_nr_running e c + enq) |>) in
   if agg =? 0 then n_busy_hyst_end_time n else u64 (t + agg)).
Proof.
  unfold updated. cbv zeta.
  set (n1 := n <| n_last_time := t |> <| n_last_time_cpu := v_this_cpu e |>
              <| n_nr := u32 (v_nr_running e c + enq) |>).
  set (n2 := if n_nr_max n1 <? n_nr n1 then n1 <| n_nr_max := n_nr n1 |> else n1).
  assert (times n2 = times (n <| n_nr := u32 (v_nr_running e c + enq) |>) /\
          n_busy_hyst_end_time n2 = n_busy_hyst_end_time n) as [Ht He].
  { unfold n2. by destruct (_ <? _). }
  set (n3 := if negb (enq =? 0) then _ else n2).
  change (n_busy_hyst_end_time n3 =
    if enq =? 0 then n_busy_hyst_end_time n else
    if is_max_possible_cluster_cpu (v_cfg e) c && v_is_obet e &&
      ((1 <? cpumask_weight (largest_cpus e)) || negb (pipeline_in_progress (v_cfg e)))
    then n_busy_hyst_end_time n else
    let agg := agg_hyst_time e c enq (n_nr n) (n <| n_nr := u32 (v_nr_running e c + enq) |>) in
    if agg =? 0 then n_busy_hyst_end_time n else u64 (t + agg)).
  unfold n3. destruct (enq =? 0); cbn [negb]; [done|].
  unfold update_busy_hyst_end_time. destruct (_ && _ && _); [done|]. cbv zeta.
  rewrite <- (agg_hyst_time_times e c enq (n_nr n) _ _ Ht).
  destruct (no_hysteresis n2) eqn:Hn.
  - rewrite (no_hysteresis_agg _ _ _ _ _ Hn). exact He.
  - destruct (agg_hyst_time e c enq (n_nr n) n2 =? 0); cbn [negb]; [exact He|done].
Qed.

(** A call moves the end of the hysteresis exactly when it starts one. *)
Lemma step_end cpu op s :
  0 <= cpu < Z.of_nat (length (v_cpus s)) -> well_placed s op ->
  n_busy_hyst_end_time (per_cpu (avg_step s op) cpu) =
  match hysteresis_started cpu op s with
  | Some x => u64 x
  | None => n_busy_hyst_end_time (per_cpu s cpu)
  end.
Proof.
  intros Hcpu Hw. destruct op as [e c enq t|e k|e now|e cpus r]; cbn [avg_step hysteresis_started].
  - cbn [well_placed] in Hw. rewrite update_nr_prod_eq, per_cpu_set, per_cpu_emit_if; [|by rewrite length_emit_if|lia].
    destruct (Z.eqb_spec c cpu) as [->|Hne]; cbn [negb orb]; [|done]. rewrite updated_end.
    destruct (enq =? 0); [done|]. destruct (_ && _ && _); [done|]. cbv zeta.
    destruct (_ =? 0); done.
  - destruct (v_walt_disabled e) eqn:Hd; [unfold sched_get_nr_running_avg; by rewrite Hd|].
    destruct (Z.eq_dec (u64 (pc_start k - last_get_time s)) 0) as [Hz|Hz].
    { unfold sched_get_nr_running_avg. by rewrite Hd, (proj2 (Z.eqb_eq _ 0) Hz). }
    destruct (poll_spec e k s) as (s' & l & -> & _ & _ & _ & H); [done|done|exact Hw|]. cbn [fst].
    apply H. destruct Hw as [Hw _]. lia.
  - apply (hyst_times_frame n_busy_hyst_end_time); [lia|done].
  - apply (legacy_hyst_frame n_busy_hyst_end_time); [lia|done].
Qed.

Lemma step_length op s : well_placed s op -> length (v_cpus (avg_step s op)) = length (v_cpus s).
Proof.
  intros Hw. destruct op as [e c enq t|e k|e now|e cpus r]; try by apply length_step.
  cbn [avg_step]. destruct (v_walt_disabled e) eqn:Hd; [unfold sched_get_nr_running_avg; by rewrite Hd|].
  destruct (Z.eq_dec (u64 (pc_start k - last_get_time s)) 0) as [Hz|Hz].
  { unfold sched_get_nr_running_avg. by rewrite Hd, (proj2 (Z.eqb_eq _ 0) Hz). }
  destruct (poll_spec e k s) as (s' & l & -> & E & _); [done|done|exact Hw|done].
Qed.

Lemma quiet_end cpu ops s :
  0 <= cpu < Z.of_nat (length (v_cpus s)) -> quiet cpu ops s ->
  n_busy_hyst_end_time (per_cpu (avg_run ops s) cpu) = n_busy_hyst_end_time (per_cpu s cpu).
Proof.
  revert s. induction ops as [|op ops IH]; intros s Hc Hq; [done|]. destruct Hq as (Hw & Hn & Hq).
  cbn [avg_run foldl]. fold (avg_run ops (avg_step s op)). rewrite IH; [|by rewrite step_length|done].
  rewrite step_end by done. by rewrite Hn.
Qed.

(** A busy CPU stays out of deep idle states for its hysteresis, no longer and no
    shorter. When an enqueue or a dequeue at [t] starts a hysteresis on a CPU, its length is
    at most the longest of the times configured for the CPU, and whatever happens
    afterwards short of another start (updates of any CPU, polls, new times), the idle
    governor is told at any time [now] to stay shallow for exactly the rest of it,
    and after its end that WALT does not care. *)
Theorem lpm_bias_lasts cpu e0 enq t post s x e now :
  0 <= cpu < Z.of_nat (length (v_cpus s)) ->
  hysteresis_started cpu (op_update e0 cpu enq t) s = Some x -> 0 <= x < 2 ^ 64 ->
  quiet cpu post (avg_step s (op_update e0 cpu enq t)) ->
  v_walt_disabled e = false -> v_is_reserved e cpu = false ->
  let n := per_cpu s cpu in
  x - t <= Z.max 0 (Z.max (Z.max (n_hyst_time n) (n_coloc_hyst_time n))
                          (Z.max (n_util_hyst_time n) (n_smart_freq_legacy_reason_hyst_ns n))) /\
  sched_lpm_disallowed_time e now cpu (avg_run (op_update e0 cpu enq t :: post) s) =
    if now <? x then (0, Some (x - now)) else (INT_MAX, None).
Proof.
  intros Hc Hx Hb Hq Hd Hr n. split.
  - cbn [hysteresis_started] in Hx. rewrite Z.eqb_refl in Hx. cbn [negb orb] in Hx.
    destruct (enq =? 0); [done|]. destruct (_ && _ && _); [done|]. cbv zeta in Hx.
    destruct (_ =? 0) in Hx; [done|]. injection Hx as <-.
    pose proof (agg_hyst_time_max e0 cpu enq (n_nr n) (n <| n_nr := u32 (v_nr_running e0 cpu + enq) |>)) as H.
    cbn in H. fold n. lia.
  - assert (n_busy_hyst_end_time (per_cpu (avg_run (op_update e0 cpu enq t :: post) s) cpu) = x) as E.
    { cbn [avg_run foldl]. fold (avg_run post (avg_step s (op_update e0 cpu enq t))).
      rewrite quiet_end; [|by rewrite step_length|done]. rewrite step_end; [|done|done].
      rewrite Hx. by apply u64_small. }
    unfold sched_lpm_disallowed_time. by rewrite E, Hd, Hr.
Qed.

(** ** Percentages *)

(** The utilisation of a CPU in the last window is at most 100 percent. *)
Lemma cpu_util_pct_bound e cpu :
  0 < w_cpu_capacity_orig (v_wrq e cpu) < 2 ^ 32 -> 0 < walt_scale_demand_divisor (v_cfg e) ->
  0 <= sched_get_cpu_util_pct e cpu <= 100.
Proof.
  intros Hc Hd. unfold sched_get_cpu_util_pct, scale_time_to_util.
  set (cap := w_cpu_capacity_orig (v_wrq e cpu)) in *.
  set (util := u64 (_ + _) / _). assert (0 <= util) by (apply Z.div_pos; [apply u64_range|exact Hd]).
  set (u := if cap <=? util then cap else util).
  assert (0 <= u <= cap) by (unfold u; destruct (Z.leb_spec cap util); lia).
  rewrite (u64_small (u * 100)) by lia.
  assert (0 <= u * 100 / cap <= 100).
  { split; [apply Z.div_pos; lia|]. apply Z.div_le_upper_bound; lia. }
  rewrite u32_small by lia. done.
Qed.

Lemma cpumask_weight_pos m : mask_ok m -> m <> 0 -> 1 <= cpumask_weight m.
Proof.
  intros Hm Hne. destruct (mask_nonzero_bit m Hm Hne) as (c & Hc & Hb). unfold cpumask_weight.
  cut ((c < WALT_NR_CPUS -> 1 <= for_each_cpu m (fun _ n => n + 1) 0) /\
       0 <= for_each_cpu m (fun _ n => n + 1) 0); [unfold is_cpu in Hc; lia|].
  apply (for_each_cpu_ind (fun i n => (c < i -> 1 <= n) /\ 0 <= n)); unfold is_cpu in *.
  - lia.
  - intros i n Hi _ [H1 H2]. split; lia.
  - intros i n Hi Hf [H1 H2]. split; [|done]. intros Hlt. apply H1.
    destruct (Z.eq_dec c i) as [->|]; [congruence|lia].
Qed.

(** The average utilisation of a cluster is at most 100 percent when no CPU reports more
    than its capacity. *)
Lemma cluster_util_bound e cpus :
  mask_ok cpus -> cpus <> 0 ->
  (forall cpu, is_cpu cpu -> 0 <= w_util (v_wrq e cpu) <= arch_scale_cpu_capacity (v_cfg e) cpu /\
                             0 < arch_scale_cpu_capacity (v_cfg e) cpu) ->
  0 <= cluster_util e cpus <= 100.
Proof.
  intros Hm Hne Hu. unfold cluster_util. set (sum := for_each_cpu _ _ _).
  assert (0 <= sum <= 100 * cpumask_weight cpus) as Hs.
  { unfold sum, cpumask_weight. unfold for_each_cpu.
    set (f := fun cpu s => _). set (g := fun cpu s => _).
    assert (forall n lo x y, 0 <= lo -> lo + Z.of_nat n <= 8 -> 0 <= x <= 100 * y -> y <= lo ->
      0 <= for_range lo n f x <= 100 * for_range lo n g y) as H.
    { induction n as [|n IH]; intros lo x y Hlo Hn Hx Hy; [done|]. cbn [for_range].
      apply IH; [lia|lia| |unfold g; case_if; lia]. unfold f, g. case_if; [|lia].
      destruct (Hu lo) as [Ha Hb]; [unfold is_cpu, WALT_NR_CPUS; lia|].
      assert (0 <= w_util (v_wrq e lo) * 100 / arch_scale_cpu_capacity (v_cfg e) lo <= 100).
      { split; [apply Z.div_pos; lia|]. apply Z.div_le_upper_bound; lia. }
      rewrite u32_small; lia. }
    apply H; unfold WALT_NR_CPUS; lia. }
  pose proof (cpumask_weight_pos cpus Hm Hne). split; [apply Z.div_pos; lia|].
  apply Z.div_le_upper_bound; lia.
Qed.

(** ** Concrete runs *)

Definition demo_nrc : nr_cpu := mk_nrc 0 1000 0 0 0 0 0 0 10 40 0 0 0.
Definition demo_avg : avg_sys :=
  mk_asys (replicate 8 demo_nrc) (replicate 8 no_stats) 1000 [0; 0; 0; 0] 0 [].
Definition demo_groups : grp_sys :=
  mk_gsys (mk_sys (mk_task 1 0 120 0 1 false true true false zero_wts) [] [] 0 []) alloc_related_thread_groups.
Definition demo_env (nr_running util : Z) : avg_env :=
  mk_aenv sample_cfg
    (replicate 8 (no_wrq <| w_walt_stats := mk_stats 0 0 0 util 0 0 |> <| w_cpu_capacity_orig := 400 |>))
    demo_groups (fun _ => nr_running) false (fun _ => 0) false false (fun _ => false) 0 false
    255 10 0 (replicate 8 0) 5000 (replicate 8 10) 0 (replicate 8 0) (replicate 8 15) [].

(** One task runs from 1200 to 1800 on CPU 0, another CPU and the tunables change as well. *)
Definition demo_ops : list avg_op :=
  [op_update (demo_env 0 0) 0 1 1200; op_update (demo_env 1 0) 1 1 1300;
   op_hyst (demo_env 0 0) 1400; op_update (demo_env 1 0) 0 (-1) 1800].
Definition demo_N (x : Z) : Z := if (1200 <=? x) && (x <? 1800) then 1 else 0.
Definition demo_clock : poll_clock := mk_pclk 2000 (fun cpu => 2000 + cpu) 2008 2009.

Ltac eval_cpu :=
  match goal with
  | |- context [per_cpu ?s ?c] => let r := eval vm_compute in (per_cpu s c) in change (per_cpu s c) with r
  end.

Lemma demo_polling : polling 0 1 demo_N (fun _ => 0) (fun _ => 0) (demo_env 0 0) demo_clock demo_ops demo_avg.
Proof.
  split.
  - split; reflexivity.
  - split; reflexivity.
  - repeat split; vm_compute; done.
  - unfold demo_ops. cbn [observed avg_step].
    split_and!; try done; try (intros; done); try (vm_compute; done); intros _; unfold sampled; eval_cpu;
      cbn [n_last_time n_nr]; (split; [lia|]); intros x Hx; unfold demo_N; (split_and!; [case_if; lia|reflexivity|reflexivity]).
  - unfold sampled. eval_cpu. cbn [n_last_time n_nr demo_clock pc_cpu]. split; [lia|].
    intros x Hx. unfold demo_N. (split_and!; [case_if; lia|reflexivity|reflexivity]).
  - intros x _. unfold demo_N. case_if; lia.
  - vm_compute. done.
  - done.
  - vm_compute. done.
  - vm_compute. done.
  - vm_compute. done.
  - vm_compute. done.
Qed.


(** A dequeue of a loaded CPU at 1800 keeps it shallow until 1810. *)
Lemma lpm_bias_lasts_witness :
  sched_lpm_disallowed_time (demo_env 0 100) 1805 0
    (avg_run (op_update (demo_env 1 100) 0 (-1) 1800 :: [op_hyst (demo_env 0 0) 1801; op_poll (demo_env 0 0) demo_clock])
       demo_avg) = (0, Some 5) /\
  sched_lpm_disallowed_time (demo_env 0 100) 1810 0
    (avg_run (op_update (demo_env 1 100) 0 (-1) 1800 :: [op_hyst (demo_env 0 0) 1801; op_poll (demo_env 0 0) demo_clock])
       demo_avg) = (INT_MAX, None).
Proof.
  assert (0 <= 0 < Z.of_nat (length (v_cpus demo_avg))) as H1 by (vm_compute; done).
  assert (hysteresis_started 0 (op_update (demo_env 1 100) 0 (-1) 1800) demo_avg = Some 1810) as H2 by reflexivity.
  assert (0 <= 1810 < 2 ^ 64) as H3 by lia.
  assert (quiet 0 [op_hyst (demo_env 0 0) 1801; op_poll (demo_env 0 0) demo_clock]
    (avg_step demo_avg (op_update (demo_env 1 100) 0 (-1) 1800))) as H4.
  { cbn [quiet]. split_and!; try done; reflexivity. }
  split.
  - exact (proj2 (lpm_bias_lasts 0 (demo_env 1 100) (-1) 1800 _ demo_avg 1810 (demo_env 0 100) 1805 H1 H2 H3 H4 eq_refl eq_refl)).
  - exact (proj2 (lpm_bias_lasts 0 (demo_env 1 100) (-1) 1800 _ demo_avg 1810 (demo_env 0 100) 1810 H1 H2 H3 H4 eq_refl eq_refl)).
Defined.

(** The period of a poll ends when the call starts, the area of a CPU when the loop reads
    the clock for it: one task all the time is reported as one and a half when
    the loop gets to the CPU late, although at most one task was ever there. *)
Lemma average_above_maximum :
  let s := on_per_cpu 0 (fun n => n <| n_nr := 1 |> <| n_nr_max := 1 |>) demo_avg in
  let late := mk_pclk 2000 (fun _ => 2500) 2500 2500 in
  match snd (sched_get_nr_running_avg (demo_env 1 0) late s) with
  | Some (st :: _) => nr_scaled st = 150 /\ nr_max st = 1
  | _ => False
  end.
Proof. vm_compute. done. Qed.

(** A later start replaces the end of the hysteresis even by an earlier one. *)
Lemma hysteresis_can_shrink :
  let s := on_per_cpu 0 (fun n => n <| n_coloc_hyst_time := 100 |>) demo_avg in
  let s1 := avg_step s (op_update (demo_env 1 100) 0 (-1) 1000) in
  let s2 := avg_step (on_per_cpu 0 (fun n => n <| n_coloc_hyst_time := 0 |>) s1) (op_update (demo_env 1 100) 0 (-1) 1001) in
  n_busy_hyst_end_time (per_cpu s1 0) = 1100 /\ n_busy_hyst_end_time (per_cpu s2 0) = 1011.
Proof. vm_compute. done. Qed.

End Averages.
