(* ===== verification/Fits.v ===== *)
(** * Whether a task fits a CPU

    The capacity check with its margins, the boost of a task, and the misfit rule:
    [task_fits_capacity], [task_fits_max] and the inline functions they call in
    [walt.h], [can_fit_low_prio_task] and [task_demand_fits] of [walt_cfs.c], and
    [pipeline_fits_smaller_cpus] of [pipeline.c]. *)

From Stdlib Require Import ZArith Lia ZifyBool Bool.
From stdpp Require Import base list.
From S2P Require Import Prelude WaltTypes Cpumask SmartFreq Halt CoreCtl Boost.

(** ** Inputs *)

(** [enum task_boost_type] *)
Definition TASK_BOOST_NONE : Z := 0.
Definition TASK_BOOST_ON_MID : Z := 1.
Definition TASK_BOOST_ON_MAX : Z := 2.
Definition TASK_BOOST_STRICT_MAX : Z := 3.

Definition WALT_LOW_LATENCY_PROCFS_BIT : Z := 1.
Definition WALT_LOW_LATENCY_BINDER_BIT : Z := 2.
Definition WALT_LOW_LATENCY_PIPELINE_BIT : Z := 4.
Definition WALT_LOW_LATENCY_HEAVY_BIT : Z := 8.
Definition WALT_LOW_LATENCY_BIT_MASK : Z := Z.lor WALT_LOW_LATENCY_PIPELINE_BIT WALT_LOW_LATENCY_HEAVY_BIT.

(** Masks, tunables and margins; by task id, what the kernel core knows of a task:
    its CPU, affinity, priority, clamps and cgroup ([fe_css_named] is that the cgroup has
    a name); by group id, [skip_min]. The tables are indexed by cgroup type, then
    cluster. *)
Record fit_env := mk_fit {
  fe_cfg : walt_cfg;
  fe_clock : Z;
  fe_possible : Z;
  fe_partial_halt : Z;
  fe_min_cluster : Z;
  fe_task_cpu : Z -> Z;
  fe_cpus_ptr : Z -> Z;
  fe_prio : Z -> Z;
  fe_uclamp_min : Z -> Z;
  fe_uclamp_max : Z -> Z;
  fe_tg : Z -> option walt_task_group;
  fe_css_named : Z -> bool;
  fe_skip_min : Z -> bool;
  fe_use_cgroup_margin : Z;
  fe_margin_up : list (list Z);
  fe_margin_down : list (list Z);
  fe_min_util_boost : Z;
  fe_min_util_uclamp : Z;
  fe_suh_max : bool;
  fe_boost_on_mid : bool;
  fe_uclamp_boosted : bool;
  fe_limit_prime_usage : bool
}.

Definition cgroup_index (t : sched_cgroup_type) : nat :=
  match t with
  | ANDROID_CGROUP_OTHER => 0 | ANDROID_CGROUP_TOPAPP => 1 | ANDROID_CGROUP_FOREGROUND => 2
  | ANDROID_CGROUP_BACKGROUND => 3 | ANDROID_CGROUPS => 4
  end%nat.
Definition margin_of (m : list (list Z)) (t : sched_cgroup_type) (id : Z) : Z := aget (nth (cgroup_index t) m []) id.

Definition is_min_possible_cluster_cpu (e : fit_env) (cpu : Z) : bool :=
  cpu_cluster_id (fe_cfg e) cpu =? fe_min_cluster e.
Definition cluster_cpus (c : walt_cfg) (id : Z) : Z := c_cpus (nth (Z.to_nat id) (sched_cluster c) no_cluster).

(** ** Utilisation of a task *)

Definition task_util (t : walt_task_struct) : Z := t_demand_scaled t.

(** [clamp(val, lo, hi)] is [min(max(val, lo), hi)]. *)
Definition uclamp_task_util (e : fit_env) (id : Z) (t : walt_task_struct) : Z :=
  Z.min (Z.max (task_util t) (fe_uclamp_min e id)) (fe_uclamp_max e id).

Definition walt_pipeline_low_latency_task (t : walt_task_struct) : bool :=
  negb (Z.land (t_low_latency t) WALT_LOW_LATENCY_BIT_MASK =? 0).

Definition walt_uclamp_boosted (e : fit_env) (id : Z) (t : walt_task_struct) : bool :=
  fe_uclamp_boosted e && ((0 <? fe_uclamp_min e id) && (fe_min_util_uclamp e <? task_util t)).

Definition walt_should_kick_upmigrate (e : fit_env) (t : walt_task_struct) (cpu : Z) : bool :=
  match t_grp t with
  | Some g =>
      if fe_suh_max e && (g =? DEFAULT_CGROUP_COLOC_ID) && fe_skip_min e g && negb (t_unfilter t =? 0)
      then is_min_possible_cluster_cpu e cpu else false
  | None => false
  end.

(** An expired boost is dropped on the way. *)
Definition expire_boost (e : fit_env) (t : walt_task_struct) : walt_task_struct :=
  if negb (t_boost_period t =? 0) && (t_boost_expires t <? fe_clock e)
  then t <| t_boost_period := 0 |> <| t_boost_expires := 0 |> <| t_boost := 0 |> else t.

Definition per_task_boost (e : fit_env) (t : walt_task_struct) : walt_task_struct * Z :=
  let t := expire_boost e t in
  (t, if negb (fe_boost_on_mid e) && (t_boost t =? TASK_BOOST_ON_MID) then 0 else t_boost t).

(** ** Capacity *)

Definition check_for_higher_capacity (e : fit_env) (cpu1 cpu2 : Z) : bool :=
  if cpumask_test_cpu cpu1 (fe_partial_halt e) && is_min_possible_cluster_cpu e cpu2 then false else
  if is_min_possible_cluster_cpu e cpu1 && cpumask_test_cpu cpu2 (fe_partial_halt e) then false else
  capacity_orig_of (fe_cfg e) cpu2 <? capacity_orig_of (fe_cfg e) cpu1.

Definition task_cgroup_type (e : fit_env) (id : Z) : sched_cgroup_type :=
  let t := match fe_tg e id with
           | Some g => if fe_css_named e id then tg_type g else ANDROID_CGROUP_OTHER
           | None => ANDROID_CGROUP_OTHER
           end in
  if fe_use_cgroup_margin e =? 0 then ANDROID_CGROUP_OTHER else t.

Definition fits_margin (e : fit_env) (id : Z) (t : walt_task_struct) (dst_cpu : Z) : Z :=
  let '(table, cl) :=
    if check_for_higher_capacity e (fe_task_cpu e id) dst_cpu
    then (fe_margin_down e, cpu_cluster_id (fe_cfg e) dst_cpu)
    else (fe_margin_up e, cpu_cluster_id (fe_cfg e) (fe_task_cpu e id)) in
  let margin := margin_of table (task_cgroup_type e id) cl in
  if task_in_related_thread_group t then Z.max margin (margin_of table ANDROID_CGROUP_TOPAPP cl) else margin.

Definition task_fits_capacity (e : fit_env) (id : Z) (t : walt_task_struct) (dst_cpu : Z) : bool :=
  u64 (uclamp_task_util e id t * fits_margin e id t dst_cpu) <? u64 (capacity_orig_of (fe_cfg e) dst_cpu * 1024).

Definition can_fit_low_prio_task (e : fit_env) (id : Z) (t : walt_task_struct) (cpu : Z) : bool :=
  let answer := if 2 <? num_sched_clusters (fe_cfg e) then negb (is_min_possible_cluster_cpu e cpu) else true in
  if negb (task_in_related_thread_group t) then
    if (124 <=? fe_prio e id) && negb (is_max_possible_cluster_cpu (fe_cfg e) cpu) then answer else false
  else
    if fe_limit_prime_usage e && (131 <=? fe_prio e id) && negb (is_max_possible_cluster_cpu (fe_cfg e) cpu)
    then answer else false.

Definition task_demand_fits (e : fit_env) (id : Z) (t : walt_task_struct) (dst_cpu : Z) : bool :=
  if is_max_possible_cluster_cpu (fe_cfg e) dst_cpu then true else
  if can_fit_low_prio_task e id t dst_cpu then true else
  task_fits_capacity e id t dst_cpu.

(** ** Misfits *)

Definition MAX_NR_PIPELINE : Z := 3.

(** The counters [have_heavy_list] and [pipeline_nr] are those of the configuration. *)
Definition pipeline_fits_smaller_cpus (c : walt_cfg) (t : walt_task_struct) : Z :=
  let pipeline_cpu := t_pipeline_cpu t in
  if negb (pipeline_in_progress c) then -1 else
  if pipeline_cpu =? -1 then -1 else
  if (if negb (have_heavy_list c =? 0) then have_heavy_list c <? MAX_NR_PIPELINE else pipeline_nr c <? MAX_NR_PIPELINE)
  then -1 else
  if cpumask_test_cpu pipeline_cpu (aget (cpu_array0 c) (num_sched_clusters c - 1)) then 0 else 1.

Definition task_fits_max (e : fit_env) (id : Z) (t : walt_task_struct) (dst_cpu : Z) : walt_task_struct * bool :=
  let c := fe_cfg e in
  let '(t, task_boost) := per_task_boost e t in
  let other_cluster := Z.ldiff (fe_possible e) (cluster_cpus c (cpu_cluster_id c dst_cpu)) in
  (t, if negb (cpumask_intersects other_cluster (fe_cpus_ptr e id)) then true else
      if is_max_possible_cluster_cpu c dst_cpu then true else
      let ret := pipeline_fits_smaller_cpus c t in
      if ret =? 0 then false else if ret =? 1 then true else
      if (if is_min_possible_cluster_cpu e dst_cpu then
            bool_decide (task_boost_policy c (boost_policy c) (fe_tg e id) (task_util t) (fe_min_util_boost e)
                           (walt_pipeline_low_latency_task t) = SCHED_BOOST_ON_BIG) ||
            (0 <? task_boost) || walt_uclamp_boosted e id t || walt_should_kick_upmigrate e t dst_cpu
          else TASK_BOOST_ON_MID <? task_boost)
      then false else
      if can_fit_low_prio_task e id t dst_cpu then true else
      task_fits_capacity e id t dst_cpu).

(** ** What the rules amount to *)

Module Fitting.

(** The documented outcomes for a pipeline task: with at least three pipeline tasks it is a
    misfit exactly when its CPU is a prime one; with fewer, or without a CPU, the general
    rules decide. *)
Lemma pipeline_fit_outcomes c t :
  pipeline_in_progress c = true ->
  let n := if have_heavy_list c =? 0 then pipeline_nr c else have_heavy_list c in
  pipeline_fits_smaller_cpus c t =
  if (t_pipeline_cpu t =? -1) || (n <? MAX_NR_PIPELINE) then -1
  else if Z.testbit (aget (cpu_array0 c) (num_sched_clusters c - 1)) (t_pipeline_cpu t) then 0 else 1.
Proof.
  intros H n. unfold pipeline_fits_smaller_cpus, cpumask_test_cpu, n. rewrite H. cbn [negb].
  destruct (t_pipeline_cpu t =? -1); [done|]. cbn [orb]. by destruct (have_heavy_list c =? 0); cbn [negb].
Qed.

(** Such a task fits every CPU below the largest cluster, or none of them, whatever its
    demand, as long as it may run elsewhere. *)
Lemma pipeline_task_fits e id t cpu :
  cpumask_intersects (Z.ldiff (fe_possible e) (cluster_cpus (fe_cfg e) (cpu_cluster_id (fe_cfg e) cpu))) (fe_cpus_ptr e id) = true ->
  is_max_possible_cluster_cpu (fe_cfg e) cpu = false ->
  pipeline_fits_smaller_cpus (fe_cfg e) t <> -1 ->
  (task_fits_max e id t cpu).2 = (pipeline_fits_smaller_cpus (fe_cfg e) t =? 1).
Proof.
  intros H1 H2 H3. unfold task_fits_max, per_task_boost. cbn [snd]. rewrite H1, H2. cbn [negb].
  assert (pipeline_fits_smaller_cpus (fe_cfg e) (expire_boost e t) = pipeline_fits_smaller_cpus (fe_cfg e) t) as ->.
  { unfold pipeline_fits_smaller_cpus. assert (t_pipeline_cpu (expire_boost e t) = t_pipeline_cpu t) as -> by (unfold expire_boost; by case_if). done. }
  revert H3. unfold pipeline_fits_smaller_cpus. cbv zeta. repeat case_if; done.
Qed.

(** The capacity check is monotone: a task with a smaller demand fits where one with a
    larger demand does. *)
Lemma fits_capacity_monotone e id t t' cpu :
  task_util t' <= task_util t -> t_grp t' = t_grp t ->
  0 <= fits_margin e id t cpu -> 0 <= uclamp_task_util e id t' ->
  uclamp_task_util e id t * fits_margin e id t cpu < 2 ^ 64 ->
  task_fits_capacity e id t cpu = true -> task_fits_capacity e id t' cpu = true.
Proof.
  intros Hu Hg Hm H0 Hb. unfold task_fits_capacity.
  assert (fits_margin e id t' cpu = fits_margin e id t cpu) as ->.
  { unfold fits_margin, task_in_related_thread_group. by rewrite Hg. }
  assert (uclamp_task_util e id t' <= uclamp_task_util e id t) as Hc by (unfold uclamp_task_util; lia).
  set (m := fits_margin e id t cpu) in *. set (a := uclamp_task_util e id t) in *. set (b := uclamp_task_util e id t') in *.
  rewrite !Z.ltb_lt. rewrite (u64_small (a * m)), (u64_small (b * m)) by nia. nia.
Qed.

End Fitting.
