(* ===== verification/Pipeline.v ===== *)
(** * Pipeline tasks

    A few tasks that hand work to one another get CPUs of their own: tasks that user
    space names (the manual pipeline) or the heaviest tasks of the top application (the
    automatic one). This file holds the state of [pipeline.c], the two lists of tasks,
    the special task, and the core control boosts that the pipelines ask for;
    [PipelineHeavy] chooses the tasks, [PipelineCpus] assigns their CPUs. *)

From Stdlib Require Import ZArith Lia ZifyBool Bool.
From stdpp Require Import base list sets functions gmap.
From S2P Require Import Prelude WaltTypes Cpumask SmartFreq Halt CoreCtl Boost Fits.

(** ** State *)

Definition ENOSPC : Z := 28.

(** [enum pipeline_types] *)
Definition MANUAL_PIPELINE : Z := 0.
Definition AUTO_PIPELINE : Z := 1.

(** A task is named by its id, the address of its structure; a slot of an array of
    pointers is an [option]. [pl_wts] is the memory the pointers go to. The fields after
    [pl_special] are static variables: of [pipeline_set_unisolation],
    [pipeline_reset_unisolation_state], [find_heaviest_topapp], [delay_rearrange],
    [pipeline_rearrange] and [rearrange_pipeline_preferred_cpus]. [pl_boosts] are the
    calls of [core_ctl_set_cluster_boost], the last one last. *)
Record pl_sys := mk_pl {
  pl_wts : Z -> walt_task_struct;
  pl_pipeline_wts : list (option Z);
  pl_pipeline_nr : Z;
  pl_heavy_wts : list (option Z);
  pl_have_heavy_list : Z;
  pl_available_gold : Z;
  pl_available_prime : Z;
  pl_total_util : Z;
  pl_least_demand : Z;
  pl_top_wts_bias : bool;
  pl_single_thread : Z;
  pl_special : option Z;
  pl_unisolation_state : bool;
  pl_enable_unisolation : Z;
  pl_last_auto : bool;
  pl_last_rearrange_ns : Z;
  pl_top_wts : option Z;
  pl_top_wts_count : Z;
  pl_delay_ns : list Z;
  pl_prev_config : Z;
  pl_assign_cpu : Z;
  pl_last_set_unisolation : bool;
  pl_boosts : list (Z * bool)
}.

(** Tunables and masks, and what other parts know. [pe_grp] are the tasks of the default
    colocation group, in the order of its list, if the group exists; [pe_sort] is
    [sort] of the kernel library; [pe_em] is the table of frequencies of the energy model
    of a CPU, [pe_cost] the costs by cluster; [pe_prev_sum] the busy time of a CPU in the
    last window; [pe_stack] what an uninitialised [u64] on the stack holds. *)
Record pl_env := mk_ple {
  pe_fit : fit_env;
  pe_disabled : bool;
  pe_cpus : Z;
  pe_online : Z;
  pe_halted : Z;
  pe_cpus_mask : Z -> Z;
  pe_grp : option (list Z);
  pe_demand_scaling : Z;
  pe_swap_th : Z;
  pe_min_demand : Z;
  pe_special_thres : Z;
  pe_rearrange_delay_ms : list Z;
  pe_force_config : Z;
  pe_gold_id : Z;
  pe_prime_id : Z;
  pe_swapping : bool;
  pe_st_pinning : bool;
  pe_sort : (option Z -> option Z -> Z) -> list (option Z) -> list (option Z);
  pe_em : Z -> option (list Z);
  pe_cost : Z -> list Z;
  pe_inflate_thres : Z;
  pe_inflate_pct : Z;
  pe_prev_sum : Z -> Z;
  pe_stack : Z -> Z
}.

(** A system of four silver and four gold CPUs, where the last two gold CPUs and two silver
    ones serve the pipeline, and its state at boot. *)
Definition demo_fit : fit_env :=
  mk_fit sample_cfg 0 255 0 0 (fun _ => 0) (fun _ => 255) (fun _ => 120) (fun _ => 0) (fun _ => 1024)
    (fun _ => None) (fun _ => false) (fun _ => false) 0 (replicate 4 (replicate 4 1078)) (replicate 4 (replicate 4 1205))
    51 51 false true true false.
Definition demo_ple : pl_env :=
  mk_ple demo_fit false 204 255 0 (fun _ => 255) (Some []) 100 0 50 0 [100; 4] 0 0 1 true false
    (fun _ l => l) (fun _ => None) (fun _ => []) 1024 100 (fun _ => 0) (fun _ => 0).
Definition demo_pl : pl_sys :=
  mk_pl (fun _ => zero_wts <| t_pipeline_cpu := -1 |>) (replicate 8 None) 0 (replicate 3 None) 0 0 0 0 0 false 0 None
    false 0 false 0 None 0 [0; 0] 0 (-1) false [].

(** The configuration with the counters of the state. *)
Definition pl_cfg (e : pl_env) (s : pl_sys) : walt_cfg :=
  (fe_cfg (pe_fit e)) <| pipeline_nr := pl_pipeline_nr s |> <| have_heavy_list := pl_have_heavy_list s |>.
Definition pl_fit (e : pl_env) (s : pl_sys) : fit_env := (pe_fit e) <| fe_cfg := pl_cfg e s |>.

Definition slot (l : list (option Z)) (i : Z) : option Z := nth (Z.to_nat i) l None.
Definition set_slot (l : list (option Z)) (i : Z) (v : option Z) : list (option Z) := <[Z.to_nat i := v]> l.

(** A write through a pointer. *)
Definition on_task (id : Z) (f : walt_task_struct -> walt_task_struct) (s : pl_sys) : pl_sys :=
  s <| pl_wts := <[id := f (pl_wts s id)]> (pl_wts s) |>.

(** The tasks of an array of pointers. *)
Definition members (l : list (option Z)) : list Z := omap id l.

(** The loop that closes the gap at [i] in an array of [n] pointers. *)
Definition close_gap (n i : Z) (l : list (option Z)) : list (option Z) :=
  for_range i (Z.to_nat (n - 1 - i)) (fun j l => set_slot (set_slot l j (slot l (j + 1))) (j + 1) None)
    (set_slot l i None).

(** The first slot below [n] that holds [wts]. *)
Definition find_slot (n : Z) (wts : Z) (l : list (option Z)) : option Z :=
  for_range 0 (Z.to_nat n)
    (fun i r => match r with
                | Some _ => r
                | None => if bool_decide (slot l i = Some wts) then Some i else None
                end) None.

(** ** Demand on either cluster *)

(** Result: the demand on a gold CPU, the demand on a prime CPU. *)
Definition pipeline_demand (e : pl_env) (s : pl_sys) (wts : Z) : Z * Z :=
  let c := pl_cfg e s in
  let util := scale_time_to_util c (t_coloc_demand (pl_wts s wts)) in
  if pe_demand_scaling e =? 100 then (util, util) else
  if cpumask_test_cpu (fe_task_cpu (pe_fit e) wts) (cluster_cpus c (num_sched_clusters c - 1))
  then (u64 (mult_frac util 100 (pe_demand_scaling e)), util)
  else (util, u64 (mult_frac util (pe_demand_scaling e) 100)).
Definition gold_demand (e : pl_env) (s : pl_sys) (wts : Z) : Z := (pipeline_demand e s wts).1.
Definition prime_demand (e : pl_env) (s : pl_sys) (wts : Z) : Z := (pipeline_demand e s wts).2.

(** ** The manual list *)

Definition add_pipeline (e : pl_env) (wts : Z) (s : pl_sys) : pl_sys * Z :=
  if pe_disabled e then (s, - EAGAIN) else
  match for_range 0 (Z.to_nat (cpumask_weight (pe_cpus e)))
          (fun i r => match r with
                      | inr _ => r
                      | inl pos => if bool_decide (slot (pl_pipeline_wts s) i = Some wts) then inr tt
                                   else if bool_decide (slot (pl_pipeline_wts s) i = None) then inl i
                                   else inl pos
                      end) (inl (-1)) with
  | inr _ => (s, 0)
  | inl pos =>
      if negb (pos =? -1)
      then (s <| pl_pipeline_wts := set_slot (pl_pipeline_wts s) pos (Some wts) |>
              <| pl_pipeline_nr := s32 (pl_pipeline_nr s + 1) |>, 0)
      else (s, - ENOSPC)
  end.

Definition clear_low_latency (bit : Z) (t : walt_task_struct) : walt_task_struct :=
  t <| t_low_latency := Z.ldiff (t_low_latency t) bit |>.
Definition set_low_latency (bit : Z) (t : walt_task_struct) : walt_task_struct :=
  t <| t_low_latency := Z.lor (t_low_latency t) bit |>.

Definition remove_pipeline (e : pl_env) (wts : Z) (s : pl_sys) : pl_sys * Z :=
  if pe_disabled e then (s, - EAGAIN) else
  match find_slot WALT_NR_CPUS wts (pl_pipeline_wts s) with
  | Some i =>
      (on_task wts (clear_low_latency WALT_LOW_LATENCY_PIPELINE_BIT)
         (s <| pl_pipeline_wts := close_gap WALT_NR_CPUS i (pl_pipeline_wts s) |>
            <| pl_pipeline_nr := s32 (pl_pipeline_nr s - 1) |>), 0)
  | None => (s, 0)
  end.

(** The case [PIPELINE] of [sched_task_handler], for a live or dead task. *)
Definition set_task_pipeline (e : pl_env) (dead : bool) (wts val : Z) (s : pl_sys) : pl_sys * Z :=
  if dead then (s, - EINVAL) else
  if negb (val =? 0) then
    let '(s, ret) := add_pipeline e wts s in
    if ret <? 0 then (s, ret) else (on_task wts (set_low_latency WALT_LOW_LATENCY_PIPELINE_BIT) s, ret)
  else ((remove_pipeline e wts (on_task wts (clear_low_latency WALT_LOW_LATENCY_PIPELINE_BIT) s)).1, 0).

(** ** The automatic list *)

Definition remove_heavy (e : pl_env) (wts : Z) (s : pl_sys) : pl_sys :=
  if pe_disabled e then s else
  if Z.land (t_low_latency (pl_wts s wts)) WALT_LOW_LATENCY_HEAVY_BIT =? 0 then s else
  match find_slot MAX_NR_PIPELINE wts (pl_heavy_wts s) with
  | Some i =>
      let s := on_task wts (clear_low_latency WALT_LOW_LATENCY_HEAVY_BIT) s in
      let s := if -1 <? t_pipeline_cpu (pl_wts s wts)
               then s <| pl_have_heavy_list := s32 (pl_have_heavy_list s - 1) |> else s in
      s <| pl_heavy_wts := close_gap MAX_NR_PIPELINE i (pl_heavy_wts s) |>
  | None => s
  end.

Definition remove_special_task (s : pl_sys) : pl_sys := s <| pl_special := None |>.
Definition set_special_task (p : Z) (s : pl_sys) : pl_sys := s <| pl_special := Some p |>.

(** [sched_pipeline_special_handler]: [ret] is that of [proc_dointvec_minmax], [write]
    the value it stored on a write, [lookup] the task of a pid. Also the value of
    [sysctl_sched_pipeline_special] when the handler changes it. *)
Definition sched_pipeline_special_handler (ret : Z) (write : option Z) (lookup : Z -> option Z) (s : pl_sys)
  : pl_sys * Z * option Z :=
  match write with
  | None => (s, ret, None)
  | Some pid =>
      if negb (ret =? 0) then (s, ret, None) else
      if pid =? 0 then (remove_special_task s, ret, None) else
      match lookup pid with
      | None => (remove_special_task s, - 2, Some 0)
      | Some p => (set_special_task p s, ret, None)
      end
  end.

(** What [walt_task_dead] does after the task has left its group. *)
Definition walt_task_dead (e : pl_env) (p : Z) (s : pl_sys) : pl_sys :=
  let s := if negb (Z.land (t_low_latency (pl_wts s p)) WALT_LOW_LATENCY_PIPELINE_BIT =? 0)
           then (remove_pipeline e p s).1 else s in
  let s := remove_heavy e p s in
  if bool_decide (pl_special s = Some p) then remove_special_task s else s.

(** ** Core control boosts *)

Definition cpumask_last (mask : Z) : Z := if mask =? 0 then WALT_NR_CPUS else Z.log2 mask.

Definition unisolated (e : pl_env) (cl : walt_sched_cluster) : bool :=
  cpumask_intersects (pe_cpus e) (c_cpus cl) ||
  is_max_possible_cluster_cpu (fe_cfg (pe_fit e)) (cpumask_first (c_cpus cl)).

(** The ids the two branches of [pipeline_set_unisolation] boost. *)
Definition boost_ids (e : pl_env) (s : pl_sys) : list Z :=
  if negb (pl_single_thread s =? 0) then [cpu_cluster_id (fe_cfg (pe_fit e)) (cpumask_last (pe_cpus e))]
  else c_id <$> filter (fun cl => unisolated e cl = true) (sched_cluster (fe_cfg (pe_fit e))).

Definition cluster_boosts (e : pl_env) (on : bool) (s : pl_sys) : pl_sys :=
  s <| pl_boosts := pl_boosts s ++ ((fun id => (id, on)) <$> boost_ids e s) |>.

Definition pipeline_set_unisolation (e : pl_env) (set : bool) (flag : Z) (s : pl_sys) : pl_sys :=
  let enable := if set then Z.setbit (pl_enable_unisolation s) flag else Z.clearbit (pl_enable_unisolation s) flag in
  let s := s <| pl_enable_unisolation := enable |> in
  if pl_unisolation_state s && (enable =? 0) then cluster_boosts e false (s <| pl_unisolation_state := false |>)
  else if negb (pl_unisolation_state s) && negb (enable =? 0)
  then cluster_boosts e true (s <| pl_unisolation_state := true |>)
  else s.

Definition auto_pipeline_wanted (e : pl_env) : bool :=
  negb (sysctl_sched_heavy_nr (fe_cfg (pe_fit e)) =? 0) || negb (sysctl_sched_pipeline_util_thres (fe_cfg (pe_fit e)) =? 0).

Definition pipeline_reset_unisolation_state (e : pl_env) (s : pl_sys) : pl_sys :=
  if auto_pipeline_wanted e && negb (pl_last_auto s)
  then (pipeline_set_unisolation e false MANUAL_PIPELINE s) <| pl_last_auto := true |>
  else if negb (auto_pipeline_wanted e) && pl_last_auto s
  then (pipeline_set_unisolation e false AUTO_PIPELINE s) <| pl_last_auto := false |>
  else s.

(** ** The special task *)

Definition special_pipeline_thres_valid (e : pl_env) (special : Z) (s : pl_sys) : bool :=
  gold_demand e s special <? pe_special_thres e.

Definition should_pipeline_pin_special (e : pl_env) (s : pl_sys) : bool :=
  match pl_special s with
  | None => false
  | Some special =>
      if negb (pe_st_pinning e) && bool_decide (slot (pl_heavy_wts s) (MAX_NR_PIPELINE - 1) = None) then false
      else special_pipeline_thres_valid e special s
  end.

(** ** One pinned task *)

Definition walt_configure_single_thread_pipeline (e : pl_env) (val : Z) (s : pl_sys) : pl_sys :=
  let s :=
    if negb (val =? 0) then
      for_range 1 (Z.to_nat (MAX_NR_PIPELINE - 1))
        (fun i s => match slot (pl_heavy_wts s) i with
                    | None => s
                    | Some wts =>
                        let s := if -1 <? t_pipeline_cpu (pl_wts s wts)
                                 then s <| pl_have_heavy_list := s32 (pl_have_heavy_list s - 1) |> else s in
                        on_task wts (fun t => t <| t_pipeline_cpu := -1 |>) s
                    end) s
    else s in
  let s := pipeline_set_unisolation e false AUTO_PIPELINE s in
  let s := s <| pl_single_thread := val |> in
  if negb (val =? 0) &&
     (negb (bool_decide (slot (pl_heavy_wts s) 0 = None)) &&
      is_max_possible_cluster_cpu (fe_cfg (pe_fit e)) (cpumask_last (pe_cpus e)))
  then pipeline_set_unisolation e true AUTO_PIPELINE s else s.

(** [walt_single_thread_pipeline_handler]: [val] is what was written. *)
Definition walt_single_thread_pipeline_handler (e : pl_env) (ret : Z) (write : option Z) (s : pl_sys) : pl_sys * Z :=
  match write with
  | None => (s, ret)
  | Some val =>
      if negb (ret =? 0) || (val =? pl_single_thread s) then (s, ret)
      else (walt_configure_single_thread_pipeline e val s, ret)
  end.

(** ** Arrays of pointers *)

Section Slots.
Implicit Types (l : list (option Z)).

Lemma slot_lookup l i : 0 <= i < Z.of_nat (length l) -> l !! Z.to_nat i = Some (slot l i).
Proof. intros Hi. unfold slot. destruct (nth_lookup_or_length l (Z.to_nat i) None) as [E|E]; [done|lia]. Qed.

Lemma slot_out l i : Z.of_nat (length l) <= i -> slot l i = None.
Proof. intros Hi. apply nth_overflow. lia. Qed.

Lemma length_set_slot l i v : length (set_slot l i v) = length l.
Proof. apply length_insert. Qed.

Lemma slot_set_slot l i j v :
  0 <= i < Z.of_nat (length l) -> 0 <= j -> slot (set_slot l i v) j = if i =? j then v else slot l j.
Proof.
  intros Hi Hj. unfold slot, set_slot. rewrite !nth_lookup. destruct (Z.eqb_spec i j) as [->|Hne].
  - by rewrite list_lookup_insert_eq by lia.
  - by rewrite list_lookup_insert_ne by lia.
Qed.

Lemma slot_ext l k : length l = length k -> (forall i, 0 <= i < Z.of_nat (length l) -> slot l i = slot k i) -> l = k.
Proof.
  intros Hl H. apply (nth_ext l k None None); [done|]. intros n Hn.
  specialize (H (Z.of_nat n) ltac:(lia)). unfold slot in H. by rewrite Nat2Z.id in H.
Qed.

Lemma elem_of_members l t : t ∈ members l <-> Some t ∈ l.
Proof.
  unfold members. rewrite list_elem_of_omap. split; [|by exists (Some t)].
  intros (x & Hx & E). by destruct E.
Qed.

Lemma elem_of_slots l t : t ∈ members l <-> exists i, 0 <= i < Z.of_nat (length l) /\ slot l i = Some t.
Proof.
  rewrite elem_of_members, list_elem_of_lookup. split.
  - intros (i & Hi). pose proof (lookup_lt_Some _ _ _ Hi). exists (Z.of_nat i). split; [lia|].
    unfold slot. by rewrite Nat2Z.id, nth_lookup, Hi.
  - intros (i & Hi & E). exists (Z.to_nat i). by rewrite (slot_lookup l i Hi), E.
Qed.

Lemma members_some t l : members (Some t :: l) = t :: members l.
Proof. done. Qed.
Lemma members_null l : members (None :: l) = members l.
Proof. done. Qed.

Lemma length_members l : (length (members l) <= length l)%nat.
Proof. induction l as [|[]]; rewrite ?members_some, ?members_null; cbn [length]; [done|lia..]. Qed.

Lemma length_members_free l : None ∈ l -> (length (members l) < length l)%nat.
Proof.
  induction l as [|[t|] l IH]; intros H; [by apply elem_of_nil in H| |].
  - apply elem_of_cons in H as [?|H]; [done|]. specialize (IH H). rewrite members_some. cbn [length]. lia.
  - pose proof (length_members l). rewrite members_null. cbn [length]. lia.
Qed.

Lemma length_members_full l : None ∉ l -> length (members l) = length l.
Proof.
  induction l as [|[t|] l IH]; intros H; [done| |].
  - rewrite members_some. cbn [length]. f_equal. apply IH. set_solver.
  - set_solver.
Qed.

Lemma members_app l k : members (l ++ k) = members l ++ members k.
Proof. apply omap_app. Qed.

Lemma members_none l : (forall x, x ∈ l -> x = None) -> members l = [].
Proof.
  induction l as [|x l IH]; intros H; [done|]. rewrite (H x), members_null by set_solver. apply IH. set_solver.
Qed.

Lemma members_set_free l i t :
  0 <= i < Z.of_nat (length l) -> slot l i = None -> members (set_slot l i (Some t)) ≡ₚ t :: members l.
Proof.
  intros Hi E. pose proof (slot_lookup l i Hi) as L. rewrite E in L. unfold set_slot.
  rewrite <- (take_drop_middle l _ _ L) at 2. rewrite insert_take_drop by lia.
  rewrite !members_app, ?members_some, ?members_null. by rewrite Permutation_middle.
Qed.

Lemma members_clear l i t :
  0 <= i < Z.of_nat (length l) -> slot l i = Some t -> t :: members (set_slot l i None) ≡ₚ members l.
Proof.
  intros Hi E. pose proof (slot_lookup l i Hi) as L. rewrite E in L. unfold set_slot.
  rewrite <- (take_drop_middle l _ _ L) at 2. rewrite insert_take_drop by lia.
  rewrite !members_app, ?members_some, ?members_null. by rewrite Permutation_middle.
Qed.

Lemma find_slot_spec n t l :
  0 <= n ->
  match find_slot n t l with
  | Some i => 0 <= i < n /\ slot l i = Some t
  | None => forall i, 0 <= i < n -> slot l i <> Some t
  end.
Proof.
  intros Hn. unfold find_slot.
  pose (P := fun (j : Z) (r : option Z) => match r with
    | Some i => 0 <= i < n /\ slot l i = Some t
    | None => forall i, 0 <= i < j -> slot l i <> Some t end).
  match goal with |- context [for_range 0 ?m ?f ?x] =>
    assert (P (0 + Z.of_nat m) (for_range 0 m f x)) as H end.
  { apply for_range_ind; [intros i Hi; lia|]. intros i [r|] Hi H; [done|].
    destruct (bool_decide_reflect (slot l i = Some t)) as [E|E]; [split; [lia|done]|].
    intros j Hj. destruct (Z.eq_dec j i) as [->|]; [done|]. apply H. lia. }
  destruct (for_range _ _ _ _) as [i|]; [done|]. intros i Hi. apply H. lia.
Qed.

Lemma close_gap_slots n i l :
  Z.of_nat (length l) = n -> 0 <= i < n ->
  length (close_gap n i l) = length l /\
  forall k, 0 <= k < n -> slot (close_gap n i l) k = if k <? i then slot l k else slot l (k + 1).
Proof.
  intros Hl Hi. unfold close_gap.
  pose (P := fun j k : Z => fun m : list (option Z) =>
    slot m k = if k <? i then slot l k else if k <? j then slot l (k + 1) else if k =? j then None else slot l k).
  match goal with |- context [for_range i ?m ?f ?x] =>
    assert (length (for_range i m f x) = length l /\
            forall k, 0 <= k < n -> P (i + Z.of_nat m) k (for_range i m f x)) as [L H] end.
  { apply (for_range_ind (fun j m => length m = length l /\ forall k, 0 <= k < n -> P j k m)).
    - split; [apply length_set_slot|]. intros k Hk. unfold P. rewrite slot_set_slot by lia.
      repeat case_if; (done || lia).
    - intros j m Hj [Hm H]. split; [by rewrite !length_set_slot|]. intros k Hk. unfold P.
      rewrite slot_set_slot by (rewrite ?length_set_slot; lia). rewrite slot_set_slot by lia.
      assert (slot m (j + 1) = slot l (j + 1)) as -> by (rewrite (H (j + 1)) by lia; repeat case_if; (done || lia)).
      specialize (H k Hk). unfold P in H.
      destruct (Z.eqb_spec (j + 1) k) as [<-|]; [repeat case_if; (done || lia)|].
      destruct (Z.eqb_spec j k) as [->|]; [repeat case_if; (done || lia)|].
      rewrite H. repeat case_if; (done || lia). }
  split; [exact L|]. intros k Hk. rewrite (H k Hk).
  destruct (Z.ltb_spec k i); [done|]. destruct (Z.eqb_spec k (n - 1)) as [->|].
  - rewrite (slot_out l) by lia. repeat case_if; (done || lia).
  - repeat case_if; (done || lia).
Qed.

(** The loop shifts the rest of the array and leaves the last slot empty. *)
Lemma close_gap_delete n i l :
  Z.of_nat (length l) = n -> 0 <= i < n -> close_gap n i l = delete (Z.to_nat i) l ++ [None].
Proof.
  intros Hl Hi. destruct (close_gap_slots n i l Hl Hi) as [L H].
  assert (length (delete (Z.to_nat i) l) = (length l - 1)%nat) as D.
  { apply length_delete. apply lookup_lt_is_Some_2. lia. }
  apply slot_ext; [rewrite L, length_app, D; cbn; lia|]. rewrite L. intros k Hk. rewrite H by lia.
  unfold slot at 3. destruct (Z.ltb_spec k i) as [Hlt|Hge].
  - rewrite app_nth1 by lia. rewrite nth_lookup, list_lookup_delete_lt by lia. by rewrite <- nth_lookup.
  - destruct (Z.eq_dec k (n - 1)) as [->|].
    + rewrite slot_out by lia. rewrite app_nth2 by lia. by replace (Z.to_nat (n - 1) - _)%nat with 0%nat by lia.
    + rewrite app_nth1 by lia. rewrite nth_lookup, list_lookup_delete_ge by lia. rewrite <- nth_lookup.
      unfold slot. f_equal. lia.
Qed.

Lemma members_close_gap n i t l :
  Z.of_nat (length l) = n -> 0 <= i < n -> slot l i = Some t -> members l ≡ₚ t :: members (close_gap n i l).
Proof.
  intros Hl Hi E. rewrite close_gap_delete, members_app by done. change (members [None]) with (@nil Z). rewrite app_nil_r.
  pose proof (slot_lookup l i ltac:(lia)) as L. rewrite E in L.
  rewrite <- (take_drop_middle l _ _ L) at 1. rewrite delete_take_drop, !members_app, members_some.
  by rewrite Permutation_middle.
Qed.

End Slots.

#[export] Hint Rewrite length_set_slot members_app : walt.
#[global] Arguments slot : simpl never.
#[global] Arguments set_slot : simpl never.
#[global] Arguments members : simpl never.
#[global] Arguments close_gap : simpl never.
#[global] Arguments find_slot : simpl never.

(** ** The manual pipeline is a bounded set *)

Module ManualList.

(** What user space and the scheduler do to the list: a write to the pipeline file of a
    live task, and the death of a task. *)
Inductive request := Write (wts val : Z) | Dead (wts : Z).

(** The specification: a set of at most [cap] tasks. *)
Definition spec_step (cap : Z) (X : gset Z) (r : request) : gset Z * Z :=
  match r with
  | Write t val =>
      if val =? 0 then (X ∖ {[t]}, 0)
      else if bool_decide (t ∈ X) then (X, 0)
      else if Z.of_nat (size X) <? cap then ({[t]} ∪ X, 0) else (X, - ENOSPC)
  | Dead t => (X ∖ {[t]}, 0)
  end.
Fixpoint spec_run (cap : Z) (X : gset Z) (l : list request) : gset Z * list Z :=
  match l with
  | [] => (X, [])
  | r :: l => let '(X, ret) := spec_step cap X r in let '(X, rets) := spec_run cap X l in (X, ret :: rets)
  end.

Definition code_step (e : pl_env) (s : pl_sys) (r : request) : pl_sys * Z :=
  match r with
  | Write t val => set_task_pipeline e false t val s
  | Dead t => (walt_task_dead e t s, 0)
  end.
Fixpoint code_run (e : pl_env) (s : pl_sys) (l : list request) : pl_sys * list Z :=
  match l with
  | [] => (s, [])
  | r :: l => let '(s, ret) := code_step e s r in let '(s, rets) := code_run e s l in (s, ret :: rets)
  end.

Definition pipeline_bit (t : walt_task_struct) : bool := Z.testbit (t_low_latency t) 2.

(** The list of capacity [cap], its counter and the bits of the tasks show the set. *)
Record shows (cap : Z) (s : pl_sys) (X : gset Z) : Prop := mk_shows {
  sh_length : length (pl_pipeline_wts s) = Z.to_nat WALT_NR_CPUS;
  sh_free : forall i, cap <= i -> slot (pl_pipeline_wts s) i = None;
  sh_nodup : NoDup (members (pl_pipeline_wts s));
  sh_set : forall t, t ∈ X <-> t ∈ members (pl_pipeline_wts s);
  sh_nr : pl_pipeline_nr s = Z.of_nat (length (members (pl_pipeline_wts s)));
  sh_bit : forall t, pipeline_bit (pl_wts s t) = bool_decide (t ∈ X)
}.

Lemma cpumask_weight_bounds m : 0 <= cpumask_weight m <= WALT_NR_CPUS.
Proof.
  unfold cpumask_weight.
  cut (0 <= for_each_cpu m (fun _ n => n + 1) 0 <= WALT_NR_CPUS); [done|].
  apply (for_each_cpu_ind (fun n k => 0 <= k <= n)); intros; lia.
Qed.

Lemma testbit_test m k : 0 <= k -> negb (Z.land m (2 ^ k) =? 0) = Z.testbit m k.
Proof.
  intros Hk. destruct (Z.testbit m k) eqn:E.
  - destruct (Z.eqb_spec (Z.land m (2 ^ k)) 0) as [H|]; [|done]. exfalso.
    assert (Z.testbit (Z.land m (2 ^ k)) k = true); [|by rewrite H, Z.bits_0 in *].
    by rewrite Z.land_spec, E, Z.pow2_bits_true.
  - apply negb_false_iff, Z.eqb_eq, mask_zero_iff. intros c. rewrite Z.land_spec.
    destruct (Z.eq_dec c k) as [->|]; [by rewrite E|]. by rewrite Z.pow2_bits_false, andb_false_r.
Qed.

Lemma bit_clear t : pipeline_bit (clear_low_latency WALT_LOW_LATENCY_PIPELINE_BIT t) = false.
Proof. unfold pipeline_bit, clear_low_latency. cbn. rewrite Z.ldiff_spec. change (Z.testbit _ 2) with true at 2. apply andb_false_r. Qed.
Lemma bit_set t : pipeline_bit (set_low_latency WALT_LOW_LATENCY_PIPELINE_BIT t) = true.
Proof. unfold pipeline_bit, set_low_latency. cbn. rewrite Z.lor_spec. apply orb_true_r. Qed.
Lemma bit_clear_heavy t : pipeline_bit (clear_low_latency WALT_LOW_LATENCY_HEAVY_BIT t) = pipeline_bit t.
Proof. unfold pipeline_bit, clear_low_latency. cbn. rewrite Z.ldiff_spec. apply andb_true_r. Qed.

Section Refinement.
Context (e : pl_env) (Henabled : pe_disabled e = false).
#[local] Abbreviation cap := (cpumask_weight (pe_cpus e)).

(** The scan of [add_pipeline]. *)
Lemma add_scan s t :
  length (pl_pipeline_wts s) = Z.to_nat WALT_NR_CPUS ->
  (forall i, cap <= i -> slot (pl_pipeline_wts s) i = None) ->
  (t ∈ members (pl_pipeline_wts s) /\ add_pipeline e t s = (s, 0)) \/
  ((t ∉ members (pl_pipeline_wts s)) /\
   ((Z.of_nat (length (members (pl_pipeline_wts s))) < cap /\
     exists i, 0 <= i < cap /\ slot (pl_pipeline_wts s) i = None /\
       add_pipeline e t s = (s <| pl_pipeline_wts := set_slot (pl_pipeline_wts s) i (Some t) |>
                               <| pl_pipeline_nr := s32 (pl_pipeline_nr s + 1) |>, 0)) \/
    (cap <= Z.of_nat (length (members (pl_pipeline_wts s))) /\ add_pipeline e t s = (s, - ENOSPC)))).
Proof.
  intros Hl Hfree. unfold add_pipeline. rewrite Henabled.
  pose proof (cpumask_weight_bounds (pe_cpus e)) as Hcap. set (l := pl_pipeline_wts s) in *.
  pose (P := fun (j : Z) (r : Z + unit) => match r with
    | inr _ => t ∈ members l
    | inl pos => (forall i, 0 <= i < j -> slot l i <> Some t) /\
                 ((pos = -1 /\ forall i, 0 <= i < j -> slot l i <> None) \/ (0 <= pos < j /\ slot l pos = None)) end).
  match goal with |- context [for_range 0 ?m ?f ?x] =>
    assert (P (0 + Z.of_nat m) (for_range 0 m f x)) as H end.
  { apply for_range_ind; [split; [intros; lia|left; split; [done|intros; lia]]|].
    intros i [pos|] Hi H; [|done]. destruct H as [H1 H2].
    destruct (bool_decide_reflect (slot l i = Some t)) as [E|E].
    { apply elem_of_slots. exists i. split; [|done]. rewrite Hl. unfold WALT_NR_CPUS in *. lia. }
    assert (forall j, 0 <= j < i + 1 -> slot l j <> Some t) as H1'.
    { intros j Hj. destruct (Z.eq_dec j i) as [->|]; [done|]. apply H1. lia. }
    destruct (bool_decide_reflect (slot l i = None)) as [F|F]; (split; [done|]); [right; split; [lia|done]|].
    destruct H2 as [[-> H2]|[? H2]]; [left|right; split; [lia|done]]. split; [done|].
    intros j Hj. destruct (Z.eq_dec j i) as [->|]; [done|]. apply H2. lia. }
  destruct (for_range _ _ _ _) as [pos|]; [|by left]. right. destruct H as [H1 H2].
  replace (0 + Z.of_nat (Z.to_nat cap)) with cap in H1, H2 by lia.
  assert (l = take (Z.to_nat cap) l ++ drop (Z.to_nat cap) l) as Es by (by rewrite take_drop).
  assert (members (drop (Z.to_nat cap) l) = []) as Ed.
  { apply members_none. intros x (i & Hi)%list_elem_of_lookup. rewrite lookup_drop in Hi.
    specialize (Hfree (Z.of_nat (Z.to_nat cap + i)) ltac:(lia)). unfold slot in Hfree.
    by rewrite Nat2Z.id, nth_lookup, Hi in Hfree. }
  assert (members l = members (take (Z.to_nat cap) l)) as Em.
  { rewrite Es at 1. by rewrite members_app, Ed, app_nil_r. }
  assert (Z.of_nat (length (take (Z.to_nat cap) l)) = cap) as Et.
  { rewrite length_take. unfold WALT_NR_CPUS in *. lia. }
  split.
  { rewrite elem_of_slots. intros (i & Hi & E). destruct (Z_lt_le_dec i cap) as [Hi'|Hi'].
    - apply (H1 i); [lia|done].
    - by rewrite (Hfree i Hi') in E. }
  destruct H2 as [[-> H2]|[Hpos H2]].
  - right. split; [|done]. rewrite Em, length_members_full; [lia|].
    intros (i & Hi)%list_elem_of_lookup. pose proof (lookup_lt_Some _ _ _ Hi).
    rewrite lookup_take_lt in Hi by lia. apply (H2 (Z.of_nat i)); [lia|].
    unfold slot. by rewrite Nat2Z.id, nth_lookup, Hi.
  - left. split.
    + rewrite Em. cut (length (members (take (Z.to_nat cap) l)) < length (take (Z.to_nat cap) l))%nat; [lia|].
      apply length_members_free, list_elem_of_lookup. exists (Z.to_nat pos).
      rewrite lookup_take_lt, slot_lookup, H2 by (unfold WALT_NR_CPUS in *; lia). done.
    + exists pos. split; [done|]. split; [done|]. destruct (Z.eqb_spec pos (-1)); [lia|done].
Qed.

Lemma shows_frame s s' X :
  shows cap s X -> pl_pipeline_wts s' = pl_pipeline_wts s -> pl_pipeline_nr s' = pl_pipeline_nr s ->
  (forall t, pipeline_bit (pl_wts s' t) = pipeline_bit (pl_wts s t)) -> shows cap s' X.
Proof. intros [] E1 E2 E3. constructor; rewrite ?E1, ?E2; try done. intros t. by rewrite E3. Qed.

Lemma insert_bit t x (f : Z -> walt_task_struct) u :
  pipeline_bit (<[t := x]> f u) = if bool_decide (t = u) then pipeline_bit x else pipeline_bit (f u).
Proof.
  destruct (bool_decide_reflect (t = u)) as [->|H]; [by rewrite fn_lookup_insert|by rewrite fn_lookup_insert_ne].
Qed.
Lemma on_task_bit t f s u :
  pipeline_bit (pl_wts (on_task t f s) u) = if bool_decide (t = u) then pipeline_bit (f (pl_wts s t)) else pipeline_bit (pl_wts s u).
Proof. apply insert_bit. Qed.

Lemma shows_size s X : shows cap s X -> size X = length (members (pl_pipeline_wts s)).
Proof.
  intros []. rewrite <- (size_list_to_set (C := gset Z) (members (pl_pipeline_wts s))) by done.
  f_equal. apply set_eq. intros t. by rewrite elem_of_list_to_set.
Qed.

Lemma shows_add s X t val :
  shows cap s X -> val <> 0 ->
  let '(s', ret) := set_task_pipeline e false t val s in
  let '(Y, ret') := spec_step cap X (Write t val) in shows cap s' Y /\ ret = ret'.
Proof.
  intros H Hv%Z.eqb_neq. pose proof H as [H1 H2 H3 H4 H5 H6]. unfold set_task_pipeline, spec_step.
  rewrite Hv. cbn [negb]. pose proof (shows_size s X H) as Hsz.
  destruct (add_scan s t H1 H2) as [[Hin ->]|(Hout & [(Hlt & i & Hi & Ei & ->)|(Hge & ->)])].
  - rewrite bool_decide_true by (by apply H4). cbn. split; [|done]. apply (shows_frame s); [done|done|done|].
    intros u. rewrite on_task_bit, bit_set. destruct (bool_decide_reflect (t = u)) as [<-|]; [|done].
    rewrite H6. symmetry. apply bool_decide_true. by apply H4.
  - rewrite bool_decide_false by (by rewrite H4). rewrite Hsz. destruct (Z.ltb_spec (Z.of_nat (length (members (pl_pipeline_wts s)))) cap); [|lia].
    cbn. split; [|done].
    pose proof (cpumask_weight_bounds (pe_cpus e)) as Hc. unfold WALT_NR_CPUS in *.
    assert (members (set_slot (pl_pipeline_wts s) i (Some t)) ≡ₚ t :: members (pl_pipeline_wts s)) as Hp.
    { apply members_set_free; [lia|done]. }
    assert (forall u, u ∈ {[t]} ∪ X <-> u ∈ members (set_slot (pl_pipeline_wts s) i (Some t))) as Hset.
    { intros u. rewrite Hp, elem_of_cons, elem_of_union, elem_of_singleton, H4. done. }
    constructor; cbn.
    + by rewrite length_set_slot.
    + intros j Hj. rewrite slot_set_slot by lia. destruct (Z.eqb_spec i j); [lia|]. by apply H2.
    + rewrite Hp. by constructor.
    + done.
    + rewrite Hp, s32_small, H5; cbn [length]; lia.
    + intros u. rewrite insert_bit, bit_set. destruct (bool_decide_reflect (t = u)) as [<-|Hne].
      * symmetry. apply bool_decide_true. clear. set_solver.
      * rewrite H6. apply bool_decide_ext. clear -Hne. set_solver.
  - rewrite bool_decide_false by (by rewrite H4). rewrite Hsz. destruct (Z.ltb_spec (Z.of_nat (length (members (pl_pipeline_wts s)))) cap); [lia|].
    done.
Qed.

(** [remove_pipeline] on a state that shows [X] except that the bit of the task may have
    been cleared already. *)
Lemma shows_remove s X t :
  length (pl_pipeline_wts s) = Z.to_nat WALT_NR_CPUS ->
  (forall i, cap <= i -> slot (pl_pipeline_wts s) i = None) ->
  NoDup (members (pl_pipeline_wts s)) ->
  (forall u, u ∈ X <-> u ∈ members (pl_pipeline_wts s)) ->
  pl_pipeline_nr s = Z.of_nat (length (members (pl_pipeline_wts s))) ->
  (forall u, u <> t -> pipeline_bit (pl_wts s u) = bool_decide (u ∈ X)) ->
  (t ∉ X -> pipeline_bit (pl_wts s t) = false) ->
  shows cap (remove_pipeline e t s).1 (X ∖ {[t]}).
Proof.
  intros H1 H2 H3 H4 H5 H6 H7. unfold remove_pipeline. rewrite Henabled.
  pose proof (find_slot_spec WALT_NR_CPUS t (pl_pipeline_wts s) ltac:(done)) as Hf.
  destruct (find_slot _ _ _) as [i|].
  - destruct Hf as [Hi Ei].
    assert (Z.of_nat (length (pl_pipeline_wts s)) = WALT_NR_CPUS) as Hn by (unfold WALT_NR_CPUS in *; lia).
    pose proof (members_close_gap _ i t _ Hn Hi Ei) as Hp.
    destruct (close_gap_slots _ i _ Hn Hi) as [Hlen Hslots]. rewrite Hp in H3. apply NoDup_cons in H3 as [Ht H3].
    assert (forall u, u ∈ X ∖ {[t]} <-> u ∈ members (close_gap WALT_NR_CPUS i (pl_pipeline_wts s))) as Hset.
    { intros u. rewrite elem_of_difference, elem_of_singleton, H4, Hp, elem_of_cons. split.
      - by intros [[->|] ?].
      - intros Hu. split; [by right|]. by intros ->. }
    cbn. constructor; cbn.
    + by rewrite Hlen.
    + intros j Hj. pose proof (cpumask_weight_bounds (pe_cpus e)). destruct (Z_lt_le_dec j WALT_NR_CPUS).
      * rewrite Hslots by lia. destruct (Z.ltb_spec j i); apply H2; lia.
      * apply slot_out. rewrite Hlen. lia.
    + done.
    + done.
    + rewrite H5, Hp. cbn [length]. rewrite s32_small; [lia|].
      pose proof (length_members (close_gap WALT_NR_CPUS i (pl_pipeline_wts s))). unfold WALT_NR_CPUS in *. lia.
    + intros u. rewrite insert_bit, bit_clear. destruct (bool_decide_reflect (t = u)) as [<-|Hne].
      * symmetry. apply bool_decide_false. clear. set_solver.
      * rewrite H6 by done. apply bool_decide_ext. clear -Hne. set_solver.
  - cbn. assert (t ∉ X) as Ht.
    { rewrite H4, elem_of_slots. intros (i & Hi & Ei). apply (Hf i); [|done]. unfold WALT_NR_CPUS in *. lia. }
    replace (X ∖ {[t]}) with X by (clear -Ht; set_solver). constructor; try done.
    intros u. destruct (decide (u = t)) as [->|]; [rewrite H7 by done|by apply H6].
    symmetry. by apply bool_decide_false.
Qed.

Lemma remove_heavy_frame t s :
  pl_pipeline_wts (remove_heavy e t s) = pl_pipeline_wts s /\
  pl_pipeline_nr (remove_heavy e t s) = pl_pipeline_nr s /\
  forall u, pipeline_bit (pl_wts (remove_heavy e t s) u) = pipeline_bit (pl_wts s u).
Proof.
  unfold remove_heavy. rewrite Henabled. case_if; [done|]. destruct (find_slot _ _ _) as [i|]; [|done].
  assert (forall u, pipeline_bit (pl_wts (on_task t (clear_low_latency WALT_LOW_LATENCY_HEAVY_BIT) s) u) =
                    pipeline_bit (pl_wts s u)) as Hb.
  { intros u. rewrite on_task_bit, bit_clear_heavy. by destruct (bool_decide_reflect (t = u)) as [->|]. }
  cbn zeta. case_if; cbn; split; [done|split; [done|exact Hb]|done|split; [done|exact Hb]].
Qed.

Lemma shows_write0 s X t :
  shows cap s X -> shows cap (set_task_pipeline e false t 0 s).1 (X ∖ {[t]}).
Proof.
  intros []. unfold set_task_pipeline. cbn [negb Z.eqb]. change (0 =? 0) with true. cbn [negb].
  apply shows_remove; try done.
  - intros u Hu. rewrite on_task_bit, bool_decide_false by done. done.
  - intros _. rewrite on_task_bit, bool_decide_true by done. apply bit_clear.
Qed.

Lemma shows_dead s X t : shows cap s X -> shows cap (walt_task_dead e t s) (X ∖ {[t]}).
Proof.
  intros H. unfold walt_task_dead. change WALT_LOW_LATENCY_PIPELINE_BIT with (2 ^ 2).
  rewrite testbit_test by done. fold (pipeline_bit (pl_wts s t)). rewrite (sh_bit _ _ _ H).
  set (s1 := if bool_decide (t ∈ X) then (remove_pipeline e t s).1 else s). assert (shows cap s1 (X ∖ {[t]})) as H1.
  { unfold s1. destruct (bool_decide_reflect (t ∈ X)) as [Ht|Ht].
    - destruct H. by apply shows_remove.
    - by replace (X ∖ {[t]}) with X by (clear -Ht; set_solver). }
  clearbody s1. assert (shows cap (remove_heavy e t s1) (X ∖ {[t]})) as H2.
  { destruct (remove_heavy_frame t s1) as (E1 & E2 & E3). by apply (shows_frame s1). }
  case_if; [|done]. by apply (shows_frame (remove_heavy e t s1)).
Qed.

End Refinement.

(** C21. The manual pipeline is a set of at most as many tasks as there are pipeline CPUs.
    Over any sequence of writes to the pipeline files of tasks and of deaths of tasks,
    every write returns what the specification says (0, or [-ENOSPC] exactly when a new task
    meets a full set), the array holds every member once and nothing else, [pipeline_nr] is
    the number of members, and a task has the pipeline bit exactly when it is a member: so
    [walt_task_dead], which looks at the bit only, never leaves a dead task behind. *)
Theorem manual_list_refines e s X l :
  pe_disabled e = false -> shows (cpumask_weight (pe_cpus e)) s X ->
  shows (cpumask_weight (pe_cpus e)) (code_run e s l).1 (spec_run (cpumask_weight (pe_cpus e)) X l).1 /\
  (code_run e s l).2 = (spec_run (cpumask_weight (pe_cpus e)) X l).2.
Proof.
  intros He. revert s X. induction l as [|r l IH]; intros s X H; [done|].
  assert (let '(s', ret) := code_step e s r in
          let '(Y, ret') := spec_step (cpumask_weight (pe_cpus e)) X r in
          shows (cpumask_weight (pe_cpus e)) s' Y /\ ret = ret') as Hstep.
  { destruct r as [t val|t]; [|split; [by apply shows_dead|done]].
    destruct (Z.eq_dec val 0) as [->|Hv]; [|by apply shows_add].
    pose proof (shows_write0 e He s X t H) as Hw. cbn -[set_task_pipeline remove_pipeline].
    unfold set_task_pipeline in *. cbn [negb]. by change (0 =? 0) with true in *. }
  cbn [code_run spec_run]. destruct (code_step e s r) as [s' ret], (spec_step _ X r) as [Y ret'].
  destruct Hstep as [HY ->]. destruct (IH s' Y HY) as [IH1 IH2].
  destruct (code_run e s' l), (spec_run _ Y l). cbn in *. split; [done|by f_equal].
Qed.

Lemma manual_list_refines_witness :
  let l := [Write 1 1; Write 2 1; Write 1 1; Write 3 1; Write 4 1; Write 5 1; Dead 2; Write 5 1; Write 3 0] in
  shows (cpumask_weight (pe_cpus demo_ple)) (code_run demo_ple demo_pl l).1 (spec_run 4 ∅ l).1 /\
  (code_run demo_ple demo_pl l).2 = [0; 0; 0; 0; 0; - ENOSPC; 0; 0; 0].
Proof.
  intros l. change 4 with (cpumask_weight (pe_cpus demo_ple)).
  destruct (manual_list_refines demo_ple demo_pl ∅ l) as [H1 H2].
  - reflexivity.
  - constructor; cbn.
    + reflexivity.
    + intros i Hi. unfold slot. generalize (Z.to_nat i). intros n. do 9 (destruct n; [reflexivity|]). reflexivity.
    + constructor.
    + intros t. change (members _) with (@nil Z). set_solver.
    + reflexivity.
    + intros t. rewrite bool_decide_false by set_solver. reflexivity.
  - split; [exact H1|]. rewrite H2. vm_compute. reflexivity.
Defined.

End ManualList.

(** ** Core control boosts are balanced *)

(** What the pipeline needs of core control: the number of boosts of a cluster goes up
    and down by one with the calls for it, and other clusters keep theirs. *)
Class ClusterBoost (S : Type) := {
  kb_clusters : S -> Z;
  kb_level : S -> Z -> Z;
  kb_set : Z -> bool -> S -> S;
  kb_same_clusters : forall s i on, 0 <= i -> kb_clusters (kb_set i on s) = kb_clusters s;
  kb_other : forall s i j on, 0 <= i -> 0 <= j -> i <> j -> kb_level (kb_set i on s) j = kb_level s j;
  kb_up : forall s i, 0 <= i < kb_clusters s -> 0 <= kb_level s i < 2 ^ 32 - 1 ->
    kb_level (kb_set i true s) i = kb_level s i + 1;
  kb_down : forall s i, 0 <= i < kb_clusters s -> 0 < kb_level s i < 2 ^ 32 ->
    kb_level (kb_set i false s) i = kb_level s i - 1
}.

Module Unisolation.

Definition replay {S} `{ClusterBoost S} (log : list (Z * bool)) (c : S) : S :=
  fold_left (fun c b => kb_set b.1 b.2 c) log c.

Section Replay.
Context {S : Type} `{KB : ClusterBoost S}.

Lemma replay_levels (on : bool) (l : list Z) (c : S) :
  NoDup l -> Forall (fun i => 0 <= i < kb_clusters c) l ->
  (forall i, i ∈ l -> 0 <= kb_level c i + (if on then 0 else -1) < 2 ^ 32 - 1) ->
  let c' := replay ((fun i => (i, on)) <$> l) c in
  kb_clusters c' = kb_clusters c /\
  forall i, 0 <= i -> kb_level c' i = kb_level c i + (if on then 1 else -1) * Z.b2z (bool_decide (i ∈ l)).
Proof.
  revert c. induction l as [|x l IH]; intros c Hn Hr Hl c'.
  - split; [done|]. intros i _. rewrite bool_decide_false by apply not_elem_of_nil. cbn. unfold c'. cbn. lia.
  - assert (c' = replay ((fun i => (i, on)) <$> l) (kb_set x on c)) as -> by done.
    apply NoDup_cons in Hn as [Hx Hn]. apply Forall_cons in Hr as [Hr1 Hr].
    pose proof (kb_same_clusters c x on (proj1 Hr1)) as Ec.
    assert (kb_level (kb_set x on c) x = kb_level c x + (if on then 1 else -1)) as Ex.
    { pose proof (Hl x ltac:(left)). destruct on; [rewrite kb_up by lia|rewrite kb_down by lia]; lia. }
    assert (forall j, 0 <= j -> j <> x -> kb_level (kb_set x on c) j = kb_level c j) as Ej.
    { intros j Hj Hne. apply kb_other; [lia|done|done]. }
    assert (forall j, j ∈ l -> j <> x) as Hlx by (intros j Hj ->; done).
    destruct (IH (kb_set x on c)) as [IH1 IH2].
    + done.
    + by rewrite Ec.
    + intros i Hi. rewrite Ej; [apply Hl; by right| |by apply Hlx].
      rewrite Forall_forall in Hr. by apply Hr.
    + cbv zeta in IH1, IH2. split; [by rewrite IH1|]. intros i Hi. rewrite IH2 by done.
      destruct (decide (i = x)) as [->|Hne].
      * rewrite Ex, (bool_decide_false (x ∈ l)), (bool_decide_true (x ∈ x :: l)) by (done || left).
        cbn. lia.
      * rewrite Ej by done. do 2 f_equal. f_equal. apply bool_decide_ext. rewrite elem_of_cons. by intuition.
Qed.

End Replay.

(** The clusters the pipeline boosts are clusters of core control. *)
Definition ids_ok (n : Z) (e : pl_env) (s : pl_sys) : Prop :=
  NoDup (boost_ids e s) /\ Forall (fun i => 0 <= i < n) (boost_ids e s).

(** The steps that touch the boosts: the calls of [pipeline_set_unisolation], the reset
    when the kind of pipeline changes, and a change of single-thread mode while the manual
    pipeline holds no boost. Anything else leaves this part of the state alone. *)
Inductive step (e : pl_env) (s : pl_sys) : pl_sys -> Prop :=
| step_set set flag : 0 <= flag -> step e s (pipeline_set_unisolation e set flag s)
| step_reset heavy_nr thres :
    step e s (pipeline_reset_unisolation_state
                (e <| pe_fit := (pe_fit e) <| fe_cfg := (fe_cfg (pe_fit e)) <| sysctl_sched_heavy_nr := heavy_nr |>
                                             <| sysctl_sched_pipeline_util_thres := thres |> |> |>) s)
| step_single val :
    Z.clearbit (pl_enable_unisolation s) AUTO_PIPELINE = 0 ->
    step e s (walt_configure_single_thread_pipeline e val s)
| step_other s' :
    pl_enable_unisolation s' = pl_enable_unisolation s -> pl_unisolation_state s' = pl_unisolation_state s ->
    pl_single_thread s' = pl_single_thread s -> pl_boosts s' = pl_boosts s -> step e s s'.

Section Balance.
Context {S : Type} `{KB : ClusterBoost S} (e : pl_env) (c0 : S).
Context (Hlevels : forall i, 0 <= i < kb_clusters c0 -> 0 <= kb_level c0 i < 2 ^ 32 - 1)
        (Hids : forall s, ids_ok (kb_clusters c0) e s).

Record balanced (s : pl_sys) : Prop := mk_balanced {
  ba_state : pl_unisolation_state s = negb (pl_enable_unisolation s =? 0);
  ba_clusters : kb_clusters (replay (pl_boosts s) c0) = kb_clusters c0;
  ba_level : forall i, 0 <= i -> kb_level (replay (pl_boosts s) c0) i =
    kb_level c0 i + Z.b2z (pl_unisolation_state s && bool_decide (i ∈ boost_ids e s))
}.

Lemma boosts_level on en s :
  balanced s -> pl_unisolation_state s = negb on -> negb (en =? 0) = on ->
  balanced (cluster_boosts e on (s <| pl_enable_unisolation := en |> <| pl_unisolation_state := on |>)).
Proof.
  intros [B1 B2 B3] Hst Hen. destruct (Hids s) as [Hn Hr].
  destruct (replay_levels on (boost_ids e s) (replay (pl_boosts s) c0)) as [R1 R2].
  - done.
  - by rewrite B2.
  - intros i Hi. rewrite Forall_forall in Hr. specialize (Hr i Hi). specialize (Hlevels i Hr).
    rewrite B3, Hst, (bool_decide_true (i ∈ _)) by (done || lia). destruct on; cbn; lia.
  - assert (replay (pl_boosts (cluster_boosts e on s)) c0 =
            replay ((fun i => (i, on)) <$> boost_ids e s) (replay (pl_boosts s) c0)) as Er by apply fold_left_app.
    constructor.
    + done.
    + etransitivity; [|exact B2]. etransitivity; [|exact R1]. exact (f_equal kb_clusters Er).
    + intros i Hi. etransitivity; [exact (f_equal (fun c => kb_level c i) Er)|]. cbv zeta in R2. rewrite R2, B3, Hst by done.
      change (boost_ids e (cluster_boosts e on _)) with (boost_ids e s).
      change (pl_unisolation_state (cluster_boosts e on _)) with on.
      destruct on, (bool_decide (i ∈ boost_ids e s)); cbn; lia.
Qed.

Lemma balanced_frame s s' :
  balanced s -> pl_enable_unisolation s' = pl_enable_unisolation s ->
  pl_unisolation_state s' = pl_unisolation_state s ->
  pl_single_thread s' = pl_single_thread s -> pl_boosts s' = pl_boosts s -> balanced s'.
Proof.
  intros [B1 B2 B3] E1 E2 E3 E4. constructor; rewrite ?E1, ?E2, ?E4; try done.
  intros i Hi. rewrite B3 by done. unfold boost_ids. by rewrite E3.
Qed.

Lemma balanced_enable s en :
  balanced s -> pl_unisolation_state s = negb (en =? 0) -> balanced (s <| pl_enable_unisolation := en |>).
Proof. intros [B1 B2 B3] H. constructor; [exact H|exact B2|exact B3]. Qed.

Lemma balanced_set e' set flag s :
  (forall s, boost_ids e' s = boost_ids e s) ->
  balanced s -> balanced (pipeline_set_unisolation e' set flag s).
Proof.
  intros Ei B. unfold pipeline_set_unisolation. set (en := if set then _ else _).
  assert (forall on s, cluster_boosts e' on s = cluster_boosts e on s) as Ec.
  { intros on t. unfold cluster_boosts. by rewrite Ei. }
  cbv zeta. rewrite !Ec. change (pl_unisolation_state (s <| pl_enable_unisolation := en |>)) with (pl_unisolation_state s).
  destruct (pl_unisolation_state s) eqn:Est, (en =? 0) eqn:Een; cbn [andb negb].
  - apply boosts_level; [done|done|by rewrite Een].
  - apply balanced_enable; [done|]. by rewrite Est, Een.
  - apply balanced_enable; [done|]. by rewrite Est, Een.
  - apply boosts_level; [done|done|by rewrite Een].
Qed.

Lemma balanced_reset e' s :
  (forall s, boost_ids e' s = boost_ids e s) -> balanced s -> balanced (pipeline_reset_unisolation_state e' s).
Proof.
  intros Ei B. unfold pipeline_reset_unisolation_state. case_if; [|case_if; [|done]].
  - eapply balanced_frame; [apply (balanced_set e' false MANUAL_PIPELINE s Ei B)|done..].
  - eapply balanced_frame; [apply (balanced_set e' false AUTO_PIPELINE s Ei B)|done..].
Qed.

(** With no boost held, the clusters that single-thread mode selects may change. *)
Lemma balanced_single s val : balanced s -> pl_unisolation_state s = false -> balanced (s <| pl_single_thread := val |>).
Proof.
  intros [B1 B2 B3] H. constructor; [exact B1|exact B2|]. intros i Hi. etransitivity; [exact (B3 i Hi)|].
  rewrite H. change (pl_unisolation_state (s <| pl_single_thread := val |>)) with (pl_unisolation_state s). by rewrite H.
Qed.

Lemma unisolation_cleared e' s :
  Z.clearbit (pl_enable_unisolation s) AUTO_PIPELINE = 0 ->
  pl_unisolation_state (pipeline_set_unisolation e' false AUTO_PIPELINE s) = false.
Proof.
  intros H. unfold pipeline_set_unisolation. cbv zeta. rewrite H.
  change (pl_unisolation_state (s <| pl_enable_unisolation := 0 |>)) with (pl_unisolation_state s).
  destruct (pl_unisolation_state s) eqn:E; [done|]. exact E.
Qed.

Lemma balanced_configure s val :
  balanced s -> Z.clearbit (pl_enable_unisolation s) AUTO_PIPELINE = 0 ->
  balanced (walt_configure_single_thread_pipeline e val s).
Proof.
  intros B H. unfold walt_configure_single_thread_pipeline.
  set (s1 := if negb (val =? 0) then _ else s).
  assert (pl_enable_unisolation s1 = pl_enable_unisolation s /\ pl_unisolation_state s1 = pl_unisolation_state s /\
          pl_single_thread s1 = pl_single_thread s /\ pl_boosts s1 = pl_boosts s) as (E1 & E2 & E3 & E4).
  { unfold s1. case_if; [|done].
    apply (for_range_ind (fun _ t => pl_enable_unisolation t = pl_enable_unisolation s /\
      pl_unisolation_state t = pl_unisolation_state s /\ pl_single_thread t = pl_single_thread s /\ pl_boosts t = pl_boosts s)).
    - done.
    - intros i t _ Ht. destruct (slot _ i); [|done]. by case_if. }
  clearbody s1. assert (balanced s1) as B1 by (by apply (balanced_frame s)).
  pose proof (balanced_set e false AUTO_PIPELINE s1 (fun _ => eq_refl) B1) as B2.
  pose proof (unisolation_cleared e s1 ltac:(by rewrite E1)) as Hst.
  pose proof (balanced_single _ val B2 Hst) as B3. cbv zeta. case_if; [|exact B3].
  by apply balanced_set.
Qed.

Lemma balanced_step s s' : balanced s -> step e s s' -> balanced s'.
Proof.
  intros B [set flag _|heavy_nr thres|val Hv|t E1 E2 E3 E4].
  - by apply balanced_set.
  - by apply balanced_reset.
  - by apply balanced_configure.
  - by apply (balanced_frame s).
Qed.

End Balance.

(** The pipeline holds core control boosts in pairs. Whatever the order in which the
    manual and the automatic pipeline ask for more CPUs and give them back, in which the
    kind of pipeline is switched, and in which single-thread mode is switched while the
    manual pipeline holds nothing: a boost is held exactly while one of the two asks for
    it, each cluster the pipeline uses then has exactly one boost more than at the
    beginning, the others none, and none is left when both have given up. *)
Theorem unisolation_balanced {S} `{ClusterBoost S} (e : pl_env) (c0 : S) (s s' : pl_sys) :
  (forall i, 0 <= i < kb_clusters c0 -> 0 <= kb_level c0 i < 2 ^ 32 - 1) ->
  (forall t, ids_ok (kb_clusters c0) e t) ->
  pl_enable_unisolation s = 0 -> pl_unisolation_state s = false -> pl_boosts s = [] ->
  rtc (step e) s s' ->
  pl_unisolation_state s' = negb (pl_enable_unisolation s' =? 0) /\
  forall i, 0 <= i -> kb_level (replay (pl_boosts s') c0) i =
    kb_level c0 i + Z.b2z (pl_unisolation_state s' && bool_decide (i ∈ boost_ids e s')).
Proof.
  intros Hl Hi E1 E2 E3 Hrun.
  assert (balanced e c0 s) as B.
  { constructor; rewrite ?E1, ?E2, ?E3; try done. intros i _. cbn. lia. }
  assert (balanced e c0 s') as [B1 _ B3]; [|done].
  clear E1 E2 E3. induction Hrun as [|s t u Hst Hrun IH]; [done|]. apply IH. by apply (balanced_step e c0 Hl Hi s).
Qed.

(** [core_ctl_set_cluster_boost] implements the interface. *)
Lemma core_cluster_boost_levels (e : core_env) (s : core_sys) (i : Z) (on : bool) :
  0 <= i ->
  let s' := (core_ctl_set_cluster_boost e i on s).1 in
  n_clusters s' = n_clusters s /\
  forall j, 0 <= j -> cc_boost (cdata s' j) =
    if (i =? j) && (i <? n_clusters s) then cc_boost (set_cluster_boost on (cdata s i)).1.1 else cc_boost (cdata s j).
Proof.
  intros Hi s'. unfold s', core_ctl_set_cluster_boost. destruct (Z.leb_spec (n_clusters s) i) as [Hge|Hlt].
  { split; [done|]. intros j Hj. destruct (Z.ltb_spec i (n_clusters s)); [lia|]. by rewrite andb_false_r. }
  destruct (set_cluster_boost on (cdata s i)) as [[c r] ch] eqn:E. cbn [fst].
  destruct (Boosting.set_cdata_boosts i (fun _ => c) s Hi) as (C1 & _ & C3).
  assert (Boosting.same_boosts (set_cdata i (fun _ => c) s)
            (if default false ch then sysfs_param_changed e i (set_cdata i (fun _ => c) s) else set_cdata i (fun _ => c) s)) as (B1 & _ & B3).
  { case_if; [|done]. by apply Boosting.param_changed_boosts. }
  split; [by rewrite B1|]. intros j Hj. rewrite B3, C3 by done. by case_if.
Qed.

#[export] Instance core_ctl_cluster_boost (e : core_env) : ClusterBoost core_sys.
Proof.
  refine {| kb_clusters := n_clusters; kb_level s i := cc_boost (cdata s i);
            kb_set i on s := (core_ctl_set_cluster_boost e i on s).1 |}.
  - intros s i on Hi. by destruct (core_cluster_boost_levels e s i on Hi).
  - intros s i j on Hi Hj Hne. destruct (core_cluster_boost_levels e s i on Hi) as [_ E]. rewrite E by done.
    by apply Z.eqb_neq in Hne as ->.
  - intros s i Hi Hl. destruct (core_cluster_boost_levels e s i true (proj1 Hi)) as [_ E]. rewrite E by lia.
    rewrite Z.eqb_refl. destruct (Z.ltb_spec i (n_clusters s)); [|lia]. cbn. apply u32_small. lia.
  - intros s i Hi Hl. destruct (core_cluster_boost_levels e s i false (proj1 Hi)) as [_ E]. rewrite E by lia.
    rewrite Z.eqb_refl. destruct (Z.ltb_spec i (n_clusters s)); [|lia]. cbn [andb]. unfold set_cluster_boost.
    destruct (Z.eqb_spec (cc_boost (cdata s i)) 0); [lia|]. cbn. rewrite u32_small by lia. lia.
Defined.

Lemma demo_ids t : ids_ok 2 demo_ple t.
Proof.
  unfold ids_ok, boost_ids. case_if.
  - split; [vm_compute; repeat constructor; set_solver|]. vm_compute. repeat constructor; congruence.
  - replace (c_id <$> _) with [0; 1] by (by vm_compute). split; [|repeat constructor; lia].
    repeat constructor; set_solver.
Qed.

Definition demo_unisolated : pl_sys :=
  pipeline_set_unisolation demo_ple false AUTO_PIPELINE
    (pipeline_set_unisolation demo_ple true MANUAL_PIPELINE (pipeline_set_unisolation demo_ple true AUTO_PIPELINE demo_pl)).

Lemma unisolation_balanced_witness :
  pl_unisolation_state demo_unisolated = true /\
  kb_level (ClusterBoost := core_ctl_cluster_boost CoreDemo.demo_cenv)
    (replay (H := core_ctl_cluster_boost CoreDemo.demo_cenv) (pl_boosts demo_unisolated) CoreDemo.demo_core) 1 = 1.
Proof.
  destruct (unisolation_balanced (H := core_ctl_cluster_boost CoreDemo.demo_cenv) demo_ple CoreDemo.demo_core demo_pl demo_unisolated)
    as [H1 H2].
  - intros i Hi. change (0 <= i < 2) in Hi. assert (i = 0 \/ i = 1) as [-> | ->] by lia; vm_compute; split; congruence.
  - exact demo_ids.
  - reflexivity.
  - reflexivity.
  - reflexivity.
  - eapply rtc_l; [apply (step_set _ _ true AUTO_PIPELINE); done|].
    eapply rtc_l; [apply (step_set _ _ true MANUAL_PIPELINE); done|].
    eapply rtc_l; [apply (step_set _ _ false AUTO_PIPELINE); done|]. apply rtc_refl.
  - split; [rewrite H1; reflexivity|]. rewrite H2 by lia. reflexivity.
Defined.

(** Single-thread mode switched on while the manual pipeline holds boosts: the boosts it
    gives back later are those of single-thread mode, and one stays behind. *)
Lemma single_thread_leaves_boost :
  let s := pipeline_set_unisolation demo_ple true MANUAL_PIPELINE demo_pl in
  let s := walt_configure_single_thread_pipeline demo_ple 1 s in
  let s := pipeline_set_unisolation demo_ple false MANUAL_PIPELINE s in
  pl_unisolation_state s = false /\ pl_enable_unisolation s = 0 /\
  kb_level (ClusterBoost := core_ctl_cluster_boost CoreDemo.demo_cenv)
    (replay (H := core_ctl_cluster_boost CoreDemo.demo_cenv) (pl_boosts s) CoreDemo.demo_core) 0 = 1.
Proof. vm_compute. done. Qed.

End Unisolation.
