(* ===== verification/PipelineHeavy.v ===== *)
(** * The heaviest tasks of the top application

    [find_heaviest_topapp] of [pipeline.c]: about every 100 ms the tasks of the default
    colocation group are rated by how active they have been, and the three best ones (or a
    task that user space names and the two best ones) become the automatic pipeline. *)

From Stdlib Require Import ZArith Lia ZifyBool Bool Sorted.
From stdpp Require Import base list sets functions.
From S2P Require Import Prelude WaltTypes Cpumask SmartFreq Halt CoreCtl Boost Fits Pipeline.

Definition FIND_HEAVY_FAIL : Z := -1.
Definition FIND_HEAVY_WAIT : Z := 0.
Definition FIND_HEAVY_SUCCESS : Z := 1.
Definition PIPELINE_BIAS_WINDOW_SIZE : Z := 5.
Definition DEFAULT_PENALTY : Z := 10.
Definition DEFAULT_BONUS : Z := 5.
Definition LST_LOW_DEMAND_PENALTY : Z := 5.
Definition MAX_ACTIVITY_CNT : Z := 250.
Definition LST_PIPELINE_SKIP_THRESHOLD : Z := 25.

(** The comparison of the final sort; [-1] for a null pointer. *)
Definition load_cmp_func (e : pl_env) (s : pl_sys) (a b : option Z) : Z :=
  match a, b with
  | Some wts1, Some wts2 => s32 (gold_demand e s wts2 - u64 (gold_demand e s wts1 + pe_swap_th e))
  | _, _ => -1
  end.

(** ** Rating a task *)

Definition activity (s : pl_sys) (wts : Z) : Z := t_pipeline_activity_cnt (pl_wts s wts).
Definition penalise (penalty : Z) (t : walt_task_struct) : walt_task_struct :=
  t <| t_pipeline_activity_cnt := Z.max (s32 (t_pipeline_activity_cnt t - penalty)) 0 |>.

(** The count after the first two penalties, and whether the task is given up there. *)
Definition idle_penalty (e : pl_env) (gold win_cnt : Z) (t : walt_task_struct) : walt_task_struct * bool :=
  let t := if t_pipeline_cpu t =? -1 then penalise DEFAULT_PENALTY t else t in
  if (gold <? pe_min_demand e) && (win_cnt <? 4) then (penalise DEFAULT_PENALTY t, t_pipeline_cpu t =? -1)
  else (t, false).

(** The count after windows were added for a big task and taken off for a small one. *)
Definition demand_bonus (e : pl_env) (least gold win_cnt : Z) (t : walt_task_struct) : walt_task_struct :=
  let delta := s32 (gold - least) in
  let t := if (0 <=? delta) && (pe_min_demand e <=? gold)
           then t <| t_pipeline_activity_cnt := s32 (t_pipeline_activity_cnt t + win_cnt) |> else t in
  let penalty := (if 0 <=? delta then 0 else LST_LOW_DEMAND_PENALTY) + (if t_lst t then LST_LOW_DEMAND_PENALTY else 0) in
  penalise penalty t.

Definition saturate (t : walt_task_struct) : walt_task_struct :=
  if MAX_ACTIVITY_CNT <? t_pipeline_activity_cnt t then t <| t_pipeline_activity_cnt := MAX_ACTIVITY_CNT |> else t.

(** One round of the loop over the group up to the evaluation, for the task [wts] with
    [slot0] in slot 0: the task afterwards, and whether it is evaluated. *)
Definition rate (e : pl_env) (s : pl_sys) (window_start : Z) (slot0 : option Z) (wts : Z)
  : walt_task_struct * bool :=
  let t := pl_wts s wts in
  let gold := gold_demand e s wts in
  let win_cnt := if negb (pl_have_heavy_list s =? 0) then u32 (t_event_windows t) else 0 in
  let t := t <| t_event_windows := 0 |> in
  let '(t, skip) := idle_penalty e gold win_cnt t in
  if skip then (t, false) else
  let t := demand_bonus e (pl_least_demand s) gold win_cnt t in
  if t_lst t && ((t_pipeline_activity_cnt t <? LST_PIPELINE_SKIP_THRESHOLD) || (t_pipeline_cpu t =? -1))
  then (t, false) else
  let t := saturate t in
  (t, if negb (bool_decide (pl_special s = None)) && bool_decide (slot0 = Some wts) then false else
      if (window_start <? t_mark_start_birth_ts t) ||
         (u64 (window_start - t_mark_start_birth_ts t) <? 200 * MSEC_TO_NSEC) then false else
      if negb (cpumask_subset (pe_cpus e) (pe_cpus_mask e wts)) then false else
      if t_mark_start t <? u64 (window_start - u32 (sched_ravg_window (fe_cfg (pe_fit e)) * 2)) then false
      else true).

(** ** Placing a task among the heavy ones *)

(** The array, the task in hand, [top_wts_miss], and that the loop has ended. *)
Record placing := mk_placing { pc_heavy : list (option Z); pc_task : Z; pc_miss : bool; pc_done : bool }.

Definition place_step (e : pl_env) (s : pl_sys) (i : Z) (p : placing) : placing :=
  if pc_done p then p else
  match slot (pc_heavy p) i with
  | None => mk_placing (set_slot (pc_heavy p) i (Some (pc_task p))) (pc_task p) (pc_miss p) true
  | Some h =>
      let task := pc_task p in
      if activity s h <=? activity s task then
        let prime_demand_heavy := prime_demand e s h in
        let prime_demand_to_be := prime_demand e s task in
        let swap := fun miss => mk_placing (set_slot (pc_heavy p) i (Some task)) h miss false in
        let keep := fun miss => mk_placing (pc_heavy p) task miss false in
        if activity s task =? activity s h then
          if (i =? 0) && negb (bool_decide (pl_top_wts s = None)) && pl_top_wts_bias s &&
             bool_decide (pl_top_wts s = Some task) then
            let miss := if u64 (prime_demand_to_be + pe_swap_th e) <? prime_demand_heavy then true else pc_miss p in
            if prime_demand_to_be <=? 0 then keep miss else swap miss
          else if (i =? 0) && negb (bool_decide (pl_top_wts s = None)) && pl_top_wts_bias s &&
                  bool_decide (pl_top_wts s = Some h) then
            keep (if prime_demand_heavy <? prime_demand_to_be then true else pc_miss p)
          else if prime_demand_to_be <=? prime_demand_heavy then keep (pc_miss p) else swap (pc_miss p)
        else swap (pc_miss p)
      else p
  end.

Definition place (e : pl_env) (s : pl_sys) (start : Z) (wts : Z) (heavy : list (option Z)) (miss : bool) : placing :=
  for_range start (Z.to_nat (MAX_NR_PIPELINE - start)) (place_step e s) (mk_placing heavy wts miss false).

Definition scan_task (e : pl_env) (window_start start : Z) (st : pl_sys * bool) (wts : Z) : pl_sys * bool :=
  let '(s, miss) := st in
  let '(t, ok) := rate e s window_start (slot (pl_heavy_wts s) 0) wts in
  let s := on_task wts (fun _ => t) s in
  if ok then let p := place e s start wts (pl_heavy_wts s) miss in (s <| pl_heavy_wts := pc_heavy p |>, pc_miss p)
  else (s, miss).

(** ** After the scan *)

(** How long the same task has been on top, and whether it is favoured. *)
Definition update_top (miss : bool) (s : pl_sys) : pl_sys :=
  match slot (pl_heavy_wts s) 0 with
  | None => s
  | Some h =>
      if bool_decide (pl_top_wts s = Some h) then
        if miss then
          let n := s32 (pl_top_wts_count s - 1) in
          s <| pl_top_wts_count := n |> <| pl_top_wts_bias := if (n =? 0) && pl_top_wts_bias s then false else pl_top_wts_bias s |>
        else
          let n := s32 (pl_top_wts_count s + 1) in
          if PIPELINE_BIAS_WINDOW_SIZE <=? n
          then s <| pl_top_wts_count := PIPELINE_BIAS_WINDOW_SIZE |> <| pl_top_wts_bias := true |>
          else s <| pl_top_wts_count := n |>
      else s <| pl_top_wts := Some h |> <| pl_top_wts_count := 1 |> <| pl_top_wts_bias := false |>
  end.

Definition heavy_total (e : pl_env) (s : pl_sys) : Z :=
  fold_left (fun total x => match x with Some h => u32 (total + gold_demand e s h) | None => total end) (pl_heavy_wts s) 0.

(** How many of the three are kept. *)
Definition trim (e : pl_env) (s : pl_sys) : pl_sys :=
  let heavy_nr := sysctl_sched_heavy_nr (fe_cfg (pe_fit e)) in
  let s := s <| pl_total_util := 0 |> in
  if negb (heavy_nr =? 0) then
    s <| pl_heavy_wts := for_range heavy_nr (Z.to_nat (MAX_NR_PIPELINE - heavy_nr)) (fun i l => set_slot l i None) (pl_heavy_wts s) |>
  else
    let s := s <| pl_total_util := heavy_total e s |> in
    if pl_total_util s <? sysctl_sched_pipeline_util_thres (fe_cfg (pe_fit e))
    then s <| pl_heavy_wts := set_slot (pl_heavy_wts s) (MAX_NR_PIPELINE - 1) None |> else s.

(** A task of the old list that has lost its place. *)
Definition dropped (s : pl_sys) (h : Z) : bool :=
  negb (existsb (fun x => match x with
                          | None => false
                          | Some k => if negb (pl_single_thread s =? 0) then bool_decide (slot (pl_heavy_wts s) 0 = Some h)
                                      else bool_decide (k = h)
                          end) (pl_heavy_wts s)).

Definition reset_dropped (s : pl_sys) (x : option Z) : pl_sys :=
  match x with
  | None => s
  | Some h =>
      if dropped s h
      then on_task h (fun t => penalise DEFAULT_PENALTY
                         ((clear_low_latency WALT_LOW_LATENCY_HEAVY_BIT t) <| t_pipeline_cpu := -1 |>)) s
      else s
  end.

(** Marks the tasks of the list; the state and the number of tasks. *)
Definition mark_heavy (e : pl_env) (st : pl_sys * Z) (x : option Z) : pl_sys * Z :=
  let '(s, n) := st in
  match x with
  | None => (s, n)
  | Some h =>
      let gold := gold_demand e s h in
      let s := on_task h (fun t =>
        let t := set_low_latency WALT_LOW_LATENCY_HEAVY_BIT t in
        if pe_min_demand e <? gold then t <| t_pipeline_activity_cnt := s32 (t_pipeline_activity_cnt t + DEFAULT_BONUS) |> else t) s in
      (if gold <=? pl_least_demand s then s <| pl_least_demand := u32 gold |> else s, n + 1)
  end.

Definition sort_heavy (e : pl_env) (start nr : Z) (s : pl_sys) : pl_sys :=
  let nr_prime_cpu := cpumask_weight (cluster_cpus (fe_cfg (pe_fit e)) (pe_prime_id e)) in
  let sort_start := if negb (start =? 0) then start else if pl_top_wts_bias s then start + 1 else start in
  if (1 <? nr - sort_start) && ((sort_start =? 0) || (1 <? nr_prime_cpu)) then
    let l := pl_heavy_wts s in
    let n := Z.to_nat (if negb (sort_start =? 0) then nr - 1 else nr) in
    let k := Z.to_nat sort_start in
    s <| pl_heavy_wts := take k l ++ pe_sort e (load_cmp_func e s) (take n (drop k l)) ++ drop (k + n) l |>
  else s.

(** The tasks give up their places when there is no automatic pipeline. *)
Definition clear_heavy (s : pl_sys) : pl_sys :=
  let s := fold_left (fun s x => match x with
                                 | Some h => on_task h (fun t => (clear_low_latency WALT_LOW_LATENCY_HEAVY_BIT t) <| t_pipeline_cpu := -1 |>) s
                                 | None => s
                                 end) (pl_heavy_wts s) s in
  s <| pl_heavy_wts := (fun _ => None) <$> pl_heavy_wts s |> <| pl_have_heavy_list := 0 |>.

(** ** The whole function *)

(** The slot kept for the named task, and the first slot for the others. *)
Definition special_slot (e : pl_env) (s : pl_sys) : option Z * Z :=
  match pl_special s with
  | Some p => if special_pipeline_thres_valid e p s then (Some p, 1) else (None, 0)
  | None => (None, 0)
  end.

Definition choose_heavy (e : pl_env) (window_start : Z) (tasks : list Z) (s : pl_sys) : pl_sys :=
  let old := pl_heavy_wts s in
  let s := s <| pl_heavy_wts := (fun _ => None) <$> old |> in
  let '(special, start) := special_slot e s in
  let s := s <| pl_heavy_wts := set_slot (pl_heavy_wts s) 0 special |> in
  let '(s, miss) := fold_left (scan_task e window_start start) tasks (s, false) in
  let s := trim e (update_top miss s) in
  let s := fold_left reset_dropped old s in
  let '(s, nr) := fold_left (mark_heavy e) (pl_heavy_wts s) (s <| pl_least_demand := INT_MAX |>, 0) in
  let s := pipeline_set_unisolation e
             (negb (bool_decide (slot (pl_heavy_wts s) (MAX_NR_PIPELINE - 1) = None)) || negb (pl_single_thread s =? 0))
             AUTO_PIPELINE s in
  sort_heavy e start nr s.

Definition find_heaviest_topapp (e : pl_env) (window_start : Z) (s : pl_sys) : pl_sys * Z :=
  let c := fe_cfg (pe_fit e) in
  if num_sched_clusters c <? 2 then (s, FIND_HEAVY_FAIL) else
  match (if negb (auto_pipeline_wanted e) || (cpumask_weight (pe_cpus e) =? 0) || negb (sched_boost_type c =? 0)
         then None else pe_grp e) with
  | None =>
      let s := if negb (pl_have_heavy_list s =? 0)
               then pipeline_set_unisolation e false AUTO_PIPELINE (clear_heavy s) else s in
      (s <| pl_last_rearrange_ns := window_start |> <| pl_least_demand := 0 |>, FIND_HEAVY_FAIL)
  | Some tasks =>
      let rearrange_target_ns :=
        if negb (bool_decide (slot (pl_heavy_wts s) 0 = None))
        then u64 (pl_last_rearrange_ns s + aget (pe_rearrange_delay_ms e) 0 * MSEC_TO_NSEC)
        else u64 (pl_last_rearrange_ns s + 250 * MSEC_TO_NSEC) in
      if negb (pl_last_rearrange_ns s =? 0) && (window_start <? rearrange_target_ns) then (s, FIND_HEAVY_WAIT) else
      (choose_heavy e window_start tasks (s <| pl_last_rearrange_ns := window_start |>), FIND_HEAVY_SUCCESS)
  end.

(** ** The best tasks are chosen *)

Module HeavyChoice.

(** ** Insertion into a bounded list

    What the placing loop does to the occupied slots, for [k] slots. *)
Section Insertion.
Context (better : Z -> Z -> bool) (ge : Z -> Z -> Prop).
Context (ge_trans : Transitive ge)
        (better_ge : forall x y, better x y = true -> ge x y)
        (not_better_ge : forall x y, better x y = false -> ge y x).

Fixpoint ins (k : nat) (x : Z) (l : list Z) : list Z :=
  match k, l with
  | O, _ => []
  | S k, [] => [x]
  | S k, h :: t => if better x h then x :: ins k h t else h :: ins k x t
  end.

Lemma ins_length k x l : (length l <= k)%nat -> length (ins k x l) = Nat.min k (S (length l)).
Proof.
  revert x l. induction k as [|k IH]; intros x [|h t] Hl; cbn in *; [done|lia|by destruct k|].
  destruct (better x h); cbn; rewrite IH; lia.
Qed.

Lemma ins_spec k x l :
  (length l <= k)%nat -> StronglySorted ge l ->
  exists out, x :: l ≡ₚ ins k x l ++ out /\ StronglySorted ge (ins k x l) /\
    forall a b, a ∈ ins k x l -> b ∈ out -> ge a b.
Proof.
  revert x l. induction k as [|k IH]; intros x [|h t] Hl Hs; cbn in *; [|lia| |].
  - exists [x]. split; [done|]. split; [constructor|]. intros a b []%not_elem_of_nil.
  - exists []. split; [done|]. split; [repeat constructor|]. intros a b _ []%not_elem_of_nil.
  - apply StronglySorted_inv in Hs as [Hs Hh]. rewrite list.Forall_forall in Hh.
    destruct (better x h) eqn:B.
    + destruct (IH h t ltac:(lia) Hs) as (out & Hp & Hss & Hd). exists out.
      assert (forall b, b ∈ h :: t -> ge x b) as Hx.
      { intros b [->|Hb]%elem_of_cons; [by apply better_ge|]. apply (ge_trans _ h); [by apply better_ge|by apply Hh]. }
      split; [cbn; by rewrite <- Hp|]. split.
      * constructor; [done|]. apply list.Forall_forall. intros b Hb. apply Hx. rewrite Hp. apply elem_of_app. by left.
      * intros a b [->|Ha]%elem_of_cons Hb; [|by apply Hd]. apply Hx. rewrite Hp. apply elem_of_app. by right.
    + destruct (IH x t ltac:(lia) Hs) as (out & Hp & Hss & Hd). exists out.
      assert (forall b, b ∈ x :: t -> ge h b) as Hx.
      { intros b [->|Hb]%elem_of_cons; [by apply not_better_ge|]. by apply Hh. }
      split; [cbn; rewrite <- Hp; apply Permutation_swap|]. split.
      * constructor; [done|]. apply list.Forall_forall. intros b Hb. apply Hx. rewrite Hp. apply elem_of_app. by left.
      * intros a b [->|Ha]%elem_of_cons Hb; [|by apply Hd]. apply Hx. rewrite Hp. apply elem_of_app. by right.
Qed.

(** A task that enters a full list beats one of its tasks. *)
Lemma ins_enters k x l : length l = k -> x ∈ ins k x l -> exists h, h ∈ l /\ (h = x \/ ge x h).
Proof.
  revert l. induction k as [|k IH]; intros [|h t] Hl; cbn in *; try done; [by intros []%not_elem_of_nil|].
  destruct (better x h) eqn:B.
  - intros _. exists h. split; [left|right; by apply better_ge].
  - intros [->|Hx]%elem_of_cons; [exists h; split; [left|by left]|].
    destruct (IH t ltac:(lia) Hx) as (y & Hy & H). exists y. split; [by right|done].
Qed.

(** [l] holds the best [k] elements of [all], best first. *)
Definition best (k : nat) (all l : list Z) : Prop :=
  length l = Nat.min k (length all) /\ StronglySorted ge l /\
  exists out, all ≡ₚ l ++ out /\ forall a b, a ∈ l -> b ∈ out -> ge a b.

Lemma best_nil k : best k [] [].
Proof. split; [cbn; lia|]. split; [constructor|]. exists []. split; [done|]. intros a b []%not_elem_of_nil. Qed.

Lemma best_ins k x all l : best k all l -> best k (all ++ [x]) (ins k x l).
Proof.
  intros (Hl & Hs & out & Hp & Hd). assert (length l <= k)%nat as Hk by lia.
  destruct (ins_spec k x l Hk Hs) as (out' & Hp' & Hs' & Hd').
  split; [rewrite ins_length, length_app by done; cbn; lia|]. split; [done|].
  exists (out' ++ out). split.
  - rewrite app_assoc, <- Hp'. cbn. rewrite <- Hp. by rewrite Permutation_app_comm.
  - intros a b Ha [Hb|Hb]%elem_of_app; [by apply Hd'|].
    destruct (decide (length l = k)) as [Hfull|Hfree].
    + (* a new task in a full list beats one of it *)
      assert (a ∈ x :: l) as [->|Hal]%elem_of_cons by (rewrite Hp'; apply elem_of_app; by left); [|by apply Hd].
      destruct (ins_enters k x l Hfull Ha) as (h & Hh & [->|Hxh]); [by apply Hd|]. apply (ge_trans _ h); [done|by apply Hd].
    + (* nothing was out *)
      assert (length all = length (l ++ out)) as E by (by rewrite Hp). rewrite length_app in E.
      destruct out; [by apply not_elem_of_nil in Hb|cbn in E; lia].
Qed.

End Insertion.

(** ** The placing loop *)

(** The order of the loop: more active first, then the higher demand on a prime CPU. *)
Definition better_by (act dem : Z -> Z) (x h : Z) : bool :=
  (act h <? act x) || ((act x =? act h) && (dem h <? dem x)).
Definition ge_by (act dem : Z -> Z) (x y : Z) : Prop := act y < act x \/ (act y = act x /\ dem y <= dem x).
Definition better (e : pl_env) (s : pl_sys) : Z -> Z -> bool := better_by (activity s) (prime_demand e s).

Lemma ge_trans act dem : Transitive (ge_by act dem).
Proof. intros x y z. unfold ge_by. lia. Qed.
Lemma better_ge act dem x y : better_by act dem x y = true -> ge_by act dem x y.
Proof. unfold better_by, ge_by. lia. Qed.
Lemma not_better_ge act dem x y : better_by act dem x y = false -> ge_by act dem y x.
Proof. unfold better_by, ge_by. lia. Qed.

Lemma ins_ext b b' k x l :
  (forall u v, u ∈ x :: l -> v ∈ x :: l -> b u v = b' u v) -> ins b k x l = ins b' k x l.
Proof.
  revert x l. induction k as [|k IH]; intros x [|h t] H; cbn; [done..|].
  rewrite (H x h) by (left || (right; left)). destruct (b' x h); f_equal; apply IH; intros u v Hu Hv; apply H; set_solver.
Qed.

(** The array with the tasks [l] after [pre] and [m] empty slots. *)
Definition laid (pre : list (option Z)) (l : list Z) (m : nat) : list (option Z) := pre ++ (Some <$> l) ++ replicate m None.

Lemma slot_laid_cons pre h l m : slot (laid pre (h :: l) m) (Z.of_nat (length pre)) = Some h.
Proof. unfold slot, laid. rewrite Nat2Z.id, app_nth2 by lia. by rewrite Nat.sub_diag. Qed.
Lemma slot_laid_nil pre m : slot (laid pre [] (S m)) (Z.of_nat (length pre)) = None.
Proof. unfold slot, laid. rewrite Nat2Z.id, app_nth2 by lia. by rewrite Nat.sub_diag. Qed.
Lemma set_laid_cons pre h l m x : set_slot (laid pre (h :: l) m) (Z.of_nat (length pre)) (Some x) = laid (pre ++ [Some x]) l m.
Proof.
  unfold set_slot, laid. rewrite Nat2Z.id. cbn.
  rewrite insert_app_r_alt, Nat.sub_diag by lia. cbn. by rewrite <- app_assoc.
Qed.
Lemma set_laid_nil pre m x : set_slot (laid pre [] (S m)) (Z.of_nat (length pre)) (Some x) = laid pre [x] m.
Proof. unfold set_slot, laid. rewrite Nat2Z.id, insert_app_r_alt, Nat.sub_diag by lia. done. Qed.
Lemma laid_cons pre h l m : laid pre (h :: l) m = laid (pre ++ [Some h]) l m.
Proof. unfold laid. cbn. by rewrite <- app_assoc. Qed.

Lemma place_done e s i k p : pc_done p = true -> for_range i k (place_step e s) p = p.
Proof.
  intros Hd. revert i. induction k as [|k IH]; intros i; [done|]. cbn [for_range].
  assert (place_step e s i p = p) as ->; [|apply IH]. unfold place_step. by rewrite Hd.
Qed.

(** A step at an occupied slot, where the top task is not favoured. *)
Lemma place_step_plain e s i a x miss h :
  (pl_top_wts_bias s = false \/ i <> 0) -> slot a i = Some h ->
  place_step e s i (mk_placing a x miss false) =
  if better e s x h then mk_placing (set_slot a i (Some x)) h miss false else mk_placing a x miss false.
Proof.
  intros Hb Ha. unfold place_step. cbn [pc_done pc_heavy pc_task pc_miss]. rewrite Ha.
  assert ((i =? 0) && negb (bool_decide (pl_top_wts s = None)) && pl_top_wts_bias s = false) as E.
  { destruct Hb as [->|H]; [apply andb_false_r|]. by apply Z.eqb_neq in H as ->. }
  rewrite E. cbn [andb]. unfold better, better_by.
  destruct (Z.leb_spec (activity s h) (activity s x)), (Z.ltb_spec (activity s h) (activity s x)),
    (Z.eqb_spec (activity s x) (activity s h)), (Z.leb_spec (prime_demand e s x) (prime_demand e s h)),
    (Z.ltb_spec (prime_demand e s h) (prime_demand e s x)); (done || lia).
Qed.

Lemma place_loop e s k pre x l m miss :
  (pl_top_wts_bias s = false \/ pre <> []) -> (length l + m)%nat = k ->
  exists y d, for_range (Z.of_nat (length pre)) k (place_step e s) (mk_placing (laid pre l m) x miss false) =
    mk_placing (laid pre (ins (better e s) k x l) (k - length (ins (better e s) k x l))) y miss d.
Proof.
  revert pre x l m. induction k as [|k IH]; intros pre x l m Hb Hk.
  { destruct l, m; cbn in Hk; try lia. by exists x, false. }
  cbn [for_range]. destruct l as [|h t].
  - destruct m as [|m]; [cbn in Hk; lia|].
    assert (place_step e s (Z.of_nat (length pre)) (mk_placing (laid pre [] (S m)) x miss false) =
            mk_placing (laid pre [x] m) x miss true) as ->.
    { unfold place_step. cbn [pc_done pc_heavy pc_task pc_miss]. by rewrite slot_laid_nil, set_laid_nil. }
    rewrite place_done by done. cbn [ins length Nat.add] in *. exists x, true. do 2 f_equal. lia.
  - rewrite (place_step_plain e s _ _ x miss h); [| |apply slot_laid_cons].
    2:{ destruct Hb as [Hb|Hb]; [by left|right]. destruct pre; [done|]. cbn [length]. lia. }
    cbn [length Nat.add] in Hk. assert (forall z, Z.of_nat (length pre) + 1 = Z.of_nat (length (pre ++ [z : option Z]))) as El.
    { intros z. rewrite length_app. cbn. lia. }
    assert (forall z : option Z, pl_top_wts_bias s = false \/ pre ++ [z] <> []) as Hb' by (intros z; right; by destruct pre).
    cbn [ins]. destruct (better e s x h).
    + rewrite set_laid_cons, (El (Some x)).
      destruct (IH (pre ++ [Some x]) h t m (Hb' _) ltac:(lia)) as (y & d & ->). exists y, d. cbn [length]. by rewrite laid_cons.
    + rewrite laid_cons, (El (Some h)).
      destruct (IH (pre ++ [Some h]) x t m (Hb' _) ltac:(lia)) as (y & d & ->). exists y, d. cbn [length]. by rewrite laid_cons.
Qed.

(** ** The scan of the group *)

Lemma demand_ext e s s' x :
  t_coloc_demand (pl_wts s' x) = t_coloc_demand (pl_wts s x) -> pipeline_demand e s' x = pipeline_demand e s x.
Proof. intros E. unfold pipeline_demand. cbv zeta. rewrite E. reflexivity. Qed.

Lemma rate_ext e s s' ws sl x :
  pl_wts s' x = pl_wts s x -> pl_have_heavy_list s' = pl_have_heavy_list s -> pl_least_demand s' = pl_least_demand s ->
  pl_special s' = pl_special s -> rate e s' ws sl x = rate e s ws sl x.
Proof.
  intros E1 E2 E3 E4. unfold rate, gold_demand. rewrite (demand_ext e s s' x) by (by rewrite E1).
  by rewrite E1, E2, E3, E4.
Qed.

Lemma rate_slot e s ws sl x : sl <> Some x -> rate e s ws sl x = rate e s ws None x.
Proof.
  intros H. unfold rate. destruct (idle_penalty _ _ _ _) as [t []]; [done|]. cbv zeta. case_if; [done|].
  by rewrite (bool_decide_false (sl = Some x)), (bool_decide_false (None = Some x)) by done.
Qed.

Lemma rate_frame e s ws sl x :
  t_coloc_demand (rate e s ws sl x).1 = t_coloc_demand (pl_wts s x) /\
  t_pipeline_cpu (rate e s ws sl x).1 = t_pipeline_cpu (pl_wts s x) /\
  t_low_latency (rate e s ws sl x).1 = t_low_latency (pl_wts s x).
Proof.
  assert (forall p t, t_coloc_demand (penalise p t) = t_coloc_demand t /\ t_pipeline_cpu (penalise p t) = t_pipeline_cpu t /\
            t_low_latency (penalise p t) = t_low_latency t) as Hp by done.
  assert (forall t g w, let t' := (idle_penalty e g w t).1 in
            t_coloc_demand t' = t_coloc_demand t /\ t_pipeline_cpu t' = t_pipeline_cpu t /\ t_low_latency t' = t_low_latency t) as Hi.
  { intros t g w. unfold idle_penalty. repeat case_if; done. }
  assert (forall t l g w, let t' := demand_bonus e l g w t in
            t_coloc_demand t' = t_coloc_demand t /\ t_pipeline_cpu t' = t_pipeline_cpu t /\ t_low_latency t' = t_low_latency t) as Hb.
  { intros t l g w. unfold demand_bonus. cbv zeta. repeat case_if; done. }
  unfold rate. set (t0 := (pl_wts s x) <| t_event_windows := 0 |>).
  set (g := gold_demand e s x). set (w := if negb _ then _ else _).
  specialize (Hi t0 g w). destruct (idle_penalty e g w t0) as [t skip]. cbv zeta in Hi. cbn [fst] in Hi.
  change (t_coloc_demand t0) with (t_coloc_demand (pl_wts s x)) in Hi.
  change (t_pipeline_cpu t0) with (t_pipeline_cpu (pl_wts s x)) in Hi.
  change (t_low_latency t0) with (t_low_latency (pl_wts s x)) in Hi.
  destruct skip; [exact Hi|]. specialize (Hb t (pl_least_demand s) g w). cbv zeta in Hb |- *.
  set (t' := demand_bonus _ _ _ _ t) in *. clearbody t'.
  assert (t_coloc_demand t' = t_coloc_demand (pl_wts s x) /\ t_pipeline_cpu t' = t_pipeline_cpu (pl_wts s x) /\
          t_low_latency t' = t_low_latency (pl_wts s x)) as H by (destruct Hb as (-> & -> & ->); exact Hi).
  case_if; [exact H|]. cbn [fst]. unfold saturate. case_if; exact H.
Qed.

Section Scan.
Context (e : pl_env) (ws : Z) (s0 : pl_sys) (sp : option Z) (start : Z).
Context (Hstart : (start = 0 /\ sp = None /\ pl_top_wts_bias s0 = false) \/ (start = 1 /\ sp <> None)).

#[local] Abbreviation rated := (rate e s0 ws sp).
Definition eligible (x : Z) : Prop := (rated x).2 = true.
#[global] Instance eligible_dec x : Decision (eligible x) := decide_rel eq (rated x).2 true.
Definition rating (x : Z) : Z := t_pipeline_activity_cnt (rated x).1.
Definition at_least_as_good : Z -> Z -> Prop := ge_by rating (prime_demand e s0).

#[local] Abbreviation k := (Z.to_nat (MAX_NR_PIPELINE - start)).
Definition before : list (option Z) := match sp with Some p => [Some p] | None => [] end.

(** The state after the tasks [done] of the group: their counts are updated, and the
    slots hold the best of them. *)
Record scanned (past : list Z) (s : pl_sys) (l : list Z) : Prop := mk_scanned {
  sc_state : exists w, s = s0 <| pl_wts := w |> <| pl_heavy_wts := laid before l (k - length l) |> /\
    forall x, w x = if bool_decide (x ∈ past) then (rated x).1 else pl_wts s0 x;
  sc_best : best at_least_as_good k (filter eligible past) l
}.

Lemma length_before : Z.of_nat (length before) = start.
Proof. unfold before. destruct Hstart as [(-> & -> & _)|[-> H]]; [done|]. by destruct sp. Qed.

Lemma before_taken : sp <> None -> before <> [].
Proof. unfold before. by destruct sp. Qed.

Lemma slot_before l m : sp <> None -> slot (laid before l m) 0 = sp.
Proof. unfold before. by destruct sp. Qed.

Lemma best_subset all l x : best at_least_as_good k all l -> x ∈ l -> x ∈ all.
Proof. intros (_ & _ & out & -> & _) Hx. apply elem_of_app. by left. Qed.

Lemma rate_unseen past s l x : scanned past s l -> x ∉ past -> rate e s ws (slot (pl_heavy_wts s) 0) x = rated x.
Proof.
  intros [(w & -> & Hw) Hbest] Hx. cbn [pl_heavy_wts].
  assert (w x = pl_wts s0 x) as E by (by rewrite Hw, bool_decide_false).
  assert (forall sl, rate e (s0 <| pl_wts := w |> <| pl_heavy_wts := laid before l (k - length l) |>) ws sl x = rate e s0 ws sl x) as Er.
  { intros sl. by apply rate_ext. }
  rewrite Er. destruct Hstart as [(_ & Esp & _)|[_ Hsp]].
  - assert (slot (laid before l (k - length l)) 0 <> Some x) as Es.
    { unfold before. rewrite Esp. intros H.
      assert (x ∈ l) as Hin.
      { destruct l as [|h t]; [by destruct (k - _)%nat in H|]. change (Some h = Some x) in H. injection H as ->. left. }
      apply Hx. apply (best_subset _ _ _ Hbest), list_elem_of_filter in Hin. apply Hin. }
    rewrite Esp. by apply rate_slot.
  - exact (f_equal (fun sl => rate e s0 ws sl x) (slot_before l (k - length l) Hsp)).
Qed.

(** The order the loop uses on tasks it has rated is the order of their ratings. *)
Lemma better_rated (past : list Z) s x l :
  (exists w h, s = s0 <| pl_wts := w |> <| pl_heavy_wts := h |> /\
    forall y, w y = if bool_decide (y ∈ past) then (rated y).1 else pl_wts s0 y) ->
  (forall y, y ∈ x :: l -> y ∈ past) ->
  ins (better e s) k x l = ins (better_by rating (prime_demand e s0)) k x l.
Proof.
  intros (w & h & -> & Hw) Hl.
  assert (forall y, y ∈ x :: l -> w y = (rated y).1) as E.
  { intros y Hy. rewrite Hw. by rewrite bool_decide_true by (by apply Hl). }
  assert (forall y, y ∈ x :: l -> activity (s0 <| pl_wts := w |> <| pl_heavy_wts := h |>) y = rating y) as Ea.
  { intros y Hy. exact (f_equal t_pipeline_activity_cnt (E y Hy)). }
  assert (forall y, y ∈ x :: l -> prime_demand e (s0 <| pl_wts := w |> <| pl_heavy_wts := h |>) y = prime_demand e s0 y) as Ed.
  { intros y Hy. unfold prime_demand. f_equal. apply demand_ext.
    etransitivity; [exact (f_equal t_coloc_demand (E y Hy))|]. apply rate_frame. }
  apply ins_ext. intros u v Hu Hv. unfold better, better_by. by rewrite !Ea, !Ed by done.
Qed.

Lemma scan_task_scanned past s l miss x :
  scanned past s l -> x ∉ past -> exists l', scanned (past ++ [x]) (scan_task e ws start (s, miss) x).1 l'.
Proof.
  intros H Hx. unfold scan_task. rewrite (rate_unseen past s l x H Hx). destruct H as [(w & -> & Hw) Hbest].
  destruct (rated x) as [t ok] eqn:Er.
  set (s := s0 <| pl_wts := w |> <| pl_heavy_wts := laid before l (k - length l) |>).
  set (w' := <[x := t]> w).
  assert (forall y, w' y = if bool_decide (y ∈ past ++ [x]) then (rated y).1 else pl_wts s0 y) as Hw'.
  { intros y. unfold w'. destruct (decide (x = y)) as [<-|Hne].
    - rewrite fn_lookup_insert, bool_decide_true, Er by set_solver. done.
    - rewrite fn_lookup_insert_ne, Hw by done. rewrite (bool_decide_ext (y ∈ past ++ [x]) (y ∈ past)) by set_solver. done. }
  change (on_task x (fun _ => t) s) with (s0 <| pl_wts := w' |> <| pl_heavy_wts := laid before l (k - length l) |>).
  assert (filter eligible (past ++ [x]) = filter eligible past ++ (if ok then [x] else [])) as Ef.
  { rewrite list.filter_app. f_equal. unfold eligible. destruct ok.
    - by rewrite filter_cons_True by (by rewrite Er).
    - by rewrite filter_cons_False by (by rewrite Er). }
  destruct ok; cbn [fst].
  - set (s' := s0 <| pl_wts := w' |> <| pl_heavy_wts := laid before l (k - length l) |>).
    exists (ins (better_by rating (prime_demand e s0)) k x l). unfold place.
    change (pl_heavy_wts s') with (laid before l (k - length l)).
    assert (length l <= k)%nat as Hl by (destruct Hbest as (-> & _); lia).
    destruct (place_loop e s' k before x l (k - length l) miss) as (y & d & Ep).
    { destruct Hstart as [(_ & _ & Hb)|(_ & Hb)]; [by left|right; by apply before_taken]. }
    { lia. }
    rewrite length_before in Ep. rewrite Ep. cbn [pc_heavy fst].
    rewrite (better_rated (past ++ [x]) s').
    + constructor; [by exists w'|]. rewrite Ef. apply best_ins; [apply ge_trans|apply better_ge|apply not_better_ge|done].
    + by exists w', (laid before l (k - length l)).
    + intros z [->|Hz]%elem_of_cons; [set_solver|]. apply (best_subset _ _ _ Hbest), list_elem_of_filter in Hz. set_solver.
  - exists l. constructor; [by exists w'|]. by rewrite Ef, app_nil_r.
Qed.

Lemma scan_tasks_scanned tasks past s l miss :
  scanned past s l -> NoDup (past ++ tasks) ->
  exists l', scanned (past ++ tasks) (fold_left (scan_task e ws start) tasks (s, miss)).1 l'.
Proof.
  revert past s l miss. induction tasks as [|x tasks IH]; intros past s l miss H Hn.
  - exists l. by rewrite app_nil_r.
  - cbn [fold_left]. assert (x ∉ past) as Hx.
    { apply list.NoDup_app in Hn as (_ & Hd & _). intros Hx. apply (Hd x Hx). left. }
    destruct (scan_task_scanned past s l miss x H Hx) as (l' & H').
    destruct (scan_task e ws start (s, miss) x) as [s' miss']. cbn [fst] in H'.
    replace (past ++ x :: tasks) with ((past ++ [x]) ++ tasks) in * by (by rewrite <- app_assoc).
    by apply (IH _ s' l' miss').
Qed.

End Scan.

(** ** After the scan *)

(** How many tasks the pipeline keeps, the combined demand of the chosen ones being
    [total]. *)
Definition limit (e : pl_env) (total : Z) : Z :=
  let heavy_nr := sysctl_sched_heavy_nr (fe_cfg (pe_fit e)) in
  if negb (heavy_nr =? 0) then Z.min heavy_nr MAX_NR_PIPELINE
  else if total <? sysctl_sched_pipeline_util_thres (fe_cfg (pe_fit e)) then MAX_NR_PIPELINE - 1 else MAX_NR_PIPELINE.

(** The steps after [trim] do not touch this part of the state, the sort aside. *)
Definition list_of (s : pl_sys) : list (option Z) * Z := (pl_heavy_wts s, pl_total_util s).

Lemma update_top_list m s : pl_heavy_wts (update_top m s) = pl_heavy_wts s.
Proof. unfold update_top. destruct (slot _ 0); [|done]. repeat case_if; done. Qed.

Lemma reset_dropped_list old s : list_of (fold_left reset_dropped old s) = list_of s.
Proof.
  revert s. induction old as [|x old IH]; intros s; [done|]. cbn [fold_left]. rewrite IH.
  destruct x as [h|]; [|done]. unfold reset_dropped. by case_if.
Qed.

Lemma mark_heavy_list e l s n : list_of (fold_left (mark_heavy e) l (s, n)).1 = list_of s.
Proof.
  revert s n. induction l as [|x l IH]; intros s n; [done|]. cbn [fold_left].
  destruct x as [h|]; [|apply IH]. unfold mark_heavy at 2. rewrite IH. cbv zeta. by case_if.
Qed.

Lemma set_unisolation_list e b f s : list_of (pipeline_set_unisolation e b f s) = list_of s.
Proof. unfold pipeline_set_unisolation. cbv zeta. repeat case_if; done. Qed.

Lemma sort_heavy_members e start nr s :
  (forall cmp l, pe_sort e cmp l ≡ₚ l) ->
  members (pl_heavy_wts (sort_heavy e start nr s)) ≡ₚ members (pl_heavy_wts s) /\
  pl_total_util (sort_heavy e start nr s) = pl_total_util s.
Proof.
  intros Hsort. unfold sort_heavy. cbv zeta. set (b := _ && _). destruct b; [|done]. split; [|done].
  set (k := Z.to_nat _). set (n := Z.to_nat _).
  change (members (take k (pl_heavy_wts s) ++
            pe_sort e (load_cmp_func e s) (take n (drop k (pl_heavy_wts s))) ++ drop (k + n) (pl_heavy_wts s)) ≡ₚ
          members (pl_heavy_wts s)).
  unfold members at 1. rewrite Hsort, <- drop_drop, take_drop, take_drop. done.
Qed.

Lemma members_laid pre l m : members (laid pre l m) = members pre ++ l.
Proof.
  unfold laid. rewrite !members_app. f_equal. rewrite (members_none (replicate m None)).
  - rewrite app_nil_r. induction l as [|x l IH]; [done|]. cbn [fmap list_fmap]. rewrite members_some. by f_equal.
  - intros x Hx. by apply elem_of_replicate in Hx as [-> _].
Qed.

Lemma trim_members e s all :
  0 <= sysctl_sched_heavy_nr (fe_cfg (pe_fit e)) ->
  (length all <= 3)%nat -> pl_heavy_wts s = laid [] all (3 - length all) ->
  members (pl_heavy_wts (trim e s)) = take (Z.to_nat (limit e (pl_total_util (trim e s)))) all.
Proof.
  intros Hn Hl Hs. unfold limit. cbv zeta.
  destruct (Z.eqb_spec (sysctl_sched_heavy_nr (fe_cfg (pe_fit e))) 0) as [E0|Hne]; cbn [negb].
  - assert (pl_total_util (trim e s) = heavy_total e s) as ->.
    { unfold trim. rewrite E0. cbv zeta. change (0 =? 0) with true. cbn [negb]. by case_if. }
    unfold trim. rewrite E0. cbv zeta. change (0 =? 0) with true. cbn [negb].
    change (pl_total_util (s <| pl_total_util := 0 |> <| pl_total_util := heavy_total e (s <| pl_total_util := 0 |>) |>))
      with (heavy_total e s).
    case_if.
    + change (members (set_slot (pl_heavy_wts s) (MAX_NR_PIPELINE - 1) None) = take 2 all). rewrite Hs.
      destruct all as [|a [|b [|c [|]]]]; (done || (cbn in Hl; lia)).
    + change (members (pl_heavy_wts s) = take 3 all). rewrite Hs, members_laid, take_ge by done. done.
  - unfold trim. set (n := sysctl_sched_heavy_nr _) in *. cbv zeta.
    apply Z.eqb_neq in Hne as Hb. rewrite Hb. cbn [negb].
    change (members (for_range n (Z.to_nat (MAX_NR_PIPELINE - n)) (fun i l => set_slot l i None) (pl_heavy_wts s)) =
            take (Z.to_nat (Z.min n MAX_NR_PIPELINE)) all).
    rewrite Hs. unfold MAX_NR_PIPELINE. destruct (Z_lt_le_dec n 3) as [H3|H3].
    + assert (n = 1 \/ n = 2) as [-> | ->] by lia; destruct all as [|a [|b [|c [|]]]]; (done || (cbn in Hl; lia)).
    + replace (Z.to_nat (3 - n)) with 0%nat by lia. cbn [for_range]. rewrite members_laid.
      replace (Z.to_nat (Z.min n 3)) with 3%nat by lia. by rewrite take_ge.
Qed.

Lemma best_take ge j k all l : (j <= k)%nat -> best ge k all l -> best ge j all (take j l).
Proof.
  intros Hjk (Hl & Hs & out & Hp & Hd). split; [rewrite length_take; lia|].
  assert (StronglySorted ge (take j l) /\ forall a b, a ∈ take j l -> b ∈ drop j l -> ge a b) as [H1 H2].
  { clear -Hs. revert j. induction Hs as [|x l Hs IH Hx]; intros j.
    - rewrite take_nil, drop_nil. split; [constructor|]. intros a b []%not_elem_of_nil.
    - destruct j as [|j]; cbn; [split; [constructor|]; intros a b []%not_elem_of_nil|].
      destruct (IH j) as [IH1 IH2]. rewrite list.Forall_forall in Hx. split.
      + constructor; [done|]. apply list.Forall_forall. intros y Hy. apply Hx. by apply (subseteq_take j).
      + intros a b [->|Ha]%elem_of_cons Hb; [|by apply IH2]. apply Hx. by apply (subseteq_drop j). }
  split; [done|]. exists (drop j l ++ out). split.
  - by rewrite app_assoc, take_drop.
  - intros a b Ha [Hb|Hb]%elem_of_app; [by apply H2|]. apply Hd; [by apply (subseteq_take j)|done].
Qed.

(** ** The tasks of the list are different from one another, favour or not *)

Lemma place_step_members e s i p :
  0 <= i < Z.of_nat (length (pc_heavy p)) ->
  let p' := place_step e s i p in
  length (pc_heavy p') = length (pc_heavy p) /\
  (forall j, 0 <= j -> j <> i -> slot (pc_heavy p') j = slot (pc_heavy p) j) /\
  (pc_done p = true -> p' = p) /\
  (pc_done p = false ->
   (if pc_done p' then [] else [pc_task p']) ++ members (pc_heavy p') ≡ₚ pc_task p :: members (pc_heavy p)).
Proof.
  intros Hi p'. unfold p', place_step. destruct p as [a x miss d]. cbn [pc_done pc_heavy pc_task pc_miss] in *.
  destruct d; [done|]. destruct (slot a i) as [h|] eqn:Ea.
  - assert (forall m, let q := mk_placing (set_slot a i (Some x)) h m false in
      length (pc_heavy q) = length a /\ (forall j, 0 <= j -> j <> i -> slot (pc_heavy q) j = slot a j) /\
      (false = true -> q = mk_placing a x miss false) /\
      (false = false -> (if pc_done q then [] else [pc_task q]) ++ members (pc_heavy q) ≡ₚ x :: members a)) as Hswap.
    { intros m. cbn. split; [apply length_set_slot|]. split; [|split; [done|]].
      - intros j Hj Hne. rewrite slot_set_slot by lia. destruct (Z.eqb_spec i j); [lia|done].
      - intros _. pose proof (members_set_free (set_slot a i None) i x) as H1.
        rewrite length_set_slot, slot_set_slot, Z.eqb_refl in H1 by lia. specialize (H1 Hi eq_refl).
        unfold set_slot in H1. rewrite list_insert_insert_eq in H1. fold (set_slot a i (Some x)) in H1. fold (set_slot a i None) in H1.
        rewrite H1. rewrite <- (members_clear a i h Hi Ea). apply Permutation_swap. }
    repeat case_if; (apply Hswap || done).
  - cbn. split; [apply length_set_slot|]. split; [|split; [done|]].
    + intros j Hj Hne. rewrite slot_set_slot by lia. destruct (Z.eqb_spec i j); [lia|done].
    + intros _. by apply members_set_free.
Qed.

Lemma place_members e s start x a miss :
  0 <= start -> Z.of_nat (length a) = MAX_NR_PIPELINE ->
  let a' := pc_heavy (place e s start x a miss) in
  length a' = length a /\ (forall j, 0 <= j < start -> slot a' j = slot a j) /\ members a' ⊆+ x :: members a.
Proof.
  intros Hs Ha a'.
  assert (let p := place e s start x a miss in
    length (pc_heavy p) = length a /\ (forall j, 0 <= j < start -> slot (pc_heavy p) j = slot a j) /\
    (if pc_done p then [] else [pc_task p]) ++ members (pc_heavy p) ≡ₚ x :: members a) as (H1 & H2 & H3).
  { unfold place.
    apply (for_range_ind (fun _ p => length (pc_heavy p) = length a /\
      (forall j, 0 <= j < start -> slot (pc_heavy p) j = slot a j) /\
      (if pc_done p then [] else [pc_task p]) ++ members (pc_heavy p) ≡ₚ x :: members a)); [done|].
    intros i p Hi (E1 & E2 & E3).
    assert (0 <= i < Z.of_nat (length (pc_heavy p))) as Hi' by (rewrite E1; unfold MAX_NR_PIPELINE in *; lia).
    destruct (place_step_members e s i p Hi') as (P1 & P2 & P3 & P4).
    split; [congruence|]. split; [intros j Hj; rewrite P2 by lia; by apply E2|].
    destruct (pc_done p) eqn:Ed; [rewrite (P3 eq_refl), Ed; exact E3|]. rewrite (P4 eq_refl). exact E3. }
  split; [exact H1|]. split; [exact H2|]. rewrite <- H3. apply submseteq_inserts_l. done.
Qed.

Lemma submseteq_nodup (l k : list Z) : l ⊆+ k -> NoDup k -> NoDup l.
Proof. intros (r & ->)%submseteq_Permutation Hk. by apply list.NoDup_app in Hk as (? & _). Qed.

Lemma rate_special e s ws p : pl_special s <> None -> (rate e s ws (Some p) p).2 = false.
Proof.
  intros H. unfold rate. destruct (idle_penalty _ _ _ _) as [t []]; [done|]. cbv zeta. case_if; [done|].
  cbn [snd]. by rewrite (bool_decide_false (pl_special s = None)), (bool_decide_true (Some p = Some p)) by done.
Qed.

(** The list after the tasks [past]; [sp] is in slot 0 when it is there. *)
Record distinct (s0 : pl_sys) (sp : option Z) (past : list Z) (s : pl_sys) : Prop := mk_distinct {
  di_length : length (pl_heavy_wts s) = Z.to_nat MAX_NR_PIPELINE;
  di_nodup : NoDup (members (pl_heavy_wts s));
  di_past : forall y, y ∈ members (pl_heavy_wts s) -> y ∈ past \/ sp = Some y;
  di_slot : sp <> None -> slot (pl_heavy_wts s) 0 = sp;
  di_special : pl_special s = pl_special s0;
  di_cpu : forall y, t_pipeline_cpu (pl_wts s y) = t_pipeline_cpu (pl_wts s0 y)
}.

Lemma scan_tasks_distinct e ws s0 sp start tasks past st :
  (start = 0 /\ sp = None) \/ (start = 1 /\ sp <> None /\ pl_special s0 <> None) ->
  distinct s0 sp past st.1 -> NoDup (past ++ tasks) ->
  distinct s0 sp (past ++ tasks) (fold_left (scan_task e ws start) tasks st).1.
Proof.
  intros Hstart. revert past st. induction tasks as [|x tasks IH]; intros past [s miss] H Hn; [by rewrite app_nil_r|].
  cbn [fold_left]. replace (past ++ x :: tasks) with ((past ++ [x]) ++ tasks) in * by (by rewrite <- app_assoc).
  apply IH; [|done]. assert (x ∉ past) as Hx.
  { apply list.NoDup_app in Hn as (Hn & _). apply list.NoDup_app in Hn as (_ & Hd & _). intros Hx. apply (Hd x Hx). left. }
  cbn [fst] in H. destruct H as [H1 H2 H3 H4 H5 H6]. unfold scan_task.
  destruct (rate e s ws (slot (pl_heavy_wts s) 0) x) as [t ok] eqn:Er.
  assert (forall y, t_pipeline_cpu (pl_wts (on_task x (fun _ => t) s) y) = t_pipeline_cpu (pl_wts s0 y)) as Hc.
  { intros y. unfold on_task. cbn. destruct (decide (x = y)) as [<-|Hne].
    - rewrite fn_lookup_insert, <- H6. pose proof (rate_frame e s ws (slot (pl_heavy_wts s) 0) x) as (_ & E & _). by rewrite Er in E.
    - by rewrite fn_lookup_insert_ne. }
  destruct ok; cbn [fst].
  - set (s1 := on_task x (fun _ => t) s).
    assert (Z.of_nat (length (pl_heavy_wts s1)) = MAX_NR_PIPELINE) as Hl1.
    { change (pl_heavy_wts s1) with (pl_heavy_wts s). rewrite H1. done. }
    destruct (place_members e s1 start x (pl_heavy_wts s1) miss) as (P1 & P2 & P3).
    { destruct Hstart as [[-> _]|[-> _]]; lia. } { done. }
    change (pl_heavy_wts s1) with (pl_heavy_wts s) in *.
    assert (sp <> Some x) as Hsx.
    { intros ->. destruct Hstart as [[_ ?]|(_ & _ & Hsp)]; [done|]. rewrite H4 in Er by done.
      pose proof (rate_special e s ws x ltac:(by rewrite H5)) as E. by rewrite Er in E. }
    assert (x ∉ members (pl_heavy_wts s)) as Hxm by (intros Hm; by destruct (H3 x Hm)).
    constructor; cbn.
    + congruence.
    + apply (submseteq_nodup _ _ P3). by constructor.
    + intros y Hy. assert (y ∈ x :: members (pl_heavy_wts s)) as [->|Hy']%elem_of_cons by (by eapply elem_of_submseteq).
      * left. set_solver.
      * destruct (H3 y Hy'); [left; set_solver|by right].
    + intros Hsp. rewrite P2; [by apply H4|]. destruct Hstart as [[_ ?]|[-> _]]; [done|lia].
    + done.
    + exact Hc.
  - constructor; cbn; try done. intros y Hy. destruct (H3 y Hy); [left; set_solver|by right].
Qed.

(** What happens to the CPU of a task after the scan: it is kept, or given up. *)
Definition cpus_kept (s s' : pl_sys) : Prop :=
  forall y, t_pipeline_cpu (pl_wts s' y) = t_pipeline_cpu (pl_wts s y) \/ t_pipeline_cpu (pl_wts s' y) = -1.

#[local] Instance cpus_kept_preorder : PreOrder cpus_kept.
Proof.
  split; [by left|]. intros a b c H1 H2 y. destruct (H2 y) as [->|]; [apply H1|by right].
Qed.

Lemma on_task_cpus_kept h f s :
  (forall t, t_pipeline_cpu (f t) = t_pipeline_cpu t \/ t_pipeline_cpu (f t) = -1) -> cpus_kept s (on_task h f s).
Proof.
  intros Hf y. unfold on_task. cbn. destruct (decide (h = y)) as [<-|Hne].
  - rewrite fn_lookup_insert. apply Hf.
  - rewrite fn_lookup_insert_ne by done. by left.
Qed.

Lemma members_set_none l i : members (set_slot l i None) ⊆+ members l.
Proof.
  destruct (decide (Z.to_nat i < length l)%nat) as [Hi|Hi].
  - pose (j := Z.of_nat (Z.to_nat i)). assert (set_slot l i None = set_slot l j None) as ->.
    { unfold set_slot, j. by rewrite Nat2Z.id. }
    destruct (slot l j) as [t|] eqn:E.
    + rewrite <- (members_clear l j t ltac:(unfold j; lia) E). by apply submseteq_cons.
    + unfold set_slot. rewrite list_insert_id; [done|]. rewrite slot_lookup, E by (unfold j; lia). done.
  - unfold set_slot. rewrite list_insert_ge by lia. done.
Qed.

Lemma trim_sub e s :
  length (pl_heavy_wts (trim e s)) = length (pl_heavy_wts s) /\
  members (pl_heavy_wts (trim e s)) ⊆+ members (pl_heavy_wts s) /\ pl_wts (trim e s) = pl_wts s.
Proof.
  unfold trim. cbv zeta. set (n := sysctl_sched_heavy_nr _). case_if.
  - split; [|split; [|done]].
    + apply (for_range_ind (fun _ l => length l = length (pl_heavy_wts s))); [done|]. intros i l _ E. by rewrite length_set_slot.
    + apply (for_range_ind (fun _ l => members l ⊆+ members (pl_heavy_wts s))); [done|].
      intros i l _ E. by rewrite members_set_none.
  - case_if; [|done]. split; [apply length_set_slot|]. split; [|done]. apply members_set_none.
Qed.

Lemma dropped_out s h : h ∉ members (pl_heavy_wts s) -> dropped s h = true.
Proof.
  intros H. unfold dropped. apply negb_true_iff. destruct (existsb _ _) eqn:E; [|done]. exfalso.
  apply existsb_exists in E as ([k|] & Hin & Hx); [|done]. apply list_elem_of_In in Hin. revert Hx. case_if.
  - intros Hx%bool_decide_eq_true. apply H, elem_of_members.
    unfold slot in Hx. destruct (pl_heavy_wts s) as [|a l]; [done|]. change (a = Some h) in Hx. rewrite Hx. left.
  - intros ->%bool_decide_eq_true. by apply H, elem_of_members.
Qed.

Lemma reset_dropped_kept old s : cpus_kept s (fold_left reset_dropped old s).
Proof.
  revert s. induction old as [|x old IH]; intros s; [done|]. cbn [fold_left]. etransitivity; [|apply IH].
  destruct x as [h|]; [|done]. unfold reset_dropped. case_if; [|done]. apply on_task_cpus_kept. intros t. by right.
Qed.

Lemma reset_dropped_gone old s y :
  y ∈ members old -> y ∉ members (pl_heavy_wts s) -> t_pipeline_cpu (pl_wts (fold_left reset_dropped old s) y) = -1.
Proof.
  revert s. induction old as [|x old IH]; intros s Hy Hout; [by apply not_elem_of_nil in Hy|]. cbn [fold_left].
  assert (pl_heavy_wts (reset_dropped s x) = pl_heavy_wts s) as Eh.
  { destruct x; [|done]. unfold reset_dropped. by case_if. }
  destruct x as [h|]; [|by apply IH; [|rewrite Eh]].
  rewrite members_some in Hy. apply elem_of_cons in Hy as [<-|Hy]; [|by apply IH; [|rewrite Eh]].
  assert (t_pipeline_cpu (pl_wts (reset_dropped s (Some y)) y) = -1) as E.
  { unfold reset_dropped. rewrite (dropped_out s y Hout). unfold on_task. cbn. by rewrite fn_lookup_insert. }
  destruct (reset_dropped_kept old (reset_dropped s (Some y)) y) as [->|]; done.
Qed.

Lemma mark_heavy_kept e l s n y :
  t_pipeline_cpu (pl_wts (fold_left (mark_heavy e) l (s, n)).1 y) = t_pipeline_cpu (pl_wts s y).
Proof.
  revert s n. induction l as [|x l IH]; intros s n; [done|]. cbn [fold_left].
  destruct x as [h|]; [|apply IH]. unfold mark_heavy at 2. rewrite IH. cbv zeta.
  assert (forall f, (forall t, t_pipeline_cpu (f t) = t_pipeline_cpu t) ->
            t_pipeline_cpu (pl_wts (on_task h f s) y) = t_pipeline_cpu (pl_wts s y)) as Ht.
  { intros f Hf. unfold on_task. cbn. destruct (decide (h = y)) as [<-|Hne]; [by rewrite fn_lookup_insert|by rewrite fn_lookup_insert_ne]. }
  match goal with |- context [on_task h ?f s] => specialize (Ht f) end.
  case_if; apply Ht; intros t; by case_if.
Qed.

Lemma set_unisolation_kept e b f s :
  pl_wts (pipeline_set_unisolation e b f s) = pl_wts s /\
  pl_available_gold (pipeline_set_unisolation e b f s) = pl_available_gold s /\
  pl_available_prime (pipeline_set_unisolation e b f s) = pl_available_prime s.
Proof. unfold pipeline_set_unisolation. cbv zeta. repeat case_if; done. Qed.

Lemma sort_heavy_kept e start nr s :
  (forall cmp l, pe_sort e cmp l ≡ₚ l) ->
  length (pl_heavy_wts (sort_heavy e start nr s)) = length (pl_heavy_wts s) /\ pl_wts (sort_heavy e start nr s) = pl_wts s.
Proof.
  intros Hsort. unfold sort_heavy. cbv zeta. set (b := _ && _). destruct b; [|done]. split; [|done].
  set (k := Z.to_nat _). set (n := Z.to_nat _).
  change (length (take k (pl_heavy_wts s) ++
            pe_sort e (load_cmp_func e s) (take n (drop k (pl_heavy_wts s))) ++ drop (k + n) (pl_heavy_wts s)) =
          length (pl_heavy_wts s)).
  rewrite Hsort, <- drop_drop, take_drop, take_drop. done.
Qed.

Lemma special_start e s :
  pl_top_wts_bias s = false \/ (special_slot e s).1 <> None ->
  ((special_slot e s).2 = 0 /\ (special_slot e s).1 = None /\ pl_top_wts_bias s = false) \/
  ((special_slot e s).2 = 1 /\ (special_slot e s).1 <> None).
Proof.
  unfold special_slot. destruct (pl_special s) as [p|]; [case_if|]; cbn.
  - right. done.
  - intros [H|H]; [by left|done].
  - intros [H|H]; [by left|done].
Qed.

Lemma choose_heavy_best e ws tasks s :
  length (pl_heavy_wts s) = Z.to_nat MAX_NR_PIPELINE -> NoDup tasks ->
  (forall cmp l, pe_sort e cmp l ≡ₚ l) -> 0 <= sysctl_sched_heavy_nr (fe_cfg (pe_fit e)) ->
  pl_top_wts_bias s = false \/ (special_slot e s).1 <> None ->
  let sp := (special_slot e s).1 in
  let s' := choose_heavy e ws tasks s in
  exists chosen,
    best (at_least_as_good e ws s sp) (Z.to_nat (limit e (pl_total_util s') - (special_slot e s).2))
      (filter (eligible e ws s sp) tasks) chosen /\
    members (pl_heavy_wts s') ≡ₚ option_list sp ++ chosen.
Proof.
  intros Hlen Hn Hsort Hnr Hb. pose proof (special_start e s Hb) as Hstart. unfold choose_heavy.
  set (sa := s <| pl_heavy_wts := (fun _ => None) <$> pl_heavy_wts s |>).
  change (special_slot e sa) with (special_slot e s).
  destruct (special_slot e s) as [sp start] eqn:Esp. cbn [fst snd] in *.
  set (sb := sa <| pl_heavy_wts := set_slot (pl_heavy_wts sa) 0 sp |>).
  set (k := Z.to_nat (MAX_NR_PIPELINE - start)).
  assert (pl_heavy_wts sb = laid (before sp) [] k) as Hlaid.
  { change (pl_heavy_wts sb) with (set_slot ((fun _ : option Z => None) <$> pl_heavy_wts s) 0 sp). unfold k.
    destruct (pl_heavy_wts s) as [|a [|b [|c [|]]]]; try done.
    destruct Hstart as [(-> & -> & _)|[-> H]]; [done|]. by destruct sp. }
  assert (scanned e ws s sp start [] sb []) as H0.
  { constructor; [|by apply best_nil]. exists (pl_wts s). split; [|intros x; by rewrite bool_decide_false by apply not_elem_of_nil].
    cbn [length]. rewrite Nat.sub_0_r. fold k. rewrite <- Hlaid. by destruct s. }
  destruct (scan_tasks_scanned e ws s sp start Hstart tasks [] sb [] false H0 Hn) as (l & Hl). cbn [app] in Hl.
  destruct (fold_left (scan_task e ws start) tasks (sb, false)) as [sc miss]. cbn [fst] in Hl.
  destruct Hl as [(w & Esc & _) Hbest]. fold k in Esc, Hbest.
  assert (pl_heavy_wts sc = laid (before sp) l (k - length l)) as Hsc by (by rewrite Esc).
  assert (length l <= k)%nat as Hlk by (destruct Hbest as (-> & _); lia).
  pose (all := option_list sp ++ l).
  assert (laid (before sp) l (k - length l) = laid [] all (3 - length all)) as Hall.
  { unfold all, laid, before. destruct Hstart as [(Es & -> & _)|[Es H]]; unfold k in *; rewrite Es in *; [done|].
    destruct sp; [|done]. done. }
  assert (length all <= 3)%nat as Hle.
  { unfold all, k in *. unfold MAX_NR_PIPELINE in *. rewrite length_app.
    destruct Hstart as [(-> & -> & _)|[-> H]]; [cbn; lia|]. destruct sp; [|done]. cbn. lia. }
  pose proof (trim_members e (update_top miss sc) all Hnr Hle) as Htrim.
  rewrite update_top_list, Hsc, Hall in Htrim. specialize (Htrim eq_refl).
  set (st := trim e (update_top miss sc)) in *. clearbody st.
  pose proof (reset_dropped_list (pl_heavy_wts s) st) as Hr. set (sr := fold_left reset_dropped (pl_heavy_wts s) st) in *.
  clearbody sr. pose proof (mark_heavy_list e (pl_heavy_wts sr) (sr <| pl_least_demand := INT_MAX |>) 0) as Hm.
  destruct (fold_left (mark_heavy e) (pl_heavy_wts sr) _) as [sm nr]. cbn [fst] in Hm.
  change (list_of (sr <| pl_least_demand := INT_MAX |>)) with (list_of sr) in Hm.
  set (su := pipeline_set_unisolation e _ AUTO_PIPELINE sm).
  assert (list_of su = list_of st) as Hu by (unfold su; rewrite set_unisolation_list; congruence). clearbody su.
  destruct (sort_heavy_members e start nr su Hsort) as [Hs1 Hs2].
  assert (pl_total_util su = pl_total_util st) as Et by exact (f_equal snd Hu).
  assert (pl_heavy_wts su = pl_heavy_wts st) as Eh by exact (f_equal fst Hu).
  cbv zeta. rewrite Hs2, Et. set (lim := limit e (pl_total_util st)) in *.
  assert (1 <= lim <= 3) as Hlim.
  { unfold lim, limit, MAX_NR_PIPELINE. repeat case_if; lia. }
  exists (take (Z.to_nat (lim - start)) l). split.
  - apply (best_take _ _ k); [unfold k, MAX_NR_PIPELINE; lia|exact Hbest].
  - rewrite Hs1, Eh, Htrim. unfold all. destruct Hstart as [(-> & -> & _)|[-> H]]; [by rewrite Z.sub_0_r|].
    destruct sp as [p|]; [|done]. replace (Z.to_nat lim) with (S (Z.to_nat (lim - 1))) by lia. done.
Qed.

(** The effect of a new choice on the list and the CPUs of the tasks: the list has distinct
    tasks of the group (or the named one), no task gets a CPU here, and a task that has
    left the list gives its CPU up. *)
Lemma choose_heavy_distinct e ws tasks s :
  length (pl_heavy_wts s) = Z.to_nat MAX_NR_PIPELINE -> NoDup tasks -> (forall cmp l, pe_sort e cmp l ≡ₚ l) ->
  let s' := choose_heavy e ws tasks s in
  length (pl_heavy_wts s') = Z.to_nat MAX_NR_PIPELINE /\ NoDup (members (pl_heavy_wts s')) /\ cpus_kept s s' /\
  (forall y, y ∈ members (pl_heavy_wts s) -> y ∉ members (pl_heavy_wts s') -> t_pipeline_cpu (pl_wts s' y) = -1).
Proof.
  intros Hlen Hn Hsort. unfold choose_heavy.
  set (sa := s <| pl_heavy_wts := (fun _ => None) <$> pl_heavy_wts s |>).
  assert (((special_slot e sa).2 = 0 /\ (special_slot e sa).1 = None) \/
          ((special_slot e sa).2 = 1 /\ (special_slot e sa).1 <> None /\ pl_special s <> None)) as Hstart.
  { unfold special_slot. change (pl_special sa) with (pl_special s). destruct (pl_special s); [case_if|]; cbn; [by right|by left|by left]. }
  destruct (special_slot e sa) as [sp start]. cbn [fst snd] in Hstart.
  set (sb := sa <| pl_heavy_wts := set_slot (pl_heavy_wts sa) 0 sp |>).
  assert (distinct s sp [] (sb, false).1) as H0.
  { assert (pl_heavy_wts sb = [sp; None; None]) as Eb.
    { change (pl_heavy_wts sb) with (set_slot ((fun _ : option Z => None) <$> pl_heavy_wts s) 0 sp).
      by destruct (pl_heavy_wts s) as [|a [|b [|c [|]]]]. }
    cbn [fst]. constructor; rewrite ?Eb; try done.
    - destruct sp; repeat constructor; set_solver.
    - intros y. destruct sp as [p|]; [|by intros []%not_elem_of_nil]. intros [->|[]%not_elem_of_nil]%elem_of_cons. by right. }
  pose proof (scan_tasks_distinct e ws s sp start tasks [] (sb, false) Hstart H0 Hn) as Hd.
  destruct (fold_left (scan_task e ws start) tasks (sb, false)) as [sc miss]. cbn [fst app] in Hd.
  destruct Hd as [D1 D2 _ _ _ D6].
  destruct (trim_sub e (update_top miss sc)) as (T1 & T2 & T3). rewrite update_top_list in T1, T2.
  assert (pl_wts (update_top miss sc) = pl_wts sc) as Eu.
  { unfold update_top. destruct (slot _ 0); [|done]. repeat case_if; done. }
  rewrite Eu in T3. set (st := trim e (update_top miss sc)) in *. clearbody st.
  pose proof (reset_dropped_list (pl_heavy_wts s) st) as Hr. pose proof (reset_dropped_kept (pl_heavy_wts s) st) as Hk.
  pose proof (fun y => reset_dropped_gone (pl_heavy_wts s) st y) as Hg.
  set (sr := fold_left reset_dropped (pl_heavy_wts s) st) in *. clearbody sr.
  pose proof (mark_heavy_list e (pl_heavy_wts sr) (sr <| pl_least_demand := INT_MAX |>) 0) as Hm.
  pose proof (mark_heavy_kept e (pl_heavy_wts sr) (sr <| pl_least_demand := INT_MAX |>) 0) as Hmk.
  destruct (fold_left (mark_heavy e) (pl_heavy_wts sr) _) as [sm nr]. cbn [fst] in Hm, Hmk.
  change (list_of (sr <| pl_least_demand := INT_MAX |>)) with (list_of sr) in Hm.
  change (pl_wts (sr <| pl_least_demand := INT_MAX |>)) with (pl_wts sr) in Hmk.
  set (b := _ || _). pose proof (set_unisolation_list e b AUTO_PIPELINE sm) as Hu.
  destruct (set_unisolation_kept e b AUTO_PIPELINE sm) as [Huk _]. set (su := pipeline_set_unisolation e b AUTO_PIPELINE sm) in *.
  clearbody su. destruct (sort_heavy_members e start nr su Hsort) as [Hs1 _].
  destruct (sort_heavy_kept e start nr su Hsort) as [Hs2 Hs3].
  assert (pl_heavy_wts su = pl_heavy_wts st) as Eh by exact (f_equal fst (eq_trans Hu (eq_trans Hm Hr))).
  rewrite Eh in Hs1, Hs2. cbv zeta. rewrite Hs2, Hs3, Huk, T1, D1.
  split; [done|]. split; [rewrite Hs1; by apply (submseteq_nodup _ _ T2)|]. split.
  - intros y. rewrite Hs3, Huk, Hmk. destruct (Hk y) as [->|]; [|by right]. left. by rewrite T3, D6.
  - intros y Hy Hout. rewrite Hmk. apply Hg; [done|]. by rewrite Hs1 in Hout.
Qed.

Lemma find_heaviest_success e ws s :
  (find_heaviest_topapp e ws s).2 = FIND_HEAVY_SUCCESS ->
  exists tasks, pe_grp e = Some tasks /\
    (find_heaviest_topapp e ws s).1 = choose_heavy e ws tasks (s <| pl_last_rearrange_ns := ws |>).
Proof.
  unfold find_heaviest_topapp. cbv zeta. destruct (_ <? 2); [done|].
  destruct (if _ || _ then None else pe_grp e) as [tasks|] eqn:E; [|done].
  destruct (negb _ && _); [done|]. intros _. exists tasks. split; [|done]. revert E. by case_if.
Qed.


(** ** What a new choice marks and what it leaves alone *)

Definition heavy_bit (t : walt_task_struct) : bool := Z.testbit (t_low_latency t) 3.

Lemma mark_heavy_bits e l s n y :
  y ∈ members l \/ heavy_bit (pl_wts s y) = true -> heavy_bit (pl_wts (fold_left (mark_heavy e) l (s, n)).1 y) = true.
Proof.
  revert s n. induction l as [|x l IH]; intros s n H; cbn [fold_left].
  { destruct H as [[]%not_elem_of_nil|H]. exact H. }
  destruct x as [h|]; [|by apply IH]. unfold mark_heavy at 2. cbv zeta. apply IH.
  assert (forall f, (forall t, t_low_latency (f t) = Z.lor (t_low_latency t) WALT_LOW_LATENCY_HEAVY_BIT) ->
            y ∈ members l \/ heavy_bit (pl_wts (on_task h f s) y) = true) as Ht.
  { intros f Hf. unfold on_task, heavy_bit in *. cbn. destruct (decide (h = y)) as [<-|Hne].
    - right. rewrite fn_lookup_insert, Hf, Z.lor_spec. apply orb_true_r.
    - rewrite fn_lookup_insert_ne by done. rewrite members_some in H. destruct H as [[?|H]%elem_of_cons|H]; [done|by left|by right]. }
  match goal with |- context [on_task h ?f s] => specialize (Ht f) end.
  case_if; apply Ht; intros t; by case_if.
Qed.

Lemma choose_heavy_bits e ws tasks s y :
  (forall cmp l, pe_sort e cmp l ≡ₚ l) -> y ∈ members (pl_heavy_wts (choose_heavy e ws tasks s)) ->
  heavy_bit (pl_wts (choose_heavy e ws tasks s) y) = true.
Proof.
  intros Hsort. unfold choose_heavy. set (sa := s <| pl_heavy_wts := _ |>). destruct (special_slot e sa) as [sp start].
  destruct (fold_left (scan_task e ws start) tasks _) as [sc miss].
  set (sr := fold_left reset_dropped _ _). clearbody sr.
  pose proof (mark_heavy_list e (pl_heavy_wts sr) (sr <| pl_least_demand := INT_MAX |>) 0) as Hm.
  pose proof (mark_heavy_bits e (pl_heavy_wts sr) (sr <| pl_least_demand := INT_MAX |>) 0 y) as Hb.
  destruct (fold_left (mark_heavy e) (pl_heavy_wts sr) _) as [sm nr]. cbn [fst] in Hm, Hb.
  set (b := _ || _). pose proof (set_unisolation_list e b AUTO_PIPELINE sm) as Hu.
  destruct (set_unisolation_kept e b AUTO_PIPELINE sm) as [Huk _].
  set (su := pipeline_set_unisolation e b AUTO_PIPELINE sm) in *. clearbody su.
  destruct (sort_heavy_members e start nr su Hsort) as [Hs1 _]. destruct (sort_heavy_kept e start nr su Hsort) as [_ Hs3].
  rewrite Hs1, Hs3, Huk. assert (pl_heavy_wts su = pl_heavy_wts sr) as -> by exact (f_equal fst (eq_trans Hu Hm)).
  intros Hy. apply Hb. by left.
Qed.

Definition masks_of (s : pl_sys) : Z * Z := (pl_available_gold s, pl_available_prime s).

Lemma choose_heavy_masks e ws tasks s : masks_of (choose_heavy e ws tasks s) = masks_of s.
Proof.
  assert (forall l st start, masks_of (fold_left (scan_task e ws start) l st).1 = masks_of st.1) as Hscan.
  { intros l. induction l as [|x l IH]; intros [t miss] start; [done|]. cbn [fold_left]. rewrite IH. unfold scan_task.
    destruct (rate _ _ _ _ _) as [? []]; done. }
  assert (forall l t, masks_of (fold_left reset_dropped l t) = masks_of t) as Hreset.
  { intros l. induction l as [|x l IH]; intros t; [done|]. cbn [fold_left]. rewrite IH. destruct x; [|done]. unfold reset_dropped. by case_if. }
  assert (forall l st, masks_of (fold_left (mark_heavy e) l st).1 = masks_of st.1) as Hmark.
  { intros l. induction l as [|x l IH]; intros [t n]; [done|]. cbn [fold_left]. rewrite IH. destruct x; [|done].
    unfold mark_heavy. cbv zeta. by case_if. }
  assert (forall m t, masks_of (update_top m t) = masks_of t) as Htop.
  { intros m t. unfold update_top. destruct (slot _ 0); [|done]. repeat case_if; done. }
  assert (forall t, masks_of (trim e t) = masks_of t) as Htrim.
  { intros t. unfold trim. cbv zeta. case_if; [done|]. by case_if. }
  assert (forall start nr t, masks_of (sort_heavy e start nr t) = masks_of t) as Hsort.
  { intros start nr t. unfold sort_heavy. cbv zeta. set (b := _ && _). by destruct b. }
  unfold choose_heavy. set (sa := s <| pl_heavy_wts := _ |>). destruct (special_slot e sa) as [sp start].
  match goal with |- context [fold_left (scan_task e ws start) tasks ?st] => specialize (Hscan tasks st start);
    destruct (fold_left (scan_task e ws start) tasks st) as [sc miss] end. cbn [fst] in Hscan.
  match goal with |- context [fold_left (mark_heavy e) ?l ?st] => specialize (Hmark l st); destruct (fold_left (mark_heavy e) l st) as [sm nr] end.
  cbn [fst] in Hmark. rewrite Hsort. set (b := _ || _).
  destruct (set_unisolation_kept e b AUTO_PIPELINE sm) as (_ & E1 & E2). unfold masks_of at 1. rewrite E1, E2.
  fold (masks_of sm). rewrite Hmark.
  match goal with |- masks_of (?t <| pl_least_demand := _ |>) = _ => change (masks_of t = masks_of s) end.
  rewrite Hreset, Htrim, Htop, Hscan. done.
Qed.

(** Five tasks of the top application; task 4 has been the most active one. *)
Definition demo_heavy_ple : pl_env :=
  demo_ple <| pe_grp := Some [1; 2; 3; 4; 5] |>
           <| pe_fit := demo_fit <| fe_cfg := sample_cfg <| sysctl_sched_pipeline_util_thres := 100 |> |> |>.
Definition demo_heavy_pl : pl_sys :=
  demo_pl <| pl_wts := fun id => zero_wts <| t_pipeline_cpu := -1 |> <| t_mark_start := 1000000000 |>
                         <| t_coloc_demand := 1562500 * id |>
                         <| t_pipeline_activity_cnt := if id =? 4 then 90 else 60 |> |>.


End HeavyChoice.
