(* ===== verification/PipelineCpus.v ===== *)
(** * CPUs of the pipeline tasks

    [pipeline.c] from [swap_pipeline_with_prime_locked] on: how the tasks of the automatic
    and of the manual pipeline get their CPUs. With three automatic tasks and several
    prime CPUs the energy of two layouts is compared; otherwise tasks move between gold
    and prime CPUs one at a time. Also [walt_cpu_energy] of [walt_cfs.c]. *)

From Stdlib Require Import ZArith Lia ZifyBool Bool.
From stdpp Require Import base list sets functions relations.
From S2P Require Import Prelude WaltTypes Cpumask SmartFreq Halt CoreCtl Boost Fits Pipeline PipelineHeavy.

Definition IPC_DEGRADATION_FACTOR : Z := 115.
Definition PIPELINE_2L_FACTOR : Z := 95.
Definition PIPELINE_ENERGY_BAND : Z := 6.
Definition CONFIG1 : Z := 1.
Definition CONFIG2 : Z := 2.

Definition gold_cpus (e : pl_env) : Z := cluster_cpus (fe_cfg (pe_fit e)) (pe_gold_id e).
Definition prime_cpus (e : pl_env) : Z := cluster_cpus (fe_cfg (pe_fit e)) (pe_prime_id e).
Definition nr_cpus (e : pl_env) : Z := nr_cpu_ids (fe_cfg (pe_fit e)).

Definition cpu_of (s : pl_sys) (wts : Z) : Z := t_pipeline_cpu (pl_wts s wts).
Definition set_cpu_of (wts cpu : Z) (s : pl_sys) : pl_sys := on_task wts (fun t => t <| t_pipeline_cpu := cpu |>) s.

(** ** Swapping with the prime CPU *)

Definition swap_pipeline_with_prime_locked (e : pl_env) (prime_wts other_wts : option Z) (s : pl_sys) : pl_sys :=
  match prime_wts, other_wts with
  | Some p, Some o =>
      if prime_demand e s p <? prime_demand e s o then
        let cpu := cpu_of s o in
        let s := set_cpu_of o (cpu_of s p) s in
        set_cpu_of p cpu s
      else s
  | None, Some o =>
      if negb (pl_have_heavy_list s =? 0) then
        let cpu := cpumask_first (pl_available_prime s) in
        if cpu <? nr_cpus e then
          let s := s <| pl_available_gold := Z.clearbit (pl_available_gold s) (cpu_of s o) |> in
          let s := set_cpu_of o cpu s in
          s <| pl_available_prime := Z.clearbit (pl_available_prime s) cpu |>
        else s
      else set_cpu_of o (cpumask_last (cluster_cpus (fe_cfg (pe_fit e)) (num_sched_clusters (fe_cfg (pe_fit e)) - 1))) s
  | _, None => s
  end.

Definition delay_rearrange (e : pl_env) (window_start type : Z) (force : bool) (s : pl_sys) : pl_sys * bool :=
  let last := aget (pl_delay_ns s) type in
  let next_rearrange := u64 (aget (pe_rearrange_delay_ms e) 1 * sched_ravg_window (fe_cfg (pe_fit e))) in
  if negb force && negb (last =? 0) && (window_start <? u64 (last + next_rearrange)) then (s, true)
  else (s <| pl_delay_ns := aset (pl_delay_ns s) type window_start |>, false).

(** The task on a prime CPU and the one of highest demand on another: the second slot of
    the state is [max_demand], an [int]. *)
Definition find_prime_and_max_tasks (e : pl_env) (s : pl_sys) (l : list (option Z)) : option Z * option Z :=
  let '(prime, other, _) :=
    fold_left (fun '(prime, other, max_demand) x =>
      match x with
      | None => (prime, other, max_demand)
      | Some wts =>
          if cpu_of s wts <? 0 then (prime, other, max_demand) else
          if is_max_possible_cluster_cpu (fe_cfg (pe_fit e)) (cpu_of s wts) then (Some wts, other, max_demand) else
          if u64 max_demand <? prime_demand e s wts then (prime, Some wts, s32 (prime_demand e s wts))
          else (prime, other, max_demand)
      end) l (None, None, 0) in
  (prime, other).

Definition is_prime_worthy (e : pl_env) (wts : option Z) (s : pl_sys) : pl_sys * bool :=
  let c := fe_cfg (pe_fit e) in
  match wts with
  | None => (s, false)
  | Some wts =>
      if num_sched_clusters c <? 2 then (s, true) else
      let '(t, fits) := task_fits_max (pl_fit e s) wts (pl_wts s wts) (cpumask_last (aget (cpu_array0 c) (num_sched_clusters c - 2))) in
      (on_task wts (fun _ => t) s, negb fits)
  end.

(** ** One task at a time *)

(** One round of the loop for at most two tasks; [rearranged] is the flag. *)
Definition move_heavy (e : pl_env) (st : pl_sys * bool) (x : option Z) : pl_sys * bool :=
  let '(s, rearranged) := st in
  match x with
  | None => (s, rearranged)
  | Some h =>
      let pipeline_cpu := cpu_of s h in
      if pipeline_cpu <? 0 then
        let assign_cpu := cpumask_first (pl_available_gold s) in
        if assign_cpu <? nr_cpus e then
          let s := set_cpu_of h assign_cpu s in
          (s <| pl_available_gold := Z.clearbit (pl_available_gold s) assign_cpu |>, rearranged)
        else (s, rearranged)
      else
      let on_prime := cpumask_test_cpu pipeline_cpu (prime_cpus e) in
      let '(s1, worthy) := if on_prime then is_prime_worthy e (Some h) s else (s, true) in
      if on_prime && negb worthy then
        let assign_cpu := cpumask_first (pl_available_gold s1) in
        if assign_cpu <? nr_cpus e then
          let s := s1 <| pl_available_prime := Z.setbit (pl_available_prime s1) pipeline_cpu |> in
          let s := set_cpu_of h assign_cpu s in
          (s <| pl_available_gold := Z.clearbit (pl_available_gold s) assign_cpu |>, rearranged)
        else (s1, rearranged)
      else
      if cpumask_test_cpu pipeline_cpu (gold_cpus e) && negb rearranged then
        let '(s2, worthy) := is_prime_worthy e (Some h) s1 in
        if worthy then
          let assign_cpu := cpumask_first (pl_available_prime s2) in
          if assign_cpu <? nr_cpus e then
            let s := s2 <| pl_available_gold := Z.setbit (pl_available_gold s2) pipeline_cpu |> in
            let s := set_cpu_of h assign_cpu s in
            (s <| pl_available_prime := Z.clearbit (pl_available_prime s) assign_cpu |>, true)
          else (s2, rearranged)
        else (s2, rearranged)
      else (s1, rearranged)
  end.

Definition rearrange_heavy (e : pl_env) (window_start : Z) (force : bool) (s : pl_sys) : pl_sys :=
  let c := fe_cfg (pe_fit e) in
  if negb (pipeline_in_progress (pl_cfg e s)) then s else
  if negb (pl_single_thread s =? 0) then s else
  if num_sched_clusters c <? 2 then s else
  if should_pipeline_pin_special e s && pe_st_pinning e then s else
  if pl_have_heavy_list s <=? 2 then (fold_left (move_heavy e) (pl_heavy_wts s) (s, false)).1 else
  if should_pipeline_pin_special e s then s else
  let '(s, delay) := delay_rearrange e window_start AUTO_PIPELINE force s in
  if delay then s else
  if negb (pe_swapping e) && negb force then s else
  let '(prime_wts, other_wts) := find_prime_and_max_tasks e s (pl_heavy_wts s) in
  let fits_lower := match prime_wts with
                    | Some p => task_fits_capacity (pl_fit e s) p (pl_wts s p)
                                  (cpumask_last (aget (cpu_array0 c) (num_sched_clusters c - 2)))
                    | None => true
                    end in
  let primewts_prime_demand := match prime_wts with Some p => prime_demand e s p | None => 0 end in
  let otherwts_prime_demand := match other_wts with Some o => prime_demand e s o | None => 0 end in
  if (pe_swap_th e =? 0) ||
     (fits_lower && (u64 (primewts_prime_demand + pe_swap_th e) <? otherwts_prime_demand))
  then swap_pipeline_with_prime_locked e prime_wts other_wts s else s.

(** ** Energy of a layout *)

Definition get_util_to_cost (e : pl_env) (cpu util : Z) : Z :=
  let c := fe_cfg (pe_fit e) in
  if pe_disabled e then 0 else
  match pe_em e cpu with
  | None => 0
  | Some freqs =>
      let id := cpu_cluster_id c cpu in
      let freq := u64 (mult_frac (c_max_possible_freq (nth (Z.to_nat id) (sched_cluster c) no_cluster)) util 1024) in
      let freq := u64 (freq + Z.shiftr freq 2) in
      let fix go (i : Z) (l : list Z) (cost : Z) :=
        match l with
        | [] => cost
        | f :: l => let cost := aget (pe_cost e id) i in if freq <=? f then cost else go (i + 1) l cost
        end in
      let cost := go 0 freqs (pe_stack e 8) in
      if cpumask_test_cpu cpu (aget (cpu_array0 c) (num_sched_clusters c - 1)) && (pe_inflate_thres e <? util)
      then u64 (mult_frac cost (pe_inflate_pct e) 100) else cost
  end.

Definition walt_cpu_energy (e : pl_env) (cpu max_util sum_util : Z) : Z :=
  if sum_util =? 0 then 0 else u64 (get_util_to_cost e cpu max_util * sum_util).

(** Entry [i] of [non_pipeline_cluster_util] and of [non_pipeline_cluster_max_util]: the
    loop writes the entries of the gold and of the prime cluster only. *)
Definition non_pipeline_util (e : pl_env) (i : Z) : Z * Z :=
  let c := fe_cfg (pe_fit e) in
  if ((i =? pe_gold_id e) || (i =? pe_prime_id e)) && (i <? num_sched_clusters c) then
    for_each_cpu (cluster_cpus c i) (fun cpu '(sum, max) =>
      if cpumask_test_cpu cpu (pe_cpus e) then (sum, max) else
      let util := scale_time_to_util c (pe_prev_sum e cpu) in (u64 (sum + util), Z.max max util)) (0, 0)
  else (pe_stack e i, pe_stack e (4 + i)).

(** Energy of the layouts: task 0 on a prime CPU, or tasks 0 and 1. *)
Definition config1_energy (e : pl_env) (s : pl_sys) (t0 t1 t2 : Z) : Z :=
  let gold_cpu := cpumask_first (gold_cpus e) in
  let prime_cpu := cpumask_first (prime_cpus e) in
  let t0_util := prime_demand e s t0 in
  let t1_util := gold_demand e s t1 in
  let t2_util := gold_demand e s t2 in
  let gold_energy := walt_cpu_energy e gold_cpu (Z.max (Z.max t1_util t2_util) (non_pipeline_util e 0).2)
                       (u64 ((non_pipeline_util e 0).1 + t1_util + t2_util)) in
  let prime_energy := walt_cpu_energy e prime_cpu (Z.max t0_util (non_pipeline_util e 1).2)
                        (u64 ((non_pipeline_util e 1).1 + t0_util)) in
  u64 (gold_energy + prime_energy).

Definition on_prime (e : pl_env) (s : pl_sys) (t : Z) : bool :=
  (0 <=? cpu_of s t) && cpumask_test_cpu (cpu_of s t) (prime_cpus e).

Definition config2_energy (e : pl_env) (s : pl_sys) (t0 t1 t2 : Z) : Z :=
  let gold_cpu := cpumask_first (gold_cpus e) in
  let prime_cpu := cpumask_first (prime_cpus e) in
  let t0_is_prime := on_prime e s t0 in
  let t1_is_prime := on_prime e s t1 in
  let t0_util := prime_demand e s t0 in
  let t1_util := prime_demand e s t1 in
  let t2_util := gold_demand e s t2 in
  let t0_util := if t0_is_prime && negb t1_is_prime then u64 (mult_frac t0_util IPC_DEGRADATION_FACTOR 100) else t0_util in
  let t1_util := if negb t0_is_prime && t1_is_prime then u64 (mult_frac t1_util IPC_DEGRADATION_FACTOR 100) else t1_util in
  let t0_util := if negb t0_is_prime && negb t1_is_prime then u64 (mult_frac t0_util IPC_DEGRADATION_FACTOR 100) else t0_util in
  let gold_energy := walt_cpu_energy e gold_cpu (Z.max t2_util (non_pipeline_util e 0).2)
                       (u64 ((non_pipeline_util e 0).1 + t2_util)) in
  let prime_energy := walt_cpu_energy e prime_cpu (Z.max (Z.max t0_util t1_util) (non_pipeline_util e 1).2)
                        (u64 ((non_pipeline_util e 1).1 + t0_util + t1_util)) in
  let prime_energy := u64 (mult_frac prime_energy PIPELINE_2L_FACTOR 100) in
  u64 (gold_energy + prime_energy).

(** Whether the first layout is used. *)
Definition use_config1 (e : pl_env) (pinned : bool) (prev_config config1 config2 : Z) : bool :=
  let prev_energy := if prev_config =? CONFIG1 then config1 else config2 in
  let prev_energy := u64 (mult_frac prev_energy (100 - PIPELINE_ENERGY_BAND) 100) in
  let prev_energy := if prev_energy =? 0 then U64_MAX else prev_energy in
  (((prev_config =? CONFIG1) && (prev_energy <? config2) ||
    (prev_config =? CONFIG2) && (config1 <? prev_energy) ||
    (prev_config =? 0) && (config1 <? config2) || pinned) && (pe_force_config e =? 0)) ||
  (pe_force_config e =? CONFIG1).

(** ** Moving to a layout *)

Definition release_prime (e : pl_env) (t : Z) (s : pl_sys) : pl_sys :=
  if negb (cpu_of s t =? -1) && cpumask_test_cpu (cpu_of s t) (prime_cpus e) then
    set_cpu_of t (-1) (s <| pl_available_prime := Z.setbit (pl_available_prime s) (cpu_of s t) |>)
  else s.
Definition release_gold (e : pl_env) (t : Z) (s : pl_sys) : pl_sys :=
  if negb (cpu_of s t =? -1) && cpumask_test_cpu (cpu_of s t) (gold_cpus e) then
    set_cpu_of t (-1) (s <| pl_available_gold := Z.setbit (pl_available_gold s) (cpu_of s t) |>)
  else s.
Definition take_gold (t : Z) (s : pl_sys) : pl_sys :=
  if cpu_of s t =? -1 then
    let s := set_cpu_of t (cpumask_first (pl_available_gold s)) s in
    s <| pl_available_gold := Z.clearbit (pl_available_gold s) (cpu_of s t) |>
  else s.
Definition take_prime (t : Z) (s : pl_sys) : pl_sys :=
  if cpu_of s t =? -1 then
    let s := set_cpu_of t (cpumask_first (pl_available_prime s)) s in
    s <| pl_available_prime := Z.clearbit (pl_available_prime s) (cpu_of s t) |>
  else s.

Definition layout1 (e : pl_env) (t0 t1 t2 : Z) (s : pl_sys) : pl_sys :=
  let s := release_gold e t0 (release_prime e t1 (release_prime e t2 s)) in
  let s := take_prime t0 (take_gold t1 (take_gold t2 s)) in
  s <| pl_prev_config := CONFIG1 |>.

Definition layout2 (e : pl_env) (t0 t1 t2 : Z) (s : pl_sys) : pl_sys :=
  let s := release_gold e t1 (release_gold e t0 (release_prime e t2 s)) in
  let s := take_prime t1 (take_prime t0 (take_gold t2 s)) in
  s <| pl_prev_config := CONFIG2 |>.

(** ** The automatic pipeline *)

(** The CPUs nobody has, after a new choice of tasks. *)
Definition claim_cpu (st : pl_sys * Z) (x : option Z) : pl_sys * Z :=
  let '(s, n) := st in
  match x with
  | None => (s, n)
  | Some h =>
      (if negb (cpu_of s h =? -1) then
         if cpumask_test_cpu (cpu_of s h) (pl_available_gold s)
         then s <| pl_available_gold := Z.clearbit (pl_available_gold s) (cpu_of s h) |>
         else s <| pl_available_prime := Z.clearbit (pl_available_prime s) (cpu_of s h) |>
       else s, n + 1)
  end.

Definition available_cpus (e : pl_env) (s : pl_sys) : pl_sys :=
  let gold := Z.ldiff (Z.land (Z.land (pe_online e) (gold_cpus e)) (pe_cpus e)) (pe_halted e) in
  let prime := Z.ldiff (Z.land (Z.land (pe_online e) (prime_cpus e)) (pe_cpus e)) (pe_halted e) in
  let s := s <| pl_available_gold := gold |> <| pl_available_prime := prime |> in
  let '(s, n) := fold_left claim_cpu (pl_heavy_wts s) (s, 0) in
  s <| pl_have_heavy_list := n |>.

(** The list has no gap below its last task: with a task in the last slot the others are
    there too; the fields of a null pointer are never read. *)
Definition pipeline_rearrange (e : pl_env) (window_start found_topapp : Z) (s : pl_sys) : pl_sys :=
  if found_topapp =? FIND_HEAVY_FAIL then s else
  let s := if (found_topapp =? FIND_HEAVY_SUCCESS) && (pl_single_thread s =? 0) then available_cpus e s else s in
  if bool_decide (slot (pl_heavy_wts s) (MAX_NR_PIPELINE - 1) = None) || (cpumask_weight (prime_cpus e) =? 1)
  then rearrange_heavy e window_start false s else
  if found_topapp =? FIND_HEAVY_WAIT then s else
  match slot (pl_heavy_wts s) 0, slot (pl_heavy_wts s) 1, slot (pl_heavy_wts s) 2 with
  | Some t0, Some t1, Some t2 =>
      if use_config1 e (should_pipeline_pin_special e s) (pl_prev_config s)
           (config1_energy e s t0 t1 t2) (config2_energy e s t0 t1 t2)
      then layout1 e t0 t1 t2 s else layout2 e t0 t1 t2 s
  | _, _, _ => s
  end.

(** ** The manual pipeline *)

Definition cpumask_next_and (n a b : Z) : Z := cpumask_next n (Z.land a b).

(** The next pipeline CPU that is online, in turns. *)
Definition rotate_cpu (e : pl_env) (s : pl_sys) : pl_sys * Z :=
  let assign_cpu := cpumask_next_and (pl_assign_cpu s) (pe_cpus e) (pe_online e) in
  let assign_cpu := if nr_cpus e <=? assign_cpu then cpumask_next_and (-1) (pe_cpus e) (pe_online e) else assign_cpu in
  (s <| pl_assign_cpu := assign_cpu |>, if nr_cpus e <=? assign_cpu then -1 else assign_cpu).

(** One round of the loop: the state, the task on a prime CPU, the one of highest demand
    elsewhere, and that demand. *)
Definition place_manual (e : pl_env) (st : pl_sys * option Z * option Z * Z) (x : option Z)
  : pl_sys * option Z * option Z * Z :=
  let '(s, prime_wts, other_wts, max_demand) := st in
  match x with
  | None => st
  | Some wts =>
      let s := if bool_decide (t_grp (pl_wts s wts) = None) then set_cpu_of wts (-1) s else s in
      let s := if cpu_of s wts =? -1 then let '(s, cpu) := rotate_cpu e s in set_cpu_of wts cpu s else s in
      if cpu_of s wts =? -1 then (s, prime_wts, other_wts, max_demand) else
      if is_max_possible_cluster_cpu (fe_cfg (pe_fit e)) (cpu_of s wts) then (s, Some wts, other_wts, max_demand) else
      if max_demand <? prime_demand e s wts then (s, prime_wts, Some wts, u32 (prime_demand e s wts))
      else (s, prime_wts, other_wts, max_demand)
  end.

(** The placement under the lock: the state and [set_unisolation]. *)
Definition rearrange_manual (e : pl_env) (s : pl_sys) : pl_sys * bool :=
  let '(s, prime_wts, other_wts, _) := fold_left (place_manual e) (pl_pipeline_wts s) (s, None, None, 0) in
  if pl_pipeline_nr s <=? 2 then
    let '(s, prime_wts) :=
      match prime_wts with
      | None => (s, None)
      | Some p =>
          let '(s, worthy) := is_prime_worthy e (Some p) s in
          if worthy then (s, Some p) else let '(s, cpu) := rotate_cpu e s in (set_cpu_of p cpu s, None)
      end in
    match prime_wts with
    | Some _ => (s, true)
    | None =>
        let '(s, worthy) := is_prime_worthy e other_wts s in
        if worthy then (swap_pipeline_with_prime_locked e None other_wts s, true) else (s, false)
    end
  else (swap_pipeline_with_prime_locked e prime_wts other_wts s, true).

Definition rearrange_pipeline_preferred_cpus (e : pl_env) (window_start : Z) (s : pl_sys) : pl_sys :=
  let c := fe_cfg (pe_fit e) in
  if auto_pipeline_wanted e then s else
  if num_sched_clusters c <? 2 then s else
  let '(s, set_unisolation) :=
    if (pl_pipeline_nr s =? 0) || negb (sched_boost_type c =? 0) then (s, false) else
    let '(s, delay) := delay_rearrange e window_start MANUAL_PIPELINE false s in
    if delay then (s, false) else rearrange_manual e s in
  if xorb set_unisolation (pl_last_set_unisolation s)
  then (pipeline_set_unisolation e set_unisolation MANUAL_PIPELINE s) <| pl_last_set_unisolation := set_unisolation |>
  else s.

Definition pipeline_check (e : pl_env) (window_start : Z) (s : pl_sys) : pl_sys * Z :=
  let '(s, found_topapp) := find_heaviest_topapp e window_start s in
  let s := rearrange_pipeline_preferred_cpus e window_start s in
  (pipeline_reset_unisolation_state e s, found_topapp).

(** ** No two tasks share a CPU *)

Module CpusApart.

(** ** Assignments of CPUs

    [mem] are the tasks of the list, [cpu] their CPUs, [gold] and [prime] the CPUs nobody
    has. A task may have no CPU: [-1], or [WALT_NR_CPUS], which [cpumask_first] returns for
    an empty mask. *)
Section Assignment.
Context (G P : Z) (HG : mask_ok G) (HP : mask_ok P) (HGP : Z.land G P = 0).

Definition no_cpu (c : Z) : Prop := c = -1 \/ c = WALT_NR_CPUS.
Definition within (m M : Z) : Prop := forall c, Z.testbit m c = true -> Z.testbit M c = true.

Record apart (mem : list Z) (cpu : Z -> Z) (gold prime : Z) : Prop := mk_apart {
  ap_distinct : forall h k, h ∈ mem -> k ∈ mem -> cpu h = cpu k -> h = k \/ no_cpu (cpu h);
  ap_gold : forall h, h ∈ mem -> Z.testbit gold (cpu h) = false;
  ap_prime : forall h, h ∈ mem -> Z.testbit prime (cpu h) = false;
  ap_gold_in : within gold G;
  ap_prime_in : within prime P
}.

Definition upd (cpu : Z -> Z) (h c : Z) : Z -> Z := fun y => if decide (h = y) then c else cpu y.

Lemma upd_eq cpu h c : upd cpu h c h = c.
Proof. unfold upd. by rewrite decide_True. Qed.
Lemma upd_ne cpu h c y : h <> y -> upd cpu h c y = cpu y.
Proof. intros H. unfold upd. by rewrite decide_False. Qed.

Lemma apart_ext mem cpu cpu' g p :
  apart mem cpu g p -> (forall y, y ∈ mem -> cpu' y = cpu y) -> apart mem cpu' g p.
Proof.
  intros [H1 H2 H3 H4 H5] E. constructor; try done.
  - intros h k Hh Hk. rewrite !E by done. by apply H1.
  - intros h Hh. rewrite E by done. by apply H2.
  - intros h Hh. rewrite E by done. by apply H3.
Qed.

Lemma apart_sub mem mem' cpu g p : apart mem cpu g p -> (forall y, y ∈ mem' -> y ∈ mem) -> apart mem' cpu g p.
Proof. intros [] E. constructor; naive_solver. Qed.

Lemma within_clearbit m M c : within m M -> within (Z.clearbit m c) M.
Proof. intros H d. rewrite clearbit_spec. intros [Hd _]%andb_true_iff. by apply H. Qed.
Lemma within_setbit m M c : 0 <= c -> Z.testbit M c = true -> within m M -> within (Z.setbit m c) M.
Proof. intros Hc HM H d. rewrite setbit_spec by done. intros [->%Z.eqb_eq|Hd]%orb_true_iff; [done|by apply H]. Qed.

Lemma within_mask m M : mask_ok M -> within m M -> mask_ok m.
Proof. intros HM H. apply bits_mask_ok. intros c Hc Hm. apply (mask_bit_is_cpu M c HM). by apply H. Qed.

Lemma gold_prime_apart c : Z.testbit G c = true -> Z.testbit P c = false.
Proof.
  intros H. assert (Z.testbit (Z.land G P) c = false) as E by (by rewrite HGP, Z.bits_0).
  rewrite Z.land_spec, H in E. done.
Qed.

(** A task without a CPU. *)
Lemma apart_none mem cpu g p h c : no_cpu c -> apart mem cpu g p -> apart mem (upd cpu h c) g p.
Proof.
  intros Hc [H1 H2 H3 H4 H5].
  assert (forall m M, mask_ok M -> within m M -> Z.testbit m c = false) as Hbit.
  { intros m M HM Hw. destruct Hc as [->| ->]; [by apply Z.testbit_neg_r|].
    apply mask_high_bit; [by apply (within_mask m M)|done]. }
  constructor; try done.
  - intros x y Hx Hy. destruct (decide (h = x)) as [<-|Hnx]; [rewrite upd_eq; by right|].
    rewrite (upd_ne _ _ _ x) by done. destruct (decide (h = y)) as [<-|Hny].
    + rewrite upd_eq. intros ->. by right.
    + rewrite upd_ne by done. by apply H1.
  - intros x Hx. destruct (decide (h = x)) as [<-|]; [rewrite upd_eq; by apply (Hbit g G)|].
    rewrite upd_ne by done. by apply H2.
  - intros x Hx. destruct (decide (h = x)) as [<-|]; [rewrite upd_eq; by apply (Hbit p P)|].
    rewrite upd_ne by done. by apply H3.
Qed.

(** A task gives up a gold or a prime CPU that nobody else has. *)
Lemma apart_release_gold mem cpu g p h :
  apart mem cpu g p -> h ∈ mem -> Z.testbit G (cpu h) = true -> apart mem (upd cpu h (-1)) (Z.setbit g (cpu h)) p.
Proof.
  intros H Hh Hc. pose proof (mask_bit_is_cpu G _ HG Hc) as Hcpu. unfold is_cpu in Hcpu.
  destruct (apart_none mem cpu g p h (-1) (or_introl eq_refl) H) as [A1 A2 A3 A4 A5].
  constructor; try done.
  - intros x Hx. rewrite setbit_spec by lia. rewrite A2 by done. rewrite orb_false_r. apply Z.eqb_neq.
    destruct (decide (h = x)) as [<-|Hne]; [rewrite upd_eq; lia|]. rewrite upd_ne by done. intros E.
    destruct (ap_distinct _ _ _ _ H h x Hh Hx E) as [?|[?|?]]; [done|lia|lia].
  - apply within_setbit; [lia|done|done].
Qed.

(** A task gets a CPU that is available. *)
Lemma apart_take_gold mem cpu g p h c :
  apart mem cpu g p -> Z.testbit g c = true -> apart mem (upd cpu h c) (Z.clearbit g c) p.
Proof.
  intros [H1 H2 H3 H4 H5] Hc. constructor.
  - intros x y Hx Hy. destruct (decide (h = x)) as [<-|Hnx], (decide (h = y)) as [<-|Hny].
    + by left.
    + rewrite upd_eq, upd_ne by done. intros ->. by rewrite H2 in Hc.
    + rewrite upd_eq, upd_ne by done. intros <-. by rewrite H2 in Hc.
    + rewrite !upd_ne by done. by apply H1.
  - intros x Hx. rewrite clearbit_spec. destruct (decide (h = x)) as [<-|].
    + rewrite upd_eq, Z.eqb_refl. apply andb_false_r.
    + rewrite upd_ne by done. by rewrite H2.
  - intros x Hx. destruct (decide (h = x)) as [<-|].
    + rewrite upd_eq. destruct (Z.testbit p c) eqn:E; [|done]. apply H4, gold_prime_apart in Hc.
      apply H5 in E. by rewrite E in Hc.
    + rewrite upd_ne by done. by apply H3.
  - by apply within_clearbit.
  - done.
Qed.

Lemma apart_clear_gold mem cpu g p c : apart mem cpu g p -> apart mem cpu (Z.clearbit g c) p.
Proof.
  intros []. constructor; try done; [|by apply within_clearbit].
  intros h Hh. rewrite clearbit_spec, ap_gold0 by done. done.
Qed.

(** Two tasks exchange their CPUs. *)
Lemma apart_swap mem cpu g p a b :
  apart mem cpu g p -> a ∈ mem -> b ∈ mem -> apart mem (upd (upd cpu a (cpu b)) b (cpu a)) g p.
Proof.
  intros [H1 H2 H3 H4 H5] Ha Hb.
  pose (f := fun x => if decide (b = x) then a else if decide (a = x) then b else x).
  assert (forall x, upd (upd cpu a (cpu b)) b (cpu a) x = cpu (f x)) as E.
  { intros x. unfold upd, f. repeat case_decide; congruence. }
  assert (forall x, x ∈ mem -> f x ∈ mem) as Hf by (intros x Hx; unfold f; by repeat case_decide).
  assert (forall x y, f x = f y -> x = y) as Hinj by (intros x y; unfold f; repeat case_decide; congruence).
  constructor; try done.
  - intros h k Hh Hk. rewrite !E. intros Hc. destruct (H1 (f h) (f k) (Hf h Hh) (Hf k Hk) Hc) as [?|]; [left|by right].
    by apply Hinj.
  - intros h Hh. rewrite E. by apply H2, Hf.
  - intros h Hh. rewrite E. by apply H3, Hf.
Qed.

End Assignment.

(** Gold and prime CPUs change roles. *)
Lemma apart_sym G P mem cpu g p : apart G P mem cpu g p -> apart P G mem cpu p g.
Proof. intros []. by constructor. Qed.

Lemma apart_release_prime G P mem cpu g p h :
  mask_ok G -> mask_ok P -> apart G P mem cpu g p -> h ∈ mem -> Z.testbit P (cpu h) = true ->
  apart G P mem (upd cpu h (-1)) g (Z.setbit p (cpu h)).
Proof. intros HG HP H Hh Hc. apply apart_sym, apart_release_gold; try done. by apply apart_sym. Qed.

Lemma apart_take_prime G P mem cpu g p h c :
  Z.land G P = 0 -> apart G P mem cpu g p -> Z.testbit p c = true -> apart G P mem (upd cpu h c) g (Z.clearbit p c).
Proof. intros HGP H Hc. apply apart_sym, apart_take_gold; [by rewrite Z.land_comm|by apply apart_sym|done]. Qed.

(** ** Moves

    Steps that change the CPUs of tasks of the list only, and keep them apart. *)
Section Moves.
Context (G P : Z) (HG : mask_ok G) (HP : mask_ok P) (HGP : Z.land G P = 0).

Definition apart_in (s : pl_sys) : Prop :=
  apart G P (members (pl_heavy_wts s)) (cpu_of s) (pl_available_gold s) (pl_available_prime s).

Record moves (s s' : pl_sys) : Prop := mk_moves {
  mv_list : pl_heavy_wts s' = pl_heavy_wts s;
  mv_bits : forall y, t_low_latency (pl_wts s' y) = t_low_latency (pl_wts s y);
  mv_rest : forall y, y ∉ members (pl_heavy_wts s) -> cpu_of s' y = cpu_of s y;
  mv_apart : apart_in s -> apart_in s'
}.

#[local] Instance moves_preorder : PreOrder moves.
Proof.
  split; [by constructor|]. intros a b c [A1 A2 A3 A4] [B1 B2 B3 B4]. constructor.
  - congruence.
  - intros y. by rewrite B2.
  - intros y Hy. rewrite B3 by (by rewrite A1). by apply A3.
  - auto.
Qed.

(** A step that does not touch what the tasks or the masks say. *)
Lemma moves_frame s s' :
  pl_heavy_wts s' = pl_heavy_wts s -> pl_available_gold s' = pl_available_gold s ->
  pl_available_prime s' = pl_available_prime s ->
  (forall y, cpu_of s' y = cpu_of s y /\ t_low_latency (pl_wts s' y) = t_low_latency (pl_wts s y)) -> moves s s'.
Proof.
  intros E1 E2 E3 E4. constructor; [done|by intros; apply E4|by intros; apply E4|].
  unfold apart_in. rewrite E1, E2, E3. intros H. apply (apart_ext _ _ _ (cpu_of s)); [done|]. intros y _. apply E4.
Qed.

(** A new CPU for one task, with the masks [g] and [p] afterwards. *)
Lemma moves_assign s s' h c g p :
  h ∈ members (pl_heavy_wts s) ->
  pl_heavy_wts s' = pl_heavy_wts s -> pl_available_gold s' = g -> pl_available_prime s' = p ->
  (forall y, pl_wts s' y = pl_wts (set_cpu_of h c s) y) ->
  (apart_in s -> apart G P (members (pl_heavy_wts s)) (upd (cpu_of s) h c) g p) -> moves s s'.
Proof.
  intros Hh E1 E2 E3 E4 Ha.
  assert (forall y, cpu_of s' y = upd (cpu_of s) h c y /\ t_low_latency (pl_wts s' y) = t_low_latency (pl_wts s y)) as E5.
  { intros y. unfold cpu_of, upd. rewrite E4. unfold set_cpu_of, on_task. cbn. destruct (decide (h = y)) as [<-|Hne].
    - by rewrite fn_lookup_insert.
    - by rewrite fn_lookup_insert_ne. }
  constructor; [done|intros y; apply E5| |].
  - intros y Hy. rewrite (proj1 (E5 y)). apply upd_ne. by intros ->.
  - intros H. unfold apart_in. rewrite E1, E2, E3. apply (apart_ext _ _ _ (upd (cpu_of s) h c)); [by apply Ha|].
    intros y _. apply E5.
Qed.

Lemma first_bit m : cpumask_first m < WALT_NR_CPUS -> Z.testbit m (cpumask_first m) = true.
Proof.
  unfold cpumask_first. intros H. destruct (find_next_bit_spec m WALT_NR_CPUS 0) as (_ & E & _); [unfold WALT_NR_CPUS; lia|].
  by apply E.
Qed.
Lemma first_bound m : 0 <= cpumask_first m <= WALT_NR_CPUS.
Proof. unfold cpumask_first. destruct (find_next_bit_spec m WALT_NR_CPUS 0) as (E & _); [unfold WALT_NR_CPUS; lia|]. lia. Qed.

Lemma set_cpu_of_same h c s : cpu_of (set_cpu_of h c s) h = c.
Proof. unfold cpu_of, set_cpu_of, on_task. cbn. by rewrite fn_lookup_insert. Qed.

Section Env.
Context (e : pl_env) (Eg : gold_cpus e = G) (Ep : prime_cpus e = P) (Hnr : nr_cpus e <= WALT_NR_CPUS).

Lemma moves_release_gold h s : h ∈ members (pl_heavy_wts s) -> moves s (release_gold e h s).
Proof.
  intros Hh. unfold release_gold. case_if; [|done]. apply andb_true_iff in Heqb as [_ Hb].
  apply (moves_assign s _ h (-1) (Z.setbit (pl_available_gold s) (cpu_of s h)) (pl_available_prime s)); try done.
  intros H. apply apart_release_gold; try done. by rewrite <- Eg.
Qed.
Lemma moves_release_prime h s : h ∈ members (pl_heavy_wts s) -> moves s (release_prime e h s).
Proof.
  intros Hh. unfold release_prime. case_if; [|done]. apply andb_true_iff in Heqb as [_ Hb].
  apply (moves_assign s _ h (-1) (pl_available_gold s) (Z.setbit (pl_available_prime s) (cpu_of s h))); try done.
  intros H. apply apart_release_prime; try done. by rewrite <- Ep.
Qed.

Lemma moves_take_gold h s : h ∈ members (pl_heavy_wts s) -> moves s (take_gold h s).
Proof.
  intros Hh. unfold take_gold. case_if; [|done]. cbv zeta. rewrite set_cpu_of_same.
  set (c := cpumask_first (pl_available_gold s)).
  apply (moves_assign s _ h c (Z.clearbit (pl_available_gold s) c) (pl_available_prime s)); try done.
  intros H. destruct (Z_lt_le_dec c WALT_NR_CPUS) as [Hc|Hc].
  - apply apart_take_gold; [done|done|by apply first_bit].
  - apply apart_clear_gold, apart_none; [done|done| |done]. right. pose proof (first_bound (pl_available_gold s)). unfold c in *. lia.
Qed.
Lemma moves_take_prime h s : h ∈ members (pl_heavy_wts s) -> moves s (take_prime h s).
Proof.
  intros Hh. unfold take_prime. case_if; [|done]. cbv zeta. rewrite set_cpu_of_same.
  set (c := cpumask_first (pl_available_prime s)).
  apply (moves_assign s _ h c (pl_available_gold s) (Z.clearbit (pl_available_prime s) c)); try done.
  intros H. destruct (Z_lt_le_dec c WALT_NR_CPUS) as [Hc|Hc].
  - apply apart_take_prime; [done|done|by apply first_bit].
  - apply apart_sym, apart_clear_gold, apart_none; [done|done| |by apply apart_sym]. right.
    pose proof (first_bound (pl_available_prime s)). unfold c in *. lia.
Qed.

Lemma moves_then s u f t :
  moves s u -> t ∈ members (pl_heavy_wts s) -> (forall v, t ∈ members (pl_heavy_wts v) -> moves v (f v)) -> moves s (f u).
Proof. intros Hu Ht Hf. etransitivity; [exact Hu|]. apply Hf. by rewrite (mv_list _ _ Hu). Qed.

Ltac one_move t :=
  first [ eapply (moves_then _ _ (take_prime t) t) | eapply (moves_then _ _ (take_gold t) t)
        | eapply (moves_then _ _ (release_prime e t) t) | eapply (moves_then _ _ (release_gold e t) t) ];
  [|assumption|intros; solve [by apply moves_take_prime|by apply moves_take_gold|by apply moves_release_prime|by apply moves_release_gold]].

Lemma moves_layout1 t0 t1 t2 s :
  t0 ∈ members (pl_heavy_wts s) -> t1 ∈ members (pl_heavy_wts s) -> t2 ∈ members (pl_heavy_wts s) ->
  moves s (layout1 e t0 t1 t2 s).
Proof.
  intros H0 H1 H2. unfold layout1. cbv zeta.
  eassert (moves s (take_prime t0 _)) as H; [|etransitivity; [exact H|by apply moves_frame]].
  one_move t0. one_move t1. one_move t2. one_move t0. one_move t1. one_move t2. done.
Qed.

Lemma moves_layout2 t0 t1 t2 s :
  t0 ∈ members (pl_heavy_wts s) -> t1 ∈ members (pl_heavy_wts s) -> t2 ∈ members (pl_heavy_wts s) ->
  moves s (layout2 e t0 t1 t2 s).
Proof.
  intros H0 H1 H2. unfold layout2. cbv zeta.
  eassert (moves s (take_prime t1 _)) as H; [|etransitivity; [exact H|by apply moves_frame]].
  one_move t1. one_move t0. one_move t2. one_move t1. one_move t0. one_move t2. done.
Qed.

Lemma moves_worthy x s : moves s (is_prime_worthy e x s).1.
Proof.
  unfold is_prime_worthy. destruct x as [h|]; [|done]. cbv zeta. case_if; [done|].
  unfold task_fits_max, per_task_boost. cbn [fst]. set (fe := pl_fit e s).
  apply moves_frame; try done. intros y. unfold cpu_of, on_task. cbn [fst pl_wts].
  assert (t_pipeline_cpu (expire_boost fe (pl_wts s h)) = t_pipeline_cpu (pl_wts s h) /\
          t_low_latency (expire_boost fe (pl_wts s h)) = t_low_latency (pl_wts s h)) as E.
  { unfold expire_boost. by case_if. }
  cbn. destruct (decide (h = y)) as [<-|Hne]; [by rewrite fn_lookup_insert|by rewrite fn_lookup_insert_ne].
Qed.

Lemma moves_swap p o s :
  p ∈ members (pl_heavy_wts s) -> o ∈ members (pl_heavy_wts s) ->
  moves s (set_cpu_of p (cpu_of s o) (set_cpu_of o (cpu_of s p) s)).
Proof.
  intros Hp Ho.
  assert (forall y, cpu_of (set_cpu_of p (cpu_of s o) (set_cpu_of o (cpu_of s p) s)) y =
                    upd (upd (cpu_of s) o (cpu_of s p)) p (cpu_of s o) y /\
            t_low_latency (pl_wts (set_cpu_of p (cpu_of s o) (set_cpu_of o (cpu_of s p) s)) y) = t_low_latency (pl_wts s y)) as E.
  { intros y. unfold cpu_of, upd, set_cpu_of, on_task. cbn. unfold insert, fn_insert. by repeat case_decide; subst. }
  constructor; [done|intros y; apply E| |].
  - intros y Hy. rewrite (proj1 (E y)). rewrite !upd_ne; [done|by intros ->|by intros ->].
  - intros H. unfold apart_in. apply (apart_ext _ _ _ (upd (upd (cpu_of s) o (cpu_of s p)) p (cpu_of s o))); [|intros y _; apply E].
    by apply apart_swap.
Qed.

Lemma moves_swap_with_prime prime other s :
  (forall h, prime = Some h \/ other = Some h -> h ∈ members (pl_heavy_wts s)) -> pl_have_heavy_list s <> 0 ->
  moves s (swap_pipeline_with_prime_locked e prime other s).
Proof.
  intros Hin Hheavy. unfold swap_pipeline_with_prime_locked.
  destruct prime as [p|], other as [o|]; try done.
  - case_if; [|done]. apply moves_swap; apply Hin; by auto.
  - apply Z.eqb_neq in Hheavy as ->. cbn [negb]. set (c := cpumask_first _). case_if; [|done]. cbv zeta.
    apply (moves_assign s _ o c (Z.clearbit (pl_available_gold s) (cpu_of s o)) (Z.clearbit (pl_available_prime s) c)); try done.
    { apply Hin. by right. }
    intros H. apply apart_clear_gold, apart_take_prime; [done|done|]. apply first_bit. unfold c in *. lia.
Qed.

Lemma find_prime_and_max_in s l h :
  let r := find_prime_and_max_tasks e s l in (r.1 = Some h \/ r.2 = Some h) -> h ∈ members l.
Proof.
  unfold find_prime_and_max_tasks.
  match goal with |- context [fold_left ?f l ?x] =>
    assert (forall (a b : option Z) (n : Z), let r := fold_left f l (a, b, n) in
      (r.1.1 = Some h \/ r.1.2 = Some h) -> h ∈ members l \/ a = Some h \/ b = Some h) as H end.
  { induction l as [|x l IH]; intros a b n; [by right|]. cbn [fold_left]. destruct x as [t|]; [|apply IH].
    rewrite members_some. repeat case_if; intros Hr; apply IH in Hr; clear IH; set_solver. }
  specialize (H None None 0). cbv zeta in H |- *. destruct (fold_left _ l _) as [[a b] n]. cbn in *. naive_solver.
Qed.

(** One round of [move_heavy] for a task of the list. *)
Lemma moves_to_gold h s :
  h ∈ members (pl_heavy_wts s) -> cpumask_first (pl_available_gold s) < nr_cpus e ->
  let c := cpumask_first (pl_available_gold s) in
  moves s ((set_cpu_of h c s) <| pl_available_gold := Z.clearbit (pl_available_gold s) c |>).
Proof.
  intros Hh Hc c. apply (moves_assign s _ h c (Z.clearbit (pl_available_gold s) c) (pl_available_prime s)); try done.
  intros H. apply apart_take_gold; [done|done|]. apply first_bit. unfold c. lia.
Qed.

Lemma moves_demote h s :
  h ∈ members (pl_heavy_wts s) -> cpumask_first (pl_available_gold s) < nr_cpus e -> Z.testbit P (cpu_of s h) = true ->
  let c := cpumask_first (pl_available_gold s) in
  moves s ((set_cpu_of h c (s <| pl_available_prime := Z.setbit (pl_available_prime s) (cpu_of s h) |>))
             <| pl_available_gold := Z.clearbit (pl_available_gold s) c |>).
Proof.
  intros Hh Hc Hp c.
  apply (moves_assign s _ h c (Z.clearbit (pl_available_gold s) c) (Z.setbit (pl_available_prime s) (cpu_of s h))); try done.
  intros H. apply (apart_ext _ _ _ (upd (upd (cpu_of s) h (-1)) h c)).
  - apply apart_take_gold; [done| |apply first_bit; unfold c; lia]. by apply apart_release_prime.
  - intros y _. unfold upd. by repeat case_decide.
Qed.

Lemma moves_promote h s :
  h ∈ members (pl_heavy_wts s) -> cpumask_first (pl_available_prime s) < nr_cpus e -> Z.testbit G (cpu_of s h) = true ->
  let c := cpumask_first (pl_available_prime s) in
  moves s ((set_cpu_of h c (s <| pl_available_gold := Z.setbit (pl_available_gold s) (cpu_of s h) |>))
             <| pl_available_prime := Z.clearbit (pl_available_prime s) c |>).
Proof.
  intros Hh Hc Hp c.
  apply (moves_assign s _ h c (Z.setbit (pl_available_gold s) (cpu_of s h)) (Z.clearbit (pl_available_prime s) c)); try done.
  intros H. apply (apart_ext _ _ _ (upd (upd (cpu_of s) h (-1)) h c)).
  - apply apart_take_prime; [done| |apply first_bit; unfold c; lia]. by apply apart_release_gold.
  - intros y _. unfold upd. by repeat case_decide.
Qed.

Lemma worthy_cpu x s y : cpu_of (is_prime_worthy e x s).1 y = cpu_of s y.
Proof.
  unfold is_prime_worthy. destruct x as [h|]; [|done]. cbv zeta. case_if; [done|].
  unfold task_fits_max, per_task_boost. cbn [fst]. unfold cpu_of, on_task. cbn.
  destruct (decide (h = y)) as [<-|Hne]; [rewrite fn_lookup_insert|by rewrite fn_lookup_insert_ne].
  unfold expire_boost. by case_if.
Qed.

Lemma moves_move_heavy st x :
  (forall h, x = Some h -> h ∈ members (pl_heavy_wts st.1)) -> moves st.1 (move_heavy e st x).1.
Proof.
  destruct st as [s r]. cbn [fst]. intros Hx. unfold move_heavy. destruct x as [h|]; [|done]. cbv zeta.
  specialize (Hx h eq_refl). case_if.
  { destruct (Z.ltb_spec (cpumask_first (pl_available_gold s)) (nr_cpus e)) as [Hc|]; [|done].
    exact (moves_to_gold h s Hx Hc). }
  set (st1 := if cpumask_test_cpu (cpu_of s h) (prime_cpus e) then is_prime_worthy e (Some h) s else (s, true)).
  assert (moves s st1.1 /\ cpu_of st1.1 h = cpu_of s h) as [H1 C1].
  { unfold st1. case_if; [|done]. split; [apply moves_worthy|apply worthy_cpu]. }
  clearbody st1. destruct st1 as [s1 worthy]. cbn [fst] in H1, C1.
  assert (h ∈ members (pl_heavy_wts s1)) as Hx1 by (by rewrite (mv_list _ _ H1)).
  destruct (cpumask_test_cpu (cpu_of s h) (prime_cpus e) && negb worthy) eqn:Ed.
  { apply andb_true_iff in Ed as [Ed _]. rewrite Ep in Ed. rewrite <- C1 in Ed |- *.
    destruct (Z.ltb_spec (cpumask_first (pl_available_gold s1)) (nr_cpus e)) as [Hc|]; [|exact H1].
    etransitivity; [exact H1|]. exact (moves_demote h s1 Hx1 Hc Ed). }
  destruct (cpumask_test_cpu (cpu_of s h) (gold_cpus e) && negb r) eqn:Eu; [|exact H1].
  apply andb_true_iff in Eu as [Eu _]. rewrite Eg in Eu.
  pose proof (moves_worthy (Some h) s1) as H2. pose proof (worthy_cpu (Some h) s1 h) as C2.
  destruct (is_prime_worthy e (Some h) s1) as [s2 worthy2]. cbn [fst] in H2, C2.
  assert (moves s s2) as H3 by (by etransitivity). destruct worthy2; [|exact H3].
  rewrite <- C1, <- C2 in Eu |- *. destruct (Z.ltb_spec (cpumask_first (pl_available_prime s2)) (nr_cpus e)) as [Hc|]; [|exact H3].
  etransitivity; [exact H3|]. exact (moves_promote h s2 ltac:(by rewrite (mv_list _ _ H3)) Hc Eu).
Qed.

Lemma moves_move_all l st :
  (forall h, h ∈ members l -> h ∈ members (pl_heavy_wts st.1)) -> moves st.1 (fold_left (move_heavy e) l st).1.
Proof.
  revert st. induction l as [|x l IH]; intros st Hl; [done|]. cbn [fold_left].
  assert (moves st.1 (move_heavy e st x).1) as H1.
  { apply moves_move_heavy. intros h ->. apply Hl. rewrite members_some. left. }
  etransitivity; [exact H1|]. apply IH. intros h Hh. rewrite (mv_list _ _ H1). apply Hl.
  destruct x; [rewrite members_some; by right|done].
Qed.

Lemma moves_rearrange_heavy ws force s : moves s (rearrange_heavy e ws force s).
Proof.
  unfold rearrange_heavy. cbv zeta. do 4 (case_if; [done|]). destruct (Z.leb_spec (pl_have_heavy_list s) 2) as [|Hh].
  { by apply (moves_move_all _ (s, false)). }
  case_if; [done|]. set (sd := (delay_rearrange e ws AUTO_PIPELINE force s)).
  assert (moves s sd.1 /\ pl_have_heavy_list sd.1 = pl_have_heavy_list s) as [H1 E1].
  { unfold sd, delay_rearrange. cbv zeta. case_if; [done|]. split; [by apply moves_frame|done]. }
  clearbody sd. destruct sd as [s1 delay]. cbn [fst] in H1, E1. destruct delay; [exact H1|]. case_if; [exact H1|].
  pose proof (find_prime_and_max_in s1 (pl_heavy_wts s1)) as Hin.
  destruct (find_prime_and_max_tasks e s1 (pl_heavy_wts s1)) as [prime other]. cbn [fst snd] in Hin.
  set (b := _ || _). destruct b; [|exact H1]. etransitivity; [exact H1|]. apply moves_swap_with_prime; [apply Hin|lia].
Qed.

(** After the claims the masks hold CPUs that no task of the list has. *)
Lemma claim_all l st :
  within (pl_available_gold st.1) G -> within (pl_available_prime st.1) P ->
  let s' := (fold_left claim_cpu l st).1 in
  pl_heavy_wts s' = pl_heavy_wts st.1 /\ pl_wts s' = pl_wts st.1 /\
  within (pl_available_gold s') (pl_available_gold st.1) /\ within (pl_available_prime s') (pl_available_prime st.1) /\
  forall h, h ∈ members l -> Z.testbit (pl_available_gold s') (cpu_of st.1 h) = false /\
                             Z.testbit (pl_available_prime s') (cpu_of st.1 h) = false.
Proof.
  revert st. induction l as [|x l IH]; intros [s n] Wg Wp; cbn [fst] in *.
  { cbn. split; [done|]. split; [done|]. split; [by intros c|]. split; [by intros c|]. intros h []%not_elem_of_nil. }
  destruct x as [h|]; [|exact (IH (s, n) Wg Wp)]. cbn [fold_left].
  set (st1 := claim_cpu (s, n) (Some h)).
  assert (pl_heavy_wts st1.1 = pl_heavy_wts s /\ pl_wts st1.1 = pl_wts s /\
    within (pl_available_gold st1.1) (pl_available_gold s) /\ within (pl_available_prime st1.1) (pl_available_prime s) /\
    Z.testbit (pl_available_gold st1.1) (cpu_of s h) = false /\ Z.testbit (pl_available_prime st1.1) (cpu_of s h) = false)
    as (E1 & E2 & E3 & E4 & E5 & E6).
  { unfold st1, claim_cpu. cbn [fst]. destruct (Z.eqb_spec (cpu_of s h) (-1)) as [E|E]; cbn [negb].
    - rewrite E. split_and!; first [done|by intros c Hc|apply Z.testbit_neg_r; lia].
    - destruct (cpumask_test_cpu (cpu_of s h) (pl_available_gold s)) eqn:Et; cbn; split_and!; try first [done|by intros c Hc].
      + apply within_clearbit. by intros c.
      + rewrite clearbit_spec, Z.eqb_refl. apply andb_false_r.
      + destruct (Z.testbit (pl_available_prime s) (cpu_of s h)) eqn:E'; [|done].
        apply Wg, (gold_prime_apart G P HGP) in Et. apply Wp in E'. congruence.
      + apply within_clearbit. by intros c.
      + rewrite clearbit_spec, Z.eqb_refl. apply andb_false_r. }
  clearbody st1. destruct (IH st1) as (I1 & I2 & I3 & I4 & I5).
  { intros c Hc. by apply Wg, E3. } { intros c Hc. by apply Wp, E4. }
  assert (forall y, cpu_of st1.1 y = cpu_of s y) as Ec by (intros y; unfold cpu_of; by rewrite E2).
  split_and!; [congruence|congruence|intros c Hc; by apply E3, I3|intros c Hc; by apply E4, I4|].
  intros y. rewrite members_some, elem_of_cons. intros [->|Hy]; [|rewrite <- Ec; by apply I5]. split.
  - apply not_true_is_false. intros E%I3. cbn [fst] in E. congruence.
  - apply not_true_is_false. intros E%I4. cbn [fst] in E. congruence.
Qed.

Lemma moves_available s : moves s (available_cpus e s).
Proof.
  unfold available_cpus. cbv zeta. set (s1 := s <| pl_available_gold := _ |> <| pl_available_prime := _ |>).
  assert (within (pl_available_gold s1) G) as Wg.
  { intros c. cbn. rewrite Z.ldiff_spec, !Z.land_spec, Eg. by intros [[[_ ?]%andb_true_iff _]%andb_true_iff _]%andb_true_iff. }
  assert (within (pl_available_prime s1) P) as Wp.
  { intros c. cbn. rewrite Z.ldiff_spec, !Z.land_spec, Ep. by intros [[[_ ?]%andb_true_iff _]%andb_true_iff _]%andb_true_iff. }
  destruct (claim_all (pl_heavy_wts s1) (s1, 0) Wg Wp) as (E1 & E2 & E3 & E4 & E5).
  destruct (fold_left claim_cpu (pl_heavy_wts s1) (s1, 0)) as [s2 n]. cbn [fst] in *.
  change (pl_heavy_wts s1) with (pl_heavy_wts s) in *. change (pl_wts s1) with (pl_wts s) in E2.
  assert (forall y, cpu_of s2 y = cpu_of s y) as Ec by (intros y; unfold cpu_of; by rewrite E2).
  constructor; cbn.
  - done.
  - intros y. by rewrite E2.
  - intros y _. apply Ec.
  - intros [H1 _ _ _ _]. unfold apart_in. cbn. rewrite E1. constructor.
    + intros h k Hh Hk. change (cpu_of s2 h = cpu_of s2 k -> h = k \/ no_cpu (cpu_of s2 h)). rewrite !Ec. by apply H1.
    + intros h Hh. change (Z.testbit (pl_available_gold s2) (cpu_of s2 h) = false). rewrite Ec. by apply E5.
    + intros h Hh. change (Z.testbit (pl_available_prime s2) (cpu_of s2 h) = false). rewrite Ec. by apply E5.
    + intros c Hc. by apply Wg, E3.
    + intros c Hc. by apply Wp, E4.
Qed.

Lemma moves_rearrange ws found s :
  length (pl_heavy_wts s) = Z.to_nat MAX_NR_PIPELINE -> moves s (pipeline_rearrange e ws found s).
Proof.
  intros Hl. unfold pipeline_rearrange. cbv zeta. case_if; [done|].
  set (s1 := if (found =? FIND_HEAVY_SUCCESS) && (pl_single_thread s =? 0) then available_cpus e s else s).
  assert (moves s s1) as H1 by (unfold s1; case_if; [apply moves_available|done]). clearbody s1.
  assert (moves s1 (rearrange_heavy e ws false s1)) as H2 by apply moves_rearrange_heavy.
  assert (length (pl_heavy_wts s1) = 3%nat) as Hl1 by (by rewrite (mv_list _ _ H1)).
  set (b1 := bool_decide _ || _). destruct b1; [by etransitivity|]. case_if; [done|].
  destruct (slot (pl_heavy_wts s1) 0) as [t0|] eqn:E0; [|done]. destruct (slot (pl_heavy_wts s1) 1) as [t1|] eqn:E1; [|done].
  destruct (slot (pl_heavy_wts s1) 2) as [t2|] eqn:E2; [|done].
  assert (forall i t, 0 <= i < 3 -> slot (pl_heavy_wts s1) i = Some t -> t ∈ members (pl_heavy_wts s1)) as Hin.
  { intros i t Hi E. apply elem_of_slots. exists i. split; [lia|done]. }
  assert (t0 ∈ members (pl_heavy_wts s1)) by (apply (Hin 0); [lia|done]).
  assert (t1 ∈ members (pl_heavy_wts s1)) by (apply (Hin 1); [lia|done]).
  assert (t2 ∈ members (pl_heavy_wts s1)) by (apply (Hin 2); [lia|done]).
  etransitivity; [exact H1|]. case_if; [by apply moves_layout1|by apply moves_layout2].
Qed.

End Env.
End Moves.

(** ** Runs of the automatic pipeline *)

Section Runs.
Context (G P : Z) (HG : mask_ok G) (HP : mask_ok P) (HGP : Z.land G P = 0).

(** The environment of a step: halted and online CPUs, the group, demands and tunables may
    change from step to step, the clusters do not. *)
Record env_ok (e : pl_env) : Prop := mk_env_ok {
  eo_gold : gold_cpus e = G;
  eo_prime : prime_cpus e = P;
  eo_nr : nr_cpus e <= WALT_NR_CPUS;
  eo_enabled : pe_disabled e = false;
  eo_sort : forall cmp l, pe_sort e cmp l ≡ₚ l;
  eo_group : forall tasks, pe_grp e = Some tasks -> NoDup tasks
}.

Record run_ok (s : pl_sys) : Prop := mk_run_ok {
  ro_length : length (pl_heavy_wts s) = Z.to_nat MAX_NR_PIPELINE;
  ro_nodup : NoDup (members (pl_heavy_wts s));
  ro_bits : forall h, h ∈ members (pl_heavy_wts s) -> HeavyChoice.heavy_bit (pl_wts s h) = true;
  ro_rest : forall h, h ∉ members (pl_heavy_wts s) -> cpu_of s h = -1;
  ro_apart : apart_in G P s
}.

(** The choice of tasks, the assignment of CPUs, the death of a task (the next task at its
    address starts without a CPU, as [__init_task_load] sets it up), the switch to one
    pinned task, the named task, and what the rest of the scheduler does to tasks. *)
Inductive step (s : pl_sys) : pl_sys -> Prop :=
| step_find e ws : env_ok e -> step s (find_heaviest_topapp e ws s).1
| step_rearrange e ws found : env_ok e -> step s (pipeline_rearrange e ws found s)
| step_dead e p : env_ok e -> step s (set_cpu_of p (-1) (walt_task_dead e p s))
| step_single e val : env_ok e -> step s (walt_configure_single_thread_pipeline e val s)
| step_special p : step s (set_special_task p s)
| step_no_special : step s (remove_special_task s)
| step_tasks s' :
    pl_heavy_wts s' = pl_heavy_wts s -> pl_available_gold s' = pl_available_gold s ->
    pl_available_prime s' = pl_available_prime s ->
    (forall y, cpu_of s' y = cpu_of s y) ->
    (forall y, HeavyChoice.heavy_bit (pl_wts s' y) = HeavyChoice.heavy_bit (pl_wts s y)) -> step s s'.

Lemma run_ok_moves s s' : run_ok s -> moves G P s s' -> run_ok s'.
Proof.
  intros [H1 H2 H3 H4 H5] [M1 M2 M3 M4]. constructor; rewrite ?M1; try done.
  - intros h Hh. unfold HeavyChoice.heavy_bit. rewrite M2. by apply H3.
  - intros h Hh. rewrite M3 by done. by apply H4.
  - by apply M4.
Qed.

(** The list shrinks or changes, tasks keep their CPU or give it up. *)
Lemma run_ok_list s s' :
  run_ok s -> length (pl_heavy_wts s') = Z.to_nat MAX_NR_PIPELINE -> NoDup (members (pl_heavy_wts s')) ->
  (forall h, h ∈ members (pl_heavy_wts s') -> HeavyChoice.heavy_bit (pl_wts s' h) = true) ->
  pl_available_gold s' = pl_available_gold s -> pl_available_prime s' = pl_available_prime s ->
  (forall y, cpu_of s' y = cpu_of s y \/ cpu_of s' y = -1) ->
  (forall y, y ∉ members (pl_heavy_wts s') -> y ∈ members (pl_heavy_wts s) -> cpu_of s' y = -1) -> run_ok s'.
Proof.
  intros [H1 H2 H3 H4 H5] L1 L2 L3 E1 E2 Hk Hgone. constructor; try done.
  - intros h Hh. destruct (decide (h ∈ members (pl_heavy_wts s))) as [Hin|Hout]; [by apply Hgone|].
    destruct (Hk h) as [->|]; [by apply H4|done].
  - assert (forall h, cpu_of s' h <> -1 -> h ∈ members (pl_heavy_wts s) /\ cpu_of s' h = cpu_of s h) as Hold.
    { intros h Hne. destruct (Hk h) as [E|]; [|done]. split; [|done].
      destruct (decide (h ∈ members (pl_heavy_wts s))) as [|Hout]; [done|]. rewrite E, H4 in Hne by done. done. }
    destruct H5 as [A1 A2 A3 A4 A5]. unfold apart_in. rewrite E1, E2. constructor; try done.
    + intros h k Hh Hkk E. destruct (Z.eq_dec (cpu_of s' h) (-1)) as [Hm|Hm]; [right; by left|].
      destruct (Hold h Hm) as [Ih Eh]. destruct (Hold k) as [Ik Ek]; [by rewrite <- E|]. rewrite Eh.
      apply A1; [done|done|congruence].
    + intros h Hh. destruct (Z.eq_dec (cpu_of s' h) (-1)) as [->|Hm]; [apply Z.testbit_neg_r; lia|].
      destruct (Hold h Hm) as [Ih ->]. by apply A2.
    + intros h Hh. destruct (Z.eq_dec (cpu_of s' h) (-1)) as [->|Hm]; [apply Z.testbit_neg_r; lia|].
      destruct (Hold h Hm) as [Ih ->]. by apply A3.
Qed.

Lemma clear_heavy_fold l s y :
  cpu_of (fold_left (fun s x => match x with
     | Some h => on_task h (fun t => (clear_low_latency WALT_LOW_LATENCY_HEAVY_BIT t) <| t_pipeline_cpu := -1 |>) s
     | None => s end) l s) y = (if bool_decide (y ∈ members l) then -1 else cpu_of s y).
Proof.
  revert s. induction l as [|x l IH]; intros s; cbn [fold_left]; [by rewrite bool_decide_false by apply not_elem_of_nil|].
  destruct x as [h|]; [|apply IH]. rewrite IH, members_some. unfold cpu_of, on_task. cbn.
  destruct (decide (h = y)) as [<-|Hne].
  - rewrite fn_lookup_insert. rewrite (bool_decide_true (h ∈ h :: members l)) by left. by case_if.
  - rewrite fn_lookup_insert_ne by done. rewrite (bool_decide_ext (y ∈ h :: members l) (y ∈ members l)); [done|].
    rewrite elem_of_cons. naive_solver.
Qed.

Lemma members_cleared (l : list (option Z)) : members ((fun _ => None) <$> l) = [].
Proof. apply members_none. intros x (? & -> & _)%list_elem_of_fmap. done. Qed.

Lemma clear_heavy_masks l s :
  let s' := fold_left (fun s x => match x with
     | Some h => on_task h (fun t => (clear_low_latency WALT_LOW_LATENCY_HEAVY_BIT t) <| t_pipeline_cpu := -1 |>) s
     | None => s end) l s in
  pl_heavy_wts s' = pl_heavy_wts s /\ pl_available_gold s' = pl_available_gold s /\ pl_available_prime s' = pl_available_prime s.
Proof. revert s. induction l as [|[h|] l IH]; intros s; [done|exact (IH _)|exact (IH s)]. Qed.

Lemma run_ok_clear s : run_ok s -> run_ok (clear_heavy s).
Proof.
  intros H. unfold clear_heavy. cbv zeta. destruct (clear_heavy_masks (pl_heavy_wts s) s) as (E1 & E2 & E3).
  pose proof (clear_heavy_fold (pl_heavy_wts s) s) as Hc. set (s1 := fold_left _ (pl_heavy_wts s) s) in *. clearbody s1.
  apply (run_ok_list s); cbn; rewrite ?members_cleared, ?E1; try done.
  - rewrite length_fmap. apply H.
  - constructor.
  - intros h []%not_elem_of_nil.
  - intros y. change (cpu_of s1 y = cpu_of s y \/ cpu_of s1 y = -1). rewrite Hc. case_if; by auto.
  - intros y _ Hy. change (cpu_of s1 y = -1). by rewrite Hc, bool_decide_true.
Qed.

Lemma run_ok_find e ws s : env_ok e -> run_ok s -> run_ok (find_heaviest_topapp e ws s).1.
Proof.
  intros [E1 E2 E3 E4 E5 E6] H. unfold find_heaviest_topapp. cbv zeta. case_if; [done|].
  destruct (if _ || _ then None else pe_grp e) as [tasks|] eqn:Eg.
  - case_if; [done|]. cbn [fst]. pose (s1 := s <| pl_last_rearrange_ns := ws |>).
    assert (NoDup tasks) as Hn by (apply E6; revert Eg; by case_if).
    destruct (HeavyChoice.choose_heavy_distinct e ws tasks s1 (ro_length _ H) Hn E5) as (C1 & C2 & C3 & C4).
    pose proof (HeavyChoice.choose_heavy_masks e ws tasks s1) as Cm.
    apply (run_ok_list s); [done|exact C1|exact C2| |exact (f_equal fst Cm)|exact (f_equal snd Cm)|exact C3|].
    + intros h Hh. by apply (HeavyChoice.choose_heavy_bits e ws tasks s1).
    + intros y Hout Hin. exact (C4 y Hin Hout).
  - cbn [fst]. match goal with |- run_ok (?t <| pl_last_rearrange_ns := _ |> <| pl_least_demand := _ |>) => assert (run_ok t) as Ht end.
    { case_if; [|done]. apply (run_ok_moves (clear_heavy s)); [by apply run_ok_clear|].
      destruct (HeavyChoice.set_unisolation_kept e false AUTO_PIPELINE (clear_heavy s)) as (U1 & U2 & U3).
      pose proof (HeavyChoice.set_unisolation_list e false AUTO_PIPELINE (clear_heavy s)) as U4.
      apply moves_frame; [exact (f_equal fst U4)|done|done|]. intros y. unfold cpu_of. by rewrite U1. }
    eapply run_ok_moves; [exact Ht|]. by apply moves_frame.
Qed.

Lemma run_ok_tasks s s' :
  run_ok s -> pl_heavy_wts s' = pl_heavy_wts s -> pl_available_gold s' = pl_available_gold s ->
  pl_available_prime s' = pl_available_prime s -> (forall y, cpu_of s' y = cpu_of s y) ->
  (forall y, HeavyChoice.heavy_bit (pl_wts s' y) = HeavyChoice.heavy_bit (pl_wts s y)) -> run_ok s'.
Proof.
  intros H E1 E2 E3 E4 E5. destruct H as [H1 H2 H3 H4 H5].
  apply (run_ok_list s); rewrite ?E1; try done.
  - intros h Hh. rewrite E5. by apply H3.
  - intros y. left. apply E4.
Qed.

Lemma remove_pipeline_frame e p s y :
  pl_heavy_wts (remove_pipeline e p s).1 = pl_heavy_wts s /\
  pl_available_gold (remove_pipeline e p s).1 = pl_available_gold s /\
  pl_available_prime (remove_pipeline e p s).1 = pl_available_prime s /\
  cpu_of (remove_pipeline e p s).1 y = cpu_of s y /\
  HeavyChoice.heavy_bit (pl_wts (remove_pipeline e p s).1 y) = HeavyChoice.heavy_bit (pl_wts s y).
Proof.
  unfold remove_pipeline. case_if; [done|]. destruct (find_slot _ _ _); [|done]. cbn [fst].
  split_and!; try done; unfold cpu_of, HeavyChoice.heavy_bit, on_task; cbn;
    destruct (decide (p = y)) as [<-|Hne]; rewrite ?fn_lookup_insert, ?fn_lookup_insert_ne by done; try done.
  unfold clear_low_latency. cbn. rewrite Z.ldiff_spec. apply andb_true_r.
Qed.

(** A dead task leaves the list, whatever else is on it. *)
Lemma remove_heavy_members e p s :
  pe_disabled e = false -> run_ok s ->
  let s' := remove_heavy e p s in
  length (pl_heavy_wts s') = Z.to_nat MAX_NR_PIPELINE /\ NoDup (members (pl_heavy_wts s')) /\
  (p ∉ members (pl_heavy_wts s')) /\
  (forall y, y <> p -> (y ∈ members (pl_heavy_wts s') <-> y ∈ members (pl_heavy_wts s))) /\
  pl_available_gold s' = pl_available_gold s /\ pl_available_prime s' = pl_available_prime s /\
  (forall y, cpu_of s' y = cpu_of s y) /\
  (forall y, y <> p -> HeavyChoice.heavy_bit (pl_wts s' y) = HeavyChoice.heavy_bit (pl_wts s y)).
Proof.
  intros He [H1 H2 H3 H4 H5]. unfold remove_heavy. rewrite He. change WALT_LOW_LATENCY_HEAVY_BIT with (2 ^ 3).
  pose proof (ManualList.testbit_test (t_low_latency (pl_wts s p)) 3 ltac:(lia)) as Hbit.
  pose proof (find_slot_spec MAX_NR_PIPELINE p (pl_heavy_wts s) ltac:(done)) as Hf.
  assert (Z.of_nat (length (pl_heavy_wts s)) = MAX_NR_PIPELINE) as Hl by (rewrite H1; done).
  destruct (Z.land (t_low_latency (pl_wts s p)) (2 ^ 3) =? 0) eqn:Eb; cbn [negb] in Hbit.
  { assert (p ∉ members (pl_heavy_wts s)) as Hp.
    { intros Hp. specialize (H3 p Hp). unfold HeavyChoice.heavy_bit in H3. congruence. }
    by split_and!. }
  destruct (find_slot _ _ _) as [i|].
  - destruct Hf as [Hi Ei]. pose proof (members_close_gap _ i p _ Hl Hi Ei) as Hp.
    destruct (close_gap_slots _ i _ Hl Hi) as [Hlen _]. rewrite Hp in H2. apply list.NoDup_cons in H2 as [Hout Hnd].
    cbv zeta. set (s1 := on_task p (clear_low_latency (2 ^ 3)) s).
    assert (forall y, cpu_of s1 y = cpu_of s y) as Ec.
    { intros y. unfold s1, cpu_of, on_task. cbn. destruct (decide (p = y)) as [<-|Hne];
        [by rewrite fn_lookup_insert|by rewrite fn_lookup_insert_ne]. }
    assert (forall y, y <> p -> HeavyChoice.heavy_bit (pl_wts s1 y) = HeavyChoice.heavy_bit (pl_wts s y)) as Eb'.
    { intros y Hy. unfold s1, on_task. cbn. by rewrite fn_lookup_insert_ne. }
    assert (forall y, y <> p -> (y ∈ members (close_gap MAX_NR_PIPELINE i (pl_heavy_wts s)) <-> y ∈ members (pl_heavy_wts s))) as Em.
    { intros y Hy. rewrite Hp, elem_of_cons. naive_solver. }
    change (pl_heavy_wts s) with (pl_heavy_wts s1) in Hlen, Hnd, Hout, Em, H1.
    destruct (-1 <? t_pipeline_cpu (pl_wts s1 p)).
    + split; [by rewrite <- H1|]. split; [exact Hnd|]. split; [exact Hout|]. split; [exact Em|]. split; [done|]. split; [done|].
      split; [exact Ec|exact Eb'].
    + split; [by rewrite <- H1|]. split; [exact Hnd|]. split; [exact Hout|]. split; [exact Em|]. split; [done|]. split; [done|].
      split; [exact Ec|exact Eb'].
  - assert (p ∉ members (pl_heavy_wts s)) as Hp.
    { rewrite elem_of_slots. intros (i & Hi & E). apply (Hf i); [lia|done]. }
    by split_and!.
Qed.

Lemma run_ok_dead e p s :
  pe_disabled e = false -> run_ok s ->
  run_ok (set_cpu_of p (-1) (walt_task_dead e p s)) /\ (p ∉ members (pl_heavy_wts (walt_task_dead e p s))).
Proof.
  intros He H. unfold walt_task_dead. set (s1 := if negb _ then _ else s).
  assert (run_ok s1) as H1.
  { unfold s1. case_if; [|done]. pose proof (remove_pipeline_frame e p s) as Hf.
    apply (run_ok_tasks s); [done|apply (Hf 0)|apply (Hf 0)|apply (Hf 0)|intros y; apply (Hf y)|intros y; apply (Hf y)]. }
  clearbody s1. destruct (remove_heavy_members e p s1 He H1) as (D1 & D2 & D3 & D4 & D5 & D6 & D7 & D8). cbv zeta in *.
  set (s2 := remove_heavy e p s1) in *. clearbody s2.
  set (s3 := if bool_decide (pl_special s2 = Some p) then remove_special_task s2 else s2).
  assert (pl_heavy_wts s3 = pl_heavy_wts s2 /\ pl_wts s3 = pl_wts s2 /\ pl_available_gold s3 = pl_available_gold s2 /\
          pl_available_prime s3 = pl_available_prime s2) as (F1 & F2 & F3 & F4) by (unfold s3; by case_if).
  clearbody s3. split; [|by rewrite F1].
  assert (forall y, cpu_of (set_cpu_of p (-1) s3) y = if decide (p = y) then -1 else cpu_of s1 y) as Ec.
  { intros y. unfold cpu_of at 1, set_cpu_of, on_task. cbn. rewrite F2. case_decide as Hd.
    - rewrite <- Hd. by rewrite fn_lookup_insert.
    - rewrite fn_lookup_insert_ne by done. apply D7. }
  apply (run_ok_list s1); change (pl_heavy_wts (set_cpu_of p (-1) s3)) with (pl_heavy_wts s3); rewrite ?F1; try done.
  - intros h Hh. assert (h <> p) as Hne by (by intros ->).
    unfold set_cpu_of, on_task. cbn. rewrite fn_lookup_insert_ne, F2, D8 by done. apply (ro_bits _ H1). by apply D4.
  - cbn. by rewrite F3.
  - cbn. by rewrite F4.
  - intros y. rewrite Ec. case_decide; by auto.
  - intros y Hout Hin. rewrite Ec. case_decide as Hd; [done|]. exfalso. apply Hout. apply D4; [by intros ->|done].
Qed.

Lemma run_ok_single e val s : run_ok s -> run_ok (walt_configure_single_thread_pipeline e val s).
Proof.
  intros H. unfold walt_configure_single_thread_pipeline. set (s1 := if negb (val =? 0) then _ else s).
  assert (pl_heavy_wts s1 = pl_heavy_wts s /\ run_ok s1) as [_ H1].
  { unfold s1. case_if; [|done].
    apply (for_range_ind (fun _ t => pl_heavy_wts t = pl_heavy_wts s /\ run_ok t)); [done|]. intros i t _ [Et Ht].
    destruct (slot (pl_heavy_wts t) i) as [h|]; [|done]. cbv zeta. set (t1 := if -1 <? _ then _ else t).
    assert (pl_heavy_wts t1 = pl_heavy_wts t /\ pl_wts t1 = pl_wts t /\ pl_available_gold t1 = pl_available_gold t /\
            pl_available_prime t1 = pl_available_prime t) as (E1 & E2 & E3 & E4) by (unfold t1; by case_if).
    clearbody t1. split; [cbn; congruence|].
    apply (run_ok_list t); cbn; rewrite ?E1, ?E2; try done; try apply Ht.
    - intros k Hk. unfold HeavyChoice.heavy_bit. destruct (decide (h = k)) as [<-|Hne];
        [rewrite fn_lookup_insert|rewrite fn_lookup_insert_ne by done]; by apply Ht.
    - intros y. unfold cpu_of. cbn. rewrite E2. destruct (decide (h = y)) as [<-|Hne];
        [rewrite fn_lookup_insert; by right|rewrite fn_lookup_insert_ne by done; by left].
  }
  clearbody s1. assert (forall b u, run_ok u -> run_ok (pipeline_set_unisolation e b AUTO_PIPELINE u)) as Hu.
  { intros b u Hok. destruct (HeavyChoice.set_unisolation_kept e b AUTO_PIPELINE u) as (U1 & U2 & U3).
    pose proof (HeavyChoice.set_unisolation_list e b AUTO_PIPELINE u) as U4.
    apply (run_ok_tasks u); [done|exact (f_equal fst U4)|done|done|intros y; unfold cpu_of; by rewrite U1|intros y; by rewrite U1]. }
  assert (run_ok ((pipeline_set_unisolation e false AUTO_PIPELINE s1) <| pl_single_thread := val |>)) as H2.
  { eapply (run_ok_tasks (pipeline_set_unisolation e false AUTO_PIPELINE s1)); try done. by apply Hu. }
  cbv zeta. case_if; [by apply Hu|done].
Qed.

Lemma run_ok_step s s' : run_ok s -> step s s' -> run_ok s'.
Proof.
  intros H [e ws He|e ws found He|e p He|e val He|p| |t E1 E2 E3 E4 E5].
  - by apply run_ok_find.
  - apply (run_ok_moves s); [done|]. destruct He. apply moves_rearrange; try done. apply H.
  - apply run_ok_dead; [apply He|done].
  - by apply run_ok_single.
  - by apply (run_ok_tasks s).
  - by apply (run_ok_tasks s).
  - by apply (run_ok_tasks s).
Qed.

End Runs.


(** Three tasks of the top application, their CPUs assigned one window later. *)
Definition demo_chosen : pl_sys := (find_heaviest_topapp HeavyChoice.demo_heavy_ple 1000000000 HeavyChoice.demo_heavy_pl).1.
Definition demo_assigned : pl_sys := pipeline_rearrange HeavyChoice.demo_heavy_ple 1016000000 FIND_HEAVY_SUCCESS demo_chosen.


(** With the gold CPUs of the pipeline halted, a layout gives two tasks the value past the
    last CPU. *)
Lemma layout_without_cpus :
  let e := HeavyChoice.demo_heavy_ple <| pe_halted := 12 |> <| pe_force_config := CONFIG1 |> in
  let s := pipeline_rearrange e 1016000000 FIND_HEAVY_SUCCESS demo_chosen in
  cpu_of s 5 = WALT_NR_CPUS /\ cpu_of s 3 = WALT_NR_CPUS.
Proof. vm_compute. done. Qed.

(** A task that got no CPU is counted in [have_heavy_list] but not taken off when it dies. *)
Lemma heavy_count_after_death :
  let e := HeavyChoice.demo_heavy_ple <| pe_halted := 204 |>
             <| pe_fit := demo_fit <| fe_cfg := sample_cfg <| sysctl_sched_heavy_nr := 2 |> |> |> in
  let s := (find_heaviest_topapp e 1000000000 HeavyChoice.demo_heavy_pl).1 in
  let s := walt_task_dead e 5 (pipeline_rearrange e 1016000000 FIND_HEAVY_SUCCESS s) in
  members (pl_heavy_wts s) = [4] /\ pl_have_heavy_list s = 2.
Proof. vm_compute. done. Qed.

(** A task promoted to the prime CPU of one that died does not give its gold CPU back. *)
Lemma promoted_cpu_not_returned :
  let s := demo_pl <| pl_heavy_wts := [Some 1; None; None] |> <| pl_have_heavy_list := 3 |> <| pl_available_prime := 64 |> in
  let s := swap_pipeline_with_prime_locked demo_ple None (Some 1) (set_cpu_of 1 2 s) in
  cpu_of s 1 = 6 /\ Z.testbit (pl_available_gold s) 2 = false.
Proof. vm_compute. done. Qed.

End CpusApart.

(** ** Layouts and windows *)

Module Layouts.

Lemma band x : 0 <= x < 2 ^ 64 -> u64 (mult_frac x (100 - PIPELINE_ENERGY_BAND) 100) = x * 94 / 100.
Proof.
  intros Hx. unfold mult_frac, PIPELINE_ENERGY_BAND. change (100 - 6) with 94.
  assert (x / 100 * 94 + x mod 100 * 94 / 100 = x * 94 / 100) as ->.
  { rewrite (Z.div_mod x 100) at 3 by lia. replace ((100 * (x / 100) + x mod 100) * 94) with (x mod 100 * 94 + (x / 100 * 94) * 100) by ring.
    rewrite Z.div_add by lia. ring. }
  apply u64_small. split; [apply Z.div_pos; lia|]. apply Z.div_lt_upper_bound; lia.
Qed.

Lemma use_config1_saves e prev c1 c2 :
  pe_force_config e = 0 -> 2 <= c1 < 2 ^ 64 -> 2 <= c2 < 2 ^ 64 ->
  (prev = CONFIG1 -> use_config1 e false prev c1 c2 = false -> 100 * c2 <= 94 * c1) /\
  (prev = CONFIG2 -> use_config1 e false prev c1 c2 = true -> 100 * c1 < 94 * c2).
Proof.
  intros Hf H1 H2. unfold use_config1. rewrite Hf. split; intros ->.
  - change (CONFIG1 =? CONFIG1) with true. change (CONFIG1 =? CONFIG2) with false. change (CONFIG1 =? 0) with false.
    change (0 =? 0) with true. change (0 =? CONFIG1) with false. cbv zeta iota. rewrite band by lia.
    pose proof (Z.div_le_lower_bound (c1 * 94) 100 1 ltac:(lia) ltac:(lia)).
    destruct (Z.eqb_spec (c1 * 94 / 100) 0); [lia|]. cbn [andb orb]. rewrite !orb_false_r, andb_true_r, Z.ltb_ge.
    intros H'. pose proof (Z.mul_div_le (c1 * 94) 100 ltac:(lia)). lia.
  - change (CONFIG2 =? CONFIG1) with false. change (CONFIG2 =? CONFIG2) with true. change (CONFIG2 =? 0) with false.
    change (0 =? 0) with true. change (0 =? CONFIG1) with false. cbv zeta iota. rewrite band by lia.
    pose proof (Z.div_le_lower_bound (c2 * 94) 100 1 ltac:(lia) ltac:(lia)).
    destruct (Z.eqb_spec (c2 * 94 / 100) 0); [lia|]. cbn [andb orb]. rewrite !orb_false_r, andb_true_r, Z.ltb_lt.
    intros H'. pose proof (Z.mul_div_le (c2 * 94) 100 ltac:(lia)). lia.
Qed.

(** What the layout is decided on: the state once the free CPUs are known. *)
Definition decided_on (e : pl_env) (found : Z) (s : pl_sys) : pl_sys :=
  if (found =? FIND_HEAVY_SUCCESS) && (pl_single_thread s =? 0) then available_cpus e s else s.

Lemma rearrange_heavy_config e ws force s : pl_prev_config (rearrange_heavy e ws force s) = pl_prev_config s.
Proof.
  assert (forall x t, pl_prev_config (is_prime_worthy e x t).1 = pl_prev_config t) as Hw.
  { intros x t. unfold is_prime_worthy. destruct x; [|done]. cbv zeta. case_if; [done|]. by destruct (task_fits_max _ _ _ _). }
  assert (forall l st, pl_prev_config (fold_left (move_heavy e) l st).1 = pl_prev_config st.1) as Hm.
  { intros l. induction l as [|x l IH]; intros [t r]; [done|]. cbn [fold_left]. rewrite IH. unfold move_heavy.
    destruct x as [h|]; [|done]. cbv zeta. case_if; [by case_if|].
    set (st1 := if cpumask_test_cpu (cpu_of t h) (prime_cpus e) then is_prime_worthy e (Some h) t else (t, true)).
    assert (pl_prev_config st1.1 = pl_prev_config t) as H1 by (unfold st1; case_if; [apply Hw|done]).
    clearbody st1. destruct st1 as [s1 w1]. cbn [fst] in H1. case_if; [case_if; exact H1|]. case_if; [|exact H1].
    pose proof (Hw (Some h) s1) as H2. destruct (is_prime_worthy e (Some h) s1) as [s2 w2]. cbn [fst] in *.
    rewrite H1 in H2. destruct w2; [case_if; exact H2|exact H2]. }
  unfold rearrange_heavy. cbv zeta. do 4 (case_if; [done|]). case_if; [apply Hm|]. case_if; [done|].
  set (sd := delay_rearrange e ws AUTO_PIPELINE force s).
  assert (pl_prev_config sd.1 = pl_prev_config s) as H1 by (unfold sd, delay_rearrange; cbv zeta; by case_if).
  clearbody sd. destruct sd as [s1 delay]. cbn [fst] in H1. destruct delay; [exact H1|]. case_if; [exact H1|].
  destruct (find_prime_and_max_tasks e s1 (pl_heavy_wts s1)) as [[p|] [o|]]; set (b := _ || _); destruct b; try exact H1;
    unfold swap_pipeline_with_prime_locked; repeat case_if; exact H1.
Qed.

Lemma decided_config e found s : pl_prev_config (decided_on e found s) = pl_prev_config s.
Proof.
  unfold decided_on. case_if; [|done]. unfold available_cpus. cbv zeta.
  assert (forall l st, pl_prev_config (fold_left claim_cpu l st).1 = pl_prev_config st.1) as Hc.
  { intros l. induction l as [|x l IH]; intros [t n]; [done|]. cbn [fold_left]. rewrite IH. destruct x; [|done].
    unfold claim_cpu. cbn [fst]. repeat case_if; done. }
  match goal with |- context [fold_left claim_cpu ?l ?st] => specialize (Hc l st); destruct (fold_left claim_cpu l st) end.
  exact Hc.
Qed.

(** The layout of three pipeline tasks changes only for a gain. Unless user space forces
    a layout or a named task is pinned, the step from one prime CPU to two, or back, is taken
    only when the estimated energy of the new layout is at most 94 per cent of that of
    the present one; so estimates that differ by less never make the tasks move. *)
Theorem layout_changes_save_energy e ws found s t0 t1 t2 :
  let s1 := decided_on e found s in
  let c1 := config1_energy e s1 t0 t1 t2 in
  let c2 := config2_energy e s1 t0 t1 t2 in
  pl_heavy_wts s1 = [Some t0; Some t1; Some t2] ->
  pe_force_config e = 0 -> should_pipeline_pin_special e s1 = false -> 2 <= c1 -> 2 <= c2 ->
  let next := pl_prev_config (pipeline_rearrange e ws found s) in
  (pl_prev_config s = CONFIG1 -> next <> CONFIG1 -> next = CONFIG2 /\ 100 * c2 <= 94 * c1) /\
  (pl_prev_config s = CONFIG2 -> next <> CONFIG2 -> next = CONFIG1 /\ 100 * c1 < 94 * c2).
Proof.
  intros s1 c1 c2 Hl Hf Hp H1 H2.
  assert (0 <= c1 < 2 ^ 64 /\ 0 <= c2 < 2 ^ 64) as [B1 B2] by (split; apply u64_range).
  destruct (use_config1_saves e CONFIG1 c1 c2 Hf ltac:(lia) ltac:(lia)) as [S1 _].
  destruct (use_config1_saves e CONFIG2 c1 c2 Hf ltac:(lia) ltac:(lia)) as [_ S2].
  pose proof (decided_config e found s) as Ec. fold s1 in Ec.
  unfold pipeline_rearrange. fold (decided_on e found s). fold s1. rewrite Hl, Hp, Ec.
  change (slot [Some t0; Some t1; Some t2] (MAX_NR_PIPELINE - 1)) with (Some t2).
  change (slot [Some t0; Some t1; Some t2] 0) with (Some t0). change (slot [Some t0; Some t1; Some t2] 1) with (Some t1).
  change (slot [Some t0; Some t1; Some t2] 2) with (Some t2). cbv beta iota zeta. fold c1 c2.
  split; intros Hprev; rewrite Hprev; (case_if; [intros Hn; by rewrite ?Hprev in Hn|]);
    (case_if; [intros Hn; by rewrite rearrange_heavy_config, Ec, Hprev in Hn|]);
    (case_if; [intros Hn; by rewrite Ec, Hprev in Hn|]).
  - destruct (use_config1 e false CONFIG1 c1 c2); [intros Hn; by destruct Hn|]. intros _. split; [done|by apply S1].
  - destruct (use_config1 e false CONFIG2 c1 c2); [|intros Hn; by destruct Hn]. intros _. split; [done|by apply S2].
Qed.

(** Gold CPUs that cost more than prime ones: the second layout is cheaper. *)
Definition demo_energy_ple : pl_env :=
  HeavyChoice.demo_heavy_ple <| pe_em := fun _ => Some [1000000; 2000000; 4000000] |>
    <| pe_cost := fun id => if id =? 0 then [10; 20; 30] else [5; 6; 7] |>.
Definition demo_energy_pl : pl_sys := CpusApart.demo_chosen <| pl_prev_config := CONFIG1 |>.

Lemma layout_changes_save_energy_witness :
  let e := demo_energy_ple in
  let s := demo_energy_pl in
  let s1 := decided_on e FIND_HEAVY_SUCCESS s in
  pl_prev_config (pipeline_rearrange e 0 FIND_HEAVY_SUCCESS s) = CONFIG2 /\
  100 * config2_energy e s1 4 5 3 <= 94 * config1_energy e s1 4 5 3.
Proof.
  intros e s s1.
  destruct (layout_changes_save_energy e 0 FIND_HEAVY_SUCCESS s 4 5 3) as [H _].
  - vm_compute. reflexivity.
  - reflexivity.
  - vm_compute. reflexivity.
  - vm_compute. discriminate.
  - vm_compute. discriminate.
  - apply H; [vm_compute; reflexivity|vm_compute; discriminate].
Defined.

(** With more than two clusters the energy estimates read entries of the utilisation
    arrays that were not written, and take the gold cluster for the prime one. *)
Lemma three_clusters_misread e :
  pe_gold_id e = 1 -> pe_prime_id e = 2 -> num_sched_clusters (fe_cfg (pe_fit e)) = 3 ->
  non_pipeline_util e 0 = (pe_stack e 0, pe_stack e 4) /\
  forall c, Z.testbit (gold_cpus e) c = false ->
    forall f, (forall d, d <> c -> f d = pe_prev_sum e d) -> non_pipeline_util (e <| pe_prev_sum := f |>) 1 = non_pipeline_util e 1.
Proof.
  intros E1 E2 E3. split; [unfold non_pipeline_util; by rewrite E1, E2|].
  intros c Hc f Hf. unfold non_pipeline_util. cbn [pe_gold_id pe_prime_id pe_fit pe_cpus pe_prev_sum]. cbn. rewrite E1, E2, E3.
  change ((1 =? 1) || (1 =? 2)) with true. change (1 <? 3) with true. cbn [andb].
  unfold gold_cpus in Hc. rewrite E1 in Hc. apply for_each_cpu_ext. intros cpu st Hb.
  rewrite Hf; [done|]. intros ->. congruence.
Qed.

(** While a rearrangement of the manual pipeline is not due, its core control boost is
    given back, although the tasks are still there. *)
Lemma manual_boost_dropped_while_waiting e ws s :
  auto_pipeline_wanted e = false -> 2 <= num_sched_clusters (fe_cfg (pe_fit e)) ->
  pl_pipeline_nr s <> 0 -> sched_boost_type (fe_cfg (pe_fit e)) = 0 ->
  (delay_rearrange e ws MANUAL_PIPELINE false s).2 = true -> pl_last_set_unisolation s = true ->
  rearrange_pipeline_preferred_cpus e ws s =
    (pipeline_set_unisolation e false MANUAL_PIPELINE s) <| pl_last_set_unisolation := false |>.
Proof.
  intros H1 H2 H3 H4 H5 H6. unfold rearrange_pipeline_preferred_cpus. cbv zeta. rewrite H1, H4.
  destruct (Z.ltb_spec (num_sched_clusters (fe_cfg (pe_fit e))) 2); [lia|].
  apply Z.eqb_neq in H3 as ->. change (0 =? 0) with true. cbn [negb orb].
  unfold delay_rearrange in *. cbv zeta in *. revert H5. case_if; [|done]. intros _. by rewrite H6.
Qed.

(** Three manual tasks: the boost comes with the rearrangement and is gone a window later. *)
Lemma manual_boost_lasts_a_window :
  let s := demo_pl <| pl_pipeline_wts := [Some 1; Some 2; Some 3; None; None; None; None; None] |> <| pl_pipeline_nr := 3 |> in
  let s1 := rearrange_pipeline_preferred_cpus demo_ple 1000000000 s in
  let s2 := rearrange_pipeline_preferred_cpus demo_ple 1016000000 s1 in
  pl_unisolation_state s1 = true /\ pl_unisolation_state s2 = false.
Proof. vm_compute. done. Qed.

End Layouts.
