(* ===== verification/Mvp.v ===== *)
(** * The queue of most valuable tasks

    Tasks whose latency matters (pipeline and binder threads, boosted tasks, a prior
    group) are put on a queue of their CPU, from which they are picked before the fair
    tasks, a slice at a time and up to a limit of run time. This file holds that queue
    ([walt_cfs.c]), its throttling, the hooks that feed it (wakeup preemption, tick, yield,
    the pick of the next task, binder transactions) and the order of mutex waiters that
    follows from it ([mvp_locking.c]).

    With [CONFIG_OPLUS_FEATURE_SCHED_ASSIST] the vendor's scheduler takes over and no task
    gets on the queue; [ve_assist] is that switch. *)

From Stdlib Require Import ZArith Lia ZifyBool Bool.
From stdpp Require Import base list sets functions relations sorting.
From S2P Require Import Prelude WaltTypes Cpumask SmartFreq Halt CoreCtl Boost Fits Pipeline.

(** ** State *)

Definition WALT_MVP_SLICE : Z := 3000000.
Definition WALT_MVP_LIMIT : Z := 4 * WALT_MVP_SLICE.
Definition WALT_RTG_MVP : Z := 0.
Definition WALT_BINDER_MVP : Z := 1.
Definition WALT_TASK_BOOST_MVP : Z := 2.
Definition WALT_LL_MVP : Z := 3.
Definition WALT_PIPELINE_MVP : Z := 4.
Definition WALT_NOT_MVP : Z := -1.
Definition MAX_MVP_TIME_NS : Z := 500000000.
Definition MVP_THROTTLE_TIME_NS : Z := 100000000.
Definition TASK_ON_RQ_MIGRATING : Z := 2.

(** The run time fields of a task: [sum_exec_snapshot_for_slice],
    [sum_exec_snapshot_for_total] and [total_exec]. *)
Record mvp_exec := mk_mx { mx_slice : Z; mx_snap : Z; mx_total : Z }.

(** The queue of a run queue, with the ids of its tasks, the first one first. *)
Record mvp_rq := mk_mr {
  mr_tasks : list Z;
  mr_num : Z;
  mr_arrival_time : Z;
  mr_throttle_time : Z;
  mr_skip : bool
}.

(** [mv_on p] is the CPU on whose queue the list node of [p] is linked, [None] for a node
    that is empty; [mv_corrupt] records that a linked node was linked again. [mv_bugs]
    are the tasks reported through [WALT_BUG], the last one first, and [mv_vip] the marks
    kept for the vendor's scheduler. *)
Record mvp_sys := mk_mv {
  mv_wts : Z -> walt_task_struct;
  mv_exec : Z -> mvp_exec;
  mv_on : Z -> option Z;
  mv_rq : Z -> mvp_rq;
  mv_vip : Z -> bool;
  mv_corrupt : bool;
  mv_bugs : list Z
}.

Inductive decision := CfsDecides | Preempt | NoPreempt.
#[global] Instance decision_eq_dec : EqDecision decision.
Proof. solve_decision. Defined.

(** What a hook reads: tunables, and by task id what the kernel core knows. [ve_clock] is
    the clock of the run queue after its update, [ve_sum_exec] the run time of a task,
    [ve_h_nr_running] the fair tasks of the run queue; [ve_ots] tells whether the vendor's
    task structure exists, [ve_oplus_preempt] and [ve_oplus_pick] are the vendor's
    functions. *)
Record mvp_env := mk_ve {
  ve_fit : fit_env;
  ve_disabled : bool;
  ve_assist : bool;
  ve_ll_threshold : Z;
  ve_clock : Z;
  ve_sum_exec : Z -> Z;
  ve_task_on_cpu : Z -> bool;
  ve_running_state : Z -> bool;
  ve_on_cpu : Z -> Z;
  ve_on_rq : Z -> Z;
  ve_leader_prio : Z -> Z;
  ve_h_nr_running : Z;
  ve_ots : Z -> bool;
  ve_oplus_preempt : Z -> Z -> decision;
  ve_oplus_pick : Z -> option Z -> option Z
}.

Definition on_mvp_wts (p : Z) (f : walt_task_struct -> walt_task_struct) (s : mvp_sys) : mvp_sys :=
  s <| mv_wts := <[p := f (mv_wts s p)]> (mv_wts s) |>.
Definition on_mvp_exec (p : Z) (f : mvp_exec -> mvp_exec) (s : mvp_sys) : mvp_sys :=
  s <| mv_exec := <[p := f (mv_exec s p)]> (mv_exec s) |>.
Definition on_mvp_rq (cpu : Z) (f : mvp_rq -> mvp_rq) (s : mvp_sys) : mvp_sys :=
  s <| mv_rq := <[cpu := f (mv_rq s cpu)]> (mv_rq s) |>.

Definition mvp_prio (s : mvp_sys) (p : Z) : Z := t_mvp_prio (mv_wts s p).
Definition is_mvp (t : walt_task_struct) : bool := negb (t_mvp_prio t =? WALT_NOT_MVP).
Definition mvp_linked (s : mvp_sys) (p : Z) : bool := match mv_on s p with Some _ => true | None => false end.

(** The state of tasks and run queues at their initialisation. *)
Definition mvp_init : mvp_sys :=
  mk_mv (fun _ => zero_wts <| t_mvp_prio := WALT_NOT_MVP |>) (fun _ => mk_mx 0 0 0) (fun _ => None)
    (fun _ => mk_mr [] 0 0 0 false) (fun _ => false) false [].

(** ** Who is valuable *)

Definition walt_low_latency_task (e : mvp_env) (t : walt_task_struct) : bool :=
  if t_low_latency t =? 0 then false else
  if negb (Z.land (t_low_latency t) WALT_LOW_LATENCY_BIT_MASK =? 0) then true else
  task_util t <? ve_ll_threshold e.
Definition walt_binder_low_latency_task (e : mvp_env) (t : walt_task_struct) : bool :=
  negb (Z.land (t_low_latency t) WALT_LOW_LATENCY_BINDER_BIT =? 0) && (task_util t <? ve_ll_threshold e).
Definition walt_procfs_low_latency_task (e : mvp_env) (t : walt_task_struct) : bool :=
  negb (Z.land (t_low_latency t) WALT_LOW_LATENCY_PROCFS_BIT =? 0) && (task_util t <? ve_ll_threshold e).
Definition rtg_high_prio (e : mvp_env) (p : Z) (t : walt_task_struct) : bool :=
  task_in_related_thread_group t && (fe_prio (ve_fit e) p <=? sysctl_walt_rtg_cfs_boost_prio (fe_cfg (ve_fit e))).

Definition walt_get_mvp_task_prio (e : mvp_env) (p : Z) (s : mvp_sys) : mvp_sys * Z :=
  if ve_assist e then (s, WALT_NOT_MVP) else
  if walt_pipeline_low_latency_task (mv_wts s p) then (s, WALT_PIPELINE_MVP) else
  if walt_procfs_low_latency_task e (mv_wts s p) then (s, WALT_LL_MVP) else
  let '(t, boost) := per_task_boost (ve_fit e) (mv_wts s p) in
  let s := on_mvp_wts p (fun _ => t) s in
  (s, if boost =? TASK_BOOST_STRICT_MAX then WALT_TASK_BOOST_MVP else
      if walt_binder_low_latency_task e t then WALT_BINDER_MVP else
      if rtg_high_prio e p t then WALT_RTG_MVP else WALT_NOT_MVP).

Definition walt_cfs_mvp_task_limit (s : mvp_sys) (p : Z) : Z :=
  if mvp_prio s p =? WALT_BINDER_MVP then WALT_MVP_SLICE else
  if mvp_prio s p =? WALT_PIPELINE_MVP then 2 * WALT_MVP_LIMIT else WALT_MVP_LIMIT.
Definition mvp_slice (s : mvp_sys) (p : Z) : Z :=
  if mvp_prio s p =? WALT_PIPELINE_MVP then WALT_MVP_LIMIT else WALT_MVP_SLICE.

(** ** Binder transactions *)

(** [binder_transaction]: its flag, and the field that keeps the boost of the callee. *)
Record binder_transaction := mk_bt { bt_need_reply : bool; bt_vendor_data1 : Z }.

(** [task] is a task; the hook is called with the callee. *)
Definition binder_set_priority_hook (e : mvp_env) (current task : Z) (b : option binder_transaction) (s : mvp_sys) :
    option binder_transaction * mvp_sys :=
  if ve_disabled e then (b, s) else
  let '(b, s) :=
    match b with
    | Some t =>
        if bt_need_reply t && (t_boost (mv_wts s current) =? TASK_BOOST_STRICT_MAX)
        then (Some (t <| bt_vendor_data1 := u64 (t_boost (mv_wts s task)) |>),
              on_mvp_wts task (fun w => w <| t_boost := TASK_BOOST_STRICT_MAX |>) s)
        else (b, s)
    | None => (b, s)
    end in
  if current =? task then (b, s) else
  let '(s, low_latency) :=
    if task_in_related_thread_group (mv_wts s current) && (ve_leader_prio e task <? MAX_RT_PRIO) then (s, true) else
    let '(s, prio) := walt_get_mvp_task_prio e current s in
    (s, (prio =? WALT_LL_MVP) ||
        ((ve_leader_prio e current <? MAX_RT_PRIO) && task_in_related_thread_group (mv_wts s task))) in
  (b, on_mvp_wts task (if low_latency then set_low_latency WALT_LOW_LATENCY_BINDER_BIT
                       else clear_low_latency WALT_LOW_LATENCY_BINDER_BIT) s).

Definition binder_restore_priority_hook (e : mvp_env) (task : Z) (b : option binder_transaction) (s : mvp_sys) :
    mvp_sys :=
  if ve_disabled e then s else
  match b with
  | Some t => if t_boost (mv_wts s task) =? TASK_BOOST_STRICT_MAX
              then on_mvp_wts task (fun w => w <| t_boost := s32 (bt_vendor_data1 t) |>) s else s
  | None => s
  end.

(** ** The queue *)

Definition set_ots_mvp (e : mvp_env) (p : Z) (vip : bool) (s : mvp_sys) : mvp_sys :=
  if ve_assist e && ve_ots e p then s <| mv_vip := <[p := vip]> (mv_vip s) |> else s.

(** The place of the first task that makes the loop stop. *)
Fixpoint mvp_place (prio : Z -> Z) (at_front : bool) (p : Z) (l : list Z) : list Z :=
  match l with
  | [] => [p]
  | q :: l' => if (if at_front then prio q <=? prio p else prio q <? prio p)
               then p :: l else q :: mvp_place prio at_front p l'
  end.

Definition walt_cfs_insert_mvp_task (e : mvp_env) (cpu p : Z) (at_front : bool) (s : mvp_sys) : mvp_sys :=
  let corrupt := mv_corrupt s || mvp_linked s p in
  let s := on_mvp_rq cpu (fun r => r <| mr_tasks := mvp_place (mvp_prio s) at_front p (mr_tasks r) |>
                                     <| mr_num := s32 (mr_num r + 1) |>) s in
  let s := s <| mv_on := <[p := Some cpu]> (mv_on s) |> <| mv_corrupt := corrupt |> in
  set_ots_mvp e p true s.

(** [list_del_init] takes the node off the list it is on. *)
Definition mvp_unlink (p : Z) (s : mvp_sys) : mvp_sys :=
  match mv_on s p with
  | Some cpu => on_mvp_rq cpu (fun r => r <| mr_tasks := filter (fun q => q <> p) (mr_tasks r) |>)
                  (s <| mv_on := <[p := None]> (mv_on s) |>)
  | None => s
  end.

Definition walt_cfs_deactivate_mvp_task (e : mvp_env) (cpu p : Z) (s : mvp_sys) : mvp_sys :=
  let s := mvp_unlink p s in
  let s := set_ots_mvp e p false s in
  let s := on_mvp_wts p (fun t => t <| t_mvp_prio := WALT_NOT_MVP |>) s in
  on_mvp_rq cpu (fun r => r <| mr_num := s32 (mr_num r - 1) |>) s.

(** The throttling of the queue, at the head of [walt_cfs_account_mvp_runtime]. *)
Definition mvp_throttle (clock : Z) (r : mvp_rq) : mvp_rq :=
  if negb (mr_throttle_time r =? 0) then
    if MVP_THROTTLE_TIME_NS <? u64 (clock - mr_throttle_time r)
    then r <| mr_skip := false |> <| mr_throttle_time := 0 |> else r
  else if negb (mr_arrival_time r =? 0) then
    if MAX_MVP_TIME_NS <? u64 (clock - mr_arrival_time r)
    then r <| mr_skip := true |> <| mr_arrival_time := 0 |> <| mr_throttle_time := clock |> else r
  else r.

(** [a - b], or zero. *)
Definition exec_since (a b : Z) : Z := if b <? a then u64 (a - b) else 0.

Definition walt_cfs_account_mvp_runtime (e : mvp_env) (cpu curr : Z) (s : mvp_sys) : mvp_sys :=
  let s := on_mvp_rq cpu (mvp_throttle (ve_clock e)) s in
  let sum := ve_sum_exec e curr in
  let s := on_mvp_exec curr (fun x => x <| mx_total := exec_since sum (mx_snap x) |>) s in
  let slice := exec_since sum (mx_slice (mv_exec s curr)) in
  if slice <? mvp_slice s curr then s else
  let s := on_mvp_exec curr (fun x => x <| mx_slice := sum |>) s in
  if walt_cfs_mvp_task_limit s curr <? mx_total (mv_exec s curr)
  then walt_cfs_deactivate_mvp_task e cpu curr s else
  if mr_num (mv_rq s cpu) =? 1 then s else
  let s := mvp_unlink curr s in
  let s := on_mvp_rq cpu (fun r => r <| mr_num := s32 (mr_num r - 1) |>) s in
  walt_cfs_insert_mvp_task e cpu curr false s.

Definition walt_cfs_enqueue_task (e : mvp_env) (cpu p : Z) (s : mvp_sys) : mvp_sys :=
  let '(s, prio) := walt_get_mvp_task_prio e p s in
  if prio =? WALT_NOT_MVP then s else
  if walt_cfs_mvp_task_limit s p <? mx_total (mv_exec s p) then s else
  let s := on_mvp_wts p (fun t => t <| t_mvp_prio := prio |>) s in
  let s := walt_cfs_insert_mvp_task e cpu p (ve_task_on_cpu e p) s in
  if mx_total (mv_exec s p) =? 0
  then on_mvp_exec p (fun x => x <| mx_snap := ve_sum_exec e p |> <| mx_slice := ve_sum_exec e p |>) s else s.

Definition walt_cfs_dequeue_task (e : mvp_env) (cpu p : Z) (s : mvp_sys) : mvp_sys :=
  let s := if mvp_linked s p then walt_cfs_deactivate_mvp_task e cpu p s else s in
  if ve_running_state e p then s else on_mvp_exec p (fun x => x <| mx_total := 0 |>) s.

(** ** Hooks *)

Definition mvp_first (s : mvp_sys) (cpu : Z) : option Z := head (mr_tasks (mv_rq s cpu)).

(** Result: whether [resched_curr] is called. *)
Definition walt_cfs_tick (e : mvp_env) (cpu curr : Z) (s : mvp_sys) : mvp_sys * bool :=
  if ve_disabled e then (s, false) else
  if negb (mvp_linked s curr) then (s, false) else
  let skip_mvp := mr_skip (mv_rq s cpu) in
  let s := walt_cfs_account_mvp_runtime e cpu curr s in
  (s, (xorb skip_mvp (mr_skip (mv_rq s cpu)) || bool_decide (mvp_first s cpu <> Some curr)) && (1 <? ve_h_nr_running e)).

Definition walt_cfs_check_preempt_wakeup_fair (e : mvp_env) (cpu c p : Z) (s : mvp_sys) : mvp_sys * decision :=
  if ve_disabled e then (s, CfsDecides) else
  let p_is_mvp := mvp_linked s p in
  let curr_is_mvp := mvp_linked s c in
  if ve_assist e && negb p_is_mvp && negb curr_is_mvp then (s, ve_oplus_preempt e cpu p) else
  if negb curr_is_mvp then
    (s, if p_is_mvp && negb (mr_skip (mv_rq s cpu)) then Preempt else CfsDecides) else
  let skip_mvp := mr_skip (mv_rq s cpu) in
  let s := walt_cfs_account_mvp_runtime e cpu c s in
  let resched := xorb skip_mvp (mr_skip (mv_rq s cpu)) || bool_decide (mvp_first s cpu <> Some c) ||
                 (mvp_prio s c <? mvp_prio s p) in
  (s, if resched then Preempt else NoPreempt).

(** The report on a task that is not waiting on this run queue. *)
Definition check_picked (e : mvp_env) (cpu : Z) (p prev : option Z) (s : mvp_sys) : mvp_sys :=
  match p with
  | Some q =>
      if negb (bool_decide (p = prev)) &&
         ((ve_on_cpu e q =? 1) || (ve_on_rq e q =? 0) || (ve_on_rq e q =? TASK_ON_RQ_MIGRATING) ||
          negb (fe_task_cpu (ve_fit e) q =? cpu))
      then s <| mv_bugs := q :: mv_bugs s |> else s
  | None => s
  end.

(** Result: the task to run. *)
Definition walt_cfs_replace_next_task_fair (e : mvp_env) (cpu : Z) (p prev : option Z) (s : mvp_sys) :
    mvp_sys * option Z :=
  if ve_assist e then (s, ve_oplus_pick e cpu p) else
  if ve_disabled e then (s, p) else
  let s := check_picked e cpu p prev s in
  if mr_skip (mv_rq s cpu) then (s, p) else
  match mr_tasks (mv_rq s cpu) with
  | [] => (on_mvp_rq cpu (fun r => r <| mr_arrival_time := 0 |>) s, p)
  | mvp :: _ =>
      let s := if mr_arrival_time (mv_rq s cpu) =? 0
               then on_mvp_rq cpu (fun r => r <| mr_arrival_time := ve_clock e |>) s else s in
      (check_picked e cpu (Some mvp) prev s, Some mvp)
  end.

(** The part of [android_rvh_schedule] that concerns the queue. *)
Definition mvp_switch (e : mvp_env) (cpu : Z) (both_scx next_fair : bool) (s : mvp_sys) : mvp_sys :=
  if both_scx then s else
  if ve_disabled e then s else
  if next_fair then s else on_mvp_rq cpu (fun r => r <| mr_arrival_time := 0 |>) s.

(** The part of [walt_do_sched_yield] that concerns the queue. *)
Definition mvp_yield (e : mvp_env) (cpu curr : Z) (s : mvp_sys) : mvp_sys :=
  if ve_disabled e then s else
  if mvp_linked s curr &&
     (negb (pipeline_in_progress (fe_cfg (ve_fit e))) || negb (walt_pipeline_low_latency_task (mv_wts s curr)))
  then walt_cfs_deactivate_mvp_task e cpu curr s else s.

(** ** Mutex waiters *)

(** A wait list is the list of the waiting tasks. Result: the list, and whether the
    waiter of [current] is on it. *)
Fixpoint alter_list (wts : Z -> walt_task_struct) (current : Z) (l : list Z) : list Z * bool :=
  match l with
  | [] => ([], false)
  | q :: l' => if negb (is_mvp (wts q)) then (current :: l, true)
               else let '(l', done) := alter_list wts current l' in (q :: l', done)
  end.
Definition android_vh_alter_mutex_list_add (e : mvp_env) (current : Z) (args_ok : bool) (l : list Z) (s : mvp_sys) :
    list Z * bool :=
  if ve_disabled e then (l, false) else
  if negb args_ok then (l, false) else
  if negb (is_mvp (mv_wts s current)) then (l, false) else
  alter_list (mv_wts s) current l.

(** ** The queue as a list of classes

    The tasks of one priority, in their order on the queue. *)
Module MvpQueue.

Definition class_of (prio : Z -> Z) (k : Z) (l : list Z) : list Z := filter (fun q => prio q = k) l.
Definition desc (prio : Z -> Z) (l : list Z) : Prop := StronglySorted (fun a b => prio b <= prio a) l.

Lemma filter_none (P : Z -> Prop) `{!forall q, Decision (P q)} (l : list Z) : (forall q, q ∈ l -> ~ P q) -> filter P l = [].
Proof.
  induction l as [|q l IH]; intros Hq; [done|]. rewrite filter_cons_False by (apply Hq; set_solver).
  apply IH. set_solver.
Qed.
Lemma filter_every (P : Z -> Prop) `{!forall q, Decision (P q)} (l : list Z) : (forall q, q ∈ l -> P q) -> filter P l = l.
Proof.
  induction l as [|q l IH]; intros Hq; [done|]. rewrite filter_cons_True by (apply Hq; set_solver).
  f_equal. apply IH. set_solver.
Qed.

Lemma place_elem prio f p l x : x ∈ mvp_place prio f p l <-> x = p \/ x ∈ l.
Proof.
  induction l as [|q l IH]; cbn [mvp_place]; [set_solver|].
  destruct (if f then prio q <=? prio p else _); [set_solver|]. rewrite !elem_of_cons, IH. tauto.
Qed.

Lemma place_length prio f p l : length (mvp_place prio f p l) = S (length l).
Proof. induction l as [|q l IH]; cbn [mvp_place]; [done|]. destruct (if f then prio q <=? prio p else _); cbn; [done|]. by rewrite IH. Qed.

Lemma place_nodup prio f p l : p ∉ l -> NoDup l -> NoDup (mvp_place prio f p l).
Proof.
  induction l as [|q l IH]; intros Hp Hn; cbn [mvp_place]; [apply NoDup_singleton|].
  apply not_elem_of_cons in Hp as (Hpq & Hp). inversion Hn; subst.
  destruct (if f then prio q <=? prio p else _); constructor; try done; [set_solver| |by apply IH].
  rewrite place_elem. intros [->|?]; done.
Qed.

Lemma place_desc prio f p l : desc prio l -> desc prio (mvp_place prio f p l).
Proof.
  unfold desc. induction l as [|q l IH]; intros Hs; cbn [mvp_place]; [by repeat constructor|].
  inversion Hs as [|? ? Hl Hq]; subst. rewrite list.Forall_forall in Hq.
  destruct (if f then prio q <=? prio p else _) eqn:E.
  - constructor; [done|]. apply list.Forall_forall. intros x Hx.
    assert (prio q <= prio p) by (destruct f; lia).
    apply elem_of_cons in Hx as [->|Hx]; [done|]. specialize (Hq x Hx). cbn in Hq. lia.
  - constructor; [by apply IH|]. apply list.Forall_forall. intros x Hx. apply place_elem in Hx as [->|Hx];
      [destruct f; lia|by apply Hq].
Qed.

(** A new task goes to the end of its class, a running one to its front. *)
Lemma place_class prio f p l k :
  desc prio l ->
  class_of prio k (mvp_place prio f p l) =
    if decide (k = prio p) then if f then p :: class_of prio k l else class_of prio k l ++ [p] else class_of prio k l.
Proof.
  unfold desc, class_of. induction l as [|q l IH]; intros Hs; cbn [mvp_place].
  { rewrite filter_cons, filter_nil. repeat case_decide; try congruence; by destruct f. }
  inversion Hs as [|? ? Hl Hq]; subst. rewrite list.Forall_forall in Hq. specialize (IH Hl).
  destruct (if f then prio q <=? prio p else _) eqn:E.
  - rewrite (filter_cons _ p). destruct (decide (k = prio p)) as [->|Hk].
    + rewrite decide_True by done. destruct f; [done|].
      rewrite filter_cons, decide_False by lia.
      replace (filter (fun q0 => prio q0 = prio p) l) with (@nil Z); [done|]. symmetry.
      apply filter_none. intros x Hx. specialize (Hq x Hx). cbn in Hq. lia.
    + by rewrite decide_False.
  - rewrite !(filter_cons _ q), IH. repeat case_decide; try done.
    destruct f; [|done]. exfalso. lia.
Qed.

Lemma class_remove prio p k l : class_of prio k (filter (fun q => q <> p) l) = filter (fun q => q <> p) (class_of prio k l).
Proof. unfold class_of. rewrite !list_filter_filter. apply list_filter_iff. intros; tauto. Qed.

Lemma remove_absent (p : Z) (l : list Z) : p ∉ l -> filter (fun q => q <> p) l = l.
Proof. intros Hp. apply filter_every. intros x Hx ->. done. Qed.

Lemma remove_length (p : Z) (l : list Z) : NoDup l -> p ∈ l -> S (length (filter (fun q => q <> p) l)) = length l.
Proof.
  induction l as [|q l IH]; intros Hn Hp; [set_solver|]. inversion Hn; subst. rewrite filter_cons.
  apply elem_of_cons in Hp as [->|Hp].
  - rewrite decide_False by tauto. cbn. by rewrite remove_absent.
  - rewrite decide_True by congruence. cbn. by rewrite IH.
Qed.

Lemma remove_desc prio (P : Z -> Prop) `{!forall q, Decision (P q)} (l : list Z) : desc prio l -> desc prio (filter P l).
Proof.
  unfold desc. induction 1 as [|q l Hl IH Hq]; [constructor|]. rewrite filter_cons. case_decide; [|done].
  constructor; [done|]. rewrite list.Forall_forall in Hq |- *. intros x Hx.
  apply list_elem_of_filter in Hx as (_ & Hx). by apply Hq.
Qed.

Lemma desc_ext prio prio' l : (forall q, q ∈ l -> prio' q = prio q) -> desc prio l -> desc prio' l.
Proof.
  unfold desc. intros E H. induction H as [|q l Hl IH Hq]; constructor.
  - apply IH. set_solver.
  - rewrite list.Forall_forall in Hq |- *. intros x Hx. rewrite !E by set_solver. by apply Hq.
Qed.

Lemma class_ext prio prio' k l : (forall q, q ∈ l -> prio' q = prio q) -> class_of prio' k l = class_of prio k l.
Proof.
  unfold class_of. intros E. induction l as [|q l IH]; [done|]. rewrite !filter_cons, IH by set_solver.
  rewrite (E q) by set_solver. done.
Qed.

(** A queue in order is the classes from the highest to the lowest. *)
Lemma desc_top prio k l :
  desc prio l -> (forall q, q ∈ l -> prio q <= k) -> l = class_of prio k l ++ filter (fun q => prio q < k) l.
Proof.
  unfold class_of. induction 1 as [|q l Hl IH Hq]; intros Hk; [done|]. rewrite list.Forall_forall in Hq.
  rewrite !filter_cons. pose proof (Hk q ltac:(set_solver)) as Hqk.
  destruct (decide (prio q = k)) as [E|E].
  - rewrite (decide_False (P := prio q < k)) by lia. cbn. f_equal. apply IH. set_solver.
  - rewrite decide_True by lia. rewrite filter_none.
    + cbn. f_equal. symmetry. apply filter_every. intros x Hx. specialize (Hq x Hx). cbn in Hq. lia.
    + intros x Hx. specialize (Hq x Hx). cbn in Hq. lia.
Qed.

Lemma class_below prio j k (l : list Z) : j < k -> class_of prio j (filter (fun q => prio q < k) l) = class_of prio j l.
Proof. intros H. unfold class_of. apply list_filter_filter_l. lia. Qed.

Lemma filter_below (prio : Z -> Z) j k (l : list Z) :
  j <= k -> filter (fun q => prio q < j) (filter (fun q => prio q < k) l) = filter (fun q : Z => prio q < j) l.
Proof. intros H. apply list_filter_filter_l. lia. Qed.

Lemma desc_next prio k j l :
  desc prio l -> k = j + 1 -> filter (fun q => prio q < k) l = class_of prio j l ++ filter (fun q => prio q < j) l.
Proof.
  intros H ->. rewrite (desc_top prio j (filter _ l)) at 1.
  - by rewrite class_below, filter_below by lia.
  - by apply remove_desc.
  - intros q Hq. apply list_elem_of_filter in Hq as (Hq & _). lia.
Qed.

Definition classes (A : Z -> list Z) : list Z := A 4 ++ A 3 ++ A 2 ++ A 1 ++ A 0.

Lemma desc_classes prio l :
  desc prio l -> (forall q, q ∈ l -> 0 <= prio q <= 4) -> l = classes (fun k => class_of prio k l).
Proof.
  intros Hd Hr. unfold classes. rewrite (desc_top prio 4 l Hd) at 1 by (intros q Hq; specialize (Hr q Hq); lia). f_equal.
  rewrite (desc_next prio 4 3 l Hd eq_refl). f_equal. rewrite (desc_next prio 3 2 l Hd eq_refl). f_equal.
  rewrite (desc_next prio 2 1 l Hd eq_refl). f_equal. rewrite (desc_next prio 1 0 l Hd eq_refl).
  rewrite (filter_none (fun q => prio q < 0)); [by rewrite app_nil_r|]. intros q Hq. specialize (Hr q Hq). lia.
Qed.

(** ** Invariant *)

Abbreviation tasks_of s cpu := (mr_tasks (mv_rq s cpu)).
Abbreviation num_of s cpu := (mr_num (mv_rq s cpu)).

(** [queued p] is the run queue the scheduler core has [p] on. *)
Record mvp_wf (s : mvp_sys) (queued : Z -> option Z) : Prop := {
  wf_desc : forall cpu, desc (mvp_prio s) (tasks_of s cpu);
  wf_nodup : forall cpu, NoDup (tasks_of s cpu);
  wf_on : forall cpu p, p ∈ tasks_of s cpu <-> mv_on s p = Some cpu;
  wf_prio : forall p, if mvp_linked s p then 0 <= mvp_prio s p <= 4 else mvp_prio s p = WALT_NOT_MVP;
  wf_num : forall cpu, num_of s cpu = s32 (Z.of_nat (length (tasks_of s cpu)));
  wf_queued : forall cpu p, mv_on s p = Some cpu -> queued p = Some cpu;
  wf_ok : mv_corrupt s = false
}.

(** What an operation may do to the queues. *)
Record same_queues (s s' : mvp_sys) : Prop := {
  sq_prio : forall p, mvp_prio s' p = mvp_prio s p;
  sq_on : forall p, mv_on s' p = mv_on s p;
  sq_tasks : forall cpu, tasks_of s' cpu = tasks_of s cpu;
  sq_num : forall cpu, num_of s' cpu = num_of s cpu;
  sq_ok : mv_corrupt s' = mv_corrupt s
}.
Record joined (cpu p k : Z) (front : bool) (s s' : mvp_sys) : Prop := {
  jn_prio : forall q, mvp_prio s' q = if decide (q = p) then k else mvp_prio s q;
  jn_on : forall q, mv_on s' q = if decide (q = p) then Some cpu else mv_on s q;
  jn_tasks : forall c, tasks_of s' c = if decide (c = cpu) then mvp_place (mvp_prio s') front p (tasks_of s c)
                                       else tasks_of s c;
  jn_num : forall c, num_of s' c = if decide (c = cpu) then s32 (num_of s c + 1) else num_of s c;
  jn_ok : mv_corrupt s' = mv_corrupt s || mvp_linked s p
}.
Record left_queue (cpu p : Z) (s s' : mvp_sys) : Prop := {
  lq_prio : forall q, mvp_prio s' q = if decide (q = p) then WALT_NOT_MVP else mvp_prio s q;
  lq_on : forall q, mv_on s' q = if decide (q = p) then None else mv_on s q;
  lq_tasks : forall c, tasks_of s' c = if decide (c = cpu) then filter (fun q => q <> p) (tasks_of s c)
                                       else tasks_of s c;
  lq_num : forall c, num_of s' c = if decide (c = cpu) then s32 (num_of s c - 1) else num_of s c;
  lq_ok : mv_corrupt s' = mv_corrupt s
}.
Record rotated (cpu p : Z) (s s' : mvp_sys) : Prop := {
  rt_prio : forall q, mvp_prio s' q = mvp_prio s q;
  rt_on : forall q, mv_on s' q = mv_on s q;
  rt_tasks : forall c, tasks_of s' c = if decide (c = cpu)
                         then mvp_place (mvp_prio s) false p (filter (fun q => q <> p) (tasks_of s c))
                         else tasks_of s c;
  rt_num : forall c, num_of s' c = if decide (c = cpu) then s32 (s32 (num_of s c - 1) + 1) else num_of s c;
  rt_ok : mv_corrupt s' = mv_corrupt s
}.

Lemma s32_shift a b : s32 (s32 a + b) = s32 (a + b).
Proof.
  unfold s32, wraps. f_equal.
  replace ((a + 2 ^ (32 - 1)) mod 2 ^ 32 - 2 ^ (32 - 1) + b + 2 ^ (32 - 1)) with ((a + 2 ^ (32 - 1)) mod 2 ^ 32 + b) by ring.
  rewrite Zplus_mod_idemp_l. f_equal. ring.
Qed.

Lemma s32_shift_sub a b : s32 (s32 a - b) = s32 (a - b).
Proof. exact (s32_shift a (- b)). Qed.

Lemma removed_absent (p : Z) (l : list Z) : p ∉ filter (fun q => q <> p) l.
Proof. rewrite list_elem_of_filter. tauto. Qed.

Section Preserve.
Context (s s' : mvp_sys) (queued : Z -> option Z).
Hypothesis W : mvp_wf s queued.

Lemma linked_on p : mvp_linked s p = false <-> mv_on s p = None.
Proof. unfold mvp_linked. case_match; split; congruence. Qed.

Lemma unlinked_absent cpu p : mvp_linked s p = false -> p ∉ tasks_of s cpu.
Proof. intros H%linked_on Hp%(wf_on _ _ W). congruence. Qed.

Lemma linked_in cpu p : p ∈ tasks_of s cpu -> mvp_linked s p = true.
Proof. intros Hp%(wf_on _ _ W). unfold mvp_linked. by rewrite Hp. Qed.

Lemma elsewhere_absent cpu c p : mv_on s p = Some cpu -> c <> cpu -> p ∉ tasks_of s c.
Proof. intros H Hc Hp%(wf_on _ _ W). congruence. Qed.

Lemma wf_same : same_queues s s' -> mvp_wf s' queued.
Proof.
  intros [Ep Eo Et En Ek]. destruct W as [W1 W2 W3 W4 W5 W6 W7]. split; intros; rewrite ?Et, ?En, ?Ek; auto.
  - eapply desc_ext; [|apply W1]. auto.
  - rewrite Eo. auto.
  - unfold mvp_linked. rewrite Eo, Ep. apply W4.
  - apply W6. by rewrite <- Eo.
Qed.

Lemma wf_joined cpu p k front :
  joined cpu p k front s s' -> mvp_linked s p = false -> 0 <= k <= 4 -> queued p = Some cpu -> mvp_wf s' queued.
Proof.
  intros [Ep Eo Et En Ek] Hp Hk Hq. assert (forall c, p ∉ tasks_of s c) as Hn by (intros c; by apply unlinked_absent).
  destruct W as [W1 W2 W3 W4 W5 W6 W7].
  assert (forall c, desc (mvp_prio s') (tasks_of s c)) as Hd.
  { intros c. eapply desc_ext; [|apply W1]. intros q Hin. rewrite Ep, decide_False; [done|]. intros ->. by apply (Hn c). }
  split; intros.
  - rewrite Et. case_decide; [apply place_desc|]; apply Hd.
  - rewrite Et. case_decide; [apply place_nodup|]; auto.
  - rewrite Et, Eo. case_decide as E1; [rewrite place_elem|]; case_decide as E2; subst; rewrite ?W3; naive_solver.
  - unfold mvp_linked. rewrite Eo, Ep. case_decide; [done|]. apply W4.
  - rewrite En, Et. case_decide; [|done]. rewrite place_length, W5, s32_shift. f_equal. lia.
  - rewrite Eo in *. case_decide; [congruence|auto].
  - by rewrite Ek, W7, Hp.
Qed.

Lemma wf_left cpu p queued' :
  left_queue cpu p s s' -> mv_on s p = Some cpu -> (forall q, q <> p -> queued' q = queued q) -> mvp_wf s' queued'.
Proof.
  intros [Ep Eo Et En Ek] Hp Hq. pose proof (elsewhere_absent cpu) as Ha.
  destruct W as [W1 W2 W3 W4 W5 W6 W7]. split; intros.
  - eapply (desc_ext (mvp_prio s)).
    + intros q Hin. rewrite Ep, decide_False; [done|]. intros ->. rewrite Et in Hin. case_decide; [by apply removed_absent in Hin|].
      by eapply Ha.
    + rewrite Et. case_decide; [apply remove_desc|]; auto.
  - rewrite Et. case_decide; [apply NoDup_filter|]; auto.
  - rewrite Et, Eo. destruct (decide (p0 = p)) as [->|Hne].
    + split; [|done]. case_decide; [by intros ?%removed_absent|]. intros Hin. exfalso. by eapply Ha.
    + rewrite <- W3. case_decide; [|done]. rewrite list_elem_of_filter. tauto.
  - unfold mvp_linked. rewrite Eo, Ep. case_decide; [done|]. apply W4.
  - rewrite En, Et. case_decide; [|done]. subst. rewrite W5, s32_shift_sub. f_equal.
    rewrite <- (remove_length p (tasks_of s cpu)); [lia|auto|]. by apply W3.
  - rewrite Eo in *. case_decide; [done|]. rewrite Hq by done. auto.
  - by rewrite Ek.
Qed.

Lemma wf_rotated cpu p : rotated cpu p s s' -> mv_on s p = Some cpu -> mvp_wf s' queued.
Proof.
  intros [Ep Eo Et En Ek] Hp. destruct W as [W1 W2 W3 W4 W5 W6 W7].
  split; intros; rewrite ?Et, ?En, ?Ek; auto.
  - eapply (desc_ext (mvp_prio s)); [auto|]. case_decide; [apply place_desc, remove_desc|]; auto.
  - case_decide; [apply place_nodup; [apply removed_absent|apply NoDup_filter]|]; auto.
  - rewrite Eo. case_decide; [|auto]. subst. rewrite place_elem, list_elem_of_filter, W3.
    destruct (decide (p0 = p)) as [->|]; tauto.
  - unfold mvp_linked. rewrite Eo, Ep. apply W4.
  - case_decide; [|auto]. subst. rewrite W5, place_length, s32_shift_sub, s32_shift. f_equal.
    rewrite <- (remove_length p (tasks_of s cpu)); [lia|auto|]. by apply W3.
  - rewrite Eo in *. auto.
Qed.
End Preserve.

(** ** What the operations do *)

Ltac mvp_unfold :=
  unfold set_ots_mvp, on_mvp_rq, on_mvp_wts, on_mvp_exec, mvp_linked, mvp_prio, insert, fn_insert in *.
Ltac mvp_cases := intros; mvp_unfold; cbn; repeat (case_decide; subst); cbn; try done; try congruence.

Lemma same_refl s : same_queues s s.
Proof. by split. Qed.

Lemma same_trans s1 s2 s3 : same_queues s1 s2 -> same_queues s2 s3 -> same_queues s1 s3.
Proof. intros [] []. split; intros; congruence. Qed.

Lemma same_rq cpu f s :
  (forall r, mr_tasks (f r) = mr_tasks r /\ mr_num (f r) = mr_num r) -> same_queues s (on_mvp_rq cpu f s).
Proof. intros H. mvp_unfold. split; cbn; try done; mvp_cases; apply H. Qed.

Lemma same_exec p f s : same_queues s (on_mvp_exec p f s).
Proof. by split. Qed.

Lemma same_wts p f s : t_mvp_prio (f (mv_wts s p)) = mvp_prio s p -> same_queues s (on_mvp_wts p f s).
Proof. intros H. mvp_unfold. split; cbn; try done. mvp_cases. Qed.

Lemma same_picked e cpu p prev s : same_queues s (check_picked e cpu p prev s).
Proof. unfold check_picked. repeat case_match; by split. Qed.

Lemma throttle_same clock r :
  mr_tasks (mvp_throttle clock r) = mr_tasks r /\ mr_num (mvp_throttle clock r) = mr_num r.
Proof. unfold mvp_throttle. repeat case_match; done. Qed.

Lemma boost_keeps_prio e t : t_mvp_prio (per_task_boost e t).1 = t_mvp_prio t.
Proof. unfold per_task_boost, expire_boost. cbn. by case_match. Qed.

Lemma prio_same e p s : same_queues s (walt_get_mvp_task_prio e p s).1.
Proof.
  unfold walt_get_mvp_task_prio. repeat (case_match; [apply same_refl|]).
  destruct (per_task_boost _ _) as [t b] eqn:E. cbn. apply same_wts.
  pose proof (boost_keeps_prio (ve_fit e) (mv_wts s p)) as K. by rewrite E in K.
Qed.

Lemma prio_range e p s :
  -1 <= (walt_get_mvp_task_prio e p s).2 <= 4.
Proof.
  unfold walt_get_mvp_task_prio, WALT_NOT_MVP, WALT_PIPELINE_MVP, WALT_LL_MVP, WALT_TASK_BOOST_MVP, WALT_BINDER_MVP, WALT_RTG_MVP.
  repeat (case_match; [cbn; lia|]). destruct (per_task_boost _ _) as [t b]. cbn. repeat case_match; lia.
Qed.

Lemma insert_joined e cpu p k front s :
  joined cpu p k front s (walt_cfs_insert_mvp_task e cpu p front (on_mvp_wts p (fun t => t <| t_mvp_prio := k |>) s)).
Proof.
  unfold walt_cfs_insert_mvp_task. mvp_unfold. destruct (ve_assist e && ve_ots e p); split; cbn; try done; mvp_cases.
Qed.

Lemma deactivate_left e cpu p s :
  mv_on s p = Some cpu -> left_queue cpu p s (walt_cfs_deactivate_mvp_task e cpu p s).
Proof.
  intros H. unfold walt_cfs_deactivate_mvp_task, mvp_unlink. rewrite H. mvp_unfold.
  destruct (ve_assist e && ve_ots e p); split; cbn; try done; mvp_cases.
Qed.

Definition mvp_rotate (e : mvp_env) (cpu p : Z) (s : mvp_sys) : mvp_sys :=
  walt_cfs_insert_mvp_task e cpu p false
    (on_mvp_rq cpu (fun r => r <| mr_num := s32 (mr_num r - 1) |>) (mvp_unlink p s)).

Lemma rotate_rotated e cpu p s : mv_on s p = Some cpu -> rotated cpu p s (mvp_rotate e cpu p s).
Proof.
  intros H. unfold mvp_rotate, walt_cfs_insert_mvp_task, mvp_unlink. rewrite H. mvp_unfold.
  destruct (ve_assist e && ve_ots e p); split; cbn; try done; mvp_cases; apply orb_false_r.
Qed.

(** The effects, up to changes that do not touch the queues. *)
Inductive queue_effect (s s' : mvp_sys) : Prop :=
| eff_same : same_queues s s' -> queue_effect s s'
| eff_join cpu p k front :
    joined cpu p k front s s' -> mvp_linked s p = false -> 0 <= k <= 4 -> queue_effect s s'
| eff_left cpu p : left_queue cpu p s s' -> mv_on s p = Some cpu -> queue_effect s s'
| eff_rotate cpu p : rotated cpu p s s' -> mv_on s p = Some cpu -> queue_effect s s'.

Lemma place_ext prio prio' front p l :
  (forall q, prio' q = prio q) -> mvp_place prio front p l = mvp_place prio' front p l.
Proof. intros E. induction l as [|q l IH]; [done|]. cbn [mvp_place]. by rewrite !E, IH. Qed.

Lemma joined_same cpu p k front s s1 s2 s3 :
  same_queues s s1 -> joined cpu p k front s1 s2 -> same_queues s2 s3 -> joined cpu p k front s s3.
Proof.
  intros [A1 A2 A3 A4 A5] [B1 B2 B3 B4 B5] [C1 C2 C3 C4 C5]. split; intros.
  - by rewrite C1, B1, A1.
  - by rewrite C2, B2, A2.
  - rewrite C3, B3, A3. case_decide; [|done]. apply place_ext. intros. by rewrite C1.
  - by rewrite C4, B4, A4.
  - rewrite C5, B5, A5. unfold mvp_linked. by rewrite A2.
Qed.

Lemma left_same cpu p s s1 s2 s3 :
  same_queues s s1 -> left_queue cpu p s1 s2 -> same_queues s2 s3 -> left_queue cpu p s s3.
Proof.
  intros [A1 A2 A3 A4 A5] [B1 B2 B3 B4 B5] [C1 C2 C3 C4 C5]. split; intros.
  - by rewrite C1, B1, A1.
  - by rewrite C2, B2, A2.
  - by rewrite C3, B3, A3.
  - by rewrite C4, B4, A4.
  - congruence.
Qed.

Lemma rotated_same cpu p s s1 s2 s3 :
  same_queues s s1 -> rotated cpu p s1 s2 -> same_queues s2 s3 -> rotated cpu p s s3.
Proof.
  intros [A1 A2 A3 A4 A5] [B1 B2 B3 B4 B5] [C1 C2 C3 C4 C5]. split; intros.
  - by rewrite C1, B1, A1.
  - by rewrite C2, B2, A2.
  - rewrite C3, B3, A3. case_decide; [|done]. apply place_ext. intros. by rewrite A1.
  - by rewrite C4, B4, A4.
  - congruence.
Qed.

Lemma effect_same s s1 s2 s3 :
  same_queues s s1 -> queue_effect s1 s2 -> same_queues s2 s3 -> queue_effect s s3.
Proof.
  intros A E C. destruct E as [B|cpu p k front B Hl Hk|cpu p B Ho|cpu p B Ho].
  - apply eff_same. eauto using same_trans.
  - eapply eff_join; [by eapply joined_same| |done]. unfold mvp_linked in *. by rewrite <- (sq_on _ _ A).
  - eapply eff_left; [by eapply left_same|]. by rewrite <- (sq_on _ _ A).
  - eapply eff_rotate; [by eapply rotated_same|]. by rewrite <- (sq_on _ _ A).
Qed.

(** What the accounting does before it looks at the slice. *)
Definition mvp_charge (e : mvp_env) (cpu curr : Z) (s : mvp_sys) : mvp_sys :=
  on_mvp_exec curr (fun x => x <| mx_total := exec_since (ve_sum_exec e curr) (mx_snap x) |>)
    (on_mvp_rq cpu (mvp_throttle (ve_clock e)) s).

Lemma charge_same e cpu curr s : same_queues s (mvp_charge e cpu curr s).
Proof. eapply same_trans; [apply same_rq, throttle_same|apply same_exec]. Qed.

Lemma account_moves e cpu curr s :
  mv_on s curr = Some cpu ->
  let s' := walt_cfs_account_mvp_runtime e cpu curr s in
  same_queues s s' \/ left_queue cpu curr s s' \/ rotated cpu curr s s'.
Proof.
  intros Ho. cbv zeta. unfold walt_cfs_account_mvp_runtime. fold (mvp_charge e cpu curr s).
  pose proof (charge_same e cpu curr s) as A. set (s1 := mvp_charge e cpu curr s) in *.
  case_match; [by left|].
  set (s2 := on_mvp_exec curr _ s1). assert (same_queues s s2) as B by (eapply same_trans; [exact A|apply same_exec]).
  assert (mv_on s2 curr = Some cpu) as Ho2 by (by rewrite (sq_on _ _ B)).
  case_match; [|case_match; [by left|]]; right.
  - left. eapply left_same; [exact B|by apply deactivate_left|apply same_refl].
  - right. fold (mvp_rotate e cpu curr s2). eapply rotated_same; [exact B|by apply rotate_rotated|apply same_refl].
Qed.

Lemma account_effect e cpu curr s :
  mv_on s curr = Some cpu -> queue_effect s (walt_cfs_account_mvp_runtime e cpu curr s).
Proof.
  intros Ho. destruct (account_moves e cpu curr s Ho) as [A|[A|A]];
    [by apply eff_same|by eapply eff_left|by eapply eff_rotate].
Qed.

Lemma enqueue_effect e cpu p s :
  mvp_linked s p = false ->
  let s' := walt_cfs_enqueue_task e cpu p s in
  same_queues s s' \/ exists k front, joined cpu p k front s s' /\ 0 <= k <= 4.
Proof.
  intros Hl. cbv zeta. unfold walt_cfs_enqueue_task.
  pose proof (prio_same e p s) as A. pose proof (prio_range e p s) as R.
  destruct (walt_get_mvp_task_prio e p s) as [s1 k]. cbn [fst snd] in A, R. unfold WALT_NOT_MVP.
  destruct (k =? -1) eqn:Ek; [by left|]. destruct (_ <? _); [by left|].
  right. exists k, (ve_task_on_cpu e p). split; [|lia].
  eapply joined_same; [exact A|apply insert_joined|]. case_match; [apply same_exec|apply same_refl].
Qed.

(** ** Steps *)

(** The hooks of the scheduler on any CPUs. The core enqueues a task that is on no run
    queue, and the task that runs on a CPU is on the run queue of that CPU, or on none (the
    idle task). Other parts of the module write other fields of a task ([st_outside]). *)
Inductive mvp_step (e : mvp_env) : mvp_sys * (Z -> option Z) -> mvp_sys * (Z -> option Z) -> Prop :=
| st_enqueue cpu p s q : q p = None -> mvp_step e (s, q) (walt_cfs_enqueue_task e cpu p s, <[p := Some cpu]> q)
| st_dequeue cpu p s q : q p = Some cpu -> mvp_step e (s, q) (walt_cfs_dequeue_task e cpu p s, <[p := None]> q)
| st_tick cpu curr s q : q curr = Some cpu \/ q curr = None -> mvp_step e (s, q) ((walt_cfs_tick e cpu curr s).1, q)
| st_wakeup cpu curr p s q :
    q curr = Some cpu \/ q curr = None -> mvp_step e (s, q) ((walt_cfs_check_preempt_wakeup_fair e cpu curr p s).1, q)
| st_pick cpu p prev s q : mvp_step e (s, q) ((walt_cfs_replace_next_task_fair e cpu p prev s).1, q)
| st_switch cpu both_scx fair s q : mvp_step e (s, q) (mvp_switch e cpu both_scx fair s, q)
| st_yield cpu curr s q : q curr = Some cpu \/ q curr = None -> mvp_step e (s, q) (mvp_yield e cpu curr s, q)
| st_binder_set current task b s q : mvp_step e (s, q) ((binder_set_priority_hook e current task b s).2, q)
| st_binder_restore task b s q : mvp_step e (s, q) (binder_restore_priority_hook e task b s, q)
| st_outside p f s q :
    t_mvp_prio (f (mv_wts s p)) = mvp_prio s p -> mvp_step e (s, q) (on_mvp_wts p f s, q).

Lemma wf_requeue s q q' :
  mvp_wf s q -> (forall cpu p, mv_on s p = Some cpu -> q' p = Some cpu) -> mvp_wf s q'.
Proof. intros [] H. split; auto. Qed.

Lemma wf_effect s s' q q' :
  mvp_wf s q -> queue_effect s s' -> (forall cpu p, mv_on s' p = Some cpu -> q' p = Some cpu) -> mvp_wf s' q'.
Proof.
  intros W E H. apply (wf_requeue s' (mv_on s')); [|done].
  assert (mvp_wf s (mv_on s)) as W0 by (by eapply wf_requeue).
  destruct E as [B|cpu p k front B Hl Hk|cpu p B Ho|cpu p B Ho].
  - apply (wf_requeue s' (mv_on s)); [by eapply wf_same|]. intros c x. by rewrite (sq_on _ _ B).
  - apply (wf_joined s s' (mv_on s')) with cpu p k front; try done.
    + eapply wf_requeue; [exact W0|]. intros c x Hx. rewrite (jn_on _ _ _ _ _ _ B), decide_False; [done|].
      intros ->. apply linked_on in Hl. congruence.
    + by rewrite (jn_on _ _ _ _ _ _ B), decide_True.
  - eapply wf_left; [exact W0|exact B|done|]. intros x Hx. by rewrite (lq_on _ _ _ _ B), decide_False.
  - apply (wf_requeue s' (mv_on s)); [by eapply wf_rotated|]. intros c x. by rewrite (rt_on _ _ _ _ B).
Qed.

Lemma current_here s q cpu curr :
  mvp_wf s q -> q curr = Some cpu \/ q curr = None -> mvp_linked s curr = true -> mv_on s curr = Some cpu.
Proof.
  intros W Hc Hl. unfold mvp_linked in Hl. destruct (mv_on s curr) as [c|] eqn:E; [|done].
  apply (wf_queued _ _ W) in E. destruct Hc; congruence.
Qed.

Lemma pick_same e cpu p prev s : same_queues s (walt_cfs_replace_next_task_fair e cpu p prev s).1.
Proof.
  unfold walt_cfs_replace_next_task_fair. repeat (case_match; [apply same_refl|]).
  pose proof (same_picked e cpu p prev s) as A. set (s1 := check_picked e cpu p prev s) in *.
  case_match; [done|]. destruct (mr_tasks (mv_rq s1 cpu)) as [|m l]; cbn [fst].
  - eapply same_trans; [exact A|]. by apply same_rq.
  - eapply same_trans; [|apply same_picked]. eapply same_trans; [exact A|].
    case_match; [by apply same_rq|apply same_refl].
Qed.

Lemma binder_set_same e current task b s : same_queues s (binder_set_priority_hook e current task b s).2.
Proof.
  unfold binder_set_priority_hook. case_match; [apply same_refl|].
  set (x := match b with Some t => _ | None => _ end).
  assert (same_queues s x.2) as A.
  { unfold x. destruct b as [t|]; [|apply same_refl]. case_match; [by apply same_wts|apply same_refl]. }
  destruct x as [b1 s1]. cbn [snd] in A. case_match; [done|].
  set (y := if task_in_related_thread_group _ && _ then _ else _).
  assert (same_queues s y.1) as B.
  { eapply same_trans; [exact A|]. unfold y. case_match; [apply same_refl|].
    pose proof (prio_same e current s1) as C. destruct (walt_get_mvp_task_prio e current s1). exact C. }
  destruct y as [s2 low]. cbn [fst snd] in *. eapply same_trans; [exact B|]. apply same_wts. by destruct low.
Qed.

(** An effect of a hook that puts no task on a queue. *)
Definition quiet (s s' : mvp_sys) : Prop :=
  queue_effect s s' /\ forall c x, mv_on s' x = Some c -> mv_on s x = Some c.

Lemma quiet_same s s' : same_queues s s' -> quiet s s'.
Proof. intros A. split; [by apply eff_same|]. intros c x. by rewrite (sq_on _ _ A). Qed.

Lemma quiet_left e cpu p s : mv_on s p = Some cpu -> quiet s (walt_cfs_deactivate_mvp_task e cpu p s).
Proof.
  intros Ho. pose proof (deactivate_left e cpu p s Ho) as A. split; [by eapply eff_left|].
  intros c x. rewrite (lq_on _ _ _ _ A). by case_decide.
Qed.

Lemma quiet_account e cpu p s : mv_on s p = Some cpu -> quiet s (walt_cfs_account_mvp_runtime e cpu p s).
Proof.
  intros Ho. split; [by apply account_effect|]. intros c x.
  destruct (account_moves e cpu p s Ho) as [A|[A|A]].
  - by rewrite (sq_on _ _ A).
  - rewrite (lq_on _ _ _ _ A). by case_decide.
  - by rewrite (rt_on _ _ _ _ A).
Qed.

Lemma quiet_queued s s' q :
  mvp_wf s q -> quiet s s' -> queue_effect s s' /\ forall cpu p, mv_on s' p = Some cpu -> q p = Some cpu.
Proof. intros W (A & B). split; [done|]. intros c x Hx. by apply (wf_queued _ _ W), B. Qed.

Lemma step_effect e s q s' q' :
  mvp_wf s q -> mvp_step e (s, q) (s', q') ->
  queue_effect s s' /\ forall cpu p, mv_on s' p = Some cpu -> q' p = Some cpu.
Proof.
  intros W H. inversion H; subst; clear H; cbn [fst snd].
  - (* enqueue *)
    assert (mv_on s p = None) as Hn.
    { destruct (mv_on s p) eqn:E; [|done]. apply (wf_queued _ _ W) in E. congruence. }
    destruct (enqueue_effect e cpu p s) as [A|(k & front & A & Hk)]; [by apply linked_on| |].
    + split; [by apply eff_same|]. intros c x. rewrite (sq_on _ _ A). unfold insert, fn_insert. intros Hx.
      case_decide; [congruence|]. by apply (wf_queued _ _ W).
    + split; [eapply eff_join; [exact A|by apply linked_on|done]|]. intros c x. rewrite (jn_on _ _ _ _ _ _ A).
      unfold insert, fn_insert. repeat case_decide; try congruence. apply (wf_queued _ _ W).
  - (* dequeue *)
    unfold walt_cfs_dequeue_task. set (s1 := if mvp_linked s p then _ else s).
    assert (queue_effect s s1 /\ mv_on s1 p = None /\ forall x, x <> p -> mv_on s1 x = mv_on s x) as (A & B & C).
    { unfold s1. destruct (mvp_linked s p) eqn:El; [|split_and!; [apply eff_same, same_refl|by apply linked_on|done]].
      assert (mv_on s p = Some cpu) as Ho by (eapply current_here; eauto).
      pose proof (deactivate_left e cpu p s Ho) as D. split_and!.
      - by eapply eff_left.
      - by rewrite (lq_on _ _ _ _ D), decide_True.
      - intros x Hx. by rewrite (lq_on _ _ _ _ D), decide_False. }
    assert (forall c x, mv_on s1 x = Some c -> (<[p:=None]> q : Z -> option Z) x = Some c) as D.
    { intros c x Hx. unfold insert, fn_insert. case_decide; [congruence|]. apply (wf_queued _ _ W). by rewrite <- C. }
    case_match; [by split|]. split; [|exact D]. eapply effect_same; [apply same_refl|exact A|apply same_exec].
  - unfold walt_cfs_tick. repeat (case_match; [by apply quiet_queued, quiet_same, same_refl|]). cbn [fst].
    apply quiet_queued, quiet_account; [done|]. eapply current_here; eauto. by apply negb_false_iff.
  - unfold walt_cfs_check_preempt_wakeup_fair. repeat (case_match; [by apply quiet_queued, quiet_same, same_refl|]).
    cbn [fst]. apply quiet_queued, quiet_account; [done|]. eapply current_here; eauto. by apply negb_false_iff.
  - by apply quiet_queued, quiet_same, pick_same.
  - apply quiet_queued, quiet_same; [done|]. unfold mvp_switch. repeat (case_match; [apply same_refl|]). by apply same_rq.
  - apply quiet_queued; [done|]. unfold mvp_yield. case_match; [apply quiet_same, same_refl|].
    destruct (_ && _) eqn:E; [|apply quiet_same, same_refl]. apply andb_true_iff in E as (E & _).
    apply quiet_left. eapply current_here; eauto.
  - by apply quiet_queued, quiet_same, binder_set_same.
  - apply quiet_queued, quiet_same; [done|]. unfold binder_restore_priority_hook. repeat (case_match; try apply same_refl).
    by apply same_wts.
  - by apply quiet_queued, quiet_same, same_wts.
Qed.

Definition hook_step (st st' : mvp_sys * (Z -> option Z)) : Prop := exists e, mvp_step e st st'.

Lemma init_wf : mvp_wf mvp_init (fun _ => None).
Proof. split; try done; intros; [constructor|constructor|set_solver]. Qed.

Lemma step_wf e s q s' q' : mvp_wf s q -> mvp_step e (s, q) (s', q') -> mvp_wf s' q'.
Proof. intros W H. destruct (step_effect _ _ _ _ _ W H) as (E & Q). by eapply wf_effect. Qed.

Lemma run_wf st st' : rtc hook_step st st' -> mvp_wf st.1 st.2 -> mvp_wf st'.1 st'.2.
Proof.
  induction 1 as [|[s q] [s1 q1] [s2 q2] (e & H) _ IH]; [done|]. intros W. by eapply IH, step_wf.
Qed.

(** ** The abstract queue

    By CPU and priority, a first-in first-out list: a task joins a class at its end, or in
    front when it is running; it leaves; or its turn is over and it goes to the end. *)
Definition aqueue := Z -> Z -> list Z.
Inductive aq_step (A A' : aqueue) : Prop :=
| aq_idle : (forall c k, A' c k = A c k) -> aq_step A A'
| aq_join cpu p k (front : bool) :
    (forall c j, p ∉ A c j) ->
    (forall c j, A' c j = if decide (c = cpu /\ j = k) then if front then p :: A c j else A c j ++ [p] else A c j) ->
    aq_step A A'
| aq_leave p : (forall c k, A' c k = filter (fun q => q <> p) (A c k)) -> aq_step A A'
| aq_turn cpu p k :
    p ∈ A cpu k ->
    (forall c j, A' c j = if decide (c = cpu /\ j = k) then filter (fun q => q <> p) (A c j) ++ [p] else A c j) ->
    aq_step A A'.

Definition aq_of (s : mvp_sys) : aqueue := fun c k => class_of (mvp_prio s) k (tasks_of s c).

Lemma class_elem prio k l q : q ∈ class_of prio k l <-> prio q = k /\ q ∈ l.
Proof. unfold class_of. by rewrite list_elem_of_filter. Qed.

Lemma effect_aq s s' q : mvp_wf s q -> queue_effect s s' -> aq_step (aq_of s) (aq_of s').
Proof.
  intros W E. unfold aq_of. destruct E as [B|cpu p k front B Hl Hk|cpu p B Ho|cpu p B Ho].
  - apply aq_idle. intros c k. rewrite (sq_tasks _ _ B). apply class_ext. intros x _. apply (sq_prio _ _ B).
  - assert (forall c, p ∉ tasks_of s c) as Hn by (intros c; by eapply unlinked_absent).
    assert (forall c x, x ∈ tasks_of s c -> mvp_prio s' x = mvp_prio s x) as Hp.
    { intros c x Hx. rewrite (jn_prio _ _ _ _ _ _ B), decide_False; [done|]. intros ->. by apply (Hn c). }
    apply (aq_join _ _ cpu p k front); [intros c j; rewrite class_elem; naive_solver|].
    intros c j. rewrite (jn_tasks _ _ _ _ _ _ B). rewrite <- (class_ext _ _ j _ (Hp c)).
    destruct (decide (c = cpu)) as [->|Hc]; [|by rewrite decide_False by tauto].
    rewrite place_class by (eapply desc_ext; [apply Hp|apply (wf_desc _ _ W)]).
    rewrite (jn_prio _ _ _ _ _ _ B p), (decide_True (P := p = p)) by done. repeat case_decide; try done; naive_solver.
  - apply (aq_leave _ _ p). intros c k. rewrite (lq_tasks _ _ _ _ B).
    assert (class_of (mvp_prio s') k (filter (fun x => x <> p) (tasks_of s c)) =
            filter (fun x => x <> p) (class_of (mvp_prio s) k (tasks_of s c))) as Hf.
    { rewrite <- class_remove. apply class_ext. intros x (Hx & _)%list_elem_of_filter.
      by rewrite (lq_prio _ _ _ _ B), decide_False. }
    case_decide; [done|]. rewrite <- Hf. f_equal. symmetry. apply remove_absent. by eapply elsewhere_absent.
  - apply (aq_turn _ _ cpu p (mvp_prio s p)); [apply class_elem; split; [done|by apply (wf_on _ _ W)]|].
    intros c j. rewrite (rt_tasks _ _ _ _ B), (class_ext (mvp_prio s)) by (intros; apply (rt_prio _ _ _ _ B)).
    destruct (decide (c = cpu)) as [->|Hc]; [|by rewrite decide_False by tauto].
    rewrite place_class by (apply remove_desc, (wf_desc _ _ W)). rewrite class_remove.
    repeat case_decide; try done; try tauto. apply remove_absent. rewrite class_elem. naive_solver.
Qed.

Lemma run_aq st st' : rtc hook_step st st' -> mvp_wf st.1 st.2 -> rtc aq_step (aq_of st.1) (aq_of st'.1).
Proof.
  induction 1 as [|[s q] [s1 q1] [s2 q2] (e & H) _ IH]; intros W; [apply rtc_refl|].
  destruct (step_effect _ _ _ _ _ W H) as (E & Q). eapply rtc_l; [by eapply effect_aq|].
  apply IH. by eapply wf_effect.
Qed.

(** The pick is the first task of the queue, if there is one. *)
Lemma pick_first e cpu p prev s :
  ve_assist e = false -> ve_disabled e = false -> mr_skip (mv_rq s cpu) = false ->
  (walt_cfs_replace_next_task_fair e cpu p prev s).2 =
    match mvp_first s cpu with Some m => Some m | None => p end.
Proof.
  intros Ea Ed Es. unfold walt_cfs_replace_next_task_fair, mvp_first. rewrite Ea, Ed.
  assert (mv_rq (check_picked e cpu p prev s) = mv_rq s) as ->.
  { unfold check_picked. repeat case_match; done. }
  rewrite Es. by destruct (mr_tasks (mv_rq s cpu)).
Qed.


(** Task 7 is low latency, task 8 of a pipeline; both wake up on CPU 4. *)
Definition demo_ve (clock sum : Z) : mvp_env :=
  mk_ve demo_fit false false 100 clock (fun _ => sum) (fun _ => false) (fun _ => true) (fun _ => 0) (fun _ => 1)
    (fun _ => 120) 2 (fun _ => false) (fun _ _ => CfsDecides) (fun _ p => p).
Definition demo_mvp1 : mvp_sys := on_mvp_wts 7 (set_low_latency WALT_LOW_LATENCY_PROCFS_BIT) mvp_init.
Definition demo_mvp2 : mvp_sys := walt_cfs_enqueue_task (demo_ve 1 0) 4 7 demo_mvp1.
Definition demo_mvp3 : mvp_sys := on_mvp_wts 8 (set_low_latency WALT_LOW_LATENCY_PIPELINE_BIT) demo_mvp2.
Definition demo_mvp4 : mvp_sys := walt_cfs_enqueue_task (demo_ve 2 0) 4 8 demo_mvp3.
Definition demo_mvp5 : mvp_sys := (walt_cfs_tick (demo_ve 3 1000000) 4 8 demo_mvp4).1.
Definition demo_q1 : Z -> option Z := <[7 := Some 4]> (fun _ => None).
Definition demo_q2 : Z -> option Z := <[8 := Some 4]> demo_q1.

Lemma demo_mvp_run : rtc hook_step (mvp_init, fun _ => None) (demo_mvp5, demo_q2).
Proof.
  apply (rtc_l _ _ (demo_mvp1, fun _ => None));
    [exists (demo_ve 1 0); exact (st_outside _ 7 (set_low_latency WALT_LOW_LATENCY_PROCFS_BIT) mvp_init _ eq_refl)|].
  apply (rtc_l _ _ (demo_mvp2, demo_q1)); [exists (demo_ve 1 0); exact (st_enqueue _ 4 7 demo_mvp1 _ eq_refl)|].
  apply (rtc_l _ _ (demo_mvp3, demo_q1));
    [exists (demo_ve 2 0); exact (st_outside _ 8 (set_low_latency WALT_LOW_LATENCY_PIPELINE_BIT) demo_mvp2 _ eq_refl)|].
  apply (rtc_l _ _ (demo_mvp4, demo_q2)); [exists (demo_ve 2 0); exact (st_enqueue _ 4 8 demo_mvp3 _ eq_refl)|].
  apply rtc_once. exists (demo_ve 3 1000000). exact (st_tick _ 4 8 demo_mvp4 demo_q2 (or_introl eq_refl)).
Qed.


(** ** Turns *)

(** The first task of the queue is accounted for when its slice is over. *)
Inductive turns (cpu : Z) : nat -> mvp_sys -> mvp_sys -> Prop :=
| turns_zero s : turns cpu 0 s s
| turns_next e c n s s' :
    mvp_first s cpu = Some c ->
    mvp_slice s c <= exec_since (ve_sum_exec e c) (mx_slice (mv_exec s c)) ->
    turns cpu n (walt_cfs_account_mvp_runtime e cpu c s) s' -> turns cpu (S n) s s'.

Lemma charge_slice e cpu c s :
  mvp_slice (mvp_charge e cpu c s) c = mvp_slice s c /\
  mx_slice (mv_exec (mvp_charge e cpu c s) c) = mx_slice (mv_exec s c).
Proof.
  unfold mvp_slice. rewrite (sq_prio _ _ (charge_same e cpu c s)). split; [done|].
  unfold mvp_charge. mvp_unfold. cbn. by rewrite decide_True.
Qed.

(** A task whose slice is over leaves, or goes to the end of its class. *)
Lemma account_expired e cpu c s q :
  mvp_wf s q -> mv_on s c = Some cpu -> (1 < length (mr_tasks (mv_rq s cpu)))%nat ->
  Z.of_nat (length (mr_tasks (mv_rq s cpu))) < 2 ^ 31 ->
  mvp_slice s c <= exec_since (ve_sum_exec e c) (mx_slice (mv_exec s c)) ->
  let s' := walt_cfs_account_mvp_runtime e cpu c s in left_queue cpu c s s' \/ rotated cpu c s s'.
Proof.
  intros W Ho H1 H2 Hs. cbv zeta. unfold walt_cfs_account_mvp_runtime. fold (mvp_charge e cpu c s).
  destruct (charge_slice e cpu c s) as (E1 & E2).
  pose proof (charge_same e cpu c s) as A. set (s1 := mvp_charge e cpu c s) in *.
  rewrite E1, E2. destruct (_ <? _) eqn:El; [lia|]. clear El.
  set (s2 := on_mvp_exec c _ s1). assert (same_queues s s2) as B by (eapply same_trans; [exact A|apply same_exec]).
  assert (mv_on s2 c = Some cpu) as Ho2 by (by rewrite (sq_on _ _ B)).
  case_match; [left; eapply left_same; [exact B|by apply deactivate_left|apply same_refl]|].
  rewrite (sq_num _ _ B), (wf_num _ _ W), s32_small by lia. destruct (_ =? 1) eqn:E; [lia|].
  right. fold (mvp_rotate e cpu c s2). eapply rotated_same; [exact B|by apply rotate_rotated|apply same_refl].
Qed.

Lemma place_after prio c l1 t l2 :
  (forall x, x ∈ l1 ++ [t] -> prio x = prio c) -> mvp_place prio false c (l1 ++ t :: l2) = l1 ++ t :: mvp_place prio false c l2.
Proof.
  induction l1 as [|x l1 IH]; intros H; cbn [app mvp_place].
  - assert (prio t = prio c) as -> by (apply H; set_solver). by rewrite Z.ltb_irrefl.
  - rewrite (H x) by set_solver. rewrite Z.ltb_irrefl, IH; [done|]. set_solver.
Qed.

(** C23. Round robin: when the slices of the tasks ahead of a task of the highest class on
    the queue end one after the other, each of them leaves the queue or goes behind it,
    so that after as many turns as there are tasks ahead it is the first one. *)
Theorem turn_comes cpu n s s' q l1 t l2 :
  mvp_wf s q -> turns cpu n s s' ->
  mr_tasks (mv_rq s cpu) = l1 ++ t :: l2 -> length l1 = n -> (forall x, x ∈ l1 -> mvp_prio s x = mvp_prio s t) ->
  Z.of_nat (length (mr_tasks (mv_rq s cpu))) < 2 ^ 31 ->
  mvp_first s' cpu = Some t.
Proof.
  intros W H. revert l1 l2 W. induction H as [s|e c n s s' Hf Hs _ IH]; intros l1 l2 W El Hn Hp Hb.
  - destruct l1; [|done]. unfold mvp_first. by rewrite El.
  - destruct l1 as [|c' l1]; [done|]. unfold mvp_first in Hf. rewrite El in Hf. injection Hf as ->.
    pose proof (wf_nodup _ _ W cpu) as Hd. rewrite El in Hd. cbn [app] in Hd. apply list.NoDup_cons in Hd as (Hc & Hd).
    assert (mv_on s c = Some cpu) as Ho by (apply (wf_on _ _ W); rewrite El; set_solver).
    assert (c <> t) as Hct by set_solver.
    assert (forall x, x ∈ l1 -> x <> c) as Hne by set_solver.
    destruct (account_expired e cpu c s q W Ho) as [A|A]; [rewrite El; cbn; rewrite length_app; cbn; lia|done|done| |].
    + apply (IH l1 l2); [by eapply wf_left| | | |].
      * rewrite (lq_tasks _ _ _ _ A), decide_True, El by done. cbn [app]. rewrite filter_cons_False by tauto.
        by apply remove_absent.
      * by injection Hn.
      * intros x Hx. rewrite !(lq_prio _ _ _ _ A), !decide_False by (done || by apply Hne). apply Hp. set_solver.
      * rewrite (lq_tasks _ _ _ _ A), decide_True by done. pose proof (length_filter (fun x => x <> c) (mr_tasks (mv_rq s cpu))). lia.
    + assert (mr_tasks (mv_rq (walt_cfs_account_mvp_runtime e cpu c s) cpu) = l1 ++ t :: mvp_place (mvp_prio s) false c l2) as Ht.
      { rewrite (rt_tasks _ _ _ _ A), decide_True, El by done. cbn [app]. rewrite filter_cons_False by tauto.
        rewrite remove_absent by done. apply place_after. intros x [Hx| ->%list_elem_of_singleton]%elem_of_app.
        - rewrite (Hp c), (Hp x) by set_solver. done.
        - symmetry. apply Hp. set_solver. }
      apply (IH l1 (mvp_place (mvp_prio s) false c l2)); [by eapply wf_rotated|done|by injection Hn| |].
      * intros x Hx. rewrite !(rt_prio _ _ _ _ A). apply Hp. set_solver.
      * rewrite Ht. rewrite El in Hb. cbn [app] in Hb. rewrite !length_app, ?length_cons, !length_app, !length_cons in *. rewrite place_length. lia.
Qed.

(** Task 6 joins the class of task 7. *)
Definition demo_mvp6 : mvp_sys := on_mvp_wts 6 (set_low_latency WALT_LOW_LATENCY_PROCFS_BIT) demo_mvp2.
Definition demo_mvp7 : mvp_sys := walt_cfs_enqueue_task (demo_ve 2 0) 4 6 demo_mvp6.
Definition demo_mvp8 : mvp_sys := walt_cfs_account_mvp_runtime (demo_ve 3 4000000) 4 7 demo_mvp7.
Definition demo_q3 : Z -> option Z := <[6 := Some 4]> demo_q1.

Lemma demo_mvp7_wf : mvp_wf demo_mvp7 demo_q3.
Proof.
  apply (step_wf (demo_ve 2 0) demo_mvp6 demo_q1); [|exact (st_enqueue _ 4 6 demo_mvp6 _ eq_refl)].
  apply (step_wf (demo_ve 2 0) demo_mvp2 demo_q1);
    [|exact (st_outside _ 6 (set_low_latency WALT_LOW_LATENCY_PROCFS_BIT) demo_mvp2 _ eq_refl)].
  apply (step_wf (demo_ve 1 0) demo_mvp1 (fun _ => None)); [|exact (st_enqueue _ 4 7 demo_mvp1 _ eq_refl)].
  apply (step_wf (demo_ve 1 0) mvp_init (fun _ => None)); [exact init_wf|].
  exact (st_outside _ 7 (set_low_latency WALT_LOW_LATENCY_PROCFS_BIT) mvp_init _ eq_refl).
Qed.

Lemma turn_comes_witness :
  mr_tasks (mv_rq demo_mvp7 4) = [7; 6] /\ mvp_first demo_mvp8 4 = Some 6.
Proof.
  assert (mr_tasks (mv_rq demo_mvp7 4) = [7; 6]) as E by (vm_compute; reflexivity). split; [exact E|].
  apply (turn_comes 4 1 demo_mvp7 demo_mvp8 demo_q3 [7] 6 []).
  - exact demo_mvp7_wf.
  - apply (turns_next 4 (demo_ve 3 4000000) 7 0 demo_mvp7); [vm_compute; reflexivity| |unfold demo_mvp8; apply turns_zero].
    vm_compute. discriminate.
  - exact E.
  - reflexivity.
  - intros x ->%list_elem_of_singleton. vm_compute. reflexivity.
  - rewrite E. vm_compute. reflexivity.
Defined.

End MvpQueue.

(** ** Run time *)

Module MvpBudget.
Import MvpQueue.

(** Steps with the run times of the tasks, which only grow. *)
Definition timed_step (a b : (mvp_sys * (Z -> option Z)) * (Z -> Z)) : Prop :=
  exists e, mvp_step e a.1 b.1 /\ b.2 = ve_sum_exec e /\ forall p, a.2 p <= b.2 p < 2 ^ 63.

(** What a task of a priority may have run, at the start of a slice and at its end. *)
Definition mvp_cap (prio : Z) : Z := if prio =? WALT_PIPELINE_MVP then 2 * WALT_MVP_LIMIT else WALT_MVP_LIMIT.
Definition mvp_last_slice (prio : Z) : Z := if prio =? WALT_PIPELINE_MVP then WALT_MVP_LIMIT else WALT_MVP_SLICE.

Record budget (s : mvp_sys) (sum : Z -> Z) (p : Z) : Prop := {
  bg_order : 0 <= mx_snap (mv_exec s p) <= mx_slice (mv_exec s p) /\ mx_slice (mv_exec s p) <= sum p;
  bg_total : 0 <= mx_total (mv_exec s p);
  bg_seen : mx_total (mv_exec s p) <> 0 \/ mvp_linked s p = true ->
            mx_slice (mv_exec s p) - mx_snap (mv_exec s p) <= mx_total (mv_exec s p);
  bg_slice : mvp_linked s p = true -> mx_slice (mv_exec s p) - mx_snap (mv_exec s p) <= mvp_cap (mvp_prio s p);
  bg_cap : mvp_linked s p = true -> mx_total (mv_exec s p) < mvp_cap (mvp_prio s p) + mvp_last_slice (mvp_prio s p)
}.

Lemma budget_same s s' sum sum' p :
  same_queues s s' -> mv_exec s' p = mv_exec s p -> sum p <= sum' p -> budget s sum p -> budget s' sum' p.
Proof.
  intros A E Hs [B1 B2 B3 B4 B5]. split; unfold mvp_linked in *; rewrite ?E, ?(sq_on _ _ A), ?(sq_prio _ _ A); auto. lia.
Qed.

(** A task that is not on the queue any more. *)
Lemma budget_unlinked s s' sum sum' p :
  mvp_linked s' p = false -> mv_exec s' p = mv_exec s p -> sum p <= sum' p -> budget s sum p -> budget s' sum' p.
Proof.
  intros A E Hs [B1 B2 B3 B4 B5]. split; rewrite ?E, ?A; auto; try done; [lia|]. intros [H|H]; [auto|done].
Qed.

Lemma exec_since_le a b : 0 <= b <= a -> a < 2 ^ 63 -> exec_since a b = a - b.
Proof. intros H1 H2. unfold exec_since. case_match; [apply u64_small; lia|lia]. Qed.

Lemma insert_exec e cpu p front s : mv_exec (walt_cfs_insert_mvp_task e cpu p front s) = mv_exec s.
Proof. unfold walt_cfs_insert_mvp_task, set_ots_mvp. by case_match. Qed.

Lemma unlink_exec p s : mv_exec (mvp_unlink p s) = mv_exec s.
Proof. unfold mvp_unlink. by case_match. Qed.

Lemma deactivate_exec e cpu p s : mv_exec (walt_cfs_deactivate_mvp_task e cpu p s) = mv_exec s.
Proof. unfold walt_cfs_deactivate_mvp_task, set_ots_mvp. rewrite <- (unlink_exec p s). by case_match. Qed.

Lemma rotate_exec e cpu p s : mv_exec (mvp_rotate e cpu p s) = mv_exec s.
Proof. unfold mvp_rotate. rewrite insert_exec. unfold on_mvp_rq. cbn. apply unlink_exec. Qed.

Lemma limit_cap s p : walt_cfs_mvp_task_limit s p <= mvp_cap (mvp_prio s p).
Proof.
  unfold walt_cfs_mvp_task_limit, mvp_cap, WALT_MVP_LIMIT, WALT_MVP_SLICE, WALT_BINDER_MVP, WALT_PIPELINE_MVP.
  repeat case_match; lia.
Qed.

(** The three outcomes of the accounting. *)
Lemma account_outcome e cpu c s :
  mv_on s c = Some cpu ->
  let s' := walt_cfs_account_mvp_runtime e cpu c s in
  let x := mv_exec s c in let sum := ve_sum_exec e c in let total := exec_since sum (mx_snap x) in
  (forall p, p <> c -> mv_exec s' p = mv_exec s p) /\
  ((same_queues s s' /\ mv_exec s' c = mk_mx (mx_slice x) (mx_snap x) total /\ exec_since sum (mx_slice x) < mvp_slice s c) \/
   (left_queue cpu c s s' /\ mv_exec s' c = mk_mx sum (mx_snap x) total) \/
   ((same_queues s s' \/ rotated cpu c s s') /\ mv_exec s' c = mk_mx sum (mx_snap x) total /\
    total <= walt_cfs_mvp_task_limit s c)).
Proof.
  intros Ho. cbv zeta. unfold walt_cfs_account_mvp_runtime. fold (mvp_charge e cpu c s).
  destruct (charge_slice e cpu c s) as (E1 & E2).
  pose proof (charge_same e cpu c s) as A.
  assert (forall p, p <> c -> mv_exec (mvp_charge e cpu c s) p = mv_exec s p) as X1.
  { intros p Hp. unfold mvp_charge. mvp_unfold. cbn. by rewrite decide_False. }
  assert (mv_exec (mvp_charge e cpu c s) c =
          mk_mx (mx_slice (mv_exec s c)) (mx_snap (mv_exec s c)) (exec_since (ve_sum_exec e c) (mx_snap (mv_exec s c)))) as X2.
  { unfold mvp_charge. mvp_unfold. cbn. by rewrite decide_True. }
  set (s1 := mvp_charge e cpu c s) in *. clearbody s1.
  rewrite E1, E2. destruct (_ <? _) eqn:El; [split; [done|left; split_and!; [done|done|lia]]|].
  set (s2 := on_mvp_exec c _ s1). assert (same_queues s s2) as B by (eapply same_trans; [exact A|apply same_exec]).
  assert (mv_on s2 c = Some cpu) as Ho2 by (by rewrite (sq_on _ _ B)).
  assert (forall p, p <> c -> mv_exec s2 p = mv_exec s p) as Y1.
  { intros p Hp. rewrite <- X1 by done. unfold s2, on_mvp_exec. cbn. by rewrite fn_lookup_insert_ne. }
  assert (mv_exec s2 c = mk_mx (ve_sum_exec e c) (mx_snap (mv_exec s c)) (exec_since (ve_sum_exec e c) (mx_snap (mv_exec s c)))) as Y2.
  { unfold s2, on_mvp_exec. cbn. rewrite fn_lookup_insert. by rewrite X2. }
  assert (walt_cfs_mvp_task_limit s2 c = walt_cfs_mvp_task_limit s c) as El2.
  { unfold walt_cfs_mvp_task_limit. by rewrite (sq_prio _ _ B). }
  destruct (_ <? mx_total _) eqn:Et.
  - rewrite deactivate_exec. split; [done|]. right. left.
    split; [eapply left_same; [exact B|by apply deactivate_left|apply same_refl]|done].
  - rewrite El2, Y2 in Et. cbn [mx_total] in Et. case_match.
    + split; [done|]. right. right. split_and!; [by left|done|lia].
    + fold (mvp_rotate e cpu c s2). rewrite rotate_exec. split; [done|]. right. right. split_and!; [right|done|lia].
      eapply rotated_same; [exact B|by apply rotate_rotated|apply same_refl].
Qed.

Lemma budget_expired s s' sum p x :
  mv_exec s' p = mk_mx (sum p) (mx_snap x) (sum p - mx_snap x) -> 0 <= mx_snap x <= sum p ->
  mvp_linked s' p = true -> sum p - mx_snap x <= walt_cfs_mvp_task_limit s p -> mvp_prio s' p = mvp_prio s p ->
  budget s' sum p.
Proof.
  intros E H Hl Ht Hp. pose proof (limit_cap s p). split; rewrite ?E, ?Hp; cbn; try lia.
  intros _. unfold mvp_last_slice, WALT_MVP_LIMIT, WALT_MVP_SLICE in *. case_match; lia.
Qed.

Lemma budget_other s s' sum sum' p :
  mv_on s' p = mv_on s p -> mvp_prio s' p = mvp_prio s p -> mv_exec s' p = mv_exec s p -> sum p <= sum' p ->
  budget s sum p -> budget s' sum' p.
Proof.
  intros Eo Ep E Hs [B1 B2 B3 B4 B5]. split; unfold mvp_linked in *; rewrite ?E, ?Eo, ?Ep; auto. lia.
Qed.

Section Steps.
Context (e : mvp_env) (s : mvp_sys) (q : Z -> option Z) (sum : Z -> Z).
Hypothesis W : mvp_wf s q.
Hypothesis B : forall p, budget s sum p.
Hypothesis G : forall p, sum p <= ve_sum_exec e p < 2 ^ 63.

Lemma linked_some p cpu : mv_on s p = Some cpu -> mvp_linked s p = true.
Proof. intros H. unfold mvp_linked. by rewrite H. Qed.

Lemma account_budget cpu c :
  mv_on s c = Some cpu -> forall p, budget (walt_cfs_account_mvp_runtime e cpu c s) (ve_sum_exec e) p.
Proof.
  intros Ho p. pose proof (account_outcome e cpu c s Ho) as (X & O). cbv zeta in O.
  set (s' := walt_cfs_account_mvp_runtime e cpu c s) in *. clearbody s'.
  destruct (G c) as [G1 G2]. destruct (decide (p = c)) as [->|Hp].
  - destruct (B c) as [(B1 & B1') B2 B3 B4 B5]. pose proof (linked_some c cpu Ho) as Hl.
    rewrite (exec_since_le _ (mx_snap _)), (exec_since_le _ (mx_slice _)) in O by lia.
    specialize (B3 (or_intror Hl)). specialize (B4 Hl). specialize (B5 Hl).
    destruct O as [(A & E & Hs)|[(A & E)|(A & E & Ht)]].
    + assert (mvp_slice s c = mvp_last_slice (mvp_prio s c)) as Ems by reflexivity.
      split; rewrite ?E, ?(sq_prio _ _ A); cbn; unfold mvp_linked in *; rewrite ?(sq_on _ _ A); lia.
    + split; rewrite ?E; cbn; try lia; unfold mvp_linked; rewrite (lq_on _ _ _ _ A), decide_True by done; done.
    + assert (mv_on s' c = mv_on s c /\ mvp_prio s' c = mvp_prio s c) as (Eo & Ep).
      { destruct A as [A|A]; [by rewrite (sq_on _ _ A), (sq_prio _ _ A)|by rewrite (rt_on _ _ _ _ A), (rt_prio _ _ _ _ A)]. }
      apply (budget_expired s s' (ve_sum_exec e) c (mv_exec s c)); try done; [lia|].
      unfold mvp_linked in *. by rewrite Eo.
  - apply (budget_other s s' sum); [| |by apply X|apply G|done].
    + destruct O as [(A & _)|[(A & _)|([A|A] & _)]];
        rewrite ?(sq_on _ _ A), ?(lq_on _ _ _ _ A), ?(rt_on _ _ _ _ A), ?decide_False; done.
    + destruct O as [(A & _)|[(A & _)|([A|A] & _)]];
        rewrite ?(sq_prio _ _ A), ?(lq_prio _ _ _ _ A), ?(rt_prio _ _ _ _ A), ?decide_False; done.
Qed.

Lemma deactivate_budget cpu c :
  mv_on s c = Some cpu -> forall p, budget (walt_cfs_deactivate_mvp_task e cpu c s) (ve_sum_exec e) p.
Proof.
  intros Ho p. pose proof (deactivate_left e cpu c s Ho) as A.
  assert (mv_exec (walt_cfs_deactivate_mvp_task e cpu c s) p = mv_exec s p) as E by (by rewrite deactivate_exec).
  destruct (decide (p = c)) as [->|Hp].
  - eapply budget_unlinked; [|exact E|apply G|apply B]. apply linked_on. by rewrite (lq_on _ _ _ _ A), decide_True.
  - eapply budget_other; [| |exact E|apply G|apply B];
      rewrite ?(lq_on _ _ _ _ A), ?(lq_prio _ _ _ _ A), ?decide_False; done.
Qed.

Lemma quiet_budget s' : same_queues s s' -> mv_exec s' = mv_exec s -> forall p, budget s' (ve_sum_exec e) p.
Proof. intros A E p. eapply budget_same; [exact A|by rewrite E|apply G|apply B]. Qed.

Lemma prio_exec p : mv_exec (walt_get_mvp_task_prio e p s).1 = mv_exec s.
Proof.
  unfold walt_get_mvp_task_prio. repeat (case_match; [done|]). by destruct (per_task_boost _ _).
Qed.

Lemma enqueue_budget cpu c :
  mvp_linked s c = false -> forall p, budget (walt_cfs_enqueue_task e cpu c s) (ve_sum_exec e) p.
Proof.
  intros Hl. unfold walt_cfs_enqueue_task.
  pose proof (prio_same e c s) as A. pose proof (prio_range e c s) as R. pose proof (prio_exec c) as X.
  destruct (walt_get_mvp_task_prio e c s) as [s1 k]. cbn [fst snd] in A, R, X. unfold WALT_NOT_MVP.
  destruct (k =? -1) eqn:Ek; [by apply quiet_budget|]. destruct (_ <? _) eqn:Et; [by apply quiet_budget|].
  pose proof (joined_same _ _ _ _ _ _ _ _ A (insert_joined e cpu c k (ve_task_on_cpu e c) s1) (same_refl _)) as J.
  set (s2 := walt_cfs_insert_mvp_task _ _ _ _ _) in *.
  assert (mv_exec s2 = mv_exec s) as X2 by (unfold s2; rewrite insert_exec; exact X). clearbody s2.
  assert (walt_cfs_mvp_task_limit s1 c = WALT_MVP_LIMIT) as El.
  { unfold walt_cfs_mvp_task_limit. rewrite (sq_prio _ _ A). pose proof (wf_prio _ _ W c) as P. rewrite Hl in P. by rewrite P. }
  rewrite El, X in Et. rewrite X2. intros p.
  destruct (B c) as [B1 B2 B3 _ _]. destruct (G c) as [G1 G2].
  assert (mvp_prio s2 c = k) as Ep by (by rewrite (jn_prio _ _ _ _ _ _ J), decide_True).
  assert (WALT_MVP_LIMIT <= mvp_cap k /\ 0 < mvp_last_slice k) as Hk.
  { unfold mvp_cap, mvp_last_slice, WALT_MVP_LIMIT, WALT_MVP_SLICE. repeat case_match; lia. }
  assert (0 < WALT_MVP_LIMIT) as HL by done.
  destruct (decide (p = c)) as [->|Hp].
  - case_match.
    + split; cbn; rewrite ?fn_lookup_insert, ?X2; cbn; fold (mvp_prio s2 c); try lia.
      all: intros _; unfold mvp_prio in *; cbn; rewrite ?Ep; lia.
    + split; rewrite ?X2, ?Ep; try lia.
  - apply (budget_other s _ sum); [| | |apply G|apply B].
    + case_match; cbn; by rewrite (jn_on _ _ _ _ _ _ J), decide_False.
    + transitivity (mvp_prio s2 p); [by case_match|]. by rewrite (jn_prio _ _ _ _ _ _ J), decide_False.
    + case_match; cbn; rewrite ?fn_lookup_insert_ne, X2 by done; done.
Qed.

Lemma dequeue_budget cpu c :
  q c = Some cpu -> forall p, budget (walt_cfs_dequeue_task e cpu c s) (ve_sum_exec e) p.
Proof.
  intros Hq. unfold walt_cfs_dequeue_task. set (s1 := if mvp_linked s c then _ else s).
  assert ((forall p, budget s1 (ve_sum_exec e) p) /\ mvp_linked s1 c = false) as (B1 & L1).
  { unfold s1. destruct (mvp_linked s c) eqn:El; [|split; [apply quiet_budget; [apply same_refl|done]|done]].
    assert (mv_on s c = Some cpu) as Ho by (eapply current_here; eauto).
    split; [by apply deactivate_budget|]. apply linked_on.
    by rewrite (lq_on _ _ _ _ (deactivate_left e cpu c s Ho)), decide_True. }
  clearbody s1. case_match; [done|]. intros p. destruct (decide (p = c)) as [->|Hp].
  - destruct (B1 c) as [C1 C2 C3 C4 C5]. split; unfold mvp_linked in *; cbn; rewrite ?fn_lookup_insert; cbn; try done; try lia.
    all: rewrite ?L1; intros; done.
  - apply (budget_other s1 _ (ve_sum_exec e)); try done. cbn. by rewrite fn_lookup_insert_ne.
Qed.
End Steps.

Lemma picked_exec e cpu p prev s : mv_exec (check_picked e cpu p prev s) = mv_exec s.
Proof. unfold check_picked. repeat case_match; done. Qed.

Lemma pick_exec e cpu p prev s : mv_exec (walt_cfs_replace_next_task_fair e cpu p prev s).1 = mv_exec s.
Proof.
  unfold walt_cfs_replace_next_task_fair. repeat (case_match; [done|]).
  rewrite <- (picked_exec e cpu p prev s). set (s1 := check_picked e cpu p prev s). clearbody s1.
  case_match; [done|]. destruct (mr_tasks (mv_rq s1 cpu)) as [|m l]; [done|]. cbn [fst]. rewrite picked_exec. by case_match.
Qed.

Lemma binder_set_exec e current task b s : mv_exec (binder_set_priority_hook e current task b s).2 = mv_exec s.
Proof.
  unfold binder_set_priority_hook. case_match; [done|].
  set (x := match b with Some t => _ | None => _ end).
  assert (mv_exec x.2 = mv_exec s) as A by (unfold x; repeat case_match; done).
  destruct x as [b1 s1]. cbn [snd] in A. case_match; [done|].
  set (y := if task_in_related_thread_group _ && _ then _ else _).
  assert (mv_exec y.1 = mv_exec s) as C.
  { rewrite <- A. unfold y. case_match; [done|]. pose proof (prio_exec e s1 current) as P.
    destruct (walt_get_mvp_task_prio e current s1). exact P. }
  destruct y as [s2 low]. exact C.
Qed.

Lemma timed_budget a b :
  timed_step a b -> mvp_wf a.1.1 a.1.2 -> (forall p, budget a.1.1 a.2 p) ->
  mvp_wf b.1.1 b.1.2 /\ forall p, budget b.1.1 b.2 p.
Proof.
  destruct a as [[s q] sum], b as [[s' q'] sum']. intros (e & H & E & G) W B. cbn [fst snd] in *. subst sum'.
  split; [by eapply step_wf|]. inversion H; subst; clear H.
  - eapply enqueue_budget; eauto. apply linked_on. destruct (mv_on s p) eqn:Eo; [|done].
    apply (wf_queued _ _ W) in Eo. congruence.
  - eapply dequeue_budget; eauto.
  - unfold walt_cfs_tick. repeat (case_match; [eapply quiet_budget; eauto; apply same_refl|]). cbn [fst].
    eapply account_budget; eauto. eapply current_here; eauto. by apply negb_false_iff.
  - unfold walt_cfs_check_preempt_wakeup_fair. repeat (case_match; [eapply quiet_budget; eauto; apply same_refl|]).
    cbn [fst]. eapply account_budget; eauto. eapply current_here; eauto. by apply negb_false_iff.
  - eapply quiet_budget; eauto using pick_same, pick_exec.
  - unfold mvp_switch. repeat (case_match; [eapply quiet_budget; eauto; apply same_refl|]).
    eapply quiet_budget; eauto. by apply same_rq.
  - unfold mvp_yield. case_match; [eapply quiet_budget; eauto; apply same_refl|].
    destruct (_ && _) eqn:Ec; [|eapply quiet_budget; eauto; apply same_refl]. apply andb_true_iff in Ec as (Ec & _).
    eapply deactivate_budget; eauto. eapply current_here; eauto.
  - eapply quiet_budget; eauto using binder_set_same, binder_set_exec.
  - unfold binder_restore_priority_hook. repeat (case_match; try (eapply quiet_budget; eauto; apply same_refl)).
    eapply quiet_budget; eauto. by apply same_wts.
  - eapply quiet_budget; eauto. by apply same_wts.
Qed.

Lemma timed_run a b :
  rtc timed_step a b -> mvp_wf a.1.1 a.1.2 -> (forall p, budget a.1.1 a.2 p) ->
  mvp_wf b.1.1 b.1.2 /\ forall p, budget b.1.1 b.2 p.
Proof.
  induction 1 as [|a c b H _ IH]; [done|]. intros W B. destruct (timed_budget _ _ H W B) as (W' & B'). by apply IH.
Qed.

Lemma init_budget p : budget mvp_init (fun _ => 0) p.
Proof. split; cbn; try lia. all: intros; done. Qed.

(** What a task may run before it loses its place: 15 ms, and 36 ms for a pipeline task. *)
Definition mvp_bound (prio : Z) : Z := if prio =? WALT_PIPELINE_MVP then 36000000 else 15000000.


(** Task 8 of the pipeline of [demo_mvp5], and its budget. *)
Lemma demo_timed_run : rtc timed_step ((mvp_init, fun _ => None), fun _ => 0) ((demo_mvp5, demo_q2), fun _ => 1000000).
Proof.
  apply (rtc_l _ _ ((demo_mvp1, fun _ => None), fun _ => 0)).
  { exists (demo_ve 1 0).
    split; [exact (st_outside _ 7 (set_low_latency WALT_LOW_LATENCY_PROCFS_BIT) mvp_init _ eq_refl)|by split]. }
  apply (rtc_l _ _ ((demo_mvp2, demo_q1), fun _ => 0)).
  { exists (demo_ve 1 0). split; [exact (st_enqueue _ 4 7 demo_mvp1 _ eq_refl)|by split]. }
  apply (rtc_l _ _ ((demo_mvp3, demo_q1), fun _ => 0)).
  { exists (demo_ve 2 0).
    split; [exact (st_outside _ 8 (set_low_latency WALT_LOW_LATENCY_PIPELINE_BIT) demo_mvp2 _ eq_refl)|by split]. }
  apply (rtc_l _ _ ((demo_mvp4, demo_q2), fun _ => 0)).
  { exists (demo_ve 2 0). split; [exact (st_enqueue _ 4 8 demo_mvp3 _ eq_refl)|by split]. }
  apply rtc_once. exists (demo_ve 3 1000000).
  split; [exact (st_tick _ 4 8 demo_mvp4 demo_q2 (or_introl eq_refl))|by split].
Qed.


(** ** The limit at an enqueue

    [walt_cfs_enqueue_task] asks for the limit before it stores the new priority, so a
    task that was taken off gets the common limit of 12 ms. A binder task that used up its
    single slice is back on the queue after a migration, without having slept. *)
Lemma demoted_binder_returns e cpu p s s1 q :
  mvp_wf s q -> mvp_linked s p = false -> walt_get_mvp_task_prio e p s = (s1, WALT_BINDER_MVP) ->
  WALT_MVP_SLICE < mx_total (mv_exec s p) <= WALT_MVP_LIMIT ->
  mv_on (walt_cfs_enqueue_task e cpu p s) p = Some cpu.
Proof.
  intros W Hl Hk Ht. unfold walt_cfs_enqueue_task. pose proof (prio_same e p s) as A. pose proof (prio_exec e s p) as X.
  rewrite Hk in *. cbn [fst] in A, X. change (WALT_BINDER_MVP =? WALT_NOT_MVP) with false. cbn iota.
  assert (walt_cfs_mvp_task_limit s1 p = WALT_MVP_LIMIT) as ->.
  { unfold walt_cfs_mvp_task_limit. rewrite (sq_prio _ _ A). pose proof (wf_prio _ _ W p) as P. rewrite Hl in P. by rewrite P. }
  rewrite X. destruct (_ <? _) eqn:E; [lia|].
  pose proof (jn_on _ _ _ _ _ _ (insert_joined e cpu p WALT_BINDER_MVP (ve_task_on_cpu e p) s1) p) as J.
  rewrite decide_True in J by done. case_match; exact J.
Qed.

(** A pipeline task has a limit of 24 ms, but it does not survive a migration after 12. *)
Lemma migrated_pipeline_task_refused e cpu p s s1 q :
  mvp_wf s q -> mvp_linked s p = false -> walt_get_mvp_task_prio e p s = (s1, WALT_PIPELINE_MVP) ->
  WALT_MVP_LIMIT < mx_total (mv_exec s p) <= 2 * WALT_MVP_LIMIT ->
  mv_on (walt_cfs_enqueue_task e cpu p s) p = None.
Proof.
  intros W Hl Hk Ht. unfold walt_cfs_enqueue_task. pose proof (prio_same e p s) as A. pose proof (prio_exec e s p) as X.
  rewrite Hk in *. cbn [fst] in A, X. change (WALT_PIPELINE_MVP =? WALT_NOT_MVP) with false. cbn iota.
  assert (walt_cfs_mvp_task_limit s1 p = WALT_MVP_LIMIT) as ->.
  { unfold walt_cfs_mvp_task_limit. rewrite (sq_prio _ _ A). pose proof (wf_prio _ _ W p) as P. rewrite Hl in P. by rewrite P. }
  rewrite X. destruct (_ <? _) eqn:E; [|lia]. rewrite (sq_on _ _ A). by apply linked_on.
Qed.

End MvpBudget.

(** ** Throttling, binder and mutexes *)

Module MvpHooks.
Import MvpQueue.

(** The throttle: on exactly while its time is set, and then no arrival is. *)
Definition throttle_ok (r : mvp_rq) : Prop :=
  (mr_skip r = true <-> mr_throttle_time r <> 0) /\ (mr_throttle_time r <> 0 -> mr_arrival_time r = 0).

Lemma throttle_keeps clock r : clock <> 0 -> throttle_ok r -> throttle_ok (mvp_throttle clock r).
Proof.
  unfold throttle_ok, mvp_throttle. intros Hc ((H1 & H1') & H2).
  destruct (mr_throttle_time r =? 0) eqn:Et; cbn [negb].
  - destruct (mr_arrival_time r =? 0) eqn:Ea; cbn [negb]; [done|]. case_match; cbn; [|done].
    split; [split; [intros _; exact Hc|done]|done].
  - case_match; cbn; [|done]. split; [split; [done|]|]; intros Hx; by destruct Hx.
Qed.

(** The queue is preferred for at most 500 ms after the arrival of a task, and not for at
    least 100 ms after that. *)
Lemma throttle_spec clock r :
  throttle_ok r -> 0 <= mr_arrival_time r <= clock -> 0 <= mr_throttle_time r <= clock -> clock < 2 ^ 63 ->
  let r' := mvp_throttle clock r in
  (mr_skip r' = false -> mr_arrival_time r' <> 0 -> clock - mr_arrival_time r' <= MAX_MVP_TIME_NS) /\
  (mr_skip r = true -> mr_skip r' = false -> MVP_THROTTLE_TIME_NS < clock - mr_throttle_time r) /\
  (mr_skip r = false -> mr_skip r' = true -> MAX_MVP_TIME_NS < clock - mr_arrival_time r /\ mr_throttle_time r' = clock).
Proof.
  unfold throttle_ok, mvp_throttle. intros ((H1 & H1') & H2) Ha Ht Hc. cbv zeta.
  destruct (mr_throttle_time r =? 0) eqn:Et; cbn [negb].
  - assert (mr_skip r = false) as E by (destruct (mr_skip r); [exfalso; apply H1; [done|lia]|done]).
    destruct (mr_arrival_time r =? 0) eqn:Ea; cbn [negb]; [split_and!; intros; try congruence; lia|].
    rewrite u64_small by lia. case_match; cbn; split_and!; intros; try congruence; try done; lia.
  - assert (mr_skip r = true) as E by (apply H1'; lia).
    rewrite u64_small by lia. case_match; cbn; split_and!; intros; try congruence; try done; lia.
Qed.

(** The throttle is only looked at while a task of the queue runs: with another task
    running, no time is long enough for a wakeup or a tick to end it. *)
Lemma throttle_outlasts_its_time e cpu curr p s :
  mr_skip (mv_rq s cpu) = true -> mvp_linked s curr = false -> ve_assist e = false ->
  walt_cfs_check_preempt_wakeup_fair e cpu curr p s = (s, CfsDecides) /\
  walt_cfs_tick e cpu curr s = (s, false) /\
  (walt_cfs_replace_next_task_fair e cpu (Some curr) (Some curr) s) = (s, Some curr).
Proof.
  intros Hs Hc Ha. unfold walt_cfs_check_preempt_wakeup_fair, walt_cfs_tick, walt_cfs_replace_next_task_fair, check_picked.
  rewrite Hc, Ha, (bool_decide_eq_true_2 (Some curr = Some curr)) by done. cbn [negb andb].
  destruct (ve_disabled e); [done|]. by rewrite Hs, andb_false_r.
Qed.

(** ** Binder *)

(** The boost of the callee comes back at the reply, when the caller lent it its own. *)
Lemma binder_boost_roundtrip e e' current task t s :
  ve_disabled e = false -> ve_disabled e' = false -> current <> task ->
  bt_need_reply t = true -> t_boost (mv_wts s current) = TASK_BOOST_STRICT_MAX -> 0 <= t_boost (mv_wts s task) <= 3 ->
  let '(b, s') := binder_set_priority_hook e current task (Some t) s in
  t_boost (mv_wts s' task) = TASK_BOOST_STRICT_MAX /\
  t_boost (mv_wts (binder_restore_priority_hook e' task b s') task) = t_boost (mv_wts s task).
Proof.
  intros He He' Hne Hr Hb Hk. unfold binder_set_priority_hook. rewrite He, Hr, Hb, Z.eqb_refl. cbn [andb].
  set (s1 := on_mvp_wts task _ s). apply Z.eqb_neq in Hne as Ee. rewrite Ee.
  set (y := if task_in_related_thread_group (mv_wts s1 current) && _ then (s1, true) else _).
  assert (mv_wts y.1 task = mv_wts s1 task) as E.
  { unfold y. case_match; [done|]. assert (mv_wts (walt_get_mvp_task_prio e current s1).1 task = mv_wts s1 task) as P.
    { unfold walt_get_mvp_task_prio. repeat (case_match; [done|]). destruct (per_task_boost _ _).
      unfold on_mvp_wts. cbn [fst mv_wts]. apply fn_lookup_insert_ne. done. }
    destruct (walt_get_mvp_task_prio e current s1). exact P. }
  destruct y as [s2 low]. cbn [fst] in E.
  assert (t_boost (mv_wts s1 task) = TASK_BOOST_STRICT_MAX) as E1 by (unfold s1, on_mvp_wts; cbn; by rewrite fn_lookup_insert).
  set (s3 := on_mvp_wts task _ s2).
  assert (t_boost (mv_wts s3 task) = TASK_BOOST_STRICT_MAX) as E3.
  { unfold s3, on_mvp_wts. cbn. rewrite fn_lookup_insert, E. by destruct low. }
  clearbody s3. split; [exact E3|]. unfold binder_restore_priority_hook. rewrite He', E3, Z.eqb_refl.
  unfold on_mvp_wts, insert, fn_insert. cbn. rewrite decide_True by done. cbn. rewrite u64_small, s32_small by lia. done.
Qed.

(** A task with a strict boost of its own that serves a caller without one loses it: the
    transaction keeps nothing, yet the reply restores from it. *)
Lemma binder_reply_drops_own_boost e e' current task t s :
  ve_disabled e = false -> ve_disabled e' = false ->
  bt_vendor_data1 t = 0 -> t_boost (mv_wts s current) = TASK_BOOST_NONE -> t_boost (mv_wts s task) = TASK_BOOST_STRICT_MAX ->
  (binder_set_priority_hook e current task (Some t) s).1 = Some t /\
  t_boost (mv_wts (binder_restore_priority_hook e' task (Some t) s) task) = TASK_BOOST_NONE.
Proof.
  intros He He' Ht Hc Hk. split.
  - unfold binder_set_priority_hook. rewrite He, Hc. change (TASK_BOOST_NONE =? TASK_BOOST_STRICT_MAX) with false.
    rewrite andb_false_r. case_match; [done|]. by destruct (if task_in_related_thread_group (mv_wts s current) && _ then (s, true) else _).
  - unfold binder_restore_priority_hook. rewrite He', Hk, Z.eqb_refl.
    unfold on_mvp_wts, insert, fn_insert. cbn. rewrite decide_True by done. cbn. by rewrite Ht.
Qed.

(** ** Mutex waiters *)

(** A valuable waiter goes behind the valuable waiters at the head of the list; if there
    are no others, the list is left to the caller. *)
Lemma alter_list_spec wts c l :
  let '(l', done) := alter_list wts c l in
  if done then exists l1 q l2, l = l1 ++ q :: l2 /\ (forall x, x ∈ l1 -> is_mvp (wts x) = true) /\
                               is_mvp (wts q) = false /\ l' = l1 ++ c :: q :: l2
  else l' = l /\ forall x, x ∈ l -> is_mvp (wts x) = true.
Proof.
  induction l as [|q l IH]; cbn [alter_list]; [split; [done|set_solver]|].
  destruct (is_mvp (wts q)) eqn:E; cbn [negb].
  - destruct (alter_list wts c l) as [l' done]. destruct done.
    + destruct IH as (l1 & x & l2 & -> & H1 & H2 & ->). exists (q :: l1), x, l2. split_and!; try done.
      intros y [-> | Hy]%elem_of_cons; [done|auto].
    + destruct IH as (-> & H). split; [done|]. intros x [-> | Hx]%elem_of_cons; [done|auto].
  - exists [], q, l. split_and!; try done. set_solver.
Qed.

(** A task that sleeps has been dequeued and has lost its place on the queue, so a waiter
    that comes later is put ahead of every waiter that sleeps already, valuable or not:
    the valuable waiters of a mutex are served last in, first out. *)
Lemma sleeping_waiters_lose_their_order e s q current l :
  mvp_wf s q -> ve_disabled e = false -> mvp_linked s current = true -> l <> [] ->
  (forall w, w ∈ l -> q w = None) ->
  android_vh_alter_mutex_list_add e current true l s = (current :: l, true).
Proof.
  intros W He Hc Hl Hq. unfold android_vh_alter_mutex_list_add. rewrite He. cbn [negb].
  assert (is_mvp (mv_wts s current) = true) as ->.
  { pose proof (wf_prio _ _ W current) as P. rewrite Hc in P. unfold is_mvp, mvp_prio, WALT_NOT_MVP in *. lia. }
  destruct l as [|w l]; [done|]. cbn [negb alter_list].
  assert (mvp_linked s w = false) as Hw.
  { apply linked_on. destruct (mv_on s w) eqn:Eo; [|done]. apply (wf_queued _ _ W) in Eo. rewrite Hq in Eo by set_solver. done. }
  pose proof (wf_prio _ _ W w) as P. rewrite Hw in P. unfold mvp_prio in P. unfold is_mvp. by rewrite P.
Qed.

(** ** With the vendor's scheduler *)

(** No task gets on a queue while [CONFIG_OPLUS_FEATURE_SCHED_ASSIST] is set. *)
Lemma assist_keeps_queues_empty e cpu p s : ve_assist e = true -> walt_cfs_enqueue_task e cpu p s = s.
Proof. intros H. unfold walt_cfs_enqueue_task, walt_get_mvp_task_prio. by rewrite H. Qed.

End MvpHooks.
