(* ===== verification/Placement.v ===== *)
(** * Placement: the search for candidates

    When a fair task wakes up, [walt_find_energy_efficient_cpu] of [walt_cfs.c] chooses its
    CPU. This file holds the first half: the order in which the clusters are searched
    ([walt_get_indicies]), the CPUs that are refused, and [walt_find_best_target], which
    picks at most one candidate per cluster; [EnergyCpu] holds the choice among them.

    A placement writes nothing but the boost of the task, which may expire on the way, and
    masks of its own; the state of the system it reads is the record [place_env]. *)

From Stdlib Require Import ZArith Lia ZifyBool Bool.
From stdpp Require Import base list sets numbers list_numbers.
From S2P Require Import Prelude WaltTypes Cpumask SmartFreq Halt CoreCtl Boost Fits Pipeline PipelineHeavy PipelineCpus.

(** ** Inputs *)

Definition UINT_MAX : Z := 2 ^ 32 - 1.
Definition ULONG_MAX : Z := 2 ^ 64 - 1.
Definition LONG_MIN : Z := - 2 ^ 63.
Definition MIN_UTIL_FOR_ENERGY_EVAL : Z := 52.
Definition DIRE_STRAITS_PREV_NR_LIMIT : Z := 10.

(** [pv_pl] has the tunables, masks and tables that [Pipeline] reads too. By CPU: whether
    it is reserved, loaded by interrupts or idle ([available_idle_cpu]), the exit latency
    of its idle state, its l2 sibling, the sum of the demands of its tasks, the
    utilisation of the fair scheduler, the numbers of its tasks, of prior group tasks
    and of most valuable tasks, whether it runs a pipeline task and the share of its
    maximal frequency. Of the task: whether it is waking, runnable, was ever accounted for,
    waits for I/O or is a 32 bit one. [pv_prs] is what an uninitialised entry of the
    array [prs] holds.

    The fields from [pv_assist] on belong to the vendor's scheduler:
    [CONFIG_OPLUS_FEATURE_SCHED_ASSIST], [should_ux_task_skip_eas] and
    [should_ux_task_skip_cpu], [fbg_skip_migration], the CPUs
    [set_frame_group_task_to_perfer_cpu] and [set_ux_task_to_prefer_cpu] ask for,
    [CONFIG_OPLUS_FEATURE_PIPELINE] with its functions. *)
Record place_env := mk_pv {
  pv_pl : pl_env;
  pv_array : list (list Z);
  pv_active : Z;
  pv_part_haltable : Z;
  pv_reserved : Z -> bool;
  pv_high_irq : Z -> bool;
  pv_idle : Z -> bool;
  pv_exit_latency : Z -> Z;
  pv_l2_sibling : Z -> Z;
  pv_util : Z -> Z;
  pv_util_cum : Z -> Z;
  pv_nr_running : Z -> Z;
  pv_nr_rtg : Z -> Z;
  pv_nr_mvp : Z -> Z;
  pv_curr_pipeline : Z -> bool;
  pv_freq_capacity : Z -> Z;
  pv_prev_sum : Z -> Z;
  pv_prs : Z -> Z;
  pv_waking : bool;
  pv_runnable : bool;
  pv_accounted : bool;
  pv_in_iowait : bool;
  pv_compat : bool;
  pv_mask32 : Z;
  pv_sibling_cluster : Z -> Z;
  pv_idle_enough : list Z;
  pv_util_thres_pct : list Z;
  pv_cluster_util_pct : Z -> Z;
  pv_coloc_boost : bool;
  pv_ft_boost_to_all : bool;
  pv_boost_to_next : bool;
  pv_asymcap_boost : bool;
  pv_suppress_region2 : bool;
  pv_many_wakeup : Z;
  pv_assist : bool;
  pv_ux_skip_eas : bool;
  pv_ux_skip_cpu : Z -> bool;
  pv_fbg_skip : Z -> bool;
  pv_frame_cpu : Z -> option Z;
  pv_ux_cpu : Z -> option Z;
  pv_oplus_pipeline : option (Z * (Z -> bool))
}.

(** What [walt_find_energy_efficient_cpu] hands to the search. *)
Record fbt_env := mk_fe {
  fv_start_cpu : Z;
  fv_order_index : Z;
  fv_end_index : Z;
  fv_strict_max : bool;
  fv_skip_cpu : Z;
  fv_boost : Z
}.

(** The variables of [walt_find_best_target] that live across clusters, and those of one
    cluster. *)
Record fbt := mk_fbt {
  fb_candidates : Z;
  fb_most_spare_cap : Z;
  fb_most_spare_cpu : Z;
  fb_least_nr_cpu : Z;
  fb_runnable_cnt : Z;
  fb_nr_rtg : Z;
  fb_visited : list bool;
  fb_prs : list Z;
  fb_fastpath : Z
}.
Record fbc := mk_fbc {
  fc_best_idle : Z;
  fc_target : Z;
  fc_complex_idle : Z;
  fc_max_spare : Z;
  fc_min_latency : Z;
  fc_cuml_util : Z
}.

(** [enum fastpaths], up to the one of the pipelines. *)
Definition FP_NONE : Z := 0.
Definition SYNC_WAKEUP : Z := 1.
Definition PREV_CPU_FASTPATH : Z := 2.
Definition CLUSTER_PACKING_FASTPATH : Z := 3.

Section Search.
Context (e : place_env) (p : Z) (t : walt_task_struct).

Definition pv_fit : fit_env := pe_fit (pv_pl e).
Definition pv_cfg : walt_cfg := fe_cfg pv_fit.
Definition pv_clusters : Z := num_sched_clusters pv_cfg.
Definition pv_cap (cpu : Z) : Z := capacity_orig_of pv_cfg cpu.
Definition cpu_mask (order cluster : Z) : Z := aget (nth (Z.to_nat order) (pv_array e) []) cluster.
Definition cpus_ptr : Z := fe_cpus_ptr pv_fit p.
Definition prev_cpu_of : Z := fe_task_cpu pv_fit p.
Definition cpu_active (cpu : Z) : bool := cpumask_test_cpu cpu (pv_active e).
Definition cpu_halted (cpu : Z) : bool := cpumask_test_cpu cpu (pe_halted (pv_pl e)).
Definition cpu_partial_halted (cpu : Z) : bool := cpumask_test_cpu cpu (fe_partial_halt pv_fit).

(** ** Utilisation *)

Definition cpu_util_of (cpu : Z) : Z := Z.min (pv_util e cpu) (pv_cap cpu).

(** The result of [max_t(long, ...)] is stored in an [unsigned int]. *)
Definition cpu_util_without (cpu : Z) : Z :=
  if pv_waking e then cpu_util_of cpu else
  if negb (cpu =? prev_cpu_of) || negb (pv_accounted e) then cpu_util_of cpu else
  Z.min (u32 (Z.max (pv_util e cpu - task_util t) 0)) (pv_cap cpu).

Definition cpu_overutilized_by (cpu delta : Z) : bool :=
  u64 (pv_cap cpu * 1024) <?
  u64 ((cpu_util_of cpu + delta) * margin_of (fe_margin_up pv_fit) ANDROID_CGROUP_OTHER (cpu_cluster_id pv_cfg cpu)).

(** ** Where to start *)

Definition walt_get_rtg_status : bool :=
  if negb (pv_coloc_boost e) then false else
  match t_grp t with Some g => fe_skip_min pv_fit g | None => false end.

Definition walt_task_skip_min_cpu : bool :=
  negb (sched_boost_type pv_cfg =? CONSERVATIVE_BOOST) && walt_get_rtg_status &&
  (negb (t_unfilter t =? 0) || (pipeline_in_progress pv_cfg && walt_pipeline_low_latency_task t)).

Definition walt_is_many_wakeup (sibling_count_hint : Z) : bool := pv_many_wakeup e <=? sibling_count_hint.

Definition walt_target_ok (target_cpu order_index : Z) : bool :=
  negb (negb (order_index =? pv_clusters - 1) && (cpumask_weight (cpu_mask order_index 0) =? 1) &&
        (target_cpu =? cpumask_first (cpu_mask order_index 0))).

(** The loop over [end_index], down to zero; [n] is [end_index + 1]. *)
Fixpoint last_fitting (order : Z) (n : nat) : Z :=
  match n with
  | O => -1
  | S m => if task_demand_fits pv_fit p t (cpumask_first (cpu_mask order (Z.of_nat m))) then Z.of_nat m
           else last_fitting order m
  end.

(** The loop over [order_index], up to the last cluster; [n] turns at most. *)
Fixpoint first_fitting (order : Z) (n : nat) : Z :=
  match n with
  | O => order
  | S m => if task_demand_fits pv_fit p t (cpumask_first (cpu_mask order 0)) then order else first_fitting (order + 1) m
  end.

(** Result: [order_index], [end_index] and [energy_eval_needed], which starts as true. *)
Definition walt_get_indicies (per_task_boost : Z) (is_uclamp_boosted : bool) : Z * Z * bool :=
  if pv_clusters <=? 1 then (0, 0, true) else
  let eval := negb (pv_assist e && pv_ux_skip_eas e) in
  if TASK_BOOST_ON_MID <? per_task_boost then (pv_clusters - 1, 0, false) else
  if sched_boost_type pv_cfg =? FULL_THROTTLE_BOOST then
    let order := pv_clusters - 1 in
    let last := if pv_ft_boost_to_all e then 1 else pv_clusters - 2 in
    (order, last_fitting order (Z.to_nat (last + 1)), false)
  else
  let boosted := is_uclamp_boosted || negb (per_task_boost =? 0) ||
                 bool_decide (task_boost_policy pv_cfg (boost_policy pv_cfg) (fe_tg pv_fit p) (task_util t)
                                (fe_min_util_boost pv_fit) (walt_pipeline_low_latency_task t) = SCHED_BOOST_ON_BIG) ||
                 walt_task_skip_min_cpu in
  let eval := eval && negb boosted in
  let order := if boosted then 1 else 0 in
  let last := if boosted && pv_boost_to_next e then 1 else 0 in
  if boosted && pv_asymcap_boost e then (order, last + 1, eval) else
  let order := first_fitting order (Z.to_nat (pv_clusters - 1 - order)) in
  let io_rtg := pv_in_iowait e && task_in_related_thread_group t in
  let last := if (order =? 0) && (MIN_UTIL_FOR_ENERGY_EVAL <=? task_util t) && negb io_rtg && negb walt_get_rtg_status &&
                 negb ((sched_boost_type pv_cfg =? CONSERVATIVE_BOOST) &&
                       task_sched_boost (sched_boost_type pv_cfg) (fe_tg pv_fit p)) &&
                 negb (pv_suppress_region2 e)
              then 1 else last in
  (order, last, eval && negb io_rtg).

(** ** CPUs *)

Definition is_complex_sibling_idle (cpu : Z) : bool :=
  if negb (pv_l2_sibling e cpu =? -1) then pv_idle e (pv_l2_sibling e cpu) else false.

Definition walt_should_reject_fbt_cpu (fv : fbt_env) (cpu : Z) : bool :=
  negb (cpu_active cpu) || cpu_halted cpu ||
  (negb (fv_order_index fv =? 0) && cpu_partial_halted cpu) ||
  (pv_assist e && pv_ux_skip_cpu e cpu) ||
  pv_reserved e cpu || pv_high_irq e cpu || (fv_skip_cpu fv =? cpu) ||
  ((0 <? pv_nr_mvp e cpu) && negb (fv_boost fv =? TASK_BOOST_STRICT_MAX)).

Definition select_prev_cpu_fastpath (prev_cpu start_cpu order_index : Z) : bool :=
  if negb (cpu_active prev_cpu) then false else
  if negb (pv_idle e prev_cpu) then false else
  if negb (cpumask_test_cpu prev_cpu cpus_ptr) then false else
  if cpu_halted prev_cpu then false else
  if pv_reserved e prev_cpu then false else
  let valid_part_haltable_prev_cpu :=
    cpumask_test_cpu prev_cpu (pv_part_haltable e) &&
    (((order_index =? 0) && cpu_partial_halted prev_cpu) || ((order_index =? 1) && negb (cpu_partial_halted prev_cpu))) in
  let valid_prev_cpu := cpu_cluster_id pv_cfg prev_cpu =? cpu_cluster_id pv_cfg start_cpu in
  valid_part_haltable_prev_cpu || valid_prev_cpu.

(** [fbg_skip_migration] asks about the move from the CPU of the task to [cpu]. *)
Definition task_reject_partialhalt_cpu (cpu : Z) : bool :=
  if pv_assist e && pv_ux_skip_cpu e cpu then true else
  if pv_fbg_skip e cpu then true else
  if fe_prio pv_fit p <? MAX_RT_PRIO then false else
  cpu_partial_halted cpu && negb (task_fits_capacity pv_fit p t 0).

Definition walt_find_and_choose_cluster_packing_cpu (start_cpu : Z) : Z :=
  let id := cpu_cluster_id pv_cfg start_cpu in
  if aget (pv_idle_enough e) id =? 0 then -1 else
  if aget (pv_util_thres_pct e) id =? 0 then -1 else
  let unhalted_cpus := Z.land (Z.ldiff (pv_active e) (pe_halted (pv_pl e))) (cluster_cpus pv_cfg id) in
  let unhalted_cpus := if pv_compat e then Z.land unhalted_cpus (pv_mask32 e) else unhalted_cpus in
  let packing_cpu := cpumask_first unhalted_cpus in
  if nr_cpu_ids pv_cfg <=? packing_cpu then -1 else
  if negb (cpumask_test_cpu packing_cpu cpus_ptr) then -1 else
  if aget (pv_util_thres_pct e) id <=? pv_cluster_util_pct e id then -1 else
  if aget (pv_idle_enough e) id <=? cpu_util_of packing_cpu then -1 else
  if aget (pv_idle_enough e) id <=? task_util t then -1 else
  if task_reject_partialhalt_cpu packing_cpu then -1 else
  if 450 <? pv_freq_capacity e packing_cpu then -1 else
  packing_cpu.

(** ** The search *)

Definition fbt_start (fv : fbt_env) : fbt :=
  let io := (0 <? fv_order_index fv) && t_iowaited t && negb (pv_assist e) in
  mk_fbt 0 (if fv_strict_max fv || io then LONG_MIN else 0) (-1) (-1) UINT_MAX UINT_MAX
    (replicate (Z.to_nat MAX_CLUSTERS) false) (map (pv_prs e) (seqZ 0 WALT_NR_CPUS)) FP_NONE.
Definition fbt_stop_index (fv : fbt_env) : Z :=
  if fv_strict_max fv then 0 else
  if (0 <? fv_order_index fv) && t_iowaited t then pv_clusters - 2 else INT_MAX.
Definition fbc_start : fbc := mk_fbc (-1) (-1) 0 0 INT_MAX ULONG_MAX.

(** The best idle CPU of a cluster. *)
Definition visit_idle (i : Z) (c : fbc) : fbc :=
  let idle_exit_latency := pv_exit_latency e i in
  let this_complex_idle := Z.b2z (is_complex_sibling_idle i) in
  if this_complex_idle <? fc_complex_idle c then c else
  if fc_min_latency c <? idle_exit_latency then c else
  let new_util_cuml := pv_util_cum e i in
  if (fc_min_latency c =? idle_exit_latency) &&
     ((fc_best_idle c =? prev_cpu_of) || (negb (i =? prev_cpu_of) && (fc_cuml_util c <? new_util_cuml)))
  then c
  else c <| fc_min_latency := idle_exit_latency |> <| fc_cuml_util := new_util_cuml |>
         <| fc_best_idle := i |> <| fc_complex_idle := this_complex_idle |>.

(** The busy CPU of a cluster with the most spare capacity; prior group tasks are spread
    first. *)
Definition visit_busy (i spare_cap : Z) (fc : fbt * fbc) : fbt * fbc :=
  let '(f, c) := fc in
  let nr := pv_nr_rtg e i in
  if (if task_in_related_thread_group t && (fe_prio pv_fit p <=? sysctl_walt_rtg_cfs_boost_prio pv_cfg)
      then (fb_nr_rtg f <? nr) || ((nr =? fb_nr_rtg f) && (spare_cap <? fc_max_spare c))
      else spare_cap <? fc_max_spare c)
  then (f, c)
  else (f <| fb_nr_rtg := nr |>, c <| fc_max_spare := spare_cap |> <| fc_target := i |>).

Definition visit_cpu (fv : fbt_env) (i : Z) (fc : fbt * fbc) : fbt * fbc :=
  let '(f, c) := fc in
  let f := f <| fb_prs := <[Z.to_nat i := pv_prev_sum e i]> (fb_prs f) |> in
  if walt_should_reject_fbt_cpu fv i then (f, c) else
  let capacity_orig := pv_cap i in
  let wake_cpu_util := cpu_util_without i in
  let spare_wake_cap := capacity_orig - wake_cpu_util in
  let f := if fb_most_spare_cap f <? spare_wake_cap
           then f <| fb_most_spare_cap := spare_wake_cap |> <| fb_most_spare_cpu := i |> else f in
  let f := if pv_nr_running e i <? fb_runnable_cnt f
           then f <| fb_runnable_cnt := pv_nr_running e i |> <| fb_least_nr_cpu := i |> else f in
  let new_cpu_util := u64 (wake_cpu_util + uclamp_task_util pv_fit p t) in
  if capacity_orig <? new_cpu_util then (f, c) else
  if pv_idle e i then (f, visit_idle i c) else
  if negb (fc_best_idle c =? -1) then (f, c) else
  visit_busy i (capacity_orig - new_cpu_util) (f, c).

Definition add_candidate (cpu : Z) (f : fbt) : fbt := f <| fb_candidates := Z.setbit (fb_candidates f) cpu |>.
Definition visited (f : fbt) (id : Z) : bool := nth (Z.to_nat id) (fb_visited f) false.
Definition mark_visited (id : Z) (f : fbt) : fbt := f <| fb_visited := <[Z.to_nat id := true]> (fb_visited f) |>.

(** The CPUs of a turn of the loop and the id of their cluster; [None] for [continue]. *)
Definition turn_cpus (fv : fbt_env) (search cluster : Z) : option (Z * Z) :=
  if negb (search =? 0) then
    if negb (Z.testbit search cluster) then None
    else Some (cluster, Z.land cpus_ptr (cluster_cpus pv_cfg cluster))
  else
    let cpus := cpu_mask (fv_order_index fv) cluster in
    Some (cpu_cluster_id pv_cfg (cpumask_first cpus),
          Z.land (if pv_assist e then pe_cpus_mask (pv_pl e) p else cpus_ptr) cpus).

(** The candidate of a cluster. *)
Definition visit_cluster (fv : fbt_env) (visit_cpus : Z) (f : fbt) : fbt * fbc :=
  let '(f, c) := for_each_cpu visit_cpus (visit_cpu fv) (f, fbc_start) in
  (if negb (fc_best_idle c =? -1) then add_candidate (fc_best_idle c) f
   else if negb (fc_target c =? -1) then add_candidate (fc_target c) f else f, c).

Fixpoint search_clusters (fv : fbt_env) (search : Z) (l : list Z) (f : fbt) : fbt :=
  match l with
  | [] => f
  | cluster :: l =>
      match turn_cpus fv search cluster with
      | None => search_clusters fv search l f
      | Some (cluster_id, visit_cpus) =>
          if visited f cluster_id then search_clusters fv search l f else
          let '(f, c) := visit_cluster fv visit_cpus (mark_visited cluster_id f) in
          if (fv_end_index fv <=? cluster) && negb (cpumask_empty (fb_candidates f)) &&
             walt_target_ok (fc_target c) (fv_order_index fv) then f else
          if negb (fb_most_spare_cpu f =? -1) && (fbt_stop_index fv <=? cluster) then f else
          search_clusters fv search l f
      end
  end.

Definition fbt_fallback (f : fbt) : fbt :=
  if negb (cpumask_empty (fb_candidates f)) then f else
  if negb (fb_most_spare_cpu f =? -1) then add_candidate (fb_most_spare_cpu f) f else
  if cpu_active prev_cpu_of && (pv_nr_running e prev_cpu_of <? DIRE_STRAITS_PREV_NR_LIMIT)
  then add_candidate prev_cpu_of f else
  if negb (fb_least_nr_cpu f =? -1) then add_candidate (fb_least_nr_cpu f) f else f.

(** The siblings of the clusters of the candidates that were not visited. *)
Definition search_siblings (f : fbt) : Z :=
  for_each_cpu (fb_candidates f) (fun cpu m =>
    let sibling := pv_sibling_cluster e (cpu_cluster_id pv_cfg cpu) in
    if (0 <=? sibling) && negb (visited f sibling) then Z.setbit m sibling else m) 0.

(** The code from the label [out], with the jumps back to [retry]; [None] when the fuel is
    not enough. The second component is [force_energy_eval]. *)
Fixpoint fbt_out (fuel : nat) (fv : fbt_env) (force : bool) (f : fbt) : option (fbt * bool) :=
  let search := search_siblings f in
  if search =? 0 then Some (f, force) else
  match fuel with
  | O => None
  | S n => fbt_out n fv true (fbt_fallback (search_clusters fv search (seqZ 0 pv_clusters) f))
  end.

Definition walt_find_best_target (fuel : nat) (fv : fbt_env) : option (fbt * bool) :=
  let f := fbt_start fv in
  let packing_cpu := walt_find_and_choose_cluster_packing_cpu (fv_start_cpu fv) in
  fbt_out fuel fv false
    (if 0 <=? packing_cpu then
       mark_visited (cpu_cluster_id pv_cfg packing_cpu)
         (add_candidate packing_cpu (f <| fb_fastpath := CLUSTER_PACKING_FASTPATH |>))
     else if select_prev_cpu_fastpath prev_cpu_of (fv_start_cpu fv) (fv_order_index fv) then
       mark_visited (cpu_cluster_id pv_cfg prev_cpu_of)
         (add_candidate prev_cpu_of (f <| fb_fastpath := PREV_CPU_FASTPATH |>))
     else fbt_fallback (search_clusters fv 0 (seqZ 0 pv_clusters) f)).

End Search.

(** ** The search ends *)

Module Searching.
Section Searching.
Context (e : place_env) (p : Z) (t : walt_task_struct).

Lemma busy_keeps i sp fc :
  fb_visited (visit_busy e p t i sp fc).1 = fb_visited fc.1 /\ fb_candidates (visit_busy e p t i sp fc).1 = fb_candidates fc.1.
Proof. destruct fc as [f c]. unfold visit_busy. by case_match. Qed.

Lemma visit_keeps fv i fc :
  fb_visited (visit_cpu e p t fv i fc).1 = fb_visited fc.1 /\
  fb_candidates (visit_cpu e p t fv i fc).1 = fb_candidates fc.1.
Proof.
  destruct fc as [f c]. unfold visit_cpu. case_match; [done|].
  set (f1 := if fb_most_spare_cap _ <? _ then _ else _).
  assert (fb_visited f1 = fb_visited f /\ fb_candidates f1 = fb_candidates f) as (A & B) by (unfold f1; by case_match).
  set (f2 := if pv_nr_running e i <? _ then _ else f1).
  assert (fb_visited f2 = fb_visited f /\ fb_candidates f2 = fb_candidates f) as (C & D) by (unfold f2; by case_match).
  repeat (case_match; [done|]). rewrite !(proj1 (busy_keeps _ _ _)), !(proj2 (busy_keeps _ _ _)). done.
Qed.

Lemma loop_keeps fv m f c :
  let r := for_each_cpu m (visit_cpu e p t fv) (f, c) in
  fb_visited r.1 = fb_visited f /\ fb_candidates r.1 = fb_candidates f.
Proof.
  apply (for_each_cpu_inv (fun r => fb_visited r.1 = fb_visited f /\ fb_candidates r.1 = fb_candidates f)); [done|].
  intros i r _ _ (A & B). by rewrite !(proj1 (visit_keeps _ _ _)), !(proj2 (visit_keeps _ _ _)).
Qed.

Lemma cluster_keeps fv m f : fb_visited (visit_cluster e p t fv m f).1 = fb_visited f.
Proof.
  unfold visit_cluster. pose proof (loop_keeps fv m f fbc_start) as (A & _).
  destruct (for_each_cpu _ _ _) as [f1 c]. cbn in *. repeat case_match; done.
Qed.

Lemma fallback_keeps f : fb_visited (fbt_fallback e p f) = fb_visited f.
Proof. unfold fbt_fallback. repeat case_match; done. Qed.

(** Clusters only become visited. *)
Definition more_visited (f f' : fbt) : Prop :=
  length (fb_visited f') = length (fb_visited f) /\ forall id, visited f id = true -> visited f' id = true.

Lemma more_refl f : more_visited f f.
Proof. done. Qed.

Lemma more_trans f1 f2 f3 : more_visited f1 f2 -> more_visited f2 f3 -> more_visited f1 f3.
Proof. intros (A & B) (C & D). split; [congruence|auto]. Qed.

Lemma more_same f f' : fb_visited f' = fb_visited f -> more_visited f f'.
Proof. intros E. unfold more_visited, visited. by rewrite E. Qed.

Lemma mark_more id f : more_visited f (mark_visited id f).
Proof.
  unfold more_visited, visited, mark_visited. cbn. split; [apply length_insert|]. intros j Hj.
  rewrite !nth_lookup in *. destruct (decide (Z.to_nat id = Z.to_nat j)) as [E|E].
  - rewrite E. destruct (decide (Z.to_nat j < length (fb_visited f))%nat) as [Hl|Hl].
    + by rewrite list_lookup_insert_eq.
    + rewrite lookup_ge_None_2 in Hj by lia. done.
  - by rewrite list_lookup_insert_ne.
Qed.

Lemma mark_marks id f : 0 <= id < Z.of_nat (length (fb_visited f)) -> visited (mark_visited id f) id = true.
Proof. intros H. unfold visited, mark_visited. cbn. rewrite nth_lookup, list_lookup_insert_eq by lia. done. Qed.

Lemma search_more fv search l f : more_visited f (search_clusters e p t fv search l f).
Proof.
  revert f. induction l as [|cl l IH]; intros f; cbn [search_clusters]; [done|].
  destruct (turn_cpus e p fv search cl) as [[id m]|]; [|apply IH]. case_match; [apply IH|].
  pose proof (cluster_keeps fv m (mark_visited id f)) as K.
  destruct (visit_cluster e p t fv m (mark_visited id f)) as [f1 c]. cbn [fst] in K.
  assert (more_visited f f1) as M by (eapply more_trans; [apply mark_more|by apply more_same]).
  case_match; [done|]. case_match; [done|]. eapply more_trans; [exact M|apply IH].
Qed.

(** A turn for the siblings visits one of them. *)
Lemma search_visits fv search l f id :
  search <> 0 -> id ∈ l -> Z.testbit search id = true -> visited f id = false ->
  (forall j, j ∈ l -> 0 <= j < Z.of_nat (length (fb_visited f))) ->
  exists j, j ∈ l /\ visited f j = false /\ visited (search_clusters e p t fv search l f) j = true.
Proof.
  intros Hs. revert f. induction l as [|cl l IH]; intros f Hin Hb Hv Hr; [set_solver|]. cbn [search_clusters].
  unfold turn_cpus. apply Z.eqb_neq in Hs as Es. rewrite Es. cbn [negb].
  destruct (Z.testbit search cl) eqn:Ec; cbn [negb]; [destruct (visited f cl) eqn:Ev|].
  2:{ exists cl. split; [set_solver|]. split; [done|].
      pose proof (cluster_keeps fv (Z.land (cpus_ptr e p) (cluster_cpus (pv_cfg e) cl)) (mark_visited cl f)) as K.
      destruct (visit_cluster e p t fv _ (mark_visited cl f)) as [f1 c]. cbn [fst] in K.
      assert (visited f1 cl = true) as V1.
      { unfold visited. rewrite K. apply mark_marks. apply Hr. set_solver. }
      case_match; [done|]. case_match; [done|]. by apply search_more. }
  all: destruct (IH f) as (j & Hj & V); [|done|done|set_solver|exists j; split; [set_solver|done]].
  all: apply elem_of_cons in Hin as [->|Hin]; [congruence|done].
Qed.

Definition unvisited (f : fbt) : nat := length (filter (fun b => b = false) (fb_visited f)).

Lemma falses_le (l l' : list bool) :
  length l' = length l -> (forall i, nth i l false = true -> nth i l' false = true) ->
  (length (filter (fun b => b = false) l') <= length (filter (fun b => b = false) l))%nat /\
  forall j, (j < length l)%nat -> nth j l false = false -> nth j l' false = true ->
    (length (filter (fun b => b = false) l') < length (filter (fun b => b = false) l))%nat.
Proof.
  revert l'. induction l as [|b l IH]; intros [|b' l'] Hl H; try done; [split; [done|cbn; lia]|].
  injection Hl as Hl. destruct (IH l' Hl (fun i => H (S i))) as (IH1 & IH2). pose proof (H 0%nat) as H0. cbn in H0.
  rewrite !filter_cons. split.
  - destruct b, b'; repeat case_decide; cbn; try done; lia.
  - intros [|j] Hj E E'; cbn in *.
    + subst. repeat case_decide; cbn; try done; lia.
    + specialize (IH2 j ltac:(lia) E E'). destruct b, b'; repeat case_decide; cbn; try done; lia.
Qed.

Lemma more_unvisited f f' id :
  more_visited f f' -> 0 <= id < Z.of_nat (length (fb_visited f)) -> visited f id = false -> visited f' id = true ->
  (unvisited f' < unvisited f)%nat.
Proof.
  intros (A & B) Hid V V'. unfold unvisited. eapply (proj2 (falses_le _ _ A _) (Z.to_nat id)); [lia|exact V|exact V'].
  Unshelve. intros i Hi. specialize (B (Z.of_nat i)). unfold visited in B. rewrite Nat2Z.id in B. auto.
Qed.

(** The siblings the sysctl may set: none, or a cluster of the system. *)
Definition siblings_ok : Prop :=
  pv_clusters e <= MAX_CLUSTERS /\ forall id, pv_sibling_cluster e id < pv_clusters e.

Lemma siblings_spec f id :
  siblings_ok -> Z.testbit (search_siblings e f) id = true -> 0 <= id < pv_clusters e /\ visited f id = false.
Proof.
  intros (_ & H). unfold search_siblings.
  apply (for_each_cpu_inv (fun m => Z.testbit m id = true -> 0 <= id < pv_clusters e /\ visited f id = false)).
  - by rewrite Z.bits_0.
  - intros cpu m _ _ IH. set (sib := pv_sibling_cluster e _). destruct (_ && _) eqn:E; [|done].
    destruct (Z.eq_dec sib id) as [<-|Hne].
    + intros _. specialize (H (cpu_cluster_id (pv_cfg e) cpu)). fold sib in H. split; [lia|].
      apply andb_true_iff in E as (_ & E). by apply negb_true_iff in E.
    + rewrite Z.setbit_neq by lia. apply IH.
Qed.

Lemma siblings_nonneg f : 0 <= search_siblings e f.
Proof.
  unfold search_siblings. apply (for_each_cpu_inv (fun m => 0 <= m)); [done|]. intros cpu m _ _ H.
  case_match; [|done]. unfold Z.setbit. apply Z.lor_nonneg. split; [done|]. apply Z.shiftl_nonneg. lia.
Qed.

Lemma siblings_bit f : search_siblings e f <> 0 -> exists id, Z.testbit (search_siblings e f) id = true.
Proof.
  intros H. pose proof (siblings_nonneg f). exists (Z.log2 (search_siblings e f)). apply Z.bit_log2. lia.
Qed.

Lemma out_ends fv n force f :
  siblings_ok -> length (fb_visited f) = Z.to_nat MAX_CLUSTERS -> (unvisited f <= n)%nat ->
  exists r, fbt_out e p t n fv force f = Some r.
Proof.
  intros Hs. revert force f. induction n as [|n IH]; intros force f Hl Hn; cbn [fbt_out];
    destruct (search_siblings e f =? 0) eqn:E; try (by eexists); apply Z.eqb_neq in E;
    destruct (siblings_bit f E) as (id & Hb); destruct (siblings_spec f id Hs Hb) as (Hid & Hv);
    destruct Hs as (Hc & Hs).
  - unfold MAX_CLUSTERS in *. destruct (falses_le (fb_visited f) (replicate 4 true)) as (_ & F); [by rewrite Hl| |].
    + intros i Hi. do 4 (destruct i as [|i]; [done|]). rewrite nth_overflow in Hi by (rewrite Hl; lia). done.
    + unfold unvisited, visited in *. specialize (F (Z.to_nat id) ltac:(rewrite Hl; lia) Hv).
      assert (nth (Z.to_nat id) (replicate 4 true) false = true) as Hr; [|specialize (F Hr); lia].
      assert (Z.to_nat id < 4)%nat as Hlt by lia. destruct (Z.to_nat id) as [|[|[|[|?]]]]; try done; lia.
  - destruct (search_visits fv (search_siblings e f) (seqZ 0 (pv_clusters e)) f id E) as (j & Hj & Vj & Vj'); try done.
    + apply elem_of_seqZ. lia.
    + intros j Hj. apply elem_of_seqZ in Hj. rewrite Hl. lia.
    + apply elem_of_seqZ in Hj. set (f1 := search_clusters e p t fv _ _ f) in *.
      assert (more_visited f f1) as M by apply search_more.
      apply IH; [rewrite fallback_keeps; rewrite <- Hl; apply M|].
      assert (unvisited f1 < unvisited f)%nat as Hu by (apply (more_unvisited f f1 j); [done|rewrite Hl; lia|done|done]).
      unfold unvisited in *. rewrite fallback_keeps. lia.
Qed.

Lemma out_more_fuel fv n m force f r : (n <= m)%nat -> fbt_out e p t n fv force f = Some r -> fbt_out e p t m fv force f = Some r.
Proof.
  revert m force f. induction n as [|n IH]; intros m force f Hm; destruct m as [|m]; cbn [fbt_out]; case_match; try done; [lia|].
  apply IH. lia.
Qed.

Lemma start_length fv :
  length (fb_visited (fbt_start e t fv)) = Z.to_nat MAX_CLUSTERS.
Proof. reflexivity. Qed.

Lemma unvisited_bound f : (unvisited f <= length (fb_visited f))%nat.
Proof. apply length_filter. Qed.

(** The search with enough fuel. *)
Lemma search_ends fv :
  siblings_ok -> exists r, forall n, (4 <= n)%nat -> walt_find_best_target e p t n fv = Some r.
Proof.
  intros Hs. unfold walt_find_best_target. set (f := if 0 <=? _ then _ else _).
  assert (length (fb_visited f) = Z.to_nat MAX_CLUSTERS) as Hl.
  { unfold f. case_match; [|case_match]; cbn; rewrite ?length_insert; try done.
    rewrite fallback_keeps. rewrite <- (start_length fv). apply search_more. }
  destruct (out_ends fv 4 false f Hs Hl) as (r & Hr); [pose proof (unvisited_bound f); rewrite Hl in *; done|].
  exists r. intros n Hn. by eapply out_more_fuel.
Qed.

(** The search for candidates ends: as long as the sibling of every cluster is a
    cluster of the system, each return to the label [retry] visits a cluster that was not
    visited before, so that four returns are enough whatever the state of the system, and
    more make no difference. *)
Theorem search_terminates fv :
  siblings_ok -> exists r, forall n, (4 <= n)%nat -> walt_find_best_target e p t n fv = Some r.
Proof. exact (search_ends fv). Qed.

(** ** A sibling that does not exist *)

Lemma add_mono cpu f c : Z.testbit (fb_candidates f) c = true -> Z.testbit (fb_candidates (add_candidate cpu f)) c = true.
Proof. intros H. unfold add_candidate, Z.setbit. cbn. rewrite Z.lor_spec, H. done. Qed.

Lemma cluster_mono fv m f c :
  Z.testbit (fb_candidates f) c = true -> Z.testbit (fb_candidates (visit_cluster e p t fv m f).1) c = true.
Proof.
  intros H. unfold visit_cluster. pose proof (loop_keeps fv m f fbc_start) as (_ & B).
  destruct (for_each_cpu _ _ _) as [f1 k]. cbn [fst] in *. rewrite <- B in H.
  repeat case_match; cbn [fst]; try done; by apply add_mono.
Qed.

Lemma search_mono fv search l f c :
  Z.testbit (fb_candidates f) c = true -> Z.testbit (fb_candidates (search_clusters e p t fv search l f)) c = true.
Proof.
  revert f. induction l as [|cl l IH]; intros f H; cbn [search_clusters]; [done|].
  destruct (turn_cpus e p fv search cl) as [[id m]|]; [|by apply IH]. case_match; [by apply IH|].
  pose proof (cluster_mono fv m (mark_visited id f) c H) as K.
  destruct (visit_cluster e p t fv m (mark_visited id f)) as [f1 k]. cbn [fst] in K.
  case_match; [done|]. case_match; [done|]. by apply IH.
Qed.

Lemma fallback_mono f c : Z.testbit (fb_candidates f) c = true -> Z.testbit (fb_candidates (fbt_fallback e p f)) c = true.
Proof. intros H. unfold fbt_fallback. repeat case_match; try done; by apply add_mono. Qed.

Lemma search_leaves fv search l f id :
  search <> 0 -> id ∉ l -> 0 <= id -> (forall j, j ∈ l -> 0 <= j) -> visited f id = false ->
  visited (search_clusters e p t fv search l f) id = false.
Proof.
  intros Hs. revert f. induction l as [|cl l IH]; intros f Hin Hid Hl Hv; cbn [search_clusters]; [done|].
  apply not_elem_of_cons in Hin as (Hne & Hin). unfold turn_cpus. apply Z.eqb_neq in Hs as Es. rewrite Es. cbn [negb].
  destruct (Z.testbit search cl); cbn [negb]; [|apply IH; set_solver]. case_match; [apply IH; set_solver|].
  pose proof (cluster_keeps fv (Z.land (cpus_ptr e p) (cluster_cpus (pv_cfg e) cl)) (mark_visited cl f)) as K.
  destruct (visit_cluster e p t fv _ (mark_visited cl f)) as [f1 k]. cbn [fst] in K.
  assert (visited f1 id = false) as V.
  { unfold visited in *. rewrite K. cbn. pose proof (Hl cl ltac:(set_solver)). rewrite nth_lookup, list_lookup_insert_ne by lia.
    by rewrite <- nth_lookup. }
  case_match; [done|]. case_match; [done|]. apply IH; set_solver.
Qed.

Lemma siblings_found f c :
  is_cpu c -> Z.testbit (fb_candidates f) c = true ->
  let sib := pv_sibling_cluster e (cpu_cluster_id (pv_cfg e) c) in
  0 <= sib -> visited f sib = false -> Z.testbit (search_siblings e f) sib = true.
Proof.
  intros Hc Hb sib Hs Hv. unfold search_siblings. set (g := fun cpu m : Z => _).
  assert (forall i m, Z.testbit m sib = true -> Z.testbit (g i m) sib = true) as K.
  { intros i m H. unfold g. case_match; [|done]. unfold Z.setbit. by rewrite Z.lor_spec, H. }
  enough (c < WALT_NR_CPUS -> Z.testbit (for_each_cpu (fb_candidates f) g 0) sib = true) as E by (apply E; apply Hc).
  apply (for_each_cpu_ind (fun i m => c < i -> Z.testbit m sib = true)).
  - unfold is_cpu in Hc. lia.
  - intros i m _ _ IH Hi. destruct (Z.eq_dec i c) as [->|Hne]; [|apply K, IH; lia].
    unfold g. fold sib. destruct (_ && _) eqn:Ec; [by apply Z.setbit_eq|]. rewrite Hv in Ec. cbn in Ec. lia.
  - intros i m _ Hbi IH Hi. destruct (Z.eq_dec i c) as [->|Hne]; [congruence|apply IH; lia].
Qed.

(** The file [sched_sibling_cluster] takes any number up to 3: with a number that is not a
    cluster of the system the search never ends, once a CPU of that cluster is a
    candidate. *)
Lemma missing_sibling_never_ends fv n force f c :
  is_cpu c -> Z.testbit (fb_candidates f) c = true ->
  0 <= pv_clusters e <= pv_sibling_cluster e (cpu_cluster_id (pv_cfg e) c) ->
  visited f (pv_sibling_cluster e (cpu_cluster_id (pv_cfg e) c)) = false ->
  fbt_out e p t n fv force f = None.
Proof.
  intros Hc. set (sib := pv_sibling_cluster e _). revert force f.
  induction n as [|n IH]; intros force f Hb Hs Hv; cbn [fbt_out];
    pose proof (siblings_found f c Hc Hb ltac:(fold sib; lia) Hv) as Hbit; fold sib in Hbit;
    (destruct (search_siblings e f =? 0) eqn:E; [apply Z.eqb_eq in E; rewrite E, Z.bits_0 in Hbit; done|]);
    [done|]. apply Z.eqb_neq in E.
  apply IH; [by apply fallback_mono, search_mono|done|].
  unfold visited. rewrite fallback_keeps. apply search_leaves; try done.
  - rewrite elem_of_seqZ. lia.
  - lia.
  - intros j Hj. apply elem_of_seqZ in Hj. lia.
Qed.

(** ** The candidates *)

(** A CPU the task may be put on. *)
Definition usable (c : Z) : Prop :=
  is_cpu c /\ cpu_active e c = true /\ cpu_halted e c = false /\
  (Z.testbit (cpus_ptr e p) c = true \/ pv_assist e = true /\ Z.testbit (pe_cpus_mask (pv_pl e) p) c = true).
Definition usable_or_none (c : Z) : Prop := c = -1 \/ usable c.

Definition found_ok (fc : fbt * fbc) : Prop :=
  usable_or_none (fb_most_spare_cpu fc.1) /\ usable_or_none (fb_least_nr_cpu fc.1) /\
  usable_or_none (fc_best_idle fc.2) /\ usable_or_none (fc_target fc.2).

Lemma rejected_otherwise fv c : walt_should_reject_fbt_cpu e fv c = false -> cpu_active e c = true /\ cpu_halted e c = false.
Proof. unfold walt_should_reject_fbt_cpu. destruct (cpu_active e c), (cpu_halted e c); done. Qed.

Lemma idle_ok i c : usable i -> usable_or_none (fc_best_idle c) -> usable_or_none (fc_target c) ->
  usable_or_none (fc_best_idle (visit_idle e p i c)) /\ usable_or_none (fc_target (visit_idle e p i c)).
Proof. intros Hi A B. unfold visit_idle. repeat case_match; cbn; split; try done. by right. Qed.

Lemma busy_ok i sp fc : usable i -> found_ok fc -> found_ok (visit_busy e p t i sp fc).
Proof.
  intros Hi (A & B & C & D). destruct fc as [f c]. unfold visit_busy, found_ok in *. case_match; cbn in *; [done|].
  split_and!; try done. by right.
Qed.

Lemma visit_ok fv i fc : (walt_should_reject_fbt_cpu e fv i = false -> usable i) -> found_ok fc -> found_ok (visit_cpu e p t fv i fc).
Proof.
  intros Hi (A & B & C & D). destruct fc as [f c]. unfold visit_cpu. cbn [fst snd] in *.
  destruct (walt_should_reject_fbt_cpu e fv i); [done|]. specialize (Hi eq_refl).
  set (f1 := if fb_most_spare_cap _ <? _ then _ else _).
  assert (usable_or_none (fb_most_spare_cpu f1) /\ usable_or_none (fb_least_nr_cpu f1)) as (A1 & B1).
  { unfold f1. case_match; cbn; split; try done. by right. }
  set (f2 := if pv_nr_running e i <? _ then _ else f1).
  assert (usable_or_none (fb_most_spare_cpu f2) /\ usable_or_none (fb_least_nr_cpu f2)) as (A2 & B2).
  { unfold f2. case_match; cbn; split; try done. by right. }
  clearbody f2. case_match; [done|]. case_match.
  - destruct (idle_ok i c Hi C D). done.
  - case_match; [done|]. apply busy_ok; done.
Qed.

(** Every candidate is usable, but for the CPU the task was on. *)
Definition candidates_ok (f : fbt) : Prop :=
  forall c, Z.testbit (fb_candidates f) c = true -> usable c \/ c = prev_cpu_of e p /\ cpu_active e c = true.
Definition search_ok (f : fbt) : Prop :=
  usable_or_none (fb_most_spare_cpu f) /\ usable_or_none (fb_least_nr_cpu f) /\ candidates_ok f.

Lemma add_ok cpu f : candidates_ok f -> usable cpu -> candidates_ok (add_candidate cpu f).
Proof.
  intros H Hc c. unfold add_candidate. cbn. destruct Hc as (Hi & Hc). unfold is_cpu in Hi.
  rewrite Z.setbit_eqb by lia. intros [E|E]%orb_true_iff; [|by apply H]. left. apply Z.eqb_eq in E as <-. done.
Qed.

Lemma cluster_ok fv m f :
  (forall c, Z.testbit m c = true ->
     Z.testbit (cpus_ptr e p) c = true \/ pv_assist e = true /\ Z.testbit (pe_cpus_mask (pv_pl e) p) c = true) ->
  search_ok f -> search_ok (visit_cluster e p t fv m f).1.
Proof.
  intros Hm (A & B & C). unfold visit_cluster. pose proof (loop_keeps fv m f fbc_start) as (_ & K).
  assert (found_ok (for_each_cpu m (visit_cpu e p t fv) (f, fbc_start))) as F.
  { apply (for_each_cpu_inv found_ok); [split_and!; try done; by left|]. intros i r Hi Hb Hr. apply visit_ok; [|done].
    intros Hrej. destruct (rejected_otherwise fv i Hrej) as (H1 & H2). split_and!; try done. by apply Hm. }
  destruct (for_each_cpu _ _ _) as [f1 k]. cbn [fst snd] in *. destruct F as (F1 & F2 & F3 & F4). cbn [fst snd] in *.
  assert (candidates_ok f1) as C1 by (intros c; rewrite K; apply C).
  repeat case_match; cbn [fst]; split_and!; cbn; try done; apply add_ok; try done.
  - destruct F3 as [Ex|]; [by rewrite Ex in *|done].
  - destruct F4 as [Ex|]; [by rewrite Ex in *|done].
Qed.

Lemma turn_allowed fv search cl id m c :
  turn_cpus e p fv search cl = Some (id, m) -> Z.testbit m c = true ->
  Z.testbit (cpus_ptr e p) c = true \/ pv_assist e = true /\ Z.testbit (pe_cpus_mask (pv_pl e) p) c = true.
Proof.
  unfold turn_cpus. repeat case_match; intros [= <- <-]; rewrite Z.land_spec; intros (Hc & _)%andb_true_iff; auto.
Qed.

Lemma search_keeps_ok fv search l f : search_ok f -> search_ok (search_clusters e p t fv search l f).
Proof.
  revert f. induction l as [|cl l IH]; intros f H; cbn [search_clusters]; [done|].
  destruct (turn_cpus e p fv search cl) as [[id m]|] eqn:E; [|by apply IH]. case_match; [by apply IH|].
  pose proof (cluster_ok fv m (mark_visited id f) (fun c => turn_allowed _ _ _ _ _ c E) H) as K.
  destruct (visit_cluster e p t fv m (mark_visited id f)) as [f1 k]. cbn [fst] in K.
  case_match; [done|]. case_match; [done|]. by apply IH.
Qed.

Lemma fallback_ok f : 0 <= prev_cpu_of e p -> search_ok f -> search_ok (fbt_fallback e p f).
Proof.
  intros Hp (A & B & C). unfold fbt_fallback. case_match; [done|]. case_match; [|case_match; [|case_match; [|done]]].
  - split_and!; try done. apply add_ok; [done|]. destruct A as [E|]; [|done]. by rewrite E in *.
  - split_and!; try done. intros c. unfold add_candidate. cbn. rewrite Z.setbit_eqb by done.
    intros [E|E]%orb_true_iff; [|by apply C]. apply Z.eqb_eq in E as <-. right. split; [done|].
    match goal with H : _ && _ = true |- _ => by apply andb_true_iff in H as (H & _) end.
  - split_and!; try done. apply add_ok; [done|]. destruct B as [E|]; [|done]. by rewrite E in *.
Qed.

Lemma out_ok fv n force f r :
  0 <= prev_cpu_of e p -> search_ok f -> fbt_out e p t n fv force f = Some r -> search_ok r.1.
Proof.
  intros Hp. revert force f. induction n as [|n IH]; intros force f H; cbn [fbt_out]; case_match; try done.
  1, 2: by intros [= <-]. apply IH. by apply fallback_ok, search_keeps_ok.
Qed.

Lemma packing_usable start :
  mask_ok (pv_active e) -> nr_cpu_ids (pv_cfg e) <= WALT_NR_CPUS ->
  0 <= walt_find_and_choose_cluster_packing_cpu e p t start ->
  usable (walt_find_and_choose_cluster_packing_cpu e p t start).
Proof.
  intros Hm Hn. unfold walt_find_and_choose_cluster_packing_cpu.
  set (m := if pv_compat e then _ else _). destruct (_ =? 0); [lia|]. destruct (_ =? 0); [lia|].
  destruct (_ <=? cpumask_first m) eqn:En; [lia|].
  destruct (cpumask_test_cpu (cpumask_first m) _) eqn:Ec; cbn [negb]; [|lia].
  assert (forall c, Z.testbit m c = true -> cpu_active e c = true /\ cpu_halted e c = false) as Hb.
  { intros c Hc. assert (Z.testbit (Z.ldiff (pv_active e) (pe_halted (pv_pl e))) c = true) as Hd.
    { unfold m in Hc. destruct (pv_compat e); rewrite ?Z.land_spec in Hc; by repeat apply andb_true_iff in Hc as (Hc & _). }
    rewrite Z.ldiff_spec in Hd. apply andb_true_iff in Hd as (Hd1 & Hd2%negb_true_iff). done. }
  assert (mask_ok m) as Hm2.
  { unfold m. case_match; repeat apply mask_ok_land; by apply mask_ok_ldiff. }
  destruct (Z.eq_dec m 0) as [E|E]; [rewrite E, cpumask_first_zero in *; lia|].
  repeat (case_match; [lia|]). intros _.
  destruct (cpumask_first_spec m Hm2 E) as (F1 & F2 & _). destruct (Hb _ F2) as (B1 & B2).
  split; [exact F1|]. split; [exact B1|]. split; [exact B2|]. by left.
Qed.

(** The candidates of the search. *)
Lemma found_allowed fv n f force :
  mask_ok (pv_active e) -> nr_cpu_ids (pv_cfg e) <= WALT_NR_CPUS -> is_cpu (prev_cpu_of e p) ->
  walt_find_best_target e p t n fv = Some (f, force) ->
  candidates_ok f.
Proof.
  intros Hm Hn Hp H. unfold walt_find_best_target in H. destruct Hp as (Hp & Hp8).
  assert (search_ok (fbt_start e t fv)) as S0.
  { split_and!; [by left|by left|]. intros c. by rewrite Z.bits_0. }
  apply (out_ok _ _ _ _ (f, force) Hp) in H; [apply H|]. destruct (0 <=? _) eqn:E1; [|destruct (select_prev_cpu_fastpath _ _ _ _ _) eqn:E2].
  - split_and!; [by left|by left|]. apply (add_ok _ (fbt_start e t fv)); [apply S0|]. apply packing_usable; [done|done|lia].
  - split_and!; [by left|by left|]. apply (add_ok _ (fbt_start e t fv)); [apply S0|].
    unfold select_prev_cpu_fastpath in E2.
    destruct (cpu_active e (prev_cpu_of e p)) eqn:P1; [|done]. destruct (pv_idle e _); [|done].
    destruct (cpumask_test_cpu _ (cpus_ptr e p)) eqn:P2; [|done]. destruct (cpu_halted e _) eqn:P3; [done|].
    split_and!; try done. by left.
  - by apply fallback_ok, search_keeps_ok.
Qed.

(** The search proposes only CPUs the task can run on: a candidate is active, not
    halted and allowed for the task, or it is the CPU the task was on, which is active. *)
Theorem candidates_allowed fv n f force :
  mask_ok (pv_active e) -> nr_cpu_ids (pv_cfg e) <= WALT_NR_CPUS -> is_cpu (prev_cpu_of e p) ->
  walt_find_best_target e p t n fv = Some (f, force) ->
  forall c, Z.testbit (fb_candidates f) c = true -> usable c \/ c = prev_cpu_of e p /\ cpu_active e c = true.
Proof. apply found_allowed. Qed.

(** ** The candidate of a cluster *)

Definition new_util (i : Z) : Z := u64 (cpu_util_without e p t i + uclamp_task_util (pv_fit e) p t).
Definition spare (i : Z) : Z := pv_cap e i - new_util i.
(** A CPU that is not refused and has room for the task. *)
Definition roomy (fv : fbt_env) (m i : Z) : Prop :=
  Z.testbit m i = true /\ walt_should_reject_fbt_cpu e fv i = false /\ new_util i <= pv_cap e i.
Definition complex_idle (i : Z) : Z := Z.b2z (is_complex_sibling_idle e i).
Definition rtg_prior : bool :=
  task_in_related_thread_group t && (fe_prio (pv_fit e) p <=? sysctl_walt_rtg_cfs_boost_prio (pv_cfg e)).

Record cluster_inv (fv : fbt_env) (m n : Z) (c : fbc) : Prop := {
  ci_idle : fc_best_idle c <> -1 ->
    roomy fv m (fc_best_idle c) /\ pv_idle e (fc_best_idle c) = true /\
    fc_min_latency c = pv_exit_latency e (fc_best_idle c) /\ fc_complex_idle c = complex_idle (fc_best_idle c) /\
    forall i, 0 <= i < n -> roomy fv m i -> pv_idle e i = true -> fc_complex_idle c <= complex_idle i ->
      fc_min_latency c <= pv_exit_latency e i;
  ci_start : fc_best_idle c = -1 -> fc_min_latency c = INT_MAX /\ fc_complex_idle c = 0 /\ fc_cuml_util c = ULONG_MAX;
  ci_busy : fc_best_idle c = -1 -> forall i, 0 <= i < n -> roomy fv m i -> pv_idle e i = false;
  ci_none : rtg_prior = false -> fc_best_idle c = -1 -> fc_target c = -1 ->
    fc_max_spare c = 0 /\ forall i, 0 <= i < n -> ~ roomy fv m i;
  ci_target : rtg_prior = false -> fc_best_idle c = -1 -> fc_target c <> -1 ->
    roomy fv m (fc_target c) /\ fc_max_spare c = spare (fc_target c) /\
    forall i, 0 <= i < n -> roomy fv m i -> spare i <= spare (fc_target c)
}.

(** What the tables of the idle states and of the fair scheduler may hold. *)
Definition readings_ok : Prop :=
  (forall i, 0 <= pv_exit_latency e i <= INT_MAX) /\ (forall i, 0 <= pv_util_cum e i <= ULONG_MAX) /\
  0 <= prev_cpu_of e p.

Lemma complex_range i : 0 <= complex_idle i <= 1.
Proof. unfold complex_idle. destruct (is_complex_sibling_idle e i); cbn; lia. Qed.

(** A CPU that changes nothing. *)
Lemma inv_skip fv m n c :
  cluster_inv fv m n c -> ~ roomy fv m n -> cluster_inv fv m (n + 1) c.
Proof.
  intros [H1 H2 H3 H4 H5] Hn.
  assert (forall i, 0 <= i < n + 1 -> roomy fv m i -> 0 <= i < n) as Hi.
  { intros i Hi Hr. destruct (Z.eq_dec i n) as [->|]; [done|lia]. }
  split; [|done| | |].
  - intros Hb. destruct (H1 Hb) as (A & B & C & D & E). split_and!; try done. intros i Hin Hr. eauto.
  - intros Hb i Hin Hr. eauto.
  - intros Hr Hb Ht. destruct (H4 Hr Hb Ht) as (A & B). split; [done|]. intros i Hin Hri. by apply (B i); eauto.
  - intros Hr Hb Ht. destruct (H5 Hr Hb Ht) as (A & B & C). split_and!; try done. eauto.
Qed.

Lemma inv_idle fv m n c :
  readings_ok -> 0 <= n -> cluster_inv fv m n c -> roomy fv m n -> pv_idle e n = true ->
  cluster_inv fv m (n + 1) (visit_idle e p n c).
Proof.
  intros (L & U & P) Hn [H1 H2 H3 H4 H5] Hr Hi. unfold visit_idle. fold (complex_idle n).
  pose proof (complex_range n) as Hcn. specialize (L n). specialize (U n).
  destruct (Z.eq_dec (fc_best_idle c) (-1)) as [Eb|Eb].
  - destruct (H2 Eb) as (-> & -> & ->). rewrite Eb. destruct (_ <? 0) eqn:E1; [lia|]. destruct (INT_MAX <? _) eqn:E2; [lia|].
    destruct (_ && _) eqn:E3; [lia|]. split; cbn; try (intros; lia).
    intros _. split_and!; try done. intros i Hin Hri Hii. destruct (Z.eq_dec i n) as [->|]; [lia|].
    rewrite (H3 Eb i) in Hii by (done || lia). done.
  - destruct (H1 Eb) as (A & B & C & D & E).
    destruct (complex_idle n <? fc_complex_idle c) eqn:E1;
      [|destruct (fc_min_latency c <? pv_exit_latency e n) eqn:E2; [|destruct (_ && _) eqn:E3]].
    1, 2, 3: split; try done; intros _; split_and!; try done; intros i Hin Hri Hii Hc;
      (destruct (Z.eq_dec i n) as [->|]; [lia|apply E; (done || lia)]).
    split; cbn; try (intros; lia).
    intros _. split_and!; try done. intros i Hin Hri Hii Hc.
    destruct (Z.eq_dec i n) as [->|]; [lia|]. specialize (E i ltac:(lia) Hri Hii). lia.
Qed.

Lemma inv_busy fv m n f c :
  0 <= n -> cluster_inv fv m n c -> roomy fv m n -> pv_idle e n = false -> fc_best_idle c = -1 ->
  cluster_inv fv m (n + 1) (visit_busy e p t n (spare n) (f, c)).2.
Proof.
  intros Hn [H1 H2 H3 H4 H5] Hr Hi Hb. assert (0 <= spare n) as Hs by (unfold spare; destruct Hr; lia).
  assert (forall i, 0 <= i < n + 1 -> roomy fv m i -> pv_idle e i = false) as Hbusy.
  { intros i Hin Hri. destruct (Z.eq_dec i n) as [->|]; [done|]. apply H3; [done|lia|done]. }
  unfold visit_busy. fold rtg_prior. destruct rtg_prior eqn:Er.
  - case_match; cbn; split; cbn; try done; intros; lia.
  - destruct (spare n <? fc_max_spare c) eqn:E; cbn.
    + destruct (Z.eq_dec (fc_target c) (-1)) as [Et|Et]; [destruct (H4 eq_refl Hb Et); lia|].
      destruct (H5 eq_refl Hb Et) as (A & B & C). split; try done; try (intros _ _ Ht; lia). intros _ _ _. split_and!; try done.
      intros i Hin Hri. destruct (Z.eq_dec i n) as [->|]; [lia|]. apply C; [lia|done].
    + split; cbn; try done; try (intros _ _ Ht; lia). intros _ _ _. split_and!; try done.
      intros i Hin Hri. destruct (Z.eq_dec i n) as [->|]; [lia|].
      destruct (Z.eq_dec (fc_target c) (-1)) as [Et|Et].
      * destruct (H4 eq_refl Hb Et) as (_ & A). exfalso. apply (A i); [lia|done].
      * destruct (H5 eq_refl Hb Et) as (A & B & C). specialize (C i ltac:(lia) Hri). lia.
Qed.

Lemma inv_visit fv m n fc :
  readings_ok -> 0 <= n -> Z.testbit m n = true -> cluster_inv fv m n fc.2 ->
  cluster_inv fv m (n + 1) (visit_cpu e p t fv n fc).2.
Proof.
  intros R Hn Hm H. destruct fc as [f c]. unfold visit_cpu. cbn [snd] in H.
  destruct (walt_should_reject_fbt_cpu e fv n) eqn:Ej.
  { apply inv_skip; [done|]. intros (_ & Hrej & _). congruence. }
  fold (new_util n). destruct (pv_cap e n <? new_util n) eqn:Ec; cbn [snd].
  { apply inv_skip; [done|]. intros (_ & _ & Hroom). lia. }
  assert (roomy fv m n) as Hr by (split_and!; [done|done|lia]).
  destruct (pv_idle e n) eqn:Ei; cbn [snd]; [by apply inv_idle|].
  destruct (fc_best_idle c =? -1) eqn:Eb; cbn [negb snd].
  - apply inv_busy; try done. by apply Z.eqb_eq.
  - destruct H as [H1 H2 H3 H4 H5]. apply Z.eqb_neq in Eb. split; try (intros; lia).
    intros _. destruct (H1 Eb) as (A & B & C & D & E). split_and!; try done. intros i Hin Hri Hii.
    destruct (Z.eq_dec i n) as [->|]; [congruence|]. apply E; (done || lia).
Qed.

(** The candidate of a cluster: among the CPUs that are not refused and have room for
    the task, an idle one if there is any, and then with the shortest exit latency among
    those whose sibling is idle at least as much; otherwise, for a task that is not a
    prior group task, the busy one that is left with the most spare capacity. A cluster
    with such a CPU yields a candidate. *)
Theorem cluster_candidate_best fv m f :
  readings_ok ->
  let '(f', c) := visit_cluster e p t fv m f in
  fb_candidates f' = (if negb (fc_best_idle c =? -1) then Z.setbit (fb_candidates f) (fc_best_idle c)
                      else if negb (fc_target c =? -1) then Z.setbit (fb_candidates f) (fc_target c) else fb_candidates f) /\
  (fc_best_idle c <> -1 ->
     roomy fv m (fc_best_idle c) /\ pv_idle e (fc_best_idle c) = true /\
     forall i, is_cpu i -> roomy fv m i -> pv_idle e i = true -> complex_idle (fc_best_idle c) <= complex_idle i ->
       pv_exit_latency e (fc_best_idle c) <= pv_exit_latency e i) /\
  (fc_best_idle c = -1 -> forall i, is_cpu i -> roomy fv m i -> pv_idle e i = false) /\
  (fc_best_idle c = -1 -> rtg_prior = false ->
     (fc_target c = -1 -> forall i, is_cpu i -> ~ roomy fv m i) /\
     (fc_target c <> -1 -> roomy fv m (fc_target c) /\
        forall i, is_cpu i -> roomy fv m i -> spare i <= spare (fc_target c))).
Proof.
  intros R. unfold visit_cluster. pose proof (loop_keeps fv m f fbc_start) as (_ & K).
  assert (cluster_inv fv m WALT_NR_CPUS (for_each_cpu m (visit_cpu e p t fv) (f, fbc_start)).2) as [I1 I2 I3 I4 I5].
  { apply (for_each_cpu_ind (fun n r => cluster_inv fv m n r.2)).
    - split; cbn; try done; [intros; lia|]. intros _ _ _. split; [done|intros; lia].
    - intros i r (Hi & _) Hb Hr. by apply inv_visit.
    - intros i r _ Hb Hr. apply inv_skip; [done|]. intros (Hm & _). congruence. }
  destruct (for_each_cpu _ _ _) as [f1 c]. cbn [fst snd] in *.
  split; [rewrite <- K; repeat case_match; done|]. split; [|split].
  - intros Hb. destruct (I1 Hb) as (A & B & C & D & E). rewrite C, D in E. done.
  - exact I3.
  - intros Hb Hr. split; [intros Ht; apply (I4 Hr Hb Ht)|]. intros Ht. destruct (I5 Hr Hb Ht) as (A & _ & C). done.
Qed.

End Searching.

(** A system where every CPU is busy with a tenth of its capacity. *)
Definition demo_pv : place_env :=
  mk_pv demo_ple [[15; 240]; [240; 15]] 255 0 (fun _ => false) (fun _ => false) (fun _ => false) (fun _ => 0) (fun _ => -1)
    (fun cpu => if cpu <? 4 then 40 + cpu else 100 + cpu) (fun _ => 0) (fun _ => 1) (fun _ => 0) (fun _ => 0)
    (fun _ => false) (fun _ => 400) (fun _ => 0) (fun _ => 0) true false true false false 255
    (fun id => if id =? 0 then 1 else 0) [0; 0] [0; 0] (fun _ => 0) false false false false false 1000
    false false (fun _ => false) (fun _ => false) (fun _ => None) (fun _ => None) None.
Definition demo_task : walt_task_struct := zero_wts <| t_demand_scaled := 60 |> <| t_pipeline_cpu := -1 |>.
Definition demo_fv : fbt_env := mk_fe 0 0 0 false (-1) 0.

Lemma search_terminates_witness :
  siblings_ok demo_pv /\ exists r, forall n, (4 <= n)%nat -> walt_find_best_target demo_pv 9 demo_task n demo_fv = Some r.
Proof.
  assert (siblings_ok demo_pv) as H.
  { split; [vm_compute; discriminate|]. intros id. cbn. by destruct (id =? 0). }
  split; [exact H|]. exact (search_terminates demo_pv 9 demo_task demo_fv H).
Defined.

Definition demo_found : fbt :=
  mk_fbt 17 920 4 0 1 0 [true; true; false; false] (replicate 8 0) FP_NONE.

Lemma candidates_allowed_witness :
  walt_find_best_target demo_pv 9 demo_task 4 demo_fv = Some (demo_found, true) /\
  (usable demo_pv 9 4 \/ 4 = prev_cpu_of demo_pv 9 /\ cpu_active demo_pv 4 = true).
Proof.
  assert (walt_find_best_target demo_pv 9 demo_task 4 demo_fv = Some (demo_found, true)) as H by (vm_compute; reflexivity).
  split; [exact H|]. apply (candidates_allowed demo_pv 9 demo_task demo_fv 4 demo_found true).
  - split; vm_compute; [discriminate|reflexivity].
  - vm_compute. discriminate.
  - split; vm_compute; [discriminate|reflexivity].
  - exact H.
  - reflexivity.
Defined.

Lemma cluster_candidate_best_witness :
  fc_target (visit_cluster demo_pv 9 demo_task demo_fv 240 (fbt_start demo_pv demo_task demo_fv)).2 = 4 /\
  spare demo_pv 9 demo_task 6 <= spare demo_pv 9 demo_task 4.
Proof.
  split; [vm_compute; reflexivity|].
  pose proof (cluster_candidate_best demo_pv 9 demo_task demo_fv 240 (fbt_start demo_pv demo_task demo_fv)) as H.
  destruct (visit_cluster demo_pv 9 demo_task demo_fv 240 (fbt_start demo_pv demo_task demo_fv)) as [f c] eqn:E.
  assert (fc_best_idle c = -1 /\ fc_target c = 4) as (E1 & E2).
  { apply (f_equal snd) in E. split; [apply (f_equal fc_best_idle) in E|apply (f_equal fc_target) in E];
      vm_compute in E; symmetry; exact E. }
  destruct H as (_ & _ & _ & H).
  { split; [intros i; vm_compute; split; discriminate|]. split; [intros i; vm_compute; split; discriminate|vm_compute; discriminate]. }
  destruct (H E1 eq_refl) as (_ & HT). rewrite E2 in HT. destruct (HT ltac:(discriminate)) as (_ & Hs).
  apply Hs; [split; vm_compute; [discriminate|reflexivity]|].
  split; [reflexivity|]. split; [reflexivity|]. vm_compute. discriminate.
Defined.

(** ** Prior group tasks

    The number of prior group tasks on the best CPU is not reset from one cluster to the
    next: when every CPU of the next cluster is busy and has more of them, the cluster
    yields no candidate, although its CPUs have room. *)
Lemma prior_count_carried_over e p t fv m f :
  rtg_prior e p t = true ->
  (forall i, Z.testbit m i = true -> pv_idle e i = false /\ fb_nr_rtg f < pv_nr_rtg e i) ->
  fb_candidates (visit_cluster e p t fv m f).1 = fb_candidates f.
Proof.
  intros Hr Hm. unfold visit_cluster. pose proof (loop_keeps e p t fv m f fbc_start) as (_ & K).
  set (ok := fun r : fbt * fbc => fb_nr_rtg r.1 = fb_nr_rtg f /\ r.2 = fbc_start).
  assert (ok (for_each_cpu m (visit_cpu e p t fv) (f, fbc_start))) as (_ & I).
  { apply (for_each_cpu_inv ok); [done|].
    intros i [f1 c] _ Hb (A & Hc). cbn [fst snd] in A, Hc. subst c. destruct (Hm i Hb) as (Hi & Hn). unfold visit_cpu.
    case_match; [done|]. set (f2 := if fb_most_spare_cap _ <? _ then _ else _).
    assert (fb_nr_rtg f2 = fb_nr_rtg f) as A2 by (unfold f2; by case_match).
    set (f3 := if pv_nr_running e i <? _ then _ else f2).
    assert (fb_nr_rtg f3 = fb_nr_rtg f) as A3 by (unfold f3; by case_match). clearbody f3.
    case_match; [done|]. rewrite Hi. cbn [fc_best_idle fbc_start negb Z.eqb Pos.eqb].
    unfold visit_busy. fold (rtg_prior e p t). rewrite Hr. destruct (_ || _) eqn:E; [done|]. lia. }
  destruct (for_each_cpu _ _ _) as [f1 c]. cbn [fst snd] in *. by rewrite I.
Qed.

End Searching.
