(* ===== verification/EnergyCpu.v ===== *)
(** * Placement: the choice among the candidates

    The second half of [walt_find_energy_efficient_cpu] of [walt_cfs.c]: the fast paths,
    the estimate of the energy the system would use with the task on one CPU or another,
    and the decision; with the hook [walt_select_task_rq_fair] around it and the table of
    costs it reads. *)

From Stdlib Require Import ZArith Lia ZifyBool Bool.
From stdpp Require Import base list sets numbers list_numbers.
From S2P Require Import Prelude WaltTypes Cpumask SmartFreq Halt CoreCtl Boost Fits Pipeline PipelineHeavy PipelineCpus Placement.

Definition MAX_YIELD_CNT_PER_TASK_THR : Z := 25.
Definition MIN_CONTIGUOUS_YIELDING_WINDOW : Z := 3.
Definition WF_SYNC : Z := 16.
Definition PF_EXITING : Z := 4.

(** What the waking CPU knows: itself, whether its current task is of a related group,
    wants wakeups on idle CPUs, its flags, [sysctl_sched_sync_hint_enable], the spans of the
    performance domains (none on a symmetric system) and
    [contiguous_yielding_windows]. *)
Record wake_env := mk_we {
  we_pv : place_env;
  we_this_cpu : Z;
  we_curr_rtg : bool;
  we_curr_idle : bool;
  we_curr_flags : Z;
  we_sync_hint : bool;
  we_pds : list Z;
  we_yield_windows : Z
}.

(** ** The table of costs *)

(** [create_freq_to_cost_pd] for one domain: [costs] are those of the energy model,
    [table] the costs given for the SoC, and [stack] what the variable [size_mismatch]
    holds, which is not initialised. *)
Definition create_freq_to_cost_pd (stack : bool) (table_size : Z) (table costs : list Z) : list Z :=
  let size_mismatch := if table_size <? Z.of_nat (length costs) then true else stack in
  imap (fun i cost => if size_mismatch then cost else aget table (Z.of_nat i)) costs.

Section Energy.
Context (w : wake_env) (p : Z) (t : walt_task_struct).

Definition we_pl : pl_env := pv_pl (we_pv w).
Definition we_fit : fit_env := pe_fit we_pl.
Definition we_cfg : walt_cfg := fe_cfg we_fit.
Definition task_cpu : Z := fe_task_cpu we_fit p.
Definition allowed_cpu (cpu : Z) : bool := cpumask_test_cpu cpu (fe_cpus_ptr we_fit p).

(** ** Energy *)

(** The utilisation of [cpu] with the task on [dst_cpu]. *)
Definition cpu_util_next_walt (cpu dst_cpu : Z) : Z :=
  let util := pv_util (we_pv w) cpu in
  let util := if pv_runnable (we_pv w) then
                if task_cpu =? cpu then if negb (dst_cpu =? cpu) then Z.max (util - task_util t) 0 else util
                else if dst_cpu =? cpu then util + task_util t else util
              else if dst_cpu =? cpu then util + task_util t else util in
  Z.min (u64 util) (capacity_orig_of we_cfg cpu).

(** The busy time of [cpu] in the last window, had the task been on [dst_cpu]; [prs] are
    the times the search recorded. *)
Definition cpu_util_next_walt_prs (cpu dst_cpu : Z) (prev_dst_same_cluster : bool) (prs : list Z) : Z :=
  let util := s64 (aget prs cpu) in
  u64 (if negb (t_prev_window t =? 0) then
         if prev_dst_same_cluster then util else
         let util := Z.max (util - aget (t_prev_window_cpu t) cpu) 0 in
         if cpu =? dst_cpu then util + t_prev_window t else util
       else if cpu =? dst_cpu then util + t_demand t else util).

Definition walt_em_cpu_energy (pd_mask max_util sum_util : Z) : Z :=
  if sum_util =? 0 then 0 else
  let cpu := cpumask_first pd_mask in
  let max_util := Z.max max_util (Z.shiftr (u64 (pv_freq_capacity (we_pv w) cpu * arch_scale_cpu_capacity we_cfg cpu)) 10) in
  let max_util := if 1024 <=? max_util then 1023 else max_util in
  u64 (get_util_to_cost we_pl cpu max_util * sum_util).

Definition walt_pd_compute_energy (dst_cpu pd_mask : Z) (prs : list Z) : Z :=
  let same := cpu_cluster_id we_cfg task_cpu =? cpu_cluster_id we_cfg dst_cpu in
  let '(max_util, sum_util) :=
    for_each_cpu (Z.land pd_mask (pe_online we_pl)) (fun cpu '(max_util, sum_util) =>
      (Z.max max_util (cpu_util_next_walt_prs cpu dst_cpu same prs), u64 (sum_util + cpu_util_next_walt cpu dst_cpu))) (0, 0) in
  walt_em_cpu_energy pd_mask (scale_time_to_util we_cfg max_util) sum_util.

Definition walt_compute_energy (dst_cpu candidates : Z) (prs : list Z) : Z :=
  u64 (fold_left (fun energy pd_mask =>
         if cpumask_intersects candidates pd_mask || cpumask_test_cpu task_cpu pd_mask
         then s64 (energy + walt_pd_compute_energy dst_cpu pd_mask prs) else energy) (we_pds w) 0).

(** ** Choices *)

Definition bias_to_this_cpu (cpu start_cpu : Z) : bool :=
  let base_test := allowed_cpu cpu && cpu_active (we_pv w) cpu in
  let start_cap_test := negb (check_for_higher_capacity we_fit start_cpu cpu) in
  let prime := cpu_mask (we_pv w) 0 (num_sched_clusters we_cfg - 1) in
  if fe_limit_prime_usage we_fit && cpumask_test_cpu cpu prime && negb (cpumask_test_cpu start_cpu prime) then false
  else base_test && start_cap_test.

Definition wake_to_idle : bool := we_curr_idle w || t_wake_up_idle t.

Definition idle_and_shallow (cpu : Z) : bool := pv_idle (we_pv w) cpu && (pv_exit_latency (we_pv w) cpu <=? 1).

Definition select_cpu_same_energy (cpu best_cpu prev_cpu : Z) : bool :=
  let new_cpu_is_idle := pv_idle (we_pv w) cpu in
  let best_cpu_is_idle := pv_idle (we_pv w) best_cpu in
  if check_for_higher_capacity we_fit cpu best_cpu then false else
  if check_for_higher_capacity we_fit best_cpu cpu then true else
  if idle_and_shallow best_cpu then false else
  if idle_and_shallow cpu then true else
  if best_cpu_is_idle && negb new_cpu_is_idle then false else
  if new_cpu_is_idle && negb best_cpu_is_idle then true else
  if best_cpu =? prev_cpu then false else
  if cpu =? prev_cpu then true else
  if best_cpu_is_idle && new_cpu_is_idle then false else
  if cpu_util_of (we_pv w) best_cpu <=? cpu_util_of (we_pv w) cpu then false else true.

Definition capacity_spare_of (cpu : Z) : Z := u32 (capacity_orig_of we_cfg cpu - cpu_util_of (we_pv w) cpu).

(** The candidate with the most spare capacity, the first one if there are several. *)
Definition most_spare_candidate (candidates first_cpu : Z) : Z :=
  for_each_cpu candidates (fun cpu max_spare_cpu =>
    if capacity_spare_of max_spare_cpu <? capacity_spare_of cpu then cpu else max_spare_cpu) first_cpu.

(** The loop that selects the best candidate; state: [best_energy] and
    [best_energy_cpu]. *)
Definition energy_step (candidates : Z) (prs : list Z) (prev_cpu cpu : Z) (b : Z * Z) : Z * Z :=
  let '(best_energy, best_energy_cpu) := b in
  if cpu =? prev_cpu then b else
  let cur_energy := walt_compute_energy cpu candidates prs in
  if cur_energy <? best_energy then (cur_energy, cpu) else
  if (cur_energy =? best_energy) && select_cpu_same_energy cpu best_energy_cpu prev_cpu then (cur_energy, cpu) else b.
Definition energy_loop (candidates : Z) (prs : list Z) (prev_cpu best_energy : Z) : Z * Z :=
  for_each_cpu candidates (energy_step candidates prs prev_cpu) (best_energy, prev_cpu).

(** The evaluation of energies, from the delta of the task on. *)
Definition energy_choice (candidates : Z) (prs : list Z) (prev_cpu start_cpu : Z) : Z :=
  let delta := if pv_waking (we_pv w) then task_util t else 0 in
  let ok := allowed_cpu prev_cpu && negb (cpu_overutilized_by (we_pv w) prev_cpu delta) in
  if negb ok && (cpumask_weight candidates =? 1) then cpumask_first candidates else
  let prev_energy := if ok then walt_compute_energy prev_cpu candidates prs else ULONG_MAX in
  let '(best_energy, best_energy_cpu) := energy_loop candidates prs prev_cpu prev_energy in
  if negb (idle_and_shallow best_energy_cpu) && negb (prev_energy =? ULONG_MAX) && negb (best_energy_cpu =? prev_cpu) &&
     (u64 (prev_energy - best_energy) <=? Z.shiftr prev_energy 5) &&
     negb (check_for_higher_capacity we_fit prev_cpu start_cpu)
  then prev_cpu else best_energy_cpu.

(** What follows the search, with its result. *)
Definition choose_candidate (f : fbt) (force need_idle energy_eval_needed : bool) (prev_cpu start_cpu : Z) : Z :=
  let candidates := fb_candidates f in
  let weight := cpumask_weight candidates in
  if weight =? 0 then prev_cpu else
  let first_cpu := cpumask_first candidates in
  if (fb_fastpath f =? CLUSTER_PACKING_FASTPATH) && negb force then first_cpu else
  if (weight =? 1) && (pv_idle (we_pv w) first_cpu || (first_cpu =? prev_cpu)) then first_cpu else
  if need_idle && pv_idle (we_pv w) first_cpu then first_cpu else
  if negb energy_eval_needed && negb force then most_spare_candidate candidates first_cpu else
  energy_choice candidates (fb_prs f) prev_cpu start_cpu.

(** The CPU of a pipeline task; [None] if the pipelines do not decide. *)
Definition pipeline_target (prev_cpu : Z) : option Z :=
  match pv_oplus_pipeline (we_pv w) with
  | None =>
      let pipeline_cpu := t_pipeline_cpu t in
      if pipeline_in_progress we_cfg && walt_pipeline_low_latency_task t && negb (pipeline_cpu =? -1) &&
         allowed_cpu pipeline_cpu && cpu_active (we_pv w) pipeline_cpu && negb (cpu_halted (we_pv w) pipeline_cpu)
      then Some
        (if pv_curr_pipeline (we_pv w) pipeline_cpu then
           if cpumask_test_cpu prev_cpu (pe_cpus we_pl) && negb (pv_curr_pipeline (we_pv w) prev_cpu) then prev_cpu else
           match for_each_cpu_until (pe_cpus we_pl) (fun itr_cpu (_ : unit) =>
                   if itr_cpu =? pipeline_cpu then inl tt else
                   if negb (pv_curr_pipeline (we_pv w) itr_cpu) then inr itr_cpu else inl tt) tt with
           | inr cpu => cpu
           | inl _ => pipeline_cpu
           end
         else pipeline_cpu)
      else None
  | Some (pipeline_cpu, busy) =>
      if negb (pipeline_cpu =? -1) && allowed_cpu pipeline_cpu && cpu_active (we_pv w) pipeline_cpu &&
         negb (cpu_halted (we_pv w) pipeline_cpu) &&
         negb ((pipeline_cpu =? nr_cpu_ids we_cfg - 1) && pv_reserved (we_pv w) pipeline_cpu) && negb (busy pipeline_cpu)
      then Some pipeline_cpu else None
  end.

(** The label [out]. *)
Definition valid_cpu (best_energy_cpu prev_cpu : Z) : Z :=
  if (best_energy_cpu <? 0) || (WALT_NR_CPUS <=? best_energy_cpu) then prev_cpu else best_energy_cpu.

(** The label [unlock]: the vendor's scheduler may ask for another CPU. *)
Definition vendor_choice (best_energy_cpu : Z) : Z :=
  match pv_frame_cpu (we_pv w) best_energy_cpu with
  | Some cpu => cpu
  | None => if pv_assist (we_pv w) then default best_energy_cpu (pv_ux_cpu (we_pv w) best_energy_cpu) else best_energy_cpu
  end.

End Energy.

(** [fuel] is that of the search. Result: the task, whose boost may have expired, and the
    CPU, -1 on a system without performance domains. *)
Definition walt_find_energy_efficient_cpu (fuel : nat) (w : wake_env) (p : Z) (t : walt_task_struct)
    (prev_cpu : Z) (sync : bool) (sibling_count_hint : Z) : option (walt_task_struct * Z) :=
  let e := we_pv w in
  let cpu := we_this_cpu w in
  let need_idle := wake_to_idle w t in
  let '(t, task_boost) := per_task_boost (we_fit w) t in
  let uclamp_boost := walt_uclamp_boosted (we_fit w) p t in
  let many := walt_is_many_wakeup e sibling_count_hint in
  if many && negb (prev_cpu =? cpu) && allowed_cpu w p prev_cpu then Some (t, prev_cpu) else
  if bool_decide (pv_array e = []) then Some (t, prev_cpu) else
  match pipeline_target w p t prev_cpu with
  | Some target => Some (t, valid_cpu target prev_cpu)
  | None =>
      if (MAX_YIELD_CNT_PER_TASK_THR <=? t_yield_state t) && (MIN_CONTIGUOUS_YIELDING_WINDOW <=? we_yield_windows w) &&
         negb (prev_cpu =? -1) && allowed_cpu w p prev_cpu && cpu_active e prev_cpu && negb (cpu_halted e prev_cpu)
      then Some (t, valid_cpu prev_cpu prev_cpu) else
      let '(order_index, end_index, energy_eval_needed) := walt_get_indicies e p t task_boost uclamp_boost in
      let start_cpu := cpumask_first (cpu_mask e order_index 0) in
      let is_rtg := task_in_related_thread_group t in
      let sync := sync && negb (need_idle || (is_rtg && we_curr_rtg w)) in
      if we_sync_hint w && sync && bias_to_this_cpu w p cpu start_cpu && negb (cpu_halted e cpu) &&
         (pv_sibling_cluster e (cpu_cluster_id (we_cfg w) cpu) =? -1)
      then Some (t, valid_cpu (vendor_choice w cpu) prev_cpu) else
      if bool_decide (we_pds w = []) then Some (t, -1) else
      let fv := mk_fe start_cpu order_index end_index (is_rtg && (task_boost =? TASK_BOOST_STRICT_MAX))
                  (if many then cpu else -1) task_boost in
      match walt_find_best_target e p t fuel fv with
      | None => None
      | Some (f, force) =>
          Some (t, valid_cpu (vendor_choice w (choose_candidate w p t f force need_idle energy_eval_needed prev_cpu start_cpu))
                     prev_cpu)
      end
  end.

(** The hook; [wake_q_count] of the task is consumed. Result: the task, the count, and the
    target, [None] if the hook leaves the choice to the scheduler core. *)
Definition walt_select_task_rq_fair (fuel : nat) (w : wake_env) (p : Z) (t : walt_task_struct) (disabled : bool)
    (prev_cpu wake_flags wake_q_count : Z) : option (walt_task_struct * Z * option Z) :=
  if disabled then Some (t, wake_q_count, None) else
  let sync := negb (Z.land wake_flags WF_SYNC =? 0) && (Z.land (we_curr_flags w) PF_EXITING =? 0) in
  match walt_find_energy_efficient_cpu fuel w p t prev_cpu sync wake_q_count with
  | Some (t, cpu) => Some (t, 0, Some cpu)
  | None => None
  end.

(** ** The energy decides *)

Module Energies.
Import Searching.

Section Choice.
Context (w : wake_env) (p : Z) (t : walt_task_struct) (candidates : Z) (prs : list Z) (prev_cpu start_cpu : Z).

Definition energy_on (cpu : Z) : Z := walt_compute_energy w p t cpu candidates prs.

Lemma energy_range cpu : 0 <= energy_on cpu <= ULONG_MAX.
Proof. unfold energy_on, walt_compute_energy. pose proof (u64_range (fold_left (fun energy pd_mask =>
         if cpumask_intersects candidates pd_mask || cpumask_test_cpu (task_cpu w p) pd_mask
         then s64 (energy + walt_pd_compute_energy w p t cpu pd_mask prs) else energy) (we_pds w) 0)). unfold ULONG_MAX. lia.
Qed.

(** The loop keeps the least energy seen, and the CPU it belongs to. *)
Lemma energy_loop_spec init :
  let '(best, cpu) := energy_loop w p t candidates prs prev_cpu init in
  best <= init /\ (cpu = prev_cpu /\ best = init \/ Z.testbit candidates cpu = true /\ cpu <> prev_cpu /\ energy_on cpu = best) /\
  forall c, is_cpu c -> Z.testbit candidates c = true -> c <> prev_cpu -> best <= energy_on c.
Proof.
  unfold energy_loop.
  set (ok := fun (n : Z) (b : Z * Z) =>
    b.1 <= init /\
    (b.2 = prev_cpu /\ b.1 = init \/ Z.testbit candidates b.2 = true /\ b.2 <> prev_cpu /\ energy_on b.2 = b.1) /\
    forall c, 0 <= c < n -> Z.testbit candidates c = true -> c <> prev_cpu -> b.1 <= energy_on c).
  assert (ok WALT_NR_CPUS (for_each_cpu candidates (energy_step w p t candidates prs prev_cpu) (init, prev_cpu))) as H.
  { apply (for_each_cpu_ind ok).
    - split_and!; [cbn; lia|by left|]. intros c Hc. lia.
    - intros i [b x] Hi Hb (A & B & C). cbn [fst snd] in *. unfold energy_step.
      destruct (i =? prev_cpu) eqn:E.
      { split_and!; try done. intros c Hc Hcb Hne. apply C; try done. destruct (Z.eq_dec c i) as [->|]; [lia|lia]. }
      fold (energy_on i). destruct (energy_on i <? b) eqn:E1; [|destruct (_ && _) eqn:E2].
      + split_and!; cbn; [lia|right; split_and!; [done|lia|done]|]. intros c Hc Hcb Hne.
        destruct (Z.eq_dec c i) as [->|]; [lia|]. specialize (C c ltac:(lia) Hcb Hne). lia.
      + split_and!; cbn; [lia|right; split_and!; [done|lia|done]|]. intros c Hc Hcb Hne.
        destruct (Z.eq_dec c i) as [->|]; [lia|]. specialize (C c ltac:(lia) Hcb Hne). lia.
      + split_and!; cbn; try done. intros c Hc Hcb Hne.
        destruct (Z.eq_dec c i) as [->|]; [lia|]. apply C; [lia|done|done].
    - intros i b Hi Hb (A & B & C). split_and!; try done. intros c Hc Hcb Hne. apply C; try done.
      destruct (Z.eq_dec c i) as [->|]; [congruence|lia]. }
  destruct (for_each_cpu _ _ _) as [best cpu]. exact H.
Qed.

(** The CPU the task was on, when its energy is estimated. *)
Definition prev_estimated : Prop :=
  allowed_cpu w p prev_cpu && negb (cpu_overutilized_by (we_pv w) prev_cpu (if pv_waking (we_pv w) then task_util t else 0)) = true /\
  energy_on prev_cpu < ULONG_MAX.

End Choice.

(** ** The CPU that is chosen *)

Section Result.
Context (w : wake_env) (p : Z).

Lemma first_or_none m : Z.testbit m (cpumask_first m) = true \/ cpumask_first m = WALT_NR_CPUS.
Proof.
  unfold cpumask_first. destruct (find_next_bit_spec m WALT_NR_CPUS 0) as (H1 & H2 & H3); [unfold WALT_NR_CPUS; lia|].
  destruct (Z.eq_dec (find_next_bit m WALT_NR_CPUS 0) WALT_NR_CPUS); [by right|left; apply H2; lia].
Qed.

Lemma spare_member candidates first :
  let cpu := most_spare_candidate w candidates first in cpu = first \/ Z.testbit candidates cpu = true.
Proof.
  cbv zeta. unfold most_spare_candidate.
  apply (for_each_cpu_inv (fun x => x = first \/ Z.testbit candidates x = true)); [by left|].
  intros c x _ Hb Hx. case_match; [by right|done].
Qed.

Lemma energy_member t candidates prs prev start :
  let cpu := energy_choice w p t candidates prs prev start in
  cpu = prev \/ Z.testbit candidates cpu = true \/ cpu = WALT_NR_CPUS.
Proof.
  cbv zeta. unfold energy_choice. set (ok := allowed_cpu w p prev && _).
  destruct (negb ok && (cpumask_weight candidates =? 1)); [destruct (first_or_none candidates); auto|].
  set (init := if ok then _ else ULONG_MAX). pose proof (energy_loop_spec w p t candidates prs prev init) as L.
  destruct (energy_loop _ _ _ _ _ _ _) as [best cpu]. destruct L as (_ & B & _).
  destruct (_ && negb (check_for_higher_capacity _ _ _)); [auto|]. destruct B as [(-> & _)|(Hb & _)]; auto.
Qed.

Lemma choose_member t f force need eval prev start :
  let cpu := choose_candidate w p t f force need eval prev start in
  cpu = prev \/ Z.testbit (fb_candidates f) cpu = true \/ cpu = WALT_NR_CPUS.
Proof.
  cbv zeta. unfold choose_candidate. case_match; [auto|].
  assert (cpumask_first (fb_candidates f) = prev \/ Z.testbit (fb_candidates f) (cpumask_first (fb_candidates f)) = true \/
          cpumask_first (fb_candidates f) = WALT_NR_CPUS) as F by (destruct (first_or_none (fb_candidates f)); auto).
  do 3 (case_match; [done|]). case_match; [|apply energy_member].
  destruct (spare_member (fb_candidates f) (cpumask_first (fb_candidates f))) as [->|]; auto.
Qed.

(** A pipeline CPU, when the one of the task runs a pipeline task already. *)
Lemma pipeline_target_spec t prev cpu :
  pv_oplus_pipeline (we_pv w) = None -> pipeline_target w p t prev = Some cpu ->
  cpu = t_pipeline_cpu t /\ allowed_cpu w p cpu = true /\ cpu_active (we_pv w) cpu = true /\ cpu_halted (we_pv w) cpu = false \/
  cpu = prev \/ Z.testbit (pe_cpus (we_pl w)) cpu = true.
Proof.
  intros Ho. unfold pipeline_target. rewrite Ho. destruct (_ && negb (cpu_halted _ _)) eqn:E; [|done].
  intros [= <-]. apply andb_true_iff in E as (E & E1%negb_true_iff). apply andb_true_iff in E as (E & E2).
  apply andb_true_iff in E as (_ & E3). case_match; [|left; done]. case_match; [auto|].
  unfold for_each_cpu_until. set (g := fun (cpu : Z) (x : unit + Z) => _).
  assert (match for_each_cpu (pe_cpus (we_pl w)) g (inl tt) with
          | inr x => Z.testbit (pe_cpus (we_pl w)) x = true | inl _ => True end) as I.
  { apply (for_each_cpu_inv (fun r : unit + Z => match r with inr x => Z.testbit (pe_cpus (we_pl w)) x = true | inl _ => True end)); [done|].
    intros c [u|x] _ Hb Hr; unfold g; [|done]. repeat case_match; simplify_eq; done. }
  destruct (for_each_cpu _ _ _); [left; done|auto].
Qed.

(** What a task may be put on by the hook. *)
Definition placed_well (prev cpu : Z) : Prop :=
  cpu = prev \/ usable (we_pv w) p cpu \/ Z.testbit (pe_cpus (we_pl w)) cpu = true.

Definition vendor_silent : Prop :=
  pv_oplus_pipeline (we_pv w) = None /\ (forall c, pv_frame_cpu (we_pv w) c = None) /\ (forall c, pv_ux_cpu (we_pv w) c = None).

Lemma vendor_same c : vendor_silent -> vendor_choice w c = c.
Proof. intros (_ & F & U). unfold vendor_choice. rewrite F, U. by case_match. Qed.

Lemma valid_placed prev c :
  is_cpu prev -> (c = WALT_NR_CPUS \/ placed_well prev c) ->
  placed_well prev (valid_cpu c prev) /\ is_cpu (valid_cpu c prev).
Proof.
  intros Hp Hc. unfold valid_cpu. destruct (_ || _) eqn:E; [split; [by left|done]|].
  unfold is_cpu. split; [|lia]. destruct Hc as [->|]; [|done]. unfold WALT_NR_CPUS in E. done.
Qed.

Lemma usable_placed prev c :
  mask_ok (pv_active (we_pv w)) -> allowed_cpu w p c = true -> cpu_active (we_pv w) c = true -> cpu_halted (we_pv w) c = false ->
  placed_well prev c.
Proof. intros Hm Ha Hc Hh. right. left. split; [by eapply mask_bit_is_cpu|]. split_and!; try done. by left. Qed.

Lemma placement_result t prev sync hint n :
  (4 <= n)%nat -> siblings_ok (we_pv w) -> mask_ok (pv_active (we_pv w)) -> nr_cpu_ids (we_cfg w) <= WALT_NR_CPUS ->
  is_cpu prev -> prev = fe_task_cpu (we_fit w) p -> vendor_silent ->
  exists t' cpu, walt_find_energy_efficient_cpu n w p t prev sync hint = Some (t', cpu) /\
    (cpu = -1 /\ we_pds w = [] \/ placed_well prev cpu /\ is_cpu cpu).
Proof.
  intros Hn Hs Hm Hc Hp Ep V. unfold walt_find_energy_efficient_cpu.
  destruct (per_task_boost (we_fit w) t) as [t1 boost]. assert (placed_well prev prev) as Hprev by (by left).
  destruct (_ && allowed_cpu w p prev); [exists t1, prev; auto|]. case_bool_decide; [exists t1, prev; auto|].
  destruct (pipeline_target w p t1 prev) as [c|] eqn:Et.
  { eexists t1, _. split; [done|]. right. apply valid_placed; [done|]. right.
    destruct (pipeline_target_spec t1 prev c (proj1 V) Et) as [(-> & A & B & C)|[->|A]]; [by apply usable_placed|done|].
    right. by right. }
  match goal with |- context [if ?b then _ else _] => destruct b end.
  { eexists t1, _. split; [done|]. right. apply valid_placed; auto. }
  destruct (walt_get_indicies _ _ _ _ _) as [[order last] eval].
  match goal with |- context [if ?b then Some (t1, valid_cpu _ _) else _] => destruct b eqn:Eb end.
  { eexists t1, _. split; [done|]. right. apply valid_placed; [done|]. right. rewrite vendor_same by done.
    apply andb_true_iff in Eb as (Eb & _). apply andb_true_iff in Eb as (Eb & Eh%negb_true_iff).
    apply andb_true_iff in Eb as (_ & Eb). unfold bias_to_this_cpu in Eb. case_match; [done|].
    apply andb_true_iff in Eb as (Eb & _). apply andb_true_iff in Eb as (E1 & E2). by apply usable_placed. }
  case_bool_decide as Epd; [eexists t1, _; split; [done|by left]|].
  set (fv := mk_fe _ _ _ _ _ _). destruct (search_ends (we_pv w) p t1 fv Hs) as ([f force] & Hf).
  specialize (Hf n Hn). rewrite Hf. eexists t1, _. split; [done|]. right. apply valid_placed; [done|].
  rewrite vendor_same by done. destruct (choose_member t1 f force (wake_to_idle w t) eval prev
    (cpumask_first (cpu_mask (we_pv w) order 0))) as [-> |[Hb| ->]]; [by right|right|by left].
  subst prev. destruct (found_allowed (we_pv w) p t1 fv n f force Hm Hc Hp Hf _ Hb) as [U|(-> & _)]; [right; by left|by left].
Qed.

End Result.

(** A system with tables of costs, and a task of 60 that wants a capacity of 500 and was on
    CPU 0. *)
Definition demo_costs : pl_env :=
  demo_ple <| pe_fit := demo_fit <| fe_uclamp_min := fun _ => 500 |> <| fe_uclamp_boosted := false |> |>
           <| pe_em := fun _ => Some [600000; 1200000; 4000000] |>
           <| pe_cost := fun id => if id =? 0 then [1; 2; 40] else [3; 6; 12] |>.
Definition demo_we (stack : Z) : wake_env :=
  mk_we (demo_pv <| pv_pl := demo_costs |> <| pv_prs := fun _ => stack |> <| pv_sibling_cluster := fun _ => -1 |>)
    0 false false 0 false [15; 240] 0.
Definition demo_times : list Z := replicate 4 16000000 ++ replicate 4 0.



(** ** Uninitialised data *)

(** The busy times of CPUs that the search did not visit are what was on the stack, and the
    energy of the cluster the task was on is computed from them: the task stays or moves
    depending on it. *)
Lemma choice_depends_on_stack :
  (walt_find_energy_efficient_cpu 4 (demo_we 0) 9 demo_task 0 false 0 ≫= (fun r => Some r.2)) = Some 0 /\
  (walt_find_energy_efficient_cpu 4 (demo_we 16000000) 9 demo_task 0 false 0 ≫= (fun r => Some r.2)) = Some 4.
Proof. split; vm_compute; reflexivity. Qed.

(** [size_mismatch] is only ever set to true: when the table of the SoC is long enough, the
    stack decides whether it is used. *)
Lemma costs_depend_on_stack table_size table costs :
  Z.of_nat (length costs) <= table_size ->
  create_freq_to_cost_pd true table_size table costs = costs /\
  create_freq_to_cost_pd false table_size table costs = imap (fun i _ => aget table (Z.of_nat i)) costs.
Proof.
  intros H. unfold create_freq_to_cost_pd. destruct (_ <? _) eqn:E; [lia|]. split; [|done].
  clear. generalize 0%nat. induction costs as [|c l IH]; intros n; [done|]. cbn. f_equal. exact (IH n).
Qed.

(** ** Pipelines *)

(** When the CPU of a pipeline task runs another pipeline task, the task goes to the CPU it
    was on if that is set aside for the pipelines, whether or not the task may run there
    and whether or not that CPU is halted or active. *)
Lemma pipeline_prev_unchecked w p t prev :
  pv_oplus_pipeline (we_pv w) = None -> pipeline_in_progress (we_cfg w) = true -> walt_pipeline_low_latency_task t = true ->
  t_pipeline_cpu t <> -1 -> allowed_cpu w p (t_pipeline_cpu t) = true -> cpu_active (we_pv w) (t_pipeline_cpu t) = true ->
  cpu_halted (we_pv w) (t_pipeline_cpu t) = false -> pv_curr_pipeline (we_pv w) (t_pipeline_cpu t) = true ->
  Z.testbit (pe_cpus (we_pl w)) prev = true -> pv_curr_pipeline (we_pv w) prev = false ->
  pipeline_target w p t prev = Some prev.
Proof.
  intros H1 H2 H3 H4 H5 H6 H7 H8 H9 H10. unfold pipeline_target, cpumask_test_cpu. apply Z.eqb_neq in H4.
  by rewrite H1, H2, H3, H4, H5, H6, H7, H8, H9, H10.
Qed.

End Energies.
