(* ===== verification/Balance.v ===== *)
(** * Load balance: the decisions

    The part of [walt_lb.c] that decides: which CPU is the busiest one to take tasks from,
    which task may be taken, which idle CPU balances for the others. [ActiveBalance] holds
    the part that moves tasks.

    What the scheduler core knows is the record [bal_env]; the fields of the run queues
    that the balancer itself writes, and the calls it makes to the core, are the state
    [lb_sys]. *)

From Stdlib Require Import ZArith Lia ZifyBool Bool.
From stdpp Require Import base list sets functions numbers list_numbers.
From S2P Require Import Prelude WaltTypes Cpumask SmartFreq Halt CoreCtl Boost Fits Pipeline PipelineHeavy PipelineCpus Placement EnergyCpu.

Definition MIN_UTIL_FOR_STORAGE_BALANCING : Z := 650.
Definition SMALL_TASK_THRESHOLD : Z := 102.

(** ** State *)

(** Calls of the scheduler core and of other parts, in the order they are made.
    [c_detach] stands for [deactivate_task] and [set_task_cpu], [c_attach] for
    [activate_task] and [wakeup_preempt], [c_pull_rt] for the three calls that move a real time
    task, [c_mvp_tick] for [walt_cfs_tick], which [Mvp] holds, [c_delayed] for the report of a
    delayed task, [c_bug] for a failed [BUG_ON]. *)
Inductive lb_call :=
| c_get (p : Z) | c_put (p : Z)
| c_detach (p src dst : Z) | c_attach (p dst : Z) | c_pull_rt (p src dst : Z)
| c_stop (cpu : Z) | c_rotate (cpu : Z) | c_swap (p q dst src : Z)
| c_wake_idle (cpu : Z) | c_kick (cpu : Z) | c_resched (cpu : Z)
| c_mvp_tick (cpu : Z) | c_count_active (cpu : Z) | c_count_idle (cpu : Z)
| c_delayed (p : Z) | c_bug.

(** By CPU, the fields of [struct rq] and [struct walt_rq] the balancer writes:
    [active_balance], [push_cpu], [push_task], the bit [CPU_RESERVED] of [walt_flags],
    [misfit_task_load], [idle_stamp]. [q_stops] counts the works queued for the stopper
    thread of the CPU, [q_core] is an active balance by the core itself. *)
Record lb_rq := mk_lbq {
  q_active : bool;
  q_push_cpu : Z;
  q_push_task : option Z;
  q_reserved : bool;
  q_misfit : Z;
  q_idle_stamp : Z;
  q_stops : nat;
  q_core : bool
}.

(** [struct walt_lb_rotate_work]; [w_queued] says that it waits for its worker. *)
Record rotate_work := mk_rw {
  w_src_task : Z;
  w_dst_task : Z;
  w_src_cpu : Z;
  w_dst_cpu : Z;
  w_queued : bool
}.

Record lb_sys := mk_lb {
  lb_rqs : Z -> lb_rq;
  lb_wts : Z -> walt_task_struct;
  lb_works : Z -> rotate_work;
  lb_oscillate_cpu : Z;
  lb_oscillate_ts : Z;
  lb_next_balance : Z;
  lb_calls : list lb_call
}.

Definition on_rq (cpu : Z) (f : lb_rq -> lb_rq) (s : lb_sys) : lb_sys :=
  s <| lb_rqs := <[cpu := f (lb_rqs s cpu)]> (lb_rqs s) |>.
Definition set_wts (p : Z) (t : walt_task_struct) (s : lb_sys) : lb_sys := s <| lb_wts := <[p := t]> (lb_wts s) |>.
Definition call (c : lb_call) (s : lb_sys) : lb_sys := s <| lb_calls := lb_calls s ++ [c] |>.

Definition is_reserved (s : lb_sys) (cpu : Z) : bool := q_reserved (lb_rqs s cpu).
Definition mark_reserved (cpu : Z) : lb_sys -> lb_sys := on_rq cpu (fun q => q <| q_reserved := true |>).
Definition clear_reserved (cpu : Z) : lb_sys -> lb_sys := on_rq cpu (fun q => q <| q_reserved := false |>).

(** [bl_we] has what a placement reads: masks, tunables, capacities, loads of the CPUs; what it
    says of a task is of the current task of the CPU at work. By CPU: the fair tasks in
    the order in which [list_for_each_entry_reverse] visits them, the current task, the
    numbers of fair and of big tasks, the clock. By task: whether it is on a CPU
    ([task_on_cpu]), delayed ([sched_delayed]), a fair task.

    The fields from [bl_ux_skip] on belong to the vendor's scheduler:
    [should_ux_task_skip_cpu], [fbg_skip_migration] by task, from and to,
    [oplus_pipeline_task_skip_cpu]; each answers false where the feature is not configured. *)
Record bal_env := mk_bl {
  bl_we : wake_env;
  bl_cfs : Z -> list Z;
  bl_curr : Z -> Z;
  bl_h_nr_running : Z -> Z;
  bl_nr_big : Z -> Z;
  bl_clock : Z -> Z;
  bl_on_cpu : Z -> Z -> bool;
  bl_delayed : Z -> bool;
  bl_fair : Z -> bool;
  bl_rotation : bool;
  bl_disabled : bool;
  bl_ux_skip : Z -> Z -> bool;
  bl_fbg_skip : Z -> Z -> Z -> bool;
  bl_pipeline_skip : Z -> Z -> bool
}.

Section Deciding.
Context (e : bal_env).

Definition bl_pv : place_env := we_pv (bl_we e).
Definition bl_fit : fit_env := pe_fit (pv_pl bl_pv).
Definition bl_cfg : walt_cfg := fe_cfg bl_fit.
Definition bl_cap (cpu : Z) : Z := capacity_orig_of bl_cfg cpu.
Definition bl_nr_clusters : Z := num_sched_clusters bl_cfg.
Definition lb_cpu (p : Z) : Z := fe_task_cpu bl_fit p.

(** What a placement of task [p] reads. *)
Definition place_for (s : lb_sys) (p : Z) : place_env :=
  bl_pv <| pv_reserved := is_reserved s |> <| pv_ux_skip_cpu := bl_ux_skip e p |> <| pv_fbg_skip := bl_fbg_skip e p (lb_cpu p) |>.

Definition walt_lb_cpu_util (cpu : Z) : Z := pv_util bl_pv cpu.
Definition cpu_overutilized (cpu : Z) : bool := cpu_overutilized_by bl_pv cpu 0.
Definition ASYMCAP_BOOST (cpu : Z) : bool :=
  pv_asymcap_boost bl_pv && negb (is_min_possible_cluster_cpu bl_fit cpu) && negb (cpu_partial_halted bl_pv cpu).

(** ** The busiest CPU *)

Definition similar_cap_skip_cpu (cpu : Z) : bool :=
  let cfs_nr_running := bl_h_nr_running e cpu in
  if cpu_halted bl_pv cpu && negb (cfs_nr_running =? 0) then false else
  if pv_nr_running bl_pv cpu <? 2 then true else
  if cfs_nr_running =? 0 then true else false.

Definition walt_lb_find_busiest_similar_cap_cpu (src_mask : Z) : Z :=
  snd (for_each_cpu src_mask (fun i '(busiest_util, busiest_cpu) =>
         if similar_cap_skip_cpu i then (busiest_util, busiest_cpu) else
         let util := walt_lb_cpu_util i in
         if util <? busiest_util then (busiest_util, busiest_cpu) else (util, i)) (0, -1)).

(** The sums over a cluster: CPUs, utilisation, capacity, tasks. *)
Record lb_totals := mk_tot {
  tot_cpus : Z;
  tot_util : Z;
  tot_capacity : Z;
  tot_nr : Z
}.
Definition add_totals (i : Z) (x : lb_totals) : lb_totals :=
  mk_tot (tot_cpus x + 1) (u64 (tot_util x + walt_lb_cpu_util i)) (u64 (tot_capacity x + bl_cap i)) (u64 (tot_nr x + bl_h_nr_running e i)).
Definition not_loaded (x : lb_totals) : bool :=
  (tot_nr x <=? tot_cpus x) || (u64 (tot_util x * 1280) <? u64 (tot_capacity x * 1024)).

Definition walt_lb_find_busiest_from_higher_cap_cpu (s : lb_sys) (dst_cpu src_mask : Z) : Z :=
  let asymcap_boost := ASYMCAP_BOOST dst_cpu in
  if cpu_partial_halted bl_pv dst_cpu then -1 else
  let '(tot, busiest_util, busiest_cpu) :=
    for_each_cpu src_mask (fun i '(tot, busiest_util, busiest_cpu) =>
      if negb (cpu_active bl_pv i) then (tot, busiest_util, busiest_cpu) else
      let util := walt_lb_cpu_util i in
      let tot := add_totals i tot in
      if bl_h_nr_running e i <? 2 then (tot, busiest_util, busiest_cpu) else
      if (bl_h_nr_running e i =? 2) && (task_util (lb_wts s (bl_curr e i)) <? SMALL_TASK_THRESHOLD)
      then (tot, busiest_util, busiest_cpu) else
      if negb (bl_rotation e) && negb (cpu_overutilized i) && negb asymcap_boost then (tot, busiest_util, busiest_cpu) else
      if util <? busiest_util then (tot, busiest_util, busiest_cpu) else (tot, util, i))
      (mk_tot 0 0 0 0, 0, -1) in
  if negb (bl_rotation e) && negb asymcap_boost && not_loaded tot then -1 else busiest_cpu.

(** Result: the CPU and [has_misfit]. *)
Definition walt_lb_find_busiest_from_lower_cap_cpu (s : lb_sys) (dst_cpu src_mask : Z) (has_misfit is_newidle : bool) : Z * bool :=
  let treat_dst_idle := is_newidle || pv_idle bl_pv dst_cpu in
  let '(tot, busiest_util, busiest_cpu, busy_nr_big_tasks) :=
    for_each_cpu src_mask (fun i '(tot, busiest_util, busiest_cpu, busy_nr_big_tasks) =>
      if negb (cpu_active bl_pv i) then (tot, busiest_util, busiest_cpu, busy_nr_big_tasks) else
      let util := walt_lb_cpu_util i in
      let tot := add_totals i tot in
      if q_active (lb_rqs s i) then (tot, busiest_util, busiest_cpu, busy_nr_big_tasks) else
      if (bl_h_nr_running e i <? 2) && ((bl_nr_big e i =? 0) || negb treat_dst_idle)
      then (tot, busiest_util, busiest_cpu, busy_nr_big_tasks) else
      if negb (bl_rotation e) && negb (cpu_overutilized i) && negb (ASYMCAP_BOOST i)
      then (tot, busiest_util, busiest_cpu, busy_nr_big_tasks) else
      if util <? busiest_util then (tot, busiest_util, busiest_cpu, busy_nr_big_tasks) else (tot, util, i, bl_nr_big e i))
      (mk_tot 0 0 0 0, 0, -1, 0) in
  let busiest_cpu :=
    if negb (bl_rotation e) && (busy_nr_big_tasks =? 0) &&
       negb (negb (busiest_cpu =? -1) && ASYMCAP_BOOST busiest_cpu) && not_loaded tot
    then -1 else busiest_cpu in
  (busiest_cpu, if negb (busy_nr_big_tasks =? 0) && negb (busiest_cpu =? -1) then true else has_misfit).

Definition walt_lb_find_busiest_cpu (s : lb_sys) (dst_cpu src_mask : Z) (has_misfit is_newidle : bool) : Z * bool :=
  let fsrc_cpu := cpumask_first src_mask in
  if check_for_higher_capacity bl_fit dst_cpu fsrc_cpu
  then walt_lb_find_busiest_from_lower_cap_cpu s dst_cpu src_mask has_misfit is_newidle
  else if check_for_higher_capacity bl_fit fsrc_cpu dst_cpu
  then (walt_lb_find_busiest_from_higher_cap_cpu s dst_cpu src_mask, has_misfit)
  else (walt_lb_find_busiest_similar_cap_cpu src_mask, has_misfit).

(** The hook of the periodic balance; [span] are the CPUs of the group. Result: what it
    writes to [busiest], [None] if it leaves the search to the core. *)
Definition walt_find_busiest_queue (s : lb_sys) (dst_cpu span env_cpus : Z) : option (option Z) :=
  let fsrc_cpu := cpumask_first span in
  if bl_disabled e then None else
  if pv_high_irq bl_pv dst_cpu then Some None else
  let busiest_cpu :=
    if cpu_cluster_id bl_cfg dst_cpu =? cpu_cluster_id bl_cfg fsrc_cpu then fsrc_cpu
    else (walt_lb_find_busiest_cpu s dst_cpu (Z.land span env_cpus) false false).1 in
  Some (if negb (busiest_cpu =? -1) then Some busiest_cpu else None).

(** ** The task *)

(** The tasks' boosts may expire on the way. *)
Definition _walt_can_migrate_task (s : lb_sys) (p dst_cpu : Z) (to_lower to_higher force : bool) : lb_sys * bool :=
  let wrq := lb_rqs s (lb_cpu p) in
  let t := lb_wts s p in
  if bl_delayed e p then (s, false) else
  if bool_decide (q_push_task wrq = Some p) then (s, false) else
  if pipeline_in_progress bl_cfg && walt_pipeline_low_latency_task t then (s, false) else
  let '(s, ok) :=
    if to_lower then
      if t_iowaited t && (t_demand_scaled t <? MIN_UTIL_FOR_STORAGE_BALANCING) then (s, false) else
      let '(t, boost) := per_task_boost bl_fit t in
      let s := set_wts p t s in
      if (boost =? TASK_BOOST_STRICT_MAX) && task_in_related_thread_group t then (s, false) else
      if negb force && walt_get_rtg_status bl_pv t then (s, false) else
      if negb force then
        let '(t, fits) := task_fits_max bl_fit p t dst_cpu in
        (set_wts p t s, fits)
      else (s, true)
    else if negb to_higher then
      let '(t, fits) := task_fits_max bl_fit p t dst_cpu in
      (set_wts p t s, negb (negb fits && (bl_nr_big e (lb_cpu p) <? 2)))
    else (s, true) in
  if negb ok then (s, false) else
  if cpu_halted bl_pv dst_cpu then (s, false) else
  if bl_pipeline_skip e p dst_cpu then (s, false) else
  (s, true).

Definition need_active_lb (s : lb_sys) (p dst_cpu src_cpu : Z) : lb_sys * bool :=
  let t := lb_wts s p in
  if q_active (lb_rqs s src_cpu) then (s, false) else
  if (cpu_cluster_id bl_cfg src_cpu =? cpu_cluster_id bl_cfg dst_cpu) && cpu_halted bl_pv src_cpu then (s, true) else
  if negb (check_for_higher_capacity bl_fit dst_cpu src_cpu) then (s, false) else
  if negb (t_misfit t) then (s, false) else
  let '(s, fits) :=
    if negb (is_min_possible_cluster_cpu bl_fit src_cpu) then
      let '(t, fits) := task_fits_max bl_fit p t dst_cpu in
      (set_wts p t s, fits)
    else (s, true) in
  if negb fits then (s, false) else
  if task_reject_partialhalt_cpu (place_for s p) p (lb_wts s p) dst_cpu then (s, false) else
  (s, true).

(** The scan of [walt_lb_pull_tasks] for a task to take; [pull_me] and [task_visited] are its
    variables. *)
Fixpoint pull_scan (s : lb_sys) (dst_cpu src_cpu : Z) (to_lower to_higher force : bool) (l : list Z)
    (pull_me : option Z) (task_visited : Z) : lb_sys * option Z :=
  match l with
  | [] => (s, pull_me)
  | p :: l =>
      if negb (cpumask_test_cpu dst_cpu (fe_cpus_ptr bl_fit p)) then
        pull_scan s dst_cpu src_cpu to_lower to_higher force l pull_me task_visited
      else if bl_on_cpu e src_cpu p then
        pull_scan s dst_cpu src_cpu to_lower to_higher force l pull_me task_visited
      else
        let '(s, ok) := _walt_can_migrate_task s p dst_cpu to_lower to_higher force in
        if negb ok then pull_scan s dst_cpu src_cpu to_lower to_higher force l pull_me task_visited
        else
          let util := task_util (lb_wts s p) in
          let pull_me :=
            match pull_me with
            | None => p
            | Some q =>
                if to_lower then if util <? task_util (lb_wts s q) then p else q
                else if task_util (lb_wts s q) <? util then p else q
            end in
          let task_visited := task_visited + 1 in
          if 5 <? task_visited then (s, Some pull_me)
          else pull_scan s dst_cpu src_cpu to_lower to_higher force l (Some pull_me) task_visited
  end.

(** The hook of the periodic balance: the value of [can_migrate] after it. *)
Definition walt_can_migrate_task (s : lb_sys) (p dst_cpu : Z) (can_migrate : bool) : lb_sys * bool :=
  if bl_disabled e then (s, can_migrate) else
  let to_lower := check_for_higher_capacity bl_fit (lb_cpu p) dst_cpu in
  let to_higher := check_for_higher_capacity bl_fit dst_cpu (lb_cpu p) in
  let '(s, ok) := _walt_can_migrate_task s p dst_cpu to_lower to_higher true in
  (s, if ok then can_migrate else false).

(** ** Idle CPUs *)

(** The CPUs of the middle clusters. *)
Definition middle_cpus : Z :=
  for_range 0 (Z.to_nat bl_nr_clusters) (fun i src_mask =>
    if (i =? 0) || (i =? bl_nr_clusters - 1) then src_mask else Z.lor src_mask (cpu_mask bl_pv 0 i)) 0.

Definition find_first_idle_if_others_are_busy : Z :=
  match for_each_cpu_until middle_cpus (fun i first_idle =>
    if negb (cpu_active bl_pv i) then inl first_idle else
    if cpu_halted bl_pv i then inl first_idle else
    let first_idle := if pv_idle bl_pv i then i else first_idle in
    if (cpu_util_of bl_pv i <? SMALL_TASK_THRESHOLD) && (pv_nr_running bl_pv i =? 1) then inr (-1)
    else inl first_idle) (-1) with
  | inl first_idle => first_idle
  | inr r => r
  end.

(** The hook that decides whether the idle CPUs are kicked: [done] and whether [flags] is
    set to [NOHZ_KICK_MASK]. *)
Definition walt_nohz_balancer_kick (cpu : Z) : bool * bool :=
  if bl_disabled e then (false, false) else
  (true, (2 <=? pv_nr_running bl_pv cpu) && cpu_overutilized cpu).

(** [this_cpu] is [smp_processor_id()]. *)
Definition ilb_ok (this_cpu cpu : Z) : bool :=
  negb (cpu =? this_cpu) && (pv_idle bl_pv cpu && cpumask_test_cpu cpu (pe_online (pv_pl bl_pv))).
Definition first_ilb (this_cpu mask : Z) : option Z :=
  match for_each_cpu_until mask (fun cpu (_ : unit) => if ilb_ok this_cpu cpu then inr cpu else inl tt) tt with
  | inl _ => None
  | inr cpu => Some cpu
  end.

(** The first pass: the clusters but the last, CPUs that stopped their tick. *)
Fixpoint ilb_pass1 (this_cpu nohz_idle_cpus_mask : Z) (clusters : list Z) : option Z :=
  match clusters with
  | [] => None
  | i :: clusters =>
      match first_ilb this_cpu (Z.land nohz_idle_cpus_mask (cpu_mask bl_pv 0 i)) with
      | Some cpu => Some cpu
      | None => ilb_pass1 this_cpu nohz_idle_cpus_mask clusters
      end
  end.

(** The second pass, over all their CPUs; [inl] is [cluster_loaded]. *)
Fixpoint ilb_pass2 (this_cpu : Z) (clusters : list Z) (cluster_loaded : bool) : bool + Z :=
  match clusters with
  | [] => inl cluster_loaded
  | i :: clusters =>
      match for_each_cpu_until (cpu_mask bl_pv 0 i) (fun cpu '(paused, total_util, total_capacity) =>
              let x := if negb paused
                       then (cpu_halted bl_pv cpu || cpu_partial_halted bl_pv cpu,
                             u64 (total_util + walt_lb_cpu_util cpu), u64 (total_capacity + bl_cap cpu))
                       else (paused, total_util, total_capacity) in
              if ilb_ok this_cpu cpu then inr cpu else inl x) (false, 0, 0) with
      | inr cpu => inr cpu
      | inl (paused, total_util, total_capacity) =>
          ilb_pass2 this_cpu clusters
            (if negb paused && (u64 (total_capacity * 80) <? u64 (total_util * 100)) then true else cluster_loaded)
      end
  end.

(** The hook: [None] if it leaves the choice to the core, else the value of [ilb]. *)
Definition walt_find_new_ilb (this_cpu nohz_idle_cpus_mask : Z) : option Z :=
  if bl_disabled e then None else
  let lower := seqZ 0 (bl_nr_clusters - 1) in
  Some (match ilb_pass1 this_cpu nohz_idle_cpus_mask lower with
        | Some cpu => cpu
        | None =>
            match ilb_pass2 this_cpu lower false with
            | inr cpu => cpu
            | inl cluster_loaded =>
                let prime := cpu_mask bl_pv 0 (bl_nr_clusters - 1) in
                if cluster_loaded then
                  match first_ilb this_cpu (Z.land nohz_idle_cpus_mask prime) with
                  | Some cpu => cpu
                  | None => default (-1) (first_ilb this_cpu (Z.ldiff prime nohz_idle_cpus_mask))
                  end
                else -1
            end
        end).

End Deciding.

(** ** The busiest CPU is the busiest *)

Module Busiest.
Import Searching Energies.

(** Two loops over a mask whose states stay related. *)
Lemma for_each_cpu_rel {S T : Type} (R : S -> T -> Prop) mask f g (s : S) (t : T) :
  R s t -> (forall c s t, is_cpu c -> R s t -> R (f c s) (g c t)) ->
  R (for_each_cpu mask f s) (for_each_cpu mask g t).
Proof.
  intros H0 Hs. unfold for_each_cpu. assert (forall n lo s t, 0 <= lo -> lo + Z.of_nat n <= WALT_NR_CPUS -> R s t ->
    R (for_range lo n (fun c s => if Z.testbit mask c then f c s else s) s)
      (for_range lo n (fun c t => if Z.testbit mask c then g c t else t) t)) as H.
  { intros n. induction n as [|n IH]; intros lo a b Hl Hn Hab; [done|]. cbn [for_range]. apply IH; [lia|lia|].
    destruct (Z.testbit mask lo); [apply Hs; [split; lia|done]|done]. }
  by apply (H (Z.to_nat WALT_NR_CPUS) 0).
Qed.

(** The loop with an early exit takes the first exit there is. *)
Lemma for_each_cpu_until_ind {S R : Type} (P : Z -> S -> Prop) (Q : R -> Prop) mask f (s : S) :
  P 0 s ->
  (forall c t, is_cpu c -> Z.testbit mask c = true -> P c t -> match f c t with inl u => P (c + 1) u | inr r => Q r end) ->
  (forall c t, is_cpu c -> Z.testbit mask c = false -> P c t -> P (c + 1) t) ->
  match for_each_cpu_until mask f s with inl u => P WALT_NR_CPUS u | inr r => Q r end.
Proof.
  intros H0 Ht Hf. unfold for_each_cpu_until.
  apply (for_each_cpu_ind (fun n x => match x with inl u => P n u | inr r => Q r end)); [done| |].
  - intros c [u|r] Hc Hb H; [by apply Ht|done].
  - intros c [u|r] Hc Hb H; [by apply Hf|done].
Qed.

(** [r] is the last of the CPUs of [mask] with the largest [util] among those that are [ok],
    -1 if none is. *)
Definition busiest_of (ok : Z -> bool) (util : Z -> Z) (mask r : Z) : Prop :=
  r = -1 /\ (forall c, is_cpu c -> Z.testbit mask c = true -> ok c = false) \/
  is_cpu r /\ Z.testbit mask r = true /\ ok r = true /\
  forall c, is_cpu c -> Z.testbit mask c = true -> ok c = true -> util c < util r \/ util c = util r /\ c <= r.

Definition busiest_step (ok : Z -> bool) (util : Z -> Z) (i : Z) (b : Z * Z) : Z * Z :=
  if ok i then if util i <? b.1 then b else (util i, i) else b.

Lemma busiest_scan ok util mask :
  (forall c, 0 <= util c) -> busiest_of ok util mask (for_each_cpu mask (busiest_step ok util) (0, -1)).2.
Proof.
  intros Hu. set (P := fun n (b : Z * Z) =>
    b = (0, -1) /\ (forall c, 0 <= c < n -> Z.testbit mask c = true -> ok c = false) \/
    0 <= b.2 < n /\ b.1 = util b.2 /\ Z.testbit mask b.2 = true /\ ok b.2 = true /\
    forall c, 0 <= c < n -> Z.testbit mask c = true -> ok c = true -> util c < b.1 \/ util c = b.1 /\ c <= b.2).
  assert (P WALT_NR_CPUS (for_each_cpu mask (busiest_step ok util) (0, -1))) as H.
  { apply (for_each_cpu_ind P).
    - left. split; [done|]. intros c Hc. lia.
    - intros i [u b] [Hi _] Hm Hp. unfold busiest_step. cbn [fst]. destruct (ok i) eqn:Ho.
      + destruct (util i <? u) eqn:E.
        * right. destruct Hp as [([=] & _)|(A & B & C & D & F)]; [specialize (Hu i); lia|]. cbn [fst snd] in *.
          split_and!; try done; try lia. intros c Hc Hb Hk. destruct (Z.eq_dec c i) as [->|]; [lia|apply F; [lia|done|done]].
        * right. cbn [fst snd]. split_and!; try done; try lia. intros c Hc Hb Hk. destruct (Z.eq_dec c i) as [->|]; [lia|].
          destruct Hp as [(_ & N)|(A & B & C & D & F)]; [by rewrite N in Hk by (done || lia)|].
          cbn [fst snd] in *. specialize (F c ltac:(lia) Hb Hk). lia.
      + destruct Hp as [(A & N)|(A & B & C & D & F)]; cbn [fst snd] in *.
        * left. split; [done|]. intros c Hc Hb. destruct (Z.eq_dec c i) as [->|]; [done|apply N; [lia|done]].
        * right. cbn [fst snd]. split_and!; try done; try lia. intros c Hc Hb Hk. destruct (Z.eq_dec c i) as [->|]; [congruence|].
          apply F; [lia|done|done].
    - intros i [u b] [Hi _] Hm [(A & N)|(A & B & C & D & F)]; cbn [fst snd] in *.
      + left. split; [done|]. intros c Hc Hb. destruct (Z.eq_dec c i) as [->|]; [congruence|apply N; [lia|done]].
      + right. cbn [fst snd]. split_and!; try done; try lia. intros c Hc Hb Hk. destruct (Z.eq_dec c i) as [->|]; [congruence|].
        apply F; [lia|done|done]. }
  destruct (for_each_cpu _ _ _) as [u b]. unfold P in H. cbn [fst snd] in *.
  destruct H as [([= -> ->] & N)|(A & B & C & D & F)]; [left|right]; unfold is_cpu.
  - split; [done|]. intros c Hc. by apply N.
  - split_and!; try done; try lia. intros c Hc Hb Hk. rewrite <- B. by apply F.
Qed.

Section Which.
Context (e : bal_env) (s : lb_sys) (dst : Z) (newidle : bool).

(** Whether a CPU may be relieved, by the capacity of the CPU that helps. *)
Definition lower_ok (c : Z) : bool :=
  cpu_active (bl_pv e) c && negb (q_active (lb_rqs s c)) &&
  ((2 <=? bl_h_nr_running e c) || negb (bl_nr_big e c =? 0) && (newidle || pv_idle (bl_pv e) dst)) &&
  (bl_rotation e || cpu_overutilized e c || ASYMCAP_BOOST e c).
Definition higher_ok (c : Z) : bool :=
  cpu_active (bl_pv e) c && (2 <=? bl_h_nr_running e c) &&
  ((3 <=? bl_h_nr_running e c) || (SMALL_TASK_THRESHOLD <=? task_util (lb_wts s (bl_curr e c)))) &&
  (bl_rotation e || cpu_overutilized e c || ASYMCAP_BOOST e dst).
Definition similar_ok (c : Z) : bool :=
  negb (bl_h_nr_running e c =? 0) && (cpu_halted (bl_pv e) c || (2 <=? pv_nr_running (bl_pv e) c)).

(** The CPUs of a cluster that count, and whether it is loaded: more tasks than CPUs,
    and at least four fifths of its capacity in use. *)
Definition counted (mask : Z) : list Z :=
  filter (fun c => Z.testbit mask c && cpu_active (bl_pv e) c = true) (seqZ 0 WALT_NR_CPUS).
Definition loaded (mask : Z) : bool :=
  (Z.of_nat (length (counted mask)) <? zsum (bl_h_nr_running e) (counted mask)) &&
  (4 * zsum (bl_cap e) (counted mask) <=? 5 * zsum (walt_lb_cpu_util e) (counted mask)).

(** What the hardware guarantees. *)
Definition small_loads : Prop :=
  forall c, 0 <= walt_lb_cpu_util e c < 2 ^ 32 /\ 0 <= bl_cap e c < 2 ^ 32 /\ 0 <= bl_h_nr_running e c < 2 ^ 32.

Definition totals_step (i : Z) (tot : lb_totals) : lb_totals :=
  if negb (cpu_active (bl_pv e) i) then tot else add_totals e i tot.
Definition totals_of (mask : Z) : lb_totals := for_each_cpu mask totals_step (mk_tot 0 0 0 0).

Lemma totals_spec mask :
  small_loads ->
  totals_of mask = mk_tot (Z.of_nat (length (counted mask))) (zsum (walt_lb_cpu_util e) (counted mask))
                     (zsum (bl_cap e) (counted mask)) (zsum (bl_h_nr_running e) (counted mask)).
Proof.
  intros Hl. set (upto := fun n => filter (fun c => Z.testbit mask c && cpu_active (bl_pv e) c = true) (seqZ 0 n)).
  set (P := fun n x => x = mk_tot (Z.of_nat (length (upto n))) (zsum (walt_lb_cpu_util e) (upto n)) (zsum (bl_cap e) (upto n))
                             (zsum (bl_h_nr_running e) (upto n))).
  assert (forall n f, 0 <= n <= 8 -> (forall c, 0 <= f c < 2 ^ 32) -> 0 <= zsum f (upto n) <= 2 ^ 32 * 8) as Hb.
  { intros n f Hn Hf. destruct (zsum_bounds f (upto n) 0 (2 ^ 32)) as [A B]; [intros x _; specialize (Hf x); lia|].
    assert (length (upto n) <= 8)%nat; [|lia]. unfold upto. etrans; [apply length_filter|]. rewrite length_seqZ. lia. }
  assert (forall c, 0 <= c -> upto (c + 1) = upto c ++ filter (fun c => Z.testbit mask c && cpu_active (bl_pv e) c = true) [c]) as Hup.
  { intros c Hc. unfold upto. rewrite <- filter_app. f_equal. replace (c + 1) with (Z.of_nat (S (Z.to_nat c))) by lia.
    rewrite seqZ_S. by rewrite Z2Nat.id by lia. }
  apply (for_each_cpu_ind P); unfold P.
  - done.
  - intros c t Hc Hm ->. unfold is_cpu, WALT_NR_CPUS in Hc. rewrite Hup by lia. rewrite filter_cons, filter_nil, Hm. cbn [andb].
    unfold totals_step. destruct (cpu_active (bl_pv e) c) eqn:E; cbn [negb].
    + rewrite decide_True by done. unfold add_totals. cbn [tot_cpus tot_util tot_capacity tot_nr].
      rewrite !zsum_app, !zsum_cons, !zsum_nil, length_app. cbn [length].
      pose proof (Hb c (walt_lb_cpu_util e) ltac:(lia) (fun x => proj1 (Hl x))).
      pose proof (Hb c (bl_cap e) ltac:(lia) (fun x => proj1 (proj2 (Hl x)))).
      pose proof (Hb c (bl_h_nr_running e) ltac:(lia) (fun x => proj2 (proj2 (Hl x)))).
      destruct (Hl c) as (? & ? & ?). rewrite !u64_small by lia. f_equal; lia.
    + rewrite decide_False by done. by rewrite app_nil_r.
  - intros c t Hc Hm ->. unfold is_cpu in Hc. rewrite Hup by lia. rewrite filter_cons, filter_nil, Hm. cbn [andb].
    rewrite decide_False by done. by rewrite app_nil_r.
Qed.

Lemma not_loaded_spec mask : small_loads -> not_loaded (totals_of mask) = negb (loaded mask).
Proof.
  intros Hl. rewrite totals_spec by done. unfold not_loaded, loaded. cbn [tot_cpus tot_util tot_capacity tot_nr].
  assert (forall f, (forall c, 0 <= f c < 2 ^ 32) -> 0 <= zsum f (counted mask) <= 2 ^ 32 * 8) as Hb.
  { intros f Hf. destruct (zsum_bounds f (counted mask) 0 (2 ^ 32)) as [A B]; [intros x _; specialize (Hf x); lia|].
    assert (length (counted mask) <= 8)%nat; [|lia]. unfold counted. etrans; [apply length_filter|]. rewrite length_seqZ. done. }
  pose proof (Hb (walt_lb_cpu_util e) (fun x => proj1 (Hl x))). pose proof (Hb (bl_cap e) (fun x => proj1 (proj2 (Hl x)))).
  rewrite !u64_small by lia. lia.
Qed.

End Which.

Inductive direction := FromLower | FromHigher | FromSimilar.
#[export] Instance direction_eq_dec : EqDecision direction.
Proof. solve_decision. Defined.

Section Chosen.
Context (e : bal_env) (s : lb_sys) (dst : Z) (newidle : bool) (mask : Z).

Definition direction_of : direction :=
  if check_for_higher_capacity (bl_fit e) dst (cpumask_first mask) then FromLower
  else if check_for_higher_capacity (bl_fit e) (cpumask_first mask) dst then FromHigher else FromSimilar.
Definition source_ok (d : direction) (c : Z) : bool :=
  match d with
  | FromLower => lower_ok e s dst newidle c
  | FromHigher => higher_ok e s dst c
  | FromSimilar => similar_ok e c
  end.

(** Whether the busiest CPU [b] keeps its tasks all the same. *)
Definition held_back (d : direction) (b : Z) : bool :=
  match d with
  | FromLower => negb (bl_rotation e) && ((b =? -1) || (bl_nr_big e b =? 0) && negb (ASYMCAP_BOOST e b)) && negb (loaded e mask)
  | FromHigher => cpu_partial_halted (bl_pv e) dst || negb (bl_rotation e) && negb (ASYMCAP_BOOST e dst) && negb (loaded e mask)
  | FromSimilar => false
  end.

Lemma similar_scan :
  walt_lb_find_busiest_similar_cap_cpu e mask =
  (for_each_cpu mask (busiest_step (similar_ok e) (walt_lb_cpu_util e)) (0, -1)).2.
Proof.
  unfold walt_lb_find_busiest_similar_cap_cpu. f_equal. apply for_each_cpu_ext. intros c [u b] _.
  assert (similar_cap_skip_cpu e c = negb (similar_ok e c)) as ->.
  { unfold similar_cap_skip_cpu, similar_ok.
    destruct (cpu_halted _ c), (bl_h_nr_running e c =? 0), (pv_nr_running _ c <? 2) eqn:E; cbn [andb orb negb]; lia. }
  unfold busiest_step. by destruct (similar_ok e c).
Qed.

Lemma higher_scan :
  walt_lb_find_busiest_from_higher_cap_cpu e s dst mask =
  if cpu_partial_halted (bl_pv e) dst || negb (bl_rotation e) && negb (ASYMCAP_BOOST e dst) && not_loaded (totals_of e mask) then -1
  else (for_each_cpu mask (busiest_step (higher_ok e s dst) (walt_lb_cpu_util e)) (0, -1)).2.
Proof.
  unfold walt_lb_find_busiest_from_higher_cap_cpu. destruct (cpu_partial_halted _ _); [done|]. cbn [orb].
  set (f := fun i (x : lb_totals * Z * Z) => _).
  assert (for_each_cpu mask f (mk_tot 0 0 0 0, 0, -1) =
          (totals_of e mask, (for_each_cpu mask (busiest_step (higher_ok e s dst) (walt_lb_cpu_util e)) (0, -1)).1,
           (for_each_cpu mask (busiest_step (higher_ok e s dst) (walt_lb_cpu_util e)) (0, -1)).2)) as ->; [|done].
  unfold totals_of. set (g := totals_step e).
  set (h := busiest_step _ _).
  assert (forall n lo tot u b, for_range lo n (fun c s => if Z.testbit mask c then f c s else s) (tot, u, b) =
    (for_range lo n (fun c s => if Z.testbit mask c then g c s else s) tot,
     (for_range lo n (fun c s => if Z.testbit mask c then h c s else s) (u, b)).1,
     (for_range lo n (fun c s => if Z.testbit mask c then h c s else s) (u, b)).2)) as H; [|apply H].
  intros n. induction n as [|n IH]; intros lo tot u b; [done|]. cbn [for_range]. destruct (Z.testbit mask lo); [|apply IH].
  assert (f lo (tot, u, b) = (g lo tot, (h lo (u, b)).1, (h lo (u, b)).2)) as ->; [|rewrite IH; by destruct (h lo (u, b))].
  unfold f, g, totals_step, h, busiest_step, higher_ok. cbn [fst].
  destruct (cpu_active _ lo); [|done]. cbn [negb andb].
  destruct (bl_rotation e), (cpu_overutilized e lo), (ASYMCAP_BOOST e dst);
    repeat case_match; cbn [negb andb orb fst snd] in *; first [done|lia].
Qed.

Lemma lower_scan m :
  let b := (for_each_cpu mask (busiest_step (lower_ok e s dst newidle) (walt_lb_cpu_util e)) (0, -1)).2 in
  let big := if b =? -1 then 0 else bl_nr_big e b in
  let r := if negb (bl_rotation e) && (big =? 0) && negb (negb (b =? -1) && ASYMCAP_BOOST e b) && not_loaded (totals_of e mask)
           then -1 else b in
  walt_lb_find_busiest_from_lower_cap_cpu e s dst mask m newidle = (r, if negb (big =? 0) && negb (r =? -1) then true else m).
Proof.
  intros b big r. unfold walt_lb_find_busiest_from_lower_cap_cpu. set (f := fun i (x : lb_totals * Z * Z * Z) => _).
  set (h := busiest_step (lower_ok e s dst newidle) (walt_lb_cpu_util e)) in *.
  assert (for_each_cpu mask f (mk_tot 0 0 0 0, 0, -1, 0) = (totals_of e mask, (for_each_cpu mask h (0, -1)).1, b, big)) as ->; [|done].
  subst b big. unfold totals_of, for_each_cpu. set (g := totals_step e).
  assert (forall n lo tot u b, 0 <= lo ->
    for_range lo n (fun c s => if Z.testbit mask c then f c s else s) (tot, u, b, if b =? -1 then 0 else bl_nr_big e b) =
    let x := for_range lo n (fun c s => if Z.testbit mask c then h c s else s) (u, b) in
    (for_range lo n (fun c s => if Z.testbit mask c then g c s else s) tot, x.1, x.2, if x.2 =? -1 then 0 else bl_nr_big e x.2))
    as H; [|by apply (H (Z.to_nat WALT_NR_CPUS) 0 (mk_tot 0 0 0 0) 0 (-1))].
  intros n. induction n as [|n IH]; intros lo tot u b Hlo; [done|]. cbn [for_range].
  destruct (Z.testbit mask lo); [|by apply IH; lia].
  assert (f lo (tot, u, b, if b =? -1 then 0 else bl_nr_big e b) =
    (g lo tot, (h lo (u, b)).1, (h lo (u, b)).2, if (h lo (u, b)).2 =? -1 then 0 else bl_nr_big e (h lo (u, b)).2)) as ->;
    [|rewrite IH by lia; by destruct (h lo (u, b))].
  unfold f, g, totals_step, h, busiest_step, lower_ok. cbn [fst].
  destruct (cpu_active _ lo); [|done]. cbn [negb andb].
  assert ((lo =? -1) = false) as Eb by lia.
  destruct (q_active _), (bl_rotation e), (cpu_overutilized e lo), (ASYMCAP_BOOST e lo), newidle, (pv_idle _ dst),
    (bl_nr_big e lo =? 0), (bl_h_nr_running e lo <? 2) eqn:E2; cbn [negb andb orb];
    try (replace (2 <=? bl_h_nr_running e lo) with true by lia); try (replace (2 <=? bl_h_nr_running e lo) with false by lia);
    cbn [negb andb orb]; try done; by destruct (_ <? u); cbn [fst snd]; rewrite ?Eb.
Qed.

(** C30. The busiest CPU of a group. Of the CPUs that may be relieved ([source_ok], which
    depends on whether the CPU that helps is larger, smaller or as large), the one with
    the largest utilisation is chosen, the last of them if there are several; it is given up
    ([held_back]) when the group as a whole is not loaded, unless rotation, a big task or
    the boost of the asymmetric clusters asks for help. A big task is reported only together
    with a CPU that has one. *)
Theorem busiest_cpu_spec m :
  small_loads e ->
  exists b, busiest_of (source_ok direction_of) (walt_lb_cpu_util e) mask b /\
    let r := if held_back direction_of b then -1 else b in
    walt_lb_find_busiest_cpu e s dst mask m newidle =
    (r, m || (bool_decide (direction_of = FromLower) && negb (r =? -1) && negb (bl_nr_big e r =? 0))).
Proof.
  intros Hl. assert (forall c, 0 <= walt_lb_cpu_util e c) as Hu by (intros c; apply Hl).
  unfold walt_lb_find_busiest_cpu, direction_of.
  destruct (check_for_higher_capacity _ dst _); [|destruct (check_for_higher_capacity _ _ dst)].
  - eexists. split; [by apply busiest_scan|]. cbv zeta. rewrite lower_scan. cbv zeta. rewrite not_loaded_spec by done.
    cbn [source_ok held_back]. set (b := (for_each_cpu _ _ _).2). clearbody b. f_equal.
    + destruct (bl_rotation e), (b =? -1) eqn:E, (bl_nr_big e b =? 0), (ASYMCAP_BOOST e b), (loaded e mask); done.
    + rewrite bool_decide_true by done.
      destruct (bl_rotation e), (b =? -1) eqn:E, (bl_nr_big e b =? 0) eqn:E1, (ASYMCAP_BOOST e b), (loaded e mask), m;
        cbn [negb andb orb]; rewrite ?E, ?E1; cbn [negb andb orb]; try done; by rewrite ?E1.
  - eexists. split; [by apply busiest_scan|]. cbv zeta. rewrite higher_scan, not_loaded_spec by done.
    rewrite bool_decide_false by done. cbn [andb]. by rewrite orb_false_r.
  - eexists. split; [by apply busiest_scan|]. cbv zeta. rewrite similar_scan.
    rewrite bool_decide_false by done. cbn [andb]. by rewrite orb_false_r.
Qed.

End Chosen.

(** CPU 1 runs task 11 with 12 and 13 waiting, CPU 5 is idle, every other CPU runs the task
    20 more than its number. CPUs 1 and 6 are overutilised, task 12 is a misfit. *)
Definition demo_placed : pl_env :=
  demo_costs <| pe_fit := (pe_fit demo_costs) <| fe_task_cpu := fun p => if p <? 20 then 1 else p - 20 |> |>.
Definition demo_bl : bal_env :=
  mk_bl ((demo_we 0) <| we_pv := (we_pv (demo_we 0)) <| pv_pl := demo_placed |> <| pv_util := fun cpu => if cpu =? 1 then 390 else if cpu =? 6 then 1000 else 60 |>
                                  <| pv_idle := fun cpu => cpu =? 5 |>
                                  <| pv_nr_running := fun cpu => if cpu =? 1 then 3 else if cpu =? 5 then 0 else 1 |> |>)
    (fun cpu => if cpu =? 1 then [13; 12; 11] else if cpu =? 5 then [] else [20 + cpu])
    (fun cpu => if cpu =? 1 then 11 else 20 + cpu)
    (fun cpu => if cpu =? 1 then 3 else if cpu =? 5 then 0 else 1) (fun cpu => if cpu =? 1 then 1 else 0) (fun _ => 0)
    (fun cpu p => if cpu =? 1 then p =? 11 else true) (fun _ => false) (fun _ => true) false false
    (fun _ _ => false) (fun _ _ _ => false) (fun _ _ => false).
Definition demo_lb : lb_sys :=
  mk_lb (fun _ => mk_lbq false 0 None false 0 0 0 false)
    (fun p => if p =? 12 then demo_task <| t_demand_scaled := 200 |> <| t_misfit := true |> else demo_task)
    (fun _ => mk_rw 0 0 0 0 false) (-1) 0 0 [].

Lemma demo_small_loads : small_loads demo_bl.
Proof.
  intros c. split; [|split].
  - unfold walt_lb_cpu_util. cbn. destruct (c =? 1), (c =? 6); vm_compute; split; done.
  - unfold bl_cap. cbn. destruct (c <? 4); vm_compute; split; done.
  - cbn. destruct (c =? 1), (c =? 5); vm_compute; split; done.
Qed.

Lemma busiest_cpu_spec_witness :
  exists b, busiest_of (source_ok demo_bl demo_lb 5 true (direction_of demo_bl 5 15)) (walt_lb_cpu_util demo_bl) 15 b /\
    walt_lb_find_busiest_cpu demo_bl demo_lb 5 15 false true =
    (if held_back demo_bl 5 15 (direction_of demo_bl 5 15) b then -1 else b, true).
Proof.
  destruct (busiest_cpu_spec demo_bl demo_lb 5 true 15 false demo_small_loads) as (b & H1 & H2).
  exists b. split; [exact H1|]. cbv zeta in H2.
  assert ((walt_lb_find_busiest_cpu demo_bl demo_lb 5 15 false true).2 = true) as E by (vm_compute; reflexivity).
  rewrite H2 in E |- *. cbn [snd] in E. by rewrite E.
Defined.

End Busiest.

(** ** The CPU that balances for the idle ones *)

Module IdleBalancer.
Import Busiest.

Section Ilb.
Context (e : bal_env) (this_cpu : Z).

Lemma first_ilb_spec mask :
  match first_ilb e this_cpu mask with
  | Some c => is_cpu c /\ Z.testbit mask c = true /\ ilb_ok e this_cpu c = true
  | None => forall c, is_cpu c -> Z.testbit mask c = true -> ilb_ok e this_cpu c = false
  end.
Proof.
  unfold first_ilb. set (f := fun cpu (_ : unit) => if ilb_ok e this_cpu cpu then inr cpu else inl tt).
  assert (match for_each_cpu_until mask f tt with
          | inl _ => forall c, 0 <= c < WALT_NR_CPUS -> Z.testbit mask c = true -> ilb_ok e this_cpu c = false
          | inr c => is_cpu c /\ Z.testbit mask c = true /\ ilb_ok e this_cpu c = true end) as H.
  { apply (for_each_cpu_until_ind (fun n _ => forall c, 0 <= c < n -> Z.testbit mask c = true -> ilb_ok e this_cpu c = false)
      (fun c => is_cpu c /\ Z.testbit mask c = true /\ ilb_ok e this_cpu c = true)).
    - intros c Hc. lia.
    - intros c [] Hc Hb N. unfold f. destruct (ilb_ok e this_cpu c) eqn:E; [done|]. intros d Hd Hdb.
      destruct (Z.eq_dec d c) as [->|]; [done|apply N; [lia|done]].
    - intros c [] Hc Hb N d Hd Hdb. destruct (Z.eq_dec d c) as [->|]; [congruence|apply N; [lia|done]]. }
  by destruct (for_each_cpu_until mask f tt).
Qed.

(** A cluster that needs help from the largest one: no CPU paused, more than four fifths
    of the capacity in use. *)
Definition cluster_cpus_of (i : Z) : list Z := filter (fun c => Z.testbit (cpu_mask (bl_pv e) 0 i) c = true) (seqZ 0 WALT_NR_CPUS).
Definition cluster_strained (i : Z) : Prop :=
  (forall c, c ∈ cluster_cpus_of i -> cpu_halted (bl_pv e) c = false /\ cpu_partial_halted (bl_pv e) c = false) /\
  4 * zsum (bl_cap e) (cluster_cpus_of i) < 5 * zsum (walt_lb_cpu_util e) (cluster_cpus_of i).

Definition upto (i n : Z) : list Z := filter (fun c => Z.testbit (cpu_mask (bl_pv e) 0 i) c = true) (seqZ 0 n).

Lemma upto_next i n :
  0 <= n -> upto i (n + 1) = upto i n ++ (if Z.testbit (cpu_mask (bl_pv e) 0 i) n then [n] else []).
Proof.
  intros Hn. unfold upto. replace (n + 1) with (Z.of_nat (S (Z.to_nat n))) by lia. rewrite seqZ_S, filter_app, Z2Nat.id by lia.
  f_equal. rewrite filter_cons, filter_nil, Z.add_0_l. destruct (Z.testbit _ n); [by rewrite decide_True|by rewrite decide_False].
Qed.

(** The turn of the second pass for one cluster. *)
Definition turn (cpu : Z) (x : bool * Z * Z) : (bool * Z * Z) + Z :=
  let '(paused, total_util, total_capacity) := x in
  let x := if negb paused
           then (cpu_halted (bl_pv e) cpu || cpu_partial_halted (bl_pv e) cpu,
                 u64 (total_util + walt_lb_cpu_util e cpu), u64 (total_capacity + bl_cap e cpu))
           else (paused, total_util, total_capacity) in
  if ilb_ok e this_cpu cpu then inr cpu else inl x.

Lemma turn_spec i :
  small_loads e ->
  match for_each_cpu_until (cpu_mask (bl_pv e) 0 i) turn (false, 0, 0) with
  | inr c => is_cpu c /\ Z.testbit (cpu_mask (bl_pv e) 0 i) c = true /\ ilb_ok e this_cpu c = true
  | inl (paused, u, k) =>
      (forall c, is_cpu c -> Z.testbit (cpu_mask (bl_pv e) 0 i) c = true -> ilb_ok e this_cpu c = false) /\
      (paused = false ->
       (forall c, c ∈ cluster_cpus_of i -> cpu_halted (bl_pv e) c = false /\ cpu_partial_halted (bl_pv e) c = false) /\
       u = zsum (walt_lb_cpu_util e) (cluster_cpus_of i) /\ k = zsum (bl_cap e) (cluster_cpus_of i)) /\
      (paused = true -> exists c, c ∈ cluster_cpus_of i /\ cpu_halted (bl_pv e) c || cpu_partial_halted (bl_pv e) c = true)
  end.
Proof.
  intros Hl. set (m := cpu_mask (bl_pv e) 0 i).
  set (P := fun n (x : bool * Z * Z) =>
    (forall c, 0 <= c < n -> Z.testbit m c = true -> ilb_ok e this_cpu c = false) /\
    (x.1.1 = false ->
     (forall c, c ∈ upto i n -> cpu_halted (bl_pv e) c = false /\ cpu_partial_halted (bl_pv e) c = false) /\
     x.1.2 = zsum (walt_lb_cpu_util e) (upto i n) /\ x.2 = zsum (bl_cap e) (upto i n)) /\
    (x.1.1 = true -> exists c, c ∈ upto i n /\ cpu_halted (bl_pv e) c || cpu_partial_halted (bl_pv e) c = true)).
  assert (forall n f, 0 <= n <= 8 -> (forall c, 0 <= f c < 2 ^ 32) -> 0 <= zsum f (upto i n) <= 2 ^ 32 * 8) as Hb.
  { intros n f Hn Hf. destruct (zsum_bounds f (upto i n) 0 (2 ^ 32)) as [A B]; [intros x _; specialize (Hf x); lia|].
    assert (length (upto i n) <= 8)%nat; [|lia]. unfold upto. etrans; [apply length_filter|]. rewrite length_seqZ. lia. }
  pose proof (for_each_cpu_until_ind P (fun c => is_cpu c /\ Z.testbit m c = true /\ ilb_ok e this_cpu c = true) m turn (false, 0, 0)) as H.
  assert (match for_each_cpu_until m turn (false, 0, 0) with
          | inl u => P WALT_NR_CPUS u | inr r => is_cpu r /\ Z.testbit m r = true /\ ilb_ok e this_cpu r = true end) as H1.
  { apply H; clear H.
    - split; [intros c Hc; lia|]. split; [|done]. cbn. intros _. split_and!; try done. intros c Hc. by apply not_elem_of_nil in Hc.
    - intros c [[paused u] k] [Hc0 Hc1] Hm (A & B & C). cbn [fst snd] in *. unfold turn. unfold WALT_NR_CPUS in Hc1.
      destruct (ilb_ok e this_cpu c) eqn:E; [done|]. unfold P. rewrite upto_next by done. fold m. rewrite Hm. split; [|destruct paused; cbn [negb fst snd]].
      + intros d Hd Hdb. destruct (Z.eq_dec d c) as [->|]; [done|apply A; [lia|done]].
      + split; [done|]. intros _. destruct (C eq_refl) as (d & Hd & He). exists d. split; [apply elem_of_app; by left|done].
      + destruct (B eq_refl) as (B1 & -> & ->). rewrite !zsum_app, !zsum_cons, !zsum_nil. split.
        * intros [E1 E2]%orb_false_iff. split.
          { intros d [Hd|Hd]%elem_of_app; [by apply B1|]. by apply list_elem_of_singleton in Hd as ->. }
          pose proof (Hb c (walt_lb_cpu_util e) ltac:(lia) (fun x => proj1 (Hl x))).
          pose proof (Hb c (bl_cap e) ltac:(lia) (fun x => proj1 (proj2 (Hl x)))).
          destruct (Hl c) as (? & ? & _). rewrite !u64_small by lia. lia.
        * intros E1. exists c. split; [|done]. apply elem_of_app. right. by apply list_elem_of_singleton.
    - intros c x [Hc0 Hc1] Hm (A & B & C). unfold P. rewrite upto_next by done. fold m. rewrite Hm, app_nil_r. split; [|done].
      intros d Hd Hdb. destruct (Z.eq_dec d c) as [->|]; [congruence|apply A; [lia|done]]. }
  destruct (for_each_cpu_until m turn (false, 0, 0)) as [[[paused u] k]|r]; [|done]. exact H1.
Qed.

Definition member (i c : Z) : bool := Z.testbit (cpu_mask (bl_pv e) 0 i) c.

Lemma pass1_spec nohz l :
  match ilb_pass1 e this_cpu nohz l with
  | Some c => is_cpu c /\ Z.testbit nohz c = true /\ ilb_ok e this_cpu c = true /\ exists i, i ∈ l /\ member i c = true
  | None => forall i c, i ∈ l -> is_cpu c -> Z.testbit nohz c = true -> member i c = true -> ilb_ok e this_cpu c = false
  end.
Proof.
  induction l as [|i l IH]; cbn [ilb_pass1]; [intros i c H; by apply not_elem_of_nil in H|].
  pose proof (first_ilb_spec (Z.land nohz (cpu_mask (bl_pv e) 0 i))) as H. destruct (first_ilb _ _ _) as [c|].
  - destruct H as (Hc & Hb & Ho). rewrite Z.land_spec in Hb. apply andb_true_iff in Hb as [H1 H2].
    split_and!; try done. exists i. split; [left|done].
  - destruct (ilb_pass1 e this_cpu nohz l) as [c|].
    + destruct IH as (A & B & C & j & Hj & Hm). split_and!; try done. exists j. split; [by right|done].
    + intros j c [->|Hj]%elem_of_cons Hc Hn Hm; [|by apply (IH j)]. apply H; [done|]. rewrite Z.land_spec, Hn. exact Hm.
Qed.

Lemma pass2_spec l b :
  small_loads e ->
  match ilb_pass2 e this_cpu l b with
  | inr c => is_cpu c /\ ilb_ok e this_cpu c = true /\ exists i, i ∈ l /\ member i c = true
  | inl r => (forall i c, i ∈ l -> is_cpu c -> member i c = true -> ilb_ok e this_cpu c = false) /\
             (r = true <-> b = true \/ exists i, i ∈ l /\ cluster_strained i)
  end.
Proof.
  intros Hl. revert b. induction l as [|i l IH]; intros b; cbn [ilb_pass2].
  { split; [intros i c H; by apply not_elem_of_nil in H|]. split; [by left|]. intros [?|(i & H & _)]; [done|by apply not_elem_of_nil in H]. }
  change (fun cpu '(paused, total_util, total_capacity) => _) with turn.
  pose proof (turn_spec i Hl) as H. destruct (for_each_cpu_until _ turn _) as [[[paused u] k]|c].
  - destruct H as (N & A & B). set (b' := if _ : bool then true else b).
    assert (b' = true <-> b = true \/ cluster_strained i) as Eb.
    { unfold b'. destruct paused; cbn [negb andb].
      - split; [by left|]. intros [?|(S & _)]; [done|]. destruct (B eq_refl) as (d & Hd & Ho). destruct (S d Hd) as [E1 E2].
        by rewrite E1, E2 in Ho.
      - destruct (A eq_refl) as (A1 & -> & ->). assert (forall f, (forall c, 0 <= f c < 2 ^ 32) -> 0 <= zsum f (cluster_cpus_of i) <= 2 ^ 32 * 8) as Hb.
        { intros f Hf. destruct (zsum_bounds f (cluster_cpus_of i) 0 (2 ^ 32)) as [X Y]; [intros x _; specialize (Hf x); lia|].
          assert (length (cluster_cpus_of i) <= 8)%nat; [|lia]. unfold cluster_cpus_of. etrans; [apply length_filter|]. by rewrite length_seqZ. }
        pose proof (Hb (walt_lb_cpu_util e) (fun x => proj1 (Hl x))). pose proof (Hb (bl_cap e) (fun x => proj1 (proj2 (Hl x)))).
        rewrite !u64_small by lia. unfold cluster_strained. case_match eqn:E; [|split; [by left|]].
        + split; [|done]. intros _. right. split; [exact A1|lia].
        + intros [?|(_ & S)]; [done|lia]. }
    specialize (IH b'). destruct (ilb_pass2 e this_cpu l b') as [r|c].
    + destruct IH as (C & D). split.
      * intros j c [->|Hj]%elem_of_cons Hc Hm; [by apply N|by apply (C j)].
      * rewrite D, Eb. split.
        { intros [[?|?]|(j & Hj & Hs)]; [by left|right; exists i; split; [left|done]|right; exists j; split; [by right|done]]. }
        { intros [?|(j & [->|Hj]%elem_of_cons & Hs)]; [by left; left|left; by right|right; by exists j]. }
    + destruct IH as (A1 & A2 & j & Hj & Hm). split_and!; try done. exists j. split; [by right|done].
  - destruct H as (Hc & Hm & Ho). split_and!; try done. exists i. split; [left|done].
Qed.

(** The CPU that wakes up to balance for the idle ones is idle, online and not the
    CPU that asks. It is below the largest cluster whenever such a CPU exists there, and one that
    stopped its tick if possible; a CPU of the largest cluster is woken exactly when there is
    none and some smaller cluster is strained; otherwise the answer is -1. *)
Theorem new_ilb_spec nohz :
  bl_disabled e = false -> small_loads e -> 1 <= bl_nr_clusters e ->
  let last := bl_nr_clusters e - 1 in
  let lower c := is_cpu c /\ ilb_ok e this_cpu c = true /\ exists i, 0 <= i < last /\ member i c = true in
  let prime c := is_cpu c /\ ilb_ok e this_cpu c = true /\ member last c = true in
  exists r, walt_find_new_ilb e this_cpu nohz = Some r /\
    ((exists c, lower c) -> lower r) /\
    ((exists c, lower c /\ Z.testbit nohz c = true) -> Z.testbit nohz r = true) /\
    (~ (exists c, lower c) ->
       if bool_decide (r = -1) then ~ ((exists i, 0 <= i < last /\ cluster_strained i) /\ exists c, prime c)
       else (exists i, 0 <= i < last /\ cluster_strained i) /\ prime r).
Proof.
  intros Hd Hl Hn last lower prime. unfold walt_find_new_ilb. rewrite Hd. eexists. split; [done|].
  assert (forall i, i ∈ seqZ 0 (bl_nr_clusters e - 1) <-> 0 <= i < last) as Hi by (intros i; rewrite elem_of_seqZ; unfold last; lia).
  pose proof (pass1_spec nohz (seqZ 0 (bl_nr_clusters e - 1))) as P1.
  destruct (ilb_pass1 _ _ _ _) as [c|].
  { destruct P1 as (Hc & Hz & Ho & i & Hm & Hb). rewrite Hi in Hm. assert (lower c) as L by (split_and!; eauto).
    split_and!; try done. intros []. by exists c. }
  pose proof (pass2_spec (seqZ 0 (bl_nr_clusters e - 1)) false Hl) as P2.
  destruct (ilb_pass2 _ _ _ _) as [b|c].
  2: { destruct P2 as (Hc & Ho & i & Hm & Hb). rewrite Hi in Hm. assert (lower c) as L by (split_and!; eauto).
    split_and!; [done| |intros []; by exists c]. intros (d & (Hd1 & Hd2 & i1 & Hi1 & Hm1) & Hz).
    rewrite (P1 i1 d) in Hd2; [done|by apply Hi|done|done|done]. }
  destruct P2 as (N & S). assert (~ exists c, lower c) as Hno.
  { intros (c & Hc & Ho & i & Hri & Hm). rewrite (N i c) in Ho; [done|by apply Hi|done|done]. }
  split_and!; [by intros ?|intros (c & Hc & _); exfalso; apply Hno; by exists c|]. intros _.
  assert (b = true <-> exists i, 0 <= i < last /\ cluster_strained i) as S'.
  { rewrite S. split; [intros [?|(i & A & B)]; [done|]|intros (i & A & B); right]; exists i; (split; [by apply Hi|done]). }
  destruct b; [|rewrite bool_decide_true by done; intros [C _]; by apply S' in C].
  pose proof (first_ilb_spec (Z.land nohz (cpu_mask (bl_pv e) 0 (bl_nr_clusters e - 1)))) as F1.
  destruct (first_ilb _ _ (Z.land _ _)) as [c|].
  { destruct F1 as (A & B & C). rewrite bool_decide_false by (destruct A; lia). split; [by apply S'|]. split_and!; try done.
    rewrite Z.land_spec in B. by apply andb_true_iff in B as [_ B]. }
  pose proof (first_ilb_spec (Z.ldiff (cpu_mask (bl_pv e) 0 (bl_nr_clusters e - 1)) nohz)) as F2.
  destruct (first_ilb _ _ (Z.ldiff _ _)) as [c|]; cbn [default].
  { destruct F2 as (A & B & C). rewrite bool_decide_false by (destruct A; cbn; lia). split; [by apply S'|]. split_and!; try done.
    rewrite Z.ldiff_spec in B. by apply andb_true_iff in B as [B _]. }
  rewrite bool_decide_true by done. intros (_ & c & Hc & Ho & Hm).
  destruct (Z.testbit nohz c) eqn:Ez.
  - rewrite (F1 c) in Ho; [done|done|]. rewrite Z.land_spec, Ez. exact Hm.
  - rewrite (F2 c) in Ho; [done|done|]. rewrite Z.ldiff_spec, Ez, andb_true_r. exact Hm.
Qed.

End Ilb.

(** Only CPU 5 is idle, and no smaller cluster is strained: nobody is woken. *)
Lemma new_ilb_spec_witness :
  exists r, walt_find_new_ilb demo_bl 0 32 = Some r /\
    ((exists c, is_cpu c /\ ilb_ok demo_bl 0 c = true /\ exists i, 0 <= i < 1 /\ member demo_bl i c = true) ->
     is_cpu r /\ ilb_ok demo_bl 0 r = true /\ exists i, 0 <= i < 1 /\ member demo_bl i r = true).
Proof.
  destruct (new_ilb_spec demo_bl 0 32 eq_refl demo_small_loads) as (r & E & H & _); [vm_compute; discriminate|].
  exists r. split; [exact E|exact H].
Defined.

End IdleBalancer.

(** ** The task that is taken *)

Module Pulling.

Section Moves.
Context (e : bal_env).

(** Two states that differ only in boosts whose time is over. *)
Record boost_eq (s1 s2 : lb_sys) : Prop := mk_beq {
  beq_rqs : lb_rqs s1 = lb_rqs s2;
  beq_works : lb_works s1 = lb_works s2;
  beq_calls : lb_calls s1 = lb_calls s2;
  beq_oscillate : lb_oscillate_cpu s1 = lb_oscillate_cpu s2 /\ lb_oscillate_ts s1 = lb_oscillate_ts s2;
  beq_balance : lb_next_balance s1 = lb_next_balance s2;
  beq_wts : forall p, expire_boost (bl_fit e) (lb_wts s1 p) = expire_boost (bl_fit e) (lb_wts s2 p)
}.

#[export] Instance boost_eq_equiv : Equivalence boost_eq.
Proof.
  split.
  - intros s. by split.
  - intros s1 s2 []. split; [done..| |done|]; [naive_solver|]. intros p. by symmetry.
  - intros s1 s2 s3 [A1 A2 A3 A4 A5 A6] [B1 B2 B3 B4 B5 B6]. split; [congruence..| |congruence|]; [naive_solver congruence|].
    intros p. by rewrite A6, B6.
Qed.

Lemma expire_idem t : expire_boost (bl_fit e) (expire_boost (bl_fit e) t) = expire_boost (bl_fit e) t.
Proof.
  unfold expire_boost. destruct (negb (t_boost_period t =? 0) && (t_boost_expires t <? fe_clock (bl_fit e))) eqn:E; [done|by rewrite E].
Qed.

(** Expiry touches nothing but the boost. *)
Lemma expire_same t :
  let u := expire_boost (bl_fit e) t in
  t_demand_scaled u = t_demand_scaled t /\ t_iowaited u = t_iowaited t /\ t_low_latency u = t_low_latency t /\
  t_grp u = t_grp t /\ t_misfit u = t_misfit t /\ t_last_enqueued_ts u = t_last_enqueued_ts t.
Proof. unfold expire_boost. by destruct (_ && _). Qed.

Lemma boost_same_expired t u : expire_boost (bl_fit e) t = expire_boost (bl_fit e) u -> per_task_boost (bl_fit e) t = per_task_boost (bl_fit e) u.
Proof. unfold per_task_boost. by intros ->. Qed.
Lemma fits_same_expired p t u dst : expire_boost (bl_fit e) t = expire_boost (bl_fit e) u -> task_fits_max (bl_fit e) p t dst = task_fits_max (bl_fit e) p u dst.
Proof. intros H. unfold task_fits_max. by rewrite (boost_same_expired t u). Qed.
Lemma fits_expires p t dst : (task_fits_max (bl_fit e) p t dst).1 = expire_boost (bl_fit e) t.
Proof. done. Qed.

Lemma set_expired s p t :
  expire_boost (bl_fit e) t = expire_boost (bl_fit e) (lb_wts s p) -> boost_eq s (set_wts p t s).
Proof.
  intros H. split; try done. intros q. unfold set_wts. cbn. unfold insert, fn_insert. by destruct (decide (p = q)) as [->|].
Qed.

(** The rule of [_walt_can_migrate_task], on the task as it is once expired boosts are gone. *)
Definition may_move (s : lb_sys) (p dst : Z) (to_lower to_higher force : bool) : bool :=
  let t := expire_boost (bl_fit e) (lb_wts s p) in
  let fits := (task_fits_max (bl_fit e) p t dst).2 in
  negb (bl_delayed e p) && negb (bool_decide (q_push_task (lb_rqs s (lb_cpu e p)) = Some p)) &&
  negb (pipeline_in_progress (bl_cfg e) && walt_pipeline_low_latency_task t) &&
  (if to_lower then
     negb (t_iowaited t && (task_util t <? MIN_UTIL_FOR_STORAGE_BALANCING)) &&
     negb (((per_task_boost (bl_fit e) t).2 =? TASK_BOOST_STRICT_MAX) && task_in_related_thread_group t) &&
     (force || negb (walt_get_rtg_status (bl_pv e) t) && fits)
   else to_higher || fits || (2 <=? bl_nr_big e (lb_cpu e p))) &&
  negb (cpu_halted (bl_pv e) dst) && negb (bl_pipeline_skip e p dst).

Lemma can_migrate_spec s p dst lo hi force :
  let '(s', ok) := _walt_can_migrate_task e s p dst lo hi force in
  boost_eq s s' /\ ok = may_move s p dst lo hi force.
Proof.
  set (t := lb_wts s p). destruct (expire_same t) as (F1 & F2 & F3 & F4 & _).
  unfold _walt_can_migrate_task, may_move. fold t. unfold task_util, walt_pipeline_low_latency_task. rewrite F1, F2, F3.
  destruct (bl_delayed e p); [done|]. case_bool_decide; [done|]. cbn [negb andb].
  destruct (pipeline_in_progress _ && _); [done|]. cbn [negb andb].
  rewrite (fits_same_expired p (expire_boost (bl_fit e) t) t) by apply expire_idem.
  rewrite (boost_same_expired (expire_boost (bl_fit e) t) t) by apply expire_idem.
  assert (boost_eq s (set_wts p (expire_boost (bl_fit e) t) s)) as B1 by apply set_expired, expire_idem.
  destruct lo; [|destruct hi; cbn [negb orb]].
  - destruct (_ && (_ <? _)); [done|]. cbn [negb andb]. destruct (per_task_boost (bl_fit e) t) as [u boost] eqn:Ep.
    assert (u = expire_boost (bl_fit e) t) as -> by (by unfold per_task_boost in Ep; simplify_eq).
    cbn [snd]. destruct ((boost =? _) && _); [done|]. cbn [negb andb].
    destruct force; cbn [negb andb orb]; [by destruct (cpu_halted _ dst), (bl_pipeline_skip e p dst)|].
    destruct (walt_get_rtg_status _ _); [done|]. cbn [negb andb].
    rewrite (fits_same_expired p (expire_boost (bl_fit e) t) t) by apply expire_idem.
    destruct (task_fits_max (bl_fit e) p t dst) as [v f] eqn:Ef.
    assert (v = expire_boost (bl_fit e) t) as -> by (by rewrite <- (fits_expires p t dst), Ef).
    assert (boost_eq s (set_wts p (expire_boost (bl_fit e) t) (set_wts p (expire_boost (bl_fit e) t) s))) as B2.
    { etrans; [exact B1|]. apply set_expired. unfold set_wts. cbn. by rewrite fn_lookup_insert. }
    cbn [snd]. by destruct f, (cpu_halted _ dst), (bl_pipeline_skip e p dst).
  - by destruct (cpu_halted _ dst), (bl_pipeline_skip e p dst).
  - destruct (task_fits_max (bl_fit e) p t dst) as [v f] eqn:Ef.
    assert (v = expire_boost (bl_fit e) t) as -> by (by rewrite <- (fits_expires p t dst), Ef). cbn [snd].
    destruct f, (bl_nr_big e (lb_cpu e p) <? 2) eqn:E, (cpu_halted _ dst), (bl_pipeline_skip e p dst); cbn [negb andb orb];
      (split; [done|lia]).
Qed.

#[export] Instance may_move_proper : Proper (boost_eq ==> eq ==> eq ==> eq ==> eq ==> eq ==> eq) may_move.
Proof.
  intros s1 s2 B p ? <- dst ? <- lo ? <- hi ? <- force ? <-. unfold may_move. by rewrite (beq_wts _ _ B p), (beq_rqs _ _ B).
Qed.

Definition util_of (s : lb_sys) (p : Z) : Z := task_util (lb_wts s p).

#[export] Instance util_of_proper : Proper (boost_eq ==> eq ==> eq) util_of.
Proof.
  intros s1 s2 B p ? <-. unfold util_of, task_util. pose proof (f_equal t_demand_scaled (beq_wts _ _ B p)) as H.
  by rewrite !(proj1 (expire_same _)) in H.
Qed.

Section Scan.
Context (dst src : Z) (lo hi force : bool).

Definition eligible (s : lb_sys) (p : Z) : bool :=
  cpumask_test_cpu dst (fe_cpus_ptr (bl_fit e) p) && negb (bl_on_cpu e src p) && may_move s p dst lo hi force.

(** The first eligible tasks, at most [n]. *)
Definition first_eligible (s : lb_sys) (n : nat) (l : list Z) : list Z := take n (filter (fun p => eligible s p = true) l).

Definition better (s : lb_sys) (pull_me : option Z) (p : Z) : option Z :=
  Some match pull_me with
       | None => p
       | Some q => if lo then if util_of s p <? util_of s q then p else q else if util_of s q <? util_of s p then p else q
       end.

#[export] Instance better_proper : Proper (boost_eq ==> eq ==> eq ==> eq) better.
Proof.
  intros s1 s2 B [q|] ? <- p ? <-; [|done]. unfold better. by rewrite (util_of_proper _ _ B q _ eq_refl), (util_of_proper _ _ B p _ eq_refl).
Qed.

Lemma eligible_same s1 s2 p : boost_eq s1 s2 -> eligible s1 p = eligible s2 p.
Proof. intros B. unfold eligible. by rewrite (may_move_proper _ _ B p _ eq_refl dst _ eq_refl lo _ eq_refl hi _ eq_refl force _ eq_refl). Qed.
Lemma first_eligible_same s1 s2 n l : boost_eq s1 s2 -> first_eligible s1 n l = first_eligible s2 n l.
Proof. intros B. unfold first_eligible. f_equal. apply list_filter_iff. intros p. by rewrite (eligible_same s1 s2). Qed.
Lemma fold_better_same s1 s2 l a : boost_eq s1 s2 -> fold_left (better s1) l a = fold_left (better s2) l a.
Proof.
  intros B. revert a. induction l as [|p l IH]; intros a; [done|]. cbn [fold_left].
  by rewrite (better_proper _ _ B a _ eq_refl p _ eq_refl), IH.
Qed.

(** The scan is the fold over the first six eligible tasks. *)
Lemma pull_scan_fold l : forall s pm v, 0 <= v <= 5 ->
  let '(s', r) := pull_scan e s dst src lo hi force l pm v in
  boost_eq s s' /\ r = fold_left (better s) (first_eligible s (Z.to_nat (6 - v)) l) pm.
Proof.
  induction l as [|p l IH]; intros s pm v Hv; cbn [pull_scan]; [unfold first_eligible; by rewrite filter_nil, take_nil|].
  unfold first_eligible. rewrite filter_cons. fold (first_eligible s (Z.to_nat (6 - v)) l).
  destruct (cpumask_test_cpu dst _) eqn:E1; cbn [negb].
  2: { rewrite decide_False by (unfold eligible; by rewrite E1). by apply IH. }
  destruct (bl_on_cpu e src p) eqn:E2.
  { rewrite decide_False by (unfold eligible; by rewrite E1, E2). by apply IH. }
  pose proof (can_migrate_spec s p dst lo hi force) as C. destruct (_walt_can_migrate_task _ _ _ _ _ _ _) as [s1 ok].
  destruct C as [B ->]. destruct (may_move s p dst lo hi force) eqn:E3; cbn [negb].
  2: { rewrite decide_False by (unfold eligible; by rewrite E1, E2, E3). specialize (IH s1 pm v Hv).
    destruct (pull_scan _ _ _ _ _ _ _ _ _ _) as [s2 r]. destruct IH as [B2 ->]. split; [by etrans|].
    rewrite <- (first_eligible_same s s1) by done. by rewrite (fold_better_same s s1). }
  rewrite decide_True by (unfold eligible; by rewrite E1, E2, E3).
  replace (Z.to_nat (6 - v)) with (S (Z.to_nat (5 - v))) by lia. cbn [take fold_left].
  change (match pm with Some _ => _ | None => p end) with (default p (better s1 pm p)).
  assert (Some (default p (better s1 pm p)) = better s pm p) as Eb.
  { rewrite (better_proper _ _ B pm _ eq_refl p _ eq_refl). done. }
  destruct (5 <? v + 1) eqn:E5.
  - replace (Z.to_nat (5 - v)) with 0%nat by lia. by rewrite Eb.
  - rewrite Eb. specialize (IH s1 (better s pm p) (v + 1) ltac:(lia)).
    destruct (pull_scan _ _ _ _ _ _ _ _ _ _) as [s2 r]. destruct IH as [B2 ->]. split; [by etrans|].
    rewrite <- (first_eligible_same s s1) by done. rewrite <- (fold_better_same s s1) by done.
    replace (6 - (v + 1)) with (5 - v) by lia. done.
Qed.

(** The smallest of a list if the task moves to a smaller CPU, else the largest. *)
Definition best_of (s : lb_sys) (l : list Z) (p : Z) : Prop :=
  p ∈ l /\ forall q, q ∈ l -> if lo then util_of s p <= util_of s q else util_of s q <= util_of s p.

Lemma fold_better_best s l : forall q, exists p, fold_left (better s) l (Some q) = Some p /\ best_of s (q :: l) p.
Proof.
  induction l as [|p l IH]; intros q; cbn [fold_left].
  { exists q. split; [done|]. split; [left|]. intros x [->|H]%elem_of_cons; [destruct lo; lia|by apply not_elem_of_nil in H]. }
  unfold better at 2. set (r := if lo then _ else _). destruct (IH r) as (x & E & Hx & Hb). exists x. split; [exact E|].
  assert (r = p \/ r = q) as Hr by (unfold r; repeat case_match; tauto).
  assert (if lo then util_of s r <= util_of s p /\ util_of s r <= util_of s q
          else util_of s p <= util_of s r /\ util_of s q <= util_of s r) as Hm.
  { unfold r. destruct lo; [destruct (util_of s p <? util_of s q) eqn:E0|destruct (util_of s q <? util_of s p) eqn:E0]; lia. }
  split.
  - apply elem_of_cons in Hx as [->|Hx]; [destruct Hr as [->| ->]; set_solver|set_solver].
  - pose proof (Hb r (list_elem_of_here _ _)). intros y [->|[->|Hy]%elem_of_cons]%elem_of_cons; [destruct lo; lia|destruct lo; lia|].
    apply Hb. by right.
Qed.

Lemma pull_scan_spec s l :
  let '(s', r) := pull_scan e s dst src lo hi force l None 0 in
  boost_eq s s' /\
  match r with
  | Some p => best_of s (first_eligible s 6 l) p
  | None => forall p, p ∈ l -> eligible s p = false
  end.
Proof.
  pose proof (pull_scan_fold l s None 0 ltac:(lia)) as H. destruct (pull_scan _ _ _ _ _ _ _ _ _ _) as [s' r].
  destruct H as [B ->]. split; [exact B|]. change (Z.to_nat (6 - 0)) with 6%nat.
  destruct (first_eligible s 6 l) as [|p k] eqn:E.
  - cbn [fold_left]. intros p Hp. destruct (eligible s p) eqn:Ep; [|done]. exfalso. unfold first_eligible in E.
    assert (p ∈ filter (fun p => eligible s p = true) l) as Hf by (by apply list_elem_of_filter).
    destruct (filter _ l); [by apply not_elem_of_nil in Hf|done].
  - cbn [fold_left]. unfold better at 2. destruct (fold_better_best s k p) as (x & -> & Hx). exact Hx.
Qed.

Lemma first_eligible_ok s n l p : p ∈ first_eligible s n l -> p ∈ l /\ eligible s p = true.
Proof.
  unfold first_eligible. intros H%(subseteq_take n). apply list_elem_of_filter in H. tauto.
Qed.

End Scan.
End Moves.
End Pulling.
