(* ===== verification/ActiveBalance.v ===== *)
(** * Load balance: moving tasks

    The part of [walt_lb.c] that moves tasks, with the storage balance of
    [walt_storage_lb.c] and the checks of [walt.c] it needs. A waiting task is taken at once; a
    running one is pushed by the stopper thread of its CPU, to which a request is handed in
    the run queue ([active_balance], [push_cpu], [push_task]); two running tasks change places
    through a work item. The requests come from the tick, from a CPU that goes idle, from
    an interrupt and from the storage balance, and are carried out later. *)

From Stdlib Require Import ZArith Lia ZifyBool Bool.
From stdpp Require Import base list sets functions numbers list_numbers relations.
From S2P Require Import Prelude WaltTypes Cpumask SmartFreq Halt CoreCtl Boost Fits Pipeline PipelineHeavy PipelineCpus Placement EnergyCpu Balance.

Definition WALT_ROTATION_THRESHOLD_NS : Z := 16000000.
Definition WALT_RT_PULL_THRESHOLD_NS : Z := 250000.
Definition NEWIDLE_BALANCE_THRESHOLD : Z := 500000.
Definition STORAGE_BALANCE_INTERVAL_NSEC : Z := 3000000.

(** What else is known at the time of an operation. [ac_stop_ok] says whether the stopper
    thread of a CPU accepts work; of a task: whether it is queued, in the state
    [TASK_RUNNING], and on how many CPUs it may run. For the tick: whether the current
    task is still running once the locks are held, [is_storage_boost], the masks
    [walt_enforce_high_irq_cpu_mask] and [storage_boost_cpus], and what the uninitialised
    variable [target_task] of [move_task] holds. For a CPU that goes idle: whether it has a
    runnable real time task, before and after the locks are taken; the CPUs with pushable tasks
    and the one to take; its numbers of tasks after the real time balance, before a
    task is pulled and, with the fair ones among them, at the end; [avg_idle],
    [overloaded], [nr_iowait]. [ac_obet] is [is_obet], [ac_irq_start] the start of the
    interrupt. The other fields belong to the vendor's scheduler: [__oplus_tick_balance];
    [fbg_need_up_migration], with the feature; [oplus_pipeline_rt_skip_prime_cpu];
    [fbg_rt_task_fits_capacity]; [__oplus_newidle_balance] with what it leaves in
    [pulled_task] and [done]. *)
Record act_env := mk_act {
  ac_bl : bal_env;
  ac_stop_ok : Z -> bool;
  ac_queued : Z -> bool;
  ac_running : Z -> bool;
  ac_nr_allowed : Z -> Z;
  ac_still_running : bool;
  ac_storage_boost : bool;
  ac_high_irq_mask : Z;
  ac_storage_cpus : Z;
  ac_stack : Z -> option Z;
  ac_rt_runnable : bool;
  ac_rt_runnable_locked : bool;
  ac_pushable : Z -> bool;
  ac_pick : Z -> Z -> option Z;
  ac_nr_after_rt : Z;
  ac_nr_before_pull : Z;
  ac_nr_end : Z;
  ac_h_nr_end : Z;
  ac_avg_idle : Z;
  ac_overloaded : bool;
  ac_nr_iowait : Z;
  ac_obet : bool;
  ac_irq_start : Z;
  ac_oplus_tick : Z -> bool;
  ac_frame : option bool;
  ac_oplus_rt_skip : Z -> bool;
  ac_fbg_rt_fits : Z -> Z -> bool;
  ac_oplus_newidle : option (Z * Z)
}.

Section Moving.
Context (a : act_env).
Abbreviation e := (ac_bl a).

Definition cpus_allowed (p cpu : Z) : bool := cpumask_test_cpu cpu (fe_cpus_ptr (bl_fit e) p).

Definition walt_detach_task (p src dst : Z) (s : lb_sys) : lb_sys :=
  call (c_detach p src dst) (if bl_delayed e p then call (c_delayed p) s else s).
Definition walt_attach_task (p dst : Z) : lb_sys -> lb_sys := call (c_attach p dst).

(** ** Pushing a running task *)

(** The request in the run queue of [src], as every caller writes it, the locks apart. *)
Definition request_push (src dst p : Z) (s : lb_sys) : lb_sys :=
  mark_reserved dst (on_rq src (fun q => q <| q_push_task := Some p |>)
    (call (c_get p) (on_rq src (fun q => q <| q_active := true |> <| q_push_cpu := dst |>) s))).

(** [stop_one_cpu_nowait]: the work is queued if the stopper thread accepts it. *)
Definition stop_one_cpu_nowait (cpu : Z) (s : lb_sys) : lb_sys * bool :=
  if ac_stop_ok a cpu then (call (c_stop cpu) (on_rq cpu (fun q => q <| q_stops := S (q_stops q) |>) s), true)
  else (s, false).

(** The work of the stopper thread, run on [this_cpu] for the run queue of [busiest_cpu]. *)
Definition stop_walt_lb_active_migration (this_cpu busiest_cpu : Z) (s : lb_sys) : lb_sys :=
  let s := on_rq busiest_cpu (fun q => q <| q_stops := Nat.pred (q_stops q) |>) s in
  let q := lb_rqs s busiest_cpu in
  let target_cpu := q_push_cpu q in
  let push_task := q_push_task q in
  let sane := cpu_active (bl_pv e) busiest_cpu && cpu_active (bl_pv e) target_cpu && bool_decide (push_task <> None) &&
              ((busiest_cpu =? this_cpu) && q_active q) && negb (pv_nr_running (bl_pv e) busiest_cpu <=? 1) in
  if sane && (busiest_cpu =? target_cpu) then call c_bug s else
  let '(s, push_task_detached) :=
    match push_task with
    | Some p =>
        if sane && ac_queued a p && ac_running a p && (lb_cpu e p =? busiest_cpu) && cpu_active (bl_pv e) target_cpu && cpus_allowed p target_cpu
        then (walt_detach_task p busiest_cpu target_cpu s, true) else (s, false)
    | None => (s, false)
    end in
  let s := on_rq busiest_cpu (fun q => q <| q_active := false |>) s in
  let s := clear_reserved target_cpu s in
  let s := on_rq busiest_cpu (fun q => q <| q_push_task := None |>) s in
  match push_task with
  | Some p =>
      call (c_put p) (if push_task_detached : bool then call (c_count_active target_cpu) (walt_attach_task p target_cpu s) else s)
  | None => s
  end.

(** The hooks [android_rvh_sched_cpu_starting] and [android_rvh_sched_cpu_dying]. *)
Definition clear_walt_request (cpu : Z) (s : lb_sys) : lb_sys :=
  let s := clear_reserved cpu s in
  match q_push_task (lb_rqs s cpu) with
  | Some p =>
      let s := clear_reserved (q_push_cpu (lb_rqs s cpu)) s in
      let s := on_rq cpu (fun q => q <| q_push_task := None |>) s in
      let s := on_rq cpu (fun q => q <| q_active := false |>) s in
      call (c_put p) s
  | None => s
  end.
Definition cpu_hotplug_hook (disabled : bool) (cpu : Z) (s : lb_sys) : lb_sys := if disabled then s else clear_walt_request cpu s.

(** ** Pulling *)

(** The third loop of [walt_lb_pull_tasks]: the running task is pushed if it must be. *)
Fixpoint active_scan (s : lb_sys) (dst_cpu src_cpu : Z) (l : list Z) : lb_sys :=
  match l with
  | [] => s
  | p :: l =>
      if pipeline_in_progress (bl_cfg e) && walt_pipeline_low_latency_task (lb_wts s p) then active_scan s dst_cpu src_cpu l else
      if bl_on_cpu e src_cpu p then
        let '(s, need) := if cpus_allowed p dst_cpu && negb (bl_delayed e p) then need_active_lb e s p dst_cpu src_cpu else (s, false) in
        if need : bool then
          let '(s, success) := stop_one_cpu_nowait src_cpu (request_push src_cpu dst_cpu p s) in
          if success : bool then s else clear_reserved dst_cpu s
        else s
      else active_scan s dst_cpu src_cpu l
  end.

(** Result: the number of tasks pulled. *)
Definition walt_lb_pull_tasks (dst_cpu src_cpu : Z) (s : lb_sys) : lb_sys * Z :=
  if src_cpu =? dst_cpu then (call c_bug s, 0) else
  let to_lower := check_for_higher_capacity (bl_fit e) src_cpu dst_cpu in
  let to_higher := check_for_higher_capacity (bl_fit e) dst_cpu src_cpu in
  let take s p := (call (c_count_idle dst_cpu) (walt_attach_task p dst_cpu (walt_detach_task p src_cpu dst_cpu s)), 1) in
  match pull_scan e s dst_cpu src_cpu to_lower to_higher false (bl_cfs e src_cpu) None 0 with
  | (s, Some pull_me) => take s pull_me
  | (s, None) =>
      match pull_scan e s dst_cpu src_cpu to_lower to_higher true (bl_cfs e src_cpu) None 0 with
      | (s, Some pull_me) => take s pull_me
      | (s, None) => (active_scan s dst_cpu src_cpu (bl_cfs e src_cpu), 0)
      end
  end.

(** ** Rotation *)

(** The CPU of the smallest cluster whose misfit has waited longest. *)
Definition deserved_cpu_of (s : lb_sys) (wc : Z) : Z :=
  match for_each_cpu_until (fe_possible (bl_fit e)) (fun i '(max_wait, deserved_cpu) =>
    if negb (is_min_possible_cluster_cpu (bl_fit e) i) then inr deserved_cpu else
    if is_reserved s i then inl (max_wait, deserved_cpu) else
    if (q_misfit (lb_rqs s i) =? 0) || negb (bl_fair e (bl_curr e i)) then inl (max_wait, deserved_cpu) else
    let wait := u64 (wc - t_last_enqueued_ts (lb_wts s (bl_curr e i))) in
    inl (if max_wait <? wait then (wait, i) else (max_wait, deserved_cpu))) (0, nr_cpu_ids (bl_cfg e)) with
  | inl (_, deserved_cpu) => deserved_cpu
  | inr deserved_cpu => deserved_cpu
  end.

(** The CPU of a larger cluster whose only task has run longest, for a while at least. *)
Definition rotation_dst (s : lb_sys) (wc src_cpu : Z) : Z :=
  snd (for_each_cpu (fe_possible (bl_fit e)) (fun i '(max_run, dst_cpu) =>
    if is_min_possible_cluster_cpu (bl_fit e) i then (max_run, dst_cpu) else
    if is_reserved s i then (max_run, dst_cpu) else
    if negb (bl_fair e (bl_curr e i)) then (max_run, dst_cpu) else
    if 1 <? pv_nr_running (bl_pv e) i then (max_run, dst_cpu) else
    if bl_fbg_skip e (bl_curr e i) i src_cpu then (max_run, dst_cpu) else
    let run := u64 (wc - t_last_enqueued_ts (lb_wts s (bl_curr e i))) in
    if run <? WALT_ROTATION_THRESHOLD_NS then (max_run, dst_cpu) else
    if max_run <? run then (run, i) else (max_run, dst_cpu)) (0, nr_cpu_ids (bl_cfg e))).

(** The current tasks of two CPUs are to change places. *)
Definition queue_rotation (src_cpu dst_cpu src_curr dst_curr : Z) (s : lb_sys) : lb_sys :=
  let s := call (c_get dst_curr) (call (c_get src_curr) s) in
  let s := mark_reserved dst_cpu (mark_reserved src_cpu s) in
  let s := s <| lb_works := <[src_cpu := mk_rw src_curr dst_curr src_cpu dst_cpu true]> (lb_works s) |> in
  let s := on_rq dst_cpu (fun q => q <| q_active := true |>) s in
  let s := on_rq src_cpu (fun q => q <| q_active := true |>) s in
  call (c_rotate src_cpu) s.

Definition walt_lb_check_for_rotation (src_cpu : Z) (s : lb_sys) : lb_sys :=
  if negb (is_min_possible_cluster_cpu (bl_fit e) src_cpu) then s else
  let wc := bl_clock e src_cpu in
  if negb (deserved_cpu_of s wc =? src_cpu) then s else
  let dst_cpu := rotation_dst s wc src_cpu in
  if dst_cpu =? nr_cpu_ids (bl_cfg e) then s else
  let src_curr := bl_curr e src_cpu in
  let dst_curr := bl_curr e dst_cpu in
  if bl_fair e dst_curr && negb (q_active (lb_rqs s src_cpu)) && negb (q_active (lb_rqs s dst_cpu)) &&
     cpus_allowed src_curr dst_cpu && cpus_allowed dst_curr src_cpu
  then queue_rotation src_cpu dst_cpu src_curr dst_curr s else s.

(** The work item of [cpu]. *)
Definition walt_lb_rotate_work_func (cpu : Z) (s : lb_sys) : lb_sys :=
  let wr := lb_works s cpu in
  let s := s <| lb_works := <[cpu := wr <| w_queued := false |>]> (lb_works s) |> in
  let s := call (c_swap (w_src_task wr) (w_dst_task wr) (w_dst_cpu wr) (w_src_cpu wr)) s in
  let s := call (c_put (w_dst_task wr)) (call (c_put (w_src_task wr)) s) in
  let s := on_rq (w_dst_cpu wr) (fun q => q <| q_active := false |>) s in
  let s := on_rq (w_src_cpu wr) (fun q => q <| q_active := false |>) s in
  clear_reserved (w_dst_cpu wr) (clear_reserved (w_src_cpu wr) s).

(** ** Storage *)

Definition lb_ignore_cpus (s : lb_sys) (cpu dst_cpu_mask_to_avoid : Z) : bool :=
  negb (cpu_active (bl_pv e) cpu) || cpu_halted (bl_pv e) cpu || pv_high_irq (bl_pv e) cpu ||
  (is_reserved s cpu || q_active (lb_rqs s cpu)) || cpumask_test_cpu cpu dst_cpu_mask_to_avoid.

Definition find_least_util_any_cpu (s : lb_sys) (src_cpu dst_cpu_mask_to_avoid : Z) : Z :=
  snd (for_each_cpu (ac_storage_cpus a) (fun cpu '(min_util, best_cpu) =>
         if cpu =? src_cpu then (min_util, best_cpu) else
         if lb_ignore_cpus s cpu dst_cpu_mask_to_avoid then (min_util, best_cpu) else
         let util := walt_lb_cpu_util e cpu in
         if util <? min_util then (util, cpu) else (min_util, best_cpu)) (ULONG_MAX, -1)).

(** The scan of [move_task] for the heaviest task; [target_task] starts as it was on the
    stack. *)
Fixpoint storage_scan (s : lb_sys) (dst_cpu : Z) (l : list Z) (target_task : option Z) (max_task_util task_visited : Z) : option Z :=
  match l with
  | [] => target_task
  | p :: l =>
      if bl_delayed e p then storage_scan s dst_cpu l target_task max_task_util task_visited else
      if negb (bl_fair e p) then storage_scan s dst_cpu l target_task max_task_util task_visited else
      if negb (cpus_allowed p dst_cpu) then storage_scan s dst_cpu l target_task max_task_util task_visited else
      let task_visited := task_visited + 1 in
      let util := task_util (lb_wts s p) in
      let '(max_task_util, target_task) := if max_task_util <? util then (util, Some p) else (max_task_util, target_task) in
      if 10 <? task_visited then target_task else storage_scan s dst_cpu l target_task max_task_util task_visited
  end.

(** Result: the state, the mask of CPUs to avoid, and whether a task moves. *)
Definition move_task (src_cpu dst_cpu : Z) (s : lb_sys) (dst_cpu_mask_to_avoid : Z) : lb_sys * Z * bool :=
  if q_active (lb_rqs s src_cpu) then (s, dst_cpu_mask_to_avoid, false) else
  match storage_scan s dst_cpu (bl_cfs e src_cpu) (ac_stack a src_cpu) 0 0 with
  | None => (s, dst_cpu_mask_to_avoid, false)
  | Some target_task =>
      if bl_on_cpu e src_cpu target_task then
        let '(s, ret) := stop_one_cpu_nowait src_cpu (request_push src_cpu dst_cpu target_task s) in
        if negb ret then (clear_reserved dst_cpu s, dst_cpu_mask_to_avoid, false)
        else (call (c_wake_idle dst_cpu) s, Z.setbit dst_cpu_mask_to_avoid dst_cpu, true)
      else (walt_attach_task target_task dst_cpu (walt_detach_task target_task src_cpu dst_cpu s),
            Z.setbit dst_cpu_mask_to_avoid dst_cpu, true)
  end.

(** The variable [util] of the loop is only passed on, and not used. *)
Definition migrate_high_irq_cpus (s : lb_sys) (dst_cpu_mask_to_avoid : Z) : lb_sys * Z * bool :=
  for_each_cpu (fe_possible (bl_fit e)) (fun cpu '(s, avoid, done) =>
    if negb (cpumask_test_cpu cpu (ac_high_irq_mask a)) then (s, avoid, done) else
    if is_reserved s cpu || q_active (lb_rqs s cpu) then (s, avoid, done) else
    let dst_cpu := find_least_util_any_cpu s cpu avoid in
    if 0 <=? dst_cpu then
      let '(s, avoid, moved) := move_task cpu dst_cpu s avoid in (s, avoid, done || moved)
    else (s, avoid, done)) (s, dst_cpu_mask_to_avoid, false).

Definition move_storage_load (cpu : Z) (s : lb_sys) : lb_sys * bool :=
  if bl_clock e cpu <? lb_next_balance s then (s, false) else
  let s := s <| lb_next_balance := u64 (bl_clock e cpu + STORAGE_BALANCE_INTERVAL_NSEC) |> in
  let '(s, _, ret) := migrate_high_irq_cpus s 0 in
  (s, ret).

(** ** The tick *)

(** The placement is that of [EnergyCpu], with the reservations of this state; four rounds of
    its search are enough. *)
Definition place_running (s : lb_sys) (p prev_cpu : Z) : walt_task_struct * Z :=
  match walt_find_energy_efficient_cpu 4 ((bl_we e) <| we_pv := place_for e s p |>) p (lb_wts s p) prev_cpu false 1 with
  | Some r => r
  | None => (lb_wts s p, -1)
  end.

Definition tick_push (cpu p : Z) (s : lb_sys) : lb_sys :=
  let '(t, new_cpu) := place_running s p cpu in
  let s := set_wts p t s in
  if new_cpu <? 0 then s else
  if negb (pv_idle (bl_pv e) new_cpu) || negb (check_for_higher_capacity (bl_fit e) new_cpu cpu) then s else
  let '(s, fits) :=
    if negb (is_min_possible_cluster_cpu (bl_fit e) cpu) then
      let '(t, fits) := task_fits_max (bl_fit e) p (lb_wts s p) new_cpu in (set_wts p t s, fits)
    else (s, true) in
  if negb fits then s else
  if negb (ac_still_running a) then s else
  if q_active (lb_rqs s cpu) then s else
  let '(s, ret) := stop_one_cpu_nowait cpu (request_push cpu new_cpu p s) in
  if negb ret then clear_reserved new_cpu s else call (c_wake_idle new_cpu) s.

Definition walt_lb_tick (cpu : Z) (s : lb_sys) : lb_sys :=
  let p := bl_curr e cpu in
  if ac_oplus_tick a cpu then s else
  let s := if pv_idle (bl_pv e) cpu && is_reserved s cpu && negb (q_active (lb_rqs s cpu)) then clear_reserved cpu s else s in
  let '(s, storage_balance) := if ac_storage_boost a && (cpu =? 0) then move_storage_load cpu s else (s, false) in
  if ac_storage_boost a && negb (cpu =? 0) && cpumask_test_cpu cpu (ac_high_irq_mask a) then s else
  if negb (bl_fair e p) then s else
  let s := call (c_mvp_tick cpu) s in
  let misfit := negb (q_misfit (lb_rqs s cpu) =? 0) in
  if match ac_frame a with Some need_up_migrate => negb misfit && negb need_up_migrate | None => negb misfit || storage_balance end
  then s else
  if negb (ac_running a p) || (ac_nr_allowed a p =? 1) then s else
  if bl_rotation e then walt_lb_check_for_rotation cpu s else
  tick_push cpu p s.

(** ** Oscillation *)

(** [Some reason] if there is none. *)
Definition should_oscillate (busy_cpu : Z) : option Z :=
  let prime := cpu_mask (bl_pv e) 0 (bl_nr_clusters e - 1) in
  if nr_cpu_ids (bl_cfg e) <=? busy_cpu then Some 1 else
  if negb (ac_obet a) then Some 2 else
  if negb (is_max_possible_cluster_cpu (bl_cfg e) busy_cpu) then Some 3 else
  if cpumask_weight prime =? 1 then Some 4 else
  if negb (for_each_cpu prime (fun cpu n => n + Z.b2z (negb (pv_idle (bl_pv e) cpu))) 0 =? 1) then Some 5 else
  None.

(** Result: the state and [no_oscillate_reason]. *)
Definition sched_walt_oscillate (busy_cpu : Z) (s : lb_sys) : lb_sys * Z :=
  let out_fail s := s <| lb_oscillate_cpu := -1 |> in
  match should_oscillate busy_cpu with
  | Some reason => (out_fail s, reason)
  | None =>
      let prime := cpu_mask (bl_pv e) 0 (bl_nr_clusters e - 1) in
      let src_cpu := busy_cpu in
      let dst_cpu := if cpumask_last prime <? busy_cpu + 1 then cpumask_first prime else busy_cpu + 1 in
      let p := bl_curr e src_cpu in
      if negb (ac_running a p) then (out_fail s, 100) else
      if cpus_allowed p dst_cpu then
        if q_active (lb_rqs s src_cpu) then (out_fail s, 101) else
        let s := request_push src_cpu dst_cpu p s in
        let s := s <| lb_oscillate_cpu := src_cpu |> in
        let '(s, success) := stop_one_cpu_nowait src_cpu s in
        if negb success then (out_fail (clear_reserved dst_cpu s), 102)
        else ((call (c_wake_idle dst_cpu) s) <| lb_oscillate_ts := ac_irq_start a |>, 0)
      else (out_fail s, 103)
  end.

(** ** A CPU that goes idle *)

(** A real time task is taken from the first CPU that has one to give. *)
Definition walt_balance_rt (this_cpu : Z) (s : lb_sys) : lb_sys * bool :=
  if ac_rt_runnable a then (s, false) else
  if ac_oplus_rt_skip a this_cpu then (s, false) else
  let src_cpu :=
    match for_each_cpu_until (fe_possible (bl_fit e)) (fun i (_ : unit) => if ac_pushable a i then inr i else inl tt) tt with
    | inl _ => this_cpu
    | inr i => i
    end in
  if src_cpu =? this_cpu then (s, false) else
  if ac_rt_runnable_locked a then (s, false) else
  match ac_pick a src_cpu this_cpu with
  | None => (s, false)
  | Some p =>
      if negb (cpus_allowed p this_cpu) then (s, false) else
      let wallclock := Z.max (bl_clock e this_cpu) (bl_clock e src_cpu) in
      let last_wake_ts := t_last_wake_ts (lb_wts s p) in
      if (last_wake_ts <? wallclock) && (wallclock - last_wake_ts <? WALT_RT_PULL_THRESHOLD_NS) then (s, false) else
      if negb (ac_fbg_rt_fits a p this_cpu) then (s, false) else
      (call (c_pull_rt p src_cpu this_cpu) s, true)
  end.

(** The loop over the clusters, up to the label [found_busy_cpu]. *)
Fixpoint newidle_search (s : lb_sys) (this_cpu order_index : Z) (enough_idle : bool) (clusters : list Z) (has_misfit : bool)
    : lb_sys * option Z :=
  match clusters with
  | [] => (s, None)
  | i :: clusters =>
      let mask := cpu_mask (bl_pv e) order_index i in
      let src_cluster_id := cpu_cluster_id (bl_cfg e) (cpumask_first mask) in
      let '(busy_cpu, has_misfit) := walt_lb_find_busiest_cpu e s this_cpu mask has_misfit true in
      if busy_cpu =? -1 then newidle_search s this_cpu order_index enough_idle clusters has_misfit else
      if negb enough_idle &&
         ((bl_cap e this_cpu <? bl_cap e busy_cpu) || ((bl_cap e busy_cpu <? bl_cap e this_cpu) && negb has_misfit))
      then newidle_search s this_cpu order_index enough_idle clusters has_misfit else
      let id := cpu_cluster_id (bl_cfg e) this_cpu in
      let last := bl_nr_clusters e - 1 in
      if (2 <? bl_nr_clusters e) && (((id =? 0) && (src_cluster_id =? last)) || ((id =? last) && (src_cluster_id =? 0))) then
        let first_idle := find_first_idle_if_others_are_busy e in
        if negb (first_idle =? -1) then
          newidle_search (call (c_kick first_idle) s) this_cpu order_index enough_idle clusters has_misfit
        else if bl_rotation e && (bl_cap e busy_cpu <? bl_cap e this_cpu) then (s, Some busy_cpu)
        else newidle_search s this_cpu order_index enough_idle clusters has_misfit
      else (s, Some busy_cpu)
  end.

(** The label [rt_pulled]. *)
Definition rt_pulled (this_cpu : Z) (s : lb_sys) (pulled_task : Z) : lb_sys * Z * Z :=
  let pulled_task := if negb (ac_h_nr_end a =? 0) && (pulled_task =? 0) then 1 else pulled_task in
  let pulled_task := if negb (ac_nr_end a =? ac_h_nr_end a) then -1 else pulled_task in
  let s := if negb (pulled_task =? 0) then on_rq this_cpu (fun q => q <| q_idle_stamp := 0 |>) s else s in
  (s, pulled_task, 1).

(** Result: the state, [pulled_task] and [done]. *)
Definition walt_newidle_balance (this_cpu : Z) (pulled_task done : Z) (force_overload : bool) (s : lb_sys) : lb_sys * Z * Z :=
  let enough_idle := NEWIDLE_BALANCE_THRESHOLD <? ac_avg_idle a in
  match ac_oplus_newidle a with
  | Some (pulled_task, done) => (s, pulled_task, done)
  | None =>
      if bl_disabled e then (s, pulled_task, done) else
      let s := on_rq this_cpu (fun q => q <| q_misfit := 0 |> <| q_idle_stamp := bl_clock e this_cpu |>) s in
      if negb (cpu_active (bl_pv e) this_cpu) then (s, 0, 1) else
      if cpu_halted (bl_pv e) this_cpu then (s, 0, 1) else
      if is_reserved s this_cpu then (s, 0, 1) else
      if pv_high_irq (bl_pv e) this_cpu then (s, 0, 1) else
      let order_index := cpu_cluster_id (bl_cfg e) this_cpu in
      let '(s, rt) := walt_balance_rt this_cpu s in
      if rt || negb (ac_nr_after_rt a =? 0) then rt_pulled this_cpu s 0 else
      if negb force_overload && negb (ac_overloaded a) then (s, 0, 1) else
      if negb (ac_nr_iowait a =? 0) && negb enough_idle then (s, 0, 1) else
      match newidle_search s this_cpu order_index enough_idle (seqZ 0 (bl_nr_clusters e)) false with
      | (s, Some busy_cpu) =>
          if (0 <? ac_nr_before_pull a) || (busy_cpu =? this_cpu) then rt_pulled this_cpu s 0 else
          let '(s, n) := walt_lb_pull_tasks this_cpu busy_cpu s in rt_pulled this_cpu s n
      | (s, None) => rt_pulled this_cpu s 0
      end
  end.

(** The call that another CPU sends after it was resumed; [pulled_task] is not read. *)
Definition walt_smp_newidle_balance (cpu : Z) (s : lb_sys) : lb_sys :=
  let '(s, _, _) := walt_newidle_balance cpu 0 0 true s in call (c_resched cpu) s.

(** The hook. [done = 0] in it assigns the pointer, which is local. *)
Definition walt_sched_newidle_balance (this_cpu : Z) (ttwu_pending : bool) (pulled_task done : Z) (s : lb_sys) : lb_sys * Z * Z :=
  if bl_disabled e then (s, pulled_task, done) else
  if ttwu_pending then (s, pulled_task, done) else
  walt_newidle_balance this_cpu pulled_task done false s.

End Moving.

(** ** Requests and references

    Every running task that is to be moved is held by a reference until the request is
    carried out or given up. *)

Module Requests.
Import Busiest Pulling.

(** References taken and not given back, by the calls made. *)
Definition ref_of (p : Z) (c : lb_call) : Z :=
  match c with c_get q => if p =? q then 1 else 0 | c_put q => if p =? q then -1 else 0 | _ => 0 end.
Definition references (s : lb_sys) (p : Z) : Z := zsum (ref_of p) (lb_calls s).

(** The requests that name a task: run queues that are to push it, and rotations queued. *)
Definition pushes (p : Z) (q : lb_rq) : Z := if bool_decide (q_push_task q = Some p) then 1 else 0.
Definition rotates (p : Z) (w : rotate_work) : Z :=
  if w_queued w then (if p =? w_src_task w then 1 else 0) + (if p =? w_dst_task w then 1 else 0) else 0.
Definition cpus : list Z := seqZ 0 WALT_NR_CPUS.
Definition requests (s : lb_sys) (p : Z) : Z :=
  zsum (fun c => pushes p (lb_rqs s c)) cpus + zsum (fun c => rotates p (lb_works s c)) cpus.

(** To whom the active balance of a CPU belongs. *)
Inductive owner := Free | Pushing (p : Z) | Rotating (d : Z) | Core.

Definition owned (s : lb_sys) (c : Z) (o : owner) : Prop :=
  let q := lb_rqs s c in
  let idle_work := w_queued (lb_works s c) = false in
  match o with
  | Free => q_active q = false /\ q_push_task q = None /\ q_stops q = 0%nat /\ q_core q = false /\ idle_work
  | Pushing p => q_active q = true /\ q_push_task q = Some p /\ (q_stops q <= 1)%nat /\ q_core q = false /\ idle_work /\ q_push_cpu q <> c
  | Rotating d => q_active q = true /\ q_push_task q = None /\ q_stops q = 0%nat /\ q_core q = false /\
                  is_cpu d /\ w_queued (lb_works s d) = true /\ (c = d \/ c = w_dst_cpu (lb_works s d) /\ idle_work)
  | Core => q_active q = true /\ q_push_task q = None /\ q_stops q = 0%nat /\ q_core q = true /\ idle_work
  end.

Record orderly_with (s : lb_sys) (o : Z -> owner) : Prop := mk_ord {
  or_owned : forall c, is_cpu c -> owned s c (o c);
  or_rotating : forall d, is_cpu d -> w_queued (lb_works s d) = true ->
    let d' := w_dst_cpu (lb_works s d) in w_src_cpu (lb_works s d) = d /\ is_cpu d' /\ d' <> d /\ o d = Rotating d /\ o d' = Rotating d;
  or_refs : forall p, references s p = requests s p;
  or_bug : c_bug ∉ lb_calls s
}.
Definition orderly (s : lb_sys) : Prop := exists o, orderly_with s o.

(** What the protocol reads of a run queue. *)
Definition view (q : lb_rq) : bool * option Z * Z * nat * bool := (q_active q, q_push_task q, q_push_cpu q, q_stops q, q_core q).

(** Steps that the protocol does not see. *)
Record quiet (s s' : lb_sys) : Prop := mk_quiet {
  qt_rqs : forall c, view (lb_rqs s' c) = view (lb_rqs s c);
  qt_works : lb_works s' = lb_works s;
  qt_refs : forall p, references s' p = references s p;
  qt_bug : c_bug ∈ lb_calls s' -> c_bug ∈ lb_calls s
}.

#[export] Instance quiet_preorder : PreOrder quiet.
Proof.
  split; [by intros s|]. intros s1 s2 s3 [A1 A2 A3 A4] [B1 B2 B3 B4]. split.
  - intros c. by rewrite B1. - congruence. - intros p. by rewrite B3. - auto.
Qed.

Lemma quiet_orderly s s' : quiet s s' -> orderly s -> orderly s'.
Proof.
  intros Q (o & [O R F B]). exists o. split.
  - intros c Hc. specialize (O c Hc). pose proof (qt_rqs _ _ Q c) as V. unfold view in V. injection V as V1 V2 V3 V4 V5.
    unfold owned in *. rewrite (qt_works _ _ Q). destruct (o c); by rewrite ?V1, ?V2, ?V3, ?V4, ?V5.
  - intros d Hd. rewrite (qt_works _ _ Q). by apply R.
  - intros p. rewrite (qt_refs _ _ Q), F. unfold requests. rewrite (qt_works _ _ Q). f_equal.
    apply zsum_ext. intros c _. pose proof (qt_rqs _ _ Q c) as V. injection V as _ V2 _ _ _. unfold pushes. by rewrite V2.
  - intros H. by apply B, (qt_bug _ _ Q).
Qed.

Lemma refs_call s c p : references (call c s) p = references s p + ref_of p c.
Proof. unfold references, call. cbn. rewrite zsum_app, zsum_cons, zsum_nil. lia. Qed.

Lemma quiet_call c s : (forall p, ref_of p c = 0) -> c <> c_bug -> quiet s (call c s).
Proof.
  intros H Hb. split; [done|done| |].
  - intros p. rewrite refs_call, H. lia.
  - unfold call. cbn. intros [?|E]%elem_of_app; [done|]. apply list_elem_of_singleton in E. by subst.
Qed.

Lemma quiet_on_rq c f s : (forall q, view (f q) = view q) -> quiet s (on_rq c f s).
Proof.
  intros H. split; [|done|done|done]. intros d. unfold on_rq. cbn. unfold insert, fn_insert.
  destruct (decide (c = d)) as [->|]; [apply H|done].
Qed.
Lemma quiet_mark c s : quiet s (mark_reserved c s).
Proof. by apply quiet_on_rq. Qed.
Lemma quiet_clear c s : quiet s (clear_reserved c s).
Proof. by apply quiet_on_rq. Qed.
Lemma quiet_set_wts p t s : quiet s (set_wts p t s).
Proof. by split. Qed.
Lemma quiet_boost e s s' : boost_eq e s s' -> quiet s s'.
Proof.
  intros [A B C _ _ _]. split; [intros c; by rewrite A|done|intros p; unfold references; by rewrite C|by rewrite C].
Qed.

#[local] Hint Resolve quiet_mark quiet_clear quiet_set_wts : walt.

(** A sum in which one term changes. *)
Lemma zsum_change {A} `{EqDecision A} (f g : A -> Z) l c :
  NoDup l -> c ∈ l -> (forall x, x <> c -> f x = g x) -> zsum g l = zsum f l - f c + g c.
Proof.
  intros Hd Hc He. induction l as [|x l IH]; [by apply not_elem_of_nil in Hc|]. rewrite !zsum_cons.
  apply list.NoDup_cons in Hd as [Hn Hd]. apply elem_of_cons in Hc as [->|Hc].
  - assert (zsum g l = zsum f l) as ->; [|lia]. apply zsum_ext. intros y Hy. symmetry. apply He. congruence.
  - rewrite IH by done. rewrite (He x) by congruence. lia.
Qed.
Lemma cpus_spec c : c ∈ cpus <-> is_cpu c.
Proof. unfold cpus, is_cpu. rewrite elem_of_seqZ. lia. Qed.
Lemma cpus_NoDup : NoDup cpus.
Proof. apply NoDup_seqZ. Qed.

Lemma requests_rq s s' c p :
  is_cpu c -> lb_works s' = lb_works s -> (forall d, d <> c -> q_push_task (lb_rqs s' d) = q_push_task (lb_rqs s d)) ->
  requests s' p = requests s p - pushes p (lb_rqs s c) + pushes p (lb_rqs s' c).
Proof.
  intros Hc Hw Hr. unfold requests. rewrite Hw.
  rewrite (zsum_change (fun c => pushes p (lb_rqs s c)) (fun c => pushes p (lb_rqs s' c)) cpus c);
    [lia|apply cpus_NoDup|by apply cpus_spec|]. intros d Hd. unfold pushes. by rewrite Hr.
Qed.

Lemma requests_work s s' c p :
  is_cpu c -> (forall d, q_push_task (lb_rqs s' d) = q_push_task (lb_rqs s d)) -> (forall d, d <> c -> lb_works s' d = lb_works s d) ->
  requests s' p = requests s p - rotates p (lb_works s c) + rotates p (lb_works s' c).
Proof.
  intros Hc Hr Hw. unfold requests.
  rewrite (zsum_change (fun c => rotates p (lb_works s c)) (fun c => rotates p (lb_works s' c)) cpus c);
    [|apply cpus_NoDup|by apply cpus_spec|by intros d Hd; rewrite Hw].
  assert (zsum (fun c => pushes p (lb_rqs s' c)) cpus = zsum (fun c => pushes p (lb_rqs s c)) cpus) as ->; [|lia].
  apply zsum_ext. intros d _. unfold pushes. by rewrite Hr.
Qed.

Definition not_rotating (o : owner) : Prop := match o with Rotating _ => False | _ => True end.

Lemma owner_free s o c : orderly_with s o -> is_cpu c -> q_active (lb_rqs s c) = false -> o c = Free.
Proof. intros O Hc Ha. pose proof (or_owned _ _ O c Hc) as H. destruct (o c); [done|..]; destruct H as [H _]; congruence. Qed.
Lemma owner_pushing s o c p : orderly_with s o -> is_cpu c -> q_push_task (lb_rqs s c) = Some p -> o c = Pushing p.
Proof. intros O Hc Ha. pose proof (or_owned _ _ O c Hc) as H. destruct (o c); destruct H as (_ & H & _); congruence. Qed.
Lemma owner_stops s o c : orderly_with s o -> is_cpu c -> (0 < q_stops (lb_rqs s c))%nat -> exists p, o c = Pushing p.
Proof. intros O Hc Ha. pose proof (or_owned _ _ O c Hc) as H. destruct (o c); [|eauto|..]; destruct H as (_ & _ & H & _); lia. Qed.
Lemma owner_core s o c : orderly_with s o -> is_cpu c -> q_core (lb_rqs s c) = true -> o c = Core.
Proof. intros O Hc Ha. pose proof (or_owned _ _ O c Hc) as H. destruct (o c); [..|done]; destruct H as (_ & _ & _ & H & _); congruence. Qed.

(** One CPU changes hands, outside rotations. *)
Lemma change_owner s s' o c x :
  orderly_with s o -> is_cpu c -> not_rotating (o c) -> not_rotating x ->
  lb_works s' = lb_works s -> (forall d, d <> c -> view (lb_rqs s' d) = view (lb_rqs s d)) -> owned s' c x ->
  (forall p, references s' p = references s p - pushes p (lb_rqs s c) + pushes p (lb_rqs s' c)) -> c_bug ∉ lb_calls s' ->
  orderly s'.
Proof.
  intros [O R F B] Hc Hn Hx Hw Hr Ho Hf Hb. exists (<[c := x]> o). split.
  - intros d Hd. destruct (decide (c = d)) as [->|Hne]; [by rewrite fn_lookup_insert|]. rewrite fn_lookup_insert_ne by done.
    specialize (O d Hd). specialize (Hr d ltac:(congruence)). injection Hr as V1 V2 V3 V4 V5.
    unfold owned in *. rewrite Hw. destruct (o d); by rewrite ?V1, ?V2, ?V3, ?V4, ?V5.
  - intros d Hd. rewrite Hw. intros Hq. destruct (R d Hd Hq) as (A & C & D & E & G). cbv zeta. split_and!; try done.
    + rewrite fn_lookup_insert_ne; [done|]. intros ->. by rewrite E in Hn.
    + rewrite fn_lookup_insert_ne; [done|]. intros ->. by rewrite G in Hn.
  - intros p. rewrite Hf, F. symmetry. apply requests_rq; [done|done|]. intros d Hd. specialize (Hr d Hd). by injection Hr.
  - done.
Qed.

Lemma view_inv q a p t n k : view q = (a, p, t, n, k) -> q_active q = a /\ q_push_task q = p /\ q_push_cpu q = t /\ q_stops q = n /\ q_core q = k.
Proof. unfold view. by intros [=]. Qed.

Lemma view_on_rq c f s d : d <> c -> lb_rqs (on_rq c f s) d = lb_rqs s d.
Proof. intros H. unfold on_rq. cbn. by rewrite fn_lookup_insert_ne. Qed.
Lemma rq_on_rq c f s : lb_rqs (on_rq c f s) c = f (lb_rqs s c).
Proof. unfold on_rq. cbn. by rewrite fn_lookup_insert. Qed.

(** The state after [request_push], as the protocol sees it. *)
Lemma request_push_view src dst p s d :
  view (lb_rqs (request_push src dst p s) d) =
  if decide (d = src) then (true, Some p, dst, q_stops (lb_rqs s src), q_core (lb_rqs s src)) else view (lb_rqs s d).
Proof.
  unfold request_push. rewrite (qt_rqs _ _ (quiet_mark dst _) d). case_decide as E.
  - subst d. rewrite rq_on_rq. unfold call. cbn. by rewrite fn_lookup_insert.
  - rewrite view_on_rq by done. unfold call. cbn [lb_rqs set]. by rewrite view_on_rq by done.
Qed.
Lemma request_push_refs src dst p s r : references (request_push src dst p s) r = references s r + (if r =? p then 1 else 0).
Proof. unfold request_push. rewrite (qt_refs _ _ (quiet_mark dst _)). exact (refs_call s (c_get p) r). Qed.
Lemma request_push_calls src dst p s : lb_calls (request_push src dst p s) = lb_calls s ++ [c_get p].
Proof. done. Qed.

(** A CPU that can be asked to push a task, and one that has been. *)
Definition asked (s : lb_sys) (c : Z) : Prop := q_push_task (lb_rqs s c) <> None /\ q_stops (lb_rqs s c) = 0%nat.

Lemma request_orderly src dst p s :
  orderly s -> is_cpu src -> q_active (lb_rqs s src) = false -> dst <> src ->
  orderly (request_push src dst p s) /\ asked (request_push src dst p s) src.
Proof.
  intros (o & O) Hc Ha Hd. pose proof (owner_free _ _ _ O Hc Ha) as Eo. pose proof (or_owned _ _ O src Hc) as Hs.
  rewrite Eo in Hs. destruct Hs as (_ & S2 & S3 & S4 & S5).
  pose proof (request_push_view src dst p s src) as V. rewrite decide_True in V by done.
  apply view_inv in V as (V1 & V2 & V3 & V4 & V5).
  split; [|unfold asked; by rewrite V2, V4].
  apply (change_owner s _ o src (Pushing p)); [done|done|by rewrite Eo|done|done| | | |].
  - intros d Hne. rewrite request_push_view. by rewrite decide_False.
  - cbn [owned]. rewrite V1, V2, V3, V4, V5, S3, S4. split_and!; try done. lia.
  - intros r. rewrite request_push_refs. unfold pushes. rewrite S2, V2. rewrite bool_decide_false by done.
    destruct (r =? p) eqn:E; [rewrite bool_decide_true by (f_equal; lia)|rewrite bool_decide_false by (intros [=]; lia)]; lia.
  - rewrite request_push_calls. intros [?|E]%elem_of_app; [by apply (or_bug _ _ O)|]. by apply list_elem_of_singleton in E.
Qed.

Lemma stop_orderly a c s : orderly s -> is_cpu c -> asked s c -> orderly (stop_one_cpu_nowait a c s).1.
Proof.
  intros (o & O) Hc (Hp & Hs). unfold stop_one_cpu_nowait. destruct (ac_stop_ok a c); [|by exists o]. cbn [fst].
  destruct (q_push_task (lb_rqs s c)) as [p|] eqn:Ep; [|done].
  pose proof (owner_pushing _ _ _ _ O Hc Ep) as Eo. pose proof (or_owned _ _ O c Hc) as H. rewrite Eo in H.
  eapply quiet_orderly; [by apply quiet_call|].
  apply (change_owner s _ o c (Pushing p)); [done|done|by rewrite Eo|done|done| | | |apply (or_bug _ _ O)].
  - intros d Hne. by rewrite view_on_rq.
  - unfold owned in *. rewrite rq_on_rq. destruct H as (A & B & C & D & E & F). cbn. split_and!; try done. by rewrite Hs.
  - intros r. rewrite rq_on_rq. unfold references, pushes. cbn. lia.
Qed.

Lemma asked_quiet s s' c : quiet s s' -> asked s c -> asked s' c.
Proof. intros Q. unfold asked. pose proof (qt_rqs _ _ Q c) as V. injection V as _ V2 _ V4 _. by rewrite V2, V4. Qed.

(** A request is over: the run queue is free again and the reference is given back. *)
Lemma release_orderly s s' c p :
  orderly s -> is_cpu c -> q_push_task (lb_rqs s c) = Some p -> lb_works s' = lb_works s ->
  (forall d, d <> c -> view (lb_rqs s' d) = view (lb_rqs s d)) ->
  q_active (lb_rqs s' c) = false -> q_push_task (lb_rqs s' c) = None -> q_stops (lb_rqs s' c) = 0%nat ->
  q_core (lb_rqs s' c) = q_core (lb_rqs s c) ->
  (forall r, references s' r = references s r - (if r =? p then 1 else 0)) -> (c_bug ∈ lb_calls s' -> c_bug ∈ lb_calls s) ->
  orderly s'.
Proof.
  intros (o & O) Hc Hp Hw Hv Ha Hp' Hs Hk Hf Hb. pose proof (owner_pushing _ _ _ _ O Hc Hp) as Eo.
  pose proof (or_owned _ _ O c Hc) as H. rewrite Eo in H. destruct H as (_ & _ & _ & K & W & _).
  apply (change_owner s s' o c Free); [done|done|by rewrite Eo|done|done|done| | |].
  - cbn [owned]. rewrite Hw. split_and!; try done. congruence.
  - intros r. rewrite Hf. unfold pushes. rewrite Hp, Hp'. rewrite (bool_decide_false (None = Some r)) by done.
    destruct (r =? p) eqn:E; [rewrite bool_decide_true by (f_equal; lia)|rewrite bool_decide_false by (intros [=]; lia)]; lia.
  - intros B. by apply (or_bug _ _ O), Hb.
Qed.

Lemma not_bug_app l l' : c_bug ∉ l' -> c_bug ∈ l ++ l' -> c_bug ∈ l.
Proof. intros H [?|?]%elem_of_app; [done|by destruct H]. Qed.

(** The run queues after the stopper's work, whatever became of the task. *)
Lemma stop_run_view a this c s d p :
  q_push_task (lb_rqs s c) = Some p -> q_push_cpu (lb_rqs s c) <> c ->
  let s' := stop_walt_lb_active_migration a this c s in
  view (lb_rqs s' d) = (if decide (d = c) then (false, None, q_push_cpu (lb_rqs s c), Nat.pred (q_stops (lb_rqs s c)), q_core (lb_rqs s c))
                        else view (lb_rqs s d)) /\
  lb_works s' = lb_works s /\ (forall r, references s' r = references s r - (if r =? p then 1 else 0)) /\
  (c_bug ∈ lb_calls s' -> c_bug ∈ lb_calls s).
Proof.
  intros Hp Hne. unfold stop_walt_lb_active_migration. set (s1 := on_rq c _ s). cbv zeta.
  assert (lb_rqs s1 c = (lb_rqs s c) <| q_stops := Nat.pred (q_stops (lb_rqs s c)) |>) as Eq by (unfold s1; by rewrite rq_on_rq).
  assert (q_push_cpu (lb_rqs s1 c) = q_push_cpu (lb_rqs s c)) as -> by (by rewrite Eq).
  assert (q_push_task (lb_rqs s1 c) = Some p) as -> by (by rewrite Eq). set (t := q_push_cpu (lb_rqs s c)) in *.
  set (sane := _ && negb (_ <=? 1)). replace (c =? t) with false by lia. rewrite andb_false_r.
  set (ok := sane && _ && _ && _ && _ && _). clearbody ok sane.
  assert (exists s2, (if ok then (walt_detach_task a p c t s1, true) else (s1, false)) = (s2, ok) /\ quiet s1 s2 /\ lb_rqs s2 = lb_rqs s1) as (s2 & -> & Q2 & R2).
  { destruct ok; eexists; (split; [done|]); [|done]. split; [|unfold walt_detach_task; by destruct (bl_delayed _ p)]. unfold walt_detach_task.
    destruct (bl_delayed _ p); [etrans; [by apply (quiet_call (c_delayed p))|]|]; by apply quiet_call. }
  set (s3 := on_rq c (fun q => q <| q_push_task := None |>) _).
  assert (forall x, view (lb_rqs s3 x) = if decide (x = c) then (false, None, t, Nat.pred (q_stops (lb_rqs s c)), q_core (lb_rqs s c)) else view (lb_rqs s x)) as V3.
  { intros x. unfold s3. case_decide as Ex.
    - subst x. rewrite rq_on_rq. unfold clear_reserved. rewrite view_on_rq by lia. rewrite rq_on_rq, R2, Eq. done.
    - rewrite view_on_rq by done. rewrite (qt_rqs _ _ (quiet_clear t _)). rewrite view_on_rq by done. rewrite R2.
      unfold s1. by rewrite view_on_rq by done. }
  assert (lb_works s3 = lb_works s) as W3 by (exact (qt_works _ _ Q2)).
  assert (forall r, references s3 r = references s r) as F3 by (intros r; exact (qt_refs _ _ Q2 r)).
  assert (c_bug ∈ lb_calls s3 -> c_bug ∈ lb_calls s) as B3 by (exact (qt_bug _ _ Q2)).
  clearbody s3. destruct ok.
  - set (s4 := call (c_count_active t) _). assert (quiet s3 s4) as Q4.
    { etrans; [by apply (quiet_call (c_attach p t))|by apply quiet_call]. }
    split; [exact (V3 d)|]. split; [done|]. split.
    + intros r. rewrite refs_call, (qt_refs _ _ Q4), F3. cbn [ref_of]. destruct (r =? p); lia.
    + intros H. apply B3, (qt_bug _ _ Q4). unfold call at 1 in H. cbn [lb_calls set] in H.
      refine (not_bug_app _ _ _ H). intros E. by apply list_elem_of_singleton in E.
  - split; [exact (V3 d)|]. split; [done|]. split.
    + intros r. rewrite refs_call, F3. cbn [ref_of]. destruct (r =? p); lia.
    + intros H. apply B3. unfold call in H. cbn [lb_calls set] in H.
      refine (not_bug_app _ _ _ H). intros E. by apply list_elem_of_singleton in E.
Qed.

Lemma stop_run_orderly a this c s :
  orderly s -> is_cpu c -> (0 < q_stops (lb_rqs s c))%nat -> orderly (stop_walt_lb_active_migration a this c s).
Proof.
  intros (o & O) Hc Hs. destruct (owner_stops _ _ _ O Hc Hs) as (p & Eo). pose proof (or_owned _ _ O c Hc) as H. rewrite Eo in H.
  destruct H as (_ & Hp & H1 & _ & _ & Hd).
  pose proof (fun d => stop_run_view a this c s d p Hp Hd) as V. cbv zeta in V.
  destruct (V c) as (Vc & Hw & Hf & Hb). rewrite decide_True in Vc by done. apply view_inv in Vc as (V1 & V2 & _ & V4 & V5).
  eapply (release_orderly s _ c p); try done; [by exists o| |].
  - intros d Hne. rewrite (proj1 (V d)). by rewrite decide_False.
  - rewrite V4. lia.
Qed.

Lemma clear_orderly c s :
  orderly s -> is_cpu c -> q_stops (lb_rqs s c) = 0%nat -> orderly (clear_walt_request c s).
Proof.
  intros O Hc Hs. unfold clear_walt_request. apply (quiet_orderly _ _ (quiet_clear c s)) in O.
  pose proof (qt_rqs _ _ (quiet_clear c s) c) as V. rewrite <- (proj1 (proj2 (proj2 (proj2 (view_inv _ _ _ _ _ _ V))))) in Hs.
  set (s1 := clear_reserved c s) in *. clearbody s1. clear s V.
  destruct (q_push_task (lb_rqs s1 c)) as [p|] eqn:Ep; [|done].
  set (s2 := clear_reserved _ s1). assert (quiet s1 s2) as Q by apply quiet_clear.
  assert (view (lb_rqs s2 c) = view (lb_rqs s1 c)) as V by apply (qt_rqs _ _ Q).
  unfold view at 2 in V. apply view_inv in V as (V1 & V2 & V3 & V4 & V5).
  assert (forall x, view (lb_rqs s2 x) = view (lb_rqs s1 x)) as Vx by apply (qt_rqs _ _ Q). 
  clearbody s2. pose proof (qt_works _ _ Q) as W. pose proof (qt_refs _ _ Q) as F. pose proof (qt_bug _ _ Q) as B.
  set (s3 := on_rq c (fun q => q <| q_active := false |>) _).
  assert (lb_rqs s3 c = (lb_rqs s2 c) <| q_push_task := None |> <| q_active := false |>) as E3 by (unfold s3; by rewrite !rq_on_rq).
  eapply (release_orderly s1 _ c p); try done.
  - intros d Hd. unfold s3, call. cbn [lb_rqs set]. by rewrite !view_on_rq by done.
  - unfold call. cbn [lb_rqs set]. rewrite E3. done.
  - unfold call. cbn [lb_rqs set]. rewrite E3. done.
  - unfold call. cbn [lb_rqs set]. rewrite E3. cbn. by rewrite V4.
  - unfold call. cbn [lb_rqs set]. rewrite E3. cbn. by rewrite V5.
  - intros r. rewrite refs_call. change (references s3 r) with (references s2 r). rewrite F. cbn [ref_of]. destruct (r =? p); lia.
  - intros H. apply B. unfold call in H. cbn [lb_calls set] in H. refine (not_bug_app _ _ _ H). intros E. by apply list_elem_of_singleton in E.
Qed.

Lemma activate_view c b s d :
  view (lb_rqs (on_rq c (fun q => q <| q_active := b |>) s) d) =
  if decide (d = c) then (b, q_push_task (lb_rqs s c), q_push_cpu (lb_rqs s c), q_stops (lb_rqs s c), q_core (lb_rqs s c))
  else view (lb_rqs s d).
Proof. case_decide as E; [subst d; by rewrite rq_on_rq|by rewrite view_on_rq]. Qed.

(** Both CPUs of a rotation change, and nothing else. *)
Lemma both_view c d b s x :
  view (lb_rqs (on_rq c (fun q => q <| q_active := b |>) (on_rq d (fun q => q <| q_active := b |>) s)) x) =
  if decide (x = c \/ x = d) then (b, q_push_task (lb_rqs s x), q_push_cpu (lb_rqs s x), q_stops (lb_rqs s x), q_core (lb_rqs s x))
  else view (lb_rqs s x).
Proof.
  rewrite activate_view. pose proof (activate_view d b s c) as V.
  destruct (decide (x = c)) as [->|Hn].
  - rewrite decide_True by tauto. destruct (decide (c = d)) as [->|].
    + apply view_inv in V as (_ & -> & -> & -> & ->). done.
    + rewrite view_on_rq by done. done.
  - rewrite activate_view. destruct (decide (x = d)) as [->|]; [rewrite decide_True by tauto; done|by rewrite decide_False by tauto].
Qed.

Lemma rotation_orderly src dst p r s :
  orderly s -> is_cpu src -> is_cpu dst -> dst <> src ->
  q_active (lb_rqs s src) = false -> q_active (lb_rqs s dst) = false -> orderly (queue_rotation src dst p r s).
Proof.
  intros (o & O) Hs Hd Hne As Ad. pose proof (owner_free _ _ _ O Hs As) as Es. pose proof (owner_free _ _ _ O Hd Ad) as Ed.
  pose proof (or_owned _ _ O src Hs) as Os. rewrite Es in Os. destruct Os as (_ & S2 & S3 & S4 & S5).
  pose proof (or_owned _ _ O dst Hd) as Od. rewrite Ed in Od. destruct Od as (_ & D2 & D3 & D4 & D5).
  unfold queue_rotation. cbv zeta. eapply quiet_orderly; [by apply quiet_call|].
  set (s1 := call (c_get r) (call (c_get p) s)). set (s2 := mark_reserved dst (mark_reserved src s1)).
  assert (forall x, view (lb_rqs s2 x) = view (lb_rqs s x)) as V2.
  { intros x. unfold s2. rewrite (qt_rqs _ _ (quiet_mark dst _)), (qt_rqs _ _ (quiet_mark src _)). done. }
  assert (lb_works s2 = lb_works s) as W2 by done. assert (lb_calls s2 = lb_calls s ++ [c_get p] ++ [c_get r]) as C2 by (unfold s2, s1, call; cbn; by rewrite <- app_assoc).
  clearbody s2. clear s1. set (w := mk_rw p r src dst true).
  set (s3 := s2 <| lb_works := <[src := w]> (lb_works s2) |>).
  set (s4 := on_rq src _ _).
  assert (forall x, view (lb_rqs s4 x) = if decide (x = src \/ x = dst) then (true, None, q_push_cpu (lb_rqs s x), 0%nat, false) else view (lb_rqs s x)) as V4.
  { intros x. unfold s4. rewrite both_view. change (lb_rqs s3) with (lb_rqs s2). specialize (V2 x).
    unfold view at 2 in V2. destruct (view_inv _ _ _ _ _ _ V2) as (_ & -> & -> & -> & ->).
    case_decide as E; [|done]. destruct E as [-> | ->]; congruence. }
  assert (lb_works s4 = <[src := w]> (lb_works s)) as W4 by (unfold s4, s3; cbn; by rewrite W2).
  assert (lb_calls s4 = lb_calls s ++ [c_get p] ++ [c_get r]) as C4 by done.
  clearbody s4. exists (<[src := Rotating src]> (<[dst := Rotating src]> o)). split.
  - intros c Hc. specialize (V4 c). destruct (decide (c = src)) as [->|N1]; [|destruct (decide (c = dst)) as [->|N2]].
    + rewrite fn_lookup_insert. rewrite decide_True in V4 by tauto. apply view_inv in V4 as (U1 & U2 & _ & U4 & U5).
      unfold owned. rewrite U1, U2, U4, U5, W4, fn_lookup_insert. split_and!; try done; apply Hs || by left.
    + rewrite fn_lookup_insert_ne, fn_lookup_insert by done. rewrite decide_True in V4 by tauto. apply view_inv in V4 as (U1 & U2 & _ & U4 & U5).
      unfold owned. rewrite U1, U2, U4, U5, W4, fn_lookup_insert, fn_lookup_insert_ne by done. split_and!; try done; [apply Hs..|]. by right.
    + rewrite !fn_lookup_insert_ne by done. rewrite decide_False in V4 by tauto. pose proof (or_owned _ _ O c Hc) as Oc.
      unfold view at 2 in V4. apply view_inv in V4 as (U1 & U2 & U3 & U4 & U5).
      unfold owned in *. rewrite U1, U2, U3, U4, U5, W4. rewrite (fn_lookup_insert_ne _ src c) by done.
      destruct (o c) as [| |d|] eqn:Eo; try done. rewrite fn_lookup_insert_ne; [done|].
      intros <-. destruct Oc as (_ & _ & _ & _ & _ & Oq & _). congruence.
  - intros d Hcd. rewrite W4. destruct (decide (src = d)) as [<-|Nd].
    + rewrite fn_lookup_insert. intros _. cbn [w_src_cpu w_dst_cpu w]. split_and!; try done; try apply Hd.
      * by rewrite fn_lookup_insert. * by rewrite fn_lookup_insert_ne, fn_lookup_insert.
    + rewrite fn_lookup_insert_ne by done. intros Hq. destruct (or_rotating _ _ O d Hcd Hq) as (A & B & C & E & G). cbv zeta.
      split_and!; try done; try apply B; rewrite !fn_lookup_insert_ne; try done; congruence.
  - intros x. unfold references. rewrite C4, !zsum_app, !zsum_cons, !zsum_nil. fold (references s x). rewrite (or_refs _ _ O).
    rewrite (requests_work s s4 src x); [|done| |intros d Hne'; rewrite W4; by rewrite fn_lookup_insert_ne].
    + rewrite W4, fn_lookup_insert. unfold rotates. rewrite S5. cbn [w w_queued w_src_task w_dst_task ref_of]. lia.
    + intros d. specialize (V4 d). destruct (decide _) as [[-> | ->]|]; [apply view_inv in V4; destruct V4 as (_ & -> & _); congruence..|].
      unfold view at 2 in V4. by apply view_inv in V4 as (_ & -> & _).
  - rewrite C4. intros [?|H]%elem_of_app; [by apply (or_bug _ _ O)|]. set_solver.
Qed.

Lemma rotate_work_orderly d s :
  orderly s -> is_cpu d -> w_queued (lb_works s d) = true -> orderly (walt_lb_rotate_work_func d s).
Proof.
  intros (o & O) Hd Hq. destruct (or_rotating _ _ O d Hd Hq) as (E1 & Hx & Hne & Od & Ox).
  pose proof (or_owned _ _ O d Hd) as Sd. rewrite Od in Sd. destruct Sd as (_ & D2 & D3 & D4 & _).
  pose proof (or_owned _ _ O _ Hx) as Sx. rewrite Ox in Sx. destruct Sx as (_ & X2 & X3 & X4 & _ & _ & X5).
  destruct X5 as [?|[_ X5]]; [done|]. set (x := w_dst_cpu (lb_works s d)) in *.
  unfold walt_lb_rotate_work_func. cbv zeta. rewrite E1. fold x. set (p := w_src_task (lb_works s d)). set (r := w_dst_task (lb_works s d)).
  eapply quiet_orderly; [etrans; [apply (quiet_clear d)|apply quiet_clear]|].
  set (s1 := call (c_put r) _).
  assert (lb_rqs s1 = lb_rqs s) as R1 by done. assert (lb_works s1 = <[d := (lb_works s d) <| w_queued := false |>]> (lb_works s)) as W1 by done.
  assert (lb_calls s1 = lb_calls s ++ [c_swap p r x d] ++ [c_put p] ++ [c_put r]) as C1 by (unfold s1, call; cbn; by rewrite <- !app_assoc).
  clearbody s1. set (s2 := on_rq d _ _).
  assert (forall c, view (lb_rqs s2 c) = if decide (c = d \/ c = x) then (false, None, q_push_cpu (lb_rqs s c), 0%nat, false) else view (lb_rqs s c)) as V2.
  { intros c. unfold s2. rewrite both_view, R1. case_decide as E; [|done]. destruct E as [-> | ->]; congruence. }
  assert (lb_works s2 = <[d := (lb_works s d) <| w_queued := false |>]> (lb_works s)) as W2 by done.
  assert (lb_calls s2 = lb_calls s ++ [c_swap p r x d] ++ [c_put p] ++ [c_put r]) as C2 by done. clearbody s2.
  exists (<[d := Free]> (<[x := Free]> o)). split.
  - intros c Hc. specialize (V2 c). destruct (decide (c = d)) as [->|N1]; [|destruct (decide (c = x)) as [->|N2]].
    + rewrite fn_lookup_insert. rewrite decide_True in V2 by tauto. apply view_inv in V2 as (U1 & U2 & _ & U4 & U5).
      unfold owned. by rewrite U1, U2, U4, U5, W2, fn_lookup_insert.
    + rewrite fn_lookup_insert_ne, fn_lookup_insert by done. rewrite decide_True in V2 by tauto. apply view_inv in V2 as (U1 & U2 & _ & U4 & U5).
      unfold owned. by rewrite U1, U2, U4, U5, W2, fn_lookup_insert_ne.
    + rewrite !fn_lookup_insert_ne by done. rewrite decide_False in V2 by tauto. pose proof (or_owned _ _ O c Hc) as Oc.
      unfold view at 2 in V2. apply view_inv in V2 as (U1 & U2 & U3 & U4 & U5).
      unfold owned in *. rewrite U1, U2, U3, U4, U5, W2. rewrite (fn_lookup_insert_ne _ d c) by done.
      destruct (o c) as [| |k|] eqn:Eo; try done. rewrite fn_lookup_insert_ne; [done|].
      intros <-. destruct Oc as (_ & _ & _ & _ & _ & _ & Oq). fold x in Oq. naive_solver.
  - intros k Hk. rewrite W2. destruct (decide (d = k)) as [<-|Nk]; [by rewrite fn_lookup_insert|].
    rewrite fn_lookup_insert_ne by done. intros Hqk. destruct (or_rotating _ _ O k Hk Hqk) as (A & B & C & E & G). cbv zeta.
    split_and!; try done; try apply B; rewrite !fn_lookup_insert_ne; try done; congruence.
  - intros y. unfold references. rewrite C2, !zsum_app, !zsum_cons, !zsum_nil. fold (references s y). rewrite (or_refs _ _ O).
    rewrite (requests_work s s2 d y); [|done| |intros k Hk; rewrite W2; by rewrite fn_lookup_insert_ne].
    + rewrite W2, fn_lookup_insert. unfold rotates. rewrite Hq. cbn [w_queued set const ref_of]. fold p r. destruct (y =? p), (y =? r); lia.
    + intros k. specialize (V2 k). destruct (decide _) as [[-> | ->]|]; [apply view_inv in V2; destruct V2 as (_ & -> & _); congruence..|].
      unfold view at 2 in V2. by apply view_inv in V2 as (_ & -> & _).
  - rewrite C2. intros [?|H]%elem_of_app; [by apply (or_bug _ _ O)|]. set_solver.
Qed.

(** ** The operations keep the order *)

Section Operations.
Context (a : act_env).

Lemma call_quiet c s : (forall p, ref_of p c = 0) -> c <> c_bug -> orderly s -> orderly (call c s).
Proof. intros H1 H2. by apply quiet_orderly, quiet_call. Qed.

(** A request, handed to the stopper thread, between which [f] does nothing that matters. *)
Lemma push_orderly src dst p f s :
  (forall s, quiet s (f s)) -> orderly s -> is_cpu src -> q_active (lb_rqs s src) = false -> dst <> src ->
  orderly (stop_one_cpu_nowait a src (f (request_push src dst p s))).1.
Proof.
  intros Hf O Hc Ha Hd. destruct (request_orderly src dst p s O Hc Ha Hd) as [O1 A1].
  apply stop_orderly; [by apply (quiet_orderly _ _ (Hf _))|done|by apply (asked_quiet _ _ _ (Hf _))].
Qed.

Lemma need_active_quiet s p dst src :
  let '(s', need) := need_active_lb (ac_bl a) s p dst src in
  quiet s s' /\ (need = true -> q_active (lb_rqs s' src) = false).
Proof.
  unfold need_active_lb. destruct (q_active (lb_rqs s src)) eqn:Ea; [done|].
  destruct (_ && cpu_halted _ src); [done|]. destruct (negb (check_for_higher_capacity _ _ _)); [done|].
  destruct (negb (t_misfit _)); [done|].
  destruct (negb (is_min_possible_cluster_cpu _ src)).
  - destruct (task_fits_max _ _ _ _) as [t fits]. destruct fits; cbn [negb]; [|split; [apply quiet_set_wts|done]].
    destruct (task_reject_partialhalt_cpu _ _ _ _); (split; [apply quiet_set_wts|done]).
  - cbn [negb]. by destruct (task_reject_partialhalt_cpu _ _ _ _).
Qed.

Lemma active_scan_orderly dst src l : forall s, orderly s -> is_cpu src -> dst <> src -> orderly (active_scan a s dst src l).
Proof.
  induction l as [|p l IH]; intros s O Hc Hd; cbn [active_scan]; [done|].
  destruct (_ && walt_pipeline_low_latency_task _); [by apply IH|]. destruct (bl_on_cpu _ src p); [|by apply IH].
  set (x := if cpus_allowed a p dst && negb (bl_delayed (ac_bl a) p) then need_active_lb (ac_bl a) s p dst src else (s, false)).
  assert (let '(s', need) := x in quiet s s' /\ (need = true -> q_active (lb_rqs s' src) = false)) as H.
  { unfold x. destruct (_ && negb (bl_delayed _ _)); [apply need_active_quiet|done]. }
  clearbody x. destruct x as [s1 need]. destruct H as [Q H].
  apply (quiet_orderly _ _ Q) in O. destruct need; [|done].
  pose proof (push_orderly src dst p id s1 (fun s => reflexivity s) O Hc (H eq_refl) Hd) as P. cbn [id] in P.
  destruct (stop_one_cpu_nowait _ _ _) as [s2 ok]. cbn [fst] in P. destruct ok; [done|]. by apply (quiet_orderly _ _ (quiet_clear dst s2)).
Qed.

Lemma quiet_detach p src dst s : quiet s (walt_detach_task a p src dst s).
Proof. unfold walt_detach_task. destruct (bl_delayed _ p); [etrans; [by apply (quiet_call (c_delayed p))|]|]; by apply quiet_call. Qed.

Lemma pull_scan_quiet s dst src lo hi force l : quiet s (pull_scan (ac_bl a) s dst src lo hi force l None 0).1.
Proof.
  pose proof (pull_scan_spec (ac_bl a) dst src lo hi force s l) as H. destruct (pull_scan _ _ _ _ _ _ _ _ _ _) as [s' r].
  destruct H as [B _]. by apply (quiet_boost _ _ _ B).
Qed.

Lemma pull_orderly dst src s : orderly s -> is_cpu src -> dst <> src -> orderly (walt_lb_pull_tasks a dst src s).1.
Proof.
  intros O Hc Hd. unfold walt_lb_pull_tasks. replace (src =? dst) with false by lia.
  assert (forall s p, orderly s -> orderly (call (c_count_idle dst) (walt_attach_task p dst (walt_detach_task a p src dst s)))) as T.
  { intros s1 p O1. apply call_quiet; [done|done|]. apply call_quiet; [done|done|]. by apply (quiet_orderly _ _ (quiet_detach p src dst s1)). }
  set (lo := check_for_higher_capacity _ src dst). set (hi := check_for_higher_capacity _ dst src).
  pose proof (pull_scan_quiet s dst src lo hi false (bl_cfs (ac_bl a) src)) as Q1.
  destruct (pull_scan _ s _ _ _ _ _ _ _ _) as [s1 [p|]]; cbn [fst] in *; apply (quiet_orderly _ _ Q1) in O; [by apply T|].
  pose proof (pull_scan_quiet s1 dst src lo hi true (bl_cfs (ac_bl a) src)) as Q2.
  destruct (pull_scan _ s1 _ _ _ _ _ _ _ _) as [s2 [p|]]; cbn [fst] in *; apply (quiet_orderly _ _ Q2) in O; [by apply T|].
  by apply active_scan_orderly.
Qed.

(** The CPU a rotation goes to is of a larger cluster. *)
Lemma rotation_dst_spec s wc src :
  let d := rotation_dst a s wc src in
  d = nr_cpu_ids (bl_cfg (ac_bl a)) \/ is_cpu d /\ is_min_possible_cluster_cpu (bl_fit (ac_bl a)) d = false.
Proof.
  unfold rotation_dst. cbv zeta. apply (for_each_cpu_inv (fun x : Z * Z => x.2 = nr_cpu_ids (bl_cfg (ac_bl a)) \/
    is_cpu x.2 /\ is_min_possible_cluster_cpu (bl_fit (ac_bl a)) x.2 = false)); [by left|].
  intros c [m d] Hc _ H. destruct (is_min_possible_cluster_cpu _ c) eqn:E; [done|].
  repeat case_match; try done. by right.
Qed.

Lemma check_rotation_orderly src s : orderly s -> is_cpu src -> orderly (walt_lb_check_for_rotation a src s).
Proof.
  intros O Hc. unfold walt_lb_check_for_rotation. destruct (is_min_possible_cluster_cpu _ src) eqn:E; [|done]. cbn [negb].
  destruct (negb (deserved_cpu_of _ _ _ =? src)); [done|]. set (d := rotation_dst _ _ _ _).
  destruct (rotation_dst_spec s (bl_clock (ac_bl a) src) src) as [H|[H1 H2]]; fold d in H || fold d in H1, H2.
  { by replace (d =? nr_cpu_ids (bl_cfg (ac_bl a))) with true by lia. }
  destruct (d =? _); [done|]. destruct (_ && cpus_allowed _ _ src) eqn:G; [|done].
  repeat (apply andb_true_iff in G as [G ?]). apply rotation_orderly; try done; [congruence|by apply negb_true_iff..].
Qed.

(** Storage. *)
Lemma least_util_spec s src avoid :
  let d := find_least_util_any_cpu a s src avoid in
  d = -1 \/ is_cpu d /\ d <> src /\ lb_ignore_cpus a s d avoid = false /\ Z.testbit (ac_storage_cpus a) d = true /\
  forall c, is_cpu c -> Z.testbit (ac_storage_cpus a) c = true -> c <> src -> lb_ignore_cpus a s c avoid = false ->
    walt_lb_cpu_util (ac_bl a) d <= walt_lb_cpu_util (ac_bl a) c.
Proof.
  unfold find_least_util_any_cpu. set (f := fun cpu (x : Z * Z) => _). cbv zeta.
  set (good := fun c => Z.testbit (ac_storage_cpus a) c = true /\ c <> src /\ lb_ignore_cpus a s c avoid = false).
  set (P := fun n (x : Z * Z) => (x.2 = -1 \/ 0 <= x.2 < n /\ good x.2 /\ x.1 = walt_lb_cpu_util (ac_bl a) x.2) /\
    forall c, 0 <= c < n -> good c -> x.1 <= walt_lb_cpu_util (ac_bl a) c).
  assert (P WALT_NR_CPUS (for_each_cpu (ac_storage_cpus a) f (ULONG_MAX, -1))) as H.
  { apply (for_each_cpu_ind P); unfold P.
    - split; [by left|]. intros c Hc. lia.
    - intros c [m b] [Hc _] Hb (A & B). cbn [fst snd] in *. unfold f. destruct (c =? src) eqn:E1.
      { cbn [fst snd]. split; [naive_solver lia|]. intros d Hd G. apply B; [|done]. destruct G as (_ & G & _). lia. }
      destruct (lb_ignore_cpus a s c avoid) eqn:E2.
      { cbn [fst snd]. split; [naive_solver lia|]. intros d Hd G. apply B; [|done]. destruct G as (_ & _ & G).
        destruct (Z.eq_dec d c) as [->|]; [congruence|lia]. }
      assert (good c) as Gc by (split_and!; [done|lia|done]).
      destruct (walt_lb_cpu_util _ c <? m) eqn:E3; cbn [fst snd].
      + split; [right; split_and!; [lia|lia|apply Gc..|done]|]. intros d Hd G. destruct (Z.eq_dec d c) as [->|]; [lia|].
        specialize (B d ltac:(lia) G). lia.
      + split; [naive_solver lia|]. intros d Hd G. destruct (Z.eq_dec d c) as [->|]; [lia|apply B; [lia|done]].
    - intros c [m b] [Hc _] Hb (A & B). cbn [fst snd] in *. split; [naive_solver lia|]. intros d Hd G. apply B; [|done].
      destruct G as (G & _). destruct (Z.eq_dec d c) as [->|]; [congruence|lia]. }
  destruct (for_each_cpu _ f _) as [m d]. destruct H as [[H|(H1 & H2 & H3)] B]; cbn [fst snd] in *; [by left|right].
  destruct H2 as (G1 & G2 & G3). split_and!; try done; try apply H1. intros c Hc K1 K2 K3. rewrite <- H3. apply B; [apply Hc|done].
Qed.

Lemma move_task_orderly src dst s avoid : orderly s -> is_cpu src -> dst <> src -> orderly (move_task a src dst s avoid).1.1.
Proof.
  intros O Hc Hd. unfold move_task. destruct (q_active (lb_rqs s src)) eqn:Ea; [done|].
  destruct (storage_scan _ _ _ _ _ _ _) as [p|]; [|done]. destruct (bl_on_cpu _ src p).
  - pose proof (push_orderly src dst p id s (fun s => reflexivity s) O Hc Ea Hd) as P. cbn [id] in P.
    destruct (stop_one_cpu_nowait _ _ _) as [s1 ok]. cbn [fst] in P. destruct ok; cbn [negb fst].
    + by apply call_quiet.
    + by apply (quiet_orderly _ _ (quiet_clear dst s1)).
  - cbn [fst]. apply call_quiet; [done|done|]. by apply (quiet_orderly _ _ (quiet_detach p src dst s)).
Qed.

Lemma storage_orderly cpu s : orderly s -> orderly (move_storage_load a cpu s).1.
Proof.
  intros O. unfold move_storage_load. destruct (_ <? _); [done|]. set (s1 := s <| lb_next_balance := _ |>).
  assert (orderly s1) as O1 by (by apply (quiet_orderly s); [split|]). clearbody s1.
  assert (orderly (migrate_high_irq_cpus a s1 0).1.1) as H.
  { unfold migrate_high_irq_cpus. apply (for_each_cpu_inv (fun x : lb_sys * Z * bool => orderly x.1.1)); [done|].
    intros c [[s2 avoid] done0] Hc _ H. cbn [fst] in H. destruct (negb _); [done|]. destruct (_ || _); [done|].
    destruct (0 <=? find_least_util_any_cpu a s2 c avoid) eqn:E; [|done].
    destruct (least_util_spec s2 c avoid) as [G|(_ & G & _)]; [lia|].
    pose proof (move_task_orderly c (find_least_util_any_cpu a s2 c avoid) s2 avoid H Hc G) as M.
    by destruct (move_task _ _ _ _ _) as [[s3 avoid3] moved]. }
  by destruct (migrate_high_irq_cpus a s1 0) as [[s2 ?] ?].
Qed.

Lemma higher_capacity_ne f c d : check_for_higher_capacity f c d = true -> c <> d.
Proof. intros H ->. unfold check_for_higher_capacity in H. repeat case_match; [done..|lia]. Qed.

Lemma tick_push_orderly cpu p s : orderly s -> is_cpu cpu -> orderly (tick_push a cpu p s).
Proof.
  intros O Hc. unfold tick_push. destruct (place_running a s p cpu) as [t d]. set (s1 := set_wts p t s).
  apply (quiet_orderly _ _ (quiet_set_wts p t s)) in O. fold s1 in O. clearbody s1.
  destruct (d <? 0); [done|]. destruct (check_for_higher_capacity _ d cpu) eqn:Eh; [|by rewrite orb_true_r].
  destruct (pv_idle _ d); [|done]. cbn [negb orb].
  set (x := if negb (is_min_possible_cluster_cpu _ cpu) then _ else (s1, true)).
  assert (quiet s1 x.1) as Q.
  { unfold x. destruct (negb _); [|done]. destruct (task_fits_max _ _ _ _) as [u f]. apply quiet_set_wts. }
  clearbody x. destruct x as [s2 fits]. cbn [fst] in Q. apply (quiet_orderly _ _ Q) in O.
  destruct (negb fits); [done|]. destruct (negb (ac_still_running a)); [done|]. destruct (q_active (lb_rqs s2 cpu)) eqn:Ea; [done|].
  pose proof (push_orderly cpu d p id s2 (fun s => reflexivity s) O Hc Ea (higher_capacity_ne _ _ _ Eh)) as P. cbn [id] in P.
  destruct (stop_one_cpu_nowait _ _ _) as [s3 ok]. cbn [fst] in P. destruct ok; cbn [negb].
  - by apply call_quiet.
  - by apply (quiet_orderly _ _ (quiet_clear d s3)).
Qed.

Lemma tick_orderly cpu s : orderly s -> is_cpu cpu -> orderly (walt_lb_tick a cpu s).
Proof.
  intros O Hc. unfold walt_lb_tick. destruct (ac_oplus_tick a cpu); [done|].
  set (s1 := if _ : bool then clear_reserved cpu s else s).
  assert (orderly s1) as O1 by (unfold s1; case_match; [by apply (quiet_orderly _ _ (quiet_clear cpu s))|done]). clearbody s1.
  set (x := if ac_storage_boost a && (cpu =? 0) then move_storage_load a cpu s1 else (s1, false)).
  assert (orderly x.1) as O2 by (unfold x; case_match; [by apply storage_orderly|done]). clearbody x. destruct x as [s2 sb].
  destruct (_ && cpumask_test_cpu cpu _); [done|]. destruct (negb (bl_fair _ _)); [done|].
  assert (orderly (call (c_mvp_tick cpu) s2)) as O3 by (by apply call_quiet). set (s3 := call _ s2) in *. clearbody s3.
  destruct (match ac_frame a with Some _ => _ | None => _ end); [done|].
  destruct (_ || (ac_nr_allowed _ _ =? 1)); [done|].
  destruct (bl_rotation _); [by apply check_rotation_orderly|by apply tick_push_orderly].
Qed.

(** The largest cluster, as the masks and the ids describe it. *)
Definition prime_ok (e : bal_env) : Prop :=
  let prime := cpu_mask (bl_pv e) 0 (bl_nr_clusters e - 1) in
  mask_ok prime /\ forall c, 0 <= c < nr_cpu_ids (bl_cfg e) -> is_max_possible_cluster_cpu (bl_cfg e) c = true -> Z.testbit prime c = true.

Lemma mask_ends_table :
  Forall (fun m => cpumask_weight m = 1 \/ cpumask_first m < cpumask_last m) (seqZ 1 255).
Proof.
  assert (forallb (fun m => (cpumask_weight m =? 1) || (cpumask_first m <? cpumask_last m)) (seqZ 1 255) = true) as H by (vm_compute; reflexivity).
  apply list.Forall_forall. intros m Hm. rewrite forallb_forall in H. specialize (H m). rewrite <- list_elem_of_In in H.
  specialize (H Hm). lia.
Qed.
Lemma mask_ends m : mask_ok m -> m <> 0 -> cpumask_weight m <> 1 -> cpumask_first m < cpumask_last m.
Proof.
  intros [H0 H1] Hz Hw. pose proof mask_ends_table as T. rewrite list.Forall_forall in T.
  destruct (T m) as [?|?]; [|done|done]. apply elem_of_seqZ. unfold WALT_NR_CPUS in H1. change (2 ^ 8) with 256 in H1. lia.
Qed.
Lemma last_bit m c : mask_ok m -> Z.testbit m c = true -> c <= cpumask_last m.
Proof.
  intros Hm Hb. pose proof (mask_bit_is_cpu m c Hm Hb) as [Hc _]. unfold cpumask_last. destruct (m =? 0) eqn:E.
  - assert (m = 0) as -> by lia. by rewrite Z.bits_0 in Hb.
  - destruct (Z_le_gt_dec c (Z.log2 m)) as [|G]; [done|]. destruct Hm. rewrite Z.bits_above_log2 in Hb; [done|lia|lia].
Qed.

Lemma oscillate_orderly cpu s : prime_ok (ac_bl a) -> orderly s -> 0 <= cpu -> orderly (sched_walt_oscillate a cpu s).1.
Proof.
  intros [Hm Hp] O Hc. unfold sched_walt_oscillate.
  assert (forall s, orderly s -> orderly (s <| lb_oscillate_cpu := -1 |>)) as F by (intros s1 O1; by apply (quiet_orderly s1); [split|]).
  destruct (should_oscillate a cpu) eqn:Es; [by apply F|]. unfold should_oscillate in Es.
  set (prime := cpu_mask (bl_pv (ac_bl a)) 0 (bl_nr_clusters (ac_bl a) - 1)) in *. fold prime in Hm, Hp.
  destruct (_ <=? cpu) eqn:E1; [done|]. destruct (negb (ac_obet a)); [done|].
  destruct (is_max_possible_cluster_cpu _ cpu) eqn:E3; [|done]. cbn [negb] in Es. destruct (cpumask_weight prime =? 1) eqn:E4; [done|]. clear Es.
  set (d := if cpumask_last prime <? cpu + 1 then cpumask_first prime else cpu + 1).
  assert (Z.testbit prime cpu = true) as Hb by (apply Hp; [lia|done]).
  assert (d <> cpu) as Hd.
  { unfold d. pose proof (last_bit _ _ Hm Hb). destruct (cpumask_last prime <? cpu + 1) eqn:E5; [|lia].
    assert (cpumask_first prime < cpumask_last prime); [|lia]. apply mask_ends; [done| |lia]. intros Z. rewrite Z, Z.bits_0 in Hb. done. }
  destruct (negb (ac_running a _)); [by apply F|]. destruct (cpus_allowed a _ d); [|by apply F].
  destruct (q_active (lb_rqs s cpu)) eqn:Ea; [by apply F|]. set (p := bl_curr _ cpu).
  pose proof (push_orderly cpu d p (fun s => s <| lb_oscillate_cpu := cpu |>) s
    ltac:(intros s1; by split) O (mask_bit_is_cpu _ _ Hm Hb) Ea Hd) as P.
  destruct (stop_one_cpu_nowait _ _ _) as [s1 ok]. cbn [fst] in P. destruct ok; cbn [negb fst].
  - apply (quiet_orderly (call (c_wake_idle d) s1)); [by split|]. by apply call_quiet.
  - apply F. by apply (quiet_orderly _ _ (quiet_clear d s1)).
Qed.

(** The busiest CPU is a CPU of the mask. *)
Lemma busiest_is_cpu e s dst mask m newidle :
  let b := (walt_lb_find_busiest_cpu e s dst mask m newidle).1 in b = -1 \/ is_cpu b /\ Z.testbit mask b = true.
Proof.
  unfold walt_lb_find_busiest_cpu. set (good := fun b => b = -1 \/ is_cpu b /\ Z.testbit mask b = true).
  assert (forall ok util, good (for_each_cpu mask (busiest_step ok util) (0, -1)).2) as H.
  { intros ok util. apply (for_each_cpu_inv (fun x : Z * Z => good x.2)); [by left|]. intros c [u b] Hc Hb G. unfold busiest_step.
    destruct (ok c); [|done]. destruct (_ <? _); [done|by right]. }
  destruct (check_for_higher_capacity _ dst _); [|destruct (check_for_higher_capacity _ _ dst)]; cbn [fst].
  - rewrite lower_scan. cbv zeta. cbn [fst]. case_match; [by left|apply H].
  - rewrite higher_scan. case_match; [by left|apply H].
  - rewrite similar_scan. apply H.
Qed.

Lemma newidle_search_spec this order enough l : forall s m, let '(s', r) := newidle_search a s this order enough l m in
  quiet s s' /\ lb_rqs s' = lb_rqs s /\ lb_wts s' = lb_wts s /\ match r with Some b => is_cpu b | None => True end.
Proof.
  induction l as [|i l IH]; intros s m; cbn [newidle_search]; [done|].
  pose proof (busiest_is_cpu (ac_bl a) s this (cpu_mask (bl_pv (ac_bl a)) order i) m true) as H. cbv zeta in H.
  destruct (walt_lb_find_busiest_cpu _ _ _ _ _ _) as [b m']. cbn [fst] in H.
  destruct (b =? -1) eqn:E; [apply IH|]. destruct H as [?|[Hb _]]; [lia|].
  destruct (negb enough && _); [apply IH|]. destruct (_ && (_ || _)); [|done].
  destruct (negb (_ =? -1)); [|destruct (_ && _); [done|apply IH]].
  specialize (IH (call (c_kick (find_first_idle_if_others_are_busy (ac_bl a))) s) m').
  destruct (newidle_search _ _ _ _ _ _ _) as [s' r]. destruct IH as (Q & R1 & R2 & R). split_and!; try done.
  etrans; [|exact Q]. by apply quiet_call.
Qed.

Lemma balance_rt_quiet this s : quiet s (walt_balance_rt a this s).1.
Proof.
  unfold walt_balance_rt. destruct (ac_rt_runnable a); [done|]. destruct (ac_oplus_rt_skip a this); [done|].
  set (src := match for_each_cpu_until _ _ _ with inl _ => _ | inr _ => _ end). clearbody src.
  destruct (src =? this); [done|]. destruct (ac_rt_runnable_locked a); [done|]. destruct (ac_pick a src this) as [p|]; [|done].
  repeat (case_match; [done|]). by apply quiet_call.
Qed.

Lemma newidle_orderly this pulled done0 force s :
  orderly s -> orderly (walt_newidle_balance a this pulled done0 force s).1.1.
Proof.
  intros O. unfold walt_newidle_balance. destruct (ac_oplus_newidle a) as [[? ?]|]; [done|]. destruct (bl_disabled _); [done|].
  set (s1 := on_rq this _ s). assert (orderly s1) as O1.
  { apply (quiet_orderly s); [|done]. by apply quiet_on_rq. }
  clearbody s1. destruct (negb (cpu_active _ _)); [done|]. destruct (cpu_halted _ _); [done|]. destruct (is_reserved _ _); [done|].
  destruct (pv_high_irq _ _); [done|].
  assert (forall s n, orderly s -> orderly (rt_pulled a this s n).1.1) as R.
  { intros s2 n O2. unfold rt_pulled. cbn [fst]. case_match; [|done]. apply (quiet_orderly s2); [|done]. by apply quiet_on_rq. }
  pose proof (balance_rt_quiet this s1) as Q. destruct (walt_balance_rt a this s1) as [s2 rt]. cbn [fst] in Q.
  apply (quiet_orderly _ _ Q) in O1. destruct (_ || _); [by apply R|]. destruct (_ && negb (ac_overloaded _)); [done|]. destruct (_ && negb _); [done|].
  pose proof (newidle_search_spec this (cpu_cluster_id (bl_cfg (ac_bl a)) this) (NEWIDLE_BALANCE_THRESHOLD <? ac_avg_idle a) (seqZ 0 (bl_nr_clusters (ac_bl a))) s2 false) as N.
  destruct (newidle_search _ _ _ _ _ _ _) as [s3 [b|]]; destruct N as (Q3 & _ & _ & Hb); apply (quiet_orderly _ _ Q3) in O1; [|by apply R].
  destruct (_ || (b =? this)) eqn:E; [by apply R|]. apply orb_false_iff in E as [_ E].
  pose proof (pull_orderly this b s3 O1 Hb ltac:(lia)) as P. destruct (walt_lb_pull_tasks _ _ _ _) as [s4 n]. by apply R.
Qed.

End Operations.

(** ** Any order of operations *)

(** One operation of the balancer, on any CPU and under any circumstances; the work of the
    stopper thread and of a rotation, when queued; a CPU that comes or goes, when its
    stopper thread has no work left; the core's own active balance, which respects the flag;
    the misfit load. *)
Inductive lb_step : lb_sys -> lb_sys -> Prop :=
| ls_tick a cpu s : is_cpu cpu -> lb_step s (walt_lb_tick a cpu s)
| ls_newidle a cpu ttwu pulled done s : lb_step s (walt_sched_newidle_balance a cpu ttwu pulled done s).1.1
| ls_smp_newidle a cpu s : lb_step s (walt_smp_newidle_balance a cpu s)
| ls_oscillate a cpu s : prime_ok (ac_bl a) -> 0 <= cpu -> lb_step s (sched_walt_oscillate a cpu s).1
| ls_can_migrate e p dst can s : lb_step s (walt_can_migrate_task e s p dst can).1
| ls_stop a this cpu s : is_cpu cpu -> (0 < q_stops (lb_rqs s cpu))%nat -> lb_step s (stop_walt_lb_active_migration a this cpu s)
| ls_rotate cpu s : is_cpu cpu -> w_queued (lb_works s cpu) = true -> lb_step s (walt_lb_rotate_work_func cpu s)
| ls_hotplug disabled cpu s : is_cpu cpu -> q_stops (lb_rqs s cpu) = 0%nat -> lb_step s (cpu_hotplug_hook disabled cpu s)
| ls_core cpu dst s : is_cpu cpu -> q_active (lb_rqs s cpu) = false ->
    lb_step s (on_rq cpu (fun q => q <| q_active := true |> <| q_push_cpu := dst |> <| q_core := true |>) s)
| ls_core_done cpu s : is_cpu cpu -> q_core (lb_rqs s cpu) = true ->
    lb_step s (on_rq cpu (fun q => q <| q_active := false |> <| q_core := false |>) s)
| ls_misfit cpu v s : lb_step s (on_rq cpu (fun q => q <| q_misfit := v |>) s).

Lemma step_orderly s s' : lb_step s s' -> orderly s -> orderly s'.
Proof.
  intros St O. destruct St as [a cpu s Hc|a cpu ttwu pulled done0 s|a cpu s|a cpu s Hp Hc|e p dst can s|a this cpu s Hc Hs|cpu s Hc Hw
    |disabled cpu s Hc Hs|cpu dst s Hc Ha|cpu s Hc Hk|cpu v s].
  - by apply tick_orderly.
  - unfold walt_sched_newidle_balance. destruct (bl_disabled _); [done|]. destruct ttwu; [done|]. by apply newidle_orderly.
  - unfold walt_smp_newidle_balance. pose proof (newidle_orderly a cpu 0 0 true s O) as H.
    destruct (walt_newidle_balance _ _ _ _ _ _) as [[s1 ?] ?]. by apply call_quiet.
  - by apply oscillate_orderly.
  - unfold walt_can_migrate_task. destruct (bl_disabled e); [done|].
    match goal with |- context [_walt_can_migrate_task e s p dst ?lo ?hi true] => pose proof (can_migrate_spec e s p dst lo hi true) as H end.
    destruct (_walt_can_migrate_task _ _ _ _ _ _ _) as [s1 ok]. destruct H as [B _]. cbn [fst]. apply (quiet_orderly s); [|done]. by apply (quiet_boost e).
  - by apply stop_run_orderly.
  - by apply rotate_work_orderly.
  - unfold cpu_hotplug_hook. destruct disabled; [done|]. by apply clear_orderly.
  - destruct O as (o & O). pose proof (owner_free _ _ _ O Hc Ha) as Eo. pose proof (or_owned _ _ O cpu Hc) as H. rewrite Eo in H. destruct H as (_ & H2 & H3 & _ & H5).
    apply (change_owner s _ o cpu Core); [done|done|by rewrite Eo|done|done| | | |apply (or_bug _ _ O)].
    + intros d Hd. by rewrite view_on_rq.
    + unfold owned. rewrite rq_on_rq. cbn. by split_and!.
    + intros r. rewrite rq_on_rq. unfold references, pushes. cbn. lia.
  - destruct O as (o & O). pose proof (owner_core _ _ _ O Hc Hk) as Eo. pose proof (or_owned _ _ O cpu Hc) as H. rewrite Eo in H. destruct H as (_ & H2 & H3 & _ & H5).
    apply (change_owner s _ o cpu Free); [done|done|by rewrite Eo|done|done| | | |apply (or_bug _ _ O)].
    + intros d Hd. by rewrite view_on_rq.
    + unfold owned. rewrite rq_on_rq. cbn. by split_and!.
    + intros r. rewrite rq_on_rq. unfold references, pushes. cbn. lia.
  - apply (quiet_orderly s); [|done]. by apply quiet_on_rq.
Qed.

Definition at_boot (s : lb_sys) : Prop :=
  (forall c, q_active (lb_rqs s c) = false /\ q_push_task (lb_rqs s c) = None /\ q_stops (lb_rqs s c) = 0%nat /\ q_core (lb_rqs s c) = false) /\
  (forall c, w_queued (lb_works s c) = false) /\ lb_calls s = [].

Lemma boot_orderly s : at_boot s -> orderly s.
Proof.
  intros (A & B & C). exists (fun _ => Free). split.
  - intros c _. destruct (A c) as (A1 & A2 & A3 & A4). by split_and!.
  - intros d _. by rewrite B.
  - intros p. unfold references, requests. rewrite C, zsum_nil. symmetry.
    rewrite (zsum_ext _ (fun _ => 0) cpus), (zsum_ext (fun c => rotates p (lb_works s c)) (fun _ => 0) cpus); [done|..].
    + intros c _. unfold rotates. by rewrite B.
    + intros c _. unfold pushes. by rewrite (proj1 (proj2 (A c))).
  - rewrite C. apply not_elem_of_nil.
Qed.

(** C27. Whatever the balancer, the stopper threads, the workers, the hotplug hooks and the core
    do in whatever order: the references held on tasks are exactly those of the requests
    that are pending, so none is given back twice or forgotten; a run queue that is to push a
    task is marked as balancing, has another CPU as its target and at most one work queued;
    no [BUG_ON] of the balancer fails. *)
Theorem task_references_balanced s0 s :
  at_boot s0 -> rtc lb_step s0 s ->
  (forall p, references s p = requests s p) /\ (c_bug ∉ lb_calls s) /\
  forall c, is_cpu c ->
    match q_push_task (lb_rqs s c) with
    | Some _ => q_active (lb_rqs s c) = true /\ q_push_cpu (lb_rqs s c) <> c /\ (q_stops (lb_rqs s c) <= 1)%nat
    | None => q_stops (lb_rqs s c) = 0%nat
    end.
Proof.
  intros B St. assert (orderly s) as (o & [O _ F N]).
  { apply boot_orderly in B. revert B. induction St as [|x y z H _ IH]; [done|]. intros O. by apply IH, (step_orderly x). }
  split_and!; [done|done|]. intros c Hc. specialize (O c Hc). unfold owned in O.
  destruct (o c); destruct O as (A1 & A2 & A3 & O); rewrite A2; [done| |done|done].
  split_and!; [done|tauto|done].
Qed.

(** The tick of CPU 1 asks for its task to be pushed to CPU 5, and the stopper thread does. *)
Definition demo_act : act_env :=
  mk_act demo_bl (fun _ => true) (fun _ => true) (fun _ => true) (fun _ => 8) true false 0 0 (fun _ => None)
    false false (fun _ => false) (fun _ _ => None) 0 0 1 1 1000000 true 0 false 0 (fun _ => false) None (fun _ => false) (fun _ _ => true) None.
Definition demo_mis : lb_sys := on_rq 1 (fun q => q <| q_misfit := 1 |>) demo_lb.
Definition demo_ticked : lb_sys := walt_lb_tick demo_act 1 demo_mis.
Definition demo_pushed : lb_sys := stop_walt_lb_active_migration demo_act 1 1 demo_ticked.

Lemma task_references_balanced_witness :
  lb_calls demo_pushed = [c_mvp_tick 1; c_get 11; c_stop 1; c_wake_idle 5; c_detach 11 1 5; c_attach 11 5; c_count_active 5; c_put 11] /\
  forall p, references demo_pushed p = requests demo_pushed p.
Proof.
  split; [vm_compute; reflexivity|]. apply (task_references_balanced demo_lb).
  - split_and!; done.
  - eapply rtc_l; [exact (ls_misfit 1 1 demo_lb)|]. eapply rtc_l; [exact (ls_tick demo_act 1 demo_mis ltac:(split; vm_compute; [discriminate|reflexivity]))|].
    apply rtc_once. exact (ls_stop demo_act 1 1 demo_ticked ltac:(split; vm_compute; [discriminate|reflexivity]) ltac:(vm_compute; lia)).
Defined.

End Requests.

(** ** What moves, and where to *)

Module Moves.
Import Searching Energies Busiest Pulling Requests.

Section Operation.
Context (a : act_env).

Lemma calls_call c s : lb_calls (call c s) = lb_calls s ++ [c].
Proof. done. Qed.
Lemma stop_one_calls cpu s :
  let r := stop_one_cpu_nowait a cpu s in
  r.2 = ac_stop_ok a cpu /\ lb_calls r.1 = lb_calls s ++ (if ac_stop_ok a cpu then [c_stop cpu] else []).
Proof. unfold stop_one_cpu_nowait. destruct (ac_stop_ok a cpu); [done|]. cbn. by rewrite app_nil_r. Qed.

(** What a request for the running task [p] leaves in the calls. *)
Definition push_calls (src p : Z) : list lb_call := c_get p :: (if ac_stop_ok a src then [c_stop src] else []).

Lemma active_scan_calls dst src l : forall s,
  lb_calls (active_scan a s dst src l) = lb_calls s \/
  exists p, p ∈ l /\ bl_on_cpu (ac_bl a) src p = true /\ cpus_allowed a p dst = true /\ bl_delayed (ac_bl a) p = false /\
    lb_calls (active_scan a s dst src l) = lb_calls s ++ push_calls src p.
Proof.
  induction l as [|p l IH]; intros s; cbn [active_scan]; [by left|].
  assert (forall s', lb_calls s' = lb_calls s -> lb_calls (active_scan a s' dst src l) = lb_calls s \/
    exists p0, p0 ∈ p :: l /\ bl_on_cpu (ac_bl a) src p0 = true /\ cpus_allowed a p0 dst = true /\ bl_delayed (ac_bl a) p0 = false /\
    lb_calls (active_scan a s' dst src l) = lb_calls s ++ push_calls src p0) as IH'.
  { intros s' E. destruct (IH s') as [H|(q & H & H')]; [left; congruence|right]. exists q. rewrite <- E. split; [by right|done]. }
  destruct (_ && walt_pipeline_low_latency_task _); [by apply IH'|]. destruct (bl_on_cpu _ src p) eqn:Eo; [|by apply IH'].
  destruct (cpus_allowed a p dst && negb (bl_delayed (ac_bl a) p)) eqn:Ea; [|by left].
  apply andb_true_iff in Ea as [Ea Ed%negb_true_iff].
  assert (lb_calls (need_active_lb (ac_bl a) s p dst src).1 = lb_calls s) as En.
  { unfold need_active_lb. repeat case_match; simplify_eq; done. }
  destruct (need_active_lb _ _ _ _ _) as [s1 need]. cbn [fst] in En. destruct need; [|by left]. right. exists p.
  split; [left|]. split_and!; try done.
  pose proof (stop_one_calls src (request_push src dst p s1)) as [E1 E2]. cbv zeta in *.
  destruct (stop_one_cpu_nowait _ _ _) as [s2 ok]. cbn [fst snd] in *. subst ok. rewrite request_push_calls, En in E2.
  unfold push_calls. rewrite <- app_assoc in E2. by destruct (ac_stop_ok a src).
Qed.

(** The candidates of a pull, in the order they are seen. *)
Definition candidates (dst src : Z) (force : bool) (s : lb_sys) : list Z :=
  first_eligible (ac_bl a) dst src (check_for_higher_capacity (bl_fit (ac_bl a)) src dst)
    (check_for_higher_capacity (bl_fit (ac_bl a)) dst src) force s 6 (bl_cfs (ac_bl a) src).
Definition pulled (dst src : Z) (force : bool) (s s' : lb_sys) (p : Z) : Prop :=
  best_of (check_for_higher_capacity (bl_fit (ac_bl a)) src dst) s (candidates dst src force s) p /\
  lb_calls s' = lb_calls s ++ [c_detach p src dst; c_attach p dst; c_count_idle dst].

Lemma eligible_not_delayed dst src lo hi force s p : eligible (ac_bl a) dst src lo hi force s p = true -> bl_delayed (ac_bl a) p = false.
Proof. unfold eligible, may_move. by destruct (bl_delayed _ p); cbn [negb andb]; rewrite ?andb_false_r. Qed.

Lemma candidates_none dst src force s :
  (forall p, p ∈ bl_cfs (ac_bl a) src -> eligible (ac_bl a) dst src (check_for_higher_capacity (bl_fit (ac_bl a)) src dst)
    (check_for_higher_capacity (bl_fit (ac_bl a)) dst src) force s p = false) <-> candidates dst src force s = [].
Proof.
  split.
  - intros H. destruct (candidates dst src force s) as [|p l] eqn:E; [done|].
    assert (p ∈ candidates dst src force s) as Hp by (rewrite E; left). apply first_eligible_ok in Hp as [H1 H2].
    by rewrite H in H2.
  - intros E p Hp. destruct (eligible _ _ _ _ _ _ _ p) eqn:Ep; [|done]. exfalso. unfold candidates, first_eligible in E.
    assert (p ∈ filter (fun p => eligible (ac_bl a) dst src (check_for_higher_capacity (bl_fit (ac_bl a)) src dst)
      (check_for_higher_capacity (bl_fit (ac_bl a)) dst src) force s p = true) (bl_cfs (ac_bl a) src)) as Hf by (by apply list_elem_of_filter).
    destruct (filter _ _); [by apply not_elem_of_nil in Hf|done].
Qed.

(** C29. A pull from another CPU. The first six tasks that may move are compared: the
    smallest is taken if it goes to a smaller CPU, the largest otherwise; tasks that fit, and that
    the groups do not hold back, come before all others. Without any, the running
    task is asked for if it may run on the other CPU, and nothing is pulled. *)
Theorem pull_takes_best dst src s :
  dst <> src ->
  let r := walt_lb_pull_tasks a dst src s in
  if bool_decide (candidates dst src false s <> []) then r.2 = 1 /\ exists p, pulled dst src false s r.1 p
  else if bool_decide (candidates dst src true s <> []) then r.2 = 1 /\ exists p, pulled dst src true s r.1 p
  else r.2 = 0 /\ (lb_calls r.1 = lb_calls s \/
    exists p, p ∈ bl_cfs (ac_bl a) src /\ bl_on_cpu (ac_bl a) src p = true /\ cpus_allowed a p dst = true /\
      bl_delayed (ac_bl a) p = false /\ lb_calls r.1 = lb_calls s ++ push_calls src p).
Proof.
  intros Hne. unfold walt_lb_pull_tasks. replace (src =? dst) with false by lia. cbv zeta.
  assert (forall force s0 s1 p, boost_eq (ac_bl a) s0 s1 ->
    best_of (check_for_higher_capacity (bl_fit (ac_bl a)) src dst) s0 (candidates dst src force s0) p ->
    pulled dst src force s0 (call (c_count_idle dst) (walt_attach_task p dst (walt_detach_task a p src dst s1))) p) as T.
  { intros force s0 s1 p B Hb. split; [done|]. destruct Hb as [Hp _]. apply first_eligible_ok in Hp as [_ Hp%eligible_not_delayed].
    unfold walt_detach_task, walt_attach_task. rewrite Hp, !calls_call, (beq_calls _ _ _ B), <- !app_assoc. done. }
  pose proof (pull_scan_spec (ac_bl a) dst src (check_for_higher_capacity (bl_fit (ac_bl a)) src dst)
    (check_for_higher_capacity (bl_fit (ac_bl a)) dst src) false s (bl_cfs (ac_bl a) src)) as H.
  destruct (pull_scan _ _ _ _ _ _ _ _ _ _) as [s1 [p|]]; destruct H as [B1 H].
  { rewrite bool_decide_true; [by eauto|]. destruct H as [Hp _]. intros E. fold (candidates dst src false s) in Hp.
    rewrite E in Hp. by apply not_elem_of_nil in Hp. }
  apply candidates_none in H. rewrite bool_decide_false by tauto.
  pose proof (pull_scan_spec (ac_bl a) dst src (check_for_higher_capacity (bl_fit (ac_bl a)) src dst)
    (check_for_higher_capacity (bl_fit (ac_bl a)) dst src) true s1 (bl_cfs (ac_bl a) src)) as H1.
  assert (candidates dst src true s1 = candidates dst src true s) as Ec by (symmetry; by apply first_eligible_same).
  destruct (pull_scan _ _ _ _ _ _ _ _ _ _) as [s2 [p|]]; destruct H1 as [B2 H1].
  - fold (candidates dst src true s1) in H1. rewrite Ec in H1. rewrite bool_decide_true.
    + split; [done|]. exists p. apply T; [by etrans|]. destruct H1 as [H1 H2]. split; [done|]. intros q Hq.
      rewrite (util_of_proper _ _ _ B1 p _ eq_refl), (util_of_proper _ _ _ B1 q _ eq_refl). by apply H2.
    + destruct H1 as [Hp _]. intros E. rewrite E in Hp. by apply not_elem_of_nil in Hp.
  - apply candidates_none in H1. rewrite Ec in H1. rewrite bool_decide_false by tauto. split; [done|]. cbn [fst].
    assert (lb_calls s2 = lb_calls s) as E2 by (by rewrite <- (beq_calls _ _ _ B2), (beq_calls _ _ _ B1)).
    rewrite <- E2. apply active_scan_calls.
Qed.

(** ** A CPU that goes idle takes at most one task *)

(** The calls of a CPU that goes idle, its kicks apart. *)
Inductive idle_pull (this : Z) : list lb_call -> Prop :=
| ip_none : idle_pull this []
| ip_rt p src : src <> this -> ac_pick a src this = Some p -> cpus_allowed a p this = true -> idle_pull this [c_pull_rt p src this]
| ip_task p src : is_cpu src -> src <> this -> p ∈ bl_cfs (ac_bl a) src -> cpus_allowed a p this = true ->
    bl_on_cpu (ac_bl a) src p = false -> bl_delayed (ac_bl a) p = false ->
    idle_pull this [c_detach p src this; c_attach p this; c_count_idle this]
| ip_push p src : is_cpu src -> src <> this -> p ∈ bl_cfs (ac_bl a) src -> cpus_allowed a p this = true ->
    bl_on_cpu (ac_bl a) src p = true -> bl_delayed (ac_bl a) p = false -> idle_pull this (push_calls src p).

(** A CPU that may take tasks. *)
Definition ready (s : lb_sys) (this : Z) : Prop :=
  cpu_active (bl_pv (ac_bl a)) this = true /\ cpu_halted (bl_pv (ac_bl a)) this = false /\ is_reserved s this = false /\
  pv_high_irq (bl_pv (ac_bl a)) this = false.

Definition is_kick (c : lb_call) : Prop := match c with c_kick cpu => cpu <> -1 | _ => False end.

Lemma search_kicks this order enough l : forall s m, let '(s', r) := newidle_search a s this order enough l m in
  exists kicks, lb_calls s' = lb_calls s ++ kicks /\ Forall is_kick kicks.
Proof.
  induction l as [|i l IH]; intros s m; cbn [newidle_search]; [exists []; by rewrite app_nil_r|].
  destruct (walt_lb_find_busiest_cpu _ _ _ _ _ _) as [b m'].
  destruct (b =? -1); [apply IH|]. destruct (negb enough && _); [apply IH|].
  destruct (_ && (_ || _)); [|exists []; by rewrite app_nil_r].
  destruct (negb (_ =? -1)) eqn:E; [|destruct (_ && _); [exists []; by rewrite app_nil_r|apply IH]].
  specialize (IH (call (c_kick (find_first_idle_if_others_are_busy (ac_bl a))) s) m').
  destruct (newidle_search _ _ _ _ _ _ _) as [s' r]. destruct IH as (k & E1 & F).
  eexists (_ :: k). split; [rewrite E1, calls_call, <- app_assoc; reflexivity|]. constructor; [cbn; lia|done].
Qed.

Lemma pull_idle dst src s :
  dst <> src -> is_cpu src -> exists m, lb_calls (walt_lb_pull_tasks a dst src s).1 = lb_calls s ++ m /\ idle_pull dst m.
Proof.
  intros Hd Hc. unfold walt_lb_pull_tasks. replace (src =? dst) with false by lia.
  set (lo := check_for_higher_capacity _ src dst). set (hi := check_for_higher_capacity _ dst src).
  assert (forall force s0 s1 p, boost_eq (ac_bl a) s0 s1 -> best_of lo s0 (first_eligible (ac_bl a) dst src lo hi force s0 6 (bl_cfs (ac_bl a) src)) p ->
    exists m, lb_calls (call (c_count_idle dst) (walt_attach_task p dst (walt_detach_task a p src dst s1))) = lb_calls s0 ++ m /\ idle_pull dst m) as T.
  { intros force s0 s1 p B [Hp _]. apply first_eligible_ok in Hp as [Hl Hp]. pose proof (eligible_not_delayed _ _ _ _ _ _ _ Hp) as Hd'.
    exists [c_detach p src dst; c_attach p dst; c_count_idle dst]. split.
    - unfold walt_detach_task, walt_attach_task. rewrite Hd', !calls_call, (beq_calls _ _ _ B), <- !app_assoc. done.
    - unfold eligible in Hp. apply andb_true_iff in Hp as [Hp _]. apply andb_true_iff in Hp as [H1 H2%negb_true_iff]. by apply ip_task. }
  pose proof (pull_scan_spec (ac_bl a) dst src lo hi false s (bl_cfs (ac_bl a) src)) as H.
  destruct (pull_scan _ _ _ _ _ _ _ _ _ _) as [s1 [p|]]; destruct H as [B1 H]; [by apply (T false s s1)|].
  pose proof (pull_scan_spec (ac_bl a) dst src lo hi true s1 (bl_cfs (ac_bl a) src)) as H1.
  rewrite (beq_calls _ _ _ B1).
  destruct (pull_scan _ _ _ _ _ _ _ _ _ _) as [s2 [p|]]; destruct H1 as [B2 H1]; [by apply (T true s1 s2)|].
  rewrite (beq_calls _ _ _ B2). cbn [fst].
  destruct (active_scan_calls dst src (bl_cfs (ac_bl a) src) s2) as [E|(p & H2 & H3 & H4 & H5 & E)]; rewrite E.
  - exists []. rewrite app_nil_r. split; [done|constructor].
  - eexists. split; [done|]. by apply ip_push.
Qed.

Lemma balance_rt_calls this s :
  let '(s', rt) := walt_balance_rt a this s in
  lb_rqs s' = lb_rqs s /\ exists m, lb_calls s' = lb_calls s ++ m /\ idle_pull this m /\ (m = [] <-> rt = false).
Proof.
  unfold walt_balance_rt. assert (exists m, lb_calls s = lb_calls s ++ m /\ idle_pull this m /\ (m = [] <-> false = false)) as N.
  { exists []. rewrite app_nil_r. split; [done|]. split; [constructor|done]. }
  destruct (ac_rt_runnable a); [done|]. destruct (ac_oplus_rt_skip a this); [done|].
  set (src := match for_each_cpu_until _ _ _ with inl _ => _ | inr _ => _ end). clearbody src.
  destruct (src =? this) eqn:E1; [done|]. destruct (ac_rt_runnable_locked a); [done|]. destruct (ac_pick a src this) as [p|] eqn:Ep; [|done].
  destruct (cpus_allowed a p this) eqn:Ea; [|done]. cbn [negb]. destruct ((_ <? _) && (_ <? _)); [done|].
  destruct (negb (ac_fbg_rt_fits a p this)); [done|]. split; [done|].
  exists [c_pull_rt p src this]. split; [done|]. split; [apply ip_rt; [lia|done|done]|done].
Qed.

(** What the operation leaves behind, with the CPU ready for a task. *)
Definition outcome (s : lb_sys) (this : Z) (r : lb_sys * Z * Z) : Prop :=
  r.2 = 1 /\ (exists kicks m, lb_calls r.1.1 = lb_calls s ++ kicks ++ m /\ Forall is_kick kicks /\ idle_pull this m) /\
  (r.1.2 <> 0 -> q_idle_stamp (lb_rqs r.1.1 this) = 0).

Lemma outcome_nothing s x this : lb_calls x = lb_calls s -> outcome s this (x, 0, 1).
Proof. intros E. split_and!; [done| |done]. exists [], []. rewrite !app_nil_r. split_and!; [done|constructor|constructor]. Qed.

Lemma outcome_finish s x this kicks m n :
  lb_calls x = lb_calls s ++ kicks ++ m -> Forall is_kick kicks -> idle_pull this m -> outcome s this (rt_pulled a this x n).
Proof.
  intros E F I. unfold rt_pulled. split_and!; [done| |].
  - exists kicks, m. split_and!; [|done|done]. cbn [fst]. by case_match.
  - cbn [fst snd]. set (k := if negb (ac_nr_end a =? _) then -1 else _). clearbody k. intros H.
    destruct (negb (k =? 0)) eqn:E'; [by rewrite rq_on_rq|lia].
Qed.


(** ** The tick moves a misfit up *)

(** Nothing was asked of [cpu] between two states. *)
Definition not_asked (cpu : Z) (s s' : lb_sys) : Prop := q_push_task (lb_rqs s' cpu) = q_push_task (lb_rqs s cpu).

(** A request for task [p] of [cpu], with the target [d]. *)
Record moved_up (cpu p d : Z) (s s' : lb_sys) : Prop := mk_up {
  up_task : q_push_task (lb_rqs s' cpu) = Some p;
  up_cpu : q_push_cpu (lb_rqs s' cpu) = d;
  up_free : q_active (lb_rqs s cpu) = false;
  up_running : ac_still_running a = true;
  up_idle : pv_idle (bl_pv (ac_bl a)) d = true;
  up_larger : check_for_higher_capacity (bl_fit (ac_bl a)) d cpu = true;
  up_fits : is_min_possible_cluster_cpu (bl_fit (ac_bl a)) cpu = true \/ exists t, (task_fits_max (bl_fit (ac_bl a)) p t d).2 = true;
  up_placed : is_cpu d /\ (usable (bl_pv (ac_bl a)) p d \/ Z.testbit (pe_cpus (pv_pl (bl_pv (ac_bl a)))) d = true)
}.

Lemma stop_one_push cpu s : q_push_task (lb_rqs (stop_one_cpu_nowait a cpu s).1 cpu) = q_push_task (lb_rqs s cpu) /\
  q_push_cpu (lb_rqs (stop_one_cpu_nowait a cpu s).1 cpu) = q_push_cpu (lb_rqs s cpu).
Proof. unfold stop_one_cpu_nowait. destruct (ac_stop_ok a cpu); [|done]. cbn [fst]. unfold call. cbn [lb_rqs set]. by rewrite rq_on_rq. Qed.

Section Up.
Context (cpu : Z).
Abbreviation p := (bl_curr (ac_bl a) cpu).
Context (Hcpu : is_cpu cpu) (Hon : lb_cpu (ac_bl a) p = cpu) (Hsib : siblings_ok (bl_pv (ac_bl a)))
  (Hact : mask_ok (pv_active (bl_pv (ac_bl a)))) (Hnr : nr_cpu_ids (bl_cfg (ac_bl a)) <= WALT_NR_CPUS) (Hven : vendor_silent (bl_we (ac_bl a))).

(** The placement answers, with a CPU the task may use. *)
Lemma place_running_spec s :
  let d := (place_running a s p cpu).2 in
  d = -1 \/ is_cpu d /\ (d = cpu \/ usable (bl_pv (ac_bl a)) p d \/ Z.testbit (pe_cpus (pv_pl (bl_pv (ac_bl a)))) d = true).
Proof.
  unfold place_running. set (w := (bl_we (ac_bl a)) <| we_pv := place_for (ac_bl a) s p |>).
  destruct (placement_result w p (lb_wts s p) cpu false 1 4) as (t & d & E & H); try done.
  rewrite E. cbn [snd]. destruct H as [(-> & _)|[H1 H2]]; [by left|right]. split; [done|]. exact H1.
Qed.

Lemma tick_push_spec s :
  not_asked cpu s (tick_push a cpu p s) \/ exists d, moved_up cpu p d s (tick_push a cpu p s).
Proof.
  pose proof (place_running_spec s) as Pl. cbv zeta in Pl. unfold tick_push.
  destruct (place_running a s p cpu) as [t d]. cbn [snd] in Pl.
  destruct (d <? 0) eqn:Ed; [by left|]. destruct (pv_idle _ d) eqn:Ei; [|by left]. cbn [negb orb].
  destruct (check_for_higher_capacity _ d cpu) eqn:Eh; [|by left]. cbn [negb].
  destruct Pl as [?|[Hd Pl]]; [lia|]. pose proof (higher_capacity_ne _ _ _ Eh) as Hne. destruct Pl as [?|Pl]; [done|].
  set (s1 := set_wts p t s). set (x := if negb (is_min_possible_cluster_cpu _ cpu) then _ else (s1, true)).
  assert (lb_rqs x.1 = lb_rqs s /\
    (x.2 = true -> is_min_possible_cluster_cpu (bl_fit (ac_bl a)) cpu = true \/ exists t, (task_fits_max (bl_fit (ac_bl a)) p t d).2 = true)) as [X1 X2].
  { unfold x. destruct (is_min_possible_cluster_cpu _ cpu); cbn [negb]; [auto|].
    destruct (task_fits_max _ _ _ _) as [u f] eqn:Ef. cbn [fst snd]. split; [done|]. intros ->. right. exists (lb_wts s1 p). by rewrite Ef. }
  clearbody x. destruct x as [s2 fits]. cbn [fst snd] in *. unfold not_asked. rewrite <- X1.
  destruct fits; [|by left]. cbn [negb]. destruct (ac_still_running a) eqn:Es; [|by left]. cbn [negb].
  destruct (q_active (lb_rqs s2 cpu)) eqn:Ea; [by left|]. right. exists d.
  pose proof (request_push_view cpu d p s2 cpu) as V. rewrite decide_True in V by done. apply view_inv in V as (_ & V2 & V3 & _).
  destruct (stop_one_push cpu (request_push cpu d p s2)) as [P1 P2]. destruct (stop_one_cpu_nowait _ _ _) as [s3 ok]. cbn [fst] in P1, P2.
  assert (forall s4, view (lb_rqs s4 cpu) = view (lb_rqs s3 cpu) -> moved_up cpu p d s s4) as M.
  { intros s4 V4. unfold view at 2 in V4. apply view_inv in V4 as (_ & W2 & W3 & _). split; try done; [congruence|congruence|congruence|auto]. }
  destruct ok; cbn [negb]; apply M; [done|]. apply (qt_rqs _ _ (quiet_clear d s3)).
Qed.

(** The tick without rotation and storage boost: a request is made only for the
    current task when it does not fit, or the frame boost asks for it, is running and may
    run elsewhere; the target is an idle CPU of larger capacity, on which the task fits
    unless it comes from the smallest cluster, and which the placement of waking tasks
    would allow; no request is pending for the CPU then. *)
Theorem tick_moves_up s :
  ac_storage_boost a = false -> bl_rotation (ac_bl a) = false ->
  let s' := walt_lb_tick a cpu s in
  not_asked cpu s s' \/
  (exists d, moved_up cpu p d s s') /\ bl_fair (ac_bl a) p = true /\ ac_running a p = true /\ ac_nr_allowed a p <> 1 /\
  (q_misfit (lb_rqs s cpu) <> 0 \/ ac_frame a = Some true).
Proof.
  intros Hsb Hrot. unfold walt_lb_tick. rewrite Hsb, Hrot. cbn [andb].
  destruct (ac_oplus_tick a cpu); [by left|].
  set (s1 := if _ && negb (q_active (lb_rqs s cpu)) then clear_reserved cpu s else s).
  assert (q_push_task (lb_rqs s1 cpu) = q_push_task (lb_rqs s cpu) /\ q_misfit (lb_rqs s1 cpu) = q_misfit (lb_rqs s cpu) /\
    q_active (lb_rqs s1 cpu) = q_active (lb_rqs s cpu)) as (T1 & T2 & T3).
  { unfold s1. case_match; [|done]. unfold clear_reserved. by rewrite rq_on_rq. }
  clearbody s1.
  destruct (bl_fair (ac_bl a) p) eqn:Ef; [|by left]. cbn [negb].
  set (s2 := call (c_mvp_tick cpu) s1). change (lb_rqs s2 cpu) with (lb_rqs s1 cpu). rewrite T2.
  destruct (match ac_frame a with Some _ => _ | None => _ end) eqn:Em; [by left|].
  destruct (ac_running a p) eqn:Er; [|by left]. cbn [negb orb]. destruct (ac_nr_allowed a p =? 1) eqn:En; [by left|].
  destruct (tick_push_spec s2) as [N|(d & [M1 M2 M3 M4 M5 M6 M7 M8])].
  - left. unfold not_asked in *. rewrite N. exact T1.
  - right. split; [exists d; constructor; [exact M1|exact M2|by rewrite <- T3|exact M4|exact M5|exact M6|exact M7|exact M8]|].
    split; [reflexivity|]. split; [reflexivity|]. split; [by apply Z.eqb_neq|].
    clear - Em. destruct (ac_frame a) as [[]|]; [by right|left; lia..].
Qed.

End Up.

End Operation.

Lemma pull_takes_best_witness :
  lb_calls (walt_lb_pull_tasks demo_act 5 1 demo_lb).1 = [c_detach 12 1 5; c_attach 12 5; c_count_idle 5] /\
  exists p, pulled demo_act 5 1 false demo_lb (walt_lb_pull_tasks demo_act 5 1 demo_lb).1 p.
Proof.
  split; [vm_compute; reflexivity|].
  pose proof (pull_takes_best demo_act 5 1 demo_lb ltac:(discriminate)) as H. cbv zeta in H.
  assert (candidates demo_act 5 1 false demo_lb = [13; 12]) as E by (vm_compute; reflexivity).
  rewrite E, bool_decide_true in H by discriminate. exact (proj2 H).
Defined.


Lemma tick_moves_up_witness : exists d, moved_up demo_act 1 11 d demo_mis demo_ticked.
Proof.
  destruct (tick_moves_up demo_act 1) with (s := demo_mis) as [N|(H & _)].
  - split; vm_compute; [discriminate|reflexivity].
  - vm_compute. reflexivity.
  - split; [vm_compute; discriminate|]. intros id. vm_compute. reflexivity.
  - split; vm_compute; [discriminate|reflexivity].
  - vm_compute. discriminate.
  - split_and!; done.
  - reflexivity.
  - reflexivity.
  - exfalso. unfold not_asked in N. vm_compute in N. discriminate N.
  - exact H.
Defined.

(** ** Defects *)

(** When the stopper thread does not accept the work, the reservation is dropped but not the
    request: the run queue stays marked as balancing and the task stays referenced, so
    later ticks ask for nothing, until the CPU goes through hotplug. *)
Definition demo_refused : act_env := demo_act <| ac_stop_ok := fun _ => false |>.
Definition demo_stuck : lb_sys := walt_lb_tick demo_refused 1 demo_mis.
Lemma refused_push_blocks :
  is_reserved demo_stuck 5 = false /\ q_active (lb_rqs demo_stuck 1) = true /\ q_stops (lb_rqs demo_stuck 1) = 0%nat /\
  references demo_stuck 11 = 1 /\
  lb_calls (walt_lb_tick demo_act 1 demo_stuck) = lb_calls demo_stuck ++ [c_mvp_tick 1] /\
  references (clear_walt_request 1 demo_stuck) 11 = 0.
Proof. vm_compute. done. Qed.

(** A CPU that goes down while the stopper thread still has work: the request is given up
    and the next one queues the same work item again. *)
Lemma hotplug_requeues_work : q_stops (lb_rqs (walt_lb_tick demo_act 1 (clear_walt_request 1 demo_ticked)) 1) = 2%nat.
Proof. vm_compute. done. Qed.

(** With a wakeup pending the hook means to clear [done], as its comment says, and leaves it
    as it is. *)
Lemma pending_wakeup_keeps_done :
  (walt_sched_newidle_balance demo_act 5 true 0 1 demo_lb).2 = 1.
Proof. done. Qed.

(** The storage balance moves whatever the stack holds when no task of the CPU qualifies: here
    task 99, which runs on CPU 79 as far as anyone knows, is taken off CPU 1. *)
Definition demo_storage : act_env :=
  demo_act <| ac_storage_boost := true |> <| ac_high_irq_mask := 2 |> <| ac_storage_cpus := 32 |> <| ac_stack := fun _ => Some 99 |>
           <| ac_bl := demo_bl <| bl_fair := fun _ => false |> |>.
Lemma stack_task_moved :
  lb_cpu (ac_bl demo_storage) 99 = 79 /\
  lb_calls (walt_lb_tick demo_storage 0 demo_lb) = [c_detach 99 1 5; c_attach 99 5] /\
  lb_calls (walt_lb_tick (demo_storage <| ac_stack := fun _ => None |>) 0 demo_lb) = [].
Proof. vm_compute. done. Qed.

End Moves.
