(* ===== verification/RtPlacement.v ===== *)
(** * Placement of real time tasks

    [walt_rt.c]: the CPU a waking real time task goes to, the CPU a real time task is
    pushed to, and the watch over real time tasks that run too long. The core's search for
    CPUs of lower priority ([cpupri_find_fitness]) is a parameter. *)

From Stdlib Require Import ZArith Lia ZifyBool Bool.
From stdpp Require Import base list sets functions numbers list_numbers.
From S2P Require Import Prelude WaltTypes Cpumask SmartFreq Halt CoreCtl Boost Fits Pipeline PipelineHeavy PipelineCpus Placement.

Definition NSEC_PER_MSEC : Z := 1000000.

(** [rt_pv] has what [Placement] reads. By CPU: whether its current task is a low latency
    one, the number of its real time tasks, the highest priority on it and the next one, whether
    it is busy with softirqs. [rt_find] is [cpupri_find_fitness] for the task: given which CPUs
    are large enough, the mask of CPUs and the result. [rt_reduce] is [reduce_mask] of the
    task. The fields from [rt_sync_skip] on belong to the vendor's scheduler:
    [sa_skip_rt_sync], [adjust_rt_lowest_mask], whether the frame boost wants the first
    cluster, [fbg_rt_task_fits_capacity], [test_task_ux] of the current tasks,
    [oplus_pipeline_rt_skip_prime_cpu]. *)
Record rt_env := mk_rt {
  rt_pv : place_env;
  rt_disabled : bool;
  rt_boost_on_big : bool;
  rt_spread : bool;
  rt_low_latency : Z -> bool;
  rt_nr_running : Z -> Z;
  rt_prio_curr : Z -> Z;
  rt_prio_next : Z -> Z;
  rt_softirqs : Z -> bool;
  rt_find : (Z -> bool) -> Z * Z;
  rt_reduce : Z;
  rt_this_cpu : Z;
  rt_sync_hint : bool;
  rt_sync_skip : bool -> bool;
  rt_adjust : Z -> Z -> Z;
  rt_frame : bool;
  rt_frame_fits : Z -> bool;
  rt_ux : Z -> bool;
  rt_pipeline_skip : Z -> bool
}.

(** The variables of the search. *)
Record rt_best := mk_rb {
  rb_cpu : Z;
  rb_util : Z;
  rb_cum : Z;
  rb_latency : Z;
  rb_lt : bool
}.

Section RealTime.
Context (e : rt_env) (p : Z) (t : walt_task_struct).

(** ** The search for the least loaded CPU *)

Definition rt_usable (ignore_overutil : bool) (cpu : Z) : bool :=
  cpu_active (rt_pv e) cpu && negb (cpu_halted (rt_pv e) cpu) && negb (pv_high_irq (rt_pv e) cpu) &&
  (ignore_overutil || negb (cpu_overutilized_by (rt_pv e) cpu (task_util t))) && rt_frame_fits e cpu.

Definition rt_lt (cpu : Z) : bool := rt_low_latency e cpu || negb (pv_nr_rtg (rt_pv e) cpu =? 0).

Definition rt_consider (ignore_overutil : bool) (cpu : Z) (b : rt_best) : rt_best :=
  if negb (rt_usable ignore_overutil cpu) then b else
  let util := cpu_util_of (rt_pv e) cpu in
  let lt := rt_lt cpu in
  let task_cpu := prev_cpu_of (rt_pv e) p in
  if lt && negb (rb_lt b) then b else
  if negb (xorb (rb_lt b) lt) && (rb_util b <? util) then b else
  if (rb_util b =? util) && (rb_cpu b =? task_cpu) then b else
  let latency := pv_exit_latency (rt_pv e) cpu in
  let util_cum := pv_util_cum (rt_pv e) cpu in
  if negb (cpu =? task_cpu) && (rb_util b =? util) &&
     ((rb_latency b <? latency) || ((rb_latency b =? latency) && (rb_cum b <? util_cum)))
  then b else
  if pv_assist (rt_pv e) && negb (rb_cpu b =? -1) && rt_ux e cpu then b else
  mk_rb cpu util util_cum latency lt.

(** The loop over the clusters, with its [break]. *)
Fixpoint rt_clusters (ignore_overutil : bool) (lowest_mask order_index end_index : Z) (l : list Z) (b : rt_best) : rt_best :=
  match l with
  | [] => b
  | cluster :: l =>
      let b := for_each_cpu (Z.land lowest_mask (cpu_mask (rt_pv e) order_index cluster)) (rt_consider ignore_overutil) b in
      if (cluster <? end_index) && ((rb_cpu b =? -1) || negb (pv_idle (rt_pv e) (rb_cpu b)))
      then rt_clusters ignore_overutil lowest_mask order_index end_index l b else
      if negb (rb_cpu b =? -1) then b
      else rt_clusters ignore_overutil lowest_mask order_index end_index l b
  end.

(** Result: [lowest_mask], which the vendor may change, and [best_cpu]. *)
Definition walt_rt_energy_aware_wake_cpu (lowest_mask ret best_cpu : Z) : Z * Z :=
  if rt_disabled e then (lowest_mask, best_cpu) else
  if ret =? 0 then (lowest_mask, best_cpu) else
  let lowest_mask := if pv_assist (rt_pv e) then rt_adjust e lowest_mask ret else lowest_mask in
  let order_index := if rt_boost_on_big e && (1 <? pv_clusters (rt_pv e)) then 1 else 0 in
  let order_index := if rt_frame e then 0 else order_index in
  let end_index := if rt_spread e && (order_index =? 0) then 1 else 0 in
  let start := mk_rb best_cpu ULONG_MAX ULONG_MAX UINT_MAX true in
  let clusters := seqZ 0 (pv_clusters (rt_pv e)) in
  let b := rt_clusters false lowest_mask order_index end_index clusters start in
  let b := if pv_assist (rt_pv e) && (rb_cpu b =? -1)
           then rt_clusters true lowest_mask order_index end_index clusters b else b in
  (lowest_mask, rb_cpu b).

(** ** Wakeups *)

(** With [CONFIG_UCLAMP_TASK]. *)
Definition walt_rt_task_fits_capacity (cpu : Z) : bool :=
  Z.min (fe_uclamp_min (pv_fit (rt_pv e)) p) (fe_uclamp_max (pv_fit (rt_pv e)) p) <=? pv_cap (rt_pv e) cpu.

Definition walt_should_honor_rt_sync (cpu : Z) (sync : bool) : bool :=
  rt_sync_skip e sync && (fe_prio (pv_fit (rt_pv e)) p <=? rt_prio_next e cpu) && (rt_nr_running e cpu <=? 2).

(** The loop of the packing CPU: the first one from [cpu] on that will do, [n] CPUs at most. *)
Fixpoint rt_pack (limit : Z) (n : nat) (cpu : Z) : option Z :=
  match n with
  | O => None
  | S n =>
      if cpumask_test_cpu cpu (rt_reduce e) && cpumask_test_cpu cpu (cpus_ptr (rt_pv e) p) &&
         cpu_active (rt_pv e) cpu && negb (cpu_halted (rt_pv e) cpu) && negb (rt_pipeline_skip e cpu) &&
         (rt_nr_running e cpu <=? limit)
      then Some cpu else rt_pack limit n (cpu + 1)
  end.
Definition rt_packing (limit : Z) : option Z :=
  let packing_cpu := walt_find_and_choose_cluster_packing_cpu (rt_pv e) p t 0 in
  if 0 <=? packing_cpu then rt_pack limit (Z.to_nat (WALT_NR_CPUS - packing_cpu)) packing_cpu else None.

(** Both searches, in the CPUs the task is reduced to and in all. *)
Definition rt_search (lowest_mask ret best_cpu : Z) : Z * Z :=
  let reduced := Z.land lowest_mask (rt_reduce e) in
  let best_cpu := if negb (cpumask_empty reduced) then (walt_rt_energy_aware_wake_cpu reduced ret best_cpu).2 else best_cpu in
  if best_cpu =? -1 then walt_rt_energy_aware_wake_cpu lowest_mask ret best_cpu else (lowest_mask, best_cpu).

(** [wakeup] says that [sd_flag] is [SD_BALANCE_WAKE] or [SD_BALANCE_FORK]. Result: the value of
    [new_cpu]. *)
Definition walt_select_task_rq_rt (cpu : Z) (wakeup sync : bool) (new_cpu : Z) : Z :=
  if rt_disabled e then new_cpu else
  if negb wakeup then new_cpu else
  let this_cpu := rt_this_cpu e in
  if rt_sync_hint e && cpu_active (rt_pv e) this_cpu && negb (cpu_halted (rt_pv e) this_cpu) &&
     cpumask_test_cpu this_cpu (cpus_ptr (rt_pv e) p) && cpumask_test_cpu this_cpu (rt_reduce e) &&
     walt_should_honor_rt_sync this_cpu sync
  then this_cpu else
  let may_not_preempt := rt_softirqs e cpu in
  let '(lowest_mask, ret) := rt_find e walt_rt_task_fits_capacity in
  match rt_packing 1 with
  | Some packing_cpu => packing_cpu
  | None =>
      let target := (rt_search lowest_mask ret (-1)).2 in
      let new_cpu := if negb (target =? -1) && (may_not_preempt || (fe_prio (pv_fit (rt_pv e)) p <? rt_prio_curr e target))
                     then target else cpu in
      if cpu_halted (rt_pv e) new_cpu then
        let target := cpumask_first (Z.ldiff (cpus_ptr (rt_pv e) p) (pe_halted (pv_pl (rt_pv e)))) in
        if target <? nr_cpu_ids (pv_cfg (rt_pv e)) then target else new_cpu
      else new_cpu
  end.

(** The hook of a push. Result: [lowest_mask] and [best_cpu]. *)
Definition walt_rt_find_lowest_rq (lowest_mask ret best_cpu : Z) : Z * Z :=
  if rt_disabled e then (lowest_mask, best_cpu) else
  match rt_packing 2 with
  | Some packing_cpu => (lowest_mask, packing_cpu)
  | None =>
      let '(lowest_mask, best_cpu) := rt_search lowest_mask ret best_cpu in
      (if best_cpu =? -1 then Z.ldiff lowest_mask (pe_halted (pv_pl (rt_pv e))) else lowest_mask, best_cpu)
  end.

End RealTime.

(** ** Tasks that run too long *)

(** [rt_task_arrival_time] of a CPU, after a switch to a task; [fifo] says that the task
    has the policy [SCHED_FIFO], [stopper] that it is the stopper thread. *)
Definition rt_task_arrival_marker (fifo stopper : bool) (clock_task : Z) : Z :=
  if fifo && negb stopper then clock_task else 0.

(** The tick: the arrival time and whether the system is brought down. [limit] is
    [sysctl_sched_long_running_rt_task_ms], an [unsigned int] like the product. *)
Definition long_running_rt_task_notifier (limit : Z) (fifo : bool) (clock_task arrival : Z) : Z * bool :=
  if limit =? 0 then (arrival, false) else
  if arrival =? 0 then (arrival, false) else
  if negb fifo then (0, false) else
  (arrival, u32 (limit * NSEC_PER_MSEC) <? u64 (clock_task - arrival)).

(** The file; [proc] is [proc_douintvec_minmax] with the bounds 0 and 2000, which writes the
    value and returns a result. Result: the value, whether the hooks are registered, the
    result. *)
Definition sched_long_running_rt_task_ms_handler (proc : Z -> Z * Z) (write registered : bool) (limit : Z) : Z * bool * Z :=
  let '(limit, ret) := proc limit in
  let limit := if (0 <? limit) && (limit <? 800) then 800 else limit in
  (limit, registered || write, ret).

(** ** Where real time tasks go *)

Module RealTimePlacement.

Section Search.
Context (e : rt_env) (p : Z) (t : walt_task_struct).

(** A CPU of the mask that may be used. *)
Definition rt_candidate (mask c : Z) : Prop := is_cpu c /\ Z.testbit mask c = true /\ exists ig, rt_usable e t ig c = true.

Lemma rt_usable_not_halted ig c : rt_usable e t ig c = true -> cpu_active (rt_pv e) c = true /\ cpu_halted (rt_pv e) c = false.
Proof. unfold rt_usable. destruct (cpu_active _ c), (cpu_halted _ c); done. Qed.

Lemma consider_cases ig c b : rt_consider e p t ig c b = b \/ rb_cpu (rt_consider e p t ig c b) = c /\ rt_usable e t ig c = true.
Proof. unfold rt_consider. destruct (rt_usable e t ig c); [|by left]. cbn [negb]. repeat (case_match; [by left|]). by right. Qed.

Lemma clusters_candidate ig mask order last l : forall b,
  rb_cpu (rt_clusters e p t ig mask order last l b) = rb_cpu b \/ rt_candidate mask (rb_cpu (rt_clusters e p t ig mask order last l b)).
Proof.
  induction l as [|i l IH]; intros b; cbn [rt_clusters]; [by left|].
  set (b1 := for_each_cpu _ _ b).
  assert (rb_cpu b1 = rb_cpu b \/ rt_candidate mask (rb_cpu b1)) as H.
  { apply (for_each_cpu_inv (fun x => rb_cpu x = rb_cpu b \/ rt_candidate mask (rb_cpu x))); [by left|].
    intros c x Hc Hb Hx. destruct (consider_cases ig c x) as [->|[-> Hu]]; [done|right]. rewrite Z.land_spec in Hb.
    apply andb_true_iff in Hb as [Hb _]. split_and!; try done. by exists ig. }
  clearbody b1. assert (forall x, rb_cpu x = rb_cpu b1 \/ rt_candidate mask (rb_cpu x) -> rb_cpu x = rb_cpu b \/ rt_candidate mask (rb_cpu x)) as T.
  { intros x [Hx|Hx]; [rewrite Hx; exact H|by right]. }
  destruct (_ && _); [apply T, IH|]. destruct (negb _); [done|apply T, IH].
Qed.

(** The vendor only takes CPUs away. *)
Definition adjust_shrinks : Prop := forall mask ret c, Z.testbit (rt_adjust e mask ret) c = true -> Z.testbit mask c = true.

Lemma wake_cpu_candidate mask ret best :
  adjust_shrinks ->
  let r := (walt_rt_energy_aware_wake_cpu e p t mask ret best).2 in r = best \/ rt_candidate mask r.
Proof.
  intros Ha. unfold walt_rt_energy_aware_wake_cpu. destruct (rt_disabled e); [by left|]. destruct (ret =? 0); [by left|].
  set (m := if pv_assist _ then _ else mask). assert (forall c, rt_candidate m c -> rt_candidate mask c) as Hm.
  { intros c (A & B & C). split_and!; try done. unfold m in B. destruct (pv_assist _); [by apply (Ha _ ret)|done]. }
  clearbody m. cbv zeta. cbn [snd]. set (start := mk_rb best _ _ _ _). set (l := seqZ _ _).
  set (order := if rt_frame e then 0 else _). set (last := if rt_spread e && _ then 1 else 0). clearbody l order last.
  set (b := rt_clusters e p t false m order last l start).
  assert (rb_cpu b = best \/ rt_candidate mask (rb_cpu b)) as Hb.
  { destruct (clusters_candidate false m order last l start) as [H|H]; [left; exact H|right; by apply Hm]. }
  clearbody b. destruct (_ && (rb_cpu b =? -1)); [|done].
  destruct (clusters_candidate true m order last l b) as [->|H]; [done|right; by apply Hm].
Qed.

Lemma search_candidate mask ret best :
  adjust_shrinks -> let r := (rt_search e p t mask ret best).2 in r = best \/ rt_candidate mask r.
Proof.
  intros Ha. unfold rt_search. set (b := if negb (cpumask_empty _) then _ else best).
  assert (b = best \/ rt_candidate mask b) as Hb.
  { unfold b. destruct (negb _); [|by left]. destruct (wake_cpu_candidate (Z.land mask (rt_reduce e)) ret best Ha) as [H|(A & B & C)]; [by left|right].
    rewrite Z.land_spec in B. apply andb_true_iff in B as [B _]. by split_and!. }
  clearbody b. destruct (b =? -1); [|done]. destruct (wake_cpu_candidate mask ret b Ha) as [->|H]; [done|by right].
Qed.

Lemma pack_spec limit n : forall cpu c, rt_pack e p limit n cpu = Some c ->
  cpu_active (rt_pv e) c = true /\ cpu_halted (rt_pv e) c = false /\ Z.testbit (cpus_ptr (rt_pv e) p) c = true /\ cpu <= c.
Proof.
  induction n as [|n IH]; intros cpu c; cbn [rt_pack]; [done|]. unfold cpumask_test_cpu.
  destruct (_ && (rt_nr_running e cpu <=? limit)) eqn:E.
  - intros [= <-]. destruct (cpu_active _ cpu), (cpu_halted _ cpu), (Z.testbit (cpus_ptr _ _) cpu); cbn [negb] in E; rewrite ?andb_false_r in E; cbn in E; try done.
  - intros H. apply IH in H as (A & B & C & D). split_and!; try done. lia.
Qed.


(** The hook of a push never names a halted CPU itself, and when it finds none it takes the
    halted ones out of the mask that the core goes on with. *)
Lemma rt_push_avoids_halted mask ret :
  rt_disabled e = false -> adjust_shrinks ->
  let r := walt_rt_find_lowest_rq e p t mask ret (-1) in
  (r.2 <> -1 -> cpu_halted (rt_pv e) r.2 = false /\ cpu_active (rt_pv e) r.2 = true) /\
  (r.2 = -1 -> forall c, Z.testbit r.1 c = true -> cpu_halted (rt_pv e) c = false).
Proof.
  intros Hd Ha. unfold walt_rt_find_lowest_rq. rewrite Hd. unfold rt_packing.
  destruct (if 0 <=? _ then _ else _) as [c|] eqn:Ep.
  { destruct (0 <=? _) eqn:E0; [|done]. apply pack_spec in Ep as (H1 & H2 & _ & H4). cbn [fst snd]. split; [done|lia]. }
  pose proof (search_candidate mask ret (-1) Ha) as H. cbv zeta in H. destruct (rt_search e p t mask ret (-1)) as [m b]. cbn [fst snd] in *. split.
  - intros Hb. destruct H as [?|(_ & _ & ig & H)]; [done|]. by apply rt_usable_not_halted in H as [? ?].
  - intros ->. cbn [Z.eqb]. intros c Hc. change (-1 =? -1) with true in Hc. cbv iota in Hc. rewrite Z.ldiff_spec in Hc.
    apply andb_true_iff in Hc as [_ Hc%negb_true_iff]. exact Hc.
Qed.

End Search.

(** ** The least loaded CPU *)

Section Least.
Context (e : rt_env) (p : Z) (t : walt_task_struct).
Abbreviation util := (cpu_util_of (rt_pv e)).
Abbreviation prev := (prev_cpu_of (rt_pv e) p).

(** The order of the search: load, then the CPU the task was on, then the idle state, then
    the demand of the tasks there. *)
Definition rt_preferred (r c : Z) : Prop :=
  util r < util c \/
  util r = util c /\ (r = prev \/ c <> prev /\
    (pv_exit_latency (rt_pv e) r < pv_exit_latency (rt_pv e) c \/
     pv_exit_latency (rt_pv e) r = pv_exit_latency (rt_pv e) c /\ pv_util_cum (rt_pv e) r <= pv_util_cum (rt_pv e) c)).

#[export] Instance rt_preferred_trans : Transitive rt_preferred.
Proof. intros a b c. unfold rt_preferred. lia. Qed.

Context (lt : bool) (Hlt : forall c, rt_lt e c = lt) (Hutil : forall c, util c < ULONG_MAX) (Hassist : pv_assist (rt_pv e) = false).

Definition rt_start : rt_best := mk_rb (-1) ULONG_MAX ULONG_MAX UINT_MAX true.
Definition rt_of (c : Z) : rt_best := mk_rb c (util c) (pv_util_cum (rt_pv e) c) (pv_exit_latency (rt_pv e) c) lt.

Lemma consider_start c : 0 <= c -> rt_consider e p t false c rt_start = if rt_usable e t false c then rt_of c else rt_start.
Proof.
  intros Hc. unfold rt_consider. destruct (rt_usable e t false c); [|done]. cbn [negb rt_start rb_lt rb_util rb_cpu].
  rewrite Hlt, Hassist, andb_false_r. pose proof (Hutil c).
  replace (ULONG_MAX <? util c) with false by lia. replace (ULONG_MAX =? util c) with false by lia.
  by rewrite !andb_false_r, !andb_false_l.
Qed.

Lemma consider_of c b : b <> c ->
  rt_consider e p t false c (rt_of b) = rt_of c /\ rt_usable e t false c = true /\ rt_preferred c b \/
  rt_consider e p t false c (rt_of b) = rt_of b /\ (rt_usable e t false c = true -> rt_preferred b c).
Proof.
  intros Hne. unfold rt_consider. destruct (rt_usable e t false c); [|by right]. cbn [negb]. unfold rt_of. cbn [rb_lt rb_util rb_cpu rb_latency rb_cum].
  rewrite Hlt, Hassist, xorb_nilpotent. cbn [negb andb]. rewrite andb_negb_r. unfold rt_preferred.
  destruct (util b <? util c) eqn:E1; [right; split; [done|lia]|].
  destruct ((util b =? util c) && (b =? prev)) eqn:E2; [right; split; [done|lia]|].
  destruct (_ && (_ || _)) eqn:E3; [right; split; [done|lia]|].
  left. split_and!; [done|done|lia].
Qed.

(** The loop over the CPUs of one cluster. *)
Lemma cluster_best mask :
  let b := for_each_cpu mask (rt_consider e p t false) rt_start in
  b = rt_start /\ (forall c, is_cpu c -> Z.testbit mask c = true -> rt_usable e t false c = false) \/
  exists r, b = rt_of r /\ is_cpu r /\ Z.testbit mask r = true /\ rt_usable e t false r = true /\
    forall c, is_cpu c -> Z.testbit mask c = true -> rt_usable e t false c = true -> c = r \/ rt_preferred r c.
Proof.
  set (P := fun n b => b = rt_start /\ (forall c, 0 <= c < n -> Z.testbit mask c = true -> rt_usable e t false c = false) \/
    exists r, b = rt_of r /\ 0 <= r < n /\ Z.testbit mask r = true /\ rt_usable e t false r = true /\
    forall c, 0 <= c < n -> Z.testbit mask c = true -> rt_usable e t false c = true -> c = r \/ rt_preferred r c).
  cut (P WALT_NR_CPUS (for_each_cpu mask (rt_consider e p t false) rt_start)); [done|]. apply (for_each_cpu_ind P).
  - left. split; [done|]. intros c Hc. lia.
  - intros c x [Hc _] Hb [(-> & N)|(r & -> & R1 & R2 & R3 & R4)].
    + rewrite consider_start by done. destruct (rt_usable e t false c) eqn:E.
      * right. exists c. split_and!; try done; try lia. intros d Hd Hdb Hu. destruct (Z.eq_dec d c); [by left|].
        rewrite N in Hu; [done|lia|done].
      * left. split; [done|]. intros d Hd Hdb. destruct (Z.eq_dec d c) as [->|]; [done|apply N; [lia|done]].
    + right. destruct (consider_of c r ltac:(lia)) as [(-> & Hu & Hp)|(-> & Hp)].
      * exists c. split_and!; try done; try lia. intros d Hd Hdb Hud. destruct (Z.eq_dec d c); [by left|right].
        destruct (R4 d ltac:(lia) Hdb Hud) as [->|H]; [done|by etrans].
      * exists r. split_and!; try done; try lia. intros d Hd Hdb Hud. destruct (Z.eq_dec d c) as [->|]; [right; by apply Hp|].
        apply R4; [lia|done|done].
  - intros c x [Hc _] Hb [(-> & N)|(r & -> & R1 & R2 & R3 & R4)].
    + left. split; [done|]. intros d Hd Hdb. destruct (Z.eq_dec d c) as [->|]; [congruence|apply N; [lia|done]].
    + right. exists r. split_and!; try done; try lia. intros d Hd Hdb Hud. destruct (Z.eq_dec d c) as [->|]; [congruence|].
      apply R4; [lia|done|done].
Qed.

(** What the search over the clusters [l] finds. *)
Definition found_in (mask order : Z) (l : list Z) (r : Z) : Prop :=
  exists l1 i l2, l = l1 ++ i :: l2 /\
  (forall j c, j ∈ l1 -> is_cpu c -> Z.testbit (Z.land mask (cpu_mask (rt_pv e) order j)) c = true -> rt_usable e t false c = false) /\
  is_cpu r /\ Z.testbit (Z.land mask (cpu_mask (rt_pv e) order i)) r = true /\ rt_usable e t false r = true /\
  forall c, is_cpu c -> Z.testbit (Z.land mask (cpu_mask (rt_pv e) order i)) c = true -> rt_usable e t false c = true -> c = r \/ rt_preferred r c.

Lemma clusters_best mask order l :
  (forall i, i ∈ l -> 0 <= i) ->
  let b := rt_clusters e p t false mask order 0 l rt_start in
  b = rt_start /\ (forall i c, i ∈ l -> is_cpu c -> Z.testbit (Z.land mask (cpu_mask (rt_pv e) order i)) c = true -> rt_usable e t false c = false) \/
  found_in mask order l (rb_cpu b).
Proof.
  induction l as [|i l IH]; intros Hl; cbn [rt_clusters]; [left; split; [done|]; intros i c H; by apply not_elem_of_nil in H|].
  assert (0 <= i) as Hi by (apply Hl; left). replace (i <? 0) with false by lia. cbn [andb].
  destruct (cluster_best (Z.land mask (cpu_mask (rt_pv e) order i))) as [(-> & N)|(r & -> & R)].
  - change (negb (rb_cpu rt_start =? -1)) with false. cbv iota.
    destruct (IH ltac:(intros j Hj; apply Hl; by right)) as [(E & N2)|(l1 & j & l2 & -> & N2 & R)].
    + left. split; [done|]. intros j c [->|Hj]%elem_of_cons Hc Hb; [by apply N|by apply (N2 j)].
    + right. exists (i :: l1), j, l2. split_and!; try apply R; try done. intros k c [->|Hk]%elem_of_cons Hc Hb; [by apply N|by apply (N2 k)].
  - cbn [rt_of rb_cpu]. destruct R as ([R0 R1] & R). replace (negb (r =? -1)) with true by lia. right.
    exists [], i, l. split_and!; try apply R; try done. intros j c H. by apply not_elem_of_nil in H.
Qed.

(** When no CPU stands out by the tasks it runs, a real time task goes to the first
    cluster, in the order asked for, with a CPU of the mask that is usable (active, not
    halted, not loaded by interrupts, with room for the task), and there to the one with
    the least load; among equals to the CPU it was on, then to the one in the
    shallowest idle state, then to the one with the least demand. There is no answer only
    when no CPU is usable. *)
Theorem rt_least_loaded mask ret :
  rt_disabled e = false -> ret <> 0 -> rt_spread e = false ->
  let order := if rt_frame e then 0 else if rt_boost_on_big e && (1 <? pv_clusters (rt_pv e)) then 1 else 0 in
  let l := seqZ 0 (pv_clusters (rt_pv e)) in
  let r := (walt_rt_energy_aware_wake_cpu e p t mask ret (-1)).2 in
  r = -1 /\ (forall i c, i ∈ l -> is_cpu c -> Z.testbit (Z.land mask (cpu_mask (rt_pv e) order i)) c = true -> rt_usable e t false c = false) \/
  found_in mask order l r.
Proof.
  intros Hd Hr Hs. unfold walt_rt_energy_aware_wake_cpu. rewrite Hd, Hs, Hassist. replace (ret =? 0) with false by lia. cbn [andb snd]. cbv zeta.
  destruct (clusters_best mask (if rt_frame e then 0 else if rt_boost_on_big e && (1 <? pv_clusters (rt_pv e)) then 1 else 0)
    (seqZ 0 (pv_clusters (rt_pv e)))) as [(E & N)|F].
  - intros i Hi. apply elem_of_seqZ in Hi. lia.
  - left. change (mk_rb (-1) ULONG_MAX ULONG_MAX UINT_MAX true) with rt_start. rewrite E. done.
  - right. exact F.
Qed.

End Least.

(** Four silver and four gold CPUs, with the loads of [Placement]; task 9 may run on all of
    them. *)
Definition demo_rt : rt_env :=
  mk_rt Searching.demo_pv false false false (fun _ => false) (fun _ => 0) (fun _ => 100) (fun _ => 100) (fun _ => false)
    (fun _ => (255, 1)) 255 0 false (fun s => s) (fun m _ => m) false (fun _ => true) (fun _ => false) (fun _ => false).

Lemma rt_least_loaded_witness :
  (walt_rt_energy_aware_wake_cpu demo_rt 9 Searching.demo_task 255 1 (-1)).2 = 0 /\
  (0 = -1 /\ (forall i c, i ∈ seqZ 0 2 -> is_cpu c -> Z.testbit (Z.land 255 (cpu_mask (rt_pv demo_rt) 0 i)) c = true ->
     rt_usable demo_rt Searching.demo_task false c = false) \/ found_in demo_rt 9 Searching.demo_task 255 0 (seqZ 0 2) 0).
Proof.
  assert ((walt_rt_energy_aware_wake_cpu demo_rt 9 Searching.demo_task 255 1 (-1)).2 = 0) as E by (vm_compute; reflexivity).
  split; [exact E|].
  pose proof (rt_least_loaded demo_rt 9 Searching.demo_task false) as H.
  assert (forall c, rt_lt demo_rt c = false) as H1 by (intros c; reflexivity).
  assert (forall c, cpu_util_of (rt_pv demo_rt) c < ULONG_MAX) as H2.
  { intros c. unfold cpu_util_of, ULONG_MAX. assert (pv_cap (rt_pv demo_rt) c <= 1024); [|lia]. unfold pv_cap. cbn. by destruct (c <? 4). }
  specialize (H H1 H2 eq_refl 255 1 eq_refl ltac:(discriminate) eq_refl). cbv zeta in H. rewrite E in H. exact H.
Defined.


(** ** A suitable CPU passed over *)

(** CPU 0 runs a low latency task and the task was on it; CPU 1 does not, and has the same
    load. The search means to prefer CPU 1, whatever the load, but stays with CPU 0, because
    ties go to the CPU the task was on. *)
Definition demo_tie : rt_env :=
  demo_rt <| rt_pv := Searching.demo_pv <| pv_util := fun cpu => if cpu <? 2 then 50 else 60 |> |> <| rt_low_latency := fun cpu => cpu =? 0 |>.
Lemma suitable_cpu_passed_over :
  rt_lt demo_tie 0 = true /\ rt_lt demo_tie 1 = false /\ prev_cpu_of (rt_pv demo_tie) 9 = 0 /\
  (walt_rt_energy_aware_wake_cpu demo_tie 9 Searching.demo_task 3 1 (-1)).2 = 0 /\
  (walt_rt_energy_aware_wake_cpu (demo_tie <| rt_pv := Searching.demo_pv <| pv_util := fun cpu => 50 + cpu |> |>) 9
     Searching.demo_task 3 1 (-1)).2 = 1.
Proof. vm_compute. done. Qed.

(** ** The watch over long runs *)

(** With a limit that the file accepts, the product does not wrap: the system is brought
    down at a tick exactly when the FIFO task that was switched to at [arrival] has run
    longer than the limit, which is never below 800 ms. *)
Lemma long_run_detected proc write registered limit0 arrival clock :
  0 <= (proc limit0).1 <= 2000 -> 0 < arrival <= clock -> clock < 2 ^ 64 ->
  let limit := (sched_long_running_rt_task_ms_handler proc write registered limit0).1.1 in
  (limit = 0 \/ 800 <= limit) /\
  ((long_running_rt_task_notifier limit true clock (rt_task_arrival_marker true false arrival)).2 = true <->
   limit <> 0 /\ limit * 1000000 < clock - arrival) /\
  long_running_rt_task_notifier limit false clock arrival = (if limit =? 0 then arrival else 0, false).
Proof.
  intros Hp Ha Hc. unfold sched_long_running_rt_task_ms_handler. destruct (proc limit0) as [l ret]. cbn [fst] in *.
  set (limit := if (0 <? l) && (l <? 800) then 800 else l). assert (0 <= limit <= 2000 /\ (limit = 0 \/ 800 <= limit)) as (H1 & H2).
  { unfold limit. destruct (_ && _) eqn:E; lia. }
  clearbody limit. split; [done|]. unfold long_running_rt_task_notifier, rt_task_arrival_marker, NSEC_PER_MSEC. cbn [andb negb].
  rewrite u32_small, u64_small by lia. replace (arrival =? 0) with false by lia. destruct (limit =? 0) eqn:E; cbn [fst snd]; split; try done; try lia.
Qed.

End RealTimePlacement.
