(* ===== verification/Topology.v ===== *)
(** * Clusters

    How [walt.c] groups the CPUs into clusters at boot: [walt_update_cluster_topology] and the
    functions it calls, and the tables [sched_cluster] and [cpu_array] that the rest of the
    scheduler walks. A cluster is named by its address, the number of its allocation; the
    cluster of a run queue is [None] while it is [init_cluster]. *)

From Stdlib Require Import ZArith Lia ZifyBool Bool Permutation.
From stdpp Require Import base list sets functions numbers list_numbers sorting.
From S2P Require Import Prelude WaltTypes Cpumask SmartFreq.

(** [struct walt_sched_cluster], as far as it is set up here. *)
Record kcluster := mk_kc {
  k_cpus : Z;
  k_id : Z;
  k_max_possible_freq : Z;
  k_max_freq : Z;
  k_sibling : Z
}.

(** [tp_heap] has the clusters by address, [tp_list] the list they are linked in ([new_head],
    then [cluster_head]), [tp_rq] the cluster of each run queue. *)
Record topo := mk_tp {
  tp_heap : list kcluster;
  tp_list : list nat;
  tp_num : Z;
  tp_rq : Z -> option nat;
  tp_domain : Z -> Z;
  tp_table : list nat;
  tp_min_id : Z;
  tp_max_id : Z;
  tp_array : list (list Z);
  tp_l2 : Z -> Z;
  tp_max_cached : Z;
  tp_upmigrate : Z;
  tp_downmigrate : Z;
  tp_panic : bool;
  tp_parsed : bool
}.

(** What the machine says: the possible CPUs, the cluster id of a CPU in [cpu_topology],
    its capacity, its cpufreq policy ([cpuinfo.max_freq], [max] and [related_cpus]), the
    node of its next level cache in the device tree; the window ([sched_ravg_window]) and the
    settings of the group thresholds. *)
Record topo_env := mk_te {
  te_possible : Z;
  te_cluster_id : Z -> Z;
  te_capacity : Z -> Z;
  te_policy : Z -> option (Z * Z * Z);
  te_cache : Z -> option Z;
  te_window : Z;
  te_upmigrate_pct : Z;
  te_downmigrate_pct : Z
}.

Section Building.
Context (e : topo_env).

Definition empty_cluster : kcluster := mk_kc 0 0 0 0 0.
Definition cluster_at (s : topo) (k : nat) : kcluster := nth k (tp_heap s) empty_cluster.
Definition cpus_at (s : topo) (k : nat) : Z := k_cpus (cluster_at s k).
Definition capacity_at (s : topo) (k : nat) : Z := te_capacity e (cpumask_first (cpus_at s k)).
Definition on_cluster (k : nat) (f : kcluster -> kcluster) (s : topo) : topo := s <| tp_heap := alter f k (tp_heap s) |>.

Definition walt_get_possible_siblings (cpuid : Z) : Z :=
  if te_cluster_id e cpuid =? -1 then 0 else
  for_each_cpu (te_possible e) (fun cpu cluster_cpus =>
    if negb (te_cluster_id e cpuid =? te_cluster_id e cpu) then cluster_cpus else Z.setbit cluster_cpus cpu) 0.

(** Before the first cluster that is larger. *)
Fixpoint insert_cluster (s : topo) (cluster : nat) (l : list nat) : list nat :=
  match l with
  | [] => [cluster]
  | tmp :: l => if capacity_at s cluster <? capacity_at s tmp then cluster :: tmp :: l else tmp :: insert_cluster s cluster l
  end.

Definition alloc_new_cluster (cpus : Z) (s : topo) : topo * nat :=
  (s <| tp_heap := tp_heap s ++ [mk_kc cpus 0 1 1 (-1)] |>, length (tp_heap s)).

Definition add_cluster (cpus : Z) (s : topo) : topo :=
  let '(s, cluster) := alloc_new_cluster cpus s in
  if MAX_CLUSTERS <=? tp_num s then s <| tp_panic := true |> else
  let s := s <| tp_rq := for_each_cpu cpus (fun i rq => <[i := Some cluster]> rq) (tp_rq s) |> in
  s <| tp_list := insert_cluster s cluster (tp_list s) |> <| tp_num := tp_num s + 1 |>.

(** The clusters of the list are freed; their addresses are not used again. *)
Definition cleanup_clusters (s : topo) : topo :=
  fold_left (fun s cluster =>
    s <| tp_rq := for_each_cpu (cpus_at s cluster) (fun i rq => <[i := None]> rq) (tp_rq s) |>
      <| tp_list := tail (tp_list s) |> <| tp_num := tp_num s - 1 |>) (tp_list s) s.

(** The two middle ones of four clusters: the larger first. *)
Definition align_clusters (s : topo) : topo :=
  if negb (tp_num s =? 4) then s else
  match tp_list s with
  | a :: c1 :: c2 :: l => if capacity_at s c1 <? capacity_at s c2 then s <| tp_list := a :: c2 :: c1 :: l |> else s
  | _ => s
  end.

Definition assign_cluster_ids (s : topo) : topo :=
  let '(s, pos) :=
    fold_left (fun '(s, pos) cluster =>
      (on_cluster cluster (fun k => k <| k_id := pos |>) (s <| tp_table := tp_table s ++ [cluster] |>), pos + 1))
      (tp_list s) (s <| tp_table := [] |>, 0) in
  s.

(** The cpufreq policy of a cluster. *)
Definition read_policy (cluster : nat) (s : topo) : topo :=
  match te_policy e (cpumask_first (cpus_at s cluster)) with
  | None => s <| tp_panic := true |>
  | Some (max_freq, max, related_cpus) =>
      let s := on_cluster cluster (fun k => k <| k_max_possible_freq := max_freq |> <| k_max_freq := max |>) s in
      s <| tp_domain := for_each_cpu (cpus_at s cluster) (fun i d => <[i := related_cpus]> d) (tp_domain s) |>
        <| tp_max_cached := if max_freq <? tp_max_cached s then tp_max_cached s else max_freq |>
  end.

(** One turn: the highest and lowest capacity so far, and the ids they belong to. *)
Definition stats_step (s : topo) (x : Z * Z * Z * Z) (cluster : nat) : Z * Z * Z * Z :=
  let '(highest_mpc, lowest_mpc, lo, hi) := x in
  let mpc := capacity_at s cluster in
  let id := k_id (cluster_at s cluster) in
  let '(highest_mpc, hi) := if highest_mpc <? mpc then (mpc, id) else (highest_mpc, hi) in
  let '(lowest_mpc, lo) := if mpc <? lowest_mpc then (mpc, id) else (lowest_mpc, lo) in
  (highest_mpc, lowest_mpc, lo, hi).
Definition walt_update_group_thresholds (s : topo) : topo :=
  let min_scale := u32 (capacity_at s (nth 0 (tp_table s) 0%nat)) in
  let min_ms := u32 (min_scale * Z.shiftr (te_window e) SCHED_CAPACITY_SHIFT) in
  s <| tp_upmigrate := u32 (u64 (min_ms * te_upmigrate_pct e) / 100) |>
    <| tp_downmigrate := u32 (u64 (min_ms * te_downmigrate_pct e) / 100) |>.

Definition update_all_clusters_stats (s : topo) : topo :=
  let '(_, _, lo, hi) := fold_left (stats_step s) (tp_list s) (0, 2 ^ 64 - 1, tp_min_id s, tp_max_id s) in
  walt_update_group_thresholds (s <| tp_min_id := lo |> <| tp_max_id := hi |>).

Definition cpu_arrays_init_x11 : list (list nat) := [[0]]%nat.
Definition cpu_arrays_init_x22 : list (list nat) := [[0; 1]; [1; 0]]%nat.
Definition cpu_arrays_init_x33 : list (list nat) := [[0; 1; 2]; [1; 2; 0]; [2; 1; 0]]%nat.
Definition cpu_arrays_init_x44 : list (list nat) := [[0; 2; 1; 3]; [1; 2; 3; 0]; [2; 3; 1; 0]; [3; 1; 2; 0]]%nat.

Definition select_init_list (n : Z) : option (list (list nat)) :=
  if n =? 1 then Some cpu_arrays_init_x11 else if n =? 2 then Some cpu_arrays_init_x22 else
  if n =? 3 then Some cpu_arrays_init_x33 else if n =? 4 then Some cpu_arrays_init_x44 else None.

Definition build_cpu_array (s : topo) : topo :=
  match select_init_list (tp_num s) with
  | None => s <| tp_panic := true |>
  | Some orders => s <| tp_array := map (map (fun id => cpus_at s (nth id (tp_table s) 0%nat))) orders |>
  end.

Definition find_cache_siblings (s : topo) : topo :=
  s <| tp_l2 := for_each_cpu (te_possible e) (fun cpu l2 =>
    match te_cache e cpu with
    | None => l2
    | Some node =>
        match for_each_cpu_until (te_possible e) (fun cpu2 (_ : unit) =>
          if cpu =? cpu2 then inl tt else
          match te_cache e cpu2 with
          | None => inl tt
          | Some node2 => if node =? node2 then inr cpu2 else inl tt
          end) tt with
        | inl _ => l2
        | inr cpu2 => <[cpu := cpu2]> l2
        end
    end) (tp_l2 s) |>.

(** One turn of the loop; [cpus] shrinks under the loop, which tests the bit it has then. [inr]
    is the return for an invalid topology. *)
Definition topology_turn (i : Z) (x : (topo * Z) + topo) : (topo * Z) + topo :=
  match x with
  | inr s => inr s
  | inl (s, cpus) =>
      if negb (Z.testbit cpus i) then inl (s, cpus) else
      let cluster_cpus := walt_get_possible_siblings i in
      if cpumask_empty cluster_cpus then inr (cleanup_clusters s)
      else inl (add_cluster cluster_cpus s, Z.ldiff cpus cluster_cpus)
  end.

(** [early_walt_config] and [create_freq_to_cost], which fill the tables of other components
    between the two last steps, touch nothing of this state. *)
Definition walt_update_cluster_topology (s : topo) : topo :=
  match for_range 0 (Z.to_nat WALT_NR_CPUS) topology_turn (inl (s, te_possible e)) with
  | inr s => s
  | inl (s, _) =>
      let s := assign_cluster_ids (align_clusters s) in
      let s := fold_left (fun s k => read_policy k s) (tp_list s) s in
      let s := update_all_clusters_stats s in
      (find_cache_siblings (build_cpu_array s)) <| tp_parsed := true |>
  end.

End Building.

(** ** The clusters are the classes of the topology *)

Module Clusters.

Section Loop.
Context (e : topo_env).
Abbreviation possible c := (Z.testbit (te_possible e) c = true).
Abbreviation cid := (te_cluster_id e).

(** The first CPU of each cluster, in increasing order. *)
Fixpoint leaders (n : nat) : list Z :=
  match n with
  | O => []
  | S m => let l := leaders m in
           if Z.testbit (te_possible e) (Z.of_nat m) && forallb (fun i => negb (cid i =? cid (Z.of_nat m))) l
           then l ++ [Z.of_nat m] else l
  end.

(** Every possible CPU has an id, and the policies are set up. *)
Record valid : Prop := mk_valid {
  va_mask : mask_ok (te_possible e);
  va_some : te_possible e <> 0;
  va_ids : forall c, possible c -> cid c <> -1;
  va_few : (length (leaders 8) <= 4)%nat;
  va_policy : forall c, te_policy e c <> None;
  va_capacity : forall c, 0 < te_capacity e c < 2 ^ 64 - 1
}.

Lemma siblings_bits i c : 0 <= c -> cid i <> -1 -> mask_ok (te_possible e) ->
  Z.testbit (walt_get_possible_siblings e i) c = true <-> possible c /\ cid c = cid i.
Proof.
  intros Hc Hi Hm. unfold walt_get_possible_siblings. replace (cid i =? -1) with false by lia.
  set (f := fun cpu m => if negb (cid i =? cid cpu) then m else Z.setbit m cpu).
  set (P := fun n m => forall d, 0 <= d -> Z.testbit m d = true <-> d < n /\ possible d /\ cid d = cid i).
  assert (P WALT_NR_CPUS (for_each_cpu (te_possible e) f 0)) as H.
  { apply (for_each_cpu_ind P); unfold P.
    - intros d Hd. rewrite Z.bits_0. split; [done|lia].
    - intros x m [Hx _] Hb H d Hd. unfold f. destruct (negb (cid i =? cid x)) eqn:E.
      + rewrite H by done. destruct (Z.eq_dec d x) as [->|]; lia.
      + rewrite setbit_spec by done. rewrite orb_true_iff, H by done. destruct (Z.eq_dec d x) as [->|]; lia.
    - intros x m Hx Hb H d Hd. rewrite H by done. destruct (Z.eq_dec d x) as [->|]; [rewrite Hb|]; split; intros; try lia; intuition congruence. }
  rewrite (H c Hc). split; [tauto|]. intros [A B]. split; [|done]. by apply (mask_bit_is_cpu _ _ Hm A).
Qed.

Lemma leaders_bound n i : i ∈ leaders n -> 0 <= i < Z.of_nat n /\ possible i.
Proof.
  induction n as [|n IH]; cbn [leaders]; [intros H; by apply not_elem_of_nil in H|].
  destruct (_ && _) eqn:E; [|intros H; specialize (IH H); lia || (destruct IH; split; [lia|done])].
  intros [H|H]%elem_of_app; [destruct (IH H); split; [lia|done]|]. apply list_elem_of_singleton in H as ->.
  apply andb_true_iff in E as [E _]. split; [lia|done].
Qed.

Lemma leaders_cover n c : 0 <= c < Z.of_nat n -> possible c -> exists i, i ∈ leaders n /\ cid i = cid c.
Proof.
  induction n as [|n IH]; intros Hc Hp; [lia|]. cbn [leaders]. destruct (Z.eq_dec c (Z.of_nat n)) as [->|Hne].
  - rewrite Hp. cbn [andb]. destruct (forallb _ _) eqn:E.
    + exists (Z.of_nat n). split; [|done]. apply elem_of_app. right. by apply list_elem_of_singleton.
    + assert (exists i, i ∈ leaders n /\ cid i = cid (Z.of_nat n)) as H; [|done].
      apply not_true_iff_false in E. rewrite forallb_forall in E.
      destruct (decide (Exists (fun i => cid i = cid (Z.of_nat n)) (leaders n))) as [X|X]; [apply list.Exists_exists in X; naive_solver|].
      exfalso. apply E. intros i Hi. apply list_elem_of_In in Hi. apply negb_true_iff, Z.eqb_neq. intros Eq. apply X, list.Exists_exists. eauto.
  - destruct (IH ltac:(lia) Hp) as (i & Hi & Ei). exists i. split; [|done]. destruct (_ && _); [apply elem_of_app; by left|done].
Qed.

Lemma leaders_distinct n : NoDup (map cid (leaders n)).
Proof.
  induction n as [|n IH]; cbn [leaders]; [constructor|]. destruct (_ && _) eqn:E; [|done].
  apply andb_true_iff in E as [_ E]. rewrite forallb_forall in E. rewrite map_app. apply NoDup_app. split_and!; [done| |apply NoDup_singleton].
  intros x Hx Hn. cbn in Hn. apply list_elem_of_singleton in Hn as ->. apply list_elem_of_fmap in Hx as (i & Ei & Hi).
  apply list_elem_of_In in Hi. specialize (E i Hi). lia.
Qed.

Lemma leaders_mono n m : (n <= m)%nat -> (length (leaders n) <= length (leaders m))%nat.
Proof.
  induction 1 as [|m _ IH]; [done|]. cbn [leaders]. destruct (_ && _); [rewrite length_app; cbn [length]; lia|done].
Qed.

Definition not_larger (s : topo) (a b : nat) : Prop := capacity_at e s a <= capacity_at e s b.

Lemma insert_perm s k l : insert_cluster e s k l ≡ₚ k :: l.
Proof.
  induction l as [|x l IH]; [done|]. cbn [insert_cluster]. destruct (_ <? _); [done|]. rewrite IH. apply Permutation_swap.
Qed.
Lemma insert_sorted s k l : StronglySorted (not_larger s) l -> StronglySorted (not_larger s) (insert_cluster e s k l).
Proof.
  induction 1 as [|x l Hl IH Hx]; cbn [insert_cluster]; [repeat constructor|]. destruct (capacity_at e s k <? capacity_at e s x) eqn:E.
  - constructor; [by constructor|]. constructor; [unfold not_larger; lia|]. eapply Forall_impl; [exact Hx|]. unfold not_larger. intros; lia.
  - constructor; [done|]. rewrite insert_perm. constructor; [unfold not_larger; lia|done].
Qed.

Definition leader_cluster (i : Z) : kcluster := mk_kc (walt_get_possible_siblings e i) 0 1 1 (-1).

Record loop_inv (n : nat) (s : topo) (cpus : Z) : Prop := mk_li {
  li_heap : tp_heap s = map leader_cluster (leaders n);
  li_cpus : forall c, 0 <= c -> Z.testbit cpus c = true <-> possible c /\ forall i, i ∈ leaders n -> cid i <> cid c;
  li_list : tp_list s ≡ₚ seq 0 (length (leaders n));
  li_sorted : StronglySorted (not_larger s) (tp_list s);
  li_num : tp_num s = Z.of_nat (length (leaders n));
  li_rq : forall c k, is_cpu c -> tp_rq s c = Some k <-> exists i, leaders n !! k = Some i /\ possible c /\ cid c = cid i;
  li_panic : tp_panic s = false
}.

(** The writes of the run queues of one cluster. *)
Lemma rq_writes mask (k : nat) (rq : Z -> option nat) c :
  is_cpu c -> for_each_cpu mask (fun i rq => <[i := Some k]> rq) rq c = if Z.testbit mask c then Some k else rq c.
Proof.
  intros Hc. set (f := fun i (rq : Z -> option nat) => <[i := Some k]> rq).
  set (P := fun n (r : Z -> option nat) => forall d, 0 <= d < WALT_NR_CPUS -> r d = if (d <? n) && Z.testbit mask d then Some k else rq d).
  assert (P WALT_NR_CPUS (for_each_cpu mask f rq)) as H; [|rewrite (H c Hc); destruct Hc; by replace (c <? WALT_NR_CPUS) with true by lia].
  apply (for_each_cpu_ind P); unfold P.
  - intros d Hd. by replace (d <? 0) with false by lia.
  - intros x r Hx Hb H d Hd. unfold f. unfold insert, fn_insert. destruct (decide (x = d)) as [->|Hne].
    + replace (d <? d + 1) with true by lia. by rewrite Hb.
    + rewrite H by done. by replace (d <? x + 1) with (d <? x) by lia.
  - intros x r Hx Hb H d Hd. rewrite H by done. destruct (Z.eq_dec d x) as [->|]; [rewrite Hb; by rewrite !andb_false_r|].
    by replace (d <? x + 1) with (d <? x) by lia.
Qed.

Lemma add_cluster_inv n s cpus :
  mask_ok (te_possible e) -> (length (leaders 8) <= 4)%nat -> cid (Z.of_nat n) <> -1 -> (n < 8)%nat -> loop_inv n s cpus -> Z.testbit cpus (Z.of_nat n) = true ->
  loop_inv (S n) (add_cluster e (walt_get_possible_siblings e (Z.of_nat n)) s) (Z.ldiff cpus (walt_get_possible_siblings e (Z.of_nat n))).
Proof.
  intros Vm Vf Hid Hn [Hh Hc Hl Hs Hm Hr Hp] Hb. set (i := Z.of_nat n) in *. set (m := walt_get_possible_siblings e i).
  apply Hc in Hb as [Hpi Hnew]; [|lia].
  assert (leaders (S n) = leaders n ++ [i]) as EL.
  { cbn [leaders]. fold i. rewrite Hpi. cbn [andb]. replace (forallb _ _) with true; [done|]. symmetry. apply forallb_forall.
    intros j Hj. apply list_elem_of_In in Hj. specialize (Hnew j Hj). lia. }
  assert (length (leaders n) < 4)%nat as Hlt.
  { pose proof (leaders_mono (S n) 8 ltac:(lia)) as M. rewrite EL, length_app in M. cbn [length] in M. lia. }
  assert (length (tp_heap s) = length (leaders n)) as EH by (rewrite Hh; apply length_map).
  set (k := length (leaders n)) in *. pose (s1 := s <| tp_heap := tp_heap s ++ [mk_kc m 0 1 1 (-1)] |>).
  pose (s2 := s1 <| tp_rq := for_each_cpu m (fun i rq => <[i := Some k]> rq) (tp_rq s1) |>).
  assert (add_cluster e m s = s2 <| tp_list := insert_cluster e s2 k (tp_list s) |> <| tp_num := tp_num s + 1 |>) as ->.
  { unfold add_cluster, alloc_new_cluster. rewrite EH. destruct (MAX_CLUSTERS <=? _) eqn:E; [|reflexivity].
    exfalso. change ((MAX_CLUSTERS <=? tp_num s) = true) in E. unfold MAX_CLUSTERS in E. lia. }
  assert (forall x, (x < k)%nat -> capacity_at e s2 x = capacity_at e s x) as Hcap.
  { intros x Hx. unfold capacity_at, cpus_at, cluster_at. subst s2 s1. cbn [tp_heap set const]. by rewrite app_nth1 by lia. }
  assert (forall x, x ∈ tp_list s -> (x < k)%nat) as Hin by (intros x Hx; rewrite Hl in Hx; apply elem_of_seq in Hx; lia).
  assert (StronglySorted (not_larger s2) (tp_list s)) as Hs2.
  { clear -Hs Hin Hcap. revert Hin. induction Hs as [|x l Hl IH Hx]; intros Hin; [constructor|]. constructor; [apply IH; intros y Hy; apply Hin; by right|].
    apply list.Forall_forall. intros y Hy. rewrite list.Forall_forall in Hx. specialize (Hx y Hy). unfold not_larger in *.
    rewrite !Hcap; [done|apply Hin; by right|apply Hin; left]. }
  split.
  - subst s2 s1. cbn [tp_heap set const]. rewrite Hh, EL, map_app. done.
  - intros c Hc0. rewrite Z.ldiff_spec, EL. fold m. split.
    + intros [A B%negb_true_iff]%andb_true_iff. apply Hc in A as [A1 A2]; [|done]. split; [done|]. intros j [Hj|Hj]%elem_of_app; [by apply A2|].
      apply list_elem_of_singleton in Hj as ->. intros Eq. assert (Z.testbit m c = true) as X by (by apply siblings_bits; [done|done|exact Vm|]). congruence.
    + intros [A B]. apply andb_true_iff. split.
      * apply Hc; [done|]. split; [done|]. intros j Hj. apply B. apply elem_of_app. by left.
      * apply negb_true_iff, not_true_iff_false. intros X. apply siblings_bits in X as [_ X]; [|done|done|exact Vm].
        apply (B i); [apply elem_of_app; right; by apply list_elem_of_singleton|done].
  - subst s2 s1. cbn [tp_list set const]. rewrite insert_perm, EL, length_app. cbn [length]. fold k. rewrite Nat.add_1_r, seq_S, Hl.
    rewrite Nat.add_0_l. apply Permutation_cons_append.
  - set (s3 := s2 <| tp_list := _ |> <| tp_num := _ |>). change (not_larger s3) with (not_larger s2). by apply insert_sorted.
  - subst s2 s1. cbn [tp_num set const]. rewrite EL, length_app, Hm. cbn [length]. lia.
  - intros c x Hcpu. subst s2 s1. cbn [tp_rq set const]. rewrite rq_writes by done. rewrite EL.
    destruct (Z.testbit m c) eqn:Em.
    + apply siblings_bits in Em as [E1 E2]; [|apply Hcpu|done|exact Vm]. split.
      * intros [= <-]. exists i. split; [|done]. rewrite lookup_app_r by (fold k; lia). by replace (k - length (leaders n))%nat with 0%nat by (fold k; lia).
      * intros (j & Hj & _ & Ej). f_equal. rewrite lookup_app in Hj. destruct (leaders n !! x) as [y|] eqn:Ex.
        { simplify_eq. apply list_elem_of_lookup_2 in Ex. exfalso. apply (Hnew j Ex). congruence. }
        { apply lookup_ge_None in Ex. fold k in Ex, Hj. destruct (x - k)%nat as [|z] eqn:Ez; [lia|]. by rewrite lookup_nil in Hj || done. }
    + rewrite Hr by done. split; intros (j & Hj & Hj1 & Hj2); exists j; split; try done.
      * by apply lookup_app_l_Some.
      * rewrite lookup_app in Hj. destruct (leaders n !! x) eqn:Ex; [done|]. destruct (x - _)%nat; [|done]. cbn in Hj. simplify_eq.
        assert (Z.testbit m c = true) as X; [|congruence]. apply siblings_bits; [apply Hcpu|done|exact Vm|done].
  - done.
Qed.

Definition boot : topo :=
  mk_tp [] [] 0 (fun _ => None) (fun _ => 0) [] 0 0 [] (fun _ => -1) 0 20000000 19000000 false false.

Lemma loop_spec :
  valid -> exists s cpus, for_range 0 (Z.to_nat WALT_NR_CPUS) (topology_turn e) (inl (boot, te_possible e)) = inl (s, cpus) /\ loop_inv 8 s cpus.
Proof.
  intros V. set (P := fun n (x : (topo * Z) + topo) => exists s cpus, x = inl (s, cpus) /\ loop_inv (Z.to_nat n) s cpus).
  assert (P (0 + Z.of_nat (Z.to_nat WALT_NR_CPUS)) (for_range 0 (Z.to_nat WALT_NR_CPUS) (topology_turn e) (inl (boot, te_possible e)))) as H; [|exact H].
  apply (for_range_ind P).
  - exists boot, (te_possible e). split; [done|]. split; try done.
    + intros c Hc. split; [|by intros []]. intros H. split; [done|]. intros i Hi. by apply not_elem_of_nil in Hi.
    + constructor.
    + intros c k _. split; [done|]. intros (i & Hi & _). done.
  - intros i x Hi (s & cpus & -> & L). unfold WALT_NR_CPUS in Hi. cbn [topology_turn]. unfold P. replace (Z.to_nat (i + 1)) with (S (Z.to_nat i)) by lia.
    assert (Z.of_nat (Z.to_nat i) = i) as Ei by lia. destruct (Z.testbit cpus i) eqn:Eb; cbn [negb].
    + assert (possible i) as Hp by (apply (li_cpus _ _ _ L i) in Eb; [tauto|lia]).
      destruct (cpumask_empty _) eqn:Ez.
      { exfalso. unfold cpumask_empty in Ez. assert (Z.testbit (walt_get_possible_siblings e i) i = true) as X.
        { apply siblings_bits; [lia|by apply V|apply V|done]. }
        apply Z.eqb_eq in Ez. rewrite Ez, Z.bits_0 in X. done. }
      eexists _, _. split; [done|]. rewrite <- Ei at 2 3. rewrite <- Ei in Eb. apply add_cluster_inv; [apply V|apply V|by rewrite Ei; apply V|lia|done|done].
    + exists s, cpus. split; [done|]. assert (leaders (S (Z.to_nat i)) = leaders (Z.to_nat i)) as EL.
      { cbn [leaders]. rewrite Ei. destruct (_ && _) eqn:E; [|done]. apply andb_true_iff in E as [E1 E2]. rewrite forallb_forall in E2.
        assert (Z.testbit cpus i = true) as X; [|congruence]. apply (li_cpus _ _ _ L); [lia|]. split; [done|]. intros j Hj.
        apply list_elem_of_In in Hj. specialize (E2 j Hj). lia. }
      destruct L. split; rewrite ?EL; done.
Qed.

(** What the later steps leave alone. *)
Record same_shape (s s' : topo) : Prop := mk_ss {
  ss_list : tp_list s' = tp_list s;
  ss_table : tp_table s' = tp_table s;
  ss_num : tp_num s' = tp_num s;
  ss_rq : tp_rq s' = tp_rq s;
  ss_cpus : forall k, cpus_at s' k = cpus_at s k;
  ss_id : forall k, k_id (cluster_at s' k) = k_id (cluster_at s k);
  ss_panic : tp_panic s' = tp_panic s
}.

#[export] Instance same_shape_preorder : PreOrder same_shape.
Proof. split; [by intros s|]. intros s1 s2 s3 [] []. split; try congruence; intros k; congruence. Qed.

Lemma on_cluster_at k f s j : (k < length (tp_heap s))%nat -> cluster_at (on_cluster k f s) j = if decide (j = k) then f (cluster_at s j) else cluster_at s j.
Proof.
  intros Hk. unfold cluster_at, on_cluster. cbn [tp_heap set const]. rewrite !nth_lookup. case_decide as E.
  - subst j. rewrite list_lookup_alter. destruct (lookup_lt_is_Some_2 _ _ Hk) as [x ->]. by rewrite decide_True.
  - rewrite list_lookup_alter. by rewrite decide_False by congruence.
Qed.
Lemma on_cluster_length k f s : length (tp_heap (on_cluster k f s)) = length (tp_heap s).
Proof. unfold on_cluster. cbn. apply length_alter. Qed.

Lemma read_policy_shape k s : valid -> (k < length (tp_heap s))%nat -> same_shape s (read_policy e k s) /\ length (tp_heap (read_policy e k s)) = length (tp_heap s).
Proof.
  intros V Hk. unfold read_policy. pose proof (va_policy V (cpumask_first (cpus_at s k))) as Hp.
  destruct (te_policy e _) as [[[mf mx] rel]|]; [|done]. set (s1 := on_cluster k _ s).
  assert (forall j, cluster_at s1 j = if decide (j = k) then (cluster_at s j) <| k_max_possible_freq := mf |> <| k_max_freq := mx |> else cluster_at s j) as E
    by (intros j; by apply on_cluster_at).
  split; [|apply on_cluster_length]. split; try done.
  - intros j. unfold cpus_at. change (k_cpus (cluster_at s1 j) = k_cpus (cluster_at s j)). rewrite E. by case_decide.
  - intros j. change (k_id (cluster_at s1 j) = k_id (cluster_at s j)). rewrite E. by case_decide.
Qed.

Lemma policies_shape l : forall s, valid -> Forall (fun k => (k < length (tp_heap s))%nat) l -> same_shape s (fold_left (fun s k => read_policy e k s) l s).
Proof.
  induction l as [|k l IH]; intros s V F; cbn [fold_left]; [done|]. inversion F as [|? ? F1 F2]; subst.
  destruct (read_policy_shape k s V F1) as [S1 S2]. etrans; [exact S1|]. apply IH; [done|]. by rewrite S2.
Qed.

Lemma assign_fold l : forall s pos,
  NoDup l -> Forall (fun k => (k < length (tp_heap s))%nat) l ->
  let s' := (fold_left (fun '(s, pos) cluster =>
      (on_cluster cluster (fun k => k <| k_id := pos |>) (s <| tp_table := tp_table s ++ [cluster] |>), pos + 1)) l (s, pos)).1 in
  tp_table s' = tp_table s ++ l /\ tp_list s' = tp_list s /\ tp_num s' = tp_num s /\ tp_rq s' = tp_rq s /\ tp_panic s' = tp_panic s /\
  length (tp_heap s') = length (tp_heap s) /\ (forall k, cpus_at s' k = cpus_at s k) /\
  (forall k, k ∉ l -> k_id (cluster_at s' k) = k_id (cluster_at s k)) /\
  (forall j k, l !! j = Some k -> k_id (cluster_at s' k) = pos + Z.of_nat j).
Proof.
  induction l as [|c l IH]; intros s pos Hd F; cbn [fold_left]; [by rewrite app_nil_r|].
  apply list.NoDup_cons in Hd as [Hc Hd]. inversion F as [|? ? F1 F2]; subst.
  set (s1 := on_cluster c _ _). assert (length (tp_heap s1) = length (tp_heap s)) as E1 by (unfold s1; by rewrite on_cluster_length).
  assert (forall j, cluster_at s1 j = if decide (j = c) then (cluster_at s j) <| k_id := pos |> else cluster_at s j) as E2.
  { intros j. unfold s1. rewrite on_cluster_at; [done|exact F1]. }
  destruct (IH s1 (pos + 1) Hd) as (I1 & I2 & I3 & I4 & I5 & I6 & I7 & I8 & I9); [by rewrite E1|]. cbv zeta.
  set (s' := (fold_left _ l (s1, pos + 1)).1) in *. clearbody s'. split_and!.
  - rewrite I1. change (tp_table s1) with (tp_table s ++ [c]). by rewrite <- app_assoc.
  - exact I2. - exact I3. - exact I4. - exact I5. - by rewrite I6.
  - intros k. rewrite I7. unfold cpus_at. rewrite E2. by case_decide.
  - intros k Hk. rewrite I8 by set_solver. rewrite E2. rewrite decide_False by set_solver. done.
  - intros [|j] k Hj; cbn in Hj.
    + simplify_eq. rewrite I8 by done. rewrite E2, decide_True by done. cbn. lia.
    + rewrite (I9 j k Hj). lia.
Qed.

(** The largest and the smallest cluster, by their ids. *)
Lemma stats_spec s l :
  (forall c, 0 < te_capacity e c < 2 ^ 64 - 1) -> tp_list s = l -> l <> [] ->
  let s' := update_all_clusters_stats e s in
  same_shape s s' /\
  (exists k, k ∈ l /\ tp_max_id s' = k_id (cluster_at s k) /\ forall j, j ∈ l -> capacity_at e s j <= capacity_at e s k) /\
  (exists k, k ∈ l /\ tp_min_id s' = k_id (cluster_at s k) /\ forall j, j ∈ l -> capacity_at e s k <= capacity_at e s j).
Proof.
  intros Hc <- Hne. unfold update_all_clusters_stats.
  set (P := fun (done : list nat) (x : Z * Z * Z * Z) =>
    (done = [] /\ x.1.1.1 = 0 \/ exists k, k ∈ done /\ x.1.1.1 = capacity_at e s k /\ x.2 = k_id (cluster_at s k)) /\
    (done = [] /\ x.1.1.2 = 2 ^ 64 - 1 \/ exists k, k ∈ done /\ x.1.1.2 = capacity_at e s k /\ x.1.2 = k_id (cluster_at s k)) /\
    forall j, j ∈ done -> x.1.1.2 <= capacity_at e s j <= x.1.1.1).
  assert (forall l pre x, P pre x -> P (pre ++ l) (fold_left (stats_step e s) l x)) as H.
  { intros l. induction l as [|c l IH]; intros pre x Hx; cbn [fold_left]; [by rewrite app_nil_r|].
    rewrite cons_middle, app_assoc. apply IH. destruct x as [[[h lw] lo] hi]. destruct Hx as (A & B & C). cbn [fst snd] in *.
    assert (0 < capacity_at e s c < 2 ^ 64 - 1) as Hcap by apply Hc. unfold stats_step. set (v := capacity_at e s c) in *.
    destruct (h <? v) eqn:E1, (v <? lw) eqn:E2; unfold P; cbn [fst snd]; (split; [|split]).
    all: try (intros j [Hj|Hj]%elem_of_app; [specialize (C j Hj); lia|apply list_elem_of_singleton in Hj as ->; fold v; lia]).
    all: right; try (exists c; split; [apply elem_of_app; right; by apply list_elem_of_singleton|done]).
    all: first [destruct A as [[-> ->]|(k & K1 & K2 & K3)]; [lia|exists k; split; [apply elem_of_app; by left|done]]
               |destruct B as [[-> ->]|(k & K1 & K2 & K3)]; [lia|exists k; split; [apply elem_of_app; by left|done]]]. }
  specialize (H (tp_list s) [] (0, 2 ^ 64 - 1, tp_min_id s, tp_max_id s)). cbn [app] in H.
  destruct (fold_left (stats_step e s) (tp_list s) _) as [[[h lw] lo] hi]. destruct H as (A & B & C).
  { split; [by left|]. split; [by left|]. intros j Hj. by apply not_elem_of_nil in Hj. }
  cbn [fst snd] in *. split; [done|]. split.
  - destruct A as [[A _]|(k & K1 & K2 & K3)]; [done|]. exists k. split; [done|]. split; [exact K3|]. intros j Hj. specialize (C j Hj). lia.
  - destruct B as [[B _]|(k & K1 & K2 & K3)]; [done|]. exists k. split; [done|]. split; [exact K3|]. intros j Hj. specialize (C j Hj). lia.
Qed.

(** The order of row [i] of [cpu_array], as positions in the table. *)
Definition row_order (n : nat) : list (list nat) := default [] (select_init_list (Z.of_nat n)).

Lemma rows_ok n : (1 <= n <= 4)%nat ->
  length (row_order n) = n /\ forall i row, row_order n !! i = Some row -> row ≡ₚ seq 0 n /\ head row = Some i.
Proof.
  intros Hn.
  destruct (decide (n = 1 \/ n = 2 \/ n = 3 \/ n = 4)%nat) as [[->|[->|[->| ->]]]|]; [..|lia]; (split; [done|]);
    intros i row Hi; do 4 (destruct i as [|i]; [vm_compute in Hi; simplify_eq; try (split; [apply (bool_decide_unpack _); vm_compute; exact I|done])|]); vm_compute in Hi; done.
Qed.

Definition row0 (l : list nat) : list nat := map (fun id => nth id l 0%nat) (default [] (row_order (length l) !! 0%nat)).

(** The alignment of the middle clusters and the first row of [cpu_array] undo each other. *)
Lemma align_spec s :
  StronglySorted (not_larger s) (tp_list s) -> tp_num s = Z.of_nat (length (tp_list s)) -> (1 <= length (tp_list s) <= 4)%nat ->
  let s' := align_clusters e s in
  tp_list s' ≡ₚ tp_list s /\ tp_heap s' = tp_heap s /\ tp_num s' = tp_num s /\ tp_rq s' = tp_rq s /\ tp_panic s' = tp_panic s /\
  StronglySorted (not_larger s) (row0 (tp_list s')).
Proof.
  intros Hs Hn Hl. unfold align_clusters. destruct (tp_list s) as [|a [|b [|c [|d [|x l]]]]] eqn:E; cbn [length] in Hl, Hn; try lia.
  1-3: replace (tp_num s =? 4) with false by lia; cbn [negb]; (split_and!; try done); [by rewrite E|rewrite E; exact Hs].
  replace (tp_num s =? 4) with true by lia. cbn [negb].
  inversion Hs as [|? ? Hs1 Ha]; subst. inversion Hs1 as [|? ? Hs2 Hb]; subst. inversion Hs2 as [|? ? Hs3 Hc]; subst.
  rewrite !list.Forall_cons in Ha, Hb, Hc. unfold not_larger in Ha, Hb, Hc.
  destruct (capacity_at e s b <? capacity_at e s c) eqn:Ec.
  - split; [cbn; apply Permutation_skip, Permutation_swap|]. split_and!; try done.
  - split_and!; try done; [by rewrite E|]. rewrite E. change (StronglySorted (not_larger s) [a; c; b; d]).
    unfold not_larger. repeat (constructor; [|repeat constructor; lia]). constructor.
Qed.

Lemma shape_sorted s s' l : (forall k, cpus_at s' k = cpus_at s k) -> StronglySorted (not_larger s) l -> StronglySorted (not_larger s') l.
Proof.
  intros Hc. induction 1 as [|x l _ IH F]; constructor; [done|]. eapply Forall_impl; [exact F|]. intros y. unfold not_larger, capacity_at. by rewrite !Hc.
Qed.

(** The state after the ids are assigned. *)
Lemma numbered_spec :
  valid ->
  exists s cpus, for_range 0 (Z.to_nat WALT_NR_CPUS) (topology_turn e) (inl (boot, te_possible e)) = inl (s, cpus) /\
  let s' := assign_cluster_ids (align_clusters e s) in
  let n := length (leaders 8) in
  (1 <= n <= 4)%nat /\ tp_panic s' = false /\ tp_num s' = Z.of_nat n /\ length (tp_heap s') = n /\ tp_list s' = tp_table s' /\ tp_table s' ≡ₚ seq 0 n /\
  (forall pos k, tp_table s' !! pos = Some k -> k_id (cluster_at s' k) = Z.of_nat pos) /\
  StronglySorted (not_larger s') (row0 (tp_table s')) /\
  (forall c k, is_cpu c -> tp_rq s' c = Some k <-> exists i, leaders 8 !! k = Some i /\ possible c /\ cid c = cid i) /\
  (forall k i, leaders 8 !! k = Some i -> cpus_at s' k = walt_get_possible_siblings e i).
Proof.
  intros V. destruct (loop_spec V) as (s & cpus & E & [Hh Hc Hl Hs Hm Hr Hp]). exists s, cpus. split; [done|]. cbv zeta.
  set (n := length (leaders 8)) in *. assert (1 <= n <= 4)%nat as Hn.
  { split; [|apply V]. destruct (mask_nonzero_bit _ (va_mask V) (va_some V)) as (c & Hcp & Hb).
    destruct (leaders_cover 8 c) as (i & Hi & _); [unfold is_cpu, WALT_NR_CPUS in Hcp; lia|done|]. unfold n.
    destruct (leaders 8); [by apply not_elem_of_nil in Hi|cbn; lia]. }
  assert (length (tp_list s) = n) as El by (rewrite Hl; apply length_seq).
  destruct (align_spec s Hs) as (A1 & A2 & A3 & A4 & A5 & A6); [congruence|lia|]. set (s1 := align_clusters e s) in *. clearbody s1.
  assert (tp_list s1 ≡ₚ seq 0 n) as P1 by (by rewrite A1).
  unfold assign_cluster_ids. set (s1' := s1 <| tp_table := [] |>).
  destruct (assign_fold (tp_list s1) s1' 0) as (B1 & B2 & B3 & B4 & B5 & B6 & B7 & _ & B9).
  { rewrite P1. apply NoDup_seq. }
  { rewrite P1. apply list.Forall_forall. intros k Hk. apply elem_of_seq in Hk. change (tp_heap s1') with (tp_heap s1). rewrite A2, Hh, length_map. fold n. lia. }
  set (r := fold_left _ (tp_list s1) (s1', 0)) in *. destruct r as [s2 pos]. cbn [fst] in *. change (tp_table s1') with (@nil nat) in B1. cbn [app] in B1.
  assert (forall k, cpus_at s2 k = cpus_at s k) as Bc by (intros k; rewrite B7; unfold cpus_at, cluster_at; change (tp_heap s1') with (tp_heap s1); by rewrite A2).
  split_and!.
  - lia. - lia.
  - rewrite B5. change (tp_panic s1') with (tp_panic s1). congruence.
  - rewrite B3. change (tp_num s1') with (tp_num s1). congruence.
  - rewrite B6. change (tp_heap s1') with (tp_heap s1). rewrite A2, Hh. apply length_map.
  - rewrite B2. by rewrite B1.
  - by rewrite B1.
  - intros p k Hk. rewrite B1 in Hk. apply (B9 p k Hk).
  - rewrite B1. by apply (shape_sorted s).
  - intros c k Hcp. rewrite B4. change (tp_rq s1') with (tp_rq s1). rewrite A4. by apply Hr.
  - intros k i Hk. rewrite Bc. unfold cpus_at, cluster_at. rewrite Hh, nth_lookup, list_lookup_fmap, Hk. done.
Qed.

Lemma sorted_map {A B} (R : B -> B -> Prop) (f : A -> B) l : StronglySorted (fun x y => R (f x) (f y)) l -> StronglySorted R (map f l).
Proof. induction 1 as [|x l _ IH F]; cbn; constructor; [done|]. apply Forall_fmap. exact F. Qed.

(** The rows of [cpu_array], built from a table of clusters. *)
Lemma array_spec s n :
  (1 <= n <= 4)%nat -> tp_num s = Z.of_nat n -> length (tp_table s) = n ->
  let s' := build_cpu_array s in
  same_shape s s' /\ length (tp_array s') = n /\
  (forall i row, tp_array s' !! i = Some row -> row ≡ₚ map (cpus_at s) (tp_table s) /\ head row = cpus_at s <$> tp_table s !! i) /\
  tp_array s' !! 0%nat = Some (map (cpus_at s) (row0 (tp_table s))).
Proof.
  intros Hn Hm Hl. unfold build_cpu_array. rewrite Hm. destruct (rows_ok n Hn) as [R1 R2]. unfold row_order in R1, R2.
  destruct (select_init_list (Z.of_nat n)) as [orders|] eqn:Es; [|cbn in R1; lia]. change (length orders = n) in R1. cbv zeta. cbn [tp_array set const].
  split; [done|]. split; [by rewrite length_map|].
  assert (map (fun id => cpus_at s (nth id (tp_table s) 0%nat)) (seq 0 n) = map (cpus_at s) (tp_table s)) as Em.
  { rewrite <- Hl. apply list_eq. intros i. rewrite !list_lookup_fmap. destruct (decide (i < length (tp_table s))%nat) as [Hi|Hi].
    - rewrite lookup_seq_lt by done. cbn. rewrite nth_lookup. destruct (lookup_lt_is_Some_2 _ _ Hi) as [x ->]. done.
    - rewrite lookup_seq_ge by lia. rewrite lookup_ge_None_2 by lia. done. }
  split.
  - intros i row Hrow. rewrite list_lookup_fmap in Hrow. destruct (orders !! i) as [o|] eqn:Eo; [|done]. cbn in Hrow. injection Hrow as <-.
    assert (i < n)%nat as Hi by (rewrite <- R1; by eapply lookup_lt_Some).
    destruct (R2 i o Eo) as [P Hh]. split; [by rewrite P, Em|]. destruct o as [|j o]; [done|]. cbn in Hh. injection Hh as ->. cbn.
    rewrite nth_lookup. destruct (lookup_lt_is_Some_2 (tp_table s) i ltac:(lia)) as [x ->]. done.
  - rewrite list_lookup_fmap. unfold row0. rewrite Hl. unfold row_order. rewrite Es. cbn [default].
    destruct (orders !! 0%nat) as [o|] eqn:Eo; [|apply lookup_ge_None in Eo; lia]. cbn. rewrite Eo. cbn. by rewrite map_map.
Qed.

(** C32. The clusters that are built at boot are the classes of CPUs with the same id in
    the topology: every possible CPU belongs to the one cluster with exactly the CPUs of its id.
    The table lists each cluster once, at the position that is its id. Row [i] of
    [cpu_array] lists the CPUs of every cluster, beginning with cluster [i]; the first
    row by increasing capacity, also when the two middle clusters of four are swapped. The ids
    of the smallest and of the largest cluster belong to one of least and of greatest
    capacity. *)
Theorem clusters_are_classes :
  valid ->
  let s := walt_update_cluster_topology e boot in
  let n := length (leaders 8) in
  tp_panic s = false /\ tp_num s = Z.of_nat n /\ tp_table s ≡ₚ seq 0 n /\
  (forall c, possible c -> exists k, tp_rq s c = Some k /\ (k < n)%nat /\ forall d, 0 <= d -> Z.testbit (cpus_at s k) d = true <-> possible d /\ cid d = cid c) /\
  (forall pos k, tp_table s !! pos = Some k -> k_id (cluster_at s k) = Z.of_nat pos) /\
  (length (tp_array s) = n /\ forall i row, tp_array s !! i = Some row -> row ≡ₚ map (cpus_at s) (tp_table s) /\ head row = cpus_at s <$> tp_table s !! i) /\
  (exists row, tp_array s !! 0%nat = Some row /\ StronglySorted (fun a b => te_capacity e (cpumask_first a) <= te_capacity e (cpumask_first b)) row) /\
  (exists k, k ∈ tp_table s /\ tp_max_id s = k_id (cluster_at s k) /\ forall j, j ∈ tp_table s -> capacity_at e s j <= capacity_at e s k) /\
  (exists k, k ∈ tp_table s /\ tp_min_id s = k_id (cluster_at s k) /\ forall j, j ∈ tp_table s -> capacity_at e s k <= capacity_at e s j).
Proof.
  intros V. unfold walt_update_cluster_topology. destruct (numbered_spec V) as (s0 & cpus & -> & Hn & Np & Nn & Nh & Nl & Nt & Ni & Ns & Nr & Nc).
  set (s1 := assign_cluster_ids (align_clusters e s0)) in *. clearbody s1. clear s0 cpus. set (n := length (leaders 8)) in *.
  pose proof (policies_shape (tp_list s1) s1 V) as S2. set (s2 := fold_left _ _ s1) in *.
  assert (same_shape s1 s2) as S2'.
  { apply S2. rewrite Nl. rewrite Nt. apply list.Forall_forall. intros k Hk. apply elem_of_seq in Hk. lia. }
  clear S2. clearbody s2. assert (tp_list s2 = tp_table s1) as L2 by (rewrite (ss_list _ _ S2'); exact Nl).
  assert (length (tp_table s1) = n) as Lt by (rewrite Nt; apply length_seq).
  destruct (stats_spec s2 (tp_table s1) (va_capacity V) L2) as (S3 & Mx & Mn); [intros E; rewrite E in Lt; cbn [length] in Lt; lia|].
  set (s3 := update_all_clusters_stats e s2) in *.
  assert (same_shape s1 s3) as S13 by (by etrans).
  destruct (array_spec s3 n) as (S4 & R1 & R2 & R3); [lia|rewrite (ss_num _ _ S13); exact Nn|rewrite (ss_table _ _ S13); exact Lt|].
  set (s4 := build_cpu_array s3) in *. assert (tp_max_id s4 = tp_max_id s3 /\ tp_min_id s4 = tp_min_id s3) as [X1 X2] by (unfold s4, build_cpu_array; by case_match).
  clearbody s4. set (s := (find_cache_siblings e s4) <| tp_parsed := true |>).
  assert (same_shape s4 s) as S5 by done. assert (same_shape s1 s) as S15 by (etrans; [exact S13|]; by etrans).
  assert (same_shape s2 s) as S25 by (etrans; [exact S3|]; by etrans).
  assert (forall k, cpus_at s3 k = cpus_at s k) as C3 by (intros k; rewrite (ss_cpus _ _ S15), (ss_cpus _ _ S13); done).
  assert (tp_table s = tp_table s1) as T1 by apply (ss_table _ _ S15). assert (tp_table s3 = tp_table s1) as T3 by apply (ss_table _ _ S13).
  rewrite T1. split_and!.
  - rewrite (ss_panic _ _ S15). exact Np.
  - rewrite (ss_num _ _ S15). exact Nn.
  - exact Nt.
  - intros c Hc. pose proof (mask_bit_is_cpu _ _ (va_mask V) Hc) as Hcp.
    destruct (leaders_cover 8 c) as (i & Hi & Ei); [exact Hcp|done|]. apply list_elem_of_lookup in Hi as (k & Hk).
    destruct (leaders_bound 8 i) as [Hb Hpi]; [by eapply list_elem_of_lookup_2|]. exists k. split_and!.
    + rewrite (ss_rq _ _ S15). apply Nr; [done|]. exists i. split_and!; [done|done|congruence].
    + by eapply lookup_lt_Some.
    + intros d Hd. rewrite (ss_cpus _ _ S15), (Nc k i Hk), <- Ei. apply siblings_bits; [done|by apply V|apply V].
  - intros pos k Hk. rewrite (ss_id _ _ S15). by apply Ni.
  - exact R1.
  - intros i row Hrow. destruct (R2 i row Hrow) as [Q1 Q2]. rewrite T3 in Q1, Q2. rewrite (map_ext _ _ (fun k => eq_sym (C3 k))). split; [exact Q1|].
    rewrite Q2. destruct (tp_table s1 !! i) as [k|]; [cbn; by rewrite C3|done].
  - eexists. split; [exact R3|]. rewrite T3. apply sorted_map. revert Ns. apply shape_sorted. apply (ss_cpus _ _ S13).
  - destruct Mx as (k & K1 & K2 & K3). exists k. split; [exact K1|]. split; [by rewrite (ss_id _ _ S25), <- K2, <- X1|].
    intros j Hj. unfold capacity_at in *. rewrite !(ss_cpus _ _ S25). by apply K3.
  - destruct Mn as (k & K1 & K2 & K3). exists k. split; [exact K1|]. split; [by rewrite (ss_id _ _ S25), <- K2, <- X2|].
    intros j Hj. unfold capacity_at in *. rewrite !(ss_cpus _ _ S25). by apply K3.
Qed.

End Loop.

(** ** An invalid topology *)

Section Invalid.
Context (e : topo_env).

Lemma rq_clears mask (rq : Z -> option nat) c :
  is_cpu c -> for_each_cpu mask (fun i rq => <[i := None]> rq) rq c = if Z.testbit mask c then None else rq c.
Proof.
  intros Hc. set (P := fun n (r : Z -> option nat) => r c = if (c <? n) && Z.testbit mask c then None else rq c).
  assert (P WALT_NR_CPUS (for_each_cpu mask (fun i rq => <[i := None]> rq) rq)) as H;
    [|unfold P in H; rewrite H; destruct Hc; by replace (c <? WALT_NR_CPUS) with true by lia].
  apply (for_each_cpu_ind P); unfold P.
  - destruct Hc. by replace (c <? 0) with false by lia.
  - intros x r Hx Hb H. unfold insert, fn_insert. destruct (decide (x = c)) as [->|Hne].
    + replace (c <? c + 1) with true by lia. by rewrite Hb.
    + rewrite H. by replace (c <? x + 1) with (c <? x) by lia.
  - intros x r Hx Hb H. rewrite H. destruct (Z.eq_dec c x) as [->|]; [rewrite Hb; by rewrite !andb_false_r|].
    by replace (c <? x + 1) with (c <? x) by lia.
Qed.

(** The turn of [cleanup_clusters]. *)
Lemma cleanup_fold l : forall s,
  let s' := fold_left (fun s cluster =>
    s <| tp_rq := for_each_cpu (cpus_at s cluster) (fun i rq => <[i := None]> rq) (tp_rq s) |>
      <| tp_list := tail (tp_list s) |> <| tp_num := tp_num s - 1 |>) l s in
  tp_list s' = drop (length l) (tp_list s) /\ tp_num s' = tp_num s - Z.of_nat (length l) /\ tp_array s' = tp_array s /\ tp_parsed s' = tp_parsed s /\
  (forall c, is_cpu c -> (tp_rq s c = None -> tp_rq s' c = None) /\ ((exists k, k ∈ l /\ Z.testbit (cpus_at s k) c = true) -> tp_rq s' c = None)).
Proof.
  induction l as [|k l IH]; intros s; cbn [fold_left].
  { split_and!; [done|cbn; lia|done|done|]. intros c Hc. split; [done|]. intros (k & Hk & _). by apply not_elem_of_nil in Hk. }
  set (s1 := s <| tp_rq := _ |> <| tp_list := _ |> <| tp_num := _ |>). destruct (IH s1) as (A & B & C & D & F). cbv zeta.
  set (s' := fold_left _ l s1) in *. clearbody s'. split_and!.
  - rewrite A. change (tp_list s1) with (tail (tp_list s)). cbn [length]. destruct (tp_list s); cbn; [by rewrite drop_nil|done].
  - rewrite B. change (tp_num s1) with (tp_num s - 1). cbn [length]. lia.
  - exact C. - exact D.
  - intros c Hc. destruct (F c Hc) as [F1 F2].
    assert (tp_rq s1 c = if Z.testbit (cpus_at s k) c then None else tp_rq s c) as E1 by (exact (rq_clears (cpus_at s k) (tp_rq s) c Hc)).
    split; [intros H; apply F1; rewrite E1, H; by case_match|].
    intros (j & [->|Hj]%elem_of_cons & Hb); [apply F1; by rewrite E1, Hb|]. apply F2. exists j. split; [done|]. exact Hb.
Qed.

(** A topology in which a possible CPU has no cluster: nothing is left of the clusters, every
    run queue is back with [init_cluster], and the tables are not built. *)
Definition undone (s : topo) : Prop :=
  tp_list s = [] /\ tp_num s = 0 /\ (forall c, is_cpu c -> tp_rq s c = None) /\ tp_array s = [] /\ tp_parsed s = false.

Lemma cleanup_undone n s cpus :
  mask_ok (te_possible e) -> (n <= 8)%nat -> (forall c, 0 <= c < Z.of_nat n -> Z.testbit (te_possible e) c = true -> te_cluster_id e c <> -1) ->
  loop_inv e n s cpus -> tp_array s = [] -> tp_parsed s = false -> undone (cleanup_clusters s).
Proof.
  intros Vm Hn8 Hid L Ha Hpz. unfold cleanup_clusters. destruct (cleanup_fold (tp_list s) s) as (A & B & C & D & F).
  assert (length (tp_list s) = length (leaders e n)) as El by (rewrite (li_list _ _ _ _ L); apply length_seq).
  split_and!.
  - rewrite A. apply drop_all.
  - rewrite B, (li_num _ _ _ _ L), El. lia.
  - intros c Hc. destruct (F c Hc) as [F1 F2]. destruct (tp_rq s c) as [k|] eqn:Ek; [|by apply F1]. apply F2. exists k.
    apply (li_rq _ _ _ _ L c k Hc) in Ek as (i & Hi & Hp & Hci). split.
    + rewrite (li_list _ _ _ _ L). apply elem_of_seq. apply lookup_lt_Some in Hi. lia.
    + unfold cpus_at, cluster_at. rewrite (li_heap _ _ _ _ L), nth_lookup, list_lookup_fmap, Hi. cbn.
      pose proof (leaders_bound e n i ltac:(by eapply list_elem_of_lookup_2)) as [Hb Hpi].
      apply siblings_bits; [apply Hc|by apply Hid|done|done].
  - by rewrite C. - by rewrite D.
Qed.

Lemma add_cluster_rest cpus s : tp_array (add_cluster e cpus s) = tp_array s /\ tp_parsed (add_cluster e cpus s) = tp_parsed s.
Proof. unfold add_cluster, alloc_new_cluster. by case_match. Qed.

(** C33. If some possible CPU has no cluster id, the clusters that were already built are taken
    down again: the list is empty, the count is zero, every run queue is back with the
    initial cluster and no table is built, so that the rest of the scheduler does not start. *)
Theorem invalid_topology_undone :
  mask_ok (te_possible e) -> (length (leaders e 8) <= 4)%nat ->
  (exists c, Z.testbit (te_possible e) c = true /\ te_cluster_id e c = -1) ->
  undone (walt_update_cluster_topology e boot).
Proof.
  intros Vm Vf (bad & Hbad & Hid). unfold walt_update_cluster_topology.
  set (P := fun n (x : (topo * Z) + topo) =>
    (exists s cpus, x = inl (s, cpus) /\ loop_inv e (Z.to_nat n) s cpus /\ tp_array s = [] /\ tp_parsed s = false /\
      forall c, 0 <= c < n -> Z.testbit (te_possible e) c = true -> te_cluster_id e c <> -1) \/
    exists s, x = inr s /\ undone s).
  assert (P (0 + Z.of_nat (Z.to_nat WALT_NR_CPUS)) (for_range 0 (Z.to_nat WALT_NR_CPUS) (topology_turn e) (inl (boot, te_possible e)))) as H.
  { apply (for_range_ind P).
    - left. exists boot, (te_possible e). split; [done|]. split; [|split_and!; [done|done|intros c Hc; lia]]. split; try done.
      + intros c Hc. split; [|by intros []]. intros H. split; [done|]. intros i Hi. by apply not_elem_of_nil in Hi.
      + constructor.
      + intros c k _. split; [done|]. by intros (i & Hi & _).
    - intros i x Hi [(s & cpus & -> & L & Ha & Hp & Hok)|(s & -> & U)]; [|right; by exists s]. unfold WALT_NR_CPUS in Hi. cbn [topology_turn].
      replace (Z.to_nat (i + 1)) with (S (Z.to_nat i)) by lia. assert (Z.of_nat (Z.to_nat i) = i) as Ei by lia.
      destruct (Z.testbit cpus i) eqn:Eb; cbn [negb].
      + destruct (Z.eq_dec (te_cluster_id e i) (-1)) as [Em|Em].
        * right. eexists. split; [unfold walt_get_possible_siblings; rewrite Em; done|]. apply (cleanup_undone (Z.to_nat i) s cpus); [done|lia|by rewrite Ei|done..].
        * left. assert (Z.testbit (te_possible e) i = true) as Hpi by (apply (li_cpus _ _ _ _ L i) in Eb; [tauto|lia]).
          destruct (cpumask_empty _) eqn:Ez.
          { exfalso. assert (Z.testbit (walt_get_possible_siblings e i) i = true) as X by (apply siblings_bits; [lia|done|done|done]).
            unfold cpumask_empty in Ez. apply Z.eqb_eq in Ez. by rewrite Ez, Z.bits_0 in X. }
          destruct (add_cluster_rest (walt_get_possible_siblings e i) s) as [R1 R2].
          eexists _, _. split; [done|]. rewrite R1, R2. split; [|split_and!; [done|done|]].
          { replace (Z.to_nat (i + 1)) with (S (Z.to_nat i)) by lia. rewrite <- Ei at 2 3. rewrite <- Ei in Eb, Em. apply add_cluster_inv; [done|done|done|lia|done|done]. }
          intros c Hc Hpc. destruct (Z.eq_dec c i) as [->|]; [done|apply Hok; [lia|done]].
      + left. exists s, cpus. split; [done|].
        assert (Z.testbit (te_possible e) i = true -> exists j, j ∈ leaders e (Z.to_nat i) /\ te_cluster_id e j = te_cluster_id e i) as Hj.
        { intros Hpi. destruct (decide (Exists (fun j => te_cluster_id e j = te_cluster_id e i) (leaders e (Z.to_nat i)))) as [X|X];
            [apply list.Exists_exists in X; naive_solver|]. exfalso. assert (Z.testbit cpus i = true) as Y; [|congruence].
          apply (li_cpus _ _ _ _ L); [lia|]. split; [done|]. intros j Hj Eq. apply X, list.Exists_exists. eauto. }
        assert (leaders e (S (Z.to_nat i)) = leaders e (Z.to_nat i)) as EL.
        { cbn [leaders]. rewrite Ei. destruct (_ && _) eqn:E; [|done]. apply andb_true_iff in E as [E1 E2]. rewrite forallb_forall in E2.
          destruct (Hj E1) as (j & Hj1 & Hj2). apply list_elem_of_In in Hj1. specialize (E2 j Hj1). lia. }
        split; [replace (Z.to_nat (i + 1)) with (S (Z.to_nat i)) by lia; destruct L; split; rewrite ?EL; done|]. split_and!; [done|done|].
        intros c Hc Hpc. destruct (Z.eq_dec c i) as [->|]; [|apply Hok; [lia|done]]. destruct (Hj Hpc) as (j & Hj1 & <-).
        apply leaders_bound in Hj1 as [Hb Hp1]. apply Hok; [lia|done]. }
  destruct H as [(s & cpus & _ & _ & _ & _ & Hok)|(s & -> & U)]; [|exact U].
  exfalso. apply (Hok bad); [|done|done]. apply (mask_bit_is_cpu _ _ Vm Hbad).
Qed.

End Invalid.

(** Four clusters of two CPUs, the third one smaller than the second. *)
Definition demo_te : topo_env :=
  mk_te 255 (fun c => c / 2) (fun c => if c <? 2 then 300 else if c <? 4 then 700 else if c <? 6 then 500 else 1024)
    (fun c => Some (1000 + c, 900 + c, 3)) (fun c => Some (c / 4)) 16000000 100 95.

Lemma demo_valid : valid demo_te.
Proof.
  apply mk_valid.
  - split; vm_compute; [discriminate|reflexivity].
  - discriminate.
  - intros c H. cbn in *. assert (0 <= c); [|pose proof (Z.div_pos c 2); lia].
    destruct (Z_lt_le_dec c 0); [|done]. by rewrite Z.testbit_neg_r in H.
  - vm_compute. lia.
  - discriminate.
  - intros c. cbn. repeat case_match; lia.
Qed.

Lemma clusters_are_classes_witness :
  tp_array (walt_update_cluster_topology demo_te boot) !! 0%nat = Some [3; 48; 12; 192] /\
  tp_table (walt_update_cluster_topology demo_te boot) ≡ₚ seq 0 4.
Proof.
  split; [vm_compute; reflexivity|].
  destruct (clusters_are_classes demo_te demo_valid) as (_ & _ & H & _). exact H.
Defined.

Lemma invalid_topology_undone_witness :
  undone (walt_update_cluster_topology (demo_te <| te_cluster_id := fun c => if c =? 5 then -1 else c / 4 |>) boot).
Proof.
  apply invalid_topology_undone.
  - split; vm_compute; [discriminate|reflexivity].
  - vm_compute. lia.
  - exists 5. split; vm_compute; reflexivity.
Defined.

End Clusters.
