(* ===== verification/Sysctl.v ===== *)
(** * Settings from user space

    The handlers of [sysctl.c] that keep settings consistent with each other: the margins of
    the migration between clusters, the thresholds of groups, the settings of a task, masks
    that may be written once, and settings that exist for one cluster and for all. The
    parsing of numbers ([proc_dointvec] and its relatives) is an argument: given what the array
    held, what it holds then and the result. *)

From Stdlib Require Import ZArith Lia ZifyBool Bool.
From stdpp Require Import base list functions numbers list_numbers relations.
From S2P Require Import Prelude WaltTypes Cpumask SmartFreq Halt CoreCtl Boost Fits Pipeline Topology.

Definition ENOENT : Z := 2.
Definition EPERM : Z := 1.

(** The result of [proc_dointvec] and the like, for an array of numbers. *)
Definition parser : Type := list Z -> list Z * Z.

(** An entry of an array of [int]. *)
Definition int_at (val : list Z) (i : Z) : Z := s32 (aget val i).

(** A loop that returns at the first entry that fails a check. *)
Definition all_below (n : Z) (check : Z -> bool) : bool := forallb check (seqZ 0 n).

(** [data[i] = val[i]] for the first [n] entries. *)
Definition store_values (n : Z) (val data : list Z) : list Z :=
  for_range 0 (Z.to_nat n) (fun i data => aset data i (u32 (int_at val i))) data.

(** ** Margins *)

#[export] Instance sched_cgroup_type_eq_dec : EqDecision sched_cgroup_type.
Proof. solve_decision. Defined.

(** [sched_capacity_margin_up] and [_down] by cgroup and cluster, and the settings they come
    from; [mg_settings] are the arrays [sysctl_sched_topapp_updownmigrate_0] and the like.
    [mg_use] is [use_cgroup_margin]. *)
Record margins := mk_mg {
  mg_up : list (list Z);
  mg_down : list (list Z);
  mg_up_pct : list Z;
  mg_dn_pct : list Z;
  mg_early_up : list Z;
  mg_early_down : list Z;
  mg_settings : sched_cgroup_type -> Z -> list Z;
  mg_use : Z
}.

(** The values of the definitions and of [walt_config]. *)
Definition boot_margins : margins :=
  mk_mg (replicate 4 (replicate 4 1078)) (replicate 4 (replicate 4 1205)) (replicate 3 95) (replicate 3 85)
    (replicate 3 1077) (replicate 3 1204) (fun _ _ => [0; 0]) 0.

Definition set_margin (m : list (list Z)) (t : sched_cgroup_type) (id v : Z) : list (list Z) :=
  alter (fun row => aset row id v) (cgroup_index t) m.

Definition cap_margin_levels (num_sched_clusters : Z) : Z := if num_sched_clusters =? 0 then 0 else num_sched_clusters - 1.

(** The cluster at position [i] of the list has the id [i] ([assign_cluster_ids]). *)
Definition sched_update_updown_migrate_values (levels : Z) (up : bool) (s : margins) : margins :=
  for_range 0 (Z.to_nat levels) (fun i s =>
    if up then s <| mg_up := set_margin (mg_up s) ANDROID_CGROUP_OTHER i (102400 / aget (mg_up_pct s) i) |>
    else s <| mg_down := set_margin (mg_down s) ANDROID_CGROUP_OTHER i (102400 / aget (mg_dn_pct s) i) |>) s.

(** [up] says that the file is the one of [sysctl_sched_capacity_margin_up_pct]; [stack] is what
    [val] holds before it is filled. *)
Definition sched_updown_migrate_handler (num_sched_clusters : Z) (up write : bool) (stack : list Z) (proc : parser) (s : margins) : margins * Z :=
  let levels := cap_margin_levels num_sched_clusters in
  if levels <=? 0 then (s, - EINVAL) else
  if mg_use s =? 1 then (s, - EINVAL) else
  let s := s <| mg_use := 2 |> in
  if negb write then (s, (proc (if up then mg_up_pct s else mg_dn_pct s)).2) else
  let '(val, ret) := proc stack in
  if negb (ret =? 0) then (s, ret) else
  if negb (all_below levels (fun i => 0 <? int_at val i)) then (s, - EINVAL) else
  if negb (if up then all_below levels (fun i => aget (mg_dn_pct s) i <=? u32 (int_at val i))
           else all_below levels (fun i => u32 (int_at val i) <=? aget (mg_up_pct s) i)) then (s, - EINVAL) else
  let s := if up then s <| mg_up_pct := store_values levels val (mg_up_pct s) |>
           else s <| mg_dn_pct := store_values levels val (mg_dn_pct s) |> in
  (sched_update_updown_migrate_values levels up s, 0).

(** [t] and [cluster] name the file. *)
Definition sched_cgroup_updown_migrate_handler (t : sched_cgroup_type) (cluster : Z) (write : bool) (stack : list Z) (proc : parser)
    (s : margins) : margins * Z :=
  if mg_use s =? 2 then (s, - EINVAL) else
  let s := s <| mg_use := 1 |> in
  if negb write then (s, (proc (mg_settings s t cluster)).2) else
  let '(val, ret) := proc stack in
  if negb (ret =? 0) then (s, ret) else
  if negb (all_below 2 (fun i => 0 <? int_at val i)) then (s, - EINVAL) else
  if bool_decide (t = ANDROID_CGROUPS) || negb ((0 <=? cluster) && (cluster <=? 2)) then (s, - EINVAL) else
  if int_at val 0 <? int_at val 1 then (s, - EINVAL) else
  let old := mg_settings s in
  (s <| mg_settings := fun t' c => if bool_decide (t' = t) && (c =? cluster) then store_values 2 val (old t' c) else old t' c |>
     <| mg_up := set_margin (mg_up s) t cluster (102400 / int_at val 0) |>
     <| mg_down := set_margin (mg_down s) t cluster (102400 / int_at val 1) |>, 0).

Definition sched_update_updown_early_migrate_values (levels : Z) (up : bool) (s : margins) : margins :=
  for_range 0 (Z.to_nat levels) (fun i s =>
    if up then s <| mg_up := set_margin (mg_up s) ANDROID_CGROUP_TOPAPP i (aget (mg_early_up s) i) |>
    else s <| mg_down := set_margin (mg_down s) ANDROID_CGROUP_TOPAPP i (aget (mg_early_down s) i) |>) s.

Definition sched_updown_early_migrate_handler (num_sched_clusters : Z) (up write : bool) (stack : list Z) (proc : parser) (s : margins) : margins * Z :=
  let levels := cap_margin_levels num_sched_clusters in
  if levels <=? 0 then (s, - EINVAL) else
  if mg_use s =? 1 then (s, - EINVAL) else
  let s := s <| mg_use := 2 |> in
  if negb write then (s, (proc (if up then mg_early_up s else mg_early_down s)).2) else
  let '(val, ret) := proc stack in
  if negb (ret =? 0) then (s, ret) else
  if negb (all_below levels (fun i => 1024 <=? int_at val i)) then (s, - EINVAL) else
  if negb (if up then all_below levels (fun i => u32 (int_at val i) <? aget (mg_early_down s) i)
           else all_below levels (fun i => aget (mg_early_up s) i <? u32 (int_at val i))) then (s, - EINVAL) else
  let s := if up then s <| mg_early_up := store_values levels val (mg_early_up s) |>
           else s <| mg_early_down := store_values levels val (mg_early_down s) |> in
  (sched_update_updown_early_migrate_values levels up s, 0).

(** ** Margins stay in order *)

Module Margins.

(** A loop that writes one entry a turn. *)
Lemma for_range_points {S} (ok : S -> Prop) (get : S -> Z -> Z) (f : Z -> S -> S) (g : Z -> Z) n s :
  (forall i x, 0 <= i < Z.of_nat n -> ok x -> ok (f i x) /\ forall k, 0 <= k -> get (f i x) k = if k =? i then g i else get x k) ->
  ok s -> ok (for_range 0 n f s) /\ forall k, 0 <= k -> get (for_range 0 n f s) k = if k <? Z.of_nat n then g k else get s k.
Proof.
  intros Hf Hs. set (P := fun m x => ok x /\ forall k, 0 <= k -> get x k = if k <? m then g k else get s k).
  cut (P (0 + Z.of_nat n) (for_range 0 n f s)); [done|]. apply (for_range_ind P).
  - split; [done|]. intros k Hk. by replace (k <? 0) with false by lia.
  - intros i x Hi [Ho Hg]. destruct (Hf i x ltac:(lia) Ho) as [Ho' Hg']. split; [done|]. intros k Hk. rewrite Hg' by done.
    destruct (k =? i) eqn:E; [replace (k <? i + 1) with true by lia; by replace i with k by lia|].
    rewrite Hg by done. by replace (k <? i + 1) with (k <? i) by lia.
Qed.

Lemma store_values_spec n val data :
  n <= Z.of_nat (length data) ->
  length (store_values n val data) = length data /\
  forall k, 0 <= k -> aget (store_values n val data) k = if k <? n then u32 (int_at val k) else aget data k.
Proof.
  intros Hn. unfold store_values.
  destruct (for_range_points (fun d => length d = length data) aget (fun i d => aset d i (u32 (int_at val i))) (fun i => u32 (int_at val i)) (Z.to_nat n) data)
    as [H1 H2]; [|done|].
  - intros i x Hi Hx. rewrite length_aset. split; [done|]. intros k Hk. rewrite aget_aset by lia. by rewrite Z.eqb_sym.
  - split; [done|]. intros k Hk. rewrite H2 by done. by replace (k <? Z.of_nat (Z.to_nat n)) with (k <? n) by lia.
Qed.

Lemma all_below_spec n check : all_below n check = true <-> forall i, 0 <= i < n -> check i = true.
Proof.
  unfold all_below. rewrite forallb_forall. split; intros H i Hi.
  - apply H, list_elem_of_In, elem_of_seqZ. lia.
  - apply H. apply list_elem_of_In, elem_of_seqZ in Hi. lia.
Qed.

(** Four rows of four entries. *)
Definition square (m : list (list Z)) : Prop := length m = 4%nat /\ forall i row, m !! i = Some row -> length row = 4%nat.
Definition named (t : sched_cgroup_type) : Prop := t <> ANDROID_CGROUPS.

Lemma square_set m t id v : square m -> square (set_margin m t id v).
Proof.
  intros [A B]. unfold set_margin. split; [by rewrite length_alter|]. intros i row. rewrite list_lookup_alter.
  destruct (decide _); [|apply B]. intros (r & E & ->)%fmap_Some. rewrite length_aset. by eapply B.
Qed.

Lemma cgroup_index_inj t u : cgroup_index t = cgroup_index u -> t = u.
Proof. by destruct t, u. Qed.

Lemma margin_set m t id v u k :
  square m -> named t -> 0 <= id <= 3 -> 0 <= k -> margin_of (set_margin m t id v) u k = if bool_decide (u = t) && (k =? id) then v else margin_of m u k.
Proof.
  intros [A B] Ht Hid Hk. unfold margin_of, set_margin. rewrite !nth_lookup, list_lookup_alter.
  destruct (bool_decide_reflect (u = t)) as [->|Hne]; cbn [andb].
  - rewrite decide_True by done.
    destruct (lookup_lt_is_Some_2 m (cgroup_index t)) as [row E]; [rewrite A; destruct t; cbn; try lia; done|].
    rewrite E. cbn. rewrite aget_aset; [by rewrite Z.eqb_sym|rewrite (B _ _ E); lia|done].
  - by rewrite decide_False by (intros H; apply Hne; by apply cgroup_index_inj).
Qed.

Lemma boot_square v : square (replicate 4 (replicate 4 v)).
Proof. split; [done|]. intros i row H. apply lookup_replicate in H as [-> _]. done. Qed.
Lemma boot_margin v t k : named t -> 0 <= k <= 3 -> margin_of (replicate 4 (replicate 4 v)) t k = v.
Proof.
  intros Ht Hk. unfold margin_of. rewrite nth_lookup, lookup_replicate_2; [|destruct t; cbn; try lia; done]. change (aget (replicate 4 v) k = v).
  rewrite aget_replicate. by replace (Z.to_nat k <? 4)%nat with true by lia.
Qed.

(** ** The tables after an update *)

Definition fill (lo : Z) (n : nat) (t : sched_cgroup_type) (g : Z -> Z) (m : list (list Z)) : list (list Z) :=
  for_range lo n (fun i m => set_margin m t i (g i)) m.

Lemma fill_up t h n : forall lo s, (forall s m i, h (s <| mg_up := m |>) i = h s i) ->
  for_range lo n (fun i s => s <| mg_up := set_margin (mg_up s) t i (h s i) |>) s = s <| mg_up := fill lo n t (h s) (mg_up s) |>.
Proof.
  induction n as [|n IH]; intros lo s Hh; [by destruct s|]. unfold fill in *. cbn [for_range]. rewrite IH by done.
  set (s1 := s <| mg_up := set_margin (mg_up s) t lo (h s lo) |>).
  assert (forall k m, for_range k n (fun i m => set_margin m t i (h s1 i)) m = for_range k n (fun i m => set_margin m t i (h s i)) m) as E.
  { clear IH. induction n as [|n IH]; intros k m; cbn [for_range]; [done|]. rewrite IH. unfold s1. by rewrite Hh. }
  rewrite E. done.
Qed.
Lemma fill_down t h n : forall lo s, (forall s m i, h (s <| mg_down := m |>) i = h s i) ->
  for_range lo n (fun i s => s <| mg_down := set_margin (mg_down s) t i (h s i) |>) s = s <| mg_down := fill lo n t (h s) (mg_down s) |>.
Proof.
  induction n as [|n IH]; intros lo s Hh; [by destruct s|]. unfold fill in *. cbn [for_range]. rewrite IH by done.
  set (s1 := s <| mg_down := set_margin (mg_down s) t lo (h s lo) |>).
  assert (forall k m, for_range k n (fun i m => set_margin m t i (h s1 i)) m = for_range k n (fun i m => set_margin m t i (h s i)) m) as E.
  { clear IH. induction n as [|n IH]; intros k m; cbn [for_range]; [done|]. rewrite IH. unfold s1. by rewrite Hh. }
  rewrite E. done.
Qed.

Lemma fill_spec n t g m :
  square m -> named t -> (n <= 3)%nat ->
  square (fill 0 n t g m) /\
  forall u k, 0 <= k -> margin_of (fill 0 n t g m) u k = if bool_decide (u = t) && (k <? Z.of_nat n) then g k else margin_of m u k.
Proof.
  intros Hm Ht Hn. set (P := fun i x => square x /\
    forall u k, 0 <= k -> margin_of x u k = if bool_decide (u = t) && (k <? i) then g k else margin_of m u k).
  cut (P (0 + Z.of_nat n) (fill 0 n t g m)); [done|]. apply (for_range_ind P).
  - split; [done|]. intros u k Hk. replace (k <? 0) with false by lia. by rewrite andb_false_r.
  - intros i x Hi [Hx Hg]. split; [by apply square_set|]. intros u k Hk. rewrite margin_set by (done || lia). rewrite Hg by done.
    destruct (bool_decide (u = t)); cbn [andb]; [|done]. destruct (k =? i) eqn:E.
    + replace (k <? i + 1) with true by lia. by replace i with k by lia.
    + by replace (k <? i + 1) with (k <? i) by lia.
Qed.

Lemma s32_range z : -2147483648 <= s32 z < 2147483648.
Proof. unfold s32, wraps. pose proof (Z.mod_pos_bound (z + 2 ^ (32 - 1)) (2 ^ 32) eq_refl) as H. change (2 ^ (32 - 1)) with 2147483648 in *. change (2 ^ 32) with 4294967296 in *. lia. Qed.
Lemma int_pos val k : 0 <= int_at val k -> u32 (int_at val k) = int_at val k.
Proof. intros H. apply u32_small. pose proof (s32_range (aget val k)). unfold int_at in *. lia. Qed.

(** ** The invariant *)

Definition untouched (s : margins) (t : sched_cgroup_type) (k : Z) : Prop := margin_of (mg_up s) t k = 1078 /\ margin_of (mg_down s) t k = 1205.
Definition other_ok (s : margins) (k : Z) : Prop :=
  0 < aget (mg_dn_pct s) k <= aget (mg_up_pct s) k /\
  (margin_of (mg_up s) ANDROID_CGROUP_OTHER k = 102400 / aget (mg_up_pct s) k \/
   margin_of (mg_up s) ANDROID_CGROUP_OTHER k = 1078 /\ aget (mg_up_pct s) k = 95) /\
  (margin_of (mg_down s) ANDROID_CGROUP_OTHER k = 102400 / aget (mg_dn_pct s) k \/
   margin_of (mg_down s) ANDROID_CGROUP_OTHER k = 1205 /\ aget (mg_dn_pct s) k = 85).
Definition early_ok (s : margins) (k : Z) : Prop :=
  0 <= aget (mg_early_up s) k < aget (mg_early_down s) k /\
  (margin_of (mg_up s) ANDROID_CGROUP_TOPAPP k = aget (mg_early_up s) k \/
   margin_of (mg_up s) ANDROID_CGROUP_TOPAPP k = 1078 /\ aget (mg_early_up s) k = 1077) /\
  (margin_of (mg_down s) ANDROID_CGROUP_TOPAPP k = aget (mg_early_down s) k \/
   margin_of (mg_down s) ANDROID_CGROUP_TOPAPP k = 1205 /\ aget (mg_early_down s) k = 1204).

(** By the interface in use: none, the one with a file per cgroup, the other. *)
Record margins_ok (s : margins) : Prop := mk_mo {
  mo_up : square (mg_up s);
  mo_down : square (mg_down s);
  mo_lengths : length (mg_up_pct s) = 3%nat /\ length (mg_dn_pct s) = 3%nat /\ length (mg_early_up s) = 3%nat /\ length (mg_early_down s) = 3%nat;
  mo_use : 0 <= mg_use s <= 2;
  mo_none : mg_use s = 0 -> forall t k, named t -> 0 <= k <= 3 -> untouched s t k;
  mo_cgroups : mg_use s = 1 -> forall t k, named t -> 0 <= k <= 3 -> 0 <= margin_of (mg_up s) t k <= margin_of (mg_down s) t k;
  mo_levels : mg_use s <> 1 -> (forall k, 0 <= k <= 2 -> other_ok s k /\ early_ok s k) /\
    forall t k, named t -> 0 <= k <= 3 -> k = 3 \/ t <> ANDROID_CGROUP_OTHER /\ t <> ANDROID_CGROUP_TOPAPP -> untouched s t k
}.

Lemma boot_margins_ok : margins_ok boot_margins.
Proof.
  assert (forall t k, named t -> 0 <= k <= 3 -> untouched boot_margins t k) as U.
  { intros t k Ht Hk. split; by apply boot_margin. }
  split; try apply boot_square; try done. intros _. split; [|intros; by apply U].
  intros k Hk. destruct (U ANDROID_CGROUP_OTHER k) as [A B]; [done|lia|]. destruct (U ANDROID_CGROUP_TOPAPP k) as [C D]; [done|lia|].
  unfold other_ok, early_ok. rewrite A, B, C, D. cbn [boot_margins mg_up_pct mg_dn_pct mg_early_up mg_early_down].
  rewrite !aget_replicate. replace (Z.to_nat k <? 3)%nat with true by lia. lia.
Qed.

(** Choosing the interface changes nothing else. *)
Lemma use_levels s : margins_ok s -> mg_use s <> 1 -> margins_ok (s <| mg_use := 2 |>).
Proof. intros [A B C U D E F] H. split; try done. intros _. exact (F H). Qed.
Lemma use_cgroups s : margins_ok s -> mg_use s <> 2 -> margins_ok (s <| mg_use := 1 |>).
Proof.
  intros [A B C U D E F] H. assert (mg_use s = 0 \/ mg_use s = 1) as [H0|H1] by lia; split; try done.
  - intros _ t k Ht Hk. destruct (D H0 t k Ht Hk) as [X Y]. change (0 <= margin_of (mg_up s) t k <= margin_of (mg_down s) t k). lia.
  - intros _. exact (E H1).
Qed.

(** ** The handlers keep it *)

Lemma levels_small n : 0 <= n <= 4 -> cap_margin_levels n <= 3.
Proof. unfold cap_margin_levels. case_match; lia. Qed.

Lemma values_up l s : sched_update_updown_migrate_values l true s =
  s <| mg_up := fill 0 (Z.to_nat l) ANDROID_CGROUP_OTHER (fun i => 102400 / aget (mg_up_pct s) i) (mg_up s) |>.
Proof. exact (fill_up ANDROID_CGROUP_OTHER (fun s i => 102400 / aget (mg_up_pct s) i) (Z.to_nat l) 0 s (fun _ _ _ => eq_refl)). Qed.
Lemma values_down l s : sched_update_updown_migrate_values l false s =
  s <| mg_down := fill 0 (Z.to_nat l) ANDROID_CGROUP_OTHER (fun i => 102400 / aget (mg_dn_pct s) i) (mg_down s) |>.
Proof. exact (fill_down ANDROID_CGROUP_OTHER (fun s i => 102400 / aget (mg_dn_pct s) i) (Z.to_nat l) 0 s (fun _ _ _ => eq_refl)). Qed.
Lemma early_values_up l s : sched_update_updown_early_migrate_values l true s =
  s <| mg_up := fill 0 (Z.to_nat l) ANDROID_CGROUP_TOPAPP (aget (mg_early_up s)) (mg_up s) |>.
Proof. exact (fill_up ANDROID_CGROUP_TOPAPP (fun s i => aget (mg_early_up s) i) (Z.to_nat l) 0 s (fun _ _ _ => eq_refl)). Qed.
Lemma early_values_down l s : sched_update_updown_early_migrate_values l false s =
  s <| mg_down := fill 0 (Z.to_nat l) ANDROID_CGROUP_TOPAPP (aget (mg_early_down s)) (mg_down s) |>.
Proof. exact (fill_down ANDROID_CGROUP_TOPAPP (fun s i => aget (mg_early_down s) i) (Z.to_nat l) 0 s (fun _ _ _ => eq_refl)). Qed.

(** A change of the settings of the second interface. *)
Lemma levels_change s s' :
  margins_ok s -> mg_use s = 2 -> mg_use s' = 2 -> square (mg_up s') -> square (mg_down s') ->
  length (mg_up_pct s') = 3%nat /\ length (mg_dn_pct s') = 3%nat /\ length (mg_early_up s') = 3%nat /\ length (mg_early_down s') = 3%nat ->
  (forall k, 0 <= k <= 2 -> other_ok s k -> other_ok s' k) -> (forall k, 0 <= k <= 2 -> early_ok s k -> early_ok s' k) ->
  (forall t k, 0 <= k -> k = 3 \/ t <> ANDROID_CGROUP_OTHER /\ t <> ANDROID_CGROUP_TOPAPP ->
     margin_of (mg_up s') t k = margin_of (mg_up s) t k /\ margin_of (mg_down s') t k = margin_of (mg_down s) t k) ->
  margins_ok s'.
Proof.
  intros Ho Hu H A B L O E U. destruct (mo_levels _ Ho ltac:(lia)) as [F1 F2]. split; try done; try lia. intros _. split.
  - intros k Hk. destruct (F1 k Hk). auto.
  - intros t k Ht Hk Hc. unfold untouched. destruct (U t k ltac:(lia) Hc) as [-> ->]. by apply F2.
Qed.

(** The entries of a level that is written, of one that is not, and of the other rows. *)
Ltac entry Q := rewrite Q by lia; first [rewrite bool_decide_true by done | rewrite bool_decide_false by done]; cbn [andb].
Ltac level_written ok Q S Ep Ec :=
  let k := fresh "k" in let Hk := fresh "Hk" in let E := fresh "E" in
  intros k Hk (? & ? & ?); unfold ok; cbn [mg_up mg_down mg_up_pct mg_dn_pct mg_early_up mg_early_down mg_use set const]; entry Q; rewrite S by lia;
  destruct (k <? _) eqn:E; [|done]; specialize (Ep k ltac:(lia)); specialize (Ec k ltac:(lia)); cbn beta in *; rewrite int_pos in * by lia;
  split; [lia|split; solve [done|by left]].
Ltac level_kept ok Q S Ep Ec := intros k Hk ?; unfold ok; cbn [mg_up mg_down mg_up_pct mg_dn_pct mg_early_up mg_early_down mg_use set const]; entry Q; done.
Ltac row_kept Q :=
  intros t k Hk Hc; split; try done; rewrite Q by lia; match goal with |- context [bool_decide ?P] => destruct (bool_decide_reflect P) end; cbn [andb]; [|done];
  replace (k <? _) with false by (destruct Hc as [|[]]; [lia|done]); done.

Lemma updown_ok n up write stack proc s :
  0 <= n <= 4 -> margins_ok s -> margins_ok (sched_updown_migrate_handler n up write stack proc s).1.
Proof.
  intros Hn Ho. unfold sched_updown_migrate_handler. pose proof (levels_small n Hn) as Hl. set (l := cap_margin_levels n) in *. clearbody l. cbv zeta.
  destruct (l <=? 0) eqn:E0; [done|]. destruct (mg_use s =? 1) eqn:E1; [done|].
  apply use_levels in Ho; [|lia]. set (s1 := s <| mg_use := 2 |>) in *. assert (mg_use s1 = 2) as Hu by done. clearbody s1. clear s E1. rename s1 into s.
  destruct write; [|done]. cbn [negb]. destruct (proc stack) as [val ret]. destruct (ret =? 0); [|done]. cbn [negb].
  destruct (all_below l (fun i => 0 <? int_at val i)) eqn:Ep; [|done]. rewrite all_below_spec in Ep. cbn [negb].
  destruct (mo_lengths _ Ho) as (L1 & L2 & L3 & L4).
  destruct up.
  - destruct (all_below l (fun i => aget (mg_dn_pct s) i <=? _)) eqn:Ec; [|exact Ho]. rewrite all_below_spec in Ec. cbn [negb fst].
    destruct (store_values_spec l val (mg_up_pct s) ltac:(lia)) as [S1 S2]. set (pct := store_values l val (mg_up_pct s)) in *. clearbody pct.
    rewrite values_up. cbn [mg_up_pct mg_up set const].
    destruct (fill_spec (Z.to_nat l) ANDROID_CGROUP_OTHER (fun i => 102400 / aget pct i) (mg_up s)) as [Q1 Q2]; [apply Ho|done|lia|].
    set (m := fill _ _ _ _ _) in *. clearbody m. rewrite Z2Nat.id in Q2 by lia.
    apply (levels_change s _ Ho Hu); cbn [mg_up mg_down mg_up_pct mg_dn_pct mg_early_up mg_early_down mg_use set const]; try done; try apply Ho; try (split_and!; done || lia).
    + level_written other_ok Q2 S2 Ep Ec.
    + level_kept early_ok Q2 S2 Ep Ec.
    + row_kept Q2.
  - destruct (all_below l (fun i => _ <=? aget (mg_up_pct s) i)) eqn:Ec; [|exact Ho]. rewrite all_below_spec in Ec. cbn [negb fst].
    destruct (store_values_spec l val (mg_dn_pct s) ltac:(lia)) as [S1 S2]. set (pct := store_values l val (mg_dn_pct s)) in *. clearbody pct.
    rewrite values_down. cbn [mg_dn_pct mg_down set const].
    destruct (fill_spec (Z.to_nat l) ANDROID_CGROUP_OTHER (fun i => 102400 / aget pct i) (mg_down s)) as [Q1 Q2]; [apply Ho|done|lia|].
    set (m := fill _ _ _ _ _) in *. clearbody m. rewrite Z2Nat.id in Q2 by lia.
    apply (levels_change s _ Ho Hu); cbn [mg_up mg_down mg_up_pct mg_dn_pct mg_early_up mg_early_down mg_use set const]; try done; try apply Ho; try (split_and!; done || lia).
    + level_written other_ok Q2 S2 Ep Ec.
    + level_kept early_ok Q2 S2 Ep Ec.
    + row_kept Q2.
Qed.

Lemma early_ok_kept n up write stack proc s :
  0 <= n <= 4 -> margins_ok s -> margins_ok (sched_updown_early_migrate_handler n up write stack proc s).1.
Proof.
  intros Hn Ho. unfold sched_updown_early_migrate_handler. pose proof (levels_small n Hn) as Hl. set (l := cap_margin_levels n) in *. clearbody l. cbv zeta.
  destruct (l <=? 0) eqn:E0; [done|]. destruct (mg_use s =? 1) eqn:E1; [done|].
  apply use_levels in Ho; [|lia]. set (s1 := s <| mg_use := 2 |>) in *. assert (mg_use s1 = 2) as Hu by done. clearbody s1. clear s E1. rename s1 into s.
  destruct write; [|done]. cbn [negb]. destruct (proc stack) as [val ret]. destruct (ret =? 0); [|done]. cbn [negb].
  destruct (all_below l (fun i => 1024 <=? int_at val i)) eqn:Ep; [|done]. rewrite all_below_spec in Ep. cbn [negb].
  destruct (mo_lengths _ Ho) as (L1 & L2 & L3 & L4).
  destruct up.
  - destruct (all_below l (fun i => _ <? aget (mg_early_down s) i)) eqn:Ec; [|exact Ho]. rewrite all_below_spec in Ec. cbn [negb fst].
    destruct (store_values_spec l val (mg_early_up s) ltac:(lia)) as [S1 S2]. set (pct := store_values l val (mg_early_up s)) in *. clearbody pct.
    rewrite early_values_up. cbn [mg_early_up mg_up set const].
    destruct (fill_spec (Z.to_nat l) ANDROID_CGROUP_TOPAPP (aget pct) (mg_up s)) as [Q1 Q2]; [apply Ho|done|lia|].
    set (m := fill _ _ _ _ _) in *. clearbody m. rewrite Z2Nat.id in Q2 by lia.
    apply (levels_change s _ Ho Hu); cbn [mg_up mg_down mg_up_pct mg_dn_pct mg_early_up mg_early_down mg_use set const]; try done; try apply Ho; try (split_and!; done || lia).
    + level_kept other_ok Q2 S2 Ep Ec.
    + level_written early_ok Q2 S2 Ep Ec.
    + row_kept Q2.
  - destruct (all_below l (fun i => aget (mg_early_up s) i <? _)) eqn:Ec; [|exact Ho]. rewrite all_below_spec in Ec. cbn [negb fst].
    destruct (store_values_spec l val (mg_early_down s) ltac:(lia)) as [S1 S2]. set (pct := store_values l val (mg_early_down s)) in *. clearbody pct.
    rewrite early_values_down. cbn [mg_early_down mg_down set const].
    destruct (fill_spec (Z.to_nat l) ANDROID_CGROUP_TOPAPP (aget pct) (mg_down s)) as [Q1 Q2]; [apply Ho|done|lia|].
    set (m := fill _ _ _ _ _) in *. clearbody m. rewrite Z2Nat.id in Q2 by lia.
    apply (levels_change s _ Ho Hu); cbn [mg_up mg_down mg_up_pct mg_dn_pct mg_early_up mg_early_down mg_use set const]; try done; try apply Ho; try (split_and!; done || lia).
    + level_kept other_ok Q2 S2 Ep Ec.
    + level_written early_ok Q2 S2 Ep Ec.
    + row_kept Q2.
Qed.

Lemma cgroup_ok t c write stack proc s :
  margins_ok s -> margins_ok (sched_cgroup_updown_migrate_handler t c write stack proc s).1.
Proof.
  intros Ho. unfold sched_cgroup_updown_migrate_handler. destruct (mg_use s =? 2) eqn:E1; [done|].
  apply use_cgroups in Ho; [|lia]. cbv zeta. set (s1 := s <| mg_use := 1 |>) in *. assert (mg_use s1 = 1) as Hu by done. clearbody s1. clear s E1. rename s1 into s.
  destruct write; [|done]. cbn [negb]. destruct (proc stack) as [val ret]. destruct (ret =? 0); [|done]. cbn [negb].
  destruct (all_below 2 _) eqn:Ep; [|done]. rewrite all_below_spec in Ep. cbn [negb].
  destruct (bool_decide_reflect (t = ANDROID_CGROUPS)); [done|]. cbn [orb]. destruct (_ && (c <=? 2)) eqn:Ec; [|done]. cbn [negb].
  destruct (int_at val 0 <? int_at val 1) eqn:El; [done|]. cbn [fst].
  pose proof (Ep 0 ltac:(lia)) as H0. pose proof (Ep 1 ltac:(lia)) as H1. cbn beta in *. destruct Ho as [A B L U D E F].
  split; cbn [mg_up mg_down mg_up_pct mg_dn_pct mg_early_up mg_early_down mg_use set const]; try done; try (intros; lia); try by apply square_set.
  intros _ u k Hu' Hk. rewrite !margin_set by (done || lia). destruct (bool_decide (u = t) && _); [|by apply E].
  split; [apply Z.div_pos; lia|apply Z.div_le_compat_l; lia].
Qed.

(** Any write or read of the files, by any program. *)
Inductive margin_step (n : Z) (s : margins) : margins -> Prop :=
  | ms_updown up write stack proc : margin_step n s (sched_updown_migrate_handler n up write stack proc s).1
  | ms_early up write stack proc : margin_step n s (sched_updown_early_migrate_handler n up write stack proc s).1
  | ms_cgroup t c write stack proc : margin_step n s (sched_cgroup_updown_migrate_handler t c write stack proc s).1.

Lemma steps_ok n s s' : 0 <= n <= 4 -> rtc (margin_step n) s s' -> margins_ok s -> margins_ok s'.
Proof.
  intros Hn. induction 1 as [|x y z [] _ IH]; [done|..]; intros Ho; apply IH; [by apply updown_ok|by apply early_ok_kept|by apply cgroup_ok].
Qed.

(** The one case in which the values of the tables are not those of the settings. *)
Definition rounded (s : margins) (t : sched_cgroup_type) (k : Z) : Prop :=
  t = ANDROID_CGROUP_OTHER /\ margin_of (mg_up s) t k = 1078 /\ margin_of (mg_down s) t k = 1077.

Lemma level_ordered s k : other_ok s k -> early_ok s k ->
  (0 <= margin_of (mg_up s) ANDROID_CGROUP_OTHER k <= margin_of (mg_down s) ANDROID_CGROUP_OTHER k \/ rounded s ANDROID_CGROUP_OTHER k) /\
  0 <= margin_of (mg_up s) ANDROID_CGROUP_TOPAPP k <= margin_of (mg_down s) ANDROID_CGROUP_TOPAPP k.
Proof.
  unfold rounded. intros (P & U & D) (Q & V & W). split; [|lia].
  destruct U as [->|[-> U]], D as [->|[-> D]]; [left|left|..|by left].
  - split; [apply Z.div_pos; lia|apply Z.div_le_compat_l; lia].
  - split; [apply Z.div_pos; lia|]. transitivity (102400 / 85); [apply Z.div_le_compat_l; lia|done].
  - destruct (Z.eq_dec (aget (mg_dn_pct s) k) 95) as [->|]; [by right|left]. split; [lia|].
    transitivity (102400 / 94); [done|apply Z.div_le_compat_l; lia].
Qed.

Lemma unnamed_margin m k : square m -> margin_of m ANDROID_CGROUPS k = 0.
Proof. intros [H _]. unfold margin_of. rewrite nth_overflow by (cbn; lia). unfold aget. by destruct (Z.to_nat k). Qed.

Lemma ok_ordered s t k : margins_ok s -> 0 <= k <= 3 -> 0 <= margin_of (mg_up s) t k <= margin_of (mg_down s) t k \/ rounded s t k.
Proof.
  intros Ho Hk. destruct (decide (t = ANDROID_CGROUPS)) as [->|Ht]; [left; rewrite !unnamed_margin by apply Ho; lia|].
  destruct (Z.eq_dec (mg_use s) 1) as [H1|H1]; [left; by apply (mo_cgroups _ Ho H1)|].
  destruct (mo_levels _ Ho H1) as [F1 F2]. destruct (decide (k = 3 \/ t <> ANDROID_CGROUP_OTHER /\ t <> ANDROID_CGROUP_TOPAPP)) as [Hc|Hc].
  - destruct (F2 t k Ht Hk Hc) as [-> ->]. left. lia.
  - assert (0 <= k <= 2) as Hk2 by lia. destruct (F1 k Hk2) as [O E]. destruct (level_ordered s k O E) as [X Y].
    destruct (decide (t = ANDROID_CGROUP_OTHER)) as [->|]; [done|]. destruct (decide (t = ANDROID_CGROUP_TOPAPP)) as [->|]; [by left|]. exfalso. apply Hc. auto.
Qed.

(** The task once it runs on the CPU. *)
Definition moved (e : fit_env) (cpu : Z) : fit_env := e <| fe_task_cpu := fun _ => cpu |>.

Lemma moved_margin s e id t cpu :
  margins_ok s -> fe_margin_up e = mg_up s -> fe_margin_down e = mg_down s -> 0 <= cpu_cluster_id (fe_cfg e) cpu <= 3 ->
  ~ rounded s ANDROID_CGROUP_OTHER (cpu_cluster_id (fe_cfg e) cpu) -> check_for_higher_capacity e (fe_task_cpu e id) cpu = true ->
  0 <= fits_margin (moved e cpu) id t cpu <= fits_margin e id t cpu.
Proof.
  intros Ho Hup Hdn Hc Hr Hh. unfold fits_margin. rewrite Hh.
  replace (check_for_higher_capacity (moved e cpu) (fe_task_cpu (moved e cpu) id) cpu) with false.
  - change (fe_margin_up (moved e cpu)) with (fe_margin_up e). change (fe_cfg (moved e cpu)) with (fe_cfg e).
    change (fe_task_cpu (moved e cpu) id) with cpu. change (task_cgroup_type (moved e cpu) id) with (task_cgroup_type e id). rewrite Hup, Hdn.
    set (c := cpu_cluster_id (fe_cfg e) cpu) in *.
    assert (forall u, 0 <= margin_of (mg_up s) u c <= margin_of (mg_down s) u c) as H.
    { intros u. destruct (ok_ordered s u c Ho Hc) as [H|H]; [done|]. exfalso. pose proof H as [-> _]. by apply Hr. }
    pose proof (H (task_cgroup_type e id)). pose proof (H ANDROID_CGROUP_TOPAPP). destruct (task_in_related_thread_group t); lia.
  - symmetry. unfold check_for_higher_capacity. repeat case_match; try done. apply Z.ltb_irrefl.
Qed.

(** C34. Whatever is written to the files of the margins, by whichever interface, in whichever
    order, with too few or with wrong numbers, the margin for leaving a cluster upwards is at
    most the one for moving down into it, for every cgroup and cluster, but for one rounding
    difference between a table and its setting. So a task that is small enough to be moved down
    to a CPU fits on it once it is there, and is not sent up again. *)
Theorem margins_ordered n s :
  0 <= n <= 4 -> rtc (margin_step n) boot_margins s ->
  (forall t k, 0 <= k <= 3 -> margin_of (mg_up s) t k <= margin_of (mg_down s) t k \/ rounded s t k) /\
  (forall e id t cpu, fe_margin_up e = mg_up s -> fe_margin_down e = mg_down s -> 0 <= cpu_cluster_id (fe_cfg e) cpu <= 3 ->
     ~ rounded s ANDROID_CGROUP_OTHER (cpu_cluster_id (fe_cfg e) cpu) -> check_for_higher_capacity e (fe_task_cpu e id) cpu = true ->
     0 <= uclamp_task_util e id t -> uclamp_task_util e id t * fits_margin e id t cpu < 2 ^ 64 ->
     task_fits_capacity e id t cpu = true -> task_fits_capacity (moved e cpu) id t cpu = true).
Proof.
  intros Hn Hs. pose proof (steps_ok _ _ _ Hn Hs boot_margins_ok) as Ho. split.
  - intros t k Hk. destruct (ok_ordered s t k Ho Hk) as [H|H]; [left; lia|by right].
  - intros e id t cpu Hup Hdn Hc Hr Hh Hu0 Hu1 Hf. pose proof (moved_margin s e id t cpu Ho Hup Hdn Hc Hr Hh) as [H0 H1].
    unfold task_fits_capacity in *. change (fe_cfg (moved e cpu)) with (fe_cfg e).
    change (uclamp_task_util (moved e cpu) id t) with (uclamp_task_util e id t).
    set (a := uclamp_task_util e id t) in *. set (m := fits_margin e id t cpu) in *. set (m' := fits_margin (moved e cpu) id t cpu) in *.
    rewrite u64_small in Hf by nia. rewrite u64_small by nia. nia.
Qed.

(** [proc_dointvec] for a line with the numbers [l]: they go to the front of the array. *)
Definition line (l : list Z) : parser := fun stack => (l ++ drop (length l) stack, 0).

Definition demo_margins : margins :=
  (sched_updown_migrate_handler 3 true true [0; 0; 0] (line [90; 80]) (sched_updown_migrate_handler 3 false true [0; 0; 0] (line [70; 60]) boot_margins).1).1.
Definition demo_margin_fit : fit_env :=
  demo_fit <| fe_margin_up := mg_up demo_margins |> <| fe_margin_down := mg_down demo_margins |> <| fe_task_cpu := fun _ => 4 |>.
Definition demo_small : walt_task_struct := zero_wts <| t_demand_scaled := 100 |>.

Lemma margins_ordered_witness :
  (mg_up demo_margins, mg_down demo_margins) =
    ([[1137; 1280; 1078; 1078]; [1078; 1078; 1078; 1078]; [1078; 1078; 1078; 1078]; [1078; 1078; 1078; 1078]],
     [[1462; 1706; 1205; 1205]; [1205; 1205; 1205; 1205]; [1205; 1205; 1205; 1205]; [1205; 1205; 1205; 1205]]) /\
  task_fits_capacity demo_margin_fit 9 demo_small 0 = true /\
  task_fits_capacity (moved demo_margin_fit 0) 9 demo_small 0 = true.
Proof.
  assert (task_fits_capacity demo_margin_fit 9 demo_small 0 = true) as Hf by (vm_compute; reflexivity).
  split; [vm_compute; reflexivity|]. split; [exact Hf|].
  destruct (margins_ordered 3 demo_margins) as [_ H]; [lia| |].
  - eapply rtc_l; [apply (ms_updown 3 boot_margins false true [0; 0; 0] (line [70; 60]))|].
    eapply rtc_l; [apply (ms_updown 3 _ true true [0; 0; 0] (line [90; 80]))|]. apply rtc_refl.
  - apply H; [reflexivity|reflexivity|vm_compute; split; discriminate| |vm_compute; reflexivity|vm_compute; discriminate|vm_compute; reflexivity|exact Hf].
    intros (_ & X & _). vm_compute in X. discriminate X.
Defined.

(** ** What goes wrong *)

(** The tables start with 1078 and 1205, the settings with 95 and 85, for which the tables would
    have 1077 and 1204. A write of 95 to the lower setting is accepted and puts the margin
    for moving down below the one for moving up. *)
Lemma margins_cross :
  let r := sched_updown_migrate_handler 2 false true [0; 0; 0] (line [95]) boot_margins in
  r.2 = 0 /\ rounded r.1 ANDROID_CGROUP_OTHER 0 /\ aget (mg_dn_pct r.1) 0 = 95 /\ aget (mg_up_pct r.1) 0 = 95.
Proof. vm_compute. auto. Qed.

(** [val] is not initialised: with three clusters a write of one number takes the second one
    from the stack. *)
Lemma short_write_uses_stack :
  (sched_updown_migrate_handler 3 true true [7; 99; 8] (line [90]) boot_margins).2 = 0 /\
  mg_up_pct (sched_updown_migrate_handler 3 true true [7; 99; 8] (line [90]) boot_margins).1 = [90; 99; 95] /\
  (sched_updown_migrate_handler 3 true true [7; -1; 8] (line [90]) boot_margins).2 = - EINVAL.
Proof. vm_compute. auto. Qed.

(** Reading a file of one interface is enough to close the other one for good. *)
Lemma read_closes_interface up stack proc t c write stack' proc' :
  let s := (sched_updown_migrate_handler 3 up false stack proc boot_margins).1 in
  sched_cgroup_updown_migrate_handler t c write stack' proc' s = (s, - EINVAL) /\ mg_up s = mg_up boot_margins.
Proof. done. Qed.

End Margins.

(** ** Thresholds of groups *)

(** [up] says that the file is the one of [sysctl_sched_group_upmigrate_pct]; the percentages
    are those of [topo_env]. *)
Definition walt_proc_group_thresholds_handler (up write : bool) (stack : Z) (proc : parser) (e : topo_env) (s : topo) : topo_env * topo * Z :=
  if tp_num s <=? 0 then (e, s, - EPERM) else
  if negb write then (e, s, (proc [if up then te_upmigrate_pct e else te_downmigrate_pct e]).2) else
  let '(val, ret) := proc [stack] in
  if negb (ret =? 0) then (e, s, ret) else
  let val := int_at val 0 in
  if (if up then (val <? 0) || (negb (te_downmigrate_pct e =? 0) && (val =? 0)) || ((u32 val <=? te_downmigrate_pct e) && negb (val =? 0))
      else (val <? 0) || (te_upmigrate_pct e <=? u32 val)) then (e, s, - EINVAL) else
  let e := if up then e <| te_upmigrate_pct := u32 val |> else e <| te_downmigrate_pct := u32 val |> in
  (e, walt_update_group_thresholds e s, 0).

(** ** Settings of a task *)

(** The values of the anonymous [enum] of the parameters. *)
Inductive task_param :=
  | TASK_BEGIN | WAKE_UP_IDLE | INIT_TASK_LOAD | GROUP_ID | PER_TASK_BOOST | PER_TASK_BOOST_PERIOD_MS | LOW_LATENCY
  | PIPELINE | LOAD_BOOST | REDUCE_AFFINITY | MPAM_PART_ID.
#[export] Instance task_param_eq_dec : EqDecision task_param.
Proof. solve_decision. Defined.

Definition TASK_BOOST_END : Z := 4.

(** The tasks and the pipeline, [reduce_mask] by task, [sysctl_task_read_pid]. *)
Record setting_sys := mk_set {
  st_pl : pl_sys;
  st_reduce : Z -> Z;
  st_read_pid : Z
}.

(** [se_find] is the search for a pid, [se_dead] says that a task is dead, [se_set_group] is
    [sched_set_group_id] of [Group] for a task and an id. *)
Record setting_env := mk_se {
  se_pl : pl_env;
  se_find : Z -> option Z;
  se_dead : Z -> bool;
  se_clock : Z;
  se_set_group : Z -> Z -> setting_sys -> setting_sys * Z
}.

Definition set_wts (id : Z) (f : walt_task_struct -> walt_task_struct) (s : setting_sys) : setting_sys :=
  s <| st_pl := on_task id f (st_pl s) |>.

(** [mult_frac] of signed numbers. *)
Definition mult_frac_signed (x n d : Z) : Z := Z.quot x d * n + Z.quot (Z.rem x d * n) d.

(** The switch of a read; [None] is its default. *)
Definition read_setting (param : task_param) (w : walt_task_struct) (reduce : Z) : option Z :=
  match param with
  | WAKE_UP_IDLE => Some (Z.b2z (t_wake_up_idle w))
  | INIT_TASK_LOAD => Some (s32 (t_init_load_pct w))
  | GROUP_ID => Some (s32 (default 0 (t_grp w)))
  | PER_TASK_BOOST => Some (t_boost w)
  | PER_TASK_BOOST_PERIOD_MS => Some (s32 (t_boost_period w / 1000000))
  | LOW_LATENCY => Some (Z.b2z (negb (Z.land (t_low_latency w) WALT_LOW_LATENCY_PROCFS_BIT =? 0)))
  | PIPELINE => Some (Z.b2z (negb (Z.land (t_low_latency w) WALT_LOW_LATENCY_PIPELINE_BIT =? 0)))
  | LOAD_BOOST => Some (t_load_boost w)
  | REDUCE_AFFINITY => Some (s32 reduce)
  | MPAM_PART_ID => Some (t_mpam_part_id w)
  | TASK_BEGIN => None
  end.

(** The switch of a write, with the check before it. *)
Definition write_setting (e : setting_env) (param : task_param) (id val : Z) (s : setting_sys) : setting_sys * Z :=
  if negb (bool_decide (param = LOAD_BOOST)) && (val <? 0) then (s, - EINVAL) else
  match param with
  | WAKE_UP_IDLE => (set_wts id (fun w => w <| t_wake_up_idle := negb (val =? 0) |>) s, 0)
  | INIT_TASK_LOAD =>
      if (val <? 0) || (100 <? val) then (s, - EINVAL) else (set_wts id (fun w => w <| t_init_load_pct := u32 val |>) s, 0)
  | GROUP_ID => se_set_group e id val s
  | PER_TASK_BOOST =>
      if (val <? TASK_BOOST_NONE) || (TASK_BOOST_END <=? val) then (s, - EINVAL) else
      let s := set_wts id (fun w => w <| t_boost := val |>) s in
      (if val =? 0 then set_wts id (fun w => w <| t_boost_period := 0 |>) s else s, 0)
  | PER_TASK_BOOST_PERIOD_MS =>
      if (t_boost (pl_wts (st_pl s) id) =? 0) && negb (val =? 0) then (s, - EINVAL) else
      let s := set_wts id (fun w => w <| t_boost_period := u64 (u64 val * 1000 * 1000) |>) s in
      (set_wts id (fun w => w <| t_boost_expires := u64 (se_clock e + t_boost_period w) |>) s, 0)
  | LOW_LATENCY =>
      (set_wts id (if negb (val =? 0) then set_low_latency WALT_LOW_LATENCY_PROCFS_BIT else clear_low_latency WALT_LOW_LATENCY_PROCFS_BIT) s, 0)
  | PIPELINE =>
      let '(pl, ret) := set_task_pipeline (se_pl e) (se_dead e id) id val (st_pl s) in (s <| st_pl := pl |>, ret)
  | LOAD_BOOST =>
      if (val <? -90) || (90 <? val) then (s, - EINVAL) else
      let s := set_wts id (fun w => w <| t_load_boost := val |>) s in
      (set_wts id (fun w => w <| t_boosted_task_load := if negb (val =? 0) then mult_frac_signed 1024 val 100 else 0 |>) s, 0)
  | REDUCE_AFFINITY => (s <| st_reduce := <[id := val]> (st_reduce s) |>, 0)
  | TASK_BEGIN | MPAM_PART_ID => (s, - EINVAL)
  end.

(** Result: the state, the return value and, on a read, the numbers that are printed. *)
Definition sched_task_handler (e : setting_env) (param : task_param) (write : bool) (proc : parser) (s : setting_sys) :
    setting_sys * Z * option (list Z) :=
  if negb write then
    match se_find e (st_read_pid s) with
    | None => (s, - ENOENT, None)
    | Some id =>
        match read_setting param (pl_wts (st_pl s) id) (st_reduce s id) with
        | None => (s, - EINVAL, None)
        | Some v => (s, (proc [st_read_pid s; v]).2, Some [st_read_pid s; v])
        end
    end
  else
    let '(pid_and_val, ret) := proc [-1; -1] in
    if negb (ret =? 0) then (s, ret, None) else
    if int_at pid_and_val 0 <=? 0 then (s, - ENOENT, None) else
    match se_find e (int_at pid_and_val 0) with
    | None => (s, - ENOENT, None)
    | Some id => let '(s, ret) := write_setting e param id (int_at pid_and_val 1) s in (s, ret, None)
    end.

Definition sched_task_read_pid_handler (proc : parser) (s : setting_sys) : setting_sys * Z :=
  let '(v, ret) := proc [st_read_pid s] in (s <| st_read_pid := int_at v 0 |>, ret).

(** ** A setting is read back *)

Module TaskSettings.

Definition get (q : task_param) (s : setting_sys) (j : Z) : option Z := read_setting q (pl_wts (st_pl s) j) (st_reduce s j).

(** What a read shows of a written value. *)
Definition shown (param : task_param) (val : Z) : Z :=
  match param with WAKE_UP_IDLE | LOW_LATENCY | PIPELINE => Z.b2z (negb (val =? 0)) | _ => val end.

(** A boost that is taken away takes its period with it. *)
Definition also (param : task_param) (val : Z) (q : task_param) : Prop :=
  q = param \/ param = PER_TASK_BOOST /\ val = 0 /\ q = PER_TASK_BOOST_PERIOD_MS.

Lemma get_set_wts q id f s j :
  get q (set_wts id f s) j = if decide (j = id) then read_setting q (f (pl_wts (st_pl s) id)) (st_reduce s id) else get q s j.
Proof.
  unfold get, set_wts, on_task. cbn [st_pl st_reduce pl_wts set const]. unfold insert, fn_insert. destruct (decide (j = id)) as [->|Hne].
  - by rewrite decide_True.
  - by rewrite decide_False by congruence.
Qed.

(** The two bits of [low_latency] that are settings. *)
Lemma low_latency_bits q w v reduce :
  (q = LOW_LATENCY -> Z.testbit v 0 = Z.testbit (t_low_latency w) 0) -> (q = PIPELINE -> Z.testbit v 2 = Z.testbit (t_low_latency w) 2) ->
  read_setting q (w <| t_low_latency := v |>) reduce = read_setting q w reduce.
Proof.
  intros H1 H2. destruct q; try done; unfold read_setting; cbn [t_low_latency set const].
  - rewrite !(ManualList.testbit_test _ 0) by done. by rewrite (H1 eq_refl).
  - rewrite !(ManualList.testbit_test _ 2) by done. by rewrite (H2 eq_refl).
Qed.
Lemma low_latency_read w v reduce : read_setting LOW_LATENCY (w <| t_low_latency := v |>) reduce = Some (Z.b2z (Z.testbit v 0)).
Proof. unfold read_setting. cbn [t_low_latency set const]. by rewrite (ManualList.testbit_test _ 0). Qed.
Lemma pipeline_read w v reduce : read_setting PIPELINE (w <| t_low_latency := v |>) reduce = Some (Z.b2z (Z.testbit v 2)).
Proof. unfold read_setting. cbn [t_low_latency set const]. by rewrite (ManualList.testbit_test _ 2). Qed.

(** The pipeline keeps everything of the tasks but one bit. *)
Lemma pipeline_written e dead id val s :
  let r := set_task_pipeline e dead id val s in
  (r.2 <> 0 -> r.1 = s) /\
  (r.2 = 0 -> exists v, Z.testbit v 0 = Z.testbit (t_low_latency (pl_wts s id)) 0 /\ Z.testbit v 2 = negb (val =? 0) /\
     forall j, pl_wts r.1 j = if decide (j = id) then (pl_wts s id) <| t_low_latency := v |> else pl_wts s j).
Proof.
  unfold set_task_pipeline. destruct dead; [by cbn|]. destruct (val =? 0) eqn:Ev; cbn [negb].
  - cbn [fst snd]. split; [done|]. intros _. set (w := pl_wts s id). set (s1 := on_task id _ s).
    assert (forall j, pl_wts s1 j = if decide (j = id) then w <| t_low_latency := Z.ldiff (t_low_latency w) 4 |> else pl_wts s j) as E1.
    { intros j. unfold s1, on_task. cbn [pl_wts set const]. unfold insert, fn_insert. destruct (decide (j = id)) as [->|]; [by rewrite decide_True|by rewrite decide_False by congruence]. }
    assert (forall x, Z.testbit (Z.ldiff x 4) 0 = Z.testbit x 0 /\ Z.testbit (Z.ldiff x 4) 2 = false) as B.
    { intros x. rewrite !Z.ldiff_spec. change (Z.testbit 4 0) with false. change (Z.testbit 4 2) with true. by rewrite andb_true_r, andb_false_r. }
    clearbody s1. unfold remove_pipeline. destruct (pe_disabled e); [exists (Z.ldiff (t_low_latency w) 4); by destruct (B (t_low_latency w))|].
    destruct (find_slot _ _ _); [|exists (Z.ldiff (t_low_latency w) 4); by destruct (B (t_low_latency w))].
    exists (Z.ldiff (Z.ldiff (t_low_latency w) 4) 4). destruct (B (t_low_latency w)), (B (Z.ldiff (t_low_latency w) 4)). split_and!; [congruence|done|].
    intros j. cbn [fst]. unfold on_task. cbn [pl_wts set const]. unfold insert, fn_insert. destruct (decide (j = id)) as [->|].
    + rewrite decide_True by done. rewrite E1, decide_True by done. done.
    + rewrite decide_False by congruence. rewrite E1. by rewrite decide_False.
  - unfold add_pipeline. destruct (pe_disabled e); [by cbn|]. set (w := pl_wts s id).
    assert (forall s', pl_wts s' = pl_wts s -> exists v, Z.testbit v 0 = Z.testbit (t_low_latency w) 0 /\ Z.testbit v 2 = true /\
      forall j, pl_wts (on_task id (set_low_latency WALT_LOW_LATENCY_PIPELINE_BIT) s') j = if decide (j = id) then w <| t_low_latency := v |> else pl_wts s j) as B.
    { intros s' Es. exists (Z.lor (t_low_latency w) 4). rewrite !Z.lor_spec. change (Z.testbit 4 0) with false. change (Z.testbit 4 2) with true.
      split; [by rewrite orb_false_r|]. split; [by rewrite orb_true_r|]. intros j. unfold on_task. cbn [pl_wts set const]. unfold insert, fn_insert.
      destruct (decide (j = id)) as [->|]; [rewrite decide_True by done; by rewrite Es|rewrite decide_False by congruence; by rewrite Es]. }
    destruct (for_range _ _ _ _) as [pos|[]]; [destruct (negb (pos =? -1)); [|by cbn]|]; cbn [fst snd]; change (0 <? 0) with false; cbv iota; cbn [fst snd];
      (split; [done|]); intros _; by apply B.
Qed.

Definition write_done (param : task_param) (id val : Z) (s s' : setting_sys) : Prop :=
  st_read_pid s' = st_read_pid s /\ get param s' id = Some (shown param val) /\
  forall q j, j <> id \/ ~ also param val q -> get q s' j = get q s j.

(** A write of one field of the task. *)
Lemma field_written param id val f s :
  (forall w r, read_setting param (f w) r = Some (shown param val)) ->
  (forall q w r, ~ also param val q -> read_setting q (f w) r = read_setting q w r) ->
  write_done param id val s (set_wts id f s).
Proof.
  intros H1 H2. split; [done|]. split; [rewrite get_set_wts, decide_True by done; apply H1|].
  intros q j Hj. rewrite get_set_wts. destruct (decide (j = id)) as [->|]; [|done]. destruct Hj as [Hj|Hj]; [done|]. by apply H2.
Qed.
Lemma set_wts_twice id f g s : (forall q j, get q (set_wts id g (set_wts id f s)) j = get q (set_wts id (fun w => g (f w)) s) j).
Proof.
  intros q j. rewrite !get_set_wts. destruct (decide (j = id)) as [->|]; [|done].
  unfold set_wts, on_task. cbn [st_pl st_reduce pl_wts set const]. unfold insert, fn_insert. by rewrite decide_True.
Qed.
Lemma fields_written param id val f g s :
  write_done param id val s (set_wts id (fun w => g (f w)) s) -> write_done param id val s (set_wts id g (set_wts id f s)).
Proof.
  intros (A & B & C). split; [done|]. split; [by rewrite set_wts_twice|]. intros q j Hj. rewrite set_wts_twice. by apply C.
Qed.

Ltac other_param := let q := fresh "q" in let Hq := fresh in intros q w r Hq; destruct q; try done; exfalso; apply Hq; unfold also; auto.

Lemma write_setting_spec e param id val s :
  param <> GROUP_ID -> -2147483648 <= val < 2147483648 ->
  let r := write_setting e param id val s in (r.2 <> 0 -> r.1 = s) /\ (r.2 = 0 -> write_done param id val s r.1).
Proof.
  intros Hg Hv. unfold write_setting. destruct (negb (bool_decide _) && (val <? 0)) eqn:E0; [done|].
  assert (param <> LOAD_BOOST -> 0 <= val) as Hn.
  { intros Hp. rewrite bool_decide_false in E0 by done. cbn [negb andb] in E0. lia. }
  destruct param; try done; cbv zeta.
  - split; [done|]. intros _. apply field_written; [done|other_param].
  - destruct (_ || _) eqn:E; [done|]. split; [done|]. intros _. apply field_written; [|other_param].
    intros w r. cbn. by rewrite u32_small, s32_small by lia.
  - destruct (_ || _) eqn:E; [done|]. split; [done|]. intros _. cbn [fst]. destruct (val =? 0) eqn:Ez.
    + apply fields_written, field_written; [done|]. intros q w r Hq. destruct q; try done; exfalso; apply Hq; unfold also; auto.
      right. split_and!; [done|lia|done].
    + apply field_written; [done|other_param].
  - destruct (_ && negb _) eqn:E; [done|]. split; [done|]. intros _. apply fields_written, field_written; [|other_param].
    intros w r. cbn. specialize (Hn ltac:(done)). rewrite (u64_small val) by lia. rewrite u64_small by lia.
    replace (val * 1000 * 1000) with (val * 1000000) by lia. rewrite Z.div_mul by done. by rewrite s32_small by lia.
  - split; [done|]. intros _. cbn [fst shown]. destruct (val =? 0) eqn:Ez; cbn [negb Z.b2z].
    + apply field_written.
      * intros w r. unfold clear_low_latency. rewrite low_latency_read, Z.ldiff_spec. change (Z.testbit _ 0) with true at 2. cbn [negb].
        rewrite andb_false_r. cbn [shown]. by rewrite Ez.
      * intros q w r Hq. unfold clear_low_latency. apply low_latency_bits; [intros ->; exfalso; apply Hq; by left|]. intros _. rewrite Z.ldiff_spec. apply andb_true_r.
    + apply field_written.
      * intros w r. unfold set_low_latency. rewrite low_latency_read, Z.lor_spec, orb_true_r. cbn [shown]. by rewrite Ez.
      * intros q w r Hq. unfold set_low_latency. apply low_latency_bits; [intros ->; exfalso; apply Hq; by left|]. intros _. rewrite Z.lor_spec. apply orb_false_r.
  - destruct (pipeline_written (se_pl e) (se_dead e id) id val (st_pl s)) as [A B]. destruct (set_task_pipeline _ _ _ _ _) as [pl ret]. cbn [fst snd] in *. split.
    + intros H. rewrite (A H). by destruct s.
    + intros H. destruct (B H) as (v & B0 & B2 & Bj). split; [done|]. unfold get. cbn [st_pl st_reduce set const]. split.
      * rewrite Bj, decide_True by done. rewrite pipeline_read, B2. done.
      * intros q j Hj. rewrite Bj. destruct (decide (j = id)) as [->|]; [|done]. apply low_latency_bits; [done|]. intros ->. destruct Hj as [|Hj]; [done|]. exfalso. apply Hj. by left.
  - destruct (_ || _) eqn:E; [done|]. split; [done|]. intros _. apply fields_written, field_written; [done|other_param].
  - split; [done|]. intros _. specialize (Hn ltac:(done)). split; [done|]. unfold get. cbn [fst st_pl st_reduce set const]. unfold insert, fn_insert. split.
    + rewrite decide_True by done. cbn. by rewrite s32_small by lia.
    + intros q j Hj. destruct (decide (id = j)) as [->|]; [|done]. destruct Hj as [|Hj]; [done|]. destruct q; try done. exfalso. apply Hj. by left.
Qed.


Definition demo_se : setting_env := mk_se demo_ple (fun pid => if pid =? 77 then Some 9 else None) (fun _ => false) 1000 (fun _ _ s => (s, 0)).
Definition demo_set : setting_sys := mk_set demo_pl (fun _ => 255) 1.


(** A line with the pid alone leaves -1 as the value. It is refused for every other
    setting, but it is a load boost. *)
Lemma pid_alone_sets_load_boost :
  (sched_task_handler demo_se LOAD_BOOST true (Margins.line [77]) demo_set).1.2 = 0 /\
  get LOAD_BOOST (sched_task_handler demo_se LOAD_BOOST true (Margins.line [77]) demo_set).1.1 9 = Some (-1) /\
  (sched_task_handler demo_se PER_TASK_BOOST true (Margins.line [77]) demo_set).1.2 = - EINVAL.
Proof. vm_compute. auto. Qed.

End TaskSettings.

(** ** Masks that are written once *)

(** A file like [sched_sbt_pause_cpus]: its value, the mask made of it, and [written_once]. *)
Record once := mk_once { on_value : Z; on_mask : Z; on_written : bool }.

Definition walt_proc_sbt_pause_handler (write : bool) (proc : parser) (x : once) : once * Z :=
  let old_value := on_value x in
  let '(v, ret) := proc [on_value x] in
  let x := x <| on_value := u32 (aget v 0) |> in
  if negb (ret =? 0) || negb write || (old_value =? on_value x) then (x, ret) else
  if on_written x then (x <| on_value := old_value |>, ret) else
  (x <| on_mask := on_value x |> <| on_written := true |>, ret).

(** The same for [cpus_for_pipeline]. *)
Definition walt_proc_pipeline_cpus_handler (write : bool) (proc : parser) (x : once) : once * Z :=
  let old_value := on_value x in
  let '(v, ret) := proc [on_value x] in
  let x := x <| on_value := u32 (aget v 0) |> in
  if negb (ret =? 0) || negb write || (old_value =? on_value x) then (x, ret) else
  if on_written x then (x <| on_value := old_value |>, ret) else
  (x <| on_mask := on_value x |> <| on_written := true |>, ret).

(** ** Settings for one cluster and for all *)

(** [sysctl_sched_idle_enough] and [sysctl_sched_idle_enough_clust]; the thresholds of the
    utilisation are another such pair. *)
Record per_cluster := mk_pc { pc_all : Z; pc_clust : list Z }.

Definition sched_idle_enough_handler (proc : parser) (x : per_cluster) : per_cluster * Z :=
  let '(v, ret) := proc [pc_all x] in
  let x := x <| pc_all := u32 (aget v 0) |> in
  if negb (ret =? 0) then (x, ret) else (x <| pc_clust := replicate (Z.to_nat MAX_CLUSTERS) (pc_all x) |>, ret).

Definition sched_idle_enough_clust_handler (num_sched_clusters : Z) (write : bool) (proc : parser) (x : per_cluster) : per_cluster * Z :=
  if num_sched_clusters <=? 0 then (x, - EINVAL) else
  if negb write then (x, (proc (take (Z.to_nat num_sched_clusters) (pc_clust x))).2) else
  let '(v, ret) := proc (pc_clust x) in
  let x := x <| pc_clust := v |> in
  if negb (ret =? 0) then (x, ret) else (x <| pc_all := aget (pc_clust x) 0 |>, ret).

Definition sched_cluster_util_thres_pct_handler (proc : parser) (x : per_cluster) : per_cluster * Z :=
  let '(v, ret) := proc [pc_all x] in
  let x := x <| pc_all := u32 (aget v 0) |> in
  if negb (ret =? 0) then (x, ret) else (x <| pc_clust := replicate (Z.to_nat MAX_CLUSTERS) (pc_all x) |>, ret).

Definition sched_cluster_util_thres_pct_clust_handler (num_sched_clusters : Z) (write : bool) (proc : parser) (x : per_cluster) : per_cluster * Z :=
  if num_sched_clusters <=? 0 then (x, - EINVAL) else
  if negb write then (x, (proc (take (Z.to_nat num_sched_clusters) (pc_clust x))).2) else
  let '(v, ret) := proc (pc_clust x) in
  let x := x <| pc_clust := v |> in
  if negb (ret =? 0) then (x, ret) else (x <| pc_all := aget (pc_clust x) 0 |>, ret).

(** [sysctl_freq_cap] and the like; the loop stores until a number is negative. *)
Definition sched_freq_cap_handler (num_sched_clusters : Z) (write : bool) (stack : list Z) (proc : parser) (data : list Z) : list Z * Z :=
  if num_sched_clusters <=? 0 then (data, - EINVAL) else
  if negb write then (data, (proc (take (Z.to_nat num_sched_clusters) data)).2) else
  let '(val, ret) := proc stack in
  if negb (ret =? 0) then (data, ret) else
  for_range 0 (Z.to_nat num_sched_clusters) (fun i '(data, ret) =>
    if negb (ret =? 0) then (data, ret) else
    if int_at val i <? 0 then (data, - EINVAL) else (aset data i (u32 (int_at val i)), ret)) (data, ret).

(** ** Load synchronisation *)

(** The three tables [load_sync_util_thres], [load_sync_low_pct] and [load_sync_high_pct], by
    source and destination; there is a second set for 60 frames a second. *)
Record sync_tables := mk_sync { sc_thres : Z -> Z -> Z; sc_low : Z -> Z -> Z; sc_high : Z -> Z -> Z }.
Record sync_sys := mk_syn { sn_tables : sync_tables; sn_60fps : sync_tables; sn_data : bool -> Z -> Z -> list Z }.

Definition set_entry (f : Z -> Z -> Z) (i j v : Z) : Z -> Z -> Z := fun a b => if (a =? i) && (b =? j) then v else f a b.
Definition set_sync (i j : Z) (data : list Z) (t : sync_tables) : sync_tables :=
  mk_sync (set_entry (sc_thres t) i j (aget data 0)) (set_entry (sc_low t) i j (aget data 1)) (set_entry (sc_high t) i j (aget data 2)).

(** [fps60], [i] and [j] name the file: two different clusters, for 60 frames the first two. *)
Definition sched_load_sync_handler (num_sched_clusters : Z) (fps60 : bool) (i j : Z) (proc : parser) (s : sync_sys) : sync_sys * Z :=
  if num_sched_clusters <=? 0 then (s, - EINVAL) else
  let old := sn_data s in
  let '(data, ret) := proc (old fps60 i j) in
  let s := s <| sn_data := fun f a b => if Bool.eqb f fps60 && (a =? i) && (b =? j) then data else old f a b |> in
  if negb (ret =? 0) then (s, ret) else
  (if fps60 then s <| sn_60fps := set_sync i j data (sn_60fps s) |> else s <| sn_tables := set_sync i j data (sn_tables s) |>, ret).

(** ** The window *)

(** [sysctl_sched_ravg_window_nr_ticks] and [new_sched_ravg_window]. *)
Record window_sys := mk_ws { ws_ticks : Z; ws_new : Z }.

Definition sched_window_nr_ticks_change (HZ : Z) (s : window_sys) : window_sys :=
  s <| ws_new := u32 (mult_frac (ws_ticks s) 1000000000 HZ) |>.

Definition sched_ravg_window_handler (HZ : Z) (write : bool) (proc : parser) (s : window_sys) : window_sys * Z :=
  if write && negb (HZ =? 250) then (s, - EPERM) else
  let '(v, ret) := proc [ws_ticks s] in
  let val := int_at v 0 in
  if negb (ret =? 0) || negb write || (u32 val =? ws_ticks s) then (s, ret) else
  if negb (val =? 2) && negb (val =? 3) && negb (val =? 4) && negb (val =? 5) && negb (val =? 8) then (s, - EINVAL) else
  (sched_window_nr_ticks_change HZ (s <| ws_ticks := u32 val |>), ret).

(** [sysctl_walt_features]. *)
Definition walt_features_handler (write : bool) (proc : parser) (features : Z) : Z * Z :=
  let '(v, ret) := proc [features] in
  let val := u32 (aget v 0) in
  if negb (ret =? 0) || negb write || (val =? features) then (features, ret) else (val, ret).

(** [sysctl_sched_user_hint] and [sched_user_hint_reset_time]; the last result says that the
    irq work is queued. *)
Definition walt_proc_user_hint_handler (HZ jiffies : Z) (write : bool) (proc : parser) (hint reset_time : Z) : Z * Z * Z * bool :=
  let old_value := hint in
  let '(v, ret) := proc [hint] in
  let hint := u32 (aget v 0) in
  if negb (ret =? 0) || negb write || (old_value =? hint) then (hint, reset_time, ret, false)
  else (hint, u64 (jiffies + HZ), ret, true).

(** [sysctl_frame_rate] and [frame_size_ns]. *)
Definition walt_frame_rate_handler (write : bool) (proc : parser) (rate size : Z) : Z * Z * Z :=
  let '(v, ret) := proc [rate] in
  let rate := u32 (aget v 0) in
  (rate, if (ret =? 0) && write then if 0 <? rate then 1000000000 / rate else 0 else size, ret).

(** The map of siblings goes to the clusters in the order of the list. *)
Definition sched_sibling_cluster_handler (write : bool) (proc : parser) (sibling_map : list Z) (s : topo) : list Z * topo * Z :=
  let '(sibling_map, ret) := proc sibling_map in
  (sibling_map, if (ret =? 0) && write
    then (fold_left (fun '(s, i) cluster => (on_cluster cluster (fun k => k <| k_sibling := wraps 8 (aget sibling_map i) |>) s, i + 1)) (tp_list s) (s, 0)).1
    else s, ret).

(** ** Settings agree with what is in effect *)

Module Consistency.

(** The comment of the handler: 0 <= down < up, or both are 0. *)
Definition group_pcts_ok (e : topo_env) : Prop :=
  0 <= te_downmigrate_pct e /\ 0 <= te_upmigrate_pct e < 2147483648 /\ (te_downmigrate_pct e < te_upmigrate_pct e \/ te_downmigrate_pct e = 0).

(** The percentages stay in that order, and so do the thresholds after an accepted write, as
    long as the upper one does not exceed 32 bits. *)
Lemma group_thresholds_ordered up write stack proc e s :
  group_pcts_ok e ->
  let r := walt_proc_group_thresholds_handler up write stack proc e s in
  group_pcts_ok r.1.1 /\
  (r.2 <> 0 -> write = true -> r.1 = (e, s)) /\
  (r.2 = 0 -> write = true -> 4294967296 * te_upmigrate_pct r.1.1 < 2 ^ 64 ->
   u32 (u32 (capacity_at e s (nth 0 (tp_table s) 0%nat)) * Z.shiftr (te_window e) SCHED_CAPACITY_SHIFT) * te_upmigrate_pct r.1.1 / 100 < 4294967296 ->
   tp_downmigrate r.1.2 <= tp_upmigrate r.1.2).
Proof.
  intros G0. pose proof G0 as (G1 & G2 & G3). unfold walt_proc_group_thresholds_handler. destruct (tp_num s <=? 0); [by cbn|].
  destruct write; cbn [negb]; [|by cbn]. destruct (proc [stack]) as [arr ret]. destruct (ret =? 0) eqn:Er; cbn [negb]; [|split; [exact G0|split; [done|cbn; lia]]].
  set (val := int_at arr 0). pose proof (Margins.s32_range (aget arr 0)) as Hv. fold (int_at arr 0) in Hv. fold val in Hv. clearbody val.
  match goal with |- context [if ?b then (e, s, - EINVAL) else _] => destruct b eqn:Ec end; [by cbn|].
  set (e' := if up then e <| te_upmigrate_pct := u32 val |> else e <| te_downmigrate_pct := u32 val |>). cbn [fst snd].
  assert (0 <= val) as Hp by (destruct up; lia). rewrite u32_small in Ec by lia.
  assert (te_downmigrate_pct e' = (if up then te_downmigrate_pct e else val) /\ te_upmigrate_pct e' = (if up then val else te_upmigrate_pct e) /\
    te_window e' = te_window e /\ te_capacity e' = te_capacity e) as (E1 & E2 & E3 & E4).
  { unfold e'. rewrite u32_small by lia. by destruct up. }
  clearbody e'. assert (group_pcts_ok e') as G by (unfold group_pcts_ok; rewrite E1, E2; destruct up; lia). split; [done|]. split; [done|].
  intros _ _ B1 B2. unfold walt_update_group_thresholds. cbn [tp_upmigrate tp_downmigrate set const]. rewrite E3.
  replace (capacity_at e' s _) with (capacity_at e s (nth 0 (tp_table s) 0%nat)) by (unfold capacity_at; by rewrite E4).
  set (ms := u32 (_ * _)) in *. assert (0 <= ms < 4294967296) as Hms by apply u32_range. clearbody ms.
  destruct G as (H1 & H2 & H3). assert (te_downmigrate_pct e' <= te_upmigrate_pct e') as Hle by lia.
  set (d := te_downmigrate_pct e') in *. set (u := te_upmigrate_pct e') in *. clearbody d u.
  assert (ms * d <= ms * u) as Hm by nia. assert (0 <= ms * d) by nia. assert (ms * u < 2 ^ 64) by nia.
  rewrite (u64_small (ms * d)), (u64_small (ms * u)) by lia.
  assert (ms * d / 100 <= ms * u / 100) by (apply Z.div_le_mono; lia). assert (0 <= ms * d / 100) by (apply Z.div_pos; lia).
  rewrite !u32_small by lia. done.
Qed.

(** A mask can be set once: it always is the value that is read, and after the first accepted
    change nothing is changed any more. *)
Lemma mask_written_once write proc x :
  (forall l, (proc l).2 <> 0 \/ write = false -> (proc l).1 = l) -> 0 <= on_value x < 4294967296 -> on_mask x = on_value x ->
  let x' := (walt_proc_sbt_pause_handler write proc x).1 in
  0 <= on_value x' < 4294967296 /\ on_mask x' = on_value x' /\ (on_written x = true -> x' = x) /\
  walt_proc_pipeline_cpus_handler write proc x = walt_proc_sbt_pause_handler write proc x.
Proof.
  intros Hp Hr Hm. unfold walt_proc_pipeline_cpus_handler, walt_proc_sbt_pause_handler. specialize (Hp [on_value x]). destruct (proc [on_value x]) as [v ret]. cbn [fst snd] in *.
  pose proof (u32_range (aget v 0)) as Hv. destruct x as [old m w]. cbn [on_value on_mask on_written] in *. subst m.
  destruct (negb (ret =? 0) || negb write || _) eqn:E; cbn [fst on_value on_mask on_written set const] in *.
  - assert (u32 (aget v 0) = old) as ->; [|by destruct w].
    destruct (ret =? 0) eqn:Er; cbn [negb orb] in E; [|rewrite Hp by lia; by rewrite u32_small].
    destruct write; cbn [negb orb] in E; [lia|]. rewrite Hp by auto. by rewrite u32_small.
  - destruct w; cbn [fst on_value on_mask on_written set const]; done.
Qed.

(** The setting for all clusters is the one of the first cluster after every accepted write of
    either file. *)
Definition agrees (x : per_cluster) : Prop := pc_all x = aget (pc_clust x) 0.
Lemma clusters_agree n write proc x :
  ((sched_idle_enough_handler proc x).2 = 0 -> agrees (sched_idle_enough_handler proc x).1 /\ forall k, 0 <= k < 4 -> aget (pc_clust (sched_idle_enough_handler proc x).1) k = pc_all (sched_idle_enough_handler proc x).1) /\
  ((sched_idle_enough_clust_handler n true proc x).2 = 0 -> agrees (sched_idle_enough_clust_handler n true proc x).1) /\
  (sched_cluster_util_thres_pct_handler proc x = sched_idle_enough_handler proc x /\
   sched_cluster_util_thres_pct_clust_handler n write proc x = sched_idle_enough_clust_handler n write proc x).
Proof.
  split; [|split; [|done]].
  - unfold sched_idle_enough_handler, agrees. destruct (proc _) as [v ret]. destruct (ret =? 0) eqn:E; cbn [negb fst snd]; [|lia]. intros _.
    cbn [pc_all pc_clust set const]. assert (forall k, 0 <= k < 4 -> aget (replicate (Z.to_nat MAX_CLUSTERS) (u32 (aget v 0))) k = u32 (aget v 0)) as H.
    { intros k Hk. rewrite aget_replicate. by replace (Z.to_nat k <? Z.to_nat MAX_CLUSTERS)%nat with true by (unfold MAX_CLUSTERS; lia). }
    split; [by rewrite H by lia|exact H].
  - unfold sched_idle_enough_clust_handler, agrees. destruct (n <=? 0); [done|]. cbn [negb]. destruct (proc _) as [v ret]. destruct (ret =? 0) eqn:E; cbn [negb fst snd]; [done|lia].
Qed.

(** A read of the setting for all clusters sets every cluster to the value of the first one. *)
Lemma read_resets_clusters :
  let x := (sched_idle_enough_clust_handler 4 true (Margins.line [10; 20; 30; 40]) (mk_pc 10 [10; 10; 10; 10])).1 in
  pc_clust x = [10; 20; 30; 40] /\ sched_idle_enough_handler (fun l => (l, 0)) x = (mk_pc 10 [10; 10; 10; 10], 0).
Proof. vm_compute. auto. Qed.

(** A refused list of frequency caps is stored up to the number that is refused. *)
Lemma refused_caps_stored :
  sched_freq_cap_handler 4 true [0; 0; 0; 0] (Margins.line [1000; 2000; -1; 3000]) [9; 9; 9; 9] = ([1000; 2000; 9; 9], - EINVAL).
Proof. vm_compute. done. Qed.

(** The window is changed to 8, 12, 16, 20 or 32 ms only. *)
Lemma window_values write proc s :
  let r := sched_ravg_window_handler 250 write proc s in
  r.1 = s \/ r.2 = 0 /\ ws_new r.1 ∈ [8000000; 12000000; 16000000; 20000000; 32000000] /\ ws_new r.1 = ws_ticks r.1 * 4000000.
Proof.
  unfold sched_ravg_window_handler. rewrite andb_false_r. destruct (proc _) as [v ret]. set (val := int_at v 0). clearbody val.
  destruct (negb (ret =? 0) || _ || _) eqn:E; [by left|]. destruct (_ && negb (val =? 8)) eqn:E2; [by left|]. right. cbn [fst snd]. split; [lia|].
  assert (val = 2 \/ val = 3 \/ val = 4 \/ val = 5 \/ val = 8) as Hv by lia. destruct Hv as [->|[->|[->|[->| ->]]]]; vm_compute; (split; [|done]); set_solver.
Qed.

(** The tables of the load synchronisation hold the numbers of the files. *)
Lemma sync_in_effect n fps60 i j proc s :
  let r := sched_load_sync_handler n fps60 i j proc s in
  let t := if fps60 then sn_60fps r.1 else sn_tables r.1 in
  r.2 = 0 -> [sc_thres t i j; sc_low t i j; sc_high t i j] = map (aget (sn_data r.1 fps60 i j)) [0; 1; 2].
Proof.
  unfold sched_load_sync_handler. destruct (n <=? 0); [done|]. destruct (proc _) as [data ret]. destruct (ret =? 0) eqn:E; cbn [negb fst snd]; [|lia].
  intros _. destruct fps60; unfold set_sync, set_entry; cbn; rewrite !Z.eqb_refl; done.
Qed.

End Consistency.
