(* ===== verification/InputBoost.v ===== *)
(** * Boost on input

    [input-boost.c]: an input event raises the minimum frequencies, and the scheduler boost if
    that is wanted, for a short time. A work does the one, a delayed work undoes it. The
    workqueue runs the works one after the other: the first one waits for a running second
    one ([cancel_delayed_work_sync]) and queues it only at its end. *)

From Stdlib Require Import ZArith Lia ZifyBool Bool.
From stdpp Require Import base list functions numbers list_numbers relations.
From S2P Require Import Prelude WaltTypes Cpumask SmartFreq Halt CoreCtl Boost.

Definition MIN_INPUT_INTERVAL : Z := 150000.

(** The masks, [policy->cpu] and [policy->related_cpus] of a CPU, the environment of core control
    and of the scheduler boost, and the settings: [sysctl_input_boost_freq] and
    [sysctl_sched_boost_on_input]; the vendor's limits that may be lifted meanwhile
    ([cb_ceiling_free], [omrg_ceiling_free]). *)
Record ib_env := mk_ibe {
  ie_possible : Z;
  ie_online : Z;
  ie_policy : Z -> option (Z * Z);
  ie_core : core_env;
  ie_disabled : bool;
  ie_hmp : bool;
  ie_freq : list Z;
  ie_on_input : Z;
  ie_cb_free : bool;
  ie_omrg_free : bool
}.

Inductive ib_message := policy_not_found (cpu : Z) | disable_failed | enable_failed.

(** [input_boost_min] and the value of [qos_req] by CPU, [sched_boost_active], whether the work and
    the delayed work are queued, [last_input_time], how often [cpus_read_lock] is held, the
    calls for the vendor's limits, the messages, and the scheduler boost. *)
Record ib_sys := mk_ibs {
  ib_min : list Z;
  ib_qos : list Z;
  ib_active : bool;
  ib_work : bool;
  ib_rem : bool;
  ib_last : Z;
  ib_locked : Z;
  ib_free : list (bool * bool);
  ib_log : list ib_message;
  ib_boost : boost_state core_sys
}.

Section InputBoost.
Context (e : ib_env).

Definition set_boost (type : Z) (s : ib_sys) : ib_sys * Z :=
  let '(b, ret) := sched_set_boost (CB := Boosting.core_ctl_core_boost (ie_core e)) (ie_disabled e) (ie_hmp e) type (ib_boost s) in
  (s <| ib_boost := b |>, ret).

(** The request of a CPU that has one is accepted. *)
Definition boost_adjust_notify (cpu : Z) (s : ib_sys) : ib_sys :=
  s <| ib_qos := aset (ib_qos s) cpu (aget (ib_min s) cpu) |>.

(** One turn of the loop; [online_cpus] shrinks under it. [inr] is the [return]. *)
Definition online_turn (i : Z) (x : (ib_sys * Z) + ib_sys) : (ib_sys * Z) + ib_sys :=
  match x with
  | inr s => inr s
  | inl (s, online_cpus) =>
      if negb (Z.testbit online_cpus i) then inl (s, online_cpus) else
      match ie_policy e i with
      | None => inr (s <| ib_log := policy_not_found i :: ib_log s |>)
      | Some (cpu, related_cpus) => inl (boost_adjust_notify cpu s, Z.ldiff online_cpus related_cpus)
      end
  end.

Definition update_policy_online (s : ib_sys) : ib_sys :=
  let s := s <| ib_locked := ib_locked s + 1 |> in
  match for_range 0 (Z.to_nat WALT_NR_CPUS) online_turn (inl (s, ie_online e)) with
  | inr s => s
  | inl (s, _) => s <| ib_locked := ib_locked s - 1 |>
  end.

(** [cb_ceiling_free(on)] and [omrg_ceiling_free(on)]. *)
Definition ceiling_free (on : bool) (s : ib_sys) : ib_sys :=
  let s := if ie_cb_free e then s <| ib_free := (true, on) :: ib_free s |> else s in
  if ie_omrg_free e then s <| ib_free := (false, on) :: ib_free s |> else s.

Definition set_minima (f : Z -> Z) (s : ib_sys) : ib_sys :=
  s <| ib_min := for_each_cpu (ie_possible e) (fun i l => aset l i (f i)) (ib_min s) |>.

Definition do_input_boost_rem (s : ib_sys) : ib_sys :=
  let s := set_minima (fun _ => 0) s in
  let s := ceiling_free false s in
  let s := update_policy_online s in
  if ib_active s then
    let '(s, ret) := set_boost 0 s in
    let s := if u32 ret =? 0 then s <| ib_log := disable_failed :: ib_log s |> else s in
    s <| ib_active := false |>
  else s.

Definition do_input_boost (s : ib_sys) : ib_sys :=
  let s := s <| ib_rem := false |> in
  let s := if ib_active s then (set_boost 0 s).1 <| ib_active := false |> else s in
  let s := set_minima (aget (ie_freq e)) s in
  let s := ceiling_free true s in
  let s := update_policy_online s in
  let s :=
    if 0 <? ie_on_input e then
      let '(s, ret) := set_boost (ie_on_input e) s in
      if negb (u32 ret =? 0) then s <| ib_log := enable_failed :: ib_log s |> else s <| ib_active := true |>
    else s in
  s <| ib_rem := true |>.

(** [now] and [later] are the two readings of the clock, in microseconds. *)
Definition inputboost_input_event (now later : Z) (s : ib_sys) : ib_sys :=
  let enabled :=
    match for_each_cpu_until (ie_possible e) (fun cpu (_ : unit) => if 0 <? aget (ie_freq e) cpu then inr tt else inl tt) tt with
    | inr _ => true
    | inl _ => false
    end in
  if negb enabled then s else
  if u64 (now - ib_last s) <? MIN_INPUT_INTERVAL then s else
  if ib_work s then s else
  s <| ib_work := true |> <| ib_last := later |>.

End InputBoost.

(** ** Boosts end *)

Module InputBoosts.

(** Input events at any time, the works when they are queued, under settings, online CPUs and
    policies that change. *)
Inductive ib_step (possible : Z) (s : ib_sys) : ib_sys -> Prop :=
  | is_event e now later : ie_possible e = possible -> ib_step possible s (inputboost_input_event e now later s)
  | is_boost e : ie_possible e = possible -> ib_work s = true -> ib_step possible s (do_input_boost e (s <| ib_work := false |>))
  | is_remove e : ie_possible e = possible -> ib_rem s = true -> ib_step possible s (do_input_boost_rem e (s <| ib_rem := false |>)).

Section Proofs.
Context (e : ib_env).

(** What a part of a work leaves alone. *)
Record kept (s s' : ib_sys) : Prop := mk_kept {
  kp_min : ib_min s' = ib_min s;
  kp_active : ib_active s' = ib_active s;
  kp_work : ib_work s' = ib_work s;
  kp_rem : ib_rem s' = ib_rem s;
  kp_last : ib_last s' = ib_last s;
  kp_length : length (ib_qos s') = length (ib_qos s)
}.
#[local] Instance kept_preorder : PreOrder kept.
Proof. split; [by intros s|]. intros s1 s2 s3 [] []. split; congruence. Qed.

Lemma ceiling_kept on s : kept s (ceiling_free e on s) /\ ib_qos (ceiling_free e on s) = ib_qos s.
Proof. unfold ceiling_free. by destruct (ie_cb_free e), (ie_omrg_free e). Qed.
Lemma set_boost_kept t s : kept s (set_boost e t s).1 /\ ib_qos (set_boost e t s).1 = ib_qos s.
Proof. unfold set_boost. by destruct (sched_set_boost _ _ _ _). Qed.

Lemma update_kept s : kept s (update_policy_online e s).
Proof.
  unfold update_policy_online. set (s0 := s <| ib_locked := _ |>). assert (kept s s0) as H0 by done. clearbody s0.
  set (P := fun (_ : Z) (x : (ib_sys * Z) + ib_sys) => match x with inl (s', _) => kept s s' | inr s' => kept s s' end).
  assert (P (0 + Z.of_nat (Z.to_nat WALT_NR_CPUS)) (for_range 0 (Z.to_nat WALT_NR_CPUS) (online_turn e) (inl (s0, ie_online e)))) as H.
  { apply (for_range_ind P); [done|]. intros i x _ H. unfold P in *. destruct x as [[s' m]|s']; cbn [online_turn]; [|done].
    destruct (negb _); [done|]. destruct (ie_policy e i) as [[cpu rel]|]; [|by etrans].
    etrans; [exact H|]. unfold boost_adjust_notify. split; try done. cbn [ib_qos set const]. apply length_aset. }
  destruct (for_range _ _ _ _) as [[s' m]|s']; [by etrans; [exact H|]|exact H].
Qed.

Lemma minima_spec f s :
  length (ib_min s) = 8%nat -> let s' := set_minima e f s in
  length (ib_min s') = 8%nat /\ ib_active s' = ib_active s /\ ib_work s' = ib_work s /\ ib_rem s' = ib_rem s /\ ib_last s' = ib_last s /\ ib_qos s' = ib_qos s /\
  forall c, is_cpu c -> aget (ib_min s') c = if Z.testbit (ie_possible e) c then f c else aget (ib_min s) c.
Proof.
  intros Hl. cbv zeta. unfold set_minima. cbn [ib_min ib_active ib_work ib_rem ib_last ib_qos set const].
  set (P := fun n l => length l = 8%nat /\ forall c, 0 <= c -> aget l c = if (c <? n) && Z.testbit (ie_possible e) c then f c else aget (ib_min s) c).
  assert (P WALT_NR_CPUS (for_each_cpu (ie_possible e) (fun i l => aset l i (f i)) (ib_min s))) as [H1 H2].
  { apply (for_each_cpu_ind P); unfold P.
    - split; [done|]. intros c Hc. by replace (c <? 0) with false by lia.
    - intros c l [Hc Hc8] Hb [H1 H2]. rewrite length_aset. split; [done|]. intros k Hk. unfold WALT_NR_CPUS in Hc8. rewrite aget_aset by lia.
      destruct (c =? k) eqn:E; [replace k with c by lia; replace (c <? c + 1) with true by lia; by rewrite Hb|].
      rewrite H2 by done. by replace (k <? c + 1) with (k <? c) by lia.
    - intros c l Hc Hb [H1 H2]. split; [done|]. intros k Hk. rewrite H2 by done. destruct (Z.eq_dec k c) as [->|]; [rewrite Hb, !andb_false_r; done|].
      by replace (k <? c + 1) with (k <? c) by lia. }
  split_and!; try done. intros c [Hc Hc8]. rewrite H2 by done. by replace (c <? WALT_NR_CPUS) with true by lia.
Qed.

(** Every online CPU has a policy, and the CPUs of a policy have the same one. *)
Definition policies_ok : Prop := forall c, Z.testbit (ie_online e) c = true ->
  exists cpu rel, ie_policy e c = Some (cpu, rel) /\ is_cpu cpu /\ Z.testbit rel c = true /\
  forall d, Z.testbit (ie_online e) d = true -> Z.testbit rel d = true -> ie_policy e d = Some (cpu, rel).

(** The request of the policy of [c] is the one of its CPU. *)
Definition requested (s s' : ib_sys) (c : Z) : Prop := forall cpu rel, ie_policy e c = Some (cpu, rel) -> aget (ib_qos s') cpu = aget (ib_min s) cpu.

Lemma notify_requested s s' cpu c :
  length (ib_qos s') = 8%nat -> is_cpu cpu -> ib_min s' = ib_min s -> (forall a r, ie_policy e c = Some (a, r) -> is_cpu a) ->
  requested s s' c \/ (exists rel, ie_policy e c = Some (cpu, rel)) -> requested s (boost_adjust_notify cpu s') c.
Proof.
  intros Hl [Hc Hc8] Hm Ha Hr a r Hp. unfold boost_adjust_notify. cbn [ib_qos set const]. unfold WALT_NR_CPUS in Hc8. pose proof (Ha a r Hp) as [Ha0 _].
  rewrite aget_aset by lia. destruct (cpu =? a) eqn:E; [rewrite Hm; f_equal; lia|]. destruct Hr as [Hr|[rel Hr]]; [by eapply Hr|]. rewrite Hp in Hr. simplify_eq. lia.
Qed.

Lemma update_requests s :
  length (ib_qos s) = 8%nat -> policies_ok ->
  ib_locked (update_policy_online e s) = ib_locked s /\
  forall c, is_cpu c -> Z.testbit (ie_online e) c = true -> requested s (update_policy_online e s) c.
Proof.
  intros Hl Hp. unfold update_policy_online. set (s0 := s <| ib_locked := _ |>).
  set (P := fun n (x : (ib_sys * Z) + ib_sys) => exists s' m, x = inl (s', m) /\ ib_min s' = ib_min s /\ length (ib_qos s') = 8%nat /\ ib_locked s' = ib_locked s + 1 /\
    (forall c, 0 <= c -> Z.testbit m c = true -> Z.testbit (ie_online e) c = true /\ n <= c) /\
    (forall c, 0 <= c -> Z.testbit m c = false -> Z.testbit (ie_online e) c = true -> requested s s' c)).
  assert (P (0 + Z.of_nat (Z.to_nat WALT_NR_CPUS)) (for_range 0 (Z.to_nat WALT_NR_CPUS) (online_turn e) (inl (s0, ie_online e)))) as (s' & m & -> & A & B & C & D & F).
  { apply (for_range_ind P).
    - exists s0, (ie_online e). split_and!; try done. intros c Hc H1 H2. congruence.
    - intros i x Hi (s' & m & -> & A & B & C & D & F). cbn [online_turn]. destruct (Z.testbit m i) eqn:Eb; cbn [negb].
      + destruct (D i ltac:(lia) Eb) as [Hon _]. destruct (Hp i Hon) as (cpu & rel & Ep & Hcpu & Hrel & Hsame). rewrite Ep.
        eexists _, _. split; [done|]. split_and!; try done.
        * unfold boost_adjust_notify. cbn [ib_qos set const]. by rewrite length_aset.
        * intros c Hc H. rewrite Z.ldiff_spec in H. apply andb_true_iff in H as [H1 H2%negb_true_iff]. destruct (D c Hc H1) as [H3 H4]. split; [done|].
          assert (c <> i) by (intros ->; congruence). lia.
        * intros c Hc H Hoc. apply notify_requested; try done.
          -- intros a r Ha. destruct (Hp c Hoc) as (a' & r' & E & Ha' & _). rewrite Ha in E. by simplify_eq.
          -- rewrite Z.ldiff_spec in H. destruct (Z.testbit m c) eqn:Em; [|left; by apply F]. right. exists rel. apply Hsame; [done|].
             cbn [andb] in H. by apply negb_false_iff in H.
      + exists s', m. split_and!; try done. intros c Hc H. destruct (D c Hc H) as [H1 H2]. split; [done|]. assert (c <> i) by (intros ->; congruence). lia. }
  split; [cbn; lia|]. intros c [Hc Hc8] Hon cpu rel Ep. change (aget (ib_qos s') cpu = aget (ib_min s) cpu). apply (F c Hc) with rel; try done.
  destruct (Z.testbit m c) eqn:E; [|done]. destruct (D c Hc E) as [_ H]. change (0 + Z.of_nat (Z.to_nat WALT_NR_CPUS)) with WALT_NR_CPUS in H. lia.
Qed.

End Proofs.

(** The requests of the online policies are what [f] says. *)
Definition asks (e : ib_env) (f : Z -> Z) (s : ib_sys) : Prop :=
  forall c cpu rel, is_cpu c -> Z.testbit (ie_online e) c = true -> ie_policy e c = Some (cpu, rel) -> Z.testbit (ie_possible e) cpu = true ->
  aget (ib_qos s) cpu = f cpu.
Definition sized (s : ib_sys) : Prop := length (ib_min s) = 8%nat /\ length (ib_qos s) = 8%nat.

(** The common part of both works. *)
Lemma minima_in_effect e f on s :
  sized s -> let s' := update_policy_online e (ceiling_free e on (set_minima e f s)) in
  sized s' /\ ib_active s' = ib_active s /\ ib_work s' = ib_work s /\ ib_rem s' = ib_rem s /\
  (forall c, is_cpu c -> Z.testbit (ie_possible e) c = true -> aget (ib_min s') c = f c) /\
  (policies_ok e -> asks e f s').
Proof.
  intros [Hm Hq]. destruct (minima_spec e f s Hm) as (A1 & A2 & A3 & A4 & A5 & A6 & A7). set (s1 := set_minima e f s) in *. clearbody s1.
  destruct (ceiling_kept e on s1) as [[B1 B2 B3 B4 B5 B6] B7]. set (s2 := ceiling_free e on s1) in *. clearbody s2.
  pose proof (update_kept e s2) as [C1 C2 C3 C4 C5 C6]. cbv zeta.
  assert (length (ib_qos s2) = 8%nat) as Hq2 by congruence. split; [split; congruence|]. split_and!; try congruence.
  - intros c Hc Hp. rewrite C1, B1, A7, Hp by done. done.
  - intros Hpol c cpu rel Hc Hon Hpc Hpos. destruct (update_requests e s2 Hq2 Hpol) as [_ H].
    rewrite (H c Hc Hon cpu rel Hpc), B1. destruct (Hpol c Hon) as (a & r & E & Ha & _). rewrite Hpc in E. simplify_eq. by rewrite A7, Hpos.
Qed.

Lemma asks_same s s' e f :
  ib_min s' = ib_min s -> ib_qos s' = ib_qos s ->
  (forall c, is_cpu c -> Z.testbit (ie_possible e) c = true -> aget (ib_min s) c = f c) -> (policies_ok e -> asks e f s) ->
  (forall c, is_cpu c -> Z.testbit (ie_possible e) c = true -> aget (ib_min s') c = f c) /\ (policies_ok e -> asks e f s').
Proof. intros Hm Hq H1 H2. unfold asks in *. by rewrite Hm, Hq. Qed.

Lemma remove_spec e s :
  sized s -> let s' := do_input_boost_rem e s in
  sized s' /\ ib_active s' = false /\ ib_work s' = ib_work s /\ ib_rem s' = ib_rem s /\
  (forall c, is_cpu c -> Z.testbit (ie_possible e) c = true -> aget (ib_min s') c = 0) /\ (policies_ok e -> asks e (fun _ => 0) s').
Proof.
  intros Hs. destruct (minima_in_effect e (fun _ => 0) false s Hs) as ([A1 A2] & B & C & D & E & F). unfold do_input_boost_rem. cbv zeta.
  set (s1 := update_policy_online e _) in *. clearbody s1. destruct (ib_active s1) eqn:Ea; [|by split_and!].
  destruct (set_boost_kept e 0 s1) as [[K1 K2 K3 K4 K5 K6] K7]. destruct (set_boost e 0 s1) as [s2 ret]. cbn [fst] in *.
  destruct (u32 ret =? 0); (split; [split; cbn [ib_min ib_qos set const]; by rewrite ?K1, ?K7|]); (split; [done|]);
    (split; [cbn [ib_work set const]; by rewrite K3|]); (split; [cbn [ib_rem set const]; by rewrite K4|]); by apply (asks_same s1).
Qed.

Lemma boost_spec e s :
  sized s -> let s' := do_input_boost e s in
  sized s' /\ ib_rem s' = true /\ ib_work s' = ib_work s /\
  (forall c, is_cpu c -> Z.testbit (ie_possible e) c = true -> aget (ib_min s') c = aget (ie_freq e) c) /\ (policies_ok e -> asks e (aget (ie_freq e)) s').
Proof.
  intros Hs. unfold do_input_boost. cbv zeta. set (s0 := if ib_active _ then _ else _).
  assert (sized s0 /\ ib_work s0 = ib_work s) as [Hs0 Hw0].
  { unfold s0. destruct (ib_active _); [|done]. destruct (set_boost_kept e 0 (s <| ib_rem := false |>)) as [[K1 K2 K3 K4 K5 K6] K7].
    set (x := (set_boost e 0 _).1) in *. clearbody x. destruct Hs as [H1 H2].
    split; [split; [exact (eq_trans (f_equal length K1) H1)|exact (eq_trans (f_equal length K7) H2)]|exact K3]. }
  clearbody s0. destruct (minima_in_effect e (aget (ie_freq e)) true s0 Hs0) as ([A1 A2] & B & C & D & E & F).
  set (s1 := update_policy_online e _) in *. clearbody s1. rewrite Hw0 in C.
  destruct (0 <? ie_on_input e); [|by split_and!].
  destruct (set_boost_kept e (ie_on_input e) s1) as [[K1 K2 K3 K4 K5 K6] K7]. destruct (set_boost e (ie_on_input e) s1) as [s2 ret]. cbn [fst] in *.
  destruct (negb _); (split; [split; cbn [ib_min ib_qos set const]; by rewrite ?K1, ?K7|]); (split; [done|]); (split; [cbn [ib_work set const]; by rewrite K3|]); by apply (asks_same s1).
Qed.

(** ** Any run *)

Record ib_boot (s : ib_sys) : Prop := mk_ibo {
  io_sized : sized s;
  io_min : ib_min s = replicate 8 0;
  io_active : ib_active s = false;
  io_rem : ib_rem s = false
}.

Definition at_rest (possible : Z) (s : ib_sys) : Prop :=
  ib_active s = false /\ forall c, is_cpu c -> Z.testbit possible c = true -> aget (ib_min s) c = 0.

Lemma run_inv possible s s' :
  rtc (ib_step possible) s s' -> sized s /\ (ib_rem s = false -> at_rest possible s) -> sized s' /\ (ib_rem s' = false -> at_rest possible s').
Proof.
  induction 1 as [|x y z Hxy _ IH]; [done|]. intros [Hs Hr]. apply IH. clear IH. destruct Hxy as [e now later He|e He Hw|e He Hrm].
  - assert (inputboost_input_event e now later x = x \/ inputboost_input_event e now later x = x <| ib_work := true |> <| ib_last := later |>) as [->| ->]; [|done|exact (conj Hs Hr)].
    unfold inputboost_input_event. destruct (negb _); [by left|]. destruct (_ <? _); [by left|]. destruct (ib_work x); [by left|by right].
  - assert (sized (x <| ib_work := false |>)) as Hs1 by exact Hs. destruct (boost_spec e _ Hs1) as (A & B & _). split; [exact A|]. intros X. exfalso. cbv zeta in B. congruence.
  - assert (sized (x <| ib_rem := false |>)) as Hs1 by exact Hs. destruct (remove_spec e _ Hs1) as (A & B & C & D & E & F). split; [exact A|]. intros _. split; [exact B|]. rewrite <- He. exact E.
Qed.


(** Two policies of four CPUs; the scheduler boost is conservative. *)
Definition demo_ib : ib_env :=
  mk_ibe 255 255 (fun c => if c <? 4 then Some (0, 15) else Some (4, 240)) CoreDemo.demo_cenv false true
    [1000; 0; 0; 0; 2000; 0; 0; 0] CONSERVATIVE_BOOST false false.
Definition demo_ibs : ib_sys := mk_ibs (replicate 8 0) (replicate 8 300) false false false 0 0 [] [] Boosting.demo_boost.
Definition demo_touched : ib_sys := inputboost_input_event demo_ib 200000 200001 demo_ibs.
Definition demo_boosted : ib_sys := do_input_boost demo_ib (demo_touched <| ib_work := false |>).

Lemma demo_policies : policies_ok demo_ib.
Proof.
  intros c Hc. assert (0 <= c < 8) as Hb by (apply (mask_bit_is_cpu 255); [split; vm_compute; [discriminate|reflexivity]|done]).
  assert (c = 0 \/ c = 1 \/ c = 2 \/ c = 3 \/ c = 4 \/ c = 5 \/ c = 6 \/ c = 7) as Hc8 by lia.
  assert (forall d, 0 <= d -> d < 8 -> (Z.testbit 15 d = true -> d < 4) /\ (Z.testbit 240 d = true -> 4 <= d)) as Hd.
  { intros d H0 H8. assert (d = 0 \/ d = 1 \/ d = 2 \/ d = 3 \/ d = 4 \/ d = 5 \/ d = 6 \/ d = 7) as Hd8 by lia.
    destruct Hd8 as [->|[->|[->|[->|[->|[->|[->| ->]]]]]]]; vm_compute; (split; intros X; try discriminate X; (reflexivity || discriminate)). }
  assert (forall d, Z.testbit (ie_online demo_ib) d = true -> 0 <= d < 8) as Hon.
  { intros d H. apply (mask_bit_is_cpu 255); [split; vm_compute; [discriminate|reflexivity]|done]. }
  cbn [ie_policy demo_ib]. destruct (c <? 4) eqn:E.
  - exists 0, 15. split; [done|]. split; [done|]. split; [destruct Hc8 as [->|[->|[->|[->|[->|[->|[->| ->]]]]]]]; done|].
    intros d H1 H2. destruct (Hon d H1). destruct (Hd d) as [H3 _]; [lia|lia|]. by replace (d <? 4) with true by (specialize (H3 H2); lia).
  - exists 4, 240. split; [done|]. split; [done|]. split; [destruct Hc8 as [->|[->|[->|[->|[->|[->|[->| ->]]]]]]]; done|].
    intros d H1 H2. destruct (Hon d H1). destruct (Hd d) as [_ H3]; [lia|lia|]. by replace (d <? 4) with false by (specialize (H3 H2); lia).
Qed.


(** ** What goes wrong *)

(** The end of the boost is reported as a failure when it succeeds. *)
Lemma success_reported_as_failure :
  let s := do_input_boost_rem demo_ib (demo_boosted <| ib_rem := false |>) in
  ib_log s = [disable_failed] /\ b_type (ib_boost demo_boosted) = CONSERVATIVE_BOOST /\ b_type (ib_boost s) = NO_BOOST.
Proof. vm_compute. auto. Qed.

(** Another client holds a full throttle boost. The end of the boost on input takes it away,
    although the boosts are counted by client. *)
Lemma removal_ends_other_boosts :
  let s0 := (set_boost demo_ib FULL_THROTTLE_BOOST (demo_touched <| ib_work := false |>)).1 in
  let s := do_input_boost_rem demo_ib ((do_input_boost demo_ib s0) <| ib_rem := false |>) in
  b_refcount (ib_boost s0) = [0; 1; 0; 0; 0; 0] /\ b_type (ib_boost s0) = FULL_THROTTLE_BOOST /\
  b_refcount (ib_boost s) = [0; 0; 0; 0; 0; 0] /\ b_type (ib_boost s) = NO_BOOST.
Proof. vm_compute. auto. Qed.

(** When an online CPU has no policy, the function returns with the lock of the CPUs held. *)
Lemma missing_policy_keeps_lock :
  ib_locked (update_policy_online (demo_ib <| ie_policy := fun _ => None |>) demo_ibs) = 1.
Proof. vm_compute. done. Qed.

End InputBoosts.
