(* ===== verification/Yields.v ===== *)
(** * Tasks that yield too often

    [fixup.c]: tasks that yield again and again until a frame ends are put to sleep
    instead, and the answers given to programs that look for the largest CPU. The
    recognition works on two levels: a task qualifies by its own yields, the system by the
    yields of all such tasks in windows of 14 ms. *)

From Stdlib Require Import ZArith Lia ZifyBool Bool.
From stdpp Require Import base list functions numbers list_numbers relations.
From S2P Require Import Prelude WaltTypes Cpumask SmartFreq Demand Halt CoreCtl Boost Fits Pipeline PipelineHeavy PipelineCpus Placement EnergyCpu Topology Sysctl.

Definition YIELD_INDUCED_SLEEP : Z := 128.
Definition YIELD_WINDOW_SIZE_NSEC : Z := 14000000.
Definition YIELD_GRACE_PERIOD_NSEC : Z := 4000000.
Definition YIELD_SLEEP_TIME_USEC : Z := 250.
Definition FORCE_MAX_YIELD_CNT_GLOBAL_THR_DEFAULT : Z := 500.
Definition FORCE_MIN_CONTIGUOUS_YIELDING_WINDOW : Z := 2.
Definition FORCE_MAX_YIELD_SLEEP_CNT_GLOBAL_THR : Z := 4.
Definition MIN_FRAME_YIELD_INTERVAL_NSEC : Z := 1000000.
Definition YIELD_SLEEP_HEADROOM : Z := 300000.
Definition FRAME120_WINDOW_NSEC : Z := 8333333.
Definition FRAME90_WINDOW_NSEC : Z := 11111111.
Definition FRAME60_WINDOW_NSEC : Z := 16666667.
Definition SCHED_RAVG_8MS_WINDOW : Z := 8000000.
Definition SCHED_RAVG_12MS_WINDOW : Z := 12000000.
Definition SCHED_RAVG_16MS_WINDOW : Z := 16000000.
Definition LIB_UPDATE_CNT_MAX : Z := 127.

(** [contiguous_yielding_windows], [total_yield_cnt], [total_sleep_cnt],
    [yield_counting_window_ts] and, by CPU, [walt_yield_to_sleep]. *)
Record yield_sys := mk_ys {
  ys_windows : Z;
  ys_yields : Z;
  ys_sleeps : Z;
  ys_ts : Z;
  ys_to_sleep : Z -> Z
}.

(** [yield_state], [yield_ts] and [yield_total_sleep_usec] of a task. *)
Record yield_task := mk_yt {
  yt_state : Z;
  yt_ts : Z;
  yt_sleep : Z
}.

(** [frame_size] is [frame_size_ns], [window] is [sched_ravg_window]. *)
Definition get_frame_time (frame_size window : Z) : Z :=
  if 0 <? frame_size then frame_size else
  if window <=? SCHED_RAVG_8MS_WINDOW then FRAME120_WINDOW_NSEC else
  if window =? SCHED_RAVG_12MS_WINDOW then FRAME90_WINDOW_NSEC else
  if SCHED_RAVG_16MS_WINDOW <=? window then FRAME60_WINDOW_NSEC else 0.

(** [force] is [sysctl_force_frequent_yielder], [large] says that a large CPU is loaded
    ([any_large_above_util_threshold(200)]). *)
Definition account_yields (force large : bool) (wallclock : Z) (s : yield_sys) : yield_sys :=
  let delta := u64 (wallclock - ys_ts s) in
  if delta <=? YIELD_WINDOW_SIZE_NSEC then s else
  let scale thr := if YIELD_WINDOW_SIZE_NSEC + YIELD_GRACE_PERIOD_NSEC <? delta then u32 (u64 (delta * thr) / YIELD_WINDOW_SIZE_NSEC) else thr in
  let target_threshold_wake := scale FORCE_MAX_YIELD_CNT_GLOBAL_THR_DEFAULT in
  let target_threshold_sleep := scale FORCE_MAX_YIELD_SLEEP_CNT_GLOBAL_THR in
  let high_util := if force then false else large in
  let windows :=
    if negb high_util && ((target_threshold_wake <=? ys_yields s) || (target_threshold_sleep / 2 <=? ys_sleeps s))
    then if ys_windows s <? FORCE_MIN_CONTIGUOUS_YIELDING_WINDOW then u8 (ys_windows s + 1) else ys_windows s
    else 0 in
  s <| ys_windows := windows |> <| ys_ts := wallclock |> <| ys_yields := 0 |> <| ys_sleeps := 0 |>.

(** The counters of a sleep. *)
Definition count_sleep (cpu : Z) (s : yield_sys) (t : yield_task) : yield_sys * yield_task :=
  (s <| ys_to_sleep := <[cpu := u32 (ys_to_sleep s cpu + 1)]> (ys_to_sleep s) |> <| ys_sleeps := u32 (ys_sleeps s + 1) |>,
   t <| yt_state := Z.lor (yt_state t) YIELD_INDUCED_SLEEP |>).

(** [frame] is the result of [get_frame_time], [current_ts] the clock of the run queue. Result:
    also whether the task sleeps for [YIELD_SLEEP_TIME_USEC]. *)
Definition inject_sleep (force : bool) (frame current_ts cpu : Z) (s : yield_sys) (t : yield_task) : yield_sys * yield_task * bool :=
  if negb force then let '(s, t) := count_sleep cpu s t in (s, t, true) else
  let t :=
    if u64 (yt_ts t + MIN_FRAME_YIELD_INTERVAL_NSEC) <? current_ts then
      let delta := u64 (current_ts - yt_ts t) in
      let t := t <| yt_sleep := 0 |> in
      if u64 (delta + YIELD_SLEEP_HEADROOM) <? frame
      then t <| yt_sleep := (frame - delta - YIELD_SLEEP_HEADROOM) / 1000 |> else t
    else t in
  let t := t <| yt_ts := current_ts |> in
  if YIELD_SLEEP_TIME_USEC <=? yt_sleep t then
    let '(s, t) := count_sleep cpu s t in (s, t <| yt_sleep := yt_sleep t - YIELD_SLEEP_TIME_USEC |>, true)
  else (s, t, false).

(** The hook before a yield. [off]: the yielder or WALT is disabled or the task is not a fair
    one; [pipeline]: a pipeline is in progress and the task belongs to it. Result: also
    [skip] and whether the task sleeps. *)
Definition walt_do_sched_yield_before (off force pipeline : bool) (frame current_ts cpu : Z) (s : yield_sys) (t : yield_task) :
    yield_sys * yield_task * bool * bool :=
  if off then (s, t, false, false) else
  if force && pipeline then let '(s, t, slept) := inject_sleep force frame current_ts cpu s t in (s, t, true, slept) else
  if MAX_YIELD_CNT_PER_TASK_THR <=? Z.land (yt_state t) YIELD_CNT_MASK then
    let s := s <| ys_yields := u32 (ys_yields s + 1) |> in
    if FORCE_MIN_CONTIGUOUS_YIELDING_WINDOW <=? ys_windows s
    then let '(s, t, slept) := inject_sleep force frame current_ts cpu s t in (s, t, true, slept)
    else (s, t, false, false)
  else (s, t <| yt_state := u8 (yt_state t + 1) |>, false, false).

(** The part of a wakeup ([android_rvh_try_to_wake_up]): a sleep of its own ends the
    qualification. *)
Definition yield_wakeup (t : yield_task) : yield_task :=
  t <| yt_state := if Z.land (yt_state t) YIELD_INDUCED_SLEEP =? 0 then 0 else Z.land (yt_state t) YIELD_CNT_MASK |>.

(** The part of a new window ([update_history]). *)
Definition yield_new_window (t : yield_task) : yield_task :=
  t <| yt_state := if Z.land (yt_state t) YIELD_CNT_MASK <? MAX_YIELD_CNT_PER_TASK_THR then 0 else yt_state t |>.

(** ** The answers for programs that look for the largest CPU *)

(** [named]: a library is set; [alloc]: the allocation succeeds; [found]: the task exists and
    a mapping of it has one of the names; [cnt] is [lib_update_cnt], [state] is [lib_app_state].
    Result: [state], the answer, and the references taken on the task and not given back. *)
Definition is_sched_lib_based_app (named alloc : bool) (found : option bool) (cnt state : Z) : Z * bool * Z :=
  if negb named then (state, false, 0) else
  if negb alloc then (state, false, 0) else
  match found with
  | None => (state, false, 0)
  | Some found =>
      if Z.land state LIB_UPDATE_CNT_MAX =? cnt then (state, negb (Z.land state 128 =? 0), 1) else
      (Z.lor (if found then 128 else 0) cnt, found, 0)
  end.

(** [changed]: the name is another one; the result is that of [proc_dostring]. *)
Definition walt_lib_name_handler (write changed : bool) (ret cnt : Z) : Z * Z :=
  if negb write then (cnt, ret) else
  if negb (ret =? 0) then (cnt, ret) else
  (if changed then u8 (Z.rem (cnt + 1) LIB_UPDATE_CNT_MAX) else cnt, ret).

(** [lib]: the answer of [is_sched_lib_based_app] or [is_sched_lib_task]. *)
Definition android_rvh_show_max_freq (cached cpu force_mask : Z) (lib : bool) (max_freq : Z) : Z :=
  if cached =? 0 then max_freq else
  if negb (Z.testbit force_mask cpu) then max_freq else
  if lib then u32 (Z.shiftl cached 1) else max_freq.
Definition android_rvh_cpu_capacity_show (name_capacity cpu : Z) (lib : bool) (capacity : Z) : Z :=
  if name_capacity =? 0 then capacity else if lib && (cpu <? name_capacity) then 100 else capacity.

(** ** Bounds *)

Module Yielders.

(** Any order of window changes of CPU 0, yields, wakeups and window changes of tasks. *)
Inductive yield_step : yield_sys * (Z -> yield_task) -> yield_sys * (Z -> yield_task) -> Prop :=
  | ys_account force large wallclock s ts : yield_step (s, ts) (account_yields force large wallclock s, ts)
  | ys_yield id off force pipeline frame current_ts cpu s ts s' t' skip slept :
      walt_do_sched_yield_before off force pipeline frame current_ts cpu s (ts id) = (s', t', skip, slept) ->
      yield_step (s, ts) (s', <[id := t']> ts)
  | ys_wakeup id s ts : yield_step (s, ts) (s, <[id := yield_wakeup (ts id)]> ts)
  | ys_window id s ts : yield_step (s, ts) (s, <[id := yield_new_window (ts id)]> ts).

Definition count_of (t : yield_task) : Z := Z.land (yt_state t) YIELD_CNT_MASK.
Definition task_ok (t : yield_task) : Prop := 0 <= yt_state t < 256 /\ 0 <= count_of t <= 25.
Definition sys_ok (x : yield_sys * (Z -> yield_task)) : Prop := 0 <= ys_windows x.1 <= 2 /\ forall id, task_ok (x.2 id).

Lemma count_mod x : Z.land x 127 = x mod 128.
Proof. change 127 with (Z.ones 7). rewrite Z.land_ones by done. done. Qed.
Lemma lor_128 x : 0 <= x < 256 -> Z.lor x 128 = x mod 128 + 128.
Proof.
  intros H. assert (forallb (fun x => Z.lor x 128 =? x mod 128 + 128) (seqZ 0 256) = true) as F by (vm_compute; reflexivity).
  rewrite forallb_forall in F. apply Z.eqb_eq, F, list_elem_of_In, elem_of_seqZ. lia.
Qed.

Lemma set_task id t ts : (forall j : Z, task_ok (ts j)) -> task_ok t -> forall j, task_ok ((<[id := t]> ts) j).
Proof. intros H Ht j. unfold insert, fn_insert. by destruct (decide (id = j)). Qed.

Lemma slept_ok t : task_ok t -> task_ok (t <| yt_state := Z.lor (yt_state t) YIELD_INDUCED_SLEEP |>).
Proof.
  intros [H1 H2]. unfold task_ok, count_of, YIELD_INDUCED_SLEEP, YIELD_CNT_MASK in *. cbn [yt_state set const]. rewrite count_mod in *. rewrite lor_128 by done.
  pose proof (Z.mod_pos_bound (yt_state t) 128 eq_refl). split; [lia|]. rewrite <- Zplus_mod_idemp_r. change (128 mod 128) with 0. rewrite Z.add_0_r, Z.mod_mod by done. lia.
Qed.

Lemma inject_ok force frame now cpu s t :
  task_ok t -> let '(s', t', _) := inject_sleep force frame now cpu s t in ys_windows s' = ys_windows s /\ task_ok t'.
Proof.
  intros Ht. unfold inject_sleep, count_sleep. destruct force; cbn [negb]; [|split; [done|by apply slept_ok]].
  set (t1 := if _ <? now then _ else t). assert (yt_state t1 = yt_state t) as E by (unfold t1; repeat case_match; done). clearbody t1.
  set (t2 := t1 <| yt_ts := now |>). assert (task_ok t2) as H2 by (unfold task_ok, count_of, t2; cbn [yt_state set const]; rewrite E; exact Ht). clearbody t2.
  destruct (_ <=? _); [|done]. split; [done|]. exact (slept_ok t2 H2).
Qed.

Lemma yield_ok off force pipeline frame now cpu s t :
  0 <= ys_windows s <= 2 -> task_ok t ->
  let '(s', t', _, _) := walt_do_sched_yield_before off force pipeline frame now cpu s t in 0 <= ys_windows s' <= 2 /\ task_ok t'.
Proof.
  intros Hs Ht. unfold walt_do_sched_yield_before. destruct off; [done|].
  pose proof (inject_ok force frame now cpu s t Ht) as H1.
  pose proof (inject_ok force frame now cpu (s <| ys_yields := u32 (ys_yields s + 1) |>) t Ht) as H2.
  destruct (force && pipeline).
  { destruct (inject_sleep force frame now cpu s t) as [[s' t'] b]. destruct H1 as [-> H1]. done. }
  destruct (_ <=? Z.land _ _) eqn:Ec.
  - cbv zeta. destruct (_ <=? ys_windows _); [|done]. destruct (inject_sleep force frame now cpu (s <| ys_yields := _ |>) t) as [[s' t'] b]. destruct H2 as [-> H2]. done.
  - split; [done|]. destruct Ht as [T1 T2]. unfold task_ok, count_of, YIELD_CNT_MASK, MAX_YIELD_CNT_PER_TASK_THR in *. cbn [yt_state set const].
    rewrite count_mod in *. pose proof (Z.div_mod (yt_state t) 128 ltac:(lia)) as D. set (q := yt_state t / 128) in *. set (r := yt_state t mod 128) in *.
    assert (yt_state t + 1 = q * 128 + (r + 1)) as E by lia. rewrite u8_small by lia. rewrite E, Z.add_comm, Z_mod_plus_full, Z.mod_small by lia. lia.
Qed.

Lemma run_ok x y : rtc yield_step x y -> sys_ok x -> sys_ok y.
Proof.
  induction 1 as [|x y z Hxy _ IH]; [done|]. intros Ho. apply IH. clear IH. destruct Hxy as [force large wc s ts|id off force pl frame now cpu s ts s' t' skip slept E|id s ts|id s ts];
    destruct Ho as [Hs Ht]; cbn [fst snd] in *.
  - split; [|done]. cbn [fst]. unfold account_yields. destruct (_ <=? _); [done|]. cbn [ys_windows set const].
    destruct (_ && _); [|lia]. destruct (ys_windows s <? _) eqn:Ew; [|done]. unfold FORCE_MIN_CONTIGUOUS_YIELDING_WINDOW in Ew. rewrite u8_small by lia. lia.
  - pose proof (yield_ok off force pl frame now cpu s (ts id) Hs (Ht id)) as H. rewrite E in H. destruct H as [H1 H2]. split; [done|]. by apply set_task.
  - split; [done|]. apply set_task; [done|]. destruct (Ht id) as [T1 T2]. unfold task_ok, count_of, yield_wakeup, YIELD_CNT_MASK in *. cbn [yt_state set const].
    destruct (_ =? 0); [done|]. rewrite !count_mod in *. pose proof (Z.mod_pos_bound (yt_state (ts id)) 128 eq_refl). rewrite Z.mod_mod by done. lia.
  - split; [done|]. apply set_task; [done|]. destruct (Ht id) as [T1 T2]. unfold task_ok, count_of, yield_new_window in *. cbn [yt_state set const]. by destruct (_ <? _).
Qed.

(** At boot, and for new tasks. *)
Definition yield_boot : yield_sys * (Z -> yield_task) := (mk_ys 0 0 0 0 (fun _ => 0), fun _ => mk_yt 0 0 0).
Lemma yield_boot_ok : sys_ok yield_boot.
Proof. by split. Qed.

(** Over any run the count of a task stays within its bits of [yield_state], and the number of
    windows full of yields never exceeds two. So the fast path for tasks that wake up from such
    a sleep, which asks for three windows, is never taken. *)
Lemma yield_fastpath_never x w t :
  rtc yield_step yield_boot x -> we_yield_windows w = ys_windows x.1 ->
  (forall id, count_of (x.2 id) <= 25 /\ yt_state (x.2 id) < 256) /\
  (EnergyCpu.MAX_YIELD_CNT_PER_TASK_THR <=? t_yield_state t) && (MIN_CONTIGUOUS_YIELDING_WINDOW <=? we_yield_windows w) = false.
Proof.
  intros Hr Hw. destruct (run_ok _ _ Hr yield_boot_ok) as [H1 H2]. split.
  - intros id. destruct (H2 id). lia.
  - rewrite Hw. unfold MIN_CONTIGUOUS_YIELDING_WINDOW. replace (3 <=? ys_windows x.1) with false by lia. apply andb_false_r.
Qed.

(** ** Sleeps fit into the frame *)

(** The number of sleeps in a sequence of yields at the given times, on the given CPUs. *)
Fixpoint sleeps (frame : Z) (yields : list (Z * Z)) (s : yield_sys) (t : yield_task) : Z :=
  match yields with
  | [] => 0
  | (now, cpu) :: yields =>
      let '(s, t, slept) := inject_sleep true frame now cpu s t in Z.b2z slept + sleeps frame yields s t
  end.

(** Yields that follow each other within a millisecond. *)
Fixpoint cycle (last : Z) (yields : list (Z * Z)) : Prop :=
  match yields with
  | [] => True
  | (now, _) :: yields => last <= now <= last + MIN_FRAME_YIELD_INTERVAL_NSEC /\ now < 2 ^ 63 /\ cycle now yields
  end.

Lemma inject_again frame now cpu s t :
  0 <= yt_ts t <= now -> now <= yt_ts t + MIN_FRAME_YIELD_INTERVAL_NSEC -> now < 2 ^ 63 -> 0 <= yt_sleep t ->
  let '(_, t', slept) := inject_sleep true frame now cpu s t in
  yt_ts t' = now /\ 0 <= yt_sleep t' /\ yt_sleep t' + 250 * Z.b2z slept = yt_sleep t.
Proof.
  intros H1 H2 H3 H4. unfold inject_sleep, count_sleep, MIN_FRAME_YIELD_INTERVAL_NSEC in *. cbn [negb]. rewrite u64_small by lia.
  replace (yt_ts t + 1000000 <? now) with false by lia. cbv zeta. cbn [yt_sleep set const]. unfold YIELD_SLEEP_TIME_USEC.
  destruct (250 <=? yt_sleep t) eqn:E; cbn [yt_ts yt_sleep set const Z.b2z]; lia.
Qed.

Lemma cycle_sleeps frame yields : forall s t, 0 <= yt_ts t -> 0 <= yt_sleep t -> cycle (yt_ts t) yields -> 250 * sleeps frame yields s t <= yt_sleep t.
Proof.
  induction yields as [|[now cpu] yields IH]; intros s t H0 H1 Hc; cbn [sleeps]; [lia|]. destruct Hc as (A & B & C).
  pose proof (inject_again frame now cpu s t ltac:(lia) ltac:(lia) B H1) as H. destruct (inject_sleep true frame now cpu s t) as [[s' t'] b]. destruct H as (E1 & E2 & E3).
  specialize (IH s' t'). rewrite E1 in IH. specialize (IH ltac:(lia) E2 C). lia.
Qed.

(** The first yield of a frame: what is left of the frame, less the headroom, is the budget. *)
Lemma inject_first frame now cpu s t :
  0 <= yt_ts t -> yt_ts t + MIN_FRAME_YIELD_INTERVAL_NSEC < now -> now < 2 ^ 63 -> 0 <= frame < 2 ^ 63 ->
  let '(_, t', slept) := inject_sleep true frame now cpu s t in
  yt_ts t' = now /\ 0 <= yt_sleep t' /\
  yt_sleep t' + 250 * Z.b2z slept = if now - yt_ts t + YIELD_SLEEP_HEADROOM <? frame then (frame - (now - yt_ts t) - YIELD_SLEEP_HEADROOM) / 1000 else 0.
Proof.
  intros H1 H2 H3 H4. unfold inject_sleep, count_sleep, MIN_FRAME_YIELD_INTERVAL_NSEC, YIELD_SLEEP_HEADROOM, YIELD_SLEEP_TIME_USEC in *. cbn [negb].
  rewrite (u64_small (yt_ts t + _)), (u64_small (now - _)) by lia. rewrite u64_small by lia. replace (yt_ts t + 1000000 <? now) with true by lia. cbv zeta.
  destruct (now - yt_ts t + 300000 <? frame) eqn:E; cbn [yt_sleep yt_ts set const].
  - set (b := (frame - (now - yt_ts t) - 300000) / 1000). assert (0 <= b) by (apply Z.div_pos; lia). clearbody b. destruct (250 <=? b) eqn:E2; cbn [yt_ts yt_sleep set const Z.b2z]; lia.
  - change (250 <=? 0) with false. cbn [yt_ts yt_sleep set const Z.b2z]. lia.
Qed.

(** The sleeps put into a frame end before the frame does: when the yields of a task
    begin more than a millisecond after its last one and then follow each other within a
    millisecond, all sleeps together, counted from the first yield, end 300 microseconds before
    the end of the frame that began with the last yield of the previous one. *)
Theorem sleeps_fit_frame frame now cpu yields s t :
  0 <= yt_ts t -> yt_ts t + MIN_FRAME_YIELD_INTERVAL_NSEC < now -> now < 2 ^ 63 -> 0 <= frame < 2 ^ 63 -> cycle now yields ->
  let n := sleeps frame ((now, cpu) :: yields) s t in
  0 <= n /\ (0 < n -> now + n * (YIELD_SLEEP_TIME_USEC * 1000) + YIELD_SLEEP_HEADROOM <= yt_ts t + frame).
Proof.
  intros H1 H2 H3 H4 Hc. cbn [sleeps]. pose proof (inject_first frame now cpu s t H1 H2 H3 H4) as H.
  destruct (inject_sleep true frame now cpu s t) as [[s' t'] b]. destruct H as (E1 & E2 & E3).
  assert (0 <= yt_ts t') as H0 by (unfold MIN_FRAME_YIELD_INTERVAL_NSEC in H2; lia).
  pose proof (cycle_sleeps frame yields s' t' H0 E2 ltac:(by rewrite E1)) as Hn.
  assert (forall ys x y, 0 <= sleeps frame ys x y) as Hp.
  { intros ys. induction ys as [|[a c] ys IH]; intros x y; cbn [sleeps]; [lia|]. destruct (inject_sleep true frame a c x y) as [[x' y'] bb]. specialize (IH x' y'). destruct bb; cbn [Z.b2z]; lia. }
  specialize (Hp yields s' t'). set (m := sleeps frame yields s' t') in *. clearbody m. unfold YIELD_SLEEP_TIME_USEC, YIELD_SLEEP_HEADROOM in *.
  split; [destruct b; cbn [Z.b2z]; lia|]. intros Hpos. destruct (_ <? frame) eqn:E.
  - pose proof (Z.mul_div_le (frame - (now - yt_ts t) - 300000) 1000 eq_refl) as Hd. lia.
  - lia.
Qed.

Lemma sleeps_fit_frame_witness :
  let t := mk_yt 25 1000000000 0 in
  let ys := map (fun i => (1008000000 + i * 400000, 4)) (seqZ 1 30) in
  sleeps FRAME60_WINDOW_NSEC ((1008000000, 4) :: ys) (mk_ys 2 0 0 0 (fun _ => 0)) t = 31 /\
  1008000000 + 31 * (YIELD_SLEEP_TIME_USEC * 1000) + YIELD_SLEEP_HEADROOM <= 1000000000 + FRAME60_WINDOW_NSEC.
Proof.
  cbv zeta. assert (sleeps FRAME60_WINDOW_NSEC ((1008000000, 4) :: map (fun i => (1008000000 + i * 400000, 4)) (seqZ 1 30)) (mk_ys 2 0 0 0 (fun _ => 0)) (mk_yt 25 1000000000 0) = 31) as E by (vm_compute; reflexivity).
  split; [exact E|]. rewrite <- E. apply (sleeps_fit_frame FRAME60_WINDOW_NSEC 1008000000 4 _ _ (mk_yt 25 1000000000 0)).
  - vm_compute. discriminate.
  - vm_compute. reflexivity.
  - vm_compute. reflexivity.
  - vm_compute. split; [discriminate|reflexivity].
  - vm_compute. repeat split; discriminate || reflexivity.
  - rewrite E. lia.
Defined.

(** Every window that the settings allow has a frame. *)
Lemma frame_time_defined frame_size write proc s :
  0 <= frame_size -> 0 < ws_new s -> 16000000 <= ws_new s \/ ws_new s <= 12000000 /\ (ws_new s <= 8000000 \/ ws_new s = 12000000) ->
  0 < get_frame_time frame_size (ws_new (sched_ravg_window_handler 250 write proc s).1).
Proof.
  intros H1 H2 H3. unfold get_frame_time, SCHED_RAVG_8MS_WINDOW, SCHED_RAVG_12MS_WINDOW, SCHED_RAVG_16MS_WINDOW, FRAME120_WINDOW_NSEC, FRAME90_WINDOW_NSEC, FRAME60_WINDOW_NSEC.
  destruct (Consistency.window_values write proc s) as [->|(_ & H & _)].
  - repeat case_match; lia.
  - set (w := ws_new (sched_ravg_window_handler 250 write proc s).1) in *. clearbody w. assert (w = 8000000 \/ w = 12000000 \/ w = 16000000 \/ w = 20000000 \/ w = 32000000) as Hw.
    { rewrite !elem_of_cons in H. destruct H as [H|[H|[H|[H|[H|H]]]]]; [tauto..|by apply not_elem_of_nil in H]. }
    repeat case_match; lia.
Qed.

(** The answer for a program is remembered until the names change. *)
Lemma lib_answer_remembered found found' cnt state :
  0 <= cnt < LIB_UPDATE_CNT_MAX -> Z.land state LIB_UPDATE_CNT_MAX <> cnt ->
  let r := is_sched_lib_based_app true true (Some found) cnt state in
  r.1.2 = found /\ (is_sched_lib_based_app true true (Some found') cnt r.1.1).1 = (r.1.1, found).
Proof.
  intros Hc Hs. unfold is_sched_lib_based_app. cbn [negb]. replace (Z.land state LIB_UPDATE_CNT_MAX =? cnt) with false by lia. cbn [fst snd]. split; [done|].
  unfold LIB_UPDATE_CNT_MAX in *. assert (forall b : bool, Z.land (Z.lor (if b then 128 else 0) cnt) 127 = cnt /\ negb (Z.land (Z.lor (if b then 128 else 0) cnt) 128 =? 0) = b) as H.
  { assert (forallb (fun c => (Z.land (Z.lor 128 c) 127 =? c) && (Z.land (Z.lor 0 c) 127 =? c) && negb (Z.land (Z.lor 128 c) 128 =? 0) && (Z.land (Z.lor 0 c) 128 =? 0)) (seqZ 0 127) = true) as F by (vm_compute; reflexivity).
    rewrite forallb_forall in F. specialize (F cnt ltac:(apply list_elem_of_In, elem_of_seqZ; lia)). intros []; lia. }
  destruct (H found) as [-> Hb]. rewrite Z.eqb_refl. cbn [fst]. by rewrite Hb.
Qed.

(** But the reference on the task is not given back then. *)
Lemma remembered_answer_leaks_reference :
  (is_sched_lib_based_app true true (Some true) 1 129).2 = 1 /\ (is_sched_lib_based_app true true (Some true) 1 0).2 = 0.
Proof. vm_compute. auto. Qed.

End Yielders.
