(* ===== verification/FreqLoad.v ===== *)
(** * The load reported to the frequency governor

    [freq_policy_load], [__cpu_util_freq_walt] and [cpu_util_freq_walt] of [walt.c], with
    [enable_load_sync] of [pipeline.c] and [cluster_in_smart_lrpb] of [smart_freq.c]: what
    a CPU asked for in the last window, on a scale of 0 to 1024, raised by boosts and
    synchronised with other CPUs. *)

From Stdlib Require Import ZArith Lia ZifyBool Bool.
From stdpp Require Import base list.
From S2P Require Import Fits Prelude WaltTypes TopTasks Migrate Cpumask SmartFreq Group.

(** ** Reasons *)

Definition CPUFREQ_REASON_BTR_BIT : Z := 1.
Definition CPUFREQ_REASON_PL_BIT : Z := 2.
Definition CPUFREQ_REASON_EARLY_DET_BIT : Z := 4.
Definition CPUFREQ_REASON_RTG_BOOST_BIT : Z := 8.
Definition CPUFREQ_REASON_HISPEED_BIT : Z := 16.
Definition CPUFREQ_REASON_NWD_BIT : Z := 32.
Definition CPUFREQ_REASON_FREQ_AGR_BIT : Z := 64.
Definition CPUFREQ_REASON_KSOFTIRQD_BIT : Z := 128.
Definition CPUFREQ_REASON_TT_LOAD_BIT : Z := 256.
Definition CPUFREQ_REASON_SUH_BIT : Z := 512.
Definition CPUFREQ_REASON_ADAPTIVE_LOW_BIT : Z := 1024.
Definition CPUFREQ_REASON_ADAPTIVE_HIGH_BIT : Z := 2048.
Definition CPUFREQ_REASON_SMART_FREQ_BIT : Z := 4096.
Definition CPUFREQ_REASON_HIGH_PERF_CAP_BIT : Z := 8192.
Definition CPUFREQ_REASON_PARTIAL_HALT_CAP_BIT : Z := 16384.
Definition CPUFREQ_REASON_TRAILBLAZER_STATE_BIT : Z := 32768.
Definition CPUFREQ_REASON_TRAILBLAZER_CPU_BIT : Z := 65536.
Definition CPUFREQ_REASON_ADAPTIVE_LVL_1_BIT : Z := 131072.
Definition CPUFREQ_REASON_IPC_SMART_FREQ_BIT : Z := 262144.
Definition CPUFREQ_REASON_UCLAMP_BIT : Z := 524288.
Definition CPUFREQ_REASON_PIPELINE_BUSY_BIT : Z := 1048576.

Definition WALT_FEAT_TOPAPP_BASED_HISPEED : Z := 8.

(** [struct walt_cpu_load] *)
Record walt_cpu_load := mk_load {
  wl_nl : Z;
  wl_pl : Z;
  wl_non_boosted_load : Z;
  wl_ws : Z;
  wl_rtgb_active : bool;
  wl_ed_active : bool;
  wl_trailblazer_boost_state : bool
}.
Definition no_load : walt_cpu_load := mk_load 0 0 0 0 false false false.

(** What an interface between the tracking of load and the governor needs: the
    utilisation of a CPU with its load and the reasons for it (the reasons found so far
    are an argument), never above the capacity the governor works with. *)
Class LoadSource (S : Type) := {
  ls_util : Z -> Z -> S -> S * Z * walt_cpu_load * Z;
  ls_capacity : Z -> S -> Z;
  ls_bound : forall cpu reasons s,
    (ls_util cpu reasons s).1.1.2 <= ls_capacity cpu s
}.

Module FreqLoads.

(** ** Inputs *)

(** Globals, tunables and what other components know. [le_ksoftirqd] is the demand of
    [ksoftirqd] while it runs; [le_stack] the value of an uninitialised [u64] on the
    stack; the tables are [load_sync_util_thres] and the like, for windows below 16 ms
    and from 16 ms on. *)
Record load_env := mk_lenv {
  le_cfg : walt_cfg;
  le_groups : grp_sys;
  le_freq : fsys;
  le_rotation_enabled : bool;
  le_freq_aggr_en : bool;
  sysctl_sched_user_hint : Z;
  sched_user_hint_max : Z;
  sysctl_topapp_weight_pct : Z;
  le_ksoftirqd : Z -> option Z;
  sysctl_ed_boost_pct : Z;
  sysctl_pipeline_busy_boost_pct : Z;
  min_possible_cluster_id : Z;
  le_rtgb_active : bool;
  walt_load_reported_window : Z;
  le_trailblazer_boost_state_ns : Z;
  pipeline_sync_cpus : Z;
  cpus_for_pipeline : Z;
  sysctl_single_thread_pipeline : Z;
  asym_cap_sibling_cpus : Z;
  le_is_state1 : bool;
  load_sync_util_thres : list (list Z);
  load_sync_low_pct : list (list Z);
  load_sync_high_pct : list (list Z);
  load_sync_util_thres_60fps : list (list Z);
  load_sync_low_pct_60fps : list (list Z);
  load_sync_high_pct_60fps : list (list Z);
  le_stack : Z -> Z
}.

Definition lwrq (ws : list walt_rq) (cpu : Z) : walt_rq := nth (Z.to_nat cpu) ws no_wrq.
Definition set_lwrq (cpu : Z) (w : walt_rq) (ws : list walt_rq) : list walt_rq := <[Z.to_nat cpu := w]> ws.
Definition table (t : list (list Z)) (i j : Z) : Z := aget (nth (Z.to_nat i) t []) j.
Definition prime_cpus (e : load_env) : Z := aget (cpu_array0 (le_cfg e)) (num_sched_clusters (le_cfg e) - 1).

(** ** Load of a CPU *)

Definition is_cluster_hosting_top_app (e : load_env) (cl : walt_sched_cluster) : bool :=
  match lookup_related_thread_group DEFAULT_CGROUP_COLOC_ID (le_groups e) with
  | None => false
  | Some grp =>
      let grp_on_min := negb (rg_skip_min grp) && negb (bool_decide (boost_policy (le_cfg e) = SCHED_BOOST_ON_BIG)) in
      Bool.eqb (c_id cl =? min_possible_cluster_id e) grp_on_min
  end.

Definition should_apply_suh_freq_boost (e : load_env) (cl : walt_sched_cluster) : bool :=
  if le_freq_aggr_en e || (sysctl_sched_user_hint e =? 0) || (c_aggr_grp_load cl =? 0) then false
  else is_cluster_hosting_top_app e cl.

Definition is_suh_max (e : load_env) : bool := sysctl_sched_user_hint e =? sched_user_hint_max e.

(** A [u64] [mult_frac]. *)
Definition mult_frac64 (x n d : Z) : Z := u64 (mult_frac x n d).

(** The load without boosts: busy time of the last window, softirqs and the top task. *)
Definition base_load (e : load_env) (cpu reason : Z) (w : walt_rq) : Z * Z :=
  let cl := cluster_of (le_cfg e) w in
  let '(load, reason) :=
    if le_freq_aggr_en e
    then (u64 (g_prev_runnable_sum (w_rq_time w) + c_aggr_grp_load cl), CPUFREQ_REASON_FREQ_AGR_BIT)
    else (u64 (g_prev_runnable_sum (w_rq_time w) +
               mult_frac64 (g_prev_runnable_sum (w_grp_time w)) (sysctl_topapp_weight_pct e) 100), reason) in
  let '(load, reason) :=
    match le_ksoftirqd e cpu with
    | Some kload => if load <? kload then (kload, CPUFREQ_REASON_KSOFTIRQD_BIT) else (load, reason)
    | None => (load, reason)
    end in
  let tt_load := top_task_load (le_cfg e) (w_top w) in
  if load <? tt_load then (tt_load, CPUFREQ_REASON_TT_LOAD_BIT) else (load, reason).

(** The load, the reason and [*non_boosted_load], which starts as [nbl]. *)
Definition freq_policy_load (e : load_env) (cpu reason nbl : Z) (w : walt_rq) : Z * Z * Z :=
  let c := le_cfg e in
  let cl := cluster_of c w in
  if le_rotation_enabled e then (sched_ravg_window c, CPUFREQ_REASON_BTR_BIT, nbl) else
  if negb (s_nr_trailblazer_tasks (w_walt_stats w) =? 0) && sysctl_walt_feat c WALT_FEAT_TRAILBLAZER_BIT
  then (sched_ravg_window c, CPUFREQ_REASON_TRAILBLAZER_CPU_BIT, nbl) else
  if should_apply_suh_freq_boost e cl && is_suh_max e
  then (sched_ravg_window c, CPUFREQ_REASON_SUH_BIT, nbl) else
  let '(load, reason) := base_load e cpu reason w in
  let '(load, reason) :=
    if should_apply_suh_freq_boost e cl
    then (u64 (load * sysctl_sched_user_hint e) / 100, CPUFREQ_REASON_SUH_BIT) else (load, reason) in
  let nbl := if sysctl_walt_feat c WALT_FEAT_TOPAPP_BASED_HISPEED
             then g_prev_runnable_sum (w_grp_time w) else load in
  let '(load, reason) :=
    if bool_decide (is_Some (w_ed_task w))
    then (mult_frac64 load (100 + sysctl_ed_boost_pct e) 100, CPUFREQ_REASON_EARLY_DET_BIT) else (load, reason) in
  let '(load, reason) :=
    if negb (w_lrb_pipeline_start_time w =? 0)
    then (mult_frac64 load (100 + sysctl_pipeline_busy_boost_pct e) 100, CPUFREQ_REASON_PIPELINE_BUSY_BIT)
    else (load, reason) in
  (load, reason, nbl).

Definition cluster_in_smart_lrpb (s : fsys) (ws : list walt_rq) (id : Z) : bool :=
  if negb (Z.testbit (f_participation_mask (fc_info (cluster s id))) LRPB_SMART_FREQ) then false else
  match for_each_cpu_until (fc_cpus (cluster s id))
          (fun cpu (_ : unit) => if negb (w_lrb_pipeline_start_time (lwrq ws cpu) =? 0) then inr tt else inl tt) tt with
  | inr _ => true
  | inl _ => false
  end.

(** The capacity of a CPU for the governor. *)
Definition freq_capacity (e : load_env) (ws : list walt_rq) (cpu : Z) : Z :=
  let id := w_cluster (lwrq ws cpu) in
  if cluster_in_smart_lrpb (le_freq e) ws id then fc_pre_smart_freq_capacity (cluster (le_freq e) id)
  else w_cpu_capacity_orig (lwrq ws cpu).

Definition clamp_capacity (capacity util : Z) : Z := if capacity <=? util then capacity else util.

(** [__cpu_util_freq_walt] with a [walt_load] to fill in, as all its callers have. *)
Definition __cpu_util_freq_walt (e : load_env) (cpu reason : Z) (ws : list walt_rq)
    : list walt_rq * Z * walt_cpu_load * Z :=
  let capacity := freq_capacity e ws cpu in
  let w := lwrq ws cpu in
  let '(load, reason, non_boosted_load) := freq_policy_load e cpu reason (le_stack e cpu) w in
  let util := scale_time_to_util (le_cfg e) load in
  let nl := u64 (g_nt_prev_runnable_sum (w_rq_time w) + g_nt_prev_runnable_sum (w_grp_time w)) in
  let pl := s_pred_demands_sum_scaled (w_walt_stats w) in
  let w' := w <| w_util := util |> <| w_old_busy_time := util |> <| w_old_estimated_time := pl |> in
  let wl := mk_load (scale_time_to_util (le_cfg e) nl) pl non_boosted_load (walt_load_reported_window e)
              (le_rtgb_active e) (bool_decide (is_Some (w_ed_task w)))
              (negb (le_trailblazer_boost_state_ns e =? 0)) in
  (set_lwrq cpu w' ws, clamp_capacity capacity util, wl, reason).

(** ** Synchronisation between CPUs *)

(** [other_sync_pct] for ([n - 2], [n - 1]), [prime_sync_pct] for ([n - 1], [n - 2]). *)
Definition sync_pct (e : load_env) (i j util : Z) : Z :=
  if SCHED_RAVG_16MS_WINDOW <=? sched_ravg_window (le_cfg e) then
    if util <=? table (load_sync_util_thres_60fps e) i j then table (load_sync_low_pct_60fps e) i j
    else table (load_sync_high_pct_60fps e) i j
  else
    if util <=? table (load_sync_util_thres e) i j then table (load_sync_low_pct e) i j
    else table (load_sync_high_pct e) i j.
Definition other_sync_pct (e : load_env) (util_other : Z) : Z :=
  let n := num_sched_clusters (le_cfg e) in sync_pct e (n - 2) (n - 1) util_other.
Definition prime_sync_pct (e : load_env) (util_prime : Z) : Z :=
  let n := num_sched_clusters (le_cfg e) in sync_pct e (n - 1) (n - 2) util_prime.

Definition PIPELINE_SYNC_VAL (first second x : Z) : Z := Z.max first (mult_frac64 second x 100).

Definition enable_load_sync (e : load_env) (cpu : Z) : bool :=
  let c := le_cfg e in
  if negb (cpumask_test_cpu cpu (pipeline_sync_cpus e)) then false else
  if negb (pipeline_in_progress c) then false else
  if negb (sysctl_single_thread_pipeline e =? 0) then false else
  if (sysctl_sched_heavy_nr c =? 0) && (sysctl_sched_pipeline_util_thres c =? 0) &&
     negb (cpumask_intersects (pipeline_sync_cpus e) (cpus_for_pipeline e)) then false else
  if negb (have_heavy_list c =? 0) then have_heavy_list c =? MAX_NR_PIPELINE else
  MAX_NR_PIPELINE <=? pipeline_nr c.

(** Largest utilisation, [nl] and [pl] seen so far. *)
Record peak := mk_peak { k_util : Z; k_nl : Z; k_pl : Z }.
Definition raise_peak (util : Z) (wl : walt_cpu_load) (p : peak) : peak :=
  mk_peak (Z.max (k_util p) util) (Z.max (k_nl p) (wl_nl wl)) (Z.max (k_pl p) (wl_pl wl)).

(** State of the loops: run queues, reasons, peaks of the other and of the prime CPUs. *)
Definition sync_state : Type := list walt_rq * Z * peak * peak.

Definition sync_step (e : load_env) (i : Z) (st : sync_state) : sync_state :=
  let '(ws, reason, other, prime) := st in
  let '(ws, util, wl, reason) := __cpu_util_freq_walt e i reason ws in
  if cpumask_test_cpu i (prime_cpus e) then (ws, reason, other, raise_peak util wl prime)
  else (ws, reason, raise_peak util wl other, prime).

Definition asym_step (e : load_env) (cpu i : Z) (st : sync_state) : sync_state :=
  let '(ws, reason, other, prime) := st in
  if i =? cpu then st else
  let '(ws, util, wl, reason) := __cpu_util_freq_walt e i reason ws in
  (ws, reason, raise_peak util wl other, prime).

Definition cpu_util_freq_walt (e : load_env) (cpu reason : Z) (ws : list walt_rq)
    : list walt_rq * Z * walt_cpu_load * Z :=
  let capacity := freq_capacity e ws cpu in
  let none := mk_peak 0 0 0 in
  let '(ws, util, wl, reason) := __cpu_util_freq_walt e cpu reason ws in
  let '(ws, reason, other, util, wl) :=
    if enable_load_sync e cpu then
      let '(ws, reason, other, prime) :=
        for_each_cpu (pipeline_sync_cpus e) (sync_step e) (ws, reason, none, none) in
      let mpct_other := other_sync_pct e (k_util other) in
      let mpct_prime := prime_sync_pct e (k_util prime) in
      let '(first, second, pct) :=
        if cpumask_test_cpu cpu (prime_cpus e) then (prime, other, mpct_other) else (other, prime, mpct_prime) in
      (ws, reason, other, PIPELINE_SYNC_VAL (k_util first) (k_util second) pct,
       wl <| wl_nl := PIPELINE_SYNC_VAL (k_nl first) (k_nl second) pct |>
          <| wl_pl := PIPELINE_SYNC_VAL (k_pl first) (k_pl second) pct |>)
    else (ws, reason, none, util, wl) in
  if negb (cpumask_test_cpu cpu (asym_cap_sibling_cpus e)) || le_is_state1 e
  then (ws, clamp_capacity capacity util, wl, reason) else
  let '(ws, reason, other, _) :=
    for_each_cpu (asym_cap_sibling_cpus e) (asym_step e cpu) (ws, reason, other, none) in
  (ws, clamp_capacity capacity (Z.max util (k_util other)),
   wl <| wl_nl := Z.max (wl_nl wl) (k_nl other) |> <| wl_pl := Z.max (wl_pl wl) (k_pl other) |>, reason).

#[global] Arguments freq_policy_load : simpl never.
#[global] Arguments base_load : simpl never.
#[global] Arguments clamp_capacity : simpl never.
#[global] Arguments PIPELINE_SYNC_VAL : simpl never.
#[global] Arguments set_lwrq : simpl never.

(** ** What the functions compute *)

Lemma clamp_capacity_min capacity util : clamp_capacity capacity util = Z.min capacity util.
Proof. unfold clamp_capacity. destruct (Z.leb_spec capacity util); lia. Qed.

(** The largest of the busy time of the last window (with the part of the group that
    counts), the demand of a running [ksoftirqd], and the load of the top task. *)
Lemma base_load_max e cpu reason w :
  (base_load e cpu reason w).1 =
  Z.max (Z.max (if le_freq_aggr_en e
                then u64 (g_prev_runnable_sum (w_rq_time w) + c_aggr_grp_load (cluster_of (le_cfg e) w))
                else u64 (g_prev_runnable_sum (w_rq_time w) +
                          mult_frac64 (g_prev_runnable_sum (w_grp_time w)) (sysctl_topapp_weight_pct e) 100))
               (match le_ksoftirqd e cpu with Some k => k | None => 0 end))
        (top_task_load (le_cfg e) (w_top w)).
Proof.
  unfold base_load. wrap_ranges.
  destruct (le_freq_aggr_en e), (le_ksoftirqd e cpu); repeat case_if; cbn [fst]; wrap_ranges; lia.
Qed.

(** The fields the functions write are not read by them. *)
Definition core (w : walt_rq) : walt_rq :=
  w <| w_util := 0 |> <| w_old_busy_time := 0 |> <| w_old_estimated_time := 0 |>.
Definition same_core (ws ws' : list walt_rq) : Prop := map core ws = map core ws'.

Lemma same_core_lwrq ws ws' cpu : same_core ws ws' -> core (lwrq ws cpu) = core (lwrq ws' cpu).
Proof.
  intros H. unfold lwrq. rewrite <- !(map_nth core). by rewrite H.
Qed.

Lemma same_core_set cpu w ws :
  core w = core (lwrq ws cpu) -> same_core (set_lwrq cpu w ws) ws.
Proof.
  intros H. unfold same_core, set_lwrq. apply list_eq. intros i. change (@map walt_rq walt_rq) with (@fmap list _ walt_rq walt_rq).
  rewrite list_fmap_insert. rewrite !list_lookup_fmap.
  destruct (decide (i = Z.to_nat cpu)) as [->|Hne]; [|by rewrite list_lookup_insert_ne, list_lookup_fmap by done].
  destruct (ws !! Z.to_nat cpu) as [x|] eqn:E.
  - rewrite list_lookup_insert_eq by (rewrite length_fmap; by apply lookup_lt_Some in E).
    cbn [fmap option_fmap option_map]. rewrite H. f_equal. unfold lwrq. by rewrite nth_lookup, E.
  - rewrite lookup_ge_None_2; [done|]. rewrite length_insert, length_fmap. by apply lookup_ge_None in E.
Qed.

Lemma freq_policy_load_core e cpu reason nbl w w' :
  core w = core w' -> freq_policy_load e cpu reason nbl w = freq_policy_load e cpu reason nbl w'.
Proof.
  intros H. change (freq_policy_load e cpu reason nbl (core w) = freq_policy_load e cpu reason nbl (core w')).
  by rewrite H.
Qed.

Lemma lrpb_core s ws ws' id :
  same_core ws ws' -> cluster_in_smart_lrpb s ws id = cluster_in_smart_lrpb s ws' id.
Proof.
  intros H. unfold cluster_in_smart_lrpb. destruct (negb _); [done|]. unfold for_each_cpu_until.
  erewrite for_each_cpu_ext; [done|]. intros i [t|t] _; [|done].
  change (w_lrb_pipeline_start_time (lwrq ws i)) with (w_lrb_pipeline_start_time (core (lwrq ws i))).
  by rewrite (same_core_lwrq ws ws' i H).
Qed.

Lemma freq_capacity_core e ws ws' cpu : same_core ws ws' -> freq_capacity e ws cpu = freq_capacity e ws' cpu.
Proof.
  intros H. unfold freq_capacity. pose proof (same_core_lwrq ws ws' cpu H) as Hc.
  change (w_cluster (lwrq ws cpu)) with (w_cluster (core (lwrq ws cpu))).
  change (w_cpu_capacity_orig (lwrq ws cpu)) with (w_cpu_capacity_orig (core (lwrq ws cpu))).
  rewrite Hc. cbn [core w_cluster]. rewrite (lrpb_core _ ws ws' _ H). done.
Qed.

(** The utilisation of a CPU on its own, and its load. *)
Definition own_util (e : load_env) (ws : list walt_rq) (cpu : Z) : Z :=
  Z.min (freq_capacity e ws cpu)
        (scale_time_to_util (le_cfg e) (freq_policy_load e cpu 0 0 (lwrq ws cpu)).1.1).
Definition own_nl (e : load_env) (ws : list walt_rq) (cpu : Z) : Z :=
  let w := lwrq ws cpu in
  scale_time_to_util (le_cfg e) (u64 (g_nt_prev_runnable_sum (w_rq_time w) + g_nt_prev_runnable_sum (w_grp_time w))).
Definition own_pl (ws : list walt_rq) (cpu : Z) : Z := s_pred_demands_sum_scaled (w_walt_stats (lwrq ws cpu)).

Lemma base_load_reason e cpu r r' w : (base_load e cpu r w).1 = (base_load e cpu r' w).1.
Proof. by rewrite !base_load_max. Qed.

Lemma freq_policy_load_reason e cpu r n r' n' w :
  (freq_policy_load e cpu r n w).1.1 = (freq_policy_load e cpu r' n' w).1.1.
Proof.
  unfold freq_policy_load. destruct (le_rotation_enabled e); [done|]. destruct (_ && _); [done|].
  destruct (_ && _); [done|]. pose proof (base_load_reason e cpu r r' w) as H.
  destruct (base_load e cpu r w) as [l1 x1], (base_load e cpu r' w) as [l2 x2]. cbn [fst] in H. subst l2.
  by repeat case_if.
Qed.

(** One call: the state keeps its core, the values are those of the CPU alone. *)
Lemma cpu_util_one e cpu reason ws ws0 :
  same_core ws ws0 ->
  exists ws' wl r', __cpu_util_freq_walt e cpu reason ws = (ws', own_util e ws0 cpu, wl, r') /\
    same_core ws' ws0 /\ wl_nl wl = own_nl e ws0 cpu /\ wl_pl wl = own_pl ws0 cpu.
Proof.
  intros H. unfold __cpu_util_freq_walt. pose proof (same_core_lwrq ws ws0 cpu H) as Hc.
  destruct (freq_policy_load e cpu reason (le_stack e cpu) (lwrq ws cpu)) as [[load r] nbl] eqn:E.
  eexists _, _, _. split; [|split; [|split]].
  - do 3 f_equal. rewrite clamp_capacity_min. unfold own_util. rewrite (freq_capacity_core e ws ws0 cpu H).
    do 2 f_equal. rewrite <- (freq_policy_load_core e cpu 0 0 _ _ Hc).
    rewrite (freq_policy_load_reason e cpu 0 0 reason (le_stack e cpu)). by rewrite E.
  - etrans; [|exact H]. by apply same_core_set.
  - cbn [wl_nl]. unfold own_nl.
    change (w_rq_time (lwrq ws cpu)) with (w_rq_time (core (lwrq ws cpu))).
    change (w_grp_time (lwrq ws cpu)) with (w_grp_time (core (lwrq ws cpu))). by rewrite Hc.
  - cbn [wl_pl]. unfold own_pl.
    change (w_walt_stats (lwrq ws cpu)) with (w_walt_stats (core (lwrq ws cpu))). by rewrite Hc.
Qed.

(** ** Reference: peaks over sets of CPUs *)

Definition none : peak := mk_peak 0 0 0.
Definition raise_own (e : load_env) (ws : list walt_rq) (i : Z) (p : peak) : peak :=
  mk_peak (Z.max (k_util p) (own_util e ws i)) (Z.max (k_nl p) (own_nl e ws i)) (Z.max (k_pl p) (own_pl ws i)).
Definition peak_over (e : load_env) (ws : list walt_rq) (mask : Z) (p : peak) : peak :=
  for_each_cpu mask (raise_own e ws) p.

(** The utilisation to report, as a function of the utilisations of the CPUs alone. *)
Definition reference_util (e : load_env) (ws : list walt_rq) (cpu : Z) : Z :=
  let sync := enable_load_sync e cpu in
  let other := if sync then peak_over e ws (Z.ldiff (pipeline_sync_cpus e) (prime_cpus e)) none else none in
  let prime := if sync then peak_over e ws (Z.land (pipeline_sync_cpus e) (prime_cpus e)) none else none in
  let util :=
    if sync then
      if cpumask_test_cpu cpu (prime_cpus e)
      then PIPELINE_SYNC_VAL (k_util prime) (k_util other) (other_sync_pct e (k_util other))
      else PIPELINE_SYNC_VAL (k_util other) (k_util prime) (prime_sync_pct e (k_util prime))
    else own_util e ws cpu in
  Z.min (freq_capacity e ws cpu)
    (if cpumask_test_cpu cpu (asym_cap_sibling_cpus e) && negb (le_is_state1 e)
     then Z.max util (k_util (peak_over e ws (Z.clearbit (asym_cap_sibling_cpus e) cpu) other))
     else util).

Lemma sync_loop e ws0 ws reason po pp :
  same_core ws ws0 ->
  exists ws' r', for_each_cpu (pipeline_sync_cpus e) (sync_step e) (ws, reason, po, pp) =
    (ws', r', peak_over e ws0 (Z.ldiff (pipeline_sync_cpus e) (prime_cpus e)) po,
     peak_over e ws0 (Z.land (pipeline_sync_cpus e) (prime_cpus e)) pp) /\ same_core ws' ws0.
Proof.
  unfold peak_over, for_each_cpu. generalize (Z.to_nat WALT_NR_CPUS) as n. generalize 0 as lo.
  intros lo n. revert lo ws reason po pp.
  induction n as [|n IH]; intros lo ws reason po pp H; [by exists ws, reason|]. cbn [for_range].
  rewrite Z.ldiff_spec, Z.land_spec. destruct (Z.testbit (pipeline_sync_cpus e) lo); cbn [andb]; [|by apply IH].
  destruct (cpu_util_one e lo reason ws ws0 H) as (ws1 & wl & r1 & E & H1 & Hn & Hp).
  assert (sync_step e lo (ws, reason, po, pp) =
    if Z.testbit (prime_cpus e) lo then (ws1, r1, po, raise_peak (own_util e ws0 lo) wl pp)
    else (ws1, r1, raise_peak (own_util e ws0 lo) wl po, pp)) as -> by (unfold sync_step; by rewrite E).
  assert (forall p, raise_peak (own_util e ws0 lo) wl p = raise_own e ws0 lo p) as Hr.
  { intros p. unfold raise_peak, raise_own. by rewrite Hn, Hp. }
  destruct (Z.testbit (prime_cpus e) lo); cbn [negb]; rewrite Hr; by apply IH.
Qed.

Lemma asym_loop e cpu ws0 ws reason po pp :
  same_core ws ws0 ->
  exists ws' r', for_each_cpu (asym_cap_sibling_cpus e) (asym_step e cpu) (ws, reason, po, pp) =
    (ws', r', peak_over e ws0 (Z.clearbit (asym_cap_sibling_cpus e) cpu) po, pp) /\ same_core ws' ws0.
Proof.
  unfold peak_over, for_each_cpu. generalize (Z.to_nat WALT_NR_CPUS) as n. generalize 0 as lo.
  intros lo n. revert lo ws reason po.
  induction n as [|n IH]; intros lo ws reason po H; [by exists ws, reason|]. cbn [for_range].
  rewrite clearbit_spec, (Z.eqb_sym cpu lo).
  destruct (Z.testbit (asym_cap_sibling_cpus e) lo); cbn [andb]; [|by apply IH].
  destruct (cpu_util_one e lo reason ws ws0 H) as (ws1 & wl & r1 & E & H1 & Hn & Hp).
  assert (asym_step e cpu lo (ws, reason, po, pp) =
    if lo =? cpu then (ws, reason, po, pp) else (ws1, r1, raise_peak (own_util e ws0 lo) wl po, pp)) as ->
    by (unfold asym_step; by rewrite E).
  destruct (lo =? cpu); cbn [negb]; [by apply IH|].
  unfold raise_peak. rewrite Hn, Hp. by apply IH.
Qed.

(** C38. The utilisation reported to the governor. Whatever the order in which the CPUs are
    visited and although every visit stores the utilisation of a CPU, [cpu_util_freq_walt]
    returns a pure function of the utilisations of single CPUs: its own, or, while
    loads are synchronised, the peak of its class of CPUs against the scaled peak of the
    other class, raised by the siblings of asymmetric capacity, and never above the capacity
    of the CPU. Nothing else of the run queues changes than the utilisation and the
    estimates that are stored. *)
Theorem cpu_util_freq_reference e cpu reason ws :
  exists ws' wl r', cpu_util_freq_walt e cpu reason ws = (ws', reference_util e ws cpu, wl, r') /\
    same_core ws' ws.
Proof.
  unfold cpu_util_freq_walt, reference_util.
  destruct (cpu_util_one e cpu reason ws ws eq_refl) as (ws1 & wl & r1 & -> & H1 & Hn & Hp).
  fold none. destruct (enable_load_sync e cpu).
  - destruct (sync_loop e ws ws1 r1 none none H1) as (ws2 & r2 & -> & H2).
    set (other := peak_over e ws (Z.ldiff _ _) none). set (prime := peak_over e ws (Z.land _ _) none).
    destruct (cpumask_test_cpu cpu (prime_cpus e)), (cpumask_test_cpu cpu (asym_cap_sibling_cpus e)),
      (le_is_state1 e); cbn [negb orb andb];
      first [ destruct (asym_loop e cpu ws ws2 r2 other none H2) as (ws3 & r3 & -> & H3); rewrite clamp_capacity_min; by eexists _, _, _
            | rewrite clamp_capacity_min; by eexists _, _, _ ].
  - destruct (cpumask_test_cpu cpu (asym_cap_sibling_cpus e)), (le_is_state1 e); cbn [negb orb andb];
      first [ destruct (asym_loop e cpu ws ws1 r1 none none H1) as (ws3 & r3 & -> & H3); rewrite clamp_capacity_min; by eexists _, _, _
            | rewrite clamp_capacity_min; by eexists _, _, _ ].
Qed.

Lemma cpu_util_freq_bound e cpu reason ws :
  (cpu_util_freq_walt e cpu reason ws).1.1.2 <= freq_capacity e ws cpu.
Proof.
  unfold cpu_util_freq_walt. destruct (__cpu_util_freq_walt e cpu reason ws) as [[[ws1 u1] wl1] r1].
  destruct (if enable_load_sync e cpu then _ else _) as [[[[ws2 r2] other] util] wl].
  destruct (_ || _); [cbn [fst snd]; rewrite clamp_capacity_min; lia|].
  destruct (for_each_cpu _ _ _) as [[[ws3 r3] other3] prime3]. cbn [fst snd]. rewrite clamp_capacity_min. lia.
Qed.

Definition report (cpu reasons : Z) (s : load_env * list walt_rq) : (load_env * list walt_rq) * Z * walt_cpu_load * Z :=
  let '(ws, util, wl, r) := cpu_util_freq_walt s.1 cpu reasons s.2 in ((s.1, ws), util, wl, r).

Lemma report_bound cpu reasons s : (report cpu reasons s).1.1.2 <= freq_capacity s.1 s.2 cpu.
Proof.
  destruct s as [e ws]. unfold report. cbn [fst snd]. pose proof (cpu_util_freq_bound e cpu reasons ws) as H.
  by destruct (cpu_util_freq_walt e cpu reasons ws) as [[[ws' u] wl] r].
Qed.

(** The run queues implement the interface of the governor. *)
#[global] Instance walt_load_source : LoadSource (load_env * list walt_rq) := {|
  ls_util := report;
  ls_capacity cpu s := freq_capacity s.1 s.2 cpu;
  ls_bound := report_bound
|}.

(** A CPU is never reported below what it needs alone, up to its capacity. *)
Lemma peak_over_ge e ws mask p i :
  mask_ok mask -> Z.testbit mask i = true -> own_util e ws i <= k_util (peak_over e ws mask p).
Proof.
  intros Hm Hi. pose proof (mask_bit_is_cpu mask i Hm Hi) as Hc. unfold peak_over.
  pose proof (for_each_cpu_ind (fun j q => i < j -> own_util e ws i <= k_util q) mask (raise_own e ws) p) as H.
  apply H; [unfold is_cpu in Hc; lia|..|unfold is_cpu in Hc; lia].
  - intros c t Hcc _ IH Hlt. cbn [raise_own k_util]. destruct (Z.eq_dec i c) as [->|]; [lia|].
    specialize (IH ltac:(lia)). lia.
  - intros c t Hcc Hf IH Hlt. destruct (Z.eq_dec i c) as [->|]; [congruence|]. apply IH. lia.
Qed.

Lemma reference_util_ge e ws cpu :
  mask_ok (pipeline_sync_cpus e) -> own_util e ws cpu <= reference_util e ws cpu.
Proof.
  intros Hm. unfold reference_util. assert (own_util e ws cpu <= freq_capacity e ws cpu) by (unfold own_util; lia).
  destruct (enable_load_sync e cpu) eqn:Hs; [|destruct (_ && negb _); lia].
  assert (Z.testbit (pipeline_sync_cpus e) cpu = true) as Hb.
  { unfold enable_load_sync, cpumask_test_cpu in Hs. by destruct (Z.testbit _ cpu). }
  unfold cpumask_test_cpu. cbv zeta. destruct (Z.testbit (prime_cpus e) cpu) eqn:Hp.
  - pose proof (peak_over_ge e ws (Z.land (pipeline_sync_cpus e) (prime_cpus e)) none cpu) as H1.
    rewrite Z.land_spec, Hb, Hp in H1. specialize (H1 (mask_ok_land _ _ Hm) eq_refl).
    unfold PIPELINE_SYNC_VAL. destruct (Z.testbit (asym_cap_sibling_cpus e) cpu && _); lia.
  - pose proof (peak_over_ge e ws (Z.ldiff (pipeline_sync_cpus e) (prime_cpus e)) none cpu) as H1.
    rewrite Z.ldiff_spec, Hb, Hp in H1. specialize (H1 (mask_ok_ldiff _ _ Hm) eq_refl).
    unfold PIPELINE_SYNC_VAL. destruct (Z.testbit (asym_cap_sibling_cpus e) cpu && _); lia.
Qed.

(** ** Two defects *)

(** While tasks rotate between the clusters, the load without boosts that the governor
    compares with its high-speed threshold is whatever was on the stack. *)
Lemma non_boosted_load_indeterminate e cpu reason ws :
  le_rotation_enabled e = true ->
  wl_non_boosted_load (__cpu_util_freq_walt e cpu reason ws).1.2 = le_stack e cpu.
Proof. intros H. unfold __cpu_util_freq_walt, freq_policy_load. by rewrite H. Qed.

(** While loads are synchronised, the peak of the other CPUs is meant to count by a
    percentage only; on a CPU with siblings of asymmetric capacity it counts in full,
    because the loop over the siblings starts from it. *)
Lemma asym_undoes_scaling e ws cpu :
  mask_ok (pipeline_sync_cpus e) -> enable_load_sync e cpu = true ->
  cpumask_test_cpu cpu (asym_cap_sibling_cpus e) = true -> le_is_state1 e = false ->
  forall i, Z.testbit (pipeline_sync_cpus e) i = true -> Z.testbit (prime_cpus e) i = false ->
    Z.min (freq_capacity e ws cpu) (own_util e ws i) <= reference_util e ws cpu.
Proof.
  intros Hm Hs Ha H1 i Hi Hp. unfold reference_util. rewrite Hs, Ha, H1. cbn [negb andb].
  set (other := peak_over e ws (Z.ldiff _ _) none).
  assert (own_util e ws i <= k_util other) as Ho.
  { apply peak_over_ge; [by apply mask_ok_ldiff|]. by rewrite Z.ldiff_spec, Hi, Hp. }
  assert (k_util other <= k_util (peak_over e ws (Z.clearbit (asym_cap_sibling_cpus e) cpu) other)); [|lia].
  unfold peak_over. apply (for_each_cpu_inv (fun q => k_util other <= k_util q)); [done|].
  intros c t _ _ H. cbn [raise_own k_util]. lia.
Qed.

End FreqLoads.
