(* ===== verification/Governor.v ===== *)
(** * The frequency governor

    The update path of [cpufreq_walt.c]: a callback of the scheduler refreshes the load of
    a CPU, the policy turns the loads of its CPUs into a frequency request (boosts,
    adaptive levels, caps), and the request is resolved, rate limited and handed to the
    driver. The load comes through the class [LoadSource], the caps from [SmartFreq] and
    [Halt]. *)

From Stdlib Require Import ZArith Lia ZifyBool Bool.
From stdpp Require Import base list.
From S2P Require Import Prelude WaltTypes Cpumask SmartFreq Halt FreqLoad.

(** ** Constants *)

Definition WALT_CPUFREQ_ROLLOVER_BIT : Z := 1.
Definition WALT_CPUFREQ_CONTINUE_BIT : Z := 2.
Definition WALT_CPUFREQ_PL_BIT : Z := 8.
Definition WALT_CPUFREQ_SMART_FREQ_BIT : Z := 512.
Definition WALT_CPUFREQ_UCLAMP_BIT : Z := 1024.

Definition MAX_ZONES : Z := 10.
Definition MAX_UTIL : Z := 1024.
Definition SCHED_CAPACITY_SCALE : Z := 1024.
Definition NL_RATIO : Z := 75.
Definition TARGET_LOAD : Z := 80.
Definition NSEC_PER_SEC : Z := 1000000000.
Definition NSEC_PER_USEC : Z := 1000.
Definition KHZ : Z := 1000.

(** ** State *)

(** [struct waltgov_tunables]; a zone is its bound and its target load. *)
Record waltgov_tunables := mk_tun {
  up_rate_limit_us : Z;
  down_rate_limit_us : Z;
  hispeed_load : Z;
  hispeed_freq : Z;
  hispeed_cond_freq : Z;
  rtg_boost_freq : Z;
  adaptive_level_1 : Z;
  adaptive_low_freq : Z;
  adaptive_high_freq : Z;
  adaptive_level_1_kernel : Z;
  adaptive_low_freq_kernel : Z;
  adaptive_high_freq_kernel : Z;
  tun_pl : bool;
  tun_boost : Z;
  zone_util_pct : list (Z * Z)
}.

(** [struct waltgov_zones] *)
Record waltgov_zones := mk_zone { util_thresh : Z; inflate_factor : Z }.

(** The part of [struct cpufreq_policy] (kernel core) the governor uses. *)
Record cpufreq_policy := mk_pol {
  pol_cpu : Z;
  pol_cpus : Z;
  pol_related_cpus : Z;
  pol_min : Z;
  pol_max : Z;
  pol_cur : Z;
  cpuinfo_max_freq : Z;
  fast_switch_enabled : bool;
  pol_freq_table : list Z;
  cached_resolved_idx : Z
}.

(** [struct waltgov_policy]; [policy] and [tunables] are kept beside it. *)
Record waltgov_policy := mk_wgp {
  last_ws : Z;
  curr_cycles : Z;
  last_cyc_update_time : Z;
  avg_cap : Z;
  hispeed_cond_util : Z;
  zone_util : list waltgov_zones;
  last_freq_update_time : Z;
  min_rate_limit_ns : Z;
  up_rate_delay_ns : Z;
  down_rate_delay_ns : Z;
  next_freq : Z;
  cached_raw_freq : Z;
  driving_cpu : Z;
  ipc_smart_freq : Z;
  limits_changed : bool;
  need_freq_update : bool;
  thermal_isolated : bool;
  wgp_flags : Z;
  rtg_boost_flag : bool;
  hispeed_flag : bool;
  conservative_pl_flag : bool
}.

(** [struct waltgov_cpu] *)
Record waltgov_cpu := mk_wgc {
  wc_load : walt_cpu_load;
  wc_util : Z;
  wc_flags : Z;
  wc_reasons : Z;
  wc_rtg_boost_flag : bool;
  wc_hispeed_flag : bool;
  wc_conservative_pl_flag : bool
}.

(** What the governor asks of the rest of the kernel. *)
Inductive gov_effect : Set :=
| cpufreq_driver_fast_switch (freq : Z)
| walt_irq_work_queue
| cpufreq_driver_target (freq : Z)
| waltgov_window_bug (curr_ws last_ws : Z).

(** One policy with its CPUs, the halt state and the frequency caps it shares with other
    components, the levels of [ipc], the source of loads, and the log. *)
Record gov (L : Type) := mk_gov {
  go_wg : waltgov_policy;
  go_pol : cpufreq_policy;
  go_tun : waltgov_tunables;
  go_cpus : list waltgov_cpu;
  go_halt : halt_state;
  go_ipc : ipc_state;
  go_src : L;
  go_log : list gov_effect
}.
Arguments mk_gov {L}.
Arguments go_wg {L}.
Arguments go_pol {L}.
Arguments go_tun {L}.
Arguments go_cpus {L}.
Arguments go_halt {L}.
Arguments go_ipc {L}.
Arguments go_src {L}.
Arguments go_log {L}.

(** Parameters of the model and globals: [resolve_freq] and [fast_switch_freq] are the
    cpufreq core and driver (the frequency the hardware runs at when asked), the [fbg_]
    functions and [cl_util] the vendor's frame boost and closed loop, in use when
    [ge_frame_boost] and [ge_close_loop] are set; [ge_uclamp_rq] and [ge_uclamp_limit]
    are the pairs of clamps of a run queue. *)
Record gov_env := mk_goenv {
  ge_cfg : walt_cfg;
  ge_halt : halt_env;
  resolve_freq : cpufreq_policy -> Z -> Z;
  fast_switch_freq : cpufreq_policy -> Z -> Z;
  ge_cluster : Z;
  ge_in_smart_lrpb : bool;
  ge_thermal_halt_low_freq : bool;
  trailblazer_floor_freq : list Z;
  ge_uclamp_used : bool;
  ge_uclamp_rq : Z -> Z * Z;
  ge_uclamp_limit : Z -> Z * Z;
  ge_conservative_pl : bool;
  ge_ed_boost_pct : Z;
  ge_frame_boost : bool;
  fbg_flags : Z;
  fbg_early_det : Z;
  fbg_is_ed_task : Z -> bool;
  fbg_ed_boost : Z -> option Z;
  fbg_freq_policy_util : Z -> Z -> Z -> Z;
  ge_close_loop : bool;
  cl_util : Z -> Z -> bool -> Z
}.

Module Governing.

Section Operations.
Context {L : Type} `{LoadSource L}.
Context (e : gov_env).

#[local] Abbreviation G := (gov L).

Definition no_wgc : waltgov_cpu := mk_wgc no_load 0 0 0 false false false.
Definition wgcpu (g : G) (cpu : Z) : waltgov_cpu := nth (Z.to_nat cpu) (go_cpus g) no_wgc.
Definition on_wg (f : waltgov_policy -> waltgov_policy) (g : G) : G := g <| go_wg := f (go_wg g) |>.
Definition on_cpu (cpu : Z) (f : waltgov_cpu -> waltgov_cpu) (g : G) : G :=
  g <| go_cpus := <[Z.to_nat cpu := f (wgcpu g cpu)]> (go_cpus g) |>.
Definition add_reason (cpu bits : Z) : G -> G :=
  on_cpu cpu (fun c => c <| wc_reasons := Z.lor (wc_reasons c) bits |>).
Definition log (x : gov_effect) (g : G) : G := g <| go_log := go_log g ++ [x] |>.
Definition cap (g : G) (which : Z) : Z := cap_of (h_freq (go_halt g)) which (ge_cluster e).

(** ** Rate limits *)

(** The frame boost flags lift the rate limits. *)
Definition fbg_urgent (flags : Z) : bool :=
  ge_frame_boost e && negb (Z.land flags (Z.lor (fbg_flags e) (fbg_early_det e)) =? 0).

Definition waltgov_should_update_freq (time : Z) (g : G) : G * bool :=
  let w := go_wg g in
  if limits_changed w then
    (on_wg (fun w => w <| limits_changed := false |> <| need_freq_update := true |>) g, true)
  else if fbg_urgent (wgp_flags w) then (g, true)
  else (g, min_rate_limit_ns w <=? s64 (time - last_freq_update_time w)).

Definition waltgov_up_down_rate_limit (time freq : Z) (w : waltgov_policy) : bool :=
  let delta_ns := s64 (time - last_freq_update_time w) in
  if fbg_urgent (wgp_flags w) then false
  else if (next_freq w <? freq) && (delta_ns <? up_rate_delay_ns w) then true
  else (freq <? next_freq w) && (delta_ns <? down_rate_delay_ns w).

Definition __waltgov_update_next_freq (time freq raw_freq : Z) (w : waltgov_policy) : waltgov_policy :=
  w <| cached_raw_freq := raw_freq |> <| next_freq := freq |> <| last_freq_update_time := time |>.

Definition waltgov_update_next_freq (time freq raw_freq : Z) (w : waltgov_policy) : waltgov_policy * bool :=
  if next_freq w =? freq then (w, false)
  else if waltgov_up_down_rate_limit time freq w then (w <| cached_raw_freq := 0 |>, false)
  else (__waltgov_update_next_freq time freq raw_freq w, true).

(** ** Cycles *)

Definition freq_to_util (pol : cpufreq_policy) (freq : Z) : Z :=
  u64 (mult_frac (arch_scale_cpu_capacity (ge_cfg e) (pol_cpu pol)) freq (cpuinfo_max_freq pol)).

Definition waltgov_track_cycles (prev_freq upto : Z) (w : waltgov_policy) : waltgov_policy :=
  let next_ws := u64 (last_ws w + sched_ravg_window (ge_cfg e)) in
  let upto := Z.min upto next_ws in
  let delta_ns := u64 (upto - last_cyc_update_time w) in
  let cycles := u64 (delta_ns * prev_freq) / (NSEC_PER_SEC / KHZ) in
  w <| curr_cycles := u64 (curr_cycles w + cycles) |> <| last_cyc_update_time := upto |>.

Definition waltgov_calc_avg_cap (curr_ws prev_freq : Z) (g : G) : G :=
  let w := go_wg g in
  let last := last_ws w in
  let g := if curr_ws <? last then log (waltgov_window_bug curr_ws last) g else g in
  if curr_ws <=? last then g else
  let '(w, avg_freq) :=
    if u64 (last + sched_ravg_window (ge_cfg e)) <? curr_ws
    then (w <| last_cyc_update_time := curr_ws |>, prev_freq)
    else let w := waltgov_track_cycles prev_freq curr_ws w in
         (w, u32 (curr_cycles w) / (sched_ravg_window (ge_cfg e) / (NSEC_PER_SEC / KHZ))) in
  on_wg (fun _ => w <| avg_cap := freq_to_util (go_pol g) avg_freq |> <| curr_cycles := 0 |>
                    <| last_ws := curr_ws |>) g.

(** The driver leaves the frequency the hardware runs at in [policy->cur]. *)
Definition waltgov_fast_switch (time freq : Z) (g : G) : G :=
  let g := on_wg (waltgov_track_cycles (pol_cur (go_pol g)) time) g in
  let got := fast_switch_freq e (go_pol g) freq in
  let g := log (cpufreq_driver_fast_switch freq) g in
  if got =? 0 then g else g <| go_pol := (go_pol g) <| pol_cur := got |> |>.

Definition waltgov_deferred_update (g : G) : G := log walt_irq_work_queue g.

(** ** From utilisation to frequency *)

(** The factor for a utilisation: that of the first zone it is in, 1.25 times the
    largest frequency without one. *)
Fixpoint zone_factor (util : Z) (zones : list waltgov_zones) (default : Z) : Z :=
  match zones with
  | [] => default
  | z :: zones =>
      if util_thresh z =? -1 then default
      else if util <=? u64 (util_thresh z) then u64 (inflate_factor z)
      else zone_factor util zones default
  end.

Definition walt_map_util_freq (util cap : Z) (g : G) : Z :=
  let util := Z.min MAX_UTIL util in
  let fmax := cpuinfo_max_freq (go_pol g) in
  let factor := zone_factor util (zone_util (go_wg g)) (fmax + Z.shiftr fmax 2) in
  u64 (factor * util) / cap.

Definition get_adaptive_level_1 (t : waltgov_tunables) : Z :=
  Z.max (adaptive_level_1 t) (adaptive_level_1_kernel t).
Definition get_adaptive_low_freq (t : waltgov_tunables) : Z :=
  Z.max (adaptive_low_freq t) (adaptive_low_freq_kernel t).
Definition get_adaptive_high_freq (t : waltgov_tunables) : Z :=
  Z.max (adaptive_high_freq t) (adaptive_high_freq_kernel t).

(** The limit with its reasons. *)
Definition smart_limit (g : G) : Z * Z :=
  let smart_cap := cap g SMART_FREQ in
  let ipc := ipc_smart_freq (go_wg g) in
  if negb (f_ipc_participation_mask (fc_info (cluster (h_freq (go_halt g)) (ge_cluster e))) =? 0) then
    if ipc <? smart_cap then (smart_cap, CPUFREQ_REASON_SMART_FREQ_BIT)
    else if smart_cap <? ipc then (ipc, CPUFREQ_REASON_IPC_SMART_FREQ_BIT)
    else (ipc, Z.lor CPUFREQ_REASON_SMART_FREQ_BIT CPUFREQ_REASON_IPC_SMART_FREQ_BIT)
  else (smart_cap, CPUFREQ_REASON_SMART_FREQ_BIT).

Definition get_smart_freq_limit (driv freq : Z) (g : G) : G * Z :=
  if ge_in_smart_lrpb e then (g, freq) else
  let '(smart_freq, smart_reason) := smart_limit g in
  if smart_freq <? freq then (add_reason driv smart_reason g, smart_freq) else (g, freq).

Definition post_update_cleanups (g : G) : G :=
  let g := for_each_cpu (pol_cpus (go_pol g)) (fun cpu => on_cpu cpu (fun c =>
    c <| wc_rtg_boost_flag := false |> <| wc_hispeed_flag := false |>
      <| wc_conservative_pl_flag := false |> <| wc_reasons := 0 |>)) g in
  on_wg (fun w => w <| rtg_boost_flag := false |> <| hispeed_flag := false |>
                    <| conservative_pl_flag := false |>) g.

(** One of the three loops over the CPUs of the policy: the first CPU that asks for a
    boost above the frequency so far takes over, with its reason. *)
Definition boost_loop (asks : waltgov_cpu -> bool) (mod_freq : waltgov_cpu -> Z -> Z) (reason : Z)
    (g : G) (driv freq : Z) : G * Z * Z :=
  match for_each_cpu_until (pol_cpus (go_pol g))
          (fun j (_ : unit) => let c := wgcpu g j in
             if (freq <? mod_freq c j) && asks c then inr (j, mod_freq c j) else inl tt) tt with
  | inr (j, f) => (add_reason j reason g, j, f)
  | inl _ => (g, driv, freq)
  end.

Definition apply_boosts (g : G) (driv raw_freq : Z) : G * Z * Z :=
  let w := go_wg g in
  let '(g, driv, freq) :=
    if rtg_boost_flag w
    then boost_loop wc_rtg_boost_flag (fun _ _ => rtg_boost_freq (go_tun g)) CPUFREQ_REASON_RTG_BOOST_BIT g driv raw_freq
    else (g, driv, raw_freq) in
  let '(g, driv, freq) :=
    if hispeed_flag w
    then boost_loop wc_hispeed_flag (fun _ _ => hispeed_freq (go_tun g)) CPUFREQ_REASON_HISPEED_BIT g driv freq
    else (g, driv, freq) in
  if conservative_pl_flag w
  then boost_loop wc_conservative_pl_flag
         (fun c j => u32 (u64 (cpuinfo_max_freq (go_pol g) * wl_pl (wc_load c)) / arch_scale_cpu_capacity (ge_cfg e) j))
         CPUFREQ_REASON_PL_BIT g driv freq
  else (g, driv, freq).

Definition trailblazer_floor (cpu driv freq : Z) (g : G) : G * Z :=
  let floor := aget (trailblazer_floor_freq e) (ge_cluster e) in
  if wl_trailblazer_boost_state (wc_load (wgcpu g cpu)) && (freq <? floor) &&
     sysctl_walt_feat (ge_cfg e) WALT_FEAT_TRAILBLAZER_BIT
  then (add_reason driv CPUFREQ_REASON_TRAILBLAZER_STATE_BIT g, floor) else (g, freq).

(** [mod_adap_freq] is the frequency the levels are compared with, [freq] the one so far. *)
Definition adaptive (mod_adap_freq driv freq : Z) (g : G) : G * Z :=
  let t := go_tun g in
  if mod_adap_freq <? get_adaptive_level_1 t
  then (add_reason driv CPUFREQ_REASON_ADAPTIVE_LVL_1_BIT g, get_adaptive_level_1 t)
  else if mod_adap_freq <? get_adaptive_low_freq t
  then (add_reason driv CPUFREQ_REASON_ADAPTIVE_LOW_BIT g, get_adaptive_low_freq t)
  else if mod_adap_freq <=? get_adaptive_high_freq t
  then (add_reason driv CPUFREQ_REASON_ADAPTIVE_HIGH_BIT g, get_adaptive_high_freq t)
  else (g, freq).

Definition apply_cap (which reason driv : Z) (freq : Z) (g : G) : G * Z :=
  if cap g which <? freq then (add_reason driv reason g, cap g which) else (g, freq).

(** The request from the mapped utilisation on: boosts, floor, levels and caps. *)
Definition request_freq (cpu raw_freq : Z) (g : G) : G * Z :=
  let driving := driving_cpu (go_wg g) in
  let '(g, driv, mod_adap_freq) := apply_boosts g driving raw_freq in
  let skip := cpumask_intersects (fc_cpus (cluster (h_freq (go_halt g)) (ge_cluster e)))
                (cpu_partial_halt_mask (go_halt g)) && is_state1 (ge_halt e) (go_halt g) in
  let '(g, freq) := trailblazer_floor cpu driv mod_adap_freq g in
  let '(g, freq) := if negb (adaptive_high_freq (go_tun g) =? 0) && negb skip
                    then adaptive mod_adap_freq driv freq g else (g, freq) in
  let '(g, freq) := get_smart_freq_limit driv freq g in
  let '(g, freq) := apply_cap HIGH_PERF_CAP CPUFREQ_REASON_HIGH_PERF_CAP_BIT driv freq g in
  let '(g, freq) := apply_cap PARTIAL_HALT_CAP CPUFREQ_REASON_PARTIAL_HALT_CAP_BIT driv freq g in
  let '(umin, umax) := ge_uclamp_limit e driving in
  let g := if negb (Z.land (wc_flags (wgcpu g driv)) WALT_CPUFREQ_UCLAMP_BIT =? 0) &&
              (negb (umin =? 0) || negb (umax =? SCHED_CAPACITY_SCALE))
           then add_reason driv CPUFREQ_REASON_UCLAMP_BIT g else g in
  (g, freq).

(** The first part of [get_next_freq]: thermal isolation. [Some f] is the final frequency. *)
Definition thermal_isolation (time : Z) (g : G) : G * option Z :=
  let thermal_isolated_now := cpus_halted_by_client (pol_related_cpus (go_pol g)) PAUSE_THERMAL (go_halt g) in
  if negb (ge_thermal_halt_low_freq e) then (g, None) else
  if thermal_isolated_now then
    if negb (thermal_isolated (go_wg g)) then
      let f := aget (pol_freq_table (go_pol g)) 0 in
      (on_wg (fun w => __waltgov_update_next_freq time f f (w <| thermal_isolated := true |>))
         (g <| go_pol := (go_pol g) <| cached_resolved_idx := 0 |> |>), Some f)
    else (g, Some 0)
  else if thermal_isolated (go_wg g)
  then (on_wg (fun w => w <| thermal_isolated := false |> <| need_freq_update := true |>) g, None)
  else (g, None).

(** The end of [get_next_freq]: a request equal to the one resolved last is dropped, any
    other is resolved and rate limited. *)
Definition decide_freq (pol : cpufreq_policy) (time freq : Z) (w : waltgov_policy) : waltgov_policy * Z :=
  if negb (cached_raw_freq w =? 0) && (freq =? cached_raw_freq w) && negb (need_freq_update w)
  then (w, 0) else
  let final_freq := resolve_freq e pol freq in
  let '(w, updated) := waltgov_update_next_freq time final_freq freq w in
  (w <| need_freq_update := false |>, if updated then final_freq else 0).

Definition get_next_freq (util max cpu time : Z) (g : G) : G * Z :=
  match thermal_isolation time g with
  | (g, Some final_freq) => (post_update_cleanups g, final_freq)
  | (g, None) =>
      let raw_freq := u32 (walt_map_util_freq util max g) in
      let '(g, freq) := request_freq cpu raw_freq g in
      let '(w, final_freq) := decide_freq (go_pol g) time freq (go_wg g) in
      (post_update_cleanups (on_wg (fun _ => w) g), final_freq)
  end.

(** ** The utilisation of the policy *)

(** [p] is the pair of clamps of a task, [rq_idle] whether the run queue is idle. *)
Definition uclamp_rq_util_with (p : option (Z * Z)) (rq_idle : bool) (cpu util : Z) : Z :=
  if negb (ge_uclamp_used e) then util else
  let '(min_util, max_util) := default (0, 0) p in
  let '(min_util, max_util) :=
    if bool_decide (is_Some p) && rq_idle then (min_util, max_util)
    else (Z.max min_util (ge_uclamp_rq e cpu).1, Z.max max_util (ge_uclamp_rq e cpu).2) in
  if max_util <=? min_util then min_util else Z.min (Z.max util min_util) max_util.

(** The loop state of [waltgov_next_freq_shared]: the policy and [util]. *)
Definition max_and_reason (util boost_util cpu reason : Z) (g : G) : G * Z :=
  if negb (boost_util =? 0) && (util <=? boost_util)
  then (on_wg (fun w => w <| driving_cpu := cpu |>) (on_cpu cpu (fun c => c <| wc_reasons := reason |>) g), boost_util)
  else (g, util).

Definition waltgov_walt_adjust (cpu cpu_util nl max util : Z) (g : G) : G * Z :=
  let wl := wc_load (wgcpu g cpu) in
  let is_rollover := negb (Z.land (wc_flags (wgcpu g cpu)) WALT_CPUFREQ_ROLLOVER_BIT =? 0) in
  let employ_ed_boost := wl_ed_active wl && negb (ge_ed_boost_pct e =? 0) in
  let nbl := scale_time_to_util (ge_cfg e) (wl_non_boosted_load wl) in
  let min_util := util in
  let halted := cpumask_test_cpu cpu (cpu_partial_halt_mask (go_halt g)) && is_state1 (ge_halt e) (go_halt g) in
  let g := if wl_rtgb_active wl && negb halted
           then on_wg (fun w => w <| rtg_boost_flag := true |>)
                  (on_cpu cpu (fun c => c <| wc_rtg_boost_flag := true |>) g) else g in
  let is_hiload := is_rollover &&
    (u64 (mult_frac (avg_cap (go_wg g)) (hispeed_load (go_tun g)) 100) <=? nbl) &&
    negb halted && negb (avg_cap (go_wg g) <? hispeed_cond_util (go_wg g)) in
  let '(g, util) :=
    if is_hiload then
      let g := on_wg (fun w => w <| hispeed_flag := true |>)
                 (on_cpu cpu (fun c => c <| wc_hispeed_flag := true |>) g) in
      if u64 (mult_frac cpu_util NL_RATIO 100) <=? nl
      then max_and_reason util max cpu CPUFREQ_REASON_NWD_BIT g else (g, util)
    else (g, util) in
  let '(g, util) :=
    if tun_pl (go_tun g) then
      if ge_conservative_pl e
      then (on_wg (fun w => w <| conservative_pl_flag := true |>)
              (on_cpu cpu (fun c => c <| wc_conservative_pl_flag := true |>) g), util)
      else max_and_reason util (wl_pl wl) cpu CPUFREQ_REASON_PL_BIT g
    else (g, util) in
  let g := if employ_ed_boost then add_reason cpu CPUFREQ_REASON_EARLY_DET_BIT g else g in
  let util := uclamp_rq_util_with None false cpu util in
  let util := Z.max min_util util in
  if ge_frame_boost e && negb (Z.land (wgp_flags (go_wg g)) (fbg_early_det e) =? 0) then
    let cpu_util := match fbg_ed_boost e cpu with
                    | Some b => if cpu_util <? b then b else cpu_util
                    | None => cpu_util
                    end in
    (g, Z.max util cpu_util)
  else (g, util).

(** One turn of the loop over the CPUs of the policy. *)
Definition shared_step (boost max j : Z) (st : G * Z) : G * Z :=
  let '(g, util) := st in
  let g := if ge_frame_boost e && (Z.land (wgp_flags (go_wg g)) (fbg_early_det e) =? 0) && fbg_is_ed_task e j
           then on_wg (fun w => w <| wgp_flags := Z.lor (wgp_flags w) (fbg_early_det e) |>) g else g in
  let j_util := wc_util (wgcpu g j) in
  let j_nl := wl_nl (wc_load (wgcpu g j)) in
  let '(j_util, j_nl) := if negb (boost =? 0)
                         then (u64 (mult_frac j_util (boost + 100) 100), u64 (mult_frac j_nl (boost + 100) 100))
                         else (j_util, j_nl) in
  let '(g, util) := if util <? j_util then (on_wg (fun w => w <| driving_cpu := j |>) g, j_util) else (g, util) in
  waltgov_walt_adjust j j_util j_nl max util g.

Definition waltgov_next_freq_shared (cpu time : Z) (g : G) : G * Z :=
  let boost := tun_boost (go_tun g) in
  let max := arch_scale_cpu_capacity (ge_cfg e) cpu in
  let '(g, util) := for_each_cpu (pol_cpus (go_pol g)) (shared_step boost max) (g, 0) in
  let util := if ge_frame_boost e then fbg_freq_policy_util e (wgp_flags (go_wg g)) (pol_cpus (go_pol g)) util
              else util in
  get_next_freq util max cpu time g.

(** Hands a new frequency on, when there is one. *)
Definition commit_freq (time : Z) (gf : G * Z) : G :=
  let '(g, next_f) := gf in
  if next_f =? 0 then g
  else if fast_switch_enabled (go_pol g) then waltgov_fast_switch time next_f g
  else waltgov_deferred_update g.

Definition waltgov_update_smart_freq (cpu time : Z) (g : G) : G :=
  let fe := he_freq (ge_halt e) in
  let '(k, s, freq) := get_cluster_ipc_level_freq fe cpu time (go_ipc g) (h_freq (go_halt g)) in
  let g := on_wg (fun w => w <| ipc_smart_freq := freq |>) (g <| go_ipc := k |>) in
  let s := update_smart_freq_capacities_one_cluster fe (e_cluster_id fe cpu) s in
  let g := g <| go_halt := (go_halt g) <| h_freq := s |> |> in
  commit_freq time (waltgov_next_freq_shared cpu time g).

(** The two ways to get the utilisation: with frame boost, [waltgov_get_util] clears the
    reasons and applies the clamps of the run queue. *)
Definition refresh_util (cpu flags : Z) (g : G) : G :=
  if ge_frame_boost e then
    let '(src, util, wl, reasons) := ls_util cpu 0 (go_src g) in
    let util := if ge_close_loop e then cl_util e cpu util (wl_ed_active wl) else util in
    let util := uclamp_rq_util_with None false cpu util in
    on_wg (fun w => w <| wgp_flags := flags |>)
      (on_cpu cpu (fun c => c <| wc_load := wl |> <| wc_util := util |> <| wc_flags := flags |>
                              <| wc_reasons := reasons |>) (g <| go_src := src |>))
  else
    let '(src, util, wl, reasons) := ls_util cpu (wc_reasons (wgcpu g cpu)) (go_src g) in
    on_cpu cpu (fun c => c <| wc_load := wl |> <| wc_util := util |> <| wc_flags := flags |>
                           <| wc_reasons := reasons |>) (g <| go_src := src |>).

Definition waltgov_update_freq (cpu time flags : Z) (g : G) : G :=
  if negb (Z.land flags WALT_CPUFREQ_SMART_FREQ_BIT =? 0) then waltgov_update_smart_freq cpu time g else
  if negb (tun_pl (go_tun g)) && negb (Z.land flags WALT_CPUFREQ_PL_BIT =? 0) then g else
  let g := refresh_util cpu flags g in
  let g := waltgov_calc_avg_cap (wl_ws (wc_load (wgcpu g cpu))) (pol_cur (go_pol g)) g in
  let '(g, should) := waltgov_should_update_freq time g in
  if should && (Z.land flags WALT_CPUFREQ_CONTINUE_BIT =? 0)
  then commit_freq time (waltgov_next_freq_shared cpu time g) else g.

(** The worker of the slow path; [now] is the clock it reads, [applied] the frequency the
    driver sets. *)
Definition waltgov_work (now applied : Z) (g : G) : G :=
  let freq := next_freq (go_wg g) in
  let g := on_wg (waltgov_track_cycles (pol_cur (go_pol g)) now) g in
  let g := log (cpufreq_driver_target freq) g in
  g <| go_pol := (go_pol g) <| pol_cur := applied |> |>.

(** The cpufreq core has new limits; [applied] is [policy->cur] after
    [cpufreq_policy_apply_limits] of the slow path. *)
Definition waltgov_limits (now applied : Z) (g : G) : G :=
  let g :=
    if negb (fast_switch_enabled (go_pol g)) then
      let g := on_wg (waltgov_track_cycles (pol_cur (go_pol g)) now) g in
      g <| go_pol := (go_pol g) <| pol_cur := applied |> |>
    else if negb (thermal_isolated (go_wg g)) then
      let final_freq := resolve_freq e (go_pol g) (pol_cur (go_pol g)) in
      if negb (next_freq (go_wg g) =? final_freq)
      then waltgov_fast_switch now final_freq (on_wg (__waltgov_update_next_freq now final_freq final_freq) g)
      else g
    else g in
  on_wg (fun w => w <| limits_changed := true |>) g.

End Operations.

#[global] Arguments boost_loop : simpl never.
#[global] Arguments apply_boosts : simpl never.
#[global] Arguments request_freq : simpl never.
#[global] Arguments get_next_freq : simpl never.
#[global] Arguments post_update_cleanups : simpl never.
#[global] Arguments waltgov_walt_adjust : simpl never.
#[global] Arguments shared_step : simpl never.
#[global] Arguments waltgov_next_freq_shared : simpl never.
#[global] Arguments waltgov_track_cycles : simpl never.
#[global] Arguments walt_map_util_freq : simpl never.

(** ** The request *)

Section Request.
Context {L : Type} (e : gov_env).
Implicit Types g : gov L.

(** Nothing but the data of the CPUs has changed. *)
Definition only_cpus g g' : Prop := g' = g <| go_cpus := go_cpus g' |>.

#[global] Instance only_cpus_preorder : PreOrder only_cpus.
Proof.
  split.
  - intros []. reflexivity.
  - intros x y z Hx Hy. unfold only_cpus in *. rewrite Hy, Hx. reflexivity.
Qed.

Lemma add_reason_only cpu bits g : only_cpus g (add_reason cpu bits g).
Proof. reflexivity. Qed.

Lemma boost_loop_spec asks mf reason g driv freq g' driv' freq' :
  boost_loop asks mf reason g driv freq = (g', driv', freq') -> only_cpus g g' /\ freq <= freq'.
Proof.
  unfold boost_loop. destruct (for_each_cpu_until _ _ _) as [u|[j f]] eqn:E; intros [= <- <- <-].
  - split; [reflexivity|lia].
  - split; [apply add_reason_only|].
    assert (match (for_each_cpu_until (pol_cpus (go_pol g))
          (fun j (_ : unit) => if (freq <? mf (wgcpu g j) j) && asks (wgcpu g j)
             then inr (j, mf (wgcpu g j) j) else inl tt) tt) with inr (_, f) => freq <= f | inl _ => True end) as Hi.
    { unfold for_each_cpu_until. apply (for_each_cpu_inv (fun x => match x with inr (_, f) => freq <= f | inl _ => True end)); [done|].
      intros c [u|[j' f']] _ _ Hx; [|done]. destruct (Z.ltb_spec freq (mf (wgcpu g c) c)); cbn [andb]; [|done].
      destruct (asks _); [lia|done]. }
    change (for_each_cpu_until (pol_cpus (go_pol g))
          (fun j (_ : unit) => if (freq <? mf (wgcpu g j) j) && asks (wgcpu g j)
             then inr (j, mf (wgcpu g j) j) else inl tt) tt = inr (j, f)) in E.
    by rewrite E in Hi.
Qed.

Lemma apply_boosts_spec g driv raw g' driv' freq :
  apply_boosts e g driv raw = (g', driv', freq) -> only_cpus g g' /\ raw <= freq.
Proof.
  unfold apply_boosts.
  destruct (if rtg_boost_flag (go_wg g) then _ else _) as [[g1 d1] f1] eqn:E1.
  destruct (if hispeed_flag (go_wg g) then _ else _) as [[g2 d2] f2] eqn:E2.
  assert (only_cpus g g1 /\ raw <= f1) as [H1 H1'].
  { destruct (rtg_boost_flag _); [by eapply boost_loop_spec|]. injection E1 as <- <- <-. by split. }
  assert (only_cpus g1 g2 /\ f1 <= f2) as [H2 H2'].
  { destruct (hispeed_flag _); [by eapply boost_loop_spec|]. injection E2 as <- <- <-. by split. }
  destruct (conservative_pl_flag _).
  - intros E3. destruct (boost_loop_spec _ _ _ _ _ _ _ _ _ E3) as [H3 H3'].
    split; [by etrans; [|etrans]|lia].
  - intros [= <- <- <-]. split; [by etrans|lia].
Qed.

Lemma trailblazer_floor_spec cpu driv freq g g' f :
  trailblazer_floor e cpu driv freq g = (g', f) -> only_cpus g g' /\ freq <= f.
Proof.
  unfold trailblazer_floor. destruct (wl_trailblazer_boost_state _); cbn [andb]; [|by intros [= <- <-]].
  destruct (Z.ltb_spec freq (aget (trailblazer_floor_freq e) (ge_cluster e))); cbn [andb]; [|by intros [= <- <-]].
  destruct (sysctl_walt_feat _ _); intros [= <- <-]; [split; [apply add_reason_only|lia]|done].
Qed.

Lemma adaptive_spec m driv freq g g' f :
  adaptive m driv freq g = (g', f) -> m <= freq -> only_cpus g g' /\ m <= f.
Proof.
  unfold adaptive. intros E Hm. revert E.
  repeat (case_if; [intros [= <- <-]; split; [apply add_reason_only|lia]|]).
  by intros [= <- <-].
Qed.

(** The smallest frequency the caps allow to ask for. *)
Definition smart_cap g : Z :=
  if ge_in_smart_lrpb e then FREQ_QOS_MAX_DEFAULT_VALUE else (smart_limit e g).1.

Lemma smart_limit_max g :
  (smart_limit e g).1 =
  if f_ipc_participation_mask (fc_info (cluster (h_freq (go_halt g)) (ge_cluster e))) =? 0
  then cap e g SMART_FREQ else Z.max (cap e g SMART_FREQ) (ipc_smart_freq (go_wg g)).
Proof.
  unfold smart_limit. destruct (_ =? 0); cbn [negb]; [done|]. repeat case_if; cbn [fst]; lia.
Qed.

Lemma smart_freq_limit_spec driv freq g g' f :
  get_smart_freq_limit e driv freq g = (g', f) ->
  only_cpus g g' /\ f = if ge_in_smart_lrpb e then freq else Z.min freq (smart_limit e g).1.
Proof.
  unfold get_smart_freq_limit. destruct (ge_in_smart_lrpb e); [by intros [= <- <-]|].
  destruct (smart_limit e g) as [s r]. cbn [fst].
  destruct (Z.ltb_spec s freq); intros [= <- <-]; split; try apply add_reason_only; try reflexivity; lia.
Qed.

Lemma apply_cap_spec which reason driv freq g g' f :
  apply_cap e which reason driv freq g = (g', f) -> only_cpus g g' /\ f = Z.min freq (cap e g which).
Proof.
  unfold apply_cap. destruct (Z.ltb_spec (cap e g which) freq); intros [= <- <-];
    split; try apply add_reason_only; try reflexivity; lia.
Qed.

(** The caps are not touched on the way. *)
Lemma cap_only g g' which : only_cpus g g' -> cap e g' which = cap e g which.
Proof. intros ->. reflexivity. Qed.
Lemma smart_limit_only g g' : only_cpus g g' -> smart_limit e g' = smart_limit e g.
Proof. intros ->. reflexivity. Qed.

(** The request: the caps clip a frequency that is at least the one mapped from the
    utilisation. *)
Lemma request_freq_spec cpu raw g g' f :
  request_freq e cpu raw g = (g', f) ->
  only_cpus g g' /\ exists want, raw <= want /\
    f = Z.min (Z.min (if ge_in_smart_lrpb e then want else Z.min want (smart_limit e g).1) (cap e g HIGH_PERF_CAP))
              (cap e g PARTIAL_HALT_CAP).
Proof.
  unfold request_freq. destruct (apply_boosts e g _ raw) as [[g1 d] m] eqn:E1.
  destruct (apply_boosts_spec _ _ _ _ _ _ E1) as [H1 Hm].
  set (skip := _ && is_state1 _ _). destruct (trailblazer_floor e cpu d m g1) as [g2 f2] eqn:E2.
  destruct (trailblazer_floor_spec _ _ _ _ _ _ E2) as [H2 Hf2].
  destruct (if negb (adaptive_high_freq _ =? 0) && negb skip then _ else _) as [g3 f3] eqn:E3.
  assert (only_cpus g2 g3 /\ m <= f3) as [H3 Hf3].
  { destruct (_ && negb skip); [by eapply adaptive_spec|]. by injection E3 as <- <-. }
  destruct (get_smart_freq_limit e d f3 g3) as [g4 f4] eqn:E4.
  destruct (smart_freq_limit_spec _ _ _ _ _ E4) as [H4 Hf4].
  destruct (apply_cap e HIGH_PERF_CAP _ d f4 g4) as [g5 f5] eqn:E5. destruct (apply_cap_spec _ _ _ _ _ _ _ E5) as [H5 Hf5].
  destruct (apply_cap e PARTIAL_HALT_CAP _ d f5 g5) as [g6 f6] eqn:E6. destruct (apply_cap_spec _ _ _ _ _ _ _ E6) as [H6 Hf6].
  destruct (ge_uclamp_limit e _) as [umin umax].
  assert (only_cpus g g3) as H03 by (etrans; [exact H1|]; by etrans).
  assert (only_cpus g g4) as H04 by by etrans. assert (only_cpus g g5) as H05 by by etrans.
  assert (only_cpus g g6) as H06 by by etrans.
  intros E. assert (only_cpus g6 g' /\ f6 = f) as [H7 <-].
  { destruct (_ && _) in E; injection E as <- <-; split; try done; apply add_reason_only. }
  split; [by etrans|]. exists f3. split; [lia|].
  rewrite Hf6, Hf5, Hf4, (smart_limit_only g g3 H03), (cap_only g g4 _ H04), (cap_only g g5 _ H05). done.
Qed.

End Request.

(** ** What an update leaves alone *)

Section Frames.
Context {L : Type} `{LoadSource L} (e : gov_env).
Implicit Types g : gov L.

(** Only the data of the CPUs, the boost flags and the driving CPU have changed. *)
Definition steady g g' : Prop :=
  exists cpus d fl b1 b2 b3, g' = g <| go_cpus := cpus |>
    <| go_wg := (go_wg g) <| driving_cpu := d |> <| wgp_flags := fl |> <| rtg_boost_flag := b1 |>
                          <| hispeed_flag := b2 |> <| conservative_pl_flag := b3 |> |>.

#[global] Instance steady_preorder : PreOrder steady.
Proof.
  split.
  - intros [[] ? ? ? ? ? ? ?]. by eexists _, _, _, _, _, _.
  - intros x y z (c & d & fl & b1 & b2 & b3 & ->) (c' & d' & fl' & b1' & b2' & b3' & ->).
    by exists c', d', fl', b1', b2', b3'.
Qed.

Lemma only_cpus_steady g g' : only_cpus g g' -> steady g g'.
Proof.
  intros E. exists (go_cpus g'), (driving_cpu (go_wg g)), (wgp_flags (go_wg g)), (rtg_boost_flag (go_wg g)),
    (hispeed_flag (go_wg g)), (conservative_pl_flag (go_wg g)). etrans; [exact E|]. by destruct g as [[] ? ? ? ? ? ? ?].
Qed.

Lemma steady_on_cpu cpu f g : steady g (on_cpu cpu f g).
Proof. apply only_cpus_steady. reflexivity. Qed.

(** The policy updates of the loop. *)
Lemma steady_on_wg f g :
  (forall w, exists d fl b1 b2 b3, f w = w <| driving_cpu := d |> <| wgp_flags := fl |> <| rtg_boost_flag := b1 |>
                          <| hispeed_flag := b2 |> <| conservative_pl_flag := b3 |>) -> steady g (on_wg f g).
Proof.
  intros Hf. destruct (Hf (go_wg g)) as (d & fl & b1 & b2 & b3 & E). exists (go_cpus g), d, fl, b1, b2, b3.
  unfold on_wg. rewrite E. by destruct g.
Qed.

Ltac wg_change := apply steady_on_wg; intros []; eexists _, _, _, _, _; cbn; reflexivity.

Lemma cleanups_steady g : steady g (post_update_cleanups g).
Proof.
  unfold post_update_cleanups. etrans; [|wg_change].
  apply (for_each_cpu_inv (steady g)); [reflexivity|].
  intros c t _ _ Ht. etrans; [exact Ht|apply steady_on_cpu].
Qed.

Lemma max_and_reason_steady util boost cpu reason g : steady g (max_and_reason util boost cpu reason g).1.
Proof.
  unfold max_and_reason. destruct (_ && _); [|reflexivity]. cbn [fst].
  etrans; [apply steady_on_cpu|wg_change].
Qed.

Lemma walt_adjust_steady cpu cpu_util nl max util g :
  steady g (waltgov_walt_adjust e cpu cpu_util nl max util g).1.
Proof.
  unfold waltgov_walt_adjust. set (halted := _ && is_state1 _ _). clearbody halted.
  set (g1 := if wl_rtgb_active _ && _ then _ else g).
  assert (steady g g1) as H1.
  { unfold g1. destruct (_ && _); [|reflexivity]. etrans; [apply steady_on_cpu|wg_change]. }
  clearbody g1. set (hi := _ && _ && _ && _). clearbody hi. destruct (if hi then _ else _) as [g2 u2] eqn:E2.
  assert (steady g1 g2) as H2.
  { destruct hi; [|injection E2 as <- <-; reflexivity].
    set (g1' := on_wg _ _) in E2. assert (steady g1 g1') as H1' by (etrans; [apply steady_on_cpu|wg_change]).
    destruct (_ <=? nl) in E2; [|by injection E2 as <- <-].
    etrans; [exact H1'|]. pose proof (max_and_reason_steady util max cpu CPUFREQ_REASON_NWD_BIT g1') as Hm.
    by rewrite E2 in Hm. }
  destruct (if tun_pl (go_tun g2) then _ else _) as [g3 u3] eqn:E3.
  assert (steady g2 g3) as H3.
  { destruct (tun_pl _); [|injection E3 as <- <-; reflexivity]. destruct (ge_conservative_pl e).
    - injection E3 as <- <-. etrans; [apply steady_on_cpu|wg_change].
    - pose proof (max_and_reason_steady u2 (wl_pl (wc_load (wgcpu g cpu))) cpu CPUFREQ_REASON_PL_BIT g2) as Hm.
      by rewrite E3 in Hm. }
  set (g4 := if _ && negb (ge_ed_boost_pct e =? 0) then _ else g3).
  assert (steady g3 g4) as H4 by (unfold g4; destruct (_ && negb (ge_ed_boost_pct e =? 0)); [apply steady_on_cpu|reflexivity]).
  assert (steady g g4) as H0 by (do 3 (etrans; [eassumption|]); exact H4).
  destruct (ge_frame_boost e && _); exact H0.
Qed.

Lemma shared_step_steady boost max j st : steady st.1 (shared_step e boost max j st).1.
Proof.
  destruct st as [g util]. unfold shared_step. cbn [fst].
  set (g1 := if _ && fbg_is_ed_task e j then _ else g).
  assert (steady g g1) as H1 by (unfold g1; destruct (_ && _); [wg_change|reflexivity]).
  destruct (if negb (boost =? 0) then _ else _) as [ju jn].
  destruct (if util <? ju then _ else _) as [g2 u2] eqn:E2.
  assert (steady g1 g2) as H2.
  { destruct (util <? ju); injection E2 as <- <-; [wg_change|reflexivity]. }
  etrans; [exact H1|]. etrans; [exact H2|]. apply walt_adjust_steady.
Qed.

Lemma shared_loop_steady boost max mask g util :
  steady g (for_each_cpu mask (shared_step e boost max) (g, util)).1.
Proof.
  apply (for_each_cpu_inv (fun st => steady g st.1)); [reflexivity|].
  intros c t _ _ Ht. etrans; [exact Ht|apply shared_step_steady].
Qed.

End Frames.

(** ** Deciding on a frequency *)

Section Decisions.
Context {L : Type} `{LoadSource L} (e : gov_env).
Implicit Types g : gov L.

(** The fields of a policy that the decision works with. *)
Definition rates (w : waltgov_policy) : Z * Z * Z * bool * bool * Z * Z * Z :=
  (next_freq w, cached_raw_freq w, last_freq_update_time w, limits_changed w, need_freq_update w,
   up_rate_delay_ns w, down_rate_delay_ns w, min_rate_limit_ns w).

Lemma rates_inv w w' :
  rates w = rates w' ->
  next_freq w = next_freq w' /\ cached_raw_freq w = cached_raw_freq w' /\
  last_freq_update_time w = last_freq_update_time w' /\ limits_changed w = limits_changed w' /\
  need_freq_update w = need_freq_update w' /\ up_rate_delay_ns w = up_rate_delay_ns w' /\
  down_rate_delay_ns w = down_rate_delay_ns w' /\ min_rate_limit_ns w = min_rate_limit_ns w'.
Proof. unfold rates. intros E. by simplify_eq. Qed.

Definition capped g (freq : Z) : Prop :=
  freq <= cap e g HIGH_PERF_CAP /\ freq <= cap e g PARTIAL_HALT_CAP /\
  (ge_in_smart_lrpb e = false -> freq <= (smart_limit e g).1).

Lemma steady_inv g g' :
  steady g g' -> rates (go_wg g') = rates (go_wg g) /\ go_pol g' = go_pol g /\ go_tun g' = go_tun g /\
    go_log g' = go_log g /\ (forall f, capped g' f <-> capped g f).
Proof. intros (c & d & fl & b1 & b2 & b3 & ->). done. Qed.

Lemma get_next_freq_cases util max cpu time g g' f :
  get_next_freq e util max cpu time g = (g', f) ->
  (exists g1, thermal_isolation e time g = (g1, Some f) /\ steady g1 g') \/
  (exists g1 req w', thermal_isolation e time g = (g1, None) /\ capped g1 req /\
     decide_freq e (go_pol g1) time req (go_wg g1) = (w', f) /\
     steady (on_wg (fun _ => w') g1) g').
Proof.
  unfold get_next_freq. destruct (thermal_isolation e time g) as [g1 [x|]] eqn:E.
  - intros [= <- <-]. left. exists g1. split; [done|apply cleanups_steady].
  - destruct (request_freq e cpu _ g1) as [g2 req] eqn:E2.
    destruct (request_freq_spec _ _ _ _ _ _ E2) as (Ho & want & Hw & Hreq).
    unfold only_cpus in Ho. assert (go_pol g2 = go_pol g1 /\ go_wg g2 = go_wg g1) as [Hp Hg] by by rewrite Ho.
    rewrite Hp, Hg. destruct (decide_freq e (go_pol g1) time req (go_wg g1)) as [w' fin] eqn:E3.
    intros [= <- <-]. right. exists g1, req, w'. split; [done|].
    split; [unfold capped; rewrite Hreq; destruct (ge_in_smart_lrpb e); lia|]. split; [done|].
    etrans; [|apply cleanups_steady]. rewrite Ho.
    exists (go_cpus g2), (driving_cpu w'), (wgp_flags w'), (rtg_boost_flag w'), (hispeed_flag w'), (conservative_pl_flag w').
    by destruct g1, w'.
Qed.

(** The request is already in effect, or it is resolved; its frequency is then in effect
    unless the rate limit of the direction holds it back. *)
Lemma decide_freq_spec pol time req w w' f :
  (cached_raw_freq w <> 0 -> resolve_freq e pol (cached_raw_freq w) = next_freq w) ->
  decide_freq e pol time req w = (w', f) ->
  let final := resolve_freq e pol req in
  (cached_raw_freq w' <> 0 -> resolve_freq e pol (cached_raw_freq w') = next_freq w') /\
  limits_changed w' = limits_changed w /\
  ((next_freq w = final /\ next_freq w' = final /\ f = 0 /\ last_freq_update_time w' = last_freq_update_time w) \/
   (next_freq w <> final /\ waltgov_up_down_rate_limit e time final w = true /\
    next_freq w' = next_freq w /\ f = 0 /\ last_freq_update_time w' = last_freq_update_time w) \/
   (next_freq w <> final /\ waltgov_up_down_rate_limit e time final w = false /\
    next_freq w' = final /\ f = final /\ last_freq_update_time w' = time)) /\
  up_rate_delay_ns w' = up_rate_delay_ns w /\ down_rate_delay_ns w' = down_rate_delay_ns w.
Proof.
  intros Hc. unfold decide_freq. destruct (negb (cached_raw_freq w =? 0) && _ && _) eqn:Hs.
  - intros [= <- <-]. apply andb_true_iff in Hs as [Hs _]. apply andb_true_iff in Hs as [Hs1 Hs2].
    assert (req = cached_raw_freq w) as -> by lia. rewrite Hc by lia.
    cbv zeta. split_and!; try done. left. done.
  - unfold waltgov_update_next_freq. clear Hs. destruct (Z.eqb_spec (next_freq w) (resolve_freq e pol req)) as [Hn|Hn].
    + intros [= <- <-]. cbv zeta. split_and!; try done. left. done.
    + destruct (waltgov_up_down_rate_limit e time (resolve_freq e pol req) w) eqn:Hr; intros [= <- <-]; cbv zeta.
      * split_and!; try done. right. left. done.
      * split_and!; try done. right. right. done.
Qed.

(** ** One call of the governor *)

(** The rest of a callback: refreshing the load, closing the window. *)
Lemma refresh_util_frame cpu flags g :
  rates (go_wg (refresh_util e cpu flags g)) = rates (go_wg g) /\ go_pol (refresh_util e cpu flags g) = go_pol g /\
  go_halt (refresh_util e cpu flags g) = go_halt g /\ go_tun (refresh_util e cpu flags g) = go_tun g.
Proof.
  unfold refresh_util. destruct (ge_frame_boost e); destruct (ls_util _ _ _) as [[[src u] wl] r]; done.
Qed.

Lemma calc_avg_cap_frame ws freq g :
  rates (go_wg (waltgov_calc_avg_cap e ws freq g)) = rates (go_wg g) /\
  go_pol (waltgov_calc_avg_cap e ws freq g) = go_pol g.
Proof.
  unfold waltgov_calc_avg_cap. destruct (ws <? _), (ws <=? _); try done; by destruct (_ <? ws).
Qed.

Lemma next_freq_shared_cases cpu time g g' f :
  waltgov_next_freq_shared e cpu time g = (g', f) ->
  exists g0, steady g g0 /\
  ((exists g1, thermal_isolation e time g0 = (g1, Some f) /\ steady g1 g') \/
   (exists g1 req w', thermal_isolation e time g0 = (g1, None) /\ capped g1 req /\
      decide_freq e (go_pol g1) time req (go_wg g1) = (w', f) /\ steady (on_wg (fun _ => w') g1) g')).
Proof.
  unfold waltgov_next_freq_shared.
  destruct (for_each_cpu _ _ _) as [g0 util] eqn:E. intros Hn. exists g0. split.
  - pose proof (shared_loop_steady e (tun_boost (go_tun g)) (arch_scale_cpu_capacity (ge_cfg e) cpu)
      (pol_cpus (go_pol g)) g 0) as Hs. by rewrite E in Hs.
  - by eapply get_next_freq_cases.
Qed.

Lemma commit_freq_wg time g f :
  rates (go_wg (commit_freq e time (g, f))) = rates (go_wg g) /\
  exists cur, go_pol (commit_freq e time (g, f)) = (go_pol g) <| pol_cur := cur |>.
Proof.
  assert (exists cur, go_pol g = (go_pol g) <| pol_cur := cur |>) as Hsame.
  { exists (pol_cur (go_pol g)). by destruct (go_pol g). }
  unfold commit_freq. destruct (f =? 0); [done|]. destruct (fast_switch_enabled _); [|done].
  unfold waltgov_fast_switch. split.
  - by destruct (_ =? 0).
  - destruct (_ =? 0); [done|]. cbn. by eexists.
Qed.

End Decisions.

(** ** Runs of the governor *)

Section Runs.
Context {L : Type} `{LoadSource L}.
Implicit Types g : gov L.

Inductive gov_op : Type :=
| op_callback (e : gov_env) (cpu time flags : Z)
| op_work (e : gov_env) (now applied : Z)
| op_limits (e : gov_env) (now applied : Z).

Definition gov_step g (op : gov_op) : gov L :=
  match op with
  | op_callback e cpu time flags => waltgov_update_freq e cpu time flags g
  | op_work e now applied => waltgov_work e now applied g
  | op_limits e now applied => waltgov_limits e now applied g
  end.
Definition gov_run (ops : list gov_op) g : gov L := foldl gov_step g ops.

(** [R] is [cpufreq_driver_resolve_freq]: it depends on the limits and the table of the
    policy, and resolves a frequency it has chosen to itself. *)
Record resolves (R : cpufreq_policy -> Z -> Z) : Prop := mk_resolves {
  re_cur : forall pol cur f, R (pol <| pol_cur := cur |>) f = R pol f;
  re_idx : forall pol i f, R (pol <| cached_resolved_idx := i |>) f = R pol f;
  re_idem : forall pol f, R pol (R pol f) = R pol f
}.

Context (R : cpufreq_policy -> Z -> Z) (HR : resolves R).

(** A call with the driver [R]; where CPUs can be isolated thermally, the lowest frequency
    of the table is within the limits. *)
Definition env_ok (pol : cpufreq_policy) (e : gov_env) : Prop :=
  resolve_freq e = R /\
  (ge_thermal_halt_low_freq e = true -> R pol (aget (pol_freq_table pol) 0) = aget (pol_freq_table pol) 0).
Definition op_ok (pol : cpufreq_policy) (op : gov_op) : Prop :=
  match op with op_callback e _ _ _ | op_work e _ _ | op_limits e _ _ => env_ok pol e end.

(** A remembered request resolves to the frequency in effect. *)
Definition coherent g : Prop :=
  cached_raw_freq (go_wg g) <> 0 -> R (go_pol g) (cached_raw_freq (go_wg g)) = next_freq (go_wg g).

(** What [R] reads of a policy. *)
Definition same_limits (pol pol' : cpufreq_policy) : Prop :=
  exists cur i, pol' = pol <| pol_cur := cur |> <| cached_resolved_idx := i |>.

#[global] Instance same_limits_preorder : PreOrder same_limits.
Proof.
  split.
  - intros pol. exists (pol_cur pol), (cached_resolved_idx pol). by destruct pol.
  - intros x y z (c & i & ->) (c' & i' & ->). by exists c', i'.
Qed.

Lemma same_limits_R pol pol' f : same_limits pol pol' -> R pol' f = R pol f.
Proof. intros (c & i & ->). by rewrite (re_idx R HR), (re_cur R HR). Qed.

Lemma same_limits_cur pol cur : same_limits pol (pol <| pol_cur := cur |>).
Proof. exists cur, (cached_resolved_idx pol). by destruct pol. Qed.

Lemma env_ok_limits pol pol' e : same_limits pol pol' -> env_ok pol e -> env_ok pol' e.
Proof.
  intros Hs [H1 H2]. split; [done|]. intros Ht. specialize (H2 Ht). rewrite (same_limits_R pol pol' _ Hs).
  by destruct Hs as (c & i & ->).
Qed.

(** Coherence looks at the two frequencies and the limits only. *)
Lemma coherent_freqs g g' :
  next_freq (go_wg g') = next_freq (go_wg g) -> cached_raw_freq (go_wg g') = cached_raw_freq (go_wg g) ->
  same_limits (go_pol g) (go_pol g') -> coherent g -> coherent g'.
Proof. intros E1 E2 Hs. unfold coherent. by rewrite E1, E2, (same_limits_R _ _ _ Hs). Qed.

Lemma coherent_frame g g' :
  rates (go_wg g') = rates (go_wg g) -> same_limits (go_pol g) (go_pol g') -> coherent g -> coherent g'.
Proof.
  intros Hr Hs. apply rates_inv in Hr as (E1 & E2 & _). by apply coherent_freqs.
Qed.

Lemma thermal_coherent e time g g1 r :
  thermal_isolation e time g = (g1, r) -> env_ok (go_pol g) e -> coherent g ->
  coherent g1 /\ same_limits (go_pol g) (go_pol g1).
Proof.
  unfold thermal_isolation. intros E [_ Hf] Hc. destruct (ge_thermal_halt_low_freq e); cbn [negb] in E; [|by injection E as <- <-].
  specialize (Hf eq_refl).
  destruct (cpus_halted_by_client _ _ _).
  - destruct (thermal_isolated _); cbn [negb] in E; injection E as <- <-; [done|]. split.
    + intros _. exact (eq_trans (re_idx R HR (go_pol g) 0 _) Hf).
    + cbn. exists (pol_cur (go_pol g)), 0. by destruct (go_pol g).
  - destruct (thermal_isolated _); injection E as <- <-; [|done]. split; [exact Hc|done].
Qed.

Lemma shared_coherent e cpu time g g' f :
  waltgov_next_freq_shared e cpu time g = (g', f) -> env_ok (go_pol g) e -> coherent g ->
  coherent g' /\ same_limits (go_pol g) (go_pol g').
Proof.
  intros E He Hc. destruct (next_freq_shared_cases e cpu time g g' f E) as (g0 & Hs & Hcase).
  destruct (steady_inv e _ _ Hs) as (Hr0 & Hp0 & _).
  assert (coherent g0) as Hc0 by (apply (coherent_frame g); [done|by rewrite Hp0|done]).
  rewrite <- Hp0 in He |- *.
  destruct Hcase as [(g1 & Ht & Hs1)|(g1 & req & w' & Ht & _ & Hd & Hs1)].
  - destruct (thermal_coherent _ _ _ _ _ Ht He Hc0) as [Hc1 Hl1].
    destruct (steady_inv e _ _ Hs1) as (Hr1 & Hp1 & _). split.
    + apply (coherent_frame g1); [done|by rewrite Hp1|done].
    + by rewrite Hp1.
  - destruct (thermal_coherent _ _ _ _ _ Ht He Hc0) as [Hc1 Hl1].
    destruct He as [He _]. unfold coherent in Hc1. rewrite <- He in Hc1.
    destruct (decide_freq_spec e _ _ _ _ _ _ Hc1 Hd) as (Hc2 & _). rewrite He in Hc2.
    destruct (steady_inv e _ _ Hs1) as (Hr1 & Hp1 & _). split.
    + apply (coherent_frame (on_wg (fun _ => w') g1)); [done|by rewrite Hp1|exact Hc2].
    + rewrite Hp1. exact Hl1.
Qed.

Lemma commit_coherent e time g f :
  coherent g -> coherent (commit_freq e time (g, f)) /\ same_limits (go_pol g) (go_pol (commit_freq e time (g, f))).
Proof.
  intros Hc. destruct (commit_freq_wg e time g f) as (Hr & cur & Hp).
  assert (same_limits (go_pol g) (go_pol (commit_freq e time (g, f)))) as Hs by (rewrite Hp; apply same_limits_cur).
  split; [|done]. by apply (coherent_frame g).
Qed.

Lemma callback_coherent e cpu time flags g :
  env_ok (go_pol g) e -> coherent g ->
  coherent (waltgov_update_freq e cpu time flags g) /\
  same_limits (go_pol g) (go_pol (waltgov_update_freq e cpu time flags g)).
Proof.
  intros He Hc. unfold waltgov_update_freq. destruct (negb (Z.land flags WALT_CPUFREQ_SMART_FREQ_BIT =? 0)).
  - unfold waltgov_update_smart_freq. destruct (get_cluster_ipc_level_freq _ _ _ _ _) as [[k s] fr].
    set (g1 := _ <| go_halt := _ |>). assert (coherent g1 /\ go_pol g1 = go_pol g) as [Hc1 Hp1].
    { split; [|done]. by apply (coherent_frame g). }
    destruct (waltgov_next_freq_shared e cpu time g1) as [g2 f] eqn:E. rewrite <- Hp1 in He.
    destruct (shared_coherent _ _ _ _ _ _ E He Hc1) as [Hc2 Hs2]. rewrite Hp1 in Hs2.
    destruct (commit_coherent e time g2 f Hc2) as [Hc3 Hs3]. split; [done|by etrans].
  - destruct (_ && _); [by split|].
    destruct (refresh_util_frame e cpu flags g) as (Hr1 & Hp1 & _). set (g1 := refresh_util e cpu flags g) in *.
    destruct (calc_avg_cap_frame e (wl_ws (wc_load (wgcpu g1 cpu))) (pol_cur (go_pol g1)) g1) as [Hr2 Hp2].
    set (g2 := waltgov_calc_avg_cap e _ _ g1) in *.
    assert (coherent g2) as Hc2 by (apply (coherent_frame g); [by rewrite Hr2, Hr1|by rewrite Hp2, Hp1|done]).
    destruct (waltgov_should_update_freq e time g2) as [g3 sh] eqn:E3.
    assert (coherent g3 /\ go_pol g3 = go_pol g) as [Hc3 Hp3].
    { rewrite <- Hp1, <- Hp2. unfold waltgov_should_update_freq in E3.
      destruct (limits_changed _); [injection E3 as <- _; done|].
      destruct (fbg_urgent _ _); injection E3 as <- _; done. }
    destruct (sh && _); [|split; [done|by rewrite Hp3]].
    destruct (waltgov_next_freq_shared e cpu time g3) as [g4 f] eqn:E. rewrite <- Hp3 in He.
    destruct (shared_coherent _ _ _ _ _ _ E He Hc3) as [Hc4 Hs4]. rewrite Hp3 in Hs4.
    destruct (commit_coherent e time g4 f Hc4) as [Hc5 Hs5]. split; [done|by etrans].
Qed.

Lemma limits_coherent e now applied g :
  env_ok (go_pol g) e -> coherent g ->
  coherent (waltgov_limits e now applied g) /\ same_limits (go_pol g) (go_pol (waltgov_limits e now applied g)).
Proof.
  intros [He _] Hc. unfold waltgov_limits. destruct (fast_switch_enabled (go_pol g)); cbn [negb].
  - destruct (thermal_isolated (go_wg g)); cbn [negb]; [by split|].
    destruct (next_freq (go_wg g) =? _); cbn [negb]; [by split|]. rewrite He. unfold waltgov_fast_switch.
    destruct (_ =? 0).
    + split; [|done]. intros _. apply (re_idem R HR).
    + split; [|apply same_limits_cur]. intros _.
      refine (eq_trans (re_cur R HR (go_pol g) _ _) _). apply (re_idem R HR).
  - split; [|apply same_limits_cur]. apply (coherent_freqs g); [done|done|apply same_limits_cur|done].
Qed.

Lemma step_coherent g op :
  op_ok (go_pol g) op -> coherent g -> coherent (gov_step g op) /\ same_limits (go_pol g) (go_pol (gov_step g op)).
Proof.
  destruct op as [e cpu time flags|e now applied|e now applied]; intros Ho Hc; cbn [gov_step].
  - by apply callback_coherent.
  - split; [|apply same_limits_cur]. apply (coherent_frame g); [done|apply same_limits_cur|done].
  - by apply limits_coherent.
Qed.

Lemma run_coherent ops g :
  Forall (op_ok (go_pol g)) ops -> coherent g ->
  coherent (gov_run ops g) /\ same_limits (go_pol g) (go_pol (gov_run ops g)).
Proof.
  revert g. induction ops as [|op ops IH]; intros g Ho Hc; [by split|].
  apply Forall_cons in Ho as [Ho Hos]. destruct (step_coherent g op Ho Hc) as [Hc1 Hs1].
  cbn [gov_run foldl]. fold (gov_run ops (gov_step g op)).
  destruct (IH (gov_step g op)) as [Hc2 Hs2]; [|done|split; [done|by etrans]].
  eapply Forall_impl; [exact Hos|]. intros x Hx. destruct x; by eapply env_ok_limits.
Qed.

End Runs.

Section Callback.
Context {L : Type} `{LoadSource L} (e : gov_env).
Implicit Types g : gov L.

Lemma capped_frame g g' f :
  go_halt g' = go_halt g -> ipc_smart_freq (go_wg g') = ipc_smart_freq (go_wg g) -> capped e g' f <-> capped e g f.
Proof. intros E1 E2. unfold capped, cap, smart_limit. unfold cap. by rewrite E1, E2. Qed.

Lemma calc_avg_cap_caps ws freq g :
  go_halt (waltgov_calc_avg_cap e ws freq g) = go_halt g /\ go_tun (waltgov_calc_avg_cap e ws freq g) = go_tun g /\
  ipc_smart_freq (go_wg (waltgov_calc_avg_cap e ws freq g)) = ipc_smart_freq (go_wg g).
Proof.
  unfold waltgov_calc_avg_cap. destruct (ws <? _), (ws <=? _); try done; by destruct (_ <? ws).
Qed.

Lemma refresh_util_ipc cpu flags g :
  ipc_smart_freq (go_wg (refresh_util e cpu flags g)) = ipc_smart_freq (go_wg g).
Proof.
  unfold refresh_util. destruct (ge_frame_boost e); destruct (ls_util _ _ _) as [[[src u] wl] r]; done.
Qed.

(** The call passes the first rate limit and is allowed to change the frequency. *)
Record considered (flags time : Z) g : Prop := mk_considered {
  co_legacy : Z.land flags WALT_CPUFREQ_SMART_FREQ_BIT = 0;
  co_pl : tun_pl (go_tun g) = true \/ Z.land flags WALT_CPUFREQ_PL_BIT = 0;
  co_continue : Z.land flags WALT_CPUFREQ_CONTINUE_BIT = 0;
  co_rate : limits_changed (go_wg g) = true \/
            min_rate_limit_ns (go_wg g) <= s64 (time - last_freq_update_time (go_wg g))
}.

(** Such a call comes down to a decision on a state with the same frequencies. *)
Lemma callback_decides cpu time flags g :
  ge_frame_boost e = false -> considered flags time g ->
  exists g3, waltgov_update_freq e cpu time flags g = commit_freq e time (waltgov_next_freq_shared e cpu time g3) /\
    next_freq (go_wg g3) = next_freq (go_wg g) /\ cached_raw_freq (go_wg g3) = cached_raw_freq (go_wg g) /\
    last_freq_update_time (go_wg g3) = last_freq_update_time (go_wg g) /\
    up_rate_delay_ns (go_wg g3) = up_rate_delay_ns (go_wg g) /\
    down_rate_delay_ns (go_wg g3) = down_rate_delay_ns (go_wg g) /\
    go_pol g3 = go_pol g /\ (forall f, capped e g3 f <-> capped e g f).
Proof.
  intros Hfb [H1 H2 H3 H4]. unfold waltgov_update_freq. rewrite H1. cbn [negb].
  replace (negb (tun_pl (go_tun g)) && negb (Z.land flags WALT_CPUFREQ_PL_BIT =? 0)) with false
    by (destruct H2 as [->| ->]; [done|by rewrite andb_false_r]).
  change (negb (0 =? 0)) with false. cbn iota.
  destruct (refresh_util_frame e cpu flags g) as (Hr1 & Hp1 & Hh1 & _).
  pose proof (refresh_util_ipc cpu flags g) as Hi1. set (g1 := refresh_util e cpu flags g) in *.
  set (ws := wl_ws _). destruct (calc_avg_cap_frame e ws (pol_cur (go_pol g1)) g1) as [Hr2 Hp2].
  destruct (calc_avg_cap_caps ws (pol_cur (go_pol g1)) g1) as (Hh2 & _ & Hi2).
  set (g2 := waltgov_calc_avg_cap e ws _ g1) in *.
  rewrite Hr1 in Hr2. apply rates_inv in Hr2 as (E1 & E2 & E3 & E4 & E5 & E6 & E7 & E8).
  unfold waltgov_should_update_freq. unfold fbg_urgent. rewrite Hfb. cbn [andb]. rewrite E3, E4, E8.
  destruct (limits_changed (go_wg g)) eqn:El.
  - rewrite H3. cbn [andb]. change (0 =? 0) with true. cbn iota. eexists. split; [reflexivity|].
    split_and!; [exact E1|exact E2|exact E3|exact E6|exact E7|exact (eq_trans Hp2 Hp1)|].
    intros f. apply capped_frame; [exact (eq_trans Hh2 Hh1)|exact (eq_trans Hi2 Hi1)].
  - destruct H4 as [H4|H4]; [done|]. rewrite (proj2 (Z.leb_le _ _) H4), H3. cbn [andb]. change (0 =? 0) with true.
    cbn iota. exists g2. split; [reflexivity|]. split_and!; [exact E1|exact E2|exact E3|exact E6|exact E7|exact (eq_trans Hp2 Hp1)|].
    intros f. apply capped_frame; [exact (eq_trans Hh2 Hh1)|exact (eq_trans Hi2 Hi1)].
Qed.

(** A frequency that is handed on ends up at the driver or at the worker. *)
Lemma commit_freq_log time g f :
  f <> 0 -> exists pre, go_log (commit_freq e time (g, f)) =
    pre ++ [if fast_switch_enabled (go_pol g) then cpufreq_driver_fast_switch f else walt_irq_work_queue].
Proof.
  intros Hf. unfold commit_freq. rewrite (proj2 (Z.eqb_neq f 0) Hf).
  destruct (fast_switch_enabled _); [|by eexists].
  unfold waltgov_fast_switch. destruct (_ =? 0); by eexists.
Qed.

(** Without thermal isolation the shared path is one decision. *)
Lemma shared_decides cpu time g g' f :
  ge_thermal_halt_low_freq e = false -> waltgov_next_freq_shared e cpu time g = (g', f) ->
  exists req w0 w', capped e g req /\ rates w0 = rates (go_wg g) /\
    decide_freq e (go_pol g) time req w0 = (w', f) /\ rates (go_wg g') = rates w' /\ go_pol g' = go_pol g.
Proof.
  intros Ht E. destruct (next_freq_shared_cases e cpu time g g' f E) as (g0 & Hs & Hcase).
  destruct (steady_inv e _ _ Hs) as (Hr0 & Hp0 & _ & _ & Hc0).
  assert (forall t (x : gov L), thermal_isolation e t x = (x, None)) as Hth by (intros t x; unfold thermal_isolation; by rewrite Ht).
  destruct Hcase as [(g1 & Hx & _)|(g1 & req & w' & Hx & Hcap & Hd & Hs1)]; rewrite Hth in Hx; [done|].
  injection Hx as <-. destruct (steady_inv e _ _ Hs1) as (Hr1 & Hp1 & _). rewrite Hp0 in Hd.
  exists req, (go_wg g0), w'. split_and!; try done; [by apply Hc0|by rewrite Hp1].
Qed.

Lemma rate_limit_rates time f w w' :
  ge_frame_boost e = false -> rates w = rates w' ->
  waltgov_up_down_rate_limit e time f w = waltgov_up_down_rate_limit e time f w'.
Proof.
  intros Hfb Hr. apply rates_inv in Hr as (E1 & _ & E3 & _ & _ & E6 & E7 & _).
  unfold waltgov_up_down_rate_limit, fbg_urgent. by rewrite Hfb, E1, E3, E6, E7.
Qed.

Lemma rate_limit_iff time f w :
  ge_frame_boost e = false ->
  waltgov_up_down_rate_limit e time f w = true <->
  (next_freq w < f /\ s64 (time - last_freq_update_time w) < up_rate_delay_ns w) \/
  (f < next_freq w /\ s64 (time - last_freq_update_time w) < down_rate_delay_ns w).
Proof.
  intros Hfb. unfold waltgov_up_down_rate_limit, fbg_urgent. rewrite Hfb. cbn [andb].
  destruct (Z.ltb_spec (next_freq w) f), (Z.ltb_spec (s64 (time - last_freq_update_time w)) (up_rate_delay_ns w)),
    (Z.ltb_spec f (next_freq w)), (Z.ltb_spec (s64 (time - last_freq_update_time w)) (down_rate_delay_ns w));
    cbn [andb]; split; intros; try done; try lia.
Qed.

End Callback.


(** ** Rate limits over a run *)

Section Rates.
Context {L : Type} `{LoadSource L}.
Implicit Types g : gov L.

(** The frequency stays, or it changes at [time] outside the rate limit. *)
Definition rate_step (e : gov_env) (time : Z) (w w' : waltgov_policy) : Prop :=
  ((next_freq w' = next_freq w /\ last_freq_update_time w' = last_freq_update_time w) \/
   (next_freq w' <> next_freq w /\ last_freq_update_time w' = time /\
    waltgov_up_down_rate_limit e time (next_freq w') w = false)) /\
  up_rate_delay_ns w' = up_rate_delay_ns w /\ down_rate_delay_ns w' = down_rate_delay_ns w.

Lemma decide_rate e pol time req w w' f : decide_freq e pol time req w = (w', f) -> rate_step e time w w'.
Proof.
  unfold decide_freq, rate_step. destruct (_ && _ && _); [intros [= <- <-]; split_and!; try done; by left|].
  unfold waltgov_update_next_freq. destruct (Z.eqb_spec (next_freq w) (resolve_freq e pol req)) as [Hn|Hn];
    [intros [= <- <-]; split_and!; try done; by left|].
  destruct (waltgov_up_down_rate_limit _ _ _ _) eqn:Hr; intros [= <- <-].
  - split_and!; [by left|done|done].
  - split_and!; [right|done|done]. split_and!; [cbn; congruence|done|exact Hr].
Qed.

(** The relation looks at the rates alone. *)
Lemma rate_step_rates e time w1 w2 w1' w2' :
  ge_frame_boost e = false -> rates w1 = rates w2 -> rates w1' = rates w2' ->
  rate_step e time w1 w1' -> rate_step e time w2 w2'.
Proof.
  intros Hfb Hr Hr' (Hc & H1 & H2). unfold rate_step.
  rewrite (rate_limit_rates e time (next_freq w1') w1 w2 Hfb Hr) in Hc.
  apply rates_inv in Hr as (E1 & _ & E3 & _ & _ & E6 & E7 & _).
  apply rates_inv in Hr' as (F1 & _ & F3 & _ & _ & F6 & F7 & _).
  rewrite <- F1, <- F3, <- F6, <- F7, <- E1, <- E3, <- E6, <- E7. by split_and!.
Qed.

Lemma rate_step_refl e time w w' :
  next_freq w' = next_freq w -> last_freq_update_time w' = last_freq_update_time w ->
  up_rate_delay_ns w' = up_rate_delay_ns w -> down_rate_delay_ns w' = down_rate_delay_ns w -> rate_step e time w w'.
Proof. intros. split_and!; try done. by left. Qed.

Lemma shared_rate e cpu time g :
  ge_frame_boost e = false -> ge_thermal_halt_low_freq e = false ->
  rate_step e time (go_wg g) (go_wg (commit_freq e time (waltgov_next_freq_shared e cpu time g))).
Proof.
  intros Hfb Hth. destruct (waltgov_next_freq_shared e cpu time g) as [g' f] eqn:E.
  destruct (shared_decides e cpu time g g' f Hth E) as (req & w0 & w' & _ & Hr0 & Hd & Hr4 & _).
  destruct (commit_freq_wg e time g' f) as (Hr5 & _). apply decide_rate in Hd.
  apply (rate_step_rates e time w0 _ w'); [done|done| |done]. by rewrite Hr5, Hr4.
Qed.

Lemma callback_rate e cpu time flags g :
  ge_frame_boost e = false -> ge_thermal_halt_low_freq e = false ->
  rate_step e time (go_wg g) (go_wg (waltgov_update_freq e cpu time flags g)).
Proof.
  intros Hfb Hth. unfold waltgov_update_freq. destruct (negb (Z.land flags _ =? 0)).
  - unfold waltgov_update_smart_freq. destruct (get_cluster_ipc_level_freq _ _ _ _ _) as [[k s] fr].
    set (g1 := _ <| go_halt := _ |>). pose proof (shared_rate e cpu time g1 Hfb Hth) as Hs. exact Hs.
  - destruct (_ && _); [by apply rate_step_refl|].
    destruct (refresh_util_frame e cpu flags g) as (Hr1 & _). set (g1 := refresh_util e cpu flags g) in *.
    destruct (calc_avg_cap_frame e (wl_ws (wc_load (wgcpu g1 cpu))) (pol_cur (go_pol g1)) g1) as [Hr2 _].
    set (g2 := waltgov_calc_avg_cap e _ _ g1) in *. rewrite Hr1 in Hr2.
    apply rates_inv in Hr2 as (E1 & _ & E3 & _ & _ & E6 & E7 & _).
    destruct (waltgov_should_update_freq e time g2) as [g3 sh] eqn:E.
    assert (next_freq (go_wg g3) = next_freq (go_wg g) /\ last_freq_update_time (go_wg g3) = last_freq_update_time (go_wg g) /\
      up_rate_delay_ns (go_wg g3) = up_rate_delay_ns (go_wg g) /\ down_rate_delay_ns (go_wg g3) = down_rate_delay_ns (go_wg g))
      as (G1 & G3 & G6 & G7).
    { unfold waltgov_should_update_freq in E. destruct (limits_changed _); [injection E as <- _; done|].
      destruct (fbg_urgent _ _); injection E as <- _; done. }
    destruct (sh && _); [|by apply rate_step_refl].
    destruct (shared_rate e cpu time g3 Hfb Hth) as (Hc & H1 & H2).
    unfold rate_step. rewrite <- G1, <- G3, <- G6, <- G7. split_and!; try done.
    destruct Hc as [Hc|(C1 & C2 & C3)]; [by left|right; split_and!; try done].
    unfold waltgov_up_down_rate_limit, fbg_urgent in C3 |- *. rewrite Hfb in C3 |- *.
    by rewrite G1, G3, G6, G7 in C3.
Qed.

(** Calls without notification of new limits, with clocks in range. *)
Definition limited_op (op : gov_op) : Prop :=
  match op with
  | op_callback e _ time _ => ge_frame_boost e = false /\ ge_thermal_halt_low_freq e = false /\ 0 <= time < 2 ^ 62
  | op_work _ _ _ => True
  | op_limits _ _ _ => False
  end.

(** The frequencies a run sets, with their times. *)
Fixpoint changes (ops : list gov_op) g : list (Z * Z) :=
  match ops with
  | [] => []
  | op :: ops =>
      let g' := gov_step g op in
      (if next_freq (go_wg g') =? next_freq (go_wg g) then []
       else [(last_freq_update_time (go_wg g'), next_freq (go_wg g'))]) ++ changes ops g'
  end.

(** Each frequency lasts for the delay of the change that ends it. *)
Fixpoint spaced (up down t f : Z) (l : list (Z * Z)) : Prop :=
  match l with
  | [] => True
  | (t', f') :: l =>
      (f < f' -> up <= t' - t) /\ (f' < f -> down <= t' - t) /\ f <> f' /\ spaced up down t' f' l
  end.


End Rates.

(** ** The average frequency of a window

    [F] is the frequency in effect as a function of time. *)

Section Cycles.
Context {L : Type} (e : gov_env) (F : Z -> Z) (ws : Z).
Implicit Types (w : waltgov_policy) (g : gov L).

#[local] Abbreviation W := (sched_ravg_window (ge_cfg e)).

(** The clock does not run backwards, and the frequency that is accounted is the one in
    effect since the last account. *)
Definition sampled_freq (f upto : Z) w : Prop :=
  last_cyc_update_time w <= upto < 2 ^ 63 /\
  forall x, last_cyc_update_time w <= x < Z.min upto (ws + W) -> F x = f.

Fixpoint accounted (evs : list (Z * Z)) w : Prop :=
  match evs with
  | [] => True
  | (f, upto) :: evs => sampled_freq f upto w /\ accounted evs (waltgov_track_cycles e f upto w)
  end.
Definition track_all (evs : list (Z * Z)) w : waltgov_policy :=
  foldl (fun w '(f, upto) => waltgov_track_cycles e f upto w) w evs.

Context (fmax : Z).
Context (Hw : 0 <= ws /\ ws + W < 2 ^ 63) (HW : 1000000 <= W <= 32000000) (Hmul : W mod 1000000 = 0).
Context (HF : forall x, ws <= x < ws + W -> 0 <= F x <= fmax) (Hfmax : 0 <= fmax < 2 ^ 26).

(** After [n] accounts at most [n] times a million cycles are lost to rounding. *)
Record tracking (n : Z) w : Prop := mk_tracking {
  tk_ws : last_ws w = ws;
  tk_time : ws <= last_cyc_update_time w <= ws + W;
  tk_area : curr_cycles w * 1000000 <= area F ws (last_cyc_update_time w) <= (curr_cycles w + n) * 1000000;
  tk_pos : 0 <= curr_cycles w
}.

Lemma area_window t : ws <= t <= ws + W -> 0 <= area F ws t <= fmax * (t - ws).
Proof.
  intros Ht. pose proof (area_bounds F ws t 0 fmax) as Hb. destruct Hb; [lia|intros x Hx; apply HF; lia|]. lia.
Qed.

Lemma track_step n f upto w :
  tracking n w -> sampled_freq f upto w ->
  tracking (n + 1) (waltgov_track_cycles e f upto w) /\
  last_cyc_update_time (waltgov_track_cycles e f upto w) = Z.min upto (ws + W).
Proof.
  intros [H1 H2 H3 H4] [Hu Hf].
  assert (u64 (last_ws w + W) = ws + W) as En by (rewrite H1; apply u64_small; lia).
  set (t := last_cyc_update_time w) in *. set (u := Z.min upto (ws + W)) in *.
  assert (u64 (u - t) = u - t) as Ed by (apply u64_small; lia).
  assert (area F t u = f * (u - t)) as Ea by (apply area_const; [lia|done]).
  assert (area F ws u = area F ws t + f * (u - t)) as Es by (rewrite (area_app F ws t u), Ea by lia; lia).
  pose proof (area_window t ltac:(lia)) as Ht. pose proof (area_window u ltac:(lia)) as Hu'.
  assert (0 <= f * (u - t)) as Hfp.
  { rewrite <- Ea. pose proof (area_bounds F t u 0 fmax) as Hb. destruct Hb; [lia|intros x Hx; apply HF; lia|]. lia. }
  assert (fmax * (u - ws) < 2 ^ 26 * 2 ^ 31) as Hmax by nia.
  assert (u64 ((u - t) * f) = f * (u - t)) as Ep by (rewrite u64_small; lia).
  set (c := f * (u - t) / 1000000). pose proof (Z.mul_div_le (f * (u - t)) 1000000).
  pose proof (Z.mul_succ_div_gt (f * (u - t)) 1000000). assert (0 <= c) by (apply Z.div_pos; lia).
  assert (curr_cycles (waltgov_track_cycles e f upto w) = curr_cycles w + c) as Ec.
  { unfold waltgov_track_cycles. rewrite En. fold u. fold t. rewrite Ed, Ep. cbn.
    change (NSEC_PER_SEC / KHZ) with 1000000. fold c. apply u64_small. lia. }
  assert (last_cyc_update_time (waltgov_track_cycles e f upto w) = u) as Et.
  { unfold waltgov_track_cycles. rewrite En. reflexivity. }
  split; [|exact Et]. split; rewrite ?Ec, ?Et; [exact H1|lia| |lia]. rewrite Es. lia.
Qed.

Lemma track_all_step n evs w :
  tracking n w -> accounted evs w -> tracking (n + Z.of_nat (length evs)) (track_all evs w).
Proof.
  revert n w. induction evs as [|[f u] evs IH]; intros n w Hn Ha.
  - cbn [length track_all foldl]. by rewrite Z.add_0_r.
  - destruct Ha as [Hs Ha]. cbn [track_all foldl]. fold (track_all evs (waltgov_track_cycles e f u w)).
    destruct (track_step n f u w Hn Hs) as [Hn' _].
    replace (n + Z.of_nat (length ((f, u) :: evs))) with (n + 1 + Z.of_nat (length evs)) by (cbn [length]; lia).
    by apply IH.
Qed.

Lemma mult_frac_le x n d : 0 <= x -> 0 <= n <= d -> 0 < d -> 0 <= mult_frac x n d <= x.
Proof.
  intros Hx Hn Hd. unfold mult_frac. pose proof (Z.div_mod x d ltac:(lia)). pose proof (Z.mod_pos_bound x d ltac:(lia)).
  assert (0 <= x / d) by (apply Z.div_pos; lia).
  assert (0 <= x mod d * n / d <= x mod d).
  { split; [apply Z.div_pos; nia|]. apply Z.div_le_upper_bound; [lia|]. nia. }
  nia.
Qed.

(** The average capacity of a window is that of the mean frequency. Let the frequency
    changes and the other accounts of a window be tracked in the order of their clocks.
    Then closing the window sets [avg_cap] from a frequency [A] that is at most the mean
    frequency of the window and below it by less than 1 kHz and what rounding loses (a
    thousand cycles an account); [avg_cap] is at most the capacity of the CPU; and the next
    window starts to be tracked with nothing carried over. *)
Theorem window_average evs f g :
  tracking 0 (go_wg g) -> accounted evs (go_wg g) ->
  sampled_freq f (ws + W) (track_all evs (go_wg g)) ->
  0 < fmax <= cpuinfo_max_freq (go_pol g) ->
  0 <= arch_scale_cpu_capacity (ge_cfg e) (pol_cpu (go_pol g)) < 2 ^ 32 ->
  let g' := waltgov_calc_avg_cap e (ws + W) f (on_wg (track_all evs) g) in
  exists A, avg_cap (go_wg g') = freq_to_util e (go_pol g) A /\ 0 <= A <= fmax /\
    A * W <= area F ws (ws + W) < (A + 1) * W + (Z.of_nat (length evs) + 1) * 1000000 /\
    0 <= avg_cap (go_wg g') <= arch_scale_cpu_capacity (ge_cfg e) (pol_cpu (go_pol g)) /\
    curr_cycles (go_wg g') = 0 /\ last_ws (go_wg g') = ws + W /\ last_cyc_update_time (go_wg g') = ws + W.
Proof.
  intros H0 Ha Hs Hm Hc g'.
  pose proof (track_all_step 0 evs (go_wg g) H0 Ha) as Ht. rewrite Z.add_0_l in Ht.
  destruct (track_step _ f (ws + W) _ Ht Hs) as [[T1 T2 T3 T4] T5]. rewrite Z.min_id in T5. rewrite T5 in T3.
  set (w := track_all evs (go_wg g)) in *. set (wf := waltgov_track_cycles e f (ws + W) w) in *.
  set (q := W / 1000000). assert (W = q * 1000000) as Eq.
  { pose proof (Z.div_mod W 1000000 ltac:(lia)). unfold q. lia. }
  assert (1 <= q) as Hq by lia. pose proof (area_window (ws + W) ltac:(lia)) as Haw.
  assert (curr_cycles wf <= fmax * q) as Hcy0 by nia.
  assert (curr_cycles wf < 2 ^ 32) as Hcy by nia.
  set (A := curr_cycles wf / q).
  assert (go_wg g' = wf <| avg_cap := freq_to_util e (go_pol g) A |> <| curr_cycles := 0 |> <| last_ws := ws + W |>) as Eg.
  { unfold g', waltgov_calc_avg_cap. change (go_wg (on_wg (track_all evs) g)) with w.
    destruct Ht as [Hws _ _ _]. rewrite Hws.
    rewrite (proj2 (Z.ltb_ge (ws + W) ws)), (proj2 (Z.leb_gt (ws + W) ws)) by lia.
    rewrite (u64_small (ws + W)) by lia. rewrite Z.ltb_irrefl.
    change (NSEC_PER_SEC / KHZ) with 1000000. fold wf. fold q. rewrite (u32_small (curr_cycles wf)) by lia. reflexivity. }
  pose proof (Z.mul_div_le (curr_cycles wf) q ltac:(lia)). pose proof (Z.mul_succ_div_gt (curr_cycles wf) q ltac:(lia)).
  assert (0 <= A) by (apply Z.div_pos; lia). fold A in H, H1.
  exists A. rewrite Eg. cbn [avg_cap curr_cycles last_ws last_cyc_update_time set].
  assert (A <= fmax) as HA by (clear - Hcy0 H Hq; nia).
  assert (A * W = q * A * 1000000) as EA by (rewrite Eq; ring).
  assert ((A + 1) * W = q * Z.succ A * 1000000) as EA1 by (rewrite Eq; ring).
  assert (freq_to_util e (go_pol g) A <= arch_scale_cpu_capacity (ge_cfg e) (pol_cpu (go_pol g))) as Hu.
  { pose proof (mult_frac_le (arch_scale_cpu_capacity (ge_cfg e) (pol_cpu (go_pol g))) A (cpuinfo_max_freq (go_pol g))
      ltac:(lia) ltac:(lia) ltac:(lia)). unfold freq_to_util. rewrite u64_small; lia. }
  split; [reflexivity|]. split; [lia|]. split; [rewrite EA, EA1; lia|].
  split; [split; [apply u64_range|exact Hu]|]. split; [reflexivity|]. split; [reflexivity|exact T5].
Qed.

End Cycles.

(** ** Concrete policies *)

(** A source that reports its state as the utilisation of every CPU. *)
Definition demo_report (cpu reasons util : Z) : Z * Z * walt_cpu_load * Z := (util, util, no_load, reasons).
Lemma demo_report_bound cpu reasons util : (demo_report cpu reasons util).1.1.2 <= util.
Proof. cbn. lia. Qed.
#[local] Instance demo_source : LoadSource Z :=
  {| ls_util := demo_report; ls_capacity _ util := util; ls_bound := demo_report_bound |}.

Definition clamp_resolve (pol : cpufreq_policy) (f : Z) : Z := Z.min (Z.max f (pol_min pol)) (pol_max pol).
Definition table_resolve (pol : cpufreq_policy) (f : Z) : Z :=
  default (pol_max pol) (find (fun t => clamp_resolve pol f <=? t) (pol_freq_table pol)).

Definition demo_genv (R : cpufreq_policy -> Z -> Z) : gov_env :=
  mk_goenv sample_cfg (mk_henv 0 0 0 (mk_fenv false (fun _ => 1024) (fun _ => 0) (fun _ => 0) false))
    R R 0 false false [2000000] false (fun _ => (0, 0)) (fun _ => (0, 1024)) false 0 false 0 0 (fun _ => false)
    (fun _ => None) (fun _ _ u => u) false (fun _ u _ => u).
Definition demo_caps : fsys := mk_fsys true [] (replicate 3 [2147483647]) [] [].
Definition demo_tun : waltgov_tunables := mk_tun 0 0 90 0 0 0 0 0 0 0 0 0 false 0 [].
Definition demo_wg : waltgov_policy :=
  mk_wgp 0 0 0 0 0 [] 0 0 0 0 0 0 0 0 false false false 0 false false false.
Definition demo_pol (max : Z) : cpufreq_policy :=
  mk_pol 4 16 16 1000000 max 1000000 3000000 true [1000000; 1500000; 2000000; 3000000] 0.
Definition demo_gov (max util : Z) : gov Z :=
  mk_gov demo_wg (demo_pol max) demo_tun (replicate 8 no_wgc) (mk_halt 0 0 [] [] 0 [] demo_caps) (mk_ipc [] [] []) util [].

Lemma clamp_resolves : resolves clamp_resolve.
Proof. split; intros; unfold clamp_resolve; cbn; lia. Qed.



(** A window of 16 ms: 1 GHz for its first quarter, 2 GHz from then on. *)
Definition demo_F (x : Z) : Z := if x <? 4000000 then 1000000 else 2000000.
Lemma window_average_witness :
  let e := demo_genv clamp_resolve in
  let g := demo_gov 2500000 512 in
  exists A, avg_cap (go_wg (waltgov_calc_avg_cap e 16000000 2000000 (on_wg (track_all e [(1000000, 4000000)]) g)))
      = freq_to_util e (go_pol g) A /\
    A * 16000000 <= area demo_F 0 16000000 < (A + 1) * 16000000 + 2 * 1000000.
Proof.
  intros e g.
  assert (tracking e demo_F 0 0 (go_wg g)) as H1 by (split; try reflexivity; vm_compute; split; discriminate).
  assert (accounted e demo_F 0 [(1000000, 4000000)] (go_wg g)) as H2.
  { cbn [accounted]. split; [|done]. split; [vm_compute; done|].
    change (last_cyc_update_time (go_wg g)) with 0. intros x Hx. unfold demo_F.
    assert (x < 4000000) by lia. by rewrite (proj2 (Z.ltb_lt x 4000000)). }
  assert (last_cyc_update_time (track_all e [(1000000, 4000000)] (go_wg g)) = 4000000) as El by (vm_compute; reflexivity).
  assert (sampled_freq e demo_F 0 2000000 (0 + sched_ravg_window (ge_cfg e)) (track_all e [(1000000, 4000000)] (go_wg g))) as H3.
  { split; rewrite El; [vm_compute; done|]. intros x Hx. unfold demo_F.
    by rewrite (proj2 (Z.ltb_ge x 4000000)) by lia. }
  destruct (window_average e demo_F 0 2000000 ltac:(vm_compute; done) ltac:(vm_compute; done) eq_refl
    ltac:(intros x _; unfold demo_F; case_if; lia) ltac:(vm_compute; done) [(1000000, 4000000)] 2000000 g H1 H2 H3
    ltac:(vm_compute; done) ltac:(vm_compute; done)) as (A & E1 & _ & E2 & _).
  exists A. split; [exact E1|exact E2].
Defined.

(** ** Defects *)

(** When the limits change and the next request happens to resolve to the frequency in
    effect, the request remembered stays the one resolved under the old limits; asked for
    again, it is dropped, although it would now be resolved to a higher frequency. Here the
    limit rises from 1.5 GHz to 3 GHz, and a request for 1.875 GHz stays at 1.5 GHz. *)
Lemma stale_request_after_limits :
  let e := demo_genv table_resolve in
  let call util time (g : gov Z) := waltgov_update_freq e 4 time 0 (g <| go_src := util |>) in
  let g1 := call 512 1000 (demo_gov 1500000 0) in
  let g2 := waltgov_limits e 2000 0 (g1 <| go_pol := (go_pol g1) <| pol_max := 3000000 |> |>) in
  let g3 := call 512 4000 (call 400 3000 g2) in
  next_freq (go_wg g3) = 1500000 /\ need_freq_update (go_wg g3) = false /\ limits_changed (go_wg g3) = false /\
  (request_freq e 4 1875000 g3).2 = 1875000 /\ table_resolve (go_pol g3) 1875000 = 2000000.
Proof. vm_compute. done. Qed.

(** The clock is read before the lock is taken: an account with a clock behind that of
    the account before adds some 2^64 / 1000000 cycles instead of none. *)
Lemma cycles_after_clock_race :
  let e := demo_genv clamp_resolve in
  let w := waltgov_track_cycles e 1000000 5000 demo_wg in
  curr_cycles (waltgov_track_cycles e 1000000 4999 w) = 18446744078708.
Proof. vm_compute. done. Qed.

(** The adaptive levels are compared with the frequency before the floor for the
    trailblazer state, and replace it: a floor of 2 GHz is lost to a level of 1 GHz. *)
Lemma adaptive_level_undercuts_floor :
  let e := demo_genv clamp_resolve in
  let g := demo_gov 2500000 0 in
  let g := g <| go_tun := demo_tun <| adaptive_level_1 := 1000000 |> <| adaptive_low_freq := 1000000 |>
                                   <| adaptive_high_freq := 1000000 |> |> in
  let g := on_cpu 4 (fun c => c <| wc_load := mk_load 0 0 0 0 false false true |>) g in
  (request_freq e 4 500000 g).2 = 1000000 /\
  (request_freq e 4 500000 (g <| go_tun := demo_tun |>)).2 = 2000000.
Proof. vm_compute. done. Qed.

(** Levels set by the kernel alone are reported as active and have no effect: the test
    whether to apply them looks at the level of user space only. *)
Lemma kernel_levels_need_user_level :
  let e := demo_genv clamp_resolve in
  let t := demo_tun <| adaptive_level_1_kernel := 2000000 |> <| adaptive_low_freq_kernel := 2000000 |>
                    <| adaptive_high_freq_kernel := 2000000 |> in
  get_adaptive_high_freq t = 2000000 /\
  (request_freq e 4 500000 ((demo_gov 2500000 0) <| go_tun := t |>)).2 = 500000.
Proof. vm_compute. done. Qed.

End Governing.
