(* ===== verification/GovTunables.v ===== *)
(** * Tunables and life cycle of the governor

    The sysfs files, the kernel interface for adaptive frequencies, and init, exit, start
    and stop of [cpufreq_walt.c]. Every policy has tunables of its own ([waltgov_init]
    allocates them), so the policy list of an attribute set has one entry. *)

From Stdlib Require Import ZArith Lia ZifyBool Bool String Ascii.
From stdpp Require Import base list.
From S2P Require Import Prelude WaltTypes Cpumask SmartFreq Halt FreqLoad Governor.
Import Governing.

Module Tunables.

Definition EBUSY : Z := 16.
Definition EFAULT : Z := 14.
Definition DEFAULT_HISPEED_LOAD : Z := 90.
Definition DEFAULT_SILVER_RTG_BOOST_FREQ : Z := 1000000.
Definition DEFAULT_GOLD_RTG_BOOST_FREQ : Z := 768000.
Definition DEFAULT_PRIME_RTG_BOOST_FREQ : Z := 0.
Definition STR_SIZE : Z := 1024.

Section Stores.
Context {L : Type} (e : gov_env).
Implicit Types g : gov L.

Definition on_tun (f : waltgov_tunables -> waltgov_tunables) g : gov L := g <| go_tun := f (go_tun g) |>.

(** ** Stores

    [val] is what [kstrtouint] and the like make of the buffer, [count] its size; the
    result is the state with the return value. *)

Definition update_min_rate_limit_ns (w : waltgov_policy) : waltgov_policy :=
  w <| min_rate_limit_ns := Z.min (up_rate_delay_ns w) (down_rate_delay_ns w) |>.

Definition up_rate_limit_us_store (val : option Z) (count : Z) g : gov L * Z :=
  match val with
  | None => (g, - EINVAL)
  | Some us =>
      (on_wg (fun w => update_min_rate_limit_ns (w <| up_rate_delay_ns := us * NSEC_PER_USEC |>))
         (on_tun (fun t => t <| up_rate_limit_us := us |>) g), count)
  end.

Definition down_rate_limit_us_store (val : option Z) (count : Z) g : gov L * Z :=
  match val with
  | None => (g, - EINVAL)
  | Some us =>
      (on_wg (fun w => update_min_rate_limit_ns (w <| down_rate_delay_ns := us * NSEC_PER_USEC |>))
         (on_tun (fun t => t <| down_rate_limit_us := us |>) g), count)
  end.

Definition hispeed_load_store (val : option Z) (count : Z) g : gov L * Z :=
  match val with
  | None => (g, - EINVAL)
  | Some v => (on_tun (fun t => t <| hispeed_load := Z.min 100 v |>) g, count)
  end.

Definition hispeed_freq_store (val : option Z) (count : Z) g : gov L * Z :=
  match val with
  | None => (g, - EINVAL)
  | Some v => (on_tun (fun t => t <| hispeed_freq := v |>) g, count)
  end.

Definition hispeed_cond_freq_store (val : option Z) (count : Z) g : gov L * Z :=
  match val with
  | None => (g, - EINVAL)
  | Some v =>
      (on_wg (fun w => w <| hispeed_cond_util := freq_to_util e (go_pol g) v |>)
         (on_tun (fun t => t <| hispeed_cond_freq := v |>) g), count)
  end.

Definition rtg_boost_freq_store (val : option Z) (count : Z) g : gov L * Z :=
  match val with
  | None => (g, - EINVAL)
  | Some v => (on_tun (fun t => t <| rtg_boost_freq := v |>) g, count)
  end.

Definition pl_store (val : option bool) (count : Z) g : gov L * Z :=
  match val with
  | None => (g, - EINVAL)
  | Some v => (on_tun (fun t => t <| tun_pl := v |>) g, count)
  end.

(** [callback] is [waltgov_run_callback] with [WALT_CPUFREQ_BOOST_UPDATE_BIT] on the CPU of
    the policy. *)
Definition boost_store (callback : gov L -> gov L) (val : option Z) (count : Z) g : gov L * Z :=
  match val with
  | None => (g, - EINVAL)
  | Some v =>
      if (v <? -100) || (1000 <? v) then (g, - EINVAL)
      else (callback (on_tun (fun t => t <| tun_boost := v |>) g), count)
  end.

Definition store_adaptive_level_1 (val : option Z) (count : Z) g : gov L * Z :=
  match val with
  | None => (g, - EINVAL)
  | Some v => (on_tun (fun t => t <| adaptive_level_1 := v |>) g, count)
  end.
Definition store_adaptive_low_freq (val : option Z) (count : Z) g : gov L * Z :=
  match val with
  | None => (g, - EINVAL)
  | Some v => (on_tun (fun t => t <| adaptive_low_freq := v |>) g, count)
  end.
Definition store_adaptive_high_freq (val : option Z) (count : Z) g : gov L * Z :=
  match val with
  | None => (g, - EINVAL)
  | Some v => (on_tun (fun t => t <| adaptive_high_freq := v |>) g, count)
  end.

(** ** Zones *)

Definition unset_zone : Z * Z := (-1, -1).

(** The zones of the policy from those of the tunables, up to the first unset one; the
    entries behind it stay. *)
Fixpoint inflate_zones (cap fmax : Z) (pct : list (Z * Z)) (zones : list waltgov_zones) : list waltgov_zones :=
  match pct, zones with
  | (bound, load) :: pct, z :: zones =>
      if bound =? -1 then z :: zones
      else mk_zone (s32 (u64 (bound * cap) / fmax)) (s32 (u64 (fmax * 100) / load))
             :: inflate_zones cap fmax pct zones
  | _, zones => zones
  end.

Definition update_util_inflate_factor (t : waltgov_tunables) (pol : cpufreq_policy) (w : waltgov_policy) : waltgov_policy :=
  w <| zone_util := inflate_zones (arch_scale_cpu_capacity (ge_cfg e) (pol_cpu pol)) (cpuinfo_max_freq pol)
                      (zone_util_pct t) (zone_util w) |>.

Definition set_default_zone_util_pct_values g : gov L :=
  on_wg (fun w => w <| zone_util := replicate (Z.to_nat MAX_ZONES) (mk_zone (-1) (-1)) |>)
    (on_tun (fun t => t <| zone_util_pct := replicate (Z.to_nat MAX_ZONES) unset_zone |>) g).

(** [strsep(&ex, " ")] until the string is used up: the fields between the spaces. *)
Fixpoint strsep_fields (s : string) (field : string) : list string :=
  match s with
  | EmptyString => [field]
  | String c s => if Ascii.eqb c " " then field :: strsep_fields s EmptyString
                  else strsep_fields s (field ++ String c EmptyString)
  end.

(** The loop over the fields: at most [MAX_ZONES * ZONE_TUPLE_SIZE] numbers, kept as [int]. *)
Fixpoint parse_fields (kstrtouint : string -> option Z) (fields : list string) (temp : list Z) : option (list Z) :=
  match fields with
  | [] => Some temp
  | f :: fields =>
      if MAX_ZONES * 2 <=? Z.of_nat (List.length temp) then None else
      match kstrtouint f with
      | Some v => parse_fields kstrtouint fields (temp ++ [s32 v])
      | None => None
      end
  end.

(** Consecutive pairs. *)
Fixpoint pairs (l : list Z) : list (Z * Z) :=
  match l with
  | a :: b :: l => (a, b) :: pairs l
  | _ => []
  end.

(** The first entries of an array are overwritten. *)
Definition overwrite {A : Type} (new old : list A) : list A := new ++ drop (List.length new) old.

(** [None]: the buffer does not fit into [str], and the copy runs over the stack. The
    second component is the new [cluster_zones_initialized] of the cluster. *)
Definition zone_max_util_pct_store (kstrtouint : string -> option Z) (buf : string) (count : Z)
    (initialized : bool) g : option (gov L * bool * Z) :=
  if STR_SIZE <? Z.of_nat (String.length buf) + 1 then None else
  match parse_fields kstrtouint (strsep_fields buf EmptyString) [] with
  | None => Some (g, initialized, - EINVAL)
  | Some temp =>
      if negb (Z.of_nat (List.length temp) mod 2 =? 0) then Some (g, initialized, - EINVAL) else
      if negb (forallb (fun z => (1 <=? z.2) && (z.2 <=? 100)) (pairs temp)) then Some (g, initialized, - EINVAL) else
      let g := set_default_zone_util_pct_values g in
      let g := on_tun (fun t => t <| zone_util_pct := overwrite (pairs temp) (zone_util_pct t) |>) g in
      Some (on_wg (update_util_inflate_factor (go_tun g) (go_pol g)) g, true, count)
  end.

(** The numbers [zone_max_util_pct_show] prints. *)
Fixpoint set_zones (l : list (Z * Z)) : list Z :=
  match l with
  | (bound, load) :: l => if bound =? -1 then [] else bound :: load :: set_zones l
  | [] => []
  end.
Definition zone_max_util_pct_show (initialized : bool) g : list Z :=
  if negb initialized then [INT_MAX; TARGET_LOAD] else set_zones (zone_util_pct (go_tun g)).

(** ** Adaptive frequencies of the kernel

    [disabled] is [walt_disabled], [possible] whether the CPU exists. *)

Definition cpufreq_walt_set_adaptive_freq (disabled possible : bool) (level_1 low high : Z) g : gov L * Z :=
  if disabled then (g, - EAGAIN) else
  if negb possible then (g, - EFAULT) else
  let level_1 := if negb (low =? 0) && (level_1 =? 0) then low else level_1 in
  let pol := go_pol g in
  if (pol_min pol <=? level_1) && (high <=? pol_max pol) && (level_1 <=? low) && (low <=? high) then
    (on_tun (fun t => t <| adaptive_level_1_kernel := level_1 |> <| adaptive_low_freq_kernel := low |>
                        <| adaptive_high_freq_kernel := high |>) g, 0)
  else (g, - EINVAL).

(** The three pointers are given or not; the values are those written through them. *)
Definition cpufreq_walt_get_adaptive_freq (disabled possible pointers : bool) g : option (Z * Z * Z) * Z :=
  if disabled then (None, - EAGAIN) else
  if negb possible then (None, - EFAULT) else
  if pointers then
    (Some (get_adaptive_level_1 (go_tun g), get_adaptive_low_freq (go_tun g), get_adaptive_high_freq (go_tun g)), 0)
  else (None, - EINVAL).

Definition cpufreq_walt_reset_adaptive_freq (disabled possible : bool) g : gov L * Z :=
  if disabled then (g, - EAGAIN) else
  if negb possible then (g, - EFAULT) else
  (on_tun (fun t => t <| adaptive_level_1_kernel := 0 |> <| adaptive_low_freq_kernel := 0 |>
                      <| adaptive_high_freq_kernel := 0 |>) g, 0).

End Stores.

(** ** Life cycle *)

(** A cpufreq policy as the governor finds it: [governor_data] with its tunables, the
    tunables cached for the CPUs of the policy, and the CPUs with a callback. *)
Record slot := mk_slot {
  sl_pol : cpufreq_policy;
  governor_data : option (waltgov_policy * waltgov_tunables);
  cached_tunables : option waltgov_tunables;
  sl_cpus : list waltgov_cpu;
  waltgov_cb_data : Z;
  waltgov_disabled : bool
}.

Section LifeCycle.
Context (e : gov_env).

Definition zero_tunables : waltgov_tunables := mk_tun 0 0 0 0 0 0 0 0 0 0 0 0 false 0 [].
Definition zero_policy : waltgov_policy :=
  mk_wgp 0 0 0 0 0 [] 0 0 0 0 0 0 0 0 false false false 0 false false false.

(** The field by field copy of both directions. *)
Definition copy_tunables (from to : waltgov_tunables) : waltgov_tunables :=
  to <| tun_pl := tun_pl from |> <| hispeed_load := hispeed_load from |>
     <| rtg_boost_freq := rtg_boost_freq from |> <| hispeed_freq := hispeed_freq from |>
     <| hispeed_cond_freq := hispeed_cond_freq from |> <| up_rate_limit_us := up_rate_limit_us from |>
     <| down_rate_limit_us := down_rate_limit_us from |> <| tun_boost := tun_boost from |>
     <| adaptive_level_1 := adaptive_level_1 from |> <| adaptive_low_freq := adaptive_low_freq from |>
     <| adaptive_high_freq := adaptive_high_freq from |>
     <| adaptive_level_1_kernel := adaptive_level_1_kernel from |>
     <| adaptive_low_freq_kernel := adaptive_low_freq_kernel from |>
     <| adaptive_high_freq_kernel := adaptive_high_freq_kernel from |>
     <| zone_util_pct := zone_util_pct from |>.

(** [kzalloc] succeeds or not. *)
Definition waltgov_tunables_save (kzalloc : bool) (t : waltgov_tunables) (s : slot) : slot :=
  match cached_tunables s with
  | None => if kzalloc then s <| cached_tunables := Some (copy_tunables t zero_tunables) |> else s
  | Some c => s <| cached_tunables := Some (copy_tunables t c) |>
  end.

Definition waltgov_tunables_restore (pol : cpufreq_policy) (cached : option waltgov_tunables)
    (w : waltgov_policy) (t : waltgov_tunables) : waltgov_policy * waltgov_tunables :=
  match cached with
  | None => (w, t)
  | Some c => let t := copy_tunables c t in (update_util_inflate_factor e t pol w, t)
  end.

(** The defaults of a new policy; [is_min] and [is_max] tell its cluster. *)
Definition default_tunables (is_min is_max : bool) : waltgov_tunables :=
  zero_tunables <| hispeed_load := DEFAULT_HISPEED_LOAD |>
    <| zone_util_pct := replicate (Z.to_nat MAX_ZONES) unset_zone |>
    <| rtg_boost_freq := if is_min then DEFAULT_SILVER_RTG_BOOST_FREQ
                         else if is_max then DEFAULT_PRIME_RTG_BOOST_FREQ else DEFAULT_GOLD_RTG_BOOST_FREQ |>.
Definition default_policy : waltgov_policy :=
  zero_policy <| zone_util := replicate (Z.to_nat MAX_ZONES) (mk_zone (-1) (-1)) |>.

(** What the kernel answers during [waltgov_init]: whether fast switching is on, the two
    allocations, the worker thread and the sysfs object. *)
Record init_answers := mk_init {
  ia_fast_switch : bool;
  ia_policy_alloc : bool;
  ia_kthread : Z;
  ia_tunables_alloc : bool;
  ia_kobject : Z;
  ia_is_min : bool;
  ia_is_max : bool
}.

Definition waltgov_init (a : init_answers) (s : slot) : slot * Z :=
  match governor_data s with
  | Some _ => (s, - EBUSY)
  | None =>
      let enable b := s <| sl_pol := (sl_pol s) <| fast_switch_enabled := b |> |> in
      if negb (ia_policy_alloc a) then (enable false, - ENOMEM) else
      let kthread := if ia_fast_switch a then 0 else ia_kthread a in
      if negb (kthread =? 0) then (enable false, kthread) else
      if negb (ia_tunables_alloc a) then (enable false, - ENOMEM) else
      let pol := (sl_pol s) <| fast_switch_enabled := ia_fast_switch a |> in
      let data := waltgov_tunables_restore pol (cached_tunables s) default_policy
                    (default_tunables (ia_is_min a) (ia_is_max a)) in
      if negb (ia_kobject a =? 0) then (enable false, ia_kobject a) else
      ((enable (ia_fast_switch a)) <| governor_data := Some data |>, 0)
  end.

Definition waltgov_exit (kzalloc : bool) (s : slot) : slot :=
  match governor_data s with
  | None => s
  | Some (_, t) =>
      let s := waltgov_tunables_save kzalloc t (s <| governor_data := None |>) in
      s <| sl_pol := (sl_pol s) <| fast_switch_enabled := false |> |>
  end.

(** The policy as [waltgov_start] leaves it. *)
Definition started (t : waltgov_tunables) (w : waltgov_policy) : waltgov_policy :=
  let w := update_min_rate_limit_ns (w <| up_rate_delay_ns := up_rate_limit_us t * NSEC_PER_USEC |>
                 <| down_rate_delay_ns := down_rate_limit_us t * NSEC_PER_USEC |>) in
  let w := w <| last_freq_update_time := 0 |> <| next_freq := 0 |> <| limits_changed := false |>
             <| need_freq_update := false |> <| cached_raw_freq := 0 |> in
  if ge_frame_boost e then w <| wgp_flags := 0 |> else w.

Definition waltgov_start (s : slot) : slot :=
  match governor_data s with
  | None => s
  | Some (w, t) =>
      let s := s <| governor_data := Some (started t w, t) |> in
      let s := for_each_cpu (pol_cpus (sl_pol s))
                 (fun cpu s => s <| sl_cpus := <[Z.to_nat cpu := no_wgc]> (sl_cpus s) |>) s in
      let s := for_each_cpu (pol_cpus (sl_pol s))
                 (fun cpu s => s <| waltgov_cb_data := Z.setbit (waltgov_cb_data s) cpu |>) s in
      s <| waltgov_disabled := false |>
  end.

Definition waltgov_stop (s : slot) : slot :=
  let s := for_each_cpu (pol_cpus (sl_pol s))
             (fun cpu s => s <| waltgov_cb_data := Z.clearbit (waltgov_cb_data s) cpu |>) s in
  s <| waltgov_disabled := true |>.

End LifeCycle.

(** ** Zones: what is written is read back, and no zone lowers a frequency *)

Section Zones.
Context {L : Type} (e : gov_env).
Implicit Types g : gov L.

(** A zone in use raises the utilisation by a factor between 1 and 100. *)
Definition zone_ok (fmax : Z) (z : waltgov_zones) : Prop :=
  util_thresh z = -1 \/ fmax <= inflate_factor z <= 100 * fmax.

Lemma zone_factor_bounds fmax util zones d :
  0 <= fmax < 2 ^ 24 -> Forall (zone_ok fmax) zones -> fmax <= d <= 100 * fmax ->
  fmax <= zone_factor util zones d <= 100 * fmax.
Proof.
  intros Hf Hz Hd. induction Hz as [|z zones Hz Hzs IH]; [done|]. cbn [zone_factor].
  destruct (Z.eqb_spec (util_thresh z) (-1)) as [|Hne]; [done|]. destruct Hz as [Hz|Hz]; [done|].
  destruct (_ <=? _); [|done]. rewrite u64_small by lia. done.
Qed.

Lemma map_util_bounds util cap g :
  let fmax := cpuinfo_max_freq (go_pol g) in
  4 <= fmax < 2 ^ 24 -> Forall (zone_ok fmax) (zone_util (go_wg g)) -> 0 <= util -> 0 < cap ->
  Z.min MAX_UTIL util * fmax / cap <= walt_map_util_freq util cap g <= Z.min MAX_UTIL util * (100 * fmax) / cap.
Proof.
  intros fmax Hf Hz Hu Hc. unfold walt_map_util_freq. fold fmax. set (u := Z.min MAX_UTIL util).
  assert (0 <= u <= 1024) by (unfold u, MAX_UTIL; lia).
  assert (fmax <= fmax + Z.shiftr fmax 2 <= 100 * fmax) as Hd.
  { rewrite Z.shiftr_div_pow2 by lia. change (2 ^ 2) with 4. pose proof (Z.div_pos fmax 4).
    pose proof (Z.mul_div_le fmax 4). lia. }
  pose proof (zone_factor_bounds fmax u (zone_util (go_wg g)) _ ltac:(lia) Hz Hd) as Hb.
  set (f := zone_factor _ _ _) in *.
  assert (fmax * u <= f * u <= 100 * fmax * u) by nia.
  assert (100 * fmax * u <= 100 * fmax * 1024) by nia.
  rewrite u64_small by lia. split; apply Z.div_le_mono; lia.
Qed.

Lemma inflate_zones_ok cap fmax pct zones :
  0 < fmax < 2 ^ 24 -> Forall (fun z => z.1 = -1 \/ 1 <= z.2 <= 100) pct -> Forall (zone_ok fmax) zones ->
  Forall (zone_ok fmax) (inflate_zones cap fmax pct zones).
Proof.
  intros Hf Hp. revert zones. induction Hp as [|[b l] pct Hl Hp IH]; intros zones Hz; [done|].
  destruct Hz as [|z zones Hz Hzs]; [done|]. cbn [inflate_zones].
  destruct (Z.eqb_spec b (-1)); [by constructor|]. constructor; [right|by apply IH].
  destruct Hl as [Hl|Hl]; cbn [fst snd] in Hl; [done|]. cbn [inflate_factor].
  rewrite u64_small by lia.
  assert (fmax <= fmax * 100 / l) by (apply Z.div_le_lower_bound; nia).
  assert (fmax * 100 / l <= fmax * 100) by (apply Z.div_le_upper_bound; nia).
  rewrite s32_small by lia. lia.
Qed.

Lemma even_length_ind (P : list Z -> Prop) :
  P [] -> (forall a b l, P l -> P (a :: b :: l)) ->
  forall l, Z.of_nat (List.length l) mod 2 = 0 -> P l.
Proof.
  intros H0 H2 l. assert (forall n (l : list Z), (List.length l <= n)%nat -> Z.of_nat (List.length l) mod 2 = 0 -> P l) as H.
  { induction n as [|n IH]; intros [|a [|b k]] Hl Hm; cbn [List.length] in *; try done; try lia.
    apply H2, IH; [lia|]. replace (Z.of_nat (S (S (List.length k)))) with (Z.of_nat (List.length k) + 1 * 2) in Hm by lia.
    by rewrite Z.mod_add in Hm. }
  by apply (H (List.length l)).
Qed.

(** The zones printed are the numbers written. *)
Lemma set_zones_pairs l rest :
  Z.of_nat (List.length l) mod 2 = 0 -> Forall (fun z => z.1 <> -1) (pairs l) ->
  match rest with [] => True | z :: _ => z.1 = -1 end -> set_zones (pairs l ++ rest) = l.
Proof.
  revert l. refine (even_length_ind _ _ _).
  - intros _ Hr. destruct rest as [|[b x] rest]; [done|]. cbn in Hr. subst b. done.
  - intros a b l IH Hp Hr. cbn [pairs] in Hp. apply Forall_cons in Hp as [Ha Hp]. cbn [pairs app set_zones].
    cbn [fst] in Ha. rewrite (proj2 (Z.eqb_neq a (-1)) Ha). by rewrite IH.
Qed.

(** A write to [zone_max_util_pct] that fits the buffer either fails with [-EINVAL] and
    changes nothing, or it succeeds; then reading the file gives back the numbers written
    (bounds other than -1), and the frequency mapped from any utilisation is at least
    the one the utilisation needs and at most a hundred times that: no zone that can be
    set slows the policy down. *)
Theorem zone_store_spec k buf count init g g' b r :
  let fmax := cpuinfo_max_freq (go_pol g) in
  4 <= fmax < 2 ^ 24 ->
  zone_max_util_pct_store e k buf count init g = Some (g', b, r) ->
  (r = - EINVAL /\ g' = g /\ b = init) \/
  (r = count /\ b = true /\ exists temp, parse_fields k (strsep_fields buf EmptyString) [] = Some temp /\
     (Forall (fun z => z.1 <> -1) (pairs temp) -> zone_max_util_pct_show b g' = temp) /\
     forall util cap, 0 <= util -> 0 < cap ->
       Z.min MAX_UTIL util * fmax / cap <= walt_map_util_freq util cap g' <= Z.min MAX_UTIL util * (100 * fmax) / cap).
Proof.
  intros fmax Hf. unfold zone_max_util_pct_store. destruct (STR_SIZE <? _); [done|].
  destruct (parse_fields k _ []) as [temp|] eqn:Ep; [|intros [= <- <- <-]; by left].
  destruct (Z.eqb_spec (Z.of_nat (List.length temp) mod 2) 0) as [He|He]; cbn [negb]; [|intros [= <- <- <-]; by left].
  destruct (forallb _ (pairs temp)) eqn:Ea; cbn [negb]; [|intros [= <- <- <-]; by left].
  match goal with |- Some (?x, _, _) = _ -> _ => set (gf := x) end.
  intros [= <- <- <-]. right. split; [done|]. split; [done|]. exists temp. split; [done|]. split.
  - intros Hb. change (set_zones (overwrite (pairs temp) (replicate (Z.to_nat MAX_ZONES) unset_zone)) = temp).
    unfold overwrite. apply set_zones_pairs; [done|done|].
    rewrite drop_replicate. by destruct (_ - _)%nat.
  - intros util cap Hu Hc. refine (map_util_bounds util cap gf Hf _ Hu Hc).
    assert (Forall (zone_ok fmax) (replicate (Z.to_nat MAX_ZONES) (mk_zone (-1) (-1)))) as Hz.
    { apply Forall_replicate. by left. }
    refine (inflate_zones_ok _ fmax _ _ _ _ Hz); [lia|]. apply Forall_app. split.
    + apply Forall_forall. intros z Hz'. right. rewrite forallb_forall in Ea. specialize (Ea z (proj1 (list_elem_of_In _ _) Hz')). lia.
    + apply Forall_drop, Forall_replicate. by left.
Qed.

End Zones.

(** ** Rate limits in the tunables and in the policy *)

Section RateTunables.
Context {L : Type} (e : gov_env).
Implicit Types g : gov L.

(** The delays are those of the tunables, and the first check uses the smaller. *)
Definition rates_in_sync (w : waltgov_policy) (t : waltgov_tunables) : Prop :=
  up_rate_delay_ns w = up_rate_limit_us t * NSEC_PER_USEC /\
  down_rate_delay_ns w = down_rate_limit_us t * NSEC_PER_USEC /\
  min_rate_limit_ns w = Z.min (up_rate_delay_ns w) (down_rate_delay_ns w).

Lemma stores_keep_rates val count g :
  rates_in_sync (go_wg g) (go_tun g) ->
  let up := (up_rate_limit_us_store val count g).1 in
  let down := (down_rate_limit_us_store val count g).1 in
  rates_in_sync (go_wg up) (go_tun up) /\ rates_in_sync (go_wg down) (go_tun down).
Proof. intros (H1 & H2 & H3). destruct val as [v|]; by split. Qed.

(** A callback that the first check turns away would have been held back by the rate
    limit of either direction. *)
Lemma first_check_is_safe time freq w t :
  rates_in_sync w t -> ge_frame_boost e = false -> freq <> next_freq w ->
  s64 (time - last_freq_update_time w) < min_rate_limit_ns w -> waltgov_up_down_rate_limit e time freq w = true.
Proof.
  intros (_ & _ & Hm) Hfb Hne Hlt. apply rate_limit_iff; [done|]. lia.
Qed.

(** ** The adaptive frequencies of the kernel *)

(** The kernel interface for adaptive frequencies. A call on a disabled scheduler or an
    impossible CPU fails with its error number, an order of the three levels that is not
    increasing or leaves the limits of the policy with [-EINVAL], and all of them leave the
    policy alone. A call that succeeds is read back as the larger of the level of the
    kernel and that of user space, with the lowest level defaulting to the middle one,
    and a reset gives back the levels of user space. *)
Theorem adaptive_freq_spec disabled possible level_1 low high g g' r :
  0 <= adaptive_level_1 (go_tun g) -> 0 <= adaptive_low_freq (go_tun g) -> 0 <= adaptive_high_freq (go_tun g) ->
  cpufreq_walt_set_adaptive_freq disabled possible level_1 low high g = (g', r) ->
  let first := if negb (low =? 0) && (level_1 =? 0) then low else level_1 in
  let t := go_tun g in
  let allowed := pol_min (go_pol g) <= first <= low /\ low <= high <= pol_max (go_pol g) in
  (r <> 0 -> g' = g) /\
  (r = - EAGAIN <-> disabled = true) /\
  (r = - EFAULT <-> disabled = false /\ possible = false) /\
  (r = - EINVAL <-> disabled = false /\ possible = true /\ ~ allowed) /\
  (r = 0 -> allowed /\
     cpufreq_walt_get_adaptive_freq false true true g' =
       (Some (Z.max (adaptive_level_1 t) first, Z.max (adaptive_low_freq t) low, Z.max (adaptive_high_freq t) high), 0) /\
     cpufreq_walt_get_adaptive_freq false true true (cpufreq_walt_reset_adaptive_freq false true g').1 =
       (Some (adaptive_level_1 t, adaptive_low_freq t, adaptive_high_freq t), 0)).
Proof.
  intros H1 H2 H3. unfold cpufreq_walt_set_adaptive_freq, EAGAIN, EFAULT, EINVAL.
  assert (forall P Q R S T : Prop, P -> Q -> R -> S -> T -> P /\ Q /\ R /\ S /\ T) as conj5 by tauto.
  destruct disabled; [intros [= <- <-]; cbv zeta; apply conj5; [done|done|split; [lia|by intros []]|split; [lia|by intros []]|lia]|].
  destruct possible; cbn [negb].
  2: { intros [= <- <-]; cbv zeta; apply conj5; [done|split; [lia|done]|done|split; [lia|by intros (_ & ? & _)]|lia]. }
  set (first := if negb (low =? 0) && (level_1 =? 0) then low else level_1).
  destruct ((pol_min (go_pol g) <=? first) && (high <=? pol_max (go_pol g)) && (first <=? low) && (low <=? high)) eqn:E;
    intros [= <- <-]; cbv zeta; apply conj5.
  - done.
  - split; [lia|done].
  - split; [lia|by intros [_ ?]].
  - split; [lia|]. intros (_ & _ & Hn). exfalso. apply Hn. lia.
  - intros _. split; [lia|]. split; [reflexivity|].
    unfold cpufreq_walt_get_adaptive_freq, cpufreq_walt_reset_adaptive_freq.
    unfold get_adaptive_level_1, get_adaptive_low_freq, get_adaptive_high_freq. cbn. by rewrite !Z.max_l by lia.
  - done.
  - split; [lia|done].
  - split; [lia|by intros [_ ?]].
  - split; [intros _|done]. split; [done|]. split; [done|]. intros Ha. lia.
  - lia.
Qed.

End RateTunables.

(** ** Restarting the governor *)

Lemma copy_tunables_id t t' : copy_tunables t t' = t.
Proof. by destruct t, t'. Qed.

(** The zones of a policy are those its tunables ask for. *)
Definition zones_in_sync (e : gov_env) (pol : cpufreq_policy) (w : waltgov_policy) (t : waltgov_tunables) : Prop :=
  zone_util w = inflate_zones (arch_scale_cpu_capacity (ge_cfg e) (pol_cpu pol)) (cpuinfo_max_freq pol)
                  (zone_util_pct t) (replicate (Z.to_nat MAX_ZONES) (mk_zone (-1) (-1))).

Lemma start_policy_cpus mask s f :
  (forall cpu t, governor_data (f cpu t) = governor_data t) ->
  governor_data (for_each_cpu mask f s) = governor_data s.
Proof.
  intros Hf. apply (for_each_cpu_inv (fun t => governor_data t = governor_data s)); [done|].
  intros c t _ _ Ht. by rewrite Hf.
Qed.

Lemma data_enable s b : governor_data (s <| waltgov_disabled := b |>) = governor_data s.
Proof. reflexivity. Qed.

Lemma start_data e w t s :
  governor_data s = Some (w, t) -> governor_data (waltgov_start e s) = Some (started e t w, t).
Proof.
  intros Hd. unfold waltgov_start. rewrite Hd. rewrite data_enable, !start_policy_cpus by done. reflexivity.
Qed.

(** Tunables survive the governor. When the governor of a policy exits, is initialised
    again without an error and started, the policy has the tunables it had, with the
    zones and the rate limits that belong to them and without a remembered request, so
    that the theorems on runs apply to it. *)
Theorem restart_keeps_tunables e w t s a :
  governor_data s = Some (w, t) -> zones_in_sync e (sl_pol s) w t ->
  let s1 := waltgov_exit true s in
  (waltgov_init e a s1).2 = 0 ->
  exists w', governor_data (waltgov_start e (waltgov_init e a s1).1) = Some (w', t) /\
    zone_util w' = zone_util w /\ rates_in_sync w' t /\
    cached_raw_freq w' = 0 /\ next_freq w' = 0 /\ last_freq_update_time w' = 0 /\
    limits_changed w' = false /\ need_freq_update w' = false /\ thermal_isolated w' = false.
Proof.
  intros Hd Hz s1 Hi.
  assert (governor_data s1 = None /\ cached_tunables s1 = Some t /\
          pol_cpu (sl_pol s1) = pol_cpu (sl_pol s) /\ cpuinfo_max_freq (sl_pol s1) = cpuinfo_max_freq (sl_pol s))
    as (E1 & E2 & E3 & E4).
  { unfold s1, waltgov_exit, waltgov_tunables_save. rewrite Hd. cbn [cached_tunables governor_data set].
    destruct (cached_tunables s) eqn:Ec; cbn; rewrite ?Ec; cbn; by rewrite copy_tunables_id. }
  assert (exists w0, governor_data (waltgov_init e a s1).1 = Some (w0, t) /\ zone_util w0 = zone_util w /\
    thermal_isolated w0 = false) as (w0 & Hw0 & Hz0 & Ht0).
  { revert Hi. unfold waltgov_init. rewrite E1. unfold ENOMEM. destruct (ia_policy_alloc a); cbn [negb snd]; [|done].
    destruct (Z.eqb_spec (if ia_fast_switch a then 0 else ia_kthread a) 0) as [Hk|Hk]; cbn [negb snd]; [|done].
    destruct (ia_tunables_alloc a); cbn [negb snd]; [|done].
    destruct (Z.eqb_spec (ia_kobject a) 0) as [Hq|Hq]; cbn [negb snd]; [|done]. intros _.
    cbn [fst]. rewrite E2. unfold waltgov_tunables_restore. rewrite copy_tunables_id. eexists. split; [reflexivity|].
    split; [|done]. unfold zones_in_sync in Hz. rewrite Hz, <- E3, <- E4. reflexivity. }
  exists (started e t w0). split; [by apply start_data|].
  unfold started, rates_in_sync. destruct (ge_frame_boost e); split_and!; try exact Hz0; try exact Ht0; reflexivity.
Qed.

(** ** Concrete runs *)

(** Decimal digits, as [kstrtouint] reads them (without the sign and newline it allows). *)
Fixpoint demo_digits (s : string) (acc : Z) : option Z :=
  match s with
  | EmptyString => Some acc
  | String c s =>
      let d := Z.of_nat (nat_of_ascii c) - 48 in
      if (0 <=? d) && (d <=? 9) then demo_digits s (acc * 10 + d) else None
  end.
Definition demo_kstrtouint (s : string) : option Z :=
  match s with EmptyString => None | _ => demo_digits s 0 end.

Lemma zone_store_spec_witness :
  exists g' b r,
    zone_max_util_pct_store (demo_genv clamp_resolve) demo_kstrtouint "1000000 90 3000000 50" 21 false (demo_gov 2500000 0)
      = Some (g', b, r) /\ r = 21 /\ b = true /\
    zone_max_util_pct_show b g' = [1000000; 90; 3000000; 50] /\
    300 * 3000000 / 1024 <= walt_map_util_freq 300 1024 g' <= 300 * 300000000 / 1024.
Proof.
  destruct (zone_max_util_pct_store (demo_genv clamp_resolve) demo_kstrtouint "1000000 90 3000000 50" 21 false
    (demo_gov 2500000 0)) as [[[g' b] r]|] eqn:E; [|discriminate E].
  assert (4 <= cpuinfo_max_freq (go_pol (demo_gov 2500000 0)) < 2 ^ 24) as Hf by (vm_compute; done).
  pose proof (zone_store_spec (demo_genv clamp_resolve) demo_kstrtouint _ 21 false (demo_gov 2500000 0) g' b r Hf E) as Hs.
  assert (r = 21) as Hr by (vm_compute in E; by injection E as _ _ <-).
  exists g', b, r. split; [done|]. destruct Hs as [(Hs & _)|(_ & Hb & temp & Ht & Hshow & Hmap)].
  { exfalso. rewrite Hr in Hs. discriminate Hs. }
  assert (temp = [1000000; 90; 3000000; 50]) as -> by (vm_compute in Ht; by injection Ht as <-).
  split; [done|]. split; [done|]. split.
  - apply Hshow. cbn [pairs]. repeat constructor; cbn; lia.
  - apply (Hmap 300 1024); lia.
Defined.

Lemma adaptive_freq_spec_witness :
  cpufreq_walt_get_adaptive_freq false true true
    (cpufreq_walt_set_adaptive_freq false true 0 1200000 2000000 (demo_gov 2500000 0)).1 =
    (Some (1200000, 1200000, 2000000), 0) /\
  (cpufreq_walt_set_adaptive_freq false true 0 1200000 2600000 (demo_gov 2500000 0)).2 = - EINVAL.
Proof.
  destruct (cpufreq_walt_set_adaptive_freq false true 0 1200000 2000000 (demo_gov 2500000 0)) as [g1 r1] eqn:E1.
  destruct (cpufreq_walt_set_adaptive_freq false true 0 1200000 2600000 (demo_gov 2500000 0)) as [g2 r2] eqn:E2.
  split.
  - destruct (adaptive_freq_spec false true 0 1200000 2000000 (demo_gov 2500000 0) g1 r1 (Z.le_refl 0) (Z.le_refl 0)
      (Z.le_refl 0) E1) as (_ & _ & _ & _ & H). apply H. vm_compute in E1. by injection E1 as _ <-.
  - destruct (adaptive_freq_spec false true 0 1200000 2600000 (demo_gov 2500000 0) g2 r2 (Z.le_refl 0) (Z.le_refl 0)
      (Z.le_refl 0) E2) as (_ & _ & _ & H & _). cbn [snd]. apply H. split; [done|]. split; [done|].
    intros [_ Hx]. vm_compute in Hx. destruct Hx as [_ Hx]. by apply Hx.
Defined.

Definition demo_slot : slot :=
  let t := (default_tunables false true) <| up_rate_limit_us := 500 |> <| hispeed_cond_freq := 1500000 |> in
  mk_slot (demo_pol 2500000)
    (Some (default_policy <| next_freq := 1000000 |> <| cached_raw_freq := 900000 |> <| hispeed_cond_util := 512 |>, t))
    None (replicate 8 no_wgc) 16 false.
Definition demo_answers : init_answers := mk_init true true 0 true 0 false true.

Lemma restart_keeps_tunables_witness :
  exists w', governor_data (waltgov_start (demo_genv clamp_resolve)
      (waltgov_init (demo_genv clamp_resolve) demo_answers (waltgov_exit true demo_slot)).1) =
      Some (w', (default_tunables false true) <| up_rate_limit_us := 500 |> <| hispeed_cond_freq := 1500000 |>) /\
    up_rate_delay_ns w' = 500000 /\ cached_raw_freq w' = 0.
Proof.
  destruct (restart_keeps_tunables (demo_genv clamp_resolve) _ _ demo_slot demo_answers eq_refl eq_refl eq_refl)
    as (w' & H1 & _ & H2 & H3 & _).
  exists w'. split; [exact H1|]. split; [|exact H3]. destruct H2 as (H2 & _). rewrite H2. reflexivity.
Defined.

(** ** Defects *)

(** The frequency from which high speed applies is restored with the tunables, but not the
    utilisation derived from it that the policy compares with: after a restart it is 0
    until the file is written again. *)
Lemma restart_loses_hispeed_condition e w t s a :
  governor_data s = Some (w, t) ->
  (waltgov_init e a (waltgov_exit true s)).2 = 0 ->
  match governor_data (waltgov_init e a (waltgov_exit true s)).1 with
  | Some (w', _) => hispeed_cond_util w' = 0
  | None => False
  end.
Proof.
  intros Hd. assert (governor_data (waltgov_exit true s) = None) as E1.
  { unfold waltgov_exit, waltgov_tunables_save. rewrite Hd. cbn [cached_tunables set]. by destruct (cached_tunables s). }
  unfold waltgov_init. rewrite E1. destruct (ia_policy_alloc a); cbn [negb snd]; [|done].
  destruct (Z.eqb_spec (if ia_fast_switch a then 0 else ia_kthread a) 0); cbn [negb snd]; [|done].
  destruct (ia_tunables_alloc a); cbn [negb snd]; [|done].
  destruct (Z.eqb_spec (ia_kobject a) 0); cbn [negb snd]; [|done]. intros _. cbn [fst governor_data set].
  unfold waltgov_tunables_restore. by destruct (cached_tunables _).
Qed.

(** A write of 1024 characters or more to [zone_max_util_pct] runs over the stack buffer:
    the copy is bounded by the length of the source, not by the size of the buffer. *)
Lemma zone_store_overruns {L} e k buf count init (g : gov L) :
  STR_SIZE <= Z.of_nat (String.length buf) -> zone_max_util_pct_store e k buf count init g = None.
Proof.
  intros H. unfold zone_max_util_pct_store. by rewrite (proj2 (Z.ltb_lt STR_SIZE _)) by lia.
Qed.

End Tunables.
